(* ===== verification/_CoqProject ===== *)
-Q . S2P
Prelude.v
Config.v
Address.v
BitField.v
Memory.v
FrameAlloc.v
FrameSpec.v
Pte.v
PageTable.v
BTree.v
Errno.v
Area.v
AreaTree.v
AreaMap.v
UserMem.v
UserCopy.v
UserBuf.v
Shm.v
Auxv.v
MemorySet.v
Munmap.v
PageFault.v
Protect.v
Timer.v
Sched.v
Exec.v
ExecInv.v
Sync.v
Sleep.v
Pipe.v
PipeSpec.v
Socket.v
SocketSpec.v
Ids.v
FdTable.v
Path.v
MmapSys.v
VmSpec.v
Futex.v
Signals.v
Kill.v
ShmSys.v
Mount.v
Robust.v
UserStack.v
Process.v
Clone.v
ProcTree.v
ProcWait.v
Start.v
Trap.v
TrapSpec.v
FdSys.v
Select.v
Ppoll.v
FileIO.v
FileSpec.v
Stat.v
FileCache.v
Ext4Ops.v
Ext4Spec.v
Dev.v
Open.v
Disk.v
OpenSpec.v
PathSys.v
PathSpec.v
BootFiles.v
PathCases.v
Calls.v
Dispatch.v
CallsSpec.v
Execve.v
ExecveSpec.v
Descr.v
Boot.v
