(* ===== verification/Prelude.v ===== *)
(** * Verification of the 2024a-rcore kernel

    The program is a monolithic kernel in Rust for riscv64 and loongarch64
    (src/os/src).  System calls are asynchronous functions: a thread is a
    future that one executor per CPU polls, and every wait (for a child, a
    pipe, a futex, a timer, a mutex) is a future that leaves a waker behind.
    This library models the parts of it that carry state, and proves what
    they promise.  This file is the shared vocabulary: panics, machine
    integers, the state monad, and the lemmas on lists and bits.

    ** Conventions

    The configuration is loongarch64 in the dev profile: arithmetic is
    checked, so that an overflow, like a failed assertion, an [unwrap] of
    [None] or an index out of range, is a [Panic].  A function that can panic
    returns an [outcome]; a function with state is in the monad [ST]; a
    fallible one returns a [result].  An integer of width w is a [Z], and
    wrapping is written out.  References ([Arc], wakers, nodes) are addresses,
    so that sharing is visible; the address of a new object is an argument of
    the function that allocates it.  Time, the contents of uninitialised
    memory and the objects behind trait objects are arguments too.  Log output
    has no counterpart.  A spin lock is free when it is taken, and so is an
    asynchronous lock outside Sync.v.

    ** Memory

    - Config, Address, BitField, Memory: constants (config.rs), addresses and
      page ranges (mm/address.rs), the bit operations of the vendored
      bit_field crate, physical memory.
    - FrameAlloc, FrameSpec: the frame allocator (mm/frame_allocator.rs) is a
      set of free frames; an allocated frame is fresh and cleared, a
      contiguous allocation succeeds exactly when there is a run of free
      frames, a dropped frame is free again.
    - Pte, PageTable: entries (mm/arch/) and page tables (mm/page_table.rs).
      [map] changes the translation of one page, [unmap] undoes it, the tables
      stay a tree of live frames.
    - BTree, Area, AreaTree, AreaMap: ordered maps; the areas of an address
      space (mm/area.rs), their searches, splitting and mapping.
    - UserMem, UserCopy, UserBuf: access to user memory (mm/page_table.rs):
      copies across pages round-trip and touch nothing else.
    - Shm, MemorySet, Munmap, PageFault, Protect, ShmSys: shared segments
      (mm/shm.rs, syscall/mm.rs), address spaces (mm/memory_set.rs), what
      [munmap], [mprotect] and the page-fault handler do to areas, tables and
      frames.
    - MmapSys, VmSpec: the system calls on an address space refine a map from
      pages to what is mapped there.

    ** Tasks and synchronisation

    - Timer, Sched, Exec, ExecInv: clock values (timer.rs), the fair scheduler
      (task/schedule.rs), the executor with its wakers (task/processor.rs,
      current.rs, waker.rs, future.rs).  The step relation of ExecInv allows
      every interleaving of the operations of a poll; the invariant ties the
      state of a task to the queue it is in, and a wake-up between the check
      and the suspension is not lost.
    - Sync, Sleep, Futex: wait queues and the mutex (sync/), sleeping tasks
      (task/sleeplist.rs), futexes (sync/futex.rs and [sys_futex]).  Sleepers
      and futex waiters are woken, in order, exactly when they should be; a
      waiter of the mutex is never woken.
    - Signals, Kill, Robust: delivery and return of signals (signal/), sending
      and interval timers, the end of a thread.
    - Ids, Process, Clone, ProcTree, ProcWait: pids and kernel stacks, exit,
      wait, clone and brk (task/mod.rs, task/task.rs, syscall/process.rs) over
      one state [kern] that puts the components together.  ProcTree is the
      abstract tree of processes and the refinement of every handler to it; a
      clone with CLONE_PARENT names a parent that does not list it, so that the
      invariant has a strict form, for runs without such clones, and a weaker
      one.  ProcWait follows a wait across the executor until the child is
      reaped.

    - Auxv, UserStack, Start: the auxiliary vector, the stack of a new program,
      [exec] and [ProcessControlBlock::new] (task/auxv.rs, task/task.rs).  The
      start-up code of a program reads back from its stack the arguments, the
      environment and the vector.
    - Trap, TrapSpec: the handler of a trap from user mode (trap/mod.rs) on one
      state of processes, memory, signals, sleepers and timers.

    ** Files

    - Errno, Path, Mount: error numbers, path normalisation (utils/string.rs,
      the two routines agree), the mount table (fs/mount.rs, fs/vfs/mod.rs).
    - Pipe, PipeSpec, Socket, SocketSpec: a pipe (fs/pipe.rs) is a bounded queue
      of bytes, a pair of sockets (fs/net) is two of them; polls of read and
      write refine the operations of the queue, and wake exactly the threads
      that wait for what they did.
    - FdTable, FdSys: tables of descriptors (task/fdmanage.rs, fs/fd.rs) and
      [close], [dup], [dup3], [fcntl], [pipe2].  A descriptor that leaves a
      table is returned, and its drop runs in the dispatcher.
    - Select, Ppoll: [pselect6], [poll] and [ppoll] (fs/select.rs, fs/poll.rs):
      what is reported, and what happens to the timer and the signal mask.
    - FileIO, FileSpec: the cursor of an open file (fs/inode.rs) and [read],
      [write], [lseek], [pread64], [pwrite64], [readv], [writev] and
      [sendfile], over classes for the nodes of a file system and for other
      files; the laws of regular files, an instance of them, and what the
      operations do to contents and cursors.  OpenSpec shows that the nodes of
      ext4 keep these laws.
    - Stat, FileCache, Ext4Ops, Ext4Spec: metadata (fs/stat.rs), the cache of
      file contents and the nodes of fs/ext4 over the C library lwext4, a
      class; the cache is not visible in what is read, as long as the C library
      accepts the writes: the laws say when it does (a disk without errors,
      mounted for writing, with room for the lengths that files get).
    - Disk: the set of block devices, the disk with its cursor and the callbacks
      that the C library gets (drivers, lwext4_rust) are an array of sectors.
    - Dev, Open, OpenSpec, BootFiles: device files and the console (fs/dev.rs,
      fs/stdio.rs), opening by path (fs/mod.rs), the files made at boot.
    - PathSys, PathSpec, PathCases: the system calls that name files.

    ** The system

    - Calls, Dispatch, CallsSpec: the system calls on identity, limits, clocks
      and information; the table of system calls with the casts of its
      arguments (syscall/mod.rs).  Decoding what a program encodes gives the
      call back, and a call that concerns its caller changes nothing else.
      What the drop of a file does ([close], [dup3]) is an argument here.
    - Execve, ExecveSpec: [sys_execve] over kernel and files together, from the
      strings in the memory of the caller to the stack of the new program.
    - Descr: when every descriptor of every process refers to an object that
      exists, which Boot shows of the state with the first process.
    - Boot: the statics that are set once (lazy_init), the first process, and
      [main], which does not get to the executor; [mount] and [umount2].

    ** Fuel

    Loops that are not structural have fuel, and running out of it is a value
    of its own or a panic that the theorems exclude: one more than the bytes
    to copy (UserMem), the pages of a range plus three (translated buffers),
    the length of the string (Path), twice the pending signals plus one
    (Signals), the count (sendfile), one round per wake-up (wait), 20 digits of
    a 64-bit number, one more than the depth of symbolic links.  The length of a
    string in user memory ([str_bound]), of a vector of arguments and of a file
    that is executed ([args_fuel], [read_fuel]) have no bound in the source:
    the theorems quantify over the fuel, and those on success say that it
    suffices.  The same holds for the walk of the robust list.

    ** Not modelled

    - The C library behind lwext4_rust, the virtio crate and the parser of ELF
      files: classes or arguments, with the laws that a theorem uses.
    - Drivers, interrupt and trap entry, context switching and start-up before
      the file system (drivers/virtio, devices, arch, trap assembly, polyhal,
      polyhal-boot, polyhal-trap, the riscv crate, kernel_guard, sbi.rs):
      register and device access.
    - The kernel's own address space, TLB flushes and the page-table register.
    - Console output, logging, the panic handler and the heap allocator:
      allocation of kernel objects succeeds. *)

From Stdlib Require Export ZArith Lia Bool Btauto.
From Hammer Require Export Tactics.
From stdpp Require Export base gmap list option.

#[global] Open Scope Z_scope.

(** [lia] reads division and remainder by constants. *)
Ltac Zify.zify_post_hook ::= Z.div_mod_to_equations.

(** ** Panics

    The kernel is built with [panic = "abort"] and, in the dev profile that
    os/Makefile selects, with overflow checks: an assertion, an [unwrap] of
    [None], an out-of-range index and an arithmetic overflow all stop the
    machine.  A Rust expression that can panic is a value of [outcome]. *)

Inductive outcome (A : Type) : Type :=
| Ret (a : A)
| Panic.

Arguments Ret {A} a.
Arguments Panic {A}.

#[export] Instance outcome_ret : MRet outcome := fun A a => Ret a.
#[export] Instance outcome_bind : MBind outcome :=
  fun A B f m => match m with Ret a => f a | Panic => Panic end.
#[export] Instance outcome_fmap : FMap outcome :=
  fun A B f m => match m with Ret a => Ret (f a) | Panic => Panic end.

(** [assert!(b)] and [Option::unwrap]. *)

Definition rassert (b : bool) : outcome unit :=
  if b then Ret tt else Panic.

Definition unwrap {A} (o : option A) : outcome A :=
  match o with Some a => Ret a | None => Panic end.

(** Rust's [Result]. *)

Inductive result (A E : Type) : Type :=
| Ok (a : A)
| Err (e : E).

Arguments Ok {A E} a.
Arguments Err {A E} e.

Definition result_unwrap {A E} (r : result A E) : outcome A :=
  match r with Ok a => Ret a | Err _ => Panic end.

(** ** State with panics

    Code that works on kernel globals threads a state [S] and may panic. *)

Definition ST (S A : Type) : Type := S -> outcome (A * S).

#[export] Instance ST_ret S : MRet (ST S) := fun A a s => Ret (a, s).
#[export] Instance ST_bind S : MBind (ST S) :=
  fun A B f m s => match m s with Ret (a, s') => f a s' | Panic => Panic end.

Definition st_lift {S A} (o : outcome A) : ST S A :=
  fun s => match o with Ret a => Ret (a, s) | Panic => Panic end.
Definition st_get {S} : ST S S := fun s => Ret (s, s).
Definition st_put {S} (s : S) : ST S unit := fun _ => Ret (tt, s).
Definition st_gets {S A} (f : S -> A) : ST S A := fun s => Ret (f s, s).
Definition st_modify {S} (f : S -> S) : ST S unit := fun s => Ret (tt, f s).
Definition st_panic {S A} : ST S A := fun _ => Panic.

(** The [?] operator: continue with the value of [Ok], return [Err]. *)

Definition st_try {S A B E} (f : A -> ST S (result B E))
    (m : ST S (result A E)) : ST S (result B E) :=
  fun s => match m s with
           | Ret (Ok a, s') => f a s'
           | Ret (Err e, s') => Ret (Err e, s')
           | Panic => Panic
           end.

Notation "x <-? e ; k" := (st_try (fun x => k) e)
  (at level 20, e at level 100, k at level 200, only parsing) : stdpp_scope.
Notation "' x <-? e ; k" := (st_try (fun x => k) e)
  (at level 20, x pattern, e at level 100, k at level 200, only parsing) : stdpp_scope.

(** A [for] loop over a list in the state monad. *)

Fixpoint st_iter {S A} (f : A -> ST S unit) (l : list A) : ST S unit :=
  match l with
  | [] => mret tt
  | a :: l' => _ ← f a; st_iter f l'
  end.

(** A [for] loop whose body can leave the function with an error. *)

Fixpoint st_iter_try {S A E} (f : A -> ST S (result unit E)) (l : list A)
    : ST S (result unit E) :=
  match l with
  | [] => mret (Ok tt)
  | a :: l' => _ <-? f a; st_iter_try f l'
  end.

Lemma bind_Ret {A B} (m : outcome A) (f : A -> outcome B) b :
  (m ≫= f) = Ret b <-> exists a, m = Ret a /\ f a = Ret b.
Proof.
  destruct m; cbn; split; [by eauto | intros (? & [= ->] & ?); done
    | done | intros (? & ? & ?); done].
Qed.

Lemma st_bind_Ret {S A B} (m : ST S A) (f : A -> ST S B) s b s' :
  (m ≫= f) s = Ret (b, s') <->
  exists a s1, m s = Ret (a, s1) /\ f a s1 = Ret (b, s').
Proof.
  unfold mbind, ST_bind. destruct (m s) as [[a s1]|]; split; [by eauto
    | intros (? & ? & [= -> ->] & ?); done | done | intros (? & ? & ? & ?); done].
Qed.

(** Running one step. *)
Lemma st_run {S A B} (m : ST S A) (f : A -> ST S B) s a s1 :
  m s = Ret (a, s1) -> (m ≫= f) s = f a s1.
Proof. unfold mbind, ST_bind. by intros ->. Qed.

Lemma st_try_run {S A B E} (m : ST S (result A E)) (f : A -> ST S (result B E)) s a s1 :
  m s = Ret (Ok a, s1) -> st_try f m s = f a s1.
Proof. intros H. unfold st_try, mbind, ST_bind. by rewrite H. Qed.

Lemma st_iter_app {S A} (f : A -> ST S unit) l1 l2 s :
  st_iter f (l1 ++ l2) s = (_ ← st_iter f l1; st_iter f l2) s.
Proof.
  revert s. induction l1 as [|a l1 IH]; intros s; [reflexivity|].
  cbn. unfold mbind, ST_bind. destruct (f a s) as [[u s1]|]; [apply IH|done].
Qed.

(** ** Machine integers

    [usize], [u64], [isize] values are integers of [Z]; each operation writes
    out its width.  With overflow checks on, [+], [-] and [*] panic when the
    result does not fit, [<<] drops the bits shifted out. *)

Definition u64_bound : Z := 2 ^ 64.
Definition is_u64 (z : Z) : Prop := 0 <= z < u64_bound.

Definition uadd (a b : Z) : outcome Z :=
  if a + b <? u64_bound then Ret (a + b) else Panic.
Definition usub (a b : Z) : outcome Z :=
  if b <=? a then Ret (a - b) else Panic.
Definition umul (a b : Z) : outcome Z :=
  if a * b <? u64_bound then Ret (a * b) else Panic.
Definition udiv (a b : Z) : outcome Z :=
  if b =? 0 then Panic else Ret (a / b).
Definition urem (a b : Z) : outcome Z :=
  if b =? 0 then Panic else Ret (a mod b).

Definition wrap64 (z : Z) : Z := z mod 2 ^ 64.
Definition shl64 (a n : Z) : Z := wrap64 (Z.shiftl a n).
Definition not64 (a : Z) : Z := Z.ldiff (Z.ones 64) a.

Definition isize_min : Z := - 2 ^ 63.
Definition isize_max : Z := 2 ^ 63 - 1.
Definition in_isize (z : Z) : bool := (isize_min <=? z) && (z <=? isize_max).
Definition ichk (z : Z) : outcome Z := if in_isize z then Ret z else Panic.
Definition wrap_isize (z : Z) : Z := (z + 2 ^ 63) mod 2 ^ 64 - 2 ^ 63.

Lemma uadd_Ret a b : a + b < u64_bound -> uadd a b = Ret (a + b).
Proof. intros H. unfold uadd. destruct (Z.ltb_spec (a + b) u64_bound); [done|lia]. Qed.

Lemma usub_Ret a b : b <= a -> usub a b = Ret (a - b).
Proof. intros H. unfold usub. destruct (Z.leb_spec b a); [done|lia]. Qed.

Lemma umul_Ret a b : a * b < u64_bound -> umul a b = Ret (a * b).
Proof. intros H. unfold umul. destruct (Z.ltb_spec (a * b) u64_bound); [done|lia]. Qed.

Lemma uadd_inv a b c : uadd a b = Ret c -> c = a + b /\ a + b < u64_bound.
Proof. unfold uadd. destruct (Z.ltb_spec (a + b) u64_bound); naive_solver. Qed.

Lemma usub_inv a b c : usub a b = Ret c -> c = a - b /\ b <= a.
Proof. unfold usub. destruct (Z.leb_spec b a); naive_solver. Qed.

Lemma umul_inv a b c : umul a b = Ret c -> c = a * b /\ a * b < u64_bound.
Proof. unfold umul. destruct (Z.ltb_spec (a * b) u64_bound); naive_solver. Qed.

(** ** Bits

    Equalities between expressions of [land], [lor], [ldiff], shifts and
    powers of two are proved by comparing every bit: the database [zbits]
    pushes [Z.testbit] to the leaves, the comparisons of bit numbers that
    remain are decided by cases. *)

Create Rewrite HintDb zbits.

Lemma testbit_ones_nonneg n i : 0 <= n -> 0 <= i -> Z.testbit (Z.ones n) i = (i <? n).
Proof. intros. apply Z.testbit_ones_nonneg; lia. Qed.

Lemma testbit_pow2 n i : 0 <= n -> Z.testbit (2 ^ n) i = (n =? i).
Proof. intros. apply Z.pow2_bits_eqb; lia. Qed.

Lemma testbit_mod_pow2 a n i : 0 <= n -> 0 <= i ->
  Z.testbit (a mod 2 ^ n) i = (i <? n) && Z.testbit a i.
Proof.
  intros. destruct (Z.ltb_spec i n).
  - rewrite Z.mod_pow2_bits_low by lia. done.
  - rewrite Z.mod_pow2_bits_high by lia. done.
Qed.

Lemma testbit_wrap64 a i : 0 <= i ->
  Z.testbit (wrap64 a) i = (i <? 64) && Z.testbit a i.
Proof. intros. apply testbit_mod_pow2; lia. Qed.

Lemma testbit_not64 a i : 0 <= i ->
  Z.testbit (not64 a) i = (i <? 64) && negb (Z.testbit a i).
Proof.
  intros. unfold not64. rewrite Z.ldiff_spec, testbit_ones_nonneg by lia. done.
Qed.

Lemma testbit_shiftl a n i : 0 <= i ->
  Z.testbit (Z.shiftl a n) i = Z.testbit a (i - n).
Proof. intros. apply Z.shiftl_spec. lia. Qed.

Lemma testbit_shiftr a n i : 0 <= i ->
  Z.testbit (Z.shiftr a n) i = Z.testbit a (i + n).
Proof. intros. apply Z.shiftr_spec. lia. Qed.

Lemma testbit_above a n i : 0 <= a < 2 ^ n -> n <= i -> Z.testbit a i = false.
Proof.
  intros [H1 H2] H. destruct (decide (a = 0)) as [->|]; [apply Z.bits_0|].
  apply Z.bits_above_log2; [lia|].
  apply Z.log2_lt_pow2 in H2; lia.
Qed.

#[export] Hint Rewrite Z.land_spec Z.lor_spec Z.ldiff_spec Z.lxor_spec Z.bits_0 : zbits.
#[export] Hint Rewrite testbit_ones_nonneg testbit_pow2 testbit_mod_pow2
  testbit_wrap64 testbit_not64 testbit_shiftl testbit_shiftr using lia : zbits.

(** A conjunction with [Z.ones n] selects the low [n] bits. *)

Lemma land_ones_mod a n : 0 <= n -> Z.land a (Z.ones n) = a mod 2 ^ n.
Proof. intros. apply Z.land_ones. lia. Qed.

Lemma shiftr_div a n : 0 <= n -> Z.shiftr a n = a / 2 ^ n.
Proof. intros. apply Z.shiftr_div_pow2. lia. Qed.

Lemma shiftl_mul a n : 0 <= n -> Z.shiftl a n = a * 2 ^ n.
Proof. intros. apply Z.shiftl_mul_pow2. lia. Qed.

Lemma lor_bounds a b n : 0 <= n -> 0 <= a < 2 ^ n -> 0 <= b < 2 ^ n ->
  0 <= Z.lor a b < 2 ^ n.
Proof.
  intros Hn Ha Hb.
  assert (Z.lor a b = Z.lor a b mod 2 ^ n) as ->; [|apply Z.mod_pos_bound; lia].
  apply Z.bits_inj'. intros i Hi. autorewrite with zbits.
  destruct (Z.ltb_spec i n); [done|].
  rewrite (testbit_above a n), (testbit_above b n) by lia. done.
Qed.

Lemma land_bounds_r a b n : 0 <= b < 2 ^ n -> 0 <= Z.land a b < 2 ^ n.
Proof.
  intros Hb. assert (0 <= n) by (destruct (Z.le_gt_cases 0 n); [done|];
    rewrite Z.pow_neg_r in Hb by lia; lia).
  assert (Z.land a b = Z.land a b mod 2 ^ n) as ->; [|apply Z.mod_pos_bound; lia].
  apply Z.bits_inj'. intros i Hi. autorewrite with zbits.
  destruct (Z.ltb_spec i n); [done|]. rewrite (testbit_above b n) by lia.
  btauto.
Qed.

Lemma shl64_small a n : 0 <= n -> 0 <= a -> a * 2 ^ n < u64_bound -> shl64 a n = a * 2 ^ n.
Proof.
  intros. unfold shl64, wrap64. rewrite shiftl_mul by lia.
  apply Z.mod_small. unfold u64_bound in *. split; [|lia].
  apply Z.mul_nonneg_nonneg; [lia|]. apply Z.pow_nonneg; lia.
Qed.

(** ** Lists indexed by [Z], as slices and [Vec]s are

    Reading or writing out of range panics. *)

Definition index {A} (l : list A) (i : Z) : outcome A :=
  if i <? 0 then Panic else unwrap (l !! Z.to_nat i).

Definition index_set {A} (l : list A) (i : Z) (a : A) : outcome (list A) :=
  if (0 <=? i) && (i <? Z.of_nat (length l))
  then Ret (<[Z.to_nat i := a]> l) else Panic.

Definition zlen {A} (l : list A) : Z := Z.of_nat (length l).

Lemma zlen_nonneg {A} (l : list A) : 0 <= zlen l.
Proof. unfold zlen. lia. Qed.

Lemma zlen_cons {A} (a : A) l : zlen (a :: l) = 1 + zlen l.
Proof. unfold zlen. cbn [length]. lia. Qed.

Lemma zlen_app {A} (l1 l2 : list A) : zlen (l1 ++ l2) = zlen l1 + zlen l2.
Proof. unfold zlen. rewrite length_app. lia. Qed.

Lemma index_Ret {A} (l : list A) i a :
  index l i = Ret a <-> 0 <= i /\ l !! Z.to_nat i = Some a.
Proof.
  unfold index. destruct (Z.ltb_spec i 0); [split; [done|lia]|].
  destruct (l !! Z.to_nat i); naive_solver.
Qed.

(** The integers [a], [a+1], ..., [b-1]. *)

Definition zrange (a b : Z) : list Z :=
  (fun i : nat => a + Z.of_nat i) <$> seq 0 (Z.to_nat (b - a)).

Lemma elem_of_zrange a b x : x ∈ zrange a b <-> a <= x < b.
Proof.
  unfold zrange. rewrite list_elem_of_fmap. split.
  - intros (i & -> & Hi%elem_of_seq). lia.
  - intros H. exists (Z.to_nat (x - a)). split; [lia|]. apply elem_of_seq. lia.
Qed.

Lemma zrange_nil a b : b <= a -> zrange a b = [].
Proof. intros. unfold zrange. replace (Z.to_nat (b - a)) with 0%nat by lia. done. Qed.

Lemma zrange_cons a b : a < b -> zrange a b = a :: zrange (a + 1) b.
Proof.
  intros. unfold zrange.
  replace (Z.to_nat (b - a)) with (S (Z.to_nat (b - (a + 1)))) by lia.
  cbn [seq fmap list_fmap]. f_equal; [lia|].
  rewrite <- fmap_S_seq, <- list_fmap_compose.
  apply list_fmap_ext. intros i x _. cbn. lia.
Qed.

Lemma NoDup_zrange a b : NoDup (zrange a b).
Proof.
  unfold zrange. apply NoDup_fmap_2; [intros x y; lia|]. apply NoDup_seq.
Qed.

(** ** Tactics *)

(** Destructs the successful steps of a monadic computation in the
    hypotheses. *)

Ltac inv_ret :=
  repeat match goal with
  | H : Ret _ = Ret _ |- _ => injection H as H; subst
  | H : Panic = Ret _ |- _ => discriminate H
  | H : Ret _ = Panic |- _ => discriminate H
  | H : (_ ≫= _) = Ret _ |- _ =>
      apply bind_Ret in H; destruct H as (? & ? & ?)
  | H : uadd _ _ = Ret _ |- _ => apply uadd_inv in H; destruct H as [-> ?]
  | H : usub _ _ = Ret _ |- _ => apply usub_inv in H; destruct H as [-> ?]
  | H : umul _ _ = Ret _ |- _ => apply umul_inv in H; destruct H as [-> ?]
  | H : rassert ?b = Ret _ |- _ =>
      destruct b eqn:?; cbn in H; [clear H | discriminate H]
  end.

(** Splits every boolean comparison of integers in the goal. *)

Ltac zcases :=
  repeat match goal with
  | |- context [Z.ltb ?a ?b] => destruct (Z.ltb_spec a b)
  | |- context [Z.leb ?a ?b] => destruct (Z.leb_spec a b)
  | |- context [Z.eqb ?a ?b] => destruct (Z.eqb_spec a b)
  end.

Ltac zbits :=
  apply Z.bits_inj'; intros ?i ?Hi; autorewrite with zbits.

Ltac zbool :=
  repeat match goal with
  | H : (_ && _) = true |- _ => apply andb_true_iff in H; destruct H
  | H : (_ || _) = false |- _ => apply orb_false_iff in H; destruct H
  | H : negb _ = true |- _ => apply negb_true_iff in H
  | H : negb _ = false |- _ => apply negb_false_iff in H
  | H : (_ <? _) = true |- _ => apply Z.ltb_lt in H
  | H : (_ <? _) = false |- _ => apply Z.ltb_ge in H
  | H : (_ <=? _) = true |- _ => apply Z.leb_le in H
  | H : (_ <=? _) = false |- _ => apply Z.leb_gt in H
  | H : (_ =? _) = true |- _ => apply Z.eqb_eq in H
  | H : (_ =? _) = false |- _ => apply Z.eqb_neq in H
  end.

(** ** More on ranges *)

Lemma zrange_app a b c : a <= b -> b <= c -> zrange a c = zrange a b ++ zrange b c.
Proof.
  intros Hab Hbc. remember (Z.to_nat (b - a)) as n eqn:Hn. revert a Hab Hn.
  induction n as [|n IH]; intros a Hab Hn.
  - assert (a = b) as -> by lia. rewrite (zrange_nil b b) by lia. done.
  - rewrite (zrange_cons a c), (zrange_cons a b) by lia. cbn. f_equal. apply IH; lia.
Qed.

Lemma zrange_shift k a b : zrange (k + a) (k + b) = (Z.add k) <$> zrange a b.
Proof.
  unfold zrange. replace (k + b - (k + a)) with (b - a) by lia.
  rewrite <- list_fmap_compose. apply list_fmap_ext. intros i x _. cbn. lia.
Qed.

Lemma length_zrange a b : length (zrange a b) = Z.to_nat (b - a).
Proof. unfold zrange. rewrite length_fmap, length_seq. done. Qed.

(** How many elements of a list satisfy a test. *)

Definition zcount {A} (f : A -> bool) (l : list A) : Z :=
  zlen (List.filter f l).

Lemma zcount_nil {A} (f : A -> bool) : zcount f [] = 0.
Proof. done. Qed.

Lemma zcount_cons {A} (f : A -> bool) a l :
  zcount f (a :: l) = (if f a then 1 else 0) + zcount f l.
Proof. unfold zcount, zlen. cbn. destruct (f a); cbn [length]; lia. Qed.

Lemma zcount_app {A} (f : A -> bool) l1 l2 :
  zcount f (l1 ++ l2) = zcount f l1 + zcount f l2.
Proof. unfold zcount. rewrite List.filter_app, zlen_app. done. Qed.

Lemma zcount_fmap {A B} (f : B -> bool) (g : A -> B) l :
  zcount f (g <$> l) = zcount (fun a => f (g a)) l.
Proof.
  induction l as [|a l IH]; [done|]. cbn [fmap list_fmap].
  rewrite !zcount_cons, IH. done.
Qed.

Lemma zcount_ext {A} (f g : A -> bool) l :
  (forall a, a ∈ l -> f a = g a) -> zcount f l = zcount g l.
Proof.
  induction l as [|a l IH]; intros H; [done|].
  rewrite !zcount_cons, H by set_solver. rewrite IH by set_solver. done.
Qed.

Lemma zcount_bounds {A} (f : A -> bool) l : 0 <= zcount f l <= zlen l.
Proof.
  induction l as [|a l IH]; [unfold zcount, zlen; cbn; lia|].
  rewrite zcount_cons. unfold zlen in *. cbn [length]. destruct (f a); lia.
Qed.

Lemma zcount_false {A} (f : A -> bool) l :
  (forall a, a ∈ l -> f a = false) -> zcount f l = 0.
Proof.
  intros H. induction l as [|a l IH]; [done|].
  rewrite zcount_cons, H, IH by set_solver. done.
Qed.

(** Clearing one element that satisfies the test lowers the count by one. *)
Lemma zcount_remove (f : Z -> bool) l p : NoDup l -> p ∈ l -> f p = true ->
  zcount (fun q => if q =? p then false else f q) l = zcount f l - 1.
Proof.
  induction l as [|a l IH]; intros Hnd Hp Hf; [set_solver|].
  apply list.NoDup_cons in Hnd as [Ha Hnd]. rewrite !zcount_cons.
  destruct (Z.eqb_spec a p) as [->|Hne].
  - rewrite Hf. enough (zcount (fun q => if q =? p then false else f q) l = zcount f l) by lia.
    apply zcount_ext. intros q Hq. destruct (Z.eqb_spec q p); [subst; done|done].
  - rewrite IH by set_solver. lia.
Qed.

(** A list of integers as a set, decided by a boolean. *)
Definition zmem (x : Z) (l : list Z) : bool := existsb (Z.eqb x) l.

Lemma zmem_spec x l : zmem x l = true <-> x ∈ l.
Proof.
  unfold zmem. rewrite existsb_exists, list_elem_of_In. split.
  - intros (y & Hy & ->%Z.eqb_eq). done.
  - intros H. exists x. split; [done|apply Z.eqb_refl].
Qed.

Lemma zmem_cons x a l : zmem x (a :: l) = (x =? a) || zmem x l.
Proof. done. Qed.

Lemma zmem_zrange x a b : zmem x (zrange a b) = (a <=? x) && (x <? b).
Proof.
  destruct (zmem x (zrange a b)) eqn:E.
  - apply zmem_spec, elem_of_zrange in E. zcases; done || lia.
  - assert (~ (a <= x < b)) by (rewrite <- elem_of_zrange, <- zmem_spec, E; done).
    zcases; done || lia.
Qed.

Arguments zmem : simpl never.

(** Unfolds the plumbing of the state monad. *)
Ltac st_unfold :=
  cbv beta iota delta [mbind ST_bind mret ST_ret st_gets st_get st_put st_lift
    st_modify st_panic unwrap st_try outcome_bind outcome_ret].
Ltac st_unfold_in H :=
  cbv beta iota delta [mbind ST_bind mret ST_ret st_gets st_get st_put st_lift
    st_modify st_panic unwrap st_try outcome_bind outcome_ret] in H.
