(* ===== verification/Config.v ===== *)
(** * Constants of the kernel (os/src/config.rs)

    The compile-time constants the modelled components use, and the layout
    facts about the user address space that follow from them. *)

From S2P Require Import Prelude.

Definition PAGE_SIZE : Z := 4096.
Definition PAGE_SIZE_BITS : Z := 12.
Definition KERNEL_DIRECT_OFFSET : Z := 0x9000000000000000.
Definition KERNEL_PGNUM_OFFSET : Z := Z.shiftr KERNEL_DIRECT_OFFSET PAGE_SIZE_BITS.
Definition USER_SPACE_SIZE : Z := 0x3000000000.
Definition THREAD_MAX_NUM : Z := 3000.
Definition USER_TRAP_CONTEXT_TOP : Z := USER_SPACE_SIZE.
Definition USER_STACK_SIZE : Z := 4096 * 16 * 16 * 10.
Definition USER_STACK_TOP : Z := USER_TRAP_CONTEXT_TOP - PAGE_SIZE * THREAD_MAX_NUM.
Definition MMAP_TOP : Z :=
  USER_TRAP_CONTEXT_TOP - PAGE_SIZE * THREAD_MAX_NUM
  - USER_STACK_SIZE * THREAD_MAX_NUM - PAGE_SIZE.
Definition MMAP_PGNUM_TOP : Z := Z.shiftr MMAP_TOP PAGE_SIZE_BITS.
Definition MMAP_BASE : Z := MMAP_TOP - 134217728 * 4.
Definition USER_HEAP_SIZE : Z := 0x40000.
Definition DL_INTERP_OFFSET : Z := 0x1500000000.
Definition MAX_FD_NUM : Z := 100.
Definition FD_SETSIZE : Z := 1024.
Definition MNT_TABLE_MAX_ENTRIES : Z := 16.
Definition PATH_MAX : Z := 4096.
Definition SS_DISABLE : Z := 2.
Definition USER_SIGNAL_PROTECT : Z := 512.
Definition TASK_STACK_SIZE : Z := 0x40000.
Definition CLOCK_FREQ : Z := 12500000.
Definition PRE_ALLOC_PAGES : Z := 8.
Definition MAX_SHM_SIZE : Z := 1024 * 1024 * 1024.

(** Every region boundary of the user address space is page aligned, the
    regions are in the order the layout comment gives, and the mmap region
    ends below the stacks. *)

Lemma layout_ordered :
  MMAP_BASE < MMAP_TOP /\ MMAP_TOP < USER_STACK_TOP /\
  USER_STACK_TOP < USER_TRAP_CONTEXT_TOP /\
  MMAP_TOP = MMAP_PGNUM_TOP * PAGE_SIZE.
Proof. vm_compute. repeat split. Qed.
