(* ===== verification/Address.v ===== *)
(** * Addresses and page numbers (os/src/mm/address.rs)

    [KernelAddr], [PhysAddr], [VirtAddr], [PhysPageNum] and [VirtPageNum] are
    newtypes over [usize]; a value of any of them is the integer it wraps,
    and each conversion of the source is a definition named after the types
    it goes between.  The file also holds [SimpleRange], the half-open page
    ranges that areas and iterators use.

    The definitions follow the loongarch64 configuration: the width
    assertions of the [From<usize>] conversions are compiled for riscv64
    only. *)

From S2P Require Import Prelude Config.

Definition PA_WIDTH_SV39 : Z := 56.
Definition VA_WIDTH_SV39 : Z := 39.

(** ** Page-table indices *)

(** A right shift by [n] panics when [n] reaches the width. *)
Definition ushr (a n : Z) : outcome Z :=
  if n <? 64 then Ret (Z.shiftr a n) else Panic.
Definition ushl (a n : Z) : outcome Z :=
  if n <? 64 then Ret (shl64 a n) else Panic.

Definition pn_index (vpn n : Z) : outcome Z :=
  s ← umul 9 n;
  x ← ushr vpn s;
  Ret (Z.land x 0x1ff).

Definition pn_offset (vpn n : Z) : outcome Z :=
  s ← umul 9 n;
  x ← ushl 1 s;
  mask ← usub x 1;
  Ret (Z.land vpn mask).

(** ** Conversions *)

Definition PhysAddr_of_KernelAddr (ka : Z) : outcome Z :=
  usub ka KERNEL_DIRECT_OFFSET.

Definition KernelAddr_of_PhysAddr (pa : Z) : outcome Z :=
  _ ← rassert (negb (pa =? 0));
  uadd pa KERNEL_DIRECT_OFFSET.

Definition VirtAddr_of_KernelAddr (ka : Z) : Z := ka.

Definition usize_of_VirtAddr (va : Z) : Z :=
  if Z.shiftl 1 (VA_WIDTH_SV39 - 1) <=? va
  then Z.lor va (not64 (Z.shiftl 1 VA_WIDTH_SV39 - 1))
  else va.

(** ** [VirtAddr] *)

Definition VirtAddr_floor (va : Z) : Z := va / PAGE_SIZE.

Definition VirtAddr_ceil (va : Z) : outcome Z :=
  _ ← rassert (negb (va =? 0));
  a ← usub va 1;
  b ← uadd a PAGE_SIZE;
  Ret (b / PAGE_SIZE).

Definition VirtAddr_page_offset (va : Z) : Z := Z.land va (PAGE_SIZE - 1).

Definition VirtAddr_aligned (va : Z) : bool := VirtAddr_page_offset va =? 0.

Definition VirtPageNum_of_VirtAddr (va : Z) : outcome Z :=
  _ ← rassert (VirtAddr_page_offset va =? 0);
  Ret (VirtAddr_floor va).

Definition VirtAddr_of_VirtPageNum (vpn : Z) : Z := shl64 vpn PAGE_SIZE_BITS.

(** ** [PhysAddr] *)

Definition PhysAddr_floor (pa : Z) : Z := pa / PAGE_SIZE.

Definition PhysAddr_ceil (pa : Z) : outcome Z :=
  a ← usub pa 1;
  b ← uadd a PAGE_SIZE;
  Ret (b / PAGE_SIZE).

Definition PhysAddr_page_offset (pa : Z) : Z := Z.land pa (PAGE_SIZE - 1).

Definition PhysAddr_aligned (pa : Z) : bool := PhysAddr_page_offset pa =? 0.

Definition PhysPageNum_of_PhysAddr (pa : Z) : outcome Z :=
  _ ← rassert (PhysAddr_page_offset pa =? 0);
  Ret (PhysAddr_floor pa).

Definition PhysAddr_of_PhysPageNum (ppn : Z) : Z := shl64 ppn PAGE_SIZE_BITS.

Definition PhysPageNum_of_KernelAddr (ka : Z) : outcome Z :=
  pa ← PhysAddr_of_KernelAddr ka;
  Ret (PhysAddr_floor pa).

(** ** The indices of a virtual page number *)

(** riscv64: three levels, filled from the last one. *)
Definition indexes_rv (vpn : Z) : list Z :=
  let i2 := Z.land vpn 511 in
  let v1 := Z.shiftr vpn 9 in
  let i1 := Z.land v1 511 in
  let v0 := Z.shiftr v1 9 in
  let i0 := Z.land v0 511 in
  [i0; i1; i2].

(** loongarch64: four levels. *)
Definition indexes_la (vpn : Z) : list Z :=
  [ Z.land (Z.shiftr vpn 27) 0x1ff;
    Z.land (Z.shiftr vpn 18) 0x1ff;
    Z.land (Z.shiftr vpn 9) 0x1ff;
    Z.land vpn 0x1ff ].

(** The kernel address through which [get_pte_array] and [get_bytes_array]
    reach a frame: the direct mapping of the frame's physical address. *)
Definition PhysPageNum_kernel_va (ppn : Z) : outcome Z :=
  KernelAddr_of_PhysAddr (PhysAddr_of_PhysPageNum ppn).

(** ** [SimpleRange] *)

Definition step (pn : Z) : outcome Z := uadd pn 1.

Record SimpleRange : Type := mkRange { rl : Z; rr : Z }.

#[export] Instance SimpleRange_eq_dec : EqDecision SimpleRange.
Proof. solve_decision. Defined.

Definition range_new (start end_ : Z) : outcome SimpleRange :=
  _ ← rassert (start <=? end_);
  Ret (mkRange start end_).

Definition range_contains (r : SimpleRange) (val : Z) : bool :=
  (rl r <=? val) && (val <=? rr r).

Definition range_empty (r : SimpleRange) : bool := rl r =? rr r.

Definition range_set_end (r : SimpleRange) (val : Z) : outcome SimpleRange :=
  _ ← rassert (rl r <=? val);
  Ret (mkRange (rl r) val).

(** [SimpleRangeIterator]: [next] returns the current page number and steps,
    until the current one equals the end. *)

Definition iter_next (current end_ : Z) : outcome (option Z * Z) :=
  if current =? end_ then Ret (None, current)
  else c ← step current; Ret (Some current, c).

(** The sequence a [for] loop over the iterator produces, with [n] calls of
    [next] allowed; [None] when they are not enough. *)
Fixpoint iter_collect (n : nat) (current end_ : Z) : outcome (option (list Z)) :=
  match n with
  | O => Ret None
  | S n' =>
      '(v, c) ← iter_next current end_;
      match v with
      | None => Ret (Some [])
      | Some x => l ← iter_collect n' c end_; Ret (option_map (cons x) l)
      end
  end.

(** What a loop over a range visits. *)
Definition range_list (r : SimpleRange) : list Z := zrange (rl r) (rr r).

(** * Properties *)

(** Arithmetic reading of the masks. *)

Lemma page_offset_mod va : VirtAddr_page_offset va = va mod PAGE_SIZE.
Proof. unfold VirtAddr_page_offset. apply (Z.land_ones va 12). lia. Qed.

Lemma phys_page_offset_mod pa : PhysAddr_page_offset pa = pa mod PAGE_SIZE.
Proof. apply page_offset_mod. Qed.

Lemma pn_index_eq vpn n : 0 <= n <= 7 ->
  pn_index vpn n = Ret ((vpn / 2 ^ (9 * n)) mod 512).
Proof.
  intros Hn. unfold pn_index. rewrite umul_Ret by (unfold u64_bound; lia).
  cbn. unfold ushr. zcases; [|lia]. cbn.
  rewrite shiftr_div by lia. f_equal. apply (Z.land_ones _ 9). lia.
Qed.

Lemma pn_offset_eq vpn n : 0 <= n <= 7 ->
  pn_offset vpn n = Ret (vpn mod 2 ^ (9 * n)).
Proof.
  intros Hn. unfold pn_offset. rewrite umul_Ret by (unfold u64_bound; lia).
  cbn. unfold ushl. zcases; [|lia]. cbn.
  assert (0 < 2 ^ (9 * n) < 2 ^ 64).
  { split; [apply Z.pow_pos_nonneg; lia|]. apply Z.pow_lt_mono_r; lia. }
  rewrite shl64_small by (unfold u64_bound; lia).
  rewrite Z.mul_1_l, usub_Ret by lia. cbn. f_equal.
  rewrite <- Z.land_ones, Z.ones_equiv by lia. f_equal.
Qed.

(** The page number is recovered from its three level indices. *)

Definition vpn_join (i2 i1 i0 : Z) : Z := i2 * 2 ^ 18 + i1 * 2 ^ 9 + i0.

Lemma vpn_join_split vpn : 0 <= vpn < 2 ^ 27 ->
  vpn = vpn_join (vpn / 2 ^ 18 mod 512) (vpn / 2 ^ 9 mod 512) (vpn mod 512).
Proof.
  intros. unfold vpn_join. change (2 ^ 18) with 262144 in *.
  change (2 ^ 9) with 512 in *. change (2 ^ 27) with 134217728 in *. lia.
Qed.

(** Two page numbers below 2^27 with the same three indices are equal. *)
Lemma vpn_indices_inj v1 v2 : 0 <= v1 < 2 ^ 27 -> 0 <= v2 < 2 ^ 27 ->
  v1 / 2 ^ 18 mod 512 = v2 / 2 ^ 18 mod 512 ->
  v1 / 2 ^ 9 mod 512 = v2 / 2 ^ 9 mod 512 ->
  v1 mod 512 = v2 mod 512 -> v1 = v2.
Proof.
  intros H1 H2 E2 E1 E0.
  rewrite (vpn_join_split v1), (vpn_join_split v2), E2, E1, E0 by lia. done.
Qed.

(** ** Round trips *)

Lemma VirtAddr_of_VirtPageNum_eq vpn : 0 <= vpn < 2 ^ 52 ->
  VirtAddr_of_VirtPageNum vpn = vpn * PAGE_SIZE.
Proof.
  intros. unfold VirtAddr_of_VirtPageNum, PAGE_SIZE_BITS, PAGE_SIZE.
  rewrite shl64_small; unfold u64_bound; lia.
Qed.

Lemma PhysAddr_of_PhysPageNum_eq ppn : 0 <= ppn < 2 ^ 52 ->
  PhysAddr_of_PhysPageNum ppn = ppn * PAGE_SIZE.
Proof. apply VirtAddr_of_VirtPageNum_eq. Qed.

Lemma floor_of_page vpn : 0 <= vpn < 2 ^ 52 ->
  VirtAddr_floor (VirtAddr_of_VirtPageNum vpn) = vpn.
Proof.
  intros. rewrite VirtAddr_of_VirtPageNum_eq by lia.
  unfold VirtAddr_floor, PAGE_SIZE. apply Z.div_mul. lia.
Qed.

Lemma VirtPageNum_of_VirtAddr_eq va :
  VirtPageNum_of_VirtAddr va =
  if va mod PAGE_SIZE =? 0 then Ret (va / PAGE_SIZE) else Panic.
Proof.
  unfold VirtPageNum_of_VirtAddr. rewrite page_offset_mod.
  destruct (va mod PAGE_SIZE =? 0); done.
Qed.

(** The rounding up of a non-zero address below the last page never panics
    and is the division rounded up. *)
Lemma VirtAddr_ceil_eq va : 0 < va <= u64_bound - PAGE_SIZE ->
  VirtAddr_ceil va = Ret ((va - 1) / PAGE_SIZE + 1).
Proof.
  unfold VirtAddr_ceil, u64_bound, PAGE_SIZE. intros H.
  destruct (Z.eqb_spec va 0); [lia|]. cbn.
  rewrite usub_Ret by lia. cbn. rewrite uadd_Ret by (unfold u64_bound; lia).
  cbn. f_equal. replace (va - 1 + 4096) with (1 * 4096 + (va - 1)) by lia.
  rewrite Z.div_add_l by lia. lia.
Qed.

(** [floor] and [ceil] bracket an address, and they agree exactly on the
    aligned addresses. *)
Lemma floor_ceil_bracket va p q : 0 < va <= u64_bound - PAGE_SIZE ->
  VirtAddr_floor va = p -> VirtAddr_ceil va = Ret q ->
  p * PAGE_SIZE <= va <= q * PAGE_SIZE /\ q - p <= 1 /\
  (p = q ↔ VirtAddr_aligned va = true).
Proof.
  intros H <- Hq. rewrite VirtAddr_ceil_eq in Hq by done. injection Hq as <-.
  unfold VirtAddr_aligned. rewrite page_offset_mod, Z.eqb_eq.
  unfold VirtAddr_floor, PAGE_SIZE, u64_bound in *. lia.
Qed.

Lemma kernel_phys_roundtrip pa ka : 0 <= pa ->
  KernelAddr_of_PhysAddr pa = Ret ka -> PhysAddr_of_KernelAddr ka = Ret pa.
Proof.
  unfold KernelAddr_of_PhysAddr, PhysAddr_of_KernelAddr. intros Hpa H.
  destruct (Z.eqb_spec pa 0); [done|]. cbn in H. apply uadd_inv in H as [-> ?].
  unfold usub. destruct (Z.leb_spec KERNEL_DIRECT_OFFSET (pa + KERNEL_DIRECT_OFFSET)).
  - f_equal. lia.
  - unfold KERNEL_DIRECT_OFFSET in *. lia.
Qed.

(** ** Ranges *)

Lemma iter_collect_eq n current end_ :
  current <= end_ < u64_bound -> end_ - current < Z.of_nat n ->
  iter_collect n current end_ = Ret (Some (zrange current end_)).
Proof.
  revert current. induction n as [|n IH]; intros current Hle Hn; [lia|].
  cbn [iter_collect]. unfold iter_next.
  destruct (Z.eqb_spec current end_) as [->|Hne].
  - cbn. rewrite zrange_nil by lia. done.
  - unfold step. rewrite uadd_Ret by lia. cbn.
    rewrite IH by lia. cbn. rewrite (zrange_cons current) by lia. done.
Qed.
