(* ===== verification/Memory.v ===== *)
(** * Physical memory

    The kernel reaches physical frames through the direct mapping:
    [PhysPageNum::get_pte_array] and [PhysPageNum::get_bytes_array]
    (os/src/mm/address.rs) turn a frame number into a pointer to its 4096
    bytes.  Memory is a map from frame numbers to frames, a frame a map from
    word indices to 64-bit words; what was never written reads as zero.  The
    bytes of a frame are the little-endian bytes of its words. *)

From S2P Require Import Prelude Config Address.

Notation pmem := (gmap Z (gmap Z Z)).

(** The frame that [get_pte_array] and [get_bytes_array] point to; the
    conversion to a kernel address can panic. *)
Definition frame_base (ppn : Z) : outcome Z :=
  _ ← PhysPageNum_kernel_va ppn;
  Ret (PhysAddr_floor (PhysAddr_of_PhysPageNum ppn)).

(** ** Words *)

Definition read_word (m : pmem) (f i : Z) : Z :=
  default 0 (m !! f ≫= (.!! i)).

Definition write_word (m : pmem) (f i v : Z) : pmem :=
  <[f := <[i := v]> (default ∅ (m !! f))]> m.

Definition zero_frame (m : pmem) (f : Z) : pmem := delete f m.

(** [get_pte_array()[i]]: a slice of 512 words. *)

Definition pte_read (m : pmem) (ppn i : Z) : outcome Z :=
  f ← frame_base ppn;
  _ ← rassert ((0 <=? i) && (i <? 512));
  Ret (read_word m f i).

Definition pte_write (m : pmem) (ppn i v : Z) : outcome pmem :=
  f ← frame_base ppn;
  _ ← rassert ((0 <=? i) && (i <? 512));
  Ret (write_word m f i v).

(** ** Bytes *)

Definition read_byte (m : pmem) (f off : Z) : Z :=
  (read_word m f (off / 8) / 2 ^ (8 * (off mod 8))) mod 256.

Definition set_byte (w k b : Z) : Z :=
  Z.lor (Z.ldiff w (Z.shiftl 255 (8 * k))) (Z.shiftl b (8 * k)).

Definition write_byte (m : pmem) (f off b : Z) : pmem :=
  write_word m f (off / 8) (set_byte (read_word m f (off / 8)) (off mod 8) b).

(** [dst[off..off+n].copy_from_slice(bs)] on the bytes of a frame. *)
Fixpoint write_bytes (m : pmem) (f off : Z) (bs : list Z) : pmem :=
  match bs with
  | [] => m
  | b :: bs' => write_bytes (write_byte m f off b) f (off + 1) bs'
  end.

Definition read_bytes (m : pmem) (f off : Z) (n : nat) : list Z :=
  (fun i : nat => read_byte m f (off + Z.of_nat i)) <$> seq 0 n.

(** * Properties *)

Lemma frame_base_eq ppn : 0 < ppn < 7 * 2 ^ 48 -> frame_base ppn = Ret ppn.
Proof.
  intros H. unfold frame_base, PhysPageNum_kernel_va, KernelAddr_of_PhysAddr.
  rewrite PhysAddr_of_PhysPageNum_eq by lia.
  unfold PAGE_SIZE, KERNEL_DIRECT_OFFSET, PhysAddr_floor.
  destruct (Z.eqb_spec (ppn * 4096) 0); [lia|]. cbn.
  rewrite uadd_Ret by (unfold u64_bound; lia). cbn. f_equal. unfold PAGE_SIZE. lia.
Qed.

Lemma read_write_word m f i v f' i' :
  read_word (write_word m f i v) f' i' =
  if decide (f = f' /\ i = i') then v else read_word m f' i'.
Proof.
  unfold read_word, write_word. destruct (decide (f = f')) as [<-|Hf].
  - rewrite lookup_insert_eq. cbn. destruct (decide (i = i')) as [<-|Hi].
    + rewrite decide_True by done. rewrite lookup_insert_eq. done.
    + rewrite decide_False by naive_solver. rewrite lookup_insert_ne by done.
      destruct (m !! f); done.
  - rewrite decide_False by naive_solver. rewrite lookup_insert_ne by done. done.
Qed.

Lemma read_write_word_eq m f i v : read_word (write_word m f i v) f i = v.
Proof. rewrite read_write_word, decide_True by done. done. Qed.

Lemma read_write_word_ne m f i v f' i' : f <> f' \/ i <> i' ->
  read_word (write_word m f i v) f' i' = read_word m f' i'.
Proof. intros. rewrite read_write_word, decide_False by naive_solver. done. Qed.

Lemma read_zero_frame m f f' i :
  read_word (zero_frame m f) f' i = if decide (f = f') then 0 else read_word m f' i.
Proof.
  unfold read_word, zero_frame. destruct (decide (f = f')) as [<-|].
  - rewrite lookup_delete_eq. done.
  - rewrite lookup_delete_ne by done. done.
Qed.

Lemma pte_read_eq m ppn i : 0 < ppn < 7 * 2 ^ 48 -> 0 <= i < 512 ->
  pte_read m ppn i = Ret (read_word m ppn i).
Proof.
  intros. unfold pte_read. rewrite frame_base_eq by lia. cbn.
  destruct (Z.leb_spec 0 i), (Z.ltb_spec i 512); try lia. done.
Qed.

Lemma pte_write_eq m ppn i v : 0 < ppn < 7 * 2 ^ 48 -> 0 <= i < 512 ->
  pte_write m ppn i v = Ret (write_word m ppn i v).
Proof.
  intros. unfold pte_write. rewrite frame_base_eq by lia. cbn.
  destruct (Z.leb_spec 0 i), (Z.ltb_spec i 512); try lia. done.
Qed.

Lemma set_byte_get w k b k' : 0 <= k < 8 -> 0 <= k' < 8 -> 0 <= b < 256 ->
  (set_byte w k b / 2 ^ (8 * k')) mod 256 =
  if k =? k' then b else (w / 2 ^ (8 * k')) mod 256.
Proof.
  intros Hk Hk' Hb. rewrite <- !shiftr_div by lia. change 256 with (2 ^ 8).
  unfold set_byte. destruct (Z.eqb_spec k k') as [<-|Hne].
  - zbits. replace (i + 8 * k - 8 * k) with i by lia.
    change 255 with (Z.ones 8). destruct (Z.ltb_spec i 8).
    + rewrite testbit_ones_nonneg by lia. zcases; [btauto|lia].
    + rewrite (testbit_above b 8) by lia. done.
  - zbits. change 255 with (Z.ones 8). destruct (Z.ltb_spec i 8); [|done].
    destruct (Z.lt_ge_cases (i + 8 * k' - 8 * k) 0).
    + rewrite (Z.testbit_neg_r b), (Z.testbit_neg_r (Z.ones 8)) by lia. btauto.
    + rewrite testbit_ones_nonneg, (testbit_above b 8) by lia.
      zcases; [lia|btauto].
Qed.

(** A byte write is read back and leaves every other byte alone. *)
Lemma read_write_byte m f off b f' off' :
  0 <= off -> 0 <= off' -> 0 <= b < 256 ->
  read_byte (write_byte m f off b) f' off' =
  if decide (f = f' /\ off = off') then b else read_byte m f' off'.
Proof.
  intros Ho Ho' Hb. unfold read_byte, write_byte. rewrite read_write_word.
  destruct (decide (f = f' /\ off / 8 = off' / 8)) as [[<- E]|Hne].
  - rewrite set_byte_get by lia. rewrite E.
    destruct (Z.eqb_spec (off mod 8) (off' mod 8)).
    + rewrite decide_True by (split; [done|lia]). done.
    + rewrite decide_False by (intros [_ ->]; lia). done.
  - rewrite decide_False by (intros [-> ->]; naive_solver). done.
Qed.

Lemma read_write_bytes_out m f off bs f' off' :
  0 <= off -> 0 <= off' -> Forall (fun b => 0 <= b < 256) bs ->
  f <> f' \/ off' < off \/ off + zlen bs <= off' ->
  read_byte (write_bytes m f off bs) f' off' = read_byte m f' off'.
Proof.
  revert m off. induction bs as [|b bs IH]; intros m off Ho Ho' Hbs Hout; [done|].
  apply Forall_cons_1 in Hbs as [Hb Hbs]. unfold zlen in *. cbn [length] in *.
  cbn [write_bytes]. rewrite IH; [|lia|lia|done|lia].
  rewrite read_write_byte by lia. rewrite decide_False; [done|].
  intros [-> ->]. lia.
Qed.

(** What was copied into a frame is read back. *)
Lemma read_write_bytes m f off bs : 0 <= off -> Forall (fun b => 0 <= b < 256) bs ->
  read_bytes (write_bytes m f off bs) f off (length bs) = bs.
Proof.
  revert m off. induction bs as [|b bs IH]; intros m off Ho Hbs; [done|].
  apply Forall_cons_1 in Hbs as [Hb Hbs]. unfold read_bytes. cbn [length seq fmap list_fmap].
  f_equal.
  - cbn [write_bytes]. rewrite read_write_bytes_out by (done || lia).
    rewrite read_write_byte by lia. rewrite decide_True by (split; [done|lia]). done.
  - rewrite <- (IH (write_byte m f off b) (off + 1)) at 2 by (done || lia).
    unfold read_bytes. rewrite <- fmap_S_seq, <- list_fmap_compose.
    apply list_fmap_ext. intros i x _. cbn [compose write_bytes]. f_equal. lia.
Qed.
