(* ===== verification/FrameAlloc.v ===== *)
(** * The physical frame allocator (os/src/mm/frame_allocator.rs)

    [FrameRegionMap] is a bitmap over one contiguous region, [FrameAllocator]
    a list of regions; the kernel globals [FRAME_ALLOCATOR], [FRAME_VEC] and
    the strong counts of the [Arc<FrameTracker>] handles are fields of
    [world], together with the physical memory that [FrameTracker::new]
    clears.  The NUMA policy argument of the allocation functions is ignored
    by every region and is left out.

    The specification is the set of free frames ([region_free], [fa_free]):
    each operation is shown to be the corresponding set operation. *)

From S2P Require Import Prelude Config Address BitField Memory.

(** ** Definitions *)

(** A [for] loop that updates a local variable and can panic. *)
Fixpoint ofold {A B} (f : B -> A -> outcome B) (l : list A) (b : B) : outcome B :=
  match l with
  | [] => Ret b
  | a :: l' => b' ← f b a; ofold f l' b'
  end.

Definition usize_MAX : Z := 2 ^ 64 - 1.

(** [FrameTracker::new]: clears the frame. *)
Definition FrameTracker_new (m : pmem) (ppn : Z) : outcome pmem :=
  f ← frame_base ppn;
  Ret (zero_frame m f).

Record FrameRegionMap : Type := mkRegion {
  bits : list Z;
  start_ppn : Z;
  end_ppn : Z
}.

Definition div_ceil (a b : Z) : Z := (a + b - 1) / b.

Definition FrameRegionMap_new (start_paddr end_paddr : Z) : outcome FrameRegionMap :=
  let start_ppn := PhysAddr_floor start_paddr in
  let end_ppn := PhysAddr_floor end_paddr in
  num_pages ← usub end_ppn start_ppn;
  let bits := replicate (Z.to_nat (div_ceil num_pages 64)) 0 in
  total ← umul (zlen bits) 64;
  bits' ← ofold (fun bs i => arr_set_bit bs i true) (zrange num_pages total) bits;
  Ret (mkRegion bits' start_ppn end_ppn).

(** The inner loop of [alloc]: the first clear bit of a word. *)
Fixpoint find_clear (w : Z) (idxs : list Z) : outcome (option Z) :=
  match idxs with
  | [] => Ret None
  | bit_index :: idxs' =>
      b ← get_bit w bit_index;
      if negb b then Ret (Some bit_index) else find_clear w idxs'
  end.

(** The outer loop of [alloc], from word [i] on. *)
Fixpoint alloc_words (start i : Z) (ws : list Z) : outcome (option Z * list Z) :=
  match ws with
  | [] => Ret (None, [])
  | w :: ws' =>
      o ← (if w =? usize_MAX then Ret None else find_clear w (zrange 0 64));
      match o with
      | Some bit_index =>
          w' ← set_bit w bit_index true;
          x ← umul i 64;
          page_offset ← uadd x bit_index;
          ppn ← uadd start page_offset;
          Ret (Some ppn, w' :: ws')
      | None =>
          '(r, ws2) ← alloc_words start (i + 1) ws';
          Ret (r, w :: ws2)
      end
  end.

Definition region_alloc (r : FrameRegionMap) : outcome (option Z * FrameRegionMap) :=
  '(o, bs) ← alloc_words (start_ppn r) 0 (bits r);
  Ret (o, mkRegion bs (start_ppn r) (end_ppn r)).

(** The search loop of [alloc_contiguous]; [found_start] and
    [consecutive_free] are its local variables. *)
Fixpoint contig_scan (bs : list Z) (count : Z) (idxs : list Z)
    (found_start consecutive_free : Z) : outcome (option Z) :=
  match idxs with
  | [] => Ret None
  | i :: idxs' =>
      b ← arr_get_bit bs i;
      if negb b then
        let found_start := if consecutive_free =? 0 then i else found_start in
        consecutive_free ← uadd consecutive_free 1;
        if consecutive_free =? count then Ret (Some found_start)
        else contig_scan bs count idxs' found_start consecutive_free
      else contig_scan bs count idxs' found_start 0
  end.

(** The marking loop of [alloc_contiguous]. *)
Definition contig_mark (start found_start : Z) (acc : list Z * list Z * pmem) (j : Z)
    : outcome (list Z * list Z * pmem) :=
  let '(bs, frames, m) := acc in
  bit_index ← uadd found_start j;
  bs' ← arr_set_bit bs bit_index true;
  ppn ← uadd start bit_index;
  m' ← FrameTracker_new m ppn;
  Ret (bs', frames ++ [ppn], m').

Definition region_alloc_contiguous (r : FrameRegionMap) (count : Z) (m : pmem)
    : outcome (option (list Z) * FrameRegionMap * pmem) :=
  if count =? 0 then Ret (Some [], r, m) else
  num_pages ← usub (end_ppn r) (start_ppn r);
  if num_pages <? count then Ret (None, r, m) else
  o ← contig_scan (bits r) count (zrange 0 num_pages) 0 0;
  match o with
  | None => Ret (None, r, m)
  | Some found_start =>
      '(bs, frames, m') ← ofold (contig_mark (start_ppn r) found_start)
                            (zrange 0 count) (bits r, [], m);
      Ret (Some frames, mkRegion bs (start_ppn r) (end_ppn r), m')
  end.

Definition region_dealloc (r : FrameRegionMap) (ppn : Z) : outcome FrameRegionMap :=
  bit_index ← usub ppn (start_ppn r);
  b ← arr_get_bit (bits r) bit_index;
  if (b : bool) then
    bs ← arr_set_bit (bits r) bit_index false;
    Ret (mkRegion bs (start_ppn r) (end_ppn r))
  else Panic.

(** [usize::count_zeros] *)
Definition count_zeros (w : Z) : Z :=
  zlen (filter (fun i => Z.testbit w i = false) (zrange 0 64)).

(** [Iterator::sum], which checks for overflow. *)
Definition usum (l : list Z) : outcome Z := ofold uadd l 0.

Definition free_pages (r : FrameRegionMap) : outcome Z :=
  usum (count_zeros <$> bits r).

(** *** [FrameAllocator] *)

Record FrameAllocator : Type := mkFA { regions : list FrameRegionMap }.

Definition FrameAllocator_new : FrameAllocator := mkFA [].

Definition fa_add_memory_region (fa : FrameAllocator) (s e : Z) : outcome FrameAllocator :=
  r ← FrameRegionMap_new s e;
  Ret (mkFA (regions fa ++ [r])).

Fixpoint regions_alloc (rs : list FrameRegionMap)
    : outcome (option Z * list FrameRegionMap) :=
  match rs with
  | [] => Ret (None, [])
  | r :: rs' =>
      '(o, r') ← region_alloc r;
      match o with
      | Some ppn => Ret (Some ppn, r' :: rs')
      | None => '(o', rs2) ← regions_alloc rs'; Ret (o', r' :: rs2)
      end
  end.

Definition fa_alloc (fa : FrameAllocator) : outcome (option Z * FrameAllocator) :=
  '(o, rs) ← regions_alloc (regions fa);
  Ret (o, mkFA rs).

Fixpoint regions_dealloc (rs : list FrameRegionMap) (ppn : Z)
    : outcome (list FrameRegionMap) :=
  match rs with
  | [] => Panic
  | r :: rs' =>
      if (start_ppn r <=? ppn) && (ppn <? end_ppn r)
      then r' ← region_dealloc r ppn; Ret (r' :: rs')
      else rs2 ← regions_dealloc rs' ppn; Ret (r :: rs2)
  end.

Definition fa_dealloc (fa : FrameAllocator) (ppn : Z) : outcome FrameAllocator :=
  rs ← regions_dealloc (regions fa) ppn;
  Ret (mkFA rs).

Fixpoint regions_alloc_contiguous (rs : list FrameRegionMap) (count : Z) (m : pmem)
    : outcome (option (list Z) * list FrameRegionMap * pmem) :=
  match rs with
  | [] => Ret (None, [], m)
  | r :: rs' =>
      '(o, r', m') ← region_alloc_contiguous r count m;
      match o with
      | Some frames => Ret (Some frames, r' :: rs', m')
      | None =>
          '(o', rs2, m2) ← regions_alloc_contiguous rs' count m';
          Ret (o', r' :: rs2, m2)
      end
  end.

Definition fa_alloc_contiguous (fa : FrameAllocator) (count : Z) (m : pmem)
    : outcome (option (list Z) * FrameAllocator * pmem) :=
  '(o, rs, m') ← regions_alloc_contiguous (regions fa) count m;
  Ret (o, mkFA rs, m').

Definition fa_remaining_frames (fa : FrameAllocator) : outcome Z :=
  ofold (fun acc r => n ← free_pages r; uadd acc n) (regions fa) 0.

(** *** The kernel globals and the public functions *)

Record world : Type := mkWorld {
  w_mem : pmem;                (* physical memory *)
  w_fa : FrameAllocator;       (* FRAME_ALLOCATOR *)
  w_refs : gmap Z Z;           (* strong counts of the live Arc<FrameTracker> *)
  w_frame_vec : gmap Z Z       (* FRAME_VEC *)
}.

Definition set_mem (m : pmem) (w : world) : world :=
  mkWorld m (w_fa w) (w_refs w) (w_frame_vec w).
Definition set_fa (fa : FrameAllocator) (w : world) : world :=
  mkWorld (w_mem w) fa (w_refs w) (w_frame_vec w).
Definition set_refs (rs : gmap Z Z) (w : world) : world :=
  mkWorld (w_mem w) (w_fa w) rs (w_frame_vec w).
Definition set_frame_vec (v : gmap Z Z) (w : world) : world :=
  mkWorld (w_mem w) (w_fa w) (w_refs w) v.

Definition add_memory_region (s e : Z) : ST world unit :=
  fa ← st_gets w_fa;
  fa' ← st_lift (fa_add_memory_region fa s e);
  st_modify (set_fa fa').

Definition frame_dealloc (ppn : Z) : ST world unit :=
  fa ← st_gets w_fa;
  fa' ← st_lift (fa_dealloc fa ppn);
  st_modify (set_fa fa').

(** [Arc::new], [Arc::clone] and the drop of an [Arc<FrameTracker>]: the last
    drop runs [FrameTracker::drop]. *)
Definition arc_new (ppn : Z) : ST world unit :=
  st_modify (fun w => set_refs (<[ppn := 1]> (w_refs w)) w).

Definition arc_clone (ppn : Z) : ST world unit :=
  rs ← st_gets w_refs;
  n ← st_lift (unwrap (rs !! ppn));
  st_modify (fun w => set_refs (<[ppn := n + 1]> (w_refs w)) w).

Definition arc_drop (ppn : Z) : ST world unit :=
  rs ← st_gets w_refs;
  n ← st_lift (unwrap (rs !! ppn));
  if n =? 1 then
    _ ← st_modify (fun w => set_refs (delete ppn (w_refs w)) w);
    frame_dealloc ppn
  else st_modify (fun w => set_refs (<[ppn := n - 1]> (w_refs w)) w).

Definition frame_alloc : ST world (option Z) :=
  fa ← st_gets w_fa;
  '(o, fa') ← st_lift (fa_alloc fa);
  _ ← st_modify (set_fa fa');
  match o with
  | None => mret None
  | Some ppn =>
      m ← st_gets w_mem;
      m' ← st_lift (FrameTracker_new m ppn);
      _ ← st_modify (set_mem m');
      _ ← arc_new ppn;
      mret (Some ppn)
  end.

Definition frame_alloc_continue (count : Z) : ST world (option (list Z)) :=
  fa ← st_gets w_fa;
  m ← st_gets w_mem;
  '(o, fa', m') ← st_lift (fa_alloc_contiguous fa count m);
  _ ← st_modify (fun w => set_mem m' (set_fa fa' w));
  match o with
  | None => mret None
  | Some frames => _ ← st_iter arc_new frames; mret (Some frames)
  end.

Definition remaining_frames : ST world Z :=
  fa ← st_gets w_fa;
  st_lift (fa_remaining_frames fa).

Definition frame_alloc_persist : ST world (option Z) :=
  o ← frame_alloc;
  match o with
  | None => mret None
  | Some ppn =>
      let paddr := shl64 ppn PAGE_SIZE_BITS in
      v ← st_gets w_frame_vec;
      _ ← st_modify (set_frame_vec (<[ppn := ppn]> v));
      _ ← match v !! ppn with Some old => arc_drop old | None => mret tt end;
      mret (Some paddr)
  end.

Definition frame_dealloc_persist (paddr : Z) : ST world unit :=
  let ppn := Z.shiftr paddr PAGE_SIZE_BITS in
  v ← st_gets w_frame_vec;
  match v !! ppn with
  | None => st_panic
  | Some old =>
      _ ← st_modify (set_frame_vec (delete ppn v));
      arc_drop old
  end.

(** * Properties of one region *)

(** The bitmap has one bit per page, rounded up to words, and the bits past
    the end of the region are set, so that they are never allocated. *)
Record region_wf (r : FrameRegionMap) : Prop := {
  rw_words : Forall is_u64 (bits r);
  rw_range : 0 < start_ppn r /\ start_ppn r <= end_ppn r < 2 ^ 36;
  rw_len : zlen (bits r) = div_ceil (end_ppn r - start_ppn r) 64;
  rw_pad : forall i, end_ppn r - start_ppn r <= i -> rbit (bits r) i = true
}.

(** The frames of a region that are free. *)
Definition region_free (r : FrameRegionMap) (ppn : Z) : bool :=
  (start_ppn r <=? ppn) && (ppn <? end_ppn r) && negb (rbit (bits r) (ppn - start_ppn r)).

Lemma region_len r : region_wf r ->
  end_ppn r - start_ppn r <= 64 * zlen (bits r) < end_ppn r - start_ppn r + 64.
Proof.
  intros [_ ? Hl _]. rewrite Hl. unfold div_ceil.
  lia.
Qed.

Lemma find_clear_spec w a : 0 <= a ->
  (exists k, find_clear w (zrange a 64) = Ret (Some k) /\ a <= k < 64 /\
     Z.testbit w k = false /\ forall j, a <= j < k -> Z.testbit w j = true) \/
  (find_clear w (zrange a 64) = Ret None /\
     forall j, a <= j < 64 -> Z.testbit w j = true).
Proof.
  intros Ha. remember (Z.to_nat (64 - a)) as n eqn:Hn.
  revert a Ha Hn. induction n as [|n IH]; intros a Ha Hn.
  - right. rewrite zrange_nil by lia. split; [done|lia].
  - rewrite zrange_cons by lia. cbn [find_clear]. rewrite get_bit_eq by lia. cbn.
    destruct (Z.testbit w a) eqn:Ea; cbn.
    + destruct (IH (a + 1)) as [(k & -> & Hk & Hkf & Hlow)|[-> Hall]]; [lia|lia| |].
      * left. exists k. split_and!; try done; try lia. intros j Hj.
        destruct (decide (j = a)) as [->|]; [done|]. apply Hlow. lia.
      * right. split; [done|]. intros j Hj.
        destruct (decide (j = a)) as [->|]; [done|]. apply Hall. lia.
    + left. exists a. split_and!; try done; lia.
Qed.

Lemma all_ones_bits j : 0 <= j < 64 -> Z.testbit usize_MAX j = true.
Proof.
  intros. change usize_MAX with (Z.ones 64).
  rewrite testbit_ones_nonneg by lia. apply Z.ltb_lt. lia.
Qed.

(** The word search finds the lowest clear bit and sets it. *)
Lemma alloc_words_spec start i ws :
  Forall is_u64 ws -> 0 <= i -> 0 <= start ->
  start + 64 * (i + zlen ws) < u64_bound ->
  (exists k ws', alloc_words start i ws = Ret (Some (start + (64 * i + k)), ws') /\
     0 <= k < 64 * zlen ws /\ rbit ws k = false /\
     (forall j, 0 <= j < k -> rbit ws j = true) /\
     Forall is_u64 ws' /\ length ws' = length ws /\
     forall j, 0 <= j -> rbit ws' j = if j =? k then true else rbit ws j) \/
  (alloc_words start i ws = Ret (None, ws) /\ forall j, 0 <= j -> rbit ws j = true).
Proof.
  revert i. induction ws as [|w ws IH]; intros i Hws Hi Hs Hb.
  { right. split; [done|]. intros. apply rbit_nil. }
  apply Forall_cons_1 in Hws as [Hw Hws]. unfold zlen in *. cbn [length] in *.
  cbn [alloc_words].
  assert ((if w =? usize_MAX then Ret None else find_clear w (zrange 0 64))
          = find_clear w (zrange 0 64)) as ->.
  { destruct (Z.eqb_spec w usize_MAX) as [->|]; [|done].
    destruct (find_clear_spec usize_MAX 0) as [(k & _ & Hk & Hf & _)|[-> _]]; [lia| |done].
    rewrite all_ones_bits in Hf by lia. done. }
  destruct (find_clear_spec w 0) as [(k & -> & Hk & Hkf & Hlow)|[-> Hall]]; [lia| |].
  - left. cbn [mbind outcome_bind].
    destruct (set_bit_spec w k true) as (w' & -> & Hw' & Hbits); [done|lia|].
    cbn [mbind outcome_bind].
    rewrite umul_Ret by lia. cbn [mbind outcome_bind].
    rewrite uadd_Ret by lia. cbn [mbind outcome_bind].
    rewrite uadd_Ret by lia. cbn [mbind outcome_bind].
    exists k, (w' :: ws). split_and!; try done; try lia.
    + do 3 f_equal. lia.
    + rewrite rbit_cons by lia. zcases; [done|lia].
    + intros j Hj. rewrite rbit_cons by lia. zcases; [apply Hlow; lia|lia].
    + by constructor.
    + intros j Hj. rewrite !rbit_cons by lia. destruct (Z.ltb_spec j 64).
      * rewrite Hbits by lia. zcases; congruence.
      * zcases; [lia|done].
  - cbn [mbind outcome_bind].
    destruct (IH (i + 1)) as [(k & ws' & -> & Hk & Hkf & Hlow & Hu & Hl & Hr)|[-> Hall']];
      [done|lia|lia|lia| |]; cbn [mbind outcome_bind].
    + left. exists (64 + k), (w :: ws'). split_and!; try lia.
      * do 3 f_equal. lia.
      * rewrite rbit_cons by lia. zcases; [lia|].
        replace (64 + k - 64) with k by lia. done.
      * intros j Hj. rewrite rbit_cons by lia.
        zcases; [apply Hall; lia|apply Hlow; lia].
      * by constructor.
      * cbn. lia.
      * intros j Hj. rewrite !rbit_cons by lia. destruct (Z.ltb_spec j 64).
        -- zcases; [lia|done].
        -- rewrite Hr by lia. zcases; done || lia.
    + right. split; [done|]. intros j Hj. rewrite rbit_cons by lia.
      zcases; [apply Hall; lia|apply Hall'; lia].
Qed.

(** Replacing the bitmap of a well-formed region by one that differs at one
    position of the region keeps it well-formed and changes one frame of the
    free set. *)
Lemma region_update r bs k v : region_wf r ->
  Forall is_u64 bs -> length bs = length (bits r) ->
  0 <= k < end_ppn r - start_ppn r ->
  (forall j, 0 <= j -> rbit bs j = if j =? k then v else rbit (bits r) j) ->
  region_wf (mkRegion bs (start_ppn r) (end_ppn r)) /\
  forall p, region_free (mkRegion bs (start_ppn r) (end_ppn r)) p =
    if p =? start_ppn r + k then negb v else region_free r p.
Proof.
  intros [Hw Hr Hl Hp] Hbs Hlen Hk Hbit. split.
  - constructor; cbn; try done.
    + unfold zlen in *. rewrite Hlen. done.
    + intros i Hi. rewrite Hbit by lia. zcases; [lia|]. by apply Hp.
  - intros p. unfold region_free; cbn.
    destruct (Z.leb_spec (start_ppn r) p), (Z.ltb_spec p (end_ppn r)); cbn;
      try (zcases; [lia|done]).
    rewrite Hbit by lia. zcases; try done; lia.
Qed.

(** [alloc] takes the lowest free frame of the region, and returns [None]
    only when no frame is free. *)
Lemma region_alloc_spec r : region_wf r ->
  (exists p r', region_alloc r = Ret (Some p, r') /\ region_wf r' /\
     region_free r p = true /\
     (forall q, region_free r q = true -> p <= q) /\
     start_ppn r' = start_ppn r /\ end_ppn r' = end_ppn r /\
     forall q, region_free r' q = if q =? p then false else region_free r q) \/
  (region_alloc r = Ret (None, r) /\ forall q, region_free r q = false).
Proof.
  intros Hwf. pose proof (region_len r Hwf) as Hlen.
  pose proof (rw_range r Hwf) as Hrange. unfold region_alloc.
  destruct (alloc_words_spec (start_ppn r) 0 (bits r))
    as [(k & ws' & -> & Hk & Hkf & Hlow & Hu & Hl & Hbit)|[-> Hall]];
    [apply Hwf|lia|lia|unfold u64_bound; lia| |]; cbn [mbind outcome_bind].
  - left. assert (k < end_ppn r - start_ppn r) as Hkb.
    { destruct (Z.lt_ge_cases k (end_ppn r - start_ppn r)); [done|].
      rewrite (rw_pad r Hwf) in Hkf by lia. done. }
    destruct (region_update r ws' k true) as [Hwf' Hfree]; [done..|lia|done|].
    eexists _, _. split; [done|].
    split_and!; try done.
    + unfold region_free. replace (start_ppn r + (64 * 0 + k) - start_ppn r) with k by lia.
      rewrite Hkf. zcases; try done; lia.
    + intros q Hq. unfold region_free in Hq. zbool.
      destruct (Z.lt_ge_cases (q - start_ppn r) k); [|lia].
      rewrite Hlow in * by lia. done.
  - right. destruct r as [bs s e]. split; [done|]. intros q.
    unfold region_free; cbn in *.
    destruct (Z.leb_spec s q); cbn; [|done]. rewrite Hall by lia. btauto.
Qed.

(** [dealloc] frees an allocated frame of the region. *)
Lemma region_dealloc_spec r p : region_wf r -> start_ppn r <= p < end_ppn r ->
  if region_free r p then region_dealloc r p = Panic
  else exists r', region_dealloc r p = Ret r' /\ region_wf r' /\
     start_ppn r' = start_ppn r /\ end_ppn r' = end_ppn r /\
     forall q, region_free r' q = if q =? p then true else region_free r q.
Proof.
  intros Hwf Hp. pose proof (region_len r Hwf) as Hlen.
  assert (region_free r p = negb (rbit (bits r) (p - start_ppn r))) as ->.
  { unfold region_free. zcases; try lia. done. }
  unfold region_dealloc. rewrite usub_Ret by lia. cbn [mbind outcome_bind].
  rewrite arr_get_bit_eq by lia. cbn [mbind outcome_bind].
  destruct (rbit (bits r) (p - start_ppn r)) eqn:E; cbn [negb]; [|done].
  destruct (arr_set_bit_spec (bits r) (p - start_ppn r) false)
    as (bs & -> & Hu & Hl & Hbit); [apply Hwf|lia|]. cbn [mbind outcome_bind].
  destruct (region_update r bs (p - start_ppn r) false) as [Hwf' Hfree]; [done..|lia|done|].
  replace (start_ppn r + (p - start_ppn r)) with p in Hfree by lia.
  eexists. split; [done|]. split_and!; done.
Qed.

(** ** Creating a region *)

Lemma set_bits_fold idxs ws : Forall is_u64 ws ->
  (forall i, i ∈ idxs -> 0 <= i < 64 * zlen ws) ->
  exists ws', ofold (fun bs i => arr_set_bit bs i true) idxs ws = Ret ws' /\
    Forall is_u64 ws' /\ length ws' = length ws /\
    forall j, 0 <= j -> rbit ws' j = zmem j idxs || rbit ws j.
Proof.
  revert ws. induction idxs as [|i idxs IH]; intros ws Hws Hin.
  { eexists. split_and!; done. }
  destruct (arr_set_bit_spec ws i true) as (ws1 & E1 & Hu1 & Hl1 & Hb1);
    [done|apply Hin; set_solver|].
  destruct (IH ws1) as (ws2 & E2 & Hu2 & Hl2 & Hb2); [done| |].
  { intros k Hk. unfold zlen in *. rewrite Hl1. apply Hin. set_solver. }
  exists ws2. cbn [ofold]. rewrite E1. cbn [mbind outcome_bind].
  split_and!; [done|done|lia|]. intros j Hj. rewrite Hb2, Hb1 by lia.
  rewrite zmem_cons. destruct (Z.eqb_spec j i); btauto.
Qed.

Lemma rbit_replicate n i : 0 <= i < 64 * Z.of_nat n -> rbit (replicate n 0) i = false.
Proof.
  intros. unfold rbit. rewrite lookup_replicate_2 by lia. apply Z.bits_0.
Qed.

(** A new region is well-formed and all of its frames are free. *)
Lemma FrameRegionMap_new_spec s e :
  0 < s / PAGE_SIZE <= e / PAGE_SIZE -> e / PAGE_SIZE < 2 ^ 36 ->
  exists r, FrameRegionMap_new s e = Ret r /\ region_wf r /\
    start_ppn r = s / PAGE_SIZE /\ end_ppn r = e / PAGE_SIZE /\
    forall p, region_free r p = (s / PAGE_SIZE <=? p) && (p <? e / PAGE_SIZE).
Proof.
  intros Hse Hb. unfold FrameRegionMap_new, PhysAddr_floor.
  set (sp := s / PAGE_SIZE) in *. set (ep := e / PAGE_SIZE) in *.
  rewrite usub_Ret by lia. cbn [mbind outcome_bind]. set (n := ep - sp) in *.
  set (k := Z.to_nat (div_ceil n 64)).
  assert (zlen (replicate k 0) = div_ceil n 64) as Hl.
  { unfold zlen, k, div_ceil, n in *. rewrite length_replicate. lia. }
  assert (n <= 64 * div_ceil n 64 < n + 64) as Hd by (unfold div_ceil, n in *; lia).
  rewrite Hl, umul_Ret by (unfold u64_bound; lia). cbn [mbind outcome_bind].
  destruct (set_bits_fold (zrange n (div_ceil n 64 * 64)) (replicate k 0))
    as (ws & -> & Hu & Hlen & Hbit).
  { apply Forall_replicate. unfold is_u64, u64_bound. lia. }
  { intros i Hi%elem_of_zrange. rewrite Hl. lia. }
  cbn [mbind outcome_bind]. eexists. split; [done|].
  assert (forall j, 0 <= j -> rbit ws j = negb (j <? n)) as Hr.
  { intros j Hj. rewrite Hbit, zmem_zrange by lia.
    destruct (Z.ltb_spec j n); cbn.
    - rewrite rbit_replicate by (unfold k; lia). zcases; done || lia.
    - destruct (Z.leb_spec n j); [|lia].
      destruct (Z.ltb_spec j (div_ceil n 64 * 64)); [done|]. cbn.
      unfold rbit. rewrite lookup_ge_None_2; [done|].
      rewrite length_replicate. unfold k. lia. }
  split_and!; try done.
  - constructor; cbn; try done.
    + lia.
    + unfold zlen in *. rewrite Hlen. done.
    + intros i Hi. rewrite Hr by (unfold n in *; lia). fold n in Hi.
      destruct (Z.ltb_spec i n); [lia|done].
  - intros p. unfold region_free; cbn.
    destruct (Z.leb_spec sp p); cbn; [|done].
    rewrite Hr by lia. unfold n. zcases; try done; lia.
Qed.

(** ** Contiguous allocation *)

(** [count] clear bits from position [s] on. *)
Definition run (bs : list Z) (count s : Z) : Prop :=
  forall j, s <= j < s + count -> rbit bs j = false.

(** The scan finds the lowest run of clear bits, and fails only when there is
    none.  The invariant of the loop: the last [cf] bits before [i] are clear,
    [fs] is where they start, and no run starts before them. *)
Lemma contig_scan_spec bs count n i fs cf :
  n <= 64 * zlen bs -> n < u64_bound -> 0 <= i <= n -> 0 <= cf < count ->
  cf <= i -> (cf <> 0 -> fs = i - cf) ->
  (forall j, i - cf <= j < i -> rbit bs j = false) ->
  (forall s, 0 <= s -> run bs count s -> i - cf <= s) ->
  (exists s, contig_scan bs count (zrange i n) fs cf = Ret (Some s) /\
     0 <= s /\ s + count <= n /\ run bs count s /\
     forall s', 0 <= s' -> run bs count s' -> s <= s') \/
  (contig_scan bs count (zrange i n) fs cf = Ret None /\
     forall s, 0 <= s -> s + count <= n -> ~ run bs count s).
Proof.
  intros Hn Hn64. remember (Z.to_nat (n - i)) as m eqn:Hm.
  revert i fs cf Hm. induction m as [|m IH]; intros i fs cf Hm Hi Hcf Hci Hfs Hclr Hlow.
  - right. rewrite zrange_nil by lia. split; [done|].
    intros s Hs Hsc Hrun. specialize (Hlow s Hs Hrun). lia.
  - rewrite zrange_cons by lia. cbn [contig_scan].
    rewrite arr_get_bit_eq by lia. cbn [mbind outcome_bind].
    destruct (rbit bs i) eqn:Ei; cbn [negb].
    + apply IH; try lia.
      intros s Hs Hrun. pose proof (Hlow s Hs Hrun).
      destruct (Z.le_gt_cases s i); [|lia].
      rewrite Hrun in Ei by lia. done.
    + rewrite uadd_Ret by lia. cbn [mbind outcome_bind].
      assert ((if cf =? 0 then i else fs) = i - cf) as Hst by (zcases; lia).
      rewrite Hst.
      assert (forall j, i - cf <= j < i + 1 -> rbit bs j = false) as Hclr'.
      { intros j Hj. destruct (decide (j = i)) as [->|]; [done|]. apply Hclr. lia. }
      destruct (Z.eqb_spec (cf + 1) count) as [Hc|Hc].
      * left. exists (i - cf). split_and!; try done; try lia.
        intros j Hj. apply Hclr'. lia.
      * apply IH; try lia.
        -- intros j Hj. apply Hclr'. lia.
        -- intros s Hs Hrun. pose proof (Hlow s Hs Hrun). lia.
Qed.

(** Clearing a list of frames. *)
Definition zero_frames (m : pmem) (fs : list Z) : pmem := fold_left zero_frame fs m.

Lemma read_zero_frames fs m f i :
  read_word (zero_frames m fs) f i = if zmem f fs then 0 else read_word m f i.
Proof.
  revert m. induction fs as [|g fs IH]; intros m; [done|].
  unfold zero_frames in *. cbn [fold_left]. rewrite IH, read_zero_frame.
  rewrite zmem_cons. destruct (Z.eqb_spec f g) as [->|]; cbn.
  - rewrite decide_True by done. destruct (zmem _ _); done.
  - rewrite decide_False by done. done.
Qed.

(** The marking loop sets [count] bits, clears the frames and lists them. *)
Lemma contig_mark_fold start s a count bs frames m :
  Forall is_u64 bs -> 0 < start -> 0 <= s -> 0 <= a <= count ->
  s + count <= 64 * zlen bs -> start + (s + count) < 2 ^ 36 ->
  exists bs', ofold (contig_mark start s) (zrange a count) (bs, frames, m) =
      Ret (bs', frames ++ zrange (start + s + a) (start + s + count),
           zero_frames m (zrange (start + s + a) (start + s + count))) /\
    Forall is_u64 bs' /\ length bs' = length bs /\
    forall j, 0 <= j -> rbit bs' j =
      if (s + a <=? j) && (j <? s + count) then true else rbit bs j.
Proof.
  intros Hbs Hst Hs Ha Hlen Hb. remember (Z.to_nat (count - a)) as n eqn:Hn.
  revert a bs frames m Hbs Ha Hlen Hn.
  induction n as [|n IH]; intros a bs frames m Hbs Ha Hlen Hn.
  - rewrite !zrange_nil by lia. rewrite app_nil_r. exists bs.
    split_and!; try done. intros j Hj. zcases; done || lia.
  - rewrite (zrange_cons a count) by lia. cbn [ofold].
    destruct (arr_set_bit_spec bs (s + a) true) as (bs1 & E1 & Hu1 & Hl1 & Hb1);
      [done|lia|].
    assert (contig_mark start s (bs, frames, m) a =
            Ret (bs1, frames ++ [start + (s + a)], zero_frame m (start + (s + a)))) as ->.
    { unfold contig_mark, FrameTracker_new.
      rewrite uadd_Ret by (unfold u64_bound; lia). cbn [mbind outcome_bind].
      rewrite E1. cbn [mbind outcome_bind].
      rewrite uadd_Ret by (unfold u64_bound; lia). cbn [mbind outcome_bind].
      rewrite frame_base_eq by lia. done. }
    cbn [mbind outcome_bind].
    destruct (IH (a + 1) bs1 (frames ++ [start + (s + a)]) (zero_frame m (start + (s + a))))
      as (bs2 & -> & Hu2 & Hl2 & Hb2); [done|lia| |lia|].
    { unfold zlen in *. lia. }
    exists bs2. split_and!; [|done|lia|].
    + rewrite (zrange_cons (start + s + a)) by lia.
      rewrite <- app_assoc. cbn [app]. unfold zero_frames. cbn [fold_left].
      replace (start + s + (a + 1)) with (start + s + a + 1) by lia.
      replace (start + (s + a)) with (start + s + a) by lia. done.
    + intros j Hj. rewrite Hb2, Hb1 by lia. zcases; done || lia.
Qed.

(** All frames of [[p, p + count)] are free in the region. *)
Definition free_run (r : FrameRegionMap) (p count : Z) : Prop :=
  forall q, p <= q < p + count -> region_free r q = true.

Lemma free_run_iff r p count : region_wf r -> 0 < count ->
  free_run r p count <->
  start_ppn r <= p /\ p + count <= end_ppn r /\ run (bits r) count (p - start_ppn r).
Proof.
  intros Hwf Hc. split.
  - intros H. pose proof (H p ltac:(lia)) as H1. pose proof (H (p + count - 1) ltac:(lia)) as H2.
    unfold region_free in H1, H2. zbool. split_and!; [lia|lia|].
    intros j Hj. specialize (H (j + start_ppn r) ltac:(lia)). unfold region_free in H. zbool.
    replace (j + start_ppn r - start_ppn r) with j in * by lia. done.
  - intros (H1 & H2 & Hrun) q Hq. unfold region_free.
    rewrite Hrun by lia. zcases; done || lia.
Qed.

Lemma region_alloc_contiguous_spec r count m : region_wf r -> 0 < count ->
  (exists p r', region_alloc_contiguous r count m =
       Ret (Some (zrange p (p + count)), r', zero_frames m (zrange p (p + count))) /\
     region_wf r' /\ start_ppn r' = start_ppn r /\ end_ppn r' = end_ppn r /\
     free_run r p count /\ (forall p', free_run r p' count -> p <= p') /\
     forall q, region_free r' q =
       if (p <=? q) && (q <? p + count) then false else region_free r q) \/
  (region_alloc_contiguous r count m = Ret (None, r, m) /\
     forall p, ~ free_run r p count).
Proof.
  intros Hwf Hc. pose proof (region_len r Hwf) as Hlen. pose proof (rw_range r Hwf) as Hr.
  unfold region_alloc_contiguous. destruct (Z.eqb_spec count 0); [lia|].
  rewrite usub_Ret by lia. cbn [mbind outcome_bind].
  destruct (Z.ltb_spec (end_ppn r - start_ppn r) count).
  { right. split; [done|]. intros p Hrun. apply free_run_iff in Hrun; [lia|done|done]. }
  destruct (contig_scan_spec (bits r) count (end_ppn r - start_ppn r) 0 0 0)
    as [(s & -> & Hs & Hsn & Hrun & Hlow)|[-> Hnone]];
    try lia; try (unfold u64_bound; lia); cbn [mbind outcome_bind].
  - left. destruct (contig_mark_fold (start_ppn r) s 0 count (bits r) [] m)
      as (bs & -> & Hu & Hl & Hb); [apply Hwf|lia..|]. cbn [mbind outcome_bind].
    exists (start_ppn r + s), (mkRegion bs (start_ppn r) (end_ppn r)).
    replace (start_ppn r + s + 0) with (start_ppn r + s) by lia.
    split_and!; try done.
    + constructor; cbn; [done|lia| |].
      * unfold zlen in *. rewrite Hl. apply Hwf.
      * intros i Hi. rewrite Hb by lia. rewrite (rw_pad r Hwf) by done.
        zcases; done.
    + apply free_run_iff; [done|done|]. split_and!; [lia|lia|].
      replace (start_ppn r + s - start_ppn r) with s by lia. done.
    + intros p' Hp'. apply free_run_iff in Hp' as (H1 & H2 & H3); [|done|done].
      specialize (Hlow (p' - start_ppn r)). lia.
    + intros q. unfold region_free; cbn.
      destruct (Z.leb_spec (start_ppn r) q); cbn; [|zcases; done || lia].
      rewrite Hb by lia. zcases; try done; try lia; btauto.
  - right. split; [done|]. intros p Hp.
    apply free_run_iff in Hp as (H1 & H2 & H3); [|done|done].
    apply (Hnone (p - start_ppn r)); [lia|lia|done].
Qed.

(** ** Counting *)

Lemma count_zeros_eq w : count_zeros w = zcount (fun i => negb (Z.testbit w i)) (zrange 0 64).
Proof.
  unfold count_zeros, zcount. f_equal.
  induction (zrange 0 64) as [|i l IH]; [done|]. cbn [List.filter].
  rewrite filter_cons, IH. destruct (Z.testbit w i); cbn; case_decide; done.
Qed.

Lemma usum_spec l acc : Forall (fun x => 0 <= x) l ->
  acc + fold_right Z.add 0 l < u64_bound ->
  ofold uadd l acc = Ret (acc + fold_right Z.add 0 l).
Proof.
  revert acc. induction l as [|x l IH]; intros acc Hl Hb; cbn in *; [f_equal; lia|].
  apply Forall_cons_1 in Hl as [Hx Hl].
  assert (0 <= fold_right Z.add 0 l).
  { clear -Hl. induction Hl; cbn; lia. }
  rewrite uadd_Ret by lia. cbn. rewrite IH by (done || lia). f_equal. lia.
Qed.

Lemma words_count ws :
  fold_right Z.add 0 (count_zeros <$> ws) =
  zcount (fun i => negb (rbit ws i)) (zrange 0 (64 * zlen ws)).
Proof.
  induction ws as [|w ws IH]; [rewrite zrange_nil by (unfold zlen; cbn; lia); done|].
  cbn [fmap list_fmap fold_right]. rewrite IH, count_zeros_eq.
  assert (zlen (w :: ws) = 1 + zlen ws) as -> by (unfold zlen; cbn [length]; lia).
  pose proof (zlen_nonneg ws).
  rewrite (zrange_app 0 64 (64 * (1 + zlen ws))) by lia. rewrite zcount_app.
  apply f_equal2.
  - apply zcount_ext. intros i Hi%elem_of_zrange. rewrite rbit_cons by lia.
    zcases; [done|lia].
  - replace (zrange 64 (64 * (1 + zlen ws)))
      with (zrange (64 + 0) (64 + 64 * zlen ws)) by (f_equal; lia).
    rewrite zrange_shift, zcount_fmap. apply zcount_ext.
    intros i Hi%elem_of_zrange. rewrite rbit_cons by lia. zcases; [lia|].
    do 2 f_equal. lia.
Qed.

(** [free_pages] is the number of free frames of the region. *)
Lemma free_pages_spec r : region_wf r ->
  free_pages r = Ret (zcount (region_free r) (zrange (start_ppn r) (end_ppn r))).
Proof.
  intros Hwf. pose proof (region_len r Hwf) as Hlen. pose proof (rw_range r Hwf) as Hr.
  set (n := end_ppn r - start_ppn r) in *.
  assert (fold_right Z.add 0 (count_zeros <$> bits r) =
          zcount (region_free r) (zrange (start_ppn r) (end_ppn r))) as Hc.
  { rewrite words_count, (zrange_app 0 n) by lia. rewrite zcount_app.
    rewrite (zcount_false _ (zrange n _)), Z.add_0_r.
    - replace (start_ppn r) with (start_ppn r + 0) at 1 by lia.
      replace (end_ppn r) with (start_ppn r + n) by lia.
      rewrite zrange_shift, zcount_fmap. apply zcount_ext.
      intros i Hi%elem_of_zrange. unfold region_free.
      replace (start_ppn r + i - start_ppn r) with i by lia. zcases; done || lia.
    - intros i Hi%elem_of_zrange. rewrite (rw_pad r Hwf) by lia. done. }
  unfold free_pages, usum. rewrite usum_spec.
  - f_equal. lia.
  - apply Forall_fmap, Forall_true. intros w. cbn. unfold count_zeros. apply zlen_nonneg.
  - rewrite Hc. pose proof (zcount_bounds (region_free r) (zrange (start_ppn r) (end_ppn r))).
    unfold zlen in *. rewrite length_zrange in *. unfold u64_bound. lia.
Qed.
