(* ===== verification/FrameSpec.v ===== *)
(** * The frame allocator as a set of free frames

    [FrameAllocator] over its regions, the reference-counted handles and the
    public functions [frame_alloc], [frame_dealloc], [frame_alloc_continue],
    [frame_alloc_persist] and [frame_dealloc_persist]
    (os/src/mm/frame_allocator.rs), shown to implement set operations on the
    frames that are free.  [world_wf] is the invariant of the kernel globals:
    a frame has a live handle exactly when the bitmaps mark it as used. *)

From S2P Require Import Prelude Config Address BitField Memory FrameAlloc.

(** ** The abstract state *)

Definition in_region (r : FrameRegionMap) (p : Z) : bool :=
  (start_ppn r <=? p) && (p <? end_ppn r).

Definition rs_managed (rs : list FrameRegionMap) (p : Z) : bool :=
  existsb (fun r => in_region r p) rs.
Definition rs_free (rs : list FrameRegionMap) (p : Z) : bool :=
  existsb (fun r => region_free r p) rs.

Definition fa_managed (fa : FrameAllocator) : Z -> bool := rs_managed (regions fa).
Definition fa_free (fa : FrameAllocator) : Z -> bool := rs_free (regions fa).

Definition rdisj (r1 r2 : FrameRegionMap) : Prop :=
  end_ppn r1 <= start_ppn r2 \/ end_ppn r2 <= start_ppn r1.

Fixpoint rs_wf (rs : list FrameRegionMap) : Prop :=
  match rs with
  | [] => True
  | r :: rs' => region_wf r /\ Forall (rdisj r) rs' /\ rs_wf rs'
  end.

Definition fa_wf (fa : FrameAllocator) : Prop := rs_wf (regions fa).

(** The ranges of the regions, which no operation changes. *)
Definition rngs (rs : list FrameRegionMap) : list (Z * Z) :=
  (fun r => (start_ppn r, end_ppn r)) <$> rs.

(** ** Lemmas on lists of regions *)

Lemma rs_managed_cons r rs p : rs_managed (r :: rs) p = in_region r p || rs_managed rs p.
Proof. done. Qed.

Lemma rs_free_cons r rs p : rs_free (r :: rs) p = region_free r p || rs_free rs p.
Proof. done. Qed.

Lemma rs_managed_snoc rs r p : rs_managed (rs ++ [r]) p = rs_managed rs p || in_region r p.
Proof. unfold rs_managed. rewrite existsb_app. cbn [existsb]. rewrite orb_false_r. done. Qed.

Lemma rs_free_snoc rs r p : rs_free (rs ++ [r]) p = rs_free rs p || region_free r p.
Proof. unfold rs_free. rewrite existsb_app. cbn [existsb]. rewrite orb_false_r. done. Qed.

Arguments rs_managed : simpl never.
Arguments rs_free : simpl never.

Lemma rdisj_rngs r rs rs' : rngs rs = rngs rs' ->
  Forall (rdisj r) rs -> Forall (rdisj r) rs'.
Proof.
  revert rs'. induction rs as [|r1 rs IH]; intros [|r2 rs'] E H; try done.
  injection E as E1 E2 E. apply Forall_cons_1 in H as [H1 H2].
  constructor; [unfold rdisj in *; lia|]. by apply IH.
Qed.

Lemma rdisj_head r r' rs : start_ppn r' = start_ppn r -> end_ppn r' = end_ppn r ->
  Forall (rdisj r) rs -> Forall (rdisj r') rs.
Proof.
  intros E1 E2. apply Forall_impl. unfold rdisj. intros r2. lia.
Qed.

Lemma region_free_in r p : region_free r p = true -> in_region r p = true.
Proof. unfold region_free, in_region. intros H. zbool. zcases; done || lia. Qed.

Lemma rs_free_managed rs p : rs_free rs p = true -> rs_managed rs p = true.
Proof.
  unfold rs_free, rs_managed. rewrite !existsb_exists.
  intros (r & Hin & H). exists r. split; [done|]. by apply region_free_in.
Qed.

(** A frame of one region belongs to no region disjoint from it. *)
Lemma disj_not_managed r rs p : Forall (rdisj r) rs -> in_region r p = true ->
  rs_managed rs p = false.
Proof.
  intros H Hp. unfold rs_managed. apply not_true_is_false.
  rewrite existsb_exists. intros (r2 & Hin & H2).
  rewrite List.Forall_forall in H. specialize (H r2 Hin).
  unfold rdisj, in_region in *. zbool. lia.
Qed.

Lemma disj_not_free r rs p : Forall (rdisj r) rs -> in_region r p = true ->
  rs_free rs p = false.
Proof.
  intros H Hp. apply not_true_is_false. intros Hf%rs_free_managed.
  rewrite (disj_not_managed r rs p H Hp) in Hf. done.
Qed.

Lemma rs_managed_rngs rs rs' p : rngs rs = rngs rs' -> rs_managed rs p = rs_managed rs' p.
Proof.
  revert rs'. induction rs as [|r rs IH]; intros [|r' rs'] E; try done.
  injection E as E1 E2 E. rewrite !rs_managed_cons, (IH rs' E). unfold in_region.
  rewrite E1, E2. done.
Qed.

Lemma rs_managed_range rs p : rs_wf rs -> rs_managed rs p = true -> 0 < p < 2 ^ 36.
Proof.
  induction rs as [|r rs IH]; cbn [rs_wf]; [done|]. intros (Hr & _ & Hrs) H.
  rewrite rs_managed_cons in H.
  apply orb_true_iff in H as [H|H]; [|by apply IH].
  pose proof (rw_range r Hr). unfold in_region in H. zbool. lia.
Qed.

(** ** Allocation *)

Lemma regions_alloc_spec rs : rs_wf rs ->
  (exists p rs', regions_alloc rs = Ret (Some p, rs') /\ rs_wf rs' /\
     rngs rs' = rngs rs /\ rs_free rs p = true /\
     forall q, rs_free rs' q = if q =? p then false else rs_free rs q) \/
  (regions_alloc rs = Ret (None, rs) /\ forall q, rs_free rs q = false).
Proof.
  induction rs as [|r rs IH]; cbn [rs_wf].
  { intros _. right. done. }
  intros (Hr & Hd & Hrs). cbn [regions_alloc].
  destruct (region_alloc_spec r Hr)
    as [(p & r' & -> & Hr' & Hf & _ & Hs & He & Hq)|[-> Hnone]]; cbn [mbind outcome_bind].
  - left. exists p, (r' :: rs). split; [done|]. split_and!.
    + cbn. split_and!; [done| |done]. by apply (rdisj_head r).
    + cbn. rewrite Hs, He. done.
    + rewrite rs_free_cons, Hf. done.
    + intros q. rewrite !rs_free_cons, Hq. destruct (Z.eqb_spec q p) as [->|]; [|done]. cbn.
      apply (disj_not_free r); [done|by apply region_free_in].
  - destruct (IH Hrs) as [(p & rs' & -> & Hrs' & Hn & Hf & Hq)|[-> Hall]];
      cbn [mbind outcome_bind].
    + left. exists p, (r :: rs'). split; [done|]. split_and!.
      * cbn. split_and!; [done| |done]. by apply (rdisj_rngs r rs).
      * cbn. f_equal. done.
      * rewrite rs_free_cons, Hf. btauto.
      * intros q. rewrite !rs_free_cons, Hq, Hnone. done.
    + right. split; [done|]. intros q. rewrite rs_free_cons, Hnone, Hall. done.
Qed.

(** ** Deallocation *)

Lemma regions_dealloc_spec rs p : rs_wf rs ->
  if rs_managed rs p && negb (rs_free rs p)
  then exists rs', regions_dealloc rs p = Ret rs' /\ rs_wf rs' /\ rngs rs' = rngs rs /\
         forall q, rs_free rs' q = if q =? p then true else rs_free rs q
  else regions_dealloc rs p = Panic.
Proof.
  induction rs as [|r rs IH]; cbn [rs_wf]; [done|].
  intros (Hr & Hd & Hrs). cbn [regions_dealloc].
  fold (in_region r p). rewrite rs_managed_cons, rs_free_cons.
  destruct (in_region r p) eqn:Hin; cbn [orb].
  - rewrite (disj_not_free r rs p Hd Hin), orb_false_r.
    pose proof (region_dealloc_spec r p Hr) as H.
    destruct (region_free r p) eqn:Hf; cbn [negb andb].
    + rewrite H; [done|]. unfold in_region in Hin. zbool. lia.
    + destruct H as (r' & -> & Hr' & Hs & He & Hq).
      { unfold in_region in Hin. zbool. lia. }
      cbn [mbind outcome_bind]. exists (r' :: rs). split; [done|]. split_and!.
      * cbn. split_and!; [done| |done]. by apply (rdisj_head r).
      * cbn. rewrite Hs, He. done.
      * intros q. rewrite !rs_free_cons, Hq. destruct (Z.eqb_spec q p); done.
  - assert (region_free r p = false) as ->.
    { apply not_true_is_false. intros H%region_free_in. congruence. }
    cbn [orb]. specialize (IH Hrs).
    destruct (rs_managed rs p && negb (rs_free rs p)).
    + destruct IH as (rs' & -> & Hrs' & Hn & Hq). cbn [mbind outcome_bind].
      exists (r :: rs'). split; [done|]. split_and!.
      * cbn. split_and!; [done| |done]. by apply (rdisj_rngs r rs).
      * cbn. f_equal. done.
      * intros q. rewrite !rs_free_cons, Hq. destruct (Z.eqb_spec q p); [btauto|done].
    + rewrite IH. done.
Qed.

(** ** Contiguous allocation *)

Lemma regions_alloc_contiguous_spec rs count m : rs_wf rs -> 0 < count ->
  (exists p rs', regions_alloc_contiguous rs count m =
       Ret (Some (zrange p (p + count)), rs', zero_frames m (zrange p (p + count))) /\
     rs_wf rs' /\ rngs rs' = rngs rs /\
     (forall q, p <= q < p + count -> rs_free rs q = true) /\
     forall q, rs_free rs' q =
       if (p <=? q) && (q <? p + count) then false else rs_free rs q) \/
  (regions_alloc_contiguous rs count m = Ret (None, rs, m) /\
     forall r p, r ∈ rs -> ~ free_run r p count).
Proof.
  intros Hwf Hc. induction rs as [|r rs IH]; cbn [rs_wf] in Hwf.
  { right. split; [done|]. intros r p Hr. set_solver. }
  destruct Hwf as (Hr & Hd & Hrs). cbn [regions_alloc_contiguous].
  destruct (region_alloc_contiguous_spec r count m Hr Hc)
    as [(p & r' & -> & Hr' & Hs & He & Hrun & _ & Hq)|[-> Hnone]]; cbn [mbind outcome_bind].
  - left. exists p, (r' :: rs). split; [done|]. split_and!.
    + cbn. split_and!; [done| |done]. by apply (rdisj_head r).
    + cbn. rewrite Hs, He. done.
    + intros q Hin. rewrite rs_free_cons, Hrun by done. done.
    + intros q. rewrite !rs_free_cons, Hq.
      destruct ((p <=? q) && (q <? p + count)) eqn:E; [|done]. zbool. cbn.
      apply (disj_not_free r); [done|]. apply region_free_in, Hrun. lia.
  - destruct (IH Hrs) as [(p & rs' & -> & Hrs' & Hn & Hf & Hq)|[-> Hall]];
      cbn [mbind outcome_bind].
    + left. exists p, (r :: rs'). split; [done|]. split_and!.
      * cbn. split_and!; [done| |done]. by apply (rdisj_rngs r rs).
      * cbn. f_equal. done.
      * intros q Hin. rewrite rs_free_cons, Hf by done. btauto.
      * intros q. rewrite !rs_free_cons, Hq.
        destruct ((p <=? q) && (q <? p + count)) eqn:E; [|done]. zbool.
        assert (region_free r q = false) as ->; [|done].
        apply not_true_is_false. intros Hfr%region_free_in.
        pose proof (disj_not_free r rs q Hd Hfr) as H1. rewrite Hf in H1 by lia. done.
    + right. split; [done|]. intros r2 p2 [->|Hin]%elem_of_cons; [done|]. by apply Hall.
Qed.

(** ** Counting *)

(** All frames that the regions manage. *)
Definition managed_list (rs : list FrameRegionMap) : list Z :=
  rs ≫= fun r => zrange (start_ppn r) (end_ppn r).

Arguments managed_list : simpl never.

Lemma managed_list_spec rs p : p ∈ managed_list rs <-> rs_managed rs p = true.
Proof.
  unfold managed_list. rewrite list_elem_of_bind. unfold rs_managed.
  rewrite existsb_exists. split.
  - intros (r & Hp%elem_of_zrange & Hr). exists r. split; [by apply list_elem_of_In|].
    unfold in_region. zcases; done || lia.
  - intros (r & Hr%list_elem_of_In & Hp). exists r. split; [|done].
    apply elem_of_zrange. unfold in_region in Hp. zbool. lia.
Qed.

Lemma NoDup_managed_list rs : rs_wf rs -> NoDup (managed_list rs).
Proof.
  induction rs as [|r rs IH]; cbn [rs_wf]; [constructor|].
  intros (Hr & Hd & Hrs). unfold managed_list. cbn [mbind list_bind].
  apply list.NoDup_app. split_and!; [apply NoDup_zrange| |by apply IH].
  intros p Hp%elem_of_zrange Hp2. apply managed_list_spec in Hp2.
  rewrite (disj_not_managed r) in Hp2; [done|done|].
  unfold in_region. zcases; done || lia.
Qed.

Lemma managed_list_bound rs : rs_wf rs -> zlen (managed_list rs) < 2 ^ 36.
Proof.
  intros Hwf. enough (length (managed_list rs) <= length (zrange 1 (2 ^ 36)))%nat as H.
  { rewrite length_zrange in H. unfold zlen. lia. }
  apply submseteq_length, NoDup_submseteq; [by apply NoDup_managed_list|].
  intros p Hp%managed_list_spec. apply elem_of_zrange.
  pose proof (rs_managed_range rs p Hwf Hp). lia.
Qed.

Lemma managed_count_cons r rs : rs_wf (r :: rs) ->
  zcount (rs_free (r :: rs)) (managed_list (r :: rs)) =
  zcount (region_free r) (zrange (start_ppn r) (end_ppn r)) +
  zcount (rs_free rs) (managed_list rs).
Proof.
  cbn [rs_wf]. intros (Hr & Hd & Hrs). unfold managed_list. cbn [mbind list_bind].
  rewrite zcount_app. apply f_equal2; apply zcount_ext; intros p Hp; rewrite rs_free_cons.
  - apply elem_of_zrange in Hp.
    rewrite (disj_not_free r rs p Hd), orb_false_r; [done|].
    unfold in_region. zcases; done || lia.
  - apply (managed_list_spec rs) in Hp.
    assert (region_free r p = false) as ->; [|done].
    apply not_true_is_false. intros H%region_free_in.
    rewrite (disj_not_managed r rs p Hd H) in Hp. done.
Qed.

Lemma remaining_fold rs acc : rs_wf rs -> 0 <= acc ->
  acc + zcount (rs_free rs) (managed_list rs) < u64_bound ->
  ofold (fun acc r => n ← free_pages r; uadd acc n) rs acc =
  Ret (acc + zcount (rs_free rs) (managed_list rs)).
Proof.
  revert acc. induction rs as [|r rs IH]; intros acc Hwf Hacc Hb.
  { change (managed_list []) with (@nil Z). rewrite zcount_nil, Z.add_0_r. done. }
  rewrite managed_count_cons in * by done. destruct Hwf as (Hr & Hd & Hrs).
  cbn [ofold]. rewrite free_pages_spec by done. cbn [mbind outcome_bind].
  pose proof (zcount_bounds (region_free r) (zrange (start_ppn r) (end_ppn r))).
  pose proof (zcount_bounds (rs_free rs) (managed_list rs)).
  rewrite uadd_Ret by lia. cbn [mbind outcome_bind].
  rewrite IH by (done || lia). f_equal. lia.
Qed.

(** [remaining_frames] never overflows and returns the number of frames
    that are managed and free. *)
Theorem remaining_frames_counts fa : fa_wf fa ->
  fa_remaining_frames fa = Ret (zcount (fa_free fa) (managed_list (regions fa))).
Proof.
  intros Hwf. unfold fa_remaining_frames. rewrite remaining_fold.
  - f_equal.
  - done.
  - lia.
  - pose proof (managed_list_bound _ Hwf).
    pose proof (zcount_bounds (rs_free (regions fa)) (managed_list (regions fa))).
    unfold u64_bound. lia.
Qed.

Lemma remaining_frames_counts_witness :
  exists fa, fa_add_memory_region FrameAllocator_new 0x80000000 0x80046000 = Ret fa /\
    fa_remaining_frames fa = Ret 70.
Proof.
  eexists. split; [vm_compute; reflexivity|].
  rewrite remaining_frames_counts; [vm_compute; reflexivity|].
  destruct (FrameRegionMap_new_spec 0x80000000 0x80046000) as (r & E & Hwf & _);
    [vm_compute; split; congruence | vm_compute; congruence |].
  cbn. split; [|split; [constructor|done]].
  vm_compute in E. injection E as <-. exact Hwf.
Defined.

(** ** The kernel globals *)

Record world_wf (w : world) : Prop := {
  ww_fa : fa_wf (w_fa w);
  ww_refs : forall p, is_Some (w_refs w !! p) <->
    fa_managed (w_fa w) p = true /\ fa_free (w_fa w) p = false;
  ww_pos : forall p n, w_refs w !! p = Some n -> 1 <= n;
  ww_vec : forall p q, w_frame_vec w !! p = Some q -> q = p /\ is_Some (w_refs w !! p)
}.

Lemma live_range w p : world_wf w -> is_Some (w_refs w !! p) -> 0 < p < 2 ^ 36.
Proof.
  intros Hwf [Hm _]%(ww_refs w Hwf). by apply (rs_managed_range _ _ (ww_fa w Hwf)).
Qed.

(** How many managed frames are free. *)
Definition free_count (w : world) : Z :=
  zcount (fa_free (w_fa w)) (managed_list (regions (w_fa w))).

Lemma managed_list_rngs rs rs' : rngs rs = rngs rs' -> managed_list rs = managed_list rs'.
Proof.
  revert rs'. induction rs as [|r rs IH]; intros [|r' rs'] E; try done.
  injection E as E1 E2 E. unfold managed_list in *. cbn [mbind list_bind].
  rewrite E1, E2. f_equal. by apply IH.
Qed.

(** What [frame_alloc] promises: a frame that no handle refers to, cleared,
    with one handle; nothing else changes. *)
Record alloc_post (w : world) (p : Z) (w' : world) : Prop := {
  ap_wf : world_wf w';
  ap_range : 0 < p < 2 ^ 36;
  ap_fresh : w_refs w !! p = None;
  ap_free : fa_free (w_fa w) p = true;
  ap_free' : forall q, fa_free (w_fa w') q = if q =? p then false else fa_free (w_fa w) q;
  ap_managed : forall q, fa_managed (w_fa w') q = fa_managed (w_fa w) q;
  ap_mem : w_mem w' = zero_frame (w_mem w) p;
  ap_refs : w_refs w' = <[p := 1]> (w_refs w);
  ap_vec : w_frame_vec w' = w_frame_vec w;
  ap_count : free_count w' = free_count w - 1
}.

Lemma free_not_live w p : world_wf w -> fa_free (w_fa w) p = true -> w_refs w !! p = None.
Proof.
  intros Hwf Hf. destruct (w_refs w !! p) as [n|] eqn:E; [|done].
  destruct (proj1 (ww_refs w Hwf p)) as [_ H]; [by rewrite E|congruence].
Qed.

Lemma frame_alloc_spec w : world_wf w ->
  (exists p w', frame_alloc w = Ret (Some p, w') /\ alloc_post w p w') \/
  (frame_alloc w = Ret (None, w) /\ forall p, fa_free (w_fa w) p = false).
Proof.
  intros Hwf. unfold frame_alloc, arc_new, fa_alloc. st_unfold.
  destruct (regions_alloc_spec _ (ww_fa w Hwf))
    as [(p & rs & -> & Hrs & Hn & Hf & Hq)|[-> Hnone]].
  - left. pose proof (rs_free_managed _ _ Hf) as Hm.
    pose proof (rs_managed_range _ _ (ww_fa w Hwf) Hm) as Hr.
    unfold FrameTracker_new. rewrite frame_base_eq by lia. st_unfold. cbn.
    pose proof (free_not_live w p Hwf Hf) as Hnl.
    eexists _, _. split; [done|]. constructor; cbn; try done.
    2:{ intros q. apply rs_managed_rngs. done. }
    2:{ unfold free_count; cbn. rewrite (managed_list_rngs _ _ Hn).
        rewrite <- (zcount_remove _ _ p) by (done || by apply NoDup_managed_list, Hwf
          || by apply managed_list_spec).
        apply zcount_ext. intros q _. apply Hq. }
    constructor; cbn; [done| | |].
    + intros q. unfold fa_managed, fa_free; cbn. rewrite (rs_managed_rngs rs _ q Hn), Hq.
      destruct (Z.eqb_spec q p) as [->|Hne].
      * rewrite lookup_insert_eq. split; [done|]. intros _. by eexists.
      * rewrite lookup_insert_ne by done. apply (ww_refs w Hwf).
    + intros q n. destruct (decide (q = p)) as [->|].
      * rewrite lookup_insert_eq. intros [= <-]. lia.
      * rewrite lookup_insert_ne by done. apply (ww_pos w Hwf).
    + intros q q' Hv. destruct (ww_vec w Hwf q q' Hv) as [-> Hl]. split; [done|].
      destruct (decide (q = p)) as [->|]; [rewrite Hnl in Hl; by destruct Hl|].
      rewrite lookup_insert_ne by done. done.
  - right. split; [|done]. destruct w as [m [rs] refs v]. done.
Qed.

Lemma frame_alloc_available w : world_wf w -> 0 < free_count w ->
  exists p w', frame_alloc w = Ret (Some p, w') /\ alloc_post w p w'.
Proof.
  intros Hwf Hc. destruct (frame_alloc_spec w Hwf) as [H|[_ Hn]]; [done|].
  unfold free_count in Hc. rewrite zcount_false in Hc by done. lia.
Qed.

(** The drop of a handle: the last one gives the frame back. *)
Lemma arc_drop_last w p : world_wf w -> w_refs w !! p = Some 1 ->
  w_frame_vec w !! p = None ->
  exists w', arc_drop p w = Ret (tt, w') /\ world_wf w' /\
    w_mem w' = w_mem w /\ w_refs w' = delete p (w_refs w) /\
    w_frame_vec w' = w_frame_vec w /\
    (forall q, fa_managed (w_fa w') q = fa_managed (w_fa w) q) /\
    (forall q, fa_free (w_fa w') q = if q =? p then true else fa_free (w_fa w) q).
Proof.
  intros Hwf Hp Hv. unfold arc_drop, frame_dealloc, fa_dealloc. st_unfold.
  rewrite Hp. cbn. destruct (proj1 (ww_refs w Hwf p)) as [Hm Hf]; [by eexists|].
  pose proof (regions_dealloc_spec (regions (w_fa w)) p (ww_fa w Hwf)) as H.
  unfold fa_managed, fa_free in Hm, Hf. rewrite Hm, Hf in H. cbn in H.
  destruct H as (rs & -> & Hrs & Hn & Hq). cbn.
  eexists. split; [done|]. cbn. split_and!; try done.
  2:{ intros q. by apply rs_managed_rngs. }
  constructor; cbn; [done| | |].
  - intros q. unfold fa_managed, fa_free; cbn. rewrite (rs_managed_rngs rs _ q Hn), Hq.
    destruct (Z.eqb_spec q p) as [->|Hne].
    + rewrite lookup_delete_eq. split; [by intros [? ?]|]. by intros [_ ?].
    + rewrite lookup_delete_ne by done. apply (ww_refs w Hwf).
  - intros q n Hq'. apply lookup_delete_Some in Hq' as [_ Hq']. by apply (ww_pos w Hwf q).
  - intros q q' Hvq. destruct (ww_vec w Hwf q q' Hvq) as [-> Hl]. split; [done|].
    destruct (decide (q = p)) as [->|]; [congruence|].
    rewrite lookup_delete_ne by done. done.
Qed.

Lemma arc_drop_shared w p n : world_wf w -> w_refs w !! p = Some n -> n <> 1 ->
  exists w', arc_drop p w = Ret (tt, w') /\ world_wf w' /\
    w_mem w' = w_mem w /\ w_refs w' = <[p := n - 1]> (w_refs w) /\
    w_frame_vec w' = w_frame_vec w /\ w_fa w' = w_fa w.
Proof.
  intros Hwf Hp Hn. unfold arc_drop. st_unfold. rewrite Hp.
  destruct (Z.eqb_spec n 1); [done|]. eexists. split; [done|]. cbn.
  pose proof (ww_pos w Hwf p n Hp). split_and!; try done.
  constructor; cbn; [apply Hwf| | |].
  - intros q. destruct (decide (q = p)) as [->|].
    + rewrite lookup_insert_eq. rewrite <- (ww_refs w Hwf p), Hp. done.
    + rewrite lookup_insert_ne by done. apply (ww_refs w Hwf).
  - intros q k. destruct (decide (q = p)) as [->|].
    + rewrite lookup_insert_eq. intros [= <-]. lia.
    + rewrite lookup_insert_ne by done. apply (ww_pos w Hwf).
  - intros q q' Hv. destruct (ww_vec w Hwf q q' Hv) as [-> Hl]. split; [done|].
    destruct (decide (q = p)) as [->|].
    + rewrite lookup_insert_eq. by eexists.
    + rewrite lookup_insert_ne by done. done.
Qed.

(** ** Building up the allocator *)

Definition empty_world : world := mkWorld ∅ FrameAllocator_new ∅ ∅.

Lemma rs_wf_snoc rs r : rs_wf rs -> region_wf r -> Forall (fun r' => rdisj r' r) rs ->
  rs_wf (rs ++ [r]).
Proof.
  induction rs as [|r1 rs IH]; cbn [app rs_wf]; intros Hrs Hr Hd; [done|].
  destruct Hrs as (H1 & H2 & H3). apply Forall_cons_1 in Hd as [Hd1 Hd].
  split_and!; [done| |by apply IH]. apply Forall_app. split; [done|].
  by constructor.
Qed.

Lemma add_memory_region_spec w s e : world_wf w ->
  0 < s / PAGE_SIZE <= e / PAGE_SIZE -> e / PAGE_SIZE < 2 ^ 36 ->
  Forall (fun r => end_ppn r <= s / PAGE_SIZE \/ e / PAGE_SIZE <= start_ppn r)
    (regions (w_fa w)) ->
  exists w', add_memory_region s e w = Ret (tt, w') /\ world_wf w' /\
    w_refs w' = w_refs w /\ w_mem w' = w_mem w /\
    forall p, fa_free (w_fa w') p =
      fa_free (w_fa w) p || (s / PAGE_SIZE <=? p) && (p <? e / PAGE_SIZE).
Proof.
  intros Hwf Hse Hb Hd. unfold add_memory_region, fa_add_memory_region. st_unfold.
  destruct (FrameRegionMap_new_spec s e Hse Hb) as (r & -> & Hr & Hs & He & Hf).
  cbn. eexists. split; [done|]. cbn.
  split_and!; try done.
  2:{ intros p. unfold fa_free at 1; cbn. rewrite rs_free_snoc, Hf. done. }
  assert (fa_wf (mkFA (regions (w_fa w) ++ [r]))) as Hfa.
  { apply rs_wf_snoc; [apply Hwf|done|]. eapply Forall_impl; [|exact Hd].
    intros r'. unfold rdisj. rewrite Hs, He. lia. }
  constructor; cbn; [done| |apply Hwf|apply Hwf].
  intros p. unfold fa_free at 1, fa_managed at 1; cbn.
  rewrite rs_free_snoc, rs_managed_snoc, Hf, (ww_refs w Hwf p).
  unfold in_region. rewrite Hs, He. fold (fa_managed (w_fa w) p). fold (fa_free (w_fa w) p).
  destruct ((s / PAGE_SIZE <=? p) && (p <? e / PAGE_SIZE)) eqn:E; [|rewrite !orb_false_r; done].
  rewrite !orb_true_r. split; [|by intros [_ ?]]. intros [Hm Hfr]. exfalso.
  unfold fa_managed, rs_managed in Hm. apply existsb_exists in Hm as (r2 & Hin & Hm).
  rewrite List.Forall_forall in Hd. specialize (Hd r2 Hin). unfold in_region in Hm.
  zbool. lia.
Qed.

Lemma empty_world_wf : world_wf empty_world.
Proof.
  constructor; cbn; [done| | |].
  - intros p. rewrite lookup_empty. split; [by intros [? ?]|by intros [? ?]].
  - intros p n. rewrite lookup_empty. done.
  - intros p q. rewrite lookup_empty. done.
Qed.

(** A machine with the 70 frames from 0x80000 on, as the witnesses use it. *)
Definition world70 : world :=
  match add_memory_region 0x80000000 0x80046000 empty_world with
  | Ret (_, w) => w
  | Panic => empty_world
  end.

Lemma world70_wf : world_wf world70.
Proof.
  destruct (add_memory_region_spec empty_world 0x80000000 0x80046000)
    as (w' & E & Hwf & _); [apply empty_world_wf|vm_compute; split; congruence
    |vm_compute; congruence|constructor|].
  unfold world70. rewrite E. done.
Qed.

(** ** The public functions *)

(** C5: In a consistent kernel state [frame_alloc] never panics.  It returns
    a frame exactly when one is free; that frame had no live handle, is within
    the managed memory, is cleared, gets one handle, and is the only frame
    whose contents, handle count or bitmap state change; the state stays
    consistent. *)
Theorem frame_alloc_fresh_zeroed w : world_wf w ->
  (exists p w', frame_alloc w = Ret (Some p, w') /\ alloc_post w p w' /\
     (forall i, read_word (w_mem w') p i = 0) /\
     forall f i, f <> p -> read_word (w_mem w') f i = read_word (w_mem w) f i) \/
  (frame_alloc w = Ret (None, w) /\ forall p, fa_free (w_fa w) p = false).
Proof.
  intros Hwf. destruct (frame_alloc_spec w Hwf) as [(p & w' & E & Hp)|H]; [left|by right].
  exists p, w'. split_and!; [done|done| |]; intros; rewrite (ap_mem w p w' Hp), read_zero_frame.
  - rewrite decide_True by done. done.
  - rewrite decide_False by done. done.
Qed.

Lemma frame_alloc_fresh_zeroed_witness :
  world_wf world70 /\ exists w', frame_alloc world70 = Ret (Some 0x80000, w') /\ world_wf w'.
Proof.
  split; [apply world70_wf|].
  destruct (frame_alloc_fresh_zeroed world70 world70_wf)
    as [(p & w' & E & H & _)|[E _]]; [|vm_compute in E; discriminate E].
  exists w'. split; [|apply H]. rewrite E. do 3 f_equal.
  apply (f_equal (fun o => match o with Ret (Some q, _) => q | _ => 0 end)) in E.
  vm_compute in E. congruence.
Defined.

(** Freeing a frame succeeds exactly when the frame belongs to a region
    and is in use; then that frame, and no other, becomes free.  A double
    free, and the free of a frame of no region, panic. *)
Theorem frame_dealloc_exact w p : fa_wf (w_fa w) ->
  if fa_managed (w_fa w) p && negb (fa_free (w_fa w) p)
  then exists w', frame_dealloc p w = Ret (tt, w') /\ fa_wf (w_fa w') /\
         w_mem w' = w_mem w /\
         forall q, fa_free (w_fa w') q = if q =? p then true else fa_free (w_fa w) q
  else frame_dealloc p w = Panic.
Proof.
  intros Hwf. pose proof (regions_dealloc_spec (regions (w_fa w)) p Hwf) as H.
  unfold frame_dealloc, fa_dealloc. st_unfold. unfold fa_managed, fa_free.
  destruct (rs_managed (regions (w_fa w)) p && negb (rs_free (regions (w_fa w)) p)).
  - destruct H as (rs & -> & Hrs & _ & Hq). eexists. split; [done|]. done.
  - rewrite H. done.
Qed.

Lemma frame_dealloc_exact_witness :
  fa_wf (w_fa world70) /\ frame_dealloc 0x80001 world70 = Panic.
Proof.
  split; [apply world70_wf|].
  exact (frame_dealloc_exact world70 0x80001 (ww_fa _ world70_wf)).
Defined.

(** C29: Allocating [count] > 0 contiguous frames returns consecutive frames
    that were all free, cleared, and now in use, and changes no other frame;
    it returns [None], changing nothing, only when no region has [count]
    consecutive free frames. *)
Theorem alloc_contiguous_sound_complete fa count m : fa_wf fa -> 0 < count ->
  (exists p fa' m', fa_alloc_contiguous fa count m = Ret (Some (zrange p (p + count)), fa', m') /\
     fa_wf fa' /\
     (forall q, p <= q < p + count -> fa_free fa q = true) /\
     (forall q, fa_free fa' q =
        if (p <=? q) && (q <? p + count) then false else fa_free fa q) /\
     (forall f i, read_word m' f i =
        if (p <=? f) && (f <? p + count) then 0 else read_word m f i)) \/
  (fa_alloc_contiguous fa count m = Ret (None, fa, m) /\
     forall r p, r ∈ regions fa -> ~ free_run r p count).
Proof.
  intros Hwf Hc. unfold fa_alloc_contiguous.
  destruct (regions_alloc_contiguous_spec (regions fa) count m Hwf Hc)
    as [(p & rs & -> & Hrs & _ & Hf & Hq)|[-> Hnone]].
  - left. eexists p, _, _. split; [done|]. split_and!; try done.
    intros f i. rewrite read_zero_frames, zmem_zrange. done.
  - right. destruct fa. done.
Qed.

Lemma alloc_contiguous_sound_complete_witness :
  exists p fa' m', fa_alloc_contiguous (w_fa world70) 3 ∅ =
    Ret (Some (zrange p (p + 3)), fa', m') /\ fa_wf fa'.
Proof.
  destruct (alloc_contiguous_sound_complete (w_fa world70) 3 ∅ (ww_fa _ world70_wf) ltac:(lia))
    as [(p & fa' & m' & E & Hwf & _)|[E _]]; [|vm_compute in E; discriminate E].
  exists p, fa', m'. split; [exact E|exact Hwf].
Defined.

(** ** Persistent frames *)

Lemma shl_shr_page p : 0 <= p < 2 ^ 52 ->
  Z.shiftr (shl64 p PAGE_SIZE_BITS) PAGE_SIZE_BITS = p.
Proof.
  intros. unfold PAGE_SIZE_BITS. rewrite shl64_small by (unfold u64_bound; lia).
  rewrite shiftr_div by lia. apply Z.div_mul. lia.
Qed.

(** A page obtained from [frame_alloc_persist] is given back by
    [frame_dealloc_persist] of the returned address: the free frames are again
    those from before the allocation, and a second release of the same
    address panics. *)
Theorem persist_roundtrip w pa w1 : world_wf w ->
  frame_alloc_persist w = Ret (Some pa, w1) ->
  world_wf w1 /\ fa_free (w_fa w1) (pa / PAGE_SIZE) = false /\
  exists w2, frame_dealloc_persist pa w1 = Ret (tt, w2) /\ world_wf w2 /\
    (forall p, fa_free (w_fa w2) p = fa_free (w_fa w) p) /\
    w_frame_vec w2 = w_frame_vec w /\
    frame_dealloc_persist pa w2 = Panic.
Proof.
  intros Hwf E. unfold frame_alloc_persist in E. st_unfold_in E.
  destruct (frame_alloc_spec w Hwf) as [(p & w' & E' & Hp)|[E' _]]; rewrite E' in E; [|done].
  pose proof (ap_fresh w p w' Hp) as Hfr. pose proof (ap_range w p w' Hp) as Hr.
  assert (w_frame_vec w' !! p = None) as Hv.
  { rewrite (ap_vec w p w' Hp). destruct (w_frame_vec w !! p) as [q|] eqn:Ev; [|done].
    destruct (ww_vec w Hwf p q Ev) as [-> [n Hn]]. congruence. }
  rewrite Hv in E. injection E as <- <-. pose proof (ap_wf w p w' Hp) as Hwf'.
  assert (shl64 p PAGE_SIZE_BITS / PAGE_SIZE = p) as Hpp.
  { rewrite <- (shl_shr_page p) at 2 by lia. unfold PAGE_SIZE_BITS at 3.
    rewrite shiftr_div by lia. done. }
  rewrite Hpp. split_and!.
  - constructor; cbn; [apply Hwf'|apply Hwf'|apply Hwf'|].
    intros q q'. destruct (decide (q = p)) as [->|].
    + rewrite lookup_insert_eq. intros [= <-]. rewrite (ap_refs w p w' Hp), lookup_insert_eq.
      split; [done|by eexists].
    + rewrite lookup_insert_ne by done. apply Hwf'.
  - cbn. rewrite (ap_free' w p w' Hp), Z.eqb_refl. done.
  - unfold frame_dealloc_persist. rewrite shl_shr_page by lia. st_unfold. cbn.
    rewrite lookup_insert_eq, delete_insert_id by done.
    set (w2 := set_frame_vec _ _). assert (w2 = w') as -> by (destruct w'; done).
    destruct (arc_drop_last w' p Hwf') as (w3 & -> & Hwf3 & _ & Hrefs3 & Hvec3 & _ & Hfree3).
    { rewrite (ap_refs w p w' Hp), lookup_insert_eq. done. }
    { done. }
    exists w3. split_and!; try done.
    + intros q. rewrite Hfree3, (ap_free' w p w' Hp).
      destruct (Z.eqb_spec q p) as [->|]; [|done]. symmetry. apply Hp.
    + rewrite Hvec3. apply Hp.
    + rewrite Hvec3, Hv. done.
Qed.

Lemma persist_roundtrip_witness :
  exists w1 w2, frame_alloc_persist world70 = Ret (Some 0x80000000, w1) /\
    frame_dealloc_persist 0x80000000 w1 = Ret (tt, w2).
Proof.
  pose proof (persist_roundtrip world70 0x80000000) as H.
  destruct (frame_alloc_persist world70) as [[[pa|] w1]|] eqn:E;
    vm_compute in E; try discriminate E.
  injection E as <- <-. destruct (H _ world70_wf eq_refl) as (_ & _ & w2 & E2 & _).
  eexists _, w2. split; [reflexivity|exact E2].
Defined.
