(* ===== verification/Pte.v ===== *)
(** * Page-table entries (os/src/mm/arch/loongarch64.rs, riscv64.rs)

    The two entry formats, bit by bit, over the vendored [bitflags] and
    [bit_field] operations.  [PteArch] is the interface that the page-table
    code uses (the [mm::arch] module selected at compile time) and [PteLaws]
    what that code relies on: a table entry is valid and leads to its table,
    a leaf entry gives back its frame.  The loongarch64 format satisfies the
    laws; the riscv64 one does not, because its table entries carry no valid
    bit. *)

From S2P Require Import Prelude Config Address BitField.

(** ** [bitflags] (os/vendor/bitflags-1.3.2/src/lib.rs) *)

Definition fl_contains (bits other : Z) : bool := Z.land bits other =? other.
Definition fl_intersects (bits other : Z) : bool := negb (Z.land bits other =? 0).
Definition fl_insert (bits other : Z) : Z := Z.lor bits other.
Definition fl_remove (bits other : Z) : Z := Z.land bits (not64 other).
Definition fl_from_bits (all bits : Z) : option Z :=
  if Z.land bits (not64 all) =? 0 then Some bits else None.
Definition fl_from_bits_truncate (all bits : Z) : Z := Z.land bits all.

(** ** [MapPermission] (os/src/mm/area.rs) *)

Definition MP_R : Z := 2.
Definition MP_W : Z := 4.
Definition MP_X : Z := 8.
Definition MP_U : Z := 16.
Definition MP_D : Z := 64.
Definition MP_all : Z := 94.

(** ** loongarch64 *)

Definition PALEN : Z := 48.

Definition la_V : Z := Z.shiftl 1 0.
Definition la_D : Z := Z.shiftl 1 1.
Definition la_PLV_USER : Z := Z.shiftl 3 2.
Definition la_MAT_NOCACHE : Z := Z.shiftl 1 4.
Definition la_GH : Z := Z.shiftl 1 6.
Definition la_P : Z := Z.shiftl 1 7.
Definition la_W : Z := Z.shiftl 1 8.
Definition la_G : Z := Z.shiftl 1 10.
Definition la_NR : Z := Z.shiftl 1 11.
Definition la_NX : Z := Z.shiftl 1 12.
Definition la_RPLV : Z := Z.shiftl 1 63.
Definition la_COW : Z := Z.shiftl 1 49.
Definition la_W_BACKUP : Z := Z.shiftl 1 48.

Definition la_all : Z :=
  fold_right Z.lor 0
    [la_V; la_D; la_PLV_USER; la_MAT_NOCACHE; la_GH; la_P; la_W; la_G; la_NR;
     la_NX; la_RPLV; la_COW; la_W_BACKUP].

Definition la_new_table (paddr : Z) : outcome Z :=
  _ ← rassert (paddr mod 0x1000 =? 0);
  Ret paddr.

Definition la_new (ppn flags : Z) : outcome Z :=
  bits ← set_bits 0 PAGE_SIZE_BITS PALEN ppn;
  Ret (Z.lor bits flags).

Definition la_empty : Z := 0.

Definition la_ppn (bits : Z) : outcome Z := get_bits bits PAGE_SIZE_BITS PALEN.

Definition la_address (bits : Z) : Z := Z.land bits 0xfffffffff000.

Definition la_flags (bits : Z) : outcome Z :=
  b ← set_bits bits PAGE_SIZE_BITS PALEN 0;
  unwrap (fl_from_bits la_all b).

Definition la_is_valid (bits : Z) : bool := negb (bits =? 0).

Definition la_writable (bits : Z) : outcome bool :=
  f ← la_flags bits; Ret (negb (Z.land f la_W =? 0)).

Definition la_readable (bits : Z) : outcome bool :=
  f ← la_flags bits; Ret (negb (negb (Z.land f la_NR =? 0))).

Definition la_executable (bits : Z) : outcome bool :=
  f ← la_flags bits; Ret (negb (negb (Z.land f la_NX =? 0))).

Definition la_set_dirty (bits : Z) : outcome Z := set_bit bits 1 true.

Definition la_set_flags (bits flags : Z) : Z :=
  let ppn_bits :=
    Z.land (Z.land bits (not64 (Z.shiftl 1 PAGE_SIZE_BITS - 1)))
           (not64 (Z.lor (shl64 7 61) (shl64 3 9))) in
  Z.lor ppn_bits flags.

Definition la_set_cow (bits : Z) : outcome Z :=
  flags ← la_flags bits;
  let flags := if fl_contains flags la_W
               then fl_remove (fl_insert flags la_W_BACKUP) la_W else flags in
  let flags := fl_insert flags la_COW in
  Ret (la_set_flags bits flags).

Definition la_is_cow (bits : Z) : outcome bool :=
  flags ← la_flags bits; Ret (fl_contains flags la_COW).

Definition la_un_cow (bits : Z) : outcome Z :=
  flags ← la_flags bits;
  let flags := if fl_contains flags la_W_BACKUP then fl_insert flags la_W else flags in
  let flags := fl_remove flags la_COW in
  let flags := fl_remove flags la_W_BACKUP in
  Ret (la_set_flags bits flags).

Definition la_clear_cow (bits : Z) : outcome Z :=
  flags ← la_flags bits;
  let flags := fl_remove flags la_COW in
  let flags := if fl_contains flags la_W_BACKUP
               then fl_remove (fl_insert flags la_W) la_W_BACKUP else flags in
  Ret (la_set_flags bits flags).

Definition la_set_ppn (bits paddr : Z) : Z :=
  let ppn := Z.shiftr paddr PAGE_SIZE_BITS in
  let flags_bits :=
    Z.lor (Z.lor (Z.land bits (Z.shiftl 1 PAGE_SIZE_BITS - 1))
                 (Z.land bits (shl64 7 61)))
          (Z.land bits (shl64 3 9)) in
  Z.lor flags_bits
    (shl64 (Z.land ppn (Z.shiftl 1 (PALEN - PAGE_SIZE_BITS) - 1)) PAGE_SIZE_BITS).

(** [From<MapPermission> for PTEFlags] and back. *)
Definition la_flags_of_perm (value : Z) : Z :=
  let flags := Z.lor la_V la_P in
  let flags := if fl_contains value MP_W then Z.lor flags (Z.lor la_W la_D) else flags in
  if fl_contains value MP_U then Z.lor flags la_PLV_USER else flags.

Definition la_perm_of_flags (val : Z) : Z :=
  let flags := 0 in
  let flags := if fl_contains val la_W then Z.lor flags MP_W else flags in
  let flags := if fl_contains val la_D then Z.lor flags MP_D else flags in
  if fl_contains val la_PLV_USER then Z.lor flags MP_U else flags.

(** ** riscv64 *)

Definition rv_V : Z := Z.shiftl 1 0.
Definition rv_R : Z := Z.shiftl 1 1.
Definition rv_W : Z := Z.shiftl 1 2.
Definition rv_X : Z := Z.shiftl 1 3.
Definition rv_U : Z := Z.shiftl 1 4.
Definition rv_G : Z := Z.shiftl 1 5.
Definition rv_A : Z := Z.shiftl 1 6.
Definition rv_D : Z := Z.shiftl 1 7.
Definition rv_COW : Z := Z.shiftl 1 8.
Definition rv_W_BACKUP : Z := Z.shiftl 1 9.

Definition rv_all : Z :=
  fold_right Z.lor 0 [rv_V; rv_R; rv_W; rv_X; rv_U; rv_G; rv_A; rv_D; rv_COW; rv_W_BACKUP].

Definition rv_PHYS_ADDR_MASK : Z := Z.shiftl 1 54 - Z.shiftl 1 10.

Definition rv_new_table (paddr : Z) : outcome Z :=
  _ ← rassert (paddr mod PAGE_SIZE =? 0);
  Ret paddr.

Definition rv_new (ppn flags : Z) : Z := Z.lor (shl64 ppn 10) flags.

Definition rv_empty : Z := 0.

Definition rv_address (bits : Z) : Z := Z.land bits 0xfffffffff000.

Definition rv_ppn (bits : Z) : Z :=
  Z.land (Z.shiftr bits 10) (Z.shiftl 1 44 - 1).

Definition rv_set_ppn (bits paddr : Z) : Z :=
  Z.lor (Z.land bits (not64 rv_PHYS_ADDR_MASK))
        (Z.land (Z.shiftr paddr 2) rv_PHYS_ADDR_MASK).

Definition rv_flags (bits : Z) : Z := fl_from_bits_truncate rv_all bits.

Definition rv_is_valid (bits : Z) : bool := negb (Z.land (rv_flags bits) rv_V =? 0).
Definition rv_readable (bits : Z) : bool := negb (Z.land (rv_flags bits) rv_R =? 0).
Definition rv_writable (bits : Z) : bool := negb (Z.land (rv_flags bits) rv_W =? 0).
Definition rv_executable (bits : Z) : bool := negb (Z.land (rv_flags bits) rv_X =? 0).

Definition rv_flags_of_perm (f : Z) : Z :=
  if f =? 0 then 0 else
  let ret := rv_V in
  let ret := if fl_contains f MP_R then Z.lor ret rv_R else ret in
  let ret := if fl_contains f MP_W then Z.lor ret rv_W else ret in
  let ret := if fl_contains f MP_X then Z.lor ret rv_X else ret in
  if fl_contains f MP_U then Z.lor ret rv_U else ret.

Definition rv_set_flags (bits perm : Z) : outcome Z :=
  let flags := Z.lor (Z.lor (rv_flags_of_perm perm) rv_A) rv_D in
  _ ← rassert (fl_intersects flags (Z.lor rv_R rv_X));
  Ret (Z.lor (Z.land bits rv_PHYS_ADDR_MASK) flags).

Definition rv_is_huge (bits : Z) : bool :=
  fl_intersects (fl_from_bits_truncate rv_all bits) (Z.lor rv_R rv_X).

Definition rv_is_cow (bits : Z) : bool :=
  fl_contains (fl_from_bits_truncate rv_all bits) (Z.lor rv_R rv_W).

Definition rv_is_back_w (bits : Z) : bool := fl_contains (rv_flags bits) rv_W_BACKUP.

Definition rv_set_raw_flags (bits flags : Z) : Z :=
  Z.lor (Z.land bits rv_PHYS_ADDR_MASK) flags.

Definition rv_set_cow (bits : Z) : Z :=
  let flags := rv_flags bits in
  let flags := if fl_contains flags rv_W then fl_insert flags rv_W_BACKUP else flags in
  let flags := fl_remove flags rv_W in
  let flags := fl_insert flags rv_COW in
  rv_set_raw_flags bits flags.

Definition rv_un_cow (bits : Z) : Z :=
  let flags := rv_flags bits in
  let flags := if fl_contains flags rv_W_BACKUP then fl_insert flags rv_W else flags in
  let flags := fl_remove flags rv_COW in
  let flags := fl_remove flags rv_W_BACKUP in
  rv_set_raw_flags bits flags.

(** ** The interface of the page-table code *)

Class PteArch : Type := {
  pte_new_table : Z -> outcome Z;
  pte_new : Z -> Z -> outcome Z;          (* [PageTableEntry::new] as [map] calls it *)
  pte_ppn : Z -> outcome Z;
  pte_address : Z -> Z;
  pte_is_valid : Z -> bool;
  pte_writable : Z -> outcome bool;
  pte_set_ppn : Z -> Z -> Z;
  pte_set_flags : Z -> Z -> outcome Z;    (* [set_flags(perm.into())] *)
  pte_flags_ok : Z -> bool                (* flag words that leave the frame number alone *)
}.

#[export] Instance loongarch64 : PteArch := {|
  pte_new_table := la_new_table;
  pte_new := la_new;
  pte_ppn := la_ppn;
  pte_address := la_address;
  pte_is_valid := la_is_valid;
  pte_writable := la_writable;
  pte_set_ppn := la_set_ppn;
  pte_set_flags := fun b perm => Ret (la_set_flags b (la_flags_of_perm perm));
  pte_flags_ok := fun f =>
    (Z.land f (Z.land la_all (not64 la_NX)) =? f) && negb (f =? 0)
|}.

(** [map] passes [flags | V]. *)
Definition riscv64 : PteArch := {|
  pte_new_table := rv_new_table;
  pte_new := fun ppn flags => Ret (rv_new ppn (Z.lor flags rv_V));
  pte_ppn := fun b => Ret (rv_ppn b);
  pte_address := rv_address;
  pte_is_valid := rv_is_valid;
  pte_writable := fun b => Ret (rv_writable b);
  pte_set_ppn := rv_set_ppn;
  pte_set_flags := rv_set_flags;
  pte_flags_ok := fun f => Z.land f rv_all =? f
|}.

(** What the page-table code relies on.  A frame number fits the format when
    it has at most 36 bits, the physical address width of both. *)
Class PteLaws (A : PteArch) : Prop := {
  pl_zero_invalid : pte_is_valid 0 = false;
  pl_aligned : forall e, exists p, 0 <= p < 2 ^ 36 /\ pte_address e = p * PAGE_SIZE;
  pl_table : forall p, 0 < p < 2 ^ 36 ->
    exists e, pte_new_table (p * PAGE_SIZE) = Ret e /\ is_u64 e /\
      pte_is_valid e = true /\ pte_address e = p * PAGE_SIZE;
  pl_leaf : forall p f, 0 < p < 2 ^ 36 -> pte_flags_ok f = true ->
    exists e, pte_new p f = Ret e /\ is_u64 e /\
      pte_is_valid e = true /\ pte_ppn e = Ret p
}.

(** * Masked words

    Every entry update keeps some bits of the entry and sets some others: it
    has the form [(b & c) | d].  The forms are closed under masking and
    setting, so that each update is computed to constants [c] and [d]. *)

Definition aff (c d b : Z) : Z := Z.lor (Z.land b c) d.

Lemma aff_land c d b e : Z.land (aff c d b) e = aff (Z.land c e) (Z.land d e) b.
Proof. unfold aff. rewrite Z.land_lor_distr_l, Z.land_assoc. done. Qed.

Lemma aff_lor c d b e : Z.lor (aff c d b) e = aff c (Z.lor d e) b.
Proof. unfold aff. rewrite Z.lor_assoc. done. Qed.

Lemma land_aff b c : Z.land b c = aff c 0 b.
Proof. unfold aff. rewrite Z.lor_0_r. done. Qed.

Lemma aff_aff c d c' d' b :
  aff c d (aff c' d' b) = aff (Z.land c' c) (Z.lor (Z.land d' c) d) b.
Proof. unfold aff at 1. rewrite aff_land. apply aff_lor. Qed.

Lemma aff_const d b : aff 0 d b = d.
Proof. unfold aff. rewrite Z.land_0_r. done. Qed.

(** Membership of a single flag is a bit test. *)
Lemma fl_contains_bit b i : 0 <= i -> fl_contains b (Z.shiftl 1 i) = Z.testbit b i.
Proof.
  intros Hi. unfold fl_contains. destruct (Z.testbit b i) eqn:E.
  - apply Z.eqb_eq. zbits. zcases; subst; rewrite ?E; btauto.
  - apply Z.eqb_neq. intros H. apply (f_equal (fun z => Z.testbit z i)) in H.
    autorewrite with zbits in H. rewrite E, Z.eqb_refl in H. done.
Qed.

Lemma flag_nonzero_bit b i : 0 <= i ->
  negb (Z.land b (Z.shiftl 1 i) =? 0) = Z.testbit b i.
Proof. apply land_shiftl_1. Qed.

Lemma testbit_aff c d b i : Z.testbit (aff c d b) i =
  Z.testbit b i && Z.testbit c i || Z.testbit d i.
Proof. unfold aff. rewrite Z.lor_spec, Z.land_spec. done. Qed.

(** ** loongarch64 *)

(** The bits [flags] looks at, those it rejects, and the frame number. *)
Definition la_FLAGS : Z := 0xffff000000000fff.
Definition la_BAD : Z := Z.land (not64 la_all) la_FLAGS.
Definition la_PPN : Z := 0xfffffffff000.

Lemma la_flags_eq b :
  la_flags b = if Z.land b la_BAD =? 0 then Ret (Z.land b la_FLAGS) else Panic.
Proof.
  unfold la_flags.
  change (set_bits b PAGE_SIZE_BITS PALEN 0) with
    (Ret (Z.lor (Z.land b la_FLAGS) 0)).
  rewrite Z.lor_0_r. cbn [mbind outcome_bind]. unfold fl_from_bits.
  rewrite <- Z.land_assoc. change (Z.land la_FLAGS (not64 la_all)) with la_BAD.
  destruct (Z.land b la_BAD =? 0); done.
Qed.

Lemma la_flags_Ret b f : la_flags b = Ret f ->
  f = Z.land b la_FLAGS /\ Z.land b la_BAD = 0.
Proof.
  rewrite la_flags_eq. destruct (Z.eqb_spec (Z.land b la_BAD) 0); [|done].
  intros [= <-]. done.
Qed.

Lemma la_ppn_eq b : la_ppn b = Ret (Z.shiftr (Z.land b la_PPN) 12).
Proof.
  unfold la_ppn, PAGE_SIZE_BITS, PALEN. rewrite get_bits_eq by lia. f_equal.
  rewrite <- (shiftr_div b) by lia. change la_PPN with (Z.shiftl (Z.ones 36) 12).
  zbits. zcases; btauto || lia.
Qed.

(** A word of the form [aff c d b] that touches neither the frame number nor
    the rejected bits has the same frame number, and its flags are computed
    from the constants. *)
Lemma la_aff_flags c d b : Z.land b la_BAD = 0 ->
  Z.land d la_BAD = 0 ->
  la_flags (aff c d b) = Ret (aff (Z.land c la_FLAGS) (Z.land d la_FLAGS) b).
Proof.
  intros Hb Hd. rewrite la_flags_eq, !aff_land, Hd.
  assert (aff (Z.land c la_BAD) 0 b = 0) as ->; [|done].
  rewrite <- land_aff, (Z.land_comm c), Z.land_assoc, Hb. apply Z.land_0_l.
Qed.

Lemma la_aff_ppn c d b : Z.land c la_PPN = la_PPN -> Z.land d la_PPN = 0 ->
  la_ppn (aff c d b) = la_ppn b.
Proof.
  intros Hc Hd. rewrite !la_ppn_eq, aff_land, Hc, Hd, <- land_aff. done.
Qed.

(** Writes [la_set_flags b f] of a computed [f] as a masked word. *)
Lemma la_set_flags_aff b c d : la_set_flags b (aff c d b) =
  aff (Z.lor 0x1ffffffffffff000 c) d b.
Proof.
  unfold la_set_flags. rewrite <- Z.land_assoc.
  change (Z.land (not64 (Z.shiftl 1 PAGE_SIZE_BITS - 1))
    (not64 (Z.lor (shl64 7 61) (shl64 3 9)))) with 0x1ffffffffffff000.
  unfold aff. rewrite Z.land_lor_distr_r, Z.lor_assoc. done.
Qed.

Ltac la_consts :=
  repeat match goal with
  | |- context [aff ?c ?d ?b] =>
      let c' := eval vm_compute in c in
      let d' := eval vm_compute in d in
      progress change (aff c d b) with (aff c' d' b)
  end.

(** Evaluates the bits of constants. *)
Ltac tb_consts :=
  repeat match goal with
  | |- context [Z.testbit (Zpos ?c) ?i] =>
      let v := eval vm_compute in (Z.testbit (Zpos c) i) in
      change (Z.testbit (Zpos c) i) with v
  end; rewrite ?Z.bits_0.

(** Computes flag updates of a masked word to a masked word. *)
Ltac la_norm :=
  unfold fl_insert, fl_remove; rewrite ?land_aff;
  repeat (rewrite aff_aff || rewrite aff_land || rewrite aff_lor); rewrite ?la_set_flags_aff; la_consts.

#[export] Hint Rewrite testbit_aff : zbits.

Lemma la_writable_eq b f : la_flags b = Ret f -> la_writable b = Ret (Z.testbit b 8).
Proof.
  intros H. unfold la_writable. rewrite H. cbn [mbind outcome_bind]. f_equal.
  apply la_flags_Ret in H as [-> _]. unfold la_W. rewrite flag_nonzero_bit by lia.
  rewrite Z.land_spec. change (Z.testbit la_FLAGS 8) with true. btauto.
Qed.

Lemma la_is_cow_eq b f : la_flags b = Ret f -> la_is_cow b = Ret (Z.testbit b 49).
Proof.
  intros H. unfold la_is_cow. rewrite H. cbn [mbind outcome_bind]. f_equal.
  apply la_flags_Ret in H as [-> _]. unfold la_COW. rewrite fl_contains_bit by lia.
  rewrite Z.land_spec. change (Z.testbit la_FLAGS 49) with true. btauto.
Qed.

Lemma la_contains_W f : fl_contains (Z.land f la_FLAGS) la_W = Z.testbit f 8.
Proof.
  unfold la_W. rewrite fl_contains_bit, Z.land_spec by lia.
  change (Z.testbit la_FLAGS 8) with true. btauto.
Qed.

Lemma la_contains_W_BACKUP f : fl_contains (Z.land f la_FLAGS) la_W_BACKUP = Z.testbit f 48.
Proof.
  unfold la_W_BACKUP. rewrite fl_contains_bit, Z.land_spec by lia.
  change (Z.testbit la_FLAGS 48) with true. btauto.
Qed.

(** ** Results of the copy-on-write updates

    Both updates of a word whose flags are legal give a word with legal flags
    and the same frame number; [la_step] says so and gives the flag bits. *)
Definition la_step (b b' : Z) : Prop :=
  la_ppn b' = la_ppn b /\ exists f', la_flags b' = Ret f'.

Lemma la_step_aff c d b : Z.land b la_BAD = 0 -> Z.land d la_BAD = 0 ->
  Z.land c la_PPN = la_PPN -> Z.land d la_PPN = 0 -> la_step b (aff c d b).
Proof.
  intros. split; [by apply la_aff_ppn|]. eexists. by apply la_aff_flags.
Qed.

Lemma la_set_cow_eq b f : la_flags b = Ret f ->
  exists b', la_set_cow b = Ret b' /\ la_step b b' /\
    Z.testbit b' 8 = false /\ Z.testbit b' 49 = true /\
    Z.testbit b' 48 = Z.testbit b 8 || Z.testbit b 48 /\
    Z.testbit b' 0 = Z.testbit b 0 /\ Z.testbit b' 7 = Z.testbit b 7.
Proof.
  intros H. unfold la_set_cow. rewrite H. cbn [mbind outcome_bind].
  apply la_flags_Ret in H as [-> Hbad]. rewrite la_contains_W.
  destruct (Z.testbit b 8) eqn:E8; eexists; (split; [done|]).
  all: la_norm; split; [by apply la_step_aff|]; rewrite !testbit_aff, E8; tb_consts.
  all: split_and!; btauto.
Qed.

(** On loongarch64 [set_cow] of any entry with legal flags keeps the
    frame number, takes the write permission away, marks the entry
    copy-on-write, and remembers in [W_BACKUP] whether it was writable. *)
Theorem la_set_cow_correct b f : la_flags b = Ret f ->
  exists b' f', la_set_cow b = Ret b' /\ la_ppn b' = la_ppn b /\ la_flags b' = Ret f' /\
    la_writable b' = Ret false /\ la_is_cow b' = Ret true /\
    fl_contains f' la_W_BACKUP = fl_contains f la_W || fl_contains f la_W_BACKUP.
Proof.
  intros H. destruct (la_set_cow_eq b f H) as (b' & E & [Hp [f' Hf']] & H8 & H49 & H48 & _).
  exists b', f'. split_and!; [done..| | |].
  - by rewrite (la_writable_eq b' f' Hf'), H8.
  - by rewrite (la_is_cow_eq b' f' Hf'), H49.
  - apply la_flags_Ret in H as [-> _], Hf' as [-> _].
    rewrite la_contains_W, !la_contains_W_BACKUP. done.
Qed.

Lemma la_set_cow_correct_witness :
  la_flags 0x8000218f = Ret 0x18f /\ exists b', la_set_cow 0x8000218f = Ret b' /\ la_is_cow b' = Ret true.
Proof.
  split; [reflexivity|].
  destruct (la_set_cow_correct 0x8000218f 0x18f eq_refl) as (b' & _ & E & _ & _ & _ & Hc & _).
  exists b'. split; [exact E|exact Hc].
Defined.

(** [un_cow] and [clear_cow] as masked words. *)
Lemma la_un_cow_eq b f : la_flags b = Ret f ->
  exists b', la_un_cow b = Ret b' /\ la_step b b' /\
    Z.testbit b' 8 = Z.testbit b 8 || Z.testbit b 48 /\ Z.testbit b' 49 = Z.testbit b 49.
Proof.
  intros H. unfold la_un_cow. rewrite H. cbn [mbind outcome_bind].
  apply la_flags_Ret in H as [-> Hbad]. rewrite la_contains_W_BACKUP.
  destruct (Z.testbit b 48) eqn:E48; eexists; (split; [done|]).
  all: la_norm; split; [by apply la_step_aff|]; rewrite !testbit_aff; tb_consts.
  all: split_and!; btauto.
Qed.

Lemma la_clear_cow_eq b f : la_flags b = Ret f ->
  exists b', la_clear_cow b = Ret b' /\ la_step b b' /\
    Z.testbit b' 8 = Z.testbit b 8 || Z.testbit b 48 /\ Z.testbit b' 49 = Z.testbit b 49.
Proof.
  intros H. unfold la_clear_cow. rewrite H. cbn [mbind outcome_bind].
  apply la_flags_Ret in H as [-> Hbad].
  assert (fl_contains (fl_remove (Z.land b la_FLAGS) la_COW) la_W_BACKUP = Z.testbit b 48) as ->.
  { unfold fl_remove, la_W_BACKUP. rewrite fl_contains_bit, !Z.land_spec by lia.
    change (Z.testbit la_FLAGS 48) with true. change (Z.testbit (not64 la_COW) 48) with true. btauto. }
  destruct (Z.testbit b 48) eqn:E48; eexists; (split; [done|]).
  all: la_norm; split; [by apply la_step_aff|]; rewrite !testbit_aff; tb_consts.
  all: split_and!; btauto.
Qed.

(** On loongarch64 neither [un_cow] nor [clear_cow] ends the
    copy-on-write state: [set_flags] keeps bits 48 and 49 of the old entry, so
    an entry that is copy-on-write still is afterwards, although the write
    permission is restored. *)
Theorem la_un_cow_keeps_cow b f : la_flags b = Ret f -> la_is_cow b = Ret true ->
  (exists b', la_un_cow b = Ret b' /\ la_ppn b' = la_ppn b /\ la_is_cow b' = Ret true /\
    la_writable b' = Ret (fl_contains f la_W || fl_contains f la_W_BACKUP)) /\
  (exists b', la_clear_cow b = Ret b' /\ la_ppn b' = la_ppn b /\ la_is_cow b' = Ret true /\
    la_writable b' = Ret (fl_contains f la_W || fl_contains f la_W_BACKUP)).
Proof.
  intros H Hc. rewrite (la_is_cow_eq b f H) in Hc.
  assert (fl_contains f la_W = Z.testbit b 8 /\ fl_contains f la_W_BACKUP = Z.testbit b 48) as [-> ->].
  { apply la_flags_Ret in H as [-> _]. by rewrite la_contains_W, la_contains_W_BACKUP. }
  split.
  - destruct (la_un_cow_eq b f H) as (b' & E & [Hp [f' Hf']] & H8 & H49).
    exists b'. rewrite (la_is_cow_eq b' f' Hf'), (la_writable_eq b' f' Hf'), H8, H49. done.
  - destruct (la_clear_cow_eq b f H) as (b' & E & [Hp [f' Hf']] & H8 & H49).
    exists b'. rewrite (la_is_cow_eq b' f' Hf'), (la_writable_eq b' f' Hf'), H8, H49. done.
Qed.

Lemma la_un_cow_keeps_cow_witness :
  exists b', la_un_cow 0x300008000208f = Ret b' /\ la_is_cow b' = Ret true.
Proof.
  destruct (la_un_cow_keeps_cow 0x300008000208f (Z.land 0x300008000208f la_FLAGS))
    as [(b' & E & _ & Hc & _) _]; [reflexivity|reflexivity|].
  exists b'. split; [exact E|exact Hc].
Defined.

(** ** Leaf and table entries *)

Lemma page_land_PPN p : 0 <= p < 2 ^ 36 -> Z.land (p * PAGE_SIZE) la_PPN = p * PAGE_SIZE.
Proof.
  intros Hp. change PAGE_SIZE with (2 ^ 12). rewrite <- shiftl_mul by lia.
  change la_PPN with (Z.shiftl (Z.ones 36) 12). zbits.
  destruct (Z.lt_ge_cases i 12); [rewrite !Z.testbit_neg_r by lia; done|].
  rewrite testbit_ones_nonneg by lia. zcases; [btauto|].
  rewrite (testbit_above p 36) by lia. done.
Qed.

Lemma page_land_FLAGS p : 0 <= p < 2 ^ 36 -> Z.land (p * PAGE_SIZE) la_FLAGS = 0.
Proof.
  intros Hp. rewrite <- page_land_PPN, <- Z.land_assoc by lia.
  change (Z.land la_PPN la_FLAGS) with 0. apply Z.land_0_r.
Qed.

Lemma la_new_eq p f :
  la_new p f = if (0 <=? p) && (p <? 2 ^ 36) then Ret (Z.lor (p * PAGE_SIZE) f)
               else la_new p f.
Proof.
  destruct (Z.leb_spec 0 p), (Z.ltb_spec p (2 ^ 36)); cbn [andb]; try done.
  unfold la_new, set_bits, PAGE_SIZE_BITS, PALEN, BIT_LENGTH. cbn [rassert Z.ltb Z.leb mbind outcome_bind].
  change (64 - (48 - 12)) with 28. rewrite (shl64_small p 28) by (unfold u64_bound; lia).
  rewrite (shiftr_div _ 28), Z.div_mul, Z.eqb_refl by lia. cbn.
  rewrite (shl64_small p 12) by (unfold u64_bound; lia). done.
Qed.

Lemma la_new_small p f : 0 <= p < 2 ^ 36 -> la_new p f = Ret (Z.lor (p * PAGE_SIZE) f).
Proof.
  intros. rewrite la_new_eq. destruct (Z.leb_spec 0 p), (Z.ltb_spec p (2 ^ 36)); lia || done.
Qed.

(** The flag words that fit a loongarch64 entry: all flags but [NX], whose
    bit 12 is the lowest bit of the frame number. *)
Definition la_flag_word (f : Z) : Prop := Z.land f (Z.land la_all (not64 la_NX)) = f.

Lemma la_flag_word_mask f m : la_flag_word f ->
  Z.land f m = Z.land f (Z.land (Z.land la_all (not64 la_NX)) m).
Proof. unfold la_flag_word. intros H. rewrite <- H at 1. rewrite <- Z.land_assoc. done. Qed.

(** A loongarch64 leaf entry built from a 36-bit frame number and flags
    without [NX] gives both back, and its address is the frame's. *)
Lemma la_new_roundtrip p f : 0 <= p < 2 ^ 36 -> la_flag_word f ->
  exists e, la_new p f = Ret e /\ la_ppn e = Ret p /\ la_flags e = Ret f /\
    la_address e = p * PAGE_SIZE.
Proof.
  intros Hp Hf. rewrite la_new_small by lia. eexists. split; [done|].
  assert (Z.land (Z.lor (p * PAGE_SIZE) f) la_PPN = p * PAGE_SIZE) as Hppn.
  { rewrite Z.land_lor_distr_l, page_land_PPN, (la_flag_word_mask f) by (done || lia).
    change (Z.land (Z.land la_all (not64 la_NX)) la_PPN) with 0.
    rewrite Z.land_0_r, Z.lor_0_r. done. }
  split_and!.
  - rewrite la_ppn_eq, Hppn, shiftr_div by lia. change (2 ^ 12) with PAGE_SIZE.
    rewrite Z.div_mul by done. done.
  - rewrite la_flags_eq, !Z.land_lor_distr_l, page_land_FLAGS by lia.
    unfold la_BAD at 1. rewrite (Z.land_comm (not64 la_all)), Z.land_assoc, page_land_FLAGS by lia.
    rewrite Z.land_0_l, !Z.lor_0_l, (la_flag_word_mask f la_BAD), (la_flag_word_mask f la_FLAGS) by done.
    change (Z.land (Z.land la_all (not64 la_NX)) la_BAD) with 0.
    rewrite Z.land_0_r. cbn [Z.eqb]. f_equal. exact Hf.
  - exact Hppn.
Qed.

Lemma lor_pos a b : 0 <= a -> 0 < b -> 0 < Z.lor a b.
Proof.
  intros. destruct (Z.lor_nonneg a b) as [_ Hn].
  assert (0 <= Z.lor a b) by (apply Hn; lia).
  destruct (decide (Z.lor a b = 0)) as [E|]; [|lia]. apply Z.lor_eq_0_iff in E. lia.
Qed.

#[export] Instance loongarch64_laws : PteLaws loongarch64.
Proof.
  constructor; cbn [loongarch64 pte_is_valid pte_new_table pte_address pte_new pte_flags_ok pte_ppn].
  - done.
  - intros e. exists (Z.land e la_PPN / 2 ^ 12).
    pose proof (land_bounds_r e la_PPN 48 ltac:(vm_compute; split; congruence)) as Hb.
    split; [lia|]. unfold la_address. change 0xfffffffff000 with la_PPN.
    enough (Z.land e la_PPN mod 2 ^ 12 = 0) by (unfold PAGE_SIZE; lia).
    rewrite <- Z.land_ones, <- Z.land_assoc by lia.
    change (Z.land la_PPN (Z.ones 12)) with 0. apply Z.land_0_r.
  - intros p Hp. unfold la_new_table. exists (p * PAGE_SIZE).
    assert (p * PAGE_SIZE mod 0x1000 = 0) as -> by (apply Z.mod_mul; done).
    split_and!; [done| |unfold la_is_valid; apply negb_true_iff, Z.eqb_neq; unfold PAGE_SIZE; lia|].
    + unfold is_u64, u64_bound, PAGE_SIZE. lia.
    + apply page_land_PPN. lia.
  - intros p f Hp Hf. apply andb_true_iff in Hf as [Hf _]. apply Z.eqb_eq in Hf.
    rewrite la_new_small by lia. eexists. split; [done|].
    assert (0 <= f < 2 ^ 64) as Hfb.
    { rewrite <- Hf. apply land_bounds_r. vm_compute. split; congruence. }
    split_and!.
    + apply lor_bounds; [lia| |lia]. unfold PAGE_SIZE. lia.
    + unfold la_is_valid. apply negb_true_iff, Z.eqb_neq.
      rewrite Z.lor_comm. pose proof (lor_pos f (p * PAGE_SIZE)). unfold PAGE_SIZE in *. lia.
    + destruct (la_new_roundtrip p f) as (e & E & Hppn & _); [lia|done|].
      rewrite la_new_small in E by lia. injection E as <-. done.
Qed.

(** ** riscv64 *)

(** A riscv64 table entry made by [new_table] never has the valid bit, so
    the walk in [find_pte] rejects every table the page-table code creates. *)
Theorem rv_new_table_invalid pa e : rv_new_table pa = Ret e -> rv_is_valid e = false.
Proof.
  unfold rv_new_table. intros H. inv_ret. zbool.
  unfold rv_is_valid, rv_flags, fl_from_bits_truncate, rv_V.
  rewrite flag_nonzero_bit, Z.land_spec by lia. rewrite Z.bit0_odd.
  rewrite <- Z.negb_even, (proj2 (Z.even_spec e)); [done|].
  exists (e / 2). unfold PAGE_SIZE in *. lia.
Qed.

Lemma rv_new_table_invalid_witness :
  exists e, rv_new_table 0x80001000 = Ret e /\ rv_is_valid e = false.
Proof.
  exists 0x80001000. split; [reflexivity|]. apply (rv_new_table_invalid 0x80001000). reflexivity.
Defined.

Lemma rv_set_raw_flags_aff b c d :
  rv_set_raw_flags b (aff c d b) = aff (Z.lor rv_PHYS_ADDR_MASK c) d b.
Proof. unfold rv_set_raw_flags, aff. rewrite Z.land_lor_distr_r, Z.lor_assoc. done. Qed.

Lemma rv_set_raw_flags_aff2 b c1 d1 c d :
  rv_set_raw_flags (aff c1 d1 b) (aff c d b) =
  aff (Z.lor (Z.land c1 rv_PHYS_ADDR_MASK) c) (Z.lor (Z.land d1 rv_PHYS_ADDR_MASK) d) b.
Proof.
  unfold rv_set_raw_flags. rewrite aff_land. unfold aff. rewrite Z.land_lor_distr_r.
  rewrite <- !Z.lor_assoc. f_equal. rewrite Z.lor_assoc, (Z.lor_comm _ (Z.land b c)).
  rewrite <- Z.lor_assoc. done.
Qed.

Lemma rv_contains b m i : 0 <= i -> m = Z.shiftl 1 i -> Z.testbit rv_all i = true ->
  fl_contains (rv_flags b) m = Z.testbit b i.
Proof.
  intros Hi -> Ha. unfold rv_flags, fl_from_bits_truncate.
  rewrite fl_contains_bit, Z.land_spec, Ha by lia. btauto.
Qed.

Ltac rv_norm :=
  unfold fl_insert, fl_remove, rv_flags, fl_from_bits_truncate; rewrite ?land_aff;
  repeat (rewrite aff_aff || rewrite aff_land || rewrite aff_lor);
  rewrite ?rv_set_raw_flags_aff; la_consts.

(** [set_cow] on riscv64, as a masked word. *)
Lemma rv_set_cow_eq b : rv_set_cow b =
  if Z.testbit b 2 then aff (Z.land (Z.lor rv_PHYS_ADDR_MASK rv_all) (not64 rv_W))
                            (Z.lor rv_COW rv_W_BACKUP) b
  else aff (Z.land (Z.lor rv_PHYS_ADDR_MASK rv_all) (not64 rv_W)) rv_COW b.
Proof.
  unfold rv_set_cow. rewrite (rv_contains b rv_W 2) by (lia || done).
  destruct (Z.testbit b 2); rv_norm; done.
Qed.

(** On riscv64 [is_cow] tests [R | W] instead of the copy-on-write flag:
    it is false for every entry that [set_cow] has just marked. *)
Theorem rv_is_cow_after_set_cow b : rv_is_cow (rv_set_cow b) = false.
Proof.
  unfold rv_is_cow, fl_contains, fl_from_bits_truncate. apply Z.eqb_neq. intros H.
  apply (f_equal (fun z => Z.testbit z 2)) in H. rewrite !Z.land_spec, rv_set_cow_eq in H.
  destruct (Z.testbit b 2); rewrite testbit_aff in H; cbn in H;
    rewrite andb_false_r in H; done.
Qed.

(** On riscv64 [un_cow] undoes [set_cow]: an entry whose copy-on-write
    flags are clear and whose upper ten bits are clear comes back unchanged. *)
Theorem rv_cow_roundtrip b : 0 <= b < 2 ^ 54 ->
  Z.land b (Z.lor rv_COW rv_W_BACKUP) = 0 -> rv_un_cow (rv_set_cow b) = b.
Proof.
  intros Hb Hc. unfold rv_un_cow. rewrite (rv_contains _ rv_W_BACKUP 9) by (lia || done).
  assert (forall c d m, d = Z.land b d -> Z.land b m = 0 ->
    Z.lor (Z.lor c d) m = Z.ones 54 -> aff c d b = b) as Hk.
  { intros c d m Hd Hm H2. apply Z.bits_inj'. intros i Hi. rewrite testbit_aff.
    apply (f_equal (fun z => Z.testbit z i)) in Hd, Hm, H2.
    rewrite ?Z.land_spec, ?Z.lor_spec, ?Z.bits_0 in *.
    rewrite testbit_ones_nonneg in H2 by lia. destruct (Z.ltb_spec i 54).
    - destruct (Z.testbit b i), (Z.testbit c i), (Z.testbit d i),
        (Z.testbit m i); cbn in *; congruence.
    - rewrite (testbit_above b 54) in * by lia.
      destruct (Z.testbit c i), (Z.testbit d i); cbn in *; congruence. }
  assert (Z.testbit b 9 = false) as H9.
  { apply (f_equal (fun z => Z.testbit z 9)) in Hc. rewrite Z.land_spec in Hc. cbn in Hc.
    rewrite andb_true_r in Hc. exact Hc. }
  rewrite rv_set_cow_eq. destruct (Z.testbit b 2) eqn:E2; rewrite testbit_aff, H9; tb_consts.
  - change (Z.testbit (Z.lor rv_COW rv_W_BACKUP) 9) with true. cbn [andb orb].
    rv_norm. rewrite rv_set_raw_flags_aff2. la_consts.
    apply (Hk _ _ (Z.lor rv_COW rv_W_BACKUP)); [|done|done].
    zbits. change 4 with (2 ^ 2). rewrite testbit_pow2 by lia. zcases; subst; rewrite ?E2; btauto.
  - change (Z.testbit rv_COW 9) with false. cbn [andb orb].
    rv_norm. rewrite rv_set_raw_flags_aff2. la_consts.
    apply (Hk _ _ (Z.lor rv_W (Z.lor rv_COW rv_W_BACKUP))); [by rewrite Z.land_0_r| |done].
    rewrite Z.land_lor_distr_r, Hc, Z.lor_0_r. zbits. unfold rv_W.
    rewrite testbit_shiftl_1 by lia. zcases; subst; rewrite ?E2; btauto.
Qed.

Lemma rv_cow_roundtrip_witness :
  rv_un_cow (rv_set_cow 0x200008d7) = 0x200008d7.
Proof. apply (rv_cow_roundtrip 0x200008d7); [lia|reflexivity]. Defined.
