(* ===== verification/PageTable.v ===== *)
(** * Page tables (os/src/mm/page_table.rs, [PageTable])

    A page table is a root frame and the list of frames it owns; its entries
    live in physical memory.  The walk, its creating variant, [map], [unmap],
    [update] and the translations follow the source; they are written once,
    over the entry format [PteArch].

    The abstract view is [pte_at]: the leaf entry of a virtual page, zero when
    a table on the way is missing.  [pt_wf] is the shape invariant: the tables
    form a tree (no table is reached by two paths) of live frames.  [map] and
    [unmap] are shown to change [pte_at] at one page and nowhere else. *)

From S2P Require Import Prelude Config Address BitField Memory FrameAlloc.
From S2P Require Import FrameSpec Pte.

Inductive PagingError : Type :=
| NoMemory | NotAligned | NotMapped | AlreadyMapped | MappedToHugePage.

Inductive TranslateError : Type :=
| TranslationFailed (va : Z)
| DataCrossesPageBoundary
| UnexpectedEofOrFault
| InternalBufferOverflow
| LengthOverflow
| PermissionDenied (va : Z)
| PartialCopy.

Definition PAGE_LEVEL : Z := 3.
Definition PTE_NUM_IN_PAGE : Z := 0x200.
Definition Size4K : Z := 0x1000.

Record PageTable : Type := mkPT {
  root_ppn : Z;
  pt_frames : list Z
}.

Section with_arch.
Context `{A : PteArch}.

(** [get_pte_list]: the frame of the table at a physical address. *)
Definition get_pte_list (pa : Z) : outcome Z :=
  _ ← KernelAddr_of_PhysAddr pa;
  Ret (PhysAddr_floor pa).

Definition alloc_frame (pt : PageTable) : ST world (Z * PageTable) :=
  o ← frame_alloc;
  ppn ← st_lift (unwrap o);
  mret (ppn, mkPT (root_ppn pt) (pt_frames pt ++ [ppn])).

(** One level of [find_pte_create]: a missing table is allocated. *)
Definition walk_create (n vpn : Z) (s : PageTable * Z) : ST world (PageTable * Z) :=
  let '(pt, f) := s in
  i ← st_lift (pn_index vpn n);
  m ← st_gets w_mem;
  let pte := read_word m f i in
  '(pt', pte') ←
    (if pte_is_valid pte then mret (pt, pte)
     else
       '(ppn, pt') ← alloc_frame pt;
       e ← st_lift (pte_new_table (PhysAddr_of_PhysPageNum ppn));
       _ ← st_modify (fun w => set_mem (write_word (w_mem w) f i e) w);
       mret (pt', e));
  f' ← st_lift (get_pte_list (pte_address pte'));
  mret (pt', f').

(** The result is the place of the entry: its frame and index. *)
Definition find_pte_create (pt : PageTable) (vpn : Z) : ST world (PageTable * (Z * Z)) :=
  f ← st_lift (get_pte_list (PhysAddr_of_PhysPageNum (root_ppn pt)));
  s3 ← (if PAGE_LEVEL =? 4 then walk_create 3 vpn (pt, f) else mret (pt, f));
  s2 ← walk_create 2 vpn s3;
  s1 ← walk_create 1 vpn s2;
  i ← st_lift (pn_index vpn 0);
  mret (fst s1, (snd s1, i)).

(** One level of [find_pte]. *)
Definition walk (m : pmem) (n vpn : Z) (o : option Z) : outcome (option Z) :=
  match o with
  | None => Ret None
  | Some f =>
      i ← pn_index vpn n;
      let pte := read_word m f i in
      if pte_is_valid pte then f' ← get_pte_list (pte_address pte); Ret (Some f')
      else Ret None
  end.

Definition find_pte (root : Z) (m : pmem) (vpn : Z) : outcome (option (Z * Z)) :=
  f ← get_pte_list (PhysAddr_of_PhysPageNum root);
  o3 ← (if PAGE_LEVEL =? 4 then walk m 3 vpn (Some f) else Ret (Some f));
  o2 ← walk m 2 vpn o3;
  o1 ← walk m 1 vpn o2;
  match o1 with
  | None => Ret None
  | Some f0 => i ← pn_index vpn 0; Ret (Some (f0, i))
  end.

Definition pt_map (pt : PageTable) (vpn ppn flags : Z) : ST world PageTable :=
  '(pt', (f, i)) ← find_pte_create pt vpn;
  m ← st_gets w_mem;
  _ ← st_lift (rassert (negb (pte_is_valid (read_word m f i))));
  e ← st_lift (pte_new ppn flags);
  _ ← st_modify (fun w => set_mem (write_word (w_mem w) f i e) w);
  mret pt'.

Definition pt_unmap (pt : PageTable) (vpn : Z) : ST world unit :=
  m ← st_gets w_mem;
  o ← st_lift (find_pte (root_ppn pt) m vpn);
  '(f, i) ← st_lift (unwrap o);
  _ ← st_lift (rassert (pte_is_valid (read_word m f i)));
  st_modify (fun w => set_mem (write_word (w_mem w) f i 0) w).

(** The translations; kernel addresses go through the direct mapping. *)

Definition pt_translate (root : Z) (m : pmem) (vpn : Z) : outcome (option Z) :=
  if KERNEL_PGNUM_OFFSET <=? vpn then
    pa ← PhysAddr_of_KernelAddr (VirtAddr_of_VirtPageNum vpn);
    Ret (Some pa)
  else
    o ← find_pte root m vpn;
    Ret (option_map (fun '(f, i) => read_word m f i) o).

Definition translate_va (root : Z) (m : pmem) (va : Z) : outcome (option Z) :=
  if KERNEL_DIRECT_OFFSET <=? va then
    pa ← PhysAddr_of_KernelAddr va; Ret (Some pa)
  else
    o ← find_pte root m (VirtAddr_floor va);
    match o with
    | None => Ret None
    | Some (f, i) =>
        ppn ← pte_ppn (read_word m f i);
        res ← uadd (PhysAddr_of_PhysPageNum ppn) (VirtAddr_page_offset va);
        Ret (Some res)
    end.

Definition translate_va_with_perm (root : Z) (m : pmem) (va : Z) (require_writable : bool)
    : outcome (result Z TranslateError) :=
  o ← find_pte root m (VirtAddr_floor va);
  match o with
  | None => Ret (Err (PermissionDenied va))
  | Some (f, i) =>
      let pte := read_word m f i in
      denied ← (if require_writable then b ← pte_writable pte; Ret (negb b) else Ret false);
      if (denied : bool) then Ret (Err (PermissionDenied va)) else
      ppn ← pte_ppn pte;
      res ← uadd (PhysAddr_of_PhysPageNum ppn) (VirtAddr_page_offset va);
      Ret (Ok res)
  end.

Definition pt_token (pt : PageTable) : Z := root_ppn pt.

Definition pt_from_token (pgn : Z) : PageTable :=
  mkPT (Z.land pgn (Z.shiftl 1 36 - 1)) [].

Definition pt_update (pt : PageTable) (va : Z) (paddr flags : option Z)
    : ST world (result Z PagingError) :=
  let vpn := VirtAddr_floor va in
  m ← st_gets w_mem;
  o ← st_lift (find_pte (root_ppn pt) m vpn);
  match o with
  | None => mret (Err NotMapped)
  | Some (f, i) =>
      _ ← match paddr with
          | Some pa => st_modify (fun w =>
              set_mem (write_word (w_mem w) f i
                (pte_set_ppn (read_word (w_mem w) f i) pa)) w)
          | None => mret tt
          end;
      _ ← match flags with
          | Some fl =>
              m' ← st_gets w_mem;
              e ← st_lift (pte_set_flags (read_word m' f i) fl);
              st_modify (fun w => set_mem (write_word (w_mem w) f i e) w)
          | None => mret tt
          end;
      mret (Ok Size4K)
  end.

(** The [while] loop of [update_region].  Each iteration advances by one page,
    so that [size / 4096 + 2] evaluations of the condition are enough; running
    out of them would be a panic. *)
Fixpoint update_region_loop (n : nat) (pt : PageTable) (va end_ flags : Z)
    : ST world (result unit PagingError) :=
  match n with
  | O => st_panic
  | S n' =>
      if va <? end_ then
        page_size <-? pt_update pt va None (Some flags);
        va' ← st_lift (uadd va page_size);
        update_region_loop n' pt va' end_ flags
      else mret (Ok tt)
  end.

Definition update_region (pt : PageTable) (va size flags : Z)
    : ST world (result unit PagingError) :=
  end_ ← st_lift (uadd va size);
  update_region_loop (Z.to_nat (size / Size4K + 2)) pt va end_ flags.

Definition pt_new : ST world PageTable :=
  o ← frame_alloc;
  ppn ← st_lift (unwrap o);
  mret (mkPT ppn [ppn]).

(** Copies the words [k..512) of one frame to another. *)
Definition copy_words (m : pmem) (dst src k : Z) : pmem :=
  fold_left (fun m i => write_word m dst i (read_word m src i)) (zrange k 512) m.

Definition pt_new_from_kernel (global_root_ppn : Z) : ST world PageTable :=
  o ← frame_alloc;
  ppn ← st_lift (unwrap o);
  let kernel_start_vpn := KERNEL_PGNUM_OFFSET in
  level_1_index ← st_lift (index (indexes_la kernel_start_vpn) 0);
  fd ← st_lift (frame_base ppn);
  fs ← st_lift (frame_base global_root_ppn);
  _ ← st_modify (fun w => set_mem (copy_words (w_mem w) fd fs level_1_index) w);
  mret (mkPT ppn [ppn]).

(** [frames.clear()] drops the handles. *)
Definition pt_clear (pt : PageTable) : ST world PageTable :=
  _ ← st_iter arc_drop (pt_frames pt);
  mret (mkPT (root_ppn pt) []).

End with_arch.

(** * The abstract view *)

Section abstract.
Context `{A : PteArch}.

(** The table reached from frame [f] along a path of indices. *)
Fixpoint node (m : pmem) (f : Z) (p : list Z) : option Z :=
  match p with
  | [] => Some f
  | i :: p' =>
      if pte_is_valid (read_word m f i)
      then node m (pte_address (read_word m f i) / PAGE_SIZE) p' else None
  end.

Definition ix (n vpn : Z) : Z := (vpn / 2 ^ (9 * n)) mod 512.
Definition vpath (vpn : Z) : list Z := [ix 2 vpn; ix 1 vpn].

Definition pte_at (m : pmem) (root vpn : Z) : Z :=
  match node m root (vpath vpn) with
  | Some f => read_word m f (ix 0 vpn)
  | None => 0
  end.

Definition path_ok (p : list Z) : Prop :=
  (length p <= 2)%nat /\ Forall (fun i => 0 <= i < 512) p.

(** The tables form a tree of live frames. *)
Record pt_wf (w : world) (root : Z) : Prop := {
  pw_inj : forall p1 p2 f, path_ok p1 -> path_ok p2 ->
    node (w_mem w) root p1 = Some f -> node (w_mem w) root p2 = Some f -> p1 = p2;
  pw_live : forall p f, path_ok p -> node (w_mem w) root p = Some f ->
    is_Some (w_refs w !! f) /\ 0 < f < 2 ^ 36
}.

(** A frame that holds no table. *)
Definition not_table (m : pmem) (root f : Z) : Prop :=
  forall p, path_ok p -> node m root p <> Some f.

Lemma ix_range n vpn : 0 <= ix n vpn < 512.
Proof. unfold ix. lia. Qed.

Lemma path_ok_vpath vpn : path_ok (vpath vpn).
Proof. split; [cbn; lia|]. repeat constructor; apply ix_range. Qed.

Lemma path_ok_1 n vpn : path_ok [ix n vpn].
Proof. split; [cbn; lia|]. repeat constructor; apply ix_range. Qed.

Lemma path_ok_nil : path_ok [].
Proof. split; [cbn; lia|]. constructor. Qed.

Lemma vpath_inj v1 v2 : 0 <= v1 < 2 ^ 27 -> 0 <= v2 < 2 ^ 27 ->
  vpath v1 = vpath v2 -> ix 0 v1 = ix 0 v2 -> v1 = v2.
Proof.
  intros H1 H2 E E0. injection E as E2 E1. unfold ix in *.
  apply vpn_indices_inj; try done.
  change (9 * 0) with 0 in E0. rewrite Z.pow_0_r, !Z.div_1_r in E0. done.
Qed.

Lemma node_app m f p q : node m f (p ++ q) =
  match node m f p with Some g => node m g q | None => None end.
Proof.
  revert f. induction p as [|i p IH]; intros f; [done|]. cbn.
  destruct (pte_is_valid (read_word m f i)); [apply IH|done].
Qed.

(** A path is unaffected by a change of memory that no entry on it sees. *)
Lemma node_frame m m' f p :
  (forall q i r g, p = q ++ i :: r -> node m f q = Some g ->
     read_word m' g i = read_word m g i) ->
  node m' f p = node m f p.
Proof.
  revert f. induction p as [|i p IH]; intros f H; [done|]. cbn.
  rewrite (H [] i p f eq_refl eq_refl).
  destruct (pte_is_valid (read_word m f i)) eqn:E; [|done].
  apply IH. intros q j r g -> Hg. apply (H (i :: q) j r g); [done|]. cbn. rewrite E. done.
Qed.

(** Paths are unaffected by writes to frames that hold no inner table. *)
Lemma node_write_leaf w root f i v p : pt_wf w root -> path_ok p ->
  (forall q, path_ok q -> (length q <= 1)%nat -> node (w_mem w) root q <> Some f) ->
  node (write_word (w_mem w) f i v) root p = node (w_mem w) root p.
Proof.
  intros Hwf [Hl Hok] Hf. apply node_frame. intros q j r g -> Hg.
  apply read_write_word_ne. left. intros ->. rewrite length_app in Hl. cbn in Hl.
  apply (Hf q); [|lia|done]. split; [lia|]. by apply Forall_app in Hok as [? _].
Qed.

End abstract.

(** * Correctness of the walk *)

Section walks.
Context `{A : PteArch} `{!PteLaws A}.

Lemma pn_index_ix vpn n : 0 <= n <= 2 -> pn_index vpn n = Ret (ix n vpn).
Proof. intros. apply pn_index_eq. lia. Qed.

Lemma get_pte_list_eq p : 0 < p < 2 ^ 36 -> get_pte_list (p * PAGE_SIZE) = Ret p.
Proof.
  intros Hp. unfold get_pte_list, KernelAddr_of_PhysAddr, PAGE_SIZE, PhysAddr_floor.
  destruct (Z.eqb_spec (p * 4096) 0); [lia|]. cbn [negb rassert mbind outcome_bind].
  rewrite uadd_Ret by (unfold u64_bound, KERNEL_DIRECT_OFFSET; lia).
  cbn [mbind outcome_bind]. f_equal. unfold PAGE_SIZE. lia.
Qed.

Lemma pte_address_page e : pte_address e = pte_address e / PAGE_SIZE * PAGE_SIZE.
Proof.
  destruct (pl_aligned e) as (p & Hp & ->). rewrite Z.div_mul by done. done.
Qed.

Lemma get_pte_list_address e : 0 < pte_address e / PAGE_SIZE < 2 ^ 36 ->
  get_pte_list (pte_address e) = Ret (pte_address e / PAGE_SIZE).
Proof. intros H. rewrite pte_address_page at 1. by apply get_pte_list_eq. Qed.

Lemma walk_eq m n vpn f : 0 <= n <= 2 ->
  (forall g, node m f [ix n vpn] = Some g -> 0 < g < 2 ^ 36) ->
  walk m n vpn (Some f) = Ret (node m f [ix n vpn]).
Proof.
  intros Hn Hg. unfold walk. rewrite pn_index_ix by done. cbn [mbind outcome_bind].
  cbn [node] in *. destruct (pte_is_valid (read_word m f (ix n vpn))); [|done].
  rewrite get_pte_list_address; [done|]. by apply Hg.
Qed.

(** [find_pte] never panics on a well-formed table and finds the leaf entry
    of the page when the inner tables exist. *)
Lemma find_pte_eq w root vpn : pt_wf w root ->
  find_pte root (w_mem w) vpn =
  Ret (match node (w_mem w) root (vpath vpn) with
       | Some f => Some (f, ix 0 vpn) | None => None end).
Proof.
  intros Hwf. unfold find_pte.
  destruct (pw_live w root Hwf [] root path_ok_nil eq_refl) as [_ Hr].
  rewrite PhysAddr_of_PhysPageNum_eq, get_pte_list_eq by lia.
  cbn [mbind outcome_bind]. change (PAGE_LEVEL =? 4) with false. cbv iota.
  cbn [mbind outcome_bind]. rewrite walk_eq; [|lia|].
  2:{ intros g Hg. by apply (pw_live w root Hwf _ g (path_ok_1 2 vpn)). }
  cbn [mbind outcome_bind]. change (vpath vpn) with ([ix 2 vpn] ++ [ix 1 vpn]).
  rewrite node_app. destruct (node (w_mem w) root [ix 2 vpn]) as [f1|] eqn:N1; [|done].
  rewrite walk_eq; [|lia|].
  2:{ intros g Hg. apply (pw_live w root Hwf _ g (path_ok_vpath vpn)).
      change (vpath vpn) with ([ix 2 vpn] ++ [ix 1 vpn]). rewrite node_app, N1. done. }
  cbn [mbind outcome_bind]. destruct (node (w_mem w) f1 [ix 1 vpn]); [|done].
  rewrite pn_index_ix by lia. done.
Qed.

(** ** Adding a table *)

(** What the creating walk may change: it adds tables, from fresh frames, and
    leaves every leaf entry, every other live frame and all handles alone. *)
Record pt_ext (w w' : world) (root : Z) : Prop := {
  pe_wf : world_wf w';
  pe_pt : pt_wf w' root;
  pe_at : forall v, pte_at (w_mem w') root v = pte_at (w_mem w) root v;
  pe_mono : forall q f, path_ok q -> node (w_mem w) root q = Some f ->
    node (w_mem w') root q = Some f;
  pe_data : forall f, is_Some (w_refs w !! f) -> not_table (w_mem w) root f ->
    not_table (w_mem w') root f /\
    forall i, read_word (w_mem w') f i = read_word (w_mem w) f i;
  pe_refs : forall f, is_Some (w_refs w !! f) -> w_refs w' !! f = w_refs w !! f;
  pe_vec : w_frame_vec w' = w_frame_vec w
}.

Lemma pt_ext_refl w root : world_wf w -> pt_wf w root -> pt_ext w w root.
Proof. intros. constructor; done. Qed.

Lemma pt_ext_trans w1 w2 w3 root : pt_ext w1 w2 root -> pt_ext w2 w3 root -> pt_ext w1 w3 root.
Proof.
  intros H1 H2. constructor; try apply H2.
  - intros v. rewrite (pe_at _ _ _ H2). apply (pe_at _ _ _ H1).
  - intros q f Hq Hn. apply (pe_mono _ _ _ H2); [done|]. by apply (pe_mono _ _ _ H1).
  - intros f Hl Hnt. destruct (pe_data _ _ _ H1 f Hl Hnt) as [Hnt2 Hd].
    destruct (pe_data _ _ _ H2 f) as [Hnt3 Hd3]; [by rewrite (pe_refs _ _ _ H1 f Hl)|done|].
    split; [done|]. intros i. rewrite Hd3. apply Hd.
  - intros f Hl. rewrite (pe_refs _ _ _ H2), (pe_refs _ _ _ H1); [done|done|].
    by rewrite (pe_refs _ _ _ H1 f Hl).
  - rewrite (pe_vec _ _ _ H2). apply (pe_vec _ _ _ H1).
Qed.

Section add_table.
Variables (w w1 : world) (root t f i e : Z) (p : list Z).
Hypothesis Hwf : pt_wf w root.
Hypothesis Hp : path_ok p.
Hypothesis Hlen : (length p <= 1)%nat.
Hypothesis Hi : 0 <= i < 512.
Hypothesis Hnode : node (w_mem w) root p = Some f.
Hypothesis Hinv : pte_is_valid (read_word (w_mem w) f i) = false.
Hypothesis Halloc : alloc_post w t w1.
Hypothesis Hval : pte_is_valid e = true.
Hypothesis Haddr : pte_address e = t * PAGE_SIZE.

Let m2 := write_word (w_mem w1) f i e.
Let w2 := set_mem m2 w1.

Lemma at_fresh q g : path_ok q -> node (w_mem w) root q = Some g -> g <> t.
Proof.
  intros Hq Hg ->. destruct (pw_live w root Hwf q t Hq Hg) as [[n Hn] _].
  pose proof (ap_fresh w t w1 Halloc). congruence.
Qed.

Lemma at_read g j : g <> t -> ~ (g = f /\ j = i) -> read_word m2 g j = read_word (w_mem w) g j.
Proof.
  intros Ht Hne. unfold m2. rewrite read_write_word, decide_False by (intros [-> ->]; by apply Hne).
  rewrite (ap_mem w t w1 Halloc), read_zero_frame, decide_False by done. done.
Qed.

Lemma at_read_new j : read_word m2 t j = 0.
Proof.
  unfold m2. pose proof (at_fresh p f Hp Hnode).
  rewrite read_write_word_ne by (left; done).
  rewrite (ap_mem w t w1 Halloc), read_zero_frame, decide_True by done. done.
Qed.

Lemma at_node_other q : path_ok q -> ~ (p ++ [i]) `prefix_of` q ->
  node m2 root q = node (w_mem w) root q.
Proof.
  intros [Hl Hok] Hnp. apply node_frame. intros q' j r g -> Hg.
  assert (path_ok q') as Hq'.
  { split; [rewrite length_app in Hl; lia|]. by apply Forall_app in Hok as [? _]. }
  apply at_read; [by apply (at_fresh q')|]. intros [-> ->].
  apply Hnp. rewrite (pw_inj w root Hwf p q' f Hp Hq' Hnode Hg).
  exists r. rewrite <- app_assoc. done.
Qed.

Lemma at_node_new r : node m2 root (p ++ [i] ++ r) = match r with [] => Some t | _ => None end.
Proof.
  rewrite node_app, at_node_other, Hnode; [|done|].
  2:{ intros Hpre%prefix_length. rewrite length_app in Hpre. cbn in Hpre. lia. }
  cbn. assert (read_word m2 f i = e) as -> by apply read_write_word_eq.
  rewrite Hval, Haddr, Z.div_mul by done.
  destruct r as [|j r]; [done|]. cbn. rewrite at_read_new, pl_zero_invalid. done.
Qed.

Lemma at_node_old r : node (w_mem w) root (p ++ [i] ++ r) = None.
Proof. rewrite node_app, Hnode. cbn. rewrite Hinv. done. Qed.

(** The nodes after the addition. *)
Lemma at_node_cases q g : path_ok q -> node m2 root q = Some g ->
  (q = p ++ [i] /\ g = t) \/ node (w_mem w) root q = Some g.
Proof.
  intros Hq Hg. destruct (decide ((p ++ [i]) `prefix_of` q)) as [[r ->]|Hnp].
  - left. rewrite <- app_assoc, at_node_new in Hg. destruct r; [|done].
    rewrite app_nil_r. split; congruence.
  - right. rewrite at_node_other in Hg by done. done.
Qed.

Lemma at_mono q g : path_ok q -> node (w_mem w) root q = Some g -> node m2 root q = Some g.
Proof.
  intros Hq Hg. destruct (decide ((p ++ [i]) `prefix_of` q)) as [[r ->]|Hnp].
  - rewrite <- app_assoc, at_node_old in Hg. done.
  - rewrite at_node_other by done. done.
Qed.

Lemma at_pt_wf : pt_wf w2 root.
Proof.
  constructor; cbn.
  - intros p1 p2 g H1 H2 N1 N2.
    destruct (at_node_cases p1 g H1 N1) as [[-> E1]|O1], (at_node_cases p2 g H2 N2) as [[-> E2]|O2].
    + done.
    + exfalso. by apply (at_fresh p2 g).
    + exfalso. by apply (at_fresh p1 g).
    + by apply (pw_inj w root Hwf p1 p2 g).
  - intros q g Hq N. rewrite (ap_refs w t w1 Halloc).
    destruct (at_node_cases q g Hq N) as [[-> ->]|O].
    + rewrite lookup_insert_eq. split; [by eexists|apply Halloc].
    + destruct (pw_live w root Hwf q g Hq O) as [Hl Hr]. split; [|done].
      rewrite lookup_insert_ne; [done|]. intros E. by apply (at_fresh q g).
Qed.

Lemma at_pte v : pte_at m2 root v = pte_at (w_mem w) root v.
Proof.
  unfold pte_at. destruct (decide ((p ++ [i]) `prefix_of` vpath v)) as [[r E]|Hnp].
  - rewrite E, <- app_assoc, at_node_new, at_node_old.
    destruct r; [apply at_read_new|done].
  - rewrite at_node_other by (done || apply path_ok_vpath).
    destruct (node (w_mem w) root (vpath v)) as [g|] eqn:E; [|done].
    apply at_read; [by apply (at_fresh (vpath v)); [apply path_ok_vpath|]|].
    intros [-> _]. assert (p = vpath v) as -> by
      (apply (pw_inj w root Hwf p (vpath v) f Hp (path_ok_vpath v)); done).
    cbn in Hlen. lia.
Qed.

Lemma at_ext : pt_ext w w2 root.
Proof.
  constructor; cbn.
  - destruct (ap_wf w t w1 Halloc). by constructor.
  - apply at_pt_wf.
  - apply at_pte.
  - apply at_mono.
  - intros g Hl Hnt. assert (g <> t) as Hgt.
    { intros ->. rewrite (ap_fresh w t w1 Halloc) in Hl. by destruct Hl. }
    split.
    + intros q Hq Hg. destruct (at_node_cases q g Hq Hg) as [[_ ->]|O]; [done|].
      by apply (Hnt q).
    + intros j. apply at_read; [done|]. intros [-> _]. by apply (Hnt p).
  - intros g Hl. rewrite (ap_refs w t w1 Halloc), lookup_insert_ne; [done|].
    intros <-. rewrite (ap_fresh w t w1 Halloc) in Hl. by destruct Hl.
  - apply Halloc.
Qed.

End add_table.

(** ** The creating walk *)

Lemma path_ok_snoc p i : path_ok p -> (length p <= 1)%nat -> 0 <= i < 512 -> path_ok (p ++ [i]).
Proof.
  intros [_ Hok] Hl Hi. split; [rewrite length_app; cbn; lia|].
  apply Forall_app. split; [done|]. by constructor.
Qed.

Lemma walk_create_spec w root pt p n vpn f : world_wf w -> pt_wf w root ->
  path_ok p -> (length p <= 1)%nat -> node (w_mem w) root p = Some f ->
  0 <= n <= 2 -> 0 < free_count w ->
  exists pt' g w', walk_create n vpn (pt, f) w = Ret ((pt', g), w') /\
    node (w_mem w') root (p ++ [ix n vpn]) = Some g /\ pt_ext w w' root /\
    root_ppn pt' = root_ppn pt /\ free_count w - 1 <= free_count w'.
Proof.
  intros Hw Hwf Hp Hl Hf Hn Hc. unfold walk_create. rewrite pn_index_ix by done.
  st_unfold. destruct (pte_is_valid (read_word (w_mem w) f (ix n vpn))) eqn:Ev.
  - assert (node (w_mem w) root (p ++ [ix n vpn]) =
            Some (pte_address (read_word (w_mem w) f (ix n vpn)) / PAGE_SIZE)) as Hg.
    { rewrite node_app, Hf. cbn. rewrite Ev. done. }
    destruct (pw_live w root Hwf _ _ (path_ok_snoc p _ Hp Hl (ix_range n vpn)) Hg) as [_ Hr].
    rewrite get_pte_list_address by done. st_unfold.
    eexists _, _, w. split_and!; [done|done|by apply pt_ext_refl|done|lia].
  - unfold alloc_frame. st_unfold.
    destruct (frame_alloc_available w Hw Hc) as (t & w1 & -> & Hpost).
    pose proof (ap_range w t w1 Hpost) as Ht.
    rewrite PhysAddr_of_PhysPageNum_eq by lia.
    destruct (pl_table t Ht) as (e & -> & _ & Hval & Haddr).
    rewrite Haddr, get_pte_list_eq by done.
    pose proof (at_ext w w1 root t f (ix n vpn) e p Hwf Hp Hl (ix_range n vpn) Hf Ev Hpost Hval Haddr) as Hext.
    eexists _, t, _. split_and!; [done| | |done|].
    + cbn [w_mem set_mem].
      apply (at_node_new w w1 root t f (ix n vpn) e p) with (r := []); done || apply ix_range.
    + exact Hext.
    + pose proof (ap_count w t w1 Hpost). cbn in *. unfold free_count in *. cbn in *. lia.
Qed.

Lemma find_pte_create_spec w pt vpn : world_wf w -> pt_wf w (root_ppn pt) ->
  1 < free_count w ->
  exists pt' f w', find_pte_create pt vpn w = Ret ((pt', (f, ix 0 vpn)), w') /\
    node (w_mem w') (root_ppn pt) (vpath vpn) = Some f /\
    pt_ext w w' (root_ppn pt) /\ root_ppn pt' = root_ppn pt /\
    free_count w - 2 <= free_count w'.
Proof.
  intros Hw Hwf Hc. set (root := root_ppn pt) in *. unfold find_pte_create.
  destruct (pw_live w root Hwf [] root path_ok_nil eq_refl) as [_ Hr].
  rewrite PhysAddr_of_PhysPageNum_eq, get_pte_list_eq by lia.
  change (PAGE_LEVEL =? 4) with false. st_unfold. fold root.
  destruct (walk_create_spec w root pt [] 2 vpn root) as (pt1 & f1 & w1 & -> & N1 & X1 & R1 & C1);
    [done|done|apply path_ok_nil|cbn; lia|done|lia|lia|].
  destruct (walk_create_spec w1 root pt1 [ix 2 vpn] 1 vpn f1)
    as (pt2 & f2 & w2 & -> & N2 & X2 & R2 & C2);
    [apply X1|apply X1|apply path_ok_1|cbn; lia|done|lia|lia|].
  rewrite pn_index_ix by lia.
  exists pt2, f2, w2. split_and!; [done|done|by eapply pt_ext_trans|by rewrite R2, R1|lia].
Qed.

(** ** [map] *)

(** A write to a leaf entry. *)
Lemma leaf_write_at w root vpn f e v : pt_wf w root ->
  0 <= vpn < 2 ^ 27 -> 0 <= v < 2 ^ 27 ->
  node (w_mem w) root (vpath vpn) = Some f ->
  pte_at (write_word (w_mem w) f (ix 0 vpn) e) root v =
  if v =? vpn then e else pte_at (w_mem w) root v.
Proof.
  intros Hwf Hvpn Hv Hf. unfold pte_at.
  rewrite (node_write_leaf w) by (done || apply path_ok_vpath ||
    (intros q Hq Hl Hn; pose proof (pw_inj w root Hwf _ _ f Hq (path_ok_vpath vpn) Hn Hf);
     subst q; cbn in Hl; lia)).
  destruct (Z.eqb_spec v vpn) as [->|Hne].
  - rewrite Hf. apply read_write_word_eq.
  - destruct (node (w_mem w) root (vpath v)) as [g|] eqn:Hg; [|done].
    apply read_write_word_ne. destruct (decide (f = g)) as [<-|]; [right|by left].
    intros E. apply Hne, vpath_inj; try done.
    apply (pw_inj w root Hwf _ _ f); [apply path_ok_vpath..|done|done].
Qed.

Lemma leaf_write_wf w root vpn f e : pt_wf w root ->
  node (w_mem w) root (vpath vpn) = Some f ->
  pt_wf (set_mem (write_word (w_mem w) f (ix 0 vpn) e) w) root.
Proof.
  intros Hwf Hf.
  assert (forall p, path_ok p ->
    node (write_word (w_mem w) f (ix 0 vpn) e) root p = node (w_mem w) root p) as E.
  { intros p Hp. apply node_write_leaf; [done|done|]. intros q Hq Hl Hn.
    pose proof (pw_inj w root Hwf _ _ f Hq (path_ok_vpath vpn) Hn Hf). subst q. cbn in Hl. lia. }
  constructor; cbn.
  - intros p1 p2 g H1 H2 N1 N2. rewrite E in N1, N2 by done. by apply (pw_inj w root Hwf p1 p2 g).
  - intros p g H N. rewrite E in N by done. by apply (pw_live w root Hwf p g).
Qed.

Lemma set_mem_wf w m : world_wf w -> world_wf (set_mem m w).
Proof. intros []. by constructor. Qed.

(** What [map] promises. *)
Record map_post (w : world) (root vpn e : Z) (w' : world) : Prop := {
  mp_wf : world_wf w';
  mp_pt : pt_wf w' root;
  mp_at : forall v, 0 <= v < 2 ^ 27 ->
    pte_at (w_mem w') root v = if v =? vpn then e else pte_at (w_mem w) root v;
  mp_data : forall f, is_Some (w_refs w !! f) -> not_table (w_mem w) root f ->
    not_table (w_mem w') root f /\
    forall i, read_word (w_mem w') f i = read_word (w_mem w) f i;
  mp_refs : forall f, is_Some (w_refs w !! f) -> w_refs w' !! f = w_refs w !! f;
  mp_vec : w_frame_vec w' = w_frame_vec w
}.

Lemma pt_map_spec w pt vpn ppn flags e : world_wf w -> pt_wf w (root_ppn pt) ->
  0 <= vpn < 2 ^ 27 -> pte_is_valid (pte_at (w_mem w) (root_ppn pt) vpn) = false ->
  1 < free_count w -> pte_new ppn flags = Ret e ->
  exists pt' w', pt_map pt vpn ppn flags w = Ret (pt', w') /\
    root_ppn pt' = root_ppn pt /\ map_post w (root_ppn pt) vpn e w' /\
    free_count w - 2 <= free_count w'.
Proof.
  intros Hw Hwf Hv Hinv Hc He. unfold pt_map. st_unfold.
  destruct (find_pte_create_spec w pt vpn Hw Hwf Hc) as (pt' & f & w1 & -> & Hf & X & R & C).
  assert (read_word (w_mem w1) f (ix 0 vpn) = pte_at (w_mem w) (root_ppn pt) vpn) as Hrd.
  { rewrite <- (pe_at _ _ _ X). unfold pte_at. rewrite Hf. done. }
  rewrite Hrd, Hinv, He. cbn [negb rassert].
  eexists _, _. split; [done|]. split_and!; [done| |done].
  constructor; cbn.
  - apply set_mem_wf, X.
  - apply leaf_write_wf; [apply X|done].
  - intros v Hv'. rewrite leaf_write_at by (done || apply X). rewrite (pe_at _ _ _ X). done.
  - intros g Hl Hnt. destruct (pe_data _ _ _ X g Hl Hnt) as [Hnt1 Hd]. split.
    + intros p Hp Hn. apply (Hnt1 p Hp). rewrite <- Hn. symmetry.
      apply node_write_leaf; [apply X|done|]. intros q Hq Hlq Hnq.
      pose proof (pw_inj w1 _ (pe_pt _ _ _ X) _ _ f Hq (path_ok_vpath vpn) Hnq Hf).
      subst q. cbn in Hlq. lia.
    + intros i. rewrite read_write_word_ne; [apply Hd|]. left. intros ->.
      by apply (Hnt1 (vpath vpn) (path_ok_vpath vpn)).
  - apply X.
  - apply X.
Qed.

Lemma pt_unmap_spec w pt vpn : world_wf w -> pt_wf w (root_ppn pt) -> 0 <= vpn < 2 ^ 27 ->
  pte_is_valid (pte_at (w_mem w) (root_ppn pt) vpn) = true ->
  exists w', pt_unmap pt vpn w = Ret (tt, w') /\ map_post w (root_ppn pt) vpn 0 w' /\
    w_refs w' = w_refs w /\ w_fa w' = w_fa w.
Proof.
  intros Hw Hwf Hv Hval. unfold pt_unmap. st_unfold. rewrite (find_pte_eq w) by done.
  unfold pte_at in Hval.
  destruct (node (w_mem w) (root_ppn pt) (vpath vpn)) as [f|] eqn:Hf;
    [|rewrite pl_zero_invalid in Hval; done].
  rewrite Hval. cbn [rassert]. eexists. split; [done|]. split; [|done].
  constructor; cbn; try done.
  - by apply set_mem_wf.
  - by apply leaf_write_wf.
  - intros v Hv'. by apply leaf_write_at.
  - intros g Hl Hnt. split.
    + intros p Hp Hn. apply (Hnt p Hp). rewrite <- Hn. symmetry.
      apply node_write_leaf; [done|done|]. intros q Hq Hlq Hnq.
      pose proof (pw_inj w _ Hwf _ _ f Hq (path_ok_vpath vpn) Hnq Hf).
      subst q. cbn in Hlq. lia.
    + intros i. apply read_write_word_ne. left. intros ->.
      by apply (Hnt (vpath vpn) (path_ok_vpath vpn)).
Qed.

(** Unmapping a page that is not mapped panics. *)
Lemma pt_unmap_invalid w pt vpn : pt_wf w (root_ppn pt) ->
  pte_is_valid (pte_at (w_mem w) (root_ppn pt) vpn) = false ->
  pt_unmap pt vpn w = Panic.
Proof.
  intros Hwf Hval. unfold pt_unmap. st_unfold. rewrite (find_pte_eq w) by done.
  unfold pte_at in Hval. destruct (node (w_mem w) (root_ppn pt) (vpath vpn)) as [f|]; [|done].
  rewrite Hval. done.
Qed.

(** Mapping a page that is mapped panics. *)
Lemma pt_map_twice w pt vpn ppn flags : world_wf w -> pt_wf w (root_ppn pt) ->
  pte_is_valid (pte_at (w_mem w) (root_ppn pt) vpn) = true -> 1 < free_count w ->
  pt_map pt vpn ppn flags w = Panic.
Proof.
  intros Hw Hwf Hval Hc. unfold pt_map. st_unfold.
  destruct (find_pte_create_spec w pt vpn Hw Hwf Hc) as (pt' & f & w1 & -> & Hf & X & R & C).
  assert (read_word (w_mem w1) f (ix 0 vpn) = pte_at (w_mem w) (root_ppn pt) vpn) as ->.
  { rewrite <- (pe_at _ _ _ X). unfold pte_at. rewrite Hf. done. }
  rewrite Hval. done.
Qed.

End walks.

(** ** A new page table *)

Lemma pt_new_spec `{A : PteArch} `{!PteLaws A} w : world_wf w -> 0 < free_count w ->
  exists pt w', pt_new w = Ret (pt, w') /\ world_wf w' /\ pt_wf w' (root_ppn pt) /\
    (forall v, pte_at (w_mem w') (root_ppn pt) v = 0) /\
    free_count w' = free_count w - 1 /\ w_refs w' = <[root_ppn pt := 1]> (w_refs w) /\
    w_refs w !! root_ppn pt = None.
Proof.
  intros Hw Hc. unfold pt_new. st_unfold.
  destruct (frame_alloc_available w Hw Hc) as (t & w1 & -> & Hp).
  assert (forall i, read_word (w_mem w1) t i = 0) as Hz.
  { intros i. rewrite (ap_mem _ _ _ Hp), read_zero_frame, decide_True by done. done. }
  assert (forall p f, node (w_mem w1) t p = Some f -> p = [] /\ f = t) as Hn.
  { intros [|i p] f; cbn; [intros [= <-]; done|]. rewrite Hz, pl_zero_invalid. done. }
  eexists _, w1. split; [done|]. cbn. split_and!.
  - apply Hp.
  - constructor.
    + intros p1 p2 f _ _ [-> _]%Hn [-> _]%Hn. done.
    + intros p f _ [-> ->]%Hn. rewrite (ap_refs _ _ _ Hp), lookup_insert_eq.
      split; [by eexists|apply Hp].
  - intros v. unfold pte_at, vpath. cbn. rewrite Hz, pl_zero_invalid. done.
  - apply (ap_count _ _ _ Hp).
  - apply (ap_refs _ _ _ Hp).
  - apply (ap_fresh _ _ _ Hp).
Qed.

(** * The loongarch64 page table *)

(** C7: Mapping an unmapped user page on loongarch64 with more than three
    frames free never panics; afterwards the page translates to the given frame and
    flags, every other page has the entry it had (a missing table reading as
    zero), the live frames that hold no table keep their contents, the table
    is still a tree of live frames, and mapping the page a second time would
    panic. *)
Theorem map_then_translate w pt vpn ppn flags : world_wf w -> pt_wf w (root_ppn pt) ->
  0 <= vpn < 2 ^ 27 -> pte_at (w_mem w) (root_ppn pt) vpn = 0 -> 3 < free_count w ->
  0 < ppn < 2 ^ 36 -> pte_flags_ok flags = true ->
  exists pt' w' e, pt_map pt vpn ppn flags w = Ret (pt', w') /\
    root_ppn pt' = root_ppn pt /\
    pt_translate (root_ppn pt) (w_mem w') vpn = Ret (Some e) /\
    la_ppn e = Ret ppn /\ la_flags e = Ret flags /\
    map_post w (root_ppn pt) vpn e w' /\
    pt_map pt' vpn ppn flags w' = Panic.
Proof.
  intros Hw Hwf Hv H0 Hc Hp Hf. pose proof Hf as Hf'. cbn in Hf'. zbool.
  destruct (la_new_roundtrip ppn flags) as (e & He & Hppn & Hfl & _); [lia|done|].
  destruct (pt_map_spec w pt vpn ppn flags e) as (pt' & w' & E & R & P & C);
    [done|done|done|rewrite H0; done|lia|done|].
  exists pt', w', e. split_and!; try done.
  - unfold pt_translate. destruct (Z.leb_spec KERNEL_PGNUM_OFFSET vpn) as [Hk|_].
    { change KERNEL_PGNUM_OFFSET with 0x9000000000000 in Hk. lia. }
    rewrite (find_pte_eq w') by apply P. cbn [mbind outcome_bind].
    pose proof (mp_at _ _ _ _ _ P vpn Hv) as Hat. rewrite Z.eqb_refl in Hat.
    unfold pte_at in Hat.
    destruct (node (w_mem w') (root_ppn pt) (vpath vpn)); cbn.
    + rewrite Hat. done.
    + exfalso. subst e. rewrite la_flags_eq in Hfl. injection Hfl as <-. done.
  - apply pt_map_twice.
    + apply P.
    + rewrite R. apply P.
    + rewrite R, (mp_at _ _ _ _ _ P vpn Hv), Z.eqb_refl.
      destruct (pl_leaf ppn flags Hp Hf) as (e' & He' & _ & Hval & _).
      change (pte_new ppn flags) with (la_new ppn flags) in He'.
      rewrite He in He'. injection He' as <-. done.
    + lia.
Qed.

(** A page table in a fresh machine of 70 frames. *)
Definition pt70 : PageTable * world :=
  match pt_new world70 with
  | Ret r => r
  | Panic => (mkPT 0 [], world70)
  end.

Lemma pt70_ok : world_wf (snd pt70) /\ pt_wf (snd pt70) (root_ppn (fst pt70)) /\
  (forall v, pte_at (w_mem (snd pt70)) (root_ppn (fst pt70)) v = 0) /\
  free_count (snd pt70) = 69.
Proof.
  destruct (pt_new_spec world70) as (pt & w' & E & H1 & H2 & H3 & H4 & _);
    [apply world70_wf|vm_compute; done|].
  unfold pt70. rewrite E. cbn. split_and!; try done.

Qed.

Lemma map_then_translate_witness :
  exists pt' w' e, pt_map (fst pt70) 0x12345 0x80010 0x18f (snd pt70) = Ret (pt', w') /\
    pt_translate (root_ppn (fst pt70)) (w_mem w') 0x12345 = Ret (Some e) /\
    la_ppn e = Ret 0x80010.
Proof.
  destruct pt70_ok as (H1 & H2 & H3 & H4).
  destruct (map_then_translate (snd pt70) (fst pt70) 0x12345 0x80010 0x18f)
    as (pt' & w' & e & E & _ & Ht & Hp & _);
    [exact H1|exact H2|lia|apply H3|rewrite H4; lia|lia|reflexivity|].
  exists pt', w', e. split; [exact E|split; [exact Ht|exact Hp]].
Defined.

(** C30: Unmapping undoes mapping: after [map] and [unmap] of a page every
    user page has the entry it had before, the table is well-formed, and a
    second [unmap] panics. *)
Theorem unmap_undoes_map w pt vpn ppn flags pt' w' : world_wf w -> pt_wf w (root_ppn pt) ->
  0 <= vpn < 2 ^ 27 -> pte_at (w_mem w) (root_ppn pt) vpn = 0 -> 1 < free_count w ->
  0 < ppn < 2 ^ 36 -> pte_flags_ok flags = true ->
  pt_map pt vpn ppn flags w = Ret (pt', w') ->
  exists w'', pt_unmap pt' vpn w' = Ret (tt, w'') /\ world_wf w'' /\
    pt_wf w'' (root_ppn pt) /\
    (forall v, 0 <= v < 2 ^ 27 ->
       pte_at (w_mem w'') (root_ppn pt) v = pte_at (w_mem w) (root_ppn pt) v) /\
    pt_unmap pt' vpn w'' = Panic.
Proof.
  intros Hw Hwf Hv H0 Hc Hp Hf E.
  destruct (pl_leaf ppn flags Hp Hf) as (e & He & _ & Hval & _).
  destruct (pt_map_spec w pt vpn ppn flags e) as (pt1 & w1 & E1 & R & P & _);
    [done|done|done|rewrite H0; done|lia|done|].
  rewrite E1 in E. injection E as <- <-.
  destruct (pt_unmap_spec w1 pt1 vpn) as (w2 & E2 & P2 & _).
  { apply P. }
  { rewrite R. apply P. }
  { done. }
  { rewrite R, (mp_at _ _ _ _ _ P vpn Hv), Z.eqb_refl. done. }
  rewrite R in *. exists w2. split_and!; [done|apply P2|apply P2| |].
  - intros v Hv'. rewrite (mp_at _ _ _ _ _ P2 v Hv'), (mp_at _ _ _ _ _ P v Hv').
    destruct (Z.eqb_spec v vpn); congruence.
  - apply pt_unmap_invalid; rewrite ?R; [apply P2|].
    rewrite (mp_at _ _ _ _ _ P2 vpn Hv), Z.eqb_refl. apply pl_zero_invalid.
Qed.

Lemma unmap_undoes_map_witness :
  exists pt' w' w'', pt_map (fst pt70) 7 0x80010 0x18f (snd pt70) = Ret (pt', w') /\
    pt_unmap pt' 7 w' = Ret (tt, w'').
Proof.
  destruct pt70_ok as (H1 & H2 & H3 & H4).
  destruct (pt_map_spec (snd pt70) (fst pt70) 7 0x80010 0x18f 0x8001018f)
    as (pt' & w' & E & _); [exact H1|exact H2|lia|rewrite H3; reflexivity|rewrite H4; lia|reflexivity|].
  destruct (unmap_undoes_map (snd pt70) (fst pt70) 7 0x80010 0x18f pt' w')
    as (w'' & E2 & _);
    [exact H1|exact H2|lia|apply H3|rewrite H4; lia|lia|reflexivity|exact E|].
  exists pt', w', w''. split; [exact E|exact E2].
Defined.

(** The address translation of loongarch64 user pages: an address in a
    page whose entry is valid translates to the frame of the entry plus the
    offset in the page. *)
Theorem translate_va_entry w root va p : pt_wf w root ->
  0 <= va < 2 ^ 39 -> la_is_valid (pte_at (w_mem w) root (va / PAGE_SIZE)) = true ->
  la_ppn (pte_at (w_mem w) root (va / PAGE_SIZE)) = Ret p ->
  translate_va root (w_mem w) va = Ret (Some (p * PAGE_SIZE + va mod PAGE_SIZE)).
Proof.
  intros Hwf Hva Hval Hp. unfold translate_va.
  destruct (Z.leb_spec KERNEL_DIRECT_OFFSET va); [unfold KERNEL_DIRECT_OFFSET in *; lia|].
  rewrite (find_pte_eq w) by done. unfold VirtAddr_floor. cbn [mbind outcome_bind].
  unfold pte_at in *. destruct (node (w_mem w) root (vpath (va / PAGE_SIZE))) as [f|]; [|done].
  change pte_ppn with la_ppn. rewrite Hp. cbn [mbind outcome_bind].
  rewrite la_ppn_eq in Hp. injection Hp as <-.
  pose proof (land_bounds_r (read_word (w_mem w) f (ix 0 (va / PAGE_SIZE))) la_PPN 48
    ltac:(vm_compute; split; congruence)) as Hb.
  rewrite shiftr_div by lia. rewrite PhysAddr_of_PhysPageNum_eq, page_offset_mod by lia.
  unfold PAGE_SIZE in *. rewrite uadd_Ret by (unfold u64_bound; lia). done.
Qed.

Lemma translate_va_entry_witness :
  exists pt' w', pt_map (fst pt70) 7 0x80010 0x18f (snd pt70) = Ret (pt', w') /\
    translate_va (root_ppn (fst pt70)) (w_mem w') 0x7abc = Ret (Some 0x80010abc).
Proof.
  destruct pt70_ok as (H1 & H2 & H3 & H4).
  destruct (pt_map_spec (snd pt70) (fst pt70) 7 0x80010 0x18f 0x8001018f)
    as (pt' & w' & E & R & P & _);
    [exact H1|exact H2|lia|rewrite H3; reflexivity|rewrite H4; lia|reflexivity|].
  exists pt', w'. split; [exact E|].
  pose proof (mp_at _ _ _ _ _ P 7 ltac:(lia)) as Hat. cbn [Z.eqb Pos.eqb] in Hat.
  apply (translate_va_entry w' (root_ppn (fst pt70)) 0x7abc 0x80010);
    [apply P|lia|change (0x7abc / PAGE_SIZE) with 7; rewrite Hat; reflexivity
    |change (0x7abc / PAGE_SIZE) with 7; rewrite Hat; reflexivity].
Defined.

(** * The riscv64 page table *)

Section riscv.
#[local] Existing Instance riscv64 | 0.

(** A creating step of the walk at an invalid entry. *)
Lemma rv_walk_create w pt f n vpn s w' : world_wf w ->
  0 <= n <= 2 -> rv_is_valid (read_word (w_mem w) f (ix n vpn)) = false ->
  walk_create (A := riscv64) n vpn (pt, f) w = Ret (s, w') ->
  exists w1, alloc_post w (snd s) w1 /\
    w' = set_mem (write_word (w_mem w1) f (ix n vpn) (snd s * PAGE_SIZE)) w1.
Proof.
  intros Hw Hn Hinv E. unfold walk_create in E. rewrite pn_index_ix in E by done.
  st_unfold_in E. change (@pte_is_valid riscv64) with rv_is_valid in E. rewrite Hinv in E.
  unfold alloc_frame in E. st_unfold_in E.
  destruct (frame_alloc_spec w Hw) as [(t & w1 & E1 & Hp)|[E1 _]]; rewrite E1 in E; [|done].
  pose proof (ap_range _ _ _ Hp). rewrite PhysAddr_of_PhysPageNum_eq in E by lia.
  change (@pte_new_table riscv64) with rv_new_table in E. unfold rv_new_table in E.
  rewrite Z.mod_mul in E by done. cbn [Z.eqb rassert mbind outcome_bind] in E.
  change (@pte_address riscv64) with la_address in E.
  unfold la_address in E. change 0xfffffffff000 with la_PPN in E.
  rewrite page_land_PPN in E by lia. rewrite get_pte_list_eq in E by lia.
  injection E as <- <-. cbn. exists w1. done.
Qed.

(** With the riscv64 entry format the page-table code loses what it maps:
    after a [map] that had to create the second-level table, the walk of
    [find_pte] for the same page finds no table, because [new_table] sets no
    valid bit. *)
Theorem rv_map_not_found w pt vpn ppn flags pt' w' : world_wf w ->
  is_Some (w_refs w !! root_ppn pt) ->
  rv_is_valid (read_word (w_mem w) (root_ppn pt) (ix 2 vpn)) = false ->
  pt_map (A := riscv64) pt vpn ppn flags w = Ret (pt', w') ->
  find_pte (A := riscv64) (root_ppn pt) (w_mem w') vpn = Ret None.
Proof.
  intros Hw Hl Hinv E. pose proof (live_range w _ Hw Hl) as Hr.
  unfold pt_map, find_pte_create in E.
  rewrite PhysAddr_of_PhysPageNum_eq, get_pte_list_eq in E by lia.
  change (PAGE_LEVEL =? 4) with false in E. st_unfold_in E.
  destruct (walk_create 2 vpn (pt, root_ppn pt) w) as [[[pt1 t1] w1]|] eqn:E1; [|done].
  apply rv_walk_create in E1 as (wa & P1 & ->); [|done|lia|done]. cbn [snd] in *.
  destruct (walk_create 1 vpn (pt1, t1) _) as [[[pt2 t0] w2]|] eqn:E2 in E; [|done].
  assert (root_ppn pt <> t1) as Hne1.
  { intros <-. rewrite (ap_fresh _ _ _ P1) in Hl. by destruct Hl. }
  apply rv_walk_create in E2 as (wb & P2 & ->); [|by apply set_mem_wf, P1|lia|].
  2:{ cbn. rewrite read_write_word_ne by (by left). rewrite (ap_mem _ _ _ P1).
      rewrite read_zero_frame, decide_True by done. done. }
  cbn [snd] in *. rewrite pn_index_ix in E by lia. cbn [fst snd] in E.
  assert (root_ppn pt <> t0) as Hne0.
  { intros <-. pose proof (ap_fresh _ _ _ P2) as F. cbn in F.
    rewrite (ap_refs _ _ _ P1), lookup_insert_ne in F by done. rewrite F in Hl. by destruct Hl. }
  destruct (rassert _) in E; [|done]. injection E as <- <-.
  cbn [w_mem set_mem]. set (m' := write_word _ t0 _ _).
  assert (read_word m' (root_ppn pt) (ix 2 vpn) = t1 * PAGE_SIZE) as Hrd.
  { unfold m'. rewrite !read_write_word_ne by (left; done).
    rewrite (ap_mem _ _ _ P2), read_zero_frame, decide_False by done.
    apply read_write_word_eq. }
  assert (walk (A := riscv64) m' 2 vpn (Some (root_ppn pt)) = Ret None) as Hwalk.
  { unfold walk. rewrite pn_index_ix by lia. cbn [mbind outcome_bind]. rewrite Hrd.
    change (@pte_is_valid riscv64) with rv_is_valid.
    unfold rv_is_valid, rv_flags, fl_from_bits_truncate, rv_V.
    rewrite flag_nonzero_bit, Z.land_spec, Z.bit0_odd, Z.odd_mul, andb_false_r by lia. done. }
  unfold find_pte. rewrite PhysAddr_of_PhysPageNum_eq, get_pte_list_eq by lia.
  cbn [mbind outcome_bind]. change (PAGE_LEVEL =? 4) with false. cbv iota.
  cbn [mbind outcome_bind]. rewrite Hwalk. done.
Qed.

End riscv.

Lemma rv_map_not_found_witness :
  exists pt' w', pt_map (A := riscv64) (fst pt70) 7 0x80010 0x1f (snd pt70) = Ret (pt', w') /\
    find_pte (A := riscv64) (root_ppn (fst pt70)) (w_mem w') 7 = Ret None.
Proof.
  destruct (pt_map (A := riscv64) (fst pt70) 7 0x80010 0x1f (snd pt70)) as [[pt' w']|] eqn:E.
  - exists pt', w'. split; [reflexivity|].
    apply (rv_map_not_found (snd pt70) (fst pt70) 7 0x80010 0x1f pt' w');
      [apply pt70_ok|vm_compute; eexists; reflexivity|reflexivity|exact E].
  - exfalso. apply (f_equal (fun o => match o with Ret _ => true | Panic => false end)) in E.
    vm_compute in E. discriminate E.
Defined.

(** ** The kernel half of a new user page table *)

Lemma copy_words_read m dst src k g i : dst <> src ->
  read_word (copy_words m dst src k) g i =
  if decide (g = dst /\ k <= i < 512) then read_word m src i else read_word m g i.
Proof.
  intros Hne. unfold copy_words.
  assert (forall l m, read_word (fold_left (fun m i => write_word m dst i (read_word m src i)) l m) g i =
    if decide (g = dst /\ i ∈ l) then read_word m src i else read_word m g i) as Hcopy.
  { clear m. induction l as [|j l IH]; intros m.
    { rewrite decide_False by set_solver. done. }
    cbn [fold_left]. rewrite IH, !read_write_word.
    rewrite (decide_False (P := dst = src /\ _)) by naive_solver.
    destruct (decide (g = dst /\ i ∈ l)) as [[-> Hi]|Hn].
    - rewrite decide_True by set_solver. done.
    - destruct (decide (dst = g /\ j = i)) as [[-> ->]|Hn'].
      + rewrite decide_True by set_solver. done.
      + rewrite decide_False; [done|]. rewrite elem_of_cons. naive_solver. }
  rewrite Hcopy. destruct (decide (g = dst /\ k <= i < 512)).
  - rewrite decide_True; [done|]. rewrite elem_of_zrange. done.
  - rewrite decide_False; [done|]. rewrite elem_of_zrange. done.
Qed.

(** [new_from_kernel] means to copy the kernel's part of the root table,
    from the top-level index of [KERNEL_PGNUM_OFFSET] on; on loongarch64 that
    index, taken from a four-level decomposition, is 0, and the whole root
    table of the kernel is copied. *)
Theorem new_from_kernel_copies_all groot w pt w' : 
  pt_new_from_kernel groot w = Ret (pt, w') -> 0 < groot < 2 ^ 36 ->
  world_wf w -> w_refs w !! groot <> None ->
  forall i, 0 <= i < 512 ->
    read_word (w_mem w') (root_ppn pt) i = read_word (w_mem w) groot i.
Proof.
  intros E Hg Hw Hl. unfold pt_new_from_kernel in E. st_unfold_in E.
  destruct (frame_alloc_spec w Hw) as [(t & w1 & E1 & Hp)|[E1 _]]; rewrite E1 in E; [|done].
  pose proof (ap_range _ _ _ Hp). change (index (indexes_la KERNEL_PGNUM_OFFSET) 0) with (Ret 0) in E.
  cbv iota in E. rewrite !frame_base_eq in E by lia. cbv iota in E. injection E as <- <-.
  cbn [root_ppn w_mem set_mem].
  assert (t <> groot) as Hne. { intros ->. by rewrite (ap_fresh _ _ _ Hp) in Hl. }
  intros i Hi. rewrite copy_words_read, decide_True by (done || lia).
  rewrite (ap_mem _ _ _ Hp), read_zero_frame, decide_False by done. done.
Qed.

Lemma new_from_kernel_copies_all_witness :
  exists pt w', pt_new_from_kernel (root_ppn (fst pt70)) (snd pt70) = Ret (pt, w') /\
    read_word (w_mem w') (root_ppn pt) 3 = 0.
Proof.
  destruct (pt_new_from_kernel (root_ppn (fst pt70)) (snd pt70)) as [[pt w']|] eqn:E.
  - exists pt, w'. split; [reflexivity|].
    rewrite (new_from_kernel_copies_all _ (snd pt70) pt w' E);
      [reflexivity|vm_compute; split; congruence|apply pt70_ok|vm_compute; congruence|lia].
  - exfalso. apply (f_equal (fun o => match o with Ret _ => true | Panic => false end)) in E.
    vm_compute in E. discriminate E.
Defined.
