(* ===== verification/BTree.v ===== *)
(** * Ordered maps

    The standard library's [BTreeMap] as the sorted list of its entries, over
    an order on keys given by a class.  The kernel uses it for the areas of an
    address space, the frames of an area, the ready queue of the scheduler
    and the timers.  Iteration is in key order, [range] is a sublist. *)

From Stdlib Require Export Sorting.Sorted.
From S2P Require Import Prelude.

Class KeyOrd (K : Type) : Type := {
  kcmp : K -> K -> comparison;
  kcmp_eq : forall a b, kcmp a b = Eq <-> a = b;
  kcmp_opp : forall a b, kcmp b a = CompOpp (kcmp a b);
  kcmp_trans : forall a b c, kcmp a b = Lt -> kcmp b c = Lt -> kcmp a c = Lt
}.

#[export] Instance Z_KeyOrd : KeyOrd Z.
Proof.
  refine {| kcmp := Z.compare |}.
  - apply Z.compare_eq_iff.
  - intros. apply Z.compare_antisym.
  - intros a b c. rewrite !Z.compare_lt_iff. lia.
Defined.

(** Lexicographic order on pairs, as derived for Rust tuples. *)
Definition pair_cmp (a b : Z * Z) : comparison :=
  match Z.compare (fst a) (fst b) with
  | Eq => Z.compare (snd a) (snd b)
  | c => c
  end.

#[export] Instance ZZ_KeyOrd : KeyOrd (Z * Z).
Proof.
  refine {| kcmp := pair_cmp |}; unfold pair_cmp.
  - intros [a1 a2] [b1 b2]; cbn. destruct (Z.compare_spec a1 b1); subst.
    + rewrite Z.compare_eq_iff. split; [intros ->|intros [= ->]]; done.
    + split; [done|intros [= -> ->]; lia].
    + split; [done|intros [= -> ->]; lia].
  - intros [a1 a2] [b1 b2]; cbn. rewrite (Z.compare_antisym a1 b1).
    destruct (a1 ?= b1); cbn; [apply Z.compare_antisym|done|done].
  - intros [a1 a2] [b1 b2] [c1 c2]; cbn.
    destruct (Z.compare_spec a1 b1), (Z.compare_spec b1 c1), (Z.compare_spec a1 c1);
      rewrite ?Z.compare_lt_iff; try done; try lia.
Defined.

Definition klt {K} `{KeyOrd K} (a b : K) : Prop := kcmp a b = Lt.
Definition kltb {K} `{KeyOrd K} (a b : K) : bool :=
  match kcmp a b with Lt => true | _ => false end.
Definition kleb {K} `{KeyOrd K} (a b : K) : bool :=
  match kcmp a b with Gt => false | _ => true end.

Section btree.
Context {K V : Type} `{KO : KeyOrd K}.
Implicit Types (t : list (K * V)) (k : K) (v : V).

Fixpoint bt_get k t : option V :=
  match t with
  | [] => None
  | (k', v) :: t' => match kcmp k k' with Eq => Some v | _ => bt_get k t' end
  end.

(** [insert] replaces the value of an existing key; the old value is
    returned. *)
Fixpoint bt_insert k v t : list (K * V) :=
  match t with
  | [] => [(k, v)]
  | (k', v') :: t' =>
      match kcmp k k' with
      | Lt => (k, v) :: t
      | Eq => (k, v) :: t'
      | Gt => (k', v') :: bt_insert k v t'
      end
  end.

Fixpoint bt_remove k t : list (K * V) :=
  match t with
  | [] => []
  | (k', v') :: t' => match kcmp k k' with Eq => t' | _ => (k', v') :: bt_remove k t' end
  end.

(** [range(k..)], [range(..k)], [range(..=k)] *)
Definition bt_from k t : list (K * V) := List.filter (fun e => kleb k (fst e)) t.
Definition bt_below k t : list (K * V) := List.filter (fun e => kltb (fst e) k) t.
Definition bt_upto k t : list (K * V) := List.filter (fun e => kleb (fst e) k) t.

(** [split_off(k)]: what stays and what is returned. *)
Definition bt_split_off k t : list (K * V) * list (K * V) := (bt_below k t, bt_from k t).

Definition bt_first t : option (K * V) := head t.
Definition bt_pop_first t : option ((K * V) * list (K * V)) :=
  match t with [] => None | e :: t' => Some (e, t') end.

(** The invariant: keys strictly increasing. *)
Definition bt_sorted t : Prop := StronglySorted klt (fst <$> t).

(** ** Lemmas *)

Lemma kcmp_refl k : kcmp k k = Eq.
Proof. by apply kcmp_eq. Qed.

Lemma klt_irrefl k : ~ klt k k.
Proof. unfold klt. rewrite kcmp_refl. done. Qed.

Lemma kcmp_Gt a b : kcmp a b = Gt <-> klt b a.
Proof. unfold klt. rewrite (kcmp_opp a b). destruct (kcmp a b); done. Qed.

Lemma klt_trans a b c : klt a b -> klt b c -> klt a c.
Proof. apply kcmp_trans. Qed.

Lemma klt_ne a b : klt a b -> a <> b.
Proof. intros H ->. by apply klt_irrefl in H. Qed.

Lemma kltb_spec a b : kltb a b = true <-> klt a b.
Proof. unfold kltb, klt. destruct (kcmp a b); done. Qed.

Lemma kleb_spec a b : kleb a b = true <-> a = b \/ klt a b.
Proof.
  unfold kleb. rewrite <- kcmp_eq. unfold klt.
  destruct (kcmp a b); split; auto; try done; intros [?|?]; done.
Qed.

Lemma kleb_negb a b : kleb a b = negb (kltb b a).
Proof. unfold kleb, kltb. rewrite (kcmp_opp a b). destruct (kcmp a b); done. Qed.

Lemma sorted_cons k v t : bt_sorted ((k, v) :: t) <->
  Forall (fun e => klt k (fst e)) t /\ bt_sorted t.
Proof.
  unfold bt_sorted. cbn. split.
  - intros H. apply StronglySorted_inv in H as [H1 H2]. split; [|done].
    rewrite Forall_fmap in H2. exact H2.
  - intros [H1 H2]. constructor; [done|]. apply Forall_fmap. exact H1.
Qed.

Lemma get_below k t : Forall (fun e => klt k (fst e)) t -> bt_get k t = None.
Proof.
  induction 1 as [|[k' v'] t H _ IH]; [done|]. cbn in *. unfold klt in H. rewrite H. done.
Qed.

Lemma get_Some_elem k v t : bt_get k t = Some v -> (k, v) ∈ t.
Proof.
  induction t as [|[k' v'] t IH]; [done|]. cbn.
  destruct (kcmp k k') eqn:E; [|set_solver|set_solver].
  apply kcmp_eq in E as ->. intros [= ->]. set_solver.
Qed.

Lemma elem_get k v t : bt_sorted t -> (k, v) ∈ t -> bt_get k t = Some v.
Proof.
  induction t as [|[k' v'] t IH]; [set_solver|]. intros [Hf Hs]%sorted_cons Hin.
  apply elem_of_cons in Hin as [[= -> ->]|Hin]; cbn; [by rewrite kcmp_refl|].
  rewrite List.Forall_forall in Hf. specialize (Hf (k, v)). rewrite <- list_elem_of_In in Hf.
  pose proof (Hf Hin) as Hlt. cbn in Hlt. rewrite (kcmp_opp k' k). unfold klt in Hlt.
  rewrite Hlt. by apply IH.
Qed.

Lemma get_elem k v t : bt_sorted t -> bt_get k t = Some v <-> (k, v) ∈ t.
Proof. intros. split; [apply get_Some_elem|by apply elem_get]. Qed.

Lemma Forall_insert_key (P : K * V -> Prop) k v t :
  Forall P t -> P (k, v) -> Forall P (bt_insert k v t).
Proof.
  intros Ht Hk. induction Ht as [|[k' v'] t H Ht IH]; cbn; [by repeat constructor|].
  destruct (kcmp k k'); by repeat constructor.
Qed.

Lemma insert_sorted k v t : bt_sorted t -> bt_sorted (bt_insert k v t).
Proof.
  induction t as [|[k' v'] t IH]; intros Hs; cbn.
  - apply sorted_cons. split; [constructor|done].
  - pose proof Hs as [Hf Ht]%sorted_cons. destruct (kcmp k k') eqn:E.
    + apply kcmp_eq in E as ->. by apply sorted_cons.
    + apply sorted_cons. split; [|done]. constructor; [done|].
      eapply Forall_impl; [|exact Hf]. intros e He. by apply (klt_trans k k').
    + apply sorted_cons. split; [|by apply IH]. apply Forall_insert_key; [done|].
      by apply kcmp_Gt.
Qed.

Lemma get_insert k v t j : bt_sorted t ->
  bt_get j (bt_insert k v t) = match kcmp j k with Eq => Some v | _ => bt_get j t end.
Proof.
  induction t as [|[k' v'] t IH]; intros Hs; [done|].
  pose proof Hs as [Hf Ht]%sorted_cons. cbn. destruct (kcmp k k') eqn:E; cbn.
  - apply kcmp_eq in E as ->. destruct (kcmp j k'); done.
  - destruct (kcmp j k); done.
  - rewrite IH by done. destruct (kcmp j k') eqn:Ej; [|done|done].
    apply kcmp_eq in Ej as ->. rewrite (kcmp_opp k k'), E. done.
Qed.

(** Inserting under a new key adds one entry. *)
Lemma insert_perm k v t : bt_get k t = None -> bt_insert k v t ≡ₚ (k, v) :: t.
Proof.
  induction t as [|[k' v'] t IH]; intros Hg; [done|]. cbn [bt_insert bt_get] in *.
  destruct (kcmp k k'); [done|done|]. rewrite IH by done. apply Permutation_swap.
Qed.

Lemma insert_elem k v t : (k, v) ∈ bt_insert k v t.
Proof.
  induction t as [|[k' v'] t IH]; cbn [bt_insert]; [set_solver|].
  destruct (kcmp k k'); set_solver.
Qed.

Lemma remove_sub k t e : e ∈ bt_remove k t -> e ∈ t.
Proof.
  induction t as [|[k' v'] t IH]; cbn; [done|]. destruct (kcmp k k'); set_solver.
Qed.

Lemma remove_sorted k t : bt_sorted t -> bt_sorted (bt_remove k t).
Proof.
  induction t as [|[k' v'] t IH]; intros Hs; [done|].
  pose proof Hs as [Hf Ht]%sorted_cons. cbn.
  destruct (kcmp k k'); [done| |]; apply sorted_cons; (split; [|by apply IH]).
  all: rewrite List.Forall_forall in *; intros e He%list_elem_of_In%remove_sub.
  all: by apply Hf, list_elem_of_In.
Qed.

Lemma get_remove k t j : bt_sorted t ->
  bt_get j (bt_remove k t) = match kcmp j k with Eq => None | _ => bt_get j t end.
Proof.
  induction t as [|[k' v'] t IH]; intros Hs; [by destruct (kcmp j k)|].
  pose proof Hs as [Hf Ht]%sorted_cons. cbn. destruct (kcmp k k') eqn:E.
  - apply kcmp_eq in E as ->. destruct (kcmp j k') eqn:Ej; [|done|done].
    apply kcmp_eq in Ej as ->. by apply get_below.
  - cbn. rewrite IH by done. destruct (kcmp j k') eqn:Ej; [|done|done].
    apply kcmp_eq in Ej as ->. rewrite (kcmp_opp k k'), E. done.
  - cbn. rewrite IH by done. destruct (kcmp j k') eqn:Ej; [|done|done].
    apply kcmp_eq in Ej as ->. rewrite (kcmp_opp k k'), E. done.
Qed.

Lemma filter_sorted (f : K * V -> bool) t : bt_sorted t -> bt_sorted (List.filter f t).
Proof.
  induction t as [|[k v] t IH]; intros Hs; [done|].
  pose proof Hs as [Hf Ht]%sorted_cons. cbn. destruct (f (k, v)); [|by apply IH].
  apply sorted_cons. split; [|by apply IH]. rewrite List.Forall_forall in *.
  intros e [He _]%List.filter_In. by apply Hf.
Qed.

Lemma get_filter (f : K * V -> bool) t k : bt_sorted t ->
  bt_get k (List.filter f t) =
  match bt_get k t with Some v => if f (k, v) then Some v else None | None => None end.
Proof.
  induction t as [|[k' v'] t IH]; intros Hs; [done|].
  pose proof Hs as [Hf Ht]%sorted_cons. cbn.
  destruct (kcmp k k') eqn:E.
  - apply kcmp_eq in E as ->. destruct (f (k', v')) eqn:Ef; cbn; [by rewrite kcmp_refl|].
    rewrite IH by done. rewrite get_below by done. done.
  - destruct (f (k', v')); cbn; rewrite ?E; by apply IH.
  - destruct (f (k', v')); cbn; rewrite ?E; by apply IH.
Qed.

Lemma below_nil k k' t : kltb k' k = false -> Forall (fun e => klt k' (fst e)) t ->
  bt_below k t = [].
Proof.
  intros E. induction 1 as [|[k2 v2] t H Ht IH]; [done|]. unfold bt_below in *. cbn in *.
  assert (kltb k2 k = false) as ->; [|done].
  apply not_true_is_false. intros H2%kltb_spec. apply not_true_iff_false in E. apply E.
  apply kltb_spec. by apply (klt_trans k' k2).
Qed.

(** A sorted list is cut by [split_off] into its two parts in order. *)
Lemma split_off_app k t : bt_sorted t -> bt_below k t ++ bt_from k t = t.
Proof.
  induction t as [|[k' v'] t IH]; intros Hs; [done|].
  pose proof Hs as [Hf Ht]%sorted_cons. specialize (IH Ht).
  unfold bt_below, bt_from in *. cbn. rewrite kleb_negb.
  destruct (kltb k' k) eqn:E; cbn; [by rewrite IH|].
  pose proof (below_nil k k' t E Hf) as Hb. unfold bt_below in Hb. rewrite Hb in *.
  cbn in *. by rewrite IH.
Qed.

End btree.
