(* ===== verification/Errno.v ===== *)
(** * Error numbers (os/src/utils/error.rs)

    [SysErrNo] with its [repr(i32)] values, and the [FromPrimitive] conversion
    derived for it, which sends unknown numbers to [Default]. *)

From S2P Require Import Prelude.

Inductive SysErrNo : Type :=
  | EUNDEF | EPERM | ENOENT | ESRCH | EINTR | EIO | ENXIO | E2BIG | ENOEXEC | EBADF
  | ECHILD | EAGAIN | ENOMEM | EACCES | EFAULT | ENOTBLK | EBUSY | EEXIST | EXDEV
  | ENODEV | ENOTDIR | EISDIR | EINVAL | ENFILE | EMFILE | ENOTTY | ETXTBSY | EFBIG
  | ENOSPC | ESPIPE | EROFS | EMLINK | EPIPE | EDOM | ERANGE | EDEADLK | ENAMETOOLONG
  | ENOLCK | ENOSYS | ENOTEMPTY | ELOOP | ENOMSG | EIDRM | ECHRNG | EL2NSYNC | EL3HLT
  | EL3RST | ELNRNG | EUNATCH | ENOCSI | EL2HLT | EBADE | EBADR | EXFULL | ENOANO
  | EBADRQC | EBADSLT | EBFONT | ENOSTR | ENODATA | ETIME | ENOSR | ENONET | ENOPKG
  | EREMOTE | ENOLINK | EADV | ESRMNT | ECOMM | EPROTO | EMULTIHOP | EDOTDOT | EBADMSG
  | EOVERFLOW | ENOTUNIQ | EBADFD | EREMCHG | ELIBACC | ELIBBAD | ELIBSCN | ELIBMAX
  | ELIBEXEC | EILSEQ | ERESTART | ESTRPIPE | EUSERS | ENOTSOCK | EDESTADDRREQ
  | EMSGSIZE | EPROTOTYPE | ENOPROTOOPT | EPROTONOSUPPORT | ESOCKTNOSUPPORT
  | EOPNOTSUPP | EPFNOSUPPORT | EAFNOSUPPORT | EADDRINUSE | EADDRNOTAVAIL | ENETDOWN
  | ENETUNREACH | ENETRESET | ECONNABORTED | ECONNRESET | ENOBUFS | EISCONN | ENOTCONN
  | ESHUTDOWN | ETOOMANYREFS | ETIMEDOUT | ECONNREFUSED | EHOSTDOWN | EHOSTUNREACH
  | EALREADY | EINPROGRESS | ESTALE | EUCLEAN | ENOTNAM | ENAVAIL | EISNAM | EREMOTEIO
  | EDQUOT | ENOMEDIUM | EMEDIUMTYPE | ECANCELED | ENOKEY | EKEYEXPIRED | EKEYREVOKED
  | EKEYREJECTED | EOWNERDEAD | ENOTRECOVERABLE | ERFKILL | EHWPOISON | Default.

Definition errno_val (e : SysErrNo) : Z :=
  match e with
  | EUNDEF => 0
  | EPERM => 1
  | ENOENT => 2
  | ESRCH => 3
  | EINTR => 4
  | EIO => 5
  | ENXIO => 6
  | E2BIG => 7
  | ENOEXEC => 8
  | EBADF => 9
  | ECHILD => 10
  | EAGAIN => 11
  | ENOMEM => 12
  | EACCES => 13
  | EFAULT => 14
  | ENOTBLK => 15
  | EBUSY => 16
  | EEXIST => 17
  | EXDEV => 18
  | ENODEV => 19
  | ENOTDIR => 20
  | EISDIR => 21
  | EINVAL => 22
  | ENFILE => 23
  | EMFILE => 24
  | ENOTTY => 25
  | ETXTBSY => 26
  | EFBIG => 27
  | ENOSPC => 28
  | ESPIPE => 29
  | EROFS => 30
  | EMLINK => 31
  | EPIPE => 32
  | EDOM => 33
  | ERANGE => 34
  | EDEADLK => 35
  | ENAMETOOLONG => 36
  | ENOLCK => 37
  | ENOSYS => 38
  | ENOTEMPTY => 39
  | ELOOP => 40
  | ENOMSG => 42
  | EIDRM => 43
  | ECHRNG => 44
  | EL2NSYNC => 45
  | EL3HLT => 46
  | EL3RST => 47
  | ELNRNG => 48
  | EUNATCH => 49
  | ENOCSI => 50
  | EL2HLT => 51
  | EBADE => 52
  | EBADR => 53
  | EXFULL => 54
  | ENOANO => 55
  | EBADRQC => 56
  | EBADSLT => 57
  | EBFONT => 59
  | ENOSTR => 60
  | ENODATA => 61
  | ETIME => 62
  | ENOSR => 63
  | ENONET => 64
  | ENOPKG => 65
  | EREMOTE => 66
  | ENOLINK => 67
  | EADV => 68
  | ESRMNT => 69
  | ECOMM => 70
  | EPROTO => 71
  | EMULTIHOP => 72
  | EDOTDOT => 73
  | EBADMSG => 74
  | EOVERFLOW => 75
  | ENOTUNIQ => 76
  | EBADFD => 77
  | EREMCHG => 78
  | ELIBACC => 79
  | ELIBBAD => 80
  | ELIBSCN => 81
  | ELIBMAX => 82
  | ELIBEXEC => 83
  | EILSEQ => 84
  | ERESTART => 85
  | ESTRPIPE => 86
  | EUSERS => 87
  | ENOTSOCK => 88
  | EDESTADDRREQ => 89
  | EMSGSIZE => 90
  | EPROTOTYPE => 91
  | ENOPROTOOPT => 92
  | EPROTONOSUPPORT => 93
  | ESOCKTNOSUPPORT => 94
  | EOPNOTSUPP => 95
  | EPFNOSUPPORT => 96
  | EAFNOSUPPORT => 97
  | EADDRINUSE => 98
  | EADDRNOTAVAIL => 99
  | ENETDOWN => 100
  | ENETUNREACH => 101
  | ENETRESET => 102
  | ECONNABORTED => 103
  | ECONNRESET => 104
  | ENOBUFS => 105
  | EISCONN => 106
  | ENOTCONN => 107
  | ESHUTDOWN => 108
  | ETOOMANYREFS => 109
  | ETIMEDOUT => 110
  | ECONNREFUSED => 111
  | EHOSTDOWN => 112
  | EHOSTUNREACH => 113
  | EALREADY => 114
  | EINPROGRESS => 115
  | ESTALE => 116
  | EUCLEAN => 117
  | ENOTNAM => 118
  | ENAVAIL => 119
  | EISNAM => 120
  | EREMOTEIO => 121
  | EDQUOT => 122
  | ENOMEDIUM => 123
  | EMEDIUMTYPE => 124
  | ECANCELED => 125
  | ENOKEY => 126
  | EKEYEXPIRED => 127
  | EKEYREVOKED => 128
  | EKEYREJECTED => 129
  | EOWNERDEAD => 130
  | ENOTRECOVERABLE => 131
  | ERFKILL => 132
  | EHWPOISON => 133
  | Default => 255
  end.

(** Every error number, in the order of the declaration. *)
Definition errno_list : list SysErrNo :=
  [EUNDEF; EPERM; ENOENT; ESRCH; EINTR; EIO; ENXIO; E2BIG; ENOEXEC; EBADF; ECHILD;
   EAGAIN; ENOMEM; EACCES; EFAULT; ENOTBLK; EBUSY; EEXIST; EXDEV; ENODEV; ENOTDIR;
   EISDIR; EINVAL; ENFILE; EMFILE; ENOTTY; ETXTBSY; EFBIG; ENOSPC; ESPIPE; EROFS;
   EMLINK; EPIPE; EDOM; ERANGE; EDEADLK; ENAMETOOLONG; ENOLCK; ENOSYS; ENOTEMPTY;
   ELOOP; ENOMSG; EIDRM; ECHRNG; EL2NSYNC; EL3HLT; EL3RST; ELNRNG; EUNATCH; ENOCSI;
   EL2HLT; EBADE; EBADR; EXFULL; ENOANO; EBADRQC; EBADSLT; EBFONT; ENOSTR; ENODATA;
   ETIME; ENOSR; ENONET; ENOPKG; EREMOTE; ENOLINK; EADV; ESRMNT; ECOMM; EPROTO;
   EMULTIHOP; EDOTDOT; EBADMSG; EOVERFLOW; ENOTUNIQ; EBADFD; EREMCHG; ELIBACC; ELIBBAD;
   ELIBSCN; ELIBMAX; ELIBEXEC; EILSEQ; ERESTART; ESTRPIPE; EUSERS; ENOTSOCK;
   EDESTADDRREQ; EMSGSIZE; EPROTOTYPE; ENOPROTOOPT; EPROTONOSUPPORT; ESOCKTNOSUPPORT;
   EOPNOTSUPP; EPFNOSUPPORT; EAFNOSUPPORT; EADDRINUSE; EADDRNOTAVAIL; ENETDOWN;
   ENETUNREACH; ENETRESET; ECONNABORTED; ECONNRESET; ENOBUFS; EISCONN; ENOTCONN;
   ESHUTDOWN; ETOOMANYREFS; ETIMEDOUT; ECONNREFUSED; EHOSTDOWN; EHOSTUNREACH; EALREADY;
   EINPROGRESS; ESTALE; EUCLEAN; ENOTNAM; ENAVAIL; EISNAM; EREMOTEIO; EDQUOT;
   ENOMEDIUM; EMEDIUMTYPE; ECANCELED; ENOKEY; EKEYEXPIRED; EKEYREVOKED; EKEYREJECTED;
   EOWNERDEAD; ENOTRECOVERABLE; ERFKILL; EHWPOISON; Default].

Definition errno_from_primitive (n : Z) : SysErrNo :=
  default Default (List.find (fun e => errno_val e =? n) errno_list).

(** The conversion from a number inverts the numbering, so that distinct
    errors have distinct numbers. *)
Lemma errno_from_primitive_val e : errno_from_primitive (errno_val e) = e.
Proof. destruct e; reflexivity. Qed.

Lemma errno_val_inj e1 e2 : errno_val e1 = errno_val e2 -> e1 = e2.
Proof.
  intros H. rewrite <- (errno_from_primitive_val e1), H. apply errno_from_primitive_val.
Qed.

#[export] Instance SysErrNo_eq_dec : EqDecision SysErrNo.
Proof.
  intros e1 e2. destruct (decide (errno_val e1 = errno_val e2)) as [H|H].
  - left. by apply errno_val_inj.
  - right. intros ->. done.
Defined.
