(* ===== verification/Area.v ===== *)
(** * Virtual memory areas (os/src/mm/area.rs)

    [MapArea], a range of virtual pages with the frames allocated for it, and
    [VmAreaTree], the areas of an address space ordered by their first page.
    The searches of the tree ([alloc_pages], [alloc_pages_from_hint],
    [find_gap_from], [is_overlap], [is_fully_contained], [find_area]), the
    splitting of areas and the mapping of their pages follow the source.

    The abstract view of a tree is the set of pages it covers ([covered]);
    [tree_wf] says that the areas are stored under their first page and do not
    overlap. *)

From S2P Require Import Prelude Config Address BitField Memory FrameAlloc.
From S2P Require Import FrameSpec Pte PageTable BTree Errno.

(** ** Data *)

Inductive MapType : Type := Framed | Direct.

Inductive MapAreaType : Type :=
| AT_Elf | AT_Stack | AT_Brk | AT_Mmap | AT_Shm (shmid : Z) | AT_Physical | AT_MMIO | AT_Tls.

#[export] Instance MapType_eq_dec : EqDecision MapType.
Proof. solve_decision. Defined.
#[export] Instance MapAreaType_eq_dec : EqDecision MapAreaType.
Proof. solve_decision. Defined.

Definition MAP_SHARED : Z := 1.
Definition MAP_PRIVATE : Z := 2.
Definition MAP_FIXED : Z := 16.
Definition MAP_ANONYMOUS : Z := 32.
Definition MAP_FIXED_NOREPLACE : Z := 65536.

(** The file behind a mapping: the open file, known by a number, and the
    offset of the mapping in it. *)
Record MmapFile : Type := mkMmapFile { mf_file : Z; mf_offset : Z }.

Record MapArea : Type := mkArea {
  vpn_range : SimpleRange;
  data_frames : list (Z * Z);
  map_type : MapType;
  map_perm : Z;
  area_type : MapAreaType;
  area_fd : option MmapFile;
  mmap_flags : Z
}.

Definition set_vpn_range (r : SimpleRange) (a : MapArea) : MapArea :=
  mkArea r (data_frames a) (map_type a) (map_perm a) (area_type a) (area_fd a) (mmap_flags a).
Definition set_data_frames (d : list (Z * Z)) (a : MapArea) : MapArea :=
  mkArea (vpn_range a) d (map_type a) (map_perm a) (area_type a) (area_fd a) (mmap_flags a).
Definition set_map_perm (p : Z) (a : MapArea) : MapArea :=
  mkArea (vpn_range a) (data_frames a) (map_type a) p (area_type a) (area_fd a) (mmap_flags a).

Definition start_vpn (a : MapArea) : Z := rl (vpn_range a).
Definition end_vpn (a : MapArea) : Z := rr (vpn_range a).

Definition area_range_size (a : MapArea) : outcome Z :=
  n ← usub (end_vpn a) (start_vpn a);
  Ret (shl64 n PAGE_SIZE_BITS).

Definition area_size (a : MapArea) : outcome Z := umul (zlen (data_frames a)) PAGE_SIZE.

Definition area_allocated (a : MapArea) (vpn : Z) : bool :=
  match bt_get vpn (data_frames a) with Some _ => true | None => false end.

Definition MapArea_new (start_va end_va : Z) (mt : MapType) (perm : Z) (at_ : MapAreaType)
    : outcome MapArea :=
  let s := VirtAddr_floor start_va in
  e ← VirtAddr_ceil end_va;
  r ← range_new s e;
  Ret (mkArea r [] mt perm at_ None 0).

Definition MapArea_new_by_vpn (s e : Z) (mt : MapType) (perm : Z) (at_ : MapAreaType)
    : outcome MapArea :=
  r ← range_new s e;
  Ret (mkArea r [] mt perm at_ None 0).

Definition from_another (a : MapArea) : outcome MapArea :=
  r ← range_new (start_vpn a) (end_vpn a);
  Ret (mkArea r [] (map_type a) (map_perm a) (area_type a) (area_fd a) 0).

Definition from_another_with_range (a : MapArea) (s e : Z) : outcome MapArea :=
  r ← range_new s e;
  Ret (mkArea r [] (map_type a) (map_perm a) (area_type a) None 0).

Definition area_contains (a : MapArea) (vpn : Z) : bool := range_contains (vpn_range a) vpn.

Definition overlap_with (a : MapArea) (s e : Z) : bool :=
  (start_vpn a <=? s) && (s <? end_vpn a) || (s <=? start_vpn a) && (start_vpn a <? e).

Definition contained_in (a : MapArea) (s e : Z) : bool :=
  (s <=? start_vpn a) && (end_vpn a <=? e).

Definition strict_contain (a : MapArea) (s e : Z) : bool :=
  (start_vpn a <? s) && (e <? end_vpn a).

(** ** The tree *)

Notation VmAreaTree := (list (Z * MapArea)).

Definition tree_push (t : VmAreaTree) (a : MapArea) : VmAreaTree :=
  bt_insert (start_vpn a) a t.

Definition is_overlap (t : VmAreaTree) (s e : Z) : bool :=
  existsb (fun '(_, a) => (s <? end_vpn a) && (start_vpn a <? e)) t.

Definition insert_vpn_area (t : VmAreaTree) (s e : Z) (mt : MapType) (perm : Z)
    (at_ : MapAreaType) : outcome (result VmAreaTree unit) :=
  if is_overlap t s e then Ret (Err tt) else
  a ← MapArea_new_by_vpn s e mt perm at_;
  Ret (Ok (bt_insert s a t)).

(** [areas.remove(&area.vpn_range.get_start()).unwrap()] *)
Definition remove_by_area (t : VmAreaTree) (a : MapArea) : outcome (MapArea * VmAreaTree) :=
  r ← unwrap (bt_get (start_vpn a) t);
  Ret (r, bt_remove (start_vpn a) t).

Definition tree_dealloc (t : VmAreaTree) (s : Z) : option MapArea * VmAreaTree :=
  match bt_get s t with
  | Some a => (Some a, bt_remove s t)
  | None => (None, t)
  end.

(** [alloc_pages]: the loop over the areas from the highest down; [end_pn] is
    its local variable. *)
Fixpoint alloc_pages_loop (rev_areas : VmAreaTree) (npages end_pn : Z) : outcome (option Z) :=
  match rev_areas with
  | [] =>
      if npages <=? end_pn then s ← usub end_pn npages; Ret (Some s) else Ret None
  | (_, a) :: l =>
      let s := start_vpn a in
      let e := end_vpn a in
      x ← uadd e npages;
      if x <=? end_pn then
        start_pn ← usub end_pn npages;
        if e <=? start_pn then Ret (Some start_pn)
        else alloc_pages_loop l npages (Z.min end_pn s)
      else alloc_pages_loop l npages (Z.min end_pn s)
  end.

Definition alloc_pages (t : VmAreaTree) (npages : Z) : outcome (option Z) :=
  alloc_pages_loop (rev t) npages MMAP_PGNUM_TOP.

(** [find_gap_from]: the same loop over the areas that start below the hint. *)
Definition find_gap_from (t : VmAreaTree) (hint npages : Z) : outcome (option Z) :=
  alloc_pages_loop (rev (bt_below hint t)) npages hint.

(** The forward search of [alloc_pages_from_hint]: a gap, or the end of the
    last area seen. *)
Fixpoint hint_forward (l : VmAreaTree) (npages last_area_end : Z) : outcome (Z + Z) :=
  match l with
  | [] => Ret (inr last_area_end)
  | (area_start, a) :: l' =>
      let next := hint_forward l' npages (Z.max last_area_end (end_vpn a)) in
      if (last_area_end <? area_start) && (npages <=? area_start - last_area_end) then
        x ← uadd last_area_end npages;
        if x <=? MMAP_TOP / PAGE_SIZE then Ret (inl last_area_end) else next
      else next
  end.

(** Its backward search. *)
Fixpoint hint_backward (rev_areas : VmAreaTree) (npages prev_area_start : Z) : outcome (Z + Z) :=
  match rev_areas with
  | [] => Ret (inr prev_area_start)
  | (_, a) :: l =>
      if (end_vpn a <? prev_area_start) && (npages <=? prev_area_start - end_vpn a)
      then s ← usub prev_area_start npages; Ret (inl s)
      else hint_backward l npages (start_vpn a)
  end.

Definition alloc_pages_from_hint (t : VmAreaTree) (npages hint_vpn : Z) : outcome (option Z) :=
  let start_hint_vpn := Z.max hint_vpn (Z.shiftr MMAP_BASE PAGE_SIZE_BITS) in
  r ← hint_forward (bt_from start_hint_vpn t) npages start_hint_vpn;
  match r with
  | inl v => Ret (Some v)
  | inr last_area_end =>
      if (last_area_end <? MMAP_TOP / PAGE_SIZE)
         && (npages <=? MMAP_TOP / PAGE_SIZE - last_area_end)
      then Ret (Some last_area_end) else
      r2 ← hint_backward (rev t) npages (MMAP_TOP / PAGE_SIZE);
      match r2 with
      | inl v => Ret (Some v)
      | inr final_gap_end =>
          let final_gap_start := Z.shiftr MMAP_BASE PAGE_SIZE_BITS in
          if (final_gap_start <? final_gap_end)
             && (npages <=? final_gap_end - final_gap_start)
          then s ← usub final_gap_end npages; Ret (Some s)
          else Ret None
      end
  end.

(** [is_fully_contained]: the cursor moves to the end of the area it is in.
    [n] bounds the iterations; each uses another area, so that one more than
    the number of areas is enough. *)
Fixpoint contained_loop (n : nat) (t : VmAreaTree) (cursor end_ : Z) : outcome bool :=
  match n with
  | O => Panic
  | S n' =>
      if cursor <? end_ then
        match list.last (bt_upto cursor t) with
        | None => Ret false
        | Some (_, a) =>
            if (cursor <? start_vpn a) || (end_vpn a <=? cursor) then Ret false
            else contained_loop n' t (end_vpn a) end_
        end
      else Ret true
  end.

Definition is_fully_contained (t : VmAreaTree) (s e : Z) : outcome bool :=
  contained_loop (S (length t)) t s e.

Definition find_area (t : VmAreaTree) (vpn : Z) : option Z :=
  match list.last (bt_upto vpn t) with
  | Some (viddr, a) => if area_contains a vpn then Some viddr else None
  | None => None
  end.

(** ** The file cursor (os/src/fs/inode.rs, [OsInode::lseek]) *)

Definition SEEK_SET : Z := 0.
Definition SEEK_CUR : Z := 1.
Definition SEEK_END : Z := 2.

Record OsInodeInner : Type := mkInner { in_offset : Z; in_size : Z }.

Definition lseek (inner : OsInodeInner) (offset whence : Z)
    : outcome (result Z SysErrNo * OsInodeInner) :=
  if 2 <? whence then Ret (Err EINVAL, inner)
  else if whence =? SEEK_SET then
    if offset <? 0 then Ret (Err EINVAL, inner)
    else Ret (Ok offset, mkInner offset (in_size inner))
  else
    newoff ← ichk (wrap_isize (if whence =? SEEK_CUR then in_offset inner else in_size inner)
                   + offset);
    if newoff <? 0 then Ret (Err EINVAL, inner)
    else Ret (Ok newoff, mkInner newoff (in_size inner)).

(** Open files by number; [file.file().unwrap()] panics on anything else. *)
Notation inodes := (gmap Z OsInodeInner).

(** The new backing file of a split-off part, [off] bytes after the start of
    the area. *)
Definition split_file (fs : inodes) (fd : option MmapFile) (off : outcome Z)
    : outcome (option MmapFile * inodes) :=
  match fd with
  | None => Ret (None, fs)
  | Some mf =>
      off ← off;
      inner ← unwrap (fs !! mf_file mf);
      '(r1, inner1) ← lseek inner (wrap_isize off) SEEK_CUR;
      new_off ← result_unwrap r1;
      back ← usub new_off off;
      '(r2, inner2) ← lseek inner1 (wrap_isize back) SEEK_SET;
      _ ← result_unwrap r2;
      Ret (Some (mkMmapFile (mf_file mf) new_off), <[mf_file mf := inner2]> fs)
  end.

Definition page_bytes (from start : Z) : outcome Z :=
  n ← usub from start; Ret (shl64 n PAGE_SIZE_BITS).

(** ** Splitting *)

(** [split]: the area keeps what is below [vpn], the rest is returned. *)
Definition area_split (fs : inodes) (a : MapArea) (vpn : Z)
    : outcome (MapArea * MapArea * inodes) :=
  let '(left_frames, right_frames) := bt_split_off vpn (data_frames a) in
  '(right_file, fs') ← split_file fs (area_fd a) (page_bytes vpn (start_vpn a));
  rrange ← range_new vpn (end_vpn a);
  lrange ← range_set_end (vpn_range a) vpn;
  Ret (set_vpn_range lrange (set_data_frames left_frames a),
       mkArea rrange right_frames (map_type a) (map_perm a) (area_type a) right_file
         (mmap_flags a), fs').

(** [split3]: left part, middle part, right part. *)
Definition area_split3 (fs : inodes) (a : MapArea) (s e : Z)
    : outcome (MapArea * MapArea * MapArea * inodes) :=
  _ ← rassert (strict_contain a s e);
  let '(rest, right_frames) := bt_split_off e (data_frames a) in
  let '(left_frames, mid_frames) := bt_split_off s rest in
  '(mid_file, fs1) ← split_file fs (area_fd a) (page_bytes s (start_vpn a));
  mrange ← range_new s e;
  '(right_file, fs2) ← split_file fs1 (area_fd a) (page_bytes e (start_vpn a));
  rrange ← range_new e (end_vpn a);
  lrange ← range_set_end (vpn_range a) s;
  Ret (set_vpn_range lrange (set_data_frames left_frames a),
       mkArea mrange mid_frames (map_type a) (map_perm a) (area_type a) mid_file (mmap_flags a),
       mkArea rrange right_frames (map_type a) (map_perm a) (area_type a) right_file (mmap_flags a),
       fs2).

(** ** Mapping the pages of an area *)

(** [data_frames.insert(vpn, frame)]: a handle that was there is dropped. *)
Definition frames_insert (d : list (Z * Z)) (vpn ppn : Z) : ST world (list (Z * Z)) :=
  _ ← match bt_get vpn d with Some old => arc_drop old | None => mret tt end;
  mret (bt_insert vpn ppn d).

Definition map_one (a : MapArea) (pt : PageTable) (vpn : Z)
    : ST world (result unit SysErrNo * MapArea * PageTable) :=
  r ← match map_type a with
      | Framed =>
          o ← frame_alloc;
          match o with
          | None => mret (Err ENOMEM)
          | Some ppn =>
              d ← frames_insert (data_frames a) vpn ppn;
              mret (Ok (ppn, set_data_frames d a))
          end
      | Direct =>
          ppn ← st_lift (usub vpn KERNEL_PGNUM_OFFSET);
          mret (Ok (ppn, a))
      end;
  match r with
  | Err e => mret (Err e, a, pt)
  | Ok (ppn, a') =>
      pt' ← pt_map pt vpn ppn (la_flags_of_perm (map_perm a'));
      mret (Ok tt, a', pt')
  end.

Definition unmap_one (a : MapArea) (pt : PageTable) (vpn : Z) : ST world MapArea :=
  a' ← match map_type a with
       | Framed =>
           _ ← match bt_get vpn (data_frames a) with
               | Some old => arc_drop old
               | None => mret tt
               end;
           mret (set_data_frames (bt_remove vpn (data_frames a)) a)
       | Direct => mret a
       end;
  _ ← pt_unmap pt vpn;
  mret a'.

(** A loop of [map_one(..)?] over pages. *)
Fixpoint map_pages (vpns : list Z) (a : MapArea) (pt : PageTable)
    : ST world (result unit SysErrNo * MapArea * PageTable) :=
  match vpns with
  | [] => mret (Ok tt, a, pt)
  | vpn :: l =>
      '(r, a', pt') ← map_one a pt vpn;
      match r with
      | Err e => mret (Err e, a', pt')
      | Ok _ => map_pages l a' pt'
      end
  end.

Fixpoint unmap_pages (vpns : list Z) (a : MapArea) (pt : PageTable) : ST world MapArea :=
  match vpns with
  | [] => mret a
  | vpn :: l => a' ← unmap_one a pt vpn; unmap_pages l a' pt
  end.

Definition area_map (a : MapArea) (pt : PageTable)
    : ST world (result unit SysErrNo * MapArea * PageTable) :=
  map_pages (range_list (vpn_range a)) a pt.

Definition area_unmap (a : MapArea) (pt : PageTable) : ST world MapArea :=
  unmap_pages (range_list (vpn_range a)) a pt.

Definition area_shrink_to (a : MapArea) (pt : PageTable) (new_end : Z) : ST world MapArea :=
  r ← st_lift (range_new new_end (end_vpn a));
  a' ← unmap_pages (range_list r) a pt;
  r' ← st_lift (range_new (start_vpn a') new_end);
  mret (set_vpn_range r' a').

Definition area_append_to (a : MapArea) (pt : PageTable) (new_end : Z)
    : ST world (result unit SysErrNo * MapArea * PageTable) :=
  r ← st_lift (range_new (end_vpn a) new_end);
  '(res, a', pt') ← map_pages (range_list r) a pt;
  match res with
  | Err e => mret (Err e, a', pt')
  | Ok _ =>
      r' ← st_lift (range_new (start_vpn a') new_end);
      mret (Ok tt, set_vpn_range r' a', pt')
  end.

(** [update_flags]: the permission of the area and of its first
    [data_frames.len()] pages. *)
Definition update_flags (a : MapArea) (pt : PageTable) (flags : Z) : ST world MapArea :=
  let a' := set_map_perm flags a in
  size ← st_lift (area_size a');
  r ← update_region pt (VirtAddr_of_VirtPageNum (start_vpn a')) size flags;
  _ ← st_lift (result_unwrap r);
  mret a'.

(** [pte.set_cow()] through the reference of [find_pte]. *)
Definition pte_modify (pt : PageTable) (vpn : Z) (f : Z -> outcome Z) : ST world unit :=
  m ← st_gets w_mem;
  o ← st_lift (find_pte (root_ppn pt) m vpn);
  '(fr, i) ← st_lift (unwrap o);
  e ← st_lift (f (read_word m fr i));
  st_modify (fun w => set_mem (write_word (w_mem w) fr i e) w).

Fixpoint map_given_loop (frames : list (Z * Z)) (a : MapArea) (pt : PageTable)
    (pte_flags : Z) (is_cow : bool) : ST world (MapArea * PageTable) :=
  match frames with
  | [] => mret (a, pt)
  | (vpn, ppn) :: l =>
      pt' ← pt_map pt vpn ppn pte_flags;
      a' ← (if is_cow then
              _ ← pte_modify pt' vpn la_set_cow;
              _ ← arc_clone ppn;
              d ← frames_insert (data_frames a) vpn ppn;
              mret (set_data_frames d a)
            else mret a);
      map_given_loop l a' pt' pte_flags is_cow
  end.

Definition map_given_frames (a : MapArea) (pt : PageTable) (frames : list (Z * Z))
    (is_cow : bool) : ST world (MapArea * PageTable) :=
  pte_flags ← st_lift (unwrap (fl_from_bits la_all (map_perm a)));
  map_given_loop frames a pt pte_flags is_cow.

(** [copy_data]: writes the data from the start of the area on, the first
    page from [page_offset] on.  [n] bounds the iterations, one per page of
    data. *)
Fixpoint copy_data_loop (n : nat) (pt : PageTable) (data : list Z)
    (start current_vpn page_offset : Z) : ST world unit :=
  match n with
  | O => st_panic
  | S n' =>
      let len := zlen data in
      x ← st_lift (uadd start PAGE_SIZE);
      y ← st_lift (usub x page_offset);
      let stop := Z.min len y in
      _ ← st_lift (rassert (start <=? stop));
      let src := take (Z.to_nat (stop - start)) (drop (Z.to_nat start) data) in
      m ← st_gets w_mem;
      o ← st_lift (pt_translate (root_ppn pt) m current_vpn);
      pte ← st_lift (unwrap o);
      ppn ← st_lift (pte_ppn pte);
      f ← st_lift (frame_base ppn);
      _ ← st_lift (rassert (page_offset + zlen src <=? PAGE_SIZE));
      _ ← st_modify (fun w => set_mem (write_bytes (w_mem w) f page_offset src) w);
      adv ← st_lift (usub PAGE_SIZE page_offset);
      start' ← st_lift (uadd start adv);
      if len <=? start' then mret tt
      else
        v ← st_lift (step current_vpn);
        copy_data_loop n' pt data start' v 0
  end.

Definition copy_data (a : MapArea) (pt : PageTable) (data : list Z) (offset : Z)
    : ST world unit :=
  _ ← st_lift (rassert (bool_decide (map_type a = Framed)));
  _ ← st_lift (rassert (offset <? PAGE_SIZE));
  copy_data_loop (S (length data)) pt data 0 (start_vpn a) offset.
