(* ===== verification/AreaTree.v ===== *)
(** * The searches of the area tree

    Properties of the searches of [VmAreaTree] (os/src/mm/area.rs): the
    allocation of page ranges finds the highest free range and fails only
    when there is none, the overlap and containment tests decide what they
    claim to, and two searches that do not: [find_area] treats the end of an
    area as part of it, and [alloc_pages_from_hint] overlooks the area that
    contains the hint. *)

From S2P Require Import Prelude Config Address BTree Area.

(** ** The invariant and the abstract view *)

Record tree_wf (t : VmAreaTree) : Prop := {
  tw_sorted : bt_sorted t;
  tw_key : forall k a, (k, a) ∈ t ->
    k = start_vpn a /\ 0 <= start_vpn a <= end_vpn a /\ end_vpn a < 2 ^ 52;
  tw_disj : forall k1 a1 k2 a2, (k1, a1) ∈ t -> (k2, a2) ∈ t -> k1 < k2 -> end_vpn a1 <= k2
}.

(** The pages of the areas. *)
Definition covered (t : VmAreaTree) (vpn : Z) : Prop :=
  exists k a, (k, a) ∈ t /\ start_vpn a <= vpn < end_vpn a.

Lemma is_overlap_iff t s e : is_overlap t s e = true <->
  exists k a, (k, a) ∈ t /\ s < end_vpn a /\ start_vpn a < e.
Proof.
  unfold is_overlap. rewrite existsb_exists. split.
  - intros ([k a] & Hin & H). exists k, a. rewrite list_elem_of_In. cbn in H. zbool. done.
  - intros (k & a & Hin & H1 & H2). exists (k, a). rewrite list_elem_of_In in Hin.
    split; [done|]. zcases; done || lia.
Qed.

Lemma is_overlap_false t s e : is_overlap t s e = false <->
  forall k a, (k, a) ∈ t -> end_vpn a <= s \/ e <= start_vpn a.
Proof.
  rewrite <- not_true_iff_false, is_overlap_iff. split.
  - intros H k a Hin. destruct (Z.le_gt_cases (end_vpn a) s), (Z.le_gt_cases e (start_vpn a)); try lia.
    exfalso. apply H. exists k, a. split; [done|lia].
  - intros H (k & a & Hin & H1 & H2). specialize (H k a Hin). lia.
Qed.

Lemma is_overlap_cons k a t s e : is_overlap ((k, a) :: t) s e =
  (s <? end_vpn a) && (start_vpn a <? e) || is_overlap t s e.
Proof. done. Qed.

(** Sorted order of the areas. *)
Lemma tree_cons_lt k a t k' a' : tree_wf ((k, a) :: t) -> (k', a') ∈ t -> k < k'.
Proof.
  intros Hwf Hin. pose proof (tw_sorted _ Hwf) as [Hf _]%sorted_cons.
  rewrite List.Forall_forall in Hf. rewrite list_elem_of_In in Hin.
  specialize (Hf (k', a') Hin). by apply Z.compare_lt_iff in Hf.
Qed.

Lemma tree_tail k a t : tree_wf ((k, a) :: t) -> tree_wf t.
Proof.
  intros [Hs Hk Hd]. constructor.
  - by apply sorted_cons in Hs as [_ ?].
  - intros k' a' H. apply (Hk k' a'). set_solver.
  - intros k1 a1 k2 a2 H1 H2. apply (Hd k1 a1 k2 a2); set_solver.
Qed.

(** In a list of areas read from the highest down, each area lies above all
    that follow it. *)
Fixpoint descending (l : VmAreaTree) : Prop :=
  match l with
  | [] => True
  | (_, a) :: l' =>
      (forall k' a', (k', a') ∈ l' -> end_vpn a' <= start_vpn a) /\
      0 <= start_vpn a <= end_vpn a /\ end_vpn a < 2 ^ 52 /\ descending l'
  end.

Lemma descending_snoc l k a : descending l -> 0 <= start_vpn a <= end_vpn a ->
  end_vpn a < 2 ^ 52 -> (forall k' a', (k', a') ∈ l -> end_vpn a <= start_vpn a') ->
  descending (l ++ [(k, a)]).
Proof.
  intros Hl Ha Hb. induction l as [|[k1 a1] l IH]; intros H; cbn in *.
  - split_and!; [set_solver|lia..|done].
  - destruct Hl as (H1 & H2 & H3 & H4). split_and!; [|lia..|].
    + intros k' a' [Hin|Hin]%elem_of_app; [by apply (H1 k')|].
      apply list_elem_of_singleton in Hin as [= -> ->]. apply (H k1). set_solver.
    + apply IH; [done|]. intros k' a' Hin. apply (H k'). set_solver.
Qed.

Lemma rev_descending t : tree_wf t -> descending (rev t).
Proof.
  induction t as [|[k a] t IH]; intros Hwf; [done|]. cbn.
  pose proof (tw_key _ Hwf k a ltac:(set_solver)) as (-> & Hr & Hb).
  apply descending_snoc; [by apply IH, (tree_tail _ _ _ Hwf)|lia|lia|].
  intros k' a' Hin. rewrite list_elem_of_In, <- in_rev, <- list_elem_of_In in Hin.
  pose proof (tree_cons_lt _ _ _ k' a' Hwf Hin).
  destruct (tw_key _ Hwf k' a' ltac:(set_solver)) as (-> & _).
  apply (tw_disj _ Hwf (start_vpn a) a (start_vpn a') a'); [set_solver..|done].
Qed.

(** ** [alloc_pages] and [find_gap_from] *)

(** The loop returns the highest start of [n] free pages below [end_pn], or
    [None] when there is none. *)
Lemma alloc_pages_loop_spec l n end_pn : descending l -> 0 <= n < 2 ^ 52 -> 0 <= end_pn ->
  exists r, alloc_pages_loop l n end_pn = Ret r /\
    match r with
    | Some s => 0 <= s /\ s + n <= end_pn /\ is_overlap l s (s + n) = false /\
        forall s', s < s' -> s' + n <= end_pn -> is_overlap l s' (s' + n) = true
    | None => forall s, 0 <= s -> s + n <= end_pn -> is_overlap l s (s + n) = true
    end.
Proof.
  intros Hl Hn. revert end_pn. induction l as [|[k a] l IH]; intros end_pn He; cbn [alloc_pages_loop].
  - destruct (Z.leb_spec n end_pn).
    + rewrite usub_Ret by lia. eexists. split; [done|]. split_and!; [lia|lia|done|lia].
    + eexists. split; [done|]. intros s. lia.
  - destruct Hl as (Hab & Hr & Hb & Hl). rewrite uadd_Ret by (unfold u64_bound; lia).
    cbn [mbind outcome_bind]. destruct (Z.leb_spec (end_vpn a + n) end_pn).
    + rewrite usub_Ret by lia. cbn [mbind outcome_bind].
      destruct (Z.leb_spec (end_vpn a) (end_pn - n)); [|lia].
      eexists. split; [done|]. split_and!; [lia|lia| |lia].
      apply is_overlap_false. intros k' a' [[= -> ->]|Hin]%elem_of_cons; [lia|].
      specialize (Hab k' a' Hin). lia.
    + destruct (IH Hl (Z.min end_pn (start_vpn a)) ltac:(lia)) as (r & -> & Hr').
      exists r. split; [done|].
      assert (forall s, 0 <= s -> s + n <= end_pn -> Z.min end_pn (start_vpn a) < s + n ->
                is_overlap ((k, a) :: l) s (s + n) = true) as Hmid.
      { intros s Hs H1 H2. apply is_overlap_iff. exists k, a. split; [set_solver|lia]. }
      destruct r as [s|].
      * destruct Hr' as (Hs0 & Hs1 & Hs2 & Hs3). split_and!; [lia|lia| |].
        -- apply is_overlap_false. intros k' a' [[= -> ->]|Hin]%elem_of_cons; [lia|].
           by apply (proj1 (is_overlap_false l s (s + n)) Hs2 k' a').
        -- intros s' Hs' Hsn. destruct (Z.le_gt_cases (s' + n) (Z.min end_pn (start_vpn a))).
           ++ rewrite is_overlap_cons, Hs3 by lia. btauto.
           ++ apply Hmid; lia.
      * intros s Hs Hsn. destruct (Z.le_gt_cases (s + n) (Z.min end_pn (start_vpn a))).
        -- rewrite is_overlap_cons, Hr' by lia. btauto.
        -- apply Hmid; lia.
Qed.

Lemma is_overlap_rev t s e : is_overlap (rev t) s e = is_overlap t s e.
Proof.
  destruct (is_overlap t s e) eqn:E.
  - apply is_overlap_iff in E as (k & a & Hin & H). apply is_overlap_iff.
    exists k, a. split; [|done]. by rewrite list_elem_of_In, <- in_rev, <- list_elem_of_In.
  - apply is_overlap_false. intros k a Hin.
    rewrite list_elem_of_In, <- in_rev, <- list_elem_of_In in Hin.
    by apply (proj1 (is_overlap_false t s e) E k a).
Qed.

(** C28: [alloc_pages] never panics on a well-formed tree.  It returns the
    highest start of [npages] pages below the top of the mmap region that
    overlap no area, and [None] only when every such range overlaps one. *)
Theorem alloc_pages_highest_gap t npages : tree_wf t -> 0 <= npages < 2 ^ 52 ->
  exists r, alloc_pages t npages = Ret r /\
    match r with
    | Some s => 0 <= s /\ s + npages <= MMAP_PGNUM_TOP /\
        is_overlap t s (s + npages) = false /\
        (forall vpn, s <= vpn < s + npages -> ~ covered t vpn) /\
        forall s', s < s' -> s' + npages <= MMAP_PGNUM_TOP ->
          is_overlap t s' (s' + npages) = true
    | None => forall s, 0 <= s -> s + npages <= MMAP_PGNUM_TOP ->
        is_overlap t s (s + npages) = true
    end.
Proof.
  intros Hwf Hn. unfold alloc_pages.
  destruct (alloc_pages_loop_spec (rev t) npages MMAP_PGNUM_TOP) as (r & -> & Hr);
    [by apply rev_descending|done|done|].
  exists r. split; [done|]. destruct r as [s|].
  - destruct Hr as (H0 & H1 & H2 & H3). rewrite is_overlap_rev in H2. split_and!; try done.
    + intros vpn Hv (k & a & Hin & Ha).
      pose proof (proj1 (is_overlap_false _ _ _) H2 k a Hin). lia.
    + intros s' Hs Hs'. rewrite <- is_overlap_rev. by apply H3.
  - intros s Hs Hs'. rewrite <- is_overlap_rev. by apply Hr.
Qed.

(** A tree with the pages 0x10 to 0x20 and 0x30 to 0x40. *)
Definition area_of (s e : Z) : MapArea := mkArea (mkRange s e) [] Framed 0 AT_Mmap None 0.
Definition tree2 : VmAreaTree := [(0x10, area_of 0x10 0x20); (0x30, area_of 0x30 0x40)].

Lemma tree2_wf : tree_wf tree2.
Proof.
  constructor.
  - repeat constructor.
  - intros k a Hin. unfold tree2 in Hin.
    repeat (apply elem_of_cons in Hin as [[= -> ->]|Hin]; [cbn; lia|]). set_solver.
  - intros k1 a1 k2 a2 H1 H2 Hlt. unfold tree2 in *.
    repeat (apply elem_of_cons in H1 as [[= -> ->]|H1];
      [repeat (apply elem_of_cons in H2 as [[= -> ->]|H2]; [cbn; lia|]); set_solver|]).
    set_solver.
Qed.

Lemma alloc_pages_highest_gap_witness :
  exists s, alloc_pages tree2 7 = Ret (Some s) /\ forall v, s <= v < s + 7 -> ~ covered tree2 v.
Proof.
  destruct (alloc_pages_highest_gap tree2 7 tree2_wf ltac:(lia)) as (r & E & H).
  destruct r as [s|]; [|vm_compute in E; discriminate E].
  exists s. split; [exact E|apply H].
Defined.

Lemma elem_of_below t hint k (a : MapArea) : (k, a) ∈ bt_below hint t <-> (k, a) ∈ t /\ k < hint.
Proof.
  unfold bt_below. rewrite list_elem_of_In, List.filter_In, <- list_elem_of_In.
  cbn. rewrite kltb_spec. unfold klt. cbn. rewrite Z.compare_lt_iff. done.
Qed.

Lemma below_wf t hint : tree_wf t -> tree_wf (bt_below hint t).
Proof.
  intros Hwf. constructor.
  - apply filter_sorted, Hwf.
  - intros k a [Hin _]%elem_of_below. by apply (tw_key t Hwf).
  - intros k1 a1 k2 a2 [H1 _]%elem_of_below [H2 _]%elem_of_below.
    by apply (tw_disj t Hwf k1 a1 k2 a2).
Qed.

(** [find_gap_from] returns the highest start of [npages] pages below the
    hint that overlap no area of the tree, although it looks only at areas
    that start below the hint, and [None] only when there is none. *)
Theorem find_gap_from_highest t hint npages : tree_wf t -> 0 <= hint ->
  0 <= npages < 2 ^ 52 ->
  exists r, find_gap_from t hint npages = Ret r /\
    match r with
    | Some s => 0 <= s /\ s + npages <= hint /\ is_overlap t s (s + npages) = false /\
        forall s', s < s' -> s' + npages <= hint -> is_overlap t s' (s' + npages) = true
    | None => forall s, 0 <= s -> s + npages <= hint -> is_overlap t s (s + npages) = true
    end.
Proof.
  intros Hwf Hh Hn. unfold find_gap_from.
  destruct (alloc_pages_loop_spec (rev (bt_below hint t)) npages hint) as (r & -> & Hr);
    [by apply rev_descending, below_wf|done|done|].
  assert (forall s, s + npages <= hint ->
    is_overlap (rev (bt_below hint t)) s (s + npages) = is_overlap t s (s + npages)) as Heq.
  { intros s Hs. rewrite is_overlap_rev. apply eq_true_iff_eq. rewrite !is_overlap_iff.
    split; intros (k & a & Hin & H1 & H2); exists k, a.
    - apply elem_of_below in Hin as [Hin _]. done.
    - split; [|done]. apply elem_of_below. split; [done|].
      destruct (tw_key t Hwf k a Hin) as (-> & _). lia. }
  exists r. split; [done|]. destruct r as [s|].
  - destruct Hr as (H0 & H1 & H2 & H3). rewrite Heq in H2 by done. split_and!; try done.
    intros s' Hs Hs'. rewrite <- Heq by done. by apply H3.
  - intros s Hs Hs'. rewrite <- Heq by done. by apply Hr.
Qed.

Lemma find_gap_from_highest_witness :
  exists s, find_gap_from tree2 0x38 9 = Ret (Some s) /\ s + 9 <= 0x38 /\
    is_overlap tree2 s (s + 9) = false.
Proof.
  destruct (find_gap_from_highest tree2 0x38 9 tree2_wf ltac:(lia) ltac:(lia)) as (r & E & H).
  destruct r as [s|]; [|vm_compute in E; discriminate E].
  exists s. split; [exact E|]. split; apply H.
Defined.

(** ** The area at a page *)

Lemma sorted_last t k (a : MapArea) k' a' : bt_sorted (t ++ [(k, a)]) -> (k', a') ∈ t -> k' < k.
Proof.
  induction t as [|[k1 a1] t IH]; intros Hs Hin; [set_solver|].
  cbn in Hs. apply sorted_cons in Hs as [Hf Hs].
  apply elem_of_cons in Hin as [[= -> ->]|Hin]; [|by apply IH].
  apply Forall_app in Hf as [_ Hf]. apply Forall_cons_1 in Hf as [Hf _].
  by apply Z.compare_lt_iff in Hf.
Qed.

Lemma elem_of_upto t c k (a : MapArea) : (k, a) ∈ bt_upto c t <-> (k, a) ∈ t /\ k <= c.
Proof.
  unfold bt_upto. rewrite list_elem_of_In, List.filter_In, <- list_elem_of_In.
  cbn. rewrite kleb_spec. unfold klt. cbn. rewrite Z.compare_lt_iff.
  split; intros [? ?]; split; auto; lia.
Qed.

(** The last area that starts at or below a page. *)
Lemma last_upto t c : tree_wf t ->
  match list.last (bt_upto c t) with
  | Some (k, a) => (k, a) ∈ t /\ k <= c /\ forall k' a', (k', a') ∈ t -> k' <= c -> k' <= k
  | None => forall k' a', (k', a') ∈ t -> c < k'
  end.
Proof.
  intros Hwf. destruct (list.last (bt_upto c t)) as [[k a]|] eqn:E.
  - apply list.last_Some in E as [l E].
    assert ((k, a) ∈ bt_upto c t) as [Hin Hle]%elem_of_upto by (rewrite E; set_solver).
    split_and!; [done|done|]. intros k' a' Hin' Hle'.
    assert ((k', a') ∈ bt_upto c t) as H by (by apply elem_of_upto).
    rewrite E in H. apply elem_of_app in H as [H|H].
    + enough (k' < k) by lia. apply (sorted_last l k a k' a'); [|done]. rewrite <- E.
      apply filter_sorted, Hwf.
    + apply list_elem_of_singleton in H as [= -> ->]. lia.
  - apply list.last_None in E. intros k' a' Hin'.
    destruct (Z.lt_ge_cases c k'); [done|].
    assert ((k', a') ∈ bt_upto c t) as Hu by (apply elem_of_upto; split; [done|lia]).
    rewrite E in Hu. set_solver.
Qed.

(** A page is covered exactly when the last area starting at or below it
    reaches past it. *)
Lemma covered_last t c : tree_wf t ->
  covered t c <-> exists k a, list.last (bt_upto c t) = Some (k, a) /\ c < end_vpn a.
Proof.
  intros Hwf. pose proof (last_upto t c Hwf) as H.
  destruct (list.last (bt_upto c t)) as [[k a]|]; split.
  - destruct H as (Hin & Hle & Hmax). intros (k' & a' & Hin' & Hc). exists k, a.
    split; [done|]. destruct (tw_key t Hwf k' a' Hin') as (-> & _).
    pose proof (Hmax _ _ Hin' ltac:(lia)) as Hk.
    destruct (Z.lt_ge_cases (start_vpn a') k) as [Hlt|Hge].
    + pose proof (tw_disj t Hwf _ _ _ _ Hin' Hin Hlt). lia.
    + assert (start_vpn a' = k) as E by lia. rewrite E in Hin'.
      apply (elem_get k a') in Hin'; [|apply Hwf]. apply (elem_get k a) in Hin; [|apply Hwf].
      assert (a = a') as -> by congruence. lia.
  - destruct H as (Hin & Hle & _). intros (k' & a' & [= <- <-] & Hc).
    exists k, a. split; [done|]. destruct (tw_key t Hwf k a Hin) as (<- & _). lia.
  - intros (k' & a' & Hin' & Hc). destruct (tw_key t Hwf k' a' Hin') as (-> & _).
    specialize (H _ _ Hin'). lia.
  - intros (k' & a' & ? & _). done.
Qed.

(** ** [is_fully_contained] *)

Lemma contained_loop_spec n t cursor e : tree_wf t ->
  zcount (fun '(_, a) => cursor <? end_vpn a) t < Z.of_nat n ->
  exists b, contained_loop n t cursor e = Ret b /\
    (b = true <-> forall v, cursor <= v < e -> covered t v).
Proof.
  intros Hwf. revert cursor. induction n as [|n IH]; intros cursor Hc.
  { pose proof (zcount_bounds (fun '(_, a) => cursor <? end_vpn a) t). lia. }
  cbn [contained_loop]. destruct (Z.ltb_spec cursor e).
  2:{ exists true. split; [done|]. split; [|done]. intros _ v. lia. }
  pose proof (covered_last t cursor Hwf) as Hcov. pose proof (last_upto t cursor Hwf) as Hl.
  destruct (list.last (bt_upto cursor t)) as [[k a]|].
  2:{ exists false. split; [done|]. split; [done|]. intros Hall.
      destruct (proj1 Hcov (Hall cursor ltac:(lia))) as (? & ? & ? & _). done. }
  destruct Hl as (Hin & Hk & _). destruct (tw_key t Hwf k a Hin) as (-> & Hr & _).
  destruct (Z.ltb_spec cursor (start_vpn a)); [lia|]. cbn [orb].
  destruct (Z.leb_spec (end_vpn a) cursor).
  { exists false. split; [done|]. split; [done|]. intros Hall.
    destruct (proj1 Hcov (Hall cursor ltac:(lia))) as (k' & a' & [= <- <-] & ?). lia. }
  destruct (IH (end_vpn a)) as (b & -> & Hb).
  { enough (zcount (fun '(_, a0) => end_vpn a <? end_vpn a0) t <
            zcount (fun '(_, a0) => cursor <? end_vpn a0) t) by lia.
    clear -Hin H1. revert Hin. induction t as [|[k' a'] t IH]; intros Hin; [set_solver|].
    rewrite !zcount_cons.
    assert (zcount (fun '(_, a0) => end_vpn a <? end_vpn a0) t <=
            zcount (fun '(_, a0) => cursor <? end_vpn a0) t) as Hle.
    { clear -H1. induction t as [|[k' a'] t IH]; [done|]. rewrite !zcount_cons. zcases; lia. }
    apply elem_of_cons in Hin as [[= <- <-]|Hin]; [zcases; lia|].
    specialize (IH Hin). zcases; lia. }
  exists b. split; [done|]. rewrite Hb. split.
  - intros Hall v Hv. destruct (Z.lt_ge_cases v (end_vpn a)); [|apply Hall; lia].
    exists (start_vpn a), a. split; [done|lia].
  - intros Hall v Hv. apply Hall. lia.
Qed.

(** [is_fully_contained] terminates on every well-formed tree (its cursor
    visits each area at most once) and answers exactly whether every page of
    the range belongs to an area. *)
Theorem is_fully_contained_exact t s e : tree_wf t ->
  exists b, is_fully_contained t s e = Ret b /\
    (b = true <-> forall v, s <= v < e -> covered t v).
Proof.
  intros Hwf. apply contained_loop_spec; [done|].
  pose proof (zcount_bounds (fun '(_, a) => s <? end_vpn a) t). unfold zlen in *. lia.
Qed.

Lemma is_fully_contained_exact_witness :
  is_fully_contained tree2 0x12 0x20 = Ret true /\ forall v, 0x12 <= v < 0x20 -> covered tree2 v.
Proof.
  split; [reflexivity|].
  destruct (is_fully_contained_exact tree2 0x12 0x20 tree2_wf) as (b & E & H).
  apply H. vm_compute in E. congruence.
Defined.

(** ** [find_area] *)

(** [find_area] finds the area of every covered page, but also reports an
    area for the page right after its end: for a page that some area ends at
    and no area starts at, it returns that area although the page is not
    covered. *)
Theorem find_area_end_inclusive t vpn : tree_wf t ->
  (covered t vpn -> exists k a, find_area t vpn = Some k /\ (k, a) ∈ t /\
     start_vpn a <= vpn < end_vpn a) /\
  (forall k a, (k, a) ∈ t -> end_vpn a = vpn -> start_vpn a < end_vpn a ->
     (forall k' a', (k', a') ∈ t -> k' <= vpn -> k' <= k) ->
     find_area t vpn = Some k /\ ~ covered t vpn).
Proof.
  intros Hwf. pose proof (last_upto t vpn Hwf) as Hl. split.
  - intros Hc. destruct (proj1 (covered_last t vpn Hwf) Hc) as (k & a & E & Hlt).
    unfold find_area. rewrite E in *. destruct Hl as (Hin & Hk & _).
    destruct (tw_key t Hwf k a Hin) as (-> & _). exists (start_vpn a), a.
    unfold area_contains, range_contains. fold (start_vpn a) (end_vpn a).
    split_and!; [zcases; done || lia|done|lia|lia].
  - intros k a Hin He Hne Hmax. destruct (tw_key t Hwf k a Hin) as (-> & _).
    assert (list.last (bt_upto vpn t) = Some (start_vpn a, a)) as E.
    { destruct (list.last (bt_upto vpn t)) as [[k' a']|].
      - destruct Hl as (Hin' & Hk' & Hmax').
        pose proof (Hmax _ _ Hin' Hk'). pose proof (Hmax' _ _ Hin ltac:(lia)).
        assert (k' = start_vpn a) as -> by lia.
        apply elem_get in Hin, Hin'; [|apply Hwf..]. congruence.
      - specialize (Hl _ _ Hin). lia. }
    unfold find_area. rewrite E. unfold area_contains, range_contains.
    fold (start_vpn a) (end_vpn a). split; [zcases; done || lia|].
    rewrite covered_last, E by done. intros (k' & a' & [= <- <-] & Hlt). lia.
Qed.

Lemma find_area_end_inclusive_witness :
  find_area tree2 0x20 = Some 0x10 /\ ~ covered tree2 0x20.
Proof.
  apply (proj2 (find_area_end_inclusive tree2 0x20 tree2_wf) 0x10 (area_of 0x10 0x20));
    [set_solver|reflexivity|reflexivity|].
  intros k' a' Hin Hle. unfold tree2 in Hin.
  repeat (apply elem_of_cons in Hin as [[= -> ->]|Hin]; [lia|]). set_solver.
Defined.

(** ** [alloc_pages_from_hint] *)

Lemma elem_of_from t c k (a : MapArea) : (k, a) ∈ bt_from c t <-> (k, a) ∈ t /\ c <= k.
Proof.
  unfold bt_from. rewrite list_elem_of_In, List.filter_In, <- list_elem_of_In.
  cbn. rewrite kleb_spec. unfold klt. cbn. rewrite Z.compare_lt_iff.
  split; intros [? ?]; split; auto; lia.
Qed.

(** [alloc_pages_from_hint] looks only at areas that start at or after
    the hint.  A hint in the middle of an area with no other area starting in
    the next [npages] pages is returned as it is, although its pages belong to
    that area. *)
Theorem alloc_from_hint_overlaps t npages hint k a : tree_wf t ->
  0 < npages -> Z.shiftr MMAP_BASE PAGE_SIZE_BITS <= hint ->
  hint + npages <= MMAP_TOP / PAGE_SIZE ->
  (k, a) ∈ t -> k < hint < end_vpn a ->
  (forall k' a', (k', a') ∈ t -> hint <= k' -> hint + npages <= k') ->
  alloc_pages_from_hint t npages hint = Ret (Some hint) /\
  covered t hint /\ is_overlap t hint (hint + npages) = true.
Proof.
  intros Hwf Hn Hb Htop Hin Hh Hgap. destruct (tw_key t Hwf k a Hin) as (-> & Hr & _).
  split_and!.
  - unfold alloc_pages_from_hint. rewrite Z.max_l by done.
    destruct (bt_from hint t) as [|[k1 a1] l] eqn:E; cbn [hint_forward mbind outcome_bind].
    + zcases; done || lia.
    + assert ((k1, a1) ∈ bt_from hint t) as [Hin1 Hk1]%elem_of_from by (rewrite E; set_solver).
      pose proof (Hgap _ _ Hin1 Hk1).
      destruct (Z.ltb_spec hint k1), (Z.leb_spec npages (k1 - hint)); try lia. cbn [andb].
      assert (MMAP_TOP / PAGE_SIZE < 2 ^ 52) by (vm_compute; done).
      rewrite uadd_Ret by (unfold u64_bound; lia). cbn [mbind outcome_bind].
      zcases; done || lia.
  - exists (start_vpn a), a. split; [done|lia].
  - apply is_overlap_iff. exists (start_vpn a), a. split; [done|lia].
Qed.

Lemma alloc_from_hint_overlaps_witness :
  let base := Z.shiftr MMAP_BASE PAGE_SIZE_BITS in
  let t := [(base, area_of base (base + 16))] in
  alloc_pages_from_hint t 4 (base + 8) = Ret (Some (base + 8)) /\ covered t (base + 8).
Proof.
  cbv zeta. set (base := Z.shiftr MMAP_BASE PAGE_SIZE_BITS).
  assert (tree_wf [(base, area_of base (base + 16))]) as Hwf.
  { constructor.
    - repeat constructor.
    - intros k a Hin. apply list_elem_of_singleton in Hin as [= -> ->].
      vm_compute. repeat split; congruence.
    - intros k1 a1 k2 a2 H1 H2. apply list_elem_of_singleton in H1 as [= -> ->], H2 as [= -> ->]. lia. }
  destruct (alloc_from_hint_overlaps [(base, area_of base (base + 16))] 4 (base + 8)
    base (area_of base (base + 16)) Hwf) as (H1 & H2 & _);
    [lia|vm_compute; congruence|vm_compute; congruence|set_solver|vm_compute; split; congruence| |].
  - intros k' a' Hin. apply list_elem_of_singleton in Hin as [= -> ->]. vm_compute. congruence.
  - split; [exact H1|exact H2].
Defined.

(** * Splitting *)

Lemma split_below_from (d : list (Z * Z)) vpn k : bt_sorted d ->
  bt_get k (bt_below vpn d) = (if k <? vpn then bt_get k d else None) /\
  bt_get k (bt_from vpn d) = (if k <? vpn then None else bt_get k d).
Proof.
  intros Hs. unfold bt_below, bt_from. rewrite !get_filter by done. cbn [fst].
  rewrite kleb_negb. assert (kltb k vpn = (k <? vpn)) as ->.
  { unfold kltb, Z.ltb. cbn. destruct (k ?= vpn); done. }
  destruct (bt_get k d), (k <? vpn); done.
Qed.

(** The parts that a split makes of an area. *)
Record split_parts (a : MapArea) (vpn : Z) (l r : MapArea) : Prop := {
  sp_ranges : start_vpn l = start_vpn a /\ end_vpn l = vpn /\
              start_vpn r = vpn /\ end_vpn r = end_vpn a;
  sp_frames : forall k, bt_get k (data_frames l) = (if k <? vpn then bt_get k (data_frames a) else None) /\
              bt_get k (data_frames r) = (if k <? vpn then None else bt_get k (data_frames a));
  sp_same : (map_type l = map_type a /\ map_perm l = map_perm a /\ area_type l = area_type a /\
             mmap_flags l = mmap_flags a /\ area_fd l = area_fd a) /\
            (map_type r = map_type a /\ map_perm r = map_perm a /\ area_type r = area_type a /\
             mmap_flags r = mmap_flags a)
}.

Lemma wrap_isize_small z : 0 <= z < 2 ^ 63 -> wrap_isize z = z.
Proof. intros. unfold wrap_isize. rewrite Z.mod_small by lia. lia. Qed.

Lemma ichk_small z : 0 <= z < 2 ^ 63 -> ichk z = Ret z.
Proof.
  intros. unfold ichk, in_isize, isize_min, isize_max.
  destruct (Z.leb_spec (- 2 ^ 63) z), (Z.leb_spec z (2 ^ 63 - 1)); try lia. done.
Qed.

Lemma lseek_cur inner off : 0 <= in_offset inner -> 0 <= off -> in_offset inner + off < 2 ^ 63 ->
  lseek inner (wrap_isize off) SEEK_CUR =
  Ret (Ok (in_offset inner + off), mkInner (in_offset inner + off) (in_size inner)).
Proof.
  intros. unfold lseek. change (2 <? SEEK_CUR) with false.
  change (SEEK_CUR =? SEEK_SET) with false. change (SEEK_CUR =? SEEK_CUR) with true. cbv iota.
  rewrite !wrap_isize_small, ichk_small by lia. cbn [mbind outcome_bind].
  destruct (Z.ltb_spec (in_offset inner + off) 0); [lia|done].
Qed.

Lemma lseek_set inner off : 0 <= off < 2 ^ 63 ->
  lseek inner (wrap_isize off) SEEK_SET = Ret (Ok off, mkInner off (in_size inner)).
Proof.
  intros. unfold lseek. change (2 <? SEEK_SET) with false.
  change (SEEK_SET =? SEEK_SET) with true. cbv iota. rewrite wrap_isize_small by lia.
  destruct (Z.ltb_spec off 0); [lia|done].
Qed.

(** Seeking forward and back leaves the cursor where it was. *)
Lemma split_file_some fs mf inner off : fs !! mf_file mf = Some inner ->
  0 <= off -> 0 <= in_offset inner -> in_offset inner + off < 2 ^ 63 ->
  split_file fs (Some mf) (Ret off) =
  Ret (Some (mkMmapFile (mf_file mf) (in_offset inner + off)), fs).
Proof.
  intros Hf Ho Hi Hb. unfold split_file. rewrite Hf. cbn [unwrap mbind outcome_bind].
  rewrite lseek_cur by lia. cbn [mbind outcome_bind result_unwrap].
  rewrite usub_Ret by lia. cbn [mbind outcome_bind].
  rewrite lseek_set by lia. cbn [mbind outcome_bind result_unwrap in_size]. do 2 f_equal.
  replace (in_offset inner + off - off) with (in_offset inner) by lia.
  rewrite insert_id; [done|]. rewrite Hf. destruct inner; done.
Qed.

(** Splitting an area at a page in its range gives two areas with the
    same attributes that cover the two halves of the range, and each frame
    goes to the half its page is in.  An area without a file needs nothing
    else; for a file-backed one the cursor of the file is left as it was. *)
Theorem area_split_partition fs a vpn : bt_sorted (data_frames a) ->
  0 <= start_vpn a <= vpn -> vpn <= end_vpn a < 2 ^ 52 ->
  match area_fd a with
  | None => True
  | Some mf => exists inner, fs !! mf_file mf = Some inner /\ 0 <= in_offset inner /\
      in_offset inner + (vpn - start_vpn a) * PAGE_SIZE < 2 ^ 63
  end ->
  exists l r, area_split fs a vpn = Ret (l, r, fs) /\ split_parts a vpn l r.
Proof.
  intros Hs Hv He Hfd. unfold area_split, bt_split_off.
  assert (page_bytes vpn (start_vpn a) = Ret ((vpn - start_vpn a) * PAGE_SIZE)) as Hpb.
  { unfold page_bytes. rewrite usub_Ret by lia. cbn [mbind outcome_bind].
    unfold PAGE_SIZE_BITS, PAGE_SIZE. rewrite shl64_small by (unfold u64_bound; lia). done. }
  assert (exists rf, split_file fs (area_fd a) (page_bytes vpn (start_vpn a)) = Ret (rf, fs))
    as [rf ->].
  { destruct (area_fd a) as [mf|]; [|eexists; done].
    destruct Hfd as (inner & H1 & H2 & H3). rewrite Hpb. eexists.
    apply (split_file_some fs mf inner); try done. unfold PAGE_SIZE. lia. }
  cbn [mbind outcome_bind]. unfold range_new, range_set_end.
  fold (start_vpn a).
  destruct (Z.leb_spec vpn (end_vpn a)); [|lia].
  destruct (Z.leb_spec (start_vpn a) vpn); [|lia]. cbn [rassert mbind outcome_bind].
  eexists _, _. split; [done|]. constructor; try done.
  intros k. by apply split_below_from.
Qed.

Lemma area_split_partition_witness :
  exists l r, area_split ∅ (mkArea (mkRange 16 32) [(17, 0x80001); (20, 0x80002)] Framed 0 AT_Mmap None 0)
      18 = Ret (l, r, ∅) /\ data_frames r = [(20, 0x80002)].
Proof.
  destruct (area_split_partition ∅
    (mkArea (mkRange 16 32) [(17, 0x80001); (20, 0x80002)] Framed 0 AT_Mmap None 0) 18)
    as (l & r & E & _); [repeat constructor|cbn; lia|cbn; lia|exact I|].
  exists l, r. split; [exact E|]. vm_compute in E. injection E as <- <-. reflexivity.
Defined.

(** The upper part of a split file mapping gets its file offset from the
    cursor of the open file; the offset that the area was mapped at plays no
    role, so that the pages after the split come from another place of the
    file whenever the two differ. *)
Theorem area_split_file_offset fs a vpn mf inner l r fs' :
  area_fd a = Some mf -> fs !! mf_file mf = Some inner ->
  0 <= start_vpn a <= vpn -> vpn < 2 ^ 52 -> 0 <= in_offset inner ->
  in_offset inner + (vpn - start_vpn a) * PAGE_SIZE < 2 ^ 63 ->
  area_split fs a vpn = Ret (l, r, fs') ->
  area_fd r = Some (mkMmapFile (mf_file mf)
                      (in_offset inner + (vpn - start_vpn a) * PAGE_SIZE)).
Proof.
  intros Hfd Hf Hv Hb Hi Ho E. unfold area_split, bt_split_off in E. rewrite Hfd in E.
  assert (page_bytes vpn (start_vpn a) = Ret ((vpn - start_vpn a) * PAGE_SIZE)) as Hpb.
  { unfold page_bytes. rewrite usub_Ret by lia. cbn [mbind outcome_bind].
    unfold PAGE_SIZE_BITS, PAGE_SIZE. rewrite shl64_small by (unfold u64_bound; lia). done. }
  rewrite Hpb, (split_file_some fs mf inner) in E by (done || (unfold PAGE_SIZE; lia)).
  cbn [mbind outcome_bind] in E. inv_ret. cbn. done.
Qed.

Lemma area_split_file_offset_witness :
  let a := mkArea (mkRange 16 32) [] Framed 0 AT_Mmap (Some (mkMmapFile 3 0x10000)) 0 in
  let fs := {[ 3 := mkInner 0 0x20000 ]} in
  exists l r fs', area_split fs a 18 = Ret (l, r, fs') /\ area_fd r = Some (mkMmapFile 3 0x2000).
Proof.
  cbv zeta. set (a := mkArea _ _ _ _ _ _ _). set (fs := {[ 3 := mkInner 0 0x20000 ]}).
  destruct (area_split fs a 18) as [[[l r] fs']|] eqn:E; [|vm_compute in E; discriminate E].
  exists l, r, fs'. split; [reflexivity|].
  apply (area_split_file_offset fs a 18 (mkMmapFile 3 0x10000) (mkInner 0 0x20000) l r fs');
    [reflexivity|reflexivity|cbn; lia|lia|cbn; lia|vm_compute; reflexivity|exact E].
Defined.
