(* ===== verification/AreaMap.v ===== *)
(** * Mapping the pages of an area

    Properties of [MapArea::map_one], [map] and [map_given_frames]
    (os/src/mm/area.rs) over the page table and the frame allocator: each page
    of a mapped area gets a fresh cleared frame, owned by the area and
    reachable through the page table with the permissions of the area, and
    nothing else in memory changes. *)

From S2P Require Import Prelude Config Address BitField Memory FrameAlloc.
From S2P Require Import FrameSpec Pte PageTable BTree Errno Area.
From S2P Require Import AreaTree.

(** ** Allocating a data frame leaves the page table alone *)

Section alloc_data.
Variables (w w1 : world) (root t : Z).
Hypothesis Hpt : pt_wf w root.
Hypothesis Halloc : alloc_post w t w1.

Lemma ad_fresh q g : path_ok q -> node (w_mem w) root q = Some g -> g <> t.
Proof.
  intros Hq Hg ->. destruct (pw_live w root Hpt q t Hq Hg) as [[n Hn] _].
  pose proof (ap_fresh w t w1 Halloc). congruence.
Qed.

Lemma ad_node q : path_ok q -> node (w_mem w1) root q = node (w_mem w) root q.
Proof.
  intros [Hl Hok]. apply node_frame. intros q' j r g -> Hg.
  rewrite (ap_mem w t w1 Halloc), read_zero_frame, decide_False; [done|].
  intros <-. apply (ad_fresh q' t); [|done|done].
  split; [rewrite length_app in Hl; lia|]. by apply Forall_app in Hok as [? _].
Qed.

Lemma ad_pt_wf : pt_wf w1 root.
Proof.
  constructor.
  - intros p1 p2 f H1 H2. rewrite !ad_node by done. by apply (pw_inj w root Hpt).
  - intros p f Hp. rewrite ad_node by done. intros Hn.
    destruct (pw_live w root Hpt p f Hp Hn) as [Hl Hr]. split; [|done].
    rewrite (ap_refs w t w1 Halloc), lookup_insert_ne; [done|].
    intros <-. by apply (ad_fresh p t).
Qed.

Lemma ad_pte v : pte_at (w_mem w1) root v = pte_at (w_mem w) root v.
Proof.
  unfold pte_at. rewrite ad_node by apply path_ok_vpath.
  destruct (node (w_mem w) root (vpath v)) as [f|] eqn:E; [|done].
  rewrite (ap_mem w t w1 Halloc), read_zero_frame, decide_False; [done|].
  intros <-. apply (ad_fresh (vpath v) t); [apply path_ok_vpath|done|done].
Qed.

Lemma ad_not_table : not_table (w_mem w1) root t.
Proof. intros p Hp. rewrite ad_node by done. intros H. by apply (ad_fresh p t). Qed.

Lemma ad_data f : is_Some (w_refs w !! f) -> not_table (w_mem w) root f ->
  f <> t /\ not_table (w_mem w1) root f /\
  forall i, read_word (w_mem w1) f i = read_word (w_mem w) f i.
Proof.
  intros Hl Hnt. assert (f <> t) as Hne.
  { intros ->. rewrite (ap_fresh w t w1 Halloc) in Hl. by destruct Hl. }
  split_and!; [done| |].
  - intros p Hp. rewrite ad_node by done. by apply Hnt.
  - intros i. rewrite (ap_mem w t w1 Halloc), read_zero_frame, decide_False by done. done.
Qed.

End alloc_data.

(** ** One page *)

(** The frames of an area are live, hold no table, and are what the page
    table maps its pages to. *)
Definition owns (w : world) (root : Z) (d : list (Z * Z)) : Prop :=
  forall vpn ppn, bt_get vpn d = Some ppn ->
    0 <= vpn < 2 ^ 27 /\ is_Some (w_refs w !! ppn) /\ not_table (w_mem w) root ppn /\
    la_ppn (pte_at (w_mem w) root vpn) = Ret ppn.

(** What mapping one page of a framed area does. *)
Record map_one_post (w : world) (root vpn perm ppn : Z) (w' : world) : Prop := {
  mo_wf : world_wf w';
  mo_pt : pt_wf w' root;
  mo_fresh : w_refs w !! ppn = None;
  mo_live : w_refs w' !! ppn = Some 1;
  mo_nt : not_table (w_mem w') root ppn;
  mo_zero : forall i, read_word (w_mem w') ppn i = 0;
  mo_entry : la_ppn (pte_at (w_mem w') root vpn) = Ret ppn /\
             la_flags (pte_at (w_mem w') root vpn) = Ret (la_flags_of_perm perm);
  mo_other : forall v, 0 <= v < 2 ^ 27 -> v <> vpn ->
    pte_at (w_mem w') root v = pte_at (w_mem w) root v;
  mo_data : forall f, is_Some (w_refs w !! f) -> not_table (w_mem w) root f ->
    w_refs w' !! f = w_refs w !! f /\ not_table (w_mem w') root f /\
    forall i, read_word (w_mem w') f i = read_word (w_mem w) f i;
  mo_refs : forall f, is_Some (w_refs w !! f) -> w_refs w' !! f = w_refs w !! f;
  mo_count : free_count w - 3 <= free_count w';
  mo_vec : w_frame_vec w' = w_frame_vec w
}.

Lemma la_flags_of_perm_ok perm : pte_flags_ok (la_flags_of_perm perm) = true.
Proof.
  unfold la_flags_of_perm.
  destruct (fl_contains perm MP_W), (fl_contains perm MP_U); reflexivity.
Qed.

Lemma map_one_spec w a pt vpn : world_wf w -> pt_wf w (root_ppn pt) -> map_type a = Framed ->
  0 <= vpn < 2 ^ 27 -> pte_at (w_mem w) (root_ppn pt) vpn = 0 ->
  bt_get vpn (data_frames a) = None -> 2 < free_count w ->
  exists ppn pt' w', map_one a pt vpn w =
      Ret (Ok tt, set_data_frames (bt_insert vpn ppn (data_frames a)) a, pt', w') /\
    root_ppn pt' = root_ppn pt /\ map_one_post w (root_ppn pt) vpn (map_perm a) ppn w'.
Proof.
  intros Hw Hpt Hty Hv H0 Hd Hc. unfold map_one, frames_insert. rewrite Hty, Hd. st_unfold.
  destruct (frame_alloc_available w Hw ltac:(lia)) as (t & w1 & -> & Hp).
  pose proof (ap_count w t w1 Hp) as C1. cbn [map_perm set_data_frames].
  pose proof (ap_range w t w1 Hp) as Hr.
  set (fl := la_flags_of_perm (map_perm a)).
  pose proof (la_flags_of_perm_ok (map_perm a)) as Hfl. fold fl in Hfl.
  destruct (la_new_roundtrip t fl) as (e & He & Hppn & Hfe & _).
  { lia. } { cbn in Hfl. zbool. done. }
  destruct (pt_map_spec w1 pt vpn t fl e) as (pt' & w' & -> & R & P & C2).
  { apply Hp. } { by apply (ad_pt_wf w w1 _ t). } { done. }
  { rewrite (ad_pte w w1 _ t) by done. rewrite H0. done. } { lia. } { done. }
  exists t, pt', w'. split; [done|]. split; [done|].
  pose proof (mp_at _ _ _ _ _ P vpn Hv) as Hat. rewrite Z.eqb_refl in Hat.
  assert (is_Some (w_refs w1 !! t)) as Hlive
    by (rewrite (ap_refs _ _ _ Hp), lookup_insert_eq; by eexists).
  destruct (mp_data _ _ _ _ _ P t Hlive (ad_not_table w w1 _ t Hpt Hp)) as [Hnt Hz].
  constructor.
  - apply P.
  - apply P.
  - apply (ap_fresh _ _ _ Hp).
  - rewrite (mp_refs _ _ _ _ _ P t Hlive), (ap_refs _ _ _ Hp). apply lookup_insert_eq.
  - done.
  - intros i. rewrite Hz, (ap_mem _ _ _ Hp), read_zero_frame, decide_True by done. done.
  - rewrite Hat. done.
  - intros v Hv' Hne. rewrite (mp_at _ _ _ _ _ P v Hv').
    destruct (Z.eqb_spec v vpn); [done|]. by apply (ad_pte w w1 _ t).
  - intros f Hl Hntf. destruct (ad_data w w1 _ t Hpt Hp f Hl Hntf) as (Hne & Hnt1 & Hd1).
    assert (w_refs w1 !! f = w_refs w !! f) as Hrf.
    { rewrite (ap_refs _ _ _ Hp), lookup_insert_ne by done. done. }
    destruct (mp_data _ _ _ _ _ P f) as [Hnt2 Hd2]; [by rewrite Hrf|done|].
    split_and!; [|done|].
    + rewrite (mp_refs _ _ _ _ _ P f); [done|]. by rewrite Hrf.
    + intros i. rewrite Hd2. apply Hd1.
  - intros f Hl. assert (w_refs w1 !! f = w_refs w !! f) as Hrf.
    { rewrite (ap_refs _ _ _ Hp), lookup_insert_ne; [done|]. intros <-.
      rewrite (ap_fresh _ _ _ Hp) in Hl. by destruct Hl. }
    rewrite (mp_refs _ _ _ _ _ P f); [done|]. by rewrite Hrf.
  - lia.
  - rewrite (mp_vec _ _ _ _ _ P). apply (ap_vec _ _ _ Hp).
Qed.

(** Out of frames, [map_one] reports [ENOMEM] and changes nothing. *)
Lemma map_one_oom w a pt vpn : world_wf w -> map_type a = Framed ->
  (forall p, fa_free (w_fa w) p = false) ->
  map_one a pt vpn w = Ret (Err ENOMEM, a, pt, w).
Proof.
  intros Hw Hty Hn. unfold map_one. rewrite Hty. st_unfold.
  destruct (frame_alloc_spec w Hw) as [(p & w' & _ & Hp)|[-> _]]; [|done].
  pose proof (ap_free _ _ _ Hp). rewrite Hn in *. done.
Qed.

(** ** All pages *)

(** The state after mapping a list of pages: the frames of the pages, and
    what was there before. *)
Record map_pages_post (w : world) (root perm : Z) (vpns : list Z) (d d' : list (Z * Z))
    (w' : world) : Prop := {
  ms_wf : world_wf w';
  ms_pt : pt_wf w' root;
  ms_sorted : bt_sorted d';
  ms_new : forall v, v ∈ vpns -> exists ppn, bt_get v d' = Some ppn /\
    w_refs w !! ppn = None /\ w_refs w' !! ppn = Some 1 /\ not_table (w_mem w') root ppn /\
    (forall i, read_word (w_mem w') ppn i = 0) /\
    la_ppn (pte_at (w_mem w') root v) = Ret ppn /\
    la_flags (pte_at (w_mem w') root v) = Ret (la_flags_of_perm perm);
  ms_inj : forall v1 v2 ppn, v1 ∈ vpns -> v2 ∈ vpns ->
    bt_get v1 d' = Some ppn -> bt_get v2 d' = Some ppn -> v1 = v2;
  ms_old : forall v, v ∉ vpns -> bt_get v d' = bt_get v d;
  ms_other : forall v, 0 <= v < 2 ^ 27 -> v ∉ vpns ->
    pte_at (w_mem w') root v = pte_at (w_mem w) root v;
  ms_data : forall f, is_Some (w_refs w !! f) -> not_table (w_mem w) root f ->
    w_refs w' !! f = w_refs w !! f /\ not_table (w_mem w') root f /\
    forall i, read_word (w_mem w') f i = read_word (w_mem w) f i;
  ms_refs : forall f, is_Some (w_refs w !! f) -> w_refs w' !! f = w_refs w !! f;
  ms_vec : w_frame_vec w' = w_frame_vec w;
  ms_count : free_count w - 3 * zlen vpns <= free_count w'
}.

Lemma map_pages_spec vpns : forall w a pt,
  world_wf w -> pt_wf w (root_ppn pt) -> map_type a = Framed ->
  bt_sorted (data_frames a) -> NoDup vpns ->
  (forall v, v ∈ vpns -> 0 <= v < 2 ^ 27 /\ pte_at (w_mem w) (root_ppn pt) v = 0 /\
     bt_get v (data_frames a) = None) ->
  3 * zlen vpns <= free_count w ->
  exists d' pt' w', map_pages vpns a pt w = Ret (Ok tt, set_data_frames d' a, pt', w') /\
    root_ppn pt' = root_ppn pt /\
    map_pages_post w (root_ppn pt) (map_perm a) vpns (data_frames a) d' w'.
Proof.
  induction vpns as [|v vpns IH]; intros w a pt Hw Hpt Hty Hs Hnd Hin Hc.
  { exists (data_frames a), pt, w. split; [destruct a; done|]. split; [done|].
    constructor; try done; [set_solver..|]. change (zlen []) with 0. lia. }
  apply list.NoDup_cons in Hnd as [Hv Hnd].
  assert (zlen (v :: vpns) = 1 + zlen vpns) as Hz by (unfold zlen; cbn [length]; lia).
  pose proof (zlen_nonneg vpns). rewrite Hz in Hc.
  destruct (Hin v ltac:(set_solver)) as (Hvr & Hv0 & Hvd).
  destruct (map_one_spec w a pt v Hw Hpt Hty Hvr Hv0 Hvd ltac:(lia))
    as (p & pt1 & w1 & E1 & R1 & M1).
  cbn [map_pages]. st_unfold. rewrite E1. set (a1 := set_data_frames _ a).
  destruct (IH w1 a1 pt1) as (d' & pt' & w' & -> & R2 & M2).
  { apply M1. } { rewrite R1. apply M1. } { done. } { by apply insert_sorted. } { done. }
  { intros u Hu. destruct (Hin u ltac:(set_solver)) as (Hur & Hu0 & Hud).
    assert (u <> v) as Hne by (intros ->; done). rewrite R1. split_and!; [lia|lia| |].
    - rewrite (mo_other _ _ _ _ _ _ M1) by done. done.
    - cbn. rewrite get_insert by done. destruct (kcmp u v) eqn:Ek; [|done|done].
      apply kcmp_eq in Ek. done. }
  { pose proof (mo_count _ _ _ _ _ _ M1). lia. }
  exists d', pt', w'. split; [done|]. split; [by rewrite R2|]. rewrite R1 in M2.
  assert (bt_get v d' = Some p) as Hget.
  { rewrite (ms_old _ _ _ _ _ _ _ M2) by done. cbn. rewrite get_insert by done.
    rewrite kcmp_refl. done. }
  destruct (ms_data _ _ _ _ _ _ _ M2 p (mk_is_Some _ _ (mo_live _ _ _ _ _ _ M1))
    (mo_nt _ _ _ _ _ _ M1)) as (Hpl & Hpn & Hpd).
  constructor; try apply M2.
  - intros u [->|Hu]%elem_of_cons.
    + exists p. split_and!; try done.
      * apply (mo_fresh _ _ _ _ _ _ M1).
      * rewrite Hpl. apply (mo_live _ _ _ _ _ _ M1).
      * intros i. rewrite Hpd. apply (mo_zero _ _ _ _ _ _ M1).
      * rewrite (ms_other _ _ _ _ _ _ _ M2) by done. apply (proj1 (mo_entry _ _ _ _ _ _ M1)).
      * rewrite (ms_other _ _ _ _ _ _ _ M2) by done. apply (proj2 (mo_entry _ _ _ _ _ _ M1)).
    + destruct (ms_new _ _ _ _ _ _ _ M2 u Hu) as (q & H1 & H2 & H3 & H4 & H5 & H6 & H7).
      exists q. split_and!; try done.
      destruct (w_refs w !! q) as [n|] eqn:Eq; [|done]. exfalso.
      rewrite (mo_refs _ _ _ _ _ _ M1 q) in H2; [congruence|by eexists].
  - assert (forall u, u ∈ vpns -> bt_get u d' <> Some p) as Hnp.
    { intros u Hu Hg. destruct (ms_new _ _ _ _ _ _ _ M2 u Hu) as (q & H1 & H2 & _).
      assert (q = p) as -> by congruence.
      pose proof (mo_live _ _ _ _ _ _ M1). congruence. }
    intros v1 v2 q [->|H1]%elem_of_cons [->|H2]%elem_of_cons G1 G2; [done| | |].
    + exfalso. apply (Hnp v2); congruence.
    + exfalso. apply (Hnp v1); congruence.
    + by apply (ms_inj _ _ _ _ _ _ _ M2 v1 v2 q).
  - intros u [Hne Hu]%not_elem_of_cons. rewrite (ms_old _ _ _ _ _ _ _ M2) by done.
    cbn. rewrite get_insert by done. destruct (kcmp u v) eqn:Ek; [|done|done].
    apply kcmp_eq in Ek. done.
  - intros u Hur [Hne Hu]%not_elem_of_cons. rewrite (ms_other _ _ _ _ _ _ _ M2) by done.
    by apply (mo_other _ _ _ _ _ _ M1).
  - intros f Hl Hnt. destruct (mo_data _ _ _ _ _ _ M1 f Hl Hnt) as (H1 & H2 & H3).
    destruct (ms_data _ _ _ _ _ _ _ M2 f) as (H4 & H5 & H6); [by rewrite H1|done|].
    split_and!; [congruence|done|]. intros i. rewrite H6. apply H3.
  - intros f Hl. pose proof (mo_refs _ _ _ _ _ _ M1 f Hl) as H1.
    rewrite (ms_refs _ _ _ _ _ _ _ M2 f); [done|by rewrite H1].
  - rewrite (ms_vec _ _ _ _ _ _ _ M2). apply (mo_vec _ _ _ _ _ _ M1).
  - rewrite Hz. pose proof (ms_count _ _ _ _ _ _ _ M2). pose proof (mo_count _ _ _ _ _ _ M1). lia.
Qed.

(** Mapping a framed area none of whose pages is mapped, with three free
    frames per page, never panics and returns [Ok]: afterwards every page of
    the range has its own frame, which no handle referred to before, is
    cleared, is recorded in the area and is what the page table maps the page
    to, with the permissions of the area; all other pages and all other live
    frames are as they were. *)
Theorem area_map_fresh_frames w a pt : world_wf w -> pt_wf w (root_ppn pt) ->
  map_type a = Framed -> data_frames a = [] ->
  0 <= start_vpn a -> end_vpn a <= 2 ^ 27 ->
  (forall v, start_vpn a <= v < end_vpn a -> pte_at (w_mem w) (root_ppn pt) v = 0) ->
  3 * zlen (range_list (vpn_range a)) <= free_count w ->
  exists d' pt' w', area_map a pt w = Ret (Ok tt, set_data_frames d' a, pt', w') /\
    root_ppn pt' = root_ppn pt /\
    map_pages_post w (root_ppn pt) (map_perm a) (range_list (vpn_range a)) [] d' w'.
Proof.
  intros Hw Hpt Hty Hd Hs He H0 Hc. unfold area_map. rewrite <- Hd.
  apply map_pages_spec; try done.
  - rewrite Hd. constructor.
  - apply NoDup_zrange.
  - intros v Hv%elem_of_zrange. fold (start_vpn a) (end_vpn a) in Hv.
    split_and!; [lia|lia|by apply H0|by rewrite Hd].
Qed.

Lemma area_map_fresh_frames_witness :
  exists d' pt' w', area_map (area_of 0x10 0x14) (fst pt70) (snd pt70) =
    Ret (Ok tt, set_data_frames d' (area_of 0x10 0x14), pt', w') /\
    exists ppn, bt_get 0x12 d' = Some ppn /\ la_ppn (pte_at (w_mem w') (root_ppn (fst pt70)) 0x12) = Ret ppn.
Proof.
  destruct pt70_ok as (H1 & H2 & H3 & H4).
  destruct (area_map_fresh_frames (snd pt70) (area_of 0x10 0x14) (fst pt70))
    as (d' & pt' & w' & E & R & M);
    [exact H1|exact H2|reflexivity|reflexivity|cbn; lia|cbn; lia|intros; apply H3
    |rewrite H4; vm_compute; congruence|].
  exists d', pt', w'. split; [exact E|].
  destruct (ms_new _ _ _ _ _ _ _ M 0x12) as (ppn & Hg & _ & _ & _ & _ & Hp & _);
    [apply elem_of_zrange; cbn; lia|].
  exists ppn. split; [exact Hg|exact Hp].
Defined.

(** ** Copy-on-write clones *)

(** Changing a leaf entry in place. *)
Lemma pte_modify_spec w pt vpn f e' : world_wf w -> pt_wf w (root_ppn pt) ->
  0 <= vpn < 2 ^ 27 -> pte_at (w_mem w) (root_ppn pt) vpn <> 0 ->
  f (pte_at (w_mem w) (root_ppn pt) vpn) = Ret e' ->
  exists w', pte_modify pt vpn f w = Ret (tt, w') /\
    map_post w (root_ppn pt) vpn e' w' /\ w_refs w' = w_refs w /\ w_fa w' = w_fa w.
Proof.
  intros Hw Hwf Hv Hne Hf. unfold pte_modify. st_unfold. rewrite (find_pte_eq w) by done.
  unfold pte_at in Hne, Hf.
  destruct (node (w_mem w) (root_ppn pt) (vpath vpn)) as [g|] eqn:Hg; [|done].
  rewrite Hf. eexists. split; [done|]. split; [|done].
  constructor; cbn; try done.
  - by apply set_mem_wf.
  - by apply leaf_write_wf.
  - intros v Hv'. by apply leaf_write_at.
  - intros h Hl Hnt. split.
    + intros p Hp Hn. apply (Hnt p Hp). rewrite <- Hn. symmetry.
      apply node_write_leaf; [done|done|]. intros q Hq Hlq Hnq.
      pose proof (pw_inj w _ Hwf _ _ g Hq (path_ok_vpath vpn) Hnq Hg).
      subst q. cbn in Hlq. lia.
    + intros i. apply read_write_word_ne. left. intros ->.
      by apply (Hnt (vpath vpn) (path_ok_vpath vpn)).
Qed.

Lemma perm_bit perm i : Z.land perm MP_all = perm -> 0 <= i ->
  Z.testbit MP_all i = false -> Z.testbit perm i = false.
Proof. intros H Hi Hb. rewrite <- H, Z.land_spec, Hb. btauto. Qed.

(** [map_given_frames] uses the bits of [MapPermission] as loongarch64
    page-table flags.  A page cloned copy-on-write this way is entered
    without the hardware's valid, present and writable flags and without the
    write-permission backup, whatever the permission of the area is, so that
    undoing the copy-on-write state does not make it writable. *)
Theorem cow_clone_not_present w a pt vpn ppn a' pt' w' : world_wf w ->
  pt_wf w (root_ppn pt) -> 0 <= vpn < 2 ^ 27 ->
  pte_at (w_mem w) (root_ppn pt) vpn = 0 -> 1 < free_count w -> 0 < ppn < 2 ^ 36 ->
  Z.land (map_perm a) MP_all = map_perm a -> bt_get vpn (data_frames a) = None ->
  map_given_frames a pt [(vpn, ppn)] true w = Ret ((a', pt'), w') ->
  exists e, pte_at (w_mem w') (root_ppn pt) vpn = e /\
    la_ppn e = Ret ppn /\ la_is_cow e = Ret true /\
    fl_contains e la_V = false /\ fl_contains e la_P = false /\
    la_writable e = Ret false /\
    exists e', la_un_cow e = Ret e' /\ la_writable e' = Ret false.
Proof.
  intros Hw Hpt Hv H0 Hc Hp Hperm Hd E. unfold map_given_frames in E.
  assert (la_flag_word (map_perm a)) as Hfw.
  { unfold la_flag_word. rewrite <- Hperm, <- Z.land_assoc.
    change (Z.land MP_all (Z.land la_all (not64 la_NX))) with MP_all. done. }
  assert (fl_from_bits la_all (map_perm a) = Some (map_perm a)) as Hfb.
  { unfold fl_from_bits. rewrite <- Hperm, <- Z.land_assoc.
    change (Z.land MP_all (not64 la_all)) with 0. rewrite Z.land_0_r. done. }
  rewrite Hfb in E. cbn [map_given_loop] in E. st_unfold_in E.
  destruct (la_new_roundtrip ppn (map_perm a)) as (e & He & Hppn & Hfl & _); [lia|done|].
  destruct (pt_map_spec w pt vpn ppn (map_perm a) e) as (pt1 & w1 & E1 & R1 & P1 & _);
    [done|done|done|by rewrite H0|lia|done|].
  rewrite E1 in E.
  pose proof (mp_at _ _ _ _ _ P1 vpn Hv) as Hat1. rewrite Z.eqb_refl in Hat1.
  destruct (la_set_cow_eq e _ Hfl) as (e1 & Ec & [Hp1 [f1 Hf1]] & H8 & H49 & H48 & B0 & B7).
  destruct (pte_modify_spec w1 pt1 vpn la_set_cow e1) as (w2 & E2 & P2 & _).
  { apply P1. } { rewrite R1. apply P1. } { done. }
  { rewrite R1, Hat1. intros ->. change (Ret 0 = Ret ppn) in Hppn. injection Hppn as <-. lia. }
  { rewrite R1, Hat1. done. }
  rewrite E2 in E. unfold arc_clone, frames_insert in E. st_unfold_in E. rewrite Hd in E.
  destruct (w_refs w2 !! ppn); [|done]. injection E as _ _ <-. cbn [w_mem set_refs].
  rewrite R1 in P2. exists e1.
  pose proof (mp_at _ _ _ _ _ P2 vpn Hv) as Hat2. rewrite Z.eqb_refl in Hat2.
  assert (forall i, 0 <= i < 64 -> ~ (12 <= i < 48) -> Z.testbit e i = Z.testbit (map_perm a) i) as Hlow.
  { intros i Hi Hni. apply la_flags_Ret in Hfl as [-> _]. rewrite Z.land_spec.
    assert (Z.testbit la_FLAGS i = true) as ->; [|btauto].
    change la_FLAGS with (Z.lor (Z.ones 12) (Z.shiftl (Z.ones 16) 48)). rewrite Z.lor_spec.
    autorewrite with zbits. destruct (Z.lt_ge_cases i 12).
    - zcases; done || lia.
    - rewrite (testbit_ones_nonneg 16) by lia. zcases; done || lia. }
  destruct (la_un_cow_eq e1 f1 Hf1) as (e2 & Eu & [_ [f2 Hf2]] & U8 & _).
  split_and!.
  - exact Hat2.
  - congruence.
  - by rewrite (la_is_cow_eq e1 f1 Hf1), H49.
  - unfold la_V. rewrite fl_contains_bit, B0, Hlow by lia. by apply perm_bit.
  - unfold la_P. rewrite fl_contains_bit, B7, Hlow by lia. by apply perm_bit.
  - by rewrite (la_writable_eq e1 f1 Hf1), H8.
  - exists e2. split; [done|]. rewrite (la_writable_eq e2 f2 Hf2), U8, H8, H48, !Hlow by lia.
    rewrite !(perm_bit (map_perm a)) by (done || lia). done.
Qed.

Lemma cow_clone_not_present_witness :
  exists a' pt' w', map_given_frames (mkArea (mkRange 5 6) [] Framed 0x1e AT_Mmap None 0)
      (fst pt70) [(5, root_ppn (fst pt70))] true (snd pt70) = Ret ((a', pt'), w') /\
    fl_contains (pte_at (w_mem w') (root_ppn (fst pt70)) 5) la_V = false.
Proof.
  destruct pt70_ok as (H1 & H2 & H3 & H4).
  destruct (map_given_frames (mkArea (mkRange 5 6) [] Framed 0x1e AT_Mmap None 0)
      (fst pt70) [(5, root_ppn (fst pt70))] true (snd pt70)) as [[[a' pt'] w']|] eqn:E.
  - exists a', pt', w'. split; [reflexivity|].
    destruct (cow_clone_not_present (snd pt70) (mkArea (mkRange 5 6) [] Framed 0x1e AT_Mmap None 0)
      (fst pt70) 5 (root_ppn (fst pt70)) a' pt' w') as (e & <- & _ & _ & HV & _);
      [exact H1|exact H2|lia|apply H3|rewrite H4; lia|vm_compute; split; congruence
      |reflexivity|reflexivity|exact E|].
    exact HV.
  - exfalso. apply (f_equal (fun o => match o with Ret _ => true | Panic => false end)) in E.
    vm_compute in E. discriminate E.
Defined.
