(* ===== verification/UserMem.v ===== *)
(** * User memory (os/src/mm/page_table.rs)

    Access to the memory of a process from the kernel: [UserBuffer], a list of
    slices of physical memory with its copying methods, and the functions that
    translate user addresses page by page ([copy_from_user_bytes],
    [copy_to_user_bytes], [put_data], [get_data], [translated_byte_buffer],
    ...).  A slice is a physical address and a length, so that two slices can
    alias.  A value of a Rust type [T] is the list of its bytes. *)

From S2P Require Import Prelude Config Address BitField Memory FrameAlloc.
From S2P Require Import FrameSpec Pte PageTable Errno.

(** ** Physical bytes *)

Definition pa_read (m : pmem) (pa : Z) : Z := read_byte m (pa / PAGE_SIZE) (pa mod PAGE_SIZE).

Definition pa_write (m : pmem) (pa b : Z) : pmem :=
  write_byte m (pa / PAGE_SIZE) (pa mod PAGE_SIZE) b.

Definition pa_read_bytes (m : pmem) (pa n : Z) : list Z :=
  pa_read m <$> zrange pa (pa + n).

Fixpoint pa_write_bytes (m : pmem) (pa : Z) (bs : list Z) : pmem :=
  match bs with
  | [] => m
  | b :: bs' => pa_write_bytes (pa_write m pa b) (pa + 1) bs'
  end.

(** [PhysAddr::get_ptr], [get_mut], [get_ref]: the address must not be 0. *)
Definition pa_deref (pa : Z) : outcome Z :=
  _ ← KernelAddr_of_PhysAddr pa; Ret pa.

(** [&l[a..b]] *)
Definition slice {A} (l : list A) (a b : Z) : outcome (list A) :=
  if (0 <=? a) && (a <=? b) && (b <=? zlen l)
  then Ret (take (Z.to_nat (b - a)) (drop (Z.to_nat a) l)) else Panic.

(** ** UserBuffer *)

Record uslice : Type := mkSlice { us_pa : Z; us_len : Z }.

Notation UserBuffer := (list uslice).

(** [buffers.iter().map(|b| b.len()).sum()] *)
Definition ub_len (b : UserBuffer) : outcome Z :=
  fold_left (fun s x => n ← s; uadd n (us_len x)) b (Ret 0).

(** [sub_buff[..n].copy_from_slice(bytes)] *)
Definition us_store (s : uslice) (bytes : list Z) : ST pmem unit :=
  _ ← st_lift (rassert (zlen bytes <=? us_len s));
  st_modify (fun m => pa_write_bytes m (us_pa s) bytes).

(** [sub_buff[j] = b] *)
Definition us_set (s : uslice) (j b : Z) : ST pmem unit :=
  _ ← st_lift (rassert ((0 <=? j) && (j <? us_len s)));
  st_modify (fun m => pa_write m (us_pa s + j) b).

Fixpoint write_all_loop (b : UserBuffer) (buff : list Z) (bytes_written : Z) : ST pmem unit :=
  match b with
  | [] => mret tt
  | sub :: b' =>
      remaining ← st_lift (usub (zlen buff) bytes_written);
      let copy_len := Z.min (us_len sub) remaining in
      if copy_len =? 0 then write_all_loop b' buff bytes_written
      else
        e ← st_lift (uadd bytes_written copy_len);
        src ← st_lift (slice buff bytes_written e);
        _ ← us_store sub src;
        bytes_written' ← st_lift (uadd bytes_written copy_len);
        write_all_loop b' buff bytes_written'
  end.

Definition ub_write_all (b : UserBuffer) (buff : list Z) : ST pmem (result unit SysErrNo) :=
  n ← st_lift (ub_len b);
  if n <? zlen buff then mret (Err EINVAL)
  else _ ← write_all_loop b buff 0; mret (Ok tt).

Fixpoint read_from_loop (m : pmem) (b : UserBuffer) (skip to_read : Z) (acc : list Z)
    : outcome (list Z) :=
  match b with
  | [] => Ret acc
  | sub :: b' =>
      if to_read =? 0 then Ret acc
      else if us_len sub <=? skip then
        skip' ← usub skip (us_len sub);
        read_from_loop m b' skip' to_read acc
      else
        rest ← usub (us_len sub) skip;
        let can_read := Z.min rest to_read in
        let bytes := pa_read_bytes m (us_pa sub + skip) can_read in
        to_read' ← usub to_read can_read;
        read_from_loop m b' 0 to_read' (acc ++ bytes)
  end.

Definition ub_read_from (m : pmem) (b : UserBuffer) (offset len : Z) : outcome (list Z) :=
  total ← ub_len b;
  if total <=? offset then Ret []
  else
    rest ← usub total offset;
    read_from_loop m b offset (Z.min len rest) [].

Definition ub_read (m : pmem) (b : UserBuffer) (len : Z) : outcome (list Z) :=
  ub_read_from m b 0 len.

Definition ub_fill0 (b : UserBuffer) : ST pmem Z :=
  _ ← st_iter (fun sub => st_iter (fun j => us_set sub j 0) (zrange 0 (us_len sub))) b;
  st_lift (ub_len b).

(** Byte by byte into one slice, from index [j] on; [inr] when the whole
    buffer has been written (the early return). *)
Fixpoint store_bytes (s : uslice) (js : list Z) (buff : list Z) (current len : Z)
    : ST pmem (Z + unit) :=
  match js with
  | [] => mret (inl current)
  | j :: js' =>
      b ← st_lift (index buff current);
      _ ← us_set s j b;
      current' ← st_lift (uadd current 1);
      if current' =? len then mret (inr tt)
      else store_bytes s js' buff current' len
  end.

Fixpoint write_loop (b : UserBuffer) (buff : list Z) (current len : Z) : ST pmem Z :=
  match b with
  | [] => mret len
  | sub :: b' =>
      if 10 <? zlen buff then
        x ← st_lift (uadd current (us_len sub));
        sblen ← (if len <? x then st_lift (usub len current) else mret (us_len sub));
        e ← st_lift (uadd current sblen);
        src ← st_lift (slice buff current e);
        _ ← us_store sub src;
        current' ← st_lift (uadd current sblen);
        if current' =? len then mret len
        else write_loop b' buff current' len
      else
        r ← store_bytes sub (zrange 0 (us_len sub)) buff current len;
        match r with
        | inl current' => write_loop b' buff current' len
        | inr _ => mret len
        end
  end.

Definition ub_write (b : UserBuffer) (buff : list Z) : ST pmem Z :=
  n ← st_lift (ub_len b);
  let len := Z.min n (zlen buff) in
  if len =? 0 then mret len else write_loop b buff 0 len.

Fixpoint write_at_loop (b : UserBuffer) (buff : list Z) (offset head current : Z)
    : ST pmem Z :=
  match b with
  | [] => mret 0
  | sub :: b' =>
      let sblen := us_len sub in
      let len := zlen buff in
      x ← st_lift (uadd head sblen);
      if x <? offset then write_at_loop b' buff offset head current
      else
        from ← (if head <? offset then st_lift (usub offset head) else mret 0);
        r ← store_bytes sub (zrange from sblen) buff current len;
        match r with
        | inr _ => mret (wrap_isize len)
        | inl current' =>
            head' ← st_lift (uadd head sblen);
            write_at_loop b' buff offset head' current'
        end
  end.

Definition ub_write_at (b : UserBuffer) (offset : Z) (buff : list Z) : ST pmem Z :=
  x ← st_lift (uadd offset (zlen buff));
  n ← st_lift (ub_len b);
  if n <? x then mret (-1) else write_at_loop b buff offset 0 0.

(** [UserBufferIterator]: buffer and index of the next byte; the item is the
    physical address of the byte. *)
Record UserBufferIterator : Type := mkUBI { ubi_buffer : Z; ubi_idx : Z }.

Definition ubi_next (b : UserBuffer) (it : UserBufferIterator)
    : outcome (option Z * UserBufferIterator) :=
  if zlen b <=? ubi_buffer it then Ret (None, it)
  else
    s ← index b (ubi_buffer it);
    _ ← rassert (ubi_idx it <? us_len s);
    if ubi_idx it + 1 =? us_len s
    then Ret (Some (us_pa s + ubi_idx it), mkUBI (ubi_buffer it + 1) 0)
    else Ret (Some (us_pa s + ubi_idx it), mkUBI (ubi_buffer it) (ubi_idx it + 1)).

(** ** Copies between the kernel and a process *)

Inductive PutDataError : Type :=
| PD_TranslationFailed (va : Z)
| PD_UnalignedAccess
| PD_NonContiguousPhysicalMemory
| PD_PermissionDenied
| PD_Other.

Definition errno_of_PutDataError (e : PutDataError) : SysErrNo :=
  match e with
  | PD_TranslationFailed _ => EFAULT
  | PD_UnalignedAccess => EFAULT
  | PD_NonContiguousPhysicalMemory => EFAULT
  | PD_PermissionDenied => EACCES
  | PD_Other => EADV
  end.

Definition errno_of_TranslateError (e : TranslateError) : SysErrNo :=
  match e with
  | TranslationFailed _ => ENOMEM
  | DataCrossesPageBoundary => EFAULT
  | UnexpectedEofOrFault => EFAULT
  | InternalBufferOverflow => EFAULT
  | LengthOverflow => EFAULT
  | PermissionDenied _ => EACCES
  | PartialCopy => EFAULT
  end.

(** The byte-by-byte branch of [put_data]. *)
Fixpoint put_bytes (root : Z) (va : Z) (data : list Z) : ST pmem (result unit PutDataError) :=
  match data with
  | [] => mret (Ok tt)
  | b :: data' =>
      m ← st_get;
      o ← st_lift (translate_va root m va);
      match o with
      | None => mret (Err (PD_TranslationFailed va))
      | Some pa =>
          pa ← st_lift (pa_deref pa);
          _ ← st_modify (fun m => pa_write m pa b);
          va' ← st_lift (uadd va 1);
          put_bytes root va' data'
      end
  end.

(** What [put_data] and [safe_put_data] do with a page table. *)
Definition put_data_at (root ptr : Z) (data : list Z) : ST pmem (result unit PutDataError) :=
  m ← st_get;
  o ← st_lift (translate_va root m ptr);
  match o with
  | None => mret (Err (PD_TranslationFailed ptr))
  | Some start_pa =>
      last ← st_lift (uadd start_pa (zlen data - 1));
      if PhysAddr_floor start_pa =? PhysAddr_floor last then
        pa ← st_lift (pa_deref start_pa);
        _ ← st_modify (fun m => pa_write_bytes m pa data);
        mret (Ok tt)
      else put_bytes root ptr data
  end.

Definition put_data (token ptr : Z) (data : list Z) : ST pmem (result unit PutDataError) :=
  if zlen data =? 0 then mret (Ok tt)
  else put_data_at (root_ppn (pt_from_token token)) ptr data.

(** [translated_str]: the bytes up to the first 0, as characters.  The loop
    ends at the latest where translation fails; [n] bounds its iterations. *)
Fixpoint translated_str (n : nat) (token : Z) (m : pmem) (va : Z) : outcome (list Z) :=
  match n with
  | O => Panic
  | S n' =>
      o ← translate_va (root_ppn (pt_from_token token)) m va;
      pa ← unwrap o;
      pa ← pa_deref pa;
      let ch := pa_read m pa in
      if ch =? 0 then Ret []
      else
        va' ← uadd va 1;
        rest ← translated_str n' token m va';
        Ret (ch :: rest)
  end.

(** The reference is the physical address it points to. *)
Definition translated_refmut (token : Z) (m : pmem) (ptr : Z) : outcome (result Z SysErrNo) :=
  o ← translate_va (root_ppn (pt_from_token token)) m ptr;
  match o with
  | Some pa => pa ← pa_deref pa; Ret (Ok pa)
  | None => Ret (Err ENOMEM)
  end.

Fixpoint fill_bytes (token ptr : Z) (bytes : list Z) : ST pmem (result unit PutDataError) :=
  match bytes with
  | [] => mret (Ok tt)
  | b :: bytes' =>
      _ <-? put_data token ptr [b];
      fill_bytes token (wrap64 (ptr + 1)) bytes'
  end.

Definition fill_str (token remote_buf : Z) (bytes : list Z) (max_len : Z)
    : ST pmem (result unit PutDataError) :=
  lim ← st_lift (usub max_len 1);
  let write_len := Z.min (zlen bytes) lim in
  _ <-? fill_bytes token remote_buf (take (Z.to_nat write_len) bytes);
  put_data token (wrap64 (remote_buf + write_len)) [0].

(** [get_target_ref]: [None] is the dangling reference to a zero-sized type. *)
Definition get_target_ref (token : Z) (m : pmem) (ptr size : Z)
    : outcome (result (option Z) TranslateError) :=
  o ← translate_va (root_ppn (pt_from_token token)) m ptr;
  match o with
  | None => Ret (Err (TranslationFailed ptr))
  | Some start_pa =>
      if size =? 0 then Ret (Ok None)
      else pa ← pa_deref start_pa; Ret (Ok (Some pa))
  end.

Definition get_target_continuous_bytes_in_page (token : Z) (m : pmem) (va_start max_len : Z)
    : outcome (result (uslice * Z) TranslateError) :=
  if max_len =? 0 then Ret (Ok (mkSlice 0 0, 0))
  else
    o ← translate_va (root_ppn (pt_from_token token)) m va_start;
    match o with
    | None => Ret (Err (TranslationFailed va_start))
    | Some pa_start =>
        rest ← usub PAGE_SIZE (VirtAddr_page_offset va_start);
        let len_to_get := Z.min max_len rest in
        if len_to_get =? 0 then Ret (Ok (mkSlice 0 0, 0))
        else
          pa ← pa_deref pa_start;
          Ret (Ok (mkSlice pa len_to_get, len_to_get))
    end.

Definition get_target_continuous_writable_bytes_in_page (token : Z) (m : pmem)
    (va_start max_len : Z) : outcome (result (uslice * Z) TranslateError) :=
  if max_len =? 0 then Ret (Ok (mkSlice 0 0, 0))
  else
    r ← translate_va_with_perm (root_ppn (pt_from_token token)) m va_start true;
    match r with
    | Err e => Ret (Err e)
    | Ok pa_start =>
        rest ← usub PAGE_SIZE (VirtAddr_page_offset va_start);
        let len_to_get := Z.min max_len rest in
        if len_to_get =? 0 then Ret (Ok (mkSlice 0 0, 0))
        else
          pa ← pa_deref pa_start;
          Ret (Ok (mkSlice pa len_to_get, len_to_get))
    end.

(** [dst[a..a+n].copy_from_slice(bytes)] on a kernel buffer. *)
Definition splice (dst : list Z) (a : Z) (bytes : list Z) : outcome (list Z) :=
  if (0 <=? a) && (a + zlen bytes <=? zlen dst)
  then Ret (take (Z.to_nat a) dst ++ bytes ++ drop (Z.to_nat (a + zlen bytes)) dst)
  else Panic.

(** The loop of [copy_from_user_bytes].  Each iteration copies at least one
    byte, so that one more iteration than bytes to copy is enough. *)
Fixpoint copy_from_loop (n : nat) (token : Z) (m : pmem) (dst : list Z) (va : Z)
    (len_to_copy bytes_copied dest_off : Z) : outcome (result unit TranslateError * list Z) :=
  match n with
  | O => Panic
  | S n' =>
      if bytes_copied <? len_to_copy then
        remaining ← usub len_to_copy bytes_copied;
        r ← get_target_continuous_bytes_in_page token m va remaining;
        match r with
        | Err e => Ret (Err e, dst)
        | Ok (s, len_in_page) =>
            if len_in_page =? 0 then Ret (Err UnexpectedEofOrFault, dst)
            else
              room ← usub (zlen dst) dest_off;
              let copy_now_len := Z.min len_in_page room in
              if (copy_now_len =? 0) && (0 <? remaining) then Panic
              else
                dst' ← splice dst dest_off (pa_read_bytes m (us_pa s) copy_now_len);
                bytes_copied' ← uadd bytes_copied copy_now_len;
                va' ← uadd va copy_now_len;
                dest_off' ← uadd dest_off copy_now_len;
                copy_from_loop n' token m dst' va' len_to_copy bytes_copied' dest_off'
        end
      else Ret (Ok tt, dst)
  end.

Definition copy_from_user_bytes (token : Z) (m : pmem) (dst : list Z) (va len_to_copy : Z)
    : outcome (result unit TranslateError * list Z) :=
  if zlen dst <? len_to_copy then Panic
  else copy_from_loop (S (Z.to_nat len_to_copy)) token m dst va len_to_copy 0 0.

(** [checked_mul] *)
Definition checked_mul (a b : Z) : option Z :=
  if a * b <? u64_bound then Some (a * b) else None.

(** [copy_from_user_array] for elements of [type_size] bytes: the bytes of the
    resulting vector ([init] is the uninitialised buffer). *)
Definition copy_from_user_array (token : Z) (m : pmem) (init : Z -> list Z)
    (user_src_ptr count type_size : Z) : outcome (result (list Z) TranslateError) :=
  if count =? 0 then Ret (Ok [])
  else if type_size =? 0 then Ret (Ok [])
  else
    match checked_mul count type_size with
    | None => Ret (Err LengthOverflow)
    | Some total =>
        '(r, bytes) ← copy_from_user_bytes token m (init total) user_src_ptr total;
        match r with
        | Err e => Ret (Err e)
        | Ok _ => Ret (Ok bytes)
        end
    end.

(** The loop of [copy_to_user_bytes], which copies at least one byte in each
    iteration. *)
Fixpoint copy_to_loop (n : nat) (token va : Z) (src : list Z)
    (bytes_copied src_off : Z) : ST pmem (result Z TranslateError) :=
  match n with
  | O => st_panic
  | S n' =>
      let len_to_copy := zlen src in
      if bytes_copied <? len_to_copy then
        remaining ← st_lift (usub len_to_copy bytes_copied);
        m ← st_get;
        r ← st_lift (get_target_continuous_writable_bytes_in_page token m va remaining);
        match r with
        | Err e => mret (Err e)
        | Ok (s, len_writable) =>
            if len_writable =? 0 then
              (if 0 <? remaining then mret (Err UnexpectedEofOrFault) else mret (Ok bytes_copied))
            else
              stop ← st_lift (uadd src_off len_writable);
              bytes ← st_lift (slice src src_off stop);
              _ ← us_store s bytes;
              bytes_copied' ← st_lift (uadd bytes_copied len_writable);
              va' ← st_lift (uadd va len_writable);
              src_off' ← st_lift (uadd src_off len_writable);
              copy_to_loop n' token va' src bytes_copied' src_off'
        end
      else mret (Ok bytes_copied)
  end.

Definition copy_to_user_bytes (token va : Z) (src : list Z) : ST pmem (result Z TranslateError) :=
  if zlen src =? 0 then mret (Ok 0)
  else copy_to_loop (S (length src)) token va src 0 0.

Definition copy_to_user_bytes_exact (token va : Z) (src : list Z)
    : ST pmem (result unit TranslateError) :=
  if zlen src =? 0 then mret (Ok tt)
  else
    r ← copy_to_user_bytes token va src;
    match r with
    | Ok bytes_copied =>
        if bytes_copied =? zlen src then mret (Ok tt) else mret (Err PartialCopy)
    | Err e => mret (Err e)
    end.

(** [copy_from_user_exact] into an uninitialised value [init]. *)
Definition copy_from_user_exact (token : Z) (m : pmem) (init : list Z) (user_src : Z)
    : outcome (result (list Z) TranslateError) :=
  '(r, bytes) ← copy_from_user_bytes token m init user_src (zlen init);
  match r with
  | Err e => Ret (Err e)
  | Ok _ => Ret (Ok bytes)
  end.

(** The loop of [translated_byte_buffer]: one slice per page. *)
Fixpoint byte_buffer_loop (n : nat) (root : Z) (m : pmem) (start end_ : Z)
    : outcome UserBuffer :=
  match n with
  | O => Panic
  | S n' =>
      if start <? end_ then
        let vpn := VirtAddr_floor start in
        o ← pt_translate root m vpn;
        pte ← unwrap o;
        ppn ← pte_ppn pte;
        vpn' ← step vpn;
        let end_va := Z.min (VirtAddr_of_VirtPageNum vpn') end_ in
        f ← frame_base ppn;
        let lo := VirtAddr_page_offset start in
        let hi := if VirtAddr_page_offset end_va =? 0 then PAGE_SIZE
                  else VirtAddr_page_offset end_va in
        _ ← rassert (lo <=? hi);
        rest ← byte_buffer_loop n' root m (usize_of_VirtAddr end_va) end_;
        Ret (mkSlice (f * PAGE_SIZE + lo) (hi - lo) :: rest)
      else Ret []
  end.

Definition translated_byte_buffer (token : Z) (m : pmem) (ptr len : Z) : outcome UserBuffer :=
  end_ ← uadd ptr len;
  byte_buffer_loop (Z.to_nat (len / PAGE_SIZE + 3)) (root_ppn (pt_from_token token)) m ptr end_.

Definition translated_ref (token : Z) (m : pmem) (ptr : Z) : outcome Z :=
  o ← translate_va (root_ppn (pt_from_token token)) m ptr;
  pa ← unwrap o;
  pa_deref pa.

Fixpoint get_bytes (root : Z) (m : pmem) (va : Z) (n : nat) : outcome (list Z) :=
  match n with
  | O => Ret []
  | S n' =>
      o ← translate_va root m va;
      pa ← unwrap o;
      pa ← pa_deref pa;
      va' ← uadd va 1;
      rest ← get_bytes root m va' n';
      Ret (pa_read m pa :: rest)
  end.

(** [get_data] of a value of [size] bytes. *)
Definition get_data (token : Z) (m : pmem) (ptr size : Z) : outcome (list Z) :=
  let root := root_ppn (pt_from_token token) in
  o ← translate_va root m ptr;
  pa ← unwrap o;
  x ← uadd pa size;
  last ← usub x 1;
  if PhysAddr_floor last =? PhysAddr_floor pa then
    pa' ← translated_ref token m ptr;
    Ret (pa_read_bytes m pa' size)
  else get_bytes root m ptr (Z.to_nat size).
