(* ===== verification/UserCopy.v ===== *)
(** * Copying to and from user memory

    Correctness of [copy_to_user_bytes] and [copy_from_user_bytes]
    (os/src/mm/page_table.rs): over pages that are mapped writable to
    different data frames, the copies move exactly the bytes of the range,
    across page boundaries, and leave the page table and all other memory
    alone. *)

From S2P Require Import Prelude Config Address BitField Memory FrameAlloc.
From S2P Require Import FrameSpec Pte PageTable BTree Errno Area.
From S2P Require Import AreaMap UserMem.

(** ** Writes to data frames leave the tables alone *)

Lemma tables_same m m' root f : not_table m root f ->
  (forall g i, g <> f -> read_word m' g i = read_word m g i) ->
  (forall p, path_ok p -> node m' root p = node m root p) /\
  (forall v, pte_at m' root v = pte_at m root v).
Proof.
  intros Hf Hm.
  assert (forall p, path_ok p -> node m' root p = node m root p) as Hn.
  { intros p [Hl Hok]. apply node_frame. intros q i r g -> Hg. apply Hm. intros ->.
    apply (Hf q); [|done]. split; [rewrite length_app in Hl; lia|].
    by apply Forall_app in Hok as [? _]. }
  split; [done|]. intros v. unfold pte_at. rewrite Hn by apply path_ok_vpath.
  destruct (node m root (vpath v)) as [g|] eqn:E; [|done]. apply Hm. intros ->.
  by apply (Hf (vpath v)); [apply path_ok_vpath|].
Qed.

Lemma read_write_bytes_words m f off bs g i : g <> f ->
  read_word (write_bytes m f off bs) g i = read_word m g i.
Proof.
  intros Hne. revert m off. induction bs as [|b bs IH]; intros m off; [done|].
  cbn [write_bytes]. rewrite IH. unfold write_byte. apply read_write_word_ne. by left.
Qed.

Lemma pa_write_bytes_page m p off bs : 0 <= off -> off + zlen bs <= PAGE_SIZE ->
  pa_write_bytes m (p * PAGE_SIZE + off) bs = write_bytes m p off bs.
Proof.
  revert m off. induction bs as [|b bs IH]; intros m off Ho Hl; [done|].
  unfold zlen in Hl. cbn [length] in Hl. cbn [pa_write_bytes write_bytes].
  unfold pa_write, PAGE_SIZE in *.
  replace ((p * 4096 + off) / 4096) with p by lia.
  replace ((p * 4096 + off) mod 4096) with off by lia.
  rewrite <- IH by (unfold zlen; lia). f_equal. lia.
Qed.

(** The byte written at an offset. *)
Lemma read_write_bytes_at m f off bs f' o : 0 <= off -> 0 <= o ->
  Forall (fun b => 0 <= b < 256) bs ->
  read_byte (write_bytes m f off bs) f' o =
  if decide (f = f' /\ off <= o < off + zlen bs)
  then nth (Z.to_nat (o - off)) bs 0 else read_byte m f' o.
Proof.
  intros Hoff Ho Hbs. destruct (decide _) as [[<- Hr]|Hn].
  - pose proof (read_write_bytes m f off bs Hoff Hbs) as E. unfold read_bytes in E.
    apply (f_equal (fun l => nth (Z.to_nat (o - off)) l 0)) in E.
    unfold zlen in Hr. rewrite <- E. symmetry.
    rewrite (nth_lookup_Some _ _ _ (read_byte (write_bytes m f off bs) f o)); [done|].
    rewrite list_lookup_fmap, lookup_seq_lt by lia. cbn. do 2 f_equal. lia.
  - apply read_write_bytes_out; [done|done|done|].
    destruct (decide (f = f')); [subst; right; lia|by left].
Qed.

Section user_range.
(** A user range [lo, hi) of addresses whose pages are mapped writable; [fr]
    gives the frame of a page. *)
Variables (w : world) (root lo hi : Z) (fr : Z -> Z).

Definition in_range (v : Z) : Prop := lo / PAGE_SIZE <= v <= (hi - 1) / PAGE_SIZE.

Record user_range : Prop := {
  ur_bounds : 0 <= lo /\ hi <= 2 ^ 39;
  ur_entry : forall v, in_range v ->
    la_ppn (pte_at (w_mem w) root v) = Ret (fr v) /\
    la_writable (pte_at (w_mem w) root v) = Ret true;
  ur_frame : forall v, in_range v ->
    0 < fr v < 2 ^ 36 /\ not_table (w_mem w) root (fr v);
  ur_inj : forall v1 v2, in_range v1 -> in_range v2 -> fr v1 = fr v2 -> v1 = v2
}.

(** The byte of the process at address [x]. *)
Definition ubyte (m : pmem) (x : Z) : Z := read_byte m (fr (x / PAGE_SIZE)) (x mod PAGE_SIZE).

(** The effect of writing [bs] at [a]: exactly those bytes of the range
    change, other frames and the tables do not. *)
Record wrote (m : pmem) (a : Z) (bs : list Z) (m' : pmem) : Prop := {
  wr_bytes : forall x, in_range (x / PAGE_SIZE) ->
    ubyte m' x = if decide (a <= x < a + zlen bs) then nth (Z.to_nat (x - a)) bs 0 else ubyte m x;
  wr_frames : forall g i, (forall v, in_range v -> g <> fr v) -> read_word m' g i = read_word m g i;
  wr_nodes : forall p, path_ok p -> node m' root p = node m root p;
  wr_ptes : forall v, pte_at m' root v = pte_at m root v
}.

(** Memory whose tables are those of [w]. *)
Definition same_tables (m : pmem) : Prop :=
  (forall p, path_ok p -> node m root p = node (w_mem w) root p) /\
  (forall v, pte_at m root v = pte_at (w_mem w) root v).

Hypothesis Hpt : pt_wf w root.
Hypothesis Hur : user_range.

Lemma range_page x : lo <= x < hi -> in_range (x / PAGE_SIZE).
Proof. intros. unfold in_range, PAGE_SIZE. lia. Qed.

Lemma find_pte_same m v : same_tables m -> in_range v ->
  exists f, find_pte root m v = Ret (Some (f, ix 0 v)) /\ read_word m f (ix 0 v) = pte_at (w_mem w) root v.
Proof.
  intros [Hn Hp] Hv. assert (pt_wf (set_mem m w) root) as Hpt'.
  { constructor; cbn.
    - intros p1 p2 f H1 H2. rewrite !Hn by done. by apply (pw_inj w root Hpt).
    - intros p f H. rewrite Hn by done. by apply (pw_live w root Hpt). }
  pose proof (find_pte_eq _ root v Hpt') as E.
  change (w_mem (set_mem m w)) with m in E. rewrite E.
  destruct (ur_entry Hur v Hv) as [_ Hw]. rewrite <- Hp in Hw. rewrite <- Hp. unfold pte_at in *.
  destruct (node m root (vpath v)) as [f|]; [by exists f|].
  assert (la_writable 0 = Ret false) as H0 by reflexivity. congruence.
Qed.

Lemma translate_range m x : same_tables m -> lo <= x < hi ->
  let pa := fr (x / PAGE_SIZE) * PAGE_SIZE + x mod PAGE_SIZE in
  translate_va root m x = Ret (Some pa) /\
  translate_va_with_perm root m x true = Ret (Ok pa) /\ pa_deref pa = Ret pa.
Proof.
  intros Hs Hx. pose proof (range_page x Hx) as Hv.
  destruct (ur_bounds Hur) as [Hlo Hhi].
  destruct (find_pte_same m _ Hs Hv) as (f & E & Er).
  destruct (ur_entry Hur _ Hv) as [Hp Hw]. destruct (ur_frame Hur _ Hv) as [Hf _].
  unfold translate_va, translate_va_with_perm, VirtAddr_floor. rewrite E.
  destruct (Z.leb_spec KERNEL_DIRECT_OFFSET x); [unfold KERNEL_DIRECT_OFFSET in *; lia|].
  cbn [mbind outcome_bind]. rewrite Er. change pte_ppn with la_ppn.
  change pte_writable with la_writable. rewrite Hp, Hw. cbn [mbind outcome_bind negb].
  rewrite PhysAddr_of_PhysPageNum_eq by lia. rewrite page_offset_mod.
  set (q := fr (x / PAGE_SIZE)) in *.
  rewrite uadd_Ret by (unfold u64_bound, PAGE_SIZE; lia). cbn [mbind outcome_bind].
  split_and!; [done..|]. unfold pa_deref, KernelAddr_of_PhysAddr.
  destruct (Z.eqb_spec (q * PAGE_SIZE + x mod PAGE_SIZE) 0); [unfold PAGE_SIZE in *; lia|].
  cbn [negb rassert mbind outcome_bind].
  rewrite uadd_Ret by (unfold u64_bound, KERNEL_DIRECT_OFFSET, PAGE_SIZE; lia). done.
Qed.

(** Writing inside one page. *)
Lemma wrote_page m x bs : same_tables m -> lo <= x < hi ->
  x mod PAGE_SIZE + zlen bs <= PAGE_SIZE -> Forall (fun b => 0 <= b < 256) bs ->
  wrote m x bs (pa_write_bytes m (fr (x / PAGE_SIZE) * PAGE_SIZE + x mod PAGE_SIZE) bs).
Proof.
  intros [Hn Hp] Hx Hl Hbs. pose proof (range_page x Hx) as Hv.
  destruct (ur_frame Hur _ Hv) as [Hf Hnt].
  assert (0 <= x mod PAGE_SIZE) as Ho by (unfold PAGE_SIZE; lia).
  rewrite pa_write_bytes_page by done.
  assert (not_table m root (fr (x / PAGE_SIZE))) as Hnt'.
  { intros p Hpo. rewrite Hn by done. by apply Hnt. }
  destruct (tables_same m (write_bytes m (fr (x / PAGE_SIZE)) (x mod PAGE_SIZE) bs) root _ Hnt')
    as [Hnode Hpte].
  { intros g i Hne. by apply read_write_bytes_words. }
  constructor; [|intros g i Hg; apply read_write_bytes_words; by apply Hg|done|done].
  intros y Hy. unfold ubyte. rewrite read_write_bytes_at by (done || (unfold PAGE_SIZE; lia)).
  assert (fr (x / PAGE_SIZE) = fr (y / PAGE_SIZE) <-> x / PAGE_SIZE = y / PAGE_SIZE) as Hfr.
  { split; [by apply (ur_inj Hur)|by intros ->]. }
  destruct (decide (x <= y < x + zlen bs)).
  - rewrite decide_True.
    + f_equal. unfold PAGE_SIZE in *. lia.
    + rewrite Hfr. unfold PAGE_SIZE in *. lia.
  - rewrite decide_False; [done|]. rewrite Hfr. unfold PAGE_SIZE in *. lia.
Qed.

Lemma wrote_trans m m1 m2 a bs1 bs2 : wrote m a bs1 m1 -> wrote m1 (a + zlen bs1) bs2 m2 ->
  wrote m a (bs1 ++ bs2) m2.
Proof.
  intros W1 W2. constructor.
  - intros x Hx. rewrite (wr_bytes _ _ _ _ W2 x Hx), (wr_bytes _ _ _ _ W1 x Hx), zlen_app.
    pose proof (zlen_nonneg bs1). pose proof (zlen_nonneg bs2). unfold zlen in *.
    repeat destruct (decide _); try lia; [|].
    + rewrite app_nth2 by lia. f_equal. lia.
    + rewrite app_nth1 by lia. done.
  - intros g i Hg. rewrite (wr_frames _ _ _ _ W2), (wr_frames _ _ _ _ W1) by done. done.
  - intros p Hp. rewrite (wr_nodes _ _ _ _ W2), (wr_nodes _ _ _ _ W1) by done. done.
  - intros v. rewrite (wr_ptes _ _ _ _ W2), (wr_ptes _ _ _ _ W1). done.
Qed.

Lemma wrote_tables m a bs m' : same_tables m -> wrote m a bs m' -> same_tables m'.
Proof.
  intros [Hn Hp] W. split.
  - intros p H. rewrite (wr_nodes _ _ _ _ W) by done. by apply Hn.
  - intros v. rewrite (wr_ptes _ _ _ _ W). apply Hp.
Qed.

Lemma wrote_nil m a : wrote m a [] m.
Proof.
  constructor; try done. intros x _. rewrite decide_False; [done|]. unfold zlen. cbn. lia.
Qed.

Lemma token_root : root_ppn (pt_from_token root) = root.
Proof.
  destruct (pw_live w root Hpt [] root path_ok_nil eq_refl) as [_ Hr].
  unfold pt_from_token. cbn [root_ppn]. change (Z.shiftl 1 36 - 1) with (Z.ones 36).
  rewrite land_ones_mod by lia. apply Z.mod_small. lia.
Qed.

(** ** The loops *)

Lemma slice_Ret {A} (l : list A) a b : 0 <= a <= b -> b <= zlen l ->
  slice l a b = Ret (take (Z.to_nat (b - a)) (drop (Z.to_nat a) l)).
Proof. intros. unfold slice. zcases; try lia. done. Qed.

Lemma copy_to_loop_spec src n : forall k m, hi = lo + zlen src -> hi < 2 ^ 39 ->
  Forall (fun b => 0 <= b < 256) src -> same_tables m -> 0 <= k <= zlen src ->
  (Z.to_nat (zlen src - k) < n)%nat ->
  exists m', copy_to_loop n root (lo + k) src k k m = Ret (Ok (zlen src), m') /\
    wrote m (lo + k) (drop (Z.to_nat k) src) m'.
Proof.
  induction n as [|n IH]; intros k m Hhi Hb Hsrc Hs Hk Hn; [lia|].
  cbn [copy_to_loop]. destruct (ur_bounds Hur) as [Hlo _].
  destruct (Z.ltb_spec k (zlen src)) as [Hlt|Hge].
  2:{ exists m. replace k with (zlen src) by lia. split; [done|].
      unfold zlen. rewrite Nat2Z.id, drop_all. apply wrote_nil. }
  rewrite usub_Ret by lia. st_unfold.
  destruct (translate_range m (lo + k) Hs ltac:(lia)) as (_ & Htr & Hde).
  set (off := (lo + k) mod PAGE_SIZE) in *. set (q := fr ((lo + k) / PAGE_SIZE)) in *.
  assert (0 <= off < PAGE_SIZE) as Hoff by (unfold off, PAGE_SIZE; lia).
  unfold get_target_continuous_writable_bytes_in_page.
  destruct (Z.eqb_spec (zlen src - k) 0); [lia|]. rewrite token_root, Htr.
  cbn [mbind outcome_bind]. rewrite page_offset_mod. fold off. rewrite usub_Ret by lia.
  cbn [mbind outcome_bind]. set (c := Z.min (zlen src - k) (PAGE_SIZE - off)).
  assert (0 < c <= zlen src - k /\ off + c <= PAGE_SIZE) as Hc by lia.
  destruct (Z.eqb_spec c 0); [lia|]. rewrite Hde. cbn [mbind outcome_bind]. st_unfold.
  destruct (Z.eqb_spec c 0); [lia|].
  rewrite !uadd_Ret by (unfold u64_bound; lia). rewrite slice_Ret by lia.
  unfold us_store. st_unfold. cbn [us_len us_pa].
  replace (k + c - k) with c by lia.
  set (bs := take (Z.to_nat c) (drop (Z.to_nat k) src)).
  assert (zlen bs = c) as Hbs.
  { unfold bs, zlen in *. rewrite length_take, length_drop. lia. }
  rewrite Hbs. destruct (Z.leb_spec c c); [|lia]. cbn [rassert].
  assert (Forall (fun b => 0 <= b < 256) bs) as Hbs8 by (by apply Forall_take, Forall_drop).
  pose proof (wrote_page m (lo + k) bs Hs ltac:(lia) ltac:(fold off; lia) Hbs8) as W1.
  fold off q in W1. rewrite <- Z.add_assoc.
  destruct (IH (k + c) (pa_write_bytes m (q * PAGE_SIZE + off) bs)) as (m' & -> & W2);
    [done|done|done|by apply (wrote_tables _ _ _ _ Hs W1)|lia|lia|].
  exists m'. split; [done|].
  replace (drop (Z.to_nat k) src) with (bs ++ drop (Z.to_nat (k + c)) src).
  - apply (wrote_trans _ _ _ _ _ _ W1). rewrite Hbs, <- Z.add_assoc. done.
  - unfold bs. rewrite Z2Nat.inj_add, <- drop_drop by lia. apply take_drop.
Qed.

(** [put_data] stores its bytes, across pages too. *)
Lemma put_bytes_spec bs : forall m x, same_tables m -> lo <= x -> x + zlen bs <= hi ->
  Forall (fun b => 0 <= b < 256) bs ->
  exists m', put_bytes root x bs m = Ret (Ok tt, m') /\ wrote m x bs m'.
Proof.
  destruct (ur_bounds Hur) as [Hlo Hhi].
  induction bs as [|b bs IH]; intros m x Hs Hx Hl Hb; cbn [put_bytes].
  { exists m. split; [done|apply wrote_nil]. }
  apply Forall_cons_1 in Hb as [Hb Hbs]. rewrite zlen_cons in Hl. pose proof (zlen_nonneg bs).
  destruct (translate_range m x Hs ltac:(lia)) as (Ht & _ & Hd). st_unfold. rewrite Ht.
  cbv beta iota. rewrite Hd. cbv beta iota. rewrite uadd_Ret by (unfold u64_bound; lia).
  pose proof (wrote_page m x [b] Hs ltac:(lia)) as W1. unfold zlen in W1 at 1. cbn [length] in W1.
  specialize (W1 ltac:(unfold PAGE_SIZE; lia) ltac:(by constructor)). cbn [pa_write_bytes] in W1.
  destruct (IH (pa_write m (fr (x / PAGE_SIZE) * PAGE_SIZE + x mod PAGE_SIZE) b) (x + 1))
    as (m' & -> & W2); [by apply (wrote_tables _ _ _ _ Hs W1)|lia|lia|done|].
  exists m'. split; [done|]. by apply (wrote_trans _ _ _ _ [b] bs W1).
Qed.

Lemma put_data_spec m x bs : same_tables m -> lo <= x -> x + zlen bs <= hi ->
  Forall (fun b => 0 <= b < 256) bs ->
  exists m', put_data root x bs m = Ret (Ok tt, m') /\ wrote m x bs m'.
Proof.
  intros Hs Hx Hl Hb. destruct (ur_bounds Hur) as [Hlo Hhi]. unfold put_data, put_data_at.
  rewrite token_root. pose proof (zlen_nonneg bs). destruct (Z.eqb_spec (zlen bs) 0) as [E|].
  { exists m. assert (bs = []) as -> by (apply length_zero_iff_nil; unfold zlen in E; lia).
    split; [done|apply wrote_nil]. }
  destruct (translate_range m x Hs ltac:(lia)) as (Ht & _ & Hd).
  destruct (ur_frame Hur _ (range_page x ltac:(lia))) as [Hf _]. st_unfold. rewrite Ht. cbv beta iota.
  rewrite uadd_Ret by (unfold u64_bound, PAGE_SIZE in *; lia). cbv beta iota.
  destruct (Z.eqb_spec (PhysAddr_floor (fr (x / PAGE_SIZE) * PAGE_SIZE + x mod PAGE_SIZE))
    (PhysAddr_floor (fr (x / PAGE_SIZE) * PAGE_SIZE + x mod PAGE_SIZE + (zlen bs - 1)))) as [E|].
  - rewrite Hd. eexists. split; [done|]. apply wrote_page; [done|lia| |done].
    unfold PhysAddr_floor, PAGE_SIZE in *. lia.
  - by apply put_bytes_spec.
Qed.

(** The bytes of the process in a range. *)
Definition ubytes (m : pmem) (a n : Z) : list Z := ubyte m <$> zrange a (a + n).

Lemma pa_read_bytes_page m x c : 0 <= c -> x mod PAGE_SIZE + c <= PAGE_SIZE ->
  pa_read_bytes m (fr (x / PAGE_SIZE) * PAGE_SIZE + x mod PAGE_SIZE) c = ubytes m x c.
Proof.
  intros Hc Hl. unfold pa_read_bytes, ubytes.
  set (pa := fr (x / PAGE_SIZE) * PAGE_SIZE + x mod PAGE_SIZE).
  rewrite <- (Z.add_0_r pa) at 1. rewrite zrange_shift.
  rewrite <- (Z.add_0_r x) at 1. rewrite zrange_shift, <- !list_fmap_compose.
  apply list_fmap_ext. intros i y Hy. apply list_elem_of_lookup_2, elem_of_zrange in Hy.
  unfold compose, pa_read, ubyte, pa, PAGE_SIZE in *.
  replace ((x + y) / 4096) with (x / 4096) by lia.
  f_equal; lia.
Qed.

Lemma ubytes_app m a n1 n2 : 0 <= n1 -> 0 <= n2 ->
  ubytes m a (n1 + n2) = ubytes m a n1 ++ ubytes m (a + n1) n2.
Proof.
  intros. unfold ubytes. rewrite (zrange_app a (a + n1) (a + (n1 + n2))) by lia.
  rewrite fmap_app. do 2 f_equal. f_equal. lia.
Qed.

Lemma zlen_ubytes m a n : 0 <= n -> zlen (ubytes m a n) = n.
Proof. intros. unfold ubytes, zlen. rewrite length_fmap, length_zrange. lia. Qed.

Lemma copy_from_loop_spec dst len n : forall k m, hi = lo + len -> hi < 2 ^ 39 ->
  same_tables m -> 0 <= k <= len -> len <= zlen dst < 2 ^ 63 ->
  (Z.to_nat (len - k) < n)%nat ->
  copy_from_loop n root m (ubytes m lo k ++ drop (Z.to_nat k) dst) (lo + k) len k k =
    Ret (Ok tt, ubytes m lo len ++ drop (Z.to_nat len) dst).
Proof.
  induction n as [|n IH]; intros k m Hhi Hb Hs Hk Hd Hn; [lia|].
  cbn [copy_from_loop]. destruct (ur_bounds Hur) as [Hlo _].
  destruct (Z.ltb_spec k len) as [Hlt|Hge]; [|replace k with len by lia; done].
  rewrite (usub_Ret len k) by lia. cbn [mbind outcome_bind].
  destruct (translate_range m (lo + k) Hs ltac:(lia)) as (Htr & _ & Hde).
  assert (0 <= (lo + k) mod PAGE_SIZE < PAGE_SIZE) as Hoff by (unfold PAGE_SIZE; lia).
  unfold get_target_continuous_bytes_in_page.
  destruct (Z.eqb_spec (len - k) 0); [lia|]. rewrite token_root, Htr.
  cbn [mbind outcome_bind]. rewrite page_offset_mod. rewrite (usub_Ret PAGE_SIZE) by lia.
  cbn [mbind outcome_bind]. set (c := Z.min (len - k) (PAGE_SIZE - (lo + k) mod PAGE_SIZE)).
  assert (0 < c <= len - k /\ (lo + k) mod PAGE_SIZE + c <= PAGE_SIZE) as Hc by lia.
  destruct (Z.eqb_spec c 0); [lia|]. rewrite Hde. cbn [mbind outcome_bind us_pa].
  destruct (Z.eqb_spec c 0); [lia|]. 
  assert (zlen (ubytes m lo k ++ drop (Z.to_nat k) dst) = zlen dst) as Hz.
  { rewrite zlen_app, zlen_ubytes by lia. unfold zlen in *. rewrite length_drop. lia. }
  rewrite Hz, (usub_Ret (zlen dst)) by lia. cbn [mbind outcome_bind].
  rewrite (Z.min_l c) by lia. destruct (Z.eqb_spec c 0); [lia|]. cbn [andb].
  rewrite pa_read_bytes_page by lia.
  assert (splice (ubytes m lo k ++ drop (Z.to_nat k) dst) k (ubytes m (lo + k) c) =
    Ret (ubytes m lo (k + c) ++ drop (Z.to_nat (k + c)) dst)) as ->.
  { unfold splice. rewrite Hz, zlen_ubytes by lia. zcases; try lia. cbn [andb]. f_equal.
    pose proof (zlen_ubytes m lo k ltac:(lia)) as Hzk. unfold zlen in Hzk.
    rewrite take_app_le, take_ge, drop_app_ge, drop_drop by lia.
    rewrite ubytes_app by lia. rewrite <- app_assoc. do 3 f_equal. lia. }
  cbn [mbind outcome_bind]. rewrite !uadd_Ret by (unfold u64_bound; lia).
  cbn [mbind outcome_bind]. rewrite <- Z.add_assoc. apply IH; (done || lia).
Qed.

End user_range.

Lemma copy_to_spec w root va fr src : pt_wf w root ->
  user_range w root va (va + zlen src) fr -> va + zlen src < 2 ^ 39 ->
  Forall (fun b => 0 <= b < 256) src ->
  exists m', copy_to_user_bytes root va src (w_mem w) = Ret (Ok (zlen src), m') /\
    wrote root va (va + zlen src) fr (w_mem w) va src m'.
Proof.
  intros Hpt Hur Hb Hsrc. pose proof (zlen_nonneg src) as Hz.
  assert (same_tables w root (w_mem w)) as Hs by done.
  unfold copy_to_user_bytes. destruct (Z.eqb_spec (zlen src) 0) as [E0|].
  - exists (w_mem w). rewrite E0. split; [done|].
    destruct src; [apply wrote_nil|unfold zlen in E0; cbn in E0; lia].
  - destruct (copy_to_loop_spec w root va (va + zlen src) fr Hpt Hur src (S (length src)) 0
      (w_mem w)) as (m' & E & W); [done|done|done|done|lia|unfold zlen; lia|].
    rewrite Z.add_0_r in E, W. exists m'. split; [done|exact W].
Qed.

(** C13: Copying a kernel buffer to a user range whose pages are mapped writable
    to different data frames succeeds, however the range lies across pages:
    exactly the bytes of the range change, every frame outside the range and
    the page tables keep their contents, and [copy_from_user_bytes] of the
    same range gives the buffer back. *)
Theorem copy_user_roundtrip w root va fr src dst : pt_wf w root ->
  user_range w root va (va + zlen src) fr -> va + zlen src < 2 ^ 39 ->
  Forall (fun b => 0 <= b < 256) src -> zlen src <= zlen dst < 2 ^ 63 ->
  exists m', copy_to_user_bytes root va src (w_mem w) = Ret (Ok (zlen src), m') /\
    wrote root va (va + zlen src) fr (w_mem w) va src m' /\
    copy_from_user_bytes root m' dst va (zlen src) =
      Ret (Ok tt, src ++ drop (length src) dst).
Proof.
  intros Hpt Hur Hb Hsrc Hd. pose proof (zlen_nonneg src) as Hz.
  assert (same_tables w root (w_mem w)) as Hs by done.
  destruct (copy_to_spec w root va fr src Hpt Hur Hb Hsrc) as (m' & E & W).
  exists m'. split_and!; [done|done|]. unfold copy_from_user_bytes.
  destruct (Z.ltb_spec (zlen dst) (zlen src)); [lia|].
  pose proof (copy_from_loop_spec w root va (va + zlen src) fr Hpt Hur dst (zlen src)
    (S (Z.to_nat (zlen src))) 0 m') as L.
  unfold ubytes in L. rewrite Z.add_0_r, zrange_nil in L by lia. cbn [fmap list_fmap app] in L.
  change (drop (Z.to_nat 0) dst) with dst in L. rewrite L.
  - f_equal. f_equal. f_equal; [|unfold zlen; by rewrite Nat2Z.id].
    apply list_eq. intros i. rewrite list_lookup_fmap. unfold zrange.
    rewrite list_lookup_fmap. destruct (decide (i < length src)%nat) as [Hi|Hi].
    + rewrite lookup_seq_lt by (unfold zlen; lia). cbn.
      rewrite (wr_bytes _ _ _ _ _ _ _ _ W).
      * rewrite decide_True by (unfold zlen; lia).
        destruct (lookup_lt_is_Some_2 src i Hi) as [b Eb]. rewrite Eb. f_equal.
        apply nth_lookup_Some. rewrite <- Eb. f_equal. lia.
      * apply range_page. unfold zlen. lia.
    + rewrite lookup_seq_ge by (unfold zlen; lia). cbn.
      rewrite lookup_ge_None_2 by lia. done.
  - lia.
  - done.
  - apply (wrote_tables w root va (va + zlen src) fr _ _ _ _ Hs W).
  - lia.
  - done.
  - lia.
Qed.

Lemma user_range_sub w root lo hi lo' hi' fr : lo <= lo' -> hi' <= hi ->
  user_range w root lo hi fr -> user_range w root lo' hi' fr.
Proof.
  intros Hl Hh [Hb He Hf Hi].
  assert (forall v, in_range lo' hi' v -> in_range lo hi v) as Hin.
  { unfold in_range, PAGE_SIZE. intros v Hv. lia. }
  split; [lia|auto..].
Qed.

(** Two pages of a fresh address space. *)
Lemma two_pages : exists w root fr, pt_wf w root /\ user_range w root 0x5000 0x7000 fr.
Proof.
  destruct pt70_ok as (Hw & Hpt & H0 & Hc).
  set (a := mkArea (mkRange 5 7) [] Framed (Z.lor MP_W MP_U) AT_Mmap None 0).
  destruct (map_pages_spec [5; 6] (snd pt70) a (fst pt70)) as (d & pt' & w & _ & _ & M);
    [exact Hw|exact Hpt|reflexivity|apply SSorted_nil|apply (NoDup_zrange 5 7)
    |intros v Hv; apply (elem_of_zrange 5 7) in Hv; split_and!; [lia|lia|apply H0|reflexivity]
    |rewrite Hc; unfold zlen; cbn; lia|].
  set (root := root_ppn (fst pt70)) in *. set (fr v := default 0 (bt_get v d)).
  assert (forall v, in_range 0x5000 0x7000 v -> v ∈ [5; 6]) as Hin.
  { unfold in_range, PAGE_SIZE. intros v Hv. apply (elem_of_zrange 5 7). lia. }
  exists w, root, fr. split; [apply M|]. constructor.
  - lia.
  - intros v Hv%Hin. destruct (ms_new _ _ _ _ _ _ _ M v Hv) as (p & Hg & _ & _ & _ & _ & Hp & Hf).
    unfold fr. rewrite Hg. split; [done|]. unfold la_writable. rewrite Hf. reflexivity.
  - intros v Hv%Hin. destruct (ms_new _ _ _ _ _ _ _ M v Hv) as (p & Hg & _ & Hl & Hn & _).
    unfold fr. rewrite Hg. split; [|done].
    apply (live_range w); [apply M|by eexists].
  - intros v1 v2 H1%Hin H2%Hin.
    destruct (ms_new _ _ _ _ _ _ _ M v1 H1) as (p & G1 & _).
    destruct (ms_new _ _ _ _ _ _ _ M v2 H2) as (p' & G2 & _).
    unfold fr. rewrite G1, G2. cbn. intros ->. by apply (ms_inj _ _ _ _ _ _ _ M v1 v2 p').
Qed.

(** A buffer across the boundary of two pages. *)
Lemma copy_user_roundtrip_witness : exists w root fr m',
  user_range w root 0x5ffe 0x6002 fr /\
  copy_to_user_bytes root 0x5ffe [1; 2; 3; 4] (w_mem w) = Ret (Ok 4, m') /\
  copy_from_user_bytes root m' [0; 0; 0; 0; 9] 0x5ffe 4 = Ret (Ok tt, [1; 2; 3; 4; 9]).
Proof.
  destruct two_pages as (w & root & fr & Hpt & Hur).
  apply (user_range_sub _ _ _ _ 0x5ffe 0x6002) in Hur; [|lia|lia].
  destruct (copy_user_roundtrip w root 0x5ffe fr [1; 2; 3; 4] [0; 0; 0; 0; 9])
    as (m' & E1 & _ & E2); [done|done|unfold zlen; cbn; lia|repeat constructor; lia
    |unfold zlen; cbn; lia|].
  exists w, root, fr, m'. split_and!; [exact Hur|exact E1|exact E2].
Defined.
