(* ===== verification/UserBuf.v ===== *)
(** * UserBuffer

    Correctness of the copying methods of [UserBuffer]
    (os/src/mm/page_table.rs).  The reference is a buffer seen as the list of
    the physical addresses of its bytes ([ub_addrs]): [write], with its fast
    path for more than ten bytes and its byte loop, and [write_all] store the
    bytes at the first addresses, [read_from] loads the bytes at a segment of
    the addresses. *)

From S2P Require Import Prelude Config Address BitField Memory FrameAlloc.
From S2P Require Import Errno UserMem.

Definition us_addrs (s : uslice) : list Z := zrange (us_pa s) (us_pa s + us_len s).

Definition ub_addrs (b : UserBuffer) : list Z := b ≫= us_addrs.

Definition ub_wf (b : UserBuffer) : Prop :=
  Forall (fun s => 0 <= us_pa s /\ 0 <= us_len s) b /\ zlen (ub_addrs b) < u64_bound.

(** Stores bytes at addresses until one of the two lists ends. *)
Fixpoint write_addrs (m : pmem) (addrs bs : list Z) : pmem :=
  match addrs, bs with
  | a :: addrs', b :: bs' => write_addrs (pa_write m a b) addrs' bs'
  | _, _ => m
  end.

(** ** The reference *)

Lemma write_addrs_nil m addrs : write_addrs m addrs [] = m.
Proof. by destruct addrs. Qed.

Lemma write_addrs_app m l1 l2 bs :
  write_addrs m (l1 ++ l2) bs = write_addrs (write_addrs m l1 bs) l2 (drop (length l1) bs).
Proof.
  revert m bs. induction l1 as [|a l1 IH]; intros m bs; [done|].
  destruct bs as [|b bs]; cbn; [by rewrite write_addrs_nil|apply IH].
Qed.

Lemma write_addrs_take m addrs bs n : (length addrs <= n)%nat ->
  write_addrs m addrs (take n bs) = write_addrs m addrs bs.
Proof.
  revert m bs n. induction addrs as [|a addrs IH]; intros m bs n Hn; [done|].
  cbn in Hn. destruct n as [|n]; [lia|]. destruct bs as [|b bs]; [done|]. cbn. apply IH. lia.
Qed.

Lemma pa_write_bytes_addrs m pa n bs : zlen bs <= n ->
  pa_write_bytes m pa bs = write_addrs m (zrange pa (pa + n)) bs.
Proof.
  revert m pa n. induction bs as [|b bs IH]; intros m pa n Hn; [by rewrite write_addrs_nil|].
  unfold zlen in Hn. cbn [length] in Hn. rewrite zrange_cons by lia. cbn.
  rewrite (IH _ _ (n - 1)) by (unfold zlen; lia). do 2 f_equal. lia.
Qed.

Lemma pa_read_write m a b a' : 0 <= a -> 0 <= a' -> 0 <= b < 256 ->
  pa_read (pa_write m a b) a' = if decide (a = a') then b else pa_read m a'.
Proof.
  intros Ha Ha' Hb. unfold pa_read, pa_write, PAGE_SIZE.
  rewrite read_write_byte by lia. destruct (decide (a = a')) as [<-|Hne].
  - rewrite decide_True by done. done.
  - rewrite decide_False by lia. done.
Qed.

Lemma write_addrs_out m addrs bs x : Forall (fun a => 0 <= a) addrs -> 0 <= x ->
  Forall (fun b => 0 <= b < 256) bs -> x ∉ take (length bs) addrs ->
  pa_read (write_addrs m addrs bs) x = pa_read m x.
Proof.
  revert m bs. induction addrs as [|a addrs IH]; intros m bs Ha Hx Hbs Hn; [done|].
  destruct bs as [|b bs]; [done|]. cbn in *. apply Forall_cons_1 in Ha as [Ha0 Ha].
  apply Forall_cons_1 in Hbs as [Hb Hbs]. apply not_elem_of_cons in Hn as [Hne Hn].
  rewrite IH, pa_read_write by done. by rewrite decide_False.
Qed.

(** What is stored at different addresses is loaded again. *)
Lemma write_addrs_read m addrs bs : Forall (fun a => 0 <= a) addrs -> NoDup addrs ->
  Forall (fun b => 0 <= b < 256) bs -> (length bs <= length addrs)%nat ->
  pa_read (write_addrs m addrs bs) <$> take (length bs) addrs = bs.
Proof.
  revert m bs. induction addrs as [|a addrs IH]; intros m [|b bs] Ha Hnd Hbs Hl; cbn in *;
    [done|lia|done|]. apply Forall_cons_1 in Ha as [Ha0 Ha].
  apply Forall_cons_1 in Hbs as [Hb Hbs]. apply list.NoDup_cons in Hnd as [Hn Hnd].
  rewrite IH by (done || lia). f_equal. rewrite write_addrs_out.
  - rewrite pa_read_write by done. by rewrite decide_True.
  - done.
  - done.
  - done.
  - intros [i Hi]%list_elem_of_lookup_1. apply lookup_take_Some in Hi as [Hi _].
    apply Hn. by eapply list_elem_of_lookup_2.
Qed.

Lemma ub_wf_cons s b : ub_wf (s :: b) -> 0 <= us_pa s /\ 0 <= us_len s /\ ub_wf b /\
  zlen (ub_addrs (s :: b)) = us_len s + zlen (ub_addrs b).
Proof.
  intros [[[H1 H2] H3]%Forall_cons_1 H4].
  assert (zlen (ub_addrs (s :: b)) = us_len s + zlen (ub_addrs b)) as E.
  { change (ub_addrs (s :: b)) with (us_addrs s ++ ub_addrs b). rewrite zlen_app. f_equal.
    unfold zlen, us_addrs. rewrite length_zrange. lia. }
  split_and!; [done|done| |done]. split; [done|]. lia.
Qed.

Lemma ub_addrs_nonneg b : ub_wf b -> Forall (fun a => 0 <= a) (ub_addrs b).
Proof.
  induction b as [|s b IH]; intros H; [constructor|].
  apply ub_wf_cons in H as (H1 & H2 & H3 & _). apply Forall_app. split; [|by apply IH].
  apply List.Forall_forall. intros x Hx%list_elem_of_In%elem_of_zrange. lia.
Qed.

Lemma ub_len_eq b : ub_wf b -> ub_len b = Ret (zlen (ub_addrs b)).
Proof.
  unfold ub_len. intros H. assert (forall k, 0 <= k -> k + zlen (ub_addrs b) < u64_bound ->
    fold_left (fun s x => n ← s; uadd n (us_len x)) b (Ret k) = Ret (k + zlen (ub_addrs b))) as L.
  { induction b as [|s b IH]; intros k Hk Hb; [cbn; by rewrite Z.add_0_r|].
    apply ub_wf_cons in H as (H1 & H2 & H3 & E). rewrite E in *. cbn.
    pose proof (zlen_nonneg (ub_addrs b)).
    rewrite uadd_Ret by lia. rewrite IH by (done || lia). f_equal. lia. }
  rewrite (L 0); [done|lia|apply H].
Qed.

(** ** The writes *)

Lemma us_store_eq s bytes m : zlen bytes <= us_len s ->
  us_store s bytes m = Ret (tt, write_addrs m (us_addrs s) bytes).
Proof.
  intros H. unfold us_store. st_unfold. destruct (Z.leb_spec (zlen bytes) (us_len s)); [|lia].
  cbn [rassert]. rewrite (pa_write_bytes_addrs _ _ (us_len s)) by done. done.
Qed.

Lemma store_bytes_spec s buff len js : forall current m,
  Forall (fun j => 0 <= j < us_len s) js -> 0 <= current < len -> len <= zlen buff < u64_bound ->
  store_bytes s js buff current len m =
  Ret (if zlen js <? len - current then inl (current + zlen js) else inr tt,
       write_addrs m (Z.add (us_pa s) <$> js)
         (take (Z.to_nat (len - current)) (drop (Z.to_nat current) buff))).
Proof.
  induction js as [|j js IH]; intros current m Hjs Hc Hl; cbn [store_bytes].
  { st_unfold. change (zlen []) with 0. destruct (Z.ltb_spec 0 (len - current)); [|lia].
    by rewrite Z.add_0_r. }
  apply Forall_cons_1 in Hjs as [Hj Hjs].
  assert (exists b, buff !! Z.to_nat current = Some b) as [b Eb].
  { apply lookup_lt_is_Some_2. unfold zlen in Hl. lia. }
  assert (index buff current = Ret b) as -> by (apply index_Ret; split; [lia|done]).
  unfold us_set. st_unfold. destruct (Z.leb_spec 0 j), (Z.ltb_spec j (us_len s)); try lia.
  cbn [andb rassert]. rewrite uadd_Ret by lia.
  assert (drop (Z.to_nat current) buff = b :: drop (Z.to_nat (current + 1)) buff) as ->.
  { replace (Z.to_nat (current + 1)) with (S (Z.to_nat current)) by lia. by apply drop_S. }
  replace (Z.to_nat (len - current)) with (S (Z.to_nat (len - current - 1))) by lia.
  cbn [fmap list_fmap take write_addrs].
  assert (zlen (j :: js) = zlen js + 1) as -> by (unfold zlen; cbn [length]; lia).
  pose proof (zlen_nonneg js).
  destruct (Z.eqb_spec (current + 1) len) as [E|Hne].
  - replace (len - current - 1) with 0 by lia. change (Z.to_nat 0) with 0%nat.
    cbn [take]. rewrite write_addrs_nil. zcases; try lia. done.
  - rewrite IH by (done || lia). replace (len - (current + 1)) with (len - current - 1) by lia.
    f_equal. f_equal. zcases; try lia; [|done]. f_equal. lia.
Qed.

Lemma write_loop_spec buff len b : forall current m, ub_wf b -> 0 <= current < len ->
  len <= zlen buff < u64_bound -> len - current <= zlen (ub_addrs b) ->
  current + zlen (ub_addrs b) < u64_bound ->
  write_loop b buff current len m =
  Ret (len, write_addrs m (ub_addrs b)
              (take (Z.to_nat (len - current)) (drop (Z.to_nat current) buff))).
Proof.
  induction b as [|s b IH]; intros current m Hwf Hc Hl Hb Ho; [unfold zlen in Hb; cbn in Hb; lia|].
  apply ub_wf_cons in Hwf as (H1 & H2 & Hwf & E). rewrite E in Hb, Ho. cbn [write_loop].
  pose proof Hwf as [_ Hw2]. pose proof (zlen_nonneg (ub_addrs b)) as Hz.
  change (ub_addrs (s :: b)) with (us_addrs s ++ ub_addrs b). rewrite write_addrs_app.
  assert (length (us_addrs s) = Z.to_nat (us_len s)) as Hls
    by (unfold us_addrs; rewrite length_zrange; lia).
  rewrite Hls, skipn_firstn_comm, drop_drop.
  set (D := take _ (drop (Z.to_nat current) buff)).
  assert (us_len s < len - current ->
    write_loop b buff (current + us_len s) len (write_addrs m (us_addrs s) D) =
    Ret (len, write_addrs (write_addrs m (us_addrs s) D) (ub_addrs b)
       (take (Z.to_nat (len - current) - Z.to_nat (us_len s))
          (drop (Z.to_nat current + Z.to_nat (us_len s)) buff)))) as Hnext.
  { intros Hlt. rewrite IH by (done || lia).
    replace (Z.to_nat (current + us_len s)) with (Z.to_nat current + Z.to_nat (us_len s))%nat by lia.
    replace (Z.to_nat (len - (current + us_len s)))
      with (Z.to_nat (len - current) - Z.to_nat (us_len s))%nat by lia. done. }
  assert (len - current <= us_len s -> (Z.to_nat (len - current) - Z.to_nat (us_len s) = 0)%nat)
    as Hend by lia.
  destruct (Z.ltb_spec 10 (zlen buff)) as [Hbig|Hsmall].
  - st_unfold. rewrite (uadd_Ret current (us_len s)) by lia.
    destruct (Z.ltb_spec len (current + us_len s)) as [Hover|Hin].
    + rewrite usub_Ret by lia. rewrite uadd_Ret by lia. unfold slice.
      replace (current + (len - current)) with len by lia. zcases; try lia. cbn [andb].
      fold D. rewrite us_store_eq by (unfold D, zlen; rewrite length_take; lia).
      zcases; try lia.
      rewrite (Hend ltac:(lia)). cbn [take]. by rewrite write_addrs_nil.
    + rewrite (uadd_Ret current (us_len s)) by lia. unfold slice.
      replace (current + us_len s - current) with (us_len s) by lia.
      destruct (Z.leb_spec 0 current), (Z.leb_spec current (current + us_len s)),
        (Z.leb_spec (current + us_len s) (zlen buff)); try lia. cbn [andb].
      rewrite us_store_eq by (unfold zlen; rewrite length_take; lia).
      replace (take (Z.to_nat (us_len s)) (drop (Z.to_nat current) buff))
        with (take (Z.to_nat (us_len s)) D).
      2:{ unfold D. rewrite take_take. f_equal. lia. }
      rewrite write_addrs_take by lia.
      destruct (Z.eqb_spec (current + us_len s) len); [|apply Hnext; lia].
      rewrite (Hend ltac:(lia)). cbn [take]. by rewrite write_addrs_nil.
  - st_unfold. rewrite store_bytes_spec; [|apply List.Forall_forall; intros x Hx|done|done].
    2:{ by apply list_elem_of_In, elem_of_zrange in Hx. }
    fold D. rewrite <- zrange_shift, Z.add_0_r. fold (us_addrs s).
    assert (zlen (zrange 0 (us_len s)) = us_len s) as -> by (unfold zlen; rewrite length_zrange; lia).
    destruct (Z.ltb_spec (us_len s) (len - current)); [by apply Hnext|].
    rewrite Hend by lia. cbn [take]. by rewrite write_addrs_nil.
Qed.

Lemma ub_write_spec b buff m : ub_wf b -> zlen buff < u64_bound ->
  let n := Z.min (zlen (ub_addrs b)) (zlen buff) in
  ub_write b buff m = Ret (n, write_addrs m (ub_addrs b) (take (Z.to_nat n) buff)).
Proof.
  intros Hwf Hl n. unfold ub_write. st_unfold. rewrite ub_len_eq by done. fold n.
  pose proof (zlen_nonneg (ub_addrs b)). pose proof (zlen_nonneg buff). pose proof Hwf as [_ Hb].
  destruct (Z.eqb_spec n 0) as [E|Hne].
  - rewrite E. cbn [Z.to_nat take]. by rewrite write_addrs_nil.
  - rewrite write_loop_spec by (done || lia). do 2 f_equal. f_equal. f_equal. lia.
Qed.

Lemma write_all_loop_spec buff b : forall k m, ub_wf b -> 0 <= k <= zlen buff ->
  zlen buff < u64_bound ->
  write_all_loop b buff k m = Ret (tt, write_addrs m (ub_addrs b) (drop (Z.to_nat k) buff)).
Proof.
  induction b as [|s b IH]; intros k m Hwf Hk Hl; [done|].
  apply ub_wf_cons in Hwf as (H1 & H2 & Hwf & _). cbn [write_all_loop]. st_unfold.
  rewrite usub_Ret by lia. change (ub_addrs (s :: b)) with (us_addrs s ++ ub_addrs b).
  assert (length (us_addrs s) = Z.to_nat (us_len s)) as Hls
    by (unfold us_addrs; rewrite length_zrange; lia).
  rewrite write_addrs_app, Hls, drop_drop.
  set (c := Z.min (us_len s) (zlen buff - k)). destruct (Z.eqb_spec c 0) as [Ec|Hc].
  - rewrite IH by (done || lia). f_equal. f_equal. destruct (decide (us_len s = 0)) as [E0|Hn0].
    + assert (us_addrs s = []) as -> by (unfold us_addrs; apply zrange_nil; lia).
      cbn [write_addrs]. f_equal. f_equal. lia.
    + assert (k = zlen buff) as -> by lia. unfold zlen.
      rewrite !(drop_ge buff) by lia. by rewrite !write_addrs_nil.
  - rewrite !uadd_Ret by lia. unfold slice. zcases; try lia. cbn [andb].
    replace (k + c - k) with c by lia.
    rewrite us_store_eq by (unfold zlen; rewrite length_take; lia).
    rewrite IH by (done || lia). f_equal. f_equal. f_equal.
    + destruct (decide (c = us_len s)) as [->|]; [by apply write_addrs_take; lia|].
      f_equal. apply take_ge. rewrite length_drop. unfold zlen in *. lia.
    + destruct (decide (c = us_len s)) as [->|]; [f_equal; lia|].
      unfold zlen in *. rewrite !drop_ge by lia. done.
Qed.

(** ** The reads *)

Lemma read_from_loop_spec m b : forall skip n acc, ub_wf b -> 0 <= skip -> 0 <= n ->
  read_from_loop m b skip n acc =
  Ret (acc ++ (pa_read m <$> take (Z.to_nat n) (drop (Z.to_nat skip) (ub_addrs b)))).
Proof.
  induction b as [|s b IH]; intros skip n acc Hwf Hs Hn; cbn [read_from_loop].
  { cbn. by rewrite drop_nil, take_nil, app_nil_r. }
  apply ub_wf_cons in Hwf as (H1 & H2 & Hwf & _).
  change (ub_addrs (s :: b)) with (us_addrs s ++ ub_addrs b).
  assert (length (us_addrs s) = Z.to_nat (us_len s)) as Hls
    by (unfold us_addrs; rewrite length_zrange; lia).
  destruct (Z.eqb_spec n 0) as [->|Hn0]; [cbn; by rewrite app_nil_r|].
  destruct (Z.leb_spec (us_len s) skip) as [Hle|Hlt].
  - rewrite usub_Ret by lia. cbn [mbind outcome_bind]. rewrite IH by (done || lia).
    rewrite drop_app_ge by lia. do 5 f_equal. lia.
  - rewrite usub_Ret by lia. cbn [mbind outcome_bind].
    set (c := Z.min (us_len s - skip) n). rewrite usub_Ret by lia. cbn [mbind outcome_bind].
    rewrite IH by (done || lia). rewrite <- app_assoc. do 2 f_equal.
    rewrite drop_app_le by lia. rewrite take_app, length_drop, Hls, fmap_app. f_equal.
    + unfold pa_read_bytes, us_addrs.
      rewrite (zrange_app (us_pa s) (us_pa s + skip) (us_pa s + us_len s)) by lia.
      rewrite drop_app_ge by (rewrite length_zrange; lia).
      rewrite length_zrange.
      replace (Z.to_nat skip - Z.to_nat (us_pa s + skip - us_pa s))%nat with 0%nat by lia.
      rewrite drop_0.
      rewrite (zrange_app (us_pa s + skip) (us_pa s + skip + c) (us_pa s + us_len s)) by lia.
      f_equal. destruct (decide (c = n)) as [->|].
      * rewrite take_app_le, take_ge by (rewrite length_zrange; lia). done.
      * rewrite (zrange_nil (us_pa s + skip + c)), app_nil_r by lia.
        rewrite take_ge by (rewrite length_zrange; lia). done.
    + cbn [Z.to_nat drop]. do 2 f_equal. lia.
Qed.

Lemma ub_read_from_spec m b off n : ub_wf b -> 0 <= off -> 0 <= n ->
  ub_read_from m b off n = Ret (pa_read m <$> take (Z.to_nat n) (drop (Z.to_nat off) (ub_addrs b))).
Proof.
  intros Hwf Ho Hn. unfold ub_read_from. rewrite ub_len_eq by done. cbn [mbind outcome_bind].
  destruct (Z.leb_spec (zlen (ub_addrs b)) off) as [Hle|Hlt].
  - rewrite drop_ge by (unfold zlen in Hle; lia). by rewrite take_nil.
  - rewrite usub_Ret by lia. cbn [mbind outcome_bind]. rewrite read_from_loop_spec by (done || lia).
    cbn [app]. do 2 f_equal. unfold zlen in *.
    destruct (decide (n <= Z.of_nat (length (ub_addrs b)) - off)).
    + do 2 f_equal. lia.
    + rewrite !take_ge by (rewrite length_drop; lia). done.
Qed.

(** On a buffer whose slices do not overlap, [write] stores as many bytes as
    fit, through its fast path and through its byte loop alike, and nothing
    else; reading from the buffer gives them back; [write_all] does the same
    when everything fits and reports [EINVAL] without writing otherwise. *)
Theorem user_buffer_write_read b buff m : ub_wf b -> NoDup (ub_addrs b) ->
  Forall (fun x => 0 <= x < 256) buff -> zlen buff < u64_bound ->
  exists n m', n = Z.min (zlen (ub_addrs b)) (zlen buff) /\
    ub_write b buff m = Ret (n, m') /\
    ub_read m' b n = Ret (take (Z.to_nat n) buff) /\
    (forall x, 0 <= x -> x ∉ ub_addrs b -> pa_read m' x = pa_read m x) /\
    ub_write_all b buff m =
      (if zlen (ub_addrs b) <? zlen buff then Ret (Err EINVAL, m) else Ret (Ok tt, m')).
Proof.
  intros Hwf Hnd Hb Hl. set (n := Z.min (zlen (ub_addrs b)) (zlen buff)).
  exists n, (write_addrs m (ub_addrs b) (take (Z.to_nat n) buff)).
  pose proof (zlen_nonneg (ub_addrs b)). pose proof (zlen_nonneg buff).
  pose proof (ub_addrs_nonneg b Hwf) as Ha.
  assert (Forall (fun x => 0 <= x < 256) (take (Z.to_nat n) buff)) as Hb' by by apply Forall_take.
  assert (length (take (Z.to_nat n) buff) = Z.to_nat n) as Hlt
    by (rewrite length_take; unfold zlen in *; lia).
  split_and!; [done|by apply ub_write_spec| | |].
  - unfold ub_read. rewrite ub_read_from_spec by (done || lia). f_equal. cbn [Z.to_nat drop].
    rewrite drop_0. rewrite <- Hlt at 2. apply write_addrs_read; try done.
    rewrite Hlt. unfold n, zlen. lia.
  - intros x Hx Hn. apply write_addrs_out; try done. intros Hin. apply Hn.
    apply list_elem_of_lookup_1 in Hin as [i Hi]. apply lookup_take_Some in Hi as [Hi _].
    by eapply list_elem_of_lookup_2.
  - unfold ub_write_all. st_unfold. rewrite ub_len_eq by done.
    destruct (Z.ltb_spec (zlen (ub_addrs b)) (zlen buff)); [done|].
    rewrite write_all_loop_spec by (done || lia). cbn [Z.to_nat drop].
    rewrite (take_ge buff); [done|]. unfold zlen in *. lia.
Qed.

Lemma user_buffer_write_read_witness : exists m',
  ub_write [mkSlice 0x1ffe 2; mkSlice 0x5000 10] [1; 2; 3; 4; 5; 6; 7; 8; 9; 10; 11] ∅ = Ret (11, m') /\
  ub_read m' [mkSlice 0x1ffe 2; mkSlice 0x5000 10] 11 = Ret [1; 2; 3; 4; 5; 6; 7; 8; 9; 10; 11].
Proof.
  destruct (user_buffer_write_read [mkSlice 0x1ffe 2; mkSlice 0x5000 10]
    [1; 2; 3; 4; 5; 6; 7; 8; 9; 10; 11] ∅) as (n & m' & -> & E1 & E2 & _).
  - split; [repeat constructor; cbn; lia|vm_compute; done].
  - apply (bool_decide_unpack _). vm_compute. done.
  - repeat constructor; lia.
  - vm_compute. done.
  - exists m'. split; [exact E1|exact E2].
Defined.
