(* ===== verification/Shm.v ===== *)
(** * Shared memory segments (os/src/mm/shm.rs)

    System V segments: their frames, their attach count and the deletion
    mark, and the manager that numbers them.  The clock is an argument. *)

From S2P Require Import Prelude Config Address BitField Memory FrameAlloc.
From S2P Require Import FrameSpec.

Record IpcPerm : Type := mkIpcPerm {
  ipc_key : Z; ipc_uid : Z; ipc_gid : Z; ipc_cuid : Z; ipc_cgid : Z; ipc_mode : Z
}.

Record ShmIdDs : Type := mkShmIdDs {
  shm_perm : IpcPerm;
  shm_segsz : Z;
  shm_atime : Z;
  shm_dtime : Z;
  shm_ctime : Z;
  shm_cpid : Z;
  shm_lpid : Z;
  shm_nattch : Z
}.

Record SharedMemorySegment : Type := mkSegment {
  id_ds : ShmIdDs;
  seg_frames : list Z;
  marked_for_deletion : bool
}.

(** [pid as u32] *)
Definition as_u32 (z : Z) : Z := z mod 2 ^ 32.

Definition segment_new (now key size pid : Z) : ST world (option SharedMemorySegment) :=
  a ← st_lift (uadd size PAGE_SIZE);
  b ← st_lift (usub a 1);
  num_pages ← st_lift (udiv b PAGE_SIZE);
  o ← frame_alloc_continue num_pages;
  match o with
  | None => mret None
  | Some frames =>
      mret (Some (mkSegment
        (mkShmIdDs (mkIpcPerm key 0 0 0 0 0x1b6) size 0 0 now (as_u32 pid) 0 0)
        frames false))
  end.

Definition page_count (s : SharedMemorySegment) : Z := zlen (seg_frames s).

Definition get_frame_ppn (s : SharedMemorySegment) (page_index : Z) : option Z :=
  seg_frames s !! Z.to_nat page_index.

Definition attach (now pid : Z) (s : SharedMemorySegment) : outcome SharedMemorySegment :=
  let d := id_ds s in
  n ← uadd (shm_nattch d) 1;
  Ret (mkSegment (mkShmIdDs (shm_perm d) (shm_segsz d) now (shm_dtime d) (shm_ctime d)
                    (shm_cpid d) pid n) (seg_frames s) (marked_for_deletion s)).

Definition detach (now pid : Z) (s : SharedMemorySegment) : SharedMemorySegment :=
  let d := id_ds s in
  let n := if 0 <? shm_nattch d then shm_nattch d - 1 else shm_nattch d in
  mkSegment (mkShmIdDs (shm_perm d) (shm_segsz d) (shm_atime d) now (shm_ctime d)
               (shm_cpid d) pid n) (seg_frames s) (marked_for_deletion s).

Definition is_deletable (s : SharedMemorySegment) : bool :=
  marked_for_deletion s && (shm_nattch (id_ds s) =? 0).

Record ShmManager : Type := mkShmManager {
  key_to_id : gmap Z Z;
  id_to_segment : gmap Z SharedMemorySegment;
  next_id : Z
}.

Definition ShmManager_new : ShmManager := mkShmManager ∅ ∅ 0.

(** Detaching undoes attaching as far as the count goes; a segment is only
    deletable once everyone has detached. *)
Lemma attach_detach now now' p p' s s' : attach now p s = Ret s' -> 0 <= shm_nattch (id_ds s) ->
  shm_nattch (id_ds (detach now' p' s')) = shm_nattch (id_ds s) /\ is_deletable s' = false.
Proof.
  unfold attach. intros H Hn. inv_ret.
  unfold is_deletable, detach. cbn. split; [zcases; lia|].
  destruct (Z.eqb_spec (shm_nattch (id_ds s) + 1) 0); [lia|]. apply andb_false_r.
Qed.
