(* ===== verification/Auxv.v ===== *)
(** * The auxiliary vector (os/src/task/auxv.rs)

    The keys of the vector that the kernel leaves on the stack of a new
    program, with the numbers that the enum gives them, and its entries. *)

From S2P Require Import Prelude.

Inductive AuxType : Type :=
| AUX_NULL | AUX_IGNORE | AUX_EXECFD | AUX_PHDR | AUX_PHENT | AUX_PHNUM | AUX_PAGESZ
| AUX_BASE | AUX_FLAGS | AUX_ENTRY | AUX_NOTELF | AUX_UID | AUX_EUID | AUX_GID | AUX_EGID
| AUX_PLATFORM | AUX_HWCAP | AUX_CLKTCK | AUX_FPUCW | AUX_DCACHEBSIZE | AUX_ICACHEBSIZE
| AUX_UCACHEBSIZE | AUX_IGNOREPPC | AUX_SECURE | AUX_BASE_PLATFORM | AUX_RANDOM
| AUX_HWCAP2 | AUX_EXECFN | AUX_SYSINFO | AUX_SYSINFO_EHDR | AUX_L1I_CACHESHAPE
| AUX_L1D_CACHESHAPE | AUX_L2_CACHESHAPE | AUX_L3_CACHESHAPE | AUX_L1I_CACHESIZE
| AUX_L1I_CACHEGEOMETRY | AUX_L1D_CACHESIZE | AUX_L1D_CACHEGEOMETRY | AUX_L2_CACHESIZE
| AUX_L2_CACHEGEOMETRY | AUX_L3_CACHESIZE | AUX_L3_CACHEGEOMETRY | AUX_MINSIGSTKSZ.

#[export] Instance AuxType_eq_dec : EqDecision AuxType.
Proof. solve_decision. Defined.

(** [aux_type as usize] *)
Definition aux_usize (t : AuxType) : Z :=
  match t with
  | AUX_NULL => 0 | AUX_IGNORE => 1 | AUX_EXECFD => 2 | AUX_PHDR => 3 | AUX_PHENT => 4
  | AUX_PHNUM => 5 | AUX_PAGESZ => 6 | AUX_BASE => 7 | AUX_FLAGS => 8 | AUX_ENTRY => 9
  | AUX_NOTELF => 10 | AUX_UID => 11 | AUX_EUID => 12 | AUX_GID => 13 | AUX_EGID => 14
  | AUX_PLATFORM => 15 | AUX_HWCAP => 16 | AUX_CLKTCK => 17 | AUX_FPUCW => 18
  | AUX_DCACHEBSIZE => 19 | AUX_ICACHEBSIZE => 20 | AUX_UCACHEBSIZE => 21
  | AUX_IGNOREPPC => 22 | AUX_SECURE => 23 | AUX_BASE_PLATFORM => 24 | AUX_RANDOM => 25
  | AUX_HWCAP2 => 26 | AUX_EXECFN => 31 | AUX_SYSINFO => 32 | AUX_SYSINFO_EHDR => 33
  | AUX_L1I_CACHESHAPE => 34 | AUX_L1D_CACHESHAPE => 35 | AUX_L2_CACHESHAPE => 36
  | AUX_L3_CACHESHAPE => 37 | AUX_L1I_CACHESIZE => 40 | AUX_L1I_CACHEGEOMETRY => 41
  | AUX_L1D_CACHESIZE => 42 | AUX_L1D_CACHEGEOMETRY => 43 | AUX_L2_CACHESIZE => 44
  | AUX_L2_CACHEGEOMETRY => 45 | AUX_L3_CACHESIZE => 46 | AUX_L3_CACHEGEOMETRY => 47
  | AUX_MINSIGSTKSZ => 51
  end.

Record Aux : Type := mkAux { aux_type : AuxType; aux_value : Z }.

(** [size_of::<Aux>()] *)
Definition AUX_SIZE : Z := 16.

Definition all_aux : list AuxType :=
  [AUX_NULL; AUX_IGNORE; AUX_EXECFD; AUX_PHDR; AUX_PHENT; AUX_PHNUM; AUX_PAGESZ; AUX_BASE;
   AUX_FLAGS; AUX_ENTRY; AUX_NOTELF; AUX_UID; AUX_EUID; AUX_GID; AUX_EGID; AUX_PLATFORM;
   AUX_HWCAP; AUX_CLKTCK; AUX_FPUCW; AUX_DCACHEBSIZE; AUX_ICACHEBSIZE; AUX_UCACHEBSIZE;
   AUX_IGNOREPPC; AUX_SECURE; AUX_BASE_PLATFORM; AUX_RANDOM; AUX_HWCAP2; AUX_EXECFN;
   AUX_SYSINFO; AUX_SYSINFO_EHDR; AUX_L1I_CACHESHAPE; AUX_L1D_CACHESHAPE;
   AUX_L2_CACHESHAPE; AUX_L3_CACHESHAPE; AUX_L1I_CACHESIZE; AUX_L1I_CACHEGEOMETRY;
   AUX_L1D_CACHESIZE; AUX_L1D_CACHEGEOMETRY; AUX_L2_CACHESIZE; AUX_L2_CACHEGEOMETRY;
   AUX_L3_CACHESIZE; AUX_L3_CACHEGEOMETRY; AUX_MINSIGSTKSZ].

(** The key that a number stands for. *)
Definition aux_of_usize (z : Z) : option AuxType :=
  find (fun t => aux_usize t =? z) all_aux.

Lemma aux_of_usize_eq t : aux_of_usize (aux_usize t) = Some t.
Proof. destruct t; reflexivity. Qed.

Lemma aux_usize_range t : 0 <= aux_usize t < 64.
Proof. destruct t; cbn; lia. Qed.
