(* ===== verification/MemorySet.v ===== *)
(** * Address spaces (os/src/mm/memory_set.rs)

    [MemorySet]: a page table and the tree of areas, with the operations that
    the system calls use: [munmap], [mprotect], [mremap], [madvise_dontneed],
    [push], fork ([from_existed_user]), program loading ([map_elf],
    [from_elf]) and the page-fault handler.  Dropping an area drops the
    handles to its frames.  Regular files are trait objects: their [read] and
    [write] are arguments, as is the parsed form of an ELF file, which a
    third-party crate produces.  TLB flushes have no effect on the model. *)

From S2P Require Import Prelude Config Address BitField Memory FrameAlloc.
From S2P Require Import FrameSpec Pte PageTable BTree Errno Area.
From S2P Require Import UserMem Shm Auxv.

Record MemorySet : Type := mkMS {
  page_table : PageTable;
  areatree : VmAreaTree
}.

Definition set_areas (t : VmAreaTree) (ms : MemorySet) : MemorySet := mkMS (page_table ms) t.

Inductive PageFaultError : Type :=
| AreaNotFound | NotMmapType | RangeEmpty | AlreadyAllocated | VpnNotHandled | PF__.

Definition errno_of_PageFaultError (e : PageFaultError) : SysErrNo :=
  match e with
  | AreaNotFound => EFAULT
  | NotMmapType => EINVAL
  | RangeEmpty => EBUSY
  | VpnNotHandled => EINVAL
  | AlreadyAllocated => EEXIST
  | PF__ => EFAULT
  end.

(** ** Dropping areas *)

Definition drop_frames (d : list (Z * Z)) : ST world unit := st_iter (fun '(_, ppn) => arc_drop ppn) d.

Definition drop_area (a : MapArea) : ST world unit := drop_frames (data_frames a).

(** [areatree.push(area)]: an area that was stored under the same page is
    dropped. *)
Definition areas_push (t : VmAreaTree) (a : MapArea) : ST world VmAreaTree :=
  _ ← match bt_get (start_vpn a) t with Some old => drop_area old | None => mret tt end;
  mret (tree_push t a).

(** [assert!(areatree.insert(k, a).is_none())] *)
Definition areas_insert_new (t : VmAreaTree) (k : Z) (a : MapArea) : ST world VmAreaTree :=
  match bt_get k t with
  | Some _ => st_panic
  | None => mret (bt_insert k a t)
  end.

(** ** munmap *)

Definition munmap_overlaps (t : VmAreaTree) (new_start new_end : Z) : list Z :=
  fst <$> List.filter (fun '(_, a) => new_start <? end_vpn a) (bt_below new_end t).

Definition unmap_allocated (a : MapArea) (pt : PageTable) (r0 r1 : Z) : ST world unit :=
  st_iter (fun vpn => if area_allocated a vpn then pt_unmap pt vpn else mret tt) (zrange r0 r1).

(** The parts of the area to the left and to the right of the range. *)
Definition keep_parts (r0 r1 : Z) (area : MapArea) (t : VmAreaTree) : ST world VmAreaTree :=
  let a0 := start_vpn area in
  let a1 := end_vpn area in
  t ← (if a0 <? r0 then
         left_ ← st_lift (from_another_with_range area a0 r0);
         areas_push t left_
       else mret t);
  if r1 <? a1 then
    right_ ← st_lift (from_another_with_range area r1 a1);
    areas_push t right_
  else mret t.

Definition munmap_area (r0 r1 : Z) (pt : PageTable) (t : VmAreaTree) (start : Z)
    : ST world VmAreaTree :=
  area ← st_lift (unwrap (bt_get start t));
  t ← keep_parts r0 r1 area (bt_remove start t);
  _ ← unmap_allocated area pt r0 r1;
  _ ← drop_area area;
  mret t.

Fixpoint munmap_loop (r0 r1 : Z) (pt : PageTable) (t : VmAreaTree) (starts : list Z)
    : ST world VmAreaTree :=
  match starts with
  | [] => mret t
  | start :: l => t' ← munmap_area r0 r1 pt t start; munmap_loop r0 r1 pt t' l
  end.

Definition munmap (ms : MemorySet) (new_start new_end : Z) : ST world MemorySet :=
  t ← munmap_loop new_start new_end (page_table ms) (areatree ms)
        (munmap_overlaps (areatree ms) new_start new_end);
  mret (set_areas t ms).

(** ** Copies between address spaces *)

(** [dst_ppn.get_bytes_array().copy_from_slice(src_ppn.get_bytes_array())] *)
Definition copy_page (dst_ppn src_ppn : Z) : ST world unit :=
  fd ← st_lift (frame_base dst_ppn);
  fs ← st_lift (frame_base src_ppn);
  st_modify (fun w => set_mem (copy_words (w_mem w) fd fs 0) w).

(** [pt.translate(vpn).unwrap().ppn()] *)
Definition translate_ppn (pt : PageTable) (vpn : Z) : ST world Z :=
  m ← st_gets w_mem;
  o ← st_lift (pt_translate (root_ppn pt) m vpn);
  pte ← st_lift (unwrap o);
  st_lift (pte_ppn pte).

Definition copy_pages (dst src : PageTable) (vpns : list (Z * Z)) : ST world unit :=
  st_iter (fun '(dst_vpn, src_vpn) =>
    src_ppn ← translate_ppn src src_vpn;
    dst_ppn ← translate_ppn dst dst_vpn;
    copy_page dst_ppn src_ppn) vpns.

Definition clone_area (ms another : MemorySet) (start_vpn : Z) : ST world unit :=
  match bt_get start_vpn (areatree another) with
  | None => mret tt
  | Some area =>
      copy_pages (page_table ms) (page_table another)
        ((fun v => (v, v)) <$> range_list (vpn_range area))
  end.

Definition copy_area_data (ms src_space : MemorySet) (src_vpn dst_vpn : Z) : ST world MemorySet :=
  src_area ← st_lift (unwrap (bt_get src_vpn (areatree src_space)));
  dst_area ← st_lift (unwrap (bt_get dst_vpn (areatree ms)));
  src_pages ← st_lift (area_range_size src_area);
  dst_pages ← st_lift (area_range_size dst_area);
  _ ← st_lift (rassert (src_pages =? dst_pages));
  '(a, pt) ← map_given_frames dst_area (page_table ms) (data_frames src_area) true;
  mret (mkMS pt (bt_insert dst_vpn a (areatree ms))).

(** ** Construction and pushing *)

Definition ms_new_from_kernel (global_root : Z) : ST world MemorySet :=
  pt ← pt_new_from_kernel global_root; mret (mkMS pt []).

Definition new_bare : ST world MemorySet :=
  pt ← pt_new; mret (mkMS pt []).

Definition ms_token (ms : MemorySet) : Z := pt_token (page_table ms).

Definition push_with_offset (ms : MemorySet) (a : MapArea) (offset : Z) (data : option (list Z))
    : ST world (result unit SysErrNo * MemorySet) :=
  '(r, a', pt) ← area_map a (page_table ms);
  match r with
  | Err e => _ ← drop_area a'; mret (Err e, mkMS pt (areatree ms))
  | Ok _ =>
      _ ← match data with
          | Some d => copy_data a' pt d offset
          | None => mret tt
          end;
      t ← areas_push (areatree ms) a';
      mret (Ok tt, mkMS pt t)
  end.

Definition ms_push (ms : MemorySet) (a : MapArea) (data : option (list Z))
    : ST world (result unit SysErrNo * MemorySet) :=
  '(r, a', pt) ← area_map a (page_table ms);
  match r with
  | Err e => _ ← drop_area a'; mret (Err e, mkMS pt (areatree ms))
  | Ok _ =>
      _ ← match data with
          | Some d => copy_data a' pt d 0
          | None => mret tt
          end;
      t ← areas_push (areatree ms) a';
      mret (Ok tt, mkMS pt t)
  end.

Definition insert_framed_area (ms : MemorySet) (start_va end_va perm : Z) (at_ : MapAreaType)
    : ST world (result unit SysErrNo * MemorySet) :=
  a ← st_lift (MapArea_new start_va end_va Framed perm at_);
  ms_push ms a None.

Definition remove_area_with_start_vpn (ms : MemorySet) (start : Z) : ST world MemorySet :=
  match bt_get start (areatree ms) with
  | None => mret ms
  | Some area =>
      let t := bt_remove start (areatree ms) in
      area' ← area_unmap area (page_table ms);
      _ ← drop_area area';
      mret (set_areas t ms)
  end.

Definition push_with_given_frames (ms : MemorySet) (a : MapArea) (frames : list (Z * Z))
    (is_cow : bool) : ST world MemorySet :=
  '(a', pt) ← map_given_frames a (page_table ms) frames is_cow;
  t ← areas_push (areatree ms) a';
  mret (mkMS pt t).

(** ** Growing and shrinking an area *)

Definition ms_shrink_to (ms : MemorySet) (start new_end : Z) : ST world (bool * MemorySet) :=
  let k := VirtAddr_floor start in
  match bt_get k (areatree ms) with
  | None => mret (false, ms)
  | Some area =>
      e ← st_lift (VirtAddr_ceil new_end);
      a ← area_shrink_to area (page_table ms) e;
      mret (true, set_areas (bt_insert k a (areatree ms)) ms)
  end.

(** The result of [MapArea::append_to] is not looked at. *)
Definition ms_append_to (ms : MemorySet) (start new_end : Z) : ST world (bool * MemorySet) :=
  let k := VirtAddr_floor start in
  match bt_get k (areatree ms) with
  | None => mret (false, ms)
  | Some area =>
      e ← st_lift (VirtAddr_ceil new_end);
      '(_, a, pt) ← area_append_to area (page_table ms) e;
      mret (true, mkMS pt (bt_insert k a (areatree ms)))
  end.

Definition is_region_alloc (ms : MemorySet) (start_va end_va : Z) : outcome bool :=
  e ← VirtAddr_ceil end_va;
  is_fully_contained (areatree ms) (VirtAddr_floor start_va) e.

(** ** mprotect *)

(** The areas are taken out of the tree from the lowest on; those that
    overlap the range are kept apart. *)
Fixpoint take_overlapped (t : VmAreaTree) (s e : Z) : list (Z * MapArea) * VmAreaTree :=
  match t with
  | [] => ([], [])
  | (k, a) :: t' =>
      let '(over, prev) := take_overlapped t' s e in
      if overlap_with a s e then ((k, a) :: over, prev) else (over, (k, a) :: prev)
  end.

Definition mprotect_area (fs : inodes) (pt : PageTable) (t : VmAreaTree) (s e flags : Z)
    (area : MapArea) : ST world (VmAreaTree * inodes) :=
  '(t, area, fs) ←
    (if contained_in area s e then
       area ← update_flags area pt flags;
       mret (t, area, fs)
     else if strict_contain area s e then
       '(area, mid, right_, fs) ← st_lift (area_split3 fs area s e);
       mid ← update_flags mid pt flags;
       t ← areas_insert_new t (start_vpn mid) mid;
       t ← areas_insert_new t (start_vpn right_) right_;
       mret (t, area, fs)
     else if (s <=? start_vpn area) && (start_vpn area <? e) then
       '(area, right_, fs) ← st_lift (area_split fs area e);
       area ← update_flags area pt flags;
       t ← areas_insert_new t (start_vpn right_) right_;
       mret (t, area, fs)
     else
       '(area, right_, fs) ← st_lift (area_split fs area s);
       right_ ← update_flags right_ pt flags;
       t ← areas_insert_new t (start_vpn right_) right_;
       mret (t, area, fs));
  t ← areas_insert_new t (start_vpn area) area;
  mret (t, fs).

Fixpoint mprotect_loop (fs : inodes) (pt : PageTable) (t : VmAreaTree) (s e flags : Z)
    (over : list (Z * MapArea)) : ST world (VmAreaTree * inodes) :=
  match over with
  | [] => mret (t, fs)
  | (_, area) :: l =>
      '(t', fs') ← mprotect_area fs pt t s e flags area;
      mprotect_loop fs' pt t' s e flags l
  end.

Definition mprotect (fs : inodes) (ms : MemorySet) (start size flags : Z)
    : ST world (MemorySet * inodes) :=
  end_ ← st_lift (uadd start size);
  end_vpn ← st_lift (VirtAddr_ceil end_);
  let start_vpn := VirtAddr_floor start in
  let '(over, prev) := take_overlapped (areatree ms) start_vpn end_vpn in
  '(t, fs') ← mprotect_loop fs (page_table ms) prev start_vpn end_vpn flags over;
  mret (set_areas t ms, fs').

(** ** mremap and madvise *)

Definition MREMAP_MAYMOVE : Z := 1.

Definition mremap (ms : MemorySet) (old_start old_size new_size flags : Z)
    : ST world (result Z SysErrNo * MemorySet) :=
  let old_start_vpn := VirtAddr_floor old_start in
  match find_area (areatree ms) old_start_vpn with
  | None => mret (Err EFAULT, ms)
  | Some start =>
      lacklen ← st_lift (ichk (wrap_isize new_size - wrap_isize old_size));
      new_end ← st_lift (uadd old_start new_size);
      old_area ← st_lift (unwrap (bt_get start (areatree ms)));
      if lacklen =? 0 then mret (Ok old_start, ms)
      else if lacklen <? 0 then
        '(_, ms') ← ms_shrink_to ms (VirtAddr_of_VirtPageNum start) new_end;
        mret (Ok old_start, ms')
      else
        let pages := Z.shiftr new_size PAGE_SIZE_BITS in
        gap ← st_lift (find_gap_from (areatree ms) (Z.shiftr new_end PAGE_SIZE_BITS) pages);
        '(allocated, ms) ←
          match gap with
          | Some vpn =>
              if vpn =? VirtAddr_floor old_start then
                '(_, ms') ← ms_append_to ms (VirtAddr_of_VirtPageNum start) new_end;
                mret (true, ms')
              else mret (false, ms)
          | None => mret (false, ms)
          end;
        if negb allocated && fl_contains flags MREMAP_MAYMOVE then
          gap ← st_lift (find_gap_from (areatree ms) MMAP_PGNUM_TOP pages);
          match gap with
          | None => mret (Err ENOMEM, ms)
          | Some vpn =>
              end_vpn ← st_lift (uadd vpn pages);
              new_area ← st_lift (MapArea_new_by_vpn vpn end_vpn Framed
                (Z.lor (Z.lor MP_U MP_W) MP_R) (area_type old_area));
              '(r, ms) ← ms_push ms new_area None;
              match r with
              | Err e => mret (Err e, ms)
              | Ok _ =>
                  _ ← copy_pages (page_table ms) (page_table ms)
                        (zip (range_list (vpn_range new_area)) (range_list (vpn_range old_area)));
                  ms ← munmap ms (rl (vpn_range old_area)) (rr (vpn_range old_area));
                  mret (Ok (shl64 vpn PAGE_SIZE_BITS), ms)
              end
          end
        else mret (Ok old_start, ms)
  end.

(** One page of [madvise_dontneed]. *)
Definition dontneed_page (pt : PageTable) (t : VmAreaTree) (vpn : Z) : ST world VmAreaTree :=
  m ← st_gets w_mem;
  o ← st_lift (find_pte (root_ppn pt) m vpn);
  match o with
  | None => mret t
  | Some (f, i) =>
      if la_is_valid (read_word m f i) then
        _ ← st_lift (la_ppn (read_word m f i));
        e ← st_lift (la_new 0 0);
        _ ← st_modify (fun w => set_mem (write_word (w_mem w) f i e) w);
        match find_area t vpn with
        | None => st_panic
        | Some k =>
            match bt_get k t with
            | None => mret t
            | Some area =>
                match bt_get vpn (data_frames area) with
                | None => mret t
                | Some ppn =>
                    _ ← arc_drop ppn;
                    mret (bt_insert k
                      (set_data_frames (bt_remove vpn (data_frames area)) area) t)
                end
            end
        end
      else mret t
  end.

Fixpoint dontneed_loop (pt : PageTable) (t : VmAreaTree) (vpns : list Z) : ST world VmAreaTree :=
  match vpns with
  | [] => mret t
  | vpn :: l => t' ← dontneed_page pt t vpn; dontneed_loop pt t' l
  end.

Definition madvise_dontneed (ms : MemorySet) (start_vpn end_vpn : Z) : ST world MemorySet :=
  e ← st_lift (uadd end_vpn 1);
  r ← st_lift (range_new start_vpn e);
  t ← dontneed_loop (page_table ms) (areatree ms) (range_list r);
  mret (set_areas t ms).

(** ** Code that works on mapped files *)

Section files.

(** The [File] trait: reading the file with a number into a buffer, from its
    cursor on, and writing a buffer to it. *)
Variable file_read : Z -> UserBuffer -> inodes -> ST world (result Z SysErrNo * inodes).
Variable file_write : Z -> UserBuffer -> ST world (result Z SysErrNo).

(** Fills a page of a file mapping, and puts the cursor of the file back. *)
Definition fault_read (fs : inodes) (area : MapArea) (pt : PageTable) (start_vpn va : Z)
    : ST world inodes :=
  match area_fd area with
  | None => mret fs
  | Some mf =>
      inner ← st_lift (unwrap (fs !! mf_file mf));
      '(r0, inner) ← st_lift (lseek inner 0 SEEK_CUR);
      old_offset ← st_lift (result_unwrap r0);
      m ← st_gets w_mem;
      user_buff ← st_lift (translated_byte_buffer (pt_token pt) m va PAGE_SIZE);
      d ← st_lift (usub va (VirtAddr_of_VirtPageNum start_vpn));
      off ← st_lift (uadd d (mf_offset mf));
      '(r1, inner) ← st_lift (lseek inner (wrap_isize off) SEEK_SET);
      _ ← st_lift (result_unwrap r1);
      '(r2, fs) ← file_read (mf_file mf) user_buff (<[mf_file mf := inner]> fs);
      _ ← st_lift (result_unwrap r2);
      inner ← st_lift (unwrap (fs !! mf_file mf));
      '(r3, inner) ← st_lift (lseek inner (wrap_isize old_offset) SEEK_SET);
      _ ← st_lift (result_unwrap r3);
      mret (<[mf_file mf := inner]> fs)
  end.

Definition is_mmap (a : MapArea) : bool := bool_decide (area_type a = AT_Mmap).
Definition is_stack (a : MapArea) : bool := bool_decide (area_type a = AT_Stack).

(** The branch of [handle_page_fault] for a frame with other owners. *)
Definition cow_copy (area : MapArea) (pt : PageTable) (vpn : Z) : ST world (MapArea * PageTable) :=
  src_ppn ← translate_ppn pt vpn;
  src ← st_lift (frame_base src_ppn);
  area ← unmap_one area pt vpn;
  '(r, area, pt) ← map_one area pt vpn;
  _ ← st_lift (result_unwrap r);
  dst_ppn ← translate_ppn pt vpn;
  dst ← st_lift (frame_base dst_ppn);
  _ ← st_modify (fun w => set_mem (copy_words (w_mem w) dst src 0) w);
  (* [un_cow] of a copy of the entry *)
  m ← st_gets w_mem;
  o ← st_lift (pt_translate (root_ppn pt) m vpn);
  new_pte ← st_lift (unwrap o);
  _ ← st_lift (la_un_cow new_pte);
  mret (area, pt).

Definition handle_page_fault (fs : inodes) (ms : MemorySet) (stval : Z) (is_write : bool)
    : ST world (result bool PageFaultError * MemorySet * inodes) :=
  let vpn := VirtAddr_floor stval in
  let va := VirtAddr_of_VirtPageNum vpn in
  let pt := page_table ms in
  match find_area (areatree ms) vpn with
  | None => mret (Err AreaNotFound, ms, fs)
  | Some start_vpn =>
      area ← st_lift (unwrap (bt_get start_vpn (areatree ms)));
      if negb (is_mmap area) && negb (is_stack area) then mret (Err NotMmapType, ms, fs)
      else if range_empty (vpn_range area) then mret (Err RangeEmpty, ms, fs)
      else if negb (area_allocated area vpn) then
        if range_contains (vpn_range area) vpn then
          '(r, area, pt) ← map_one area pt vpn;
          _ ← st_lift (result_unwrap r);
          fs ← fault_read fs area pt start_vpn va;
          mret (Ok true, mkMS pt (bt_insert start_vpn area (areatree ms)), fs)
        else st_panic
      else
        m ← st_gets w_mem;
        o ← st_lift (find_pte (root_ppn pt) m vpn);
        match o with
        | None => st_panic
        | Some (f, i) =>
            cow ← st_lift (la_is_cow (read_word m f i));
            if (cow || is_write : bool) then
              ppn ← st_lift (unwrap (bt_get vpn (data_frames area)));
              refs ← st_gets w_refs;
              ref_count ← st_lift (unwrap (refs !! ppn));
              if 1 <? ref_count then
                '(area, pt) ← cow_copy area pt vpn;
                mret (Ok true, mkMS pt (bt_insert start_vpn area (areatree ms)), fs)
              else
                e ← st_lift (la_un_cow (read_word m f i));
                _ ← st_modify (fun w => set_mem (write_word (w_mem w) f i e) w);
                mret (Ok true, ms, fs)
            else mret (Ok false, ms, fs)
        end
  end.

(** [safe_translate]: faults the page in until its entry is valid.  [n] bounds
    the iterations of the [loop]. *)
Fixpoint safe_translate (n : nat) (fs : inodes) (ms : MemorySet) (vpn : Z)
    : ST world (option Z * MemorySet * inodes) :=
  match n with
  | O => st_panic
  | S n' =>
      let fault :=
        '(r, ms', fs') ← handle_page_fault fs ms (VirtAddr_of_VirtPageNum vpn) true;
        match r with
        | Ok _ => safe_translate n' fs' ms' vpn
        | Err _ => mret (None, ms', fs')
        end in
      m ← st_gets w_mem;
      o ← st_lift (pt_translate (root_ppn (page_table ms)) m vpn);
      match o with
      | None => fault
      | Some pte => if la_is_valid pte then mret (Some pte, ms, fs) else fault
      end
  end.

Definition safe_translate_va (n : nat) (fs : inodes) (ms : MemorySet) (va : Z)
    : ST world (option Z * MemorySet * inodes) :=
  '(o, ms', fs') ← safe_translate n fs ms (VirtAddr_floor va);
  match o with
  | None => mret (None, ms', fs')
  | Some pte =>
      ppn ← st_lift (la_ppn pte);
      pa ← st_lift (uadd (PhysAddr_of_PhysPageNum ppn) (VirtAddr_page_offset va));
      mret (Some pa, ms', fs')
  end.

(** The loop of [manual_alloc_range_for_lazy] over the pages of the range. *)
Fixpoint manual_alloc_loop (fs : inodes) (ms : MemorySet) (vpns : list Z)
    : ST world (result unit PageFaultError * MemorySet * inodes) :=
  match vpns with
  | [] => mret (Ok tt, ms, fs)
  | vpn :: l =>
      '(r, ms', fs') ← handle_page_fault fs ms (VirtAddr_of_VirtPageNum vpn) true;
      match r with
      | Err NotMmapType | Err RangeEmpty | Err AlreadyAllocated | Ok _ =>
          manual_alloc_loop fs' ms' l
      | Err e => mret (Err e, ms', fs')
      end
  end.

Definition manual_alloc_range_for_lazy (fs : inodes) (ms : MemorySet) (start_va end_va : Z)
    : ST world (result unit PageFaultError * MemorySet * inodes) :=
  _ ← st_lift (rassert (start_va <=? end_va));
  e ← st_lift (VirtAddr_ceil end_va);
  manual_alloc_loop fs ms (zrange (VirtAddr_floor start_va) e).

Definition manual_alloc_type_for_lazy (fs : inodes) (ms : MemorySet) (start size : Z)
    : ST world (result unit SysErrNo * MemorySet * inodes) :=
  d ← st_lift (usub size 1);
  if u64_bound <=? start + d then mret (Err EINVAL, ms, fs)
  else
    '(r, ms', fs') ← manual_alloc_range_for_lazy fs ms start (start + d);
    match r with
    | Err e => mret (Err (errno_of_PageFaultError e), ms', fs')
    | Ok _ => mret (Ok tt, ms', fs')
    end.

(** Runs code that works on memory alone. *)
Definition on_mem {A} (c : ST pmem A) : ST world A :=
  m ← st_gets w_mem;
  '(r, m') ← st_lift (c m);
  _ ← st_modify (set_mem m');
  mret r.

Definition safe_put_data (fs : inodes) (ms : MemorySet) (ptr : Z) (data : list Z)
    : ST world (result unit PutDataError * MemorySet * inodes) :=
  if zlen data =? 0 then mret (Ok tt, ms, fs)
  else
    e ← st_lift (uadd ptr (zlen data));
    '(r, ms', fs') ← manual_alloc_range_for_lazy fs ms ptr e;
    match r with
    | Err _ => mret (Err (PD_TranslationFailed ptr), ms', fs')
    | Ok _ =>
        r' ← on_mem (put_data_at (root_ppn (page_table ms')) ptr data);
        mret (r', ms', fs')
    end.

(** [safe_translated_byte_buffer]; [n] bounds the pages, [k] the faults of one
    page. *)
Fixpoint safe_byte_buffer_loop (n k : nat) (fs : inodes) (ms : MemorySet) (start end_ : Z)
    (v : UserBuffer) : ST world (UserBuffer * MemorySet * inodes) :=
  match n with
  | O => st_panic
  | S n' =>
      if start <? end_ then
        let vpn := VirtAddr_floor start in
        '(o, ms, fs) ← safe_translate k fs ms vpn;
        pte ← st_lift (unwrap o);
        ppn ← st_lift (la_ppn pte);
        vpn' ← st_lift (step vpn);
        let end_va := Z.min (VirtAddr_of_VirtPageNum vpn') end_ in
        f ← st_lift (frame_base ppn);
        let lo := VirtAddr_page_offset start in
        let hi := if VirtAddr_page_offset end_va =? 0 then PAGE_SIZE
                  else VirtAddr_page_offset end_va in
        _ ← st_lift (rassert (lo <=? hi));
        safe_byte_buffer_loop n' k fs ms (usize_of_VirtAddr end_va) end_
          (v ++ [mkSlice (f * PAGE_SIZE + lo) (hi - lo)])
      else mret (v, ms, fs)
  end.

Definition safe_translated_byte_buffer (k : nat) (fs : inodes) (ms : MemorySet) (ptr len : Z)
    : ST world (UserBuffer * MemorySet * inodes) :=
  end_ ← st_lift (uadd ptr len);
  safe_byte_buffer_loop (Z.to_nat (len / PAGE_SIZE + 3)) k fs ms ptr end_ [].

(** [safe_translated_str]; [n] bounds its length, [k] the faults per page. *)
Fixpoint safe_translated_str (n k : nat) (fs : inodes) (ms : MemorySet) (va : Z)
    : ST world (list Z * MemorySet * inodes) :=
  match n with
  | O => st_panic
  | S n' =>
      '(o, ms, fs) ← safe_translate_va k fs ms va;
      pa ← st_lift (unwrap o);
      pa ← st_lift (pa_deref pa);
      m ← st_gets w_mem;
      let ch := pa_read m pa in
      if ch =? 0 then mret ([], ms, fs)
      else
        va' ← st_lift (uadd va 1);
        '(rest, ms, fs) ← safe_translated_str n' k fs ms va';
        mret (ch :: rest, ms, fs)
  end.

Definition safe_translated_refmut (k : nat) (fs : inodes) (ms : MemorySet) (ptr : Z)
    : ST world (result Z SysErrNo * MemorySet * inodes) :=
  '(o, ms, fs) ← safe_translate_va k fs ms ptr;
  match o with
  | Some pa => pa ← st_lift (pa_deref pa); mret (Ok pa, ms, fs)
  | None => mret (Err EFAULT, ms, fs)
  end.

(** [None] is the dangling reference to a zero-sized type. *)
Definition safe_get_target_ref (k : nat) (fs : inodes) (ms : MemorySet) (va size : Z)
    : ST world (result (option Z) TranslateError * MemorySet * inodes) :=
  '(o, ms, fs) ← safe_translate_va k fs ms va;
  match o with
  | None => mret (Err (TranslationFailed va), ms, fs)
  | Some start_pa =>
      if size =? 0 then mret (Ok None, ms, fs)
      else
        last ← st_lift (uadd start_pa (size - 1));
        if negb (PhysAddr_floor start_pa =? PhysAddr_floor last)
        then mret (Err DataCrossesPageBoundary, ms, fs)
        else pa ← st_lift (pa_deref start_pa); mret (Ok (Some pa), ms, fs)
  end.

(** ** The end of an address space *)

Fixpoint write_back (pt : PageTable) (t : VmAreaTree) : ST world (result unit SysErrNo) :=
  match t with
  | [] => mret (Ok tt)
  | (_, area) :: t' =>
      if is_mmap area && fl_contains (mmap_flags area) MAP_SHARED
         && fl_contains (map_perm area) MP_W
      then
        let addr := VirtAddr_of_VirtPageNum (rl (vpn_range area)) in
        mapped_len ← st_lift (umul
          (zcount (area_allocated area) (range_list (vpn_range area))) PAGE_SIZE);
        mf ← st_lift (unwrap (area_fd area));
        m ← st_gets w_mem;
        buf ← st_lift (translated_byte_buffer (pt_token pt) m addr mapped_len);
        _ <-? file_write (mf_file mf) buf;
        write_back pt t'
      else write_back pt t'
  end.

Definition recycle_data_pages (ms : MemorySet) : ST world (result Z SysErrNo * MemorySet) :=
  r ← write_back (page_table ms) (areatree ms);
  match r with
  | Err e => mret (Err e, ms)
  | Ok _ =>
      _ ← st_iter (fun '(_, a) => drop_area a) (areatree ms);
      pt ← pt_clear (page_table ms);
      mret (Ok 0, mkMS pt [])
  end.

(** ** fork *)

Definition set_mmap_flags (fl : Z) (a : MapArea) : MapArea :=
  mkArea (vpn_range a) (data_frames a) (map_type a) (map_perm a) (area_type a) (area_fd a) fl.

(** One area of [from_existed_user]. *)
Definition fork_area (now pid : Z) (old child : MemorySet) (shm : ShmManager) (area : MapArea)
    : ST world (MemorySet * ShmManager) :=
  new_area ← st_lift (from_another area);
  if is_mmap area && fl_contains (mmap_flags area) MAP_SHARED then
    child ← push_with_given_frames child new_area (data_frames area) false;
    mret (child, shm)
  else if is_mmap area then
    let new_area := set_mmap_flags (fl_insert (mmap_flags new_area) MAP_PRIVATE) new_area in
    child ← push_with_given_frames child new_area (data_frames area) true;
    _ ← st_iter (fun '(vpn, _) => pte_modify (page_table old) vpn la_set_cow) (data_frames area);
    mret (child, shm)
  else
    match area_type area with
    | AT_Shm shmid =>
        seg ← st_lift (unwrap (id_to_segment shm !! shmid));
        seg' ← st_lift (attach now (as_u32 pid) seg);
        let shm' := mkShmManager (key_to_id shm) (<[shmid := seg']> (id_to_segment shm))
                      (next_id shm) in
        child ← push_with_given_frames child new_area (data_frames area) false;
        mret (child, shm')
    | _ =>
        '(r, child) ← ms_push child new_area None;
        _ ← st_lift (result_unwrap r);
        _ ← copy_pages (page_table child) (page_table old)
              ((fun v => (v, v)) <$> range_list (vpn_range area));
        mret (child, shm)
    end.

Fixpoint fork_areas (now pid : Z) (old child : MemorySet) (shm : ShmManager)
    (areas : list MapArea) : ST world (MemorySet * ShmManager) :=
  match areas with
  | [] => mret (child, shm)
  | area :: l =>
      '(child', shm') ← fork_area now pid old child shm area;
      fork_areas now pid old child' shm' l
  end.

Definition from_existed_user (global_root now pid : Z) (user_space : MemorySet)
    (shm : ShmManager) : ST world (MemorySet * ShmManager) :=
  child ← ms_new_from_kernel global_root;
  fork_areas now pid user_space child shm
    (List.filter (fun a => negb (is_stack a)) (snd <$> areatree user_space)).

(** [from_existed_user1]: the pages that are not allocated yet are faulted in
    first, then everything but shared mappings is copied. *)
Definition vpns_to_alloc (t : VmAreaTree) : list Z :=
  t ≫= (fun '(_, area) =>
    if is_mmap area && negb (fl_contains (mmap_flags area) MAP_SHARED)
    then List.filter (fun vpn => negb (area_allocated area vpn)) (range_list (vpn_range area))
    else []).

Fixpoint fault_all (fs : inodes) (ms : MemorySet) (vpns : list Z)
    : ST world (MemorySet * inodes) :=
  match vpns with
  | [] => mret (ms, fs)
  | vpn :: l =>
      '(r, ms', fs') ← handle_page_fault fs ms (shl64 vpn PAGE_SIZE_BITS) true;
      _ ← st_lift (result_unwrap r);
      fault_all fs' ms' l
  end.

Fixpoint fork_areas1 (old child : MemorySet) (areas : list MapArea) : ST world MemorySet :=
  match areas with
  | [] => mret child
  | area :: l =>
      new_area ← st_lift (from_another area);
      child ←
        (if is_mmap area && fl_contains (mmap_flags area) MAP_SHARED then
           push_with_given_frames child new_area (data_frames area) false
         else
           '(r, child) ← ms_push child new_area None;
           _ ← st_lift (result_unwrap r);
           _ ← copy_pages (page_table child) (page_table old)
                 ((fun v => (v, v)) <$> range_list (vpn_range area));
           mret child);
      fork_areas1 old child l
  end.

Definition from_existed_user1 (global_root : Z) (fs : inodes) (user_space : MemorySet)
    : ST world (MemorySet * MemorySet * inodes) :=
  child ← ms_new_from_kernel global_root;
  '(user_space, fs) ← fault_all fs user_space (vpns_to_alloc (areatree user_space));
  child ← fork_areas1 user_space child (snd <$> areatree user_space);
  mret (child, user_space, fs).

End files.

(** ** Program loading *)

(** What the kernel uses of a parsed ELF file. *)
Inductive PhType : Type := Load | Interp | Tls | GnuRelro | PhOther.

#[export] Instance PhType_eq_dec : EqDecision PhType.
Proof. solve_decision. Defined.

Record ProgramHeader : Type := mkPh {
  ph_type : PhType;
  ph_offset : Z;
  ph_virtual_addr : Z;
  ph_file_size : Z;
  ph_mem_size : Z;
  ph_read : bool;
  ph_write : bool;
  ph_execute : bool
}.

Record ElfFile : Type := mkElf {
  elf_entry_point : Z;
  elf_ph_entry_size : Z;
  elf_ph_offset : Z;
  elf_phs : list ProgramHeader;
  elf_input : list Z
}.

Definition ph_perm (ph : ProgramHeader) : Z :=
  let p := MP_U in
  let p := if ph_read ph then Z.lor p MP_R else p in
  let p := if ph_write ph then Z.lor p MP_W else p in
  if ph_execute ph || bool_decide (ph_type ph = GnuRelro) then Z.lor p MP_X else p.

(** The loop of [map_elf]; [max_end_vpn] and [header_va] are its variables
    ([None] until a header is found). *)
Fixpoint map_elf_loop (elf : ElfFile) (offset : Z) (phs : list ProgramHeader) (ms : MemorySet)
    (max_end_vpn : Z) (header_va : option Z) : ST world (result (Z * Z * Z) SysErrNo * MemorySet) :=
  match phs with
  | [] => mret (Ok (max_end_vpn, default 0 header_va, 0), ms)
  | ph :: l =>
      if bool_decide (ph_type ph = Load) then
        start_va ← st_lift (uadd (ph_virtual_addr ph) offset);
        e ← st_lift (uadd (ph_virtual_addr ph) (ph_mem_size ph));
        end_va ← st_lift (uadd e offset);
        let header_va := match header_va with Some h => Some h | None => Some start_va end in
        map_area ← st_lift (MapArea_new start_va end_va Framed (ph_perm ph) AT_Elf);
        base ← st_lift (umul (VirtAddr_floor start_va) PAGE_SIZE);
        data_offset ← st_lift (usub start_va base);
        let max_end_vpn := rr (vpn_range map_area) in
        file_end ← st_lift (uadd (ph_offset ph) (ph_file_size ph));
        data ← st_lift (slice (elf_input elf) (ph_offset ph) file_end);
        '(r, ms) ← push_with_offset ms map_area data_offset (Some data);
        match r with
        | Err e => mret (Err e, ms)
        | Ok _ => map_elf_loop elf offset l ms max_end_vpn header_va
        end
      else map_elf_loop elf offset l ms max_end_vpn header_va
  end.

Definition map_elf (ms : MemorySet) (elf : ElfFile) (offset : Z)
    : ST world (result (Z * Z * Z) SysErrNo * MemorySet) :=
  map_elf_loop elf offset (elf_phs elf) ms (VirtAddr_floor offset) None.

(** [from_elf]; [interp] is the interpreter that the file names, parsed. *)
Definition from_elf (global_root : Z) (elf interp : ElfFile)
    : ST world (MemorySet * Z * Z * list Aux * bool) :=
  ms ← ms_new_from_kernel global_root;
  let auxv := [mkAux AUX_PHENT (elf_ph_entry_size elf); mkAux AUX_PHNUM (zlen (elf_phs elf));
               mkAux AUX_PAGESZ PAGE_SIZE] in
  let is_dl := existsb (fun ph => bool_decide (ph_type ph = Interp)) (elf_phs elf) in
  '(ms, entry_point, auxv) ←
    (if is_dl then
       '(r, ms) ← map_elf ms interp DL_INTERP_OFFSET;
       _ ← st_lift (result_unwrap r);
       entry ← st_lift (uadd (elf_entry_point interp) DL_INTERP_OFFSET);
       mret (ms, entry, auxv ++ [mkAux AUX_BASE DL_INTERP_OFFSET])
     else mret (ms, elf_entry_point elf, auxv ++ [mkAux AUX_BASE 0]));
  let auxv := auxv ++ [mkAux AUX_FLAGS 0; mkAux AUX_ENTRY (elf_entry_point elf);
    mkAux AUX_UID 0; mkAux AUX_EUID 0; mkAux AUX_GID 0; mkAux AUX_EGID 0;
    mkAux AUX_PLATFORM 0; mkAux AUX_HWCAP 0; mkAux AUX_CLKTCK 100; mkAux AUX_SECURE 0;
    mkAux AUX_NOTELF 0x112d] in
  '(r, ms) ← map_elf ms elf 0;
  '(max_end_vpn, head_va, _) ← st_lift (result_unwrap r);
  ph_head_addr ← st_lift (uadd head_va (elf_ph_offset elf));
  let auxv := auxv ++ [mkAux AUX_PHDR ph_head_addr] in
  user_heap_bottom ← st_lift (uadd (usize_of_VirtAddr (VirtAddr_of_VirtPageNum max_end_vpn))
                                   PAGE_SIZE);
  heap ← st_lift (MapArea_new user_heap_bottom user_heap_bottom Framed
                    (Z.lor (Z.lor MP_R MP_W) MP_U) AT_Brk);
  '(r, ms) ← ms_push ms heap None;
  _ ← st_lift (result_unwrap r);
  mret (ms, user_heap_bottom, entry_point, auxv, is_dl).
