(* ===== verification/Munmap.v ===== *)
(** * Unmapping a range of an address space

    [MemorySet::munmap] (os/src/mm/memory_set.rs) on consistent address
    spaces: what it does to the areas, to the page table and to the frames.
    The areas afterwards cover exactly the pages that were covered and are
    outside the range.  The parts of an area that are kept lose their frames,
    though, while the page table goes on mapping them. *)

From S2P Require Import Prelude Config Address BitField Memory FrameAlloc.
From S2P Require Import FrameSpec Pte PageTable BTree Errno Area.
From S2P Require Import AreaTree AreaMap UserMem Shm MemorySet.

(** ** Trees by lookup *)

Lemma zget_insert {V} (k : Z) (v : V) t j : bt_sorted t ->
  bt_get j (bt_insert k v t) = if decide (j = k) then Some v else bt_get j t.
Proof.
  intros Hs. rewrite get_insert by done. destruct (decide (j = k)) as [->|Hne].
  - by rewrite kcmp_refl.
  - destruct (kcmp j k) eqn:E; [by apply kcmp_eq in E|done|done].
Qed.

Lemma zget_remove {V} k (t : list (Z * V)) j : bt_sorted t ->
  bt_get j (bt_remove k t) = if decide (j = k) then None else bt_get j t.
Proof.
  intros Hs. rewrite get_remove by done. destruct (decide (j = k)) as [->|Hne].
  - by rewrite kcmp_refl.
  - destruct (kcmp j k) eqn:E; [by apply kcmp_eq in E|done|done].
Qed.

Lemma tree_wf_get t : bt_sorted t ->
  (forall k a, bt_get k t = Some a -> k = start_vpn a /\ 0 <= start_vpn a <= end_vpn a /\
     end_vpn a < 2 ^ 52) ->
  (forall k1 a1 k2 a2, bt_get k1 t = Some a1 -> bt_get k2 t = Some a2 -> k1 < k2 ->
     end_vpn a1 <= k2) -> tree_wf t.
Proof.
  intros Hs Hk Hd. constructor; [done| |].
  - intros k a H%(elem_get _ _ _ Hs). by apply Hk.
  - intros k1 a1 k2 a2 H1%(elem_get _ _ _ Hs) H2%(elem_get _ _ _ Hs). exact (Hd k1 a1 k2 a2 H1 H2).
Qed.

Section tree.
Variables (t : VmAreaTree).
Hypothesis Hwf : tree_wf t.

Lemma tree_key k a : bt_get k t = Some a ->
  k = start_vpn a /\ 0 <= start_vpn a <= end_vpn a /\ end_vpn a < 2 ^ 52.
Proof. intros H%get_Some_elem. by apply (tw_key t Hwf). Qed.

Lemma tree_disj k1 a1 k2 a2 : bt_get k1 t = Some a1 -> bt_get k2 t = Some a2 -> k1 < k2 ->
  end_vpn a1 <= k2.
Proof. intros H1%get_Some_elem H2%get_Some_elem. exact (tw_disj t Hwf k1 a1 k2 a2 H1 H2). Qed.

(** A page belongs to one area. *)
Lemma tree_unique k1 a1 k2 a2 v : bt_get k1 t = Some a1 -> bt_get k2 t = Some a2 ->
  start_vpn a1 <= v < end_vpn a1 -> start_vpn a2 <= v < end_vpn a2 -> k1 = k2 /\ a1 = a2.
Proof.
  intros H1 H2 V1 V2. destruct (tree_key _ _ H1) as [-> _], (tree_key _ _ H2) as [-> _].
  destruct (Z.lt_trichotomy (start_vpn a1) (start_vpn a2)) as [Hlt|[E|Hlt]].
  - pose proof (tree_disj _ _ _ _ H1 H2 Hlt). lia.
  - split; [done|]. rewrite E in H1. congruence.
  - pose proof (tree_disj _ _ _ _ H2 H1 Hlt). lia.
Qed.

Lemma covered_get v : covered t v <-> exists k a, bt_get k t = Some a /\ start_vpn a <= v < end_vpn a.
Proof.
  split; intros (k & a & H & Hv); exists k, a; (split; [|done]).
  - by apply elem_get; [apply Hwf|].
  - by apply get_Some_elem.
Qed.

End tree.

(** ** Dropping the frames of an area *)

(** The handles [ps], each of another frame, are dropped. *)
Record dropped (w : world) (ps : list Z) (w' : world) : Prop := {
  dr_wf : world_wf w';
  dr_mem : w_mem w' = w_mem w;
  dr_vec : w_frame_vec w' = w_frame_vec w;
  dr_in : forall p n, p ∈ ps -> w_refs w !! p = Some n ->
    w_refs w' !! p = (if n =? 1 then None else Some (n - 1)) /\
    fa_free (w_fa w') p = (n =? 1);
  dr_out : forall p, p ∉ ps -> w_refs w' !! p = w_refs w !! p /\
    fa_free (w_fa w') p = fa_free (w_fa w) p
}.

Lemma arc_drop_spec w p n : world_wf w -> w_refs w !! p = Some n -> w_frame_vec w !! p = None ->
  exists w', arc_drop p w = Ret (tt, w') /\ dropped w [p] w'.
Proof.
  intros Hw Hp Hv. destruct (decide (n = 1)) as [->|Hn].
  - destruct (arc_drop_last w p Hw Hp Hv) as (w' & E & H1 & H2 & H3 & H4 & _ & H5).
    exists w'. split; [done|]. constructor; try done.
    + intros q n [->|[]%not_elem_of_nil]%elem_of_cons Hq. rewrite Hp in Hq. injection Hq as <-.
      rewrite H3, lookup_delete_eq, H5, !Z.eqb_refl. done.
    + intros q Hq. assert (q <> p) by set_solver. rewrite H3, lookup_delete_ne, H5 by done.
      destruct (Z.eqb_spec q p); done.
  - destruct (arc_drop_shared w p n Hw Hp Hn) as (w' & E & H1 & H2 & H3 & H4 & H5).
    exists w'. split; [done|]. constructor; try done.
    + intros q k [->|[]%not_elem_of_nil]%elem_of_cons Hq. rewrite Hp in Hq. injection Hq as <-.
      rewrite H3, lookup_insert_eq, H5. destruct (Z.eqb_spec n 1); [done|]. split; [done|].
      apply (ww_refs w Hw). by eexists.
    + intros q Hq. assert (q <> p) by set_solver. rewrite H3, lookup_insert_ne, H5 by done. done.
Qed.

Lemma drop_frames_spec d : forall w, world_wf w -> NoDup (snd <$> d) ->
  (forall v p, (v, p) ∈ d -> is_Some (w_refs w !! p) /\ w_frame_vec w !! p = None) ->
  exists w', drop_frames d w = Ret (tt, w') /\ dropped w (snd <$> d) w'.
Proof.
  induction d as [|[v p] d IH]; intros w Hw Hnd Hd.
  { exists w. split; [done|]. constructor; try done. intros p n []%not_elem_of_nil. }
  cbn in Hnd. apply list.NoDup_cons in Hnd as [Hp Hnd].
  destruct (Hd v p ltac:(set_solver)) as [[n Hn] Hv].
  destruct (arc_drop_spec w p n Hw Hn Hv) as (w1 & E1 & D1).
  destruct (IH w1) as (w' & E & D).
  { apply D1. } { done. }
  { intros u q Hin. destruct (Hd u q ltac:(set_solver)) as [Hl Hq].
    rewrite (proj1 (dr_out _ _ _ D1 q ltac:(set_unfold; naive_solver))), (dr_vec _ _ _ D1). done. }
  exists w'. unfold drop_frames in *. cbn [st_iter]. st_unfold. rewrite E1.
  split; [exact E|]. constructor.
  - apply D.
  - rewrite (dr_mem _ _ _ D). apply D1.
  - rewrite (dr_vec _ _ _ D). apply D1.
  - intros q k Hin Hq. cbn in Hin. apply elem_of_cons in Hin as [->|Hin].
    + destruct (dr_out _ _ _ D p Hp) as [-> ->]. by apply (dr_in _ _ _ D1); [set_solver|].
    + assert (q <> p) by (intros ->; done).
      apply (dr_in _ _ _ D); [done|]. by rewrite (proj1 (dr_out _ _ _ D1 q ltac:(set_solver))).
  - intros q Hq. cbn in Hq. apply not_elem_of_cons in Hq as [Hne Hq].
    destruct (dr_out _ _ _ D q Hq) as [-> ->]. apply (dr_out _ _ _ D1). set_solver.
Qed.

(** ** Consistent address spaces *)

Record ms_wf (w : world) (root : Z) (t : VmAreaTree) : Prop := {
  mw_world : world_wf w;
  mw_pt : pt_wf w root;
  mw_tree : tree_wf t;
  mw_sorted : forall k a, bt_get k t = Some a -> bt_sorted (data_frames a);
  mw_frames : forall k a v p, bt_get k t = Some a -> bt_get v (data_frames a) = Some p ->
    start_vpn a <= v < end_vpn a /\ v < 2 ^ 27 /\ is_Some (w_refs w !! p) /\
    not_table (w_mem w) root p /\ w_frame_vec w !! p = None /\
    la_is_valid (pte_at (w_mem w) root v) = true /\ la_ppn (pte_at (w_mem w) root v) = Ret p;
  mw_inj : forall k1 a1 v1 k2 a2 v2 p, bt_get k1 t = Some a1 -> bt_get k2 t = Some a2 ->
    bt_get v1 (data_frames a1) = Some p -> bt_get v2 (data_frames a2) = Some p -> v1 = v2
}.

(** A page whose frame an area of the tree holds. *)
Definition allocated_in (t : VmAreaTree) (v : Z) : Prop :=
  exists k a, bt_get k t = Some a /\ area_allocated a v = true.

Lemma area_allocated_Some a v : area_allocated a v = true <-> exists p, bt_get v (data_frames a) = Some p.
Proof. unfold area_allocated. destruct (bt_get v (data_frames a)); naive_solver. Qed.

(** ** Adding an area *)

Lemma la_flags_valid b f : la_flags b = Ret f -> f <> 0 -> la_is_valid b = true.
Proof.
  intros H Hf. unfold la_is_valid. destruct (Z.eqb_spec b 0) as [->|]; [|done].
  assert (la_flags 0 = Ret 0) as E by reflexivity. congruence.
Qed.

Lemma la_flags_of_perm_nonzero perm : la_flags_of_perm perm <> 0.
Proof.
  unfold la_flags_of_perm. destruct (fl_contains perm MP_W), (fl_contains perm MP_U); done.
Qed.

(** An area that touches no other one can be added to the tree. *)
Lemma tree_push_wf t a : tree_wf t -> 0 <= start_vpn a <= end_vpn a -> end_vpn a < 2 ^ 52 ->
  bt_get (start_vpn a) t = None ->
  (forall k b, bt_get k t = Some b -> end_vpn b <= start_vpn a \/ end_vpn a <= k) ->
  tree_wf (tree_push t a).
Proof.
  intros Hwf Hr Hb Hn Hd. pose proof (tw_sorted t Hwf) as Hs. unfold tree_push.
  apply tree_wf_get; [by apply insert_sorted| |].
  - intros k b. rewrite zget_insert by done. destruct (decide (k = start_vpn a)) as [->|].
    + intros [= <-]. done.
    + by apply tree_key.
  - intros k1 b1 k2 b2. rewrite !zget_insert by done.
    destruct (decide (k1 = start_vpn a)) as [->|], (decide (k2 = start_vpn a)) as [->|].
    + lia.
    + intros [= <-] H2 Hlt. destruct (tree_key t Hwf k2 b2 H2) as (-> & ? & _).
      destruct (Hd _ _ H2); lia.
    + intros H1 [= <-] Hlt. destruct (tree_key t Hwf k1 b1 H1) as (-> & ? & _).
      destruct (Hd _ _ H1); lia.
    + by apply tree_disj.
Qed.

Section push.
Variables (w : world) (root : Z) (t : VmAreaTree) (a : MapArea) (d : list (Z * Z)) (w' : world).
Hypothesis Hms : ms_wf w root t.
Hypothesis Ha : 0 <= start_vpn a <= end_vpn a /\ end_vpn a <= 2 ^ 27.
Hypothesis Hfree : bt_get (start_vpn a) t = None.
Hypothesis Hdisj : forall k b, bt_get k t = Some b -> end_vpn b <= start_vpn a \/ end_vpn a <= k.
Hypothesis Hpost : map_pages_post w root (map_perm a) (range_list (vpn_range a)) [] d w'.

Lemma push_new_frame v p : bt_get v d = Some p ->
  start_vpn a <= v < end_vpn a /\ w_refs w !! p = None /\ w_refs w' !! p = Some 1 /\
  not_table (w_mem w') root p /\ la_is_valid (pte_at (w_mem w') root v) = true /\
  la_ppn (pte_at (w_mem w') root v) = Ret p.
Proof.
  intros Hv. destruct (decide (v ∈ range_list (vpn_range a))) as [Hin|Hn].
  - destruct (ms_new _ _ _ _ _ _ _ Hpost v Hin) as (q & Hq & F1 & F2 & F3 & _ & F5 & F6).
    assert (q = p) as -> by congruence. apply elem_of_zrange in Hin.
    split; [exact Hin|]. split_and!; [done|done|done| |done].
    apply (la_flags_valid _ _ F6), la_flags_of_perm_nonzero.
  - rewrite (ms_old _ _ _ _ _ _ _ Hpost) in Hv by done. done.
Qed.

Lemma push_wf : ms_wf w' root (tree_push t (set_data_frames d a)).
Proof.
  pose proof (tw_sorted t (mw_tree _ _ _ Hms)) as Hs.
  assert (forall k b, bt_get k (tree_push t (set_data_frames d a)) = Some b ->
    b = set_data_frames d a \/ k <> start_vpn a /\ bt_get k t = Some b) as Hcase.
  { intros k b. unfold tree_push. rewrite zget_insert by done.
    destruct (decide _) as [->|Hne]; [intros [= <-]; by left|by right]. }
  assert (forall k b v p, bt_get k t = Some b -> bt_get v (data_frames b) = Some p ->
    is_Some (w_refs w !! p)) as Hlive.
  { intros k b v p Hb Hv. apply (mw_frames _ _ _ Hms k b v p Hb Hv). }
  constructor.
  - apply Hpost.
  - apply Hpost.
  - apply tree_push_wf; [apply Hms|apply Ha|change (end_vpn a < 2 ^ 52); lia|done|done].
  - intros k b [->|[_ H]]%Hcase; [apply Hpost|by apply (mw_sorted _ _ _ Hms k)].
  - intros k b v p [->|[Hne Hb]]%Hcase Hv.
    + destruct (push_new_frame v p Hv) as (F1 & F2 & F3 & F4 & F5 & F6).
      rewrite (ms_vec _ _ _ _ _ _ _ Hpost). split; [exact F1|].
      split_and!; [lia|by eexists|done| |done|done].
      destruct (w_frame_vec w !! p) as [q|] eqn:E; [|done].
      apply (ww_vec w (mw_world _ _ _ Hms)) in E as [_ [n Hn]]. congruence.
    + destruct (mw_frames _ _ _ Hms k b v p Hb Hv) as (F1 & F2 & F3 & F4 & F5 & F6 & F7).
      destruct (tree_key t (mw_tree _ _ _ Hms) k b Hb) as (Ek & Hr & _).
      destruct (ms_data _ _ _ _ _ _ _ Hpost p F3 F4) as (D1 & D2 & _).
      assert (v ∉ range_list (vpn_range a)) as Hv'.
      { intros Hin%elem_of_zrange. fold (start_vpn a) (end_vpn a) in Hin.
        destruct (Hdisj k b Hb); lia. }
      rewrite (ms_vec _ _ _ _ _ _ _ Hpost), (ms_other _ _ _ _ _ _ _ Hpost) by (done || lia).
      split_and!; try done; [lia|lia|by rewrite D1].
  - intros k1 b1 v1 k2 b2 v2 p [->|[_ H1]]%Hcase [->|[_ H2]]%Hcase V1 V2.
    + destruct (push_new_frame v1 p V1) as (F1 & _), (push_new_frame v2 p V2) as (F2 & _).
      apply (ms_inj _ _ _ _ _ _ _ Hpost v1 v2 p); try done; by apply elem_of_zrange.
    + destruct (push_new_frame v1 p V1) as (_ & F & _).
      destruct (Hlive k2 b2 v2 p H2 V2) as [n Hn]. congruence.
    + destruct (push_new_frame v2 p V2) as (_ & F & _).
      destruct (Hlive k1 b1 v1 p H1 V1) as [n Hn]. congruence.
    + by apply (mw_inj _ _ _ Hms k1 b1 v1 k2 b2 v2 p).
Qed.

End push.

Lemma ms_push_spec w ms a : ms_wf w (root_ppn (page_table ms)) (areatree ms) ->
  map_type a = Framed -> data_frames a = [] ->
  0 <= start_vpn a <= end_vpn a -> end_vpn a <= 2 ^ 27 ->
  bt_get (start_vpn a) (areatree ms) = None ->
  (forall k b, bt_get k (areatree ms) = Some b -> end_vpn b <= start_vpn a \/ end_vpn a <= k) ->
  (forall v, start_vpn a <= v < end_vpn a -> pte_at (w_mem w) (root_ppn (page_table ms)) v = 0) ->
  3 * zlen (range_list (vpn_range a)) <= free_count w ->
  exists d pt' w', ms_push ms a None w =
      Ret (Ok tt, mkMS pt' (tree_push (areatree ms) (set_data_frames d a)), w') /\
    root_ppn pt' = root_ppn (page_table ms) /\
    map_pages_post w (root_ppn pt') (map_perm a) (range_list (vpn_range a)) [] d w' /\
    ms_wf w' (root_ppn pt') (tree_push (areatree ms) (set_data_frames d a)).
Proof.
  intros Hms Hty Hd Hr Hb Hn Hdis H0 Hc.
  destruct (map_pages_spec (range_list (vpn_range a)) w a (page_table ms)) as (d & pt' & w' & E & R & M);
    try done; try apply Hms.
  { rewrite Hd. apply SSorted_nil. } { apply NoDup_zrange. }
  { intros v Hv%elem_of_zrange. fold (start_vpn a) (end_vpn a) in Hv. rewrite Hd.
    split_and!; [lia|lia|by apply H0|done]. }
  rewrite Hd in M. exists d, pt', w'. rewrite R.
  split_and!; [|done|done|by apply (push_wf w _ _ _ d w' Hms)].
  unfold ms_push, area_map, areas_push. st_unfold. rewrite E.
  change (start_vpn (set_data_frames d a)) with (start_vpn a). rewrite Hn. done.
Qed.

(** ** One area *)

(** Clearing the entries of the pages of the range that the area has
    allocated. *)
Lemma unmap_list_spec a pt vpns : forall w, world_wf w -> pt_wf w (root_ppn pt) -> NoDup vpns ->
  (forall v, v ∈ vpns -> area_allocated a v = true -> 0 <= v < 2 ^ 27 /\
     la_is_valid (pte_at (w_mem w) (root_ppn pt) v) = true) ->
  exists w', st_iter (fun vpn => if area_allocated a vpn then pt_unmap pt vpn else mret tt) vpns w =
      Ret (tt, w') /\ world_wf w' /\ pt_wf w' (root_ppn pt) /\
    w_refs w' = w_refs w /\ w_fa w' = w_fa w /\ w_frame_vec w' = w_frame_vec w /\
    (forall v, 0 <= v < 2 ^ 27 -> pte_at (w_mem w') (root_ppn pt) v =
       if decide (v ∈ vpns /\ area_allocated a v = true) then 0
       else pte_at (w_mem w) (root_ppn pt) v) /\
    (forall f, is_Some (w_refs w !! f) -> not_table (w_mem w) (root_ppn pt) f ->
       not_table (w_mem w') (root_ppn pt) f /\
       forall i, read_word (w_mem w') f i = read_word (w_mem w) f i).
Proof.
  induction vpns as [|u vpns IH]; intros w Hw Hpt Hnd Hv.
  { exists w. split_and!; done. }
  apply list.NoDup_cons in Hnd as [Hu Hnd]. cbn [st_iter]. st_unfold.
  destruct (area_allocated a u) eqn:Ea.
  - destruct (Hv u ltac:(set_solver) Ea) as [Hur Hval].
    destruct (pt_unmap_spec w pt u Hw Hpt Hur Hval) as (w1 & -> & P & R & F).
    destruct (IH w1) as (w' & E & H1 & H2 & H3 & H4 & H5 & H6 & H7); [apply P|apply P|done| |].
    { intros v Hin Hal. destruct (Hv v ltac:(set_solver) Hal) as [Hr Hva]. split; [done|].
      rewrite (mp_at _ _ _ _ _ P v Hr). destruct (Z.eqb_spec v u); [subst; done|done]. }
    exists w'. unfold mret, ST_ret, mbind in E |- *. rewrite E.
    split_and!; try done; [congruence|congruence|rewrite H5; apply (mp_vec _ _ _ _ _ P)| |].
    + intros v Hr. rewrite H6, (mp_at _ _ _ _ _ P v Hr) by done.
      destruct (Z.eqb_spec v u) as [->|Hne].
      * rewrite (decide_True (P := u ∈ u :: vpns /\ _)) by set_solver. by destruct (decide _).
      * destruct (decide (v ∈ vpns /\ area_allocated a v = true)) as [[? ?]|Hn].
        -- rewrite decide_True by set_solver. done.
        -- rewrite decide_False; [done|]. intros [[->|?]%elem_of_cons ?]; naive_solver.
    + intros f Hl Hnt. destruct (mp_data _ _ _ _ _ P f Hl Hnt) as [N1 D1].
      destruct (H7 f) as [N2 D2]; [by rewrite R|done|]. split; [done|].
      intros i. rewrite D2. apply D1.
  - destruct (IH w) as (w' & E & H1 & H2 & H3 & H4 & H5 & H6 & H7); [done|done|done| |].
    { intros v Hin. apply Hv. set_solver. }
    exists w'. unfold mret, ST_ret, mbind in E |- *. rewrite E. split_and!; try done.
    intros v Hr. rewrite H6 by done. destruct (decide (v ∈ vpns /\ area_allocated a v = true)) as [[? ?]|Hn].
    + rewrite decide_True by set_solver. done.
    + rewrite decide_False; [done|]. intros [[->|?]%elem_of_cons ?]; [congruence|naive_solver].
Qed.

(** The part [x, y) of an area that [munmap] keeps: it has no frames. *)
Definition part (a : MapArea) (x y : Z) : MapArea :=
  mkArea (mkRange x y) [] (map_type a) (map_perm a) (area_type a) None 0.

Lemma part_eq a x y : x <= y -> from_another_with_range a x y = Ret (part a x y).
Proof.
  intros H. unfold from_another_with_range, range_new.
  destruct (Z.leb_spec x y); [done|lia].
Qed.

(** An area made from another one keeps its kind and its permission, and has
    no file if that one has none. *)
Definition same_attr (a b : MapArea) : Prop :=
  map_type b = map_type a /\ map_perm b = map_perm a /\ area_type b = area_type a /\
  (area_fd a = None -> area_fd b = None).

(** The lookups of a tree from which [s, e) was cut out of the area [a]
    stored under [k]. *)
Definition cut_get (t : VmAreaTree) (k : Z) (a : MapArea) (s e j : Z) : option MapArea :=
  if decide (j = e /\ e < end_vpn a) then Some (part a e (end_vpn a))
  else if decide (j = k) then (if start_vpn a <? s then Some (part a (start_vpn a) s) else None)
  else bt_get j t.

(** What removing [s, e) from the area [a] does to the frames and the page
    table. *)
Record cut_post (w : world) (root : Z) (a : MapArea) (s e : Z) (w' : world) : Prop := {
  cp_pte : forall v, 0 <= v < 2 ^ 27 -> pte_at (w_mem w') root v =
    if decide (s <= v < e /\ area_allocated a v = true) then 0 else pte_at (w_mem w) root v;
  cp_in : forall v p n, bt_get v (data_frames a) = Some p -> w_refs w !! p = Some n ->
    w_refs w' !! p = (if n =? 1 then None else Some (n - 1)) /\ fa_free (w_fa w') p = (n =? 1);
  cp_out : forall p, (forall v, bt_get v (data_frames a) <> Some p) ->
    w_refs w' !! p = w_refs w !! p /\ fa_free (w_fa w') p = fa_free (w_fa w) p
}.

Section munmap_area.
Variables (w : world) (pt : PageTable) (t : VmAreaTree) (k : Z) (a : MapArea) (s e : Z).
Notation root := (root_ppn pt).
Hypothesis Hms : ms_wf w root t.
Hypothesis Hk : bt_get k t = Some a.
Hypothesis Hse : 0 <= s <= e.
Hypothesis Hover : k < e /\ s < end_vpn a.

Lemma mu_frames_nodup : NoDup (snd <$> data_frames a).
Proof.
  pose proof (mw_sorted _ _ _ Hms k a Hk) as Hs.
  assert (forall v1 v2 p, (v1, p) ∈ data_frames a -> (v2, p) ∈ data_frames a -> v1 = v2) as Hinj.
  { intros v1 v2 p H1%(elem_get _ _ _ Hs) H2%(elem_get _ _ _ Hs).
    by apply (mw_inj _ _ _ Hms k a v1 k a v2 p). }
  clear -Hs Hinj. induction (data_frames a) as [|[v p] d IH]; [constructor|].
  apply sorted_cons in Hs as [Hf Hs]. cbn. apply list.NoDup_cons. split.
  - intros ([v2 p2] & -> & Hin)%list_elem_of_fmap. cbn in Hinj.
    assert (v = v2) as <- by (apply (Hinj v v2 p2); set_solver).
    rewrite List.Forall_forall in Hf. apply list_elem_of_In, Hf in Hin. by apply klt_irrefl in Hin.
  - apply IH; [done|]. intros v1 v2 q H1 H2. apply (Hinj v1 v2 q); set_solver.
Qed.

Lemma mu_other_free j : j = e -> e < end_vpn a -> bt_get j t = None.
Proof.
  intros -> He. destruct (bt_get e t) as [b|] eqn:E; [|done].
  pose proof (tree_disj t (mw_tree _ _ _ Hms) k a e b Hk E ltac:(lia)). lia.
Qed.

(** The tree that is left. *)
Lemma mu_tree : exists t',
  (forall w0, keep_parts s e a (bt_remove k t) w0 = Ret (t', w0)) /\
  bt_sorted t' /\ (forall j, bt_get j t' = cut_get t k a s e j).
Proof.
  destruct (tree_key t (mw_tree _ _ _ Hms) k a Hk) as (Ek & Hr & _).
  pose proof (tw_sorted t (mw_tree _ _ _ Hms)) as Hs.
  pose proof (remove_sorted k t Hs) as Hs0.
  assert (exists t1, (forall w0, (if start_vpn a <? s then
             l ← st_lift (from_another_with_range a (start_vpn a) s); areas_push (bt_remove k t) l
           else mret (bt_remove k t)) w0 = Ret (t1, w0)) /\ bt_sorted t1 /\
    forall j, bt_get j t1 = if decide (j = k)
      then (if start_vpn a <? s then Some (part a (start_vpn a) s) else None)
      else bt_get j t) as (t1 & E1 & Hs1 & G1).
  { destruct (Z.ltb_spec (start_vpn a) s) as [Hlt|Hge].
    - exists (bt_insert k (part a (start_vpn a) s) (bt_remove k t)). split_and!.
      + intros w0. rewrite part_eq by lia. unfold areas_push, tree_push. st_unfold.
        change (start_vpn (part a (start_vpn a) s)) with (start_vpn a). rewrite <- Ek.
        rewrite zget_remove, decide_True by done. done.
      + by apply insert_sorted.
      + intros j. rewrite zget_insert, zget_remove by done. by destruct (decide (j = k)).
    - exists (bt_remove k t). split_and!; [done|done|]. intros j. by rewrite zget_remove. }
  destruct (Z.ltb_spec e (end_vpn a)) as [Hlt|Hge].
  - exists (bt_insert e (part a e (end_vpn a)) t1). split_and!.
    + intros w0. unfold keep_parts, mbind, ST_bind. unfold mbind, ST_bind in E1. rewrite E1.
      destruct (Z.ltb_spec e (end_vpn a)); [|lia]. rewrite part_eq by lia.
      unfold areas_push, tree_push. st_unfold.
      change (start_vpn (part a e (end_vpn a))) with e.
      rewrite G1, decide_False, mu_other_free by (done || lia). done.
    + by apply insert_sorted.
    + intros j. rewrite zget_insert, G1 by done. unfold cut_get.
      destruct (decide (j = e)).
      * by rewrite decide_True.
      * rewrite (decide_False (P := j = e /\ _)) by naive_solver. done.
  - exists t1. split_and!; [|done|].
    + intros w0. unfold keep_parts, mbind, ST_bind. unfold mbind, ST_bind in E1. rewrite E1.
      destruct (Z.ltb_spec e (end_vpn a)); [lia|]. done.
    + intros j. unfold cut_get. rewrite G1. rewrite (decide_False (P := j = e /\ _)) by lia. done.
Qed.

(** The areas of the cut tree: a part of [a] without frames, or another area. *)
Lemma cut_get_cases j b : cut_get t k a s e j = Some b ->
  (data_frames b = [] /\ j = start_vpn b /\ 0 <= start_vpn b <= end_vpn b /\ end_vpn b < 2 ^ 52 /\
   start_vpn a <= start_vpn b /\ end_vpn b <= end_vpn a /\
   (end_vpn b = s /\ start_vpn b = start_vpn a \/ start_vpn b = e /\ end_vpn b = end_vpn a)) \/
  (j <> k /\ bt_get j t = Some b).
Proof.
  destruct (tree_key t (mw_tree _ _ _ Hms) k a Hk) as (Ek & Hr & Hb).
  unfold cut_get. destruct (decide (j = e /\ e < end_vpn a)) as [[-> He]|_].
  - intros [= <-]. left. cbn. unfold start_vpn, end_vpn in *. cbn. split_and!; try done; lia.
  - destruct (decide (j = k)) as [->|Hne]; [|by right].
    destruct (Z.ltb_spec (start_vpn a) s); [|done]. intros [= <-]. left.
    unfold start_vpn, end_vpn in *. cbn. split_and!; try done; lia.
Qed.

Lemma cut_get_attr j b : cut_get t k a s e j = Some b -> exists k0 a0, bt_get k0 t = Some a0 /\
  start_vpn a0 <= start_vpn b /\ end_vpn b <= end_vpn a0 /\ same_attr a0 b /\
  (data_frames b = [] \/ bt_get j t = Some b).
Proof.
  destruct (tree_key t (mw_tree _ _ _ Hms) k a Hk) as (Ek & Hr & _).
  unfold cut_get. destruct (decide (j = e /\ e < end_vpn a)) as [[-> He]|_].
  - intros [= <-]. exists k, a. unfold start_vpn, end_vpn in *. cbn.
    split_and!; [done|lia|lia|by repeat split|by left].
  - destruct (decide (j = k)) as [->|Hne].
    + destruct (Z.ltb_spec (start_vpn a) s); [|done]. intros [= <-]. exists k, a.
      unfold start_vpn, end_vpn in *. cbn. split_and!; [done|lia|lia|by repeat split|by left].
    + intros H. exists j, b. split_and!; [done|lia|lia|by repeat split|by right].
Qed.

Lemma cut_tree_wf t' : bt_sorted t' -> (forall j, bt_get j t' = cut_get t k a s e j) -> tree_wf t'.
Proof.
  intros Hs G. pose proof (mw_tree _ _ _ Hms) as Hwf.
  destruct (tree_key t Hwf k a Hk) as (Ek & Hr & Hb).
  apply tree_wf_get; [done| |].
  - intros j b Hj. rewrite G in Hj. apply cut_get_cases in Hj as [H|[_ H]]; [tauto|].
    by apply (tree_key t Hwf).
  - intros j1 b1 j2 b2 H1 H2 Hlt. rewrite G in H1, H2.
    apply cut_get_cases in H1 as [C1|[N1 C1]], H2 as [C2|[N2 C2]].
    + lia.
    + pose proof (tree_key t Hwf j2 b2 C2) as (E2 & _ & _).
      destruct (Z.lt_trichotomy k j2) as [L|[L|L]]; [|by symmetry in L|].
      * pose proof (tree_disj t Hwf k a j2 b2 Hk C2 L). lia.
      * pose proof (tree_disj t Hwf j2 b2 k a C2 Hk L). lia.
    + pose proof (tree_key t Hwf j1 b1 C1) as (E1 & _ & _).
      destruct (Z.lt_trichotomy k j1) as [L|[L|L]]; [|by symmetry in L|].
      * pose proof (tree_disj t Hwf k a j1 b1 Hk C1 L). lia.
      * pose proof (tree_disj t Hwf j1 b1 k a C1 Hk L). lia.
    + by apply (tree_disj t Hwf j1 b1 j2 b2).
Qed.

(** The pages and frames of other areas are not those of [a]. *)
Lemma mu_not_mine j b v p : j <> k -> bt_get j t = Some b -> bt_get v (data_frames b) = Some p ->
  p ∉ snd <$> data_frames a /\ area_allocated a v = false.
Proof.
  intros Hne Hb Hv. destruct (mw_frames _ _ _ Hms j b v p Hb Hv) as (F1 & _).
  assert (forall q, bt_get v (data_frames a) <> Some q) as Hn.
  { intros q Hq. destruct (mw_frames _ _ _ Hms k a v q Hk Hq) as (F2 & _).
    destruct (tree_unique t (mw_tree _ _ _ Hms) j b k a v Hb Hk F1 F2). done. }
  split.
  - intros ([u q] & -> & Hin)%list_elem_of_fmap.
    apply (elem_get _ _ _ (mw_sorted _ _ _ Hms k a Hk)) in Hin. cbn in *.
    pose proof (mw_inj _ _ _ Hms k a u j b v q Hk Hb Hin Hv) as ->. by apply (Hn q).
  - destruct (area_allocated a v) eqn:E; [|done].
    apply area_allocated_Some in E as [q Hq]. by apply Hn in Hq.
Qed.

(** The tables stay alive when the frames of the area are dropped. *)
Lemma mu_pt_wf w1 w' : pt_wf w1 root -> w_refs w1 = w_refs w ->
  (forall f, is_Some (w_refs w !! f) -> not_table (w_mem w) root f -> not_table (w_mem w1) root f /\
     forall i, read_word (w_mem w1) f i = read_word (w_mem w) f i) ->
  dropped w1 (snd <$> data_frames a) w' -> pt_wf w' root.
Proof.
  intros H2 H3 H7 D. constructor.
  - intros p1 p2 f. rewrite (dr_mem _ _ _ D). apply (pw_inj _ _ H2).
  - intros q f Hq. rewrite (dr_mem _ _ _ D). intros Hf.
    destruct (pw_live _ _ H2 q f Hq Hf) as [Hl Hr]. split; [|done].
    assert (f ∉ snd <$> data_frames a) as Hn.
    { intros ([u p] & -> & Hin)%list_elem_of_fmap.
      apply (elem_get _ _ _ (mw_sorted _ _ _ Hms k a Hk)) in Hin.
      destruct (mw_frames _ _ _ Hms k a u p Hk Hin) as (_ & _ & F3 & F4 & _).
      destruct (H7 p F3 F4) as [N _]. by apply (N q). }
    by rewrite (proj1 (dr_out _ _ _ D f Hn)).
Qed.

Lemma munmap_area_spec : exists t' w', munmap_area s e pt t k w = Ret (t', w') /\
  ms_wf w' root t' /\ (forall j, bt_get j t' = cut_get t k a s e j) /\
  cut_post w root a s e w'.
Proof.
  destruct mu_tree as (t' & Et & Hs' & G).
  destruct (unmap_list_spec a pt (zrange s e) w) as (w1 & E1 & H1 & H2 & H3 & H4 & H5 & H6 & H7).
  { apply Hms. } { apply Hms. } { apply NoDup_zrange. }
  { intros v Hv [p Hp]%area_allocated_Some. apply elem_of_zrange in Hv.
    destruct (mw_frames _ _ _ Hms k a v p Hk Hp) as (? & ? & _ & _ & _ & ? & _).
    split; [lia|done]. }
  destruct (drop_frames_spec (data_frames a) w1) as (w' & E2 & D).
  { done. } { apply mu_frames_nodup. }
  { intros v p Hin%(elem_get _ _ _ (mw_sorted _ _ _ Hms k a Hk)). rewrite H3, H5.
    destruct (mw_frames _ _ _ Hms k a v p Hk Hin) as (_ & _ & ? & _ & ? & _). done. }
  exists t', w'. split_and!.
  - unfold munmap_area. rewrite Hk. cbn [unwrap]. unfold mbind, ST_bind, st_lift.
    rewrite Et. unfold unmap_allocated. rewrite E1. unfold drop_area. rewrite E2. done.
  - assert (forall j b v p, bt_get j t' = Some b -> bt_get v (data_frames b) = Some p ->
      j <> k /\ bt_get j t = Some b) as Hold.
    { intros j b v p Hj Hv. rewrite G in Hj.
      apply cut_get_cases in Hj as [(Hd & _)|H]; [by rewrite Hd in Hv|done]. }
    constructor.
    + apply D.
    + apply (mu_pt_wf w1); done.
    + by apply cut_tree_wf.
    + intros j b Hj. rewrite G in Hj. apply cut_get_cases in Hj as [(Hd & _)|[_ H]].
      * rewrite Hd. apply SSorted_nil.
      * by apply (mw_sorted _ _ _ Hms j).
    + intros j b v p Hj Hv. destruct (Hold j b v p Hj Hv) as [Hne Hb].
      destruct (mw_frames _ _ _ Hms j b v p Hb Hv) as (F1 & F2 & F3 & F4 & F5 & F6 & F7).
      destruct (mu_not_mine j b v p Hne Hb Hv) as [Hp Ha].
      destruct (H7 p F3 F4) as [N _]. destruct (tree_key t (mw_tree _ _ _ Hms) j b Hb) as (_ & Hr & _).
      rewrite (dr_mem _ _ _ D), (dr_vec _ _ _ D), H5, H6 by lia.
      rewrite (decide_False (P := v ∈ _ /\ _)) by (intros [_ ?]; congruence).
      split_and!; try done; [lia|lia|].
      by rewrite (proj1 (dr_out _ _ _ D p Hp)), H3.
    + intros j1 b1 v1 j2 b2 v2 p J1 J2 V1 V2.
      destruct (Hold j1 b1 v1 p J1 V1) as [_ B1], (Hold j2 b2 v2 p J2 V2) as [_ B2].
      by apply (mw_inj _ _ _ Hms j1 b1 v1 j2 b2 v2 p).
  - done.
  - constructor.
    + intros v Hv. rewrite (dr_mem _ _ _ D), H6 by done.
      destruct (decide (s <= v < e /\ area_allocated a v = true)) as [[? ?]|Hn].
      * rewrite decide_True; [done|]. by rewrite elem_of_zrange.
      * rewrite decide_False; [done|]. by rewrite elem_of_zrange.
    + intros v p n Hv Hp. apply (dr_in _ _ _ D); [|by rewrite H3].
      apply list_elem_of_fmap. exists (v, p). split; [done|]. by apply get_Some_elem.
    + intros p Hp. rewrite <- H3, <- H4. apply (dr_out _ _ _ D).
      intros ([v q] & -> & Hin)%list_elem_of_fmap. apply (Hp v).
      by apply (elem_get _ _ _ (mw_sorted _ _ _ Hms k a Hk)).
Qed.

End munmap_area.

(** ** The loop *)

(** The frame [p] of page [v] is held by one of the areas [starts]. *)
Definition held (t : VmAreaTree) (starts : list Z) (v p : Z) : Prop :=
  exists k a, k ∈ starts /\ bt_get k t = Some a /\ bt_get v (data_frames a) = Some p.

Record loop_post (w : world) (root : Z) (t : VmAreaTree) (starts : list Z) (s e : Z)
    (t' : VmAreaTree) (w' : world) : Prop := {
  lp_wf : ms_wf w' root t';
  lp_covered : forall v, covered t' v <-> exists k a, bt_get k t = Some a /\
    start_vpn a <= v < end_vpn a /\ (k ∉ starts \/ ~ s <= v < e);
  lp_part : forall j b, bt_get j t' = Some b -> exists k a, bt_get k t = Some a /\
    start_vpn a <= start_vpn b /\ end_vpn b <= end_vpn a /\ same_attr a b /\
    (data_frames b = [] \/ bt_get j t = Some b);
  lp_sep : forall j b, bt_get j t' = Some b ->
    (bt_get j t = Some b /\ j ∉ starts) \/ end_vpn b <= s \/ e <= start_vpn b;
  lp_cleared : forall v p, held t starts v p -> s <= v < e -> pte_at (w_mem w') root v = 0;
  lp_kept : forall v, 0 <= v < 2 ^ 27 -> (s <= v < e -> forall p, ~ held t starts v p) ->
    pte_at (w_mem w') root v = pte_at (w_mem w) root v;
  lp_dropped : forall v p n, held t starts v p -> w_refs w !! p = Some n ->
    w_refs w' !! p = (if n =? 1 then None else Some (n - 1)) /\ fa_free (w_fa w') p = (n =? 1);
  lp_others : forall p, (forall v, ~ held t starts v p) ->
    w_refs w' !! p = w_refs w !! p /\ fa_free (w_fa w') p = fa_free (w_fa w) p
}.

Lemma munmap_loop_spec pt s e starts : forall w t, 0 <= s <= e -> ms_wf w (root_ppn pt) t ->
  NoDup starts ->
  (forall k, k ∈ starts -> exists a, bt_get k t = Some a /\ k < e /\ s < end_vpn a) ->
  exists t' w', munmap_loop s e pt t starts w = Ret (t', w') /\
    loop_post w (root_ppn pt) t starts s e t' w'.
Proof.
  induction starts as [|k starts IH]; intros w t Hse Hms Hnd Hst.
  { exists t, w. split; [done|].
    assert (forall v p, ~ held t [] v p) as Hn by (intros v p (? & ? & []%not_elem_of_nil & _)).
    constructor; try done; [| | |by intros v p H%Hn|by intros v p n H%Hn].
    - intros v. rewrite covered_get by apply Hms. set_solver.
    - intros j b Hb. exists j, b. split_and!; [done|lia|lia|done|by right].
    - intros j b Hb. left. split; [done|]. apply not_elem_of_nil. }
  apply list.NoDup_cons in Hnd as [Hk Hnd].
  destruct (Hst k ltac:(set_solver)) as (a & Ha & Hke & Hsa).
  destruct (munmap_area_spec w pt t k a s e Hms Ha Hse (conj Hke Hsa)) as (t1 & w1 & E1 & M1 & G1 & C1).
  pose proof (mu_other_free w pt t k a s e Hms Ha (conj Hke Hsa)) as Hfree.
  pose proof (mu_not_mine w pt t k a Hms Ha) as Hnm.
  assert (forall j, j <> k -> bt_get j t <> None -> bt_get j t1 = bt_get j t) as Hsame.
  { intros j Hj Hb. rewrite G1. unfold cut_get. rewrite decide_False, decide_False; [done|done|].
    intros [-> He]. by apply Hb, Hfree. }
  destruct (IH w1 t1) as (t' & w' & E & L); [done|done|done| |].
  { intros j Hj. destruct (Hst j ltac:(set_solver)) as (b & Hb & H1 & H2). exists b.
    rewrite Hsame; [done|intros ->; done|congruence]. }
  assert (forall v p, held t1 starts v p <-> held t starts v p) as Hheld.
  { intros v p. split; intros (j & b & Hj & Hb & Hv); exists j, b; (split; [done|]).
    - destruct (Hst j ltac:(set_solver)) as (b' & Hb' & _).
      rewrite Hsame in Hb; [done|intros ->; done|congruence].
    - rewrite Hsame; [done|intros ->; done|congruence]. }
  assert (forall v p, held t (k :: starts) v p <->
    bt_get v (data_frames a) = Some p \/ held t starts v p) as Hcons.
  { intros v p. split.
    - intros (j & b & [->|Hj]%elem_of_cons & Hb & Hv); [left; congruence|right; by exists j, b].
    - intros [Hv|(j & b & Hj & Hb)]; [exists k, a|exists j, b]; split; set_solver. }
  assert (forall v p, held t starts v p ->
    (forall u, bt_get u (data_frames a) <> Some p) /\ area_allocated a v = false) as Hdis.
  { intros v p (j & b & Hj & Hb & Hv). assert (j <> k) as Hne by (intros ->; done).
    destruct (Hnm j b v p Hne Hb Hv) as [Hp Hal]. split; [|done]. intros u Hu. apply Hp.
    apply list_elem_of_fmap. exists (u, p). split; [done|]. by apply get_Some_elem. }
  exists t', w'. split.
  { cbn [munmap_loop]. unfold mbind, ST_bind. rewrite E1. exact E. }
  constructor.
  - apply L.
  - intros v. rewrite (lp_covered _ _ _ _ _ _ _ _ L). split.
    + intros (j & b & Hb & Hv & Hc). rewrite G1 in Hb.
      apply (cut_get_cases w pt t k a s e Hms Ha (conj Hke Hsa)) in Hb as [Hb|[Hne Hb]].
      * exists k, a. split; [done|]. split; [lia|]. right. lia.
      * exists j, b. split; [done|]. split; [done|]. destruct Hc; [left; set_solver|by right].
    + intros (j & b & Hb & Hv & Hc). destruct (decide (j = k)) as [->|Hne].
      * assert (b = a) as -> by congruence. destruct Hc as [Hc|Hc]; [set_solver|].
        destruct (Z.lt_ge_cases v s) as [Hlt|Hge].
        -- exists k, (part a (start_vpn a) s). rewrite G1. unfold cut_get.
           rewrite decide_False, decide_True by lia. destruct (Z.ltb_spec (start_vpn a) s); [|lia].
           split; [done|]. cbn. split; [lia|by left].
        -- exists e, (part a e (end_vpn a)). rewrite G1. unfold cut_get.
           rewrite decide_True by lia. split; [done|]. cbn. split; [lia|by right].
      * exists j, b. rewrite Hsame by congruence. split; [done|]. split; [done|].
        destruct Hc; [left; set_solver|by right].
  - intros j b Hb. destruct (lp_part _ _ _ _ _ _ _ _ L j b Hb) as (k1 & a1 & H1 & H2 & H3 & H4 & H5).
    rewrite G1 in H1, H5.
    destruct (cut_get_attr w pt t k a s e Hms Ha (conj Hke Hsa) k1 a1 H1) as (k0 & a0 & F1 & F2 & F3 & F4 & _).
    exists k0, a0. split_and!; [done|lia|lia| |].
    { destruct F4 as (? & ? & ? & ?), H4 as (? & ? & ? & ?). split_and!; [congruence..|auto]. }
    destruct H5 as [H5|H5]; [by left|].
    destruct (cut_get_attr w pt t k a s e Hms Ha (conj Hke Hsa) j b H5) as (_ & _ & _ & _ & _ & _ & H6). done.
  - intros j b Hb. destruct (lp_sep _ _ _ _ _ _ _ _ L j b Hb) as [[H1 H2]|H1]; [|by right]. rewrite G1 in H1.
    apply (cut_get_cases w pt t k a s e Hms Ha (conj Hke Hsa)) in H1 as [C|[Hne C]]; [right; lia|].
    left. split; [done|]. by apply not_elem_of_cons.
  - intros v p Hh Hv. destruct (proj1 (Hcons v p) Hh) as [Hp|Hp].
    + assert (area_allocated a v = true) as Hal by (apply area_allocated_Some; eauto).
      destruct (mw_frames _ _ _ Hms k a v p Ha Hp) as (F1 & F2 & _).
      destruct (tree_key t (mw_tree _ _ _ Hms) k a Ha) as (_ & Hr & _).
      rewrite (lp_kept _ _ _ _ _ _ _ _ L), (cp_pte _ _ _ _ _ _ C1) by
        (try lia; intros _ q [_ Hq]%Hheld%Hdis; congruence).
      by rewrite decide_True.
    + by apply (lp_cleared _ _ _ _ _ _ _ _ L v p); [apply Hheld|].
  - intros v Hv Hn. rewrite (lp_kept _ _ _ _ _ _ _ _ L), (cp_pte _ _ _ _ _ _ C1); [|done|done|].
    + rewrite decide_False; [done|]. intros [Hr [p Hp]%area_allocated_Some].
      apply (Hn Hr p), Hcons. by left.
    + intros Hr p Hp%Hheld. apply (Hn Hr p), Hcons. by right.
  - intros v p n [Hp|Hp]%Hcons Hr.
    + assert (forall u, ~ held t1 starts u p) as Hno.
      { intros u [Hq _]%Hheld%Hdis. by apply (Hq v). }
      destruct (lp_others _ _ _ _ _ _ _ _ L p Hno) as [-> ->].
      by apply (cp_in _ _ _ _ _ _ C1 v).
    + destruct (Hdis v p Hp) as [Hq _]. apply (lp_dropped _ _ _ _ _ _ _ _ L v); [by apply Hheld|].
      by rewrite (proj1 (cp_out _ _ _ _ _ _ C1 p Hq)).
  - intros p Hp. destruct (lp_others _ _ _ _ _ _ _ _ L p) as [-> ->].
    + intros v Hh%Hheld. apply (Hp v), Hcons. by right.
    + apply (cp_out _ _ _ _ _ _ C1). intros v Hv. apply (Hp v), Hcons. by left.
Qed.

(** ** munmap *)

Lemma munmap_overlaps_spec t s e k : tree_wf t -> k ∈ munmap_overlaps t s e <->
  exists a, bt_get k t = Some a /\ k < e /\ s < end_vpn a.
Proof.
  intros Hwf. unfold munmap_overlaps. rewrite list_elem_of_fmap. split.
  - intros ([j a] & -> & Hin). rewrite list_elem_of_In in Hin. apply List.filter_In in Hin as [Hin Hs].
    apply list_elem_of_In, elem_of_below in Hin as [Hin Hj]. zbool. exists a.
    split; [by apply elem_get; [apply Hwf|]|]. cbn. lia.
  - intros (a & Ha & Hk & Hs). exists (k, a). split; [done|]. rewrite list_elem_of_In.
    apply List.filter_In. split; [|by apply Z.ltb_lt].
    apply list_elem_of_In, elem_of_below. split; [by apply get_Some_elem|done].
Qed.

Lemma sorted_keys_nodup {V} (t : list (Z * V)) : bt_sorted t -> NoDup (fst <$> t).
Proof.
  induction t as [|[k v] t IH]; intros Hs; [constructor|].
  apply sorted_cons in Hs as [Hf Hs]. cbn. apply list.NoDup_cons. split; [|by apply IH].
  intros ([j u] & -> & Hin)%list_elem_of_fmap. rewrite List.Forall_forall in Hf.
  apply list_elem_of_In, Hf in Hin. by apply klt_irrefl in Hin.
Qed.

Lemma munmap_spec w ms s e : 0 <= s <= e -> ms_wf w (root_ppn (page_table ms)) (areatree ms) ->
  exists t' w', munmap ms s e w = Ret (set_areas t' ms, w') /\
    loop_post w (root_ppn (page_table ms)) (areatree ms)
      (munmap_overlaps (areatree ms) s e) s e t' w'.
Proof.
  intros Hse Hms. destruct (munmap_loop_spec (page_table ms) s e
    (munmap_overlaps (areatree ms) s e) w (areatree ms)) as (t' & w' & E & L).
  - done.
  - done.
  - unfold munmap_overlaps. apply sorted_keys_nodup, filter_sorted, filter_sorted, Hms.
  - intros k. by apply munmap_overlaps_spec, Hms.
  - exists t', w'. split; [|done]. unfold munmap. st_unfold. unfold st_gets in *. rewrite E. done.
Qed.

(** A held page lies in an overlapping area exactly when its area overlaps. *)
Lemma held_overlaps w root t s e v p : ms_wf w root t -> s <= v < e ->
  (exists k a, bt_get k t = Some a /\ bt_get v (data_frames a) = Some p) ->
  held t (munmap_overlaps t s e) v p.
Proof.
  intros Hms Hv (k & a & Ha & Hp). exists k, a. split; [|done].
  apply munmap_overlaps_spec; [apply Hms|]. exists a. split; [done|].
  destruct (mw_frames _ _ _ Hms k a v p Ha Hp) as (F & _).
  destruct (tree_key t (mw_tree _ _ _ Hms) k a Ha) as (-> & _ & _). lia.
Qed.

(** C4: On a consistent address space [munmap] never panics.  Afterwards the
    areas are again disjoint and cover exactly the pages that were covered
    outside the range; every allocated page of the range has an empty entry,
    and the entry of every other page is as it was. *)
Theorem munmap_removes_range w ms s e : 0 <= s <= e ->
  ms_wf w (root_ppn (page_table ms)) (areatree ms) ->
  let root := root_ppn (page_table ms) in
  exists ms' w', munmap ms s e w = Ret (ms', w') /\ page_table ms' = page_table ms /\
    ms_wf w' root (areatree ms') /\
    (forall v, covered (areatree ms') v <-> covered (areatree ms) v /\ ~ s <= v < e) /\
    (forall v, allocated_in (areatree ms) v -> s <= v < e -> pte_at (w_mem w') root v = 0) /\
    (forall v, 0 <= v < 2 ^ 27 -> ~ (allocated_in (areatree ms) v /\ s <= v < e) ->
       pte_at (w_mem w') root v = pte_at (w_mem w) root v).
Proof.
  intros Hse Hms root. destruct (munmap_spec w ms s e Hse Hms) as (t' & w' & E & L).
  exists (set_areas t' ms), w'. split_and!; [done|done|apply L| | |].
  - intros v. cbn. rewrite (lp_covered _ _ _ _ _ _ _ _ L), (covered_get (areatree ms)) by apply Hms.
    split.
    + intros (k & a & Ha & Hv & Hc). split; [by exists k, a|]. destruct Hc as [Hc|Hc]; [|done].
      intros Hr. apply Hc, munmap_overlaps_spec; [apply Hms|]. exists a. split; [done|].
      destruct (tree_key _ (mw_tree _ _ _ Hms) k a Ha) as (-> & _ & _). lia.
    + intros [(k & a & Ha & Hv) Hn]. exists k, a. split; [done|]. split; [done|by right].
  - intros v (k & a & Ha & [p Hp]%area_allocated_Some) Hv.
    apply (lp_cleared _ _ _ _ _ _ _ _ L v p); [|done]. apply (held_overlaps w root); [done|done|].
    by exists k, a.
  - intros v Hv Hn. apply (lp_kept _ _ _ _ _ _ _ _ L); [done|].
    intros Hr p (k & a & _ & Ha & Hp). apply Hn. split; [|done]. exists k, a. split; [done|].
    apply area_allocated_Some. by exists p.
Qed.

(** [munmap] of a part of an area frees frames that are still mapped.  The
    kept parts are made by [from_another_with_range], which copies no frames,
    and the old area is dropped with its frames: a page of the area outside
    the range whose frame had one handle keeps its valid entry, although the
    frame is free afterwards and the next allocation may hand it out. *)
Theorem munmap_frees_mapped_frame w ms s e k a v p : 0 <= s <= e ->
  ms_wf w (root_ppn (page_table ms)) (areatree ms) ->
  bt_get k (areatree ms) = Some a -> k < e -> s < end_vpn a ->
  bt_get v (data_frames a) = Some p -> ~ s <= v < e -> w_refs w !! p = Some 1 ->
  exists ms' w', munmap ms s e w = Ret (ms', w') /\
    covered (areatree ms') v /\
    la_is_valid (pte_at (w_mem w') (root_ppn (page_table ms)) v) = true /\
    la_ppn (pte_at (w_mem w') (root_ppn (page_table ms)) v) = Ret p /\
    w_refs w' !! p = None /\ fa_free (w_fa w') p = true.
Proof.
  intros Hse Hms Ha Hk He Hp Hv Hr.
  destruct (munmap_spec w ms s e Hse Hms) as (t' & w' & E & L).
  exists (set_areas t' ms), w'. split; [done|].
  destruct (mw_frames _ _ _ Hms k a v p Ha Hp) as (F1 & F2 & _ & _ & _ & F6 & F7).
  destruct (tree_key _ (mw_tree _ _ _ Hms) k a Ha) as (_ & Hb & _).
  rewrite (lp_kept _ _ _ _ _ _ _ _ L) by (try lia; tauto).
  assert (held (areatree ms) (munmap_overlaps (areatree ms) s e) v p) as Hh.
  { exists k, a. split; [|done]. apply munmap_overlaps_spec; [apply Hms|]. by exists a. }
  destruct (lp_dropped _ _ _ _ _ _ _ _ L v p 1 Hh Hr) as [H1 H2].
  split_and!; try done. cbn. rewrite (lp_covered _ _ _ _ _ _ _ _ L).
  exists k, a. split; [done|]. split; [done|by right].
Qed.

(** ** An address space with one area of four pages *)

Definition area4 : MapArea := area_of 0x10 0x14.

Lemma empty_space pt w : world_wf w -> pt_wf w (root_ppn pt) -> ms_wf w (root_ppn pt) [].
Proof.
  intros Hw Hpt. constructor; [exact Hw|exact Hpt| |done|done|done].
  constructor; [apply SSorted_nil|set_solver|set_solver].
Qed.

Lemma space_push1 pt0 w0 : world_wf w0 -> pt_wf w0 (root_ppn pt0) ->
  (forall v, pte_at (w_mem w0) (root_ppn pt0) v = 0) -> free_count w0 = 69 ->
  exists d pt w, ms_push (mkMS pt0 []) area4 None w0 =
    Ret (Ok tt, mkMS pt [(0x10, set_data_frames d area4)], w) /\
  ms_wf w (root_ppn pt) [(0x10, set_data_frames d area4)] /\
  (forall v, 0x10 <= v < 0x14 -> exists p, bt_get v d = Some p /\ w_refs w !! p = Some 1 /\
     la_flags (pte_at (w_mem w) (root_ppn pt) v) = Ret (la_flags_of_perm (map_perm area4))) /\
  57 <= free_count w.
Proof.
  intros Hw Hpt H0 Hc.
  destruct (ms_push_spec w0 (mkMS pt0 []) area4) as (d & pt & w & E & R & M & Hms).
  - by apply empty_space.
  - done.
  - done.
  - cbn. lia.
  - cbn. lia.
  - done.
  - done.
  - intros v _. apply H0.
  - rewrite Hc. vm_compute. done.
  - exists d, pt, w. split; [exact E|]. split; [exact Hms|]. split.
    + intros v Hv. destruct (ms_new _ _ _ _ _ _ _ M v) as (p & Hp & _ & Hr & _ & _ & _ & Hf);
        [by apply elem_of_zrange|]. by exists p.
    + pose proof (ms_count _ _ _ _ _ _ _ M) as Hn. rewrite Hc in Hn. vm_compute (3 * zlen _) in Hn. lia.
Qed.

Lemma space4 : exists d pt w, ms_push (mkMS (fst pt70) []) area4 None (snd pt70) =
    Ret (Ok tt, mkMS pt [(0x10, set_data_frames d area4)], w) /\
  ms_wf w (root_ppn pt) [(0x10, set_data_frames d area4)] /\
  (forall v, 0x10 <= v < 0x14 -> exists p, bt_get v d = Some p /\ w_refs w !! p = Some 1 /\
     la_flags (pte_at (w_mem w) (root_ppn pt) v) = Ret (la_flags_of_perm (map_perm area4))) /\
  57 <= free_count w.
Proof. destruct pt70_ok as (Hw & Hpt & H0 & Hc). exact (space_push1 _ _ Hw Hpt H0 Hc). Qed.

Lemma munmap_removes_range_witness : exists ms w ms' w', munmap ms 0x11 0x13 w = Ret (ms', w') /\
  covered (areatree ms) 0x12 /\ ~ covered (areatree ms') 0x12 /\ covered (areatree ms') 0x13.
Proof.
  destruct space4 as (d & pt & w & _ & Hms & _).
  destruct (munmap_removes_range w (mkMS pt [(0x10, set_data_frames d area4)]) 0x11 0x13)
    as (ms' & w' & E & _ & _ & Hc & _); [lia|exact Hms|].
  exists (mkMS pt [(0x10, set_data_frames d area4)]), w, ms', w'. split; [exact E|].
  assert (forall v, 0x10 <= v < 0x14 -> covered [(0x10, set_data_frames d area4)] v) as Hcov.
  { intros v Hv. exists 0x10, (set_data_frames d area4). split; [set_solver|exact Hv]. }
  split_and!; [apply Hcov; lia|rewrite Hc; lia|apply Hc; split; [apply Hcov; lia|lia]].
Defined.

Lemma munmap_frees_mapped_frame_witness : exists ms w p ms' w', munmap ms 0x11 0x12 w = Ret (ms', w') /\
  la_ppn (pte_at (w_mem w') (root_ppn (page_table ms)) 0x10) = Ret p /\ fa_free (w_fa w') p = true.
Proof.
  destruct space4 as (d & pt & w & _ & Hms & Hd & _).
  destruct (Hd 0x10 ltac:(lia)) as (p & Hp & Hr & _).
  destruct (munmap_frees_mapped_frame w (mkMS pt [(0x10, set_data_frames d area4)]) 0x11 0x12
    0x10 (set_data_frames d area4) 0x10 p) as (ms' & w' & E & _ & _ & H1 & _ & H2);
    [lia|exact Hms|reflexivity|lia|cbn; lia|exact Hp|lia|exact Hr|].
  exists (mkMS pt [(0x10, set_data_frames d area4)]), w, p, ms', w'.
  split_and!; [exact E|exact H1|exact H2].
Defined.
