(* ===== verification/PageFault.v ===== *)
(** * The page-fault handler

    [MemorySet::handle_page_fault] (os/src/mm/memory_set.rs) on consistent
    address spaces: a fault on a page of a lazily allocated area gives the
    page a cleared frame with the permissions of the area, a write fault on a
    frame with other owners gives the page a private copy.  The page right
    after an area is treated like a page of the area. *)

From S2P Require Import Prelude Config Address BitField Memory FrameAlloc.
From S2P Require Import FrameSpec Pte PageTable BTree Errno Area.
From S2P Require Import AreaTree AreaMap UserMem UserCopy Shm MemorySet.
From S2P Require Import Munmap.

(** ** Lookups *)

Lemma find_area_last t k a v : tree_wf t -> bt_get k t = Some a -> k <= v <= end_vpn a ->
  (forall k' b, bt_get k' t = Some b -> k' <= v -> k' <= k) -> find_area t v = Some k.
Proof.
  intros Hwf Ha Hv Hmax. destruct (tree_key t Hwf k a Ha) as (Ek & _ & _).
  pose proof (last_upto t v Hwf) as H. unfold find_area.
  destruct (list.last (bt_upto v t)) as [[k' b]|].
  - destruct H as (Hin & Hk' & Hm). apply (elem_get _ _ _ (tw_sorted t Hwf)) in Hin.
    assert (k' = k) as ->.
    { pose proof (Hmax k' b Hin Hk'). pose proof (Hm k a (get_Some_elem _ _ _ Ha) ltac:(lia)). lia. }
    assert (b = a) as -> by congruence. unfold area_contains, range_contains.
    unfold start_vpn, end_vpn in *. zcases; try lia. done.
  - pose proof (H k a (get_Some_elem _ _ _ Ha)). lia.
Qed.

Lemma find_area_get t k a v : tree_wf t -> bt_get k t = Some a -> start_vpn a <= v < end_vpn a ->
  find_area t v = Some k.
Proof.
  intros Hwf Ha Hv. destruct (tree_key t Hwf k a Ha) as (Ek & _ & _).
  apply (find_area_last t k a); [done|done|lia|]. intros k' b Hb Hk'.
  destruct (Z.le_gt_cases k' k); [done|].
  pose proof (tree_disj t Hwf k a k' b Ha Hb ltac:(lia)). lia.
Qed.

Lemma pt_translate_at w root v : pt_wf w root -> 0 <= v < 2 ^ 27 ->
  la_is_valid (pte_at (w_mem w) root v) = true ->
  pt_translate root (w_mem w) v = Ret (Some (pte_at (w_mem w) root v)) /\
  exists f, find_pte root (w_mem w) v = Ret (Some (f, ix 0 v)) /\
    read_word (w_mem w) f (ix 0 v) = pte_at (w_mem w) root v.
Proof.
  intros Hpt Hv Hval. unfold pt_translate. destruct (Z.leb_spec KERNEL_PGNUM_OFFSET v) as [Hk|_].
  { change KERNEL_PGNUM_OFFSET with 0x9000000000000 in Hk. lia. }
  rewrite (find_pte_eq w) by done. unfold pte_at in *.
  destruct (node (w_mem w) root (vpath v)) as [f|]; [|done]. split; [done|]. by exists f.
Qed.

Lemma translate_ppn_at w pt v p : pt_wf w (root_ppn pt) -> 0 <= v < 2 ^ 27 ->
  la_is_valid (pte_at (w_mem w) (root_ppn pt) v) = true ->
  la_ppn (pte_at (w_mem w) (root_ppn pt) v) = Ret p -> translate_ppn pt v w = Ret (p, w).
Proof.
  intros Hpt Hv Hval Hp. unfold translate_ppn. st_unfold.
  rewrite (proj1 (pt_translate_at w _ v Hpt Hv Hval)). change pte_ppn with la_ppn. rewrite Hp. done.
Qed.

Lemma floor_page stval v : stval / PAGE_SIZE = v -> VirtAddr_floor stval = v.
Proof. done. Qed.

(** ** Changing the frames of one area *)

(** The frame [p] of a page [v]: live, no table, and what the page table maps
    the page to. *)
Definition frame_ok (w : world) (root v p : Z) : Prop :=
  v < 2 ^ 27 /\ is_Some (w_refs w !! p) /\ not_table (w_mem w) root p /\
  w_frame_vec w !! p = None /\ la_is_valid (pte_at (w_mem w) root v) = true /\
  la_ppn (pte_at (w_mem w) root v) = Ret p.

Lemma ms_frame_ok w root t k a v p : ms_wf w root t -> bt_get k t = Some a ->
  bt_get v (data_frames a) = Some p -> start_vpn a <= v < end_vpn a /\ frame_ok w root v p.
Proof. intros Hms Ha Hv. exact (mw_frames _ _ _ Hms k a v p Ha Hv). Qed.

Lemma update_area_wf w root t k a a' w' : ms_wf w root t -> bt_get k t = Some a ->
  vpn_range a' = vpn_range a -> bt_sorted (data_frames a') -> world_wf w' -> pt_wf w' root ->
  (forall v p, bt_get v (data_frames a') = Some p ->
     start_vpn a <= v < end_vpn a /\ frame_ok w' root v p) ->
  (forall v1 v2 p, bt_get v1 (data_frames a') = Some p -> bt_get v2 (data_frames a') = Some p ->
     v1 = v2) ->
  (forall j b v p, j <> k -> bt_get j t = Some b -> bt_get v (data_frames b) = Some p ->
     frame_ok w' root v p /\ forall u, bt_get u (data_frames a') <> Some p) ->
  ms_wf w' root (bt_insert k a' t) /\ forall v, covered (bt_insert k a' t) v <-> covered t v.
Proof.
  intros Hms Ha Hrange Hs Hw Hpt Hown Hinj Hother. pose proof (mw_tree _ _ _ Hms) as Hwf.
  pose proof (tw_sorted t Hwf) as Ht.
  assert (start_vpn a' = start_vpn a /\ end_vpn a' = end_vpn a) as [Es Ee]
    by (unfold start_vpn, end_vpn; by rewrite Hrange).
  assert (forall j b, bt_get j (bt_insert k a' t) = Some b <->
    j = k /\ b = a' \/ j <> k /\ bt_get j t = Some b) as Hcase.
  { intros j b. rewrite zget_insert by done. destruct (decide (j = k)); naive_solver. }
  assert (tree_wf (bt_insert k a' t)) as Hwf'.
  { apply tree_wf_get; [by apply insert_sorted| |].
    - intros j b [[-> ->]|[_ H]]%Hcase; [rewrite Es, Ee|]; by apply (tree_key t Hwf).
    - intros j1 b1 j2 b2 [[-> ->]|[_ H1]]%Hcase [[-> ->]|[_ H2]]%Hcase Hlt; [lia| | |].
      + rewrite Ee. by apply (tree_disj t Hwf k a j2 b2).
      + by apply (tree_disj t Hwf j1 b1 k a).
      + by apply (tree_disj t Hwf j1 b1 j2 b2). }
  split.
  - constructor; [done|done|done| | |].
    + intros j b [[-> ->]|[_ H]]%Hcase; [done|by apply (mw_sorted _ _ _ Hms j)].
    + intros j b v p [[-> ->]|[Hne H]]%Hcase Hv.
      * rewrite Es, Ee. exact (Hown v p Hv).
      * split; [by apply (ms_frame_ok w root t j b v p)|]. exact (proj1 (Hother j b v p Hne H Hv)).
    + intros j1 b1 v1 j2 b2 v2 p [[-> ->]|[N1 H1]]%Hcase [[-> ->]|[N2 H2]]%Hcase V1 V2.
      * by apply (Hinj v1 v2 p).
      * by destruct (proj2 (Hother j2 b2 v2 p N2 H2 V2) v1).
      * by destruct (proj2 (Hother j1 b1 v1 p N1 H1 V1) v2).
      * by apply (mw_inj _ _ _ Hms j1 b1 v1 j2 b2 v2 p).
  - intros v. rewrite !covered_get by done. split; intros (j & b & Hb & Hv).
    + apply Hcase in Hb as [[-> ->]|[_ Hb]]; [exists k, a|exists j, b]; [|done].
      split; [done|lia].
    + destruct (decide (j = k)) as [->|Hne].
      * exists k, a'. rewrite Hcase. assert (b = a) as -> by congruence. split; [by left|lia].
      * exists j, b. rewrite Hcase. split; [by right|done].
Qed.

(** Frames of different pages differ. *)
Lemma ms_frames_differ w root t k a v p j b u q : ms_wf w root t -> bt_get k t = Some a ->
  bt_get v (data_frames a) = Some p -> bt_get j t = Some b -> bt_get u (data_frames b) = Some q ->
  u <> v -> q <> p.
Proof.
  intros Hms Ha Hv Hb Hu Hne ->. apply Hne. symmetry. by apply (mw_inj _ _ _ Hms k a v j b u p).
Qed.

(** Pages of different areas differ. *)
Lemma ms_pages_differ w root t k a v j b u q : ms_wf w root t -> bt_get k t = Some a ->
  start_vpn a <= v < end_vpn a -> bt_get j t = Some b -> bt_get u (data_frames b) = Some q ->
  j <> k -> u <> v.
Proof.
  intros Hms Ha Hv Hb Hu Hne ->. apply Hne.
  destruct (ms_frame_ok w root t j b v q Hms Hb Hu) as [Hr _].
  by apply (tree_unique t (mw_tree _ _ _ Hms) j b k a v).
Qed.

(** What mapping a fresh page does to the frame of another page. *)
Lemma map_one_frame_ok w root v perm p w' u q : map_one_post w root v perm p w' ->
  0 <= u -> u <> v -> frame_ok w root u q -> frame_ok w' root u q /\ q <> p.
Proof.
  intros M Hu Hne (F2 & F3 & F4 & F5 & F6 & F7).
  destruct (mo_data _ _ _ _ _ _ M q F3 F4) as (D1 & D2 & _). split.
  - unfold frame_ok. rewrite D1, (mo_vec _ _ _ _ _ _ M), (mo_other _ _ _ _ _ _ M) by lia. done.
  - intros ->. rewrite (mo_fresh _ _ _ _ _ _ M) in F3. by destruct F3.
Qed.

Lemma map_one_new_ok w root v perm p w' : world_wf w -> map_one_post w root v perm p w' ->
  v < 2 ^ 27 -> frame_ok w' root v p.
Proof.
  intros Hw M Hv. destruct (mo_entry _ _ _ _ _ _ M) as [H1 H2].
  split_and!; [done|rewrite (mo_live _ _ _ _ _ _ M); by eexists|apply (mo_nt _ _ _ _ _ _ M)| | |done].
  - rewrite (mo_vec _ _ _ _ _ _ M). destruct (w_frame_vec w !! p) as [q|] eqn:E; [|done].
    apply (ww_vec w Hw) in E as [_ [n Hn]]. rewrite (mo_fresh _ _ _ _ _ _ M) in Hn. done.
  - by apply (la_flags_valid _ _ H2), la_flags_of_perm_nonzero.
Qed.

(** ** Lazy allocation *)

Section faults.
Variable file_read : Z -> UserBuffer -> inodes -> ST world (result Z SysErrNo * inodes).

Lemma fault_lazy w ms fs stval iw k a v : ms_wf w (root_ppn (page_table ms)) (areatree ms) ->
  stval / PAGE_SIZE = v -> find_area (areatree ms) v = Some k ->
  bt_get k (areatree ms) = Some a -> is_mmap a || is_stack a = true -> map_type a = Framed ->
  area_fd a = None -> start_vpn a < end_vpn a -> start_vpn a <= v <= end_vpn a ->
  0 <= v < 2 ^ 27 -> area_allocated a v = false ->
  pte_at (w_mem w) (root_ppn (page_table ms)) v = 0 -> 2 < free_count w ->
  exists p pt' w',
    handle_page_fault file_read fs ms stval iw w =
      Ret (Ok true, mkMS pt' (bt_insert k (set_data_frames (bt_insert v p (data_frames a)) a)
                                (areatree ms)), fs, w') /\
    root_ppn pt' = root_ppn (page_table ms) /\
    map_one_post w (root_ppn (page_table ms)) v (map_perm a) p w'.
Proof.
  intros Hms Hst Hf Ha Hty Hfr Hfd Hne Hr Hv Hal H0 Hc. unfold handle_page_fault, VirtAddr_floor.
  rewrite Hst, Hf, Ha. cbn [unwrap]. unfold mbind, ST_bind, st_lift.
  replace (negb (is_mmap a) && negb (is_stack a)) with false
    by (destruct (is_mmap a), (is_stack a); done).
  unfold range_empty, range_contains. unfold start_vpn, end_vpn in Hne, Hr.
  destruct (Z.eqb_spec (rl (vpn_range a)) (rr (vpn_range a))); [lia|].
  rewrite Hal. cbn [negb]. destruct (Z.leb_spec (rl (vpn_range a)) v), (Z.leb_spec v (rr (vpn_range a)));
    try lia. cbn [andb].
  assert (bt_get v (data_frames a) = None) as Hnone.
  { unfold area_allocated in Hal. by destruct (bt_get v (data_frames a)). }
  destruct (map_one_spec w a (page_table ms) v) as (p & pt' & w' & E & R & M);
    [apply Hms|apply Hms|done|done|done|done|done|].
  exists p, pt', w'. rewrite E. cbn [result_unwrap]. unfold fault_read.
  change (area_fd (set_data_frames _ a)) with (area_fd a). rewrite Hfd. done.
Qed.

(** C16: A fault on an unallocated page of a private anonymous mapping or of the
    stack, with three frames free, succeeds: the page is mapped to a frame
    that nobody used, filled with zeros, with the permissions of the area;
    all other pages and live frames are as they were, and the address space
    is consistent again. *)
Theorem page_fault_lazy_alloc w ms fs stval iw k a :
  ms_wf w (root_ppn (page_table ms)) (areatree ms) ->
  bt_get k (areatree ms) = Some a -> is_mmap a || is_stack a = true -> map_type a = Framed ->
  area_fd a = None -> start_vpn a <= stval / PAGE_SIZE < end_vpn a -> stval < 2 ^ 39 ->
  area_allocated a (stval / PAGE_SIZE) = false ->
  pte_at (w_mem w) (root_ppn (page_table ms)) (stval / PAGE_SIZE) = 0 -> 2 < free_count w ->
  exists p ms' w',
    handle_page_fault file_read fs ms stval iw w = Ret (Ok true, ms', fs, w') /\
    map_one_post w (root_ppn (page_table ms)) (stval / PAGE_SIZE) (map_perm a) p w' /\
    ms_wf w' (root_ppn (page_table ms')) (areatree ms') /\
    (forall v, covered (areatree ms') v <-> covered (areatree ms) v).
Proof.
  intros Hms Ha Hty Hfr Hfd Hv Hst Hal H0 Hc.
  pose proof (tree_key _ (mw_tree _ _ _ Hms) k a Ha) as (Ek & Hr & _).
  assert (0 <= stval / PAGE_SIZE < 2 ^ 27) as Hv27 by (unfold PAGE_SIZE in *; lia).
  destruct (fault_lazy w ms fs stval iw k a (stval / PAGE_SIZE)) as (p & pt' & w' & E & R & M);
    try done; try lia.
  { by apply (find_area_get _ k a); [apply Hms| |]. }
  set (v := stval / PAGE_SIZE) in *. set (root := root_ppn (page_table ms)) in *.
  exists p, (mkMS pt' (bt_insert k (set_data_frames (bt_insert v p (data_frames a)) a)
                         (areatree ms))), w'.
  split; [done|]. split; [done|]. cbn [page_table areatree]. rewrite R.
  assert (bt_get v (data_frames a) = None) as Hnone.
  { unfold area_allocated in Hal. by destruct (bt_get v (data_frames a)). }
  pose proof (mw_sorted _ _ _ Hms k a Ha) as Hs.
  assert (forall j b u q, bt_get j (areatree ms) = Some b -> bt_get u (data_frames b) = Some q ->
    u <> v -> frame_ok w' root u q /\ q <> p) as Hold.
  { intros j b u q Hb Hu Hne. destruct (ms_frame_ok w root _ j b u q Hms Hb Hu) as [Hur Hok].
    pose proof (tree_key _ (mw_tree _ _ _ Hms) j b Hb) as (_ & Hbr & _).
    apply (map_one_frame_ok w root v (map_perm a) p w' u q M); [lia|done|done]. }
  apply (update_area_wf w root (areatree ms) k a); try done; try apply M.
  - by apply insert_sorted.
  - intros u q. cbn [data_frames set_data_frames]. rewrite zget_insert by done.
    destruct (decide (u = v)) as [->|Hne].
    + intros [= <-]. split; [done|].
      apply (map_one_new_ok w root v (map_perm a)); [apply Hms|done|lia].
    + intros Hu. split; [by apply (ms_frame_ok w root _ k a u q Hms Ha)|]. by apply (Hold k a).
  - intros u1 u2 q. cbn [data_frames set_data_frames]. rewrite !zget_insert by done.
    destruct (decide (u1 = v)) as [->|N1], (decide (u2 = v)) as [->|N2]; [done| | |].
    + intros [= <-] H2. by destruct (Hold k a u2 p Ha H2 N2).
    + intros H1 [= <-]. by destruct (Hold k a u1 p Ha H1 N1).
    + by apply (mw_inj _ _ _ Hms k a u1 k a u2 q).
  - intros j b u q Hj Hb Hu.
    pose proof (ms_pages_differ w root _ k a v j b u q Hms Ha Hv Hb Hu Hj) as Hne.
    destruct (Hold j b u q Hb Hu Hne) as [Hok Hq]. split; [done|].
    intros x. cbn [data_frames set_data_frames]. rewrite zget_insert by done.
    destruct (decide (x = v)) as [->|Hx]; [congruence|]. intros Hxq.
    pose proof (mw_inj _ _ _ Hms k a x j b u q Ha Hb Hxq Hu) as ->.
    destruct (ms_frame_ok w root _ k a u q Hms Ha Hxq) as [Hur _].
    by destruct (ms_pages_differ w root _ k a u j b u q Hms Ha Hur Hb Hu Hj).
Qed.

(** A fault on the page right after an area is handled as if the page
    belonged to it: when no other area starts there, the handler allocates a
    frame, maps the page with the permissions of the area and reports
    success, although no area covers the page. *)
Theorem page_fault_past_end w ms fs stval iw k a :
  ms_wf w (root_ppn (page_table ms)) (areatree ms) ->
  bt_get k (areatree ms) = Some a -> is_mmap a || is_stack a = true -> map_type a = Framed ->
  area_fd a = None -> start_vpn a < end_vpn a -> stval / PAGE_SIZE = end_vpn a -> stval < 2 ^ 39 ->
  (forall k' b, bt_get k' (areatree ms) = Some b -> k' <= end_vpn a -> k' <= k) ->
  pte_at (w_mem w) (root_ppn (page_table ms)) (end_vpn a) = 0 -> 2 < free_count w ->
  ~ covered (areatree ms) (end_vpn a) /\
  exists p ms' w',
    handle_page_fault file_read fs ms stval iw w = Ret (Ok true, ms', fs, w') /\
    la_ppn (pte_at (w_mem w') (root_ppn (page_table ms)) (end_vpn a)) = Ret p /\
    la_flags (pte_at (w_mem w') (root_ppn (page_table ms)) (end_vpn a)) =
      Ret (la_flags_of_perm (map_perm a)).
Proof.
  intros Hms Ha Hty Hfr Hfd Hne Hst Hb Hmax H0 Hc. pose proof (mw_tree _ _ _ Hms) as Hwf.
  pose proof (tree_key _ Hwf k a Ha) as (Ek & Hr & _). split.
  - rewrite covered_get by done. intros (j & b & Hj & Hv).
    pose proof (tree_key _ Hwf j b Hj) as (Ej & _). pose proof (Hmax j b Hj ltac:(lia)).
    destruct (decide (j = k)) as [->|Hjk]; [assert (b = a) as -> by congruence; lia|].
    pose proof (tree_disj _ Hwf j b k a Hj Ha ltac:(lia)). lia.
  - destruct (fault_lazy w ms fs stval iw k a (end_vpn a)) as (p & pt' & w' & E & R & M);
      try done; try lia.
    + apply (find_area_last _ k a); [done|done|lia|done].
    + unfold PAGE_SIZE in *. lia.
    + destruct (area_allocated a (end_vpn a)) eqn:Ea; [|done].
      apply area_allocated_Some in Ea as [q Hq].
      destruct (ms_frame_ok w _ _ k a _ q Hms Ha Hq) as [? _]. lia.
    + eexists p, _, w'. split; [done|]. apply (mo_entry _ _ _ _ _ _ M).
Qed.

(** ** Copy on write *)

(** Unmapping a page whose frame has other owners. *)
Record unshare_post (w : world) (root v p n : Z) (w' : world) : Prop := {
  us_wf : world_wf w';
  us_pt : pt_wf w' root;
  us_pte : pte_at (w_mem w') root v = 0;
  us_refs : w_refs w' = <[p := n - 1]> (w_refs w);
  us_count : free_count w' = free_count w;
  us_p : is_Some (w_refs w' !! p) /\ not_table (w_mem w') root p;
  us_mem : forall f i, is_Some (w_refs w !! f) -> not_table (w_mem w) root f ->
    read_word (w_mem w') f i = read_word (w_mem w) f i;
  us_ok : forall u q, 0 <= u -> u <> v -> q <> p -> frame_ok w root u q -> frame_ok w' root u q
}.

Lemma unmap_one_shared w pt a v p n : world_wf w -> pt_wf w (root_ppn pt) -> map_type a = Framed ->
  bt_get v (data_frames a) = Some p -> 0 <= v -> frame_ok w (root_ppn pt) v p ->
  w_refs w !! p = Some n -> 1 < n ->
  exists w', unmap_one a pt v w = Ret (set_data_frames (bt_remove v (data_frames a)) a, w') /\
    unshare_post w (root_ppn pt) v p n w'.
Proof.
  intros Hw Hpt Hfr Hv Hv0 (F2 & F3 & F4 & F5 & F6 & F7) Hn Hn1.
  destruct (arc_drop_shared w p n Hw Hn ltac:(lia)) as (w1 & E1 & W1 & M1 & R1 & V1 & A1).
  assert (forall f, is_Some (w_refs w !! f) -> is_Some (w_refs w1 !! f)) as Hsome.
  { intros f Hf. rewrite R1, lookup_insert. by destruct (decide _). }
  assert (pt_wf w1 (root_ppn pt)) as Hpt1.
  { constructor; rewrite M1; [apply Hpt|]. intros q f Hq Hf.
    destruct (pw_live _ _ Hpt q f Hq Hf) as [Hl Hr]. split; [by apply Hsome|done]. }
  destruct (pt_unmap_spec w1 pt v W1 Hpt1 ltac:(lia)) as (w2 & E2 & P & R2 & A2); [by rewrite M1|].
  exists w2. split.
  { unfold unmap_one. rewrite Hfr, Hv. st_unfold. rewrite E1, E2. done. }
  destruct (mp_data _ _ _ _ _ P p (Hsome p F3)) as [Hnt _]; [by rewrite M1|].
  constructor.
  - apply P.
  - apply P.
  - rewrite (mp_at _ _ _ _ _ P v ltac:(lia)), Z.eqb_refl. done.
  - congruence.
  - unfold free_count. by rewrite A2, A1.
  - split; [rewrite R2; by apply Hsome|done].
  - intros f i Hf Hnf. rewrite <- M1. apply (mp_data _ _ _ _ _ P); [by apply Hsome|by rewrite M1].
  - intros u q Hu Hne Hq (G2 & G3 & G4 & G5 & G6 & G7).
    destruct (mp_data _ _ _ _ _ P q (Hsome q G3)) as [Hnq _]; [by rewrite M1|].
    unfold frame_ok. rewrite (mp_at _ _ _ _ _ P u) by lia.
    destruct (Z.eqb_spec u v); [done|]. rewrite M1, (mp_vec _ _ _ _ _ P), V1, R2.
    split_and!; try done. by apply Hsome.
Qed.

(** Filling a frame that holds no table. *)
Lemma fill_frame_ok w root m q : pt_wf w root -> not_table (w_mem w) root q ->
  (forall g i, g <> q -> read_word m g i = read_word (w_mem w) g i) ->
  pt_wf (set_mem m w) root /\ (forall v, pte_at m root v = pte_at (w_mem w) root v) /\
  forall u x, frame_ok w root u x -> frame_ok (set_mem m w) root u x.
Proof.
  intros Hpt Hq Hm. destruct (tables_same (w_mem w) m root q Hq Hm) as [Hn Hp].
  split_and!; [|done|].
  - constructor; cbn.
    + intros p1 p2 f H1 H2. rewrite !Hn by done. by apply (pw_inj _ _ Hpt).
    + intros p f H. rewrite Hn by done. by apply (pw_live _ _ Hpt).
  - intros u x (F2 & F3 & F4 & F5 & F6 & F7). unfold frame_ok. cbn. rewrite Hp.
    split_and!; try done. intros p H. rewrite Hn by done. by apply F4.
Qed.

Lemma cow_copy_eq w pt a v p q pt' w2 w3 : pt_wf w (root_ppn pt) -> world_wf w ->
  0 <= v -> frame_ok w (root_ppn pt) v p ->
  unmap_one a pt v w = Ret (set_data_frames (bt_remove v (data_frames a)) a, w2) ->
  map_one (set_data_frames (bt_remove v (data_frames a)) a) pt v w2 =
    Ret (Ok tt, set_data_frames (bt_insert v q (bt_remove v (data_frames a))) a, pt', w3) ->
  root_ppn pt' = root_ppn pt -> map_one_post w2 (root_ppn pt) v (map_perm a) q w3 -> q <> p ->
  cow_copy a pt v w = Ret (set_data_frames (bt_insert v q (bt_remove v (data_frames a))) a, pt',
                           set_mem (copy_words (w_mem w3) q p 0) w3).
Proof.
  intros Hpt Hw Hv0 (F2 & F3 & F4 & F5 & F6 & F7) E2 E3 R M Hqp.
  assert (0 <= v < 2 ^ 27) as Hv by lia.
  destruct (mo_entry _ _ _ _ _ _ M) as [Hq Hfl].
  pose proof (la_flags_valid _ _ Hfl (la_flags_of_perm_nonzero _)) as Hval.
  pose proof (live_range w p Hw F3) as Hpr.
  pose proof (live_range w3 q (mo_wf _ _ _ _ _ _ M) (mk_is_Some _ _ (mo_live _ _ _ _ _ _ M))) as Hqr.
  unfold cow_copy, mbind, ST_bind. rewrite (translate_ppn_at w pt v p) by done.
  unfold st_lift. rewrite frame_base_eq by lia. rewrite E2, E3. cbn [result_unwrap].
  rewrite (translate_ppn_at w3 pt' v q) by (rewrite ?R; done || apply M).
  rewrite frame_base_eq by lia. unfold st_modify, st_gets.
  assert (forall g i, g <> q -> read_word (copy_words (w_mem w3) q p 0) g i = read_word (w_mem w3) g i) as Hm4.
  { intros g i Hg. rewrite copy_words_read by done. rewrite decide_False by naive_solver. done. }
  revert Hm4. generalize (copy_words (w_mem w3) q p 0) as m4. intros m4 Hm4.
  destruct (fill_frame_ok w3 (root_ppn pt') m4 q) as (Hpt4 & Hpte4 & _).
  { rewrite R. apply M. } { rewrite R. apply M. } { done. }
  destruct (pt_translate_at (set_mem m4 w3) (root_ppn pt') v Hpt4 Hv) as [Et _].
  { cbn [w_mem set_mem]. rewrite Hpte4, R. done. }
  cbn [w_mem set_mem] in *. rewrite Et, Hpte4, R. cbn [unwrap].
  destruct (la_un_cow_eq _ _ Hfl) as (b' & -> & _). reflexivity.
Qed.

(** A write fault on an allocated page with other owners runs [cow_copy]. *)
Lemma handle_cow_fault w ms fs stval iw k a v p n c a' pt' w' :
  ms_wf w (root_ppn (page_table ms)) (areatree ms) ->
  stval / PAGE_SIZE = v -> bt_get k (areatree ms) = Some a -> is_mmap a || is_stack a = true ->
  bt_get v (data_frames a) = Some p -> w_refs w !! p = Some n -> 1 < n ->
  la_is_cow (pte_at (w_mem w) (root_ppn (page_table ms)) v) = Ret c -> c || iw = true ->
  cow_copy a (page_table ms) v w = Ret (a', pt', w') ->
  handle_page_fault file_read fs ms stval iw w =
    Ret (Ok true, mkMS pt' (bt_insert k a' (areatree ms)), fs, w').
Proof.
  intros Hms Hst Ha Hty Hp Hn Hn1 Hcow Hc E.
  destruct (ms_frame_ok w _ _ k a v p Hms Ha Hp) as [Hr (F2 & _ & _ & _ & F6 & _)].
  pose proof (tree_key _ (mw_tree _ _ _ Hms) k a Ha) as (Ek & Hr' & _).
  assert (0 <= v < 2 ^ 27) as Hv by lia.
  destruct (pt_translate_at w _ v (mw_pt _ _ _ Hms) Hv F6) as (_ & f & Ef & Er).
  unfold handle_page_fault, VirtAddr_floor.
  rewrite Hst, (find_area_get _ k a v (mw_tree _ _ _ Hms) Ha Hr), Ha.
  unfold mbind, ST_bind, st_lift, st_gets. cbn [unwrap].
  replace (negb (is_mmap a) && negb (is_stack a)) with false
    by (destruct (is_mmap a), (is_stack a); done).
  unfold range_empty. unfold start_vpn, end_vpn in Hr.
  destruct (Z.eqb_spec (rl (vpn_range a)) (rr (vpn_range a))); [lia|].
  assert (area_allocated a v = true) as -> by (apply area_allocated_Some; by exists p).
  cbn [negb]. rewrite Ef, Er, Hcow, Hc, Hp. cbn [unwrap]. rewrite Hn. cbn [unwrap].
  destruct (Z.ltb_spec 1 n); [|lia]. rewrite E. reflexivity.
Qed.

Lemma cow_area_wf w w2 w3 root t k a v p n q m : ms_wf w root t -> bt_get k t = Some a ->
  bt_get v (data_frames a) = Some p -> unshare_post w root v p n w2 ->
  map_one_post w2 root v (map_perm a) q w3 -> pt_wf (set_mem m w3) root ->
  (forall u x, frame_ok w3 root u x -> frame_ok (set_mem m w3) root u x) ->
  ms_wf (set_mem m w3) root
    (bt_insert k (set_data_frames (bt_insert v q (bt_remove v (data_frames a))) a) t).
Proof.
  intros Hms Ha Hp U M Hpt4 Hok4. pose proof (mw_sorted _ _ _ Hms k a Ha) as Hs.
  pose proof (remove_sorted v _ Hs) as Hs1.
  destruct (ms_frame_ok w _ _ k a v p Hms Ha Hp) as [Hr Hokv].
  assert (forall j b u x, bt_get j t = Some b -> bt_get u (data_frames b) = Some x ->
    u <> v -> frame_ok (set_mem m w3) root u x /\ x <> q) as Hold.
  { intros j b u x Hb Hu Hne. destruct (ms_frame_ok w root _ j b u x Hms Hb Hu) as [Hur Hok].
    pose proof (tree_key _ (mw_tree _ _ _ Hms) j b Hb) as (_ & Hbr & _).
    pose proof (ms_frames_differ w root t k a v p j b u x Hms Ha Hp Hb Hu Hne) as Hxp.
    destruct (map_one_frame_ok w2 root v (map_perm a) q w3 u x M) as [H1 H2]; [lia|done| |].
    - by apply (us_ok _ _ _ _ _ _ U); [lia| | |].
    - split; [by apply Hok4|done]. }
  apply (update_area_wf w root t k a); try done; cbn [data_frames set_data_frames].
  - by apply insert_sorted.
  - apply set_mem_wf, M.
  - intros u x. rewrite zget_insert by done. destruct (decide (u = v)) as [->|Hne].
    + intros [= <-]. split; [done|]. apply Hok4, (map_one_new_ok w2 root v (map_perm a));
        [apply U|done|apply Hokv].
    + rewrite zget_remove, decide_False by done. intros Hu.
      split; [by apply (ms_frame_ok w root _ k a u x Hms Ha)|]. by apply (Hold k a).
  - intros u1 u2 x. rewrite !zget_insert, !zget_remove by done.
    destruct (decide (u1 = v)) as [->|N1], (decide (u2 = v)) as [->|N2]; [done| | |].
    + intros [= <-] H2. by destruct (Hold k a u2 q Ha H2 N2).
    + intros H1 [= <-]. by destruct (Hold k a u1 q Ha H1 N1).
    + by apply (mw_inj _ _ _ Hms k a u1 k a u2 x).
  - intros j b u x Hj Hb Hu.
    pose proof (ms_pages_differ w root _ k a v j b u x Hms Ha Hr Hb Hu Hj) as Hne.
    destruct (Hold j b u x Hb Hu Hne) as [Hok Hx]. split; [done|].
    intros y. rewrite zget_insert, zget_remove by done. destruct (decide (y = v)); [congruence|].
    intros Hy. pose proof (mw_inj _ _ _ Hms k a y j b u x Ha Hb Hy Hu) as ->.
    destruct (ms_frame_ok w root _ k a u x Hms Ha Hy) as [Hur _].
    by destruct (ms_pages_differ w root _ k a u j b u x Hms Ha Hur Hb Hu Hj).
Qed.

(** C15: A write fault on a copy-on-write page, or any write fault on a page,
    whose frame has other owners: the page gets a frame of its own with the
    same contents and the permissions of the area; the old frame keeps its
    contents and loses one owner, and the address space is consistent
    again. *)
Theorem page_fault_cow_copy w ms fs stval iw k a p n c :
  let root := root_ppn (page_table ms) in
  let v := stval / PAGE_SIZE in
  ms_wf w root (areatree ms) -> bt_get k (areatree ms) = Some a ->
  is_mmap a || is_stack a = true -> map_type a = Framed ->
  bt_get v (data_frames a) = Some p -> w_refs w !! p = Some n -> 1 < n ->
  la_is_cow (pte_at (w_mem w) root v) = Ret c -> c || iw = true -> 2 < free_count w ->
  exists q ms' w',
    handle_page_fault file_read fs ms stval iw w = Ret (Ok true, ms', fs, w') /\
    w_refs w !! q = None /\ w_refs w' !! q = Some 1 /\
    la_ppn (pte_at (w_mem w') root v) = Ret q /\
    la_flags (pte_at (w_mem w') root v) = Ret (la_flags_of_perm (map_perm a)) /\
    (forall i, 0 <= i < 512 -> read_word (w_mem w') q i = read_word (w_mem w) p i) /\
    (forall i, read_word (w_mem w') p i = read_word (w_mem w) p i) /\
    w_refs w' !! p = Some (n - 1) /\
    ms_wf w' (root_ppn (page_table ms')) (areatree ms').
Proof.
  intros root v Hms Ha Hty Hfr Hp Hn Hn1 Hcow Hc Hcount.
  destruct (ms_frame_ok w _ _ k a v p Hms Ha Hp) as [Hr Hok]. pose proof Hok as (F2 & F3 & F4 & _).
  pose proof (tree_key _ (mw_tree _ _ _ Hms) k a Ha) as (Ek & Hr' & _).
  pose proof (mw_sorted _ _ _ Hms k a Ha) as Hs.
  destruct (unmap_one_shared w (page_table ms) a v p n (mw_world _ _ _ Hms) (mw_pt _ _ _ Hms) Hfr Hp
    ltac:(lia) Hok Hn Hn1) as (w2 & E2 & U).
  set (a1 := set_data_frames (bt_remove v (data_frames a)) a) in *.
  assert (bt_get v (data_frames a1) = None) as Hv1.
  { cbn. rewrite zget_remove, decide_True by done. done. }
  destruct (map_one_spec w2 a1 (page_table ms) v) as (q & pt' & w3 & E3 & R & M);
    [apply U|apply U|done|lia|apply (us_pte _ _ _ _ _ _ U)|done|rewrite (us_count _ _ _ _ _ _ U); lia|].
  destruct (us_p _ _ _ _ _ _ U) as [Hp2 Hnt2].
  assert (q <> p) as Hqp.
  { intros ->. rewrite (mo_fresh _ _ _ _ _ _ M) in Hp2. by destruct Hp2. }
  pose proof (cow_copy_eq w (page_table ms) a v p q pt' w2 w3 (mw_pt _ _ _ Hms) (mw_world _ _ _ Hms)
    ltac:(lia) Hok E2 E3 R M Hqp) as Ec.
  pose proof (handle_cow_fault w ms fs stval iw k a v p n c _ _ _ Hms eq_refl Ha Hty Hp Hn Hn1
    Hcow Hc Ec) as E.
  set (m4 := copy_words (w_mem w3) q p 0) in *.
  destruct (fill_frame_ok w3 root m4 q) as (Hpt4 & Hpte4 & Hok4).
  { apply M. } { apply M. }
  { intros g i Hg. unfold m4. rewrite copy_words_read by done. rewrite decide_False by naive_solver. done. }
  destruct (mo_data _ _ _ _ _ _ M p Hp2 Hnt2) as (D1 & D2 & D3).
  eexists q, _, (set_mem m4 w3). split; [exact E|]. cbn [w_mem w_refs set_mem page_table areatree].
  rewrite Hpte4. assert (forall i, read_word (w_mem w3) p i = read_word (w_mem w) p i) as Hp3.
  { intros i. rewrite D3. by apply (us_mem _ _ _ _ _ _ U). }
  split_and!.
  - pose proof (mo_fresh _ _ _ _ _ _ M) as Hq. rewrite (us_refs _ _ _ _ _ _ U), lookup_insert_ne in Hq; done.
  - apply (mo_live _ _ _ _ _ _ M).
  - apply (mo_entry _ _ _ _ _ _ M).
  - apply (mo_entry _ _ _ _ _ _ M).
  - intros i Hi. unfold m4. rewrite copy_words_read, decide_True by done. apply Hp3.
  - intros i. unfold m4. rewrite copy_words_read, decide_False by naive_solver. apply Hp3.
  - rewrite D1, (us_refs _ _ _ _ _ _ U), lookup_insert_eq. done.
  - rewrite R. apply (cow_area_wf w w2 w3 root (areatree ms) k a v p n q m4); done.
Qed.

End faults.

(** ** Examples *)

Definition no_file : Z -> UserBuffer -> inodes -> ST world (result Z SysErrNo * inodes) :=
  fun _ _ fs => mret (Err EINVAL, fs).

(** An area of four pages with nothing allocated. *)
Lemma space_lazy pt w : world_wf w -> pt_wf w (root_ppn pt) ->
  ms_wf w (root_ppn pt) [(0x10, area4)].
Proof.
  intros Hw Hpt. assert (forall k a, bt_get k [(0x10, area4)] = Some a -> data_frames a = []) as Hd.
  { intros k a. cbn. destruct (Z.compare k 0x10); [by intros [= <-]|done|done]. }
  pose proof (empty_space pt w Hw Hpt) as He.
  constructor; [done|done| | | |].
  - change [(0x10, area4)] with (tree_push [] area4).
    apply tree_push_wf; [apply He|cbn; lia|cbn; lia|done|done].
  - intros k a H%Hd. rewrite H. apply SSorted_nil.
  - intros k a v p H%Hd Hv. rewrite H in Hv. done.
  - intros k1 a1 v1 k2 a2 v2 p H1%Hd _ Hv. rewrite H1 in Hv. done.
Qed.

Lemma page_fault_lazy_alloc_witness : exists pt w p ms' w',
  handle_page_fault no_file ∅ (mkMS pt [(0x10, area4)]) 0x12345 false w = Ret (Ok true, ms', ∅, w') /\
  la_ppn (pte_at (w_mem w') (root_ppn pt) 0x12) = Ret p.
Proof.
  destruct pt70_ok as (Hw & Hpt & H0 & Hc). revert Hw Hpt H0 Hc.
  generalize (fst pt70) (snd pt70). intros pt w Hw Hpt H0 Hc.
  destruct (page_fault_lazy_alloc no_file w (mkMS pt [(0x10, area4)]) ∅ 0x12345 false 0x10 area4)
    as (p & ms' & w' & E & M & _);
    [by apply space_lazy|reflexivity|reflexivity|reflexivity|reflexivity
    |change (0x10 <= 0x12345 / 4096 < 0x14); lia|lia|reflexivity|apply H0|rewrite Hc; lia|].
  exists pt, w, p, ms', w'. split; [exact E|]. exact (proj1 (mo_entry _ _ _ _ _ _ M)).
Defined.

Lemma page_fault_past_end_witness : exists pt w p ms' w',
  ~ covered [(0x10, area4)] 0x14 /\
  handle_page_fault no_file ∅ (mkMS pt [(0x10, area4)]) 0x14000 true w = Ret (Ok true, ms', ∅, w') /\
  la_ppn (pte_at (w_mem w') (root_ppn pt) 0x14) = Ret p.
Proof.
  destruct pt70_ok as (Hw & Hpt & H0 & Hc). revert Hw Hpt H0 Hc.
  generalize (fst pt70) (snd pt70). intros pt w Hw Hpt H0 Hc.
  destruct (page_fault_past_end no_file w (mkMS pt [(0x10, area4)]) ∅ 0x14000 true 0x10 area4)
    as (Hn & p & ms' & w' & E & H & _);
    [by apply space_lazy|reflexivity|reflexivity|reflexivity|reflexivity|cbn; lia|reflexivity|lia
    | |apply H0|rewrite Hc; lia|].
  - intros k' b. cbn. destruct (Z.compare_spec k' 0x10); [lia|done|done].
  - exists pt, w, p, ms', w'. split_and!; [exact Hn|exact E|exact H].
Defined.

(** A second handle to a frame of the space leaves it consistent. *)
Lemma clone_ms_wf w root t p n : ms_wf w root t -> w_refs w !! p = Some n ->
  let w' := set_refs (<[p := n + 1]> (w_refs w)) w in
  ms_wf w' root t /\ free_count w' = free_count w.
Proof.
  intros Hms Hn w'. split; [|done].
  assert (forall f, is_Some (w_refs w' !! f) <-> is_Some (w_refs w !! f)) as Hs.
  { intros f. cbn. rewrite lookup_insert. destruct (decide (p = f)) as [<-|]; [|done].
    rewrite Hn. split; intros _; by eexists. }
  constructor.
  - pose proof (mw_world _ _ _ Hms) as [W1 W2 W3 W4]. constructor; cbn; [done| | |].
    + intros f. rewrite <- W2. apply Hs.
    + intros f k. rewrite lookup_insert. destruct (decide (p = f)) as [<-|]; [|by apply W3].
      intros [= <-]. pose proof (W3 p n Hn). lia.
    + intros f q Hf. split; [by apply (W4 f)|]. apply Hs. by apply (W4 f q).
  - constructor; [apply (mw_pt _ _ _ Hms)|]. intros q f Hq Hf. rewrite Hs.
    by apply (pw_live _ _ (mw_pt _ _ _ Hms) q f).
  - apply Hms.
  - apply (mw_sorted _ _ _ Hms).
  - intros k a v q Ha Hv. rewrite Hs. apply (mw_frames _ _ _ Hms k a v q Ha Hv).
  - apply (mw_inj _ _ _ Hms).
Qed.

Lemma page_fault_cow_copy_witness : exists ms w p q ms' w',
  w_refs w !! p = Some 2 /\
  handle_page_fault no_file ∅ ms 0x12345 true w = Ret (Ok true, ms', ∅, w') /\
  la_ppn (pte_at (w_mem w') (root_ppn (page_table ms)) 0x12) = Ret q /\
  read_word (w_mem w') q 5 = read_word (w_mem w) p 5 /\ w_refs w' !! p = Some 1.
Proof.
  destruct space4 as (d & pt & w & _ & Hms & Hd & Hc). destruct (Hd 0x12 ltac:(lia)) as (p & Hp & Hr & Hf).
  destruct (clone_ms_wf w _ _ p 1 Hms Hr) as [Hms' Hc'].
  set (w1 := set_refs (<[p := 1 + 1]> (w_refs w)) w) in *.
  set (ms := mkMS pt [(0x10, set_data_frames d area4)]).
  assert (w_refs w1 !! p = Some 2) as Hr2 by apply lookup_insert_eq.
  destruct (page_fault_cow_copy no_file w1 ms ∅ 0x12345 true 0x10 (set_data_frames d area4) p 2
    (Z.testbit (pte_at (w_mem w) (root_ppn pt) 0x12) 49)) as
    (q & ms' & w' & E & _ & _ & H1 & _ & H2 & _ & H3 & _);
    [exact Hms'|reflexivity|reflexivity|reflexivity|exact Hp|exact Hr2|lia
    |exact (la_is_cow_eq _ _ Hf)|apply orb_true_r|rewrite Hc'; lia|].
  exists ms, w1, p, q, ms', w'. split_and!; [exact Hr2|exact E|exact H1|apply H2; lia|exact H3].
Defined.
