(* ===== verification/Protect.v ===== *)
(** * Changing permissions (os/src/mm/memory_set.rs, os/src/mm/area.rs)

    [mprotect] on a consistent address space.  [update_flags] changes the
    entries of as many pages as the area has frames, from its first page on;
    where these are the allocated pages, [mprotect] changes the permission of
    exactly the pages of the range, in the areas and in the page table. *)

From S2P Require Import Prelude Config Address BitField Memory FrameAlloc.
From S2P Require Import FrameSpec Pte PageTable BTree Errno Area.
From S2P Require Import AreaTree AreaMap MemorySet Munmap.

(** ** Entries *)

(** The bits of an entry that [set_flags] keeps besides the frame number. *)
Definition la_KEPT : Z := 0x1fff000000000000.

Lemma la_flags_of_perm_low perm : Z.land (la_flags_of_perm perm) 0x18f = la_flags_of_perm perm.
Proof. unfold la_flags_of_perm. destruct (fl_contains perm MP_W), (fl_contains perm MP_U); reflexivity. Qed.

Lemma la_set_flags_eq b f : la_set_flags b f = Z.lor (Z.land b 0x1ffffffffffff000) f.
Proof. unfold la_set_flags. rewrite <- Z.land_assoc. reflexivity. Qed.

Lemma la_set_flags_ppn b perm : la_ppn (la_set_flags b (la_flags_of_perm perm)) = la_ppn b.
Proof.
  rewrite !la_ppn_eq, la_set_flags_eq, Z.land_lor_distr_l, <- (Z.land_assoc b).
  change (Z.land 0x1ffffffffffff000 la_PPN) with la_PPN.
  rewrite <- (la_flags_of_perm_low perm), <- (Z.land_assoc (la_flags_of_perm perm)).
  change (Z.land 0x18f la_PPN) with 0. by rewrite Z.land_0_r, Z.lor_0_r.
Qed.

(** The new flags are exactly those of the permission if the old ones have
    none of the bits that are kept. *)
Lemma la_set_flags_flags b f perm : la_flags b = Ret f -> Z.land f la_KEPT = 0 ->
  la_flags (la_set_flags b (la_flags_of_perm perm)) = Ret (la_flags_of_perm perm).
Proof.
  intros [-> Hb]%la_flags_Ret Hk. rewrite la_flags_eq, la_set_flags_eq, !Z.land_lor_distr_l.
  rewrite <- !(Z.land_assoc b), <- (la_flags_of_perm_low perm), <- !(Z.land_assoc (la_flags_of_perm perm)).
  change (Z.land 0x18f la_BAD) with 0. change (Z.land 0x18f la_FLAGS) with 0x18f.
  rewrite (Z.land_comm 0x1ffffffffffff000 la_BAD), Z.land_assoc, Hb, Z.land_0_l, Z.land_0_r. cbn [Z.lor Z.eqb].
  rewrite <- Z.land_assoc in Hk. change (Z.land la_FLAGS la_KEPT) with la_KEPT in Hk.
  change (Z.land 0x1ffffffffffff000 la_FLAGS) with la_KEPT. by rewrite Hk.
Qed.

Lemma la_flags_of_perm_kept perm : Z.land (la_flags_of_perm perm) la_KEPT = 0.
Proof. rewrite <- la_flags_of_perm_low, <- Z.land_assoc. apply Z.land_0_r. Qed.

Lemma la_set_flags_valid b perm : la_is_valid (la_set_flags b (la_flags_of_perm perm)) = true.
Proof.
  unfold la_is_valid. rewrite la_set_flags_eq. destruct (Z.eqb_spec (Z.lor (Z.land b 0x1ffffffffffff000)
    (la_flags_of_perm perm)) 0) as [E|]; [|done].
  apply Z.lor_eq_0_iff in E as [_ E]. by apply la_flags_of_perm_nonzero in E.
Qed.

(** ** The page table *)

(** The entries of the pages [lo, hi) have got the flags [f]; nothing else
    has changed. *)
Record flags_post (w : world) (root lo hi f : Z) (w' : world) : Prop := {
  fp_wf : world_wf w';
  fp_pt : pt_wf w' root;
  fp_at : forall v, 0 <= v < 2 ^ 27 -> pte_at (w_mem w') root v =
    if (lo <=? v) && (v <? hi) then la_set_flags (pte_at (w_mem w) root v) f else pte_at (w_mem w) root v;
  fp_data : forall g, not_table (w_mem w) root g -> not_table (w_mem w') root g /\
    forall i, read_word (w_mem w') g i = read_word (w_mem w) g i;
  fp_refs : w_refs w' = w_refs w;
  fp_fa : w_fa w' = w_fa w;
  fp_vec : w_frame_vec w' = w_frame_vec w
}.

Lemma flags_post_refl w root lo f : world_wf w -> pt_wf w root -> flags_post w root lo lo f w.
Proof.
  intros Hw Hpt. split; try done. intros v _. destruct (Z.leb_spec lo v), (Z.ltb_spec v lo); cbn; lia || done.
Qed.

Lemma flags_post_trans w root lo mid hi f w1 w2 : lo <= mid <= hi ->
  flags_post w root lo mid f w1 -> flags_post w1 root mid hi f w2 -> flags_post w root lo hi f w2.
Proof.
  intros Hm P1 P2. split; try apply P2.
  - intros v Hv. rewrite (fp_at _ _ _ _ _ _ P2), (fp_at _ _ _ _ _ _ P1) by done.
    destruct (Z.leb_spec lo v), (Z.ltb_spec v mid), (Z.leb_spec mid v), (Z.ltb_spec v hi); cbn; lia || done.
  - intros g Hg. destruct (fp_data _ _ _ _ _ _ P1 g Hg) as [H1 E1].
    destruct (fp_data _ _ _ _ _ _ P2 g H1) as [H2 E2]. split; [done|]. intros i. by rewrite E2, E1.
  - rewrite (fp_refs _ _ _ _ _ _ P2). apply P1.
  - rewrite (fp_fa _ _ _ _ _ _ P2). apply P1.
  - rewrite (fp_vec _ _ _ _ _ _ P2). apply P1.
Qed.

Lemma pt_update_node w pt v perm g : world_wf w -> pt_wf w (root_ppn pt) -> 0 <= v < 2 ^ 27 ->
  node (w_mem w) (root_ppn pt) (vpath v) = Some g ->
  exists w', pt_update pt (v * PAGE_SIZE) None (Some perm) w = Ret (Ok Size4K, w') /\
    flags_post w (root_ppn pt) v (v + 1) (la_flags_of_perm perm) w'.
Proof.
  intros Hw Hpt Hv Hg. unfold pt_update, VirtAddr_floor. rewrite Z.div_mul by done.
  st_unfold. rewrite (find_pte_eq w), Hg by done.
  eexists. split; [reflexivity|]. split; cbn; try done.
  - by apply set_mem_wf.
  - by apply leaf_write_wf.
  - intros u Hu. rewrite leaf_write_at by done.
    destruct (Z.eqb_spec u v) as [->|Hne].
    + destruct (Z.leb_spec v v), (Z.ltb_spec v (v + 1)); try lia. cbn. unfold pte_at. by rewrite Hg.
    + destruct (Z.leb_spec v u), (Z.ltb_spec u (v + 1)); cbn; lia || done.
  - intros h Hnt. split.
    + intros p Hp Hn. apply (Hnt p Hp). rewrite <- Hn. symmetry.
      apply node_write_leaf; [done|done|]. intros q Hq Hlq Hnq.
      pose proof (pw_inj w _ Hpt _ _ g Hq (path_ok_vpath v) Hnq Hg). subst q. cbn in Hlq. lia.
    + intros i. apply read_write_word_ne. left. intros ->. by apply (Hnt (vpath v) (path_ok_vpath v)).
Qed.

Lemma pt_update_spec w pt v perm : world_wf w -> pt_wf w (root_ppn pt) -> 0 <= v < 2 ^ 27 ->
  la_is_valid (pte_at (w_mem w) (root_ppn pt) v) = true ->
  exists w', pt_update pt (v * PAGE_SIZE) None (Some perm) w = Ret (Ok Size4K, w') /\
    flags_post w (root_ppn pt) v (v + 1) (la_flags_of_perm perm) w'.
Proof.
  intros Hw Hpt Hv Hval. unfold pte_at in Hval.
  destruct (node (w_mem w) (root_ppn pt) (vpath v)) as [g|] eqn:Hg; [|done]. by apply (pt_update_node w pt v perm g).
Qed.

Lemma update_region_loop_spec perm pt (k : nat) : forall w lo n, world_wf w -> pt_wf w (root_ppn pt) ->
  0 <= lo -> (k = 0%nat \/ lo + Z.of_nat k <= 2 ^ 27) ->
  (forall v, lo <= v < lo + Z.of_nat k -> la_is_valid (pte_at (w_mem w) (root_ppn pt) v) = true) ->
  exists w', update_region_loop (S k + n) pt (lo * PAGE_SIZE) ((lo + Z.of_nat k) * PAGE_SIZE) perm w = Ret (Ok tt, w') /\
    flags_post w (root_ppn pt) lo (lo + Z.of_nat k) (la_flags_of_perm perm) w'.
Proof.
  induction k as [|k IH]; intros w lo n Hw Hpt H0 Hb Hval.
  - exists w. rewrite Z.add_0_r. split; [|by apply flags_post_refl].
    cbn [update_region_loop Nat.add]. by rewrite Z.ltb_irrefl.
  - destruct (pt_update_spec w pt lo perm) as (w1 & E1 & P1); [done|done|lia|apply Hval; lia|].
    destruct (IH w1 (lo + 1) n) as (w' & E & P); [apply P1|apply P1|lia|lia| |].
    { intros v Hv. rewrite (fp_at _ _ _ _ _ _ P1) by lia. destruct (Z.leb_spec lo v), (Z.ltb_spec v (lo + 1)); try lia.
      cbn. apply Hval. lia. }
    exists w'. replace (lo + Z.of_nat (S k)) with (lo + 1 + Z.of_nat k) by lia.
    split; [|by apply (flags_post_trans w _ lo (lo + 1) _ _ w1); [lia| |]].
    change (S (S k) + n)%nat with (S (S k + n)). cbn [update_region_loop].
    destruct (Z.ltb_spec (lo * PAGE_SIZE) ((lo + 1 + Z.of_nat k) * PAGE_SIZE)); [|unfold PAGE_SIZE in *; lia].
    erewrite st_try_run by exact E1. cbv beta.
    erewrite st_run by (unfold st_lift; rewrite uadd_Ret by (unfold PAGE_SIZE, Size4K, u64_bound; lia); reflexivity).
    cbv beta. change Size4K with PAGE_SIZE. replace (lo * PAGE_SIZE + PAGE_SIZE) with ((lo + 1) * PAGE_SIZE) by lia.
    exact E.
Qed.

(** ** Areas whose allocated pages are the first ones *)

Definition dense (a : MapArea) : Prop := exists n, 0 <= n /\ start_vpn a + n <= end_vpn a /\
  forall v, area_allocated a v = true <-> start_vpn a <= v < start_vpn a + n.

Lemma dense_count a n : bt_sorted (data_frames a) -> 0 <= n ->
  (forall v, area_allocated a v = true <-> start_vpn a <= v < start_vpn a + n) -> zlen (data_frames a) = n.
Proof.
  intros Hs Hn Hd. assert (fst <$> data_frames a ≡ₚ zrange (start_vpn a) (start_vpn a + n)) as Hp.
  { apply NoDup_Permutation; [by apply sorted_keys_nodup|apply NoDup_zrange|]. intros v.
    rewrite elem_of_zrange, <- Hd, area_allocated_Some, list_elem_of_fmap. split.
    - intros ([u p] & -> & Hin). exists p. by apply elem_get.
    - intros [p Hp]. exists (v, p). split; [done|]. by apply get_Some_elem. }
  apply Permutation_length in Hp. rewrite length_fmap, length_zrange in Hp. unfold zlen. lia.
Qed.

Lemma update_flags_spec w pt a n perm : world_wf w -> pt_wf w (root_ppn pt) -> bt_sorted (data_frames a) ->
  0 <= start_vpn a < 2 ^ 52 -> 0 <= n -> (n = 0 \/ start_vpn a + n <= 2 ^ 27) ->
  (forall v, area_allocated a v = true <-> start_vpn a <= v < start_vpn a + n) ->
  (forall v, area_allocated a v = true -> la_is_valid (pte_at (w_mem w) (root_ppn pt) v) = true) ->
  exists w', update_flags a pt perm w = Ret (set_map_perm perm a, w') /\
    flags_post w (root_ppn pt) (start_vpn a) (start_vpn a + n) (la_flags_of_perm perm) w'.
Proof.
  intros Hw Hpt Hs H0 Hn Hb Hd Hval.
  destruct (update_region_loop_spec perm pt (Z.to_nat n) w (start_vpn a) 1) as (w' & E & P);
    [done|done|lia|lia|intros v Hv; apply Hval, Hd; lia|].
  rewrite Z2Nat.id in E, P by done. exists w'. split; [|done]. unfold update_flags.
  assert (VirtAddr_of_VirtPageNum (start_vpn a) = start_vpn a * PAGE_SIZE) as Hva.
  { unfold VirtAddr_of_VirtPageNum, PAGE_SIZE_BITS. by rewrite shl64_small by (unfold u64_bound; lia). }
  change (start_vpn (set_map_perm perm a)) with (start_vpn a). rewrite Hva.
  erewrite st_run by (unfold st_lift, area_size; change (data_frames (set_map_perm perm a)) with (data_frames a);
    rewrite (dense_count a n Hs Hn Hd), umul_Ret by (unfold PAGE_SIZE, u64_bound; lia); reflexivity). cbv beta.
  erewrite st_run; [|unfold update_region; erewrite st_run by
    (unfold st_lift; rewrite uadd_Ret by (unfold PAGE_SIZE, u64_bound; lia); reflexivity); cbv beta;
    change Size4K with PAGE_SIZE; rewrite Z.div_mul by done;
    replace (Z.to_nat (n + 2)) with (S (Z.to_nat n) + 1)%nat by lia;
    rewrite <- Z.mul_add_distr_r; exact E]. done.
Qed.

(** ** Cutting an area *)

(** [b] is the part [x, y) of [a], with its frames. *)
Record piece (a : MapArea) (x y : Z) (b : MapArea) : Prop := {
  pc_range : start_vpn b = x /\ end_vpn b = y;
  pc_sorted : bt_sorted (data_frames b);
  pc_frames : forall k, bt_get k (data_frames b) =
    if (x <=? k) && (k <? y) then bt_get k (data_frames a) else None;
  pc_same : same_attr a b
}.

(** An area whose frames belong to its pages. *)
Definition frames_in (a : MapArea) : Prop := bt_sorted (data_frames a) /\
  forall v p, bt_get v (data_frames a) = Some p -> start_vpn a <= v < end_vpn a.

Lemma piece_whole a : frames_in a -> piece a (start_vpn a) (end_vpn a) a.
Proof.
  intros [Hs Hf]. split; [done|done| |by repeat split]. intros k.
  destruct (bt_get k (data_frames a)) as [p|] eqn:E; [|by destruct (_ && _)].
  apply Hf in E. destruct (Z.leb_spec (start_vpn a) k), (Z.ltb_spec k (end_vpn a)); lia || done.
Qed.

Lemma from_below_get (d : list (Z * Z)) x y k : bt_sorted d ->
  bt_get k (bt_from x (bt_below y d)) = if (x <=? k) && (k <? y) then bt_get k d else None.
Proof.
  intros Hs. rewrite (proj2 (split_below_from (bt_below y d) x k ltac:(by apply filter_sorted))).
  rewrite (proj1 (split_below_from d y k Hs)).
  destruct (Z.ltb_spec k x), (Z.leb_spec x k), (Z.ltb_spec k y); lia || done.
Qed.

Lemma split_pieces fs a v : frames_in a -> area_fd a = None -> start_vpn a <= v <= end_vpn a ->
  exists l r, area_split fs a v = Ret (l, r, fs) /\ piece a (start_vpn a) v l /\ piece a v (end_vpn a) r.
Proof.
  intros [Hs Hf] Hfd Hv. unfold area_split, bt_split_off. rewrite Hfd. cbn [split_file mbind outcome_bind].
  unfold range_new, range_set_end. fold (start_vpn a).
  destruct (Z.leb_spec v (end_vpn a)); [|lia]. destruct (Z.leb_spec (start_vpn a) v); [|lia].
  cbn [rassert mbind outcome_bind]. eexists _, _. split; [reflexivity|].
  split; (split; [done|by apply filter_sorted| |by repeat split]); intros k; cbn [data_frames set_vpn_range set_data_frames].
  - rewrite (proj1 (split_below_from _ v k Hs)). destruct (bt_get k (data_frames a)) as [p|] eqn:E.
    + apply Hf in E. destruct (Z.ltb_spec k v), (Z.leb_spec (start_vpn a) k); lia || done.
    + by destruct (k <? v), (start_vpn a <=? k).
  - rewrite (proj2 (split_below_from _ v k Hs)). destruct (bt_get k (data_frames a)) as [p|] eqn:E.
    + apply Hf in E. destruct (Z.ltb_spec k v), (Z.leb_spec v k), (Z.ltb_spec k (end_vpn a)); lia || done.
    + by destruct (k <? v), (v <=? k), (k <? end_vpn a).
Qed.

Lemma split3_pieces fs a s e : frames_in a -> area_fd a = None -> start_vpn a < s -> s <= e -> e < end_vpn a ->
  exists l m r, area_split3 fs a s e = Ret (l, m, r, fs) /\ piece a (start_vpn a) s l /\ piece a s e m /\
    piece a e (end_vpn a) r.
Proof.
  intros [Hs Hf] Hfd H1 H2 H3. unfold area_split3, strict_contain, bt_split_off. rewrite Hfd.
  destruct (Z.ltb_spec (start_vpn a) s); [|lia]. destruct (Z.ltb_spec e (end_vpn a)); [|lia].
  cbn [andb rassert split_file mbind outcome_bind]. unfold range_new, range_set_end. fold (start_vpn a).
  destruct (Z.leb_spec s e); [|lia]. destruct (Z.leb_spec e (end_vpn a)); [|lia].
  destruct (Z.leb_spec (start_vpn a) s); [|lia]. cbn [rassert mbind outcome_bind].
  eexists _, _, _. split; [reflexivity|].
  split_and!; (split; [done|repeat apply filter_sorted; done| |by repeat split]); intros k;
    cbn [data_frames set_vpn_range set_data_frames].
  - rewrite (proj1 (split_below_from (bt_below e (data_frames a)) s k (filter_sorted _ _ Hs))), (proj1 (split_below_from _ e k Hs)).
    destruct (bt_get k (data_frames a)) as [p|] eqn:E.
    + apply Hf in E. destruct (Z.ltb_spec k s), (Z.ltb_spec k e), (Z.leb_spec (start_vpn a) k); lia || done.
    + by destruct (k <? s), (k <? e), (start_vpn a <=? k).
  - by apply from_below_get.
  - rewrite (proj2 (split_below_from _ e k Hs)). destruct (bt_get k (data_frames a)) as [p|] eqn:E.
    + apply Hf in E. destruct (Z.ltb_spec k e), (Z.leb_spec e k), (Z.ltb_spec k (end_vpn a)); lia || done.
    + by destruct (k <? e), (e <=? k), (k <? end_vpn a).
Qed.

Lemma piece_dense a x y b : dense a -> start_vpn a <= x <= y -> y <= end_vpn a -> piece a x y b ->
  exists n, 0 <= n /\ x + n <= y /\ forall v, area_allocated b v = true <-> x <= v < x + n.
Proof.
  intros (n & Hn & Hb & Hd) Hx Hy P. exists (Z.max 0 (Z.min y (start_vpn a + n) - x)).
  split; [lia|]. split; [lia|]. intros v. unfold area_allocated. rewrite (pc_frames _ _ _ _ P).
  specialize (Hd v). unfold area_allocated in Hd.
  destruct (Z.leb_spec x v), (Z.ltb_spec v y); cbn [andb]; [rewrite Hd; lia|split; [done|lia]..].
Qed.

(** ** One area of the loop *)

Lemma areas_insert_new_run t k a w : bt_get k t = None -> areas_insert_new t k a w = Ret (bt_insert k a t, w).
Proof. unfold areas_insert_new. by intros ->. Qed.

(** The lookups after the parts of [a] are stored: the middle [m] with the new
    permission, the left part [l] and the right part [r] where there is one. *)
Definition prot_get (g : Z -> option MapArea) (a : MapArea) (s e : Z) (m l r : MapArea) (j : Z) : option MapArea :=
  if decide (j = Z.max s (start_vpn a)) then Some m
  else if decide (j = start_vpn a /\ start_vpn a < s) then Some l
  else if decide (j = e /\ e < end_vpn a) then Some r
  else g j.

(** The three parts of an area that [s, e) overlaps, the middle one with the
    permission [perm]. *)
Record parts (a : MapArea) (s e perm : Z) (m l r : MapArea) : Prop := {
  pt_mid : exists m0, piece a (Z.max s (start_vpn a)) (Z.min e (end_vpn a)) m0 /\ m = set_map_perm perm m0;
  pt_left : start_vpn a < s -> piece a (start_vpn a) s l;
  pt_right : e < end_vpn a -> piece a e (end_vpn a) r
}.

Lemma overlap_bounds a s e : s < e -> start_vpn a <= end_vpn a -> overlap_with a s e = true ->
  start_vpn a < e /\ s <= end_vpn a /\ Z.max s (start_vpn a) <= Z.min e (end_vpn a).
Proof.
  unfold overlap_with. intros Hse Hr Hov.
  destruct (Z.leb_spec (start_vpn a) s), (Z.ltb_spec s (end_vpn a)), (Z.leb_spec s (start_vpn a)),
    (Z.ltb_spec (start_vpn a) e); cbn in Hov; try done; lia.
Qed.

Section protect_area.
Variables (w : world) (pt : PageTable) (fs : inodes) (t : VmAreaTree) (a : MapArea) (s e perm : Z).
Notation root := (root_ppn pt).
Hypothesis Hw : world_wf w.
Hypothesis Hpt : pt_wf w root.
Hypothesis Ha : frames_in a.
Hypothesis Hfd : area_fd a = None.
Hypothesis Hr : 0 <= start_vpn a <= end_vpn a /\ end_vpn a < 2 ^ 52.
Hypothesis Hb : forall v, area_allocated a v = true -> v < 2 ^ 27 /\ la_is_valid (pte_at (w_mem w) root v) = true.
Hypothesis Hden : dense a.
Hypothesis Hse : s < e.
Hypothesis Hov : overlap_with a s e = true.
Hypothesis Hs : bt_sorted t.
Hypothesis Hmid : bt_get (Z.max s (start_vpn a)) t = None.
Hypothesis Hleft : start_vpn a < s -> bt_get (start_vpn a) t = None.
Hypothesis Hright : e < end_vpn a -> bt_get e t = None.

(** [update_flags] of a part changes the entries of its pages. *)
Lemma piece_update x y b : start_vpn a <= x <= y -> y <= end_vpn a -> piece a x y b ->
  exists n w', update_flags b pt perm w = Ret (set_map_perm perm b, w') /\ 0 <= n /\ x + n <= y /\
    (forall v, area_allocated b v = true <-> x <= v < x + n) /\
    flags_post w root x (x + n) (la_flags_of_perm perm) w'.
Proof.
  intros Hx Hy P. destruct (piece_dense a x y b Hden Hx Hy P) as (n & Hn & Hxn & Hd).
  destruct (pc_range _ _ _ _ P) as [E1 E2].
  assert (forall v, area_allocated b v = true -> area_allocated a v = true) as Hsub.
  { intros v. unfold area_allocated. rewrite (pc_frames _ _ _ _ P). by destruct (_ && _). }
  destruct (update_flags_spec w pt b n perm) as (w' & E & F); [done|done|apply P|lia|done| |by rewrite E1| |].
  - rewrite E1. destruct (Z.eq_dec n 0); [by left|right].
    destruct (Hb (x + n - 1) (Hsub _ (proj2 (Hd (x + n - 1)) ltac:(lia)))). lia.
  - intros v Hv. apply Hb, Hsub, Hv.
  - rewrite E1 in F. by exists n, w'.
Qed.

Lemma prot_get_spec (g g' : Z -> option MapArea) m l r :
  (forall j, g' j = if decide (j = Z.max s (start_vpn a)) then Some m else g j) ->
  (start_vpn a < s -> g (start_vpn a) = Some l) -> (e < end_vpn a -> g e = Some r) ->
  (forall j, (j = start_vpn a -> ~ start_vpn a < s) -> (j = e -> ~ e < end_vpn a) -> g j = bt_get j t) ->
  forall j, g' j = prot_get (fun j => bt_get j t) a s e m l r j.
Proof.
  intros H Hl Hrr Ho j. rewrite H. unfold prot_get. destruct (decide (j = Z.max s (start_vpn a))); [done|].
  destruct (decide (j = start_vpn a /\ start_vpn a < s)) as [[-> H1]|N1]; [auto|].
  destruct (decide (j = e /\ e < end_vpn a)) as [[-> H1]|N2]; [auto|]. apply Ho; lia.
Qed.

(** What the loop body does with the area. *)
Definition area_done (res : outcome (VmAreaTree * inodes * world)) : Prop := exists m l r n t' w',
  res = Ret ((t', fs), w') /\ parts a s e perm m l r /\
  bt_sorted t' /\ (forall j, bt_get j t' = prot_get (fun j => bt_get j t) a s e m l r j) /\
  0 <= n /\ (forall v, area_allocated m v = true <-> Z.max s (start_vpn a) <= v < Z.max s (start_vpn a) + n) /\
  flags_post w root (Z.max s (start_vpn a)) (Z.max s (start_vpn a) + n) (la_flags_of_perm perm) w'.

Lemma protect_contained : contained_in a s e = true ->
  area_done (mprotect_area fs pt t s e perm a w).
Proof.
  intros Hc. destruct (overlap_bounds a s e Hse (proj2 (proj1 Hr)) Hov) as (B1 & B2 & B3). unfold area_done, mprotect_area. rewrite Hc.
  set (lo := Z.max s (start_vpn a)) in *. unfold contained_in, strict_contain in *; zbool.
  assert (lo = start_vpn a) as El by lia. rewrite El in *. pose proof (piece_whole a Ha) as P.
  destruct (piece_update (start_vpn a) (end_vpn a) a) as (n & w' & E & Hn & Hle & Hd & F); [lia|lia|done|].
  exists (set_map_perm perm a), a, a, n, (bt_insert (start_vpn a) (set_map_perm perm a) t), w'.
  split_and!; [| |by apply insert_sorted| |done|done|done].
  - erewrite st_run; [|erewrite st_run by exact E; reflexivity]. cbv beta iota.
    by erewrite st_run by (apply areas_insert_new_run; exact Hmid).
  - split; [|lia|lia]. exists a. fold lo. rewrite El, Z.min_r by lia. done.
  - apply (prot_get_spec (fun j => bt_get j t)); [|lia|lia|done].
    intros j. rewrite zget_insert by done. fold lo. by rewrite El.
Qed.

Lemma protect_inside : contained_in a s e = false -> strict_contain a s e = true ->
  area_done (mprotect_area fs pt t s e perm a w).
Proof.
  intros Hc Hst. destruct (overlap_bounds a s e Hse (proj2 (proj1 Hr)) Hov) as (B1 & B2 & B3). unfold area_done, mprotect_area. rewrite Hc, Hst.
  set (lo := Z.max s (start_vpn a)) in *. unfold contained_in, strict_contain in *; zbool.
  assert (lo = s) as El by lia. rewrite El in *.
  destruct (split3_pieces fs a s e Ha Hfd) as (l & m & r & E3 & Pl & Pm & Pr); [lia..|].
  destruct (piece_update s e m) as (n & w' & E & Hn & Hle & Hd & F); [lia|lia|done|].
  pose proof (pc_range _ _ _ _ Pl) as [L1 _]. pose proof (pc_range _ _ _ _ Pm) as [M1 _].
  pose proof (pc_range _ _ _ _ Pr) as [R1 _].
  pose proof (insert_sorted s (set_map_perm perm m) t Hs) as S1.
  pose proof (insert_sorted e r _ S1) as S2.
  exists (set_map_perm perm m), l, r, n,
    (bt_insert (start_vpn a) l (bt_insert e r (bt_insert s (set_map_perm perm m) t))), w'.
  split_and!; [| |by apply insert_sorted| |done|done|done].
  - erewrite st_run; [|erewrite st_run by (unfold st_lift; rewrite E3; reflexivity); cbv beta iota;
      erewrite st_run by exact E; cbv beta;
      erewrite st_run by (apply areas_insert_new_run; change (start_vpn (set_map_perm perm m)) with (start_vpn m);
        rewrite M1; exact Hmid); cbv beta;
      erewrite st_run by (apply areas_insert_new_run; change (start_vpn (set_map_perm perm m)) with (start_vpn m);
        rewrite R1, M1, zget_insert, decide_False by (done || lia); apply Hright; lia); reflexivity].
    cbv beta iota. change (start_vpn (set_map_perm perm m)) with (start_vpn m).
    erewrite st_run by (apply areas_insert_new_run; rewrite L1, R1, M1, !zget_insert, !decide_False by (done || lia);
      apply Hleft; lia). by rewrite L1, R1, M1.
  - split; [|done|done]. exists m. fold lo. rewrite El, Z.min_l by lia. done.
  - apply (prot_get_spec (fun j => if decide (j = start_vpn a) then Some l else if decide (j = e) then Some r
      else bt_get j t)); fold lo; rewrite ?El.
    + intros j. rewrite !zget_insert by done. repeat case_decide; done || lia.
    + intros _. by rewrite decide_True.
    + intros _. rewrite decide_False, decide_True by lia. done.
    + intros j N1 N2. rewrite !decide_False by lia. done.
Qed.

Lemma protect_low : contained_in a s e = false -> strict_contain a s e = false ->
  (s <=? start_vpn a) && (start_vpn a <? e) = true ->
  area_done (mprotect_area fs pt t s e perm a w).
Proof.
  intros Hc Hst Hth. destruct (overlap_bounds a s e Hse (proj2 (proj1 Hr)) Hov) as (B1 & B2 & B3). unfold area_done, mprotect_area. rewrite Hc, Hst, Hth.
  set (lo := Z.max s (start_vpn a)) in *. unfold contained_in, strict_contain in *; zbool.
  assert (lo = start_vpn a) as El by lia. rewrite El in *.
  destruct (split_pieces fs a e Ha Hfd ltac:(lia)) as (l & r & E2 & Pl & Pr).
  destruct (piece_update (start_vpn a) e l) as (n & w' & E & Hn & Hle & Hd & F); [lia|lia|done|].
  pose proof (pc_range _ _ _ _ Pl) as [L1 _]. pose proof (pc_range _ _ _ _ Pr) as [R1 _].
  pose proof (insert_sorted e r t Hs) as S1.
  exists (set_map_perm perm l), l, r, n, (bt_insert (start_vpn a) (set_map_perm perm l) (bt_insert e r t)), w'.
  split_and!; [| |by apply insert_sorted| |done|done|done].
  - erewrite st_run; [|erewrite st_run by (unfold st_lift; rewrite E2; reflexivity); cbv beta iota;
      erewrite st_run by exact E; cbv beta;
      erewrite st_run by (apply areas_insert_new_run; rewrite R1; apply Hright; lia); reflexivity].
    cbv beta iota. change (start_vpn (set_map_perm perm l)) with (start_vpn l).
    erewrite st_run by (apply areas_insert_new_run; rewrite L1, R1, zget_insert, decide_False by (done || lia);
      exact Hmid). by rewrite L1, R1.
  - split; [|lia|done]. exists l. fold lo. rewrite El, Z.min_l by lia. done.
  - apply (prot_get_spec (fun j => if decide (j = e) then Some r else bt_get j t)); fold lo; rewrite ?El.
    + intros j. by rewrite !zget_insert by done.
    + lia.
    + intros _. by rewrite decide_True.
    + intros j N1 N2. rewrite decide_False by lia. done.
Qed.

Lemma protect_high : contained_in a s e = false -> strict_contain a s e = false ->
  (s <=? start_vpn a) && (start_vpn a <? e) = false ->
  area_done (mprotect_area fs pt t s e perm a w).
Proof.
  intros Hc Hst Hth. destruct (overlap_bounds a s e Hse (proj2 (proj1 Hr)) Hov) as (B1 & B2 & B3). unfold area_done, mprotect_area. rewrite Hc, Hst, Hth.
  set (lo := Z.max s (start_vpn a)) in *. unfold contained_in, strict_contain in *; zbool.
  assert (lo = s) as El by lia. rewrite El in *.
  destruct (split_pieces fs a s Ha Hfd ltac:(lia)) as (l & r & E2 & Pl & Pr).
  destruct (piece_update s (end_vpn a) r) as (n & w' & E & Hn & Hle & Hd & F); [lia|lia|done|].
  pose proof (pc_range _ _ _ _ Pl) as [L1 _]. pose proof (pc_range _ _ _ _ Pr) as [R1 _].
  pose proof (insert_sorted s (set_map_perm perm r) t Hs) as S1.
  exists (set_map_perm perm r), l, r, n, (bt_insert (start_vpn a) l (bt_insert s (set_map_perm perm r) t)), w'.
  split_and!; [| |by apply insert_sorted| |done|done|done].
  - erewrite st_run; [|erewrite st_run by (unfold st_lift; rewrite E2; reflexivity); cbv beta iota;
      erewrite st_run by exact E; cbv beta;
      erewrite st_run by (apply areas_insert_new_run; change (start_vpn (set_map_perm perm r)) with (start_vpn r);
        rewrite R1; exact Hmid); reflexivity].
    cbv beta iota. change (start_vpn (set_map_perm perm r)) with (start_vpn r).
    erewrite st_run by (apply areas_insert_new_run; rewrite L1, R1, zget_insert, decide_False by (done || lia);
      apply Hleft; lia). by rewrite L1, R1.
  - split; [|done|lia]. exists r. fold lo. rewrite El, Z.min_r by lia. done.
  - apply (prot_get_spec (fun j => if decide (j = start_vpn a) then Some l else bt_get j t)); fold lo; rewrite ?El.
    + intros j. rewrite !zget_insert by done. repeat case_decide; done || lia.
    + intros _. by rewrite decide_True.
    + lia.
    + intros j N1 N2. rewrite decide_False by lia. done.
Qed.

Lemma mprotect_area_spec : area_done (mprotect_area fs pt t s e perm a w).
Proof.
  destruct (contained_in a s e) eqn:Hc; [by apply protect_contained|].
  destruct (strict_contain a s e) eqn:Hst; [by apply protect_inside|].
  destruct ((s <=? start_vpn a) && (start_vpn a <? e)) eqn:Hth; [by apply protect_low|by apply protect_high].
Qed.

End protect_area.

(** ** The areas as a page map *)

(** The page [v] has the permission and the kind [x]. *)
Definition has (t : VmAreaTree) (v : Z) (x : Z * MapAreaType) : Prop := exists k a,
  bt_get k t = Some a /\ start_vpn a <= v < end_vpn a /\ x = (map_perm a, area_type a).

(** Consistent anonymous address spaces: the entry of every allocated page
    has the flags of the permission of its area. *)
Record vm_ok (w : world) (root : Z) (t : VmAreaTree) : Prop := {
  vo_ms : ms_wf w root t;
  vo_anon : forall k a, bt_get k t = Some a -> area_fd a = None;
  vo_flags : forall k a v p, bt_get k t = Some a -> bt_get v (data_frames a) = Some p ->
    la_flags (pte_at (w_mem w) root v) = Ret (la_flags_of_perm (map_perm a))
}.

Lemma ms_frames_in w root t k a : ms_wf w root t -> bt_get k t = Some a -> frames_in a.
Proof.
  intros Hms Ha. split; [by apply (mw_sorted _ _ _ Hms k)|]. intros v p Hp. by apply (mw_frames _ _ _ Hms k a v p).
Qed.

Section step.
Variables (w w' : world) (root : Z) (T T' : VmAreaTree) (k : Z) (a m l r : MapArea) (s e perm n : Z).
Notation lo := (Z.max s (start_vpn a)).
Notation hi := (Z.min e (end_vpn a)).
Hypothesis Hok : vm_ok w root T.
Hypothesis Ha : bt_get k T = Some a.
Hypothesis Hse : s < e.
Hypothesis Hov : overlap_with a s e = true.
Hypothesis Hp : parts a s e perm m l r.
Hypothesis Hn : forall v, area_allocated m v = true <-> lo <= v < lo + n.
Hypothesis Hfl : flags_post w root lo (lo + n) (la_flags_of_perm perm) w'.
Hypothesis Hs' : bt_sorted T'.
Hypothesis G : forall j, bt_get j T' = prot_get (fun j => if decide (j = k) then None else bt_get j T) a s e m l r j.

Lemma step_area : k = start_vpn a /\ 0 <= start_vpn a <= end_vpn a /\ end_vpn a < 2 ^ 52.
Proof. by apply (tree_key T (mw_tree _ _ _ (vo_ms _ _ _ Hok))). Qed.

(** The four kinds of areas afterwards. *)
Lemma prot_cases j b : bt_get j T' = Some b ->
  (exists b0 x y, piece a x y b0 /\ j = x /\ start_vpn a <= x <= y /\ y <= end_vpn a /\
     (x < end_vpn a \/ x = start_vpn a) /\
     (b = set_map_perm perm b0 /\ b = m /\ x = lo /\ y = hi \/
      b = b0 /\ (x = start_vpn a /\ y = s /\ start_vpn a < s \/ x = e /\ y = end_vpn a /\ e < end_vpn a))) \/
  (j <> k /\ bt_get j T = Some b).
Proof.
  destruct step_area as (Ek & Hr & _). destruct (overlap_bounds a s e Hse (proj2 Hr) Hov) as (B1 & B2 & B3).
  rewrite G. unfold prot_get. destruct (decide (j = lo)) as [->|N1].
  { intros [= <-]. left. destruct (pt_mid _ _ _ _ _ _ _ Hp) as (m0 & P & E). exists m0, lo, hi.
    split_and!; try done; [lia..| |by left]. unfold overlap_with in Hov. zbool. lia. }
  destruct (decide (j = start_vpn a /\ start_vpn a < s)) as [[-> H1]|N2].
  { intros [= <-]. left. exists l, (start_vpn a), s. split_and!; [by apply (pt_left _ _ _ _ _ _ _ Hp)|done|lia..|].
    right. split; [done|]. by left. }
  destruct (decide (j = e /\ e < end_vpn a)) as [[-> H1]|N3].
  { intros [= <-]. left. exists r, e, (end_vpn a). split_and!; [by apply (pt_right _ _ _ _ _ _ _ Hp)|done|lia..|].
    right. split; [done|]. by right. }
  destruct (decide (j = k)) as [|Hne]; [done|by right].
Qed.

(** The frames of a part are frames of the area. *)
Lemma piece_frames x y b v p : piece a x y b -> bt_get v (data_frames b) = Some p ->
  x <= v < y /\ bt_get v (data_frames a) = Some p.
Proof.
  intros P. rewrite (pc_frames _ _ _ _ P). destruct (Z.leb_spec x v), (Z.ltb_spec v y); done.
Qed.

(** Where a frame of the new areas comes from, and what its entry is. *)
Lemma prot_frame j b v p : bt_get j T' = Some b -> bt_get v (data_frames b) = Some p ->
  exists j0 b0, bt_get j0 T = Some b0 /\ bt_get v (data_frames b0) = Some p /\
    start_vpn b <= v < end_vpn b /\
    la_is_valid (pte_at (w_mem w') root v) = true /\ la_ppn (pte_at (w_mem w') root v) = Ret p /\
    la_flags (pte_at (w_mem w') root v) = Ret (la_flags_of_perm (map_perm b)).
Proof.
  intros Hb Hv. pose proof (vo_ms _ _ _ Hok) as Hms. destruct step_area as (Ek & Hr & _).
  assert (exists j0 b0, bt_get j0 T = Some b0 /\ bt_get v (data_frames b0) = Some p /\
    start_vpn b <= v < end_vpn b /\ (b = m \/ map_perm b = map_perm b0 /\ ~ lo <= v < lo + n)) as Hsrc.
  { destruct (prot_cases j b Hb) as [(b0 & x & y & P & -> & Hx & Hy & _ & Hk)|[Hne Hb0]].
    - exists k, a. split; [done|]. destruct (pc_range _ _ _ _ P) as [R1 R2].
      destruct Hk as [(-> & Em & _ & _)|(-> & Hk)].
      + destruct (piece_frames _ _ _ _ _ P Hv) as [H1 H2]. split; [done|]. split; [|by left].
        change (start_vpn b0 <= v < end_vpn b0). lia.
      + destruct (piece_frames _ _ _ _ _ P Hv) as [H1 H2]. split_and!; [done|lia..|right].
        split; [apply (pc_same _ _ _ _ P)|]. intros Hlo. apply Hn in Hlo.
        apply area_allocated_Some in Hlo as [q Hq]. destruct (pt_mid _ _ _ _ _ _ _ Hp) as (m0 & Pm & ->).
        destruct (piece_frames _ _ _ _ _ Pm Hq) as [H3 _]. lia.
    - destruct (mw_frames _ _ _ Hms j b v p Hb0 Hv) as (F1 & _). exists j, b. split_and!; [done|done|lia..|right].
      split; [done|]. intros Hlo. apply Hn, area_allocated_Some in Hlo as [q Hq].
      destruct (pt_mid _ _ _ _ _ _ _ Hp) as (m0 & Pm & ->). destruct (piece_frames _ _ _ _ _ Pm Hq) as [_ H3].
      destruct (mw_frames _ _ _ Hms k a v q Ha H3) as (F2 & _).
      by destruct (tree_unique T (mw_tree _ _ _ Hms) j b k a v Hb0 Ha F1 F2). }
  destruct Hsrc as (j0 & b0 & H1 & H2 & H3 & H4). exists j0, b0.
  destruct (mw_frames _ _ _ Hms j0 b0 v p H1 H2) as (F1 & F2 & _ & _ & _ & F6 & F7).
  destruct (tree_key T (mw_tree _ _ _ Hms) j0 b0 H1) as (_ & Hr0 & _).
  pose proof (vo_flags _ _ _ Hok j0 b0 v p H1 H2) as Hf.
  rewrite (fp_at _ _ _ _ _ _ Hfl) by lia. split; [done|]. split; [done|]. split; [done|].
  destruct ((lo <=? v) && (v <? lo + n)) eqn:Hin.
  - rewrite la_set_flags_ppn, la_set_flags_valid. split; [done|]. split; [done|].
    assert (b = m) as -> by (destruct H4 as [|[_ H4]]; [done|zbool; lia]).
    destruct (pt_mid _ _ _ _ _ _ _ Hp) as (m0 & _ & ->). cbn [map_perm set_map_perm].
    by apply (la_set_flags_flags _ (la_flags_of_perm (map_perm b0))); [|apply la_flags_of_perm_kept].
  - split; [done|]. split; [done|]. destruct H4 as [->|[-> _]]; [|done]. exfalso.
    assert (area_allocated m v = true) as Hal by (apply area_allocated_Some; by exists p).
    apply Hn in Hal. zbool; lia.
Qed.

Lemma prot_tree : tree_wf T'.
Proof.
  pose proof (vo_ms _ _ _ Hok) as Hms. pose proof (mw_tree _ _ _ Hms) as Hwf. destruct step_area as (Ek & Hr & Hr').
  apply tree_wf_get; [done| |].
  - intros j b Hb. destruct (prot_cases j b Hb) as [(b0 & x & y & P & -> & Hx & Hy & _ & Hk)|[_ Hb0]].
    + destruct (pc_range _ _ _ _ P) as [R1 R2].
      assert (start_vpn b = x /\ end_vpn b = y) as [-> ->] by (by destruct Hk as [(-> & _)|(-> & _)]). lia.
    + by apply (tree_key T Hwf).
  - intros j1 b1 j2 b2 H1 H2 Hlt.
    destruct (prot_cases j1 b1 H1) as [(c1 & x1 & y1 & P1 & -> & Hx1 & Hy1 & Hz1 & Hk1)|[N1 C1]],
      (prot_cases j2 b2 H2) as [(c2 & x2 & y2 & P2 & -> & Hx2 & Hy2 & Hz2 & Hk2)|[N2 C2]].
    + destruct (pc_range _ _ _ _ P1) as [R1 R2].
      assert (end_vpn b1 = y1) as -> by (by destruct Hk1 as [(-> & _)|(-> & _)]). lia.
    + destruct (pc_range _ _ _ _ P1) as [R1 R2].
      assert (end_vpn b1 = y1) as -> by (by destruct Hk1 as [(-> & _)|(-> & _)]).
      destruct (Z.lt_trichotomy k j2) as [L|[L|L]]; [|by symmetry in L|lia].
      pose proof (tree_disj T Hwf k a j2 b2 Ha C2 L). lia.
    + destruct (Z.lt_trichotomy k j1) as [L|[L|L]]; [|by symmetry in L|].
      * pose proof (tree_disj T Hwf k a j1 b1 Ha C1 L). lia.
      * pose proof (tree_disj T Hwf j1 b1 k a C1 Ha L). lia.
    + by apply (tree_disj T Hwf j1 b1 j2 b2).
Qed.

Lemma prot_ok : vm_ok w' root T'.
Proof.
  pose proof (vo_ms _ _ _ Hok) as Hms. split; [split| |].
  - apply Hfl.
  - apply Hfl.
  - apply prot_tree.
  - intros j b Hb. destruct (prot_cases j b Hb) as [(b0 & x & y & P & _ & _ & _ & _ & Hk)|[_ Hb0]].
    + destruct Hk as [(-> & _)|(-> & _)]; apply P.
    + by apply (mw_sorted _ _ _ Hms j).
  - intros j b v p Hb Hv. destruct (prot_frame j b v p Hb Hv) as (j0 & b0 & H1 & H2 & H3 & H4 & H5 & _).
    destruct (mw_frames _ _ _ Hms j0 b0 v p H1 H2) as (F1 & F2 & F3 & F4 & F5 & _).
    rewrite (fp_refs _ _ _ _ _ _ Hfl), (fp_vec _ _ _ _ _ _ Hfl).
    split; [done|]. split_and!; try done. by apply (fp_data _ _ _ _ _ _ Hfl).
  - intros j1 b1 v1 j2 b2 v2 p H1 H2 V1 V2.
    destruct (prot_frame j1 b1 v1 p H1 V1) as (i1 & c1 & I1 & W1 & _).
    destruct (prot_frame j2 b2 v2 p H2 V2) as (i2 & c2 & I2 & W2 & _).
    by apply (mw_inj _ _ _ Hms i1 c1 v1 i2 c2 v2 p).
  - intros j b Hb. pose proof (vo_anon _ _ _ Hok k a Ha) as Hfd.
    destruct (prot_cases j b Hb) as [(b0 & x & y & P & _ & _ & _ & _ & Hk)|[_ Hb0]].
    + destruct (pc_same _ _ _ _ P) as (_ & _ & _ & Hf). destruct Hk as [(-> & _)|(-> & _)]; by apply Hf.
    + by apply (vo_anon _ _ _ Hok j).
  - intros j b v p Hb Hv. by destruct (prot_frame j b v p Hb Hv) as (_ & _ & _ & _ & _ & _ & _ & H).
Qed.

(** The other areas stay. *)
Lemma prot_other j b : bt_get j T = Some b -> j <> k -> bt_get j T' = Some b /\
  j <> lo /\ (start_vpn a < s -> j <> start_vpn a) /\ (e < end_vpn a -> j <> e).
Proof.
  intros Hb Hne. pose proof (mw_tree _ _ _ (vo_ms _ _ _ Hok)) as Hwf. destruct step_area as (Ek & Hr & Hr').
  destruct (tree_key T Hwf j b Hb) as (Ej & Hrb & _).
  destruct (overlap_bounds a s e Hse (proj2 Hr) Hov) as (B1 & B2 & B3).
  assert (end_vpn a <= j \/ end_vpn b <= k) as Hd.
  { destruct (Z.lt_trichotomy k j) as [L|[L|L]]; [|by symmetry in L|].
    - left. by apply (tree_disj T Hwf k a j b).
    - right. by apply (tree_disj T Hwf j b k a). }
  unfold overlap_with in Hov.
  assert (j <> lo /\ (start_vpn a < s -> j <> start_vpn a) /\ (e < end_vpn a -> j <> e)) as (N1 & N2 & N3) by lia.
  split; [|done]. rewrite G. unfold prot_get. rewrite (decide_False (P := j = k)) by done.
  rewrite !decide_False; [done|lia|lia|done].
Qed.

(** The pages of [a] in the range have the new permission, all others what
    they had. *)
Lemma prot_has v x : has T' v x <->
  (s <= v < e /\ start_vpn a <= v < end_vpn a /\ x = (perm, area_type a)) \/
  (~ (s <= v < e /\ start_vpn a <= v < end_vpn a) /\ has T v x).
Proof.
  pose proof (mw_tree _ _ _ (vo_ms _ _ _ Hok)) as Hwf. destruct step_area as (Ek & Hr & Hr').
  split.
  - intros (j & b & Hb & Hv & ->). destruct (prot_cases j b Hb) as [(b0 & y & z & P & -> & Hx & Hy & _ & Hk)|[Hne Hb0]].
    + destruct (pc_range _ _ _ _ P) as [R1 R2]. destruct (pc_same _ _ _ _ P) as (_ & Hpm & Hty & _).
      destruct Hk as [(-> & _ & -> & ->)|(-> & Hk)].
      * left. change (start_vpn b0 <= v < end_vpn b0) in Hv. split; [lia|]. split; [lia|]. cbn. by rewrite Hty.
      * right. split; [lia|]. exists k, a. split; [done|]. split; [lia|]. by rewrite Hty, Hpm.
    + right. split; [|by exists j, b]. intros [_ Hva].
      by destruct (tree_unique T Hwf j b k a v Hb0 Ha Hv Hva).
  - destruct (pt_mid _ _ _ _ _ _ _ Hp) as (m0 & Pm & Em). destruct (pc_range _ _ _ _ Pm) as [M1 M2].
    destruct (pc_same _ _ _ _ Pm) as (_ & _ & Hmt & _).
    intros [(H1 & H2 & ->)|[Hno (j & b & Hb & Hv & ->)]].
    + exists lo, m. rewrite G. unfold prot_get. rewrite decide_True by done. split; [done|]. subst m.
      change (start_vpn (set_map_perm perm m0)) with (start_vpn m0). change (end_vpn (set_map_perm perm m0)) with (end_vpn m0).
      split; [lia|]. cbn. by rewrite Hmt.
    + destruct (decide (j = k)) as [->|Hne].
      * assert (b = a) as -> by congruence. destruct (Z.lt_ge_cases v s).
        -- exists (start_vpn a), l. rewrite G. unfold prot_get. rewrite decide_False, decide_True by lia.
           destruct (pt_left _ _ _ _ _ _ _ Hp ltac:(lia)) as [[L1 L2] _ _ (_ & Hpm & Hty & _)].
           split; [done|]. split; [lia|]. by rewrite Hpm, Hty.
        -- exists e, r. rewrite G. unfold prot_get. destruct (overlap_bounds a s e Hse (proj2 Hr) Hov) as (B1 & B2 & B3).
           rewrite decide_False, decide_False, decide_True by lia.
           destruct (pt_right _ _ _ _ _ _ _ Hp ltac:(lia)) as [[R1 R2] _ _ (_ & Hpm & Hty & _)].
           split; [done|]. split; [lia|]. by rewrite Hpm, Hty.
      * exists j, b. split; [|done]. by apply prot_other.
Qed.

End step.

(** A tree with the lookups of [prot_get]. *)
Definition put_parts (T : VmAreaTree) (a : MapArea) (s e : Z) (m l r : MapArea) : VmAreaTree :=
  let T1 := if e <? end_vpn a then bt_insert e r T else T in
  let T2 := if start_vpn a <? s then bt_insert (start_vpn a) l T1 else T1 in
  bt_insert (Z.max s (start_vpn a)) m T2.

Lemma put_parts_get T a s e m l r : bt_sorted T -> start_vpn a < e ->
  bt_sorted (put_parts T a s e m l r) /\
  forall j, bt_get j (put_parts T a s e m l r) = prot_get (fun j => bt_get j T) a s e m l r j.
Proof.
  intros Hs He. unfold put_parts. set (T1 := if e <? end_vpn a then _ else _).
  assert (bt_sorted T1 /\ forall j, bt_get j T1 = if decide (j = e /\ e < end_vpn a) then Some r else bt_get j T) as [S1 G1].
  { subst T1. destruct (Z.ltb_spec e (end_vpn a)).
    - split; [by apply insert_sorted|]. intros j. rewrite zget_insert by done. repeat case_decide; done || lia.
    - split; [done|]. intros j. by rewrite decide_False by lia. }
  set (T2 := if start_vpn a <? s then _ else _).
  assert (bt_sorted T2 /\ forall j, bt_get j T2 = if decide (j = start_vpn a /\ start_vpn a < s) then Some l else bt_get j T1) as [S2 G2].
  { subst T2. destruct (Z.ltb_spec (start_vpn a) s).
    - split; [by apply insert_sorted|]. intros j. rewrite zget_insert by done. repeat case_decide; done || lia.
    - split; [done|]. intros j. by rewrite decide_False by lia. }
  split; [by apply insert_sorted|]. intros j. rewrite zget_insert, G2, G1 by done. unfold prot_get. done.
Qed.

(** ** The loop *)

(** Sorted trees with the same lookups are equal. *)
Lemma sorted_ext {V} (t1 : list (Z * V)) : forall t2, bt_sorted t1 -> bt_sorted t2 ->
  (forall k, bt_get k t1 = bt_get k t2) -> t1 = t2.
Proof.
  induction t1 as [|[k1 v1] t1 IH]; intros [|[k2 v2] t2] S1 S2 H; [done| | |].
  - specialize (H k2). rewrite (elem_get k2 v2 _ S2) in H by left. done.
  - specialize (H k1). rewrite (elem_get k1 v1 _ S1) in H by left. done.
  - pose proof (proj1 (sorted_cons _ _ _) S1) as [F1 S1']. pose proof (proj1 (sorted_cons _ _ _) S2) as [F2 S2'].
    rewrite List.Forall_forall in F1, F2.
    assert ((k1, v1) ∈ (k2, v2) :: t2) as M1.
    { apply get_Some_elem. rewrite <- H. by apply elem_get; [|left]. }
    assert ((k2, v2) ∈ (k1, v1) :: t1) as M2.
    { apply get_Some_elem. rewrite H. by apply elem_get; [|left]. }
    assert (k1 = k2 /\ v1 = v2) as [-> ->].
    { apply elem_of_cons in M1 as [[= -> ->]|M1]; [done|]. apply elem_of_cons in M2 as [[= -> ->]|M2]; [done|].
      apply list_elem_of_In in M1, M2. apply F2 in M1. apply F1 in M2. cbn in M1, M2.
      pose proof (klt_irrefl _ (klt_trans _ _ _ M1 M2)). done. }
    f_equal. apply IH; [done|done|]. intros k. specialize (H k). cbn in H.
    destruct (k ?= k2) eqn:E; [|exact H|exact H].
    assert (k = k2) as -> by (by apply Z.compare_eq).
    by rewrite !get_below by (apply List.Forall_forall; done).
Qed.

(** The areas of the list, which are taken out of the tree [T], become parts
    with the new permission. *)
Lemma mprotect_loop_spec fs pt s e perm over : s < e -> forall w T t,
  vm_ok w (root_ppn pt) T -> bt_sorted t -> NoDup (fst <$> over) ->
  (forall k a, (k, a) ∈ over -> bt_get k T = Some a /\ overlap_with a s e = true /\ dense a) ->
  (forall j, bt_get j t = if decide (j ∈ fst <$> over) then None else bt_get j T) ->
  exists t' w', mprotect_loop fs pt t s e perm over w = Ret ((t', fs), w') /\ vm_ok w' (root_ppn pt) t' /\
    forall v x, has t' v x <->
      (exists k a, (k, a) ∈ over /\ s <= v < e /\ start_vpn a <= v < end_vpn a /\ x = (perm, area_type a)) \/
      ((forall k a, (k, a) ∈ over -> ~ (s <= v < e /\ start_vpn a <= v < end_vpn a)) /\ has T v x).
Proof.
  intros Hse. induction over as [|[k a] over IH]; intros w T t Hok Hs Hnd Hover Ht.
  { assert (t = T) as ->.
    { apply sorted_ext; [done|apply (mw_tree _ _ _ (vo_ms _ _ _ Hok))|]. intros j.
      rewrite Ht, decide_False; [done|]. apply not_elem_of_nil. }
    exists T, w. split; [done|]. split; [done|]. set_solver. }
  cbn [fmap list_fmap fst] in Hnd. apply list.NoDup_cons in Hnd as [Hk Hnd].
  destruct (Hover k a ltac:(left)) as (Ha & Hov & Hden). pose proof (vo_ms _ _ _ Hok) as Hms.
  pose proof (mw_tree _ _ _ Hms) as Hwf. destruct (tree_key T Hwf k a Ha) as (Ek & Hr & Hr').
  destruct (overlap_bounds a s e Hse (proj2 Hr) Hov) as (B1 & B2 & B3).
  assert (forall j, start_vpn a < j < end_vpn a \/ j = k -> bt_get j t = None) as Hno.
  { intros j Hj. rewrite Ht. destruct (decide _) as [|Hni]; [done|]. destruct Hj as [Hj| ->]; [|destruct Hni; left].
    destruct (bt_get j T) as [b|] eqn:Hb; [|done]. pose proof (tree_disj T Hwf k a j b Ha Hb ltac:(lia)). lia. }
  destruct (mprotect_area_spec w pt fs t a s e perm) as (m & l & r & n & t1 & w1 & E1 & Hp & Hs1 & G1 & Hn & Hd & F);
    [apply Hms|apply Hms|by apply (ms_frames_in w (root_ppn pt) T k)|by apply (vo_anon _ _ _ Hok k)|lia| |done|done|done
    |done|apply Hno; unfold overlap_with in Hov; lia|intros _; apply Hno; lia|intros ?; apply Hno; lia|].
  { intros v [p Hv]%area_allocated_Some. by destruct (mw_frames _ _ _ Hms k a v p Ha Hv) as (_ & ? & _ & _ & _ & ? & _). }
  pose proof (remove_sorted k T (tw_sorted T Hwf)) as Hrs.
  destruct (put_parts_get (bt_remove k T) a s e m l r Hrs B1) as [Hs2 G2].
  set (T1 := put_parts _ a s e m l r) in *.
  assert (forall j, bt_get j T1 = prot_get (fun j => if decide (j = k) then None else bt_get j T) a s e m l r j) as G3.
  { intros j. rewrite G2. unfold prot_get. by rewrite zget_remove by apply Hwf. }
  pose proof (prot_ok w w1 (root_ppn pt) T T1 k a m l r s e perm n Hok Ha Hse Hov Hp Hd F Hs2 G3) as Hok1.
  pose proof (prot_other w (root_ppn pt) T T1 k a m l r s e Hok Ha Hse Hov G3) as Hot.
  pose proof (prot_has w (root_ppn pt) T T1 k a m l r s e perm n Hok Ha Hse Hov Hp Hd G3) as Hhas.
  destruct (IH w1 T1 t1) as (t' & w' & E & Hok' & Hh'); [done|done|done| | |].
  { intros j b Hin. destruct (Hover j b ltac:(by right)) as (H1 & H2 & H3). split; [|done]. apply Hot; [done|].
    intros ->. apply Hk, list_elem_of_fmap. by exists (k, b). }
  { intros j. rewrite G1, G3. unfold prot_get. rewrite Ht. destruct (decide (j ∈ fst <$> over)) as [Hin|Hin].
    - apply list_elem_of_fmap in Hin as ([j0 b] & -> & Hin). cbn [fst] in *.
      destruct (Hover j0 b ltac:(by right)) as (H1 & _ & _).
      destruct (Hot j0 b H1) as (_ & N1 & N2 & N3); [intros ->; apply Hk, list_elem_of_fmap; by exists (k, b)|].
      rewrite decide_False, decide_False, decide_False, decide_True; [done| |lia|lia|done].
      right. apply list_elem_of_fmap. by exists (j0, b).
    - repeat case_decide; try done; subst; set_solver. }
  exists t', w'. split; [cbn [mprotect_loop]; erewrite st_run by exact E1; exact E|]. split; [done|].
  intros v x. rewrite Hh', Hhas. split.
  - intros [(j & b & Hin & H1)|[Hnone [(H1 & H2 & ->)|[Hn1 H1]]]].
    + left. exists j, b. split; [by right|done].
    + left. exists k, a. split; [left|done].
    + right. split; [|done]. intros j b [[= -> ->]|Hin]%elem_of_cons; [done|by apply (Hnone j)].
  - intros [(j & b & [[= -> ->]|Hin]%elem_of_cons & H1 & H2 & ->)|[Hnone H1]].
    + right. split; [|by left]. intros j b Hin [_ Hb]. destruct (Hover j b ltac:(by right)) as (Hj & _ & _).
      destruct (tree_unique T Hwf j b k a v Hj Ha Hb H2) as [-> ->]. apply Hk, list_elem_of_fmap. by exists (k, a).
    + left. by exists j, b.
    + right. split; [intros j b Hin; apply (Hnone j); by right|]. right. split; [apply (Hnone k); left|done].
Qed.

(** ** mprotect *)

Lemma take_overlapped_eq t s e : take_overlapped t s e =
  (List.filter (fun '(_, a) => overlap_with a s e) t, List.filter (fun '(_, a) => negb (overlap_with a s e)) t).
Proof. induction t as [|[k a] t IH]; [done|]. cbn. rewrite IH. by destruct (overlap_with a s e). Qed.

Lemma overlap_covers a s e v : s <= v < e -> start_vpn a <= v < end_vpn a -> overlap_with a s e = true.
Proof.
  intros Hv Ha. unfold overlap_with. destruct (Z.leb_spec (start_vpn a) s), (Z.ltb_spec s (end_vpn a)),
    (Z.leb_spec s (start_vpn a)), (Z.ltb_spec (start_vpn a) e); cbn; lia || done.
Qed.

Lemma ceil_run x : 0 < x < 2 ^ 63 -> VirtAddr_ceil x = Ret ((x + 4095) / 4096).
Proof.
  intros Hx. unfold VirtAddr_ceil. destruct (Z.eqb_spec x 0); [lia|]. cbn [negb rassert mbind outcome_bind].
  rewrite usub_Ret by lia. cbn [mbind outcome_bind]. rewrite uadd_Ret by (unfold PAGE_SIZE, u64_bound; lia).
  cbn [mbind outcome_bind]. unfold PAGE_SIZE. do 2 f_equal. lia.
Qed.

(** The areas that the range overlaps have their frames at the start. *)
Definition dense_range (t : VmAreaTree) (s e : Z) : Prop :=
  forall k a, bt_get k t = Some a -> overlap_with a s e = true -> dense a.

Lemma mprotect_spec fs w ms start size perm : vm_ok w (root_ppn (page_table ms)) (areatree ms) ->
  0 <= start -> 0 < size -> start + size < 2 ^ 63 ->
  let s := start / 4096 in let e := (start + size + 4095) / 4096 in
  dense_range (areatree ms) s e ->
  exists t' w', mprotect fs ms start size perm w = Ret ((set_areas t' ms, fs), w') /\
    vm_ok w' (root_ppn (page_table ms)) t' /\
    forall v x, has t' v x <->
      if decide (s <= v < e) then fst x = perm /\ exists p, has (areatree ms) v (p, snd x)
      else has (areatree ms) v x.
Proof.
  intros Hok H0 H1 H2 s e Hden. pose proof (vo_ms _ _ _ Hok) as Hms. pose proof (mw_tree _ _ _ Hms) as Hwf.
  set (T := areatree ms) in *. assert (s < e) as Hse by (unfold s, e; lia).
  set (over := List.filter (fun '(_, a) => overlap_with a s e) T).
  assert (forall k a, (k, a) ∈ over <-> bt_get k T = Some a /\ overlap_with a s e = true) as Hover.
  { intros k a. unfold over. rewrite list_elem_of_In, List.filter_In, <- list_elem_of_In, get_elem by apply Hwf. done. }
  destruct (mprotect_loop_spec fs (page_table ms) s e perm over Hse w T
    (List.filter (fun '(_, a) => negb (overlap_with a s e)) T)) as (t' & w' & E & Hok' & Hh).
  - done.
  - apply filter_sorted, Hwf.
  - apply sorted_keys_nodup, filter_sorted, Hwf.
  - intros k a [Hk Ho]%Hover. split; [done|]. split; [done|]. by apply (Hden k).
  - intros j. rewrite get_filter by apply Hwf. destruct (bt_get j T) as [b|] eqn:Hb.
    + destruct (overlap_with b s e) eqn:Ho; cbn.
      * rewrite decide_True; [done|]. apply list_elem_of_fmap. exists (j, b). split; [done|]. by apply Hover.
      * rewrite decide_False; [done|]. intros ([j0 b0] & -> & [Hj Hb0]%Hover)%list_elem_of_fmap. cbn in Hb. congruence.
    + by destruct (decide _).
  - exists t', w'. split; [|split; [done|]].
    + unfold mprotect. erewrite st_run by (unfold st_lift; rewrite uadd_Ret by (unfold u64_bound; lia); reflexivity).
      cbv beta. erewrite st_run by (unfold st_lift; rewrite ceil_run by lia; reflexivity). cbv beta zeta.
      change (VirtAddr_floor start) with s. fold e. rewrite take_overlapped_eq. fold T. fold over.
      by erewrite st_run by exact E.
    + intros v x. rewrite Hh. case_decide as Hr; split.
      * intros [(k & a & [Hk Ho]%Hover & _ & Hv & ->)|[Hnone (k & a & Hk & Hv & ->)]].
        -- split; [done|]. exists (map_perm a). by exists k, a.
        -- exfalso. apply (Hnone k a); [|done]. apply Hover. split; [done|]. by apply (overlap_covers a s e v).
      * intros [Hx (p & k & a & Hk & Hv & Hp)]. left. exists k, a. split; [|split_and!; try done; try lia].
        -- apply Hover. split; [done|]. by apply (overlap_covers a s e v).
        -- destruct x. cbn in *. congruence.
      * intros [(k & a & _ & Hv & _)|[_ H]]; [done|done].
      * intros H. right. split; [|done]. intros k a _ [Hv _]. done.
Qed.
