(* ===== verification/Timer.v ===== *)
(** * Clock values (os/src/timer.rs)

    Conversions of the cycle counter, [TimeVal] and [UserTimeSpec] with their
    arithmetic, the CPU-time accounts of a process and the table of real-time
    timers.  The counter [rdtime] is an argument [ticks] of the functions that
    read it.  The theorem gives [TimeVal] its meaning in microseconds. *)

From S2P Require Import Prelude Config BTree.

(** ** Definitions *)

Definition TICKS_PER_SEC : Z := 100.
Definition MSEC_PER_SEC : Z := 1000.
Definition MICRO_PER_SEC : Z := 1000000.
Definition NANO_PER_SEC : Z := 1000000000.
Definition NSEC_PER_USEC : Z := 1000.

Definition get_time (ticks : Z) : Z := ticks / CLOCK_FREQ.

Definition get_time_ms (ticks : Z) : outcome Z :=
  let counter := get_time ticks in
  p ← umul counter MSEC_PER_SEC;
  udiv p CLOCK_FREQ.

Definition get_time_us (ticks : Z) : outcome Z :=
  let counter := get_time ticks in
  p ← umul counter MICRO_PER_SEC;
  udiv p CLOCK_FREQ.

(** In [u128] the product of a [u64] and a constant does not overflow. *)
Definition get_time_ns (ticks : Z) : Z :=
  wrap64 (ticks * NANO_PER_SEC / CLOCK_FREQ).

(** The value [set_next_trigger] arms the timer with. *)
Definition next_trigger (ticks : Z) : outcome Z := uadd ticks (CLOCK_FREQ / TICKS_PER_SEC).

Record TimeVal : Type := mkTV { sec : Z; usec : Z }.

#[export] Instance TimeVal_eq_dec : EqDecision TimeVal.
Proof. solve_decision. Defined.

(** The derived [Ord]: field by field. *)
Definition tv_cmp (a b : TimeVal) : comparison :=
  match Z.compare (sec a) (sec b) with
  | Eq => Z.compare (usec a) (usec b)
  | c => c
  end.
Definition tv_leb (a b : TimeVal) : bool :=
  match tv_cmp a b with Gt => false | _ => true end.

Definition current_time (ticks : Z) : TimeVal :=
  let time_ns := get_time_ns ticks in
  mkTV (time_ns / NANO_PER_SEC) ((time_ns mod NANO_PER_SEC) / 1000).

Definition tv_normalize (s u : Z) : outcome TimeVal :=
  if 1000000 <=? u then
    s' ← uadd s (u / 1000000);
    Ret (mkTV s' (u mod 1000000))
  else Ret (mkTV s u).

Definition add_milliseconds (t : TimeVal) (ms : Z) : outcome TimeVal :=
  s ← uadd (sec t) (ms / MSEC_PER_SEC);
  x ← umul (ms mod MSEC_PER_SEC) 1000;
  u ← uadd (usec t) x;
  tv_normalize s u.

Record UserTimeSpec : Type := mkTS { tv_sec : Z; tv_nsec : Z }.

Definition add_timespec (t : TimeVal) (ts : UserTimeSpec) : outcome TimeVal :=
  s ← uadd (sec t) (tv_sec ts);
  u ← uadd (usec t) (tv_nsec ts / 1000);
  tv_normalize s u.

Definition tv_from_ns (time : Z) : TimeVal :=
  mkTV (time / NANO_PER_SEC) ((time mod NANO_PER_SEC) / 1000).

Definition tv_add (a b : TimeVal) : outcome TimeVal :=
  s ← uadd (sec a) (sec b);
  u ← uadd (usec a) (usec b);
  tv_normalize s u.

Definition tv_sub (a b : TimeVal) : outcome TimeVal :=
  if (sec b <? sec a) || ((sec a =? sec b) && (usec b <=? usec a)) then
    s ← usub (sec a) (sec b);
    if usec b <=? usec a then
      u ← usub (usec a) (usec b);
      Ret (mkTV s u)
    else
      x ← uadd (usec a) 1000000;
      u ← usub x (usec b);
      Ret (mkTV (Z.max 0 (s - 1)) u)
  else Ret (mkTV 0 0).

(** [u64::from(TimeVal)] *)
Definition tv_nanos (t : TimeVal) : outcome Z :=
  x ← umul (sec t) NANO_PER_SEC;
  y ← umul (usec t) NSEC_PER_USEC;
  uadd x y.

Record KernelTimer : Type := mkTimer { interval : Z; value : Z }.
Definition is_armed (t : KernelTimer) : bool := 0 <? value t.

Definition as_nanos (t : UserTimeSpec) : outcome Z :=
  x ← umul (tv_sec t) NANO_PER_SEC;
  uadd x (tv_nsec t).

Definition usertime2_timeval (t : UserTimeSpec) : TimeVal :=
  mkTV (tv_sec t) (tv_nsec t / 1000).

(** The derived order of [UserTimeSpec], as [>=]. *)
Definition ts_geb (a b : UserTimeSpec) : bool :=
  (tv_sec b <? tv_sec a) || ((tv_sec a =? tv_sec b) && (tv_nsec b <=? tv_nsec a)).

Definition ts_sub (a b : UserTimeSpec) : outcome UserTimeSpec :=
  if ts_geb a b then
    s ← usub (tv_sec a) (tv_sec b);
    n ← ichk (wrap_isize (tv_nsec a) - wrap_isize (tv_nsec b));
    if n <? 0 then
      s' ← usub s 1;
      n' ← ichk (n + NANO_PER_SEC);
      Ret (mkTS s' (wrap64 n'))
    else Ret (mkTS s (wrap64 n))
  else Ret (mkTS 0 0).

Definition ts_add (a b : UserTimeSpec) : outcome UserTimeSpec :=
  s ← uadd (tv_sec a) (tv_sec b);
  n ← uadd (tv_nsec a) (tv_nsec b);
  if NANO_PER_SEC <=? n then
    s' ← uadd s (n / NANO_PER_SEC);
    Ret (mkTS s' (n mod NANO_PER_SEC))
  else Ret (mkTS s n).

Definition get_usertime (ticks : Z) : outcome UserTimeSpec :=
  let s := ticks / CLOCK_FREQ in
  p ← umul (ticks mod CLOCK_FREQ) NANO_PER_SEC;
  n ← udiv p CLOCK_FREQ;
  Ret (mkTS s n).

Record TimeData : Type := mkTD {
  utime : Z; stime : Z; cutime : Z; cstime : Z; lasttime : Z
}.

Record Tms : Type := mkTms {
  tms_utime : Z; tms_stime : Z; tms_cutime : Z; tms_cstime : Z
}.

Definition Tms_new (d : TimeData) : Tms :=
  mkTms (utime d) (stime d) (cutime d) (cstime d).

Definition TimeData_new (ticks : Z) : outcome TimeData :=
  now ← get_time_ms ticks;
  Ret (mkTD 0 0 0 0 (wrap_isize now)).

Definition update_utime (d : TimeData) (ticks : Z) : outcome TimeData :=
  ms ← get_time_ms ticks;
  let now := wrap_isize ms in
  duration ← ichk (now - lasttime d);
  u ← ichk (utime d + duration);
  Ret (mkTD u (stime d) (cutime d) (cstime d) now).

Definition update_stime (d : TimeData) (ticks : Z) : outcome TimeData :=
  ms ← get_time_ms ticks;
  let now := wrap_isize ms in
  duration ← ichk (now - lasttime d);
  s ← ichk (stime d + duration);
  Ret (mkTD (utime d) s (cutime d) (cstime d) now).

Definition td_clear (d : TimeData) (ticks : Z) : outcome TimeData :=
  ms ← get_time_ms ticks;
  Ret (mkTD 0 0 0 0 (wrap_isize ms)).

(** [REAL_TIMERS]: deadline in nanoseconds to pid. *)
Definition real_timers : Type := list (Z * Z).

Definition set_real_timer (timers : real_timers) (pid value_ns ticks : Z)
    : outcome real_timers :=
  let timers := List.filter (fun e => negb (snd e =? pid)) timers in
  if 0 <? value_ns then
    deadline ← uadd (get_time_ns ticks) value_ns;
    Ret (bt_insert deadline pid timers)
  else Ret timers.

(** ** Time values in microseconds *)

Definition tv_us (t : TimeVal) : Z := sec t * 1000000 + usec t.

Definition tv_ok (t : TimeVal) : Prop := 0 <= sec t /\ 0 <= usec t < 1000000.

Lemma tv_us_inj a b : tv_ok a -> tv_ok b -> tv_us a = tv_us b -> a = b.
Proof.
  destruct a, b. unfold tv_ok, tv_us. cbn. intros. f_equal; lia.
Qed.

(** The derived order is the order of the microseconds. *)
Lemma tv_cmp_us a b : tv_ok a -> tv_ok b -> tv_cmp a b = Z.compare (tv_us a) (tv_us b).
Proof.
  destruct a as [s1 u1], b as [s2 u2]. unfold tv_ok, tv_us, tv_cmp. cbn. intros.
  destruct (Z.compare_spec s1 s2), (Z.compare_spec u1 u2); symmetry;
    rewrite ?Z.compare_eq_iff, ?Z.compare_lt_iff, ?Z.compare_gt_iff; lia.
Qed.

Lemma tv_normalize_ok s u : 0 <= s -> 0 <= u -> s + u / 1000000 < u64_bound ->
  exists t, tv_normalize s u = Ret t /\ tv_ok t /\ tv_us t = s * 1000000 + u.
Proof.
  intros. unfold tv_normalize, tv_ok, tv_us. destruct (Z.leb_spec 1000000 u).
  - rewrite uadd_Ret by lia. cbn. eexists. split; [done|]. cbn. lia.
  - eexists. split; [done|]. cbn. lia.
Qed.

Lemma tv_add_ok a b : tv_ok a -> tv_ok b -> sec a + sec b + 1 < u64_bound ->
  exists c, tv_add a b = Ret c /\ tv_ok c /\ tv_us c = tv_us a + tv_us b.
Proof.
  intros [? ?] [? ?] ?. unfold tv_add. rewrite !uadd_Ret by (unfold u64_bound in *; lia).
  cbn. destruct (tv_normalize_ok (sec a + sec b) (usec a + usec b)) as (c & -> & Hc & Hu);
    [lia|lia|unfold u64_bound in *; lia|].
  exists c. split; [done|]. split; [done|]. rewrite Hu. unfold tv_us. lia.
Qed.

Lemma tv_sub_ok a b : tv_ok a -> tv_ok b ->
  exists c, tv_sub a b = Ret c /\ tv_ok c /\ tv_us c = Z.max 0 (tv_us a - tv_us b).
Proof.
  destruct a as [s1 u1], b as [s2 u2]. unfold tv_ok, tv_us, tv_sub. cbn. intros [? ?] [? ?].
  destruct ((s2 <? s1) || ((s1 =? s2) && (u2 <=? u1))) eqn:E.
  - assert (s2 < s1 \/ s1 = s2 /\ u2 <= u1) by (revert E; zcases; cbn; lia || done).
    rewrite (usub_Ret s1 s2) by lia. cbn. destruct (Z.leb_spec u2 u1).
    + rewrite usub_Ret by lia. eexists. split; [done|]. cbn. lia.
    + rewrite uadd_Ret by (unfold u64_bound; lia). cbn. rewrite usub_Ret by lia.
      eexists. split; [done|]. cbn. lia.
  - eexists. split; [done|]. cbn. revert E. zcases; cbn; lia || done.
Qed.

Lemma add_milliseconds_ok t ms : tv_ok t -> 0 <= ms ->
  sec t + ms / 1000 + 1 < u64_bound ->
  exists c, add_milliseconds t ms = Ret c /\ tv_ok c /\ tv_us c = tv_us t + ms * 1000.
Proof.
  intros [? ?] ? ?. unfold add_milliseconds, MSEC_PER_SEC.
  rewrite uadd_Ret by lia. cbn. rewrite umul_Ret by (unfold u64_bound; lia). cbn.
  rewrite uadd_Ret by (unfold u64_bound; lia). cbn.
  destruct (tv_normalize_ok (sec t + ms / 1000) (usec t + ms mod 1000 * 1000))
    as (c & -> & Hc & Hu); [lia|lia|unfold u64_bound in *; lia|].
  exists c. split; [done|]. split; [done|]. rewrite Hu. unfold tv_us. lia.
Qed.

(** ** Theorem *)

(** [TimeVal] arithmetic is arithmetic on microseconds: on normalised
    values whose seconds do not overflow, [+] adds and [-] subtracts down to
    zero, both give normalised values, [a + b - b] is [a] again, adding
    milliseconds adds their microseconds, and the derived order is the order
    of the microseconds. *)
Theorem timeval_arithmetic a b ms : tv_ok a -> tv_ok b -> 0 <= ms ->
  sec a + sec b + 1 < u64_bound -> sec a + ms / 1000 + 1 < u64_bound ->
  (exists c, tv_add a b = Ret c /\ tv_ok c /\ tv_us c = tv_us a + tv_us b /\
     tv_sub c b = Ret a) /\
  (exists c, tv_sub a b = Ret c /\ tv_ok c /\ tv_us c = Z.max 0 (tv_us a - tv_us b)) /\
  (exists c, add_milliseconds a ms = Ret c /\ tv_ok c /\ tv_us c = tv_us a + ms * 1000) /\
  (tv_leb a b = true <-> tv_us a <= tv_us b).
Proof.
  intros Ha Hb Hms Hs1 Hs2. split; [|split; [|split]].
  - destruct (tv_add_ok a b) as (c & E & Hc & Hu); [done..|].
    destruct (tv_sub_ok c b) as (d & E2 & Hd & Hu2); [done..|].
    exists c. repeat (split; [done|]). rewrite E2. f_equal. apply tv_us_inj; [done..|].
    assert (0 <= tv_us a) by (unfold tv_us, tv_ok in *; lia). lia.
  - by apply tv_sub_ok.
  - by apply add_milliseconds_ok.
  - unfold tv_leb. rewrite tv_cmp_us by done.
    destruct (Z.compare_spec (tv_us a) (tv_us b)); split; done || lia.
Qed.

Lemma timeval_arithmetic_witness :
  tv_add (mkTV 3 700000) (mkTV 1 600000) = Ret (mkTV 5 300000) /\
  exists c, tv_sub (mkTV 3 700000) (mkTV 1 600000) = Ret c /\ tv_us c = 2100000.
Proof.
  split; [reflexivity|].
  destruct (timeval_arithmetic (mkTV 3 700000) (mkTV 1 600000) 0)
    as (_ & (c & E & _ & Hc) & _);
    [unfold tv_ok; cbn; lia|unfold tv_ok; cbn; lia|lia|reflexivity|reflexivity|].
  exists c. split; [exact E|]. rewrite Hc. reflexivity.
Defined.
