(* ===== verification/Sched.v ===== *)
(** * Tasks and the scheduler (os/src/task/schedule.rs, task/task.rs)

    A task is an [Arc<CFSTask<TaskControlBlock>>]: an object with atomic
    fields that the ready queue, the running CPU and wakers share.  Task
    references are addresses into a heap of tasks, so that an update through
    one holder is seen by all others.  [CFScheduler] is the ready queue, a
    [BTreeMap] from (virtual runtime, sequence number) to task references.

    The future of a task is not part of the control block here: what a poll
    does is an argument of the executor (file Exec). *)

From S2P Require Import Prelude BTree.

(** ** Task control blocks *)

Inductive TaskStatus : Type :=
| Running | Runnable | Blocking | Waked | Blocked | Zombie.

#[export] Instance TaskStatus_eq_dec : EqDecision TaskStatus.
Proof. solve_decision. Defined.

Inductive TrapStatus : Type := TrapDone | TrapBlocked | TrapUnknown.

Record RobustList : Type := mkRobust { head : Z; len : Z }.
Definition RobustList_default : RobustList := mkRobust 0 24.

(** [wait_wakers] holds wakers, which are task addresses. *)
Record TaskControlBlock : Type := mkTCB {
  tcb_id : Z;
  is_init : bool;
  state : TaskStatus;
  exit_code : Z;
  need_resched : bool;
  preempt_disable_count : Z;
  is_leader : bool;
  process_id : Z;
  page_table_token : Z;
  child_tid : option Z;
  need_clear_child_tid : bool;
  robust_list : RobustList;
  uid : Z;
  noma_policy : Z;
  wait_wakers : list Z;
  trap_status : option TrapStatus
}.

(** [TaskControlBlock::new]; [tid] is the value [TaskId::new] takes from the
    counter. *)
Definition TaskControlBlock_new (tid : Z) (is_init is_leader : bool)
    (process_id page_table_token : Z) (chlid_tid_ptr : option Z)
    (clear_child_tid : bool) (trap : TrapStatus) : TaskControlBlock :=
  mkTCB tid is_init Runnable 0 false 0 is_leader process_id page_table_token
    chlid_tid_ptr clear_child_tid RobustList_default 0 0 [] (Some trap).

Definition tcb_set_state (st : TaskStatus) (t : TaskControlBlock) : TaskControlBlock :=
  mkTCB (tcb_id t) (is_init t) st (exit_code t) (need_resched t)
    (preempt_disable_count t) (is_leader t) (process_id t) (page_table_token t)
    (child_tid t) (need_clear_child_tid t) (robust_list t) (uid t) (noma_policy t)
    (wait_wakers t) (trap_status t).

Definition tcb_set_exit_code (code : Z) (t : TaskControlBlock) : TaskControlBlock :=
  mkTCB (tcb_id t) (is_init t) (state t) code (need_resched t)
    (preempt_disable_count t) (is_leader t) (process_id t) (page_table_token t)
    (child_tid t) (need_clear_child_tid t) (robust_list t) (uid t) (noma_policy t)
    (wait_wakers t) (trap_status t).

Definition tcb_set_need_resched (b : bool) (t : TaskControlBlock) : TaskControlBlock :=
  mkTCB (tcb_id t) (is_init t) (state t) (exit_code t) b
    (preempt_disable_count t) (is_leader t) (process_id t) (page_table_token t)
    (child_tid t) (need_clear_child_tid t) (robust_list t) (uid t) (noma_policy t)
    (wait_wakers t) (trap_status t).

Definition tcb_set_preempt (n : Z) (t : TaskControlBlock) : TaskControlBlock :=
  mkTCB (tcb_id t) (is_init t) (state t) (exit_code t) (need_resched t)
    n (is_leader t) (process_id t) (page_table_token t)
    (child_tid t) (need_clear_child_tid t) (robust_list t) (uid t) (noma_policy t)
    (wait_wakers t) (trap_status t).

Definition tcb_set_wakers (l : list Z) (t : TaskControlBlock) : TaskControlBlock :=
  mkTCB (tcb_id t) (is_init t) (state t) (exit_code t) (need_resched t)
    (preempt_disable_count t) (is_leader t) (process_id t) (page_table_token t)
    (child_tid t) (need_clear_child_tid t) (robust_list t) (uid t) (noma_policy t)
    l (trap_status t).

(** [set_child_tid_ptr] has no effect when the field is [None]. *)
Definition set_child_tid_ptr (ptr : Z) (t : TaskControlBlock) : TaskControlBlock :=
  match child_tid t with
  | Some _ =>
      mkTCB (tcb_id t) (is_init t) (state t) (exit_code t) (need_resched t)
        (preempt_disable_count t) (is_leader t) (process_id t) (page_table_token t)
        (Some ptr) (need_clear_child_tid t) (robust_list t) (uid t) (noma_policy t)
        (wait_wakers t) (trap_status t)
  | None => t
  end.

Definition is_exited (t : TaskControlBlock) : bool := bool_decide (state t = Zombie).
Definition is_blocking (t : TaskControlBlock) : bool := bool_decide (state t = Blocking).
Definition can_preempt (t : TaskControlBlock) : bool := preempt_disable_count t =? 0.

(** [fetch_add] and [fetch_sub] wrap around. *)
Definition disable_preempt (t : TaskControlBlock) : TaskControlBlock :=
  tcb_set_preempt (wrap64 (preempt_disable_count t + 1)) t.
Definition enable_preempt (t : TaskControlBlock) : TaskControlBlock :=
  tcb_set_preempt (wrap64 (preempt_disable_count t - 1)) t.

(** ** Scheduling entities *)

Record CFSTask (T : Type) : Type := mkCFS {
  inner : T;
  init_vruntime : Z;
  delta : Z;
  nice : Z;
  cfs_id : Z
}.

Arguments mkCFS {T}.
Arguments inner {T}.
Arguments init_vruntime {T}.
Arguments delta {T}.
Arguments nice {T}.
Arguments cfs_id {T}.

Notation Task := (CFSTask TaskControlBlock).

Definition NICE2WEIGHT_POS : list Z :=
  [1024; 820; 655; 526; 423; 335; 272; 215; 172; 137; 110; 87; 70; 56; 45; 36; 29; 23; 18; 15].
Definition NICE2WEIGHT_NEG : list Z :=
  [1024; 1277; 1586; 1991; 2501; 3121; 3906; 4904; 6100; 7620; 9548; 11916; 14949; 18705;
   23254; 29154; 36291; 46273; 56483; 71755; 88761].

Definition CFSTask_new {T} (x : T) : CFSTask T := mkCFS x 0 0 0 0.

Section cfs_task.
Context {T : Type}.
Implicit Types (t : CFSTask T).

Definition get_weight t : outcome Z :=
  if 0 <=? nice t then index NICE2WEIGHT_POS (nice t)
  else m ← ichk (- nice t); index NICE2WEIGHT_NEG m.

(** [/] on [isize] truncates. *)
Definition get_vruntime t : outcome Z :=
  if nice t =? 0 then ichk (init_vruntime t + delta t)
  else
    p ← ichk (delta t * 1024);
    w ← get_weight t;
    if w =? 0 then Panic else ichk (init_vruntime t + Z.quot p w).

Definition set_vruntime (v : Z) t : CFSTask T :=
  mkCFS (inner t) v (delta t) (nice t) (cfs_id t).
Definition set_id (i : Z) t : CFSTask T :=
  mkCFS (inner t) (init_vruntime t) (delta t) (nice t) i.
Definition set_inner (x : T) t : CFSTask T :=
  mkCFS x (init_vruntime t) (delta t) (nice t) (cfs_id t).

Definition task_set_priority (n : Z) t : outcome (CFSTask T) :=
  current_init_vruntime ← get_vruntime t;
  Ret (mkCFS (inner t) current_init_vruntime 0 n (cfs_id t)).

Definition cfs_task_tick t : CFSTask T :=
  mkCFS (inner t) (init_vruntime t) (wrap_isize (delta t + 1)) (nice t) (cfs_id t).

End cfs_task.

(** ** The scheduler *)

Record CFScheduler : Type := mkSched {
  ready_queue : list ((Z * Z) * Z);
  min_vruntime : option Z;
  id_pool : Z
}.

Definition CFScheduler_new : CFScheduler := mkSched [] None 0.

(** The heap of tasks and the scheduler. *)
Record runq (T : Type) : Type := mkRunq {
  heap : gmap Z (CFSTask T);
  sched : CFScheduler
}.

Arguments mkRunq {T}.
Arguments heap {T}.
Arguments sched {T}.

Section scheduler.
Context {T : Type}.
Implicit Types (s : runq T) (r : Z).

(** Reading and updating the object behind a reference. *)
Definition task_at r : ST (runq T) (CFSTask T) :=
  fun s => match heap s !! r with Some t => Ret (t, s) | None => Panic end.
Definition task_put r (t : CFSTask T) : ST (runq T) unit :=
  st_modify (fun s => mkRunq (<[r := t]> (heap s)) (sched s)).
Definition set_sched (c : CFScheduler) : ST (runq T) unit :=
  st_modify (fun s => mkRunq (heap s) c).

(** [self.ready_queue.first_key_value()], the key's virtual runtime. *)
Definition queue_min (q : list ((Z * Z) * Z)) : option Z :=
  match bt_first q with Some ((v, _), _) => Some v | None => None end.

(** [id_pool.fetch_add(1)] *)
Definition next_id (c : CFScheduler) : Z * CFScheduler :=
  (id_pool c, mkSched (ready_queue c) (min_vruntime c) (wrap_isize (id_pool c + 1))).

Definition sched_add_task r : ST (runq T) unit :=
  c ← st_gets sched;
  let vruntime := match min_vruntime c with Some v => v | None => 0 end in
  let '(taskid, c) := next_id c in
  t ← task_at r;
  _ ← task_put r (set_id taskid (set_vruntime vruntime t));
  let q := bt_insert (vruntime, taskid) r (ready_queue c) in
  set_sched (mkSched q (queue_min q) (id_pool c)).

Definition sched_remove_task r : ST (runq T) (option Z) :=
  c ← st_gets sched;
  t ← task_at r;
  vr ← st_lift (get_vruntime t);
  let k := (vr, cfs_id t) in
  match bt_get k (ready_queue c) with
  | Some tmp =>
      let q := bt_remove k (ready_queue c) in
      _ ← set_sched (mkSched q (queue_min q) (id_pool c));
      mret (Some tmp)
  | None => mret None
  end.

Definition sched_pick_next_task : ST (runq T) (option Z) :=
  c ← st_gets sched;
  match bt_pop_first (ready_queue c) with
  | Some ((_, v), q) =>
      _ ← set_sched (mkSched q (min_vruntime c) (id_pool c));
      mret (Some v)
  | None => mret None
  end.

Definition sched_put_prev_task r : ST (runq T) unit :=
  c ← st_gets sched;
  let '(taskid, c) := next_id c in
  _ ← set_sched c;
  t ← task_at r;
  let t := set_id taskid t in
  _ ← task_put r t;
  vr ← st_lift (get_vruntime t);
  set_sched (mkSched (bt_insert (vr, taskid) r (ready_queue c)) (min_vruntime c) (id_pool c)).

Definition sched_task_tick r : ST (runq T) bool :=
  t ← task_at r;
  let t := cfs_task_tick t in
  _ ← task_put r t;
  c ← st_gets sched;
  match min_vruntime c with
  | None => mret true
  | Some m => vr ← st_lift (get_vruntime t); mret (m <? vr)
  end.

Definition sched_set_priority r (prio : Z) : ST (runq T) bool :=
  if (-20 <=? prio) && (prio <=? 19) then
    t ← task_at r;
    t' ← st_lift (task_set_priority prio t);
    _ ← task_put r t';
    mret true
  else mret false.

(** ** Invariant

    Keys are sorted, every sequence number in the queue was handed out, no
    two entries share one, and every queued reference points to a task. *)

Definition qids (c : CFScheduler) : list Z := (fun e => e.1.2) <$> ready_queue c.

Record sched_ok s : Prop := {
  so_sorted : bt_sorted (ready_queue (sched s));
  so_ids : forall i, i ∈ qids (sched s) -> 0 <= i < id_pool (sched s);
  so_nodup : NoDup (qids (sched s));
  so_pool : 0 <= id_pool (sched s) < isize_max;
  so_heap : forall k r, (k, r) ∈ ready_queue (sched s) -> is_Some (heap s !! r)
}.

(** Where an entry with the largest sequence number goes: behind all entries
    of the same or a smaller virtual runtime. *)
Definition vr_le (v : Z) (e : (Z * Z) * Z) : bool := e.1.1 <=? v.
Definition vr_gt (v : Z) (e : (Z * Z) * Z) : bool := v <? e.1.1.

Lemma filter_gt_all v (q : list ((Z * Z) * Z)) :
  Forall (fun e => v < e.1.1) q ->
  List.filter (vr_le v) q = [] /\ List.filter (vr_gt v) q = q.
Proof.
  induction 1 as [|e q He _ [IH1 IH2]]; [done|]. cbn. unfold vr_le, vr_gt in *.
  destruct (Z.leb_spec e.1.1 v), (Z.ltb_spec v e.1.1); [lia|lia| |lia].
  rewrite IH1, IH2. done.
Qed.

Lemma insert_last v i r q : bt_sorted q -> (forall e, e ∈ q -> e.1.2 < i) ->
  bt_insert (v, i) r q = List.filter (vr_le v) q ++ ((v, i), r) :: List.filter (vr_gt v) q.
Proof.
  induction q as [|[[v1 i1] r1] q IH]; intros Hs Hi; [done|].
  pose proof Hs as [Hf Hq]%sorted_cons. specialize (IH Hq).
  assert (i1 < i) by (apply (Hi ((v1, i1), r1)); set_solver).
  cbn [bt_insert List.filter]. change (kcmp (v, i) (v1, i1)) with (pair_cmp (v, i) (v1, i1)).
  unfold pair_cmp. cbn [fst snd].
  change (vr_le v ((v1, i1), r1)) with (v1 <=? v). change (vr_gt v ((v1, i1), r1)) with (v <? v1).
  destruct (Z.compare_spec v v1) as [->|Hlt|Hgt].
  - destruct (Z.compare_spec i i1); [lia|lia|]. rewrite Z.leb_refl, Z.ltb_irrefl. cbn.
    rewrite IH by set_solver. done.
  - destruct (Z.leb_spec v1 v), (Z.ltb_spec v v1); try lia.
    assert (Forall (fun e => v < e.1.1) q) as Ha.
    { eapply Forall_impl; [|exact Hf]. intros [[v2 i2] r2]. unfold klt, kcmp, ZZ_KeyOrd, pair_cmp.
      cbn. destruct (Z.compare_spec v1 v2); try done; lia. }
    destruct (filter_gt_all v q Ha) as [-> ->]. done.
  - destruct (Z.leb_spec v1 v), (Z.ltb_spec v v1); try lia. cbn. rewrite IH by set_solver. done.
Qed.

Lemma filter_le_gt v (q : list ((Z * Z) * Z)) : bt_sorted q ->
  List.filter (vr_le v) q ++ List.filter (vr_gt v) q = q.
Proof.
  intros Hs. induction q as [|[[v1 i1] r1] q IH]; [done|].
  pose proof Hs as [Hf Hq]%sorted_cons. cbn [List.filter].
  change (vr_le v ((v1, i1), r1)) with (v1 <=? v). change (vr_gt v ((v1, i1), r1)) with (v <? v1).
  destruct (Z.leb_spec v1 v), (Z.ltb_spec v v1); try lia.
  - cbn. rewrite IH by done. done.
  - assert (Forall (fun e => v < e.1.1) q) as Ha.
    { eapply Forall_impl; [|exact Hf]. intros [[v2 i2] r2]. unfold klt, kcmp, ZZ_KeyOrd, pair_cmp.
      cbn. destruct (Z.compare_spec v1 v2); try done; lia. }
    destruct (filter_gt_all v q Ha) as [-> ->]. done.
Qed.

(** Taking [n] tasks one after the other. *)
Fixpoint pick_many (n : nat) : ST (runq T) (list Z) :=
  match n with
  | O => mret []
  | S n' =>
      o ← sched_pick_next_task;
      match o with
      | Some r => l ← pick_many n'; mret (r :: l)
      | None => mret []
      end
  end.

Lemma pick_many_app h q1 q2 m i :
  pick_many (length q1) (mkRunq h (mkSched (q1 ++ q2) m i)) =
  Ret (snd <$> q1, mkRunq h (mkSched q2 m i)).
Proof.
  induction q1 as [|[k r] q1 IH]; [done|]. cbn [length pick_many].
  unfold sched_pick_next_task, set_sched. st_unfold. cbn. st_unfold_in IH.
  rewrite IH. done.
Qed.

Lemma elem_insert v i r q k x :
  (k, x) ∈ bt_insert (v, i) r q -> (k, x) = ((v, i), r) \/ (k, x) ∈ q.
Proof.
  induction q as [|[[v1 i1] r1] q IH]; cbn [bt_insert]; [set_solver|].
  destruct (kcmp (v, i) (v1, i1)); set_solver.
Qed.

Lemma pool_fresh s : sched_ok s -> id_pool (sched s) ∉ qids (sched s).
Proof. intros Hs Hin. apply (so_ids s Hs) in Hin. lia. Qed.

Lemma wrap_isize_range z : isize_min <= z <= isize_max -> wrap_isize z = z.
Proof. unfold wrap_isize, isize_min, isize_max. intros. rewrite Z.mod_small; lia. Qed.

Lemma fresh_get s v : sched_ok s ->
  bt_get (v, id_pool (sched s)) (ready_queue (sched s)) = None.
Proof.
  intros Hs. destruct (bt_get _ _) as [r|] eqn:E; [|done]. exfalso.
  apply get_Some_elem in E. apply (pool_fresh s Hs). unfold qids.
  apply list_elem_of_fmap. eexists. split; [|exact E]. done.
Qed.

(** Queueing a task under the next sequence number keeps the invariant. *)
Lemma enqueue_ok s r v t m : sched_ok s -> id_pool (sched s) + 1 < isize_max ->
  sched_ok (mkRunq (<[r := t]> (heap s))
    (mkSched (bt_insert (v, id_pool (sched s)) r (ready_queue (sched s))) m
      (wrap_isize (id_pool (sched s) + 1)))).
Proof.
  intros Hs Hp. pose proof (so_pool s Hs). pose proof (pool_fresh s Hs) as Hfr.
  rewrite wrap_isize_range by (unfold isize_min; lia).
  assert (qids (mkSched (bt_insert (v, id_pool (sched s)) r (ready_queue (sched s))) m
      (id_pool (sched s) + 1)) ≡ₚ id_pool (sched s) :: qids (sched s)) as Hq.
  { unfold qids. cbn. rewrite (insert_perm _ _ _ (fresh_get s v Hs)). done. }
  constructor; cbn.
  - apply insert_sorted, Hs.
  - intros i. rewrite Hq, elem_of_cons.
    intros [->|Hi]; [lia|]. apply (so_ids s Hs) in Hi. lia.
  - rewrite Hq. apply list.NoDup_cons. split; [done|apply (so_nodup s Hs)].
  - lia.
  - intros k x [[= -> ->]|Hin]%elem_insert; [by rewrite lookup_insert_eq|].
    apply lookup_insert_is_Some'. right. by apply (so_heap s Hs) in Hin.
Qed.

Lemma put_prev_eq s r t v : heap s !! r = Some t -> get_vruntime t = Ret v ->
  sched_put_prev_task r s = Ret (tt,
    mkRunq (<[r := set_id (id_pool (sched s)) t]> (heap s))
      (mkSched (bt_insert (v, id_pool (sched s)) r (ready_queue (sched s)))
        (min_vruntime (sched s)) (wrap_isize (id_pool (sched s) + 1)))).
Proof.
  intros Ht Hv. unfold sched_put_prev_task, set_sched, task_at, task_put. st_unfold. cbn.
  rewrite Ht. cbn. change (get_vruntime (set_id (id_pool (sched s)) t)) with (get_vruntime t).
  rewrite Hv. done.
Qed.

Lemma put_prev_panic s r t : heap s !! r = Some t -> get_vruntime t = Panic ->
  sched_put_prev_task r s = Panic.
Proof.
  intros Ht Hv. unfold sched_put_prev_task, set_sched, task_at, task_put. st_unfold. cbn.
  rewrite Ht. cbn. change (get_vruntime (set_id (id_pool (sched s)) t)) with (get_vruntime t).
  rewrite Hv. done.
Qed.

Lemma add_task_eq s r t : heap s !! r = Some t ->
  let v := default 0 (min_vruntime (sched s)) in
  let q := bt_insert (v, id_pool (sched s)) r (ready_queue (sched s)) in
  sched_add_task r s = Ret (tt,
    mkRunq (<[r := set_id (id_pool (sched s)) (set_vruntime v t)]> (heap s))
      (mkSched q (queue_min q) (wrap_isize (id_pool (sched s) + 1)))).
Proof.
  intros Ht. unfold sched_add_task, set_sched, task_at, task_put. st_unfold. cbn.
  rewrite Ht. cbn. destruct (min_vruntime (sched s)); done.
Qed.

Lemma remove_insert k r (q : list ((Z * Z) * Z)) : bt_sorted q -> bt_get k q = None ->
  bt_remove k (bt_insert k r q) = q.
Proof.
  induction q as [|[k1 r1] q IH]; intros Hs Hg; cbn [bt_insert bt_remove].
  - by rewrite kcmp_refl.
  - pose proof Hs as [_ Hq]%sorted_cons. cbn [bt_get] in Hg. destruct (kcmp k k1) eqn:E; [done| |].
    + cbn [bt_remove]. by rewrite kcmp_refl.
    + cbn [bt_remove]. rewrite E, IH by done. done.
Qed.

Lemma remove_task_eq s r t x : heap s !! r = Some t -> get_vruntime t = Ret x ->
  sched_remove_task r s =
  let q := ready_queue (sched s) in
  match bt_get (x, cfs_id t) q with
  | Some tmp =>
      let q' := bt_remove (x, cfs_id t) q in
      Ret (Some tmp, mkRunq (heap s) (mkSched q' (queue_min q') (id_pool (sched s))))
  | None => Ret (None, s)
  end.
Proof.
  intros Ht Hx. unfold sched_remove_task, task_at, set_sched. st_unfold. cbn [heap sched].
  rewrite Ht, Hx. cbv zeta. destruct (bt_get _ _); done.
Qed.

Lemma get_weight_pos (t : CFSTask T) : -20 <= nice t <= 19 ->
  exists w, get_weight t = Ret w /\ 15 <= w <= 88761.
Proof.
  intros Hn. unfold get_weight.
  assert (exists n, nice t = Z.of_nat n /\ (n < 20)%nat \/
            nice t = - Z.of_nat n /\ nice t < 0 /\ (n < 21)%nat) as [n [[-> Hl]|(Hm & Hneg & Hl)]].
  { destruct (Z.le_gt_cases 0 (nice t)).
    - exists (Z.to_nat (nice t)). lia.
    - exists (Z.to_nat (- nice t)). lia. }
  - do 20 (destruct n as [|n]; [eexists; split; [reflexivity|lia]|]). lia.
  - clear Hn. rewrite Hm. do 21 (destruct n as [|n];
      [solve [exfalso; lia] || (eexists; split; [reflexivity|lia])|]). lia.
Qed.

Lemma vruntime_no_ticks (t : CFSTask T) i v : -20 <= nice t <= 19 -> delta t = 0 ->
  in_isize (v + delta t) = true -> get_vruntime (set_id i (set_vruntime v t)) = Ret v.
Proof.
  intros Hn Hd Hi. unfold get_vruntime. cbn. destruct (Z.eqb_spec (nice t) 0).
  - unfold ichk. rewrite Hi. f_equal. lia.
  - rewrite Hd. cbn. destruct (get_weight_pos t Hn) as (w & Hw & Hb).
    change (get_weight (set_id i (set_vruntime v t))) with (get_weight t). rewrite Hw. cbn.
    change (ichk (0 * 1024)) with (@Ret Z 0). cbn.
    destruct (Z.eqb_spec w 0); [lia|]. rewrite (Z.quot_0_l w) by lia.
    rewrite Hd in Hi. unfold ichk. rewrite Hi. f_equal. lia.
Qed.

(** ** Theorems *)

(** A task that gives up the CPU goes behind every ready task of the same
    or a smaller virtual runtime and before all others: these tasks are
    picked first, in their order, then the task itself, and what is left is
    exactly the ready tasks with a larger virtual runtime.  The invariant of
    the queue is kept. *)
Theorem put_prev_task_order s r t v : sched_ok s ->
  id_pool (sched s) + 1 < isize_max ->
  heap s !! r = Some t -> get_vruntime t = Ret v ->
  let ahead := List.filter (vr_le v) (ready_queue (sched s)) in
  let behind := List.filter (vr_gt v) (ready_queue (sched s)) in
  ahead ++ behind = ready_queue (sched s) /\
  exists s1 s2 s3,
    sched_put_prev_task r s = Ret (tt, s1) /\ sched_ok s1 /\
    pick_many (length ahead) s1 = Ret (snd <$> ahead, s2) /\
    sched_pick_next_task s2 = Ret (Some r, s3) /\
    ready_queue (sched s3) = behind.
Proof.
  intros Hs Hp Ht Hv ahead behind.
  split; [apply filter_le_gt, Hs|].
  assert (forall e, e ∈ ready_queue (sched s) -> e.1.2 < id_pool (sched s)) as Hlt.
  { intros e He. apply (so_ids s Hs). unfold qids. apply list_elem_of_fmap. eauto. }
  do 3 eexists. split; [by apply put_prev_eq|]. split; [by apply enqueue_ok|].
  rewrite insert_last by (done || apply Hs).
  split; [apply pick_many_app|]. split; reflexivity.
Qed.

(** Taking a task out of the ready queue right after it was added works
    exactly when the task has not consumed time: with no ticks [remove_task]
    returns the task and restores the queue.  [add_task] overwrites the
    initial virtual runtime but keeps the ticks, so that for a task of nice 0
    with ticks [remove_task] computes another key, returns [None] and leaves
    the task queued. *)
Theorem remove_task_after_add s r t s1 : sched_ok s ->
  heap s !! r = Some t -> -20 <= nice t <= 19 ->
  in_isize (default 0 (min_vruntime (sched s)) + delta t) = true ->
  sched_add_task r s = Ret (tt, s1) ->
  (delta t = 0 -> exists s2, sched_remove_task r s1 = Ret (Some r, s2) /\
     ready_queue (sched s2) = ready_queue (sched s)) /\
  (nice t = 0 -> delta t <> 0 -> sched_remove_task r s1 = Ret (None, s1)).
Proof.
  intros Hs Ht Hn Hi. rewrite (add_task_eq s r t Ht).
  set (v := default 0 (min_vruntime (sched s))) in *. cbv zeta. intros [= <-].
  set (t1 := set_id (id_pool (sched s)) (set_vruntime v t)).
  set (q := ready_queue (sched s)). set (i := id_pool (sched s)).
  assert (bt_sorted q) as Hq by apply Hs. split.
  - intros Hd. rewrite (remove_task_eq _ r t1 v);
      [|apply lookup_insert_eq|by apply vruntime_no_ticks].
    cbn [sched ready_queue cfs_id set_id t1]. cbv zeta. fold i.
    rewrite get_insert, kcmp_refl by done. eexists. split; [done|].
    cbn [sched ready_queue]. apply remove_insert; [done|]. by apply fresh_get.
  - intros Hn0 Hd. rewrite (remove_task_eq _ r t1 (v + delta t)); [|apply lookup_insert_eq|].
    2: { unfold get_vruntime. cbn. rewrite Hn0. cbn. unfold ichk. rewrite Hi. done. }
    cbn [sched ready_queue cfs_id set_id t1]. cbv zeta. fold i. rewrite get_insert by done.
    change (kcmp (v + delta t, i) (v, i)) with (pair_cmp (v + delta t, i) (v, i)).
    unfold pair_cmp. cbn [fst snd]. pose proof (fresh_get s (v + delta t) Hs) as Hf. fold i q in Hf.
    destruct (Z.compare_spec (v + delta t) v); [lia|by rewrite Hf..].
Qed.

End scheduler.

(** A queue with three tasks of virtual runtimes 0, 4 and 9 and a fourth task
    of virtual runtime 4 that is not queued. *)
Definition runq3 : runq unit :=
  mkRunq
    (<[1 := mkCFS tt 0 0 0 0]> (<[2 := mkCFS tt 4 0 0 1]> (<[3 := mkCFS tt 9 0 0 2]>
      (<[4 := mkCFS tt 1 3 0 0]> ∅))))
    (mkSched [((0, 0), 1); ((4, 1), 2); ((9, 2), 3)] (Some 0) 3).

Lemma runq3_ok : sched_ok runq3.
Proof.
  constructor; cbn.
  - repeat (apply sorted_cons; split; [repeat constructor|]). apply SSorted_nil.
  - unfold qids. cbn. set_solver by lia.
  - unfold qids. cbn. repeat (apply list.NoDup_cons; split; [set_solver by lia|]).
    apply base.NoDup_nil_2.
  - unfold isize_max. lia.
  - intros k r. set_solver.
Qed.

Lemma put_prev_task_order_witness :
  exists s1 s2 s3, sched_put_prev_task 4 runq3 = Ret (tt, s1) /\
    pick_many 2 s1 = Ret ([1; 2], s2) /\ sched_pick_next_task s2 = Ret (Some 4, s3).
Proof.
  destruct (put_prev_task_order runq3 4 (mkCFS tt 1 3 0 0) 4 runq3_ok)
    as (_ & s1 & s2 & s3 & H1 & _ & H2 & H3 & _); [reflexivity..|].
  exists s1, s2, s3. split; [exact H1|]. split; [exact H2|exact H3].
Defined.

Lemma remove_task_after_add_witness :
  exists s1, sched_add_task 4 runq3 = Ret (tt, s1) /\
    sched_remove_task 4 s1 = Ret (None, s1).
Proof.
  destruct (sched_add_task 4 runq3) as [[[] s1]|] eqn:E; [|discriminate].
  exists s1. split; [reflexivity|].
  apply (remove_task_after_add runq3 4 (mkCFS tt 1 3 0 0) s1 runq3_ok);
    [reflexivity|cbn; lia|reflexivity|exact E|reflexivity|discriminate].
Defined.
