(* ===== verification/Exec.v ===== *)
(** * The executor (os/src/task/processor.rs, current.rs, waker.rs, future.rs)

    One CPU runs tasks as futures: the trampoline takes the current task or
    the next ready one, polls it and [run_task2] disposes of the result.  A
    waker is the raw address of a task: [wakeup_task] looks at the state of
    the task and puts it back into the ready queue if it was blocked.

    The state holds the heap of tasks with the scheduler, the strong counts
    of the [Arc]s and the per-CPU pointer to the current task (0 is null).
    What the poll of a task does in between is left open: the step relation
    below allows every sequence of the operations a poll can perform. *)

From S2P Require Import Prelude BTree Sched.

(** ** Definitions *)

Inductive Poll (A : Type) : Type :=
| Ready (a : A)
| Pending.

Arguments Ready {A} a.
Arguments Pending {A}.

Record exec : Type := mkExec {
  rq : runq TaskControlBlock;
  arcs : gmap Z Z;
  current : Z
}.

Definition on_rq {A} (m : ST (runq TaskControlBlock) A) : ST exec A :=
  fun s => match m (rq s) with
           | Ret (a, q) => Ret (a, mkExec q (arcs s) (current s))
           | Panic => Panic
           end.

Definition exec_task (r : Z) : ST exec Task := on_rq (task_at r).

(** Updating a field of the control block behind a reference. *)
Definition tcb_update (r : Z) (f : TaskControlBlock -> TaskControlBlock) : ST exec unit :=
  t ← exec_task r;
  on_rq (task_put r (set_inner (f (inner t)) t)).

Definition task_set_state (r : Z) (st : TaskStatus) : ST exec unit :=
  tcb_update r (tcb_set_state st).

(** [Arc::clone], [Arc::drop] and [Arc::strong_count] of a task reference;
    the task is freed with its last reference. *)
Definition task_arc_count (r : Z) : ST exec Z :=
  fun s => match arcs s !! r with Some n => Ret (n, s) | None => Panic end.

Definition task_arc_clone (r : Z) : ST exec unit :=
  n ← task_arc_count r;
  st_modify (fun s => mkExec (rq s) (<[r := n + 1]> (arcs s)) (current s)).

Definition task_arc_drop (r : Z) : ST exec unit :=
  n ← task_arc_count r;
  if n =? 1 then
    st_modify (fun s => mkExec (mkRunq (delete r (heap (rq s))) (sched (rq s)))
                          (delete r (arcs s)) (current s))
  else st_modify (fun s => mkExec (rq s) (<[r := n - 1]> (arcs s)) (current s)).

(** *** The current task *)

Definition set_current_task_ptr (r : Z) : ST exec unit :=
  st_modify (fun s => mkExec (rq s) (arcs s) r).

Definition try_get : ST exec (option Z) :=
  st_gets (fun s => if current s =? 0 then None else Some (current s)).

Definition current_get : ST exec Z :=
  o ← try_get;
  match o with Some r => mret r | None => st_panic end.

Definition init_current (r : Z) : ST exec unit :=
  _ ← task_set_state r Running;
  set_current_task_ptr r.

Definition clean_current : ST exec unit :=
  r ← current_get;
  _ ← task_arc_drop r;
  set_current_task_ptr 0.

Definition clean_current_without_drop : ST exec unit := set_current_task_ptr 0.

Definition current_task_id : ST exec Z :=
  r ← current_get;
  t ← exec_task r;
  mret (tcb_id (inner t)).

Definition current_task_id_may_uninit : ST exec Z :=
  o ← try_get;
  match o with
  | Some r => t ← exec_task r; mret (tcb_id (inner t))
  | None => mret 1
  end.

(** *** Wakers *)

(** [Arc::from_raw] takes over the reference that
    [clean_current_without_drop] left behind. *)
Definition wakeup_task (r : Z) : ST exec unit :=
  t ← exec_task r;
  match state (inner t) with
  | Running => mret tt
  | Blocking => task_set_state r Waked
  | Runnable => mret tt
  | Blocked =>
      _ ← task_set_state r Runnable;
      on_rq (sched_add_task r)
  | Waked => st_panic
  | Zombie => st_panic
  end.

(** The loop of [wake_all_waiters] over the wakers that are left. *)
Fixpoint wake_list (r : Z) (l : list Z) : ST exec unit :=
  match l with
  | [] => mret tt
  | w :: l' =>
      _ ← tcb_update r (tcb_set_wakers l');
      _ ← wakeup_task w;
      wake_list r l'
  end.

Definition wake_all_waiters (r : Z) : ST exec unit :=
  t ← exec_task r;
  wake_list r (wait_wakers (inner t)).

(** *** Running a task *)

(** [run_task2] returns to the trampoline, leaves to user mode or shuts the
    machine down. *)
Inductive run_result : Type := RunNext | RunUser | RunShutdown.

Definition is_trap_done (o : option TrapStatus) : bool :=
  match o with Some TrapDone => true | _ => false end.

(** [run_task2] after the poll returned [res]. *)
Definition run_task2 (res : Poll Z) : ST exec run_result :=
  curr ← current_get;
  match res with
  | Ready _ =>
      _ ← task_set_state curr Zombie;
      _ ← wake_all_waiters curr;
      t ← exec_task curr;
      if is_init (inner t) then
        n ← task_arc_count curr;
        _ ← st_lift (rassert (n <=? 3));
        mret RunShutdown
      else
        _ ← clean_current;
        mret RunNext
  | Pending =>
      t ← exec_task curr;
      match state (inner t) with
      | Running =>
          if is_trap_done (trap_status (inner t)) then mret RunUser
          else
            _ ← task_set_state curr Runnable;
            _ ← task_arc_clone curr;
            _ ← on_rq (sched_put_prev_task curr);
            _ ← clean_current;
            mret RunNext
      | Runnable => st_panic
      | Blocking =>
          _ ← task_set_state curr Blocked;
          _ ← clean_current_without_drop;
          mret RunNext
      | Waked =>
          _ ← task_set_state curr Running;
          mret RunNext
      | Blocked => st_panic
      | Zombie => st_panic
      end
  end.

(** The trampoline's choice: the current task, or the next ready one. *)
Definition schedule_next : ST exec (option Z) :=
  o ← try_get;
  match o with
  | Some r => mret (Some r)
  | None =>
      o ← on_rq sched_pick_next_task;
      match o with
      | Some task =>
          _ ← init_current task;
          res ← current_get;
          mret (Some res)
      | None => mret None
      end
  end.

Definition on_timer_tick : ST exec unit :=
  o ← try_get;
  match o with
  | Some curr =>
      b ← on_rq (sched_task_tick curr);
      if (b : bool) then tcb_update curr (tcb_set_need_resched true) else mret tt
  | None => mret tt
  end.

(** *** Futures over tasks *)

Record YieldFuture : Type := mkYield { has_polled : bool }.
Definition YieldFuture_new : YieldFuture := mkYield false.
Definition yield_poll (f : YieldFuture) : Poll unit * YieldFuture :=
  if has_polled f then (Ready tt, f) else (Pending, mkYield true).

(** [TaskControlBlock::join] of the task [target] by the waker [w]. *)
Definition task_join (target w : Z) : ST exec unit :=
  _ ← task_set_state w Blocking;
  tcb_update target (fun t => tcb_set_wakers (wait_wakers t ++ [w]) t).

Definition join_poll (target w : Z) : ST exec (Poll Z) :=
  t ← exec_task target;
  if bool_decide (state (inner t) = Zombie) then mret (Ready (exit_code (inner t)))
  else
    _ ← task_join target w;
    t' ← exec_task target;
    if bool_decide (state (inner t') = Zombie) then mret (Ready (exit_code (inner t')))
    else mret Pending.

(** [WaitAnyFuture::poll] over its futures, pairs of pid and task; [pending]
    collects those polled before.  When one is ready the rest stays. *)
Fixpoint wait_any_loop (w : Z) (futures pending : list (Z * Z))
    : ST exec (Poll Z * list (Z * Z)) :=
  match futures with
  | [] => mret (Pending, pending)
  | (pid, target) :: futures' =>
      p ← join_poll target w;
      match p with
      | Ready _ => mret (Ready pid, futures')
      | Pending => wait_any_loop w futures' (pending ++ [(pid, target)])
      end
  end.

Definition wait_any_poll (w : Z) (futures : list (Z * Z))
    : ST exec (Poll Z * list (Z * Z)) :=
  wait_any_loop w futures [].
