(* ===== verification/ExecInv.v ===== *)
(** * What the executor guarantees

    The states a task can be in are tied to where it is: a runnable task is
    in the ready queue once, unless it was made and not queued yet, a running,
    blocking or woken task is the current one, a blocked task is in neither
    place, and a task that is in the queue, running or blocked is allocated.
    [exec_inv] states this; every operation that a poll, the trampoline or
    another holder of a reference can perform keeps it ([exec_step]), so it
    holds in every reachable state. *)

From S2P Require Import Prelude BTree Sched Exec.

(** ** The invariant *)

Definition refs (s : exec) : list Z := snd <$> ready_queue (sched (rq s)).

Definition view (s : exec) (r : Z) : option TaskStatus :=
  (fun t => state (inner t)) <$> heap (rq s) !! r.

(** On the CPU. *)
Definition on_cpu (st : TaskStatus) : bool :=
  match st with Running | Blocking | Waked => true | _ => false end.

(** States the current task can have: it may have exited in its poll. *)
Definition curr_ok (st : TaskStatus) : bool :=
  match st with Running | Blocking | Waked | Zombie => true | _ => false end.

(** [n] bounds the number of tasks queued so far; [U] are the tasks that were
    made and not queued yet: [clone] makes a task, may fail, and queues it
    only at its end. *)
Record exec_inv (U : gset Z) (n : Z) (s : exec) : Prop := {
  ei_sched : sched_ok (rq s);
  ei_pool : id_pool (sched (rq s)) <= n;
  ei_nodup : NoDup (refs s);
  ei_queue : forall r, r ∈ refs s <-> view s r = Some Runnable /\ r ∉ U;
  ei_made : forall r, r ∈ U -> view s r = Some Runnable;
  ei_run : forall r st, view s r = Some st -> on_cpu st = true -> current s = r;
  ei_cur : current s <> 0 -> exists st, view s (current s) = Some st /\ curr_ok st = true;
  ei_null : view s 0 = None;
  ei_arcs : forall r, match view s r with
                      | Some _ => exists k, arcs s !! r = Some k /\ 1 <= k
                      | None => arcs s !! r = None
                      end
}.

Arguments ei_sched {U} n s.
Arguments ei_pool {U} n s.
Arguments ei_nodup {U} n s.
Arguments ei_queue {U} n s.
Arguments ei_made {U} n s.
Arguments ei_run {U} n s.
Arguments ei_cur {U} n s.
Arguments ei_null {U} n s.
Arguments ei_arcs {U} n s.

(** The executor itself holds a reference to the task. *)
Definition exec_owns (s : exec) (r : Z) : Prop :=
  r ∈ refs s \/ current s = r \/ view s r = Some Blocked.

(** ** Steps

    The index bounds how many tasks the step queues; the set is that of the
    tasks made and not queued. *)

Inductive exec_step : Z -> gset Z -> exec -> gset Z -> exec -> Prop :=
| step_schedule U s s' o :
    schedule_next s = Ret (o, s') -> exec_step 0 U s U s'
| step_wake U s s' r :
    wakeup_task r s = Ret (tt, s') -> exec_step 1 U s U s'
| step_make U s r t :
    r <> 0 -> heap (rq s) !! r = None -> state (inner t) = Runnable ->
    exec_step 0 U s ({[r]} ∪ U)
      (mkExec (mkRunq (<[r := t]> (heap (rq s))) (sched (rq s))) (<[r := 1]> (arcs s)) (current s))
| step_start U s s' r :
    r ∈ U -> on_rq (sched_add_task r) s = Ret (tt, s') -> exec_step 1 U s (U ∖ {[r]}) s'
| step_block U s s' :
    current s <> 0 ->
    view s (current s) <> Some Zombie ->
    task_set_state (current s) Blocking s = Ret (tt, s') -> exec_step 0 U s U s'
| step_exit U s s' :
    current s <> 0 ->
    task_set_state (current s) Zombie s = Ret (tt, s') -> exec_step 0 U s U s'
| step_join U s s' target p :
    current s <> 0 ->
    view s (current s) <> Some Zombie ->
    join_poll target (current s) s = Ret (p, s') -> exec_step 0 U s U s'
| step_tick U s s' :
    on_timer_tick s = Ret (tt, s') -> exec_step 0 U s U s'
| step_finish U s s' t res out :
    current s <> 0 -> heap (rq s) !! current s = Some t ->
    run_task2 res s = Ret (out, s') ->
    exec_step (1 + zlen (wait_wakers (inner t))) U s U s'
| step_clone U s s' r :
    task_arc_clone r s = Ret (tt, s') -> exec_step 0 U s U s'
| step_drop U s s' r k :
    arcs s !! r = Some k -> (exec_owns s r -> 2 <= k) ->
    task_arc_drop r s = Ret (tt, s') -> exec_step 0 U s (if k =? 1 then U ∖ {[r]} else U) s'.

Inductive exec_run (s0 : exec) : Z -> gset Z -> exec -> Prop :=
| run_refl : exec_run s0 0 ∅ s0
| run_step n k U s U' s' : exec_run s0 n U s -> exec_step k U s U' s' -> exec_run s0 (n + k) U' s'.

Definition exec_init : exec := mkExec (mkRunq ∅ CFScheduler_new) ∅ 0.

(** ** Kinds of update *)

Definition with_heap (h : gmap Z Task) (s : exec) : exec :=
  mkExec (mkRunq h (sched (rq s))) (arcs s) (current s).

Lemma view_insert s r t h c q a r' :
  h = <[r := t]> (heap (rq s)) ->
  view (mkExec (mkRunq h q) a c) r' = if r' =? r then Some (state (inner t)) else view s r'.
Proof.
  intros ->. unfold view. cbn. destruct (Z.eqb_spec r' r) as [->|].
  - by rewrite lookup_insert_eq.
  - by rewrite lookup_insert_ne.
Qed.

Lemma inv_current_other {U} n s r st : exec_inv U n s -> current s = r \/ current s = 0 ->
  forall r', r' <> r -> view s r' = Some st -> on_cpu st = false.
Proof.
  intros Hi Hc r' Hne Hv. destruct (on_cpu st) eqn:E; [|done].
  pose proof (ei_run n s Hi r' st Hv E) as Hr. destruct Hc as [Hc|Hc]; [congruence|].
  rewrite Hr in Hc. subst r'. rewrite (ei_null n s Hi) in Hv. done.
Qed.

(** A task changes its state to one that is queued exactly when the old one
    was, and the current task becomes [c]. *)
Lemma inv_update {U} n s r t0 t c : exec_inv U n s -> heap (rq s) !! r = Some t0 ->
  (state (inner t) = Runnable <-> state (inner t0) = Runnable) ->
  (on_cpu (state (inner t)) = true -> c = r) ->
  (c = current s \/ current s = r \/ current s = 0) ->
  (c = r /\ curr_ok (state (inner t)) = true \/ c = 0 \/ c = current s /\ c <> r) ->
  exec_inv U n (mkExec (mkRunq (<[r := t]> (heap (rq s))) (sched (rq s))) (arcs s) c).
Proof.
  intros Hi Ht Hq Hcpu Hother Hc. pose proof (ei_sched n s Hi) as Hs.
  assert (view s r = Some (state (inner t0))) as Hv by (unfold view; by rewrite Ht).
  assert (r <> 0) as Hr0 by (intros ->; rewrite (ei_null n s Hi) in Hv; done).
  pose proof (fun r' => view_insert s r t _ c (sched (rq s)) (arcs s) r' eq_refl) as Hview.
  constructor.
  - destruct Hs as [H1 H2 H3 H4 H5]. constructor; cbn; [done..|].
    intros k x Hx. apply lookup_insert_is_Some'. right. by apply (H5 k).
  - exact (ei_pool n s Hi).
  - exact (ei_nodup n s Hi).
  - intros r'. rewrite Hview. pose proof (ei_queue n s Hi r') as Hr'. cbn in *.
    destruct (Z.eqb_spec r' r) as [->|]; [|done].
    unfold refs in *. cbn. rewrite Hr', Hv. split; intros [[=] ?]; (split; [f_equal; tauto|done]).
  - intros r' Hr'. rewrite Hview. pose proof (ei_made n s Hi r' Hr') as Hm.
    destruct (Z.eqb_spec r' r) as [->|]; [|done]. rewrite Hv in Hm. injection Hm as Hm. f_equal. tauto.
  - intros r' st. rewrite Hview. cbn. destruct (Z.eqb_spec r' r) as [->|Hne].
    + intros [= <-]. exact Hcpu.
    + intros Hv' Hon. destruct Hother as [->|Ho]; [by apply (ei_run n s Hi r' st)|].
      rewrite (inv_current_other n s r st Hi Ho r' Hne Hv') in Hon. done.
  - cbn. intros Hc0. rewrite Hview. destruct (Z.eqb_spec c r) as [->|Hne].
    + destruct Hc as [[_ Hc]|[?|[_ ?]]]; [eauto|done|done].
    + destruct Hc as [[? _]|[?|[-> _]]]; [done|done|]. by apply (ei_cur n s Hi).
  - rewrite Hview. destruct (Z.eqb_spec 0 r); [done|]. apply (ei_null n s Hi).
  - intros r'. rewrite Hview. cbn. pose proof (ei_arcs n s Hi r') as Ha.
    destruct (Z.eqb_spec r' r) as [->|]; [|done]. by rewrite Hv in Ha.
Qed.

(** A task that is not queued becomes runnable and is queued. *)
Lemma inv_queue {U} n s r t0 t v m c : exec_inv U n s -> n + 1 < isize_max ->
  heap (rq s) !! r = Some t0 -> r ∉ refs s -> state (inner t) = Runnable ->
  (c = current s /\ c <> r \/ current s = r /\ c = 0) ->
  exec_inv (U ∖ {[r]}) (n + 1)
    (mkExec (mkRunq (<[r := t]> (heap (rq s)))
       (mkSched (bt_insert (v, id_pool (sched (rq s))) r (ready_queue (sched (rq s)))) m
         (wrap_isize (id_pool (sched (rq s)) + 1)))) (arcs s) c).
Proof.
  intros Hi Hn Ht Hnin Hst Hc. pose proof (ei_sched n s Hi) as Hs.
  pose proof (ei_pool n s Hi) as Hp. pose proof (so_pool _ Hs) as Hp0.
  assert (view s r = Some (state (inner t0))) as Hv by (unfold view; by rewrite Ht).
  assert (r <> 0) as Hr0 by (intros ->; rewrite (ei_null n s Hi) in Hv; done).
  set (q' := mkSched _ _ _). set (s' := mkExec _ _ _).
  assert (refs s' ≡ₚ r :: refs s) as Hrefs.
  { unfold refs. cbn. rewrite (insert_perm _ _ _ (fresh_get (rq s) v Hs)). done. }
  pose proof (fun r' => view_insert s r t _ c q' (arcs s) r' eq_refl) as Hview. fold s' in Hview.
  constructor.
  - apply enqueue_ok; [done|lia].
  - cbn. rewrite wrap_isize_range by (unfold isize_min; lia). lia.
  - rewrite Hrefs. apply list.NoDup_cons. split; [done|]. apply (ei_nodup n s Hi).
  - intros r'. rewrite Hrefs, Hview, elem_of_cons, (ei_queue n s Hi r').
    destruct (Z.eqb_spec r' r) as [->|]; [rewrite Hst; set_solver|set_solver].
  - intros r' [Hr' Hne%not_elem_of_singleton]%elem_of_difference. rewrite Hview.
    destruct (Z.eqb_spec r' r); [done|]. by apply (ei_made n s Hi).
  - intros r' st. rewrite Hview. destruct (Z.eqb_spec r' r) as [->|Hne].
    + intros [= <-]. by rewrite Hst.
    + intros Hv' Hon. destruct Hc as [[-> _]|[Hc ->]]; [by apply (ei_run n s Hi r' st)|].
      rewrite (inv_current_other n s r st Hi (or_introl Hc) r' Hne Hv') in Hon. done.
  - cbn. intros Hc0. destruct Hc as [[-> Hne]|[_ ->]]; [|done].
    rewrite Hview. destruct (Z.eqb_spec (current s) r); [done|]. by apply (ei_cur n s Hi).
  - rewrite Hview. destruct (Z.eqb_spec 0 r); [done|]. apply (ei_null n s Hi).
  - intros r'. rewrite Hview. cbn. pose proof (ei_arcs n s Hi r') as Ha.
    destruct (Z.eqb_spec r' r) as [->|]; [|done]. by rewrite Hv in Ha.
Qed.

Lemma inv_enqueue {U} n s r t0 t v m c : exec_inv U n s -> n + 1 < isize_max ->
  heap (rq s) !! r = Some t0 -> state (inner t0) <> Runnable -> state (inner t) = Runnable ->
  (c = current s /\ c <> r \/ current s = r /\ c = 0) ->
  exec_inv U (n + 1)
    (mkExec (mkRunq (<[r := t]> (heap (rq s)))
       (mkSched (bt_insert (v, id_pool (sched (rq s))) r (ready_queue (sched (rq s)))) m
         (wrap_isize (id_pool (sched (rq s)) + 1)))) (arcs s) c).
Proof.
  intros Hi Hn Ht Hst0 Hst Hc.
  assert (view s r <> Some Runnable) as Hv by (unfold view; rewrite Ht; cbn; congruence).
  assert (r ∉ U) as Hu by (intros H%(ei_made n s Hi); done).
  replace U with (U ∖ {[r]}) by set_solver. apply (inv_queue n s r t0); try done.
  rewrite (ei_queue n s Hi r). tauto.
Qed.

(** A strong count changes to another positive value. *)
Lemma inv_arcs {U} n s r k : exec_inv U n s -> is_Some (view s r) -> 1 <= k ->
  exec_inv U n (mkExec (rq s) (<[r := k]> (arcs s)) (current s)).
Proof.
  intros Hi [st Hv] Hk. constructor; try apply Hi.
  intros r'. change (view _ r') with (view s r'). cbn. pose proof (ei_arcs n s Hi r') as Ha.
  destruct (decide (r' = r)) as [->|].
  - rewrite Hv, lookup_insert_eq. eauto.
  - by rewrite lookup_insert_ne.
Qed.

(** A task the executor does not hold is freed. *)
Lemma inv_free {U} n s r : exec_inv U n s -> ~ exec_owns s r ->
  exec_inv (U ∖ {[r]}) n (mkExec (mkRunq (delete r (heap (rq s))) (sched (rq s)))
                (delete r (arcs s)) (current s)).
Proof.
  intros Hi Ho. unfold exec_owns in Ho. pose proof (ei_sched n s Hi) as Hs.
  set (s' := mkExec _ _ _).
  assert (forall r', view s' r' = if r' =? r then None else view s r') as Hview.
  { intros r'. unfold view, s'. cbn. destruct (Z.eqb_spec r' r) as [->|].
    - by rewrite lookup_delete_eq.
    - by rewrite lookup_delete_ne. }
  constructor.
  - destruct Hs as [H1 H2 H3 H4 H5]. constructor; cbn; [done..|].
    intros k x Hx. rewrite lookup_delete_ne; [by apply (H5 k)|].
    intros ->. apply Ho. left. unfold refs. apply list_elem_of_fmap. by exists (k, x).
  - exact (ei_pool n s Hi).
  - exact (ei_nodup n s Hi).
  - intros r'. rewrite Hview. change (refs s') with (refs s).
    pose proof (ei_queue n s Hi r') as Hq. destruct (Z.eqb_spec r' r) as [->|]; [naive_solver|set_solver].
  - intros r' [Hr' Hne%not_elem_of_singleton]%elem_of_difference. rewrite Hview.
    destruct (Z.eqb_spec r' r); [done|]. by apply (ei_made n s Hi).
  - intros r' st. rewrite Hview. destruct (Z.eqb_spec r' r); [done|]. apply (ei_run n s Hi).
  - intros Hc. rewrite Hview. cbn in *. destruct (Z.eqb_spec (current s) r); [tauto|].
    by apply (ei_cur n s Hi).
  - rewrite Hview. destruct (Z.eqb_spec 0 r); [done|]. apply (ei_null n s Hi).
  - intros r'. rewrite Hview. cbn. pose proof (ei_arcs n s Hi r') as Ha.
    destruct (Z.eqb_spec r' r) as [->|].
    + by rewrite lookup_delete_eq.
    + by rewrite lookup_delete_ne.
Qed.

(** ** Operations as updates *)

Lemma inv_weaken {U} n m s : exec_inv U n s -> n <= m -> exec_inv U m s.
Proof. intros [H1 H2 H3 H4 H5 H6 H7 H8 H9] Hm. constructor; [done|lia|done..]. Qed.

Definition put_inner (x : TaskControlBlock) (t : Task) (r : Z) (s : exec) : exec :=
  mkExec (mkRunq (<[r := set_inner x t]> (heap (rq s))) (sched (rq s))) (arcs s) (current s).

Lemma view_put s x t r : view (put_inner x t r s) r = Some (state x).
Proof. unfold put_inner. by rewrite (view_insert s r _ _ _ _ _ r eq_refl), Z.eqb_refl. Qed.

Lemma tcb_update_eq s r f t : heap (rq s) !! r = Some t ->
  tcb_update r f s = Ret (tt, put_inner (f (inner t)) t r s).
Proof.
  intros Ht. unfold tcb_update, exec_task, on_rq, task_at, task_put. st_unfold. cbn.
  by rewrite Ht.
Qed.

Lemma tcb_update_None s r f : heap (rq s) !! r = None -> tcb_update r f s = Panic.
Proof.
  intros Ht. unfold tcb_update, exec_task, on_rq, task_at. st_unfold. cbn. by rewrite Ht.
Qed.

Lemma tcb_update_inv s r f u s' : tcb_update r f s = Ret (u, s') ->
  exists t, heap (rq s) !! r = Some t /\ s' = put_inner (f (inner t)) t r s.
Proof.
  destruct (heap (rq s) !! r) as [t|] eqn:E.
  - rewrite (tcb_update_eq s r f t E). intros [= <- <-]. eauto.
  - by rewrite tcb_update_None.
Qed.

Lemma exec_task_eq s r t : heap (rq s) !! r = Some t -> exec_task r s = Ret (t, s).
Proof.
  intros Ht. unfold exec_task, on_rq, task_at. cbv beta. rewrite Ht. by destruct s as [[] ? ?].
Qed.

Lemma exec_task_inv s r t s' : exec_task r s = Ret (t, s') ->
  heap (rq s) !! r = Some t /\ s' = s.
Proof.
  unfold exec_task, on_rq, task_at. cbv beta. destruct (heap (rq s) !! r); [|done].
  intros [= <- <-]. by destruct s as [[] ? ?].
Qed.

Lemma task_arc_count_inv s r k s' : task_arc_count r s = Ret (k, s') -> arcs s !! r = Some k /\ s' = s.
Proof. unfold task_arc_count. destruct (arcs s !! r); [|done]. by intros [= <- <-]. Qed.

(** A field other than the state changes. *)
Lemma inv_same_state {U} n s r t x : exec_inv U n s -> heap (rq s) !! r = Some t ->
  state x = state (inner t) -> exec_inv U n (put_inner x t r s).
Proof.
  intros Hi Ht Hx. assert (view s r = Some (state (inner t))) as Hv by (unfold view; by rewrite Ht).
  apply (inv_update n s r t); [done|done|cbn; by rewrite Hx| |by left|].
  - cbn. rewrite Hx. by apply (ei_run n s Hi).
  - cbn. rewrite Hx. destruct (decide (current s = 0)) as [->|Hc]; [by right; left|].
    destruct (decide (current s = r)) as [<-|]; [|by right; right].
    destruct (ei_cur n s Hi Hc) as (st & Hv' & Hok). left. split; [done|congruence].
Qed.

(** The current task leaves the CPU after it exited. *)
Lemma inv_clear {U} n s : exec_inv U n s -> view s (current s) = Some Zombie ->
  exec_inv U n (mkExec (rq s) (arcs s) 0).
Proof.
  intros Hi Hz. constructor; try apply Hi; [|done].
  intros r st Hv Hon. change (view s r = Some st) in Hv.
  pose proof (ei_run n s Hi r st Hv Hon) as <-. rewrite Hz in Hv. by injection Hv as <-.
Qed.

(** The first task of the queue becomes the current one. *)
Lemma inv_pick {U} n s k r q t : exec_inv U n s -> current s = 0 ->
  ready_queue (sched (rq s)) = (k, r) :: q -> heap (rq s) !! r = Some t ->
  exec_inv U n (mkExec (mkRunq (<[r := set_inner (tcb_set_state Running (inner t)) t]> (heap (rq s)))
      (mkSched q (min_vruntime (sched (rq s))) (id_pool (sched (rq s))))) (arcs s) r).
Proof.
  intros Hi Hc Hq Ht. pose proof (ei_sched n s Hi) as [H1 H2 H3 H4 H5].
  assert (refs s = r :: (snd <$> q)) as Hrefs by (unfold refs; by rewrite Hq).
  pose proof (ei_nodup n s Hi) as Hnd. rewrite Hrefs in Hnd.
  apply list.NoDup_cons in Hnd as [Hnin Hnd].
  assert (view s r = Some (state (inner t))) as Hv by (unfold view; by rewrite Ht).
  assert (r <> 0) as Hr0 by (intros ->; rewrite (ei_null n s Hi) in Hv; done).
  rewrite Hq in *. unfold qids in *. rewrite Hq in *. cbn in H2, H3.
  apply list.NoDup_cons in H3 as [_ H3]. set (q' := mkSched _ _ _). set (t' := set_inner _ _).
  pose proof (fun r' => view_insert s r t' _ r q' (arcs s) r' eq_refl) as Hview.
  constructor.
  - destruct k. apply sorted_cons in H1 as [_ H1].
    constructor; cbn; [done|intros i Hin; apply H2; set_solver|done|done|].
    intros k' x Hx. apply lookup_insert_is_Some'. right. apply (H5 k'). set_solver.
  - exact (ei_pool n s Hi).
  - exact Hnd.
  - intros r'. rewrite Hview. pose proof (ei_queue n s Hi r') as Hr'. rewrite Hrefs in Hr'.
    unfold refs. cbn. destruct (Z.eqb_spec r' r) as [->|]; [naive_solver|].
    rewrite <- Hr'. set_solver.
  - intros r' Hr'. rewrite Hview. destruct (Z.eqb_spec r' r) as [->|]; [|by apply (ei_made n s Hi)].
    destruct (ei_queue n s Hi r) as [Hq' _]. rewrite Hrefs in Hq'. destruct Hq' as [_ ?]; [set_solver|done].
  - intros r' st. rewrite Hview. destruct (Z.eqb_spec r' r) as [->|Hne]; [done|].
    intros Hv' Hon. rewrite (inv_current_other n s r st Hi (or_intror Hc) r' Hne Hv') in Hon. done.
  - intros _. rewrite Hview. cbn. rewrite Z.eqb_refl. eauto.
  - rewrite Hview. destruct (Z.eqb_spec 0 r); [done|]. apply (ei_null n s Hi).
  - intros r'. rewrite Hview. cbn. pose proof (ei_arcs n s Hi r') as Ha.
    destruct (Z.eqb_spec r' r) as [->|]; [|done]. by rewrite Hv in Ha.
Qed.

(** ** The operations keep the invariant *)

Lemma schedule_inv {U} n s o s' : exec_inv U n s -> schedule_next s = Ret (o, s') -> exec_inv U n s'.
Proof.
  intros Hi. unfold schedule_next, try_get. st_unfold. cbn.
  destruct (Z.eqb_spec (current s) 0) as [Hc|]; [|by intros [= _ <-]].
  unfold on_rq, sched_pick_next_task, set_sched. st_unfold. cbn.
  destruct (ready_queue (sched (rq s))) as [|[k r] q] eqn:Hq; cbn.
  - intros [= _ <-]. by destruct s as [[] ? ?].
  - set (s1 := mkExec _ _ _). unfold init_current, task_set_state. st_unfold.
    destruct (so_heap _ (ei_sched n s Hi) k r) as [t Ht]; [rewrite Hq; set_solver|].
    rewrite (tcb_update_eq s1 r _ t Ht). unfold set_current_task_ptr, current_get, try_get.
    st_unfold. cbn. destruct (Z.eqb_spec r 0); [done|]. intros [= _ <-].
    by apply (inv_pick n s k).
Qed.

Lemma wakeup_inv {U} n s r u s' : exec_inv U n s -> n + 1 < isize_max ->
  wakeup_task r s = Ret (u, s') -> exec_inv U (n + 1) s'.
Proof.
  intros Hi Hn. unfold wakeup_task. intros (t & s1 & [Ht ->]%exec_task_inv & H)%st_bind_Ret.
  assert (view s r = Some (state (inner t))) as Hv by (unfold view; by rewrite Ht).
  destruct (state (inner t)) eqn:Est; [injection H as _ <-; apply (inv_weaken n); [done|lia]
    |injection H as _ <-; apply (inv_weaken n); [done|lia]| |done| |done].
  - unfold task_set_state in H. rewrite (tcb_update_eq s r _ t Ht) in H. injection H as _ <-.
    apply (inv_weaken n); [|lia].
    pose proof (ei_run n s Hi r _ Hv eq_refl) as Hc.
    apply (inv_update n s r t); [done|done|by cbn; rewrite Est|by cbn|by left|by left].
  - unfold task_set_state in H. apply st_bind_Ret in H as (u' & s1 & H1 & H).
    rewrite (tcb_update_eq s r _ t Ht) in H1. injection H1 as _ <-.
    unfold on_rq in H. cbn in H.
    rewrite (add_task_eq _ r (set_inner (tcb_set_state Runnable (inner t)) t)) in H
      by (cbn; by rewrite lookup_insert_eq).
    injection H as _ <-. cbn. rewrite insert_insert_eq.
    apply (inv_enqueue n s r t); [done|done|done|by rewrite Est|done|]. left. split; [done|].
    intros Hc. destruct (decide (current s = 0)) as [H0|H0].
    + rewrite <- Hc, H0, (ei_null n s Hi) in Hv. done.
    + destruct (ei_cur n s Hi H0) as (st & Hv' & Hok). rewrite Hc, Hv in Hv'.
      by injection Hv' as <-.
Qed.

Lemma wake_list_inv {U} l : forall n s r u s', exec_inv U n s -> n + zlen l < isize_max ->
  wake_list r l s = Ret (u, s') -> exec_inv U (n + zlen l) s'.
Proof.
  induction l as [|w l IH]; intros n s r u s' Hi Hn H; cbn [wake_list] in H.
  - injection H as _ <-. apply (inv_weaken n); [done|]. unfold zlen. cbn. lia.
  - assert (zlen (w :: l) = 1 + zlen l) as Hz by (unfold zlen; cbn [length]; lia).
    pose proof (zlen_nonneg l). rewrite Hz in *.
    apply st_bind_Ret in H as (u1 & s1 & (t & Ht & ->)%tcb_update_inv & H).
    apply st_bind_Ret in H as (u2 & s2 & Hw & H).
    apply (wakeup_inv (U := U) n) in Hw; [|by apply inv_same_state|lia].
    replace (n + (1 + zlen l)) with (n + 1 + zlen l) by lia.
    apply (IH (n + 1) s2 r u s'); [done|lia|done].
Qed.

(** A new task, not yet queued. *)
Lemma inv_alloc {U} n s r t : exec_inv U n s -> r <> 0 -> heap (rq s) !! r = None ->
  state (inner t) = Runnable ->
  exec_inv ({[r]} ∪ U) n (mkExec (mkRunq (<[r := t]> (heap (rq s))) (sched (rq s)))
                (<[r := 1]> (arcs s)) (current s)).
Proof.
  intros Hi Hr0 Hn Hz. assert (view s r = None) as Hv by (unfold view; by rewrite Hn).
  pose proof (fun r' => view_insert s r t _ (current s) (sched (rq s)) (<[r := 1]> (arcs s))
                          r' eq_refl) as Hview. set (s' := mkExec _ _ _) in *.
  constructor.
  - destruct (ei_sched n s Hi) as [H1 H2 H3 H4 H5]. constructor; cbn; [done..|].
    intros k x Hx. apply lookup_insert_is_Some'. right. by apply (H5 k).
  - exact (ei_pool n s Hi).
  - exact (ei_nodup n s Hi).
  - intros r'. rewrite Hview. change (refs s') with (refs s). rewrite (ei_queue n s Hi).
    destruct (Z.eqb_spec r' r) as [->|]; [|set_solver]. rewrite Hv, Hz. set_solver.
  - intros r' Hr'. rewrite Hview. destruct (Z.eqb_spec r' r) as [->|]; [by rewrite Hz|].
    apply (ei_made n s Hi). set_solver.
  - intros r' st. rewrite Hview. destruct (Z.eqb_spec r' r) as [->|].
    + rewrite Hz. by intros [= <-].
    + apply (ei_run n s Hi).
  - cbn. intros Hc. rewrite Hview. destruct (Z.eqb_spec (current s) r) as [E|];
      [|by apply (ei_cur n s Hi)].
    destruct (ei_cur n s Hi Hc) as (st & Hv' & _). rewrite E, Hv in Hv'. done.
  - rewrite Hview. destruct (Z.eqb_spec 0 r); [done|]. apply (ei_null n s Hi).
  - intros r'. rewrite Hview. cbn. pose proof (ei_arcs n s Hi r') as Ha.
    destruct (Z.eqb_spec r' r) as [->|].
    + rewrite lookup_insert_eq. exists 1. split; [done|lia].
    + by rewrite lookup_insert_ne.
Qed.

(** The task that was made is queued. *)
Lemma start_inv {U} n s r u s' : exec_inv U n s -> n + 1 < isize_max -> r ∈ U ->
  on_rq (sched_add_task r) s = Ret (u, s') -> exec_inv (U ∖ {[r]}) (n + 1) s'.
Proof.
  intros Hi Hn Hu. pose proof (ei_made n s Hi r Hu) as Hv. unfold view in Hv.
  destruct (heap (rq s) !! r) as [t|] eqn:Ht; [|done]. injection Hv as Hst. unfold on_rq.
  rewrite (add_task_eq _ r t Ht). intros [= _ <-]. apply (inv_queue n s r t); [done|done|done| |done|].
  - rewrite (ei_queue n s Hi r). tauto.
  - left. split; [done|]. intros Hc. destruct (decide (current s = 0)) as [H0|H0].
    + pose proof (ei_made n s Hi r Hu) as Hv. rewrite <-Hc, H0, (ei_null n s Hi) in Hv. done.
    + destruct (ei_cur n s Hi H0) as (st & Hv & Hok). rewrite Hc, (ei_made n s Hi r Hu) in Hv. by injection Hv as <-.
Qed.

Lemma set_curr_inv {U} n s st u s' : exec_inv U n s -> current s <> 0 ->
  view s (current s) <> Some Runnable -> curr_ok st = true ->
  task_set_state (current s) st s = Ret (u, s') -> exec_inv U n s'.
Proof.
  intros Hi Hc Hnr Hok. unfold task_set_state. intros (t & Ht & ->)%tcb_update_inv.
  assert (view s (current s) = Some (state (inner t))) as Hv by (unfold view; by rewrite Ht).
  apply (inv_update n s (current s) t); [done|done| |done|by left|by left].
  cbn. split; [by intros ->|]. intros E. rewrite Hv, E in Hnr. done.
Qed.

Lemma curr_not_runnable {U} n s : exec_inv U n s -> current s <> 0 ->
  view s (current s) <> Some Runnable.
Proof. intros Hi Hc. destruct (ei_cur n s Hi Hc) as (st & -> & Hok). intros [= ->]. done. Qed.

Lemma join_inv {U} n s target p s' : exec_inv U n s -> current s <> 0 ->
  join_poll target (current s) s = Ret (p, s') -> exec_inv U n s'.
Proof.
  intros Hi Hc. unfold join_poll.
  intros (t & s1 & [Ht ->]%exec_task_inv & H)%st_bind_Ret.
  case_bool_decide; [by injection H as _ <-|].
  apply st_bind_Ret in H as (u & s1 & Hj & H). unfold task_join in Hj.
  apply st_bind_Ret in Hj as (u1 & s2 & Hs2 & (t2 & Ht2 & ->)%tcb_update_inv).
  apply (set_curr_inv (U := U) n) in Hs2; [|done|done|by apply (curr_not_runnable (U := U) n)|done].
  apply st_bind_Ret in H as (t3 & s3 & [_ ->]%exec_task_inv & H).
  assert (exec_inv U n (put_inner (tcb_set_wakers (wait_wakers (inner t2) ++ [current s]) (inner t2))
     t2 target s2)) by (by apply inv_same_state).
  case_bool_decide; by injection H as _ <-.
Qed.

Lemma tick_inv {U} n s u s' : exec_inv U n s -> on_timer_tick s = Ret (u, s') -> exec_inv U n s'.
Proof.
  intros Hi. unfold on_timer_tick, try_get. st_unfold. cbn [current].
  destruct (Z.eqb_spec (current s) 0) as [|Hc]; [by intros [= _ <-]|].
  destruct (ei_cur n s Hi Hc) as (st & Hv & _). unfold view in Hv.
  destruct (heap (rq s) !! current s) as [t|] eqn:Ht; [|done].
  unfold on_rq, sched_task_tick, task_at, task_put. st_unfold. rewrite Ht. cbn [heap sched].
  assert (exec_inv U n (mkExec (mkRunq (<[current s := cfs_task_tick t]> (heap (rq s)))
     (sched (rq s))) (arcs s) (current s))) as Hi'.
  { apply (inv_update n s (current s) t); [done|done|done| |by left|].
    - done.
    - destruct (ei_cur n s Hi Hc) as (st' & Hv' & Hok). left. split; [done|].
      unfold view in Hv'. rewrite Ht in Hv'. by injection Hv' as <-. }
  destruct (min_vruntime (sched (rq s))) as [m|].
  - destruct (get_vruntime (cfs_task_tick t)) as [v|]; [|done].
    destruct (m <? v); [|by intros [= _ <-]].
    intros (t2 & Ht2 & ->)%tcb_update_inv. by apply inv_same_state.
  - intros (t2 & Ht2 & ->)%tcb_update_inv. by apply inv_same_state.
Qed.

Lemma clean_current_eq s k : current s <> 0 -> arcs s !! current s = Some k ->
  clean_current s = Ret (tt,
    if k =? 1 then mkExec (mkRunq (delete (current s) (heap (rq s))) (sched (rq s)))
                     (delete (current s) (arcs s)) 0
    else mkExec (rq s) (<[current s := k - 1]> (arcs s)) 0).
Proof.
  intros Hc Hk. unfold clean_current, current_get, try_get, set_current_task_ptr. st_unfold.
  destruct (Z.eqb_spec (current s) 0); [done|]. unfold task_arc_drop, task_arc_count. st_unfold.
  rewrite Hk. destruct (k =? 1); done.
Qed.

Lemma clean_zombie_inv {U} n s u s' : exec_inv U n s -> view s (current s) = Some Zombie ->
  clean_current s = Ret (u, s') -> exec_inv U n s'.
Proof.
  intros Hi Hz. pose proof (inv_clear n s Hi Hz) as Hi0.
  assert (current s <> 0) as Hc by (intros E; rewrite E, (ei_null n s Hi) in Hz; done).
  pose proof (ei_arcs n s Hi (current s)) as Ha. rewrite Hz in Ha. destruct Ha as (k & Hk & Hk1).
  rewrite (clean_current_eq s k Hc Hk). intros [= _ <-]. destruct (Z.eqb_spec k 1).
  - assert (current s ∉ U) as Hu by (intros Hu%(ei_made n s Hi); congruence).
    replace U with (U ∖ {[current s]}) by set_solver.
    apply (inv_free n _ (current s) Hi0). intros [Hin|[?|Hb]]; [|done|].
    + apply (ei_queue n _ Hi0) in Hin as [Hin _]. change (view s (current s) = Some Runnable) in Hin. congruence.
    + change (view s (current s) = Some Blocked) in Hb. congruence.
  - apply (inv_arcs n _ (current s) (k - 1) Hi0); [|lia].
    change (is_Some (view s (current s))). rewrite Hz. eauto.
Qed.

(** An exited task is not woken: the other tasks are woken around it. *)
Lemma wakeup_zombie s r w u s' : view s r = Some Zombie -> wakeup_task w s = Ret (u, s') ->
  view s' r = Some Zombie /\ current s' = current s.
Proof.
  intros Hz. unfold wakeup_task. intros (t & s1 & [Ht ->]%exec_task_inv & H)%st_bind_Ret.
  assert (view s w = Some (state (inner t))) as Hv by (unfold view; by rewrite Ht).
  assert (state (inner t) <> Zombie -> r <> w) as Hne by (intros ? ->; congruence).
  destruct (state (inner t)) eqn:Est; [by injection H as _ <-|by injection H as _ <-| |done| |done].
  - unfold task_set_state in H. rewrite (tcb_update_eq s w _ t Ht) in H. injection H as _ <-.
    split; [|done]. unfold put_inner. rewrite (view_insert s w _ _ _ _ _ r eq_refl).
    destruct (Z.eqb_spec r w); [by apply Hne in e|done].
  - unfold task_set_state in H. apply st_bind_Ret in H as (u' & s1 & H1 & H).
    rewrite (tcb_update_eq s w _ t Ht) in H1. injection H1 as _ <-. unfold on_rq in H. cbn in H.
    rewrite (add_task_eq _ w (set_inner (tcb_set_state Runnable (inner t)) t)) in H
      by (cbn; by rewrite lookup_insert_eq).
    injection H as _ <-. split; [|done]. cbn. rewrite insert_insert_eq.
    rewrite (view_insert s w _ _ _ _ _ r eq_refl).
    destruct (Z.eqb_spec r w); [by apply Hne in e|done].
Qed.

Lemma wake_list_zombie l : forall s r u s', view s r = Some Zombie ->
  wake_list r l s = Ret (u, s') -> view s' r = Some Zombie /\ current s' = current s.
Proof.
  induction l as [|w l IH]; intros s r u s' Hz H; cbn [wake_list] in H.
  - by injection H as _ <-.
  - apply st_bind_Ret in H as (u1 & s1 & (t & Ht & ->)%tcb_update_inv & H).
    apply st_bind_Ret in H as (u2 & s2 & Hw & H).
    assert (view s r = Some (state (inner t))) as Hv by (unfold view; by rewrite Ht).
    apply (wakeup_zombie _ r) in Hw as [Hw Hc].
    + apply IH in H as [H Hc']; [|done]. split; [done|]. by rewrite Hc', Hc.
    + unfold put_inner. rewrite (view_insert s r _ _ _ _ _ r eq_refl), Z.eqb_refl. cbn. congruence.
Qed.

Lemma current_get_inv s r s' : current_get s = Ret (r, s') ->
  r = current s /\ s' = s /\ current s <> 0.
Proof.
  unfold current_get, try_get. st_unfold. destruct (Z.eqb_spec (current s) 0); [done|].
  by intros [= <- <-].
Qed.

Lemma wake_all_inv {U} n s t u s' : exec_inv U n s -> heap (rq s) !! current s = Some t ->
  state (inner t) = Zombie -> n + zlen (wait_wakers (inner t)) < isize_max ->
  wake_all_waiters (current s) s = Ret (u, s') ->
  exec_inv U (n + zlen (wait_wakers (inner t))) s' /\
  view s' (current s') = Some Zombie.
Proof.
  intros Hi Ht Hz Hn. unfold wake_all_waiters.
  intros (t1 & s1 & [Ht1 ->]%exec_task_inv & Hw)%st_bind_Ret. rewrite Ht in Ht1.
  injection Ht1 as <-. split; [by apply (wake_list_inv (U := U) _ n) in Hw|].
  apply wake_list_zombie in Hw as [Hv ->]; [done|]. unfold view. rewrite Ht. cbn. by rewrite Hz.
Qed.

Lemma finish_ready_inv {U} n s t code out s' : exec_inv U n s ->
  heap (rq s) !! current s = Some t -> n + zlen (wait_wakers (inner t)) < isize_max ->
  run_task2 (Ready code) s = Ret (out, s') ->
  exec_inv U (n + zlen (wait_wakers (inner t))) s'.
Proof.
  intros Hi Ht Hn. unfold run_task2.
  intros (r & s0 & (-> & -> & Hc)%current_get_inv & H)%st_bind_Ret.
  apply st_bind_Ret in H as (u1 & s1 & Hset & H).
  pose proof Hset as Hi1. apply (set_curr_inv (U := U) n) in Hi1;
    [|done|done|by apply (curr_not_runnable (U := U) n)|done].
  unfold task_set_state in Hset. rewrite (tcb_update_eq s _ _ t Ht) in Hset.
  injection Hset as _ <-. apply st_bind_Ret in H as (u2 & s2 & Hw & H).
  apply (wake_all_inv (U := U) n (put_inner (tcb_set_state Zombie (inner t)) t (current s) s)
    (set_inner (tcb_set_state Zombie (inner t)) t)) in Hw as [Hi2 Hz2];
    [|done|by cbn; rewrite lookup_insert_eq|done|done].
  apply st_bind_Ret in H as (t3 & s3 & [_ ->]%exec_task_inv & H).
  destruct (is_init (inner t3)).
  - apply st_bind_Ret in H as (k & s4 & [_ ->]%task_arc_count_inv & H).
    unfold st_lift in H. apply st_bind_Ret in H as (u5 & s5 & H5 & H).
    destruct (rassert (k <=? 3)); [|done]. injection H5 as _ <-. by injection H as _ <-.
  - apply st_bind_Ret in H as (u4 & s4 & H4 & H). injection H as _ <-.
    by apply (clean_zombie_inv _ s2 u4).
Qed.

(** The current task yields: it is queued and its reference moves there. *)
Lemma yield_eq s t k v : current s <> 0 -> heap (rq s) !! current s = Some t ->
  arcs s !! current s = Some k -> 1 <= k ->
  get_vruntime t = Ret v ->
  let r := current s in
  let t' := set_inner (tcb_set_state Runnable (inner t)) t in
  (_ ← task_set_state r Runnable; _ ← task_arc_clone r;
   _ ← on_rq (sched_put_prev_task r); _ ← clean_current; mret RunNext) s =
  Ret (RunNext,
    mkExec (mkRunq (<[r := set_id (id_pool (sched (rq s))) t']> (heap (rq s)))
      (mkSched (bt_insert (v, id_pool (sched (rq s))) r (ready_queue (sched (rq s))))
         (min_vruntime (sched (rq s))) (wrap_isize (id_pool (sched (rq s)) + 1))))
      (arcs s) 0).
Proof.
  intros Hc Ht Hk Hk1 Hv r t'. unfold task_set_state, mbind, ST_bind.
  rewrite (tcb_update_eq s r _ t Ht). cbn beta iota. fold t'.
  unfold task_arc_clone, task_arc_count. st_unfold. cbn [arcs rq current put_inner].
  fold r in Hk. rewrite Hk. unfold on_rq. cbn [arcs rq current].
  rewrite (put_prev_eq _ r t' v); [|cbn; by rewrite lookup_insert_eq|done].
  cbn [arcs rq current heap sched].
  erewrite (clean_current_eq _ (k + 1)); [|exact Hc|cbn; by rewrite lookup_insert_eq].
  destruct (Z.eqb_spec (k + 1) 1); [lia|]. unfold put_inner. cbn [arcs rq current heap sched].
  rewrite !insert_insert_eq. replace (k + 1 - 1) with k by lia.
  rewrite (insert_id (arcs s)) by done. done.
Qed.

Lemma finish_pending_inv {U} n s t out s' : exec_inv U n s ->
  heap (rq s) !! current s = Some t -> n + 1 < isize_max ->
  run_task2 Pending s = Ret (out, s') -> exec_inv U (n + 1) s'.
Proof.
  intros Hi Ht Hn. unfold run_task2.
  intros (r & s0 & (-> & -> & Hc)%current_get_inv & H)%st_bind_Ret.
  apply st_bind_Ret in H as (t1 & s1 & [Ht1 ->]%exec_task_inv & H).
  rewrite Ht in Ht1. injection Ht1 as <-.
  assert (view s (current s) = Some (state (inner t))) as Hv by (unfold view; by rewrite Ht).
  pose proof (ei_arcs n s Hi (current s)) as Ha. rewrite Hv in Ha. destruct Ha as (k & Hk & Hk1).
  destruct (state (inner t)) eqn:Est; [|done| | |done|done].
  - destruct (is_trap_done _); [injection H as _ <-; apply (inv_weaken n); [done|lia]|].
    destruct (get_vruntime t) as [v|] eqn:Ev.
    + rewrite (yield_eq s t k v) in H by done. injection H as _ <-.
      apply (inv_enqueue n s (current s) t); [done|done|done|congruence|done|by right].
    + exfalso. apply st_bind_Ret in H as (u1 & s1 & (t1 & Ht1 & ->)%tcb_update_inv & H).
      rewrite Ht in Ht1. injection Ht1 as <-.
      apply st_bind_Ret in H as (u2 & s2 & Hcl & H). unfold task_arc_clone in Hcl.
      apply st_bind_Ret in Hcl as (j & s3 & [_ ->]%task_arc_count_inv & Hm). injection Hm as <- <-.
      apply st_bind_Ret in H as (u4 & s4 & Hput & _). unfold on_rq in Hput. cbn [rq] in Hput.
      rewrite (put_prev_panic _ _ (set_inner (tcb_set_state Runnable (inner t)) t)) in Hput;
        [done|apply lookup_insert_eq|exact Ev].
  - apply st_bind_Ret in H as (u1 & s1 & Hset & H). unfold task_set_state in Hset.
    rewrite (tcb_update_eq s _ _ t Ht) in Hset. injection Hset as _ <-. injection H as _ <-.
    apply (inv_weaken n); [|lia].
    apply (inv_update n s (current s) t); [done|done|by cbn; rewrite Est|done|by right; left|].
    right. by left.
  - apply st_bind_Ret in H as (u1 & s1 & Hset & H). injection H as _ <-.
    apply (inv_weaken n); [|lia]. apply (set_curr_inv (U := U) n) in Hset;
      [done|done|done|by apply (curr_not_runnable (U := U) n)|done].
Qed.

Lemma step_inv {U U'} n k s s' : exec_inv U n s -> n + k < isize_max -> exec_step k U s U' s' ->
  exec_inv U' (n + k) s'.
Proof.
  intros Hi Hn Hstep. pose proof (so_pool _ (ei_sched n s Hi)). pose proof (ei_pool n s Hi).
  destruct Hstep as [U s s' o Hs|U s s' r Hw|U s r t Hr0 Hnone Hst|U s s' r Hu Ha|U s s' Hc Hnz Hs|U s s' Hc Hs
    |U s s' target p Hc Hnz Hj|U s s' Ht|U s s' t res out Hc Ht Hr|U s s' r Hcl|U s s' r j Hk Ho Hd];
    rewrite ?Z.add_0_r.
  - by apply (schedule_inv n s o).
  - by apply (wakeup_inv (U := U) n s r tt).
  - by apply (inv_alloc n s r t).
  - by apply (start_inv n s r tt).
  - apply (set_curr_inv (U := U) n s Blocking tt); [done|done|by apply (curr_not_runnable (U := U) n)|done..].
  - apply (set_curr_inv (U := U) n s Zombie tt); [done|done|by apply (curr_not_runnable (U := U) n)|done..].
  - by apply (join_inv n s target p).
  - by apply (tick_inv n s tt).
  - pose proof (zlen_nonneg (wait_wakers (inner t))). destruct res as [code|].
    + apply (inv_weaken (n + zlen (wait_wakers (inner t)))); [|lia].
      apply (finish_ready_inv n s t code out); [done|done|lia|done].
    + apply (inv_weaken (n + 1)); [|lia]. apply (finish_pending_inv n s t out); [done|done|lia|done].
  - unfold task_arc_clone in Hcl. apply st_bind_Ret in Hcl as (j & s1 & [Hj ->]%task_arc_count_inv & Hm).
    injection Hm as <-. pose proof (ei_arcs n s Hi r) as Ha.
    destruct (view s r) eqn:Hv; [|congruence]. destruct Ha as (j' & Hj' & ?).
    apply inv_arcs; [done|by rewrite Hv|]. rewrite Hj in Hj'. injection Hj' as <-. lia.
  - unfold task_arc_drop in Hd. apply st_bind_Ret in Hd as (j' & s1 & [Hj ->]%task_arc_count_inv & Hm).
    rewrite Hk in Hj. injection Hj as <-. pose proof (ei_arcs n s Hi r) as Ha.
    destruct (view s r) eqn:Hv; [|congruence]. destruct Ha as (j' & Hj' & ?).
    rewrite Hk in Hj'. injection Hj' as <-. destruct (Z.eqb_spec j 1) as [->|].
    + injection Hm as <-. apply inv_free; [done|]. intros H2%Ho. lia.
    + injection Hm as <-. apply inv_arcs; [done|by rewrite Hv|lia].
Qed.

Lemma step_nonneg k U s U' s' : exec_step k U s U' s' -> 0 <= k.
Proof. destruct 1; try lia. pose proof (zlen_nonneg (wait_wakers (inner t))). lia. Qed.

Lemma init_inv : exec_inv ∅ 0 exec_init.
Proof.
  constructor; cbn; try done; try set_solver.
  - constructor; cbn; [apply SSorted_nil|set_solver|constructor|unfold isize_max; lia|set_solver].
  - constructor.
Qed.

Lemma wakeup_blocked_eq s r t : heap (rq s) !! r = Some t -> state (inner t) = Blocked ->
  exists s1, wakeup_task r s = Ret (tt, s1) /\ view s1 r = Some Runnable /\
    r ∈ refs s1 /\ arcs s1 = arcs s /\ current s1 = current s.
Proof.
  intros Ht Est. unfold wakeup_task, mbind, ST_bind. rewrite (exec_task_eq s r t Ht), Est.
  unfold task_set_state. rewrite (tcb_update_eq s r _ t Ht). unfold on_rq, put_inner. cbn [rq].
  rewrite (add_task_eq _ r (set_inner (tcb_set_state Runnable (inner t)) t))
    by apply lookup_insert_eq. cbv zeta. eexists. split; [done|]. split; [|split; [|done]].
  - unfold view. cbn [rq heap]. by rewrite lookup_insert_eq.
  - unfold refs. cbn [rq sched ready_queue]. apply list_elem_of_fmap.
    eexists. split; [|apply insert_elem]. done.
Qed.

(** A wake-up of a task that is blocked or was woken already. *)
Lemma wakeup_makes_runnable {U} n e r : exec_inv U n e -> n + 1 < isize_max ->
  view e r = Some Blocked \/ view e r = Some Runnable ->
  exists e', wakeup_task r e = Ret (tt, e') /\ exec_inv U (n + 1) e' /\ arcs e' = arcs e /\
    view e' r = Some Runnable /\ forall r', r' <> r -> view e' r' = view e r'.
Proof.
  intros Hi Hn Hv. assert (exists t, heap (rq e) !! r = Some t) as [t Ht]
    by (unfold view in Hv; destruct (heap (rq e) !! r); [by eexists|by destruct Hv]).
  assert (view e r = Some (state (inner t))) as Hst by (unfold view; by rewrite Ht).
  destruct Hv as [Hv|Hv]; rewrite Hv in Hst; injection Hst as Hst.
  - destruct (wakeup_blocked_eq e r t Ht (eq_sym Hst)) as (e' & Hw & Hv' & _ & Ha & _).
    exists e'. split; [done|]. split; [by apply (wakeup_inv (U := U) n e r tt)|]. split; [done|]. split; [done|].
    intros r' Hr. unfold wakeup_task, mbind, ST_bind in Hw. rewrite (exec_task_eq e r t Ht), <- Hst in Hw.
    unfold task_set_state in Hw. rewrite (tcb_update_eq e r _ t Ht) in Hw. unfold on_rq, put_inner in Hw. cbn [rq] in Hw.
    rewrite (add_task_eq _ r (set_inner (tcb_set_state Runnable (inner t)) t)) in Hw by apply lookup_insert_eq.
    injection Hw as <-. unfold view. cbn [rq heap]. by rewrite !lookup_insert_ne.
  - exists e. split; [|split; [by apply (inv_weaken n); [|lia]|done]].
    unfold wakeup_task, mbind, ST_bind. by rewrite (exec_task_eq e r t Ht), <- Hst.
Qed.

Lemma wake_runnable {U} l : forall n e, exec_inv U n e -> n + zlen l < isize_max ->
  (forall r, r ∈ l -> view e r = Some Blocked \/ view e r = Some Runnable) ->
  exists e', st_iter wakeup_task l e = Ret (tt, e') /\ exec_inv U (n + zlen l) e' /\
    arcs e' = arcs e /\ (forall r, r ∈ l -> view e' r = Some Runnable) /\
    forall r, r ∉ l -> view e' r = view e r.
Proof.
  induction l as [|x l IH]; intros n e Hi Hn Hl.
  - exists e. split; [done|]. split; [apply (inv_weaken n); [done|unfold zlen; cbn; lia]|]. set_solver.
  - rewrite zlen_cons in *. pose proof (zlen_nonneg l).
    destruct (wakeup_makes_runnable n e x Hi) as (e1 & Hw & Hi1 & Ha1 & Hv1 & Ho1);
      [lia|apply Hl; set_solver|].
    destruct (IH (n + 1) e1 Hi1) as (e2 & Hw2 & Hi2 & Ha2 & Hv2 & Ho2); [lia| |].
    { intros y Hy. destruct (decide (y = x)) as [->|]; [by right|]. rewrite Ho1 by done. apply Hl. set_solver. }
    exists e2. cbn [st_iter]. unfold mbind, ST_bind. rewrite Hw.
    split; [exact Hw2|]. split; [by replace (n + (1 + zlen l)) with (n + 1 + zlen l) by lia|].
    split; [congruence|]. split.
    + intros y Hy. destruct (decide (y ∈ l)) as [Hyl|Hyl]; [by apply Hv2|]. rewrite (Ho2 _ Hyl).
      apply elem_of_cons in Hy as [->|Hy]; done.
    + intros r Hr. rewrite Ho2, Ho1; [done|set_solver..].
Qed.

(** The poll of a blocking task returned [Pending]. *)
Lemma run_task2_blocking s t : current s <> 0 -> heap (rq s) !! current s = Some t ->
  state (inner t) = Blocking ->
  run_task2 Pending s = Ret (RunNext,
    mkExec (rq (put_inner (tcb_set_state Blocked (inner t)) t (current s) s)) (arcs s) 0).
Proof.
  intros Hc Ht Hb. unfold run_task2, current_get, try_get, task_set_state,
    clean_current_without_drop. st_unfold.
  destruct (Z.eqb_spec (current s) 0); [done|]. rewrite (exec_task_eq s _ _ Ht), Hb.
  cbv beta iota. rewrite (tcb_update_eq s _ _ _ Ht). reflexivity.
Qed.

(** ** Theorems *)

Lemma run_inv n U s : exec_run exec_init n U s -> n < isize_max -> exec_inv U n s.
Proof.
  induction 1 as [|n k U s U' s' Hrun IH Hstep]; intros Hn; [apply init_inv|].
  pose proof (step_nonneg k U s U' s' Hstep). apply (step_inv n k s s' (IH ltac:(lia)) Hn Hstep).
Qed.

(** C1: In every state the executor reaches from boot, whatever the polled
    futures do (wake, spawn, block, exit, join, clone and drop references in
    any order, make a task and queue it later or never, as a [clone] that
    fails at its end), the task states agree with where the tasks are: the
    runnable tasks are exactly the ready queue, without duplicates, and the
    tasks [U] that were made and not queued; a running,
    blocking or woken task is the current one, and the current task is in one
    of these states or has exited; every task the executor holds is
    allocated.  The bound is the number of queue insertions that the
    scheduler's counter can number. *)
Theorem exec_reachable_inv n U s : exec_run exec_init n U s -> n < isize_max -> exec_inv U n s.
Proof. apply run_inv. Qed.

(** When the poll of a task that has not exited returns [Pending],
    [run_task2] never reaches one of its panics: a running task with a
    finished trap goes to user mode, another running task goes to the ready
    queue, a blocking one becomes blocked and leaves the CPU, and one that was
    woken meanwhile stays current and runs on. *)
Theorem run_task2_pending n U s t v : exec_inv U n s -> current s <> 0 ->
  heap (rq s) !! current s = Some t -> state (inner t) <> Zombie ->
  get_vruntime t = Ret v ->
  exists out s', run_task2 Pending s = Ret (out, s') /\
    match state (inner t) with
    | Running =>
        if is_trap_done (trap_status (inner t)) then out = RunUser /\ s' = s
        else out = RunNext /\ current s' = 0 /\ refs s' ≡ₚ current s :: refs s
    | Blocking =>
        out = RunNext /\ current s' = 0 /\ view s' (current s) = Some Blocked /\
        refs s' = refs s
    | Waked =>
        out = RunNext /\ current s' = current s /\
        view s' (current s) = Some Running /\ refs s' = refs s
    | _ => False
    end.
Proof.
  intros Hi Hc Ht Hnz Hv. assert (view s (current s) = Some (state (inner t))) as Hvw
    by (unfold view; by rewrite Ht).
  destruct (ei_cur n s Hi Hc) as (st & Hst & Hok). rewrite Hvw in Hst. injection Hst as <-.
  pose proof (ei_arcs n s Hi (current s)) as Ha. rewrite Hvw in Ha. destruct Ha as (k & Hk & Hk1).
  assert (current_get s = Ret (current s, s)) as Hg.
  { unfold current_get, try_get. st_unfold. by destruct (Z.eqb_spec (current s) 0). }
  unfold run_task2. unfold mbind at 1, ST_bind at 1. rewrite Hg.
  unfold mbind at 1, ST_bind at 1. rewrite (exec_task_eq s _ t Ht).
  destruct (state (inner t)) eqn:Est; try done.
  - destruct (is_trap_done _); [by do 2 eexists|].
    rewrite (yield_eq s t k v) by done. do 2 eexists. split; [done|]. split; [done|].
    split; [done|]. unfold refs. cbn.
    by rewrite (insert_perm _ _ _ (fresh_get (rq s) v (ei_sched n s Hi))).
  - unfold task_set_state, mbind, ST_bind. rewrite (tcb_update_eq s _ _ t Ht).
    do 2 eexists. split; [done|]. split; [done|]. split; [done|]. split; [|done].
    exact (view_put s _ t (current s)).
  - unfold task_set_state, mbind, ST_bind. rewrite (tcb_update_eq s _ _ t Ht).
    do 2 eexists. split; [done|]. split; [done|]. split; [done|]. split; [|done].
    exact (view_put s _ t (current s)).
Qed.

(** C17: A wake-up is not lost: waking a task that has been queued since it was
    made and is neither woken already nor exited succeeds; a blocked task is in the ready queue afterwards, a
    runnable one stays there, and a task that is still on the CPU on its way
    to block keeps the CPU, running, when its poll returns [Pending]. *)
Theorem wakeup_not_lost n U s r t : exec_inv U n s -> n + 1 < isize_max -> r ∉ U ->
  heap (rq s) !! r = Some t -> state (inner t) <> Waked -> state (inner t) <> Zombie ->
  exists s1, wakeup_task r s = Ret (tt, s1) /\ exec_inv U (n + 1) s1 /\
    match state (inner t) with
    | Blocking => exists s2, run_task2 Pending s1 = Ret (RunNext, s2) /\
        current s2 = r /\ view s2 r = Some Running
    | Running => s1 = s /\ current s1 = r
    | _ => r ∈ refs s1 /\ view s1 r = Some Runnable
    end.
Proof.
  intros Hi Hn Hu Ht Hnw Hnz.
  assert (view s r = Some (state (inner t))) as Hv by (unfold view; by rewrite Ht).
  assert (exists s1, wakeup_task r s = Ret (tt, s1)) as [s1 H1].
  { destruct (state (inner t)) eqn:Est; [| | |done| |done].
    4: { destruct (wakeup_blocked_eq s r t Ht Est) as (s1 & H1 & _). by exists s1. }
    all: unfold wakeup_task, mbind, ST_bind; rewrite (exec_task_eq s r t Ht), Est.
    1, 2: by eexists.
    unfold task_set_state. rewrite (tcb_update_eq s r _ t Ht). by eexists. }
  pose proof (wakeup_inv n s r tt s1 Hi Hn H1) as Hi1.
  exists s1. split; [done|]. split; [done|]. pose proof H1 as H2. revert H2.
  unfold wakeup_task at 1. unfold mbind at 1, ST_bind at 1. rewrite (exec_task_eq s r t Ht).
  destruct (state (inner t)) eqn:Est; try done.
  - intros [= <-]. split; [done|]. by apply (ei_run n s Hi r Running).
  - intros [= <-]. split; [by apply (ei_queue n s Hi)|done].
  - unfold task_set_state. rewrite (tcb_update_eq s r _ t Ht). intros [= <-].
    pose proof (ei_run n s Hi r Blocking Hv eq_refl) as Hc.
    assert (r <> 0) by (intros ->; rewrite (ei_null n s Hi) in Hv; done).
    unfold run_task2, current_get, try_get, task_set_state. st_unfold. cbn [current put_inner].
    rewrite Hc. destruct (Z.eqb_spec r 0); [done|].
    set (t1 := set_inner (tcb_set_state Waked (inner t)) t). set (s1 := put_inner _ _ _ _) in *.
    assert (heap (rq s1) !! r = Some t1) as Ht1 by apply lookup_insert_eq.
    rewrite (exec_task_eq s1 r t1 Ht1). change (state (inner t1)) with Waked. cbv beta iota.
    rewrite (tcb_update_eq s1 r _ t1 Ht1). eexists. split; [done|]. split; [exact Hc|].
    exact (view_put s1 _ t1 r).
  - intros _. destruct (wakeup_blocked_eq s r t Ht Est) as (s2 & H2 & Hv2 & _).
    rewrite H1 in H2. injection H2 as <-. split; [by apply (ei_queue _ _ Hi1)|done].
Qed.

(** A run: task 1 is spawned, scheduled, blocks, leaves the CPU and is
    woken. *)
Definition task1 : Task :=
  CFSTask_new (TaskControlBlock_new 1 false true 1 0 None false TrapBlocked).

Definition after {A} (m : ST exec A) (s : exec) : exec :=
  match m s with Ret (_, s') => s' | Panic => s end.

Definition ex_spawned : exec :=
  after (on_rq (sched_add_task 1))
    (mkExec (mkRunq (<[1 := task1]> ∅) CFScheduler_new) (<[1 := 1]> ∅) 0).
Definition ex_running : exec := after schedule_next ex_spawned.
Definition ex_blocking : exec := after (task_set_state 1 Blocking) ex_running.

Lemma ex_running_run : exec_run exec_init 1 ∅ ex_running.
Proof.
  apply (run_step _ 1 0 ∅ ex_spawned); [|apply (step_schedule _ _ _ (Some 1)); vm_compute; reflexivity].
  replace (∅ : gset Z) with (({[1]} ∪ ∅) ∖ {[1]} : gset Z) by set_solver.
  apply (run_step _ 0 1 ({[1]} ∪ ∅) (mkExec (mkRunq (<[1 := task1]> ∅) CFScheduler_new) (<[1 := 1]> ∅) 0)).
  - apply (run_step _ 0 0 ∅ exec_init); [apply run_refl|]. by apply (step_make ∅ exec_init 1 task1).
  - apply step_start; [set_solver|vm_compute; reflexivity].
Qed.

Lemma ex_blocking_run : exec_run exec_init 1 ∅ ex_blocking.
Proof.
  apply (run_step _ 1 0 ∅ ex_running); [exact ex_running_run|].
  apply step_block; [done|vm_compute; congruence|vm_compute; reflexivity].
Qed.

Lemma ex_running_inv : exec_inv ∅ 1 ex_running.
Proof. by apply (run_inv 1 ∅ ex_running ex_running_run). Qed.
Lemma ex_blocking_inv : exec_inv ∅ 1 ex_blocking.
Proof. by apply (run_inv 1 ∅ ex_blocking ex_blocking_run). Qed.

(** Task 2 is made and not queued. *)
Definition ex_made : exec :=
  mkExec (mkRunq (<[2 := task1]> (heap (rq ex_blocking))) (sched (rq ex_blocking)))
    (<[2 := 1]> (arcs ex_blocking)) (current ex_blocking).

Lemma exec_reachable_inv_witness :
  exec_run exec_init 1 ({[2]} ∪ ∅) ex_made /\ exec_inv ({[2]} ∪ ∅) 1 ex_made /\ view ex_made 2 = Some Runnable.
Proof.
  assert (exec_run exec_init 1 ({[2]} ∪ ∅) ex_made) as H.
  { apply (run_step _ 1 0 ∅ ex_blocking); [exact ex_blocking_run|]. by apply (step_make ∅ ex_blocking 2 task1). }
  split; [exact H|]. split; [|reflexivity]. apply (exec_reachable_inv 1 _ ex_made H). reflexivity.
Defined.

Definition blocking_task : Task :=
  set_inner (tcb_set_state Blocking (inner task1)) task1.

Lemma run_task2_pending_witness :
  exists out s', run_task2 Pending ex_blocking = Ret (out, s') /\
    out = RunNext /\ current s' = 0 /\ view s' 1 = Some Blocked.
Proof.
  destruct (run_task2_pending 1 ∅ ex_blocking blocking_task 0 ex_blocking_inv)
    as (out & s' & H & Ho & Hc & Hb & _);
    [done|vm_compute; reflexivity|discriminate|reflexivity|].
  exists out, s'. split; [exact H|]. split; [exact Ho|]. split; [exact Hc|exact Hb].
Defined.

Lemma wakeup_not_lost_witness :
  exists s1 s2, wakeup_task 1 ex_blocking = Ret (tt, s1) /\
    run_task2 Pending s1 = Ret (RunNext, s2) /\ current s2 = 1.
Proof.
  destruct (wakeup_not_lost 1 ∅ ex_blocking 1 blocking_task ex_blocking_inv)
    as (s1 & H1 & _ & s2 & H2 & H3 & _);
    [reflexivity|set_solver|vm_compute; reflexivity|discriminate|discriminate|].
  exists s1, s2. split; [exact H1|]. split; [exact H2|exact H3].
Defined.
