(* ===== verification/Sync.v ===== *)
(** * Wait queues and the sleeping mutex (os/src/sync/waitqueue.rs, mutex.rs)

    A wait queue is a list of nodes, each an [Arc] with a waker; nodes are
    compared by address, so a node is a pair of its address and its waker.
    The address of a new node is an argument of the polls that allocate one.

    The theorem about [Mutex] shows what becomes of a task that finds the
    lock taken. *)

From S2P Require Import Prelude BTree Sched Exec ExecInv.

(** ** Definitions *)

Record GeneralWaitWakerNode : Type := mkNode { node_addr : Z; node_waker : Z }.

Definition GeneralWaitTaskList : Type := list GeneralWaitWakerNode.

Definition add_waiter (q : GeneralWaitTaskList) (n : GeneralWaitWakerNode) : GeneralWaitTaskList :=
  q ++ [n].

(** The search by [Arc::ptr_eq], then the split at the index found. *)
Fixpoint find_node (q : GeneralWaitTaskList) (a : Z) (i : nat) : option nat :=
  match q with
  | [] => None
  | n :: q' => if node_addr n =? a then Some i else find_node q' a (S i)
  end.

Definition remove_waiter (q : GeneralWaitTaskList) (a : Z)
    : option GeneralWaitWakerNode * GeneralWaitTaskList :=
  match find_node q a 0 with
  | Some idx =>
      let tail := drop idx q in
      (List.hd_error tail, take idx q ++ List.tl tail)
  | None => (None, q)
  end.

Definition notify_one (q : GeneralWaitTaskList) : ST exec (bool * GeneralWaitTaskList) :=
  match q with
  | n :: q' => _ ← wakeup_task (node_waker n); mret (true, q')
  | [] => mret (false, [])
  end.

Fixpoint notify_n (num_to_wake : nat) (q : GeneralWaitTaskList)
    : ST exec (Z * GeneralWaitTaskList) :=
  match num_to_wake, q with
  | S k, n :: q' =>
      _ ← wakeup_task (node_waker n);
      '(c, q2) ← notify_n k q';
      mret (c + 1, q2)
  | _, _ => mret (0, q)
  end.

(** [WaitUntilFuture]: the future keeps the address of its node. *)
Record WaitUntilFuture : Type := mkWait { registered_node : option Z }.

(** [WaitQueue::wait_until] *)
Definition wait_until : WaitUntilFuture := mkWait None.

(** [poll] with the waker [w] and the value [cond] of the condition; [a] is
    the address of the node in case one is allocated. *)
Definition wait_until_poll (f : WaitUntilFuture) (cond : bool) (w a : Z)
    (q : GeneralWaitTaskList)
    : ST exec (Poll unit * WaitUntilFuture * GeneralWaitTaskList) :=
  if cond then
    match registered_node f with
    | Some n => mret (Ready tt, mkWait None, snd (remove_waiter q n))
    | None => mret (Ready tt, f, q)
    end
  else
    match registered_node f with
    | None =>
        _ ← task_set_state w Blocking;
        mret (Pending, mkWait (Some a), add_waiter q (mkNode a w))
    | Some _ => mret (Pending, f, q)
    end.

Definition wait_until_drop (f : WaitUntilFuture) (q : GeneralWaitTaskList)
    : GeneralWaitTaskList :=
  match registered_node f with
  | Some n => snd (remove_waiter q n)
  | None => q
  end.

(** *** [Mutex] *)

Record Mutex (T : Type) : Type := mkMutex {
  wq : GeneralWaitTaskList;
  owner_task_id : Z;
  mdata : T
}.

Arguments mkMutex {T}.
Arguments wq {T}.
Arguments owner_task_id {T}.
Arguments mdata {T}.

Section mutex.
Context {T : Type}.
Implicit Types (m : Mutex T).

Definition Mutex_new (x : T) : Mutex T := mkMutex [] 0 x.
Definition is_locked m : bool := negb (owner_task_id m =? 0).

Definition try_lock m : ST exec (bool * Mutex T) :=
  current_id ← current_task_id;
  if current_id =? 0 then st_panic
  else if owner_task_id m =? 0 then mret (true, mkMutex (wq m) current_id (mdata m))
  else mret (false, m).

(** Dropping a guard that holds the lock. *)
Definition force_unlock m : ST exec (Mutex T) :=
  releaser_id ← current_task_id_may_uninit;
  let previous_owner_id := owner_task_id m in
  if negb (previous_owner_id =? 0) && negb (previous_owner_id =? releaser_id) then st_panic
  else if (releaser_id =? 0) && negb (previous_owner_id =? 0) then st_panic
  else if negb (previous_owner_id =? 0) then
    '(_, q) ← notify_one (wq m);
    mret (mkMutex q 0 (mdata m))
  else mret (mkMutex (wq m) 0 (mdata m)).

Definition guard_drop (held : bool) m : ST exec (Mutex T) :=
  if held then force_unlock m else mret m.

(** [Deref] and [DerefMut] of a guard panic unless it has been awaited. *)
Definition guard_deref {A} (held : bool) (x : A) : outcome A := if held then Ret x else Panic.

(** [MutexGuard::poll] with the waker [w]; [held] tells whether this guard has
    the data pointer already.  The future made by [wait_until] is a local
    variable of the poll: it is dropped when the poll returns [Pending].  A
    spurious failure of the weak exchange finds the lock free, so that the
    loop tries again.  After a real failure the condition of the wait is
    false: the branch where the source would go round its loop is not
    reached. *)
Definition mutex_poll (held : bool) m (w a : Z) : ST exec (Poll unit * Mutex T) :=
  if held then mret (Ready tt, m)
  else
    current_id ← current_task_id_may_uninit;
    if current_id =? 0 then st_panic
    else if owner_task_id m =? 0 then
      mret (Ready tt, mkMutex (wq m) current_id (mdata m))
    else if owner_task_id m =? current_id then st_panic
    else
      '(p, f, q) ← wait_until_poll wait_until (owner_task_id m =? 0) w a (wq m);
      match p with
      | Ready _ => st_panic
      | Pending =>
          mret (Pending, mkMutex (wait_until_drop f q) (owner_task_id m) (mdata m))
      end.

(** ** Lemmas *)

Lemma find_node_app (q : GeneralWaitTaskList) n i :
  node_addr n ∉ (node_addr <$> q) ->
  find_node (q ++ [n]) (node_addr n) i = Some (i + length q)%nat.
Proof.
  revert i. induction q as [|x q IH]; intros i Hn; cbn [app find_node].
  - rewrite Z.eqb_refl. f_equal. cbn. lia.
  - cbn in Hn. destruct (Z.eqb_spec (node_addr x) (node_addr n)) as [E|]; [set_solver|].
    rewrite IH by set_solver. f_equal. cbn. lia.
Qed.

(** Removing a node that was just added restores the queue. *)
Lemma remove_added (q : GeneralWaitTaskList) n :
  node_addr n ∉ (node_addr <$> q) ->
  remove_waiter (add_waiter q n) (node_addr n) = (Some n, q).
Proof.
  intros Hn. unfold remove_waiter, add_waiter. rewrite find_node_app by done. cbn [Nat.add].
  rewrite drop_app_length, take_app_length. cbn. by rewrite app_nil_r.
Qed.

Lemma may_uninit_eq s t : current s <> 0 -> heap (rq s) !! current s = Some t ->
  current_task_id_may_uninit s = Ret (tcb_id (inner t), s).
Proof.
  intros Hc Ht. unfold current_task_id_may_uninit, try_get. st_unfold.
  destruct (Z.eqb_spec (current s) 0); [done|]. by rewrite (exec_task_eq s _ t Ht).
Qed.

(** The poll of a taken lock leaves the lock as it was and marks the task as
    blocking. *)
Lemma mutex_poll_taken s t m a : current s <> 0 ->
  heap (rq s) !! current s = Some t -> tcb_id (inner t) <> 0 ->
  owner_task_id m <> 0 -> owner_task_id m <> tcb_id (inner t) ->
  a ∉ (node_addr <$> wq m) ->
  mutex_poll false m (current s) a s =
  Ret ((Pending, m), put_inner (tcb_set_state Blocking (inner t)) t (current s) s).
Proof.
  intros Hc Ht Hid Hown Hne Ha. unfold mutex_poll. unfold mbind at 1, ST_bind at 1.
  rewrite (may_uninit_eq s t Hc Ht).
  destruct (Z.eqb_spec (tcb_id (inner t)) 0); [done|].
  destruct (Z.eqb_spec (owner_task_id m) 0); [done|].
  destruct (Z.eqb_spec (owner_task_id m) (tcb_id (inner t))); [done|].
  unfold wait_until_poll, wait_until, task_set_state. cbn [registered_node]. st_unfold.
  rewrite (tcb_update_eq s _ _ t Ht). unfold wait_until_drop. cbn [registered_node].
  pose proof (remove_added (wq m) (mkNode a (current s)) Ha) as Hr. cbn [node_addr] in Hr.
  rewrite Hr. by destruct m.
Qed.

(** ** Theorem *)

(** A task that finds a [Mutex] taken is never woken: its poll returns
    [Pending] with the task marked as blocking, but the node it queued is
    removed again when the local wait future is dropped, so that the wait
    queue stays empty.  The task is blocked afterwards, and the unlock by the
    owner, whenever it happens, wakes nobody and changes no task. *)
Theorem mutex_waiter_never_woken s t m a : current s <> 0 ->
  heap (rq s) !! current s = Some t -> tcb_id (inner t) <> 0 ->
  owner_task_id m <> 0 -> owner_task_id m <> tcb_id (inner t) -> wq m = [] ->
  exists s1 s2,
    mutex_poll false m (current s) a s = Ret ((Pending, m), s1) /\
    run_task2 Pending s1 = Ret (RunNext, s2) /\
    view s2 (current s) = Some Blocked /\ current s2 = 0 /\
    forall s3 t3, current s3 <> 0 -> heap (rq s3) !! current s3 = Some t3 ->
      tcb_id (inner t3) = owner_task_id m ->
      force_unlock m s3 = Ret (mkMutex [] 0 (mdata m), s3).
Proof.
  intros Hc Ht Hid Hown Hne Hq.
  set (s1 := put_inner (tcb_set_state Blocking (inner t)) t (current s) s).
  exists s1. eexists. split; [apply mutex_poll_taken; try done; rewrite Hq; set_solver|].
  assert (heap (rq s1) !! current s1 = Some (set_inner (tcb_set_state Blocking (inner t)) t))
    as Ht1 by apply lookup_insert_eq.
  split; [|split; [|split]].
  - by apply (run_task2_blocking s1 _ Hc Ht1).
  - exact (view_put s1 _ _ (current s)).
  - done.
  - intros s3 t3 Hc3 Ht3 Hid3. unfold force_unlock. unfold mbind at 1, ST_bind at 1.
    rewrite (may_uninit_eq s3 t3 Hc3 Ht3), Hid3, Z.eqb_refl, andb_false_r.
    destruct (Z.eqb_spec (owner_task_id m) 0); [done|]. cbn. rewrite Hq. done.
Qed.

End mutex.

(** Task 1 waits for a lock that task 7 holds. *)
Lemma mutex_waiter_never_woken_witness :
  exists s1 s2, mutex_poll false (mkMutex [] 7 tt) 1 64 ex_running = Ret ((Pending, mkMutex [] 7 tt), s1) /\
    run_task2 Pending s1 = Ret (RunNext, s2) /\ view s2 1 = Some Blocked.
Proof.
  destruct (mutex_waiter_never_woken ex_running
     (set_inner (tcb_set_state Running (inner task1)) task1) (mkMutex [] 7 tt) 64)
    as (s1 & s2 & H1 & H2 & H3 & _);
    [done|vm_compute; reflexivity|discriminate|discriminate|discriminate|reflexivity|].
  exists s1, s2. split; [exact H1|]. split; [exact H2|exact H3].
Defined.
