(* ===== verification/Sleep.v ===== *)
(** * Sleeping tasks (os/src/task/sleeplist.rs)

    [SleeperList] is a list of nodes ordered by deadline and task; a node
    without deadline comes after all others.  [SleepFuture] registers a node
    at its first poll; the trampoline pops the expired nodes and wakes their
    tasks.  Nodes are [Arc]s compared by address. *)

From Stdlib Require Import Sorting.Sorted.
From S2P Require Import Prelude BTree Timer Sched Exec ExecInv.

(** ** Definitions *)

Record SleepNode : Type := mkSleep {
  sleep_addr : Z;
  deadline : option TimeVal;
  sleep_waker : Z;
  sleep_task_id : Z
}.

Definition then_with (c d : comparison) : comparison :=
  match c with Eq => d | _ => c end.

Definition sleep_cmp (a b : SleepNode) : comparison :=
  match deadline a, deadline b with
  | Some d1, Some d2 =>
      then_with (tv_cmp d1 d2) (Z.compare (sleep_task_id a) (sleep_task_id b))
  | Some _, None => Lt
  | None, Some _ => Gt
  | None, None => Z.compare (sleep_task_id a) (sleep_task_id b)
  end.

Definition SleeperList : Type := list SleepNode.

(** The cursor moves past the nodes that are not greater than the new one. *)
Fixpoint add_sleeper (l : SleeperList) (n : SleepNode) : SleeperList :=
  match l with
  | [] => [n]
  | c :: l' => match sleep_cmp c n with Gt => n :: l | _ => c :: add_sleeper l' n end
  end.

Fixpoint pop_expired (now : TimeVal) (l : SleeperList) : list SleepNode * SleeperList :=
  match l with
  | [] => ([], [])
  | n :: l' =>
      match deadline n with
      | Some d =>
          if tv_leb d now then
            let '(expired, rest) := pop_expired now l' in (n :: expired, rest)
          else ([], l)
      | None => ([], l)
      end
  end.

Fixpoint find_sleeper (l : SleeperList) (a : Z) (i : nat) : option nat :=
  match l with
  | [] => None
  | n :: l' => if sleep_addr n =? a then Some i else find_sleeper l' a (S i)
  end.

Definition remove_sleeper (l : SleeperList) (a : Z) : option SleepNode * SleeperList :=
  match find_sleeper l a 0 with
  | Some idx =>
      let tail := drop idx l in
      (List.hd_error tail, take idx l ++ List.tl tail)
  | None => (None, l)
  end.

(** The executor together with [TID2TC] and [GLOBAL_SLEEPER_QUEUE]. *)
Record sys : Type := mkSys {
  ex : exec;
  tid2tc : list (Z * Z);
  sleepers : SleeperList
}.

Definition on_ex {A} (m : ST exec A) : ST sys A :=
  fun s => match m (ex s) with
           | Ret (a, e) => Ret (a, mkSys e (tid2tc s) (sleepers s))
           | Panic => Panic
           end.

Definition set_sleepers (f : SleeperList -> SleeperList) : ST sys unit :=
  st_modify (fun s => mkSys (ex s) (tid2tc s) (f (sleepers s))).

Record SleepFuture : Type := mkSF {
  sf_deadline : option TimeVal;
  task_id_at_creation : Z;
  sf_node : option Z
}.

Definition sleep_until (d : option TimeVal) : ST sys SleepFuture :=
  tid ← on_ex current_task_id;
  mret (mkSF d tid None).

(** [registered_node_arc.take()] and the removal from the queue. *)
Definition sleep_unregister (f : SleepFuture) : ST sys SleepFuture :=
  match sf_node f with
  | Some a =>
      _ ← set_sleepers (fun l => snd (remove_sleeper l a));
      mret (mkSF (sf_deadline f) (task_id_at_creation f) None)
  | None => mret f
  end.

Definition deadline_reached (d : option TimeVal) (now : TimeVal) : bool :=
  match d with Some d => tv_leb d now | None => false end.

(** [poll] at time [now]; [a] is the address of the node in case one is
    allocated.  The reference made by [Arc::into_raw] for the waker is not
    given back. *)
Definition sleep_poll (f : SleepFuture) (now : TimeVal) (a : Z)
    : ST sys (Poll unit * SleepFuture) :=
  if deadline_reached (sf_deadline f) now then
    f' ← sleep_unregister f;
    mret (Ready tt, f')
  else
    match sf_node f with
    | Some _ => f' ← sleep_unregister f; mret (Ready tt, f')
    | None =>
        m ← st_gets tid2tc;
        match bt_get (task_id_at_creation f) m with
        | None => mret (Ready tt, f)
        | Some r =>
            _ ← on_ex (task_arc_clone r);
            _ ← on_ex (task_set_state r Blocking);
            _ ← on_ex (task_arc_clone r);
            let node := mkSleep a (sf_deadline f) r (task_id_at_creation f) in
            t ← on_ex (exec_task r);
            _ ← on_ex (match state (inner t) with
                       | Running | Runnable | Blocking => task_set_state r Blocking
                       | _ => mret tt
                       end);
            _ ← set_sleepers (fun l => add_sleeper l node);
            _ ← on_ex (task_arc_drop r);
            mret (Pending, mkSF (sf_deadline f) (task_id_at_creation f) (Some a))
        end
    end.

Definition sleep_drop (f : SleepFuture) : ST sys unit :=
  _ ← sleep_unregister f; mret tt.

Fixpoint wake_nodes (l : list SleepNode) : ST sys unit :=
  match l with
  | [] => mret tt
  | n :: l' => _ ← on_ex (wakeup_task (sleep_waker n)); wake_nodes l'
  end.

Definition process_sleepers (now : TimeVal) : ST sys unit :=
  l ← st_gets sleepers;
  let '(expired_nodes, rest) := pop_expired now l in
  _ ← set_sleepers (fun _ => rest);
  wake_nodes expired_nodes.

(** One round of the trampoline up to the choice of the task to run. *)
Definition trampoline_pick (now : TimeVal) : ST sys (option Z) :=
  _ ← process_sleepers now;
  on_ex schedule_next.

(** ** The order *)

Definition sleep_le (a b : SleepNode) : Prop := sleep_cmp a b <> Gt.

Definition sleepers_sorted (l : SleeperList) : Prop := StronglySorted sleep_le l.

Definition expired (now : TimeVal) (n : SleepNode) : bool := deadline_reached (deadline n) now.

Ltac zcompare :=
  repeat match goal with
  | |- context [Z.compare ?a ?b] => destruct (Z.compare_spec a b)
  | H : context [Z.compare ?a ?b] |- _ => destruct (Z.compare_spec a b)
  end.

Lemma sleep_le_trans a b c : sleep_le a b -> sleep_le b c -> sleep_le a c.
Proof.
  destruct a as [? [[s1 u1]|] ? t1], b as [? [[s2 u2]|] ? t2], c as [? [[s3 u3]|] ? t3];
    unfold sleep_le, sleep_cmp, then_with, tv_cmp; cbn; try done;
    zcompare; cbn; intros; first [congruence | exfalso; lia].
Qed.

Lemma sleep_le_total a b : sleep_cmp a b = Gt -> sleep_le b a.
Proof.
  destruct a as [? [[s1 u1]|] ? t1], b as [? [[s2 u2]|] ? t2];
    unfold sleep_le, sleep_cmp, then_with, tv_cmp; cbn; try done;
    zcompare; cbn; intros; first [congruence | exfalso; lia].
Qed.

(** A node after one that is not expired is not expired. *)
Lemma expired_mono now a b : sleep_le a b -> expired now b = true -> expired now a = true.
Proof.
  destruct a as [? [[s1 u1]|] ? t1], b as [? [[s2 u2]|] ? t2], now as [s u];
    unfold sleep_le, sleep_cmp, then_with, expired, deadline_reached, tv_leb, tv_cmp; cbn;
    try done; zcompare; cbn; intros; first [congruence | exfalso; lia].
Qed.

Lemma add_sleeper_perm l n : add_sleeper l n ≡ₚ n :: l.
Proof.
  induction l as [|c l IH]; [done|]. cbn. destruct (sleep_cmp c n); [| |done].
  all: rewrite IH; apply Permutation_swap.
Qed.

Lemma add_sleeper_sorted l n : sleepers_sorted l -> sleepers_sorted (add_sleeper l n).
Proof.
  induction 1 as [|c l Hs IH Hf]; [repeat constructor|]. cbn.
  destruct (sleep_cmp c n) eqn:E.
  1, 2: constructor; [exact IH|]; rewrite add_sleeper_perm; constructor;
    [unfold sleep_le; congruence|exact Hf].
  assert (sleep_le n c) by (by apply sleep_le_total). constructor; [by constructor|].
  constructor; [done|]. eapply Forall_impl; [|exact Hf]. intros x Hx. by apply (sleep_le_trans n c).
Qed.

Lemma sublist_sorted l1 n l2 : sleepers_sorted (l1 ++ n :: l2) -> sleepers_sorted (l1 ++ l2).
Proof.
  induction l1 as [|a l1 IH]; cbn; intros H; apply StronglySorted_inv in H as [H1 H2]; [done|].
  constructor; [by apply IH|]. apply Forall_app in H2 as [H2 H3]. apply Forall_app.
  split; [done|]. by apply Forall_cons_1 in H3 as [_ H3].
Qed.

Lemma find_sleeper_spec l a : forall i j, find_sleeper l a i = Some j ->
  exists k n, j = (i + k)%nat /\ l !! k = Some n /\ sleep_addr n = a.
Proof.
  induction l as [|n l IH]; intros i j; [done|]. cbn.
  destruct (Z.eqb_spec (sleep_addr n) a).
  - intros [= <-]. exists 0%nat, n. repeat split; [lia|done].
  - intros (k & n' & -> & ? & ?)%IH. exists (S k), n'. repeat split; [lia|done|done].
Qed.

(** Removing takes one node out or does nothing. *)
Lemma remove_sleeper_spec l a :
  snd (remove_sleeper l a) = l \/
  exists l1 n l2, l = l1 ++ n :: l2 /\ sleep_addr n = a /\ remove_sleeper l a = (Some n, l1 ++ l2).
Proof.
  unfold remove_sleeper. destruct (find_sleeper l a 0) as [j|] eqn:E; [|by left]. right.
  apply find_sleeper_spec in E as (k & n & -> & Hk & Ha). cbn [Nat.add].
  exists (take k l), n, (drop (S k) l). split; [by rewrite take_drop_middle|].
  split; [done|]. rewrite (drop_S l n k Hk). done.
Qed.

Lemma filter_false_nil {A} (l : list A) : List.filter (fun _ => false) l = [].
Proof. by induction l. Qed.

Lemma filter_true_id {A} (l : list A) : List.filter (fun _ => true) l = l.
Proof. induction l as [|a l IH]; [done|]. cbn. by rewrite IH. Qed.

Lemma pop_expired_filter now l : sleepers_sorted l ->
  pop_expired now l = (List.filter (expired now) l, List.filter (fun n => negb (expired now n)) l).
Proof.
  induction 1 as [|n l Hs IH Hf]; [done|]. cbn [pop_expired List.filter].
  destruct (expired now n) eqn:E.
  - unfold expired, deadline_reached in E. destruct (deadline n); [|done]. rewrite E, IH. done.
  - assert (forall x, x ∈ l -> expired now x = false) as Hn.
    { intros x Hx. destruct (expired now x) eqn:Ex; [|done]. rewrite <- E. symmetry.
      apply (expired_mono now n x); [|done]. rewrite List.Forall_forall in Hf.
      by apply Hf, list_elem_of_In. }
    rewrite (List.filter_ext_in _ (fun _ => false) l)
      by (intros x Hx%list_elem_of_In; by apply Hn).
    rewrite (List.filter_ext_in (fun n => negb (expired now n)) (fun _ => true) l)
      by (intros x Hx%list_elem_of_In; by rewrite Hn).
    rewrite filter_false_nil, filter_true_id.
    unfold expired, deadline_reached in E. destruct (deadline n); [by rewrite E|done].
Qed.

(** An expired node leaves no trace among those that are not. *)
Lemma filter_add_expired f l n : f n = false ->
  List.filter f (add_sleeper l n) = List.filter f l.
Proof.
  intros Hn. induction l as [|c l IH]; cbn [add_sleeper]; [cbn; by rewrite Hn|].
  destruct (sleep_cmp c n); cbn [List.filter]; rewrite ?IH, ?Hn; done.
Qed.

(** What the first poll of a sleep does to the sleeping task. *)
Definition sleeping (s : sys) (t : Task) (k : Z) (n : SleepNode) : sys :=
  mkSys (mkExec (mkRunq (<[current (ex s) := set_inner (tcb_set_state Blocking (inner t)) t]>
                           (heap (rq (ex s)))) (sched (rq (ex s))))
           (<[current (ex s) := k + 1]> (arcs (ex s))) (current (ex s)))
    (tid2tc s) (add_sleeper (sleepers s) n).

Lemma sleep_poll_first s t k d now a :
  heap (rq (ex s)) !! current (ex s) = Some t ->
  arcs (ex s) !! current (ex s) = Some k -> 1 <= k ->
  bt_get (tcb_id (inner t)) (tid2tc s) = Some (current (ex s)) ->
  deadline_reached d now = false ->
  sleep_poll (mkSF d (tcb_id (inner t)) None) now a s =
  Ret ((Pending, mkSF d (tcb_id (inner t)) (Some a)),
    sleeping s t k (mkSleep a d (current (ex s)) (tcb_id (inner t)))).
Proof.
  intros Ht Hk Hk1 Hm Hd. unfold sleep_poll. cbn [sf_deadline sf_node task_id_at_creation].
  rewrite Hd. unfold mbind, ST_bind, st_gets. cbv beta iota. rewrite Hm.
  unfold on_ex at 1, task_arc_clone, task_arc_count, st_modify, mbind, ST_bind. rewrite Hk.
  unfold on_ex at 1, task_set_state. cbn [ex tid2tc sleepers].
  rewrite (tcb_update_eq (mkExec (rq (ex s)) _ _) _ _ t Ht). unfold on_ex at 1.
  unfold put_inner at 1.
  cbn [ex arcs rq current]. rewrite lookup_insert_eq.
  unfold on_ex at 1. cbn [ex tid2tc sleepers].
  rewrite (exec_task_eq _ _ (set_inner (tcb_set_state Blocking (inner t)) t))
    by apply lookup_insert_eq.
  cbn [state inner set_inner tcb_set_state]. unfold on_ex at 1. cbn [ex tid2tc sleepers].
  erewrite tcb_update_eq by apply lookup_insert_eq.
  unfold set_sleepers, on_ex, task_arc_drop, task_arc_count, st_modify, mbind, ST_bind, put_inner.
  cbn [ex tid2tc sleepers arcs rq current heap sched].
  rewrite lookup_insert_eq. destruct (Z.eqb_spec (k + 1 + 1) 1); [lia|].
  cbn [ex tid2tc sleepers arcs rq current heap sched inner set_inner].
  rewrite !insert_insert_eq. replace (k + 1 + 1 - 1) with (k + 1) by lia. reflexivity.
Qed.

Lemma sleep_until_eq s t d : current (ex s) <> 0 ->
  heap (rq (ex s)) !! current (ex s) = Some t ->
  sleep_until d s = Ret (mkSF d (tcb_id (inner t)) None, s).
Proof.
  intros Hc Ht. unfold sleep_until, on_ex, current_task_id, current_get, try_get. st_unfold.
  destruct (Z.eqb_spec (current (ex s)) 0); [done|]. rewrite (exec_task_eq _ _ _ Ht).
  by destruct s.
Qed.

(** Operations on the queue, in any order. *)
Inductive sleep_op : Type :=
| OpAdd (n : SleepNode)
| OpRemove (a : Z)
| OpPop (now : TimeVal).

Definition sleep_step (l : SleeperList) (o : sleep_op) : SleeperList :=
  match o with
  | OpAdd n => add_sleeper l n
  | OpRemove a => snd (remove_sleeper l a)
  | OpPop now => snd (pop_expired now l)
  end.

Lemma sleep_step_sorted l o : sleepers_sorted l -> sleepers_sorted (sleep_step l o).
Proof.
  intros Hs. destruct o as [n|a|now]; cbn.
  - by apply add_sleeper_sorted.
  - destruct (remove_sleeper_spec l a) as [->|(l1 & n & l2 & -> & _ & ->)]; [done|].
    by apply sublist_sorted in Hs.
  - induction Hs as [|n l Hs IH Hf]; [constructor|]. cbn.
    destruct (deadline n) as [d|]; [|by constructor]. destruct (tv_leb d now); [|by constructor].
    destruct (pop_expired now l). exact IH.
Qed.

(** All of the nodes are woken. *)
Lemma wake_nodes_eq m q l : forall e,
  wake_nodes l (mkSys e m q) =
  match st_iter wakeup_task (sleep_waker <$> l) e with
  | Ret (_, e') => Ret (tt, mkSys e' m q)
  | Panic => Panic
  end.
Proof.
  induction l as [|x l IH]; intros e; [done|].
  cbn [wake_nodes st_iter fmap list_fmap]. unfold mbind, ST_bind, on_ex. cbn [ex tid2tc sleepers].
  destruct (wakeup_task (sleep_waker x) e) as [[[] e']|]; [apply IH|done].
Qed.

(** The executor stays well-formed while the task goes to sleep. *)
Lemma sleeping_inv {U} n s t k x : exec_inv U n (ex s) -> current (ex s) <> 0 ->
  heap (rq (ex s)) !! current (ex s) = Some t -> arcs (ex s) !! current (ex s) = Some k ->
  exec_inv U n (ex (sleeping s t k x)).
Proof.
  intros Hi Hc Ht Hk. assert (view (ex s) (current (ex s)) = Some (state (inner t))) as Hv
    by (unfold view; by rewrite Ht).
  pose proof (ei_arcs n _ Hi (current (ex s))) as Ha. rewrite Hv in Ha. destruct Ha as (k' & Hk' & ?).
  rewrite Hk in Hk'. injection Hk' as <-.
  apply (inv_arcs n (mkExec (mkRunq (<[current (ex s) := set_inner (tcb_set_state Blocking (inner t)) t]>
    (heap (rq (ex s)))) (sched (rq (ex s)))) (arcs (ex s)) (current (ex s)))); [| |lia].
  - apply (inv_update n (ex s) (current (ex s)) t); [done|done| |done|by left|by left].
    cbn. split; [done|]. intros E. apply (curr_not_runnable n _ Hi) in Hc. rewrite Hv, E in Hc. done.
  - unfold view. cbn. by rewrite lookup_insert_eq.
Qed.

(** ** Theorems *)

(** After any sequence of insertions, removals and expirations,
    [pop_expired] returns exactly the nodes whose deadline has passed, in
    order, and leaves exactly the others: stopping at the first node that is
    not expired misses none. *)
Theorem pop_expired_exact ops now :
  let l := fold_left sleep_step ops [] in
  sleepers_sorted l /\
  pop_expired now l =
    (List.filter (expired now) l, List.filter (fun n => negb (expired now n)) l).
Proof.
  intros l. assert (sleepers_sorted l) as Hs; [|split; [done|by apply pop_expired_filter]].
  unfold l. assert (forall l0, sleepers_sorted l0 -> sleepers_sorted (fold_left sleep_step ops l0))
    as H; [|apply H; constructor].
  induction ops as [|o ops IH]; intros l0 H0; [done|]. cbn. by apply IH, sleep_step_sorted.
Qed.

(** C24: Sleeping tasks wake up.  The running task polls a sleep before its
    deadline, and is blocked when its poll is over; other tasks may be asleep
    already.  At any look at the queue after the deadline it becomes runnable
    and is queued, and so does every other task whose deadline has passed by
    then: all of the nodes that are due leave the queue at that one look, the
    others stay in it, and no other task changes its state.  The tasks that are
    due are blocked, or were made runnable by something else already.  The
    reference count of the task has grown by one: the reference made for the
    waker is never released.  The executor is in any state it can reach. *)
Theorem sleep_until_wakes U n s t k d now1 now2 a :
  exec_inv U n (ex s) -> n + zlen (sleepers s) + 2 < isize_max ->
  current (ex s) <> 0 ->
  heap (rq (ex s)) !! current (ex s) = Some t ->
  arcs (ex s) !! current (ex s) = Some k ->
  bt_get (tcb_id (inner t)) (tid2tc s) = Some (current (ex s)) ->
  sleepers_sorted (sleepers s) ->
  (forall x, x ∈ sleepers s -> expired now2 x = true ->
     view (ex s) (sleep_waker x) = Some Blocked \/ view (ex s) (sleep_waker x) = Some Runnable) ->
  tv_leb d now1 = false -> tv_leb d now2 = true ->
  let r := current (ex s) in
  let due x := x ∈ sleepers s /\ expired now2 x = true in
  exists f f' s1 s2 s3,
    sleep_until (Some d) s = Ret (f, s) /\
    sleep_poll f now1 a s = Ret ((Pending, f'), s1) /\
    on_ex (run_task2 Pending) s1 = Ret (RunNext, s2) /\
    view (ex s2) r = Some Blocked /\ current (ex s2) = 0 /\
    process_sleepers now2 s2 = Ret (tt, s3) /\
    view (ex s3) r = Some Runnable /\ r ∈ refs (ex s3) /\
    (forall x, due x -> view (ex s3) (sleep_waker x) = Some Runnable /\
       (sleep_waker x ∉ U -> sleep_waker x ∈ refs (ex s3))) /\
    (forall r', r' <> r -> (forall x, due x -> sleep_waker x <> r') ->
       view (ex s3) r' = view (ex s) r') /\
    sleepers s3 = List.filter (fun x => negb (expired now2 x)) (sleepers s) /\
    arcs (ex s3) !! r = Some (k + 1).
Proof.
  intros Hi Hn Hc Ht Hk Hm Hsort Hdue H1 H2 r due.
  pose proof (ei_arcs n _ Hi r) as Ha. unfold view in Ha. fold r in Ht, Hk. rewrite Ht in Ha.
  destruct Ha as (k' & Hk' & Hk1). rewrite Hk in Hk'. injection Hk' as <-.
  set (x0 := mkSleep a (Some d) r (tcb_id (inner t))).
  set (t1 := set_inner (tcb_set_state Blocking (inner t)) t).
  set (s1 := sleeping s t k x0).
  pose proof (sleeping_inv n s t k x0 Hi Hc Ht Hk) as Hi1. fold s1 in Hi1.
  assert (heap (rq (ex s1)) !! current (ex s1) = Some t1) as Ht1 by apply lookup_insert_eq.
  pose proof (run_task2_blocking (ex s1) t1 Hc Ht1 eq_refl) as Hrun.
  pose proof (zlen_nonneg (sleepers s)).
  pose proof (finish_pending_inv n (ex s1) t1 _ _ Hi1 Ht1 ltac:(lia) Hrun) as Hi2.
  set (e2 := mkExec _ _ 0) in Hrun, Hi2.
  assert (view e2 r = Some Blocked) as Hb2 by exact (view_put (ex s1) _ t1 r).
  assert (forall r', r' <> r -> view e2 r' = view (ex s) r') as Ho2.
  { intros r' Hr. unfold view, e2, s1. cbn. by rewrite !lookup_insert_ne. }
  assert (expired now2 x0 = true) as Hx0 by exact H2.
  pose proof (pop_expired_filter now2 _ (add_sleeper_sorted _ x0 Hsort)) as Hpop.
  set (l := List.filter (expired now2) (add_sleeper (sleepers s) x0)) in Hpop.
  assert (forall x, x ∈ l <-> x = x0 \/ due x) as Hl.
  { intros x. unfold l. rewrite list_elem_of_In, List.filter_In, <- list_elem_of_In, add_sleeper_perm, elem_of_cons.
    unfold due. naive_solver. }
  assert (zlen l <= zlen (sleepers s) + 1) as Hlen.
  { unfold l, zlen. pose proof (List.filter_length_le (expired now2) (add_sleeper (sleepers s) x0)) as Hle.
    rewrite (Permutation_length (add_sleeper_perm (sleepers s) x0)) in Hle. cbn [length] in Hle. lia. }
  set (q3 := List.filter (fun x => negb (expired now2 x)) (add_sleeper (sleepers s) x0)) in Hpop.
  destruct (wake_runnable (sleep_waker <$> l) (n + 1) e2 Hi2)
    as (e3 & Hw & Hi3 & Ha3 & Hv3 & Ho3); [unfold zlen in *; rewrite length_fmap; lia| |].
  { intros r' (x & -> & [->|[Hx Hex]]%Hl)%list_elem_of_fmap; [by left|].
    destruct (decide (sleep_waker x = r)) as [->|Hr]; [by left|].
    rewrite Ho2 by done. by apply Hdue. }
  assert (forall r', view e3 r' = Some Runnable -> r' ∉ U -> r' ∈ refs e3) as Hq
    by (intros r' Hv Hu; by apply (ei_queue _ _ Hi3)).
  assert (r ∉ U) as HrU by (intros Hu%(ei_made n _ Hi); by apply (curr_not_runnable n _ Hi)).
  assert (view e3 r = Some Runnable) as Hr3 by (apply (Hv3 (sleep_waker x0)), list_elem_of_fmap_2, Hl; by left).
  exists (mkSF (Some d) (tcb_id (inner t)) None), (mkSF (Some d) (tcb_id (inner t)) (Some a)),
    s1, (mkSys e2 (tid2tc s) (sleepers s1)), (mkSys e3 (tid2tc s) q3).
  split; [by apply sleep_until_eq|]. split; [by apply sleep_poll_first|].
  split; [unfold on_ex; by rewrite Hrun|]. split; [done|]. split; [done|]. split; [|split; [done|]].
  - unfold process_sleepers, set_sleepers. st_unfold. cbn [sleepers s1 sleeping].
    rewrite Hpop, wake_nodes_eq. cbn [ex tid2tc]. by rewrite Hw.
  - split; [by apply Hq|]. split; [|split; [|split]].
    + intros x Hx. assert (view e3 (sleep_waker x) = Some Runnable) by (apply Hv3, list_elem_of_fmap_2, Hl; by right). auto.
    + intros r' Hr Hnd. cbn [ex]. rewrite Ho3, Ho2; [done|done|].
      intros (x & -> & [->|Hx]%Hl)%list_elem_of_fmap; [done|by apply (Hnd x)].
    + cbn [sleepers]. unfold q3. apply filter_add_expired. by rewrite Hx0.
    + cbn [ex]. rewrite Ha3. apply lookup_insert_eq.
Qed.

(** Task 1 is blocked, task 2 is running. *)
Definition task2 : Task := CFSTask_new (TaskControlBlock_new 2 false true 1 0 None false TrapBlocked).

Definition ex_made2 : exec :=
  let e := after (run_task2 Pending) ex_blocking in
  mkExec (mkRunq (<[2 := task2]> (heap (rq e))) (sched (rq e))) (<[2 := 1]> (arcs e)) (current e).
Definition ex_started2 : exec := after (on_rq (sched_add_task 2)) ex_made2.
Definition ex_running2 : exec := after schedule_next ex_started2.

Lemma ex_running2_inv : exec_inv ∅ 3 ex_running2.
Proof.
  apply (run_inv 3 ∅ ex_running2); [|done].
  apply (run_step _ 3 0 ∅ ex_started2); [|apply (step_schedule _ _ _ (Some 2)); vm_compute; reflexivity].
  replace (∅ : gset Z) with (({[2]} ∪ ∅) ∖ {[2]} : gset Z) by set_solver.
  apply (run_step _ 2 1 ({[2]} ∪ ∅) ex_made2).
  - apply (run_step _ 2 0 ∅ (after (run_task2 Pending) ex_blocking)).
    + apply (run_step _ 1 1 ∅ ex_blocking); [exact ex_blocking_run|].
      apply (step_finish ∅ ex_blocking _ blocking_task Pending RunNext);
        [done|vm_compute; reflexivity|vm_compute; reflexivity].
    + by apply (step_make ∅ _ 2 task2).
  - apply step_start; [set_solver|vm_compute; reflexivity].
Qed.

(** Task 1 sleeps until time 4, task 2 from time 3 until time 5, and both are
    due when the queue is looked at after time 5. *)
Definition sys_sleep2 : sys := mkSys ex_running2 [(2, 2)] [mkSleep 32 (Some (mkTV 4 0)) 1 1].

Lemma sleep_until_wakes_witness :
  exists f f' s1 s2 s3,
    sleep_until (Some (mkTV 5 0)) sys_sleep2 = Ret (f, sys_sleep2) /\
    sleep_poll f (mkTV 3 0) 64 sys_sleep2 = Ret ((Pending, f'), s1) /\
    on_ex (run_task2 Pending) s1 = Ret (RunNext, s2) /\
    process_sleepers (mkTV 5 1) s2 = Ret (tt, s3) /\ view (ex s3) 2 = Some Runnable /\
    view (ex s3) 1 = Some Runnable /\ sleepers s3 = [].
Proof.
  destruct (sleep_until_wakes ∅ 3 sys_sleep2 (set_id 1 (set_inner (tcb_set_state Running (inner task2)) task2))
              1 (mkTV 5 0) (mkTV 3 0) (mkTV 5 1) 64 ex_running2_inv)
    as (f & f' & s1 & s2 & s3 & H1 & H2 & H3 & _ & _ & H4 & H5 & _ & H6 & _ & H7 & _);
    [done|done|vm_compute; reflexivity|vm_compute; reflexivity|reflexivity|repeat constructor
      | |reflexivity|reflexivity|].
  - intros x Hx%list_elem_of_singleton _. subst x. left. vm_compute. reflexivity.
  - exists f, f', s1, s2, s3. split; [exact H1|]. split; [exact H2|]. split; [exact H3|].
    split; [exact H4|]. split; [exact H5|]. split; [|exact H7].
    apply (H6 (mkSleep 32 (Some (mkTV 4 0)) 1 1)). split; [by left|reflexivity].
Defined.
