(* ===== verification/Pipe.v ===== *)
(** * Pipes (os/src/fs/pipe.rs)

    The two ends of a pipe share a ring buffer; readers and writers that find
    it empty or full leave their wakers in it.  The state is the ring buffer
    with the executor, which wakers act on, and physical memory, where the
    user buffers are.

    [read] and [write] are futures; a poll of one is [pipe_read_poll] or
    [pipe_write_poll], where [waiting] tells whether the future is suspended
    in its inner wait.  Both return before they would wait a second time with
    bytes transferred, so that a suspended future has transferred nothing. *)

From S2P Require Import Prelude Config Memory Errno Pte UserMem UserBuf.
From S2P Require Import BTree Sched Exec.

(** ** Flags *)

Definition O_RDONLY : Z := 0.
Definition O_WRONLY : Z := 1.
Definition O_NONBLOCK : Z := 0x800.

Definition POLLIN : Z := 0x1.
Definition POLLOUT : Z := 0x4.
Definition POLLERR : Z := 0x8.
Definition POLLHUP : Z := 0x10.

(** ** The ring buffer *)

Definition RING_BUFFER_SIZE : Z := 0x4000.

Inductive RingBufferStatus : Type := RbFull | RbEmpty | RbNormal.

(** The derived [==]. *)
Definition status_eqb (a b : RingBufferStatus) : bool :=
  match a, b with
  | RbFull, RbFull | RbEmpty, RbEmpty | RbNormal, RbNormal => true
  | _, _ => false
  end.

Record PipeRingBuffer : Type := mkRing {
  rb_arr : list Z;
  rb_head : Z;
  rb_tail : Z;
  rb_status : RingBufferStatus;
  read_end_closed : bool;
  write_end_closed : bool;
  read_waiters : list Z;
  write_waiters : list Z
}.

Definition PipeRingBuffer_new : PipeRingBuffer :=
  mkRing (replicate (Z.to_nat RING_BUFFER_SIZE) 0) 0 0 RbEmpty false false [] [].

Definition set_read_waiters (l : list Z) (b : PipeRingBuffer) : PipeRingBuffer :=
  mkRing (rb_arr b) (rb_head b) (rb_tail b) (rb_status b) (read_end_closed b)
    (write_end_closed b) l (write_waiters b).
Definition set_write_waiters (l : list Z) (b : PipeRingBuffer) : PipeRingBuffer :=
  mkRing (rb_arr b) (rb_head b) (rb_tail b) (rb_status b) (read_end_closed b)
    (write_end_closed b) (read_waiters b) l.
Definition close_read_end (b : PipeRingBuffer) : PipeRingBuffer :=
  mkRing (rb_arr b) (rb_head b) (rb_tail b) (rb_status b) true
    (write_end_closed b) (read_waiters b) (write_waiters b).
Definition close_write_end (b : PipeRingBuffer) : PipeRingBuffer :=
  mkRing (rb_arr b) (rb_head b) (rb_tail b) (rb_status b) (read_end_closed b)
    true (read_waiters b) (write_waiters b).

(** The executor, physical memory and the shared buffer. *)
Record psys : Type := mkPsys { p_ex : exec; p_mem : pmem; ring : PipeRingBuffer }.

Definition on_pex {A} (m : ST exec A) : ST psys A :=
  fun s => match m (p_ex s) with
           | Ret (a, e) => Ret (a, mkPsys e (p_mem s) (ring s))
           | Panic => Panic
           end.
Definition on_pmem {A} (m : ST pmem A) : ST psys A :=
  fun s => match m (p_mem s) with
           | Ret (a, e) => Ret (a, mkPsys (p_ex s) e (ring s))
           | Panic => Panic
           end.
Definition set_ring (b : PipeRingBuffer) : ST psys unit :=
  st_modify (fun s => mkPsys (p_ex s) (p_mem s) b).

(** [for waker in waiters.drain(..) { waker.wake() }] *)
Definition notify_readers : ST psys unit :=
  b ← st_gets ring;
  _ ← set_ring (set_read_waiters [] b);
  on_pex (st_iter wakeup_task (read_waiters b)).

Definition notify_writers : ST psys unit :=
  b ← st_gets ring;
  _ ← set_ring (set_write_waiters [] b);
  on_pex (st_iter wakeup_task (write_waiters b)).

(** [will_wake] compares the data pointers, the task addresses. *)
Definition register_reader_waker (w : Z) : ST psys unit :=
  b ← st_gets ring;
  if existsb (Z.eqb w) (read_waiters b) then mret tt
  else set_ring (set_read_waiters (read_waiters b ++ [w]) b).

Definition register_writer_waker (w : Z) : ST psys unit :=
  b ← st_gets ring;
  if existsb (Z.eqb w) (write_waiters b) then mret tt
  else set_ring (set_write_waiters (write_waiters b ++ [w]) b).

Definition mark_write_end_closed : ST psys unit :=
  b ← st_gets ring;
  if write_end_closed b then mret tt
  else _ ← set_ring (close_write_end b); notify_readers.

Definition mark_read_end_closed : ST psys unit :=
  b ← st_gets ring;
  if read_end_closed b then mret tt
  else _ ← set_ring (close_read_end b); notify_writers.

Definition ring_write_byte (byte : Z) : ST psys (result unit SysErrNo) :=
  b ← st_gets ring;
  if status_eqb (rb_status b) RbFull then mret (Err EAGAIN)
  else if read_end_closed b then mret (Err EPIPE)
  else
    let buffer_was_empty := status_eqb (rb_status b) RbEmpty in
    arr ← st_lift (index_set (rb_arr b) (rb_tail b) byte);
    let tail := (rb_tail b + 1) mod RING_BUFFER_SIZE in
    let status := if tail =? rb_head b then RbFull else RbNormal in
    _ ← set_ring (mkRing arr (rb_head b) tail status (read_end_closed b)
                    (write_end_closed b) (read_waiters b) (write_waiters b));
    _ ← (if buffer_was_empty then notify_readers else mret tt);
    mret (Ok tt).

Definition ring_read_byte : ST psys (option Z) :=
  b ← st_gets ring;
  if status_eqb (rb_status b) RbEmpty then mret None
  else
    let buffer_was_full := status_eqb (rb_status b) RbFull in
    c ← st_lift (index (rb_arr b) (rb_head b));
    let head := (rb_head b + 1) mod RING_BUFFER_SIZE in
    let status := if head =? rb_tail b then RbEmpty else RbNormal in
    _ ← set_ring (mkRing (rb_arr b) head (rb_tail b) status (read_end_closed b)
                    (write_end_closed b) (read_waiters b) (write_waiters b));
    _ ← (if buffer_was_full then notify_writers else mret tt);
    mret (Some c).

(** With head and tail in range the operations do not overflow. *)
Definition available_read (b : PipeRingBuffer) : Z :=
  if status_eqb (rb_status b) RbEmpty then 0
  else if rb_head b <? rb_tail b then rb_tail b - rb_head b
  else rb_tail b + RING_BUFFER_SIZE - rb_head b.

Definition available_write (b : PipeRingBuffer) : Z :=
  if status_eqb (rb_status b) RbFull then 0
  else RING_BUFFER_SIZE - available_read b.

(** ** Pipe ends *)

Record Pipe : Type := mkPipe { p_readable : bool; p_writable : bool; p_flags : Z }.

Definition read_end_with_buffer (flags : Z) : Pipe := mkPipe true false (fl_insert flags O_RDONLY).
Definition write_end_with_buffer (flags : Z) : Pipe := mkPipe false true (fl_insert flags O_WRONLY).
Definition is_non_block (p : Pipe) : bool := fl_contains (p_flags p) O_NONBLOCK.

(** [make_pipe]: both ends and their new buffer. *)
Definition make_pipe (flags : Z) : Pipe * Pipe * PipeRingBuffer :=
  (read_end_with_buffer (fl_insert flags O_RDONLY),
   write_end_with_buffer (fl_insert flags O_WRONLY),
   PipeRingBuffer_new).

Definition pipe_drop (p : Pipe) : ST psys unit :=
  _ ← (if p_readable p then mark_read_end_closed else mret tt);
  if p_writable p then mark_write_end_closed else mret tt.

(** [File::poll] *)
Definition pipe_poll (p : Pipe) (requested w : Z) : ST psys Z :=
  b ← st_gets ring;
  r ← (if p_readable p then
         r ← (if fl_contains requested POLLIN then
                if 0 <? available_read b then mret POLLIN
                else if write_end_closed b then mret (fl_insert POLLIN POLLHUP)
                else _ ← register_reader_waker w; mret 0
              else mret 0);
         mret (if write_end_closed b then fl_insert r POLLHUP else r)
       else mret 0);
  if p_writable p then
    r ← (if fl_contains requested POLLOUT then
           if 0 <? available_write b then mret (fl_insert r POLLOUT)
           else if read_end_closed b then mret (fl_insert (fl_insert r POLLOUT) POLLERR)
           else _ ← register_writer_waker w; mret r
         else mret r);
    mret (if read_end_closed b then fl_insert r POLLERR else r)
  else mret r.

(** The inner loop of [read] over one segment, from offset [hd js] on: the
    offset it stops at and the count, or the count at the early return. *)
Fixpoint read_segment (seg : uslice) (js : list Z) (total len : Z) : ST psys ((Z * Z) + Z) :=
  match js with
  | [] => mret (inl (us_len seg, total))
  | j :: js' =>
      if total <? len then
        o ← ring_read_byte;
        match o with
        | Some byte_val =>
            _ ← on_pmem (us_set seg j byte_val);
            total' ← st_lift (uadd total 1);
            read_segment seg js' total' len
        | None => mret (inr total)
        end
      else mret (inl (j, total))
  end.

Fixpoint read_segments (segs : UserBuffer) (total len : Z) : ST psys Z :=
  match segs with
  | [] => mret total
  | seg :: segs' =>
      r ← read_segment seg (zrange 0 (us_len seg)) total len;
      match r with
      | inr t => mret t
      | inl (offset, t) =>
          if offset =? us_len seg then
            match segs' with
            | [] => mret t
            | _ => if t =? len then mret t else read_segments segs' t len
            end
          else mret t
      end
  end.

Definition pipe_read_poll (p : Pipe) (waiting : bool) (buf : UserBuffer) (w : Z)
    : ST psys (Poll (result Z SysErrNo)) :=
  if negb (p_readable p) then mret (Ready (Err EBADF))
  else
    len ← st_lift (ub_len buf);
    if len =? 0 then mret (Ready (Ok 0))
    else
      b ← st_gets ring;
      if 0 <? available_read b then
        n ← read_segments buf 0 len;
        mret (Ready (Ok n))
      else if write_end_closed b then mret (Ready (Ok 0))
      else if negb waiting && is_non_block p then mret (Ready (Err EAGAIN))
      else _ ← register_reader_waker w; mret Pending.

(** The inner loop of [write]; the bytes come from user memory. *)
Fixpoint write_segment (seg : uslice) (js : list Z) (total len : Z) : ST psys ((Z * Z) + Z) :=
  match js with
  | [] => mret (inl (us_len seg, total))
  | j :: js' =>
      if total <? len then
        b ← st_gets ring;
        if 0 <? available_write b then
          m ← st_gets p_mem;
          r ← ring_write_byte (pa_read m (us_pa seg + j));
          _ ← st_lift (result_unwrap r);
          total' ← st_lift (uadd total 1);
          write_segment seg js' total' len
        else mret (inr total)
      else mret (inl (j, total))
  end.

Fixpoint write_segments (segs : UserBuffer) (total len : Z) : ST psys Z :=
  match segs with
  | [] => mret total
  | seg :: segs' =>
      r ← write_segment seg (zrange 0 (us_len seg)) total len;
      match r with
      | inr t => mret t
      | inl (offset, t) =>
          if offset =? us_len seg then
            match segs' with
            | [] => mret t
            | _ => if t =? len then mret t else write_segments segs' t len
            end
          else mret t
      end
  end.

Definition pipe_write_poll (p : Pipe) (waiting : bool) (buf : UserBuffer) (w : Z)
    : ST psys (Poll (result Z SysErrNo)) :=
  if negb (p_writable p) then mret (Ready (Err EBADF))
  else
    len ← st_lift (ub_len buf);
    if len =? 0 then mret (Ready (Ok 0))
    else
      b ← st_gets ring;
      if read_end_closed b then mret (Ready (Err EPIPE))
      else if 0 <? available_write b then
        n ← write_segments buf 0 len;
        mret (Ready (Ok n))
      else if negb waiting && is_non_block p then mret (Ready (Err EAGAIN))
      else _ ← register_writer_waker w; mret Pending.
