(* ===== verification/PipeSpec.v ===== *)
(** * A pipe is a bounded queue of bytes

    [contents] reads the ring buffer as the list of its bytes in order.  The
    byte operations are append and take on that list, and a poll of [write]
    or [read] moves as many bytes between a user buffer and the queue as fit
    or are there. *)

From S2P Require Import Prelude Config Memory Errno Pte UserMem UserBuf.
From S2P Require Import BTree Sched Exec ExecInv Pipe.

Lemma status_eqb_spec a b : reflect (a = b) (status_eqb a b).
Proof. by destruct a, b; constructor. Qed.

(** ** The queue in the ring *)

Record ring_wf (b : PipeRingBuffer) : Prop := {
  rw_len : zlen (rb_arr b) = RING_BUFFER_SIZE;
  rw_head : 0 <= rb_head b < RING_BUFFER_SIZE;
  rw_tail : 0 <= rb_tail b < RING_BUFFER_SIZE;
  rw_status : rb_status b = RbNormal <-> rb_head b <> rb_tail b
}.

Definition ring_at (arr : list Z) (i : Z) : Z :=
  default 0 (arr !! Z.to_nat (i mod RING_BUFFER_SIZE)).

Definition ring_list (arr : list Z) (h n : Z) : list Z :=
  (fun i => ring_at arr (h + i)) <$> zrange 0 n.

Definition contents (b : PipeRingBuffer) : list Z :=
  ring_list (rb_arr b) (rb_head b) (available_read b).

Definition room (b : PipeRingBuffer) : Z := RING_BUFFER_SIZE - zlen (contents b).

Lemma zlen_ring_list arr h n : 0 <= n -> zlen (ring_list arr h n) = n.
Proof. intros. unfold zlen, ring_list. rewrite length_fmap, length_zrange. lia. Qed.

Lemma avail_facts b : ring_wf b ->
  0 <= available_read b <= RING_BUFFER_SIZE /\
  rb_tail b = (rb_head b + available_read b) mod RING_BUFFER_SIZE /\
  (rb_status b = RbEmpty <-> available_read b = 0) /\
  (rb_status b = RbFull <-> available_read b = RING_BUFFER_SIZE).
Proof.
  intros [_ Hh Ht Hs]. unfold available_read, RING_BUFFER_SIZE in *.
  destruct (rb_status b); cbn.
  - assert (rb_head b = rb_tail b) by (destruct (decide (rb_head b = rb_tail b)); [done|];
      by apply Hs in n). zcases; split_and!; first [lia | split; intros; (done || (exfalso; lia) || lia)].
  - assert (rb_head b = rb_tail b) by (destruct (decide (rb_head b = rb_tail b)); [done|];
      by apply Hs in n). split_and!; first [lia | split; intros; (done || (exfalso; lia) || lia)].
  - assert (rb_head b <> rb_tail b) by (by apply Hs).
    zcases; split_and!; first [lia | split; intros; (done || (exfalso; lia) || lia)].
Qed.

Lemma zlen_contents b : ring_wf b -> zlen (contents b) = available_read b.
Proof. intros Hw. apply zlen_ring_list. apply avail_facts in Hw as [? _]. lia. Qed.

Lemma available_write_room b : ring_wf b -> available_write b = room b.
Proof.
  intros Hw. unfold available_write, room. rewrite zlen_contents by done.
  pose proof (avail_facts b Hw) as (_ & _ & _ & Hf). destruct (status_eqb_spec (rb_status b) RbFull) as [Hb|]; [|done].
  apply Hf in Hb. lia.
Qed.

Lemma ring_list_snoc arr h n : 0 <= n ->
  ring_list arr h (n + 1) = ring_list arr h n ++ [ring_at arr (h + n)].
Proof.
  intros. unfold ring_list. rewrite (zrange_app 0 n) by lia.
  rewrite fmap_app, (zrange_cons n), (zrange_nil (n + 1)) by lia. done.
Qed.

Lemma ring_at_mod arr i j : i mod RING_BUFFER_SIZE = j mod RING_BUFFER_SIZE ->
  ring_at arr i = ring_at arr j.
Proof. unfold ring_at. by intros ->. Qed.

Lemma ring_list_cons arr h n : 0 < n ->
  ring_list arr h n =
  ring_at arr h :: ring_list arr ((h + 1) mod RING_BUFFER_SIZE) (n - 1).
Proof.
  intros. unfold ring_list. rewrite (zrange_cons 0 n) by lia.
  replace (zrange (0 + 1) n) with (zrange (1 + 0) (1 + (n - 1))) by (f_equal; lia).
  rewrite zrange_shift. cbn [fmap list_fmap]. rewrite Z.add_0_r. f_equal.
  rewrite <- list_fmap_compose. apply list_fmap_ext. intros i x _. cbn.
  apply ring_at_mod. unfold RING_BUFFER_SIZE. lia.
Qed.

(** Writing at the tail does not touch the bytes of the queue. *)
Lemma ring_list_insert arr h n x : 0 <= h < RING_BUFFER_SIZE -> 0 <= n < RING_BUFFER_SIZE ->
  zlen arr = RING_BUFFER_SIZE ->
  ring_list (<[Z.to_nat ((h + n) mod RING_BUFFER_SIZE) := x]> arr) h (n + 1) =
  ring_list arr h n ++ [x].
Proof.
  intros Hh Hn Hl. unfold zlen in Hl. rewrite ring_list_snoc by lia. f_equal.
  - unfold ring_list. apply list_fmap_ext. intros i y Hy.
    apply list_elem_of_lookup_2, elem_of_zrange in Hy. unfold ring_at.
    rewrite list_lookup_insert_ne; [done|]. unfold RING_BUFFER_SIZE in *. lia.
  - f_equal. unfold ring_at. rewrite list_lookup_insert_eq; [done|].
    unfold RING_BUFFER_SIZE in *. lia.
Qed.

(** ** Bytes *)

(** The wakers an operation wakes are all in a state to be woken. *)
Definition wakeable (l : list Z) (e : exec) : Prop :=
  exists e', st_iter wakeup_task l e = Ret (tt, e').

(** Readers that a write wakes, writers that a read wakes. *)
Definition due_readers (b : PipeRingBuffer) : list Z :=
  if status_eqb (rb_status b) RbEmpty then read_waiters b else [].
Definition due_writers (b : PipeRingBuffer) : list Z :=
  if status_eqb (rb_status b) RbFull then write_waiters b else [].

(** The readers that were due have been woken, in the order they registered,
    and no longer wait; with none due the executor is as it was. *)
Record readers_woken (s s' : psys) : Prop := {
  rdw_exec : st_iter wakeup_task (due_readers (ring s)) (p_ex s) = Ret (tt, p_ex s');
  rdw_left : read_waiters (ring s') =
    if status_eqb (rb_status (ring s)) RbEmpty then [] else read_waiters (ring s);
  rdw_other : write_waiters (ring s') = write_waiters (ring s);
  rdw_status : rb_status (ring s') <> RbEmpty
}.
Record writers_woken (s s' : psys) : Prop := {
  ww_exec : st_iter wakeup_task (due_writers (ring s)) (p_ex s) = Ret (tt, p_ex s');
  ww_left : write_waiters (ring s') =
    if status_eqb (rb_status (ring s)) RbFull then [] else write_waiters (ring s);
  ww_other : read_waiters (ring s') = read_waiters (ring s);
  ww_status : rb_status (ring s') <> RbFull
}.

Lemma status_eqb_ne a b : a <> b -> status_eqb a b = false.
Proof. by destruct (status_eqb_spec a b). Qed.

Lemma readers_woken_trans s1 s2 s3 : readers_woken s1 s2 -> readers_woken s2 s3 -> readers_woken s1 s3.
Proof.
  intros [A1 A2 A3 A4] [B1 B2 B3 B4]. unfold due_readers in B1.
  rewrite (status_eqb_ne _ _ A4) in B1, B2. injection B1 as E.
  constructor; [by rewrite A1, E|congruence|congruence|done].
Qed.

Lemma writers_woken_trans s1 s2 s3 : writers_woken s1 s2 -> writers_woken s2 s3 -> writers_woken s1 s3.
Proof.
  intros [A1 A2 A3 A4] [B1 B2 B3 B4]. unfold due_writers in B1.
  rewrite (status_eqb_ne _ _ A4) in B1, B2. injection B1 as E.
  constructor; [by rewrite A1, E|congruence|congruence|done].
Qed.

Lemma wakeable_nil e : wakeable [] e.
Proof. by exists e. Qed.

(** What stays the same when bytes move. *)
Definition same_ends (b b' : PipeRingBuffer) : Prop :=
  read_end_closed b' = read_end_closed b /\ write_end_closed b' = write_end_closed b.

Lemma ring_write_byte_spec s x : ring_wf (ring s) -> 0 < room (ring s) ->
  read_end_closed (ring s) = false -> wakeable (due_readers (ring s)) (p_ex s) ->
  exists e' b', ring_write_byte x s = Ret (Ok tt, mkPsys e' (p_mem s) b') /\
    ring_wf b' /\ contents b' = contents (ring s) ++ [x] /\ same_ends (ring s) b' /\
    due_readers b' = [] /\ readers_woken s (mkPsys e' (p_mem s) b').
Proof.
  intros Hw Hr Hc [e' He]. pose proof (avail_facts _ Hw) as (Ha & Ht & Hemp & Hfull).
  unfold room in Hr. rewrite (zlen_contents _ Hw) in Hr.
  destruct s as [e m b]. cbn [ring p_ex p_mem] in *. destruct Hw as [Hl Hh Htl Hs].
  assert (rb_status b <> RbFull) as Hnf by (intros E; apply Hfull in E; lia).
  unfold ring_write_byte. st_unfold. cbn [ring]. destruct (status_eqb_spec (rb_status b) RbFull); [done|].
  rewrite Hc. unfold index_set. unfold zlen in Hl.
  destruct (Z.leb_spec 0 (rb_tail b)), (Z.ltb_spec (rb_tail b) (Z.of_nat (length (rb_arr b))));
    try lia. cbn [andb].
  set (a := available_read b) in *.
  set (b1 := mkRing _ _ _ _ _ _ _ _).
  assert (available_read b1 = a + 1) as Ha1.
  { unfold available_read, b1. cbn. unfold RING_BUFFER_SIZE in *.
    destruct (Z.eqb_spec ((rb_tail b + 1) mod 16384) (rb_head b)); cbn; zcases; lia. }
  assert (rb_status b1 <> RbEmpty) as Hne1 by (unfold b1; cbn; by destruct (_ =? _)).
  assert (ring_wf b1) as Hw1.
  { constructor; cbn; [unfold zlen; by rewrite length_insert|done
      |unfold RING_BUFFER_SIZE; lia|].
    destruct (Z.eqb_spec ((rb_tail b + 1) mod RING_BUFFER_SIZE) (rb_head b)); split; done || lia. }
  assert (contents b1 = contents b ++ [x]) as Hc1.
  { unfold contents. rewrite Ha1. unfold b1. cbn [rb_arr rb_head]. fold a. rewrite Ht.
    apply ring_list_insert; [done|lia|exact Hl]. }
  unfold due_readers in He.
  destruct (status_eqb_spec (rb_status b) RbEmpty) as [Hb|Hb].
  - exists e', (set_read_waiters [] b1). unfold notify_readers, on_pex, set_ring. st_unfold.
    cbn [ring p_ex p_mem read_waiters b1]. rewrite He. split; [done|].
    split; [by destruct Hw1|]. split; [exact Hc1|]. split; [done|].
    split; [unfold due_readers; by destruct (status_eqb _ _)|].
    constructor; cbn [ring p_ex]; unfold due_readers; rewrite ?Hb; done.
  - injection He as <-. exists e, b1. split; [done|]. split; [done|]. split; [done|].
    split; [done|]. split; [unfold due_readers; by rewrite (status_eqb_ne _ _ Hne1)|].
    constructor; cbn [ring p_ex]; unfold due_readers; rewrite ?(status_eqb_ne _ _ Hb); done.
Qed.

Lemma ring_read_byte_spec s c q : ring_wf (ring s) -> contents (ring s) = c :: q ->
  wakeable (due_writers (ring s)) (p_ex s) ->
  exists e' b', ring_read_byte s = Ret (Some c, mkPsys e' (p_mem s) b') /\
    ring_wf b' /\ contents b' = q /\ same_ends (ring s) b' /\ due_writers b' = [] /\
    writers_woken s (mkPsys e' (p_mem s) b').
Proof.
  intros Hw Hcq [e' He]. pose proof (avail_facts _ Hw) as (Ha & Ht & Hemp & Hfull).
  pose proof (zlen_contents _ Hw) as Hlen. rewrite Hcq in Hlen.
  destruct s as [e m b]. cbn [ring p_ex p_mem] in *. destruct Hw as [Hl Hh Htl Hs].
  set (a := available_read b) in *.
  assert (0 < a) as Hpos by (rewrite <- Hlen; unfold zlen; cbn; lia).
  unfold contents in Hcq. fold a in Hcq. rewrite ring_list_cons in Hcq by done.
  injection Hcq as Hc Hq.
  unfold ring_read_byte. st_unfold. cbn [ring].
  destruct (status_eqb_spec (rb_status b) RbEmpty) as [E|]; [apply Hemp in E; lia|].
  assert (index (rb_arr b) (rb_head b) = Ret c) as ->.
  { apply index_Ret. split; [lia|]. subst c. unfold ring_at. rewrite Z.mod_small by done.
    unfold zlen in Hl. destruct (lookup_lt_is_Some_2 (rb_arr b) (Z.to_nat (rb_head b)))
      as [y Hy]; [lia|]. by rewrite Hy. }
  set (b1 := mkRing _ _ _ _ _ _ _ _).
  assert (available_read b1 = a - 1) as Ha1.
  { unfold available_read, b1. cbn. unfold RING_BUFFER_SIZE in *.
    destruct (Z.eqb_spec ((rb_head b + 1) mod 16384) (rb_tail b)); cbn; zcases; lia. }
  assert (rb_status b1 <> RbFull) as Hne1 by (unfold b1; cbn; by destruct (_ =? _)).
  assert (ring_wf b1) as Hw1.
  { constructor; cbn; [exact Hl|unfold RING_BUFFER_SIZE; lia|done|].
    destruct (Z.eqb_spec ((rb_head b + 1) mod RING_BUFFER_SIZE) (rb_tail b)); split; done || lia. }
  assert (contents b1 = q) as Hc1 by (unfold contents; rewrite Ha1; exact Hq).
  unfold due_writers in He.
  destruct (status_eqb_spec (rb_status b) RbFull) as [Hb|Hb].
  - exists e', (set_write_waiters [] b1). unfold notify_writers, on_pex, set_ring. st_unfold.
    cbn [ring p_ex p_mem write_waiters b1]. rewrite He. split; [done|].
    split; [by destruct Hw1|]. split; [exact Hc1|]. split; [done|].
    split; [unfold due_writers; by destruct (status_eqb _ _)|].
    constructor; cbn [ring p_ex]; unfold due_writers; rewrite ?Hb; done.
  - injection He as <-. exists e, b1. split; [done|]. split; [done|]. split; [done|].
    split; [done|]. split; [unfold due_writers; by rewrite (status_eqb_ne _ _ Hne1)|].
    constructor; cbn [ring p_ex]; unfold due_writers; rewrite ?(status_eqb_ne _ _ Hb); done.
Qed.

(** ** Segments of a user buffer *)

(** [s'] is [s] after the bytes [bs] were queued. *)
Record queued (s s' : psys) (bs : list Z) : Prop := {
  qd_wf : ring_wf (ring s');
  qd_contents : contents (ring s') = contents (ring s) ++ bs;
  qd_ends : same_ends (ring s) (ring s');
  qd_mem : p_mem s' = p_mem s;
  qd_wake : wakeable (due_readers (ring s')) (p_ex s');
  qd_none : bs = [] -> s' = s;
  qd_some : bs <> [] -> readers_woken s s'
}.

(** [s'] is [s] after bytes were taken and stored at [addrs], as many as
    there were. *)
Record dequeued (s s' : psys) (addrs : list Z) : Prop := {
  dq_wf : ring_wf (ring s');
  dq_contents : contents (ring s') = drop (length addrs) (contents (ring s));
  dq_ends : same_ends (ring s) (ring s');
  dq_mem : p_mem s' = write_addrs (p_mem s) addrs (contents (ring s));
  dq_wake : wakeable (due_writers (ring s')) (p_ex s');
  dq_none : addrs = [] \/ contents (ring s) = [] -> s' = s;
  dq_some : addrs <> [] -> contents (ring s) <> [] -> writers_woken s s'
}.

Lemma queued_room s s' bs : queued s s' bs -> room (ring s') = room (ring s) - zlen bs.
Proof. intros [_ H _ _ _ _ _]. unfold room. rewrite H, zlen_app. lia. Qed.

Lemma queued_trans s1 s2 s3 bs1 bs2 : queued s1 s2 bs1 -> queued s2 s3 bs2 ->
  queued s1 s3 (bs1 ++ bs2).
Proof.
  intros [_ H1 [H2 H3] H4 _ H6 H7] [K0 K1 [K2 K3] K4 K5 K6 K7].
  constructor; [done|by rewrite K1, H1, app_assoc|split; congruence|congruence|done| |].
  - intros [E1 E2]%app_eq_nil. by rewrite (K6 E2), (H6 E1).
  - intros Hn. destruct bs1 as [|x1 l1]; [rewrite <- (H6 eq_refl); by apply K7|].
    destruct bs2 as [|x2 l2]; [rewrite (K6 eq_refl); by apply H7|].
    by apply (readers_woken_trans _ s2); [apply H7|apply K7].
Qed.

Lemma queued_nil s : ring_wf (ring s) -> wakeable (due_readers (ring s)) (p_ex s) -> queued s s [].
Proof. intros. constructor; [done|by rewrite app_nil_r|done..]. Qed.

Lemma room_nonneg b : ring_wf b -> 0 <= room b.
Proof.
  intros Hw. unfold room. rewrite (zlen_contents b Hw).
  apply avail_facts in Hw as [? _]. lia.
Qed.

Lemma write_segment_spec seg js : forall total len s,
  ring_wf (ring s) -> read_end_closed (ring s) = false ->
  wakeable (due_readers (ring s)) (p_ex s) ->
  0 <= total -> total + zlen js <= len -> len < u64_bound ->
  exists s',
    write_segment seg js total len s =
    Ret (if zlen js <=? room (ring s) then inl (us_len seg, total + zlen js)
         else inr (total + room (ring s)), s') /\
    queued s s' (take (Z.to_nat (room (ring s)))
                   ((fun j => pa_read (p_mem s) (us_pa seg + j)) <$> js)).
Proof.
  induction js as [|j js IH]; intros total len s Hw Hc Hk Ht Hl Hu.
  - pose proof (room_nonneg _ Hw). exists s. change (zlen []) with 0.
    destruct (Z.leb_spec 0 (room (ring s))); [|lia]. rewrite Z.add_0_r. split; [done|].
    cbn [fmap list_fmap]. rewrite take_nil. by apply queued_nil.
  - rewrite zlen_cons in *. pose proof (zlen_nonneg js). cbn [write_segment].
    destruct (Z.ltb_spec total len); [|lia]. st_unfold. cbn [ring].
    rewrite (available_write_room _ Hw). pose proof (room_nonneg _ Hw).
    destruct (Z.ltb_spec 0 (room (ring s))).
    + destruct (ring_write_byte_spec s (pa_read (p_mem s) (us_pa seg + j)))
        as (e' & b' & -> & Hw' & Hc' & He' & Hd' & Hwk); [done..|].
      cbn [result_unwrap]. rewrite uadd_Ret by lia. set (s1 := mkPsys e' (p_mem s) b').
      assert (queued s s1 [pa_read (p_mem s) (us_pa seg + j)]) as Hq1.
      { constructor; [done..| |done|done]. cbn. rewrite Hd'. apply wakeable_nil. }
      pose proof (queued_room _ _ _ Hq1) as Hr1. change (zlen [_]) with 1 in Hr1.
      destruct (IH (total + 1) len s1) as (s' & -> & Hq);
        [done|exact (eq_trans (proj1 He') Hc)|apply Hq1|lia|lia|done|].
      exists s'. split.
      * rewrite Hr1. do 2 f_equal.
        destruct (Z.leb_spec (zlen js) (room (ring s) - 1)),
          (Z.leb_spec (1 + zlen js) (room (ring s))); try lia; first [f_equal; lia | do 2 f_equal; lia].
      * replace (Z.to_nat (room (ring s))) with (S (Z.to_nat (room (ring s1)))) by lia.
        apply (queued_trans s s1 s' _ _ Hq1 Hq).
    + assert (room (ring s) = 0) as -> by lia. exists s.
      destruct (Z.leb_spec (1 + zlen js) 0); [lia|]. rewrite Z.add_0_r. split; [done|].
      by apply queued_nil.
Qed.

Lemma seg_data m seg : 0 <= us_len seg ->
  (fun j => pa_read m (us_pa seg + j)) <$> zrange 0 (us_len seg) = pa_read m <$> us_addrs seg.
Proof.
  intros. unfold us_addrs. pose proof (zrange_shift (us_pa seg) 0 (us_len seg)) as Hz.
  rewrite Z.add_0_r in Hz. rewrite Hz, <- list_fmap_compose. done.
Qed.

Lemma write_segments_spec segs : forall total len s,
  ub_wf segs -> ring_wf (ring s) -> read_end_closed (ring s) = false ->
  wakeable (due_readers (ring s)) (p_ex s) ->
  0 <= total -> total + zlen (ub_addrs segs) = len -> len < u64_bound ->
  exists s',
    write_segments segs total len s =
    Ret (total + Z.min (zlen (ub_addrs segs)) (room (ring s)), s') /\
    queued s s' (take (Z.to_nat (room (ring s))) (pa_read (p_mem s) <$> ub_addrs segs)).
Proof.
  induction segs as [|seg segs IH]; intros total len s Hb Hw Hc Hk Ht Hl Hu; cbn [write_segments].
  - pose proof (room_nonneg _ Hw). exists s. split.
    + change (zlen (ub_addrs [])) with 0. rewrite Z.min_l by lia. by rewrite Z.add_0_r.
    + cbn. rewrite take_nil. by apply queued_nil.
  - apply ub_wf_cons in Hb as (H1 & H2 & Hb & E). rewrite E in *.
    pose proof (zlen_nonneg (ub_addrs segs)). pose proof (room_nonneg _ Hw).
    assert (zlen (zrange 0 (us_len seg)) = us_len seg) as Hz
      by (unfold zlen; rewrite length_zrange; lia).
    destruct (write_segment_spec seg (zrange 0 (us_len seg)) total len s) as (s1 & Hs1 & Hq1);
      [done|done|done|done|lia|done|].
    unfold mbind, ST_bind. rewrite Hs1, Hz. rewrite seg_data in Hq1 by done.
    change (ub_addrs (seg :: segs)) with (us_addrs seg ++ ub_addrs segs).
    rewrite fmap_app. assert (zlen (us_addrs seg) = us_len seg) as Hza
      by (unfold zlen, us_addrs; rewrite length_zrange; lia).
    assert (length (pa_read (p_mem s) <$> us_addrs seg) = Z.to_nat (us_len seg)) as Hlen
      by (rewrite length_fmap; unfold zlen in Hza; lia).
    rewrite take_app, Hlen. destruct (Z.leb_spec (us_len seg) (room (ring s))) as [Hle|Hgt].
    + rewrite Z.eqb_refl. rewrite (take_ge (pa_read (p_mem s) <$> us_addrs seg)) in Hq1 by lia.
      rewrite (take_ge (pa_read (p_mem s) <$> us_addrs seg)) by lia.
      pose proof (queued_room _ _ _ Hq1) as Hr1.
      assert (zlen (pa_read (p_mem s) <$> us_addrs seg) = us_len seg) as Hzd
        by (unfold zlen; rewrite Hlen; lia). rewrite Hzd in Hr1.
      destruct segs as [|seg2 segs2].
      * exists s1. split; [change (zlen (ub_addrs [])) with 0; rewrite Z.min_l by lia; by rewrite Z.add_0_r|].
        cbn. by rewrite take_nil, app_nil_r.
      * destruct (Z.eqb_spec (total + us_len seg) len).
        -- assert (ub_addrs (seg2 :: segs2) = []) as ->
             by (destruct (ub_addrs (seg2 :: segs2)); [done|]; rewrite zlen_cons in *;
                 pose proof (zlen_nonneg l); lia).
           exists s1. change (zlen []) with 0. rewrite Z.min_l by lia.
           rewrite Z.add_0_r. split; [done|]. cbn. by rewrite take_nil, app_nil_r.
        -- destruct (IH (total + us_len seg) len s1) as (s2 & -> & Hq2);
             [done|apply Hq1|exact (eq_trans (proj1 (qd_ends _ _ _ Hq1)) Hc)|apply Hq1|lia|lia|done|].
           exists s2. rewrite Hr1 in *. split; [do 2 f_equal; lia|].
           rewrite (qd_mem _ _ _ Hq1) in Hq2.
           replace (Z.to_nat (room (ring s)) - Z.to_nat (us_len seg))%nat
             with (Z.to_nat (room (ring s) - us_len seg)) by lia.
           by apply (queued_trans s s1 s2).
    + exists s1. split; [rewrite Z.min_r by lia; done|].
      replace (Z.to_nat (room (ring s)) - Z.to_nat (us_len seg))%nat with 0%nat by lia.
      rewrite take_0, app_nil_r. exact Hq1.
Qed.

Lemma dequeued_trans s1 s2 s3 a1 a2 : dequeued s1 s2 a1 -> dequeued s2 s3 a2 ->
  dequeued s1 s3 (a1 ++ a2).
Proof.
  intros [_ H1 [H2 H3] H4 _ H6 H7] [K0 K1 [K2 K3] K4 K5 K6 K7].
  constructor; [done| |split; congruence| |done| |].
  - by rewrite K1, H1, drop_drop, length_app.
  - by rewrite K4, H4, H1, write_addrs_app.
  - intros [[E1 E2]%app_eq_nil|E].
    + by rewrite (K6 (or_introl E2)), (H6 (or_introl E1)).
    + specialize (H6 (or_intror E)) as ->. by rewrite (K6 (or_intror E)).
  - intros Hn Hc. destruct a1 as [|x1 l1]; [rewrite <- (H6 (or_introl eq_refl)) in *; by apply K7|].
    specialize (H7 ltac:(done) Hc). destruct a2 as [|x2 l2]; [by rewrite (K6 (or_introl eq_refl))|].
    destruct (contents (ring s2)) as [|c q]; [by rewrite (K6 (or_intror eq_refl))|].
    by apply (writers_woken_trans _ s2); [done|apply K7].
Qed.

Lemma dequeued_none s addrs : ring_wf (ring s) -> wakeable (due_writers (ring s)) (p_ex s) ->
  addrs = [] \/ contents (ring s) = [] -> dequeued s s addrs.
Proof.
  intros Hw Hk [->|E].
  - by constructor.
  - constructor; [done|by rewrite E, drop_nil|done|by rewrite E, write_addrs_nil|done|done|done].
Qed.

Lemma read_segment_spec seg js : forall total len s,
  Forall (fun j => 0 <= j < us_len seg) js ->
  ring_wf (ring s) -> wakeable (due_writers (ring s)) (p_ex s) ->
  0 <= total -> total + zlen js <= len -> len < u64_bound ->
  exists s',
    read_segment seg js total len s =
    Ret (if zlen js <=? zlen (contents (ring s)) then inl (us_len seg, total + zlen js)
         else inr (total + zlen (contents (ring s))), s') /\
    dequeued s s' (Z.add (us_pa seg) <$> js).
Proof.
  induction js as [|j js IH]; intros total len s Hj Hw Hk Ht Hl Hu.
  - exists s. change (zlen []) with 0. pose proof (zlen_nonneg (contents (ring s))).
    destruct (Z.leb_spec 0 (zlen (contents (ring s)))); [|lia]. rewrite Z.add_0_r.
    split; [done|]. apply dequeued_none; [done|done|by left].
  - apply Forall_cons_1 in Hj as [Hj0 Hj]. rewrite zlen_cons in *. pose proof (zlen_nonneg js).
    cbn [read_segment]. destruct (Z.ltb_spec total len); [|lia].
    destruct (contents (ring s)) as [|c q] eqn:Ec.
    + exists s. assert (ring_read_byte s = Ret (None, s)) as Hr.
      { pose proof (zlen_contents _ Hw) as Hz. rewrite Ec in Hz. change (zlen []) with 0 in Hz.
        apply avail_facts in Hw as (_ & _ & [_ He] & _). unfold ring_read_byte. st_unfold.
        rewrite He by done. done. }
      unfold mbind, ST_bind. rewrite Hr. change (zlen []) with 0.
      destruct (Z.leb_spec (1 + zlen js) 0); [lia|]. rewrite Z.add_0_r. split; [done|].
      apply dequeued_none; [done|done|by right].
    + destruct (ring_read_byte_spec s c q) as (e' & b' & Hr & Hw' & Hc' & He' & Hd' & Hwk); [done..|].
      unfold mbind, ST_bind. rewrite Hr. unfold on_pmem, us_set. st_unfold. cbn [p_mem].
      destruct (Z.leb_spec 0 j), (Z.ltb_spec j (us_len seg)); try lia. cbn [rassert andb].
      rewrite uadd_Ret by lia. cbn [p_ex ring].
      set (s1 := mkPsys e' (pa_write (p_mem s) (us_pa seg + j) c) b').
      assert (dequeued s s1 [us_pa seg + j]) as Hq1.
      { constructor; [done|by rewrite Ec|done|by rewrite Ec| |by rewrite Ec; intros []|].
        - cbn. rewrite Hd'. apply wakeable_nil.
        - intros _ _. by destruct Hwk. }
      destruct (IH (total + 1) len s1) as (s' & -> & Hq); [done|done|apply Hq1|lia|lia|done|].
      exists s'. split; [|by apply (dequeued_trans s s1 s' [_])].
      change (contents (ring s1)) with (contents b'). rewrite Hc', zlen_cons. do 2 f_equal.
      destruct (Z.leb_spec (zlen js) (zlen q)), (Z.leb_spec (1 + zlen js) (1 + zlen q)); try lia;
        first [f_equal; lia | do 2 f_equal; lia].
Qed.

Lemma seg_addrs seg : Z.add (us_pa seg) <$> zrange 0 (us_len seg) = us_addrs seg.
Proof.
  unfold us_addrs. pose proof (zrange_shift (us_pa seg) 0 (us_len seg)) as Hz.
  rewrite Z.add_0_r in Hz. by rewrite Hz.
Qed.

Lemma read_segments_spec segs : forall total len s,
  ub_wf segs -> ring_wf (ring s) -> wakeable (due_writers (ring s)) (p_ex s) ->
  0 <= total -> total + zlen (ub_addrs segs) = len -> len < u64_bound ->
  exists s',
    read_segments segs total len s =
    Ret (total + Z.min (zlen (ub_addrs segs)) (zlen (contents (ring s))), s') /\
    dequeued s s' (ub_addrs segs).
Proof.
  induction segs as [|seg segs IH]; intros total len s Hb Hw Hk Ht Hl Hu; cbn [read_segments].
  - pose proof (zlen_nonneg (contents (ring s))). exists s. change (zlen (ub_addrs [])) with 0.
    rewrite Z.min_l by lia. rewrite Z.add_0_r. split; [done|].
    apply dequeued_none; [done|done|by left].
  - apply ub_wf_cons in Hb as (H1 & H2 & Hb & E). rewrite E in *.
    pose proof (zlen_nonneg (ub_addrs segs)). pose proof (zlen_nonneg (contents (ring s))).
    assert (zlen (zrange 0 (us_len seg)) = us_len seg) as Hz
      by (unfold zlen; rewrite length_zrange; lia).
    destruct (read_segment_spec seg (zrange 0 (us_len seg)) total len s) as (s1 & Hs1 & Hq1);
      [apply List.Forall_forall; intros j Hj%list_elem_of_In%elem_of_zrange; lia
      |done|done|done|lia|done|].
    unfold mbind, ST_bind. rewrite Hs1, Hz. rewrite seg_addrs in Hq1.
    change (ub_addrs (seg :: segs)) with (us_addrs seg ++ ub_addrs segs).
    assert (length (us_addrs seg) = Z.to_nat (us_len seg)) as Hlen
      by (unfold us_addrs; rewrite length_zrange; lia).
    pose proof (dq_contents _ _ _ Hq1) as Hc1. rewrite Hlen in Hc1.
    assert (zlen (contents (ring s1)) = Z.max 0 (zlen (contents (ring s)) - us_len seg)) as Hz1
      by (rewrite Hc1; unfold zlen; rewrite length_drop; lia).
    destruct (Z.leb_spec (us_len seg) (zlen (contents (ring s)))) as [Hle|Hgt].
    + rewrite Z.eqb_refl. destruct segs as [|seg2 segs2].
      * exists s1. change (ub_addrs []) with (@nil Z). rewrite app_nil_r.
        split; [change (zlen []) with 0; rewrite Z.min_l by lia; by rewrite Z.add_0_r|done].
      * destruct (Z.eqb_spec (total + us_len seg) len).
        -- assert (ub_addrs (seg2 :: segs2) = []) as ->
             by (destruct (ub_addrs (seg2 :: segs2)); [done|]; rewrite zlen_cons in *;
                 pose proof (zlen_nonneg l); lia).
           exists s1. change (zlen []) with 0. rewrite Z.min_l by lia.
           rewrite Z.add_0_r, app_nil_r. done.
        -- destruct (IH (total + us_len seg) len s1) as (s2 & -> & Hq2);
             [done|apply Hq1|apply Hq1|lia|lia|done|].
           exists s2. split; [do 2 f_equal; lia|]. by apply (dequeued_trans s s1 s2).
    + exists s1. split; [rewrite Z.min_r by lia; done|].
      assert (contents (ring s1) = []) as Hn.
      { destruct (contents (ring s1)); [done|]. rewrite zlen_cons in Hz1.
        pose proof (zlen_nonneg l). lia. }
      apply (dequeued_trans s s1 s1); [done|].
      apply dequeued_none; [apply Hq1|apply Hq1|by right].
Qed.

(** ** Theorems *)

(** An empty ring is one with no bytes, a full ring one with no room. *)
Lemma due_readers_eq b : ring_wf b ->
  due_readers b = if decide (contents b = []) then read_waiters b else [].
Proof.
  intros Hw. pose proof (zlen_contents b Hw) as Hz. apply avail_facts in Hw as (_ & _ & He & _).
  unfold due_readers. rewrite <- Hz in He. unfold zlen in He.
  destruct (status_eqb_spec (rb_status b) RbEmpty), (decide (contents b = [])) as [E|E]; try done.
  - destruct (contents b); [done|]. exfalso. apply He in e. cbn [length] in e. lia.
  - rewrite E in He. exfalso. apply n, He. done.
Qed.

Lemma due_writers_eq b : ring_wf b ->
  due_writers b = if decide (room b = 0) then write_waiters b else [].
Proof.
  intros Hw. pose proof (zlen_contents b Hw) as Hz. apply avail_facts in Hw as (_ & _ & _ & Hf).
  unfold due_writers, room. rewrite Hz.
  destruct (status_eqb_spec (rb_status b) RbFull) as [E|E], (decide (_ = 0)); try done; exfalso.
  - apply Hf in E. lia.
  - apply E, Hf. lia.
Qed.

(** The list of waiters with [w] in it, once. *)
Definition waiters_add (w : Z) (l : list Z) : list Z :=
  if decide (w ∈ l) then l else l ++ [w].

Lemma waiters_add_eq w l :
  waiters_add w l = if existsb (Z.eqb w) l then l else l ++ [w].
Proof.
  unfold waiters_add. destruct (existsb (Z.eqb w) l) eqn:E.
  - apply existsb_exists in E as (x & Hx & ->%Z.eqb_eq). rewrite decide_True; [done|].
    by apply list_elem_of_In.
  - rewrite decide_False; [done|]. intros Hx%list_elem_of_In.
    apply not_true_iff_false in E. apply E, existsb_exists. exists w. split; [done|apply Z.eqb_refl].
Qed.

(** Bytes can be written. *)
Lemma pipe_write_bytes p waiting buf w s : p_writable p = true ->
  ub_wf buf -> 0 < zlen (ub_addrs buf) ->
  ring_wf (ring s) -> read_end_closed (ring s) = false -> 0 < room (ring s) ->
  wakeable (due_readers (ring s)) (p_ex s) ->
  let data := pa_read (p_mem s) <$> ub_addrs buf in
  let n := Z.min (zlen data) (room (ring s)) in
  exists s', pipe_write_poll p waiting buf w s = Ret (Ready (Ok n), s') /\
    queued s s' (take (Z.to_nat n) data) /\ readers_woken s s'.
Proof.
  intros Hp Hb Hl Hw Hc Hr Hk data n. pose proof Hb as [_ Hu].
  destruct (write_segments_spec buf 0 (zlen (ub_addrs buf)) s) as (s' & Hs & Hq); [done..|].
  assert (zlen data = zlen (ub_addrs buf)) as Hd by (unfold zlen, data; by rewrite length_fmap).
  exists s'. unfold pipe_write_poll. rewrite Hp. cbn [negb]. st_unfold.
  rewrite (ub_len_eq buf Hb). destruct (Z.eqb_spec (zlen (ub_addrs buf)) 0); [lia|].
  rewrite Hc, (available_write_room _ Hw). destruct (Z.ltb_spec 0 (room (ring s))); [|lia].
  rewrite Hs. split; [unfold n; by rewrite Hd|]. fold data in Hq.
  assert (take (Z.to_nat n) data = take (Z.to_nat (room (ring s))) data) as Hn.
  { unfold n. destruct (Z.min_spec (zlen data) (room (ring s))) as [[? ->]|[? ->]];
      [|done]. rewrite !take_ge; [done|unfold zlen in *; lia..]. }
  split; [by rewrite Hn|]. apply (qd_some _ _ _ Hq).
  intros E%(f_equal length). rewrite length_take in E. cbn [length] in E. unfold zlen in *. lia.
Qed.

(** Bytes can be read. *)
Lemma pipe_read_bytes p waiting buf w s : p_readable p = true ->
  ub_wf buf -> 0 < zlen (ub_addrs buf) ->
  ring_wf (ring s) -> contents (ring s) <> [] ->
  wakeable (due_writers (ring s)) (p_ex s) ->
  exists s', pipe_read_poll p waiting buf w s =
      Ret (Ready (Ok (Z.min (zlen (ub_addrs buf)) (zlen (contents (ring s))))), s') /\
    dequeued s s' (ub_addrs buf) /\ writers_woken s s'.
Proof.
  intros Hp Hb Hl Hw Hc Hk. pose proof Hb as [_ Hu].
  destruct (read_segments_spec buf 0 (zlen (ub_addrs buf)) s) as (s' & Hs & Hq); [done..|].
  exists s'. unfold pipe_read_poll. rewrite Hp. cbn [negb]. st_unfold.
  rewrite (ub_len_eq buf Hb). destruct (Z.eqb_spec (zlen (ub_addrs buf)) 0); [lia|].
  rewrite <- (zlen_contents _ Hw).
  destruct (Z.ltb_spec 0 (zlen (contents (ring s)))) as [|E].
  2: { destruct (contents (ring s)); [done|]. rewrite zlen_cons in E. pose proof (zlen_nonneg l). lia. }
  rewrite Hs. split; [done|]. split; [done|]. apply (dq_some _ _ _ Hq); [|done].
  intros E. rewrite E in Hl. done.
Qed.

(** C3: What a poll of [write] of a non-empty buffer does on the writing end
    of a pipe, whatever the state of the pipe.  When the reading end is closed
    it returns EPIPE and changes nothing.  When there is room it appends to
    the queue the first bytes of the user buffer, as many as fit, and returns
    their number: bytes that are queued keep their order, user memory is
    untouched, the ring never holds more than its size; if the queue was empty
    every waiting reader is woken, in the order they came, and the list of the
    waiting readers is empty afterwards; if it was not, the executor and the
    waiting readers stay as they were.  When there is no room it changes
    nothing and returns EAGAIN for a non-blocking pipe whose write is not
    suspended, and otherwise the waker of the writer is among the waiting
    writers, added when it was not, and the write is pending.  The waiting readers must be in a state in which
    [wakeup_task] does not panic. *)
Theorem pipe_write_refines p waiting buf w s : p_writable p = true ->
  ub_wf buf -> 0 < zlen (ub_addrs buf) -> ring_wf (ring s) ->
  wakeable (due_readers (ring s)) (p_ex s) ->
  let data := pa_read (p_mem s) <$> ub_addrs buf in
  let left := RING_BUFFER_SIZE - zlen (contents (ring s)) in
  let n := Z.min (zlen data) left in
  (read_end_closed (ring s) = true ->
    pipe_write_poll p waiting buf w s = Ret (Ready (Err EPIPE), s)) /\
  (read_end_closed (ring s) = false -> 0 < left ->
    exists s', pipe_write_poll p waiting buf w s = Ret (Ready (Ok n), s') /\
      contents (ring s') = contents (ring s) ++ take (Z.to_nat n) data /\
      zlen (contents (ring s')) <= RING_BUFFER_SIZE /\
      p_mem s' = p_mem s /\ ring_wf (ring s') /\ same_ends (ring s) (ring s') /\
      write_waiters (ring s') = write_waiters (ring s) /\
      (contents (ring s) = [] ->
        st_iter wakeup_task (read_waiters (ring s)) (p_ex s) = Ret (tt, p_ex s') /\
        read_waiters (ring s') = []) /\
      (contents (ring s) <> [] ->
        p_ex s' = p_ex s /\ read_waiters (ring s') = read_waiters (ring s))) /\
  (read_end_closed (ring s) = false -> left = 0 ->
    pipe_write_poll p waiting buf w s =
    Ret (if negb waiting && is_non_block p then (Ready (Err EAGAIN), s)
         else (Pending, mkPsys (p_ex s) (p_mem s)
                 (set_write_waiters (waiters_add w (write_waiters (ring s))) (ring s))))).
Proof.
  intros Hp Hb Hl Hw Hk data left n.
  assert (pipe_write_poll p waiting buf w s =
    if read_end_closed (ring s) then Ret (Ready (Err EPIPE), s)
    else pipe_write_poll p waiting buf w s) as Hpoll.
  { destruct (read_end_closed (ring s)) eqn:E; [|done]. unfold pipe_write_poll. rewrite Hp. cbn [negb].
    st_unfold. rewrite (ub_len_eq buf Hb). destruct (Z.eqb_spec (zlen (ub_addrs buf)) 0); [lia|]. by rewrite E. }
  split; [by intros E; rewrite Hpoll, E|]. split.
  - intros E Hr. destruct (pipe_write_bytes p waiting buf w s) as (s' & Hs & Hq & Hrw); [done..|].
    exists s'. split; [exact Hs|]. pose proof (qd_wf _ _ _ Hq) as Hw'.
    pose proof (room_nonneg _ Hw') as H0. unfold room in H0.
    destruct Hrw as [R1 R2 R3 _]. rewrite (due_readers_eq _ Hw) in R1.
    pose proof (due_readers_eq (ring s) Hw) as Hd. unfold due_readers in Hd.
    split; [apply Hq|]. split; [lia|]. do 3 (split; [apply Hq|]). split; [exact R3|].
    split; intros Hn; rewrite R2.
    + rewrite decide_True in R1, Hd by done. split; [done|]. by destruct (status_eqb _ _).
    + rewrite decide_False in R1 by done. injection R1 as <-. split; [done|].
      destruct (status_eqb_spec (rb_status (ring s)) RbEmpty) as [Hb'|]; [|done].
      apply (avail_facts _ Hw) in Hb'. rewrite <- (zlen_contents _ Hw) in Hb'.
      destruct (contents (ring s)); [done|]. rewrite zlen_cons in Hb'. pose proof (zlen_nonneg l). lia.
  - intros E Hr. unfold pipe_write_poll. rewrite Hp. cbn [negb]. st_unfold.
    rewrite (ub_len_eq buf Hb). destruct (Z.eqb_spec (zlen (ub_addrs buf)) 0); [lia|].
    rewrite E, (available_write_room _ Hw). unfold room. fold left. rewrite Hr.
    change (0 <? 0) with false. rewrite waiters_add_eq. unfold register_writer_waker, set_ring. st_unfold.
    destruct (negb waiting && is_non_block p); [done|].
    by destruct (existsb _ _), s as [? ? []].
Qed.

(** C8: What a poll of [read] of a non-empty buffer does on the reading end of
    a pipe, whatever the state of the pipe.  When the pipe holds bytes it takes
    from the front of the queue as many as are there and the user buffer holds,
    stores them in the user buffer in order and returns their number, and the
    rest of the queue stays; if the ring was full every waiting writer is
    woken, in the order they came, and the list of the waiting writers is empty
    afterwards; if it was not, the executor and the waiting writers stay as
    they were.  When the pipe is empty nothing changes when the writing end is
    closed, where the end of the file is returned, and for a non-blocking pipe
    whose read is not suspended, where EAGAIN is; otherwise the waker of the
    reader is among the waiting readers, added when it was not, and the read is
    pending.  The
    waiting writers must be in a state in which [wakeup_task] does not panic. *)
Theorem pipe_read_refines p waiting buf w s : p_readable p = true ->
  ub_wf buf -> 0 < zlen (ub_addrs buf) -> ring_wf (ring s) ->
  wakeable (due_writers (ring s)) (p_ex s) ->
  let n := Z.min (zlen (ub_addrs buf)) (zlen (contents (ring s))) in
  (contents (ring s) <> [] ->
    exists s', pipe_read_poll p waiting buf w s = Ret (Ready (Ok n), s') /\
      0 < n /\ contents (ring s') = drop (Z.to_nat n) (contents (ring s)) /\
      p_mem s' = write_addrs (p_mem s) (ub_addrs buf) (contents (ring s)) /\
      ring_wf (ring s') /\ same_ends (ring s) (ring s') /\
      read_waiters (ring s') = read_waiters (ring s) /\
      (zlen (contents (ring s)) = RING_BUFFER_SIZE ->
        st_iter wakeup_task (write_waiters (ring s)) (p_ex s) = Ret (tt, p_ex s') /\
        write_waiters (ring s') = []) /\
      (zlen (contents (ring s)) <> RING_BUFFER_SIZE ->
        p_ex s' = p_ex s /\ write_waiters (ring s') = write_waiters (ring s))) /\
  (contents (ring s) = [] ->
    pipe_read_poll p waiting buf w s =
    Ret (if write_end_closed (ring s) then (Ready (Ok 0), s)
         else if negb waiting && is_non_block p then (Ready (Err EAGAIN), s)
         else (Pending, mkPsys (p_ex s) (p_mem s)
                 (set_read_waiters (waiters_add w (read_waiters (ring s))) (ring s))))).
Proof.
  intros Hp Hb Hl Hw Hk n. split.
  - intros Hc. destruct (pipe_read_bytes p waiting buf w s) as (s' & Hs & Hq & Hww); [done..|].
    exists s'. split; [exact Hs|].
    assert (0 < zlen (contents (ring s))) as Hpos.
    { destruct (contents (ring s)) as [|c q]; [done|]. rewrite zlen_cons.
      pose proof (zlen_nonneg q). lia. }
    assert (contents (ring s') = drop (Z.to_nat n) (contents (ring s))) as Hc'.
    { rewrite (dq_contents _ _ _ Hq). unfold n.
      destruct (Z.min_spec (zlen (ub_addrs buf)) (zlen (contents (ring s)))) as [[? ->]|[? ->]].
      - f_equal. unfold zlen. lia.
      - rewrite !drop_ge; [done|unfold zlen in *; lia..]. }
    destruct Hww as [R1 R2 R3 _]. pose proof (due_writers_eq _ Hw) as Hd. unfold room in Hd.
    rewrite Hd in R1. unfold due_writers in Hd.
    split; [lia|]. split; [done|]. do 3 (split; [apply Hq|]). split; [exact R3|].
    split; intros Hn; rewrite R2.
    + rewrite decide_True in R1, Hd by lia. split; [done|]. by destruct (status_eqb _ _).
    + rewrite decide_False in R1 by lia. injection R1 as <-. split; [done|].
      destruct (status_eqb_spec (rb_status (ring s)) RbFull) as [Hb'|]; [|done].
      apply (avail_facts _ Hw) in Hb'. rewrite <- (zlen_contents _ Hw) in Hb'. done.
  - intros Hc. unfold pipe_read_poll. rewrite Hp. cbn [negb]. st_unfold.
    rewrite (ub_len_eq buf Hb). destruct (Z.eqb_spec (zlen (ub_addrs buf)) 0); [lia|].
    rewrite <- (zlen_contents _ Hw), Hc. change (zlen []) with 0. change (0 <? 0) with false.
    rewrite waiters_add_eq. unfold register_reader_waker, set_ring. st_unfold.
    destruct (write_end_closed (ring s)); [done|].
    destruct (negb waiting && is_non_block p); [done|].
    by destruct (existsb _ _), s as [? ? []].
Qed.

(** An executor where task 1 is blocked. *)
Definition ex_waits : exec :=
  mkExec (mkRunq (<[1 := set_inner (tcb_set_state Blocked (inner task1)) task1]> ∅) CFScheduler_new)
    (<[1 := 1]> ∅) 0.

(** An empty pipe that task 1 waits to read from, and a full pipe that it
    waits to write to. *)
Definition pipe_empty : psys := mkPsys ex_waits ∅ (set_read_waiters [1] PipeRingBuffer_new).
Definition pipe_full : psys :=
  mkPsys ex_waits ∅
    (mkRing (replicate (Z.to_nat RING_BUFFER_SIZE) 7) 5 5 RbFull false false [] [1]).

Lemma pipe_empty_wf : ring_wf (ring pipe_empty).
Proof.
  constructor; [vm_compute; reflexivity|cbn; unfold RING_BUFFER_SIZE; lia
    |cbn; unfold RING_BUFFER_SIZE; lia|done].
Qed.

Lemma pipe_full_wf : ring_wf (ring pipe_full).
Proof.
  constructor; [vm_compute; reflexivity|cbn; unfold RING_BUFFER_SIZE; lia
    |cbn; unfold RING_BUFFER_SIZE; lia|done].
Qed.

Lemma ex_waits_wakeable : wakeable [1] ex_waits.
Proof. eexists. vm_compute. reflexivity. Qed.

Lemma ex_waits_woken e : st_iter wakeup_task [1] ex_waits = Ret (tt, e) -> view e 1 = Some Runnable.
Proof. intros H. vm_compute in H. injection H as <-. vm_compute. reflexivity. Qed.

Definition buf3 : UserBuffer := [mkSlice 0x1fff 1; mkSlice 0x5000 2].

Lemma buf3_wf : ub_wf buf3 /\ 0 < zlen (ub_addrs buf3).
Proof. split; [split; [repeat constructor; cbn; lia|]|]; vm_compute; done. Qed.

Lemma pipe_write_refines_witness :
  (exists s', pipe_write_poll (write_end_with_buffer 0) false buf3 0 pipe_empty = Ret (Ready (Ok 3), s') /\
    zlen (contents (ring s')) = 3 /\ view (p_ex s') 1 = Some Runnable) /\
  pipe_write_poll (write_end_with_buffer O_NONBLOCK) false buf3 0 pipe_full =
    Ret (Ready (Err EAGAIN), pipe_full).
Proof.
  split.
  - destruct (pipe_write_refines (write_end_with_buffer 0) false buf3 0 pipe_empty)
      as (_ & Hw & _);
      [reflexivity|apply buf3_wf|apply buf3_wf|exact pipe_empty_wf|exact ex_waits_wakeable|].
    destruct Hw as (s' & H1 & H2 & _ & _ & _ & _ & _ & H3 & _);
      [reflexivity|vm_compute; reflexivity|].
    exists s'. split; [etransitivity; [exact H1|vm_compute; reflexivity]|].
    split; [rewrite H2; vm_compute; reflexivity|].
    destruct H3 as [H3 _]; [vm_compute; reflexivity|]. exact (ex_waits_woken _ H3).
  - destruct (pipe_write_refines (write_end_with_buffer O_NONBLOCK) false buf3 0 pipe_full)
      as (_ & _ & Hw);
      [reflexivity|apply buf3_wf|apply buf3_wf|exact pipe_full_wf|apply wakeable_nil|].
    apply Hw; [reflexivity|vm_compute; reflexivity].
Defined.

Lemma pipe_read_refines_witness :
  (exists s', pipe_read_poll (read_end_with_buffer 0) false buf3 0 pipe_full = Ret (Ready (Ok 3), s') /\
    zlen (contents (ring s')) = RING_BUFFER_SIZE - 3 /\ view (p_ex s') 1 = Some Runnable) /\
  pipe_read_poll (read_end_with_buffer O_NONBLOCK) false buf3 0 pipe_empty =
    Ret (Ready (Err EAGAIN), pipe_empty).
Proof.
  split.
  - destruct (pipe_read_refines (read_end_with_buffer 0) false buf3 0 pipe_full) as (Hr & _);
      [reflexivity|apply buf3_wf|apply buf3_wf|exact pipe_full_wf|exact ex_waits_wakeable|].
    destruct Hr as (s' & H1 & _ & H2 & _ & _ & _ & _ & H3 & _); [vm_compute; discriminate|].
    exists s'. split; [etransitivity; [exact H1|vm_compute; reflexivity]|].
    split; [rewrite H2; vm_compute; reflexivity|].
    destruct H3 as [H3 _]; [vm_compute; reflexivity|]. exact (ex_waits_woken _ H3).
  - destruct (pipe_read_refines (read_end_with_buffer O_NONBLOCK) false buf3 0 pipe_empty)
      as (_ & Hr);
      [reflexivity|apply buf3_wf|apply buf3_wf|exact pipe_empty_wf|apply wakeable_nil|].
    apply Hr. vm_compute. reflexivity.
Defined.
