(* ===== verification/Socket.v ===== *)
(** * Socket pairs (os/src/fs/net/simple_net.rs)

    The two ends of a socket pair are joined by two ring buffers, one for each
    direction.  Unlike the ring of a pipe, these count their bytes and copy
    slices.  [PipeReader] and [PipeWriter] hold the address of their ring; a
    socket is one of each.

    The futures of [read] and [write] are given by their polls: the first has
    no state, the second keeps the number of bytes it has written, also over
    the [yield_now] after each part. *)

From S2P Require Import Prelude Config Memory Errno Pte UserMem.
From S2P Require Import UserBuf BTree Sched Exec Pipe PipeSpec.

Definition RING_CAPACITY : Z := 0x4000.

Record RingBuffer : Type := mkRB {
  sb_buf : list Z;
  sb_head : Z;
  sb_tail : Z;
  sb_len : Z;
  read_closed : bool;
  write_closed : bool;
  readers : list Z;
  writers : list Z
}.

Definition RingBuffer_new : RingBuffer :=
  mkRB (replicate (Z.to_nat RING_CAPACITY) 0) 0 0 0 false false [] [].

Definition set_readers (l : list Z) (b : RingBuffer) : RingBuffer :=
  mkRB (sb_buf b) (sb_head b) (sb_tail b) (sb_len b) (read_closed b) (write_closed b) l (writers b).
Definition set_writers (l : list Z) (b : RingBuffer) : RingBuffer :=
  mkRB (sb_buf b) (sb_head b) (sb_tail b) (sb_len b) (read_closed b) (write_closed b) (readers b) l.
Definition set_read_closed (b : RingBuffer) : RingBuffer :=
  mkRB (sb_buf b) (sb_head b) (sb_tail b) (sb_len b) true (write_closed b) (readers b) (writers b).
Definition set_write_closed (b : RingBuffer) : RingBuffer :=
  mkRB (sb_buf b) (sb_head b) (sb_tail b) (sb_len b) (read_closed b) true (readers b) (writers b).

(** The executor, physical memory and the rings by address. *)
Record nsys : Type := mkN { n_ex : exec; n_mem : pmem; n_rings : gmap Z RingBuffer }.

Definition on_nex {A} (m : ST exec A) : ST nsys A :=
  fun s => match m (n_ex s) with
           | Ret (a, e) => Ret (a, mkN e (n_mem s) (n_rings s))
           | Panic => Panic
           end.
Definition on_nmem {A} (m : ST pmem A) : ST nsys A :=
  fun s => match m (n_mem s) with
           | Ret (a, e) => Ret (a, mkN (n_ex s) e (n_rings s))
           | Panic => Panic
           end.

(** [self.inner.lock()] *)
Definition ring_of (a : Z) : ST nsys RingBuffer := s ← st_gets n_rings; st_lift (unwrap (s !! a)).
Definition put_ring (a : Z) (b : RingBuffer) : ST nsys unit :=
  st_modify (fun s => mkN (n_ex s) (n_mem s) (<[a := b]> (n_rings s))).

(** ** The ring *)

Definition is_fully_closed (b : RingBuffer) : bool := read_closed b && write_closed b.
Definition sb_available_read (b : RingBuffer) : Z := sb_len b.
Definition sb_available_write (b : RingBuffer) : outcome Z := usub RING_CAPACITY (sb_len b).

Definition sb_notify_readers (a : Z) : ST nsys unit :=
  b ← ring_of a;
  _ ← put_ring a (set_readers [] b);
  on_nex (st_iter wakeup_task (readers b)).
Definition sb_notify_writers (a : Z) : ST nsys unit :=
  b ← ring_of a;
  _ ← put_ring a (set_writers [] b);
  on_nex (st_iter wakeup_task (writers b)).

(** [buf.split_at(i)] *)
Definition split_at (l : list Z) (i : Z) : outcome (list Z * list Z) :=
  _ ← rassert ((0 <=? i) && (i <=? zlen l));
  Ret (take (Z.to_nat i) l, drop (Z.to_nat i) l).

(** The two copies of [write_bytes], and of [read_bytes]. *)
Definition copy_in (arr : list Z) (tail n : Z) (data : list Z) : outcome (list Z) :=
  '(p1, p2) ← split_at arr tail;
  let space := zlen p2 in
  if n <=? space then
    d ← slice data 0 n;
    Ret (p1 ++ d ++ drop (Z.to_nat n) p2)
  else
    d2 ← slice data 0 space;
    rest ← usub n space;
    _ ← rassert (rest <=? zlen p1);
    d1 ← slice data space n;
    Ret ((d1 ++ drop (Z.to_nat rest) p1) ++ d2).
Definition copy_out (arr : list Z) (head n : Z) : outcome (list Z) :=
  '(p1, p2) ← split_at arr head;
  let there := zlen p2 in
  if n <=? there then slice p2 0 n
  else
    rest ← usub n there;
    d ← slice p1 0 rest;
    Ret (p2 ++ d).

Definition write_bytes (a : Z) (data : list Z) : ST nsys Z :=
  b ← ring_of a;
  let was_empty := sb_len b =? 0 in
  room ← st_lift (sb_available_write b);
  let write_len := Z.min (zlen data) room in
  if write_len =? 0 then mret 0
  else
    arr ← st_lift (copy_in (sb_buf b) (sb_tail b) write_len data);
    t ← st_lift (uadd (sb_tail b) write_len);
    n ← st_lift (uadd (sb_len b) write_len);
    _ ← put_ring a (mkRB arr (sb_head b) (t mod RING_CAPACITY) n (read_closed b) (write_closed b)
                      (readers b) (writers b));
    _ ← (if was_empty then sb_notify_readers a else mret tt);
    mret write_len.

(** [read_bytes] into a buffer of [size] bytes: the bytes it has stored. *)
Definition read_bytes (a size : Z) : ST nsys (list Z) :=
  b ← ring_of a;
  let was_full := sb_len b =? RING_CAPACITY in
  let read_len := Z.min size (sb_available_read b) in
  if read_len =? 0 then mret []
  else
    d ← st_lift (copy_out (sb_buf b) (sb_head b) read_len);
    h ← st_lift (uadd (sb_head b) read_len);
    n ← st_lift (usub (sb_len b) read_len);
    _ ← put_ring a (mkRB (sb_buf b) (h mod RING_CAPACITY) (sb_tail b) n (read_closed b) (write_closed b)
                      (readers b) (writers b));
    _ ← (if was_full then sb_notify_writers a else mret tt);
    mret d.

Definition close_read (a : Z) : ST nsys unit :=
  b ← ring_of a;
  if read_closed b then mret tt
  else _ ← put_ring a (set_read_closed b); sb_notify_writers a.
Definition close_write (a : Z) : ST nsys unit :=
  b ← ring_of a;
  if write_closed b then mret tt
  else _ ← put_ring a (set_write_closed b); sb_notify_readers a.

Definition register_reader (a w : Z) : ST nsys unit :=
  b ← ring_of a;
  if existsb (Z.eqb w) (readers b) then mret tt else put_ring a (set_readers (readers b ++ [w]) b).
Definition register_writer (a w : Z) : ST nsys unit :=
  b ← ring_of a;
  if existsb (Z.eqb w) (writers b) then mret tt else put_ring a (set_writers (writers b ++ [w]) b).

(** ** The ends of one direction *)

Record PipeReader : Type := mkPR { pr_inner : Z; pr_flags : Z }.
Record PipeWriter : Type := mkPW { pw_inner : Z; pw_flags : Z }.

(** [make_pipe]; [a] is the address of the new ring. *)
Definition sock_make_pipe (a flags : Z) : ST nsys (PipeReader * PipeWriter) :=
  _ ← put_ring a RingBuffer_new;
  mret (mkPR a flags, mkPW a flags).

Definition reader_drop (p : PipeReader) : ST nsys unit := close_read (pr_inner p).
Definition writer_drop (p : PipeWriter) : ST nsys unit := close_write (pw_inner p).

Definition reader_poll (p : PipeReader) (events w : Z) : ST nsys Z :=
  b ← ring_of (pr_inner p);
  if fl_contains events POLLIN then
    if 0 <? sb_available_read b then mret POLLIN
    else if write_closed b then mret (fl_insert POLLIN POLLHUP)
    else _ ← register_reader (pr_inner p) w; mret 0
  else mret 0.

Definition writer_poll (p : PipeWriter) (events w : Z) : ST nsys Z :=
  b ← ring_of (pw_inner p);
  if fl_contains events POLLOUT then
    room ← st_lift (sb_available_write b);
    if 0 <? room then mret POLLOUT
    else if read_closed b then mret (fl_insert POLLOUT POLLERR)
    else if negb (fl_contains (pw_flags p) O_NONBLOCK) then
      _ ← register_writer (pw_inner p) w; mret 0
    else mret 0
  else mret 0.

(** A poll of [PipeReader::read]. *)
Definition reader_read (p : PipeReader) (ub : UserBuffer) (w : Z) : ST nsys (Poll (result Z SysErrNo)) :=
  let nonblk := fl_contains (pr_flags p) O_NONBLOCK in
  b ← ring_of (pr_inner p);
  if is_fully_closed b then mret (Ready (Err ECONNRESET))
  else
    let avail := sb_available_read b in
    if 0 <? avail then
      n ← st_lift (ub_len ub);
      d ← read_bytes (pr_inner p) (Z.min avail n);
      r ← on_nmem (ub_write_all ub d);
      mret (Ready (match r with Ok _ => Ok (zlen d) | Err e => Err e end))
    else if write_closed b then
      mret (Ready (if read_closed b then Err ECONNRESET else Ok 0))
    else if nonblk then mret (Ready (Err EAGAIN))
    else _ ← register_reader (pr_inner p) w; mret Pending.

(** A poll of the inner future of [PipeWriter::write]. *)
Definition writer_try (p : PipeWriter) (ub : UserBuffer) (written_total w : Z)
    : ST nsys (Poll (result Z SysErrNo)) :=
  let nonblk := fl_contains (pw_flags p) O_NONBLOCK in
  b ← ring_of (pw_inner p);
  if read_closed b then mret (Ready (Err EPIPE))
  else
    room ← st_lift (sb_available_write b);
    if 0 <? room then
      n ← st_lift (ub_len ub);
      remaining ← st_lift (usub n written_total);
      let write_len := Z.min remaining room in
      if write_len =? 0 then mret (Ready (Ok 0))
      else
        m ← st_gets n_mem;
        d ← st_lift (ub_read_from m ub written_total write_len);
        k ← write_bytes (pw_inner p) d;
        mret (Ready (Ok k))
    else if nonblk then mret (Ready (if 0 <? written_total then Ok 0 else Err EAGAIN))
    else _ ← register_writer (pw_inner p) w; mret Pending.

(** A poll of [PipeWriter::write] that has written [written_total] bytes: the
    result, or the new count when it waits for room or has yielded. *)
Definition writer_write (p : PipeWriter) (ub : UserBuffer) (written_total w : Z)
    : ST nsys (result Z SysErrNo + Z) :=
  r ← writer_try p ub written_total w;
  match r with
  | Pending => mret (inr written_total)
  | Ready (Err e) => mret (inl (Err e))
  | Ready (Ok just_written) =>
      if just_written =? 0 then mret (inl (Ok written_total))
      else
        t ← st_lift (uadd written_total just_written);
        mret (if fl_contains (pw_flags p) O_NONBLOCK then inl (Ok t) else inr t)
  end.

(** ** Sockets *)

Record Socket : Type := mkSock { so_reader : PipeReader; so_writer : PipeWriter }.

(** [ab] and [ba] are the addresses of the two new rings. *)
Definition make_socketpair (ab ba flags : Z) : ST nsys (Socket * Socket) :=
  '(reader_a_to_b, writer_a_to_b) ← sock_make_pipe ab flags;
  '(reader_b_to_a, writer_b_to_a) ← sock_make_pipe ba flags;
  mret (mkSock reader_b_to_a writer_a_to_b, mkSock reader_a_to_b writer_b_to_a).

Definition socket_poll (s : Socket) (events w : Z) : ST nsys Z :=
  r ← reader_poll (so_reader s) events w;
  v ← writer_poll (so_writer s) events w;
  mret (Z.lor r v).
Definition socket_read (s : Socket) (ub : UserBuffer) (w : Z) : ST nsys (Poll (result Z SysErrNo)) :=
  reader_read (so_reader s) ub w.
Definition socket_write (s : Socket) (ub : UserBuffer) (written_total w : Z)
    : ST nsys (result Z SysErrNo + Z) :=
  writer_write (so_writer s) ub written_total w.

(** The fields are dropped in order. *)
Definition socket_drop (s : Socket) : ST nsys unit :=
  _ ← reader_drop (so_reader s);
  writer_drop (so_writer s).

(** What the sockets of [sys_socket] give to a reader (fs/net/mod.rs). *)
Definition inet_read (buf : UserBuffer) : ST pmem (result Z SysErrNo) :=
  n ← st_lift (ub_len buf);
  if n =? 0 then mret (Ok 0)
  else _ ← ub_write buf [49]; mret (Ok 1).
