(* ===== verification/SocketSpec.v ===== *)
(** * A socket pair is two queues of bytes

    The specification is a pair of lists with the flags of the two ends and
    the threads that polled them.  Sequences of [read], [write], [poll] and
    [close] on the ends that [make_socketpair] gives, between steps of the
    rest of the system on the executor, are simulated by it. *)

From S2P Require Import Prelude Config Memory Errno Pte UserMem.
From S2P Require Import UserBuf BTree Sched Exec ExecInv Pipe.
From S2P Require Import PipeSpec Socket.

(** ** Copies *)

Lemma split_at_Ret l i : 0 <= i <= zlen l -> split_at l i = Ret (take (Z.to_nat i) l, drop (Z.to_nat i) l).
Proof. intros. unfold split_at. zcases; try lia; done. Qed.

Lemma slice_in {A} (l : list A) a b : 0 <= a <= b -> b <= zlen l ->
  slice l a b = Ret (take (Z.to_nat (b - a)) (drop (Z.to_nat a) l)).
Proof. intros. unfold slice. zcases; try lia; done. Qed.

Lemma ring_at_lookup arr i : 0 <= i < RING_CAPACITY -> ring_at arr i = default 0 (arr !! Z.to_nat i).
Proof. intros. unfold ring_at. do 3 f_equal. change RING_BUFFER_SIZE with RING_CAPACITY. unfold RING_CAPACITY in *. lia. Qed.

Lemma ring_at_wrap arr i : RING_CAPACITY <= i < 2 * RING_CAPACITY ->
  ring_at arr i = default 0 (arr !! Z.to_nat (i - RING_CAPACITY)).
Proof. intros. unfold ring_at. do 3 f_equal. change RING_BUFFER_SIZE with RING_CAPACITY. unfold RING_CAPACITY in *. lia. Qed.

Lemma copy_in_spec arr tail n data : zlen arr = RING_CAPACITY -> 0 <= tail < RING_CAPACITY ->
  0 < n <= RING_CAPACITY -> n <= zlen data ->
  exists arr', copy_in arr tail n data = Ret arr' /\ zlen arr' = RING_CAPACITY /\
    (forall k, 0 <= k < n -> ring_at arr' (tail + k) = default 0 (data !! Z.to_nat k)) /\
    (forall k, n <= k < RING_CAPACITY -> ring_at arr' (tail + k) = ring_at arr (tail + k)).
Proof.
  intros Ha Ht Hn Hd. unfold copy_in. rewrite split_at_Ret by lia. cbn [mbind outcome_bind].
  assert (zlen (drop (Z.to_nat tail) arr) = RING_CAPACITY - tail) as Hp2 by (unfold zlen in *; rewrite length_drop; lia).
  assert (zlen (take (Z.to_nat tail) arr) = tail) as Hp1 by (unfold zlen in *; rewrite length_take; lia).
  rewrite Hp2. unfold zlen in *. destruct (Z.leb_spec n (RING_CAPACITY - tail)).
  - rewrite slice_in by (unfold zlen; lia). cbn [mbind outcome_bind]. eexists. split; [done|].
    rewrite drop_0, Z.sub_0_r, drop_drop. split; [rewrite !length_app, length_take, length_drop, length_take; lia|].
    split; intros k Hk.
    + rewrite ring_at_lookup by lia. rewrite lookup_app_r by lia. rewrite lookup_app_l by (rewrite !length_take; lia).
      rewrite lookup_take_lt by lia. do 2 f_equal. lia.
    + destruct (decide (tail + k < RING_CAPACITY)).
      * rewrite !ring_at_lookup by lia. rewrite lookup_app_r by lia.
        rewrite lookup_app_r by (rewrite !length_take; lia). rewrite lookup_drop, !length_take. do 2 f_equal. lia.
      * rewrite !ring_at_wrap by lia. rewrite lookup_app_l by lia. by rewrite lookup_take_lt by lia.
  - rewrite slice_in by (unfold zlen; lia). rewrite usub_Ret by lia. cbn [mbind outcome_bind].
    unfold rassert, zlen. rewrite Hp1. destruct (Z.leb_spec (n - (RING_CAPACITY - tail)) tail); [|lia].
    rewrite slice_in by (unfold zlen; lia). cbn [mbind outcome_bind]. eexists. split; [done|].
    set (d1 := take _ (drop (Z.to_nat (RING_CAPACITY - tail)) data)).
    assert (length d1 = Z.to_nat (n - (RING_CAPACITY - tail))) as Hd1 by (unfold d1; rewrite length_take, length_drop; lia).
    assert (length (d1 ++ drop (Z.to_nat (n - (RING_CAPACITY - tail))) (take (Z.to_nat tail) arr)) = Z.to_nat tail) as Hl1
      by (rewrite length_app, length_drop; lia).
    rewrite drop_0, Z.sub_0_r. split; [rewrite length_app, length_take; lia|].
    split; intros k Hk.
    + destruct (decide (tail + k < RING_CAPACITY)).
      * rewrite ring_at_lookup by lia. rewrite lookup_app_r by lia. rewrite lookup_take_lt by lia. do 2 f_equal. lia.
      * rewrite ring_at_wrap by lia. rewrite lookup_app_l, lookup_app_l by lia. unfold d1.
        rewrite lookup_take_lt, lookup_drop by lia. do 2 f_equal. lia.
    + rewrite !ring_at_wrap by lia. rewrite lookup_app_l, lookup_app_r by lia.
      rewrite lookup_drop, lookup_take_lt by lia. do 2 f_equal. lia.
Qed.

(** A part of the ring is the list that has the same bytes. *)
Lemma ring_list_eq arr h n l : zlen l = n ->
  (forall k, 0 <= k < n -> ring_at arr (h + k) = default 0 (l !! Z.to_nat k)) -> ring_list arr h n = l.
Proof.
  intros <- Hk. apply list_eq. intros i. unfold ring_list, zrange.
  rewrite !list_lookup_fmap. unfold zlen in *. destruct (decide (i < length l)%nat) as [Hi|Hi].
  - rewrite lookup_seq_lt by lia. cbn. rewrite Hk by lia.
    destruct (lookup_lt_is_Some_2 l i Hi) as [x Hx].
    replace (Z.to_nat (0 + Z.of_nat i)) with i by lia. by rewrite Hx.
  - rewrite lookup_seq_ge by lia. by rewrite lookup_ge_None_2 by lia.
Qed.

Lemma copy_out_spec arr h n : zlen arr = RING_CAPACITY -> 0 <= h < RING_CAPACITY -> 0 < n <= RING_CAPACITY ->
  copy_out arr h n = Ret (ring_list arr h n).
Proof.
  intros Ha Hh Hn. unfold copy_out. rewrite split_at_Ret by lia. cbn [mbind outcome_bind].
  assert (zlen (drop (Z.to_nat h) arr) = RING_CAPACITY - h) as Hp2 by (unfold zlen in *; rewrite length_drop; lia).
  assert (zlen (take (Z.to_nat h) arr) = h) as Hp1 by (unfold zlen in *; rewrite length_take; lia).
  rewrite Hp2. destruct (Z.leb_spec n (RING_CAPACITY - h)).
  - rewrite slice_in by lia. f_equal. rewrite drop_0, Z.sub_0_r. unfold zlen in *. symmetry.
    apply ring_list_eq; [unfold zlen; rewrite length_take; lia|]. intros k Hk.
    rewrite ring_at_lookup, lookup_take_lt, lookup_drop by lia. do 2 f_equal. lia.
  - rewrite usub_Ret by lia. cbn [mbind outcome_bind]. rewrite slice_in by lia. cbn [mbind outcome_bind].
    f_equal. rewrite drop_0, Z.sub_0_r. unfold zlen in *. symmetry.
    apply ring_list_eq; [unfold zlen; rewrite length_app, length_take; lia|]. intros k Hk.
    destruct (decide (h + k < RING_CAPACITY)).
    + rewrite ring_at_lookup, lookup_app_l, lookup_drop by lia. do 2 f_equal. lia.
    + rewrite ring_at_wrap, lookup_app_r, lookup_take_lt, lookup_take_lt by lia. do 2 f_equal. lia.
Qed.

(** Bytes at the end of the queue, and bytes off its front. *)
Lemma ring_list_split arr h n k : 0 <= k <= n -> 0 <= h ->
  ring_list arr h k = take (Z.to_nat k) (ring_list arr h n) /\
  ring_list arr ((h + k) mod RING_CAPACITY) (n - k) = drop (Z.to_nat k) (ring_list arr h n).
Proof.
  intros Hk Hh. unfold ring_list. rewrite (zrange_app 0 k n), fmap_app by lia.
  rewrite take_app_le, drop_app_ge by (rewrite length_fmap, length_zrange; lia).
  rewrite take_ge by (rewrite length_fmap, length_zrange; lia). split; [done|].
  rewrite length_fmap, length_zrange. replace (Z.to_nat k - Z.to_nat (k - 0))%nat with 0%nat by lia. rewrite drop_0.
  replace (zrange k n) with (zrange (k + 0) (k + (n - k))) by (f_equal; lia). rewrite zrange_shift.
  rewrite <- list_fmap_compose. apply list_fmap_ext. intros i x _. cbn. apply ring_at_mod.
  change RING_BUFFER_SIZE with RING_CAPACITY. unfold RING_CAPACITY. lia.
Qed.

Lemma ring_list_copy arr arr' h n k data : 0 <= h < RING_CAPACITY -> 0 <= n -> 0 < k -> n + k <= RING_CAPACITY ->
  k <= zlen data ->
  (forall j, 0 <= j < k -> ring_at arr' ((h + n) mod RING_CAPACITY + j) = default 0 (data !! Z.to_nat j)) ->
  (forall j, k <= j < RING_CAPACITY ->
     ring_at arr' ((h + n) mod RING_CAPACITY + j) = ring_at arr ((h + n) mod RING_CAPACITY + j)) ->
  ring_list arr' h (n + k) = ring_list arr h n ++ take (Z.to_nat k) data.
Proof.
  intros Hh Hn Hk Hc Hd Hin Hout. apply ring_list_eq.
  { rewrite zlen_app, zlen_ring_list by lia. unfold zlen in *. rewrite length_take. lia. }
  intros j Hj. pose proof (zlen_ring_list arr h n Hn) as Hl. unfold zlen in *.
  destruct (decide (j < n)) as [Hlt|Hge].
  - rewrite lookup_app_l by lia. rewrite (ring_at_mod arr' (h + j) ((h + n) mod RING_CAPACITY + (RING_CAPACITY - n + j)))
      by (change RING_BUFFER_SIZE with RING_CAPACITY; unfold RING_CAPACITY; lia).
    rewrite Hout by lia. unfold ring_list, zrange. rewrite !list_lookup_fmap, lookup_seq_lt by lia. cbn.
    apply ring_at_mod. change RING_BUFFER_SIZE with RING_CAPACITY. unfold RING_CAPACITY in *. lia.
  - rewrite lookup_app_r by lia. rewrite (ring_at_mod arr' (h + j) ((h + n) mod RING_CAPACITY + (j - n)))
      by (change RING_BUFFER_SIZE with RING_CAPACITY; unfold RING_CAPACITY; lia).
    rewrite Hin, lookup_take_lt by lia. do 2 f_equal. lia.
Qed.

(** ** One direction *)

(** The ring holds the bytes [q], and the threads [ws] polled for them. *)
Record ring_is (b : RingBuffer) (q : list Z) (rc wc : bool) (ws : list Z) : Prop := {
  ri_size : zlen (sb_buf b) = RING_CAPACITY;
  ri_head : 0 <= sb_head b < RING_CAPACITY;
  ri_len : 0 <= sb_len b <= RING_CAPACITY;
  ri_tail : sb_tail b = (sb_head b + sb_len b) mod RING_CAPACITY;
  ri_bytes : ring_list (sb_buf b) (sb_head b) (sb_len b) = q;
  ri_rc : read_closed b = rc;
  ri_wc : write_closed b = wc;
  ri_readers : readers b = ws;
  ri_writers : writers b = []
}.

Lemma ring_of_run a b s : n_rings s !! a = Some b -> ring_of a s = Ret (b, s).
Proof. intros H. unfold ring_of. st_unfold. by rewrite H. Qed.

Lemma ring_is_len b q rc wc ws : ring_is b q rc wc ws -> zlen q = sb_len b.
Proof. intros []. subst q. apply zlen_ring_list. lia. Qed.

(** What a step does: the ring is replaced, and the executor. *)
Definition with_ring (a : Z) (b : RingBuffer) (s : nsys) : nsys := mkN (n_ex s) (n_mem s) (<[a := b]> (n_rings s)).
Definition with_ex (e : exec) (s : nsys) : nsys := mkN e (n_mem s) (n_rings s).

Lemma notify_readers_run a b q rc wc ws s : ring_is b q rc wc ws ->
  exists b', ring_is b' q rc wc [] /\
    sb_notify_readers a (with_ring a b s) =
    match st_iter wakeup_task ws (n_ex s) with
    | Ret (_, e) => Ret (tt, with_ring a b' (with_ex e s))
    | Panic => Panic
    end.
Proof.
  intros Hb. exists (set_readers [] b). split; [by destruct Hb|]. unfold sb_notify_readers.
  erewrite st_run by (apply ring_of_run; apply lookup_insert_eq). st_unfold. unfold on_nex, with_ring. cbn.
  rewrite (ri_readers _ _ _ _ _ Hb), insert_insert_eq. by destruct (st_iter wakeup_task ws (n_ex s)) as [[[] e]|].
Qed.

Lemma notify_writers_run a b q rc wc ws s : ring_is b q rc wc ws ->
  exists b', sb_notify_writers a (with_ring a b s) = Ret (tt, with_ring a b' s) /\ ring_is b' q rc wc ws.
Proof.
  intros Hb. exists (set_writers [] b). unfold sb_notify_writers.
  erewrite st_run by (apply ring_of_run; apply lookup_insert_eq). st_unfold. unfold on_nex, with_ring. cbn.
  rewrite (ri_writers _ _ _ _ _ Hb). cbn. rewrite insert_insert_eq. split; [done|]. by destruct Hb.
Qed.

(** The pollers of an empty queue are woken when bytes arrive. *)
Lemma write_bytes_spec a b q rc wc ws data s : n_rings s !! a = Some b -> ring_is b q rc wc ws ->
  let n := Z.min (zlen data) (RING_CAPACITY - zlen q) in 0 < n ->
  exists b', ring_is b' (q ++ take (Z.to_nat n) data) rc wc (if zlen q =? 0 then [] else ws) /\
    write_bytes a data s =
    match st_iter wakeup_task (if zlen q =? 0 then ws else []) (n_ex s) with
    | Ret (_, e) => Ret (n, with_ring a b' (with_ex e s))
    | Panic => Panic
    end.
Proof.
  intros Ha Hb n Hn. pose proof (ring_is_len _ _ _ _ _ Hb) as Hl.
  assert (n = Z.min (zlen data) (RING_CAPACITY - sb_len b)) as En by (unfold n; lia). clearbody n.
  destruct Hb as [Hs Hh Hlen Ht Hq Hrc Hwc Hr Hw]. unfold write_bytes.
  erewrite st_run by exact (ring_of_run a b s Ha). cbv beta zeta.
  unfold sb_available_write, st_lift. rewrite usub_Ret by lia. st_unfold. rewrite <- En.
  destruct (Z.eqb_spec n 0); [lia|].
  destruct (copy_in_spec (sb_buf b) (sb_tail b) n data) as (arr & -> & Hsz & Hin & Hout);
    [done|rewrite Ht; unfold RING_CAPACITY; lia|lia|lia|].
  rewrite Ht in Hin, Hout.
  assert (0 <= sb_tail b < RING_CAPACITY) as Htr by (rewrite Ht; unfold RING_CAPACITY; lia).
  rewrite !uadd_Ret by (unfold u64_bound, RING_CAPACITY in *; lia). cbn beta iota.
  set (b1 := mkRB _ _ _ _ _ _ _ _). change (put_ring a b1 s) with (Ret (tt, with_ring a b1 s)). cbv iota beta.
  assert (ring_is b1 (q ++ take (Z.to_nat n) data) rc wc ws) as Hb1.
  { split; try done; cbn; [lia| |].
    - rewrite Ht. unfold RING_CAPACITY. lia.
    - subst q. apply ring_list_copy; try done; lia. }
  rewrite Hl. destruct (sb_len b =? 0).
  - destruct (notify_readers_run a b1 _ rc wc ws s Hb1) as (b2 & Hb2 & E). exists b2. split; [done|].
    rewrite E. by destruct (st_iter wakeup_task ws (n_ex s)) as [[[] e]|].
  - exists b1. split; [done|]. by destruct s.
Qed.

Lemma read_bytes_spec a b q rc wc ws size s : n_rings s !! a = Some b -> ring_is b q rc wc ws -> 0 <= size ->
  let n := Z.min size (zlen q) in
  exists b', read_bytes a size s = Ret (take (Z.to_nat n) q, with_ring a b' s) /\
    ring_is b' (drop (Z.to_nat n) q) rc wc ws.
Proof.
  intros Ha Hb Hn n. pose proof (ring_is_len _ _ _ _ _ Hb) as Hl. pose proof Hb as Hb0.
  destruct Hb as [Hs Hh Hlen Ht Hq Hrc Hwc Hr Hw]. unfold read_bytes.
  erewrite st_run by exact (ring_of_run a b s Ha). cbv beta zeta.
  unfold sb_available_read. rewrite <- Hl. fold n. st_unfold. destruct (Z.eqb_spec n 0) as [E|].
  { exists b. rewrite E. cbn. split; [|done]. do 2 f_equal. unfold with_ring. rewrite insert_id by done. by destruct s. }
  rewrite copy_out_spec by (done || lia).
  destruct (ring_list_split (sb_buf b) (sb_head b) (sb_len b) n) as [E1 E2]; [lia..|]. rewrite Hq in E1, E2.
  rewrite uadd_Ret by (unfold u64_bound, RING_CAPACITY in *; lia). rewrite usub_Ret by lia. cbn beta iota.
  set (b1 := mkRB _ _ _ _ _ _ _ _). change (put_ring a b1 s) with (Ret (tt, with_ring a b1 s)). cbv iota beta. rewrite E1.
  assert (ring_is b1 (drop (Z.to_nat n) q) rc wc ws) as Hb1.
  { split; try done; cbn; [unfold RING_CAPACITY; lia|lia| |by rewrite Hl].
    rewrite Ht, Hl. unfold RING_CAPACITY. lia. }
  destruct (zlen q =? RING_CAPACITY).
  - destruct (notify_writers_run a b1 _ rc wc ws s Hb1) as (b2 & -> & Hb2). by exists b2.
  - by exists b1.
Qed.

(** ** The specification *)

(** The bytes on their way from A to B and from B to A, the threads that
    polled for them while there were none, and which ends are open.  An end
    is [true] for A. *)
Record pair : Type := mkPair {
  to_b : list Z; to_a : list Z; for_b : list Z; for_a : list Z; a_open : bool; b_open : bool
}.

Definition sent (e : bool) (p : pair) : list Z := if e then to_b p else to_a p.
Definition set_sent (e : bool) (q : list Z) (p : pair) : pair :=
  if e then mkPair q (to_a p) (for_b p) (for_a p) (a_open p) (b_open p)
  else mkPair (to_b p) q (for_b p) (for_a p) (a_open p) (b_open p).
Definition pollers (e : bool) (p : pair) : list Z := if e then for_b p else for_a p.
Definition set_pollers (e : bool) (l : list Z) (p : pair) : pair :=
  if e then mkPair (to_b p) (to_a p) l (for_a p) (a_open p) (b_open p)
  else mkPair (to_b p) (to_a p) (for_b p) l (a_open p) (b_open p).
Definition is_open (e : bool) (p : pair) : bool := if e then a_open p else b_open p.
Definition set_closed (e : bool) (p : pair) : pair :=
  if e then mkPair (to_b p) (to_a p) (for_b p) (for_a p) false (b_open p)
  else mkPair (to_b p) (to_a p) (for_b p) (for_a p) (a_open p) false.

Definition new_pair : pair := mkPair [] [] [] [] true true.

(** The pair, the executor and memory. *)
Record world : Type := mkWorld { w_pair : pair; w_ex : exec; w_mem : pmem }.

(** An operation on an end, or steps of other parts of the system, after
    which the executor is [e]. *)
Inductive sock_op : Type :=
| SoWrite (e : bool) (buf : UserBuffer)
| SoRead (e : bool) (buf : UserBuffer)
| SoPoll (e : bool) (events w : Z)
| SoClose (e : bool)
| SoOther (e : exec).

Inductive sock_res : Type := SrIo (r : result Z SysErrNo) | SrEvents (ev : Z) | SrUnit.

Definition set_pair (p : pair) : ST world unit := st_modify (fun s => mkWorld p (w_ex s) (w_mem s)).

(** The threads that polled for the bytes that [e] sends are woken. *)
Definition wake_pollers (e : bool) : ST world unit :=
  fun s =>
    match st_iter wakeup_task (pollers e (w_pair s)) (w_ex s) with
    | Ret (_, ex) => Ret (tt, mkWorld (set_pollers e [] (w_pair s)) ex (w_mem s))
    | Panic => Panic
    end.

Definition pair_op (o : sock_op) : ST world sock_res :=
  p ← st_gets w_pair;
  m ← st_gets w_mem;
  match o with
  | SoWrite e buf =>
      let data := pa_read m <$> ub_addrs buf in
      let room := RING_CAPACITY - zlen (sent e p) in
      let n := Z.min (zlen data) room in
      if negb (is_open (negb e) p) then mret (SrIo (Err EPIPE))
      else if room =? 0 then mret (SrIo (Err EAGAIN))
      else if n =? 0 then mret (SrIo (Ok 0))
      else
        _ ← set_pair (set_sent e (sent e p ++ take (Z.to_nat n) data) p);
        _ ← (if zlen (sent e p) =? 0 then wake_pollers e else mret tt);
        mret (SrIo (Ok n))
  | SoRead e buf =>
      let q := sent (negb e) p in
      if zlen q =? 0 then mret (SrIo (if is_open (negb e) p then Err EAGAIN else Ok 0))
      else
        let n := Z.min (zlen (ub_addrs buf)) (zlen q) in
        _ ← st_modify (fun s => mkWorld (set_sent (negb e) (drop (Z.to_nat n) q) p) (w_ex s)
                                  (write_addrs m (ub_addrs buf) (take (Z.to_nat n) q)));
        mret (SrIo (Ok n))
  | SoPoll e events w =>
      let i := if fl_contains events POLLIN then
                 if 0 <? zlen (sent (negb e) p) then POLLIN
                 else if is_open (negb e) p then 0 else fl_insert POLLIN POLLHUP
               else 0 in
      let o := if fl_contains events POLLOUT then
                 if 0 <? RING_CAPACITY - zlen (sent e p) then POLLOUT
                 else if is_open (negb e) p then 0 else fl_insert POLLOUT POLLERR
               else 0 in
      _ ← (if fl_contains events POLLIN && (zlen (sent (negb e) p) =? 0) && is_open (negb e) p
           then set_pair (set_pollers (negb e) (waiters_add w (pollers (negb e) p)) p) else mret tt);
      mret (SrEvents (Z.lor i o))
  | SoClose e =>
      _ ← set_pair (set_closed e p);
      _ ← wake_pollers e;
      mret SrUnit
  | SoOther e => _ ← st_modify (fun s => mkWorld (w_pair s) e (w_mem s)); mret SrUnit
  end.

Fixpoint pair_ops (ops : list sock_op) : ST world (list sock_res) :=
  match ops with
  | [] => mret []
  | o :: ops' => r ← pair_op o; rs ← pair_ops ops'; mret (r :: rs)
  end.

(** ** The implementation *)

(** The operations on the socket of an end; [w] is the caller's waker.  A
    [write] that has not ended would be polled again, with [n] bytes
    written. *)
Definition run_op (sk : bool -> Socket) (w : Z) (o : sock_op) : ST nsys (option sock_res) :=
  match o with
  | SoWrite e buf =>
      r ← socket_write (sk e) buf 0 w;
      mret (match r with inl r => Some (SrIo r) | inr n => None end)
  | SoRead e buf =>
      r ← socket_read (sk e) buf w;
      mret (match r with Ready r => Some (SrIo r) | Pending => None end)
  | SoPoll e events w => ev ← socket_poll (sk e) events w; mret (Some (SrEvents ev))
  | SoClose e => _ ← socket_drop (sk e); mret (Some SrUnit)
  | SoOther e => _ ← st_modify (with_ex e); mret (Some SrUnit)
  end.

Fixpoint run_ops (sk : bool -> Socket) (w : Z) (ops : list sock_op) : ST nsys (option (list sock_res)) :=
  match ops with
  | [] => mret (Some [])
  | o :: ops' =>
      r ← run_op sk w o;
      rs ← run_ops sk w ops';
      mret (r0 ← r; rs0 ← rs; Some (r0 :: rs0))
  end.

(** Ends are not used once they are closed, and user buffers are those of
    the buffer component; [oa] and [ob] tell which ends are open. *)
Definition op_ok (oa ob : bool) (o : sock_op) : bool * bool * Prop :=
  match o with
  | SoWrite e buf | SoRead e buf => (oa, ob, (if e then oa else ob) = true /\ ub_wf buf)
  | SoPoll e _ _ => (oa, ob, (if e then oa else ob) = true)
  | SoClose e => (if e then (false, ob) else (oa, false), (if e then oa else ob) = true)
  | SoOther _ => (oa, ob, True)
  end.

Fixpoint ops_ok (oa ob : bool) (ops : list sock_op) : Prop :=
  match ops with
  | [] => True
  | o :: ops' => (op_ok oa ob o).2 /\ ops_ok (op_ok oa ob o).1.1 (op_ok oa ob o).1.2 ops'
  end.

Section pair.
Variable ab ba flags : Z.
Hypothesis Hne : ab <> ba.
Hypothesis Hnb : fl_contains flags O_NONBLOCK = true.

Definition sock_a : Socket := mkSock (mkPR ba flags) (mkPW ab flags).
Definition sock_b : Socket := mkSock (mkPR ab flags) (mkPW ba flags).
Definition sock (e : bool) : Socket := if e then sock_a else sock_b.

Record socks (v : world) (s : nsys) : Prop := {
  sk_ex : n_ex s = w_ex v;
  sk_mem : n_mem s = w_mem v;
  sk_ring : forall d, exists b, n_rings s !! (pw_inner (so_writer (sock d))) = Some b /\
    ring_is b (sent d (w_pair v)) (negb (is_open (negb d) (w_pair v))) (negb (is_open d (w_pair v)))
      (pollers d (w_pair v))
}.

(** [m] on the rings does what [c] does on the pair, panics included. *)
Definition simulates {A} (m : ST nsys A) (a : sock_res -> A) (c : ST world sock_res) v s : Prop :=
  match c v with
  | Ret (r, v') => exists s', m s = Ret (a r, s') /\ socks v' s'
  | Panic => m s = Panic
  end.

Lemma inner_other d : pr_inner (so_reader (sock d)) = pw_inner (so_writer (sock (negb d))).
Proof. by destruct d. Qed.

Lemma inner_ne d : pw_inner (so_writer (sock d)) <> pw_inner (so_writer (sock (negb d))).
Proof. destruct d; cbn; congruence. Qed.

(** The queue of one direction changes, with its pollers. *)
Lemma socks_update p e m e' m' s d q l b : socks (mkWorld p e m) s ->
  ring_is b q (negb (is_open (negb d) p)) (negb (is_open d p)) l ->
  socks (mkWorld (set_pollers d l (set_sent d q p)) e' m')
    (mkN e' m' (<[pw_inner (so_writer (sock d)) := b]> (n_rings s))).
Proof.
  intros [_ _ Hr] Hb. split; [done..|]. intros d'. cbn [n_rings w_pair].
  destruct (decide (d' = d)) as [->|Hd].
  - exists b. rewrite lookup_insert_eq. split; [done|]. by destruct d, p.
  - assert (d' = negb d) as -> by (by destruct d, d'). destruct (Hr (negb d)) as (b' & Hb' & Hi).
    exists b'. rewrite lookup_insert_ne by (apply inner_ne). split; [done|]. by destruct d, p.
Qed.

Lemma set_same d p : set_pollers d (pollers d p) (set_sent d (sent d p) p) = p.
Proof. by destruct d, p. Qed.
Lemma set_pollers_same d q p : set_pollers d (pollers d p) (set_sent d q p) = set_sent d q p.
Proof. by destruct d, p. Qed.
Lemma set_sent_same d l p : set_pollers d l (set_sent d (sent d p) p) = set_pollers d l p.
Proof. by destruct d, p. Qed.

Lemma pollers_sent d q p : pollers d (set_sent d q p) = pollers d p.
Proof. by destruct d, p. Qed.

Lemma write_op p e m s w d buf : socks (mkWorld p e m) s -> ub_wf buf ->
  simulates (run_op sock w (SoWrite d buf)) Some (pair_op (SoWrite d buf)) (mkWorld p e m) s.
Proof.
  intros Hs Hu. pose proof Hs as [He Hm Hr]. cbn [w_ex w_mem w_pair] in *. destruct (Hr d) as (b & Hb & Hi).
  pose proof (ring_is_len _ _ _ _ _ Hi) as Hl. pose proof (ri_len _ _ _ _ _ Hi) as Hlen. rewrite <- Hl in Hlen.
  unfold simulates, pair_op. cbn [run_op]. unfold socket_write, writer_write, writer_try.
  assert (pw_flags (so_writer (sock d)) = flags) as Hf by (by destruct d). rewrite Hf, Hnb.
  unfold set_pair, wake_pollers. st_unfold. cbn [w_pair w_mem w_ex].
  set (data := pa_read m <$> ub_addrs buf). set (n := Z.min (zlen data) (RING_CAPACITY - zlen (sent d p))).
  assert (zlen data = zlen (ub_addrs buf)) as Hd by (unfold data, zlen; by rewrite length_fmap).
  pose proof (zlen_nonneg data) as Hd0.
  rewrite (ring_of_run _ b s Hb). cbn beta iota. rewrite (ri_rc _ _ _ _ _ Hi).
  destruct (is_open (negb d) p) eqn:Eo; cbn [negb]; [|by exists s].
  unfold sb_available_write. rewrite <- Hl, usub_Ret by lia. cbn beta iota.
  destruct (Z.eqb_spec (RING_CAPACITY - zlen (sent d p)) 0) as [E0|Hroom].
  { rewrite E0. cbn. by exists s. }
  destruct (Z.ltb_spec 0 (RING_CAPACITY - zlen (sent d p))); [|lia]. rewrite (ub_len_eq buf Hu), usub_Ret by lia.
  rewrite Z.sub_0_r, <- Hd. fold n. cbn beta iota. destruct (Z.eqb_spec n 0) as [En|Hn]; [by exists s|].
  rewrite Hm, ub_read_from_spec by (done || lia). cbn [Z.to_nat]. rewrite drop_0, fmap_take. fold data. cbn beta iota.
  destruct (write_bytes_spec _ b _ _ _ _ (take (Z.to_nat n) data) s Hb Hi) as (b' & Hi' & Ew).
  { unfold zlen in *. rewrite length_take. lia. }
  assert (Z.min (zlen (take (Z.to_nat n) data)) (RING_CAPACITY - zlen (sent d p)) = n) as En
    by (unfold zlen in *; rewrite length_take; lia).
  rewrite En in Ew, Hi'. rewrite take_take, Nat.min_id in Hi'. rewrite Ew, He. rewrite <- Eo in Hi'.
  destruct (zlen (sent d p) =? 0); cbn [w_pair w_ex w_mem]; [rewrite pollers_sent|].
  - destruct (st_iter wakeup_task (pollers d p) e) as [[[] e']|]; [|done]. cbn beta iota.
    destruct (Z.eqb_spec n 0); [done|]. rewrite uadd_Ret by (unfold u64_bound, RING_CAPACITY in *; lia).
    eexists. split; [done|]. unfold with_ring, with_ex. cbn. rewrite Hm.
    by apply (socks_update p e m e' m s d _ []).
  - change (st_iter wakeup_task [] e) with (Ret (tt, e)). cbn beta iota. destruct (Z.eqb_spec n 0); [done|].
    rewrite uadd_Ret by (unfold u64_bound, RING_CAPACITY in *; lia).
    eexists. split; [done|]. unfold with_ring, with_ex. cbn. rewrite Hm, <- set_pollers_same.
    by apply (socks_update p e m e m s d _ (pollers d p)).
Qed.

Lemma read_op p e m s w d buf : socks (mkWorld p e m) s -> is_open d p = true -> ub_wf buf ->
  simulates (run_op sock w (SoRead d buf)) Some (pair_op (SoRead d buf)) (mkWorld p e m) s.
Proof.
  intros Hs Ho Hu. pose proof Hs as [He Hm Hr]. cbn [w_ex w_mem w_pair] in *.
  destruct (Hr (negb d)) as (b & Hb & Hi). rewrite negb_involutive, Ho in Hi. cbn [negb] in Hi.
  pose proof (ring_is_len _ _ _ _ _ Hi) as Hl. pose proof (ri_len _ _ _ _ _ Hi) as Hlen. rewrite <- Hl in Hlen.
  unfold simulates, pair_op. cbn [run_op]. unfold socket_read, reader_read. rewrite inner_other.
  assert (pr_flags (so_reader (sock d)) = flags) as Hf by (by destruct d). rewrite Hf, Hnb.
  st_unfold. cbn [w_pair w_mem w_ex].
  rewrite (ring_of_run _ b s Hb). cbn beta iota. unfold is_fully_closed, sb_available_read.
  rewrite (ri_rc _ _ _ _ _ Hi), (ri_wc _ _ _ _ _ Hi), <- Hl. cbn [andb].
  set (q := sent (negb d) p) in *. pose proof (zlen_nonneg q). pose proof (zlen_nonneg (ub_addrs buf)).
  destruct (Z.eqb_spec (zlen q) 0) as [E0|Hq].
  { rewrite E0. cbn. destruct (is_open (negb d) p); by exists s. }
  destruct (Z.ltb_spec 0 (zlen q)); [|lia]. rewrite (ub_len_eq buf Hu).
  destruct (read_bytes_spec _ b _ _ _ _ (Z.min (zlen q) (zlen (ub_addrs buf))) s Hb Hi) as (b' & Er & Hi'); [lia|].
  set (n := Z.min (zlen (ub_addrs buf)) (zlen q)) in *.
  replace (Z.min (Z.min (zlen q) (zlen (ub_addrs buf))) (zlen q)) with n in Er, Hi' by lia.
  rewrite Er. cbn beta iota. unfold on_nmem, ub_write_all. st_unfold. cbn [n_mem with_ring].
  assert (zlen (take (Z.to_nat n) q) = n) as Hn by (unfold zlen in *; rewrite length_take; lia).
  rewrite (ub_len_eq buf Hu), Hn. destruct (Z.ltb_spec (zlen (ub_addrs buf)) n); [lia|].
  rewrite write_all_loop_spec by (done || (unfold u64_bound, RING_CAPACITY in *; lia)). cbn [Z.to_nat drop].
  eexists. split; [done|]. unfold with_ring. cbn [n_ex n_mem n_rings]. rewrite ?drop_0, Hm, He, <- (set_pollers_same (negb d)).
  apply (socks_update p e m); [done|]. by rewrite negb_involutive, Ho.
Qed.

(** Of the two parts of a poll only the one for reading registers. *)
Lemma register_reader_run p e m s d w : socks (mkWorld p e m) s ->
  exists s', register_reader (pw_inner (so_writer (sock d))) w s = Ret (tt, s') /\
    socks (mkWorld (set_pollers d (waiters_add w (pollers d p)) p) e m) s'.
Proof.
  intros Hs. pose proof Hs as [He Hm Hr]. cbn [w_ex w_mem w_pair] in *. destruct (Hr d) as (b & Hb & Hi).
  unfold register_reader. st_unfold. rewrite (ring_of_run _ b s Hb). cbn beta iota.
  rewrite waiters_add_eq, (ri_readers _ _ _ _ _ Hi). destruct (existsb _ _).
  - exists s. split; [done|]. by replace (set_pollers d (pollers d p) p) with p by (by destruct d, p).
  - eexists. split; [done|]. rewrite He, Hm, <- (set_sent_same d).
    apply (socks_update p e m); [done|]. destruct Hi. split; try done.
Qed.

Lemma poll_op p e m s w0 d events w : socks (mkWorld p e m) s ->
  simulates (run_op sock w0 (SoPoll d events w)) Some (pair_op (SoPoll d events w)) (mkWorld p e m) s.
Proof.
  intros Hs. unfold simulates, pair_op. cbn [run_op]. unfold socket_poll, set_pair. st_unfold. cbn [w_pair w_mem w_ex].
  set (i := if fl_contains events POLLIN then _ else 0).
  set (p1 := if fl_contains events POLLIN && (zlen (sent (negb d) p) =? 0) && is_open (negb d) p
    then set_pollers (negb d) (waiters_add w (pollers (negb d) p)) p else p).
  assert (exists s1, reader_poll (so_reader (sock d)) events w s = Ret (i, s1) /\ socks (mkWorld p1 e m) s1)
    as (s1 & E1 & Hs1).
  { unfold reader_poll, i, p1. rewrite inner_other. pose proof Hs as [He Hm Hr]. cbn [w_ex w_mem w_pair] in *.
    destruct (Hr (negb d)) as (b & Hb & Hi). pose proof (zlen_nonneg (sent (negb d) p)).
    st_unfold. rewrite (ring_of_run _ b s Hb). cbn beta iota. destruct (fl_contains events POLLIN); [|by exists s].
    unfold sb_available_read. rewrite <- (ring_is_len _ _ _ _ _ Hi), (ri_wc _ _ _ _ _ Hi).
    destruct (Z.ltb_spec 0 (zlen (sent (negb d) p))), (Z.eqb_spec (zlen (sent (negb d) p)) 0); try lia; [by exists s|].
    destruct (is_open (negb d) p); cbn [negb andb]; [|by exists s].
    destruct (register_reader_run p e m s (negb d) w Hs) as (s1 & -> & Hs1). by exists s1. }
  assert (sent d p1 = sent d p /\ is_open (negb d) p1 = is_open (negb d) p) as [Hsent Hopen]
    by (unfold p1; destruct (_ && _); by destruct d, p).
  match goal with |- context [Ret (SrEvents ?ev, _)] => set (res := ev) end.
  enough (exists s', run_op sock w0 (SoPoll d events w) s = Ret (Some (SrEvents res), s') /\
    socks (mkWorld p1 e m) s') as H by (unfold p1 in H; by destruct (_ && _)).
  cbn [run_op]. unfold socket_poll. st_unfold. subst res.
  rewrite E1. cbn beta iota. unfold writer_poll. st_unfold.
  pose proof Hs1 as [He Hm Hr]. cbn [w_ex w_mem w_pair] in *. destruct (Hr d) as (b & Hb & Hi).
  rewrite Hsent, Hopen in Hi.
  pose proof (ri_len _ _ _ _ _ Hi) as Hlen. rewrite (ring_of_run _ b s1 Hb). cbn beta iota.
  destruct (fl_contains events POLLOUT); [|by exists s1].
  unfold sb_available_write. rewrite usub_Ret by lia. cbn beta iota.
  rewrite (ring_is_len _ _ _ _ _ Hi), (ri_rc _ _ _ _ _ Hi).
  destruct (0 <? RING_CAPACITY - sb_len b); [by exists s1|].
  destruct (is_open (negb d) p); cbn [negb]; [|by exists s1].
  assert (pw_flags (so_writer (sock d)) = flags) as -> by (by destruct d). rewrite Hnb. by exists s1.
Qed.

Lemma close_op p e m s w d : socks (mkWorld p e m) s -> is_open d p = true ->
  simulates (run_op sock w (SoClose d)) Some (pair_op (SoClose d)) (mkWorld p e m) s.
Proof.
  intros Hs Ho. unfold simulates, pair_op. cbn [run_op].
  unfold socket_drop, reader_drop, writer_drop, close_read, close_write, set_pair, wake_pollers.
  rewrite inner_other. pose proof Hs as [He Hm Hr]. cbn [w_ex w_mem w_pair] in *.
  destruct (Hr (negb d)) as (b & Hb & Hi).
  rewrite negb_involutive, Ho in Hi. cbn [negb] in Hi. destruct (Hr d) as (c & Hc & Hj). rewrite Ho in Hj. cbn [negb] in Hj.
  st_unfold. cbn [w_pair w_mem w_ex]. rewrite (ring_of_run _ b s Hb). cbn beta iota. rewrite (ri_rc _ _ _ _ _ Hi).
  change (put_ring (pw_inner (so_writer (sock (negb d)))) (set_read_closed b) s)
    with (Ret (tt, with_ring (pw_inner (so_writer (sock (negb d)))) (set_read_closed b) s)). cbn beta iota.
  destruct (notify_writers_run (pw_inner (so_writer (sock (negb d)))) (set_read_closed b) (sent (negb d) p) true
    (negb (is_open (negb d) p)) (pollers (negb d) p) s) as (b' & -> & Hi'); [by destruct Hi|]. cbn beta iota.
  set (s1 := with_ring _ b' s).
  assert (n_rings s1 !! pw_inner (so_writer (sock d)) = Some c) as Hc1
    by (cbn; rewrite lookup_insert_ne; [done|]; apply not_eq_sym, inner_ne).
  rewrite (ring_of_run _ c s1 Hc1). cbn beta iota. rewrite (ri_wc _ _ _ _ _ Hj).
  change (put_ring (pw_inner (so_writer (sock d))) (set_write_closed c) s1)
    with (Ret (tt, with_ring (pw_inner (so_writer (sock d))) (set_write_closed c) s1)). cbn beta iota.
  destruct (notify_readers_run (pw_inner (so_writer (sock d))) (set_write_closed c) (sent d p)
    (negb (is_open (negb d) p)) true (pollers d p) s1) as (c' & Hj' & ->); [by destruct Hj|].
  change (n_ex s1) with (n_ex s). rewrite He.
  replace (pollers d (set_closed d p)) with (pollers d p) by (by destruct d, p).
  destruct (st_iter wakeup_task (pollers d p) e) as [[[] e']|]; [|done]. cbn beta iota.
  eexists. split; [done|]. split; [done..|]. intros d'. cbn [w_pair n_rings with_ring with_ex s1].
  destruct (decide (d' = d)) as [->|Hd].
  - exists c'. rewrite lookup_insert_eq. split; [done|]. by destruct d, p.
  - assert (d' = negb d) as -> by (by destruct d, d'). exists b'.
    rewrite lookup_insert_ne, lookup_insert_eq by apply inner_ne. split; [done|]. by destruct d, p.
Qed.

Lemma op_simulated v s w o : socks v s -> (op_ok (a_open (w_pair v)) (b_open (w_pair v)) o).2 ->
  simulates (run_op sock w o) Some (pair_op o) v s.
Proof.
  destruct v as [p e m]. cbn [w_pair].
  assert (forall d : bool, (if d then a_open p else b_open p) = is_open d p) as Hd by (by intros []).
  destruct o as [d buf|d buf|d events w'|d|e']; cbn [op_ok snd]; intros Hs Ho; rewrite ?Hd in Ho.
  - by apply write_op; [|apply Ho].
  - by apply read_op; [|apply Ho..].
  - by apply poll_op.
  - by apply close_op.
  - unfold simulates. cbn. eexists. split; [done|]. by destruct Hs.
Qed.

(** Which ends are open is known from the operations alone. *)
Lemma pair_op_open o v r v' : pair_op o v = Ret (r, v') ->
  (a_open (w_pair v'), b_open (w_pair v')) = (op_ok (a_open (w_pair v)) (b_open (w_pair v)) o).1.
Proof.
  destruct v as [p e m]. unfold pair_op, set_pair, wake_pollers. st_unfold. cbn [w_pair w_ex w_mem].
  destruct o as [d buf|d buf|d events w'|d|e']; cbn [op_ok fst].
  - destruct (negb _); [by intros [= _ <-]|]. destruct (_ =? 0); [by intros [= _ <-]|].
    destruct (_ =? 0); [by intros [= _ <-]|]. destruct (_ =? 0); cbn [w_pair w_ex w_mem].
    + destruct (st_iter _ _ _) as [[[] ?]|]; [|done]. intros [= _ <-]. by destruct d, p.
    + intros [= _ <-]. by destruct d, p.
  - destruct (_ =? 0); intros [= _ <-]; by destruct d, p.
  - destruct (_ && _); intros [= _ <-]; by destruct d, p.
  - cbn [w_pair w_ex w_mem]. destruct (st_iter _ _ _) as [[[] ?]|]; [|done]. intros [= _ <-]. by destruct d, p.
  - by intros [= _ <-].
Qed.

Lemma ops_simulated w ops : forall v s, socks v s -> ops_ok (a_open (w_pair v)) (b_open (w_pair v)) ops ->
  match pair_ops ops v with
  | Ret (rs, v') => exists s', run_ops sock w ops s = Ret (Some rs, s') /\ socks v' s'
  | Panic => run_ops sock w ops s = Panic
  end.
Proof.
  induction ops as [|o ops IH]; intros v s Hs; cbn [ops_ok run_ops pair_ops]; [by exists s|].
  intros [Ho Hok]. pose proof (op_simulated v s w o Hs Ho) as H1. unfold simulates in H1. unfold mbind, ST_bind.
  pose proof (pair_op_open o v) as Hop. destruct (pair_op o v) as [[r v1]|]; [|by rewrite H1].
  destruct H1 as (s1 & -> & Hs1). specialize (Hop r v1 eq_refl). rewrite <- Hop in Hok.
  specialize (IH v1 s1 Hs1 Hok). destruct (pair_ops ops v1) as [[rs v2]|]; [|by rewrite IH].
  destruct IH as (s2 & -> & Hs2). by exists s2.
Qed.

Lemma socketpair_socks e m rs : exists s, make_socketpair ab ba flags (mkN e m rs) = Ret ((sock_a, sock_b), s) /\
  socks (mkWorld new_pair e m) s.
Proof.
  eexists. split; [done|]. split; [done..|]. intros d. exists RingBuffer_new. split.
  - destruct d; cbn; [rewrite lookup_insert_ne, lookup_insert_eq by done|rewrite lookup_insert_eq]; done.
  - destruct d; split; try done; cbn; unfold RING_CAPACITY; lia.
Qed.

End pair.

(** C9: a socket pair is two queues of bytes.  The two ends of a non-blocking
    pair that [make_socketpair] makes for the kernel write, read, poll and
    close in whatever order, each until it is closed, with other parts of the
    system changing the states of the threads in between as they like.  No
    operation waits, and results, memory and executor are those of two lists
    of at most 16 KiB, each with the threads that polled for bytes while it
    was empty: [EAGAIN] when the queue to write to is full or the one to read
    from is empty, [EPIPE] and end of file when the other end is closed, the
    bytes that are read are the bytes that were written, in order, no other
    memory changes, and the threads that polled are woken, once, by the first
    bytes that are written and by the close.  Operations panic only where such
    a wake-up does, when [wakeup_task] finds a thread that polled already
    woken or dead. *)
Theorem socketpair_refines ab ba flags e m rs w ops : ab <> ba -> fl_contains flags O_NONBLOCK = true ->
  ops_ok true true ops ->
  exists a b s, make_socketpair ab ba flags (mkN e m rs) = Ret ((a, b), s) /\
    match pair_ops ops (mkWorld new_pair e m) with
    | Ret (res, v) => exists s', run_ops (fun d => if d then a else b) w ops s = Ret (Some res, s') /\
        n_mem s' = w_mem v /\ n_ex s' = w_ex v
    | Panic => run_ops (fun d => if d then a else b) w ops s = Panic
    end.
Proof.
  intros Hne Hnb Hok. destruct (socketpair_socks ab ba flags Hne e m rs) as (s & Es & Hs).
  pose proof (ops_simulated ab ba flags Hne Hnb w ops _ _ Hs Hok) as H.
  exists (sock_a ab ba flags), (sock_b ab ba flags), s. split; [exact Es|].
  destruct (pair_ops ops (mkWorld new_pair e m)) as [[res v]|]; [|exact H].
  destruct H as (s' & E' & [He Hm _]). by exists s'.
Qed.

(** Task 1 polls B for bytes and blocks.  A writes three bytes, which wakes
    it; B reads two of them and closes, and A gets [EPIPE] for its next
    write. *)
Definition sock_mem : pmem := pa_write_bytes ∅ 0x1000 [1; 2; 3].
Definition sock_script : list sock_op :=
  [SoPoll false POLLIN 1; SoOther ex_waits; SoWrite true [mkSlice 0x1000 3];
   SoRead false [mkSlice 0x2000 2]; SoClose false; SoWrite true [mkSlice 0x1000 3]].

Lemma socketpair_refines_witness : exists s',
  run_ops (fun d => if d then sock_a 1 2 O_NONBLOCK else sock_b 1 2 O_NONBLOCK) 7 sock_script
    (mkN exec_init sock_mem (<[2 := RingBuffer_new]> (<[1 := RingBuffer_new]> ∅))) =
    Ret (Some [SrEvents 0; SrUnit; SrIo (Ok 3); SrIo (Ok 2); SrUnit; SrIo (Err EPIPE)], s') /\
  pa_read_bytes (n_mem s') 0x2000 2 = [1; 2] /\ view (n_ex s') 1 = Some Runnable.
Proof.
  destruct (socketpair_refines 1 2 O_NONBLOCK exec_init sock_mem ∅ 7 sock_script)
    as (a & b & s & [= <- <- <-] & H); [done..| |].
  - cbn. repeat split; repeat constructor; vm_compute; done.
  - destruct (pair_ops sock_script (mkWorld new_pair exec_init sock_mem)) as [[res v]|] eqn:E;
      [|vm_compute in E; discriminate E].
    destruct H as (s' & Hr & Hm & He). exists s'. vm_compute in E. injection E as <- <-.
    split; [exact Hr|]. rewrite Hm, He. vm_compute. done.
Defined.

(** ** Where waiting goes wrong *)

(** The sockets of a pair are non-blocking, and a poll for room on them
    registers nobody: a thread that polls a full socket for [POLLOUT] is not
    woken when the other end reads. *)
Lemma pollout_not_registered p b w s : n_rings s !! pw_inner p = Some b -> read_closed b = false ->
  sb_len b = RING_CAPACITY -> fl_contains (pw_flags p) O_NONBLOCK = true -> writer_poll p POLLOUT w s = Ret (0, s).
Proof.
  intros Hb Hr Hl Hn. unfold writer_poll. st_unfold. rewrite (ring_of_run _ b s Hb). cbn.
  unfold sb_available_write. rewrite Hl. cbn. by rewrite Hr, Hn.
Qed.

(** A blocking writer that has written everything, and with it filled the
    ring, waits for room. *)
Lemma done_writer_waits p b ub w s : n_rings s !! pw_inner p = Some b -> read_closed b = false ->
  sb_len b = RING_CAPACITY -> fl_contains (pw_flags p) O_NONBLOCK = false -> ub_wf ub ->
  exists s', writer_write p ub (zlen (ub_addrs ub)) w s = Ret (inr (zlen (ub_addrs ub)), s').
Proof.
  intros Hb Hr Hl Hn Hu. unfold writer_write, writer_try. st_unfold. rewrite (ring_of_run _ b s Hb). cbn beta iota.
  rewrite Hr. unfold sb_available_write. rewrite Hl, usub_Ret by lia. cbn beta iota.
  destruct (Z.ltb_spec 0 (RING_CAPACITY - RING_CAPACITY)); [lia|]. rewrite Hn.
  unfold register_writer. st_unfold. rewrite (ring_of_run _ b s Hb). cbn beta iota.
  destruct (existsb _ _); eexists; done.
Qed.
