(* ===== verification/Ids.v ===== *)
(** * Process identifiers and kernel stacks (os/src/task/id.rs, kstack.rs)

    [RecycleAllocator] hands out numbers and takes them back; [PidHandle]
    gives its number back when it is dropped.  [StackPool] keeps the kernel
    stack of the CPU and a list of free ones; the heap allocator behind
    [TaskStack::alloc] is an argument, the address it returns (0 for null). *)

From S2P Require Import Prelude Config Address.

(** ** Definitions *)

Record RecycleAllocator : Type := mkRA { ra_current : Z; recycled : list Z }.

Definition RecycleAllocator_new : RecycleAllocator := mkRA 0 [].

(** [Vec::pop] takes the last element. *)
Definition vec_pop {A} (l : list A) : option (A * list A) :=
  match list.last l with
  | Some a => Some (a, take (length l - 1) l)
  | None => None
  end.

Definition id_alloc (a : RecycleAllocator) : outcome (Z * RecycleAllocator) :=
  match vec_pop (recycled a) with
  | Some (id, rest) => Ret (id, mkRA (ra_current a) rest)
  | None =>
      c ← uadd (ra_current a) 1;
      id ← usub c 1;
      Ret (id, mkRA c [])
  end.

Definition id_dealloc (a : RecycleAllocator) (id : Z) : outcome RecycleAllocator :=
  _ ← rassert (id <? ra_current a);
  _ ← rassert (negb (existsb (fun i => i =? id) (recycled a)));
  Ret (mkRA (ra_current a) (recycled a ++ [id])).

(** [PID_ALLOCATOR] starts at 1: no process has pid 0. *)
Definition PID_ALLOCATOR_init : RecycleAllocator := mkRA 1 [].

Definition pid_alloc (a : RecycleAllocator) : outcome (Z * RecycleAllocator) := id_alloc a.
Definition pid_handle_drop (a : RecycleAllocator) (pid : Z) : outcome RecycleAllocator :=
  id_dealloc a pid.

(** *** Kernel stacks *)

Record TaskStack : Type := mkStack { stack_ptr : Z; stack_size : Z }.

(** [Layout::from_size_align] fails when the size, rounded up, exceeds
    [isize::MAX]. *)
Definition TaskStack_alloc (size ptr : Z) : outcome TaskStack :=
  x ← uadd size PAGE_SIZE;
  y ← usub x 1;
  let aligned_size := Z.land y (not64 (PAGE_SIZE - 1)) in
  _ ← rassert (aligned_size <=? isize_max - (PAGE_SIZE - 1));
  _ ← rassert (negb (ptr =? 0));
  Ret (mkStack ptr aligned_size).

Definition stack_top (t : TaskStack) : Z := stack_ptr t + stack_size t.
Definition stack_down (t : TaskStack) : Z := stack_ptr t.

Record StackPool : Type := mkPool {
  free_stacks : list TaskStack;
  pool_current : option TaskStack
}.

Definition StackPool_new : StackPool := mkPool [] None.

Definition pool_init (p : StackPool) (ptr : Z) : outcome StackPool :=
  t ← TaskStack_alloc TASK_STACK_SIZE ptr;
  Ret (mkPool (free_stacks p) (Some t)).

Definition pool_alloc (p : StackPool) (ptr : Z) : outcome (TaskStack * StackPool) :=
  match vec_pop (free_stacks p) with
  | Some (t, rest) => Ret (t, mkPool rest (pool_current p))
  | None => t ← TaskStack_alloc TASK_STACK_SIZE ptr; Ret (t, p)
  end.

Definition pick_current_stack (p : StackPool) (ptr : Z) : outcome (TaskStack * StackPool) :=
  '(new_stack, p) ← pool_alloc p ptr;
  old ← unwrap (pool_current p);
  Ret (old, mkPool (free_stacks p) (Some new_stack)).

Definition current_stack (p : StackPool) : outcome TaskStack := unwrap (pool_current p).

Definition put_prev_stack (p : StackPool) (kstack : TaskStack) : outcome StackPool :=
  curr_stack ← unwrap (pool_current p);
  Ret (mkPool (free_stacks p ++ [curr_stack]) (Some kstack)).

(** ** Runs of the allocator

    [held] are the numbers handed out and not given back, as a list of
    handles; a handle is dropped once. *)

Inductive id_run (a0 : RecycleAllocator) : RecycleAllocator -> list Z -> Prop :=
| run_start : id_run a0 a0 []
| run_alloc a held id a' :
    id_run a0 a held -> id_alloc a = Ret (id, a') -> id_run a0 a' (id :: held)
| run_drop a h1 id h2 a' :
    id_run a0 a (h1 ++ id :: h2) -> id_dealloc a id = Ret a' -> id_run a0 a' (h1 ++ h2).

(** Every number from [base] on that was ever handed out is either held or
    recycled, once. *)
Record ids_ok (base : Z) (a : RecycleAllocator) (held : list Z) : Prop := {
  io_perm : held ++ recycled a ≡ₚ zrange base (ra_current a);
  io_base : base <= ra_current a
}.

Lemma vec_pop_None {A} (l : list A) : vec_pop l = None -> l = [].
Proof.
  unfold vec_pop. destruct l as [|x l] using rev_ind; [done|]. by rewrite last_snoc.
Qed.

Lemma vec_pop_Some {A} (l : list A) a rest : vec_pop l = Some (a, rest) -> l = rest ++ [a].
Proof.
  unfold vec_pop. destruct l as [|x l] using rev_ind; [done|]. rewrite last_snoc.
  intros [= <- <-]. rewrite length_app, Nat.add_sub. by rewrite take_app_length.
Qed.

Lemma id_alloc_ok base a held id a' : ids_ok base a held -> id_alloc a = Ret (id, a') ->
  ids_ok base a' (id :: held).
Proof.
  intros [Hp Hb]. unfold id_alloc. destruct (vec_pop (recycled a)) as [[i rest]|] eqn:E.
  - apply vec_pop_Some in E. intros [= <- <-]. constructor; cbn; [|done].
    rewrite <- Hp, E, app_assoc. apply Permutation_cons_append.
  - apply vec_pop_None in E. intros H. inv_ret.
    constructor; cbn; [|lia]. rewrite E, app_nil_r in Hp. rewrite app_nil_r.
    rewrite (zrange_app base (ra_current a)) by lia.
    rewrite (zrange_cons (ra_current a)), (zrange_nil (ra_current a + 1)) by lia.
    rewrite <- Hp. replace (ra_current a + 1 - 1) with (ra_current a) by lia.
    apply Permutation_cons_append.
Qed.

Lemma id_dealloc_eq base a h1 id h2 : ids_ok base a (h1 ++ id :: h2) ->
  id_dealloc a id = Ret (mkRA (ra_current a) (recycled a ++ [id])) /\
  ids_ok base (mkRA (ra_current a) (recycled a ++ [id])) (h1 ++ h2).
Proof.
  intros [Hp Hb].
  assert (NoDup (h1 ++ id :: h2 ++ recycled a)) as Hnd.
  { rewrite app_comm_cons, app_assoc. rewrite Hp. apply NoDup_zrange. }
  assert (id ∈ zrange base (ra_current a)) as Hin by (rewrite <- Hp; set_solver).
  apply elem_of_zrange in Hin. apply list.NoDup_app in Hnd as (_ & _ & Hnd).
  apply list.NoDup_cons in Hnd as [Hnin _].
  unfold id_dealloc. destruct (Z.ltb_spec id (ra_current a)); [|lia]. cbn [rassert mbind outcome_bind].
  destruct (existsb _ _) eqn:E.
  - apply existsb_exists in E as (x & Hx & ->%Z.eqb_eq). apply list_elem_of_In in Hx. set_solver.
  - split; [done|]. constructor; cbn; [|done]. rewrite <- Hp. solve_Permutation.
Qed.

Lemma ids_ok_run base a held : 0 <= base -> id_run (mkRA base []) a held -> ids_ok base a held.
Proof.
  intros H0. induction 1 as [|a held id a' Hr IH Ha|a h1 id h2 a' Hr IH Hd].
  - constructor; cbn; [by rewrite zrange_nil by lia|lia].
  - by apply (id_alloc_ok base a held).
  - destruct (id_dealloc_eq base a h1 id h2 IH) as [E Hok]. rewrite E in Hd. by injection Hd as <-.
Qed.

(** ** Theorem *)

(** C31: Whatever the order in which process identifiers are allocated and
    dropped, no two live handles share a number, none is 0, dropping any live
    handle succeeds, and an allocation gives a number that no live handle
    has, the smallest unused one when none is recycled. *)
Theorem pids_unique a held : id_run PID_ALLOCATOR_init a held ->
  NoDup held /\ 0 ∉ held /\
  (forall h1 pid h2, held = h1 ++ pid :: h2 -> exists a', pid_handle_drop a pid = Ret a') /\
  (ra_current a + 1 < u64_bound -> exists pid a', pid_alloc a = Ret (pid, a') /\
     pid ∉ held /\ pid <> 0 /\ (recycled a = [] -> pid = ra_current a)).
Proof.
  intros Hr. pose proof (ids_ok_run 1 a held ltac:(lia) Hr) as Hok. pose proof Hok as [Hp Hb].
  assert (NoDup (held ++ recycled a)) as Hnd by (rewrite Hp; apply NoDup_zrange).
  assert (forall x, x ∈ held ++ recycled a -> 1 <= x < ra_current a) as Hin
    by (intros x Hx; rewrite Hp in Hx; by apply elem_of_zrange in Hx).
  split; [by apply list.NoDup_app in Hnd as [? _]|].
  split; [intros H0; specialize (Hin 0 ltac:(set_solver)); lia|].
  split.
  - intros h1 pid h2 ->. destruct (id_dealloc_eq 1 a h1 pid h2 Hok) as [E _]. eauto.
  - intros Hu. unfold pid_alloc, id_alloc.
    destruct (vec_pop (recycled a)) as [[i rest]|] eqn:E.
    + apply vec_pop_Some in E. exists i, (mkRA (ra_current a) rest). split; [done|].
      apply list.NoDup_app in Hnd as (_ & Hdis & _). rewrite E in *.
      split; [intros Hi; apply (Hdis i Hi); set_solver|].
      split; [intros ->; specialize (Hin 0 ltac:(set_solver)); lia|].
      intros Hn. by destruct rest.
    + rewrite uadd_Ret by done. cbn. rewrite usub_Ret by lia. cbn.
      exists (ra_current a), (mkRA (ra_current a + 1) []).
      split; [do 3 f_equal; lia|]. split; [|split; [lia|done]].
      intros Hi. specialize (Hin (ra_current a) ltac:(set_solver)). lia.
Qed.

Lemma pids_unique_witness :
  id_run PID_ALLOCATOR_init (mkRA 3 [1]) [2] /\ NoDup [2] /\ 0 ∉ [2].
Proof.
  assert (id_run PID_ALLOCATOR_init (mkRA 3 [1]) [2]) as Hr.
  { apply (run_drop _ (mkRA 3 []) [2] 1 []); [|reflexivity].
    apply (run_alloc _ (mkRA 2 []) [1] 2); [|reflexivity].
    apply (run_alloc _ PID_ALLOCATOR_init [] 1); [constructor|reflexivity]. }
  split; [exact Hr|]. destruct (pids_unique _ _ Hr) as (H1 & H2 & _). split; [exact H1|exact H2].
Defined.
