(* ===== verification/FdTable.v ===== *)
(** * File descriptor tables (os/src/task/fdmanage.rs, fs/fd.rs)

    A table is a vector of optional descriptors with a soft and a hard limit;
    a descriptor is open flags and a reference to a file, an address here.
    Cloning a descriptor copies the reference.  The path of an inode, needed
    by [find_fd], is an argument. *)

From S2P Require Import Prelude Config Errno Pte Pipe.

(** ** Definitions *)

Definition FD_CLOEXEC : Z := 0x80000.

Inductive FileClass : Type :=
| ClassFile (inode : Z)
| ClassAbs (file : Z).

Definition class_file (c : FileClass) : result Z SysErrNo :=
  match c with ClassFile f => Ok f | ClassAbs _ => Err EINVAL end.
Definition class_abs (c : FileClass) : result Z SysErrNo :=
  match c with ClassFile _ => Err EINVAL | ClassAbs f => Ok f end.
Definition class_any (c : FileClass) : Z :=
  match c with ClassFile f => f | ClassAbs f => f end.

Record FileDescriptor : Type := mkFD { fd_flags : Z; fd_file : FileClass }.

Definition fd_default (c : FileClass) : FileDescriptor := mkFD 0 c.

(** [!flag] of a [bitflags] type keeps the bits of the type. *)
Definition unset_cloexec (f : FileDescriptor) : FileDescriptor :=
  mkFD (fl_remove (fd_flags f) FD_CLOEXEC) (fd_file f).
Definition set_cloexec (f : FileDescriptor) : FileDescriptor :=
  mkFD (fl_insert (fd_flags f) FD_CLOEXEC) (fd_file f).
Definition cloexec (f : FileDescriptor) : bool := fl_contains (fd_flags f) FD_CLOEXEC.
Definition non_block (f : FileDescriptor) : bool := fl_contains (fd_flags f) O_NONBLOCK.
Definition unset_nonblock (f : FileDescriptor) : FileDescriptor :=
  mkFD (fl_remove (fd_flags f) O_NONBLOCK) (fd_file f).
Definition set_nonblock (f : FileDescriptor) : FileDescriptor :=
  mkFD (fl_insert (fd_flags f) O_NONBLOCK) (fd_file f).
Definition is_file (f : FileDescriptor) : bool :=
  match fd_file f with ClassFile _ => true | _ => false end.
Definition is_abs (f : FileDescriptor) : bool :=
  match fd_file f with ClassAbs _ => true | _ => false end.

Record FdManage : Type := mkFdm {
  table : list (option FileDescriptor);
  soft_limit : Z;
  hard_limit : Z
}.

Definition set_table (t : list (option FileDescriptor)) (m : FdManage) : FdManage :=
  mkFdm t (soft_limit m) (hard_limit m).

Definition set_limit (m : FdManage) (soft hard : Z) : FdManage := mkFdm (table m) soft hard.

(** [stdin] and [stdout] are the addresses of the new [Stdin] and [Stdout]
    objects; standard error has a [Stdout] of its own. *)
Definition new_with_stdio (stdin stdout stderr : Z) : FdManage :=
  mkFdm [Some (mkFD O_RDONLY (ClassAbs stdin)); Some (mkFD O_WRONLY (ClassAbs stdout));
         Some (mkFD O_WRONLY (ClassAbs stderr))] 128 256.

Definition fdm_from_another (m : FdManage) : FdManage :=
  mkFdm (table m) (soft_limit m) (hard_limit m).

Definition fdm_len (m : FdManage) : Z := zlen (table m).

(** [table.get(fd)] *)
Definition table_get (t : list (option FileDescriptor)) (fd : Z)
    : option (option FileDescriptor) :=
  if fd <? 0 then None else t !! Z.to_nat fd.

Definition get_file (m : FdManage) (fd : Z) : result FileDescriptor SysErrNo :=
  match table_get (table m) fd with
  | Some (Some f) => Ok f
  | _ => Err EBADF
  end.

(** The loop of [alloc_fd_from] over [min_fd..soft_limit]. *)
Fixpoint alloc_from_loop (t : list (option FileDescriptor)) (candidates : list Z) : option Z :=
  match candidates with
  | [] => None
  | fd :: candidates' =>
      match table_get t fd with
      | Some (Some _) => alloc_from_loop t candidates'
      | _ => Some fd
      end
  end.

Definition alloc_fd_from (m : FdManage) (min_fd : Z) : option Z :=
  alloc_from_loop (table m) (zrange min_fd (soft_limit m)).

(** [table[pos].replace(fd)] *)
Definition table_replace (t : list (option FileDescriptor)) (pos : Z) (f : FileDescriptor)
    : outcome (option FileDescriptor * list (option FileDescriptor)) :=
  old ← index t pos;
  t' ← index_set t pos (Some f);
  Ret (old, t').

Definition add_fd (m : FdManage) (f : FileDescriptor) (pos : Z)
    : outcome (result (option FileDescriptor) SysErrNo * FdManage) :=
  if MAX_FD_NUM <? pos then Panic
  else if pos <? zlen (table m) then
    '(old, t) ← table_replace (table m) pos f;
    Ret (Ok old, set_table t m)
  else if pos <? soft_limit m then
    let t := table m ++ replicate (Z.to_nat (pos + 1 - zlen (table m))) None in
    '(old, t) ← table_replace t pos f;
    Ret (Ok old, set_table t m)
  else Ret (Err EMFILE, m).

Definition take_file (m : FdManage) (fd : Z) : option FileDescriptor * FdManage :=
  match table_get (table m) fd with
  | Some o => (o, set_table (<[Z.to_nat fd := None]> (table m)) m)
  | None => (None, m)
  end.

(** [(0..len).find(|&i| table[i].is_none())], from index [i] on. *)
Fixpoint find_free (t : list (option FileDescriptor)) (i : Z) : option Z :=
  match t with
  | [] => None
  | None :: _ => Some i
  | Some _ :: t' => find_free t' (i + 1)
  end.

Definition alloc_fd (m : FdManage) : result Z SysErrNo * FdManage :=
  match find_free (table m) 0 with
  | Some fd => (Ok fd, m)
  | None =>
      if zlen (table m) <? soft_limit m then
        let t := table m ++ [None] in
        (Ok (zlen t - 1), set_table t m)
      else (Err EMFILE, m)
  end.

Definition close_on_exec (m : FdManage) : FdManage :=
  set_table ((fun o => match o with
                       | Some f => if cloexec f then None else Some f
                       | None => None
                       end) <$> table m) m.

(** [iter().position(..)], from index [i] on; [path_of] is
    [OsInode::get_path], [eqb] the comparison of paths. *)
Fixpoint find_fd_from {P} (eqb : P -> P -> bool) (path_of : Z -> P) (path : P)
    (t : list (option FileDescriptor)) (i : Z) : option Z :=
  match t with
  | [] => None
  | o :: t' =>
      let hit := match o with
                 | Some f => match class_file (fd_file f) with
                             | Ok inode => eqb (path_of inode) path
                             | Err _ => false
                             end
                 | None => false
                 end in
      if hit then Some i else find_fd_from eqb path_of path t' (i + 1)
  end.

Definition find_fd {P} (eqb : P -> P -> bool) (path_of : Z -> P) (m : FdManage) (path : P)
    : option Z := find_fd_from eqb path_of path (table m) 0.

(** ** Lemmas *)

Definition used (m : FdManage) (fd : Z) : Prop := exists f, get_file m fd = Ok f.

Lemma find_free_spec t : forall i,
  match find_free t i with
  | Some k => exists n, k = i + Z.of_nat n /\ t !! n = Some None /\
                forall j, (j < n)%nat -> exists f, t !! j = Some (Some f)
  | None => forall j, (j < length t)%nat -> exists f, t !! j = Some (Some f)
  end.
Proof.
  induction t as [|[f|] t IH]; intros i; cbn [find_free].
  - intros j Hj. cbn in Hj. lia.
  - specialize (IH (i + 1)). destruct (find_free t (i + 1)) as [k|].
    + destruct IH as (n & -> & Hn & Hlt). exists (S n). split; [lia|]. split; [done|].
      intros [|j] Hj; [by exists f|]. apply Hlt. lia.
    + intros [|j] Hj; [by exists f|]. cbn in Hj. apply IH. lia.
  - exists 0%nat. split; [lia|]. split; [done|]. intros j Hj. lia.
Qed.

Lemma get_file_lookup m fd f : get_file m fd = Ok f <-> 0 <= fd /\ table m !! Z.to_nat fd = Some (Some f).
Proof.
  unfold get_file, table_get. destruct (Z.ltb_spec fd 0).
  - split; [done|lia].
  - destruct (table m !! Z.to_nat fd) as [[g|]|]; naive_solver.
Qed.

Lemma add_fd_in m f pos : 0 <= pos < zlen (table m) -> pos <= MAX_FD_NUM ->
  exists old, table m !! Z.to_nat pos = Some old /\
    add_fd m f pos = Ret (Ok old, set_table (<[Z.to_nat pos := Some f]> (table m)) m).
Proof.
  intros Hp Hm. unfold zlen in Hp.
  destruct (lookup_lt_is_Some_2 (table m) (Z.to_nat pos)) as [old Ho]; [lia|].
  exists old. split; [done|]. unfold add_fd, table_replace, index_set, zlen.
  destruct (Z.ltb_spec MAX_FD_NUM pos); [lia|].
  destruct (Z.ltb_spec pos (Z.of_nat (length (table m)))); [|lia].
  assert (index (table m) pos = Ret old) as -> by (apply index_Ret; split; [lia|done]).
  destruct (Z.leb_spec 0 pos); [|lia]. done.
Qed.

(** The descriptor that [alloc_fd] returns: the lowest one that is not in
    use, inside the table it leaves behind. *)
Lemma alloc_fd_spec m :
  match alloc_fd m with
  | (Ok fd, m') =>
      0 <= fd < zlen (table m') /\ ~ used m fd /\
      (forall k, 0 <= k < fd -> used m k) /\
      (zlen (table m) <= fd -> fd < soft_limit m) /\
      (forall k, get_file m' k = get_file m k) /\ soft_limit m' = soft_limit m
  | (Err e, m') => e = EMFILE /\ m' = m /\ soft_limit m <= zlen (table m) /\
      forall k, 0 <= k < zlen (table m) -> used m k
  end.
Proof.
  unfold alloc_fd. pose proof (find_free_spec (table m) 0) as H.
  destruct (find_free (table m) 0) as [fd|].
  - destruct H as (n & -> & Hn & Hlt). rewrite Z.add_0_l. pose proof (lookup_lt_Some _ _ _ Hn).
    unfold zlen. split; [lia|]. split.
    + intros (f & [_ Hf]%get_file_lookup). rewrite Nat2Z.id, Hn in Hf. done.
    + split; [|split; [lia|done]]. intros k Hk. destruct (Hlt (Z.to_nat k)) as [f Hf]; [lia|].
      exists f. apply get_file_lookup. split; [lia|done].
  - assert (forall k, 0 <= k < zlen (table m) -> used m k) as Hu.
    { intros k Hk. destruct (H (Z.to_nat k)) as [f Hf]; [unfold zlen in Hk; lia|].
      exists f. apply get_file_lookup. split; [lia|done]. }
    destruct (Z.ltb_spec (zlen (table m)) (soft_limit m)); [|done].
    rewrite zlen_app. change (zlen [None]) with 1. cbn [table set_table].
    pose proof (zlen_nonneg (table m)). rewrite zlen_app. change (zlen [None]) with 1.
    split; [lia|]. split.
    + intros (f & [_ Hf]%get_file_lookup). apply lookup_lt_Some in Hf. unfold zlen in *. lia.
    + split; [intros k Hk; apply Hu; lia|]. split; [lia|]. split; [|done].
      intros k. unfold get_file, table_get. cbn. destruct (k <? 0); [done|].
      destruct (decide (Z.to_nat k < length (table m))%nat).
      * by rewrite lookup_app_l by done.
      * rewrite lookup_app_r, (lookup_ge_None_2 (table m)) by lia.
        destruct (Z.to_nat k - length (table m))%nat as [|[|x]]; done.
Qed.

(** ** Theorems *)

(** C38: Opening a file gets the lowest free descriptor: [alloc_fd] returns the
    smallest number not in use and installing a file there makes exactly that
    number refer to it, up to [MAX_FD_NUM]; every other descriptor is
    unchanged.  It fails with [EMFILE] only when every entry is used and the
    table has reached the soft limit, and does not make the table longer than
    the soft limit; a free entry the table already has is reused, even above
    a soft limit that was lowered since. *)
Theorem alloc_fd_lowest m f :
  match alloc_fd m with
  | (Ok fd, m1) =>
      ~ used m fd /\ (forall k, 0 <= k < fd -> used m k) /\
      (zlen (table m) <= fd -> fd < soft_limit m) /\
      (fd <= MAX_FD_NUM -> exists m2, add_fd m1 f fd = Ret (Ok None, m2) /\
         get_file m2 fd = Ok f /\ forall k, k <> fd -> get_file m2 k = get_file m k)
  | (Err e, m1) => e = EMFILE /\ m1 = m /\ soft_limit m <= zlen (table m) /\
      forall k, 0 <= k < zlen (table m) -> used m k
  end.
Proof.
  pose proof (alloc_fd_spec m) as H. destruct (alloc_fd m) as [[fd|e] m1]; [|done].
  destruct H as (Hr & Hn & Hlt & Hs & Hg & _). split; [done|]. split; [done|]. split; [done|].
  intros Hm. destruct (add_fd_in m1 f fd Hr Hm) as (old & Ho & ->).
  assert (old = None) as ->.
  { destruct old as [g|]; [|done]. exfalso. apply Hn. exists g. rewrite <- Hg.
    apply get_file_lookup. split; [lia|done]. }
  eexists. split; [done|]. pose proof (lookup_lt_Some _ _ _ Ho) as Hl. split.
  - apply get_file_lookup. cbn. split; [lia|]. by rewrite list_lookup_insert_eq.
  - intros k Hk. rewrite <- Hg. unfold get_file, table_get. cbn.
    destruct (Z.ltb_spec k 0); [done|]. rewrite list_lookup_insert_ne by lia. done.
Qed.

(** The table breaks between [MAX_FD_NUM] and the soft limit: when all
    descriptors up to a length above [MAX_FD_NUM] and below the soft limit
    are in use, [alloc_fd] succeeds with the next number and [add_fd] of that
    number panics. *)
Theorem add_fd_above_max_panics m f : MAX_FD_NUM < zlen (table m) < soft_limit m ->
  (forall k, 0 <= k < zlen (table m) -> used m k) ->
  exists m1, alloc_fd m = (Ok (zlen (table m)), m1) /\ add_fd m1 f (zlen (table m)) = Panic.
Proof.
  intros Hl Hu. pose proof (alloc_fd_spec m) as H. destruct (alloc_fd m) as [[fd|e] m1].
  - destruct H as (Hr & Hn & Hlt & Hs & Hg & _).
    assert (fd = zlen (table m)) as ->.
    { pose proof (zlen_nonneg (table m)).
      destruct (Z.lt_total fd (zlen (table m))) as [?|[?|?]]; [|done|].
      - exfalso. apply Hn, Hu. lia.
      - exfalso. destruct (Hlt (zlen (table m))) as (g & [_ Hf]%get_file_lookup); [lia|].
        apply lookup_lt_Some in Hf. unfold zlen in *. lia. }
    exists m1. split; [done|]. unfold add_fd. destruct (Z.ltb_spec MAX_FD_NUM (zlen (table m))); [done|lia].
  - destruct H as (_ & _ & ? & _). lia.
Qed.

Lemma add_fd_above_max_panics_witness :
  let f := fd_default (ClassAbs 1) in
  let m := mkFdm (replicate 101 (Some f)) 128 256 in
  exists m1, alloc_fd m = (Ok 101, m1) /\ add_fd m1 f 101 = Panic.
Proof.
  intros f m. apply (add_fd_above_max_panics m f).
  - cbn. unfold MAX_FD_NUM, zlen. cbn. lia.
  - intros k Hk. exists f. apply get_file_lookup. split; [lia|].
    change (zlen (table m)) with 101 in Hk. apply (lookup_replicate_2 101). lia.
Defined.
