(* ===== verification/Path.v ===== *)
(** * Paths (os/src/utils/string.rs, utils/mod.rs)

    A [&str] is the list of its bytes; the functions look for ['/'] and
    ['.'], which are single bytes in UTF-8, so that splitting by bytes and by
    characters agree.  The two normalisation routines of the kernel are shown
    to agree, and the result to be a canonical path. *)

From S2P Require Import Prelude Config Errno.

(** ** Strings *)

Definition SLASH : Z := 47.
Definition DOT : list Z := [46].
Definition DOTDOT : list Z := [46; 46].

Definition starts_with_slash (s : list Z) : bool :=
  match s with c :: _ => c =? SLASH | [] => false end.

Definition ends_with_slash (s : list Z) : bool :=
  match list.last s with Some c => c =? SLASH | None => false end.

(** [s.split('/')] *)
Fixpoint split_slash (s : list Z) : list (list Z) :=
  match s with
  | [] => [[]]
  | c :: s' =>
      if c =? SLASH then [] :: split_slash s'
      else match split_slash s' with
           | h :: t => (c :: h) :: t
           | [] => [[c]]
           end
  end.

(** [v.join("/")] *)
Fixpoint join_slash (l : list (list Z)) : list Z :=
  match l with
  | [] => []
  | [x] => x
  | x :: l' => x ++ SLASH :: join_slash l'
  end.

(** [s.replace("//", "/")]: matches from the left, without overlap. *)
Fixpoint replace_slashes (s : list Z) : list Z :=
  match s with
  | a :: ((b :: s') as t) =>
      if (a =? SLASH) && (b =? SLASH) then SLASH :: replace_slashes s'
      else a :: replace_slashes t
  | _ => s
  end.

Fixpoint contains_slashes (s : list Z) : bool :=
  match s with
  | a :: ((b :: _) as t) => (a =? SLASH) && (b =? SLASH) || contains_slashes t
  | _ => false
  end.

(** [s.rfind('/')] *)
Fixpoint rfind_slash (s : list Z) (i : nat) : option nat :=
  match s with
  | [] => None
  | c :: s' =>
      match rfind_slash s' (S i) with
      | Some j => Some j
      | None => if c =? SLASH then Some i else None
      end
  end.

Definition str_eqb (a b : list Z) : bool := bool_decide (a = b).

(** [Vec::pop], dropping the element. *)
Definition pop_last {A} (l : list A) : list A := take (length l - 1) l.

(** ** utils/string.rs *)

Fixpoint trim_slashes (s : list Z) : list Z :=
  match s with
  | c :: s' => if c =? SLASH then trim_slashes s' else s
  | [] => []
  end.

Definition trim_start_slash (s : list Z) : list Z :=
  if 2 <=? zlen s - zlen (trim_slashes s) then SLASH :: trim_slashes s else s.

Definition path2abs_step (cwdv : list (list Z)) (el : list Z) : list (list Z) :=
  if str_eqb el DOT then cwdv
  else if str_eqb el DOTDOT then pop_last cwdv
  else cwdv ++ [el].

Definition path2abs (cwdv pathv : list (list Z)) : list Z :=
  SLASH :: join_slash (fold_left path2abs_step pathv cwdv).

Definition nonempty (s : list Z) : bool := match s with [] => false | _ => true end.

Definition path2vec (path : list Z) : list (list Z) :=
  List.filter nonempty (split_slash path).

Definition is_abs_path (path : list Z) : bool := starts_with_slash path.

(** [rsplit_once(s, "/")] with the parent of a top-level name made ["/"]. *)
Definition rsplit_once_slash (s : list Z) : outcome (list Z * list Z) :=
  idx ← unwrap (rfind_slash s 0);
  let parent_path := take idx s in
  let parent_path := if nonempty parent_path then parent_path else [SLASH] in
  Ret (parent_path, drop (S idx) s).

Definition get_abs_path (base_path path : list Z) : list Z :=
  if is_abs_path path then path
  else
    let wpath := if str_eqb base_path [SLASH] then [] else path2vec base_path in
    path2abs wpath (path2vec path).

Definition abs_step (components : list (list Z)) (c : list Z) : list (list Z) :=
  if str_eqb c [] || str_eqb c DOT then components
  else if str_eqb c DOTDOT then pop_last components
  else components ++ [c].

Definition normalize_absolute_path (abs_path : list Z) : outcome (list Z) :=
  if negb (starts_with_slash abs_path) then Panic
  else
    let components := fold_left abs_step (split_slash abs_path) [] in
    match components with
    | [] => Ret [SLASH]
    | _ => Ret (SLASH :: join_slash components)
    end.

Definition get_parent_path_and_filename (p : list Z) : outcome (list Z * list Z) :=
  if negb (starts_with_slash p) then Panic
  else if str_eqb p [SLASH] then Ret ([SLASH], [SLASH])
  else
    match rfind_slash p 0 with
    | Some O => Ret ([SLASH], drop 1 p)
    | Some idx => Ret (take idx p, drop (S idx) p)
    | None => Panic
    end.

(** ** utils/mod.rs *)

(** The loop that removes doubled slashes; [None] when the fuel runs out. *)
Fixpoint collapse (fuel : nat) (s : list Z) : option (list Z) :=
  if contains_slashes s && (1 <? zlen s) then
    match fuel with
    | O => None
    | S fuel' => collapse fuel' (replace_slashes s)
    end
  else Some s.

Definition join_step (is_abs : bool) (stack : list (list Z)) (c : list Z) : list (list Z) :=
  if str_eqb c [] then stack
  else if str_eqb c DOT then stack
  else if str_eqb c DOTDOT then
    match list.last stack with
    | Some prev => if str_eqb prev DOTDOT then stack ++ [DOTDOT] else pop_last stack
    | None => if is_abs then stack else stack ++ [DOTDOT]
    end
  else stack ++ [c].

Definition join_raw (base_path path : list Z) : list Z :=
  if starts_with_slash path then path
  else (if ends_with_slash base_path then base_path else base_path ++ [SLASH]) ++ path.

Definition normalize_and_join_path (base_path path : list Z) : outcome (result (list Z) SysErrNo) :=
  let path_str := join_raw base_path path in
  path_str ← unwrap (collapse (length path_str) path_str);
  let is_abs := starts_with_slash path_str in
  let stack := fold_left (join_step is_abs) (split_slash path_str) [] in
  let r := (if is_abs then [SLASH] else []) ++ join_slash stack in
  let r := if nonempty r then r else DOT in
  if PATH_MAX <? zlen r then Ret (Err ENAMETOOLONG) else Ret (Ok r).

(** [assert!(align.is_power_of_two())], which includes that it is not 0. *)
Definition align_up (value align : Z) : outcome Z :=
  _ ← rassert ((0 <? align) && (Z.land align (align - 1) =? 0));
  x ← uadd value align;
  y ← usub x 1;
  Ret (Z.land y (not64 (align - 1))).

Definition page_round_up (v : Z) : outcome Z :=
  if v mod PAGE_SIZE =? 0 then Ret v
  else x ← usub v (v mod PAGE_SIZE); uadd x PAGE_SIZE.

Definition is_aligned_to (ptr align : Z) : outcome bool :=
  a ← usub align 1;
  Ret (Z.land ptr a =? 0).

(** ** Components *)

Definition no_slash (c : list Z) : Prop := SLASH ∉ c.
Definition proper (c : list Z) : Prop := no_slash c /\ c <> [] /\ c <> DOT /\ c <> DOTDOT.

(** A canonical absolute path. *)
Definition canonical (p : list Z) : Prop :=
  exists comps, Forall proper comps /\ p = SLASH :: join_slash comps.

Lemma split_nonempty s : exists h t, split_slash s = h :: t.
Proof.
  destruct s as [|c s]; [by do 2 eexists|]. cbn. destruct (c =? SLASH); [by do 2 eexists|].
  destruct (split_slash s); by do 2 eexists.
Qed.

Lemma split_no_slash s : Forall no_slash (split_slash s).
Proof.
  induction s as [|c s IH]; cbn; [repeat constructor; unfold no_slash; set_solver|].
  destruct (Z.eqb_spec c SLASH); [constructor; [unfold no_slash; set_solver|done]|].
  destruct (split_nonempty s) as (h & t & E). rewrite E in *.
  apply Forall_cons_1 in IH as [Hh Ht]. constructor; [|done]. unfold no_slash in *. set_solver.
Qed.

Lemma split_app_slash c s : no_slash c -> split_slash (c ++ SLASH :: s) = c :: split_slash s.
Proof.
  induction c as [|a c IH]; intros Hc; [done|]. unfold no_slash in *. cbn.
  destruct (Z.eqb_spec a SLASH); [set_solver|]. rewrite IH by set_solver. done.
Qed.

Lemma split_one c : no_slash c -> split_slash c = [c].
Proof.
  induction c as [|a c IH]; intros Hc; [done|]. unfold no_slash in *. cbn.
  destruct (Z.eqb_spec a SLASH); [set_solver|]. rewrite IH by set_solver. done.
Qed.

Lemma split_join l : l <> [] -> Forall no_slash l -> split_slash (join_slash l) = l.
Proof.
  induction l as [|x l IH]; intros Hn Hl; [done|]. apply Forall_cons_1 in Hl as [Hx Hl].
  destruct l as [|y l]; [by apply split_one|]. change (join_slash (x :: y :: l))
    with (x ++ SLASH :: join_slash (y :: l)). rewrite split_app_slash by done. by rewrite IH.
Qed.

Lemma str_eqb_spec a b : reflect (a = b) (str_eqb a b).
Proof. unfold str_eqb. case_bool_decide; by constructor. Qed.

Lemma abs_step_proper cs c : Forall proper cs -> no_slash c -> Forall proper (abs_step cs c).
Proof.
  intros Hcs Hc. unfold abs_step.
  destruct (str_eqb_spec c []), (str_eqb_spec c DOT); cbn; try done.
  destruct (str_eqb_spec c DOTDOT); [unfold pop_last; by apply Forall_take|].
  apply Forall_app. split; [done|]. by repeat constructor.
Qed.

Lemma fold_abs_proper l : forall cs, Forall proper cs -> Forall no_slash l ->
  Forall proper (fold_left abs_step l cs).
Proof.
  induction l as [|c l IH]; intros cs Hcs Hl; [done|]. apply Forall_cons_1 in Hl as [Hc Hl].
  cbn. apply IH; [by apply abs_step_proper|done].
Qed.

(** Proper components are appended unchanged. *)
Lemma fold_abs_id l : forall cs, Forall proper l -> fold_left abs_step l cs = cs ++ l.
Proof.
  induction l as [|c l IH]; intros cs Hl; [by rewrite app_nil_r|].
  apply Forall_cons_1 in Hl as [(Hs & H1 & H2 & H3) Hl]. cbn. rewrite IH by done.
  unfold abs_step. destruct (str_eqb_spec c []), (str_eqb_spec c DOT), (str_eqb_spec c DOTDOT);
    try done. cbn. by rewrite <- app_assoc.
Qed.

(** Empty components do not matter. *)
Lemma fold_abs_filter l : forall cs,
  fold_left abs_step (List.filter nonempty l) cs = fold_left abs_step l cs.
Proof.
  induction l as [|[|x c] l IH]; intros cs; [done| |]; cbn [List.filter nonempty fold_left].
  - rewrite IH. done.
  - apply IH.
Qed.

Lemma normalize_eq p : starts_with_slash p = true ->
  normalize_absolute_path p = Ret (SLASH :: join_slash (fold_left abs_step (split_slash p) [])).
Proof.
  intros Hp. unfold normalize_absolute_path. rewrite Hp. cbn [negb].
  by destruct (fold_left abs_step (split_slash p) []).
Qed.

Lemma split_canonical comps : Forall proper comps ->
  fold_left abs_step (split_slash (SLASH :: join_slash comps)) [] = comps.
Proof.
  intros Hc. cbn. destruct comps as [|c comps]; [done|].
  rewrite split_join; [|done|eapply Forall_impl; [|exact Hc]; by intros x [? _]].
  exact (fold_abs_id (c :: comps) [] Hc).
Qed.

(** ** Doubled slashes *)

Lemma replace_cons2 a b s : replace_slashes (a :: b :: s) =
  if (a =? SLASH) && (b =? SLASH) then SLASH :: replace_slashes s
  else a :: replace_slashes (b :: s).
Proof. done. Qed.

Lemma contains_cons2 a b s : contains_slashes (a :: b :: s) =
  (a =? SLASH) && (b =? SLASH) || contains_slashes (b :: s).
Proof. done. Qed.

Lemma replace_length s : (length (replace_slashes s) <= length s)%nat /\
  (contains_slashes s = true -> (length (replace_slashes s) < length s)%nat).
Proof.
  remember (length s) as n eqn:Hn. revert s Hn.
  induction n as [n IH] using lt_wf_ind; intros s ->. destruct s as [|a [|b s]]; [done|done|].
  rewrite replace_cons2, contains_cons2.
  destruct ((a =? SLASH) && (b =? SLASH)) eqn:E; cbn [orb].
  - destruct (IH (length s) ltac:(cbn; lia) s eq_refl) as [H _]. cbn. lia.
  - destruct (IH (length (b :: s)) ltac:(cbn; lia) (b :: s) eq_refl) as [H1 H2].
    cbn [length] in *. split; [lia|]. intros H%H2. lia.
Qed.

(** The loop ends within as many rounds as the string has bytes. *)
Lemma collapse_total fuel s : (length s <= fuel)%nat -> exists s', collapse fuel s = Some s'.
Proof.
  revert s. induction fuel as [|fuel IH]; intros s Hl; cbn [collapse].
  - destruct s; [by eexists|cbn in Hl; lia].
  - destruct (contains_slashes s) eqn:E; cbn [andb]; [|by eexists].
    destruct (1 <? zlen s); [|by eexists]. apply IH.
    destruct (replace_length s) as [_ H]. specialize (H E). lia.
Qed.

(** What [replace] keeps: the first component and the non-empty others. *)
Definition same_split (s t : list Z) : Prop :=
  hd [] (split_slash s) = hd [] (split_slash t) /\
  List.filter nonempty (tl (split_slash s)) = List.filter nonempty (tl (split_slash t)) /\
  starts_with_slash s = starts_with_slash t.

Lemma split_cons_other c s : c <> SLASH ->
  split_slash (c :: s) = (c :: hd [] (split_slash s)) :: tl (split_slash s).
Proof.
  intros Hc. cbn. destruct (Z.eqb_spec c SLASH); [done|].
  destruct (split_nonempty s) as (h & t & ->). done.
Qed.

Lemma filter_split s : List.filter nonempty (split_slash s) =
  List.filter nonempty [hd [] (split_slash s)] ++ List.filter nonempty (tl (split_slash s)).
Proof. destruct (split_nonempty s) as (h & t & ->). by destruct h. Qed.

Lemma same_split_cons c s t : same_split s t -> same_split (c :: s) (c :: t).
Proof.
  intros (H1 & H2 & _). unfold same_split. destruct (decide (c = SLASH)) as [->|Hc].
  - cbn [split_slash]. rewrite Z.eqb_refl. cbn [hd tl]. rewrite !filter_split, H1, H2. done.
  - rewrite !split_cons_other by done. cbn [hd tl]. rewrite H1, H2. done.
Qed.

Lemma replace_same s : same_split (replace_slashes s) s.
Proof.
  remember (length s) as n eqn:Hn. revert s Hn.
  induction n as [n IH] using lt_wf_ind; intros s ->. destruct s as [|a [|b s]]; [done|done|].
  rewrite replace_cons2. destruct ((a =? SLASH) && (b =? SLASH)) eqn:E.
  - apply andb_true_iff in E as [->%Z.eqb_eq ->%Z.eqb_eq].
    destruct (same_split_cons SLASH _ _ (IH (length s) ltac:(cbn; lia) s eq_refl)) as (H1 & H2 & H3).
    done.
  - apply same_split_cons, (IH (length (b :: s))); [cbn; lia|done].
Qed.

Lemma collapse_same fuel : forall s s', collapse fuel s = Some s' -> same_split s' s.
Proof.
  induction fuel as [|fuel IH]; intros s s'; cbn [collapse].
  - destruct (_ && _); [done|]. by intros [= <-].
  - destruct (_ && _); [|by intros [= <-]]. intros (H1 & H2 & H3)%IH.
    destruct (replace_same s) as (K1 & K2 & K3). unfold same_split. by rewrite H1, H2, H3.
Qed.

(** ** The two normalisations agree on absolute paths *)

Lemma last_proper cs x : Forall proper cs -> list.last cs = Some x -> proper x.
Proof.
  intros Hc [l ->]%last_Some. apply Forall_app in Hc as [_ Hc]. by apply Forall_cons_1 in Hc as [? _].
Qed.

Lemma join_step_abs cs c : Forall proper cs -> join_step true cs c = abs_step cs c.
Proof.
  intros Hcs. unfold join_step, abs_step.
  destruct (str_eqb_spec c []), (str_eqb_spec c DOT); cbn [orb]; try done.
  destruct (str_eqb_spec c DOTDOT); [|done].
  destruct (list.last cs) as [x|] eqn:E.
  - destruct (str_eqb_spec x DOTDOT) as [->|]; [|done].
    by destruct (last_proper _ _ Hcs E) as (_ & _ & _ & []).
  - apply last_None in E as ->. done.
Qed.

Lemma fold_join_abs l : forall cs, Forall proper cs -> Forall no_slash l ->
  fold_left (join_step true) l cs = fold_left abs_step l cs.
Proof.
  induction l as [|c l IH]; intros cs Hcs Hl; [done|]. apply Forall_cons_1 in Hl as [Hc Hl].
  cbn. rewrite join_step_abs by done. apply IH; [by apply abs_step_proper|done].
Qed.

Lemma join_raw_abs base path : starts_with_slash base = true ->
  starts_with_slash (join_raw base path) = true.
Proof.
  intros Hb. unfold join_raw. destruct (starts_with_slash path) eqn:E; [done|].
  destruct base as [|c base]; [done|]. by destruct (ends_with_slash (c :: base)).
Qed.

Lemma same_split_fold s t : same_split s t ->
  fold_left abs_step (split_slash s) [] = fold_left abs_step (split_slash t) [].
Proof.
  intros (H1 & H2 & _). rewrite <- (fold_abs_filter (split_slash s)),
    <- (fold_abs_filter (split_slash t)), !filter_split. by rewrite H1, H2.
Qed.

(** C27: With an absolute base, [normalize_and_join_path] (collapse doubled
    slashes, then resolve dots on a stack that knows about leading dots) always
    returns, and returns exactly what [normalize_absolute_path] makes of the
    concatenated string, except that a result longer than [PATH_MAX] is
    [ENAMETOOLONG]: the two routines of the kernel agree. *)
Theorem normalize_and_join_agrees base path :
  starts_with_slash base = true ->
  exists q, normalize_absolute_path (join_raw base path) = Ret q /\
  normalize_and_join_path base path =
    Ret (if zlen q <=? PATH_MAX then Ok q else Err ENAMETOOLONG).
Proof.
  intros Hb. assert (Hr := join_raw_abs base path Hb). set (s := join_raw base path) in *.
  eexists. split; [by apply normalize_eq|]. unfold normalize_and_join_path. fold s. cbv zeta.
  destruct (collapse_total (length s) s) as [s' Hs']; [lia|]. rewrite Hs'. cbn [unwrap mbind outcome_bind].
  assert (Hsame := collapse_same _ _ _ Hs').
  replace (starts_with_slash s') with true by (destruct Hsame as (_ & _ & ->); done).
  rewrite fold_join_abs by (done || apply split_no_slash). rewrite (same_split_fold _ _ Hsame).
  cbn [nonempty app]. zcases; done || lia.
Qed.

Lemma normalize_and_join_agrees_witness :
  starts_with_slash [47; 97] = true /\
  exists q, normalize_absolute_path (join_raw [47; 97] [98; 47; 47; 46; 46]) = Ret q /\
  normalize_and_join_path [47; 97] [98; 47; 47; 46; 46] =
    Ret (if zlen q <=? PATH_MAX then Ok q else Err ENAMETOOLONG).
Proof. split; [reflexivity|]. apply normalize_and_join_agrees. reflexivity. Defined.

(** ** Canonical paths *)

(** [normalize_absolute_path] panics exactly on a path that is not
    absolute; on an absolute one it returns a canonical path (["/"] and
    components that are neither empty nor dots and hold no slash), which it
    maps to itself. *)
Theorem normalize_canonical p :
  match normalize_absolute_path p with
  | Panic => starts_with_slash p = false
  | Ret q => starts_with_slash p = true /\ canonical q /\ normalize_absolute_path q = Ret q
  end.
Proof.
  destruct (starts_with_slash p) eqn:E.
  - rewrite normalize_eq by done. set (cs := fold_left _ _ _).
    assert (Hc : Forall proper cs) by (apply fold_abs_proper; [done|apply split_no_slash]).
    split; [done|]. split; [by exists cs|]. rewrite normalize_eq by done.
    by rewrite split_canonical.
  - unfold normalize_absolute_path. rewrite E. done.
Qed.

(** ** Parent and file name *)

Lemma rfind_none c i : no_slash c -> rfind_slash c i = None.
Proof.
  revert i. induction c as [|a c IH]; intros i Hc; [done|]. unfold no_slash in *. cbn.
  rewrite IH by set_solver. destruct (Z.eqb_spec a SLASH); [set_solver|done].
Qed.

Lemma rfind_app p c i : no_slash c -> rfind_slash (p ++ SLASH :: c) i = Some (i + length p)%nat.
Proof.
  revert i. induction p as [|a p IH]; intros i Hc; cbn.
  - rewrite rfind_none by done. f_equal. lia.
  - rewrite IH by done. f_equal. lia.
Qed.

Lemma join_snoc cs c : cs <> [] -> join_slash (cs ++ [c]) = join_slash cs ++ SLASH :: c.
Proof.
  induction cs as [|x cs IH]; intros Hn; [done|]. destruct cs as [|y cs]; [done|].
  change (join_slash ((x :: y :: cs) ++ [c])) with (x ++ SLASH :: join_slash ((y :: cs) ++ [c])).
  rewrite IH by done. change (join_slash (x :: y :: cs)) with (x ++ SLASH :: join_slash (y :: cs)).
  by rewrite <- app_assoc.
Qed.

Lemma parent_eq cs c : Forall proper cs -> proper c ->
  get_parent_path_and_filename (SLASH :: join_slash (cs ++ [c])) = Ret (SLASH :: join_slash cs, c).
Proof.
  intros Hcs (Hs & Hc & _). unfold get_parent_path_and_filename. cbn [starts_with_slash].
  rewrite Z.eqb_refl. cbn [negb].
  destruct cs as [|x cs].
  - cbn [app join_slash]. destruct (str_eqb_spec (SLASH :: c) [SLASH]) as [[=]|]; [done|].
    change (SLASH :: c) with ([] ++ SLASH :: c). rewrite rfind_app by done. done.
  - rewrite join_snoc by done. set (j := join_slash (x :: cs)).
    assert (Hlen : length (SLASH :: j) = S (length j)) by done.
    change (SLASH :: j ++ SLASH :: c) with ((SLASH :: j) ++ SLASH :: c).
    destruct (str_eqb_spec ((SLASH :: j) ++ SLASH :: c) [SLASH]) as [E|_];
      [apply (f_equal length) in E; rewrite length_app in E; cbn in E; lia|].
    rewrite rfind_app by done. rewrite Hlen. cbn [Nat.add]. rewrite <- Hlen.
    rewrite take_app_length, drop_app_ge by lia. rewrite Hlen.
    replace (S (S (length j)) - S (length j))%nat with 1%nat by lia. done.
Qed.

Lemma path2vec_canonical cs : Forall proper cs ->
  path2vec (SLASH :: join_slash cs) = cs.
Proof.
  intros Hcs. unfold path2vec. cbn [split_slash]. rewrite Z.eqb_refl. cbn [List.filter nonempty].
  destruct cs as [|c cs]; [done|].
  rewrite split_join; [|done|eapply Forall_impl; [|exact Hcs]; by intros x [? _]].
  revert Hcs. generalize (c :: cs). intros l. induction l as [|x l IH]; intros Hl; [done|].
  apply Forall_cons_1 in Hl as [(_ & Hx & _) Hl]. destruct x; [done|]. cbn. by rewrite IH.
Qed.

Lemma proper_relative c : proper c -> is_abs_path c = false /\ path2vec c = [c].
Proof.
  intros (Hs & Hc & _). destruct c as [|a c]; [done|]. split.
  - cbn. apply Z.eqb_neq. intros ->. apply Hs. set_solver.
  - unfold path2vec. by rewrite split_one.
Qed.

(** Taking a canonical path other than the root apart and putting it
    together again: [get_parent_path_and_filename] gives a canonical parent and
    a proper file name, and [get_abs_path] of the two is the path. *)
Theorem parent_filename_roundtrip p :
  canonical p -> p <> [SLASH] ->
  exists parent name, get_parent_path_and_filename p = Ret (parent, name) /\
    canonical parent /\ proper name /\ get_abs_path parent name = p.
Proof.
  intros (cs & Hcs & ->) Hp. destruct (decide (cs = [])) as [->|Hn]; [done|].
  destruct (exists_last Hn) as (cs' & c & ->). apply Forall_app in Hcs as [Hcs Hc].
  apply Forall_cons_1 in Hc as [Hc _]. exists (SLASH :: join_slash cs'), c.
  split; [by apply parent_eq|]. split; [by exists cs'|]. split; [done|].
  destruct (proper_relative c Hc) as [H1 H2]. unfold get_abs_path. rewrite H1, H2.
  rewrite path2vec_canonical by done.
  replace (if str_eqb _ _ then _ else _) with cs'.
  - unfold path2abs. cbn [fold_left]. unfold path2abs_step. destruct Hc as (_ & _ & Hd & Hdd).
    destruct (str_eqb_spec c DOT), (str_eqb_spec c DOTDOT); done.
  - destruct (str_eqb_spec (SLASH :: join_slash cs') [SLASH]) as [E|]; [|done].
    rewrite <- (path2vec_canonical cs') by done. rewrite E. done.
Qed.

Lemma parent_filename_roundtrip_witness :
  canonical [47; 97; 47; 98] /\ [47; 97; 47; 98] <> [SLASH] /\
  exists parent name, get_parent_path_and_filename [47; 97; 47; 98] = Ret (parent, name) /\
    canonical parent /\ proper name /\ get_abs_path parent name = [47; 97; 47; 98].
Proof.
  assert (H : canonical [47; 97; 47; 98]).
  { exists [[97]; [98]]. split; [|reflexivity].
    repeat constructor; try discriminate; unfold no_slash, SLASH; set_solver. }
  split; [exact H|]. split; [discriminate|]. apply parent_filename_roundtrip; [exact H|discriminate].
Defined.

(** A path given as absolute is returned as it is, dots and all: the result
    of [get_abs_path] need not be canonical. *)
Example get_abs_path_keeps_dots :
  get_abs_path [47] [47; 97; 47; 46; 46] = [47; 97; 47; 46; 46] /\
  normalize_absolute_path [47; 97; 47; 46; 46] = Ret [47].
Proof. split; reflexivity. Qed.

(** ** Alignment *)

Lemma page_round_up_spec v r : 0 <= v -> page_round_up v = Ret r ->
  v <= r < v + PAGE_SIZE /\ r mod PAGE_SIZE = 0.
Proof.
  intros Hv. unfold page_round_up. unfold PAGE_SIZE in *. zcases; intros H; inv_ret; lia.
Qed.
