(* ===== verification/MmapSys.v ===== *)
(** * The memory system calls (os/src/syscall/process.rs, os/src/syscall/flags.rs)

    [mmap], [munmap], [mprotect], [mremap] and [madvise] check their arguments
    and call the methods of the address space.  The address space of the
    current process is an argument and a result; the methods of an open file
    that [mmap] asks, whether it is writable and how long it is, are
    arguments. *)

From S2P Require Import Prelude Config Address Memory FrameAlloc Pte.
From S2P Require Import PageTable BTree Errno Area MemorySet FdTable Path.

(** ** Flags *)

Definition PROT_READ : Z := 1.
Definition PROT_WRITE : Z := 2.
Definition PROT_EXEC : Z := 4.
Definition prot_all : Z := 7.

Definition MAP_DENYWRITE : Z := 0x800.
Definition MAP_POPULATE : Z := 0x2000.
Definition MAP_NORESERVE : Z := 0x4000.
Definition MAP_STACK : Z := 0x20000.
Definition mmap_all : Z :=
  Z.lor MAP_SHARED (Z.lor MAP_PRIVATE (Z.lor MAP_FIXED (Z.lor MAP_ANONYMOUS
    (Z.lor MAP_DENYWRITE (Z.lor MAP_POPULATE (Z.lor MAP_STACK (Z.lor MAP_FIXED_NOREPLACE MAP_NORESERVE))))))).

(** [MremapFlags]: [MAYMOVE], [FIXED], [DONTUNMAP] *)
Definition mremap_all : Z := 7.

(** [impl From<MmapProt> for MapPermission] *)
Definition perm_of_prot (prot : Z) : Z :=
  let f := MP_U in
  let f := if fl_contains prot PROT_READ then Z.lor f MP_R else f in
  let f := if fl_contains prot PROT_WRITE then Z.lor f MP_W else f in
  if fl_contains prot PROT_EXEC then Z.lor f MP_X else f.

(** ** mmap *)

Section mmap.
Variable file_writable : FileDescriptor -> result bool SysErrNo.
Variable file_size : FileDescriptor -> Z.

(** The checks before the address space is locked; they give the permission
    and the flags. *)
Definition mmap_check (remaining addr len prot flags fd off : Z) : result (Z * Z) SysErrNo :=
  match fl_from_bits prot_all prot with
  | None => Err EINVAL
  | Some prot =>
      let perm := perm_of_prot prot in
      if flags =? 0 then Err EINVAL
      else
        match fl_from_bits mmap_all flags with
        | None => Err EINVAL
        | Some flags =>
            let anon := fl_contains flags MAP_ANONYMOUS in
            if negb anon && (fd <? 0) then Err EINVAL
            else if len =? 0 then Err EINVAL
            else if negb (off mod PAGE_SIZE =? 0) then Err EINVAL
            else if remaining <? Z.shiftr len PAGE_SIZE_BITS then Err ENOMEM
            else if negb anon && (wrap64 fd =? usize_MAX) then Err EBADE
            else if anon && negb (wrap64 fd =? usize_MAX) then Err EINVAL
            else if fl_contains flags MAP_FIXED && (addr =? 0) then Err EPERM
            else Ok (perm, flags)
        end
  end.

(** The file of a mapping that is not anonymous. *)
Definition mmap_file (t : FdManage) (flags perm fd off : Z) : result (option FileDescriptor) SysErrNo :=
  if fl_contains flags MAP_ANONYMOUS then Ok None
  else
    match get_file t (wrap64 fd) with
    | Err e => Err e
    | Ok file =>
        match (if fl_contains perm MP_W then file_writable file else Ok true) with
        | Err e => Err e
        | Ok false => Err EACCES
        | Ok true => if file_size file <? off then Err EINVAL else Ok (Some file)
        end
    end.

(** The address of the mapping; [MAP_FIXED] removes what is there. *)
Definition mmap_base (ms : MemorySet) (flags addr pages : Z)
    : ST world (result Z SysErrNo * MemorySet) :=
  let vpn := VirtAddr_floor addr in
  end_vpn ← st_lift (uadd vpn pages);
  if fl_contains flags MAP_FIXED then
    ms' ← (if is_overlap (areatree ms) vpn end_vpn then munmap ms vpn end_vpn else mret ms);
    mret (Ok addr, ms')
  else if fl_contains flags MAP_FIXED_NOREPLACE then
    mret (if is_overlap (areatree ms) vpn end_vpn then Err EEXIST else Ok addr, ms)
  else
    hint_vpn ← (if addr =? 0 then mret (Z.shiftr MMAP_BASE PAGE_SIZE_BITS)
                else st_lift (VirtAddr_ceil addr));
    o ← st_lift (alloc_pages_from_hint (areatree ms) pages hint_vpn);
    mret (match o with Some v => Ok (VirtAddr_of_VirtPageNum v) | None => Err ENOMEM end, ms).

(** The new area at [base], with its pages if they are wanted at once. *)
Definition mmap_area (ms : MemorySet) (base len perm flags off : Z) (file : option FileDescriptor)
    : ST world (result Z SysErrNo * MemorySet) :=
  end_va ← st_lift (uadd base len);
  a ← st_lift (MapArea_new base end_va Framed perm AT_Mmap);
  let a := mkArea (vpn_range a) (data_frames a) (map_type a) (map_perm a) (area_type a)
             ((fun f => mkMmapFile (class_any (fd_file f)) off) <$> file) flags in
  '(r, a, pt) ← (if fl_contains flags MAP_POPULATE then area_map a (page_table ms)
                 else mret (Ok tt, a, page_table ms));
  match r with
  | Err e => _ ← drop_area a; mret (Err e, mkMS pt (areatree ms))
  | Ok _ =>
      t ← areas_push (areatree ms) a;
      mret (Ok base, mkMS pt t)
  end.

Definition sys_mmap (t : FdManage) (ms : MemorySet) (addr len prot flags fd off : Z)
    : ST world (result Z SysErrNo * MemorySet) :=
  remaining ← remaining_frames;
  match mmap_check remaining addr len prot flags fd off with
  | Err e => mret (Err e, ms)
  | Ok (perm, flags) =>
      len ← st_lift (page_round_up len);
      let pages := len / PAGE_SIZE in
      match mmap_file t flags perm fd off with
      | Err e => mret (Err e, ms)
      | Ok file =>
          '(r, ms) ← mmap_base ms flags addr pages;
          match r with
          | Err e => mret (Err e, ms)
          | Ok base =>
              if MMAP_TOP <=? base then mret (Err ENOMEM, ms)
              else mmap_area ms base len perm flags off file
          end
      end
  end.

End mmap.

(** ** The other calls *)

Definition sys_munmap (ms : MemorySet) (start len : Z) : ST world (result Z SysErrNo * MemorySet) :=
  end_ ← st_lift (uadd start len);
  end_vpn ← st_lift (VirtAddr_ceil end_);
  ms' ← munmap ms (VirtAddr_floor start) end_vpn;
  mret (Ok 0, ms').

(** [flags as u32] *)
Definition sys_mprotect (fs : inodes) (ms : MemorySet) (start size flags : Z)
    : ST world (result Z SysErrNo * MemorySet * inodes) :=
  match fl_from_bits prot_all (flags mod 2 ^ 32) with
  | Some prot =>
      '(ms', fs') ← mprotect fs ms start size (perm_of_prot prot);
      mret (Ok 0, ms', fs')
  | None => mret (Err EINVAL, ms, fs)
  end.

(** [new_address] is not used. *)
Definition sys_mremap (ms : MemorySet) (old_address old_size new_size flags : Z)
    : ST world (result Z SysErrNo * MemorySet) :=
  flags ← st_lift (unwrap (fl_from_bits mremap_all flags));
  mremap ms old_address old_size new_size flags.

Definition MEMORY_END : Z := KERNEL_DIRECT_OFFSET + 0xB0000000.
Definition MADV_NORMAL : Z := 0.
Definition MADV_RANDOM : Z := 1.
Definition MADV_SEQUENTIAL : Z := 2.
Definition MADV_WILLNEED : Z := 3.
Definition MADV_DONTNEED : Z := 4.

Definition sys_madvise (ms : MemorySet) (addr len advice : Z) : ST world (result Z SysErrNo * MemorySet) :=
  if negb (VirtAddr_page_offset addr =? 0) then mret (Err EINVAL, ms)
  else if len =? 0 then mret (Ok 0, ms)
  else if u64_bound <=? addr + len then mret (Err EINVAL, ms)
  else if MEMORY_END <? addr + len then mret (Err ENOMEM, ms)
  else if (advice =? MADV_NORMAL) || (advice =? MADV_RANDOM) || (advice =? MADV_SEQUENTIAL)
          || (advice =? MADV_WILLNEED)
  then mret (Ok 0, ms)
  else if advice =? MADV_DONTNEED then
    ms' ← madvise_dontneed ms (VirtAddr_floor addr) (VirtAddr_floor (addr + len - 1));
    mret (Ok 0, ms')
  else mret (Err EINVAL, ms).
