(* ===== verification/VmSpec.v ===== *)
(** * The memory calls and the page map

    An address space seen from a program is a map from pages to permissions.
    [mmap], [munmap] and [mprotect] of anonymous memory are simulated by the
    obvious operations on such maps.  The last part shows calls for which this
    fails: their preconditions are needed. *)

From S2P Require Import Prelude Config Address BitField Memory FrameAlloc.
From S2P Require Import FrameSpec Pte PageTable BTree Errno Area.
From S2P Require Import AreaTree AreaMap MemorySet Munmap FdTable Protect.
From S2P Require Import MmapSys Path.

(** ** The search for free pages *)

Notation TOP := (MMAP_TOP / PAGE_SIZE).
Notation BASE := (Z.shiftr MMAP_BASE PAGE_SIZE_BITS).

(** The forward search gives free pages behind [last], or the end of the last
    area. *)
Lemma hint_forward_spec l n : forall last, tree_wf l -> 0 < n < 2 ^ 52 -> 0 <= last < 2 ^ 52 ->
  (forall k a, (k, a) ∈ l -> last <= k) ->
  exists o, hint_forward l n last = Ret o /\
    match o with
    | inl v => last <= v /\ v + n <= TOP /\ is_overlap l v (v + n) = false
    | inr last' => last <= last' < 2 ^ 52 /\ forall k a, (k, a) ∈ l -> end_vpn a <= last'
    end.
Proof.
  induction l as [|[k a] l IH]; intros last Hwf Hn Hl Hk.
  - exists (inr last). split; [done|]. split; [lia|]. set_solver.
  - destruct (tw_key _ Hwf k a ltac:(left)) as (Ek & Hr & Hr').
    pose proof (Hk k a ltac:(left)) as Hka.
    destruct (IH (Z.max last (end_vpn a))) as (o & E & Ho); [by apply (tree_tail k a)|done|lia| |].
    { intros j b Hin. pose proof (tree_cons_lt k a l j b Hwf Hin).
      pose proof (tw_disj _ Hwf k a j b ltac:(left) ltac:(by right) ltac:(lia)).
      pose proof (Hk j b ltac:(by right)). lia. }
    assert (exists o, hint_forward l n (Z.max last (end_vpn a)) = Ret o /\
      match o with
      | inl v => last <= v /\ v + n <= TOP /\ is_overlap ((k, a) :: l) v (v + n) = false
      | inr last' => last <= last' < 2 ^ 52 /\ forall j b, (j, b) ∈ (k, a) :: l -> end_vpn b <= last'
      end) as Hnext.
    { exists o. split; [done|]. destruct o as [v|last'].
      - destruct Ho as (H1 & H2 & H3). split; [lia|]. split; [done|]. rewrite is_overlap_cons, H3.
        destruct (Z.ltb_spec v (end_vpn a)); [lia|done].
      - destruct Ho as [H1 H2]. split; [lia|]. intros j b [[= -> ->]|Hin]%elem_of_cons; [lia|by apply (H2 j)]. }
    cbn [hint_forward]. destruct ((last <? k) && (n <=? k - last)) eqn:Hg; [|exact Hnext].
    zbool. rewrite uadd_Ret by (unfold u64_bound; lia). cbn [mbind outcome_bind].
    destruct (Z.leb_spec (last + n) TOP); [|exact Hnext]. exists (inl last). split; [done|]. split; [lia|].
    split; [done|]. apply is_overlap_false. intros j b [[= -> ->]|Hin]%elem_of_cons; [lia|].
    pose proof (tree_cons_lt k a l j b Hwf Hin). destruct (tw_key _ Hwf j b ltac:(by right)) as (-> & _). lia.
Qed.

Lemma descending_elem l k a : descending l -> (k, a) ∈ l -> 0 <= start_vpn a <= end_vpn a /\ end_vpn a < 2 ^ 52.
Proof.
  induction l as [|[j b] l IH]; intros Hd Hin; [set_solver|]. destruct Hd as (_ & H1 & H2 & Hd).
  apply elem_of_cons in Hin as [[= -> ->]|Hin]; [done|by apply IH].
Qed.

(** The backward search gives free pages, or a page below all areas. *)
Lemma hint_backward_spec l n : forall prev, descending l -> 0 < n < 2 ^ 52 -> 0 <= prev < 2 ^ 52 ->
  exists o, hint_backward l n prev = Ret o /\
    match o with
    | inl v => 0 <= v /\ v + n < 2 ^ 52 /\ is_overlap l v (v + n) = false /\
        (v + n = prev \/ exists k a, (k, a) ∈ l /\ v + n = start_vpn a)
    | inr prev' => 0 <= prev' < 2 ^ 52 /\ (forall k a, (k, a) ∈ l -> prev' <= start_vpn a) /\
        (prev' = prev \/ exists k a, (k, a) ∈ l /\ prev' = start_vpn a)
    end.
Proof.
  induction l as [|[k a] l IH]; intros prev Hd Hn Hp.
  - exists (inr prev). split; [done|]. split; [lia|]. split; [set_solver|by left].
  - pose proof Hd as (Hlow & Hr & Hr' & Hd'). cbn [hint_backward].
    destruct ((end_vpn a <? prev) && (n <=? prev - end_vpn a)) eqn:Hg.
    + zbool. rewrite usub_Ret by lia. exists (inl (prev - n)). split; [done|]. split; [lia|]. split; [lia|].
      split; [|left; lia]. apply is_overlap_false. intros j b [[= -> ->]|Hin]%elem_of_cons; [lia|].
      pose proof (Hlow j b Hin). lia.
    + destruct (IH (start_vpn a) Hd' Hn ltac:(lia)) as (o & E & Ho). exists o. split; [done|].
      assert (forall x, (x = start_vpn a \/ exists j b, (j, b) ∈ l /\ x = start_vpn b) -> x <= start_vpn a /\
        (x = prev \/ exists j b, (j, b) ∈ (k, a) :: l /\ x = start_vpn b)) as Hx.
      { intros x [->|(j & b & Hin & ->)].
        - split; [lia|]. right. exists k, a. split; [left|done].
        - pose proof (Hlow j b Hin). pose proof (descending_elem l j b Hd' Hin). split; [lia|].
          right. exists j, b. split; [by right|done]. }
      destruct o as [v|prev'].
      * destruct Ho as (H1 & H2 & H3 & H4%Hx). split_and!; [done|done| |apply H4]. rewrite is_overlap_cons, H3.
        destruct (Z.ltb_spec (start_vpn a) (v + n)); [lia|]. by rewrite andb_false_r.
      * destruct Ho as (H1 & H2 & H4%Hx). split_and!; [lia|lia| |apply H4].
        intros j b [[= -> ->]|Hin]%elem_of_cons; [lia|by apply (H2 j)].
Qed.

(** The areas that start below the hint end there at the latest. *)
Definition hint_clear (t : VmAreaTree) (hint : Z) : Prop :=
  forall k a, (k, a) ∈ t -> k < Z.max hint BASE -> end_vpn a <= Z.max hint BASE.

Lemma top_base : 0 < BASE < TOP /\ TOP < 2 ^ 40.
Proof. vm_compute. done. Qed.

(** A search with such a hint gives free pages. *)
Lemma alloc_hint_free t n hint : tree_wf t -> 0 < n < 2 ^ 50 -> 0 <= hint < 2 ^ 51 -> hint_clear t hint ->
  exists o, alloc_pages_from_hint t n hint = Ret o /\
    forall v, o = Some v -> 0 <= v /\ v + n < 2 ^ 52 /\ is_overlap t v (v + n) = false.
Proof.
  intros Hwf Hn Hh Hc. unfold alloc_pages_from_hint. set (hb := Z.max hint BASE). pose proof top_base as Htb.
  assert (tree_wf (bt_from hb t)) as Hwf'.
  { destruct Hwf as [S K D]. split; [by apply filter_sorted| |].
    - intros k a [Hin _]%elem_of_from. by apply K.
    - intros k1 a1 k2 a2 [H1 _]%elem_of_from [H2 _]%elem_of_from. by apply (D k1 a1 k2 a2). }
  destruct (hint_forward_spec (bt_from hb t) n hb Hwf' ltac:(lia) ltac:(lia)) as (o & E & Ho).
  { intros k a [_ Hk]%elem_of_from. done. }
  rewrite E. cbn [mbind outcome_bind].
  assert (forall v, hb <= v -> is_overlap (bt_from hb t) v (v + n) = false -> is_overlap t v (v + n) = false) as Hall.
  { intros v Hv Hov. rewrite is_overlap_false in *. intros k a Hin. destruct (Z.lt_ge_cases k hb) as [Hk|Hk].
    - left. pose proof (Hc k a Hin Hk). unfold hb in Hv. lia.
    - apply (Hov k). by apply elem_of_from. }
  destruct o as [v|last'].
  { exists (Some v). split; [done|]. intros u [= <-]. destruct Ho as (H1 & H2 & H3). split; [lia|]. split; [lia|].
    by apply Hall. }
  destruct Ho as [H1 H2]. destruct ((last' <? TOP) && (n <=? TOP - last')) eqn:Hg.
  { zbool. exists (Some last'). split; [done|]. intros u [= <-]. split; [lia|]. split; [lia|]. apply Hall; [lia|].
    apply is_overlap_false. intros k a Hin. left. by apply (H2 k). }
  destruct (hint_backward_spec (rev t) n TOP) as (o & E2 & Ho); [by apply rev_descending|lia|lia|].
  rewrite E2. cbn [mbind outcome_bind]. destruct o as [v|prev'].
  { exists (Some v). split; [done|]. intros u [= <-]. destruct Ho as (H3 & H4 & H5 & _).
    rewrite is_overlap_rev in H5. done. }
  destruct Ho as (H3 & H4 & _). destruct ((BASE <? prev') && (n <=? prev' - BASE)) eqn:Hg2; [|by exists None].
  zbool. rewrite usub_Ret by lia. exists (Some (prev' - n)). split; [done|]. intros u [= <-].
  split; [lia|]. split; [lia|]. apply is_overlap_false. intros k a Hin. right.
  rewrite list_elem_of_In in Hin. apply in_rev in Hin. rewrite <- list_elem_of_In in Hin. pose proof (H4 k a Hin). lia.
Qed.

(** ** munmap and new areas *)

Lemma munmap_vm w ms s e : vm_ok w (root_ppn (page_table ms)) (areatree ms) -> 0 <= s <= e ->
  exists t' w', munmap ms s e w = Ret (set_areas t' ms, w') /\ vm_ok w' (root_ppn (page_table ms)) t' /\
    (forall v x, has t' v x <-> has (areatree ms) v x /\ ~ s <= v < e) /\ is_overlap t' s e = false.
Proof.
  intros Hok Hse. pose proof (vo_ms _ _ _ Hok) as Hms. pose proof (mw_tree _ _ _ Hms) as Hwf.
  destruct (munmap_spec w ms s e Hse Hms) as (t' & w' & E & L). exists t', w'. split; [done|].
  set (t := areatree ms) in *. set (root := root_ppn (page_table ms)) in *.
  pose proof (mw_tree _ _ _ (lp_wf _ _ _ _ _ _ _ _ L)) as Hwf'.
  assert (forall v, covered t' v -> ~ s <= v < e) as Hout.
  { intros v (k & a & Hk & Hv & Hc)%(lp_covered _ _ _ _ _ _ _ _ L) Hr. destruct Hc as [Hc|Hc]; [|done].
    apply Hc, munmap_overlaps_spec; [done|]. exists a. destruct (tree_key t Hwf k a Hk) as (-> & _). split; [done|lia]. }
  split; [split; [apply L| |]|split].
  - intros j b Hb. destruct (lp_part _ _ _ _ _ _ _ _ L j b Hb) as (k & a & Hk & _ & _ & (_ & _ & _ & Hf) & _).
    by apply Hf, (vo_anon _ _ _ Hok k).
  - intros j b v p Hb Hv.
    destruct (mw_frames _ _ _ (lp_wf _ _ _ _ _ _ _ _ L) j b v p Hb Hv) as (F1 & F2 & _).
    destruct (lp_part _ _ _ _ _ _ _ _ L j b Hb) as (_ & _ & _ & _ & _ & _ & [Hd|Hj]); [by rewrite Hd in Hv|].
    destruct (tree_key t Hwf j b Hj) as (_ & Hr & _).
    rewrite (lp_kept _ _ _ _ _ _ _ _ L); [by apply (vo_flags _ _ _ Hok j b v p)|lia|].
    intros Hr'. exfalso. apply (Hout v); [|done]. apply covered_get; [done|]. by exists j, b.
  - intros v x. split.
    + intros (j & b & Hb & Hv & ->). destruct (lp_part _ _ _ _ _ _ _ _ L j b Hb) as (k & a & Hk & H1 & H2 & (_ & Hp & Ht & _) & _).
      split; [exists k, a; rewrite Hp, Ht; split; [done|]; split; [lia|done]|].
      apply Hout, covered_get; [done|]. by exists j, b.
    + intros [(k & a & Hk & Hv & ->) Hr].
      assert (covered t' v) as Hcov.
      { apply (lp_covered _ _ _ _ _ _ _ _ L). exists k, a. split; [done|]. split; [done|by right]. }
      apply (covered_get t' Hwf') in Hcov as (j & b & Hb & Hv'). exists j, b. split; [done|]. split; [done|].
      destruct (lp_part _ _ _ _ _ _ _ _ L j b Hb) as (k0 & a0 & Hk0 & H1 & H2 & (_ & Hp & Ht & _) & _).
      destruct (tree_unique t Hwf k0 a0 k a v Hk0 Hk ltac:(lia) Hv) as [-> ->]. by rewrite Hp, Ht.
  - apply is_overlap_false. intros j b Hb%(elem_get _ _ _ (tw_sorted _ Hwf')).
    destruct (lp_sep _ _ _ _ _ _ _ _ L j b Hb) as [[Hj Hn]|H]; [|done].
    destruct (tree_key t Hwf j b Hj) as (Ej & _). destruct (Z.le_gt_cases (end_vpn b) s), (Z.le_gt_cases e (start_vpn b)); try lia.
    exfalso. apply Hn, munmap_overlaps_spec; [done|]. exists b. split; [done|lia].
Qed.

(** A new area over free pages; an empty area that starts there is dropped. *)
Lemma push_vm w root t a : vm_ok w root t -> data_frames a = [] -> area_fd a = None ->
  0 <= start_vpn a < end_vpn a -> end_vpn a < 2 ^ 52 -> is_overlap t (start_vpn a) (end_vpn a) = false ->
  areas_push t a w = Ret (tree_push t a, w) /\ vm_ok w root (tree_push t a) /\
  forall v x, has (tree_push t a) v x <->
    if decide (start_vpn a <= v < end_vpn a) then x = (map_perm a, area_type a) else has t v x.
Proof.
  intros Hok Hd Hfd Hr Hr' Hov. pose proof (vo_ms _ _ _ Hok) as Hms. pose proof (mw_tree _ _ _ Hms) as Hwf.
  rewrite is_overlap_false in Hov.
  assert (forall j b, bt_get j t = Some b -> end_vpn b <= start_vpn a \/ end_vpn a <= j) as Hdis.
  { intros j b Hb. destruct (tree_key t Hwf j b Hb) as (-> & _). apply (Hov (start_vpn b)). by apply get_Some_elem. }
  assert (forall j b, bt_get j (tree_push t a) = Some b <->
    j = start_vpn a /\ b = a \/ j <> start_vpn a /\ bt_get j t = Some b) as Hget.
  { intros j b. unfold tree_push. rewrite zget_insert by apply Hwf. destruct (decide _); naive_solver. }
  split; [|split; [split; [split| |]|]].
  - unfold areas_push. destruct (bt_get (start_vpn a) t) as [b|] eqn:Hb; [|done].
    destruct (tree_key t Hwf _ b Hb) as (Eb & Hrb & _).
    assert (data_frames b = []) as Hb0.
    { destruct (data_frames b) as [|[v p] d] eqn:Ed; [done|].
      destruct (mw_frames _ _ _ Hms _ b v p Hb) as (F & _); [rewrite Ed; apply elem_get; [|left]|].
      - rewrite <- Ed. by apply (mw_sorted _ _ _ Hms (start_vpn a)).
      - destruct (Hdis _ b Hb); lia. }
    unfold drop_area, drop_frames. by rewrite Hb0.
  - apply Hms.
  - apply Hms.
  - apply tree_wf_get; [apply insert_sorted, Hwf| |].
    + intros j b [[-> ->]|[_ H]]%Hget; [lia|by apply (tree_key t Hwf)].
    + intros j1 b1 j2 b2 [[-> ->]|[N1 H1]]%Hget [[-> ->]|[N2 H2]]%Hget Hlt; [lia| | |].
      * destruct (tree_key t Hwf j2 b2 H2) as (E2 & ? & _). destruct (Hdis j2 b2 H2); lia.
      * destruct (tree_key t Hwf j1 b1 H1) as (E1 & ? & _). destruct (Hdis j1 b1 H1); lia.
      * by apply (tree_disj t Hwf j1 b1 j2 b2).
  - intros j b [[-> ->]|[_ H]]%Hget; [rewrite Hd; apply SSorted_nil|by apply (mw_sorted _ _ _ Hms j)].
  - intros j b v p [[-> ->]|[_ H]]%Hget Hv; [by rewrite Hd in Hv|by apply (mw_frames _ _ _ Hms j b v p)].
  - intros j1 b1 v1 j2 b2 v2 p [[-> ->]|[_ H1]]%Hget [[-> ->]|[_ H2]]%Hget V1 V2;
      try (by rewrite Hd in V1); try (by rewrite Hd in V2). by apply (mw_inj _ _ _ Hms j1 b1 v1 j2 b2 v2 p).
  - intros j b [[-> ->]|[_ H]]%Hget; [done|by apply (vo_anon _ _ _ Hok j)].
  - intros j b v p [[-> ->]|[_ H]]%Hget Hv; [by rewrite Hd in Hv|by apply (vo_flags _ _ _ Hok j b v p)].
  - intros v x. case_decide as Hv; split.
    + intros (j & b & [[-> ->]|[_ H]]%Hget & Hvb & ->); [done|].
      destruct (tree_key t Hwf j b H) as (Ej & ? & _). destruct (Hdis j b H); lia.
    + intros ->. exists (start_vpn a), a. split; [apply Hget; by left|done].
    + intros (j & b & [[-> ->]|[_ H]]%Hget & Hvb & ->); [done|]. by exists j, b.
    + intros (j & b & H & Hvb & ->). exists j, b. split; [|done]. apply Hget. right. split; [|done]. intros ->.
      destruct (tree_key t Hwf _ b H) as (Ej & ? & _). destruct (Hdis _ b H); lia.
Qed.

(** ** The page map *)

Definition page_map : Type := Z -> option (Z * MapAreaType).

Definition agrees (t : VmAreaTree) (P : page_map) : Prop := forall v x, has t v x <-> P v = Some x.

Definition pm_set (P : page_map) (s e : Z) (x : Z * MapAreaType) : page_map :=
  fun v => if decide (s <= v < e) then Some x else P v.
Definition pm_clear (P : page_map) (s e : Z) : page_map :=
  fun v => if decide (s <= v < e) then None else P v.
Definition pm_protect (P : page_map) (s e perm : Z) : page_map :=
  fun v => if decide (s <= v < e) then (fun x => (perm, snd x)) <$> P v else P v.

(** [mmap] of anonymous memory, [munmap] and [mprotect]. *)
Inductive vm_call : Type :=
| VMmap (addr len prot flags : Z)
| VMunmap (start len : Z)
| VMprotect (start size prot : Z).

Definition pages_of (len : Z) : Z := (len + 4095) / 4096.

(** What a program sees of a call.  [MAP_FIXED] replaces what is at the
    address; without it the pages of the new mapping were free.  A fixed
    address at the end of the address space is refused only after the range
    has been unmapped. *)
Inductive vm_spec (P : page_map) : vm_call -> result Z SysErrNo -> page_map -> Prop :=
| spec_fixed addr len prot flags :
    fl_contains flags MAP_FIXED = true -> addr < MMAP_TOP ->
    vm_spec P (VMmap addr len prot flags) (Ok addr)
      (pm_set P (addr / 4096) (addr / 4096 + pages_of len) (perm_of_prot prot, AT_Mmap))
| spec_fixed_high addr len prot flags :
    fl_contains flags MAP_FIXED = true -> MMAP_TOP <= addr ->
    vm_spec P (VMmap addr len prot flags) (Err ENOMEM)
      (pm_clear P (addr / 4096) (addr / 4096 + pages_of len))
| spec_free addr len prot flags base :
    fl_contains flags MAP_FIXED = false ->
    (fl_contains flags MAP_FIXED_NOREPLACE = true -> base = addr) ->
    base mod 4096 = 0 -> 0 <= base < MMAP_TOP ->
    (forall v, base / 4096 <= v < base / 4096 + pages_of len -> P v = None) ->
    vm_spec P (VMmap addr len prot flags) (Ok base)
      (pm_set P (base / 4096) (base / 4096 + pages_of len) (perm_of_prot prot, AT_Mmap))
| spec_refused addr len prot flags e :
    fl_contains flags MAP_FIXED = false -> (e = ENOMEM \/ e = EEXIST) ->
    vm_spec P (VMmap addr len prot flags) (Err e) P
| spec_unmap start len :
    vm_spec P (VMunmap start len) (Ok 0) (pm_clear P (start / 4096) ((start + len + 4095) / 4096))
| spec_protect start size prot :
    vm_spec P (VMprotect start size prot) (Ok 0)
      (pm_protect P (start / 4096) ((start + size + 4095) / 4096) (perm_of_prot prot)).

(** The arguments: valid flags, aligned addresses, ranges that are not empty
    and do not wrap around, frames for the new pages, a hint that is not
    inside an area, and areas that are allocated from their start on. *)
Definition call_ok (w : world) (t : VmAreaTree) (c : vm_call) : Prop :=
  match c with
  | VMmap addr len prot flags =>
      0 <= prot <= 7 /\ fl_from_bits mmap_all flags = Some flags /\
      fl_contains flags MAP_ANONYMOUS = true /\ fl_contains flags MAP_POPULATE = false /\
      0 <= addr < 2 ^ 62 /\ addr mod 4096 = 0 /\ 0 < len /\ len / 4096 <= free_count w /\
      (fl_contains flags MAP_FIXED = true -> addr <> 0) /\
      (fl_contains flags MAP_FIXED = false -> fl_contains flags MAP_FIXED_NOREPLACE = false ->
         hint_clear t (if addr =? 0 then BASE else addr / 4096))
  | VMunmap start len => 0 <= start /\ 0 <= len /\ 0 < start + len < 2 ^ 63
  | VMprotect start size prot => 0 <= start /\ 0 < size /\ start + size < 2 ^ 63 /\ 0 <= prot <= 7 /\
      dense_range t (start / 4096) ((start + size + 4095) / 4096)
  end.

Lemma prot_bits prot : 0 <= prot <= 7 -> fl_from_bits prot_all prot = Some prot /\ prot mod 2 ^ 32 = prot.
Proof.
  intros H. split; [|lia].
  assert (prot = 0 \/ prot = 1 \/ prot = 2 \/ prot = 3 \/ prot = 4 \/ prot = 5 \/ prot = 6 \/ prot = 7) as Hc by lia.
  by destruct Hc as [->|[->|[->|[->|[->|[->|[->| ->]]]]]]].
Qed.

Lemma remaining_run w : world_wf w -> remaining_frames w = Ret (free_count w, w) /\ free_count w < 2 ^ 37.
Proof.
  intros Hw. split.
  - unfold remaining_frames. st_unfold. by rewrite (remaining_frames_counts _ (ww_fa w Hw)).
  - pose proof (managed_list_bound _ (ww_fa w Hw)).
    pose proof (zcount_bounds (fa_free (w_fa w)) (managed_list (regions (w_fa w)))). unfold free_count. lia.
Qed.

Lemma page_round_up_run len : 0 < len < 2 ^ 62 -> page_round_up len = Ret (pages_of len * 4096) /\
  0 < pages_of len /\ len / 4096 <= pages_of len <= len / 4096 + 1.
Proof.
  intros H. unfold page_round_up, pages_of, PAGE_SIZE. split; [|lia].
  destruct (Z.eqb_spec (len mod 4096) 0) as [E|E]; [f_equal; lia|].
  rewrite usub_Ret by lia. cbn [mbind outcome_bind]. rewrite uadd_Ret by (unfold u64_bound; lia). f_equal. lia.
Qed.

Section simulation.
Variable file_writable : FileDescriptor -> result bool SysErrNo.
Variable file_size : FileDescriptor -> Z.
Variable fdt : FdManage.
Variable fs : inodes.

Definition vm_run (c : vm_call) (ms : MemorySet) : ST world (result Z SysErrNo * MemorySet) :=
  match c with
  | VMmap addr len prot flags => sys_mmap file_writable file_size fdt ms addr len prot flags (-1) 0
  | VMunmap start len => sys_munmap ms start len
  | VMprotect start size prot => '(r, ms', _) ← sys_mprotect fs ms start size prot; mret (r, ms')
  end.

(** The result of a call refines the page map [P] to [P']. *)
Definition simulated (ms : MemorySet) (c : vm_call) (P : page_map)
    (res : outcome (result Z SysErrNo * MemorySet * world)) : Prop :=
  exists r ms' w' P', res = Ret ((r, ms'), w') /\ vm_spec P c r P' /\ page_table ms' = page_table ms /\
    vm_ok w' (root_ppn (page_table ms')) (areatree ms') /\ agrees (areatree ms') P'.

Section mmap_call.
Variables (w : world) (ms : MemorySet) (P : page_map) (addr len prot flags : Z).
Notation t := (areatree ms).
Notation c := (VMmap addr len prot flags).
Notation n := (pages_of len).
Hypothesis Hok : vm_ok w (root_ppn (page_table ms)) t.
Hypothesis HP : agrees t P.
Hypothesis Hc : call_ok w t c.

Lemma mmap_args : 0 < n < 2 ^ 38 /\ 0 < len < 2 ^ 50 /\ 0 <= addr < 2 ^ 62 /\ addr mod 4096 = 0.
Proof.
  destruct Hc as (_ & _ & _ & _ & Ha & Ham & Hl & Hf & _).
  destruct (remaining_run w (mw_world _ _ _ (vo_ms _ _ _ Hok))) as [_ Hb].
  destruct (page_round_up_run len ltac:(lia)) as (_ & ? & ?). lia.
Qed.

(** After the checks the call chooses an address and adds the area. *)
Lemma mmap_unfold : vm_run c ms w =
  ('(r, ms) ← mmap_base ms flags addr n;
   match r with
   | Err e => mret (Err e, ms)
   | Ok base => if MMAP_TOP <=? base then mret (Err ENOMEM, ms)
                else mmap_area ms base (n * 4096) (perm_of_prot prot) flags 0 None
   end) w.
Proof.
  destruct mmap_args as (Hn & Hl & Ha & Ham). destruct Hc as (Hp & Hfl & Han & Hpop & _ & _ & _ & Hf & Hfix & _).
  unfold vm_run, sys_mmap. erewrite st_run by exact (proj1 (remaining_run w (mw_world _ _ _ (vo_ms _ _ _ Hok)))). cbv beta.
  assert (mmap_check (free_count w) addr len prot flags (-1) 0 = Ok (perm_of_prot prot, flags)) as ->.
  { unfold mmap_check. rewrite (proj1 (prot_bits prot Hp)), Hfl, Han. cbn [negb andb].
    change (wrap64 (-1) =? usize_MAX) with true. change (0 mod PAGE_SIZE =? 0) with true. cbn [negb andb].
    destruct (Z.eqb_spec flags 0) as [->|_]; [done|]. destruct (Z.eqb_spec len 0); [lia|].
    assert (Z.shiftr len PAGE_SIZE_BITS = len / 4096) as -> by (unfold PAGE_SIZE_BITS; by rewrite Z.shiftr_div_pow2).
    destruct (Z.ltb_spec (free_count w) (len / 4096)); [lia|].
    destruct (fl_contains flags MAP_FIXED); [|done]. destruct (Z.eqb_spec addr 0); [|done].
    by destruct (Hfix eq_refl). }
  erewrite st_run by (unfold st_lift; rewrite (proj1 (page_round_up_run len ltac:(lia))); reflexivity). cbv beta.
  unfold mmap_file. rewrite Han. change PAGE_SIZE with 4096. by rewrite Z.div_mul by done.
Qed.

(** Adding the area over free pages. *)
Lemma mmap_area_run w1 t1 base P1 : vm_ok w1 (root_ppn (page_table ms)) t1 -> agrees t1 P1 ->
  base mod 4096 = 0 -> 0 <= base < MMAP_TOP -> is_overlap t1 (base / 4096) (base / 4096 + n) = false ->
  exists t', mmap_area (mkMS (page_table ms) t1) base (n * 4096) (perm_of_prot prot) flags 0 None w1 =
      Ret ((Ok base, mkMS (page_table ms) t'), w1) /\ vm_ok w1 (root_ppn (page_table ms)) t' /\
    agrees t' (pm_set P1 (base / 4096) (base / 4096 + n) (perm_of_prot prot, AT_Mmap)).
Proof.
  intros Hok1 HP1 Hb Hbt Hov. destruct mmap_args as (Hn & Hl & _). destruct Hc as (_ & _ & _ & Hpop & _).
  assert (MMAP_TOP < 2 ^ 40) as Htop by (vm_compute; done).
  set (a := mkArea (mkRange (base / 4096) (base / 4096 + n)) [] Framed (perm_of_prot prot) AT_Mmap None flags).
  destruct (push_vm w1 (root_ppn (page_table ms)) t1 a) as (E & Hok2 & Hh); [done|done|done|cbn; lia|cbn; lia|done|].
  exists (tree_push t1 a). split; [|split; [done|]].
  - unfold mmap_area. erewrite st_run by (unfold st_lift; rewrite uadd_Ret by (unfold u64_bound; lia); reflexivity). cbv beta.
    erewrite st_run; [|unfold st_lift, MapArea_new; rewrite ceil_run by lia; cbn [mbind outcome_bind];
      unfold range_new, VirtAddr_floor; change PAGE_SIZE with 4096;
      replace ((base + n * 4096 + 4095) / 4096) with (base / 4096 + n) by lia;
      rewrite (proj2 (Z.leb_le _ _)) by lia; reflexivity].
    cbv beta. rewrite Hpop. erewrite st_run; [|reflexivity]. cbv beta iota.
    by erewrite st_run by exact E.
  - intros v x. rewrite Hh. unfold pm_set. change (start_vpn a) with (base / 4096). change (end_vpn a) with (base / 4096 + n).
    case_decide; [|apply HP1]. cbn. split; [by intros ->|by intros [= <-]].
Qed.

Lemma mmap_fixed_run : fl_contains flags MAP_FIXED = true -> simulated ms c P (vm_run c ms w).
Proof.
  intros Hfix. destruct mmap_args as (Hn & Hl & Ha & Ham). rewrite mmap_unfold.
  assert (exists t1 w1, mmap_base ms flags addr n w = Ret ((Ok addr, set_areas t1 ms), w1) /\
    vm_ok w1 (root_ppn (page_table ms)) t1 /\ agrees t1 (pm_clear P (addr / 4096) (addr / 4096 + n)) /\
    is_overlap t1 (addr / 4096) (addr / 4096 + n) = false) as (t1 & w1 & E & Hok1 & HP1 & Hov1).
  { unfold mmap_base. erewrite st_run by (unfold st_lift, VirtAddr_floor; rewrite uadd_Ret by
      (change PAGE_SIZE with 4096; unfold u64_bound; lia); reflexivity). cbv beta. rewrite Hfix.
    unfold VirtAddr_floor. change PAGE_SIZE with 4096. destruct (is_overlap t (addr / 4096) (addr / 4096 + n)) eqn:Hov.
    - destruct (munmap_vm w ms (addr / 4096) (addr / 4096 + n) Hok ltac:(lia)) as (t1 & w1 & E & Hok1 & Hh & Hov1).
      exists t1, w1. split; [by erewrite st_run by exact E|]. split; [done|]. split; [|done].
      intros v x. rewrite Hh, (HP v x). unfold pm_clear. case_decide; naive_solver.
    - exists t, w. split; [by destruct ms|]. split; [done|]. split; [|done]. intros v x. rewrite (HP v x). unfold pm_clear.
      case_decide as Hv; [|done]. split; [|done]. intros (k & a & Hk & Hva & _)%HP.
      rewrite is_overlap_false in Hov. pose proof (Hov k a (get_Some_elem _ _ _ Hk)). lia. }
  erewrite st_run by exact E. cbv beta iota.
  destruct (Z.leb_spec MMAP_TOP addr) as [Htop|Htop].
  - exists (Err ENOMEM), (set_areas t1 ms), w1, (pm_clear P (addr / 4096) (addr / 4096 + n)).
    split; [done|]. split; [by apply spec_fixed_high|done].
  - destruct (mmap_area_run w1 t1 addr _ Hok1 HP1) as (t' & E2 & Hok2 & HP2); [done|lia|done|].
    exists (Ok addr), (mkMS (page_table ms) t'), w1, (pm_set P (addr / 4096) (addr / 4096 + n) (perm_of_prot prot, AT_Mmap)).
    split; [exact E2|]. split; [by apply spec_fixed|]. split; [done|]. split; [done|].
    intros v x. rewrite (HP2 v x). unfold pm_set, pm_clear. by case_decide.
Qed.

(** A base address at free pages, found without [MAP_FIXED]. *)
Lemma mmap_free_run r : fl_contains flags MAP_FIXED = false ->
  mmap_base ms flags addr n w = Ret ((r, ms), w) ->
  (forall base, r = Ok base -> (fl_contains flags MAP_FIXED_NOREPLACE = true -> base = addr) /\
     base mod 4096 = 0 /\ 0 <= base /\ is_overlap t (base / 4096) (base / 4096 + n) = false) ->
  (forall e, r = Err e -> e = ENOMEM \/ e = EEXIST) -> simulated ms c P (vm_run c ms w).
Proof.
  intros Hfix E Hbase Herr. rewrite mmap_unfold. erewrite st_run by exact E. cbv beta iota.
  destruct r as [base|e].
  - destruct (Hbase base eq_refl) as (H1 & H2 & H3 & H4). destruct (Z.leb_spec MMAP_TOP base) as [Htop|Htop].
    + exists (Err ENOMEM), ms, w, P. split; [done|]. split; [apply spec_refused; [done|by left]|done].
    + destruct (mmap_area_run w t base P Hok HP) as (t' & E2 & Hok2 & HP2); [done|lia|done|].
      exists (Ok base), (mkMS (page_table ms) t'), w, (pm_set P (base / 4096) (base / 4096 + n) (perm_of_prot prot, AT_Mmap)).
      split; [destruct ms; exact E2|]. split; [|done]. apply spec_free; [done|done|done|lia|].
      intros v Hv. destruct (P v) as [x|] eqn:Ex; [|done]. apply HP in Ex as (k & a & Hk & Hva & _).
      rewrite is_overlap_false in H4. pose proof (H4 k a (get_Some_elem _ _ _ Hk)). lia.
  - exists (Err e), ms, w, P. split; [done|]. split; [apply spec_refused; [done|by apply Herr]|done].
Qed.

Lemma mmap_hint_run : fl_contains flags MAP_FIXED = false -> simulated ms c P (vm_run c ms w).
Proof.
  intros Hfix. destruct mmap_args as (Hn & Hl & Ha & Ham). pose proof (mw_tree _ _ _ (vo_ms _ _ _ Hok)) as Hwf.
  destruct (fl_contains flags MAP_FIXED_NOREPLACE) eqn:Hnr.
  - apply (mmap_free_run (if is_overlap t (addr / 4096) (addr / 4096 + n) then Err EEXIST else Ok addr)); [done| | |].
    + unfold mmap_base. erewrite st_run by (unfold st_lift, VirtAddr_floor; rewrite uadd_Ret by
        (change PAGE_SIZE with 4096; unfold u64_bound; lia); reflexivity). cbv beta. by rewrite Hfix, Hnr.
    + intros base. destruct (is_overlap t _ _) eqn:Hov; [done|]. intros [= <-]. split; [done|]. split; [done|]. split; [lia|done].
    + intros e. destruct (is_overlap t _ _); [intros [= <-]; by right|done].
  - set (h := if addr =? 0 then BASE else addr / 4096).
    destruct (alloc_hint_free t n h Hwf) as (o & E & Ho); [lia| |by apply Hc|].
    { unfold h. destruct (addr =? 0); [pose proof top_base; lia|lia]. }
    apply (mmap_free_run (match o with Some v => Ok (VirtAddr_of_VirtPageNum v) | None => Err ENOMEM end)); [done| | |].
    + unfold mmap_base. erewrite st_run by (unfold st_lift, VirtAddr_floor; rewrite uadd_Ret by
        (change PAGE_SIZE with 4096; unfold u64_bound; lia); reflexivity). cbv beta. rewrite Hfix, Hnr.
      rewrite (st_run _ _ w h w); [|unfold h; destruct (Z.eqb_spec addr 0); [done|];
        unfold st_lift; rewrite ceil_run by lia; do 2 f_equal; lia].
      by erewrite st_run by (unfold st_lift; rewrite E; reflexivity).
    + intros base. destruct o as [v|]; [|done]. intros [= <-]. destruct (Ho v eq_refl) as (H1 & H2 & H3).
      unfold VirtAddr_of_VirtPageNum, PAGE_SIZE_BITS. rewrite shl64_small by (unfold u64_bound; lia).
      change (2 ^ 12) with 4096. rewrite Z.mod_mul, Z.div_mul by done. split; [congruence|]. split; [done|]. split; [lia|done].
    + intros e. destruct o; [done|]. intros [= <-]. by left.
Qed.

End mmap_call.


End simulation.

(** [mmap] of two pages at a fixed address, [mprotect] of the second one to
    read-only, and [munmap] of the first. *)
Definition vm_call1 := VMmap 0x10000 0x1800 3 0x32.
Definition vm_call2 := VMprotect 0x11000 0x1000 1.
Definition vm_call3 := VMunmap 0x10000 0x1000.
Definition vm_run0 := vm_run (fun _ => Ok true) (fun _ => 0) (mkFdm [] 128 256) ∅.

Definition ms_after (c : vm_call) (ms : MemorySet) (w : world) : MemorySet :=
  match vm_run0 c ms w with Ret ((_, ms'), _) => ms' | Panic => ms end.


(** ** Calls outside the specification *)

Lemma overlap_empty b s : overlap_with b s s = (start_vpn b <=? s) && (s <? end_vpn b).
Proof.
  unfold overlap_with. destruct (Z.leb_spec s (start_vpn b)), (Z.ltb_spec (start_vpn b) s); try lia;
    by rewrite ?andb_false_r, orb_false_r.
Qed.

Lemma update_flags_area a pt perm w a' w' : update_flags a pt perm w = Ret (a', w') -> a' = set_map_perm perm a.
Proof.
  unfold update_flags, mbind, ST_bind, st_lift. destruct (area_size _); [|done].
  destruct (update_region _ _ _ _ _) as [[r w1]|]; [|done]. destruct (result_unwrap r); [|done]. by intros [= <- _].
Qed.

(** A second area under the same start panics. *)
Lemma insert_twice_panics {B} t s x y (f : VmAreaTree -> ST world B) w : bt_sorted t ->
  (t1 ← areas_insert_new t s x; t2 ← areas_insert_new t1 s y; f t2) w = Panic.
Proof.
  intros Ht. unfold areas_insert_new, mbind, ST_bind. destruct (bt_get s t); [done|]. cbn.
  destruct (bt_get s (bt_insert s x t)) eqn:E; [done|]. rewrite zget_insert in E by done. by rewrite decide_True in E.
Qed.

(** [mprotect] with length 0 of a mapped page panics: the area is split into
    parts of which one is empty, and both parts have the same start. *)
Lemma mprotect_empty_panics fs w ms k a s perm : tree_wf (areatree ms) -> bt_get k (areatree ms) = Some a ->
  start_vpn a <= s < end_vpn a -> 0 < s < 2 ^ 51 -> frames_in a -> area_fd a = None ->
  mprotect fs ms (s * 4096) 0 perm w = Panic.
Proof.
  intros Hwf Hk Hs H0 Hf Hfd.
  unfold mprotect. erewrite st_run by (unfold st_lift; rewrite uadd_Ret by (unfold u64_bound; lia); reflexivity).
  cbv beta. erewrite st_run by (unfold st_lift; rewrite ceil_run by lia; reflexivity). cbv beta zeta.
  unfold VirtAddr_floor. change PAGE_SIZE with 4096. rewrite Z.div_mul by done.
  replace ((s * 4096 + 0 + 4095) / 4096) with s by lia. rewrite take_overlapped_eq.
  assert (List.filter (fun '(_, b) => overlap_with b s s) (areatree ms) = [(k, a)]) as ->.
  { apply sorted_ext; [apply filter_sorted, Hwf|repeat constructor|]. intros j. rewrite get_filter by apply Hwf.
    destruct (bt_get j (areatree ms)) as [b|] eqn:Hb; rewrite ?overlap_empty.
    - destruct ((start_vpn b <=? s) && (s <? end_vpn b)) eqn:Ho.
      + zbool. destruct (tree_unique _ Hwf j b k a s Hb Hk) as [-> ->]; [lia|done|]. cbn. by rewrite Z.compare_refl.
      + cbn. destruct (Z.compare_spec j k) as [->| |]; [|done|done]. assert (b = a) as -> by congruence. zbool; lia.
    - cbn. destruct (Z.compare_spec j k) as [->| |]; congruence. }
  set (t := List.filter _ (areatree ms)). cbn [mprotect_loop]. unfold mbind at 1, ST_bind at 1.
  enough (mprotect_area fs (page_table ms) t s s perm a w = Panic) as E by (unfold mbind, ST_bind; by rewrite E).
  unfold mprotect_area. assert (contained_in a s s = false) as -> by (unfold contained_in; zcases; lia || done).
  unfold strict_contain. destruct (Z.ltb_spec (start_vpn a) s) as [Hlt|Hge].
  - destruct (Z.ltb_spec s (end_vpn a)); [|lia]. cbn [andb].
    destruct (split3_pieces fs a s s Hf Hfd) as (l & m & r & E3 & _ & Pm & Pr); [lia..|].
    destruct (pc_range _ _ _ _ Pm) as [M1 _]. destruct (pc_range _ _ _ _ Pr) as [R1 _].
    destruct (update_flags m (page_table ms) perm w) as [[m' w1]|] eqn:Eu.
    + pose proof (update_flags_area _ _ _ _ _ _ Eu) as ->. unfold mbind at 1, ST_bind at 1.
      erewrite st_run by (unfold st_lift; rewrite E3; reflexivity). cbv beta iota. erewrite st_run by exact Eu. cbv beta.
      change (start_vpn (set_map_perm perm m)) with (start_vpn m). rewrite M1, R1.
      by rewrite insert_twice_panics by (apply filter_sorted, Hwf).
    + unfold mbind, ST_bind, st_lift. by rewrite E3, Eu.
  - cbn [andb]. destruct (Z.leb_spec s (start_vpn a)); [|lia]. destruct (Z.ltb_spec (start_vpn a) s); [lia|]. cbn [andb].
    destruct (split_pieces fs a s Hf Hfd ltac:(lia)) as (l & r & E2 & Pl & Pr).
    destruct (pc_range _ _ _ _ Pl) as [L1 _]. destruct (pc_range _ _ _ _ Pr) as [R1 _].
    destruct (update_flags r (page_table ms) perm w) as [[r' w1]|] eqn:Eu.
    + pose proof (update_flags_area _ _ _ _ _ _ Eu) as ->.
      assert (start_vpn a = s) as Ea by lia. rewrite Ea in L1.
      pose proof (@insert_twice_panics (VmAreaTree * inodes) t s (set_map_perm perm r) l (fun t' => mret (t', fs)) w1
        ltac:(apply filter_sorted, Hwf)) as Hp.
      unfold mbind, ST_bind, st_lift in Hp |- *. rewrite E2, Eu. change (start_vpn (set_map_perm perm r)) with (start_vpn r).
      rewrite R1. destruct (areas_insert_new t s (set_map_perm perm r) w1) as [[t1 w2]|]; [|done]. cbn. by rewrite L1.
    + unfold mbind, ST_bind, st_lift. by rewrite E2, Eu.
Qed.

(** [update_flags] of an area with one frame that does not belong to its
    first page: the entry of the first page, which is empty, becomes valid
    with frame 0, and the entry of the allocated page keeps its flags. *)
Lemma sparse_update w pt a v p g perm : world_wf w -> pt_wf w (root_ppn pt) ->
  data_frames a = [(v, p)] -> 0 <= start_vpn a < v -> v < 2 ^ 27 ->
  node (w_mem w) (root_ppn pt) (vpath (start_vpn a)) = Some g -> pte_at (w_mem w) (root_ppn pt) (start_vpn a) = 0 ->
  exists w', update_flags a pt perm w = Ret (set_map_perm perm a, w') /\
    la_is_valid (pte_at (w_mem w') (root_ppn pt) (start_vpn a)) = true /\
    la_ppn (pte_at (w_mem w') (root_ppn pt) (start_vpn a)) = Ret 0 /\
    pte_at (w_mem w') (root_ppn pt) v = pte_at (w_mem w) (root_ppn pt) v.
Proof.
  intros Hw Hpt Hd Hs Hv Hg H0.
  destruct (pt_update_node w pt (start_vpn a) perm g) as (w' & E & F); [done|done|lia|done|].
  exists w'. split.
  - assert (VirtAddr_of_VirtPageNum (start_vpn a) = start_vpn a * PAGE_SIZE) as Hva.
    { unfold VirtAddr_of_VirtPageNum, PAGE_SIZE_BITS. by rewrite shl64_small by (unfold u64_bound; lia). }
    unfold update_flags, area_size. change (data_frames (set_map_perm perm a)) with (data_frames a). rewrite Hd.
    change (start_vpn (set_map_perm perm a)) with (start_vpn a). rewrite Hva. erewrite st_run; [|reflexivity]. cbv beta.
    erewrite st_run; [|unfold update_region; erewrite st_run by (unfold st_lift; change (zlen [(v, p)] * PAGE_SIZE) with 4096;
      rewrite uadd_Ret by (unfold PAGE_SIZE, u64_bound; lia); reflexivity); cbv beta; cbn [update_region_loop Z.to_nat];
      change (Z.to_nat (zlen [(v, p)] * PAGE_SIZE / Size4K + 2)) with 3%nat; cbn [update_region_loop];
      rewrite (proj2 (Z.ltb_lt _ _)) by lia; erewrite st_try_run by exact E; cbv beta;
      erewrite st_run by (unfold st_lift; rewrite uadd_Ret by (unfold PAGE_SIZE, Size4K, u64_bound; lia); reflexivity);
      cbv beta; change Size4K with 4096; rewrite Z.ltb_irrefl; reflexivity]. done.
  - rewrite !(fp_at _ _ _ _ _ _ F) by lia. destruct (Z.leb_spec (start_vpn a) (start_vpn a)); [|lia].
    destruct (Z.ltb_spec (start_vpn a) (start_vpn a + 1)); [|lia]. cbn [andb]. rewrite H0.
    split; [apply la_set_flags_valid|]. split; [by rewrite la_set_flags_ppn|].
    destruct (Z.leb_spec (start_vpn a) v), (Z.ltb_spec v (start_vpn a + 1)); try lia. done.
Qed.

(** The flags of copy-on-write survive [set_flags], so that a shared page that
    becomes writable can be written without a fault. *)
Lemma protect_cow_writable b f perm : la_flags b = Ret f -> la_is_cow b = Ret true -> fl_contains perm MP_W = true ->
  la_writable (la_set_flags b (la_flags_of_perm perm)) = Ret true /\
  la_is_cow (la_set_flags b (la_flags_of_perm perm)) = Ret true.
Proof.
  intros Hf Hc Hp. rewrite (la_is_cow_eq b f Hf) in Hc. assert (Z.testbit b 49 = true) as Hc' by congruence.
  assert (exists f', la_flags (la_set_flags b (la_flags_of_perm perm)) = Ret f') as [f' Hf'].
  { apply la_flags_Ret in Hf as [_ Hb]. rewrite la_flags_eq, la_set_flags_eq, Z.land_lor_distr_l, <- (Z.land_assoc b).
    rewrite (Z.land_comm 0x1ffffffffffff000 la_BAD), Z.land_assoc, Hb, Z.land_0_l.
    rewrite <- (la_flags_of_perm_low perm), <- (Z.land_assoc (la_flags_of_perm perm)).
    change (Z.land 0x18f la_BAD) with 0. rewrite Z.land_0_r. by eexists. }
  rewrite (la_writable_eq _ f' Hf'), (la_is_cow_eq _ f' Hf'), la_set_flags_eq, !Z.lor_spec, !Z.land_spec, Hc'.
  unfold la_flags_of_perm. rewrite Hp. split; [|done]. destruct (fl_contains perm MP_U); cbn; by rewrite andb_false_r.
Qed.

(** [MAP_FIXED] at an address that is not aligned: one page more is mapped
    than was cleared, and it may belong to an area that stays. *)
Section unaligned.
Variable file_writable : FileDescriptor -> result bool SysErrNo.
Variable file_size : FileDescriptor -> Z.

Lemma mmap_unaligned_overlaps w ms fdt addr prot b : vm_ok w (root_ppn (page_table ms)) (areatree ms) ->
  0 <= prot <= 7 -> 1 <= free_count w -> 0 < addr < MMAP_TOP -> addr mod 4096 <> 0 ->
  let s := addr / 4096 in
  is_overlap (areatree ms) s (s + 1) = false -> bt_get s (areatree ms) = None ->
  bt_get (s + 1) (areatree ms) = Some b ->
  exists t', sys_mmap file_writable file_size fdt ms addr 4096 prot 0x32 (-1) 0 w = Ret ((Ok addr, mkMS (page_table ms) t'), w) /\
    bt_get (s + 1) t' = Some b /\ exists a, bt_get s t' = Some a /\ start_vpn a <= s + 1 < end_vpn a.
Proof.
  intros Hok Hp Hfree Ha Ham s Hov Hn Hb. pose proof (mw_tree _ _ _ (vo_ms _ _ _ Hok)) as Hwf.
  assert (MMAP_TOP < 2 ^ 40) as Htop by (vm_compute; done).
  set (a := mkArea (mkRange s (s + 2)) [] Framed (perm_of_prot prot) AT_Mmap None 0x32).
  exists (bt_insert s a (areatree ms)). split; [|rewrite !zget_insert by apply Hwf; split].
  - unfold sys_mmap. erewrite st_run by exact (proj1 (remaining_run w (mw_world _ _ _ (vo_ms _ _ _ Hok)))). cbv beta.
    assert (mmap_check (free_count w) addr 4096 prot 0x32 (-1) 0 = Ok (perm_of_prot prot, 0x32)) as ->.
    { unfold mmap_check. rewrite (proj1 (prot_bits prot Hp)). cbn -[Z.shiftr Z.ltb]. change (Z.shiftr 4096 PAGE_SIZE_BITS) with 1.
      destruct (Z.ltb_spec (free_count w) 1); [lia|]. by destruct (Z.eqb_spec addr 0); [lia|]. }
    erewrite st_run by reflexivity. cbv beta. change (mmap_file _ _ fdt 0x32 (perm_of_prot prot) (-1) 0) with (@Ok (option FileDescriptor) SysErrNo None).
    cbv iota. change (4096 / PAGE_SIZE) with 1.
    erewrite st_run; [|unfold mmap_base; erewrite st_run by (unfold st_lift, VirtAddr_floor; change PAGE_SIZE with 4096;
      rewrite uadd_Ret by (unfold u64_bound; lia); reflexivity); cbv beta; change (fl_contains 0x32 MAP_FIXED) with true;
      cbv iota; unfold VirtAddr_floor; change PAGE_SIZE with 4096; fold s; rewrite Hov; reflexivity]. cbv beta iota.
    destruct (Z.leb_spec MMAP_TOP addr); [lia|]. unfold mmap_area.
    erewrite st_run by (unfold st_lift; rewrite uadd_Ret by (unfold u64_bound; lia); reflexivity). cbv beta.
    erewrite st_run; [|unfold st_lift, MapArea_new; rewrite ceil_run by lia; cbn [mbind outcome_bind];
      unfold range_new, VirtAddr_floor; change PAGE_SIZE with 4096; fold s;
      replace ((addr + 4096 + 4095) / 4096) with (s + 2) by (unfold s; lia);
      rewrite (proj2 (Z.leb_le _ _)) by lia; reflexivity].
    cbv beta. change (fl_contains 0x32 MAP_POPULATE) with false. cbv iota. erewrite st_run; [|reflexivity]. cbv beta iota.
    unfold areas_push. change (start_vpn _) with s at 1. rewrite Hn. done.
  - by rewrite decide_False by lia.
  - exists a. rewrite decide_True by done. split; [done|]. change (s <= s + 1 < s + 2). lia.
Qed.
End unaligned.
