(* ===== verification/Futex.v ===== *)
(** * Futexes (os/src/sync/futex.rs and [sys_futex] of syscall/process.rs)

    [GLOBAL_FUTEX_SYSTEM] maps a key, the page table token with the user
    address, to the queue of waiters.  [FutexWaitInternalFuture] puts its node
    there at its first poll; the arms of [sys_futex] wake and move waiters.

    The arms are modelled from the point where [manual_alloc_type_for_lazy]
    (MemorySet) has made the user pages present.  Nodes are [Arc]s compared by
    address; a waker is the address of the task. *)

From S2P Require Import Prelude Config Memory Errno Pte UserMem.
From S2P Require Import BTree Timer Sched Exec ExecInv Sleep.

(** ** The wait queue *)

Record FutexWaiterNode : Type := mkFNode {
  fw_addr : Z;
  fw_waker : Z;
  fw_task_id : Z;
  wait_bitmask : Z
}.

Definition FutexWaitQueue : Type := list FutexWaiterNode.

Definition drain_waiters (q : FutexWaitQueue) (n : Z) : FutexWaitQueue * FutexWaitQueue :=
  if n =? 0 then ([], q)
  else
    let num_to_drain := Z.min (zlen q) n in
    if num_to_drain =? 0 then ([], q)
    else (take (Z.to_nat num_to_drain) q, drop (Z.to_nat num_to_drain) q).

Definition enqueue_waiters (q new_waiters : FutexWaitQueue) : FutexWaitQueue := q ++ new_waiters.

Definition futex_add_waiter (q : FutexWaitQueue) (n : FutexWaiterNode) : FutexWaitQueue := q ++ [n].

Definition remove_specific_waiter (q : FutexWaitQueue) (a : Z) : FutexWaitQueue :=
  List.filter (fun n => negb (fw_addr n =? a)) q.

Definition mask_matches (mask : Z) (n : FutexWaiterNode) : bool :=
  negb (Z.land (wait_bitmask n) mask =? 0).

(** The loop; [kept] is [not_woken_yet]. *)
Fixpoint wake_loop (q : FutexWaitQueue) (num_to_wake wake_bitmask woken_count : Z)
    (kept : FutexWaitQueue) : ST exec (Z * FutexWaitQueue) :=
  match q with
  | [] => mret (woken_count, kept)
  | n :: q' =>
      if (woken_count <? num_to_wake) && mask_matches wake_bitmask n then
        _ ← wakeup_task (fw_waker n);
        c ← st_lift (uadd woken_count 1);
        wake_loop q' num_to_wake wake_bitmask c kept
      else wake_loop q' num_to_wake wake_bitmask woken_count (kept ++ [n])
  end.

Definition wake_matching_waiters (q : FutexWaitQueue) (num_to_wake wake_bitmask : Z)
    : ST exec (Z * FutexWaitQueue) :=
  wake_loop q num_to_wake wake_bitmask 0 [].

Definition queue_empty (q : FutexWaitQueue) : bool := match q with [] => true | _ => false end.

(** ** The system *)

Definition FutexKey : Type := Z * Z.

Record fsys : Type := mkFsys {
  f_sys : sys;
  f_mem : pmem;
  futexes : list (FutexKey * FutexWaitQueue)
}.

Definition on_fsys {A} (m : ST sys A) : ST fsys A :=
  fun s => match m (f_sys s) with
           | Ret (a, e) => Ret (a, mkFsys e (f_mem s) (futexes s))
           | Panic => Panic
           end.
Definition on_fex {A} (m : ST exec A) : ST fsys A := on_fsys (on_ex m).
Definition set_futexes (l : list (FutexKey * FutexWaitQueue)) : ST fsys unit :=
  st_modify (fun s => mkFsys (f_sys s) (f_mem s) l).
Definition set_fmem (m : pmem) : ST fsys unit :=
  st_modify (fun s => mkFsys (f_sys s) m (futexes s)).

(** A [u32] in memory. *)
Definition le_value (bs : list Z) : Z := foldr (fun b v => b + 256 * v) 0 bs.
Fixpoint le_bytes (n : nat) (v : Z) : list Z :=
  match n with O => [] | S n' => v mod 256 :: le_bytes n' (v / 256) end.
Definition pa_read_u32 (m : pmem) (pa : Z) : Z := le_value (pa_read_bytes m pa 4).
Definition pa_write_u32 (m : pmem) (pa v : Z) : pmem := pa_write_bytes m pa (le_bytes 4 v).

(** [*get_target_ref(token, ptr)?] for a [u32]. *)
Definition read_user_u32 (token ptr : Z) : ST fsys (result Z SysErrNo) :=
  m ← st_gets f_mem;
  r ← st_lift (get_target_ref token m ptr 4);
  mret (match r with
        | Ok (Some pa) => Ok (pa_read_u32 m pa)
        | Ok None => Ok 0
        | Err e => Err (errno_of_TranslateError e)
        end).

(** ** FutexWaitInternalFuture *)

Record FutexWaitInternalFuture : Type := mkFW {
  fut_token : Z;
  uaddr_va : Z;
  expected_val : Z;
  fut_bitmask : Z;
  timeout_sleep : option SleepFuture;
  futex_key : FutexKey;
  fut_node : option Z
}.

Definition set_fut_node (o : option Z) (f : FutexWaitInternalFuture) : FutexWaitInternalFuture :=
  mkFW (fut_token f) (uaddr_va f) (expected_val f) (fut_bitmask f) (timeout_sleep f) (futex_key f) o.
Definition set_timeout (o : SleepFuture) (f : FutexWaitInternalFuture) : FutexWaitInternalFuture :=
  mkFW (fut_token f) (uaddr_va f) (expected_val f) (fut_bitmask f) (Some o) (futex_key f) (fut_node f).

Definition futex_future_new (token va expected bitmask : Z) (deadline : option TimeVal)
    : ST fsys FutexWaitInternalFuture :=
  ts ← match deadline with
       | Some d => x ← on_fsys (sleep_until (Some d)); mret (Some x)
       | None => mret None
       end;
  mret (mkFW token va expected bitmask ts (token, va) None).

Definition cleanup_registration (f : FutexWaitInternalFuture) : ST fsys FutexWaitInternalFuture :=
  match fut_node f with
  | None => mret f
  | Some a =>
      l ← st_gets futexes;
      _ ← match bt_get (futex_key f) l with
          | Some wq =>
              let wq' := remove_specific_waiter wq a in
              if queue_empty wq' then set_futexes (bt_remove (futex_key f) l)
              else set_futexes (bt_insert (futex_key f) wq' l)
          | None => mret tt
          end;
      mret (set_fut_node None f)
  end.

(** The fields are dropped after [drop]: the sleep unregisters itself. *)
Definition futex_drop (f : FutexWaitInternalFuture) : ST fsys unit :=
  f ← cleanup_registration f;
  match timeout_sleep f with
  | Some sf => on_fsys (sleep_drop sf)
  | None => mret tt
  end.

(** The first poll: a new node, at address [a], is queued and the task is
    marked as blocking.  [Arc::into_raw] and [Arc::from_raw] cancel out. *)
Definition futex_register (f : FutexWaitInternalFuture) (a : Z)
    : ST fsys (Poll (result unit SysErrNo) * FutexWaitInternalFuture) :=
  m ← st_gets (fun s => tid2tc (f_sys s));
  tid ← on_fex current_task_id;
  match bt_get tid m with
  | None => mret (Ready (Err ESRCH), f)
  | Some r =>
      _ ← on_fex (task_arc_clone r);
      let waiter_node := mkFNode a r tid (fut_bitmask f) in
      l ← st_gets futexes;
      let wait_queue := match bt_get (futex_key f) l with Some q => q | None => [] end in
      _ ← set_futexes (bt_insert (futex_key f) (futex_add_waiter wait_queue waiter_node) l);
      _ ← on_fex (task_set_state r Blocking);
      _ ← on_fex (task_arc_drop r);
      mret (Pending, set_fut_node (Some a) f)
  end.

(** Step 2 of [poll]: [true] when the deadline has passed.  [a] is the
    address of the node of the sleeper. *)
Definition futex_timeout (f : FutexWaitInternalFuture) (now : TimeVal) (a : Z)
    : ST fsys (bool * FutexWaitInternalFuture) :=
  match timeout_sleep f with
  | None => mret (false, f)
  | Some sf =>
      '(p, sf') ← on_fsys (sleep_poll sf now a);
      mret (match p with Ready _ => true | Pending => false end, set_timeout sf' f)
  end.

Definition futex_poll (f : FutexWaitInternalFuture) (now : TimeVal) (a1 a2 : Z)
    : ST fsys (Poll (result unit SysErrNo) * FutexWaitInternalFuture) :=
  v ← read_user_u32 (fut_token f) (uaddr_va f);
  match v with
  | Err e => mret (Ready (Err e), f)
  | Ok current_val =>
      if negb (current_val =? expected_val f) then
        match fut_node f with
        | Some _ => f' ← cleanup_registration f; mret (Ready (Ok tt), f')
        | None => mret (Ready (Err EAGAIN), f)
        end
      else
        '(timeout, f) ← futex_timeout f now a1;
        if (timeout : bool) then
          f' ← cleanup_registration f;
          mret (Ready (Err ETIMEDOUT), f')
        else
          match fut_node f with
          | None => futex_register f a2
          | Some _ => mret (Ready (Err ERESTART), f)
          end
  end.

(** ** sys_futex *)

Definition FUTEX_PRIVATE_FLAG : Z := 128.
Definition FUTEX_CLOCK_REALTIME : Z := 256.
Definition U32_MAX : Z := 0xffffffff.

(** The [FUTEX_WAKE] arm. *)
Definition futex_wake (key : FutexKey) (num_to_wake wake_bitmask : Z) : ST fsys (result Z SysErrNo) :=
  if num_to_wake =? 0 then mret (Ok 0)
  else
    l ← st_gets futexes;
    match bt_get key l with
    | Some wait_queue =>
        '(count, q) ← on_fex (wake_matching_waiters wait_queue num_to_wake wake_bitmask);
        _ ← (if queue_empty q then set_futexes (bt_remove key l)
             else set_futexes (bt_insert key q l));
        mret (Ok count)
    | None => mret (Ok 0)
    end.

(** Step 1 of the requeue arms, and steps 3 and 4 of [FUTEX_WAKE_OP]: the
    queue stays in the map, also when it is empty. *)
Definition wake_on_key (key : FutexKey) (num_to_wake : Z) : ST fsys Z :=
  if 0 <? num_to_wake then
    l ← st_gets futexes;
    match bt_get key l with
    | Some q =>
        '(count, q') ← on_fex (wake_matching_waiters q num_to_wake U32_MAX);
        _ ← set_futexes (bt_insert key q' l);
        mret count
    | None => mret 0
    end
  else mret 0.

(** Step 2 of the requeue arms. *)
Definition move_waiters (key key2 : FutexKey) (num_to_requeue : Z) : ST fsys Z :=
  if 0 <? num_to_requeue then
    l ← st_gets futexes;
    waiters_to_move ←
      match bt_get key l with
      | Some q =>
          let '(drained, q') := drain_waiters q num_to_requeue in
          _ ← (if queue_empty q' then set_futexes (bt_remove key l)
               else set_futexes (bt_insert key q' l));
          mret drained
      | None => mret []
      end;
    let requeued_count := zlen waiters_to_move in
    _ ← (if 0 <? requeued_count then
           l ← st_gets futexes;
           let q2 := match bt_get key2 l with Some q => q | None => [] end in
           set_futexes (bt_insert key2 (enqueue_waiters q2 waiters_to_move) l)
         else mret tt);
    mret requeued_count
  else mret 0.

(** [is_null()] or misaligned for [u32]. *)
Definition bad_uaddr (p : Z) : bool := (p =? 0) || negb (p mod 4 =? 0).

Definition futex_requeue (token uaddr uaddr2 num_to_wake num_to_requeue : Z)
    : ST fsys (result Z SysErrNo) :=
  if bad_uaddr uaddr2 then mret (Err EFAULT)
  else if uaddr =? uaddr2 then mret (Err EINVAL)
  else
    woken ← wake_on_key (token, uaddr) num_to_wake;
    requeued ← move_waiters (token, uaddr) (token, uaddr2) num_to_requeue;
    n ← st_lift (uadd woken requeued);
    mret (Ok n).

Definition futex_cmp_requeue (token uaddr uaddr2 num_to_wake num_to_requeue expected : Z)
    : ST fsys (result Z SysErrNo) :=
  if bad_uaddr uaddr2 then mret (Err EFAULT)
  else if uaddr =? uaddr2 then mret (Err EINVAL)
  else
    v ← read_user_u32 token uaddr;
    match v with
    | Err e => mret (Err e)
    | Ok current_val =>
        if negb (current_val =? expected) then mret (Err EAGAIN)
        else
          woken ← wake_on_key (token, uaddr) num_to_wake;
          requeued ← move_waiters (token, uaddr) (token, uaddr2) num_to_requeue;
          n ← st_lift (uadd woken requeued);
          mret (Ok n)
    end.

(** [x as i32] of a [u32]. *)
Definition as_i32 (v : Z) : Z := if v <? 2 ^ 31 then v else v - 2 ^ 32.

Definition wake_op_cond (cmp_type old_val cmp_arg : Z) : option bool :=
  match cmp_type with
  | 0 => Some (old_val =? cmp_arg)
  | 1 => Some (negb (old_val =? cmp_arg))
  | 2 => Some (as_i32 old_val <? as_i32 cmp_arg)
  | 3 => Some (as_i32 old_val <=? as_i32 cmp_arg)
  | 4 => Some (as_i32 cmp_arg <? as_i32 old_val)
  | 5 => Some (as_i32 cmp_arg <=? as_i32 old_val)
  | _ => None
  end.

Definition wake_op_value (op_type old_val op_arg : Z) : option Z :=
  match op_type with
  | 0 => Some op_arg
  | 1 => Some ((old_val + op_arg) mod 2 ^ 32)
  | 2 => Some (Z.lor old_val op_arg)
  | 3 => Some (Z.land old_val (Z.ldiff (Z.ones 32) op_arg))
  | 4 => Some (Z.lxor old_val op_arg)
  | _ => None
  end.

Definition futex_wake_op (token uaddr uaddr2 num_wake_uaddr2 num_wake_uaddr1 op_encoded : Z)
    : ST fsys (result Z SysErrNo) :=
  if bad_uaddr uaddr2 then mret (Err EFAULT)
  else
    let op_type := Z.land (Z.shiftr op_encoded 28) 0xF in
    let cmp_type := Z.land (Z.shiftr op_encoded 24) 0xF in
    let op_arg := Z.land (Z.shiftr op_encoded 12) 0xFFF in
    let cmp_arg := Z.land op_encoded 0xFFF in
    m ← st_gets f_mem;
    r ← st_lift (translated_refmut token m uaddr);
    match r with
    | Err e => mret (Err e)
    | Ok pa =>
        let old_val := pa_read_u32 m pa in
        match wake_op_cond cmp_type old_val cmp_arg with
        | None => mret (Err EINVAL)
        | Some true =>
            match wake_op_value op_type old_val op_arg with
            | None => mret (Err EINVAL)
            | Some new_val =>
                _ ← set_fmem (pa_write_u32 m pa new_val);
                n1 ← wake_on_key (token, uaddr) num_wake_uaddr1;
                n2 ← wake_on_key (token, uaddr2) num_wake_uaddr2;
                n ← st_lift (uadd n1 n2);
                mret (Ok n)
            end
        | Some false => mret (Ok 0)
        end
    end.

(** The deadline of a wait, from the timeout the user gave; [inl] is an early
    return of the system call. *)
Definition futex_deadline (ts : UserTimeSpec) (use_clock_realtime : bool) (now : TimeVal)
    : outcome (result Z SysErrNo + TimeVal) :=
  let sec := wrap_isize (tv_sec ts) in
  if (wrap_isize (tv_nsec ts) <? 0) || (1000000000 <=? tv_nsec ts)
     || use_clock_realtime && (sec <? 0)
     || negb use_clock_realtime && (sec <? 0)
          && ((sec =? -1) && negb (tv_nsec ts =? 0) || (sec <? -1))
  then Ret (inl (Err EINVAL))
  else if (tv_sec ts =? 0) && (tv_nsec ts =? 0) then Ret (inl (Ok 0))
  else d ← add_timespec now ts; Ret (inr d).

(** What [sys_futex] comes to: a result, or a future to be awaited. *)
Inductive futex_start : Type :=
| FutexDone (r : result Z SysErrNo)
| FutexWait (f : FutexWaitInternalFuture).

(** The [FUTEX_WAIT] arm up to the [await]; [ts_present] tells whether the
    page of the timeout could be made present. *)
Definition futex_wait_start (token uaddr expected bitmask timeout_ptr : Z)
    (ts_present use_clock_realtime : bool) (now : TimeVal) : ST fsys futex_start :=
  v ← read_user_u32 token uaddr;
  match v with
  | Err e => mret (FutexDone (Err e))
  | Ok current_val =>
      if negb (current_val =? expected) then mret (FutexDone (Err EAGAIN))
      else if (timeout_ptr =? 0) || negb ts_present then
        f ← futex_future_new token uaddr expected bitmask None;
        mret (FutexWait f)
      else
        m ← st_gets f_mem;
        r ← st_lift (get_target_ref token m timeout_ptr 16);
        match r with
        | Err e => mret (FutexDone (Err (errno_of_TranslateError e)))
        | Ok None => st_panic
        | Ok (Some pa) =>
            let ts := mkTS (le_value (pa_read_bytes m pa 8)) (le_value (pa_read_bytes m (pa + 8) 8)) in
            d ← st_lift (futex_deadline ts use_clock_realtime now);
            match d with
            | inl r => mret (FutexDone r)
            | inr d =>
                f ← futex_future_new token uaddr expected bitmask (Some d);
                mret (FutexWait f)
            end
        end
  end.

Definition sys_futex (token uaddr futex_op_full val_or_count val2 uaddr2 val3 : Z)
    (ts_present : bool) (now : TimeVal) : ST fsys futex_start :=
  if bad_uaddr uaddr then mret (FutexDone (Err EFAULT))
  else
    let op_cmd := Z.land futex_op_full (Z.lnot (Z.lor FUTEX_PRIVATE_FLAG FUTEX_CLOCK_REALTIME)) in
    let use_clock_realtime := negb (Z.land futex_op_full FUTEX_CLOCK_REALTIME =? 0) in
    let done m := r ← m; mret (FutexDone r) in
    match op_cmd with
    | 3 => done (futex_requeue token uaddr uaddr2 val_or_count val2)
    | 0 => futex_wait_start token uaddr val_or_count U32_MAX val2 ts_present use_clock_realtime now
    | 9 => futex_wait_start token uaddr val_or_count val3 val2 ts_present use_clock_realtime now
    | 1 => done (futex_wake (token, uaddr) val_or_count U32_MAX)
    | 10 => done (futex_wake (token, uaddr) val_or_count val3)
    | 4 => done (futex_cmp_requeue token uaddr uaddr2 val_or_count val2 val3)
    | 5 => done (futex_wake_op token uaddr uaddr2 val_or_count val2 val3)
    | _ => mret (FutexDone (Err ENOSYS))
    end.

(** ** Waking in order *)

(** The loop wakes the first waiters that match and keeps the others. *)
Lemma wake_loop_spec q : forall num mask c kept s,
  c + zlen q < u64_bound ->
  exists rest, let woken := take (Z.to_nat (num - c)) (List.filter (mask_matches mask) q) in
  wake_loop q num mask c kept s =
    match st_iter wakeup_task (fw_waker <$> woken) s with
    | Ret (_, s') => Ret ((c + zlen woken, kept ++ rest), s')
    | Panic => Panic
    end /\
  rest `sublist_of` q /\
  List.filter (mask_matches mask) rest =
    drop (Z.to_nat (num - c)) (List.filter (mask_matches mask) q) /\
  List.filter (fun n => negb (mask_matches mask n)) rest =
    List.filter (fun n => negb (mask_matches mask n)) q.
Proof.
  induction q as [|n q IH]; intros num mask c kept s Hlen.
  - exists []. cbn. rewrite take_nil, drop_nil. cbn. rewrite app_nil_r, Z.add_0_r. done.
  - rewrite zlen_cons in Hlen. cbn [wake_loop List.filter].
    destruct (mask_matches mask n) eqn:E; cbn [negb].
    + destruct (Z.ltb_spec c num); cbn [andb].
      * replace (Z.to_nat (num - c)) with (S (Z.to_nat (num - (c + 1)))) by lia.
        cbn [take drop fmap list_fmap st_iter]. unfold mbind, ST_bind.
        destruct (wakeup_task (fw_waker n) s) as [[[] s']|] eqn:Ew.
        -- unfold st_lift. rewrite uadd_Ret by (pose proof (zlen_nonneg q); lia).
           destruct (IH num mask (c + 1) kept s' ltac:(lia)) as (rest & H1 & H2 & H3 & H4).
           exists rest. rewrite H1. split; [|split; [by constructor|done]].
           destruct (st_iter _ _ s') as [[[] s2]|]; [|done]. rewrite zlen_cons. do 3 f_equal. lia.
        -- destruct (IH num mask (c + 1) kept s ltac:(lia)) as (rest & _ & H2 & H3 & H4).
           exists rest. split; [done|split; [by constructor|done]].
      * destruct (IH num mask c (kept ++ [n]) s ltac:(lia)) as (rest & H1 & H2 & H3 & H4).
        exists (n :: rest). replace (Z.to_nat (num - c)) with O in * by lia. cbn in *.
        rewrite E, H1, H3, H4, <- app_assoc. cbn [negb]. split; [done|split; [by constructor|done]].
    + rewrite andb_false_r.
      destruct (IH num mask c (kept ++ [n]) s ltac:(lia)) as (rest & H1 & H2 & H3 & H4).
      exists (n :: rest). cbn. rewrite E. cbn. rewrite H1, H3, H4, <- app_assoc.
      split; [done|split; [by constructor|done]].
Qed.

(** [wake_matching_waiters] is first come first served: it wakes exactly
    the first [num_to_wake] waiters whose mask matches, in the order in which
    they queued, returns how many it woke, and leaves the other waiters in
    the queue in their order, those that do not match untouched. *)
Theorem wake_matching_fifo q num mask s :
  zlen q < u64_bound ->
  exists rest, let woken := take (Z.to_nat num) (List.filter (mask_matches mask) q) in
  wake_matching_waiters q num mask s =
    match st_iter wakeup_task (fw_waker <$> woken) s with
    | Ret (_, s') => Ret ((zlen woken, rest), s')
    | Panic => Panic
    end /\
  rest `sublist_of` q /\
  List.filter (mask_matches mask) rest =
    drop (Z.to_nat num) (List.filter (mask_matches mask) q) /\
  List.filter (fun n => negb (mask_matches mask n)) rest =
    List.filter (fun n => negb (mask_matches mask n)) q.
Proof.
  intros Hl. destruct (wake_loop_spec q num mask 0 [] s Hl) as (rest & H).
  rewrite Z.sub_0_r in H. exists rest. exact H.
Qed.

Lemma wake_matching_fifo_witness :
  let q := [mkFNode 64 1 1 2; mkFNode 65 1 1 1] in
  zlen q < u64_bound /\
  exists rest, let woken := take (Z.to_nat 1) (List.filter (mask_matches 1) q) in
  wake_matching_waiters q 1 1 ex_blocking =
    match st_iter wakeup_task (fw_waker <$> woken) ex_blocking with
    | Ret (_, s') => Ret ((zlen woken, rest), s')
    | Panic => Panic
    end /\
  rest `sublist_of` q /\
  List.filter (mask_matches 1) rest = drop (Z.to_nat 1) (List.filter (mask_matches 1) q) /\
  List.filter (fun n => negb (mask_matches 1 n)) rest =
    List.filter (fun n => negb (mask_matches 1 n)) q.
Proof. intros q. split; [reflexivity|]. apply wake_matching_fifo. reflexivity. Defined.

Lemma filter_negb_all {A} (f : A -> bool) l : List.filter f l = [] ->
  List.filter (fun x => negb (f x)) l = l.
Proof. induction l as [|x l IH]; cbn; [done|]. destruct (f x); cbn; [done|]. intros H. by rewrite IH. Qed.

(** Waking enough for all that match, the last of the queue among them. *)
Lemma wake_to_last q n num mask s : zlen q + 1 < u64_bound ->
  zlen (List.filter (mask_matches mask) q) < num -> mask_matches mask n = true ->
  let l := List.filter (mask_matches mask) q in
  wake_matching_waiters (q ++ [n]) num mask s =
  match st_iter wakeup_task (fw_waker <$> l ++ [n]) s with
  | Ret (_, s') => Ret ((zlen l + 1, List.filter (fun x => negb (mask_matches mask x)) q), s')
  | Panic => Panic
  end.
Proof.
  intros Hl Hnum Hn l.
  assert (Hf : List.filter (mask_matches mask) (q ++ [n]) = l ++ [n])
    by (rewrite List.filter_app; cbn; by rewrite Hn).
  assert (Hlen : (length (l ++ [n]) <= Z.to_nat num)%nat)
    by (rewrite length_app; unfold zlen in Hnum; fold l in Hnum; cbn [length]; lia).
  destruct (wake_loop_spec (q ++ [n]) num mask 0 [] s) as (rest & H1 & _ & H3 & H4);
    [unfold zlen in *; rewrite length_app; cbn; lia|].
  rewrite Hf, Z.sub_0_r in *. rewrite take_ge in H1 by done. rewrite drop_ge in H3 by done.
  rewrite (filter_negb_all _ rest H3), List.filter_app in H4. cbn in H4. rewrite Hn in H4. cbn in H4.
  rewrite app_nil_r in H4. subst rest. unfold wake_matching_waiters. rewrite H1, zlen_app.
  by destruct (st_iter _ _ s) as [[[] ?]|].
Qed.

(** ** Waiting and waking *)

(** What the first poll does: the node is queued and the task is blocking. *)
Definition futex_waiting (s : fsys) (t : Task) (f : FutexWaitInternalFuture) (a : Z) : fsys :=
  let e := ex (f_sys s) in
  let q := match bt_get (futex_key f) (futexes s) with Some q => q | None => [] end in
  mkFsys (mkSys (put_inner (tcb_set_state Blocking (inner t)) t (current e) e)
            (tid2tc (f_sys s)) (sleepers (f_sys s)))
    (f_mem s)
    (bt_insert (futex_key f)
       (q ++ [mkFNode a (current e) (tcb_id (inner t)) (fut_bitmask f)]) (futexes s)).

Lemma current_task_id_eq e t : current e <> 0 -> heap (rq e) !! current e = Some t ->
  current_task_id e = Ret (tcb_id (inner t), e).
Proof.
  intros Hc Ht. unfold current_task_id, current_get, try_get. st_unfold.
  destruct (Z.eqb_spec (current e) 0); [done|]. by rewrite (exec_task_eq _ _ _ Ht).
Qed.

Lemma futex_register_eq s t k f a :
  let e := ex (f_sys s) in
  current e <> 0 -> heap (rq e) !! current e = Some t ->
  arcs e !! current e = Some k -> 1 <= k ->
  bt_get (tcb_id (inner t)) (tid2tc (f_sys s)) = Some (current e) ->
  futex_register f a s = Ret ((Pending, set_fut_node (Some a) f), futex_waiting s t f a).
Proof.
  intros e. subst e. intros Hc Ht Hk Hk1 Hm. unfold futex_register. unfold mbind, ST_bind, st_gets. cbv beta iota.
  unfold on_fex at 1, on_fsys at 1, on_ex at 1. rewrite (current_task_id_eq _ _ Hc Ht).
  cbv beta iota. rewrite Hm.
  unfold on_fex at 1, on_fsys at 1, on_ex at 1, task_arc_clone, task_arc_count, st_modify, mbind, ST_bind.
  cbn [f_sys f_mem futexes ex tid2tc sleepers]. rewrite Hk.
  unfold set_futexes, st_modify. cbn [f_sys f_mem futexes ex tid2tc sleepers].
  unfold on_fex at 1, on_fsys at 1, on_ex at 1, task_set_state.
  cbn [f_sys f_mem futexes ex tid2tc sleepers].
  rewrite (tcb_update_eq (mkExec (rq (ex (f_sys s))) _ _) _ _ t Ht).
  unfold on_fex at 1, on_fsys at 1, on_ex at 1, task_arc_drop, task_arc_count, st_modify, mbind, ST_bind.
  cbn [f_sys f_mem futexes ex tid2tc sleepers]. unfold put_inner.
  cbn [arcs rq current heap sched]. rewrite lookup_insert_eq.
  destruct (Z.eqb_spec (k + 1) 1); [lia|]. unfold futex_waiting. cbv zeta.
  cbn [arcs rq current heap sched ex f_sys f_mem futexes tid2tc sleepers]. rewrite insert_insert_eq. replace (k + 1 - 1) with k by lia. rewrite (insert_id (arcs (ex (f_sys s)))) by done.
  reflexivity.
Qed.

Lemma read_user_u32_state token p s v s' : read_user_u32 token p s = Ret (v, s') -> s' = s.
Proof.
  unfold read_user_u32. st_unfold. destruct (get_target_ref token (f_mem s) p 4); [|done].
  by intros [= _ <-].
Qed.

(** The queue of a key, empty when there is none. *)
Definition queue_of (key : FutexKey) (l : list (FutexKey * FutexWaitQueue)) : FutexWaitQueue :=
  match bt_get key l with Some q => q | None => [] end.

Lemma get_insert_same (key : FutexKey) (q : FutexWaitQueue) l : bt_sorted l ->
  bt_get key (bt_insert key q l) = Some q.
Proof. intros Hs. rewrite get_insert by done. by rewrite kcmp_refl. Qed.

Lemma get_insert_other (key key' : FutexKey) (q : FutexWaitQueue) l : bt_sorted l ->
  key' <> key -> bt_get key' (bt_insert key q l) = bt_get key' l.
Proof.
  intros Hs Hne. rewrite get_insert by done. destruct (kcmp key' key) eqn:E; [|done|done].
  by apply kcmp_eq in E.
Qed.

Lemma get_remove_same (key : FutexKey) (l : list (FutexKey * FutexWaitQueue)) : bt_sorted l ->
  bt_get key (bt_remove key l) = None.
Proof. intros Hs. rewrite get_remove by done. by rewrite kcmp_refl. Qed.

Lemma get_remove_other (key key' : FutexKey) (l : list (FutexKey * FutexWaitQueue)) :
  bt_sorted l -> key' <> key -> bt_get key' (bt_remove key l) = bt_get key' l.
Proof.
  intros Hs Hne. rewrite get_remove by done. destruct (kcmp key' key) eqn:E; [|done|done].
  by apply kcmp_eq in E.
Qed.

Lemma queue_of_insert (key : FutexKey) q l key' : bt_sorted l ->
  queue_of key' (bt_insert key q l) = if bool_decide (key' = key) then q else queue_of key' l.
Proof.
  intros Hs. unfold queue_of. case_bool_decide as E; [subst key'|].
  - by rewrite get_insert_same.
  - by rewrite get_insert_other.
Qed.

(** Writing a queue back and dropping an empty one leave the same queues. *)
Lemma queue_of_put (key : FutexKey) q l key' : bt_sorted l ->
  queue_of key' (if queue_empty q then bt_remove key l else bt_insert key q l) =
  if bool_decide (key' = key) then q else queue_of key' l.
Proof.
  intros Hs. destruct q as [|x q]; cbn [queue_empty]; [|by apply queue_of_insert].
  unfold queue_of. case_bool_decide as E; [subst key'; by rewrite get_remove_same|].
  by rewrite get_remove_other.
Qed.

Lemma put_sorted (key : FutexKey) q l : bt_sorted l ->
  bt_sorted (if queue_empty q then bt_remove key l else bt_insert key q l).
Proof. intros Hs. destruct (queue_empty q); [by apply remove_sorted|by apply insert_sorted]. Qed.

(** Cleaning up takes the node out of the queue of its own key. *)
Lemma cleanup_spec f a s : fut_node f = Some a ->
  exists s', cleanup_registration f s = Ret (set_fut_node None f, s') /\
    f_sys s' = f_sys s /\
    (bt_sorted (futexes s) -> forall key, queue_of key (futexes s') =
       if bool_decide (key = futex_key f) then remove_specific_waiter (queue_of key (futexes s)) a
       else queue_of key (futexes s)).
Proof.
  intros Hn. unfold cleanup_registration. rewrite Hn. unfold mbind, ST_bind, st_gets, set_futexes, st_modify.
  destruct (bt_get (futex_key f) (futexes s)) as [wq|] eqn:E.
  - exists (mkFsys (f_sys s) (f_mem s)
      (if queue_empty (remove_specific_waiter wq a) then bt_remove (futex_key f) (futexes s)
       else bt_insert (futex_key f) (remove_specific_waiter wq a) (futexes s))).
    split; [by destruct (queue_empty _)|]. split; [done|]. intros Hs key. cbn [futexes].
    rewrite queue_of_put by done. case_bool_decide as Ek; [|done]. subst key.
    unfold queue_of. by rewrite E.
  - exists s. split; [done|]. split; [done|]. intros Hs key. case_bool_decide as Ek; [|done].
    subst key. unfold queue_of. by rewrite E.
Qed.

(** The executor stays well-formed while the task goes to wait. *)
Lemma futex_waiting_inv {U} c s t f a : let e := ex (f_sys s) in
  exec_inv U c e -> current e <> 0 -> heap (rq e) !! current e = Some t ->
  exec_inv U c (ex (f_sys (futex_waiting s t f a))).
Proof.
  intros e Hi Hc Ht. assert (view e (current e) = Some (state (inner t))) as Hv by (unfold view; by rewrite Ht).
  apply (inv_update c e (current e) t); [done|done| |done|by left|by left].
  cbn. split; [done|]. intros E. apply (curr_not_runnable c _ Hi) in Hc. rewrite Hv, E in Hc. done.
Qed.

(** C23: A futex wake is not lost: a running task that polls a wait without
    timeout, while the futex word has the expected value, queues its node and,
    once its poll is over, is blocked.  A [FUTEX_WAKE] with a matching mask that
    wakes more tasks than there are matching waiters before it then makes it
    and them runnable, queues it for the processor, and reports how many were
    woken; exactly the waiters that do not match stay in the queue of the key,
    the other queues and the states of the other tasks do not change, and
    neither does the task's reference count.  When it is polled again, its
    wait ends with success if the word has another value by then, and with
    [ERESTART] if it still has the expected one.  The executor is in any state
    it can reach, and the matching waiters are blocked or were made runnable
    by something else. *)
Theorem futex_wait_then_wake U c s t k f now a1 a2 num mask :
  let e := ex (f_sys s) in
  let q := queue_of (futex_key f) (futexes s) in
  let ahead := List.filter (mask_matches mask) q in
  exec_inv U c e -> c + zlen q + 2 < isize_max ->
  current e <> 0 -> heap (rq e) !! current e = Some t -> arcs e !! current e = Some k ->
  bt_get (tcb_id (inner t)) (tid2tc (f_sys s)) = Some (current e) ->
  timeout_sleep f = None -> fut_node f = None ->
  read_user_u32 (fut_token f) (uaddr_va f) s = Ret (Ok (expected_val f), s) ->
  bt_sorted (futexes s) ->
  (forall n, n ∈ ahead -> view e (fw_waker n) = Some Blocked \/ view e (fw_waker n) = Some Runnable) ->
  Z.land (fut_bitmask f) mask <> 0 -> zlen ahead < num ->
  exists f' s1 s2 s3,
    futex_poll f now a1 a2 s = Ret ((Pending, f'), s1) /\
    on_fex (run_task2 Pending) s1 = Ret (RunNext, s2) /\
    view (ex (f_sys s2)) (current e) = Some Blocked /\
    futex_wake (futex_key f) num mask s2 = Ret (Ok (zlen ahead + 1), s3) /\
    view (ex (f_sys s3)) (current e) = Some Runnable /\ current e ∈ refs (ex (f_sys s3)) /\
    (forall n, n ∈ ahead -> view (ex (f_sys s3)) (fw_waker n) = Some Runnable) /\
    (forall r, r <> current e -> r ∉ fw_waker <$> ahead -> view (ex (f_sys s3)) r = view e r) /\
    arcs (ex (f_sys s3)) !! current e = Some k /\
    (forall key, queue_of key (futexes s3) =
       if bool_decide (key = futex_key f) then List.filter (fun n => negb (mask_matches mask n)) q
       else queue_of key (futexes s)) /\
    (forall s4 v, read_user_u32 (fut_token f) (uaddr_va f) s4 = Ret (Ok v, s4) ->
       exists f'' s5, futex_poll f' now a1 a2 s4 =
         Ret ((Ready (if v =? expected_val f then Err ERESTART else Ok tt), f''), s5)).
Proof.
  intros e q ahead Hi Hcap Hc Ht Hk Hm Hto Hn Hread Hs Hah Hmask Hnum. pose proof (zlen_nonneg q).
  pose proof (ei_arcs c _ Hi (current e)) as Hk1. unfold view in Hk1. rewrite Ht in Hk1.
  destruct Hk1 as (k' & Hk' & Hk1). rewrite Hk in Hk'. injection Hk' as <-.
  set (key := futex_key f) in *.
  set (n := mkFNode a2 (current e) (tcb_id (inner t)) (fut_bitmask f)).
  set (s1 := futex_waiting s t f a2). set (t1 := set_inner (tcb_set_state Blocking (inner t)) t).
  pose proof (futex_waiting_inv c s t f a2 Hi Hc Ht) as Hi1. fold s1 in Hi1.
  assert (Ht1 : heap (rq (ex (f_sys s1))) !! current (ex (f_sys s1)) = Some t1)
    by apply lookup_insert_eq.
  pose proof (run_task2_blocking (ex (f_sys s1)) t1 Hc Ht1 eq_refl) as Hrun.
  pose proof (finish_pending_inv c (ex (f_sys s1)) t1 _ _ Hi1 Ht1 ltac:(lia) Hrun) as Hi2.
  set (e2 := mkExec _ _ 0) in Hrun, Hi2.
  set (s2 := mkFsys (mkSys e2 (tid2tc (f_sys s)) (sleepers (f_sys s))) (f_mem s) (futexes s1)).
  assert (view e2 (current e) = Some Blocked) as Hb2 by exact (view_put (ex (f_sys s1)) _ t1 (current e)).
  assert (forall r, r <> current e -> view e2 r = view e r) as Ho2.
  { intros r Hr. unfold view, e2, s1. cbn. by rewrite !lookup_insert_ne. }
  assert (zlen ahead <= zlen q) as Hle by (unfold zlen; pose proof (List.filter_length_le (mask_matches mask) q); unfold ahead; lia).
  destruct (wake_runnable (fw_waker <$> ahead ++ [n]) (c + 1) e2 Hi2) as (e3 & Hw & Hi3 & Ha3 & Hv3 & Ho3).
  { unfold zlen in *. rewrite length_fmap, length_app. cbn [length]. lia. }
  { intros r (x & -> & [Hx| ->%list_elem_of_singleton]%elem_of_app)%list_elem_of_fmap; [|by left].
    destruct (decide (fw_waker x = current e)) as [->|Hr]; [by left|]. rewrite Ho2 by done. by apply Hah. }
  assert (view e3 (current e) = Some Runnable) as Hr3.
  { apply Hv3, (list_elem_of_fmap_2 fw_waker _ n), elem_of_app. right. by apply list_elem_of_singleton. }
  assert (Hs1 : futexes s1 = bt_insert key (q ++ [n]) (futexes s)) by done.
  assert (Hsorted : bt_sorted (futexes s1)) by (rewrite Hs1; by apply insert_sorted).
  set (rest := List.filter (fun n => negb (mask_matches mask n)) q).
  assert (zlen q + 1 < u64_bound) as Hq.
  { pose proof (so_pool _ (ei_sched c _ Hi)). pose proof (ei_pool c _ Hi). unfold u64_bound, isize_max in *. lia. }
  assert (mask_matches mask n = true) as Hmm by (unfold mask_matches; cbn; by apply negb_true_iff, Z.eqb_neq).
  exists (set_fut_node (Some a2) f), s1, s2,
    (mkFsys (mkSys e3 (tid2tc (f_sys s)) (sleepers (f_sys s))) (f_mem s)
       (if queue_empty rest then bt_remove key (futexes s1) else bt_insert key rest (futexes s1))).
  split; [|split; [|split; [exact Hb2|]]].
  - unfold futex_poll, mbind, ST_bind. rewrite Hread. rewrite Z.eqb_refl. cbn [negb].
    unfold futex_timeout. rewrite Hto. cbv beta iota. unfold mret, ST_ret. rewrite Hn.
    exact (futex_register_eq s t k f a2 Hc Ht Hk Hk1 Hm).
  - unfold on_fex, on_fsys, on_ex. by rewrite Hrun.
  - split; [|split; [done|split; [|split; [|split; [|split; [cbn; by rewrite Ha3|split]]]]]].
    + unfold futex_wake. pose proof (zlen_nonneg ahead). destruct (Z.eqb_spec num 0); [lia|].
      unfold mbind, ST_bind, st_gets.
      change (futexes s2) with (futexes s1). rewrite Hs1, get_insert_same by done.
      unfold on_fex, on_fsys, on_ex. change (ex (f_sys s2)) with e2.
      rewrite wake_to_last by done. fold ahead. rewrite Hw. fold rest. cbv beta iota. by destruct (queue_empty rest).
    + apply (ei_queue _ _ Hi3). split; [done|]. intros Hu%(ei_made c _ Hi). by apply (curr_not_runnable c _ Hi).
    + intros x Hx. apply Hv3, list_elem_of_fmap_2, elem_of_app. by left.
    + intros r Hr Hx. cbn [f_sys ex]. rewrite Ho3, Ho2; [done|done|].
      intros (x & -> & [Hx'| ->%list_elem_of_singleton]%elem_of_app)%list_elem_of_fmap; [|done].
      apply Hx. by apply list_elem_of_fmap_2.
    + intros key'. cbn [futexes]. rewrite queue_of_put by done. case_bool_decide as E; [done|].
      rewrite Hs1. unfold queue_of. by rewrite get_insert_other.
    + intros s4 v Hr4. unfold futex_poll, mbind, ST_bind. cbn [fut_token uaddr_va set_fut_node expected_val fut_node].
      rewrite Hr4. destruct (Z.eqb_spec v (expected_val f)); cbn [negb].
      * unfold futex_timeout. cbn [timeout_sleep set_fut_node]. rewrite Hto. by do 2 eexists.
      * destruct (cleanup_spec (set_fut_node (Some a2) f) a2 s4 eq_refl) as (s5 & -> & _). by do 2 eexists.
Qed.

(** A page table that maps page 0 to frame 4, where the word at address 8 is
    7.  Task 1 waits on it already, and task 2 waits too. *)
Definition futex_mem : pmem :=
  write_word (write_word (write_word (write_word ∅ 1 0 0x2001) 2 0 0x3001) 3 0 0x41ff) 4 1 7.
Definition futex_ex : fsys :=
  mkFsys (mkSys ex_running2 [(2, 2)] []) futex_mem [((1, 8), [mkFNode 60 1 1 U32_MAX])].
Definition futex_fut : FutexWaitInternalFuture := mkFW 1 8 7 U32_MAX None (1, 8) None.

Lemma futex_wait_then_wake_witness : exists f' s1 s2 s3,
    futex_poll futex_fut (mkTV 0 0) 64 65 futex_ex = Ret ((Pending, f'), s1) /\
    on_fex (run_task2 Pending) s1 = Ret (RunNext, s2) /\
    futex_wake (1, 8) 2 U32_MAX s2 = Ret (Ok 2, s3) /\
    view (ex (f_sys s3)) 1 = Some Runnable /\ view (ex (f_sys s3)) 2 = Some Runnable.
Proof.
  destruct (futex_wait_then_wake ∅ 3 futex_ex (set_id 1 (set_inner (tcb_set_state Running (inner task2)) task2)) 1
              futex_fut (mkTV 0 0) 64 65 2 U32_MAX ex_running2_inv)
    as (f' & s1 & s2 & s3 & H1 & H2 & _ & H3 & H4 & _ & H5 & _);
    [done|done|vm_compute; reflexivity|vm_compute; reflexivity|reflexivity|reflexivity|reflexivity
    |vm_compute; reflexivity|apply sorted_cons; split; [constructor|apply SSorted_nil]| |discriminate|vm_compute; reflexivity|].
  - intros n Hn%list_elem_of_singleton. subst n. left. vm_compute. reflexivity.
  - exists f', s1, s2, s3. split; [exact H1|]. split; [exact H2|]. split; [exact H3|].
    split; [|exact H4]. apply (H5 (mkFNode 60 1 1 U32_MAX)). by left.
Defined.

(** A task that was woken while the word still has the expected value (as
    after a requeue, or when the waker does not change the word) is told
    [ERESTART], although a comment says that the value is not looked at again
    after a wake. *)
Lemma woken_same_value_restarts f now a1 a2 a s : timeout_sleep f = None -> fut_node f = Some a ->
  read_user_u32 (fut_token f) (uaddr_va f) s = Ret (Ok (expected_val f), s) ->
  futex_poll f now a1 a2 s = Ret ((Ready (Err ERESTART), f), s).
Proof.
  intros Hto Hn Hr. unfold futex_poll, mbind, ST_bind. rewrite Hr, Z.eqb_refl. cbn [negb].
  unfold futex_timeout. rewrite Hto. unfold mret, ST_ret. cbv beta iota. by rewrite Hn.
Qed.

(** A relative timeout of -1 seconds passes the check of the arguments and
    overflows when the deadline is computed. *)
Example futex_timeout_minus_one_panics :
  futex_deadline (mkTS (2 ^ 64 - 1) 0) false (mkTV 1 0) = Panic.
Proof. reflexivity. Qed.

(** ** Requeueing *)

Lemma drain_spec q n : 0 <= n -> fst (drain_waiters q n) = take (Z.to_nat n) q /\
  snd (drain_waiters q n) = drop (Z.to_nat n) q.
Proof.
  intros Hn. unfold drain_waiters. destruct (Z.eqb_spec n 0) as [->|]; [by destruct q|].
  destruct (Z.eqb_spec (Z.min (zlen q) n) 0) as [E|E].
  - assert (q = []) as -> by (destruct q; [done|rewrite zlen_cons in E; pose proof (zlen_nonneg q); lia]).
    cbn. by rewrite take_nil, drop_nil.
  - cbn [fst snd]. unfold zlen in *.
    destruct (Z.le_gt_cases n (Z.of_nat (length q))); [by rewrite Z.min_r by lia|].
    rewrite Z.min_l, Nat2Z.id, !firstn_all, skipn_all by lia.
    rewrite take_ge, drop_ge by lia. done.
Qed.

(** Moving waiters: the first ones leave the queue of the first key and are
    appended to that of the second, in order; nobody is lost or duplicated. *)
Lemma move_waiters_spec key key2 n s : key <> key2 -> 0 <= n -> bt_sorted (futexes s) ->
  let q := queue_of key (futexes s) in
  exists s', move_waiters key key2 n s = Ret (zlen (take (Z.to_nat n) q), s') /\
    f_sys s' = f_sys s /\ bt_sorted (futexes s') /\
    queue_of key (futexes s') = drop (Z.to_nat n) q /\
    queue_of key2 (futexes s') = queue_of key2 (futexes s) ++ take (Z.to_nat n) q /\
    (forall k, k <> key -> k <> key2 -> queue_of k (futexes s') = queue_of k (futexes s)).
Proof.
  intros Hne Hn Hs q. unfold move_waiters. destruct (Z.ltb_spec 0 n) as [Hpos|Hz].
  2: { assert (n = 0) as -> by lia. exists s. cbn. rewrite app_nil_r. done. }
  unfold mbind, ST_bind, st_gets, set_futexes, st_modify.
  assert (Hq : q = match bt_get key (futexes s) with Some q => q | None => [] end) by done.
  destruct (bt_get key (futexes s)) as [wq|] eqn:E; rewrite Hq.
  2: { exists s. cbn. rewrite take_nil, drop_nil, app_nil_r. done. }
  destruct (drain_waiters wq n) as [drained q'] eqn:Ed.
  destruct (drain_spec wq n Hn) as [H1 H2]. rewrite Ed in H1, H2. cbn in H1, H2. rewrite <- H1, <- H2.
  set (l1 := if queue_empty q' then bt_remove key (futexes s) else bt_insert key q' (futexes s)).
  assert (Hl1 : bt_sorted l1) by (by apply put_sorted).
  assert (Hget : forall k, queue_of k l1 = if bool_decide (k = key) then q' else queue_of k (futexes s))
    by (intros; by apply queue_of_put).
  replace (match _ with Ret (_, s') => _ | Panic => Panic end)
    with (Ret (zlen drained, mkFsys (f_sys s) (f_mem s)
            (if 0 <? zlen drained
             then bt_insert key2 (enqueue_waiters (queue_of key2 l1) drained) l1 else l1)))
    by (unfold l1; destruct (queue_empty q'); cbn; by destruct (0 <? zlen drained)).
  eexists. split; [done|]. split; [done|]. cbn [futexes].
  assert (Hl2 : forall k, queue_of k (if 0 <? zlen drained
             then bt_insert key2 (enqueue_waiters (queue_of key2 l1) drained) l1 else l1) =
      if bool_decide (k = key2) then queue_of key2 l1 ++ drained else queue_of k l1).
  { intros k. destruct (Z.ltb_spec 0 (zlen drained)) as [Hd|Hd].
    - rewrite queue_of_insert by done. done.
    - assert (drained = []) as -> by (apply length_zero_iff_nil; unfold zlen in Hd; lia).
      rewrite app_nil_r. case_bool_decide; by subst. }
  split; [destruct (0 <? zlen drained); [by apply insert_sorted|done]|].
  split; [rewrite Hl2, bool_decide_false, Hget by done; by rewrite bool_decide_true|].
  split; [rewrite Hl2, bool_decide_true, Hget by done; by rewrite bool_decide_false|].
  intros k Hk Hk2. rewrite Hl2, bool_decide_false, Hget by done. by rewrite bool_decide_false.
Qed.

(** A waiter that was requeued is left behind: when a waiter has been moved
    to the queue of another address, dropping its future (after a timeout, a
    signal or a wake) only looks in the queue of the first address, so that
    the node stays in the second queue with a waker that points to the task
    whether or not it still exists. *)
Theorem requeued_node_left_behind s f a n token uaddr uaddr2 num :
  timeout_sleep f = None -> fut_node f = Some a -> futex_key f = (token, uaddr) ->
  bad_uaddr uaddr2 = false -> uaddr <> uaddr2 -> bt_sorted (futexes s) ->
  n ∈ queue_of (token, uaddr) (futexes s) -> fw_addr n = a ->
  zlen (queue_of (token, uaddr) (futexes s)) <= num -> num < u64_bound ->
  exists c s1 s2, futex_requeue token uaddr uaddr2 0 num s = Ret (Ok c, s1) /\
    futex_drop f s1 = Ret (tt, s2) /\ n ∈ queue_of (token, uaddr2) (futexes s2).
Proof.
  intros Hto Hn Hkey Hbad Hne Hs Hin Ha Hlen Hnum.
  assert (Hpos := zlen_nonneg (queue_of (token, uaddr) (futexes s))).
  destruct (move_waiters_spec (token, uaddr) (token, uaddr2) num s)
    as (s1 & Hm & Hf1 & Hs1 & Hq1 & Hq2 & _); [by intros [=]|lia|done|].
  rewrite take_ge in Hm, Hq2 by (unfold zlen in *; lia).
  destruct (cleanup_spec f a s1 Hn) as (s2 & Hc & _ & Hq3).
  exists (0 + zlen (queue_of (token, uaddr) (futexes s))), s1, s2.
  split; [|split].
  - unfold futex_requeue. rewrite Hbad. destruct (Z.eqb_spec uaddr uaddr2); [done|].
    unfold mbind, ST_bind, wake_on_key. cbn [Z.ltb Z.compare]. unfold mret, ST_ret. rewrite Hm.
    unfold st_lift. by rewrite uadd_Ret by lia.
  - unfold futex_drop, mbind, ST_bind. rewrite Hc. cbn [timeout_sleep set_fut_node]. by rewrite Hto.
  - rewrite Hq3 by done. rewrite Hkey, bool_decide_false by (by intros [=]). rewrite Hq2. set_solver.
Qed.

Lemma requeued_node_left_behind_witness :
  let n := mkFNode 65 1 1 U32_MAX in
  let s := mkFsys (f_sys futex_ex) futex_mem [((1, 8), [n])] in
  exists c s1 s2, futex_requeue 1 8 16 0 1 s = Ret (Ok c, s1) /\
    futex_drop (set_fut_node (Some 65) futex_fut) s1 = Ret (tt, s2) /\
    n ∈ queue_of (1, 16) (futexes s2).
Proof.
  intros n s.
  apply (requeued_node_left_behind s (set_fut_node (Some 65) futex_fut) 65 n 1 8 16 1);
    [reflexivity|reflexivity|reflexivity|reflexivity|discriminate
    |apply sorted_cons; split; [constructor|apply SSorted_nil]|set_solver|reflexivity
    |vm_compute; discriminate|reflexivity].
Defined.
