(* ===== verification/Signals.v ===== *)
(** * Signals (os/src/signal/, the signal system calls of os/src/syscall/)

    A [Signal] is its number and a [SigSet] the 64-bit word of its bits.  The
    state is that of one thread: its own signal state, that of its process,
    the saved user registers, and memory.  The calls of [exit_proc], which is
    modelled in Process.v, are recorded with their codes ([record_exit]).

    [handle_pending_signals] runs at every return to user mode: it takes the
    signals that are pending and not blocked one by one, applies the default
    action or redirects the thread to its handler; [load_trap_for_signal]
    (system call [sigreturn]) puts the interrupted registers back. *)

From S2P Require Import Prelude Config Memory Errno Pte UserMem.
From S2P Require Import BTree Sched Exec ExecInv Futex.

(** ** Signals and sets (signal.rs, sigact.rs) *)

Definition NSIG : Z := 64.

Definition SIGNONE : Z := 0.
Definition SIGKILL : Z := 9.
Definition SIGCONT : Z := 18.
Definition SIGSTOP : Z := 19.
Definition SIGRT2 : Z := 33.

Definition sig_from_usize (signum : Z) : option Z :=
  if NSIG <=? signum then None
  else if signum <=? 64 then Some signum
  else None.

Inductive SignalDefaultAction : Type :=
| ActTerminate | ActIgnore | ActCoreDump | ActStop | ActContinue | ActForceTerminateOrStop.

Definition default_action (sig : Z) : SignalDefaultAction :=
  match sig with
  | 1 | 2 | 3 | 4 | 5 | 6 | 7 | 8 | 11 | 13 | 14 | 15 | 24 | 25 | 26 | 27 | 31 => ActTerminate
  | 9 | 19 => ActForceTerminateOrStop
  | 17 | 23 | 28 | 18 => ActIgnore
  | 20 | 21 | 22 => ActStop
  | _ => ActTerminate
  end.

(** [sig as usize - 1] underflows for [SIGNONE]. *)
Definition sigset_add (s sig : Z) : outcome Z :=
  k ← usub sig 1; Ret (Z.lor s (Z.shiftl 1 k)).
Definition sigset_remove (s sig : Z) : outcome Z :=
  k ← usub sig 1; Ret (Z.land s (not64 (Z.shiftl 1 k))).
Definition sigset_contains (s sig : Z) : outcome bool :=
  k ← usub sig 1; Ret (negb (Z.land (Z.shiftr s k) 1 =? 0)).
Definition sigset_union (s t : Z) : Z := Z.lor s t.
Definition sigset_intersect (s t : Z) : Z := Z.land s t.

Definition SIG_DFL : Z := 0.
Definition SIG_IGN : Z := 1.

Definition SA_SIGINFO : Z := 4.
Definition SA_ONSTACK : Z := 0x08000000.
Definition SA_RESTART : Z := 0x10000000.
Definition SA_NODEFER : Z := 0x40000000.
Definition SA_RESETHAND : Z := 0x80000000.

Record SigAction : Type := mkAct {
  sa_handler : Z;
  sa_flags : Z;
  sa_restorer : Z;
  sa_mask : Z
}.

Definition SigAction_default : SigAction := mkAct SIG_DFL 0 0 0.

Definition get_restorer (a : SigAction) : option Z :=
  if sa_restorer a =? 0 then None else Some (sa_restorer a).

(** [flags.contains(f)] for a single flag. *)
Definition sa_has (a : SigAction) (f : Z) : bool := Z.land (sa_flags a) f =? f.

Record SignalStack : Type := mkSS { ss_sp : Z; ss_flags : Z; ss_size : Z }.
Definition SignalStack_default : SignalStack := mkSS 0 SS_DISABLE 0.
Definition ss_disabled (s : SignalStack) : bool := ss_flags s =? SS_DISABLE.

(** ** Registers (trap/context.rs, trap/ucontext.rs) *)

(** [GeneralRegisters]: the 31 words in the order of the declaration. *)
Notation GeneralRegisters := (list Z).
Definition R_ra : nat := 0.
Definition R_sp : nat := 2.
Definition R_a0 : nat := 3.
Definition R_a1 : nat := 4.
Definition R_a2 : nat := 5.
Definition R_a7 : nat := 10.

Record TrapContext : Type := mkTC {
  tc_regs : GeneralRegisters;
  tc_sstatus : Z;
  tc_sepc : Z;
  tc_kernel_sp : Z;
  tc_kernel_ra : Z;
  tc_kernel_s : list Z;
  tc_kernel_fp : Z;
  tc_kernel_tp : Z;
  tc_origin_a0 : Z;
  tc_fp : list Z;
  tc_fcsr : Z;
  tc_scause : Z;
  tc_stval : Z;
  tc_trap_status : TrapStatus
}.

Definition reg (i : nat) (c : TrapContext) : Z := default 0 (tc_regs c !! i).

Definition tc_with_regs (r : GeneralRegisters) (c : TrapContext) : TrapContext :=
  mkTC r (tc_sstatus c) (tc_sepc c) (tc_kernel_sp c) (tc_kernel_ra c) (tc_kernel_s c)
    (tc_kernel_fp c) (tc_kernel_tp c) (tc_origin_a0 c) (tc_fp c) (tc_fcsr c) (tc_scause c)
    (tc_stval c) (tc_trap_status c).
Definition set_reg (i : nat) (v : Z) (c : TrapContext) : TrapContext :=
  tc_with_regs (<[i := v]> (tc_regs c)) c.
Definition set_pc (v : Z) (c : TrapContext) : TrapContext :=
  mkTC (tc_regs c) (tc_sstatus c) v (tc_kernel_sp c) (tc_kernel_ra c) (tc_kernel_s c)
    (tc_kernel_fp c) (tc_kernel_tp c) (tc_origin_a0 c) (tc_fp c) (tc_fcsr c) (tc_scause c)
    (tc_stval c) (tc_trap_status c).
Definition set_origin_a0 (v : Z) (c : TrapContext) : TrapContext :=
  mkTC (tc_regs c) (tc_sstatus c) (tc_sepc c) (tc_kernel_sp c) (tc_kernel_ra c) (tc_kernel_s c)
    (tc_kernel_fp c) (tc_kernel_tp c) v (tc_fp c) (tc_fcsr c) (tc_scause c)
    (tc_stval c) (tc_trap_status c).
Definition set_trap_status (v : TrapStatus) (c : TrapContext) : TrapContext :=
  mkTC (tc_regs c) (tc_sstatus c) (tc_sepc c) (tc_kernel_sp c) (tc_kernel_ra c) (tc_kernel_s c)
    (tc_kernel_fp c) (tc_kernel_tp c) (tc_origin_a0 c) (tc_fp c) (tc_fcsr c) (tc_scause c)
    (tc_stval c) v.

(** The part of [UContext] that is not constant. *)
Record UContext : Type := mkUC { uc_sigmask : Z; uc_pc : Z; uc_regs : GeneralRegisters }.

Definition UContext_new (tf : TrapContext) (mask : Z) : UContext := mkUC mask (tc_sepc tf) (tc_regs tf).

Definition mcontext_restore (u : UContext) (tf : TrapContext) : TrapContext :=
  tc_with_regs (uc_regs u) (set_pc (uc_pc u) tf).

Definition SIGINFO_SIZE : Z := 128.
Definition UCONTEXT_SIZE : Z := 960.

(** The bytes of a [UContext]: flags, link, stack, mask, unused, padding to
    16 bytes, program counter, registers, floating-point state.  Padding is
    written as 0. *)
Definition words (l : list Z) : list Z := l ≫= le_bytes 8.
Definition UContext_bytes (u : UContext) : list Z :=
  words [0; 0; 0; SS_DISABLE; 0; uc_sigmask u] ++ replicate 128 0
  ++ words (uc_pc u :: uc_regs u) ++ replicate 528 0.

Definition word_at (bs : list Z) (off : nat) : Z := le_value (take 8 (drop off bs)).
Definition UContext_of_bytes (bs : list Z) : UContext :=
  mkUC (word_at bs 40) (word_at bs 176)
    (map (fun i => word_at bs (184 + 8 * i)) (seq 0 31)).

(** [SigInfo] for [SI_TKILL] with the pid in [SigInfoKill]. *)
Definition SigInfo_bytes (sig pid : Z) : list Z :=
  le_bytes 4 sig ++ le_bytes 4 0 ++ le_bytes 4 0xfffffffa ++ replicate 4 0
  ++ le_bytes 4 pid ++ replicate 108 0.

(** ** State *)

Record TaskSignalState : Type := mkTSS {
  sig_info : bool;
  sigpending : Z;
  sigmask : Z;
  last_context : option TrapContext;
  is_restart : bool;
  alternate_stack : SignalStack
}.

Definition TaskSignalState_init (mask : Z) : TaskSignalState :=
  mkTSS false 0 mask None false SignalStack_default.

Record ProcessSignalSharedState : Type := mkPSS {
  sigactions : list SigAction;
  shared_sigpending : Z
}.

Definition PSS_default : ProcessSignalSharedState :=
  mkPSS (replicate (Z.to_nat NSIG) SigAction_default) 0.
Definition PSS_clone_from_another (p : ProcessSignalSharedState) : ProcessSignalSharedState :=
  mkPSS (sigactions p) 0.

Record sigst : Type := mkSig {
  sg_task : TaskSignalState;
  sg_proc : ProcessSignalSharedState;
  sg_tf : TrapContext;
  sg_mem : pmem;
  sg_exits : list Z
}.

Definition on_smem {A} (m : ST pmem A) : ST sigst A :=
  fun s => match m (sg_mem s) with
           | Ret (a, e) => Ret (a, mkSig (sg_task s) (sg_proc s) (sg_tf s) e (sg_exits s))
           | Panic => Panic
           end.
Definition upd_task (f : TaskSignalState -> TaskSignalState) : ST sigst unit :=
  st_modify (fun s => mkSig (f (sg_task s)) (sg_proc s) (sg_tf s) (sg_mem s) (sg_exits s)).
Definition upd_proc (f : ProcessSignalSharedState -> ProcessSignalSharedState) : ST sigst unit :=
  st_modify (fun s => mkSig (sg_task s) (f (sg_proc s)) (sg_tf s) (sg_mem s) (sg_exits s)).
Definition upd_tf (f : TrapContext -> TrapContext) : ST sigst unit :=
  st_modify (fun s => mkSig (sg_task s) (sg_proc s) (f (sg_tf s)) (sg_mem s) (sg_exits s)).
Definition record_exit (code : Z) : ST sigst unit :=
  st_modify (fun s => mkSig (sg_task s) (sg_proc s) (sg_tf s) (sg_mem s) (sg_exits s ++ [code])).

Definition set_sigpending v t := mkTSS (sig_info t) v (sigmask t) (last_context t) (is_restart t) (alternate_stack t).
Definition set_sigmask v t := mkTSS (sig_info t) (sigpending t) v (last_context t) (is_restart t) (alternate_stack t).
Definition set_sig_info v t := mkTSS v (sigpending t) (sigmask t) (last_context t) (is_restart t) (alternate_stack t).
Definition set_last_context v t := mkTSS (sig_info t) (sigpending t) (sigmask t) v (is_restart t) (alternate_stack t).
Definition set_is_restart v t := mkTSS (sig_info t) (sigpending t) (sigmask t) (last_context t) v (alternate_stack t).
Definition set_shared_pending v p := mkPSS (sigactions p) v.

(** ** Choosing a signal *)

(** The search over [1..NSIG] for a signal that is pending and not blocked. *)
Fixpoint find_pending (candidates : list Z) (pending mask : Z) : outcome (option Z) :=
  match candidates with
  | [] => Ret None
  | signum_idx :: l =>
      match sig_from_usize signum_idx with
      | Some sig =>
          p ← sigset_contains pending sig;
          b ← (if (p : bool) then sigset_contains mask sig else Ret true);
          if p && negb b then Ret (Some sig) else find_pending l pending mask
      | None => find_pending l pending mask
      end
  end.

(** The signal to deliver and whether it comes from the thread's own set. *)
Definition next_signal (t : TaskSignalState) (p : ProcessSignalSharedState)
    : outcome (option (Z * bool)) :=
  o ← find_pending (zrange 1 NSIG) (sigpending t) (sigmask t);
  match o with
  | Some sig => Ret (Some (sig, true))
  | None =>
      o ← find_pending (zrange 1 NSIG) (shared_sigpending p) (sigmask t);
      Ret (match o with Some sig => Some (sig, false) | None => None end)
  end.

Definition perform_default_action_for_process (sig : Z) : ST sigst unit :=
  match default_action sig with
  | ActTerminate | ActCoreDump => record_exit (128 + sig)
  | ActIgnore => mret tt
  | ActStop => st_panic
  | ActContinue => st_panic
  | ActForceTerminateOrStop => st_panic
  end.

(** ** Delivery to a handler *)

Definition EINTR_USIZE : Z := wrap64 (-4).
Definition ERESTART_USIZE : Z := wrap64 (-85).
Definition SYSCALL_SIGNALRET : Z := 139.

Definition align16 (x : Z) : Z := Z.land x (not64 0xf).

(** What becomes of an interrupted system call; [res] is its result. *)
Definition signal_syscall_result (action : SigAction) (sig : Z) (res : option Z) : ST sigst unit :=
  match res with
  | None => mret tt
  | Some _ =>
      tf ← st_gets sg_tf;
      if sa_has action SA_RESTART && (reg R_a0 tf =? ERESTART_USIZE) && negb (sig =? SIGRT2) then
        _ ← upd_tf (set_trap_status TrapBlocked);
        _ ← upd_tf (set_reg R_a0 (tc_origin_a0 tf));
        _ ← upd_tf (set_origin_a0 EINTR_USIZE);
        upd_task (set_is_restart true)
      else upd_tf (set_reg R_a0 EINTR_USIZE)
  end.

(** The stack pointer the handler starts with, before anything is pushed. *)
Definition signal_stack (action : SigAction) : ST sigst Z :=
  t ← st_gets sg_task;
  tf ← st_gets sg_tf;
  if sa_has action SA_ONSTACK && negb (ss_flags (alternate_stack t) =? SS_DISABLE) then
    x ← st_lift (uadd (ss_sp (alternate_stack t)) (ss_size (alternate_stack t)));
    y ← st_lift (usub x 1);
    mret (align16 y)
  else st_lift (usub (reg R_sp tf) USER_SIGNAL_PROTECT).

(** [SigInfo] and [UContext] on the user stack for [SA_SIGINFO]; [sp] is the
    stack pointer before, the result the one after. *)
Definition push_siginfo (token pid sig original_mask sp : Z) : ST sigst Z :=
  _ ← upd_task (set_sig_info true);
  x ← st_lift (usub sp SIGINFO_SIZE);
  _ ← st_lift (usub (align16 x) UCONTEXT_SIZE);
  let info_sp := align16 x in
  m ← st_gets sg_mem;
  r ← st_lift (translated_refmut token m info_sp);
  pa ← st_lift (result_unwrap r);
  _ ← on_smem (st_modify (fun m => pa_write_bytes m pa (SigInfo_bytes sig pid)));
  y ← st_lift (usub info_sp UCONTEXT_SIZE);
  let sp := align16 y in
  tf ← st_gets sg_tf;
  r ← on_smem (put_data token sp (UContext_bytes (UContext_new tf original_mask)));
  _ ← st_lift (result_unwrap r);
  _ ← upd_tf (set_reg R_a2 sp);
  _ ← upd_tf (set_reg R_a1 info_sp);
  mret sp.

(** [start_signal_trampoline] is the address of a symbol of the assembly. *)
Definition deliver_to_handler (start_signal_trampoline token pid : Z) (res : option Z)
    (sig : Z) (action : SigAction) (original_mask : Z) : ST sigst unit :=
  tf ← st_gets sg_tf;
  _ ← st_lift (rassert (negb (reg R_a7 tf =? SYSCALL_SIGNALRET)));
  _ ← signal_syscall_result action sig res;
  tf ← st_gets sg_tf;
  _ ← upd_task (set_last_context (Some tf));
  _ ← upd_task (set_sig_info false);
  sp ← signal_stack action;
  sp ← (if sa_has action SA_SIGINFO then push_siginfo token pid sig original_mask sp else mret sp);
  _ ← upd_tf (set_reg R_ra start_signal_trampoline);
  _ ← upd_tf (set_pc (sa_handler action));
  _ ← upd_tf (set_reg R_a0 sig);
  _ ← upd_tf (set_reg R_sp sp);
  if sa_has action SA_RESETHAND then
    p ← st_gets sg_proc;
    old ← st_lift (index (sigactions p) sig);
    acts ← st_lift (index_set (sigactions p) sig
                      (mkAct SIG_DFL (sa_flags old) (sa_restorer old) (sa_mask old)));
    upd_proc (fun p => mkPSS acts (shared_sigpending p))
  else mret tt.

(** How one round of the loop ends. *)
Inductive round_end : Type := RoundAgain | RoundReturn.

(** One signal: [sig] has been chosen and [from_thread] tells from where. *)
Definition handle_one (tramp token pid : Z) (res : option Z) (sig : Z) (from_thread : bool)
    : ST sigst round_end :=
  p ← st_gets sg_proc;
  action ← st_lift (index (sigactions p) sig);
  _ ← (if from_thread then
         t ← st_gets sg_task;
         v ← st_lift (sigset_remove (sigpending t) sig);
         upd_task (set_sigpending v)
       else
         v ← st_lift (sigset_remove (shared_sigpending p) sig);
         upd_proc (set_shared_pending v));
  if sig =? SIGKILL then
    _ ← record_exit (128 + sig);
    mret RoundReturn
  else if sig =? SIGSTOP then st_panic
  else if sig =? SIGCONT then st_panic
  else
    t ← st_gets sg_task;
    let original_thread_mask := sigmask t in
    m ← (if negb (sa_has action SA_NODEFER) then st_lift (sigset_add (sigmask t) sig)
         else mret (sigmask t));
    _ ← upd_task (set_sigmask (sigset_union m (sa_mask action)));
    if sa_handler action =? SIG_DFL then
      _ ← perform_default_action_for_process sig;
      _ ← upd_task (set_sigmask original_thread_mask);
      mret RoundAgain
    else if sa_handler action =? SIG_IGN then
      _ ← upd_task (set_sigmask original_thread_mask);
      mret RoundAgain
    else
      _ ← deliver_to_handler tramp token pid res sig action original_thread_mask;
      mret RoundReturn.

(** The loop; [false] when the fuel runs out. *)
Fixpoint handle_loop (fuel : nat) (tramp token pid : Z) (res : option Z) : ST sigst bool :=
  match fuel with
  | O => mret false
  | S fuel' =>
      t ← st_gets sg_task;
      p ← st_gets sg_proc;
      o ← st_lift (next_signal t p);
      match o with
      | None => mret true
      | Some (sig, from_thread) =>
          r ← handle_one tramp token pid res sig from_thread;
          match r with
          | RoundReturn => mret true
          | RoundAgain => handle_loop fuel' tramp token pid res
          end
      end
  end.

(** At most 63 signals are pending for the thread and 63 for the process. *)
Definition SIGNAL_FUEL : nat := 127.

(** [alive]: the task has a process, which is no zombie, and has not exited. *)
Definition handle_pending_signals (alive : bool) (tramp token pid : Z) (res : option Z)
    : ST sigst bool :=
  if alive then handle_loop SIGNAL_FUEL tramp token pid res else mret true.

(** ** Return from a handler *)

Definition load_trap_for_signal (token : Z) : ST sigst bool :=
  t ← st_gets sg_task;
  match last_context t with
  | None => mret false
  | Some old_trap_frame =>
      _ ← upd_task (set_last_context None);
      now ← st_gets sg_tf;
      let ucontext_ptr := reg R_sp now in
      _ ← upd_tf (fun _ => old_trap_frame);
      ok ← (if sig_info t then
              m ← st_gets sg_mem;
              r ← st_lift (get_target_ref token m ucontext_ptr UCONTEXT_SIZE);
              match r with
              | Err _ => mret false
              | Ok None => st_panic
              | Ok (Some pa) =>
                  let u := UContext_of_bytes (pa_read_bytes m pa UCONTEXT_SIZE) in
                  _ ← upd_tf (mcontext_restore u);
                  _ ← upd_task (set_sigmask (uc_sigmask u));
                  mret true
              end
            else mret true);
      if negb (ok : bool) then mret false
      else if is_restart t then
        tf ← st_gets sg_tf;
        pc ← st_lift (usub (tc_sepc tf) 4);
        _ ← upd_tf (set_pc pc);
        mret true
      else mret true
  end.

Definition sys_sigreturn (token : Z) : ST sigst (result Z SysErrNo) :=
  b ← load_trap_for_signal token;
  if (b : bool) then tf ← st_gets sg_tf; mret (Ok (reg R_a0 tf)) else mret (Err EPERM).

(** ** System calls *)

(** [sys_sigaction]; the new action is the one read from user memory, and the
    old one is returned for the copy to user memory. *)
Definition sys_sigaction (p : ProcessSignalSharedState) (signum : Z) (act : option SigAction)
    : outcome (result (SigAction * ProcessSignalSharedState) SysErrNo) :=
  match sig_from_usize signum with
  | None => Ret (Err EINVAL)
  | Some sig =>
      if (sig =? SIGKILL) || (sig =? SIGSTOP) then Ret (Err EINVAL)
      else
        old ← index (sigactions p) sig;
        match act with
        | None => Ret (Ok (old, p))
        | Some a =>
            acts ← index_set (sigactions p) sig a;
            Ret (Ok (old, mkPSS acts (shared_sigpending p)))
        end
  end.

Inductive SigMaskHow : Type := SIG_BLOCK | SIG_UNBLOCK | SIG_SETMASK.

Definition SigMaskHow_try_from (how : Z) : option SigMaskHow :=
  match how with 0 => Some SIG_BLOCK | 1 => Some SIG_UNBLOCK | 2 => Some SIG_SETMASK | _ => None end.

Fixpoint unblock_loop (candidates : list Z) (set mask : Z) : outcome Z :=
  match candidates with
  | [] => Ret mask
  | i :: l =>
      match sig_from_usize i with
      | Some s =>
          b ← sigset_contains set s;
          mask ← (if (b : bool) then sigset_remove mask s else Ret mask);
          unblock_loop l set mask
      | None => unblock_loop l set mask
      end
  end.

(** [do_sigprocmask]: the old mask and the new state. *)
Definition do_sigprocmask (t : TaskSignalState) (how : SigMaskHow) (set : option Z)
    : outcome (Z * TaskSignalState) :=
  match set with
  | None => Ret (sigmask t, t)
  | Some new_set =>
      new_mask ←
        match how with
        | SIG_BLOCK => Ret (sigset_union (sigmask t) new_set)
        | SIG_UNBLOCK => unblock_loop (zrange 1 NSIG) new_set (sigmask t)
        | SIG_SETMASK => m ← sigset_remove new_set SIGKILL; sigset_remove m SIGSTOP
        end;
      Ret (sigmask t, set_sigmask new_mask t)
  end.

(** ** Sets *)

Lemma contains_eq s sig : 1 <= sig -> sigset_contains s sig = Ret (Z.testbit s (sig - 1)).
Proof.
  intros H. unfold sigset_contains. rewrite usub_Ret by lia. cbn [mbind outcome_bind]. f_equal.
  change 1 with (Z.ones 1) at 2. rewrite Z.land_ones, Z.shiftr_div_pow2 by lia. change (2 ^ 1) with 2.
  rewrite <- Z.testbit_spec' by lia. by destruct (Z.testbit s (sig - 1)).
Qed.

Lemma add_eq s sig : 1 <= sig -> sigset_add s sig = Ret (Z.lor s (2 ^ (sig - 1))).
Proof.
  intros H. unfold sigset_add. rewrite usub_Ret by lia. cbn [mbind outcome_bind].
  by rewrite Z.shiftl_1_l.
Qed.

Lemma remove_eq s sig : 1 <= sig ->
  sigset_remove s sig = Ret (Z.land s (not64 (2 ^ (sig - 1)))).
Proof.
  intros H. unfold sigset_remove. rewrite usub_Ret by lia. cbn [mbind outcome_bind].
  by rewrite Z.shiftl_1_l.
Qed.

Lemma added_bit s sig j : 1 <= sig -> 1 <= j ->
  Z.testbit (Z.lor s (2 ^ (sig - 1))) (j - 1) = Z.testbit s (j - 1) || (j =? sig).
Proof.
  intros. rewrite Z.lor_spec, Z.pow2_bits_eqb by lia. f_equal.
  destruct (Z.eqb_spec (sig - 1) (j - 1)), (Z.eqb_spec j sig); lia || done.
Qed.

Lemma removed_bit s sig j : 1 <= sig -> 1 <= j <= 64 ->
  Z.testbit (Z.land s (not64 (2 ^ (sig - 1)))) (j - 1) = Z.testbit s (j - 1) && negb (j =? sig).
Proof.
  intros. rewrite Z.land_spec, testbit_not64, Z.pow2_bits_eqb by lia.
  destruct (Z.ltb_spec (j - 1) 64); [|lia]. cbn [andb]. do 2 f_equal.
  destruct (Z.eqb_spec (sig - 1) (j - 1)), (Z.eqb_spec j sig); lia || done.
Qed.

(** ** The choice *)

Definition deliverable (pending mask i : Z) : bool :=
  Z.testbit pending (i - 1) && negb (Z.testbit mask (i - 1)).

Lemma find_pending_eq l pending mask : Forall (fun i => 1 <= i < NSIG) l ->
  find_pending l pending mask = Ret (List.find (deliverable pending mask) l).
Proof.
  induction 1 as [|i l Hi Hl IH]; [done|]. cbn [find_pending List.find]. unfold sig_from_usize, NSIG in *.
  destruct (Z.leb_spec 64 i); [lia|]. destruct (Z.leb_spec i 64); [|lia].
  rewrite !contains_eq by lia. cbn [mbind outcome_bind]. unfold deliverable at 1.
  destruct (Z.testbit pending (i - 1)); cbn; [|exact IH].
  destruct (Z.testbit mask (i - 1)); [exact IH|done].
Qed.

Lemma signal_range : Forall (fun i => 1 <= i < NSIG) (zrange 1 NSIG).
Proof. apply Forall_forall. intros i Hi%list_elem_of_In%elem_of_zrange. done. Qed.

(** The first signal that can be delivered. *)
Definition first_signal (pending mask : Z) : option Z :=
  List.find (deliverable pending mask) (zrange 1 NSIG).

Lemma first_signal_Some pending mask sig : first_signal pending mask = Some sig ->
  1 <= sig < NSIG /\ deliverable pending mask sig = true.
Proof.
  intros [Hin Hd]%List.find_some. split; [|done]. by apply list_elem_of_In, elem_of_zrange in Hin.
Qed.

Lemma first_signal_None pending mask sig : first_signal pending mask = None ->
  1 <= sig < NSIG -> deliverable pending mask sig = false.
Proof.
  intros H Hs. apply (List.find_none _ _ H). by apply list_elem_of_In, elem_of_zrange.
Qed.

Lemma next_signal_eq t p : next_signal t p =
  Ret (match first_signal (sigpending t) (sigmask t), first_signal (shared_sigpending p) (sigmask t) with
       | Some sig, _ => Some (sig, true)
       | None, Some sig => Some (sig, false)
       | None, None => None
       end).
Proof.
  unfold next_signal. rewrite !find_pending_eq by apply signal_range. cbn [mbind outcome_bind].
  fold (first_signal (sigpending t) (sigmask t)). fold (first_signal (shared_sigpending p) (sigmask t)).
  destruct (first_signal (sigpending t) (sigmask t)); [done|].
  by destruct (first_signal (shared_sigpending p) (sigmask t)).
Qed.

(** The set a chosen signal comes from. *)
Definition pending_set (from_thread : bool) (t : TaskSignalState) (p : ProcessSignalSharedState) : Z :=
  if from_thread then sigpending t else shared_sigpending p.

Lemma next_signal_Some t p sig b : next_signal t p = Ret (Some (sig, b)) ->
  1 <= sig < NSIG /\ deliverable (pending_set b t p) (sigmask t) sig = true.
Proof.
  rewrite next_signal_eq. destruct (first_signal (sigpending t) (sigmask t)) as [x|] eqn:E1.
  - intros [= -> <-]. by apply first_signal_Some.
  - destruct (first_signal (shared_sigpending p) (sigmask t)) as [x|] eqn:E2; [|done].
    intros [= -> <-]. by apply first_signal_Some.
Qed.

(** ** Termination *)

Definition count (s : Z) : nat := length (List.filter (fun i => Z.testbit s (i - 1)) (zrange 1 NSIG)).

Lemma filter_shrinks {A} (f g : A -> bool) l x : (forall y, g y = true -> f y = true) ->
  x ∈ l -> f x = true -> g x = false ->
  (length (List.filter g l) < length (List.filter f l))%nat.
Proof.
  intros Hgf Hin Hf Hg.
  assert (forall l, (length (List.filter g l) <= length (List.filter f l))%nat) as Hle.
  { intros l'. induction l' as [|y l' IH]; [done|]. cbn. destruct (g y) eqn:E.
    - rewrite (Hgf y E). cbn. lia.
    - destruct (f y); cbn; lia. }
  induction l as [|y l IH]; [set_solver|]. apply elem_of_cons in Hin as [->|Hin].
  - cbn. rewrite Hf, Hg. cbn. specialize (Hle l). lia.
  - specialize (IH Hin). cbn. destruct (g y) eqn:E; [rewrite (Hgf y E); cbn; lia|].
    destruct (f y); cbn; lia.
Qed.

Lemma count_removed s sig : 1 <= sig < NSIG -> Z.testbit s (sig - 1) = true ->
  (count (Z.land s (not64 (2 ^ (sig - 1)))) < count s)%nat.
Proof.
  intros Hs Hb. unfold count. apply (filter_shrinks _ _ _ sig).
  - intros y. rewrite Z.land_spec. intros [H _]%andb_true_iff. done.
  - by apply elem_of_zrange.
  - done.
  - rewrite removed_bit by (unfold NSIG in *; lia). by rewrite Z.eqb_refl, andb_false_r.
Qed.

Lemma count_bound s : (count s <= 63)%nat.
Proof.
  unfold count. etransitivity; [apply List.filter_length_le|]. by rewrite length_zrange.
Qed.

Definition pending_count (s : sigst) : nat :=
  (count (sigpending (sg_task s)) + count (shared_sigpending (sg_proc s)))%nat.

(** ** One round *)

(** Taking a chosen signal out of its set. *)
Definition take_signal (b : bool) (sig : Z) (s : sigst) : sigst :=
  let m := not64 (2 ^ (sig - 1)) in
  let t := sg_task s in
  let p := sg_proc s in
  mkSig (if b then set_sigpending (Z.land (sigpending t) m) t else t)
    (if b then p else set_shared_pending (Z.land (shared_sigpending p) m) p)
    (sg_tf s) (sg_mem s) (sg_exits s).

Definition with_exit (code : Z) (s : sigst) : sigst :=
  mkSig (sg_task s) (sg_proc s) (sg_tf s) (sg_mem s) (sg_exits s ++ [code]).
Definition with_mask (m : Z) (s : sigst) : sigst :=
  mkSig (set_sigmask m (sg_task s)) (sg_proc s) (sg_tf s) (sg_mem s) (sg_exits s).

(** The mask while a handler runs. *)
Definition handler_mask (action : SigAction) (sig mask : Z) : Z :=
  Z.lor (if sa_has action SA_NODEFER then mask else Z.lor mask (2 ^ (sig - 1))) (sa_mask action).

Lemma with_mask_id s : with_mask (sigmask (sg_task s)) s = s.
Proof. by destruct s as [[] ? ? ? ?]. Qed.

Section round.
Context (tramp token pid : Z) (res : option Z).

Lemma handle_one_eq sig b s action : 1 <= sig ->
  sigactions (sg_proc s) !! Z.to_nat sig = Some action ->
  let s1 := take_signal b sig s in
  handle_one tramp token pid res sig b s =
  if sig =? SIGKILL then Ret (RoundReturn, with_exit (128 + sig) s1)
  else if (sig =? SIGSTOP) || (sig =? SIGCONT) then Panic
  else if sa_handler action =? SIG_DFL then
    match default_action sig with
    | ActTerminate | ActCoreDump => Ret (RoundAgain, with_exit (128 + sig) s1)
    | ActIgnore => Ret (RoundAgain, s1)
    | _ => Panic
    end
  else if sa_handler action =? SIG_IGN then Ret (RoundAgain, s1)
  else
    match deliver_to_handler tramp token pid res sig action (sigmask (sg_task s))
            (with_mask (handler_mask action sig (sigmask (sg_task s))) s1) with
    | Ret (_, s2) => Ret (RoundReturn, s2)
    | Panic => Panic
    end.
Proof.
  intros Hs Ha s1. unfold handle_one. unfold mbind, ST_bind, st_gets, st_lift.
  rewrite (proj2 (index_Ret _ sig action)) by (split; [lia|done]). cbv beta iota.
  replace ((if b then _ else _) s) with (Ret (tt, s1))
    by (destruct b; unfold upd_task, upd_proc, st_modify; rewrite remove_eq by done; done).
  cbv beta iota. destruct (sig =? SIGKILL); [done|].
  destruct (sig =? SIGSTOP); [done|]. destruct (sig =? SIGCONT); [done|]. cbn [orb].
  assert (Hm : sigmask (sg_task s1) = sigmask (sg_task s)) by (by destruct b). rewrite !Hm.
  replace ((if negb (sa_has action SA_NODEFER) then _ else _) s1)
    with (Ret (if sa_has action SA_NODEFER then sigmask (sg_task s)
               else Z.lor (sigmask (sg_task s)) (2 ^ (sig - 1)), s1))
    by (destruct (sa_has action SA_NODEFER); cbn [negb]; [done|by rewrite add_eq]).
  cbv beta iota. unfold upd_task, st_modify. fold (handler_mask action sig (sigmask (sg_task s))).
  fold (with_mask (handler_mask action sig (sigmask (sg_task s))) s1).
  destruct (sa_handler action =? SIG_DFL).
  - unfold perform_default_action_for_process, record_exit, st_modify, st_panic, mret, ST_ret.
    destruct (default_action sig); cbv beta iota; try done.
    all: f_equal; f_equal; rewrite <- Hm; clear; by destruct s1 as [[] ? ? ? ?].
  - destruct (sa_handler action =? SIG_IGN); [|done].
    f_equal; f_equal; rewrite <- Hm; clear; by destruct s1 as [[] ? ? ? ?].
Qed.

Lemma take_count b sig s : 1 <= sig < NSIG ->
  deliverable (pending_set b (sg_task s) (sg_proc s)) (sigmask (sg_task s)) sig = true ->
  (pending_count (take_signal b sig s) < pending_count s)%nat.
Proof.
  intros Hs [Hp _]%andb_true_iff. pose proof (count_removed _ sig Hs Hp) as H.
  unfold pending_count. destruct b; cbn in *; lia.
Qed.

Lemma exit_count c s : pending_count (with_exit c s) = pending_count s.
Proof. done. Qed.

(** The loop has fuel for every signal that is pending. *)
Lemma handle_loop_fuel fuel : forall s r s', length (sigactions (sg_proc s)) = 64%nat ->
  (pending_count s < fuel)%nat -> handle_loop fuel tramp token pid res s = Ret (r, s') -> r = true.
Proof.
  induction fuel as [|fuel IH]; intros s r s' Hl Hf; [lia|]. cbn [handle_loop].
  unfold mbind, ST_bind, st_gets, st_lift.
  destruct (next_signal (sg_task s) (sg_proc s)) as [[[sig b]|]|] eqn:En; [| |done].
  2: by intros [= <- _].
  apply next_signal_Some in En as [Hs Hd].
  destruct (lookup_lt_is_Some_2 (sigactions (sg_proc s)) (Z.to_nat sig)) as [action Ha];
    [unfold NSIG in Hs; lia|].
  rewrite (handle_one_eq sig b s action) by (done || lia). cbv zeta.
  assert (Hc := take_count b sig s Hs Hd).
  assert (Hl1 : length (sigactions (sg_proc (take_signal b sig s))) = 64%nat) by (by destruct b).
  destruct (sig =? SIGKILL); [by intros [= <- _]|].
  destruct (_ || _); [done|]. destruct (sa_handler action =? SIG_DFL).
  - destruct (default_action sig); try done; apply IH; try done; rewrite ?exit_count; lia.
  - destruct (sa_handler action =? SIG_IGN); [apply IH; [done|lia]|].
    destruct (deliver_to_handler _ _ _ _ _ _ _ _) as [[[] s2]|]; [by intros [= <- _]|done].
Qed.

(** The rounds that end in [unimplemented!]: [SIGSTOP] and [SIGCONT] whatever
    their action, and the other signals that stop a process by default. *)
Definition not_implemented (sig : Z) (a : SigAction) : bool :=
  (sig =? SIGSTOP) || (sig =? SIGCONT) ||
  (sa_handler a =? SIG_DFL) && (20 <=? sig) && (sig <=? 22).

(** Every signal that can be delivered is [SIGKILL], or one that has no
    handler and whose handling is implemented. *)
Definition tame (s : sigst) : Prop := forall b sig, 1 <= sig < NSIG ->
  deliverable (pending_set b (sg_task s) (sg_proc s)) (sigmask (sg_task s)) sig = true ->
  sig = SIGKILL \/
  exists a, sigactions (sg_proc s) !! Z.to_nat sig = Some a /\ not_implemented sig a = false /\
    (sa_handler a = SIG_DFL \/ sa_handler a = SIG_IGN).

Definition tame_default (i : Z) : bool :=
  (i =? SIGKILL) || (i =? SIGSTOP)
  || match default_action i with
     | ActTerminate | ActIgnore => negb ((20 <=? i) && (i <=? 22))
     | ActStop => (20 <=? i) && (i <=? 22)
     | _ => false
     end.

Lemma default_action_cases sig : 1 <= sig < NSIG -> sig <> SIGKILL -> sig <> SIGSTOP ->
  if (20 <=? sig) && (sig <=? 22) then default_action sig = ActStop
  else default_action sig = ActTerminate \/ default_action sig = ActIgnore.
Proof.
  intros Hs Hk Ht. assert (forallb tame_default (zrange 1 NSIG) = true) as Hall by (by vm_compute).
  rewrite forallb_forall in Hall. specialize (Hall sig). unfold tame_default in Hall.
  destruct (Z.eqb_spec sig SIGKILL); [done|]. destruct (Z.eqb_spec sig SIGSTOP); [done|].
  specialize (Hall ltac:(by apply list_elem_of_In, elem_of_zrange)). cbn [orb] in Hall.
  destruct (_ && _); destruct (default_action sig); auto; discriminate Hall.
Qed.

(** What handling default and ignored signals leaves alone. *)
Record untouched (s s' : sigst) : Prop := {
  un_tf : sg_tf s' = sg_tf s;
  un_mask : sigmask (sg_task s') = sigmask (sg_task s);
  un_acts : sigactions (sg_proc s') = sigactions (sg_proc s);
  un_blocked : forall b sig, 1 <= sig < NSIG -> Z.testbit (sigmask (sg_task s)) (sig - 1) = true ->
    Z.testbit (pending_set b (sg_task s') (sg_proc s')) (sig - 1) =
    Z.testbit (pending_set b (sg_task s) (sg_proc s)) (sig - 1)
}.

Lemma untouched_trans s1 s2 s3 : untouched s1 s2 -> untouched s2 s3 -> untouched s1 s3.
Proof.
  intros [A1 A2 A3 A4] [B1 B2 B3 B4]. split; try congruence.
  intros b sig Hs Hm. rewrite B4, A4; [done|done|done|done|by rewrite A2].
Qed.

Lemma taken_bit b b' sig j s : 1 <= sig -> 1 <= j < NSIG ->
  Z.testbit (pending_set b' (sg_task (take_signal b sig s)) (sg_proc (take_signal b sig s))) (j - 1) =
  Z.testbit (pending_set b' (sg_task s) (sg_proc s)) (j - 1) && negb (Bool.eqb b b' && (j =? sig)).
Proof.
  intros Hs Hj. unfold NSIG in Hj. destruct b, b'; cbn; rewrite ?andb_true_r; try done.
  all: apply removed_bit; lia.
Qed.

Lemma take_untouched b sig s : 1 <= sig < NSIG ->
  Z.testbit (sigmask (sg_task s)) (sig - 1) = false -> untouched s (take_signal b sig s).
Proof.
  intros Hs Hm. split; [done|by destruct b|by destruct b|].
  intros b' j Hj Hmj. rewrite taken_bit by lia. destruct (Z.eqb_spec j sig) as [->|]; [congruence|].
  by rewrite andb_false_r, andb_true_r.
Qed.

Lemma take_tame b sig s : 1 <= sig < NSIG -> tame s -> tame (take_signal b sig s).
Proof.
  intros Hs Ht b' j Hj [Hd Hm]%andb_true_iff. rewrite taken_bit in Hd by lia.
  apply andb_true_iff in Hd as [Hd _].
  replace (sigactions (sg_proc (take_signal b sig s))) with (sigactions (sg_proc s)) by (by destruct b).
  apply (Ht b' j Hj). unfold deliverable. rewrite Hd. by destruct b.
Qed.

Lemma handle_loop_tame fuel : forall s, length (sigactions (sg_proc s)) = 64%nat ->
  tame s -> (pending_count s < fuel)%nat ->
  exists s', handle_loop fuel tramp token pid res s = Ret (true, s') /\ untouched s s' /\
    (next_signal (sg_task s') (sg_proc s') = Ret None \/ list.last (sg_exits s') = Some (128 + SIGKILL)).
Proof.
  induction fuel as [|fuel IH]; intros s Hl Ht Hf; [lia|]. cbn [handle_loop].
  unfold mbind, ST_bind, st_gets, st_lift.
  destruct (next_signal (sg_task s) (sg_proc s)) as [[[sig b]|]|] eqn:En;
    [|exists s; split_and!; auto; by split|by rewrite next_signal_eq in En].
  apply next_signal_Some in En as [Hs Hd]. pose proof (Ht b sig Hs Hd) as Hk.
  assert (Hm : Z.testbit (sigmask (sg_task s)) (sig - 1) = false)
    by (apply andb_true_iff in Hd as [_ Hd]; by apply negb_true_iff).
  assert (Hun := take_untouched b sig s Hs Hm). assert (Htt := take_tame b sig s Hs Ht).
  assert (Hc := take_count b sig s Hs Hd). set (s1 := take_signal b sig s) in *.
  assert (Hl1 : length (sigactions (sg_proc s1)) = 64%nat) by (by destruct b).
  assert (Hgo : forall s2, tame s2 -> untouched s s2 -> (pending_count s2 < pending_count s)%nat ->
    exists s', handle_loop fuel tramp token pid res s2 = Ret (true, s') /\ untouched s s' /\
    (next_signal (sg_task s') (sg_proc s') = Ret None \/ list.last (sg_exits s') = Some (128 + SIGKILL))).
  { intros s2 H1 H2 H3. destruct (IH s2) as (s' & E & U & F); [by rewrite (un_acts _ _ H2)|done|lia|].
    exists s'. split_and!; [done|by eapply untouched_trans|done]. }
  destruct (decide (sig = SIGKILL)) as [->|Hnk].
  - destruct (lookup_lt_is_Some_2 (sigactions (sg_proc s)) (Z.to_nat SIGKILL)) as [a Ha];
      [rewrite Hl; unfold SIGKILL; lia|].
    rewrite (handle_one_eq _ _ _ a) by (done || lia). cbv zeta. rewrite Z.eqb_refl.
    exists (with_exit (128 + SIGKILL) s1). split; [done|]. split; [destruct Hun; by split|].
    right. cbn. by rewrite last_snoc.
  - destruct Hk as [|(a & Ha & Hni & Hh)]; [done|].
    rewrite (handle_one_eq _ _ _ a) by (done || lia). cbv zeta. unfold not_implemented in Hni.
    destruct (Z.eqb_spec sig SIGKILL); [done|].
    destruct (Z.eqb_spec sig SIGSTOP) as [|Hst]; [done|]. destruct (Z.eqb_spec sig SIGCONT); [done|].
    cbn [orb] in Hni |- *. destruct Hh as [Eh|Eh]; rewrite Eh in *; cbn [SIG_DFL SIG_IGN Z.eqb andb] in *.
    + pose proof (default_action_cases sig Hs Hnk Hst) as Hda. rewrite Hni in Hda.
      destruct Hda as [->| ->]; apply Hgo; try done. destruct Hun. by split.
    + by apply Hgo.
Qed.

(** The first signal to deliver decides whether the round is implemented. *)
Lemma handle_one_unimplemented sig b s action : 1 <= sig < NSIG ->
  sigactions (sg_proc s) !! Z.to_nat sig = Some action -> not_implemented sig action = true ->
  handle_one tramp token pid res sig b s = Panic.
Proof.
  intros Hs Ha Hni. rewrite (handle_one_eq sig b s action) by (done || lia). cbv zeta.
  unfold not_implemented in Hni. destruct (Z.eqb_spec sig SIGKILL) as [->|Hk].
  { cbn in Hni. by destruct (_ =? _) in Hni. }
  destruct (Z.eqb_spec sig SIGSTOP) as [|Hst]; [done|]. destruct (Z.eqb_spec sig SIGCONT); [done|].
  cbn [orb] in Hni |- *. destruct (sa_handler action =? SIG_DFL); [|done].
  pose proof (default_action_cases sig Hs Hk Hst) as Hda. cbn [andb] in Hni. rewrite Hni in Hda. by rewrite Hda.
Qed.

(** A handler without the flags that need the stack or change the action. *)
Record plain_handler (action : SigAction) : Prop := {
  ph_handler : sa_handler action <> SIG_DFL /\ sa_handler action <> SIG_IGN;
  ph_siginfo : sa_has action SA_SIGINFO = false;
  ph_nodefer : sa_has action SA_NODEFER = false;
  ph_onstack : sa_has action SA_ONSTACK = false;
  ph_resethand : sa_has action SA_RESETHAND = false;
  ph_restart : sa_has action SA_RESTART = false
}.

(** The registers the interrupted code continues with. *)
Definition interrupted (tf : TrapContext) : TrapContext :=
  match res with None => tf | Some _ => set_reg R_a0 EINTR_USIZE tf end.

Definition handler_frame (sig : Z) (action : SigAction) (tf : TrapContext) : TrapContext :=
  let tf := interrupted tf in
  set_reg R_sp (reg R_sp tf - USER_SIGNAL_PROTECT)
    (set_reg R_a0 sig (set_pc (sa_handler action) (set_reg R_ra tramp tf))).

Lemma deliver_plain sig action mask s : plain_handler action ->
  reg R_a7 (sg_tf s) <> SYSCALL_SIGNALRET -> USER_SIGNAL_PROTECT <= reg R_sp (sg_tf s) ->
  deliver_to_handler tramp token pid res sig action mask s =
  Ret (tt, mkSig (set_sig_info false (set_last_context (Some (interrupted (sg_tf s))) (sg_task s)))
             (sg_proc s) (handler_frame sig action (sg_tf s)) (sg_mem s) (sg_exits s)).
Proof.
  intros [_ Hi Hn Ho Hr Hrs] Ha7 Hsp. unfold deliver_to_handler. unfold mbind, ST_bind, st_gets, st_lift.
  unfold rassert. destruct (Z.eqb_spec (reg R_a7 (sg_tf s)) SYSCALL_SIGNALRET); [done|]. cbv beta iota.
  cbn [negb]. cbv beta iota.
  assert (Hsr : signal_syscall_result action sig res s =
    Ret (tt, mkSig (sg_task s) (sg_proc s) (interrupted (sg_tf s)) (sg_mem s) (sg_exits s))).
  { unfold signal_syscall_result, interrupted. destruct res; [|by destruct s].
    unfold mbind, ST_bind, st_gets. rewrite Hrs. reflexivity. }
  rewrite Hsr. unfold upd_task, upd_tf, st_modify. cbn [sg_tf sg_task sg_proc sg_mem sg_exits].
  unfold signal_stack, mbind, ST_bind, st_gets, st_lift. rewrite Ho. cbn [andb sg_tf].
  assert (Hreg : reg R_sp (interrupted (sg_tf s)) = reg R_sp (sg_tf s)).
  { unfold interrupted. destruct res; [|done]. unfold reg, set_reg. cbn [tc_regs tc_with_regs].
    by rewrite list_lookup_insert_ne. }
  rewrite usub_Ret by (rewrite Hreg; exact Hsp).
  cbv beta iota. rewrite Hi, Hr. reflexivity.
Qed.

End round.

(** ** Theorems *)

(** C25: [handle_pending_signals] never loops: it always has fuel for the
    signals that are pending.  When every signal it can deliver is [SIGKILL]
    or is one without a handler whose handling is implemented, it returns,
    with the registers, the mask, the actions and the blocked pending signals
    unchanged, and either nothing is left to deliver or the process was killed
    by [SIGKILL].  What is not implemented panics: when the first signal to
    deliver is [SIGSTOP] or [SIGCONT], even if it is ignored, or one of
    [SIGTSTP], [SIGTTIN] and [SIGTTOU] with the default action. *)
Theorem pending_signals_handled tramp token pid res s :
  length (sigactions (sg_proc s)) = 64%nat ->
  (forall r s', handle_pending_signals true tramp token pid res s = Ret (r, s') -> r = true) /\
  (tame s -> exists s', handle_pending_signals true tramp token pid res s = Ret (true, s') /\
     untouched s s' /\
     (next_signal (sg_task s') (sg_proc s') = Ret None \/
      list.last (sg_exits s') = Some (128 + SIGKILL))) /\
  (forall sig b a, next_signal (sg_task s) (sg_proc s) = Ret (Some (sig, b)) ->
     sigactions (sg_proc s) !! Z.to_nat sig = Some a -> not_implemented sig a = true ->
     handle_pending_signals true tramp token pid res s = Panic).
Proof.
  intros Hl. assert (pending_count s < SIGNAL_FUEL)%nat as Hf.
  { unfold pending_count, SIGNAL_FUEL. pose proof (count_bound (sigpending (sg_task s))).
    pose proof (count_bound (shared_sigpending (sg_proc s))). lia. }
  unfold handle_pending_signals. split; [|split].
  - intros r s'. by apply handle_loop_fuel.
  - intros Ht. by apply handle_loop_tame.
  - intros sig b a En Ha Hni. unfold SIGNAL_FUEL. cbn [handle_loop]. unfold mbind, ST_bind, st_gets, st_lift.
    rewrite En. apply next_signal_Some in En as [Hs _]. by rewrite (handle_one_unimplemented _ _ _ _ _ _ _ a).
Qed.

(** A thread with default actions. *)
Definition frame0 : TrapContext :=
  mkTC (replicate 31 0x10000) 0 0x4000 0 0 [] 0 0 0 [] 0 0 0 TrapDone.
Definition sig0 (pending mask : Z) : sigst :=
  mkSig (set_sigpending pending (TaskSignalState_init mask)) PSS_default frame0 ∅ [].

Lemma pending_signals_handled_witness :
  (exists s', handle_pending_signals true 0 0 1 None (sig0 0x4000 0) = Ret (true, s') /\
    next_signal (sg_task s') (sg_proc s') = Ret None) /\
  handle_pending_signals true 0 0 1 None (sig0 0x20000 0) = Panic.
Proof.
  split.
  2: { destruct (pending_signals_handled 0 0 1 None (sig0 0x20000 0) eq_refl) as (_ & _ & H).
       by apply (H SIGCONT true SigAction_default). }
  destruct (pending_signals_handled 0 0 1 None (sig0 0x4000 0) eq_refl) as (_ & H & _).
  destruct H as (s' & H1 & [H2 H3 H4 H5] & H6).
  - intros b sig Hs Hd. right. unfold NSIG in Hs.
    assert (sig = 15) as ->.
    { apply andb_true_iff in Hd as [Hd _]. destruct b; cbn in Hd; [|by rewrite Z.bits_0 in Hd].
      change 0x4000 with (2 ^ 14) in Hd. rewrite Z.pow2_bits_eqb in Hd by lia.
      apply Z.eqb_eq in Hd. lia. }
    exists SigAction_default. split; [reflexivity|]. split; [reflexivity|by left].
  - exists s'. split; [exact H1|]. vm_compute in H1. injection H1 as <-. vm_compute. reflexivity.
Defined.

(** Returning from a plain handler restores the interrupted registers, but
    not the mask: a signal delivered to a handler (no [SA_SIGINFO], no
    [SA_NODEFER]) redirects the thread to the handler with the signal number
    as argument, and when the handler, whatever it did to the registers, calls
    [sigreturn], the thread continues with its registers while the signal and
    the mask of the action stay blocked. *)
Theorem handler_return_keeps_blocked tramp token pid res s sig b action :
  next_signal (sg_task s) (sg_proc s) = Ret (Some (sig, b)) ->
  sigactions (sg_proc s) !! Z.to_nat sig = Some action -> plain_handler action ->
  sig <> SIGKILL -> sig <> SIGSTOP -> sig <> SIGCONT ->
  is_restart (sg_task s) = false -> reg R_a7 (sg_tf s) <> SYSCALL_SIGNALRET ->
  USER_SIGNAL_PROTECT <= reg R_sp (sg_tf s) ->
  exists s1, handle_pending_signals true tramp token pid res s = Ret (true, s1) /\
    sg_tf s1 = handler_frame tramp res sig action (sg_tf s) /\
    forall tf', exists s2,
      load_trap_for_signal token
        (mkSig (sg_task s1) (sg_proc s1) tf' (sg_mem s1) (sg_exits s1)) = Ret (true, s2) /\
      sg_tf s2 = interrupted res (sg_tf s) /\
      sigmask (sg_task s2) =
        Z.lor (Z.lor (sigmask (sg_task s)) (2 ^ (sig - 1))) (sa_mask action) /\
      Z.testbit (sigmask (sg_task s2)) (sig - 1) = true.
Proof.
  intros Hn Ha Hp Hk Hst Hco Hre Ha7 Hsp. pose proof Hp as [[Hd Hi] _ Hnd _ _ _].
  pose proof (next_signal_Some _ _ _ _ Hn) as [Hs _].
  unfold handle_pending_signals, SIGNAL_FUEL. cbn [handle_loop].
  unfold mbind, ST_bind, st_gets, st_lift. rewrite Hn. rewrite (handle_one_eq _ _ _ _ _ _ _ action) by (done || lia).
  cbv zeta. destruct (Z.eqb_spec sig SIGKILL), (Z.eqb_spec sig SIGSTOP), (Z.eqb_spec sig SIGCONT); try done.
  cbn [orb]. destruct (Z.eqb_spec (sa_handler action) SIG_DFL), (Z.eqb_spec (sa_handler action) SIG_IGN); try done.
  rewrite deliver_plain by done. eexists. split; [reflexivity|]. split; [done|]. intros tf'.
  unfold load_trap_for_signal, mbind, ST_bind, st_gets. cbn [sg_task last_context set_sig_info set_last_context].
  unfold upd_task, upd_tf, st_modify. cbn [sig_info set_sig_info is_restart set_last_context].
  replace (is_restart _) with false by (by destruct b). eexists. split; [reflexivity|].
  split; [done|]. cbn [sg_task sigmask set_last_context set_sig_info with_mask set_sigmask].
  unfold handler_mask. rewrite Hnd. split; [done|].
  rewrite !Z.lor_spec, Z.pow2_bits_true by lia. by rewrite orb_true_r.
Qed.

(** [SIGUSR1] with a handler at 0x5000. *)
Definition usr1_action : SigAction := mkAct 0x5000 0 0 0.
Definition sig_usr1 : sigst :=
  mkSig (set_sigpending 0x200 (TaskSignalState_init 0))
    (mkPSS (<[10%nat := usr1_action]> (sigactions PSS_default)) 0) frame0 ∅ [].

Lemma handler_return_keeps_blocked_witness : exists s1,
  handle_pending_signals true 0x7000 0 1 None sig_usr1 = Ret (true, s1) /\
  forall tf', exists s2,
    load_trap_for_signal 0
      (mkSig (sg_task s1) (sg_proc s1) tf' (sg_mem s1) (sg_exits s1)) = Ret (true, s2) /\
    Z.testbit (sigmask (sg_task s2)) 9 = true.
Proof.
  destruct (handler_return_keeps_blocked 0x7000 0 1 None sig_usr1 10 true usr1_action)
    as (s1 & H1 & _ & H2);
    [vm_compute; reflexivity|reflexivity|split; (split; discriminate) || reflexivity
    |discriminate|discriminate|discriminate|reflexivity|discriminate|discriminate|].
  exists s1. split; [exact H1|]. intros tf'. destruct (H2 tf') as (s2 & H3 & _ & _ & H4).
  exists s2. split; [exact H3|exact H4].
Defined.

(** [SIGKILL] can be blocked: [SIG_BLOCK] does not remove it from the set
    (only [SIG_SETMASK] does), and a thread that has blocked it is not killed
    by it. *)
Theorem sigkill_can_be_blocked tramp token pid res s :
  sigpending (sg_task s) = 2 ^ (SIGKILL - 1) -> shared_sigpending (sg_proc s) = 0 ->
  exists old t', do_sigprocmask (sg_task s) SIG_BLOCK (Some (2 ^ (SIGKILL - 1))) = Ret (old, t') /\
    let s' := mkSig t' (sg_proc s) (sg_tf s) (sg_mem s) (sg_exits s) in
    handle_pending_signals true tramp token pid res s' = Ret (true, s').
Proof.
  intros Hp Hs. eexists _, _. split; [reflexivity|]. cbv zeta.
  unfold handle_pending_signals, SIGNAL_FUEL. cbn [handle_loop].
  unfold mbind, ST_bind, st_gets, st_lift. rewrite next_signal_eq. cbn [sg_task sg_proc].
  assert (Hnone : forall p, p = 2 ^ (SIGKILL - 1) \/ p = 0 ->
    first_signal p (sigset_union (sigmask (sg_task s)) (2 ^ (SIGKILL - 1))) = None).
  { intros p Hd. destruct (first_signal p _) as [x|] eqn:E; [|done].
    apply first_signal_Some in E as [Hx [H1 H2]%andb_true_iff]. exfalso.
    destruct Hd as [->| ->]; [|by rewrite Z.bits_0 in H1].
    unfold sigset_union in H2. rewrite Z.lor_spec, H1, orb_true_r in H2. done. }
  cbn [sigpending sigmask set_sigmask]. rewrite !Hnone by auto. done.
Qed.

Lemma sigkill_can_be_blocked_witness :
  exists old t', do_sigprocmask (sg_task (sig0 0x100 0)) SIG_BLOCK (Some 0x100) = Ret (old, t') /\
    let s' := mkSig t' (sg_proc (sig0 0x100 0)) frame0 ∅ [] in
    handle_pending_signals true 0 0 1 None s' = Ret (true, s').
Proof. exact (sigkill_can_be_blocked 0 0 1 None (sig0 0x100 0) eq_refl eq_refl). Defined.

(** A thread that called [sigreturn] outside a handler (so that its system
    call number is still in the register) makes the kernel panic when a
    signal with a handler is pending. *)
Lemma stray_sigreturn_panics tramp token pid res s sig b action :
  next_signal (sg_task s) (sg_proc s) = Ret (Some (sig, b)) ->
  sigactions (sg_proc s) !! Z.to_nat sig = Some action ->
  sa_handler action <> SIG_DFL -> sa_handler action <> SIG_IGN -> sig <> SIGKILL ->
  reg R_a7 (sg_tf s) = SYSCALL_SIGNALRET ->
  handle_pending_signals true tramp token pid res s = Panic.
Proof.
  intros Hn Ha Hd Hi Hk H7. pose proof (next_signal_Some _ _ _ _ Hn) as [Hs _].
  unfold handle_pending_signals, SIGNAL_FUEL. cbn [handle_loop].
  unfold mbind, ST_bind, st_gets, st_lift. rewrite Hn. rewrite (handle_one_eq _ _ _ _ _ _ _ action) by (done || lia).
  cbv zeta. destruct (Z.eqb_spec sig SIGKILL); [done|]. destruct (_ || _); [done|].
  destruct (Z.eqb_spec (sa_handler action) SIG_DFL), (Z.eqb_spec (sa_handler action) SIG_IGN); try done.
  unfold deliver_to_handler, mbind, ST_bind, st_gets, st_lift. cbn [sg_tf with_mask take_signal].
  by rewrite H7, Z.eqb_refl.
Qed.

(** The restart flag is never cleared: once a system call has been restarted,
    every later return from a handler moves the program counter back. *)
Lemma restart_flag_sticks token s tf :
  last_context (sg_task s) = Some tf -> sig_info (sg_task s) = false ->
  is_restart (sg_task s) = true -> 4 <= tc_sepc tf ->
  exists s2, load_trap_for_signal token s = Ret (true, s2) /\
    tc_sepc (sg_tf s2) = tc_sepc tf - 4 /\ is_restart (sg_task s2) = true.
Proof.
  intros Hl Hi Hr Hpc. unfold load_trap_for_signal, mbind, ST_bind, st_gets, st_lift.
  rewrite Hl, Hi, Hr. unfold upd_task, upd_tf, st_modify. cbn [sg_tf negb].
  cbv beta iota. unfold mret, ST_ret. cbn [sg_tf negb]. rewrite usub_Ret by done.
  eexists. split; [reflexivity|]. done.
Qed.

(** [SIG_UNBLOCK] cannot unblock signal 64, whose bit [SIG_BLOCK] can set. *)
Example signal_64_stays_blocked :
  do_sigprocmask (TaskSignalState_init (2 ^ 63)) SIG_UNBLOCK (Some (2 ^ 64 - 1)) =
  Ret (2 ^ 63, TaskSignalState_init (2 ^ 63)).
Proof. vm_compute. reflexivity. Qed.
