(* ===== verification/Kill.v ===== *)
(** * Sending signals and interval timers (os/src/signal/mod.rs,
    os/src/syscall/signal.rs, os/src/timer.rs)

    [tkill], [tgkill] and [kill] add the signal to the pending set of threads
    and wake them; the interval timers call [send_signal].  The state is the
    executor with the two global tables; asynchronous locks are taken without
    contention.  A second lock of a spin mutex that is held never returns; it
    is written as a panic. *)

From S2P Require Import Prelude Config Errno BTree Timer Sched.
From S2P Require Import Exec ExecInv Sync Sleep Signals.

(** The parts of [ProcessControlBlock] used here; tasks are addresses. *)
Record pcb : Type := mkPcb {
  pc_tasks : list Z;
  pc_sig : ProcessSignalSharedState;
  pc_timers : list KernelTimer
}.

(** [PID2PC] is [g_procs]; [TID2TC] is part of [g_sys]. *)
Record gsys : Type := mkG {
  g_sys : sys;
  g_sig : gmap Z TaskSignalState;
  g_procs : list (Z * pcb)
}.

Definition on_gex {A} (m : ST exec A) : ST gsys A :=
  fun g => match on_ex m (g_sys g) with
           | Ret (a, e) => Ret (a, mkG e (g_sig g) (g_procs g))
           | Panic => Panic
           end.
Definition set_gsig (m : gmap Z TaskSignalState) : ST gsys unit :=
  st_modify (fun g => mkG (g_sys g) m (g_procs g)).
Definition set_gprocs (l : list (Z * pcb)) : ST gsys unit :=
  st_modify (fun g => mkG (g_sys g) (g_sig g) l).

Inductive SignalError : Type := InvalidSignal | NoSuchProcess | NoSuchThread | PermissionDenied.

Definition errno_of_SignalError (e : SignalError) : SysErrNo :=
  match e with
  | InvalidSignal => EINVAL
  | NoSuchProcess => ESRCH
  | NoSuchThread => ESRCH
  | PermissionDenied => EPERM
  end.

Definition task_id_of (r : Z) : ST gsys Z := t ← on_gex (exec_task r); mret (tcb_id (inner t)).

(** [tasks.iter().find(|t| t.id() == id)] *)
Fixpoint find_task_by_tid (tasks : list Z) (tid : Z) : ST gsys (option Z) :=
  match tasks with
  | [] => mret None
  | r :: l => i ← task_id_of r; if i =? tid then mret (Some r) else find_task_by_tid l tid
  end.

Definition contains_tid (p : pcb) (tid : Z) : ST gsys bool :=
  o ← find_task_by_tid (pc_tasks p) tid;
  mret (match o with Some _ => true | None => false end).

Definition is_ignored (action : SigAction) (sig : Z) : bool :=
  (sa_handler action =? SIG_IGN) && negb (sig =? SIGKILL) && negb (sig =? SIGSTOP).

(** [signal_state.lock().await.sigpending.add(sig)] *)
Definition add_pending (r sig : Z) : ST gsys unit :=
  m ← st_gets g_sig;
  t ← st_lift (unwrap (m !! r));
  v ← st_lift (sigset_add (sigpending t) sig);
  set_gsig (<[r := set_sigpending v t]> m).

(** [send_signal]; [pid2pc_held] tells whether the caller holds the lock of
    the process table.  The guards of [signal_shared_state] and [tasks] are
    used without having been awaited. *)
Definition send_signal (pid2pc_held : bool) (target_pid : Z) (target_tid : option Z) (sig : Z)
    : ST gsys (result unit SignalError) :=
  if (sig =? 0) || (NSIG <=? sig) then mret (Err InvalidSignal)
  else if pid2pc_held then st_panic
  else
    procs ← st_gets g_procs;
    match bt_get target_pid procs with
    | None => mret (Err NoSuchProcess)
    | Some p =>
        match target_tid with
        | Some tid =>
            o ← find_task_by_tid (pc_tasks p) tid;
            match o with
            | None => mret (Err NoSuchThread)
            | Some r =>
                st ← st_lift (guard_deref false (pc_sig p));
                action ← st_lift (index (sigactions st) sig);
                if is_ignored action sig then mret (Ok tt)
                else
                  _ ← add_pending r sig;
                  _ ← on_gex (wakeup_task r);
                  mret (Ok tt)
            end
        | None =>
            st ← st_lift (guard_deref false (pc_sig p));
            action ← st_lift (index (sigactions st) sig);
            if is_ignored action sig then mret (Ok tt)
            else
              v ← st_lift (sigset_add (shared_sigpending st) sig);
              _ ← set_gprocs (bt_insert target_pid
                    (mkPcb (pc_tasks p) (set_shared_pending v st) (pc_timers p)) procs);
              tasks ← st_lift (guard_deref false (pc_tasks p));
              match tasks with
              | r :: _ => _ ← on_gex (wakeup_task r); mret (Ok tt)
              | [] => mret (Ok tt)
              end
        end
    end.

Definition send_signal_to_task (r sig : Z) : ST gsys (result unit SignalError) :=
  if (sig =? 0) || (NSIG <=? sig) then mret (Err InvalidSignal)
  else
    t ← on_gex (exec_task r);
    procs ← st_gets g_procs;
    p ← st_lift (unwrap (bt_get (process_id (inner t)) procs));
    action ← st_lift (index (sigactions (pc_sig p)) sig);
    if is_ignored action sig then mret (Ok tt)
    else
      _ ← add_pending r sig;
      _ ← on_gex (wakeup_task r);
      mret (Ok tt).

(** [send_signal_to_task(..).await?; Ok(0)] *)
Definition send_or_errno (r sig : Z) : ST gsys (result Z SysErrNo) :=
  x ← send_signal_to_task r sig;
  mret (match x with Ok _ => Ok 0 | Err e => Err (errno_of_SignalError e) end).

Definition g_tid2tc (g : gsys) : list (Z * Z) := tid2tc (g_sys g).

Definition sys_tkill (target_tid signum : Z) : ST gsys (result Z SysErrNo) :=
  match sig_from_usize signum with
  | None => mret (Err EINVAL)
  | Some sig =>
      tids ← st_gets g_tid2tc;
      if signum =? 0 then
        mret (match bt_get target_tid tids with Some _ => Ok 0 | None => Err ESRCH end)
      else if sig =? SIGNONE then mret (Ok 0)
      else
        match bt_get target_tid tids with
        | None => mret (Err ESRCH)
        | Some r => send_or_errno r sig
        end
  end.

Definition sys_tgkill (target_pid target_tid signum : Z) : ST gsys (result Z SysErrNo) :=
  procs ← st_gets g_procs;
  match bt_get target_pid procs with
  | None => mret (Err ESRCH)
  | Some p =>
      b ← contains_tid p target_tid;
      if negb (b : bool) then mret (Err ESRCH)
      else sys_tkill target_tid signum
  end.

Fixpoint task_ids (tasks : list Z) : ST gsys (list Z) :=
  match tasks with
  | [] => mret []
  | r :: l => i ← task_id_of r; ids ← task_ids l; mret (i :: ids)
  end.

(** Failures of single threads are only logged. *)
Fixpoint kill_loop (tids : list Z) (signum : Z) : ST gsys unit :=
  match tids with
  | [] => mret tt
  | tid :: l => _ ← sys_tkill tid signum; kill_loop l signum
  end.

Definition sys_kill (current_pid target_pid signum : Z) : ST gsys (result Z SysErrNo) :=
  match sig_from_usize signum with
  | None => mret (Err EINVAL)
  | Some sig =>
      let pid := if target_pid =? 0 then current_pid else target_pid in
      procs ← st_gets g_procs;
      if signum =? 0 then mret (match bt_get pid procs with Some _ => Ok 0 | None => Err ESRCH end)
      else if sig =? SIGNONE then mret (Ok 0)
      else
        match bt_get pid procs with
        | None => mret (Err ESRCH)
        | Some p =>
            target_tids ← task_ids (pc_tasks p);
            match target_tids with
            | [] => mret (Err ESRCH)
            | _ => _ ← kill_loop target_tids signum; mret (Ok 0)
            end
        end
  end.

(** ** Interval timers *)

Definition ITIMER_REAL : Z := 0.
Definition ITIMER_VIRTUAL : Z := 1.
Definition ITIMER_PROF : Z := 2.
Definition SIGALRM : Z := 14.
Definition SIGVTALRM : Z := 26.
Definition SIGPROF : Z := 27.
Definition NSEC_PER_TICK : Z := 1000000000 / 100.

Definition get_timer (pid i : Z) : ST gsys KernelTimer :=
  procs ← st_gets g_procs;
  p ← st_lift (unwrap (bt_get pid procs));
  st_lift (index (pc_timers p) i).

Definition put_timer (pid i : Z) (t : KernelTimer) : ST gsys unit :=
  procs ← st_gets g_procs;
  p ← st_lift (unwrap (bt_get pid procs));
  l ← st_lift (index_set (pc_timers p) i t);
  set_gprocs (bt_insert pid (mkPcb (pc_tasks p) (pc_sig p) l) procs).

(** The part of [handle_timer_tick] for one of the two processor timers. *)
Definition cpu_timer_tick (pid i sig : Z) : ST gsys unit :=
  t ← get_timer pid i;
  if 0 <? value t then
    if value t <=? NSEC_PER_TICK then
      r ← send_signal false pid None sig;
      _ ← st_lift (result_unwrap r);
      put_timer pid i (mkTimer (interval t) (interval t))
    else
      v ← st_lift (usub (value t) NSEC_PER_TICK);
      put_timer pid i (mkTimer (interval t) v)
  else mret tt.

(** The loop of [check_real_timers] at time [now].  The guard of the process
    table lives until the end of the [if let], across [send_signal].  A timer
    put back has a deadline after [now], so that the loop makes at most one
    round per timer and one more. *)
Fixpoint real_timers_loop (fuel : nat) (now : Z) (timers : real_timers) : ST gsys real_timers :=
  match fuel with
  | O => st_panic
  | S fuel' =>
      match bt_pop_first timers with
      | None => mret timers
      | Some ((deadline, pid), rest) =>
          if now <? deadline then mret timers
          else
            procs ← st_gets g_procs;
            match bt_get pid procs with
            | None => real_timers_loop fuel' now rest
            | Some _ =>
                t ← get_timer pid ITIMER_REAL;
                r ← send_signal true pid None SIGALRM;
                _ ← st_lift (result_unwrap r);
                if 0 <? interval t then
                  _ ← put_timer pid ITIMER_REAL (mkTimer (interval t) (interval t));
                  next_deadline ← st_lift (uadd now (interval t));
                  real_timers_loop fuel' now (bt_insert next_deadline pid rest)
                else
                  _ ← put_timer pid ITIMER_REAL (mkTimer (interval t) 0);
                  real_timers_loop fuel' now rest
            end
      end
  end.

Definition check_real_timers (now : Z) (timers : real_timers) : ST gsys real_timers :=
  real_timers_loop (S (length timers)) now timers.

Definition handle_timer_tick (current_pid now : Z) (timers : real_timers) : ST gsys real_timers :=
  _ ← cpu_timer_tick current_pid ITIMER_VIRTUAL SIGVTALRM;
  _ ← cpu_timer_tick current_pid ITIMER_PROF SIGPROF;
  check_real_timers now timers.

(** ** Sending to a blocked thread *)

Lemma on_gex_eq {A} (m : ST exec A) g a e : m (ex (g_sys g)) = Ret (a, e) ->
  on_gex m g = Ret (a, mkG (mkSys e (tid2tc (g_sys g)) (sleepers (g_sys g))) (g_sig g) (g_procs g)).
Proof. intros H. unfold on_gex, on_ex. by rewrite H. Qed.

Lemma send_to_blocked g r sig t p action ts :
  1 <= sig < NSIG -> heap (rq (ex (g_sys g))) !! r = Some t ->
  state (inner t) = Blocked -> bt_get (process_id (inner t)) (g_procs g) = Some p ->
  sigactions (pc_sig p) !! Z.to_nat sig = Some action -> is_ignored action sig = false ->
  g_sig g !! r = Some ts ->
  exists e, send_signal_to_task r sig g =
    Ret (Ok tt, mkG (mkSys e (tid2tc (g_sys g)) (sleepers (g_sys g)))
          (<[r := set_sigpending (Z.lor (sigpending ts) (2 ^ (sig - 1))) ts]> (g_sig g)) (g_procs g)) /\
    view e r = Some Runnable /\ r ∈ refs e.
Proof.
  intros Hs Ht Hb Hp Ha Hi Hts.
  destruct (wakeup_blocked_eq (ex (g_sys g)) r t Ht Hb) as (e & Hw & Hv & Hr & _).
  exists e. split; [|done]. unfold send_signal_to_task.
  destruct (Z.eqb_spec sig 0); [lia|]. destruct (Z.leb_spec NSIG sig); [lia|]. cbn [orb].
  unfold mbind, ST_bind. rewrite (on_gex_eq _ _ _ _ (exec_task_eq _ _ _ Ht)).
  unfold st_gets, st_lift. cbn [g_procs g_sys g_sig]. rewrite Hp. cbn [unwrap].
  rewrite (proj2 (index_Ret _ sig action)) by (split; [lia|done]). rewrite Hi.
  unfold add_pending, mbind, ST_bind, st_gets, st_lift. cbn [g_sig]. rewrite Hts. cbn [unwrap].
  rewrite add_eq by lia. unfold set_gsig, st_modify. cbn [g_sys g_sig g_procs].
  erewrite on_gex_eq by (destruct (ex (g_sys g)); exact Hw). done.
Qed.

(** A signal sent with [tkill] to a thread blocked in the kernel, whose
    process does not ignore it, becomes pending for that thread, nothing else
    becomes pending, and the thread is made runnable and queued; for a thread
    with no signal it can take before, it is the next one to be delivered. *)
Theorem tkill_wakes_target g tid r sig t p action ts :
  1 <= sig < NSIG -> bt_get tid (g_tid2tc g) = Some r ->
  heap (rq (ex (g_sys g))) !! r = Some t -> state (inner t) = Blocked ->
  bt_get (process_id (inner t)) (g_procs g) = Some p ->
  sigactions (pc_sig p) !! Z.to_nat sig = Some action -> is_ignored action sig = false ->
  g_sig g !! r = Some ts ->
  exists g' ts', sys_tkill tid sig g = Ret (Ok 0, g') /\
    view (ex (g_sys g')) r = Some Runnable /\ r ∈ refs (ex (g_sys g')) /\
    g_sig g' = <[r := ts']> (g_sig g) /\ g_procs g' = g_procs g /\
    (forall j, 1 <= j < NSIG ->
       Z.testbit (sigpending ts') (j - 1) = Z.testbit (sigpending ts) (j - 1) || (j =? sig)) /\
    sigmask ts' = sigmask ts /\
    (next_signal ts (pc_sig p) = Ret None -> Z.testbit (sigmask ts) (sig - 1) = false ->
     next_signal ts' (pc_sig p) = Ret (Some (sig, true))).
Proof.
  intros Hs Htid Ht Hb Hp Ha Hi Hts.
  destruct (send_to_blocked g r sig t p action ts Hs Ht Hb Hp Ha Hi Hts) as (e & He & Hv & Hr).
  eexists _, (set_sigpending (Z.lor (sigpending ts) (2 ^ (sig - 1))) ts).
  split; [|split; [|split; [|split; [|split; [|split; [|split]]]]]].
  - unfold sys_tkill, sig_from_usize. unfold NSIG in Hs. destruct (Z.leb_spec NSIG sig); [unfold NSIG in *; lia|].
    destruct (Z.leb_spec sig 64); [|lia]. unfold mbind, ST_bind, st_gets.
    destruct (Z.eqb_spec sig 0); [lia|]. destruct (Z.eqb_spec sig SIGNONE); [unfold SIGNONE in *; lia|]. rewrite Htid.
    unfold send_or_errno, mbind, ST_bind. rewrite He. reflexivity.
  - exact Hv.
  - exact Hr.
  - done.
  - done.
  - intros j Hj. cbn [sigpending set_sigpending]. apply added_bit; lia.
  - done.
  - intros Hn Hm. rewrite next_signal_eq in *. cbn [sigpending sigmask set_sigpending].
    destruct (first_signal (sigpending ts) (sigmask ts)) as [x|] eqn:E1; [done|].
    destruct (first_signal (Z.lor (sigpending ts) (2 ^ (sig - 1))) (sigmask ts)) as [x|] eqn:E2.
    + apply first_signal_Some in E2 as [Hx [Hd1 Hd2]%andb_true_iff].
      rewrite added_bit in Hd1 by lia. destruct (Z.eqb_spec x sig) as [->|]; [done|].
      pose proof (first_signal_None _ _ x E1 Hx) as Hno. unfold deliverable in Hno.
      rewrite orb_false_r in Hd1. by rewrite Hd1, Hd2 in Hno.
    + pose proof (first_signal_None _ _ sig E2 Hs) as Hno. unfold deliverable in Hno.
      rewrite added_bit, Z.eqb_refl, orb_true_r, Hm in Hno by lia. done.
Qed.

(** Task 1 of process 1, blocked, and a [SIGTERM] to it. *)
Definition ex_blocked : exec := after (run_task2 Pending) ex_blocking.
Definition proc1 : pcb := mkPcb [1] PSS_default (replicate 3 (mkTimer 0 0)).
Definition kill0 : gsys :=
  mkG (mkSys ex_blocked [(1, 1)] []) {[ 1 := TaskSignalState_init 0 ]}
    [(process_id (inner task1), proc1)].

Lemma tkill_wakes_target_witness : exists g' ts',
  sys_tkill 1 15 kill0 = Ret (Ok 0, g') /\ view (ex (g_sys g')) 1 = Some Runnable /\
  g_sig g' = <[1 := ts']> (g_sig kill0) /\
  next_signal ts' PSS_default = Ret (Some (15, true)).
Proof.
  destruct (tkill_wakes_target kill0 1 1 15
    (set_inner (tcb_set_state Blocked (inner task1)) task1) proc1 SigAction_default (TaskSignalState_init 0))
    as (g' & ts' & H1 & H2 & _ & H3 & _ & _ & _ & H4);
    [by vm_compute|reflexivity|vm_compute; reflexivity|reflexivity|vm_compute; reflexivity
    |reflexivity|reflexivity|reflexivity|].
  exists g', ts'. split; [exact H1|]. split; [exact H2|]. split; [exact H3|].
  apply H4; vm_compute; reflexivity.
Defined.

(** ** Interval timers stop the kernel *)

Lemma send_signal_panics g pid sig p : 1 <= sig < NSIG -> bt_get pid (g_procs g) = Some p ->
  forall held, send_signal held pid None sig g = Panic.
Proof.
  intros Hs Hp held. unfold send_signal. destruct (Z.eqb_spec sig 0); [lia|].
  destruct (Z.leb_spec NSIG sig); [lia|]. cbn [orb]. destruct held; [done|].
  unfold mbind, ST_bind, st_gets. by rewrite Hp.
Qed.

(** The interval timers cannot deliver their signals: when a processor
    timer of the current process comes to its end, or a real timer of an
    existing process has expired and is the first of the queue, the tick does
    not return.  The first is a guard used without being awaited, the second
    a lock of the process table held across a call that takes it again. *)
Theorem interval_timer_stops_kernel g pid p t now timers :
  bt_get pid (g_procs g) = Some p ->
  (pc_timers p !! 1%nat = Some t -> 0 < value t <= NSEC_PER_TICK ->
   handle_timer_tick pid now timers g = Panic) /\
  (forall deadline rest, timers = (deadline, pid) :: rest -> deadline <= now ->
   check_real_timers now timers g = Panic).
Proof.
  intros Hp. split.
  - intros Ht Hv. unfold handle_timer_tick, cpu_timer_tick, get_timer. unfold mbind, ST_bind, st_gets, st_lift.
    rewrite Hp. cbn [unwrap]. rewrite (proj2 (index_Ret _ ITIMER_VIRTUAL t)) by (split; [done|exact Ht]).
    destruct (Z.ltb_spec 0 (value t)); [|lia]. destruct (Z.leb_spec (value t) NSEC_PER_TICK); [|lia].
    by rewrite (send_signal_panics g pid SIGVTALRM p).
  - intros deadline rest -> Hd. unfold check_real_timers. cbn [length real_timers_loop bt_pop_first].
    destruct (Z.ltb_spec now deadline); [lia|]. unfold mbind, ST_bind, st_gets. rewrite Hp.
    destruct (get_timer pid ITIMER_REAL g) as [[t' g']|] eqn:E; [|done].
    unfold get_timer, mbind, ST_bind, st_gets, st_lift in E. rewrite Hp in E. cbn [unwrap] in E.
    destruct (index (pc_timers p) ITIMER_REAL); [|done]. injection E as _ <-.
    by rewrite (send_signal_panics g pid SIGALRM p).
Qed.

Lemma interval_timer_stops_kernel_witness :
  let p := mkPcb [1] PSS_default [mkTimer 0 0; mkTimer 0 1; mkTimer 0 0] in
  let g := mkG (g_sys kill0) (g_sig kill0) [(7, p)] in
  handle_timer_tick 7 0 [] g = Panic /\ check_real_timers 5 [(4, 7)] g = Panic.
Proof.
  intros p g. split.
  - apply (proj1 (interval_timer_stops_kernel g 7 p (mkTimer 0 1) 0 [] eq_refl)); [reflexivity|].
    split; [reflexivity|vm_compute; discriminate].
  - apply (proj2 (interval_timer_stops_kernel g 7 p (mkTimer 0 1) 5 [(4, 7)] eq_refl) 4 []);
      [reflexivity|lia].
Defined.

(** Without expired timers of living processes the tick is harmless: the
    loop has enough fuel and only drops what belongs to nobody. *)
Lemma check_real_timers_orphans now timers g :
  (forall d pid, (d, pid) ∈ timers -> d <= now -> bt_get pid (g_procs g) = None) ->
  exists k, check_real_timers now timers g = Ret (drop k timers, g).
Proof.
  unfold check_real_timers. intros Ho.
  assert (forall fuel l, (length l < fuel)%nat -> (forall x, x ∈ l -> x ∈ timers) ->
    exists k, real_timers_loop fuel now l g = Ret (drop k l, g)) as H.
  { induction fuel as [|fuel IH]; intros l Hl Hin; [lia|]. cbn [real_timers_loop].
    destruct l as [|[d pid] l]; cbn [bt_pop_first]; [by exists O|].
    destruct (Z.ltb_spec now d); [by exists O|]. unfold mbind, ST_bind, st_gets.
    rewrite (Ho d pid) by (try lia; apply Hin; set_solver).
    destruct (IH l) as [k Hk]; [cbn in Hl; lia|set_solver|]. exists (S k). exact Hk. }
  apply H; [lia|done].
Qed.
