(* ===== verification/ShmSys.v ===== *)
(** * The shared memory system calls (os/src/syscall/mm.rs)

    Locking a segment or the memory set gives a guard that must be awaited
    before it is used.  The calls that use one without awaiting it are
    modelled up to that point; what follows in the source is not reached. *)

From S2P Require Import BTree Sched Exec Sync.
From S2P Require Import Prelude Config Errno FrameAlloc FrameSpec Shm.

Definition IPC_CREAT : Z := 0x200.
Definition IPC_EXCL : Z := 0x400.
Definition IPC_PRIVATE : Z := 0.

(** [as i32] of the 32-bit counter. *)
Definition shmid_of (n : Z) : Z := if n mod 2 ^ 32 <? 2 ^ 31 then n mod 2 ^ 32 else n mod 2 ^ 32 - 2 ^ 32.

(** The check of an existing key; the guard of the segment is not awaited. *)
Definition shmget_existing (is_create is_exclusive : bool) (m : ShmManager) (shmid size : Z)
    : outcome (result Z SysErrNo) :=
  if is_create && is_exclusive then Ret (Err EEXIST)
  else
    segment_arc ← unwrap (id_to_segment m !! shmid);
    segment ← guard_deref false segment_arc;
    if shm_segsz (id_ds segment) <? size then Ret (Err EINVAL) else Ret (Ok (wrap64 shmid)).

Definition shmget_new (now key size pid : Z) (m : ShmManager)
    : ST world (result Z SysErrNo * ShmManager) :=
  if size =? 0 then mret (Err EINVAL, m)
  else
    o ← segment_new now key size pid;
    match o with
    | None => mret (Err ENOMEM, m)
    | Some seg =>
        let shmid := shmid_of (next_id m) in
        let m := mkShmManager
                   (if key =? IPC_PRIVATE then key_to_id m else <[key := shmid]> (key_to_id m))
                   (<[shmid := seg]> (id_to_segment m)) ((next_id m + 1) mod 2 ^ 64) in
        mret (Ok (wrap64 shmid), m)
    end.

Definition sys_shmget (now pid : Z) (m : ShmManager) (key size shmflg : Z)
    : ST world (result Z SysErrNo * ShmManager) :=
  if MAX_SHM_SIZE <? size then mret (Err EINVAL, m)
  else
    let is_create := negb (Z.land shmflg IPC_CREAT =? 0) in
    let is_exclusive := negb (Z.land shmflg IPC_EXCL =? 0) in
    match (if key =? IPC_PRIVATE then None else key_to_id m !! key) with
    | Some shmid => r ← st_lift (shmget_existing is_create is_exclusive m shmid size); mret (r, m)
    | None =>
        if negb is_create && negb (key =? IPC_PRIVATE) then mret (Err ENOENT, m)
        else shmget_new now key size pid m
    end.

(** Up to [segment.page_count()]. *)
Definition sys_shmat (m : ShmManager) (shmid : Z) : outcome (result Z SysErrNo) :=
  match id_to_segment m !! shmid with
  | None => Ret (Err EINVAL)
  | Some segment_arc =>
      segment ← guard_deref false segment_arc;
      Ret (Ok (page_count segment))
  end.

(** [shmctl]; [alloc] is the outcome of [manual_alloc_type_for_lazy(buf)] and
    [read_buf] that of reading the user's structure. *)
Definition sys_shmctl (m : ShmManager) (shmid cmd buf : Z) (alloc read_buf : result unit SysErrNo)
    : outcome (result Z SysErrNo) :=
  match alloc with
  | Err e => Ret (Err e)
  | Ok _ =>
      match id_to_segment m !! shmid with
      | None => Ret (Err EINVAL)
      | Some segment_arc =>
          match cmd with
          | 2 =>
              if buf =? 0 then Ret (Err EFAULT)
              else segment ← guard_deref false segment_arc; Ret (Ok 0)
          | 1 =>
              if buf =? 0 then Ret (Err EFAULT)
              else match read_buf with
                   | Err e => Ret (Err e)
                   | Ok _ => segment ← guard_deref false segment_arc; Ret (Ok 0)
                   end
          | 0 => segment ← guard_deref false segment_arc; Ret (Ok 0)
          | 11 | 12 => Ret (Ok 0)
          | _ => Ret (Err EINVAL)
          end
      end
  end.

(** ** Theorems *)

Lemma shmget_existing_fails c e m shmid size v : shmget_existing c e m shmid size <> Ret (Ok v).
Proof.
  unfold shmget_existing. destruct (c && e); [done|]. by destruct (id_to_segment m !! shmid).
Qed.

(** Shared memory segments cannot be used: a [shmget] that succeeds has
    created a segment under a new identifier, recorded for its key; attaching
    it, removing it, and asking for its key again all panic. *)
Theorem shm_segment_unusable now pid m key size flg w v m' w' :
  sys_shmget now pid m key size flg w = Ret ((Ok v, m'), w') ->
  let shmid := shmid_of (next_id m) in
  v = wrap64 shmid /\ is_Some (id_to_segment m' !! shmid) /\
  sys_shmat m' shmid = Panic /\
  (forall buf r, sys_shmctl m' shmid 0 buf (Ok tt) r = Panic) /\
  (key <> IPC_PRIVATE -> forall w2, sys_shmget now pid m' key size IPC_CREAT w2 = Panic).
Proof.
  unfold sys_shmget at 1. destruct (Z.ltb_spec MAX_SHM_SIZE size) as [|Hsz]; [done|]. cbv zeta.
  destruct (if key =? IPC_PRIVATE then None else key_to_id m !! key) as [id|].
  { unfold mbind, ST_bind, st_lift.
    destruct (shmget_existing _ _ m id size) as [[v2|]|] eqn:E; try done.
    by apply shmget_existing_fails in E. }
  destruct (_ && _); [done|]. unfold shmget_new. destruct (size =? 0); [done|].
  unfold mbind, ST_bind. destruct (segment_new now key size pid w) as [[[seg|] w1]|]; [|done|done].
  intros [= <- <- <-]. cbv zeta. cbn [id_to_segment key_to_id].
  split; [done|]. split; [rewrite lookup_insert_eq; by eexists|].
  unfold sys_shmat, sys_shmctl. cbn [id_to_segment]. rewrite lookup_insert_eq.
  split; [done|]. split; [done|]. intros Hk w2. unfold sys_shmget.
  destruct (Z.ltb_spec MAX_SHM_SIZE size); [lia|]. destruct (Z.eqb_spec key IPC_PRIVATE); [done|].
  cbn [key_to_id]. rewrite lookup_insert_eq. cbv zeta. unfold mbind, ST_bind, st_lift, shmget_existing.
  cbn [id_to_segment]. rewrite lookup_insert_eq. done.
Qed.

(** A page of shared memory under key 5. *)
Definition shm_get5 : outcome ((result Z SysErrNo * ShmManager) * world) :=
  sys_shmget 0 1 ShmManager_new 5 4096 IPC_CREAT world70.

Lemma shm_segment_unusable_witness : exists v m' w',
  sys_shmget 0 1 ShmManager_new 5 4096 IPC_CREAT world70 = Ret ((Ok v, m'), w') /\
  sys_shmat m' 0 = Panic.
Proof.
  assert (match shm_get5 with Ret ((Ok v, m'), w') => True | _ => False end) as H by (vm_compute; exact I).
  unfold shm_get5 in H.
  destruct (sys_shmget 0 1 ShmManager_new 5 4096 IPC_CREAT world70) as [[[[v|] m'] w']|] eqn:E;
    [|destruct H|destruct H].
  destruct (shm_segment_unusable _ _ _ _ _ _ _ _ _ _ E) as (_ & _ & H1 & _).
  exists v, m', w'. split; [reflexivity|exact H1].
Defined.
