(* ===== verification/Mount.v ===== *)
(** * The mount table (os/src/fs/mount.rs, os/src/fs/vfs/mod.rs)

    Strings are lists of bytes and a file system instance is the address of
    its [Arc].  [VfsManager::mount] records a mount with [add_mount_entry];
    [MountTable::mount] makes more checks and keeps the entries sorted by the
    length of the mount point, longest first. *)

From Stdlib Require Import Sorting.Sorted.
From S2P Require Import Prelude Config Errno.

Record MountEntry : Type := mkMount {
  special_device : list Z;
  mount_point : list Z;
  mnt_flags : Z;
  fs_instance : Z
}.

Definition MountTable : Type := list MountEntry.

Definition bytes_eqb (a b : list Z) : bool := bool_decide (a = b).

Definition point_taken (p : list Z) (t : MountTable) : bool :=
  existsb (fun e => bytes_eqb (mount_point e) p) t.

Definition add_mount_entry (t : MountTable) (e : MountEntry) : result unit SysErrNo * MountTable :=
  if point_taken (mount_point e) t then (Err EBUSY, t) else (Ok tt, t ++ [e]).

Definition MountTable_new : MountTable := [].

(** [sort_by(|a, b| b.mount_point.len().cmp(&a.mount_point.len()))]; the sort
    of the library is stable. *)
Fixpoint insert_mount (e : MountEntry) (t : MountTable) : MountTable :=
  match t with
  | [] => [e]
  | x :: t' => if zlen (mount_point x) <? zlen (mount_point e) then e :: t else x :: insert_mount e t'
  end.
Definition sort_mounts (t : MountTable) : MountTable := fold_left (fun acc e => insert_mount e acc) t [].

(** ["none"] *)
Definition NONE_DEVICE : list Z := [110; 111; 110; 101].

Definition device_busy (t : MountTable) (d : list Z) : bool :=
  existsb (fun e => bytes_eqb (special_device e) d) t
  && negb (bytes_eqb d []) && negb (bytes_eqb d NONE_DEVICE).

Definition mount (t : MountTable) (e : MountEntry) : result unit SysErrNo * MountTable :=
  if MNT_TABLE_MAX_ENTRIES <=? zlen t then (Err ENOMEM, t)
  else if point_taken (mount_point e) t then (Err EBUSY, t)
  else if device_busy t (special_device e) then (Err EBUSY, t)
  else (Ok tt, sort_mounts (t ++ [e])).

Fixpoint umount (t : MountTable) (path_or_device : list Z) : result Z SysErrNo * MountTable :=
  match t with
  | [] => (Err EINVAL, [])
  | e :: t' =>
      if bytes_eqb (mount_point e) path_or_device || bytes_eqb (special_device e) path_or_device
      then (Ok (fs_instance e), t')
      else let '(r, t'') := umount t' path_or_device in (r, e :: t'')
  end.

Definition get_mount_info_by_dir (t : MountTable) (dir_path : list Z) : option MountEntry :=
  List.find (fun e => bytes_eqb (mount_point e) dir_path) t.

(** [VfsManager::mount] once the driver has made the file system, and
    [VfsManager::umount]. *)
Definition vfs_mount (t : MountTable) (special mount_point : list Z) (flags fs : Z)
    : result unit SysErrNo * MountTable :=
  add_mount_entry t (mkMount special mount_point flags fs).

Definition vfs_umount (t : MountTable) (path_or_device : list Z) : result unit SysErrNo * MountTable :=
  let '(r, t') := umount t path_or_device in
  (match r with Ok _ => Ok tt | Err e => Err e end, t').

(** ** The invariant *)

Definition points (t : MountTable) : list (list Z) := mount_point <$> t.

(** Longest mount point first. *)
Definition longer (a b : MountEntry) : Prop := zlen (mount_point b) <= zlen (mount_point a).
Definition longest_first (t : MountTable) : Prop := StronglySorted longer t.

Lemma bytes_eqb_spec a b : reflect (a = b) (bytes_eqb a b).
Proof. unfold bytes_eqb. case_bool_decide; by constructor. Qed.

Lemma point_taken_spec p t : point_taken p t = true <-> p ∈ points t.
Proof.
  unfold point_taken, points. rewrite existsb_exists. split.
  - intros (e & Hin & He). destruct (bytes_eqb_spec (mount_point e) p) as [<-|]; [|done].
    apply list_elem_of_fmap. exists e. split; [done|by apply list_elem_of_In].
  - intros (e & -> & Hin)%list_elem_of_fmap. exists e. split; [by apply list_elem_of_In|].
    by destruct (bytes_eqb_spec (mount_point e) (mount_point e)).
Qed.

Lemma insert_mount_perm e t : insert_mount e t ≡ₚ e :: t.
Proof.
  induction t as [|x t IH]; [done|]. cbn. destruct (_ <? _); [done|]. rewrite IH. apply Permutation_swap.
Qed.

Lemma insert_mount_sorted e t : longest_first t -> longest_first (insert_mount e t).
Proof.
  induction 1 as [|x t Ht IH Hx]; [repeat constructor|]. cbn.
  destruct (Z.ltb_spec (zlen (mount_point x)) (zlen (mount_point e))) as [Hlt|Hge].
  - constructor; [by constructor|]. constructor; [unfold longer; lia|].
    eapply Forall_impl; [|exact Hx]. unfold longer. intros y Hy. cbn in *. lia.
  - constructor; [exact IH|]. rewrite insert_mount_perm. by constructor.
Qed.

Lemma sort_mounts_spec t : sort_mounts t ≡ₚ t /\ longest_first (sort_mounts t).
Proof.
  unfold sort_mounts.
  assert (forall l acc, longest_first acc ->
    fold_left (fun acc e => insert_mount e acc) l acc ≡ₚ acc ++ l /\
    longest_first (fold_left (fun acc e => insert_mount e acc) l acc)) as H.
  { induction l as [|e l IH]; intros acc Ha; cbn; [by rewrite app_nil_r|].
    destruct (IH (insert_mount e acc)) as [H1 H2]; [by apply insert_mount_sorted|].
    split; [|done]. rewrite H1, insert_mount_perm. cbn. by rewrite Permutation_middle. }
  apply (H t []). constructor.
Qed.

Lemma umount_sublist t p : snd (umount t p) `sublist_of` t.
Proof.
  induction t as [|e t IH]; [constructor|]. cbn. destruct (_ || _); [by constructor|].
  destruct (umount t p) as [r t']. by constructor.
Qed.

(** Operations on the table: what the kernel calls, and [MountTable::mount]. *)
Inductive mount_op : Type := OpVfsMount (e : MountEntry) | OpMount (e : MountEntry) | OpUmount (p : list Z).

Definition mount_step (t : MountTable) (o : mount_op) : MountTable :=
  match o with
  | OpVfsMount e => snd (add_mount_entry t e)
  | OpMount e => snd (mount t e)
  | OpUmount p => snd (umount t p)
  end.

Definition checked (o : mount_op) : Prop := match o with OpVfsMount _ => False | _ => True end.

Lemma step_points t o : NoDup (points t) -> NoDup (points (mount_step t o)).
Proof.
  intros Hn. assert (forall e, point_taken (mount_point e) t = false -> NoDup (points (t ++ [e]))) as Hadd.
  { intros e He. unfold points. rewrite fmap_app. apply list.NoDup_app. split; [done|]. split.
    - intros x Hx ->%list_elem_of_singleton. apply point_taken_spec in Hx. congruence.
    - apply NoDup_singleton. }
  destruct o as [e|e|p]; cbn.
  - unfold add_mount_entry. destruct (point_taken _ t) eqn:E; cbn; auto.
  - unfold mount. destruct (_ <=? _); [done|]. destruct (point_taken _ t) eqn:E; [done|].
    destruct (device_busy _ _); [done|]. cbn. unfold points.
    rewrite (proj1 (sort_mounts_spec (t ++ [e]))). by apply Hadd.
  - eapply sublist_NoDup; [exact Hn|]. unfold points. apply fmap_sublist, umount_sublist.
Qed.

Lemma sublist_longest t1 t2 : t1 `sublist_of` t2 -> longest_first t2 -> longest_first t1.
Proof.
  induction 1 as [|x t1 t2 Hs IH|x t1 t2 Hs IH]; intros Ht; [done| |].
  - apply StronglySorted_inv in Ht as [Ht Hx]. constructor; [by apply IH|].
    apply list.Forall_forall. intros y Hy. rewrite list.Forall_forall in Hx. apply Hx.
    by eapply elem_of_submseteq, sublist_submseteq.
  - apply StronglySorted_inv in Ht as [Ht _]. by apply IH.
Qed.

Lemma step_checked t o : checked o -> longest_first t -> zlen t <= MNT_TABLE_MAX_ENTRIES ->
  longest_first (mount_step t o) /\ zlen (mount_step t o) <= MNT_TABLE_MAX_ENTRIES.
Proof.
  intros Hc Hs Hl. destruct o as [e|e|p]; [done| |]; cbn.
  - unfold mount. destruct (Z.leb_spec MNT_TABLE_MAX_ENTRIES (zlen t)); [done|].
    destruct (point_taken _ _); [done|]. destruct (device_busy _ _); [done|]. cbn.
    destruct (sort_mounts_spec (t ++ [e])) as [Hp Ho]. split; [done|]. unfold zlen in *.
    rewrite Hp, length_app. cbn. lia.
  - pose proof (umount_sublist t p) as Hsub. split; [by eapply sublist_longest|].
    apply sublist_length in Hsub. unfold zlen in *. lia.
Qed.

Lemma find_point t e : NoDup (points t) -> e ∈ t -> get_mount_info_by_dir t (mount_point e) = Some e.
Proof.
  unfold get_mount_info_by_dir, points. induction t as [|x t IH]; [set_solver|].
  rewrite fmap_cons. intros [Hx Hn]%list.NoDup_cons [->|Hin]%elem_of_cons; cbn.
  - by destruct (bytes_eqb_spec (mount_point x) (mount_point x)).
  - destruct (bytes_eqb_spec (mount_point x) (mount_point e)) as [E|]; [|by apply IH].
    rewrite E in Hx. destruct Hx. by apply list_elem_of_fmap_2.
Qed.

(** C35: After any sequence of mounts and unmounts no two entries have the same
    mount point and [get_mount_info_by_dir] finds exactly the entry of a mount
    point; when all mounts go through [MountTable::mount] the entries are
    ordered by the length of the mount point, longest first, and there are at
    most [MNT_TABLE_MAX_ENTRIES]. *)
Theorem mount_table_invariant ops :
  let t := fold_left mount_step ops MountTable_new in
  NoDup (points t) /\
  (forall e, e ∈ t -> get_mount_info_by_dir t (mount_point e) = Some e) /\
  (forall p, p ∉ points t -> get_mount_info_by_dir t p = None) /\
  (Forall checked ops -> longest_first t /\ zlen t <= MNT_TABLE_MAX_ENTRIES).
Proof.
  intros t.
  assert (forall ops t0, NoDup (points t0) -> NoDup (points (fold_left mount_step ops t0))) as Hn.
  { clear. induction ops as [|o ops IH]; intros t0 H; [done|]. cbn. by apply IH, step_points. }
  assert (forall ops t0, Forall checked ops -> longest_first t0 -> zlen t0 <= MNT_TABLE_MAX_ENTRIES ->
    longest_first (fold_left mount_step ops t0) /\
    zlen (fold_left mount_step ops t0) <= MNT_TABLE_MAX_ENTRIES) as Hs.
  { clear. induction ops as [|o ops IH]; intros t0 Hc H1 H2; [done|]. cbn.
    apply Forall_cons_1 in Hc as [Ho Hc]. destruct (step_checked t0 o Ho H1 H2). by apply IH. }
  assert (Ht : NoDup (points t)) by (apply Hn; constructor).
  split; [done|]. split; [intros e; by apply find_point|]. split.
  - intros p Hp. unfold get_mount_info_by_dir. destruct (List.find _ t) as [e|] eqn:E; [|done].
    apply List.find_some in E as [Hin He]. destruct (bytes_eqb_spec (mount_point e) p) as [<-|]; [|done].
    destruct Hp. by apply list_elem_of_fmap_2, list_elem_of_In.
  - intros Hc. apply Hs; [done|constructor|vm_compute; discriminate].
Qed.

(** The path the kernel takes has neither limit nor order: 17 mounts succeed,
    and a short mount point stays before a longer one. *)
Example vfs_mount_unlimited :
  zlen (fold_left mount_step (map (fun n => OpVfsMount (mkMount [] [n] 0 0)) (zrange 0 17)) []) = 17 /\
  points (fold_left mount_step
    [OpVfsMount (mkMount [] [47] 0 0); OpVfsMount (mkMount [] [47; 97] 0 0)] []) = [[47]; [47; 97]].
Proof. split; vm_compute; reflexivity. Qed.
