(* ===== verification/Robust.v ===== *)
(** * The end of a thread (os/src/task/mod.rs, os/src/task/task.rs)

    When a thread exits it clears the word at its [child_tid] address and
    wakes the thread that joins it, and it walks the list of robust mutexes
    that user space keeps, marking those the thread still owns.  The walk of
    [exit_robust_list_cleanup] has a loop with a limit around it that is left
    after one round, and no limit of its own. *)

From S2P Require Import Prelude Config Memory Errno Pte UserMem UserBuf.
From S2P Require Import BTree Timer Sched Exec ExecInv Sleep.
From S2P Require Import Futex.

Definition FUTEX_TID_MASK : Z := 0x3fffffff.
Definition FUTEX_OWNER_DIED : Z := 0x40000000.
Definition FUTEX_WAITERS : Z := 0x80000000.

(** [wake_matching_waiters(1, u32::MAX)] on the queue of a key, which is
    removed when it is empty. *)
Definition wake_one_at (key : FutexKey) : ST fsys unit :=
  l ← st_gets futexes;
  match bt_get key l with
  | Some wait_queue =>
      '(_, q) ← on_fex (wake_matching_waiters wait_queue 1 U32_MAX);
      if queue_empty q then set_futexes (bt_remove key l) else set_futexes (bt_insert key q l)
  | None => mret tt
  end.

(** [clear_child_tid] of a thread with the given field and token. *)
Definition clear_child_tid (child_tid : option Z) (token : Z) : ST fsys (result unit SysErrNo) :=
  match child_tid with
  | None => mret (Ok tt)
  | Some ctid =>
      if ctid =? 0 then mret (Ok tt)
      else
        m ← st_gets f_mem;
        r ← st_lift (translated_refmut token m ctid);
        match r with
        | Err e => mret (Err e)
        | Ok pa =>
            _ ← set_fmem (pa_write_u32 m pa 0);
            _ ← wake_one_at (token, ctid);
            mret (Ok tt)
        end
  end.

(** [if let Ok(v) = get_target_ref(token, ptr)] for [n] bytes. *)
Definition try_read (token ptr n : Z) : ST fsys (option (list Z)) :=
  m ← st_gets f_mem;
  r ← st_lift (get_target_ref token m ptr n);
  mret (match r with Ok (Some pa) => Some (pa_read_bytes m pa n) | _ => None end).

Definition on_fmem {A} (m : ST pmem A) : ST fsys A :=
  fun s => match m (f_mem s) with
           | Ret (a, e) => Ret (a, mkFsys (f_sys s) e (futexes s))
           | Panic => Panic
           end.

(** A lock the thread may own: [new_val] is what its word becomes. *)
Definition release_lock (token tid addr : Z) (new_val : Z -> Z) : ST fsys unit :=
  o ← try_read token addr 4;
  match o with
  | None => mret tt
  | Some bs =>
      let futex_val := le_value bs in
      if Z.land futex_val FUTEX_TID_MASK =? tid mod 2 ^ 32 then
        r ← on_fmem (put_data token addr (le_bytes 4 (new_val futex_val)));
        match r with
        | Ok _ =>
            if negb (Z.land futex_val FUTEX_WAITERS =? 0) then wake_one_at (token, addr) else mret tt
        | Err _ => mret tt
        end
      else mret tt
  end.

Definition pending_val (v : Z) : Z := Z.lor (Z.land v FUTEX_WAITERS) FUTEX_OWNER_DIED.
Definition listed_val (v : Z) : Z :=
  Z.lor (Z.land v (Z.ldiff (Z.ones 32) FUTEX_TID_MASK)) FUTEX_OWNER_DIED.

(** The walk from [node]; [false] when the fuel runs out. *)
Fixpoint robust_nodes (fuel : nat) (token tid head_ptr futex_offset node : Z) : ST fsys bool :=
  match fuel with
  | O => mret false
  | S fuel' =>
      if node =? head_ptr then mret true
      else if node =? 0 then mret true
      else
        o ← try_read token node 8;
        match o with
        | None => mret true
        | Some bs =>
            _ ← release_lock token tid (wrap64 (node + futex_offset)) listed_val;
            robust_nodes fuel' token tid head_ptr futex_offset (le_value bs)
        end
  end.

Definition exit_robust_list_cleanup (fuel : nat) (token tid head_ptr : Z) : ST fsys bool :=
  if head_ptr =? 0 then mret true
  else
    o ← try_read token head_ptr 24;
    match o with
    | None => mret true
    | Some bs =>
        let next := le_value (take 8 bs) in
        let futex_offset := le_value (take 8 (drop 8 bs)) in
        let list_op_pending := le_value (drop 16 bs) in
        _ ← (if negb (list_op_pending =? 0) then release_lock token tid list_op_pending pending_val
             else mret tt);
        robust_nodes fuel token tid head_ptr futex_offset next
    end.

(** ** Words *)

Lemma le_bytes_range n v : Forall (fun b => 0 <= b < 256) (le_bytes n v).
Proof.
  revert v. induction n as [|n IH]; intros v; constructor; [apply Z.mod_pos_bound; lia|apply IH].
Qed.

Lemma pa_read_write_u32 m pa v : 0 <= pa -> 0 <= v < 2 ^ 32 ->
  pa_read_u32 (pa_write_u32 m pa v) pa = v.
Proof.
  intros Hp Hv. unfold pa_read_u32, pa_write_u32, pa_read_bytes. cbn [le_bytes pa_write_bytes].
  rewrite (zrange_cons pa), (zrange_cons (pa + 1)), (zrange_cons (pa + 1 + 1)),
    (zrange_cons (pa + 1 + 1 + 1)), zrange_nil by lia.
  cbn [fmap list_fmap].
  assert (Hb : forall x, 0 <= x mod 256 < 256) by (intros; apply Z.mod_pos_bound; lia).
  rewrite !pa_read_write by (lia || apply Hb).
  repeat match goal with |- context [decide (?a = ?b)] =>
    first [rewrite (decide_True (P := a = b)) by lia | rewrite (decide_False (P := a = b)) by lia] end.
  unfold le_value. cbn [foldr]. clear Hb Hp. lia.
Qed.

(** ** Joining a thread *)

Lemma wake_loop_done q num mask c kept s : num <= c ->
  wake_loop q num mask c kept s = Ret ((c, kept ++ q), s).
Proof.
  revert kept. induction q as [|n q IH]; intros kept Hc; cbn [wake_loop]; [by rewrite app_nil_r|].
  destruct (Z.ltb_spec c num); [lia|]. cbn [andb]. rewrite IH by done. by rewrite <- app_assoc.
Qed.

Lemma wake_first n q mask s : mask_matches mask n = true ->
  wake_matching_waiters (n :: q) 1 mask s =
  match wakeup_task (fw_waker n) s with Ret (_, s') => Ret ((1, q), s') | Panic => Panic end.
Proof.
  intros Hm. unfold wake_matching_waiters. cbn [wake_loop]. rewrite Hm. cbn [Z.ltb Z.compare andb].
  unfold mbind, ST_bind. destruct (wakeup_task (fw_waker n) s) as [[[] s']|]; [|done].
  unfold st_lift. rewrite uadd_Ret by (vm_compute; reflexivity). by rewrite wake_loop_done.
Qed.

(** A thread that exits wakes the one that joins it: with a waiter first
    in the queue of its [child_tid] word, [clear_child_tid] leaves 0 in the
    word, makes that waiter runnable and queues it, and takes exactly its node
    out of exactly that queue. *)
Theorem exit_wakes_joiner s token ctid pa n q t :
  ctid <> 0 -> translated_refmut token (f_mem s) ctid = Ret (Ok pa) -> 0 <= pa ->
  bt_sorted (futexes s) -> queue_of (token, ctid) (futexes s) = n :: q ->
  mask_matches U32_MAX n = true ->
  heap (rq (ex (f_sys s))) !! fw_waker n = Some t -> state (inner t) = Blocked ->
  exists s', clear_child_tid (Some ctid) token s = Ret (Ok tt, s') /\
    pa_read_u32 (f_mem s') pa = 0 /\
    view (ex (f_sys s')) (fw_waker n) = Some Runnable /\ fw_waker n ∈ refs (ex (f_sys s')) /\
    forall key, queue_of key (futexes s') =
      if bool_decide (key = (token, ctid)) then q else queue_of key (futexes s).
Proof.
  intros Hc Ht Hp Hs Hg Hm Hh Hb.
  destruct (wakeup_blocked_eq (ex (f_sys s)) (fw_waker n) t Hh Hb) as (e & Hw & Hv & Hr & _).
  exists (mkFsys (mkSys e (tid2tc (f_sys s)) (sleepers (f_sys s))) (pa_write_u32 (f_mem s) pa 0)
            (if queue_empty q then bt_remove (token, ctid) (futexes s)
             else bt_insert (token, ctid) q (futexes s))).
  split; [|split; [by apply pa_read_write_u32|split; [done|split; [done|]]]].
  - unfold clear_child_tid. destruct (Z.eqb_spec ctid 0); [done|].
    unfold mbind, ST_bind, st_gets, st_lift. rewrite Ht. unfold set_fmem, st_modify.
    unfold wake_one_at, mbind, ST_bind, st_gets. cbn [futexes].
    destruct (bt_get (K := FutexKey) (token, ctid) (futexes s)) as [wq|] eqn:E;
      unfold queue_of in Hg; rewrite E in Hg; [subst wq|done].
    unfold on_fex, on_fsys, on_ex. cbn [f_sys]. rewrite wake_first by done. rewrite Hw.
    cbn [f_mem f_sys futexes ex tid2tc sleepers]. by destruct (queue_empty q).
  - intros key. by apply queue_of_put.
Qed.

(** Task 1 waits for the word at address 8 to become 0. *)
Lemma exit_wakes_joiner_witness :
  let n := mkFNode 65 1 1 U32_MAX in
  let s := mkFsys (mkSys (after (run_task2 Pending) ex_blocking) [(1, 1)] []) futex_mem [((1, 8), [n])] in
  exists s', clear_child_tid (Some 8) 1 s = Ret (Ok tt, s') /\
    pa_read_u32 (f_mem s') 0x4008 = 0 /\ view (ex (f_sys s')) 1 = Some Runnable.
Proof.
  intros n s.
  destruct (exit_wakes_joiner s 1 8 0x4008 n [] (set_inner (tcb_set_state Blocked (inner task1)) task1))
    as (s' & H1 & H2 & H3 & _);
    [discriminate|vm_compute; reflexivity|lia|apply sorted_cons; split; [constructor|apply SSorted_nil]
    |reflexivity|reflexivity|vm_compute; reflexivity|reflexivity|].
  exists s'. split; [exact H1|]. split; [exact H2|exact H3].
Defined.

(** ** The walk of the robust list *)

Lemma release_unreadable token tid addr f s : try_read token addr 4 s = Ret (None, s) ->
  release_lock token tid addr f s = Ret (tt, s).
Proof. intros H. unfold release_lock, mbind, ST_bind. by rewrite H. Qed.

Lemma robust_nodes_cycle (P : Z -> Prop) token tid head_ptr off s :
  (forall x, P x -> x <> head_ptr /\ x <> 0 /\
     try_read token (wrap64 (x + off)) 4 s = Ret (None, s) /\
     exists b, try_read token x 8 s = Ret (Some b, s) /\ P (le_value b)) ->
  forall fuel x, P x -> robust_nodes fuel token tid head_ptr off x s = Ret (false, s).
Proof.
  intros Hc. induction fuel as [|fuel IH]; intros x HP; [done|]. cbn [robust_nodes].
  destruct (Hc x HP) as (H1 & H2 & H3 & b & H4 & H5).
  destruct (Z.eqb_spec x head_ptr), (Z.eqb_spec x 0); try done.
  unfold mbind, ST_bind. rewrite H4, release_unreadable by done. by apply IH.
Qed.

(** The 24 bytes of a list head. *)
Definition words3 (next off pending : Z) : list Z := le_bytes 8 next ++ le_bytes 8 off ++ le_bytes 8 pending.

(** The kernel walks a robust list for as long as user space makes it:
    when the nodes after the head form a closed set that does not lead back to
    the head (with locks at addresses without a table, for instance), the
    walk runs out of any amount of fuel, although a constant limits the
    number of nodes. *)
Theorem robust_cycle_never_ends token tid head_ptr off (P : Z -> Prop) s bs next :
  head_ptr <> 0 -> try_read token head_ptr 24 s = Ret (Some bs, s) ->
  le_value (take 8 bs) = next -> le_value (take 8 (drop 8 bs)) = off ->
  le_value (drop 16 bs) = 0 -> P next ->
  (forall x, P x -> x <> head_ptr /\ x <> 0 /\
     try_read token (wrap64 (x + off)) 4 s = Ret (None, s) /\
     exists b, try_read token x 8 s = Ret (Some b, s) /\ P (le_value b)) ->
  forall fuel, exit_robust_list_cleanup fuel token tid head_ptr s = Ret (false, s).
Proof.
  intros Hh Hread <- <- Hpend HP Hclosed fuel. unfold exit_robust_list_cleanup.
  destruct (Z.eqb_spec head_ptr 0); [done|]. unfold mbind at 1, ST_bind at 1. rewrite Hread.
  rewrite Hpend. cbn [Z.eqb negb]. unfold mbind, ST_bind, mret, ST_ret.
  by apply (robust_nodes_cycle P).
Qed.

Lemma robust_cycle_never_ends_witness :
  let m := write_word (write_word (write_word futex_mem 4 32 0x200) 4 33 0x40000000) 4 64 0x200 in
  let s := mkFsys (f_sys futex_ex) m [] in
  exit_robust_list_cleanup 1000 1 1 0x100 s = Ret (false, s).
Proof.
  intros m s.
  apply (robust_cycle_never_ends 1 1 0x100 0x40000000 (fun x => x = 0x200) s
           (words3 0x200 0x40000000 0) 0x200);
    [discriminate|vm_compute; reflexivity|reflexivity|reflexivity|reflexivity|reflexivity|].
  intros x ->. split; [discriminate|]. split; [discriminate|]. split; [vm_compute; reflexivity|].
  exists (le_bytes 8 0x200). split; vm_compute; reflexivity.
Defined.
