(* ===== verification/UserStack.v ===== *)
(** * The stack of a new program (os/src/task/task.rs)

    What [ProcessControlBlock::new] and [exec] put on the stack of the
    program they start: the strings of the environment and the arguments, the
    auxiliary vector, the two arrays of pointers and the argument count.  The
    specification is a reader, written like the start-up code of a C library:
    it walks from the stack pointer and collects arguments, environment and
    auxiliary vector.  Reading back what the kernel wrote gives what it was
    asked to write. *)

From S2P Require Import Prelude Config Address BitField Memory FrameAlloc.
From S2P Require Import FrameSpec Pte PageTable BTree Errno Area.
From S2P Require Import AreaMap UserMem UserCopy Futex Signals Auxv.
From S2P Require Import Robust.

(** ** Writing the stack *)

(** [*translated_refmut(token, va)? = v]; [bs] are the bytes of [v]. *)
Definition write_user (token va : Z) (bs : list Z) : ST pmem (result unit SysErrNo) :=
  m ← st_get;
  r ← st_lift (translated_refmut token m va);
  match r with
  | Err e => mret (Err e)
  | Ok pa => _ ← st_put (pa_write_bytes m pa bs); mret (Ok tt)
  end.

(** The loop over the bytes of a string, from byte [j] on. *)
Fixpoint write_each (token user_sp j : Z) (bs : list Z) : ST pmem (result unit SysErrNo) :=
  match bs with
  | [] => mret (Ok tt)
  | c :: bs' =>
      va ← st_lift (uadd user_sp j);
      _ <-? write_user token va [c];
      write_each token user_sp (j + 1) bs'
  end.

(** One environment string or argument; the result is its address. *)
Definition push_str (token user_sp : Z) (s : list Z) : ST pmem (result Z SysErrNo) :=
  user_sp ← st_lift (usub user_sp (zlen s + 1));
  _ <-? write_each token user_sp 0 s;
  va ← st_lift (uadd user_sp (zlen s));
  _ <-? write_user token va [0];
  mret (Ok user_sp).

(** The loop over the strings: the stack pointer and the addresses. *)
Fixpoint push_strs (token user_sp : Z) (l : list (list Z))
    : ST pmem (result (Z * list Z) SysErrNo) :=
  match l with
  | [] => mret (Ok (user_sp, []))
  | s :: l' =>
      user_sp <-? push_str token user_sp s;
      '(sp', ptrs) <-? push_strs token user_sp l';
      mret (Ok (sp', user_sp :: ptrs))
  end.

(** [user_sp -= user_sp % n] *)
Definition align_down (user_sp n : Z) : Z := user_sp - user_sp mod n.

(** The loop over the auxiliary vector; [l] is the reversed vector. *)
Fixpoint push_auxv (token user_sp : Z) (l : list Aux) : ST pmem (result Z SysErrNo) :=
  match l with
  | [] => mret (Ok user_sp)
  | aux :: l' =>
      user_sp ← st_lift (usub user_sp AUX_SIZE);
      _ <-? write_user token user_sp (le_bytes 8 (aux_usize (aux_type aux)));
      va ← st_lift (uadd user_sp 8);
      _ <-? write_user token va (le_bytes 8 (aux_value aux));
      push_auxv token user_sp l'
  end.

(** The loop over an array of pointers, from entry [i] on.  [new] ignores an
    error of [put_data], [exec] returns it. *)
Fixpoint put_ptrs (ignore : bool) (token user_sp i : Z) (ptrs : list Z)
    : ST pmem (result unit SysErrNo) :=
  match ptrs with
  | [] => mret (Ok tt)
  | p :: ptrs' =>
      va ← st_lift (uadd user_sp (i * 8));
      r ← put_data token va (le_bytes 8 p);
      match r with
      | Err e => if ignore then put_ptrs ignore token user_sp (i + 1) ptrs'
                 else mret (Err (errno_of_PutDataError e))
      | Ok _ => put_ptrs ignore token user_sp (i + 1) ptrs'
      end
  end.

(** [argc], [argv] and [envp] on top of the auxiliary vector: the stack
    pointer and the addresses of the two arrays. *)
Definition push_arrays (ignore : bool) (token user_sp argc : Z) (argvp envp : list Z)
    : ST pmem (result (Z * Z * Z) SysErrNo) :=
  envp_base ← st_lift (usub user_sp (zlen envp * 8));
  _ <-? put_ptrs ignore token envp_base 0 envp;
  argv_base ← st_lift (usub envp_base (zlen argvp * 8));
  _ <-? put_ptrs ignore token argv_base 0 argvp;
  user_sp ← st_lift (usub argv_base 8);
  _ <-? write_user token user_sp (le_bytes 8 argc);
  mret (Ok (align_down user_sp 8, argv_base, envp_base)).

(** The strings and the random bytes: the stack pointer, [argvp], [envp] and
    the address of the random bytes. *)
Definition push_data (token user_stack_top : Z) (argv env : list (list Z))
    : ST pmem (result (Z * list Z * list Z * Z) SysErrNo) :=
  '(user_sp, envp) <-? push_strs token user_stack_top env;
  let envp := envp ++ [0] in
  let user_sp := align_down user_sp 8 in
  '(user_sp, argvp) <-? push_strs token user_sp argv;
  let user_sp := align_down user_sp 8 in
  let argvp := argvp ++ [0] in
  user_sp ← st_lift (usub user_sp 16);
  _ <-? write_each token user_sp 0 (zrange 0 0xf);
  mret (Ok (align_down user_sp 16, argvp, envp, user_sp)).

(** The part of [new] and [exec] that fills the stack. *)
Definition init_stack (ignore : bool) (token user_stack_top : Z) (argv env : list (list Z))
    (auxv : list Aux) : ST pmem (result (Z * Z * Z) SysErrNo) :=
  '(user_sp, argvp, envp, random) <-? push_data token user_stack_top argv env;
  argv0 ← st_lift (index argvp 0);
  let auxv := auxv ++ [mkAux AUX_RANDOM random; mkAux AUX_EXECFN argv0; mkAux AUX_NULL 0] in
  user_sp <-? push_auxv token user_sp (rev auxv);
  push_arrays ignore token user_sp (zlen argv) argvp envp.

(** ** Reading it back *)

(** The start-up code sees memory as a function of the address. *)
Section reader.
Variable rd : Z -> Z.

Definition rd_bytes (a : Z) (n : nat) : list Z := (fun i => rd (a + Z.of_nat i)) <$> seq 0 n.
Definition rd_word (a : Z) : Z := le_value (rd_bytes a 8).

(** A string up to its terminator, of fewer than [n] bytes. *)
Fixpoint rd_str (n : nat) (a : Z) : option (list Z) :=
  match n with
  | O => None
  | S n' => if rd a =? 0 then Some [] else cons (rd a) <$> rd_str n' (a + 1)
  end.

(** The words up to the first 0, and the address behind it. *)
Fixpoint rd_words (n : nat) (a : Z) : option (list Z * Z) :=
  match n with
  | O => None
  | S n' =>
      if rd_word a =? 0 then Some ([], a + 8)
      else '(l, e) ← rd_words n' (a + 8); Some (rd_word a :: l, e)
  end.

(** The pairs of the auxiliary vector up to [AT_NULL]. *)
Fixpoint rd_auxv (n : nat) (a : Z) : option (list Aux) :=
  match n with
  | O => None
  | S n' =>
      t ← aux_of_usize (rd_word a);
      if bool_decide (t = AUX_NULL) then Some []
      else cons (mkAux t (rd_word (a + 8))) <$> rd_auxv n' (a + 16)
  end.

Record start_image : Type := mkImage {
  im_argc : Z;
  im_argv : list (list Z);
  im_env : list (list Z);
  im_auxv : list Aux
}.

(** What [_start] finds at the stack pointer; [n] bounds every loop. *)
Definition rd_start (n : nat) (sp : Z) : option start_image :=
  '(av, e) ← rd_words n (sp + 8);
  '(ev, x) ← rd_words n e;
  argv ← mapM (rd_str n) av;
  env ← mapM (rd_str n) ev;
  auxv ← rd_auxv n x;
  Some (mkImage (rd_word sp) argv env auxv).

(** The bytes [bs] are at [a]. *)
Definition has (a : Z) (bs : list Z) : Prop :=
  forall i b, bs !! i = Some b -> rd (a + Z.of_nat i) = b.

Lemma has_app a bs1 bs2 : has a (bs1 ++ bs2) <-> has a bs1 /\ has (a + zlen bs1) bs2.
Proof.
  unfold has. split.
  - intros H. split; intros i b Hi.
    + apply H. by apply lookup_app_l_Some.
    + rewrite <- (H (length bs1 + i)%nat b); [f_equal; unfold zlen; lia|].
      rewrite lookup_app_r by lia. rewrite <- Hi. f_equal. lia.
  - intros [H1 H2] i b Hi. apply lookup_app_Some in Hi as [Hi|[Hl Hi]]; [by apply H1|].
    rewrite <- (H2 _ _ Hi). f_equal. unfold zlen. lia.
Qed.

Lemma rd_bytes_has a bs : has a bs -> rd_bytes a (length bs) = bs.
Proof.
  intros H. unfold rd_bytes. apply list_eq. intros i. rewrite list_lookup_fmap.
  destruct (bs !! i) as [b|] eqn:E.
  - rewrite lookup_seq_lt by (by eapply lookup_lt_Some). cbn. by rewrite (H i b E).
  - apply lookup_ge_None in E. by rewrite lookup_seq_ge.
Qed.

Lemma rd_word_has a v : 0 <= v < 2 ^ 64 -> has a (le_bytes 8 v) -> rd_word a = v.
Proof.
  intros Hv H. apply rd_bytes_has in H. unfold rd_word. cbn [le_bytes length] in H. rewrite H.
  unfold le_value. cbn [foldr]. clear H. lia.
Qed.

Lemma rd_str_has s : forall n a, Forall (fun b => 0 < b < 256) s -> (length s < n)%nat ->
  has a (s ++ [0]) -> rd_str n a = Some s.
Proof.
  induction s as [|b s IH]; intros n a Hs Hn H; (destruct n as [|n]; cbn [length] in Hn; [lia|]).
  - cbn [rd_str]. pose proof (H 0%nat 0 eq_refl) as E. rewrite Z.add_0_r in E. by rewrite E.
  - apply Forall_cons_1 in Hs as [Hb Hs]. cbn [rd_str].
    pose proof (H 0%nat b eq_refl) as E. rewrite Z.add_0_r in E. rewrite E.
    destruct (Z.eqb_spec b 0); [lia|]. rewrite (IH n (a + 1)); [done|done|lia|].
    intros i c Hi. rewrite <- (H (S i) c Hi). f_equal. lia.
Qed.

Lemma rd_words_has l : forall n a, Forall (fun v => 0 < v < 2 ^ 64) l -> (length l < n)%nat ->
  has a (words (l ++ [0])) -> rd_words n a = Some (l, a + 8 * zlen l + 8).
Proof.
  induction l as [|v l IH]; intros n a Hl Hn H; (destruct n as [|n]; cbn [length] in Hn; [lia|]);
    cbn [rd_words].
  - rewrite (rd_word_has a 0); [|lia|done]. cbn [Z.eqb]. f_equal. f_equal. unfold zlen. cbn [length]. lia.
  - apply Forall_cons_1 in Hl as [Hv Hl]. change ((v :: l) ++ [0]) with (v :: (l ++ [0])) in H.
    unfold words in H. rewrite bind_cons in H. apply has_app in H as [H1 H2].
    rewrite (rd_word_has a v) by (done || lia). destruct (Z.eqb_spec v 0); [lia|].
    rewrite (IH n (a + 8)); [|done|lia|done]. cbn. rewrite zlen_cons. do 2 f_equal. lia.
Qed.

Definition aux_bytes (a : Aux) : list Z :=
  le_bytes 8 (aux_usize (aux_type a)) ++ le_bytes 8 (aux_value a).

Lemma rd_auxv_has l : forall n a,
  Forall (fun x => aux_type x <> AUX_NULL /\ 0 <= aux_value x < 2 ^ 64) l -> (length l < n)%nat ->
  has a ((l ++ [mkAux AUX_NULL 0]) ≫= aux_bytes) -> rd_auxv n a = Some l.
Proof.
  induction l as [|x l IH]; intros n a Hl Hn H; (destruct n as [|n]; cbn [length] in Hn; [lia|]);
    cbn [rd_auxv].
  - cbn [app] in H. rewrite bind_cons in H. apply has_app in H as [H _].
    apply has_app in H as [H _]. by rewrite (rd_word_has a 0); [|lia|].
  - apply Forall_cons_1 in Hl as [[Hx Hv] Hl].
    change ((x :: l) ++ [mkAux AUX_NULL 0]) with (x :: (l ++ [mkAux AUX_NULL 0])) in H.
    rewrite bind_cons in H. apply has_app in H as [H1 H2].
    apply has_app in H1 as [H1 H3]. pose proof (aux_usize_range (aux_type x)).
    rewrite (rd_word_has a (aux_usize (aux_type x))) by (done || lia).
    rewrite aux_of_usize_eq. cbn [mbind option_bind]. rewrite bool_decide_eq_false_2 by done.
    rewrite (rd_word_has (a + 8) (aux_value x)) by done.
    rewrite (IH n (a + 16)); [by destruct x|done|lia|done].
Qed.

End reader.

(** ** Steps of the stack *)

Section user_stack.
Variables (w : world) (root lo top : Z) (fr : Z -> Z).
Hypothesis Hpt : pt_wf w root.
Hypothesis Hur : user_range w root lo top fr.
Hypothesis Hlo : 0 < lo.

Notation tabs := (same_tables w root).
Notation ub := (ubyte fr).
Notation wrote' := (wrote root lo top fr).

Definition byte_list (bs : list Z) : Prop := Forall (fun b => 0 <= b < 256) bs.

Lemma zlen_nul (s : list Z) : zlen (s ++ [0]) = zlen s + 1.
Proof. by rewrite zlen_app. Qed.

Notation holds m := (has (ub m)).

(** The stack pointer went from [sp] to [sp'] and only the bytes in between
    may have changed. *)
Record pushed (m : pmem) (sp : Z) (m' : pmem) (sp' : Z) : Prop := {
  pu_le : sp' <= sp;
  pu_tabs : tabs m';
  pu_out : forall x, lo <= x < top -> x < sp' \/ sp <= x -> ub m' x = ub m x;
  pu_frames : forall g i, (forall v, in_range lo top v -> g <> fr v) ->
    read_word m' g i = read_word m g i
}.

Lemma pushed_refl m sp sp' : tabs m -> sp' <= sp -> pushed m sp m sp'.
Proof. by split. Qed.

Lemma pushed_trans m sp m1 sp1 m2 sp2 :
  pushed m sp m1 sp1 -> pushed m1 sp1 m2 sp2 -> pushed m sp m2 sp2.
Proof.
  intros [L1 T1 O1 F1] [L2 T2 O2 F2]. split; [lia|done| |].
  - intros x Hx Hs. rewrite O2, O1; [done|done|lia|done|lia].
  - intros g i Hg. rewrite F2, F1; done.
Qed.

Lemma pushed_down m sp m' sp1 sp2 : pushed m sp m' sp1 -> sp2 <= sp1 -> pushed m sp m' sp2.
Proof. intros P H. apply (pushed_trans _ _ _ _ _ _ P). apply pushed_refl; [apply P|done]. Qed.

(** What lies above the stack pointer stays. *)
Lemma holds_pushed m sp m' sp' a bs : pushed m sp m' sp' -> lo <= a -> sp <= a ->
  a + zlen bs <= top -> holds m a bs -> holds m' a bs.
Proof.
  intros P Hl Ha Ht H i b Hi. pose proof (lookup_lt_Some _ _ _ Hi).
  rewrite (pu_out _ _ _ _ P) by (unfold zlen in *; lia). by apply H.
Qed.

Lemma wrote_holds m a bs m' : lo <= a -> a + zlen bs <= top -> wrote' m a bs m' -> holds m' a bs.
Proof.
  intros Ha Ht W i b Hi. pose proof (lookup_lt_Some _ _ _ Hi). unfold zlen in Ht.
  rewrite (wr_bytes _ _ _ _ _ _ _ _ W) by (apply range_page; lia).
  rewrite decide_True by (unfold zlen; lia).
  apply nth_lookup_Some. rewrite <- Hi. f_equal. lia.
Qed.

Lemma wrote_pushed m a bs m' sp : tabs m -> a + zlen bs <= sp -> wrote' m a bs m' ->
  pushed m sp m' a.
Proof.
  intros T Hs W. pose proof (zlen_nonneg bs). split; [lia| | |apply W].
  - by apply (wrote_tables w root lo top fr m a bs).
  - intros x Hx Hn. rewrite (wr_bytes _ _ _ _ _ _ _ _ W) by (apply range_page; lia).
    rewrite decide_False by lia. done.
Qed.

(** ** The operations *)

Lemma write_user_spec m x bs : tabs m -> lo <= x < top ->
  x mod PAGE_SIZE + zlen bs <= PAGE_SIZE -> byte_list bs ->
  exists m', write_user root x bs m = Ret (Ok tt, m') /\ wrote' m x bs m'.
Proof.
  intros T Hx Hp Hb. unfold write_user, translated_refmut. st_unfold.
  rewrite (token_root w root Hpt).
  destruct (translate_range w root lo top fr Hpt Hur m x T Hx) as (-> & _ & E).
  cbn [mbind outcome_bind]. rewrite E. cbn. eexists. split; [done|].
  by apply (wrote_page w root lo top fr Hur).
Qed.

Lemma page_1 x : x mod PAGE_SIZE + 1 <= PAGE_SIZE.
Proof. unfold PAGE_SIZE. lia. Qed.

Lemma page_8 x : x mod 8 = 0 -> x mod PAGE_SIZE + 8 <= PAGE_SIZE.
Proof. unfold PAGE_SIZE. lia. Qed.

Lemma top_small : top <= 2 ^ 39.
Proof. apply Hur. Qed.

Lemma write_each_spec bs : forall m sp j, tabs m -> 0 <= j -> lo <= sp + j ->
  sp + j + zlen bs <= top -> byte_list bs -> 0 <= sp ->
  exists m', write_each root sp j bs m = Ret (Ok tt, m') /\ wrote' m (sp + j) bs m'.
Proof.
  pose proof top_small.
  induction bs as [|c bs IH]; intros m sp j T Hj Hl Ht Hb Hs; cbn [write_each].
  { exists m. split; [done|]. apply wrote_nil. }
  apply Forall_cons_1 in Hb as [Hc Hb]. rewrite zlen_cons in Ht.
  pose proof (zlen_nonneg bs). rewrite uadd_Ret by (unfold u64_bound; lia). st_unfold.
  destruct (write_user_spec m (sp + j) [c]) as (m1 & -> & W1);
    [done|lia|apply page_1|by constructor|].
  destruct (IH m1 sp (j + 1)) as (m2 & -> & W2); try (done || lia).
  { by apply (wrote_tables w root lo top fr m (sp + j) [c]). }
  exists m2. split; [done|]. apply (wrote_trans root lo top fr _ _ _ _ [c] bs W1).
  replace (sp + j + zlen [c]) with (sp + (j + 1)) by (unfold zlen; cbn; lia). done.
Qed.

Lemma push_str_spec m sp s : tabs m -> lo <= sp - (zlen s + 1) -> sp <= top -> byte_list s ->
  exists m', push_str root sp s m = Ret (Ok (sp - (zlen s + 1)), m') /\
    pushed m sp m' (sp - (zlen s + 1)) /\ holds m' (sp - (zlen s + 1)) (s ++ [0]).
Proof.
  intros T Hl Ht Hs. pose proof (zlen_nonneg s). pose proof top_small.
  unfold push_str. rewrite usub_Ret by lia. st_unfold.
  set (a := sp - (zlen s + 1)) in *.
  destruct (write_each_spec s m a 0) as (m1 & -> & W1); try (done || lia).
  rewrite Z.add_0_r in W1. rewrite uadd_Ret by (unfold u64_bound; lia).
  destruct (write_user_spec m1 (a + zlen s) [0]) as (m2 & -> & W2);
    [by apply (wrote_tables w root lo top fr m a s)|lia|apply page_1|by constructor|].
  pose proof (wrote_trans root lo top fr _ _ _ _ s [0] W1 W2) as W.
  exists m2. split; [done|]. rewrite <- (Z.add_0_r a) in W.
  split; [eapply wrote_pushed|eapply wrote_holds]; rewrite ?Z.add_0_r in W; try done;
    rewrite zlen_nul; lia.
Qed.

(** The room that strings take. *)
Definition strs_size (l : list (list Z)) : Z := foldr (fun s n => zlen s + 1 + n) 0 l.

Lemma strs_size_nonneg l : 0 <= strs_size l.
Proof.
  induction l as [|s l IH]; cbn [strs_size foldr]; [done|]. fold (strs_size l).
  pose proof (zlen_nonneg s). lia.
Qed.

(** The string [s] is at [p], inside [a, b). *)
Definition str_at (m : pmem) (a b p : Z) (s : list Z) : Prop :=
  a <= p /\ p + zlen s + 1 <= b /\ holds m p (s ++ [0]).

Lemma str_at_pushed m sp m' sp' b p s : lo <= sp -> b <= top ->
  pushed m sp m' sp' -> str_at m sp b p s -> str_at m' sp' b p s.
Proof.
  intros Hl Hb P (H1 & H2 & H3). pose proof (pu_le _ _ _ _ P). split_and!; [lia|done|].
  eapply holds_pushed; try done; [lia|]. rewrite zlen_nul. lia.
Qed.

Lemma str_at_weak m a a' b b' p s : a' <= a -> b <= b' -> str_at m a b p s -> str_at m a' b' p s.
Proof. unfold str_at. intros ?? (? & ? & ?). split_and!; [lia|lia|done]. Qed.

Lemma push_strs_spec l : forall m sp, tabs m -> lo <= sp - strs_size l -> sp <= top ->
  Forall byte_list l ->
  exists m' ptrs, push_strs root sp l m = Ret (Ok (sp - strs_size l, ptrs), m') /\
    pushed m sp m' (sp - strs_size l) /\
    Forall2 (str_at m' (sp - strs_size l) sp) ptrs l.
Proof.
  induction l as [|s l IH]; intros m sp T Hl Ht Hs; cbn [push_strs strs_size foldr].
  { exists m, []. rewrite Z.sub_0_r. split_and!; [done|by apply pushed_refl|done]. }
  fold (strs_size l) in *. apply Forall_cons_1 in Hs as [Hs Hss].
  pose proof (strs_size_nonneg l). pose proof (zlen_nonneg s).
  cbn [strs_size foldr] in Hl. fold (strs_size l) in Hl. st_unfold.
  destruct (push_str_spec m sp s) as (m1 & -> & P1 & H1); [done|lia|done|done|].
  destruct (IH m1 (sp - (zlen s + 1))) as (m2 & ptrs & -> & P2 & H2);
    [apply P1|lia|lia|done|].
  replace (sp - (zlen s + 1 + strs_size l)) with (sp - (zlen s + 1) - strs_size l) by lia.
  exists m2, (sp - (zlen s + 1) :: ptrs).
  split_and!; [done|by eapply pushed_trans|]. constructor.
  - split_and!; [lia|lia|]. eapply holds_pushed; [done|lia|lia| |done].
    rewrite zlen_nul. lia.
  - eapply Forall2_impl; [|exact H2]. intros p t. apply str_at_weak; lia.
Qed.

(** ** Words *)

Lemma zlen_le_bytes n v : zlen (le_bytes n v) = Z.of_nat n.
Proof.
  unfold zlen. f_equal. revert v. induction n as [|n IH]; intros v; cbn [le_bytes length]; [done|].
  by rewrite IH.
Qed.

Lemma write_word_spec m x v : tabs m -> lo <= x -> x + 8 <= top -> x mod 8 = 0 ->
  exists m', write_user root x (le_bytes 8 v) m = Ret (Ok tt, m') /\ wrote' m x (le_bytes 8 v) m'.
Proof.
  intros T Hl Ht Ha. apply write_user_spec; [done|lia| |apply le_bytes_range].
  rewrite zlen_le_bytes. by apply page_8.
Qed.

Lemma put_word_spec m x v : tabs m -> lo <= x -> x + 8 <= top -> x mod 8 = 0 ->
  exists m', put_data root x (le_bytes 8 v) m = Ret (Ok tt, m') /\ wrote' m x (le_bytes 8 v) m'.
Proof.
  intros T Hl Ht Ha. pose proof top_small. pose proof (page_8 x Ha) as Hp.
  unfold put_data, put_data_at. rewrite zlen_le_bytes, (token_root w root Hpt).
  change (Z.of_nat 8 =? 0) with false. cbv iota. st_unfold.
  destruct (translate_range w root lo top fr Hpt Hur m x T ltac:(lia)) as (-> & _ & E).
  set (q := fr (x / PAGE_SIZE)) in *. set (off := x mod PAGE_SIZE) in *.
  assert (0 < q < 2 ^ 36) as Hq.
  { apply (ur_frame _ _ _ _ _ Hur). apply range_page. lia. }
  assert (0 <= off) by (unfold off, PAGE_SIZE; lia).
  rewrite uadd_Ret by (unfold u64_bound, PAGE_SIZE in *; lia). cbn [Z.of_nat].
  unfold PhysAddr_floor. rewrite (proj2 (Z.eqb_eq _ _)) by (unfold PAGE_SIZE in *; lia).
  rewrite E. eexists. split; [done|].
  apply (wrote_page w root lo top fr Hur); [done|lia| |apply le_bytes_range].
  by rewrite zlen_le_bytes.
Qed.

Lemma zlen_aux_bytes a : zlen (aux_bytes a) = 16.
Proof. unfold aux_bytes. by rewrite zlen_app, !zlen_le_bytes. Qed.

Lemma zlen_auxv l : zlen (l ≫= aux_bytes) = 16 * zlen l.
Proof.
  induction l as [|a l IH]; [done|]. rewrite bind_cons, zlen_app, zlen_aux_bytes, IH, zlen_cons. lia.
Qed.

Lemma push_auxv_spec l : forall m sp, tabs m -> sp mod 16 = 0 -> sp <= top ->
  lo <= sp - 16 * zlen l ->
  exists m', push_auxv root sp l m = Ret (Ok (sp - 16 * zlen l), m') /\
    pushed m sp m' (sp - 16 * zlen l) /\ holds m' (sp - 16 * zlen l) (rev l ≫= aux_bytes).
Proof.
  pose proof top_small.
  induction l as [|a l IH]; intros m sp T Ha Ht Hl; cbn [push_auxv rev].
  { exists m. rewrite Z.sub_0_r. split_and!; [done|by apply pushed_refl|by intros [|]]. }
  rewrite zlen_cons in *. pose proof (zlen_nonneg l). unfold AUX_SIZE.
  rewrite usub_Ret by lia. st_unfold.
  destruct (write_word_spec m (sp - 16) (aux_usize (aux_type a))) as (m1 & -> & W1);
    [done|lia|lia|lia|].
  rewrite uadd_Ret by (unfold u64_bound; lia).
  destruct (write_word_spec m1 (sp - 16 + 8) (aux_value a)) as (m2 & -> & W2);
    [by eapply wrote_tables|lia|lia|lia|].
  assert (wrote' m (sp - 16) (aux_bytes a) m2) as W.
  { apply (wrote_trans root lo top fr _ _ _ _ _ _ W1). by rewrite zlen_le_bytes. }
  assert (pushed m sp m2 (sp - 16)) as P.
  { eapply wrote_pushed; [done| |done]. rewrite zlen_aux_bytes. lia. }
  destruct (IH m2 (sp - 16)) as (m3 & -> & P3 & H3); [apply P|lia|lia|lia|].
  replace (sp - 16 * (1 + zlen l)) with (sp - 16 - 16 * zlen l) by lia.
  exists m3. split_and!; [done|by eapply pushed_trans|].
  rewrite bind_app. apply has_app. split; [done|].
  rewrite zlen_auxv. unfold zlen. rewrite length_rev. fold (zlen l).
  replace (sp - 16 - 16 * zlen l + 16 * zlen l) with (sp - 16) by lia.
  cbn [mbind list_bind]. rewrite app_nil_r.
  eapply holds_pushed; [done|lia|lia|rewrite zlen_aux_bytes; lia|].
  eapply wrote_holds; [lia|rewrite zlen_aux_bytes; lia|done].
Qed.

Lemma zlen_words l : zlen (words l) = 8 * zlen l.
Proof.
  unfold words. induction l as [|a l IH]; [done|].
  rewrite bind_cons, zlen_app, zlen_le_bytes, IH, zlen_cons. lia.
Qed.

Lemma put_ptrs_spec ig ptrs : forall m sp i, tabs m -> sp mod 8 = 0 -> 0 <= i -> lo <= sp ->
  sp + i * 8 + 8 * zlen ptrs <= top ->
  exists m', put_ptrs ig root sp i ptrs m = Ret (Ok tt, m') /\
    wrote' m (sp + i * 8) (words ptrs) m'.
Proof.
  pose proof top_small.
  induction ptrs as [|p l IH]; intros m sp i T Ha Hi Hl Ht; cbn [put_ptrs].
  { exists m. split; [done|]. apply wrote_nil. }
  rewrite zlen_cons in *. pose proof (zlen_nonneg l).
  rewrite uadd_Ret by (unfold u64_bound; lia). st_unfold.
  destruct (put_word_spec m (sp + i * 8) p) as (m1 & -> & W1); [done|lia|lia|lia|].
  destruct (IH m1 sp (i + 1)) as (m2 & -> & W2); [by eapply wrote_tables|done|lia|lia|lia|].
  exists m2. split; [done|]. unfold words. rewrite bind_cons.
  apply (wrote_trans root lo top fr _ _ _ _ _ _ W1). rewrite zlen_le_bytes.
  by replace (sp + i * 8 + Z.of_nat 8) with (sp + (i + 1) * 8) by lia.
Qed.

(** A block of words below the stack pointer. *)
Lemma put_block ig m sp ptrs : tabs m -> sp mod 8 = 0 -> sp <= top -> lo <= sp - 8 * zlen ptrs ->
  exists m', put_ptrs ig root (sp - 8 * zlen ptrs) 0 ptrs m = Ret (Ok tt, m') /\
    pushed m sp m' (sp - 8 * zlen ptrs) /\ holds m' (sp - 8 * zlen ptrs) (words ptrs).
Proof.
  intros T Ha Ht Hl. pose proof (zlen_nonneg ptrs).
  destruct (put_ptrs_spec ig ptrs m (sp - 8 * zlen ptrs) 0) as (m' & E & W);
    [done|lia|lia|lia|lia|].
  rewrite Z.add_0_r in W. exists m'. split; [done|].
  split; [eapply wrote_pushed|eapply wrote_holds]; try done; rewrite ?zlen_words; lia.
Qed.

Lemma push_arrays_spec ig m sp argc argvp envp : tabs m -> sp mod 8 = 0 -> sp <= top ->
  let sp' := sp - 8 * zlen envp - 8 * zlen argvp - 8 in
  lo <= sp' ->
  exists m', push_arrays ig root sp argc argvp envp m =
      Ret (Ok (sp', sp' + 8, sp' + 8 + 8 * zlen argvp), m') /\
    pushed m sp m' sp' /\ holds m' sp' (words (argc :: argvp ++ envp)).
Proof.
  intros T Ha Ht sp' Hl. pose proof (zlen_nonneg envp). pose proof (zlen_nonneg argvp).
  unfold push_arrays. rewrite (Z.mul_comm (zlen envp)), (Z.mul_comm (zlen argvp)).
  rewrite usub_Ret by lia. st_unfold.
  destruct (put_block ig m sp envp) as (m1 & -> & P1 & H1); [done|done|done|lia|].
  rewrite usub_Ret by lia.
  destruct (put_block ig m1 (sp - 8 * zlen envp) argvp) as (m2 & -> & P2 & H2);
    [apply P1|lia|lia|lia|].
  rewrite usub_Ret by lia. fold sp'.
  destruct (write_word_spec m2 sp' argc) as (m3 & -> & W3); [apply P2|lia|lia|lia|].
  assert (pushed m2 (sp' + 8) m3 sp') as P3.
  { eapply wrote_pushed; [apply P2| |done]. rewrite zlen_le_bytes. lia. }
  replace (sp - 8 * zlen envp - 8 * zlen argvp) with (sp' + 8) in * by lia.
  replace (sp - 8 * zlen envp) with (sp' + 8 + 8 * zlen argvp) in * by lia.
  assert (align_down sp' 8 = sp') as -> by (unfold align_down; lia).
  exists m3. split; [done|]. split; [eapply pushed_trans; [|done]; by eapply pushed_trans|].
  unfold words. rewrite bind_cons, bind_app. rewrite !has_app. rewrite zlen_le_bytes.
  fold (words argvp) (words envp). rewrite zlen_words. change (Z.of_nat 8) with 8. split_and!.
  - eapply wrote_holds; [lia|rewrite zlen_le_bytes; lia|done].
  - eapply holds_pushed; [done|lia|lia|rewrite zlen_words; lia|done].
  - eapply holds_pushed; [done|lia|lia|rewrite zlen_words; lia|].
    eapply holds_pushed; [done|lia|lia|rewrite zlen_words; lia|done].
Qed.

(** ** The whole stack *)

(** The room that is enough for the stack. *)
Definition stack_need (argv env : list (list Z)) (auxv : list Aux) : Z :=
  strs_size env + 7 + (strs_size argv + 7) + 31 + 16 * (zlen auxv + 3)
  + 8 * (zlen env + 1) + 8 * (zlen argv + 1) + 8.

(** Memory [m], [m0] before, has the stack of a program at [sp]: the addresses of the
    strings are [argvp] and [envp], that of the random bytes is [rnd]. *)
Record laid_out (m0 m : pmem) (sp : Z) (argv env : list (list Z)) (auxv : list Aux)
    (argvp envp : list Z) (rnd : Z) : Prop := {
  lo_words : holds m sp (words (zlen argv :: (argvp ++ [0]) ++ (envp ++ [0])));
  lo_auxv : holds m (sp + 8 * (3 + zlen argv + zlen env))
    ((auxv ++ [mkAux AUX_RANDOM rnd; mkAux AUX_EXECFN (default 0 (head argvp)); mkAux AUX_NULL 0])
       ≫= aux_bytes);
  lo_argv : Forall2 (str_at m sp top) argvp argv;
  lo_env : Forall2 (str_at m sp top) envp env;
  lo_rnd : sp <= rnd <= top - 16 /\ holds m rnd (zrange 0 15) /\
    ub m (rnd + 15) = ub m0 (rnd + 15);
  lo_align : sp mod 16 = 8 * (1 + zlen argv + zlen env) mod 16;
  lo_size : sp + 8 * (3 + zlen argv + zlen env) + 16 * (zlen auxv + 3) <= top
}.

Lemma align_down_spec x n : 0 < n ->
  x - (n - 1) <= align_down x n <= x /\ align_down x n mod n = 0.
Proof.
  intros Hn. unfold align_down. pose proof (Z.mod_pos_bound x n Hn). split; [lia|].
  rewrite (Z.div_mod x n) at 1 by lia.
  replace (n * (x / n) + x mod n - x mod n) with ((x / n) * n) by lia. apply Z_mod_mult.
Qed.

Lemma strs_at_pushed m sp m' sp' b ptrs l : lo <= sp -> b <= top -> pushed m sp m' sp' ->
  Forall2 (str_at m sp b) ptrs l -> Forall2 (str_at m' sp' top) ptrs l.
Proof.
  intros Hl Hb P. apply Forall2_impl. intros p t H.
  apply (str_at_weak _ sp' _ b); [lia|lia|]. by eapply str_at_pushed.
Qed.

Lemma push_data_spec m argv env : tabs m ->
  lo + (strs_size env + 7 + (strs_size argv + 7) + 31) <= top ->
  Forall byte_list argv -> Forall byte_list env ->
  exists sp argvp envp rnd m',
    push_data root top argv env m = Ret (Ok (sp, argvp ++ [0], envp ++ [0], rnd), m') /\
    top - (strs_size env + 7 + (strs_size argv + 7) + 31) <= sp /\ sp mod 16 = 0 /\
    pushed m top m' sp /\
    Forall2 (str_at m' sp top) argvp argv /\ Forall2 (str_at m' sp top) envp env /\
    sp <= rnd <= top - 16 /\ holds m' rnd (zrange 0 15) /\ ub m' (rnd + 15) = ub m (rnd + 15).
Proof.
  intros T Hn Ha He. pose proof (strs_size_nonneg env). pose proof (strs_size_nonneg argv).
  unfold push_data. st_unfold.
  destruct (push_strs_spec env m top) as (m1 & envp & -> & P1 & E1); [done|lia|lia|done|].
  cbv beta iota zeta.
  destruct (align_down_spec (top - strs_size env) 8) as [Hs1 Al1]; [lia|].
  set (sp1 := align_down (top - strs_size env) 8) in *.
  apply pushed_down with (sp2 := sp1) in P1; [|lia].
  destruct (push_strs_spec argv m1 sp1) as (m2 & argvp & -> & P2 & E2);
    [apply P1|lia|lia|done|].
  cbv beta iota zeta.
  destruct (align_down_spec (sp1 - strs_size argv) 8) as [Hs2 Al2]; [lia|].
  set (sp2 := align_down (sp1 - strs_size argv) 8) in *.
  rewrite usub_Ret by lia. cbv beta iota zeta. set (rnd := sp2 - 16) in *.
  destruct (align_down_spec rnd 16) as [Hs3 Al3]; [lia|].
  set (sp3 := align_down rnd 16) in *. assert (zlen (zrange 0 15) = 15) as Hz by done.
  destruct (write_each_spec (zrange 0 15) m2 rnd 0) as (m3 & -> & W3);
    [apply P2|lia|lia|lia| |lia|].
  { apply Forall_forall. intros x Hx%list_elem_of_In%elem_of_zrange. lia. }
  rewrite Z.add_0_r in W3.
  assert (pushed m2 (sp1 - strs_size argv) m3 sp3) as P3.
  { apply pushed_down with (sp1 := rnd); [|lia]. apply (wrote_pushed m2 rnd (zrange 0 15)); [apply P2|lia|done]. }
  exists sp3, argvp, envp, rnd, m3. split_and!; try (done || lia).
  - eapply pushed_trans; [done|]. by eapply pushed_trans.
  - eapply strs_at_pushed; [| |done|done]; lia.
  - apply (strs_at_pushed m1 (sp1) m3 sp3 top); [lia|lia|by eapply pushed_trans|].
    eapply Forall2_impl; [|done]. intros p t. apply str_at_weak; lia.
  - eapply wrote_holds; [lia|lia|done].
  - rewrite (wr_bytes _ _ _ _ _ _ _ _ W3), decide_False by (apply range_page; lia) || lia.
    rewrite (pu_out _ _ _ _ P2), (pu_out _ _ _ _ P1) by lia. done.
Qed.

Lemma init_stack_spec ig m argv env auxv : tabs m -> lo + stack_need argv env auxv <= top ->
  Forall byte_list argv -> Forall byte_list env ->
  exists sp argvp envp rnd m',
    init_stack ig root top argv env auxv m =
      Ret (Ok (sp, sp + 8, sp + 8 + 8 * (zlen argv + 1)), m') /\
    top - stack_need argv env auxv <= sp /\ pushed m top m' sp /\
    laid_out m m' sp argv env auxv argvp envp rnd.
Proof.
  intros T Hn Ha He. unfold stack_need in *.
  pose proof (zlen_nonneg env). pose proof (zlen_nonneg argv). pose proof (zlen_nonneg auxv).
  unfold init_stack. st_unfold.
  destruct (push_data_spec m argv env) as
    (sp1 & argvp & envp & rnd & m1 & -> & Hs1 & Al1 & P1 & E1 & E2 & Hr & R & R15);
    [done|lia|done|done|].
  cbv beta iota. assert (zlen argvp = zlen argv /\ zlen envp = zlen env) as [La Le].
  { unfold zlen. by rewrite (Forall2_length E1), (Forall2_length E2). }
  replace (index (argvp ++ [0]) 0) with (Ret (default 0 (head argvp))) by (by destruct argvp).
  cbv beta iota zeta. set (ax := auxv ++ [_; _; _]).
  assert (zlen (rev ax) = zlen auxv + 3) as Lx.
  { unfold ax, zlen. rewrite length_rev, length_app. cbn. lia. }
  destruct (push_auxv_spec (rev ax) m1 sp1) as (m2 & -> & P2 & X2); [apply P1|done| |lia|].
  { pose proof (pu_le _ _ _ _ P1). lia. }
  rewrite rev_involutive, Lx in *. set (sp2 := sp1 - 16 * (zlen auxv + 3)) in *.
  pose proof (pu_le _ _ _ _ P1).
  assert (zlen (argvp ++ [0]) = zlen argv + 1 /\ zlen (envp ++ [0]) = zlen env + 1) as [La' Le'].
  { rewrite !zlen_nul. lia. }
  destruct (push_arrays_spec ig m2 sp2 (zlen argv) (argvp ++ [0]) (envp ++ [0]))
    as (m3 & -> & P3 & X3); [apply P2|lia|lia|lia|].
  rewrite La', Le' in *. set (sp3 := sp2 - 8 * (zlen env + 1) - 8 * (zlen argv + 1) - 8) in *.
  assert (pushed m1 sp1 m3 sp3) as P23 by (by eapply pushed_trans).
  exists sp3, argvp, envp, rnd, m3.
  split_and!; [done|lia|by eapply pushed_trans|]. split; [done| | | | | |].
  - fold ax. replace (sp3 + _) with sp2 by lia.
    apply (holds_pushed _ _ _ _ _ _ P3); [lia|lia| |done]. rewrite zlen_auxv.
    unfold zlen in *. rewrite length_rev in Lx. lia.
  - apply (strs_at_pushed m1 sp1 m3 sp3 top); done || lia.
  - apply (strs_at_pushed m1 sp1 m3 sp3 top); done || lia.
  - split; [lia|split]; [apply (holds_pushed _ _ _ _ _ _ P23); [lia|lia| |done]|].
    + assert (zlen (zrange 0 15) = 15) as -> by done. lia.
    + rewrite (pu_out _ _ _ _ P23) by lia. done.
  - unfold sp3, sp2 in *. clear -Al1. lia.
  - lia.
Qed.

End user_stack.

(** ** Reading back *)

Lemma rd_strs_has m sp top ptrs l fr n : top - sp <= Z.of_nat n ->
  Forall (Forall (fun b => 0 < b < 256)) l -> Forall2 (str_at fr m sp top) ptrs l ->
  mapM (rd_str (ubyte fr m) n) ptrs = Some l.
Proof.
  intros Hn Hl H. apply mapM_Some. induction H as [|p s ptrs l (H1 & H2 & H3) _ IH]; [constructor|].
  apply Forall_cons_1 in Hl as [Hs Hl]. constructor; [|by apply IH].
  apply rd_str_has; [done| |done]. unfold zlen in *. lia.
Qed.

Lemma str_ptrs_range m sp top ptrs l fr : 0 < sp -> top <= 2 ^ 39 ->
  Forall2 (str_at fr m sp top) ptrs l -> Forall (fun v => 0 < v < 2 ^ 64) ptrs.
Proof.
  intros Hs Ht. induction 1 as [|p s ptrs l (H1 & H2 & _) _ IH]; constructor; [|done].
  pose proof (zlen_nonneg s). lia.
Qed.

(** Strings of a C program. *)
Definition c_strings : list (list Z) -> Prop := Forall (Forall (fun b => 0 < b < 256)).

Lemma c_strings_bytes l : c_strings l -> Forall byte_list l.
Proof. apply Forall_impl. intros s. apply Forall_impl. intros b. lia. Qed.

Definition aux_ok (x : Aux) : Prop := aux_type x <> AUX_NULL /\ 0 <= aux_value x < 2 ^ 64.

Lemma laid_out_start fr top m0 m sp argv env auxv argvp envp rnd n :
  0 < sp -> top <= 2 ^ 39 -> top - sp <= Z.of_nat n ->
  c_strings argv -> c_strings env -> Forall aux_ok auxv ->
  laid_out top fr m0 m sp argv env auxv argvp envp rnd ->
  rd_start (ubyte fr m) n sp = Some (mkImage (zlen argv) argv env
    (auxv ++ [mkAux AUX_RANDOM rnd; mkAux AUX_EXECFN (default 0 (head argvp))])).
Proof.
  intros H0 Ht Hn Ha He Hx [Hw Hax Hav Hev [Hr _] _ Hsz].
  pose proof (zlen_nonneg env). pose proof (zlen_nonneg argv). pose proof (zlen_nonneg auxv).
  pose proof (str_ptrs_range _ _ _ _ _ _ H0 Ht Hav) as Ra.
  pose proof (str_ptrs_range _ _ _ _ _ _ H0 Ht Hev) as Re.
  assert (length argvp = length argv /\ length envp = length env) as [La Le].
  { by rewrite (Forall2_length Hav), (Forall2_length Hev). }
  unfold words in Hw. rewrite bind_cons, bind_app in Hw.
  apply has_app in Hw as [Hc Hw]. apply has_app in Hw as [Hwa Hwe].
  fold (words (argvp ++ [0])) (words (envp ++ [0])) in *.
  rewrite zlen_le_bytes, ?zlen_words, ?zlen_nul in *. change (Z.of_nat 8) with 8 in *.
  unfold rd_start. rewrite (rd_words_has _ argvp) by (done || (unfold zlen in *; lia)).
  cbn [mbind option_bind]. replace (sp + 8 + 8 * (zlen argvp + 1)) with
    (sp + 8 + 8 * zlen argvp + 8) in Hwe by lia.
  rewrite (rd_words_has _ envp) by (done || (unfold zlen in *; lia)). cbn [mbind option_bind].
  rewrite (rd_strs_has _ sp top argvp argv), (rd_strs_has _ sp top envp env) by done.
  cbn [mbind option_bind].
  replace (sp + 8 + 8 * zlen argvp + 8 + 8 * zlen envp + 8) with
    (sp + 8 * (3 + zlen argv + zlen env)) by (unfold zlen; lia).
  rewrite (rd_auxv_has _ (auxv ++ [mkAux AUX_RANDOM rnd; mkAux AUX_EXECFN (default 0 (head argvp))])).
  - cbn [mbind option_bind]. rewrite (rd_word_has _ sp (zlen argv)); [done|lia|done].
  - apply Forall_app. split; [done|]. repeat constructor; cbn; try done; try lia;
      destruct Ra as [|]; cbn; lia.
  - rewrite length_app. cbn. unfold zlen in *. lia.
  - rewrite <- app_assoc. exact Hax.
Qed.

Lemma start_stack_spec w root lo top fr ignore argv env auxv :
  pt_wf w root -> user_range w root lo top fr -> 0 < lo ->
  lo + stack_need argv env auxv <= top ->
  c_strings argv -> c_strings env -> Forall aux_ok auxv ->
  exists sp random argv0 m',
    init_stack ignore root top argv env auxv (w_mem w) =
      Ret (Ok (sp, sp + 8, sp + 8 + 8 * (zlen argv + 1)), m') /\
    top - stack_need argv env auxv <= sp /\
    sp mod 16 = 8 * (1 + zlen argv + zlen env) mod 16 /\
    (forall n, top - sp <= Z.of_nat n ->
       rd_start (ubyte fr m') n sp =
         Some (mkImage (zlen argv) argv env
                 (auxv ++ [mkAux AUX_RANDOM random; mkAux AUX_EXECFN argv0]))) /\
    (forall s, head argv = Some s -> rd_str (ubyte fr m') (S (length s)) argv0 = Some s) /\
    rd_bytes (ubyte fr m') random 15 = zrange 0 15 /\
    ubyte fr m' (random + 15) = ubyte fr (w_mem w) (random + 15) /\
    pushed w root lo top fr (w_mem w) top m' sp.
Proof.
  intros Hpt Hur Hlo Hn Ha He Hx. pose proof (ur_bounds _ _ _ _ _ Hur) as [_ Hb].
  destruct (init_stack_spec w root lo top fr Hpt Hur Hlo ignore (w_mem w) argv env auxv)
    as (sp & argvp & envp & rnd & m' & E & Hs & P & L);
    [done|done|by apply c_strings_bytes..|].
  exists sp, rnd, (default 0 (head argvp)), m'. split_and!; [done|done| | | | | |done].
  - apply L.
  - intros n Hf. by apply (laid_out_start fr top (w_mem w) m' sp argv env auxv argvp envp); [lia|..].
  - intros s Hs0. destruct (lo_argv _ _ _ _ _ _ _ _ _ _ _ L) as [|p s' ? ? (_ & _ & Hh)]; [done|]. injection Hs0 as ->.
    apply rd_str_has; [|lia|done]. by apply Forall_cons_1 in Ha as [? _].
  - apply (rd_bytes_has _ _ _ (proj1 (proj2 (lo_rnd _ _ _ _ _ _ _ _ _ _ _ L)))).
  - apply (proj2 (proj2 (lo_rnd _ _ _ _ _ _ _ _ _ _ _ L))).
Qed.

(** When the pages below the top of the stack are mapped writable and
    there is room for [stack_need] bytes, filling the stack succeeds, and the
    start-up code of the program reads back from the stack pointer exactly
    the argument count, the arguments, the environment and the auxiliary
    vector, extended by the addresses of the random bytes and of the first
    argument.  The registers get the addresses of the two arrays, and no byte
    below the stack pointer, no other frame and no page table changes.  The
    stack pointer is a multiple of 8, and of 16 only when the number of
    strings is odd; the last of the 16 random bytes is not written. *)
Theorem start_stack_roundtrip w root lo top fr ignore argv env auxv :
  pt_wf w root -> user_range w root lo top fr -> 0 < lo ->
  lo + stack_need argv env auxv <= top ->
  c_strings argv -> c_strings env -> Forall aux_ok auxv ->
  exists sp random argv0 m',
    init_stack ignore root top argv env auxv (w_mem w) =
      Ret (Ok (sp, sp + 8, sp + 8 + 8 * (zlen argv + 1)), m') /\
    top - stack_need argv env auxv <= sp /\
    sp mod 16 = 8 * (1 + zlen argv + zlen env) mod 16 /\
    (forall n, top - sp <= Z.of_nat n ->
       rd_start (ubyte fr m') n sp =
         Some (mkImage (zlen argv) argv env
                 (auxv ++ [mkAux AUX_RANDOM random; mkAux AUX_EXECFN argv0]))) /\
    (forall s, head argv = Some s -> rd_str (ubyte fr m') (S (length s)) argv0 = Some s) /\
    rd_bytes (ubyte fr m') random 15 = zrange 0 15 /\
    ubyte fr m' (random + 15) = ubyte fr (w_mem w) (random + 15) /\
    pushed w root lo top fr (w_mem w) top m' sp.
Proof. apply start_stack_spec. Qed.

(** [sh a], with one environment string, in two pages. *)
Lemma start_stack_roundtrip_witness : exists w root fr sp random argv0 m',
  init_stack false root 0x7000 [[115; 104]; [97]] [[72; 61; 47]] [mkAux AUX_PAGESZ 4096] (w_mem w) =
    Ret (Ok (sp, sp + 8, sp + 32), m') /\ sp mod 16 = 0 /\
  rd_start (ubyte fr m') (Z.to_nat 8192) sp = Some (mkImage 2 [[115; 104]; [97]] [[72; 61; 47]]
    [mkAux AUX_PAGESZ 4096; mkAux AUX_RANDOM random; mkAux AUX_EXECFN argv0]) /\
  rd_str (ubyte fr m') 3 argv0 = Some [115; 104].
Proof.
  destruct two_pages as (w & root & fr & Hpt & Hur).
  assert (forall l, forallb (forallb (fun b => (0 <? b) && (b <? 256))) l = true -> c_strings l) as C.
  { intros l. induction l as [|s l IH]; [constructor|]. intros [H1 H2]%andb_prop.
    constructor; [|by apply IH]. clear -H1. induction s as [|b s IH]; [constructor|].
    apply andb_prop in H1 as [H0 H1]. constructor; [lia|by apply IH]. }
  destruct (start_stack_roundtrip w root 0x5000 0x7000 fr false [[115; 104]; [97]] [[72; 61; 47]]
    [mkAux AUX_PAGESZ 4096]) as (sp & random & argv0 & m' & E & Hs & Ha & R & S & _).
  - exact Hpt.
  - exact Hur.
  - lia.
  - vm_compute. discriminate.
  - by apply C.
  - by apply C.
  - repeat constructor; done.
  - exists w, root, fr, sp, random, argv0, m'. split_and!.
    + rewrite E. do 4 f_equal. unfold zlen. cbn. lia.
    + exact Ha.
    + apply R. unfold stack_need, strs_size, zlen in Hs. cbn in Hs. lia.
    + by apply (S [115; 104]).
Defined.
