(* ===== verification/Process.v ===== *)
(** * Processes: exit and wait (os/src/task/mod.rs, os/src/task/task.rs,
    os/src/syscall/process.rs)

    The kernel state of this file puts the components together: the
    executor with the table of threads, physical memory with its allocator,
    the futexes, and the process control blocks, which refer to each other by
    address.  [exit_proc], [exit_current], [sys_wait4] and [sys_brk] are
    written over it.

    An asynchronous mutex that is free is taken at once; contention is the
    subject of Sync.v, and here every [lock().await] succeeds.  The references
    that a handler holds only while it runs are not counted. *)

From S2P Require Import Prelude Config Address Memory FrameAlloc Pte.
From S2P Require Import PageTable BTree Errno Area UserMem MemorySet.
From S2P Require Import Shm Timer Sched Exec ExecInv Sleep.
From S2P Require Import Ids FdTable Futex Signals Robust.

(** ** Control blocks *)

(** Tasks, processes, address spaces and shared signal states are addresses;
    [p_wakers] is the map of wakers by thread id. *)
Record ProcessControlBlock : Type := mkPCB {
  p_timers : list KernelTimer;
  p_pid : Z;
  p_main : Z;
  p_tasks : list Z;
  p_children : list Z;
  p_memory_set : Z;
  p_user_stack_top : Z;
  p_is_init : bool;
  p_base_size : Z;
  p_cwd : list Z;
  p_exe : list Z;
  p_parent : Z;
  p_exit_code : Z;
  p_heap_bottom : Z;
  p_program_brk : Z;
  p_fd_table : FdManage;
  p_signal_shared : Z;
  p_state : TaskStatus;
  p_wakers : list (Z * Z)
}.

Definition set_parent (v : Z) p : ProcessControlBlock :=
  mkPCB (p_timers p) (p_pid p) (p_main p) (p_tasks p) (p_children p) (p_memory_set p)
    (p_user_stack_top p) (p_is_init p) (p_base_size p) (p_cwd p) (p_exe p) v (p_exit_code p)
    (p_heap_bottom p) (p_program_brk p) (p_fd_table p) (p_signal_shared p) (p_state p) (p_wakers p).
Definition set_exit_code (v : Z) p : ProcessControlBlock :=
  mkPCB (p_timers p) (p_pid p) (p_main p) (p_tasks p) (p_children p) (p_memory_set p)
    (p_user_stack_top p) (p_is_init p) (p_base_size p) (p_cwd p) (p_exe p) (p_parent p) v
    (p_heap_bottom p) (p_program_brk p) (p_fd_table p) (p_signal_shared p) (p_state p) (p_wakers p).
Definition set_p_state (v : TaskStatus) p : ProcessControlBlock :=
  mkPCB (p_timers p) (p_pid p) (p_main p) (p_tasks p) (p_children p) (p_memory_set p)
    (p_user_stack_top p) (p_is_init p) (p_base_size p) (p_cwd p) (p_exe p) (p_parent p)
    (p_exit_code p) (p_heap_bottom p) (p_program_brk p) (p_fd_table p) (p_signal_shared p) v
    (p_wakers p).
Definition set_wakers (v : list (Z * Z)) p : ProcessControlBlock :=
  mkPCB (p_timers p) (p_pid p) (p_main p) (p_tasks p) (p_children p) (p_memory_set p)
    (p_user_stack_top p) (p_is_init p) (p_base_size p) (p_cwd p) (p_exe p) (p_parent p)
    (p_exit_code p) (p_heap_bottom p) (p_program_brk p) (p_fd_table p) (p_signal_shared p)
    (p_state p) v.
Definition set_children (v : list Z) p : ProcessControlBlock :=
  mkPCB (p_timers p) (p_pid p) (p_main p) (p_tasks p) v (p_memory_set p)
    (p_user_stack_top p) (p_is_init p) (p_base_size p) (p_cwd p) (p_exe p) (p_parent p)
    (p_exit_code p) (p_heap_bottom p) (p_program_brk p) (p_fd_table p) (p_signal_shared p)
    (p_state p) (p_wakers p).
Definition set_tasks (v : list Z) p : ProcessControlBlock :=
  mkPCB (p_timers p) (p_pid p) (p_main p) v (p_children p) (p_memory_set p)
    (p_user_stack_top p) (p_is_init p) (p_base_size p) (p_cwd p) (p_exe p) (p_parent p)
    (p_exit_code p) (p_heap_bottom p) (p_program_brk p) (p_fd_table p) (p_signal_shared p)
    (p_state p) (p_wakers p).
Definition set_fd_table (v : FdManage) p : ProcessControlBlock :=
  mkPCB (p_timers p) (p_pid p) (p_main p) (p_tasks p) (p_children p) (p_memory_set p)
    (p_user_stack_top p) (p_is_init p) (p_base_size p) (p_cwd p) (p_exe p) (p_parent p)
    (p_exit_code p) (p_heap_bottom p) (p_program_brk p) v (p_signal_shared p)
    (p_state p) (p_wakers p).
Definition set_program_brk (v : Z) p : ProcessControlBlock :=
  mkPCB (p_timers p) (p_pid p) (p_main p) (p_tasks p) (p_children p) (p_memory_set p)
    (p_user_stack_top p) (p_is_init p) (p_base_size p) (p_cwd p) (p_exe p) (p_parent p)
    (p_exit_code p) (p_heap_bottom p) v (p_fd_table p) (p_signal_shared p)
    (p_state p) (p_wakers p).
Definition set_user_stack_top (v : Z) p : ProcessControlBlock :=
  mkPCB (p_timers p) (p_pid p) (p_main p) (p_tasks p) (p_children p) (p_memory_set p)
    v (p_is_init p) (p_base_size p) (p_cwd p) (p_exe p) (p_parent p)
    (p_exit_code p) (p_heap_bottom p) (p_program_brk p) (p_fd_table p) (p_signal_shared p)
    (p_state p) (p_wakers p).

(** ** The kernel state *)

(** The parts a process operation reads besides the control blocks. *)
Record kern : Type := mkKern {
  k_sys : sys;
  k_world : world;
  k_futexes : list (FutexKey * FutexWaitQueue);
  k_inodes : inodes;
  k_shm : ShmManager;
  k_mms : gmap Z MemorySet;
  k_psig : gmap Z ProcessSignalSharedState;
  k_tsig : gmap Z TaskSignalState;
  k_trap : gmap Z TrapContext;
  k_procs : gmap Z ProcessControlBlock;
  PID2PC : list (Z * Z);
  PID_ALLOCATOR : RecycleAllocator;
  ID_COUNTER : Z
}.

Definition k_set_sys (v : sys) k : kern :=
  mkKern v (k_world k) (k_futexes k) (k_inodes k) (k_shm k) (k_mms k) (k_psig k) (k_tsig k)
    (k_trap k) (k_procs k) (PID2PC k) (PID_ALLOCATOR k) (ID_COUNTER k).
Definition k_set_mem (w : world) (fs : inodes) (shm : ShmManager) (mms : gmap Z MemorySet) k : kern :=
  mkKern (k_sys k) w (k_futexes k) fs shm mms (k_psig k) (k_tsig k)
    (k_trap k) (k_procs k) (PID2PC k) (PID_ALLOCATOR k) (ID_COUNTER k).
Definition k_set_fsys (s : fsys) k : kern :=
  mkKern (f_sys s) (set_mem (f_mem s) (k_world k)) (futexes s) (k_inodes k) (k_shm k) (k_mms k)
    (k_psig k) (k_tsig k) (k_trap k) (k_procs k) (PID2PC k) (PID_ALLOCATOR k) (ID_COUNTER k).
Definition k_set_procs (v : gmap Z ProcessControlBlock) k : kern :=
  mkKern (k_sys k) (k_world k) (k_futexes k) (k_inodes k) (k_shm k) (k_mms k) (k_psig k) (k_tsig k)
    (k_trap k) v (PID2PC k) (PID_ALLOCATOR k) (ID_COUNTER k).
Definition k_set_pid2pc (v : list (Z * Z)) k : kern :=
  mkKern (k_sys k) (k_world k) (k_futexes k) (k_inodes k) (k_shm k) (k_mms k) (k_psig k) (k_tsig k)
    (k_trap k) (k_procs k) v (PID_ALLOCATOR k) (ID_COUNTER k).

Definition on_ksys {A} (m : ST sys A) : ST kern A :=
  fun k => match m (k_sys k) with
           | Ret (a, s) => Ret (a, k_set_sys s k)
           | Panic => Panic
           end.
Definition on_kx {A} (m : ST exec A) : ST kern A := on_ksys (on_ex m).

(** Code over the executor, memory and the futexes. *)
Definition on_kf {A} (m : ST fsys A) : ST kern A :=
  fun k => match m (mkFsys (k_sys k) (w_mem (k_world k)) (k_futexes k)) with
           | Ret (a, s) => Ret (a, k_set_fsys s k)
           | Panic => Panic
           end.

(** Code over the address space at [r]. *)
Definition on_mm {A} (r : Z) (m : inodes -> MemorySet -> ST world (A * MemorySet * inodes))
    : ST kern A :=
  fun k => match k_mms k !! r with
           | Some ms =>
               match m (k_inodes k) ms (k_world k) with
               | Ret ((a, ms', fs'), w') =>
                   Ret (a, k_set_mem w' fs' (k_shm k) (<[r := ms']> (k_mms k)) k)
               | Panic => Panic
               end
           | None => Panic
           end.

Definition proc_at (r : Z) : ST kern ProcessControlBlock :=
  fun k => match k_procs k !! r with Some p => Ret (p, k) | None => Panic end.
Definition proc_update (r : Z) (f : ProcessControlBlock -> ProcessControlBlock) : ST kern unit :=
  p ← proc_at r;
  st_modify (fun k => k_set_procs (<[r := f p]> (k_procs k)) k).

Definition task_of (r : Z) : ST kern TaskControlBlock := t ← on_kx (exec_task r); mret (inner t).

Definition get_process (t : TaskControlBlock) : ST kern (option Z) :=
  st_gets (fun k => bt_get (process_id t) (PID2PC k)).

Definition current_process : ST kern Z :=
  r ← on_kx current_get;
  t ← task_of r;
  o ← get_process t;
  st_lift (unwrap o).

Definition tid2tc_remove (tid : Z) : ST sys unit :=
  st_modify (fun s => mkSys (ex s) (bt_remove tid (tid2tc s)) (sleepers s)).

(** [retain] and its complement. *)
Fixpoint st_filter {S A} (f : A -> ST S bool) (l : list A) : ST S (list A) :=
  match l with
  | [] => mret []
  | a :: l' => b ← f a; rest ← st_filter f l'; mret (if (b : bool) then a :: rest else rest)
  end.

Definition as_i32 (z : Z) : Z := (z + 2 ^ 31) mod 2 ^ 32 - 2 ^ 31.

Section process.

(** The files behind mappings, and the init process. *)
Variable file_read : Z -> UserBuffer -> inodes -> ST world (result Z SysErrNo * inodes).
Variable file_write : Z -> UserBuffer -> ST world (result Z SysErrNo).
Variable INITPROC : Z.

(** ** Exit *)

Definition proc_wake_all_waiters (p : Z) : ST kern unit :=
  pcb ← proc_at p;
  _ ← st_iter (fun '(_, waker) => on_kx (wakeup_task waker)) (p_wakers pcb);
  proc_update p (set_wakers []).

(** The clean-up of one thread in [exit_proc]. *)
Definition clear_thread (p thread : Z) : ST kern unit :=
  t ← task_of thread;
  match child_tid t with
  | None => mret tt
  | Some ptr =>
      pcb ← proc_at p;
      r ← on_mm (p_memory_set pcb) (fun fs ms => manual_alloc_type_for_lazy file_read fs ms ptr 4);
      match r with
      | Ok _ => _ ← on_kf (clear_child_tid (child_tid t) (page_table_token t)); mret tt
      | Err _ => mret tt
      end
  end.

(** The move of the children to the init process. *)
Definition reparent (p : Z) : ST kern unit :=
  pcb ← proc_at p;
  init ← proc_at INITPROC;
  if negb (p_pid pcb =? p_pid init) then
    _ ← st_iter (fun child =>
          _ ← proc_update child (set_parent (p_pid init));
          proc_update INITPROC (fun i => set_children (p_children i ++ [child]) i))
        (p_children pcb);
    proc_update p (set_children [])
  else mret tt.

(** A thread leaves [TID2TC], and its reference there is dropped. *)
Definition forget_thread (thread : Z) : ST kern unit :=
  t ← task_of thread;
  present ← st_gets (fun k => bt_get (tcb_id t) (tid2tc (k_sys k)));
  _ ← on_ksys (tid2tc_remove (tcb_id t));
  match present with Some r => on_kx (task_arc_drop r) | None => mret tt end.

Definition exit_proc (exit_code : Z) : ST kern unit :=
  p ← current_process;
  pcb ← proc_at p;
  _ ← proc_update p (set_exit_code exit_code);
  _ ← proc_update p (set_p_state Zombie);
  _ ← proc_wake_all_waiters p;
  _ ← st_iter (clear_thread p) (p_tasks pcb);
  _ ← reparent p;
  r ← on_mm (p_memory_set pcb) (fun fs ms =>
        '(r, ms') ← recycle_data_pages file_write ms; mret (r, ms', fs));
  _ ← st_lift (result_unwrap r);
  _ ← proc_update p (fun q => set_fd_table (set_table [] (p_fd_table q)) q);
  pcb' ← proc_at p;
  _ ← st_iter forget_thread (p_tasks pcb');
  _ ← st_iter (fun t => on_kx (task_arc_drop t)) (p_tasks pcb');
  proc_update p (set_tasks []).

(** [exit_current]; [fuel] bounds the walk of the robust list, [false] when
    it runs out. *)
Definition exit_current (fuel : nat) (code : Z) : ST kern bool :=
  r ← on_kx current_get;
  t ← task_of r;
  p ← current_process;
  if is_leader t then _ ← exit_proc code; mret true
  else
    let tid := tcb_id t in
    _ ← on_kx (task_set_state r Zombie);
    _ ← on_kx (tcb_update r (tcb_set_exit_code code));
    _ ← on_kf (clear_child_tid (child_tid t) (page_table_token t));
    pcb ← proc_at p;
    token ← on_mm (p_memory_set pcb) (fun fs ms => mret (ms_token ms, ms, fs));
    fin ← on_kf (exit_robust_list_cleanup fuel token tid (head (robust_list t)));
    if (fin : bool) then
      others ← st_filter (fun x => y ← task_of x; mret (negb (tcb_id y =? tid))) (p_tasks pcb);
      gone ← st_filter (fun x => y ← task_of x; mret (tcb_id y =? tid)) (p_tasks pcb);
      _ ← proc_update p (set_tasks others);
      _ ← st_iter (fun x => on_kx (task_arc_drop x)) gone;
      _ ← proc_update p (fun q => set_wakers (bt_remove tid (p_wakers q)) q);
      _ ← forget_thread r;
      mret true
    else mret false.

(** What [user_task_top] decides after a system call or trap: the exit code
    of a thread whose process is gone or dead. *)
Definition leave_code (r : Z) : ST kern (option Z) :=
  t ← task_of r;
  o ← get_process t;
  if is_exited t then mret (Some (as_i32 (exit_code t)))
  else match o with
       | None => mret (Some (as_i32 (exit_code t)))
       | Some p =>
           pcb ← proc_at p;
           mret (if bool_decide (p_state pcb = Zombie) then Some (p_exit_code pcb) else None)
       end.

(** ** Wait *)

Definition WNOHANG : Z := 1.
Definition wait_flags_all : Z := Z.lor 11 (Z.lor (2 ^ 30) (2 ^ 31)).

(** [pid == -1 || pid as usize == child.get_pid()] *)
Definition wanted (pid : Z) (pcb : ProcessControlBlock) : bool :=
  (pid =? -1) || (wrap64 pid =? p_pid pcb).

Fixpoint any_wanted (pid : Z) (children : list Z) : ST kern bool :=
  match children with
  | [] => mret false
  | c :: l => pcb ← proc_at c; if wanted pid pcb then mret true else any_wanted pid l
  end.

(** The index of the first child that is dead and wanted. *)
Fixpoint find_zombie (pid : Z) (children : list Z) (idx : nat) : ST kern (option nat) :=
  match children with
  | [] => mret None
  | c :: l =>
      pcb ← proc_at c;
      t ← task_of (p_main pcb);
      if is_exited t && wanted pid pcb then mret (Some idx) else find_zombie pid l (S idx)
  end.

(** The future a round of [sys_wait4] ends in. *)
Inductive wait_future : Type :=
| WaitAny (futures : list (Z * Z))
| WaitJoin (task : Z).

Definition wait_reap (p idx child wstatus : Z) (pcb : ProcessControlBlock) : ST kern (result Z SysErrNo) :=
  c ← proc_at child;
  let found_pid := p_pid c in
  let code := p_exit_code c in
  _ ← proc_update p (set_children (take (Z.to_nat idx) (p_children pcb)
                                    ++ drop (S (Z.to_nat idx)) (p_children pcb)));
  _ ← st_modify (fun k => k_set_pid2pc (bt_remove found_pid (PID2PC k)) k);
  if negb (wstatus =? 0) then
    r ← on_mm (p_memory_set pcb) (fun fs ms =>
          safe_put_data file_read fs ms wstatus (le_bytes 4 (Z.shiftl code 8)));
    match r with
    | Ok _ => mret (Ok found_pid)
    | Err e => mret (Err (errno_of_PutDataError e))
    end
  else mret (Ok found_pid).

(** The main tasks of the children with the pids they carry. *)
Fixpoint watch_list (children : list Z) : ST kern (list (Z * Z)) :=
  match children with
  | [] => mret []
  | c :: l =>
      pcb ← proc_at c;
      t ← task_of (p_main pcb);
      rest ← watch_list l;
      mret ((process_id t, p_main pcb) :: rest)
  end.

(** One round of the loop of [sys_wait4] up to its [await]. *)
Definition wait_round (p pid wstatus options : Z) : ST kern (result Z SysErrNo + wait_future) :=
  pcb ← proc_at p;
  found ← any_wanted pid (p_children pcb);
  if negb found && (0 <? pid) then mret (inl (Err ECHILD))
  else
    z ← find_zombie pid (p_children pcb) 0;
    match z with
    | Some idx =>
        child ← st_lift (unwrap (p_children pcb !! idx));
        r ← wait_reap p (Z.of_nat idx) child wstatus pcb;
        mret (inl r)
    | None =>
        if negb (Z.land options WNOHANG =? 0) then mret (inl (Ok 0))
        else if pid =? -1 then
          match p_children pcb with
          | [] => mret (inl (Err ECHILD))
          | _ => l ← watch_list (p_children pcb); mret (inr (WaitAny l))
          end
        else
          o ← st_gets (fun k => bt_get (wrap64 pid) (PID2PC k));
          match o with
          | Some c => cp ← proc_at c; mret (inr (WaitJoin (p_main cp)))
          | None => mret (inl (Err ECHILD))
          end
    end.

(** The poll of the awaited future with the waker of the task [w]: [None]
    when it is ready. *)
Definition poll_wait (w : Z) (f : wait_future) : ST kern (option wait_future) :=
  match f with
  | WaitAny l =>
      '(r, l') ← on_kx (wait_any_poll w l);
      mret (match r with Ready _ => None | Pending => Some (WaitAny l') end)
  | WaitJoin task =>
      r ← on_kx (join_poll task w);
      mret (match r with Ready _ => None | Pending => Some f end)
  end.

(** The loop from its start; [None] when [fuel] rounds do not suffice. *)
Fixpoint wait_loop (fuel : nat) (w p pid wstatus options : Z)
    : ST kern (option (result Z SysErrNo + wait_future)) :=
  match fuel with
  | O => mret None
  | S fuel' =>
      r ← wait_round p pid wstatus options;
      match r with
      | inl res => mret (Some (inl res))
      | inr f =>
          o ← poll_wait w f;
          match o with
          | Some f' => mret (Some (inr f'))
          | None => wait_loop fuel' w p pid wstatus options
          end
      end
  end.

(** The first poll of [sys_wait4] by the task [w] of the process [p], and a
    later one that finds the future [f]. *)
Definition sys_wait4 (fuel : nat) (pid wstatus options : Z)
    : ST kern (option (result Z SysErrNo + wait_future)) :=
  w ← on_kx current_get;
  p ← current_process;
  if (pid =? 0) || (Z.land pid (Z.ones 32) =? 2 ^ 31) then mret (Some (inl (Err ESRCH)))
  else if negb (Z.ldiff options wait_flags_all =? 0) then mret (Some (inl (Err EINVAL)))
  else wait_loop fuel w p pid wstatus options.

Definition wait4_resume (fuel : nat) (p pid wstatus options : Z) (f : wait_future)
    : ST kern (option (result Z SysErrNo + wait_future)) :=
  w ← on_kx current_get;
  o ← poll_wait w f;
  match o with
  | Some f' => mret (Some (inr f'))
  | None => wait_loop fuel w p pid wstatus options
  end.

(** ** The program break *)

Definition change_program_brk (p new_brk : Z) : ST kern (option Z) :=
  pcb ← proc_at p;
  let heap_bottom := p_heap_bottom pcb in
  size ← st_lift (ichk (wrap_isize new_brk - wrap_isize (p_program_brk pcb)));
  if new_brk <? heap_bottom then mret None
  else
    b ← on_mm (p_memory_set pcb) (fun fs ms =>
          '(b, ms') ← (if size <? 0 then ms_shrink_to ms heap_bottom new_brk
                       else ms_append_to ms heap_bottom new_brk);
          mret (b, ms', fs));
    if (b : bool) then
      _ ← proc_update p (set_program_brk new_brk);
      mret (Some new_brk)
    else mret None.

Definition sys_brk (new_brk : Z) : ST kern (result Z SysErrNo) :=
  p ← current_process;
  pcb ← proc_at p;
  let current_brk := p_program_brk pcb in
  if new_brk =? 0 then mret (Ok current_brk)
  else if new_brk =? current_brk then mret (Ok current_brk)
  else if new_brk <? p_heap_bottom pcb then mret (Err EINVAL)
  else
    o ← change_program_brk p new_brk;
    match o with
    | Some b => mret (Ok b)
    | None => mret (Err ENOMEM)
    end.

End process.
