(* ===== verification/Clone.v ===== *)
(** * Creation of threads and processes (os/src/task/task.rs [clone_task],
    os/src/syscall/process.rs [sys_clone])

    The addresses of the objects that [clone_task] allocates are arguments,
    as are the root of the kernel page table and the time. *)

From S2P Require Import Prelude Config Address Memory FrameAlloc Pte.
From S2P Require Import PageTable BTree Errno Area UserMem MemorySet.
From S2P Require Import Shm Timer Sched Exec ExecInv Sleep.
From S2P Require Import Ids FdTable Futex Signals Robust Process.

(** ** Flags *)

Definition CLONE_NEWTIME : Z := 2 ^ 7.
Definition CLONE_VM : Z := 2 ^ 8.
Definition CLONE_SIGHAND : Z := 2 ^ 11.
Definition CLONE_PIDFD : Z := 2 ^ 12.
Definition CLONE_VFORK : Z := 2 ^ 14.
Definition CLONE_PARENT : Z := 2 ^ 15.
Definition CLONE_THREAD : Z := 2 ^ 16.
Definition CLONE_SETTLS : Z := 2 ^ 19.
Definition CLONE_PARENT_SETTID : Z := 2 ^ 20.
Definition CLONE_CHILD_CLEARTID : Z := 2 ^ 21.
Definition CLONE_CHILD_SETTID : Z := 2 ^ 24.

(** Bits 7 to 24, and [CLONE_NEWPID]. *)
Definition clone_all : Z := Z.lor (Z.ones 25 - Z.ones 7) (2 ^ 29).

(** ** Objects *)

(** The addresses of the new task, process, address space and signal state. *)
Record clone_env : Type := mkCE {
  ce_task : Z;
  ce_proc : Z;
  ce_mm : Z;
  ce_sig : Z;
  ce_global_root : Z;
  ce_now : Z
}.

Definition R_tp : nat := 1.

Definition tcb_set_trap (st : TrapStatus) (t : TaskControlBlock) : TaskControlBlock :=
  mkTCB (tcb_id t) (is_init t) (state t) (exit_code t) (need_resched t)
    (preempt_disable_count t) (is_leader t) (process_id t) (page_table_token t)
    (child_tid t) (need_clear_child_tid t) (robust_list t) (uid t) (noma_policy t)
    (wait_wakers t) (Some st).
Definition set_lead (t : TaskControlBlock) : TaskControlBlock :=
  mkTCB (tcb_id t) (is_init t) (state t) (exit_code t) (need_resched t)
    (preempt_disable_count t) true (process_id t) (page_table_token t)
    (child_tid t) (need_clear_child_tid t) (robust_list t) (uid t) (noma_policy t)
    (wait_wakers t) (trap_status t).

(** [Arc::new(CFSTask::new(..))] at an address. *)
Definition task_alloc (r : Z) (t : TaskControlBlock) : ST exec unit :=
  st_modify (fun s => mkExec (mkRunq (<[r := CFSTask_new t]> (heap (rq s))) (sched (rq s)))
                        (<[r := 1]> (arcs s)) (current s)).

Definition k_set_trap (r : Z) (c : TrapContext) : ST kern unit :=
  st_modify (fun k => mkKern (k_sys k) (k_world k) (k_futexes k) (k_inodes k) (k_shm k) (k_mms k)
    (k_psig k) (k_tsig k) (<[r := c]> (k_trap k)) (k_procs k) (PID2PC k) (PID_ALLOCATOR k)
    (ID_COUNTER k)).
Definition k_set_tsig (r : Z) (c : TaskSignalState) : ST kern unit :=
  st_modify (fun k => mkKern (k_sys k) (k_world k) (k_futexes k) (k_inodes k) (k_shm k) (k_mms k)
    (k_psig k) (<[r := c]> (k_tsig k)) (k_trap k) (k_procs k) (PID2PC k) (PID_ALLOCATOR k)
    (ID_COUNTER k)).
Definition k_set_psig (r : Z) (c : ProcessSignalSharedState) : ST kern unit :=
  st_modify (fun k => mkKern (k_sys k) (k_world k) (k_futexes k) (k_inodes k) (k_shm k) (k_mms k)
    (<[r := c]> (k_psig k)) (k_tsig k) (k_trap k) (k_procs k) (PID2PC k) (PID_ALLOCATOR k)
    (ID_COUNTER k)).
Definition k_set_pids (a : RecycleAllocator) : ST kern unit :=
  st_modify (fun k => mkKern (k_sys k) (k_world k) (k_futexes k) (k_inodes k) (k_shm k) (k_mms k)
    (k_psig k) (k_tsig k) (k_trap k) (k_procs k) (PID2PC k) a (ID_COUNTER k)).

(** [TaskId::new]: the old value of a counter that wraps around. *)
Definition TaskId_new : ST kern Z :=
  fun k => Ret (ID_COUNTER k,
    mkKern (k_sys k) (k_world k) (k_futexes k) (k_inodes k) (k_shm k) (k_mms k)
    (k_psig k) (k_tsig k) (k_trap k) (k_procs k) (PID2PC k) (PID_ALLOCATOR k)
    (wrap64 (ID_COUNTER k + 1))).

Definition k_pid_alloc : ST kern Z :=
  a ← st_gets PID_ALLOCATOR;
  '(pid, a') ← st_lift (pid_alloc a);
  _ ← k_set_pids a';
  mret pid.
Definition k_pid_drop (pid : Z) : ST kern unit :=
  a ← st_gets PID_ALLOCATOR;
  a' ← st_lift (pid_handle_drop a pid);
  k_set_pids a'.

Definition mm_token (r : Z) : ST kern Z := on_mm r (fun fs ms => mret (ms_token ms, ms, fs)).

(** [*translated_refmut(token, ptr)? = v] for a [u32]. *)
Definition write_u32 (token ptr v : Z) : ST kern (result unit SysErrNo) :=
  on_kf (m ← st_gets f_mem;
         r ← st_lift (translated_refmut token m ptr);
         match r with
         | Err e => mret (Err e)
         | Ok pa => _ ← set_fmem (pa_write_u32 m pa v); mret (Ok tt)
         end).

(** The drop of an address space: the frames of its areas and tables. *)
Definition drop_memory_set (ms : MemorySet) : ST world unit :=
  _ ← st_iter (fun '(_, a) => drop_area a) (areatree ms);
  st_iter arc_drop (pt_frames (page_table ms)).

Definition drop_mm (r : Z) : ST kern unit :=
  fun k => match k_mms k !! r with
           | Some ms =>
               match drop_memory_set ms (k_world k) with
               | Ret (_, w') => Ret (tt, k_set_mem w' (k_inodes k) (k_shm k) (delete r (k_mms k)) k)
               | Panic => Panic
               end
           | None => Panic
           end.

Section clone.

Variable file_read : Z -> UserBuffer -> inodes -> ST world (result Z SysErrNo * inodes).
Variable env : clone_env.

(** [MemorySet::from_existed_user] of the address space [src] for the process
    [pid], at the new address. *)
Definition fork_mm (src pid : Z) : ST kern unit :=
  fun k => match k_mms k !! src with
           | Some ms =>
               match from_existed_user (ce_global_root env) (ce_now env) pid ms (k_shm k) (k_world k) with
               | Ret ((ms', shm'), w') =>
                   Ret (tt, k_set_mem w' (k_inodes k) shm' (<[ce_mm env := ms']> (k_mms k)) k)
               | Panic => Panic
               end
           | None => Panic
           end.

(** [clone_user_res]: the stack of the child shares the frames of the stack
    of [another]. *)
Definition clone_user_res (self another : Z) : ST kern unit :=
  old ← proc_at another;
  new ← proc_at self;
  hint_vpn ← st_lift (VirtAddr_ceil USER_STACK_TOP);
  let npages := (USER_STACK_SIZE + PAGE_SIZE - 1) / PAGE_SIZE in
  new_ms ← on_mm (p_memory_set new) (fun fs ms => mret (ms, ms, fs));
  o ← st_lift (find_gap_from (areatree new_ms) hint_vpn npages);
  base_vpn ← st_lift (unwrap o);
  top_vpn ← st_lift (uadd base_vpn npages);
  let start_va := VirtAddr_of_VirtPageNum base_vpn in
  let end_va := VirtAddr_of_VirtPageNum top_vpn in
  new_area ← st_lift (MapArea_new start_va end_va Framed
                        (Z.lor (Z.lor MP_R MP_W) MP_U) AT_Stack);
  _ ← proc_update self (set_user_stack_top end_va);
  old_ms ← on_mm (p_memory_set old) (fun fs ms => mret (ms, ms, fs));
  d ← st_lift (usub (p_user_stack_top old) USER_STACK_SIZE);
  old_area ← st_lift (unwrap (bt_get (Z.shiftr d PAGE_SIZE_BITS) (areatree old_ms)));
  _ ← on_mm (p_memory_set new) (fun fs ms =>
        ms' ← push_with_given_frames ms new_area (data_frames old_area) true;
        mret (tt, ms', fs));
  on_mm (p_memory_set old) (fun fs ms =>
    _ ← st_iter (fun '(vpn, _) => pte_modify (page_table ms) vpn la_set_cow) (data_frames old_area);
    mret (tt, ms, fs)).

(** The new thread joins the process [self]. *)
Definition clone_thread (self tid : Z) : ST kern Z :=
  _ ← on_kx (task_arc_clone (ce_task env));
  _ ← proc_update self (fun p => set_tasks (p_tasks p ++ [ce_task env]) p);
  _ ← on_kx (task_arc_clone (ce_task env));
  cur ← current_process;
  _ ← proc_update cur (fun p => set_wakers (bt_insert tid (ce_task env) (p_wakers p)) p);
  mret tid.

(** The new process; [mm] is its address space. *)
Definition clone_process (self flags user_stack pid tid parent mm : Z) : ST kern Z :=
  cur ← current_process;
  cpcb ← proc_at cur;
  sig ← (if fl_contains flags CLONE_SIGHAND then mret (p_signal_shared cpcb)
         else
           m ← st_gets k_psig;
           st ← st_lift (unwrap (m !! p_signal_shared cpcb));
           _ ← k_set_psig (ce_sig env) (PSS_clone_from_another st);
           mret (ce_sig env));
  p ← proc_at self;
  _ ← on_kx (task_arc_clone (ce_task env));
  _ ← on_kx (task_arc_clone (ce_task env));
  let pcb := mkPCB (replicate 3 (mkTimer 0 0)) pid (ce_task env) [] [] mm USER_STACK_TOP false
               (p_base_size p) (p_cwd p) (p_exe p) parent 0 (p_heap_bottom p) (p_program_brk p)
               (fdm_from_another (p_fd_table p)) sig Runnable [(tid, ce_task env)] in
  _ ← st_modify (fun k => k_set_procs (<[ce_proc env := pcb]> (k_procs k)) k);
  _ ← on_kx (tcb_update (ce_task env) set_lead);
  _ ← (if (user_stack =? 0) && negb (fl_contains flags CLONE_VM)
       then clone_user_res (ce_proc env) self else mret tt);
  _ ← on_kx (task_arc_clone (ce_task env));
  _ ← proc_update (ce_proc env) (fun q => set_tasks (p_tasks q ++ [ce_task env]) q);
  _ ← proc_update self (fun q => set_children (p_children q ++ [ce_proc env]) q);
  _ ← st_modify (fun k => k_set_pid2pc (bt_insert pid (ce_proc env) (PID2PC k)) k);
  mret pid.

(** The registers of the new task. *)
Definition clone_registers (flags user_stack tls : Z) (c : TrapContext) : TrapContext :=
  let c := set_reg R_a0 0 (set_trap_status TrapDone c) in
  let c := if fl_contains flags CLONE_SETTLS then set_reg R_tp tls c else c in
  if negb (user_stack =? 0) then set_reg R_sp user_stack c else c.

Definition tid2tc_insert (tid r : Z) : ST sys unit :=
  st_modify (fun s => mkSys (ex s) (bt_insert tid r (tid2tc s)) (sleepers s)).

(** From the write of the child tid on. *)
Definition clone_finish (flags token ctid tid res : Z) : ST kern (result Z SysErrNo) :=
  r ← (if fl_contains flags CLONE_CHILD_SETTID then write_u32 token ctid tid else mret (Ok tt));
  match r with
  | Err e => _ ← on_kx (task_arc_drop (ce_task env)); mret (Err e)
  | Ok _ =>
      _ ← on_kx (task_arc_clone (ce_task env));
      _ ← on_kx (on_rq (sched_add_task (ce_task env)));
      _ ← on_ksys (tid2tc_insert tid (ce_task env));
      mret (Ok res)
  end.

Definition clone_task (self flags user_stack ptid tls ctid : Z) : ST kern (result Z SysErrNo) :=
  let thread := fl_contains flags CLONE_THREAD in
  pcb ← proc_at self;
  mm ← (if thread || fl_contains flags CLONE_VM then mret (p_memory_set pcb)
        else
          cur ← current_process;
          c ← proc_at cur;
          _ ← fork_mm (p_memory_set pcb) (p_pid c);
          mret (ce_mm env));
  clone_token ← mm_token mm;
  let parent := if fl_contains flags CLONE_PARENT then p_parent pcb else p_pid pcb in
  cur_task ← on_kx current_get;
  ts ← st_gets (fun k => k_tsig k !! cur_task);
  ts ← st_lift (unwrap ts);
  pid ← (if thread then mret (p_pid pcb) else k_pid_alloc);
  let settid := fl_contains flags CLONE_CHILD_SETTID || fl_contains flags CLONE_CHILD_CLEARTID in
  let child := if settid then Some ctid else None in
  let need_clear := settid && fl_contains flags CLONE_CHILD_CLEARTID in
  tc ← st_gets (fun k => k_trap k !! cur_task);
  tc ← st_lift (unwrap tc);
  tid ← TaskId_new;
  _ ← on_kx (task_alloc (ce_task env)
        (TaskControlBlock_new tid false false pid clone_token child need_clear (tc_trap_status tc)));
  _ ← k_set_tsig (ce_task env) (TaskSignalState_init (sigmask ts));
  _ ← k_set_trap (ce_task env) tc;
  r ← (if fl_contains flags CLONE_PARENT_SETTID then
         _ <-? on_mm (p_memory_set pcb) (fun fs ms =>
                 manual_alloc_type_for_lazy file_read fs ms ptid 4);
         parent_token ← mm_token (p_memory_set pcb);
         write_u32 parent_token ptid tid
       else mret (Ok tt));
  match r with
  | Err e =>
      _ ← on_kx (task_arc_drop (ce_task env));
      _ ← (if thread then mret tt else k_pid_drop pid);
      _ ← (if thread || fl_contains flags CLONE_VM then mret tt else drop_mm (ce_mm env));
      mret (Err e)
  | Ok _ =>
      res ← (if thread then clone_thread self tid
             else clone_process self flags user_stack pid tid parent mm);
      _ ← k_set_trap (ce_task env) (clone_registers flags user_stack tls tc);
      _ ← on_kx (tcb_update (ce_task env) (tcb_set_trap TrapDone));
      clone_finish flags clone_token ctid tid res
  end.

(** [sys_clone] up to the yield before it returns. *)
Definition clone_check (flags user_stack : Z) : option SysErrNo :=
  let has f := fl_contains flags f in
  if has CLONE_VM && (user_stack =? 0) then Some EINVAL
  else if has CLONE_SETTLS && negb (has CLONE_VM) then Some EINVAL
  else if has CLONE_THREAD && negb (has CLONE_SIGHAND) then Some EINVAL
  else if has CLONE_THREAD && negb (has CLONE_VM) then Some EINVAL
  else if has CLONE_PARENT_SETTID && negb (has CLONE_VM) then Some EINVAL
  else if has CLONE_PIDFD && negb (has CLONE_PARENT_SETTID) then Some EINVAL
  else if has CLONE_VFORK && has CLONE_THREAD then Some EINVAL
  else None.

Definition sys_clone (flags user_stack ptid tls ctid : Z) : ST kern (result Z SysErrNo) :=
  proc ← current_process;
  flags ← st_lift (unwrap (fl_from_bits clone_all (Z.ldiff flags 0x3f)));
  match clone_check flags user_stack with
  | Some e => mret (Err e)
  | None => clone_task proc flags user_stack ptid tls ctid
  end.

End clone.
