(* ===== verification/ProcTree.v ===== *)
(** * The tree of processes

    An abstract view of Process.v and Clone.v: of a control block only its
    pid, the pid of its parent and the list of its children are kept, next to
    the table [PID2PC] and the allocator of pids.  Every handler refines a
    step on this view, and the steps keep the tree well formed: a listed
    child is found by its pid, no process is listed twice, and the pids of all
    control blocks are distinct.  While nobody clones with [CLONE_PARENT]
    ([strict]) a listed child also has the lister as its parent. *)

From S2P Require Import Prelude Config Address Memory FrameAlloc Pte.
From S2P Require Import PageTable BTree Errno Area UserMem MemorySet.
From S2P Require Import Shm Timer Sched Exec ExecInv Sleep.
From S2P Require Import Ids FdTable Futex Signals Robust Process.
From S2P Require Import Clone.

(** ** The view *)

Record pnode : Type := mkPN { n_pid : Z; n_parent : Z; n_children : list Z }.

Definition node_of (p : ProcessControlBlock) : pnode := mkPN (p_pid p) (p_parent p) (p_children p).

Notation nodes := (gmap Z pnode).

Record ptree : Type := mkTree { t_nodes : nodes; t_pid2pc : list (Z * Z); t_ids : RecycleAllocator }.

Definition tree (k : kern) : ptree := mkTree (node_of <$> k_procs k) (PID2PC k) (PID_ALLOCATOR k).

Definition pidmap (N : nodes) : gmap Z Z := n_pid <$> N.
Definition pids (N : nodes) : list Z := (map_to_list (pidmap N)).*2.

Record tree_wf (strict : bool) (init : Z) (T : ptree) : Prop := {
  tw_sorted : bt_sorted (t_pid2pc T);
  tw_found : forall i r, bt_get i (t_pid2pc T) = Some r -> exists n, t_nodes T !! r = Some n /\ n_pid n = i;
  tw_child : forall r n c, t_nodes T !! r = Some n -> c ∈ n_children n ->
    exists m, t_nodes T !! c = Some m /\ (strict = true -> n_parent m = n_pid n) /\
      bt_get (n_pid m) (t_pid2pc T) = Some c /\ c <> r /\ c <> init;
  tw_once : forall r n r' n' c, t_nodes T !! r = Some n -> t_nodes T !! r' = Some n' ->
    c ∈ n_children n -> c ∈ n_children n' -> r = r';
  tw_nodup : forall r n, t_nodes T !! r = Some n -> NoDup (n_children n);
  tw_init : is_Some (t_nodes T !! init);
  tw_ids : ids_ok 1 (t_ids T) (pids (t_nodes T))
}.

(** ** Actions that do not touch a part of the state *)

Definition keeps_of {B} (part : kern -> B) {A} (m : ST kern A) : Prop :=
  forall k a k', m k = Ret (a, k') -> part k' = part k.

Notation keeps m := (keeps_of tree m).

Create HintDb keeps.

Section parts.
Context {B : Type} (part : kern -> B).

Lemma keeps_ret {A} (a : A) : keeps_of part (mret a).
Proof. intros k b k' [= <- <-]. done. Qed.

Lemma keeps_bind {A A'} (m : ST kern A) (f : A -> ST kern A') :
  keeps_of part m -> (forall a, keeps_of part (f a)) -> keeps_of part (m ≫= f).
Proof.
  intros Hm Hf k b k' (a & k1 & H1 & H2)%st_bind_Ret. rewrite (Hf a k1 b k' H2). by apply (Hm k a).
Qed.

Lemma keeps_lift {A} (o : outcome A) : keeps_of part (st_lift o).
Proof. intros k b k'. unfold st_lift. destruct o; [by intros [= <- <-]|done]. Qed.

Lemma keeps_gets {A} (f : kern -> A) : keeps_of part (st_gets f).
Proof. intros k b k' [= <- <-]. done. Qed.

Lemma keeps_modify f : (forall k, part (f k) = part k) -> keeps_of part (st_modify f).
Proof. intros H k b k' [= <- <-]. apply H. Qed.

Lemma keeps_proc_at r : keeps_of part (proc_at r).
Proof. intros k a k'. unfold proc_at. destruct (k_procs k !! r); [by intros [= <- <-]|done]. Qed.

Lemma keeps_iter {A} (f : A -> ST kern unit) l :
  (forall a, keeps_of part (f a)) -> keeps_of part (st_iter f l).
Proof. intros H. induction l as [|a l IH]; [apply keeps_ret|]. by apply keeps_bind. Qed.

Lemma keeps_try {A A' E} (m : ST kern (result A E)) (f : A -> ST kern (result A' E)) :
  keeps_of part m -> (forall a, keeps_of part (f a)) -> keeps_of part (st_try f m).
Proof.
  intros Hm Hf k b k'. unfold st_try. destruct (m k) as [[[a|e] k1]|] eqn:E1; [|intros [= <- <-]|done].
  - intros H. rewrite (Hf a k1 b k' H). by apply (Hm k (Ok a)).
  - by apply (Hm k (Err e)).
Qed.

Lemma keeps_filter {A} (f : A -> ST kern bool) l :
  (forall a, keeps_of part (f a)) -> keeps_of part (st_filter f l).
Proof.
  intros H. induction l as [|a l IH]; [apply keeps_ret|]. apply keeps_bind; [done|]. intros b.
  apply keeps_bind; [done|]. intros. apply keeps_ret.
Qed.

Lemma keeps_step {A A'} (m : ST kern A) (f : A -> ST kern A') k b k' :
  keeps_of part m -> (m ≫= f) k = Ret (b, k') ->
  exists a k1, part k1 = part k /\ m k = Ret (a, k1) /\ f a k1 = Ret (b, k').
Proof. intros Hm (a & k1 & H1 & H2)%st_bind_Ret. exists a, k1. split; [by apply (Hm k a)|done]. Qed.

Lemma keeps_rest {A} (m : ST kern A) k a k' : m k = Ret (a, k') -> keeps_of part m -> part k' = part k.
Proof. intros H Hm. by apply (Hm k a). Qed.

End parts.

(** ** Actions that do not touch the tree *)

Lemma keeps_ksys {A} (m : ST sys A) : keeps (on_ksys m).
Proof. intros k a k'. unfold on_ksys. destruct (m (k_sys k)) as [[b s]|]; [by intros [= <- <-]|done]. Qed.

Lemma keeps_kx {A} (m : ST exec A) : keeps (on_kx m).
Proof. apply keeps_ksys. Qed.

Lemma keeps_kf {A} (m : ST fsys A) : keeps (on_kf m).
Proof. intros k a k'. unfold on_kf. destruct (m _) as [[b s]|]; [by intros [= <- <-]|done]. Qed.

Lemma keeps_mm {A} r (m : inodes -> MemorySet -> ST world (A * MemorySet * inodes)) : keeps (on_mm r m).
Proof.
  intros k a k'. unfold on_mm. destruct (k_mms k !! r) as [ms|]; [|done].
  destruct (m _ _ _) as [[[[b ms'] fs'] w]|]; [by intros [= <- <-]|done].
Qed.

Lemma tree_update (k : kern) r p f : k_procs k !! r = Some p -> node_of (f p) = node_of p ->
  tree (k_set_procs (<[r := f p]> (k_procs k)) k) = tree k.
Proof.
  intros Hp Hf. unfold tree. cbn. f_equal. rewrite fmap_insert, Hf. apply insert_id.
  by rewrite lookup_fmap, Hp.
Qed.

Lemma keeps_update r f : (forall p, node_of (f p) = node_of p) -> keeps (proc_update r f).
Proof.
  intros Hf k a k'. unfold proc_update, proc_at, mbind, ST_bind, st_modify.
  destruct (k_procs k !! r) as [p|] eqn:E; [|done]. intros [= <- <-]. by apply tree_update.
Qed.

#[export] Hint Resolve keeps_ret keeps_lift keeps_gets keeps_ksys keeps_kx keeps_kf keeps_mm : keeps.
#[export] Hint Resolve keeps_proc_at : keeps.

(** Follows the structure of an action. *)
Ltac keep :=
  repeat (intros; first
    [ progress cbv beta
    | solve [auto with keeps]
    | apply keeps_update; reflexivity
    | apply keeps_iter | apply keeps_try | apply keeps_filter | apply keeps_bind
    | apply keeps_modify; reflexivity
    | match goal with
      | |- keeps_of _ (if ?b then _ else _) => destruct b
      | |- keeps_of _ (match ?x with _ => _ end) => destruct x
      end ]).

Lemma keeps_task_of r : keeps (task_of r).
Proof. unfold task_of. keep. Qed.
Lemma keeps_get_process t : keeps (get_process t).
Proof. unfold get_process. keep. Qed.
#[export] Hint Resolve keeps_task_of keeps_get_process : keeps.
Lemma keeps_current : keeps current_process.
Proof. unfold current_process. keep. Qed.
Lemma keeps_mm_token r : keeps (mm_token r).
Proof. unfold mm_token. keep. Qed.
Lemma keeps_write_u32 t p v : keeps (write_u32 t p v).
Proof. unfold write_u32. keep. Qed.
Lemma keeps_forget t : keeps (forget_thread t).
Proof. unfold forget_thread. keep. Qed.
Lemma keeps_wake p : keeps (proc_wake_all_waiters p).
Proof. unfold proc_wake_all_waiters. keep. Qed.
Lemma keeps_tid : keeps TaskId_new.
Proof. intros k a k' [= <- <-]. done. Qed.
Lemma keeps_set_trap r c : keeps (k_set_trap r c).
Proof. unfold k_set_trap. keep. Qed.
Lemma keeps_set_tsig r c : keeps (k_set_tsig r c).
Proof. unfold k_set_tsig. keep. Qed.
Lemma keeps_set_psig r c : keeps (k_set_psig r c).
Proof. unfold k_set_psig. keep. Qed.
Lemma keeps_drop_mm r : keeps (drop_mm r).
Proof.
  intros k a k'. unfold drop_mm. destruct (k_mms k !! r); [|done].
  destruct (drop_memory_set _ _) as [[u w]|]; [by intros [= <- <-]|done].
Qed.
#[export] Hint Resolve keeps_current keeps_mm_token keeps_write_u32 keeps_forget keeps_wake : keeps.
#[export] Hint Resolve keeps_tid keeps_set_trap keeps_set_tsig keeps_set_psig keeps_drop_mm : keeps.

Lemma proc_at_Ret r k p k' : proc_at r k = Ret (p, k') -> k_procs k !! r = Some p /\ k' = k.
Proof. unfold proc_at. destruct (k_procs k !! r); [by intros [= <- <-]|done]. Qed.

Lemma tree_node k r p : k_procs k !! r = Some p -> t_nodes (tree k) !! r = Some (node_of p).
Proof. intros H. cbn. by rewrite lookup_fmap, H. Qed.

Lemma tree_pcb k r n : t_nodes (tree k) !! r = Some n -> exists p, k_procs k !! r = Some p /\ node_of p = n.
Proof. cbn. rewrite lookup_fmap. intros (p & Hn & Hp)%fmap_Some. by exists p. Qed.

(** An update of one node. *)
Definition upd_node (r : Z) (f : pnode -> pnode) (T : ptree) : ptree :=
  mkTree (alter f r (t_nodes T)) (t_pid2pc T) (t_ids T).

Lemma update_tree r f g k a k' : (forall p, node_of (f p) = g (node_of p)) ->
  proc_update r f k = Ret (a, k') -> is_Some (t_nodes (tree k) !! r) /\ tree k' = upd_node r g (tree k).
Proof.
  intros Hf. unfold proc_update, proc_at, mbind, ST_bind, st_modify.
  destruct (k_procs k !! r) as [p|] eqn:E; [|done]. intros [= <- <-]. split.
  { eexists. by apply tree_node. }
  unfold tree, upd_node. cbn. f_equal. apply map_eq. intros j.
  rewrite lookup_fmap. destruct (decide (j = r)) as [->|Hne].
  - rewrite lookup_insert_eq, lookup_alter_eq, lookup_fmap, E. cbn. by rewrite Hf.
  - by rewrite lookup_insert_ne, lookup_alter_ne, lookup_fmap.
Qed.

(** ** Exit *)

Definition with_parent (v : Z) (n : pnode) : pnode := mkPN (n_pid n) v (n_children n).
Definition with_children (l : list Z) (n : pnode) : pnode := mkPN (n_pid n) (n_parent n) l.

(** What the move of [cs] to the process [init] with the pid [ipid] makes of
    a tree. *)
Definition moved (init ipid : Z) (cs : list Z) (T T' : ptree) : Prop :=
  t_pid2pc T' = t_pid2pc T /\ t_ids T' = t_ids T /\
  (forall i, t_nodes T !! init = Some i -> t_nodes T' !! init = Some (with_children (n_children i ++ cs) i)) /\
  (forall x, x <> init -> t_nodes T' !! x =
     (if bool_decide (x ∈ cs) then with_parent ipid <$> t_nodes T !! x else t_nodes T !! x)).

Lemma move_loop init ipid cs : forall k a k',
  (forall c, c ∈ cs -> c <> init) ->
  st_iter (fun child =>
          _ ← proc_update child (set_parent ipid);
          proc_update init (fun i => set_children (p_children i ++ [child]) i)) cs k = Ret (a, k') ->
  moved init ipid cs (tree k) (tree k').
Proof.
  induction cs as [|c cs IH]; intros k a k' Hc.
  - intros [= <- <-]. split; [done|]. split; [done|]. split.
    + intros [x y z] ->. unfold with_children. cbn. by rewrite app_nil_r.
    + intros x _. by rewrite bool_decide_false by set_solver.
  - cbn [st_iter]. intros (u & k2 & (u' & k1 & H1 & H2)%st_bind_Ret & H3)%st_bind_Ret.
    apply (update_tree _ _ (with_parent ipid)) in H1 as [_ H1]; [|done].
    apply (update_tree _ _ (fun i => with_children (n_children i ++ [c]) i)) in H2 as [_ H2]; [|done].
    apply IH in H3 as (Ha & Hb & Hi & Hx); [|set_solver].
    assert (c <> init) as Hci by set_solver.
    rewrite H2, H1 in Ha, Hb, Hi, Hx. unfold upd_node in Ha, Hb, Hi, Hx.
    cbn [t_nodes t_pid2pc t_ids] in Ha, Hb, Hi, Hx.
    split; [done|]. split; [done|]. split.
    + intros i E. rewrite (Hi (with_children (n_children i ++ [c]) i)).
      * unfold with_children. cbn. by rewrite <- app_assoc.
      * rewrite lookup_alter_eq, lookup_alter_ne by done. by rewrite E.
    + intros x Hne. rewrite (Hx x Hne), lookup_alter_ne by done.
      destruct (decide (x = c)) as [->|Hxc].
      * rewrite lookup_alter_eq, (bool_decide_true (c ∈ c :: cs)) by set_solver.
        destruct (t_nodes (tree k) !! c); [|by case_bool_decide]. cbn. by case_bool_decide.
      * rewrite lookup_alter_ne by done.
        assert (bool_decide (x ∈ c :: cs) = bool_decide (x ∈ cs)) as ->; [|done].
        apply bool_decide_ext. set_solver.
Qed.

Lemma ids_NoDup base a held : ids_ok base a held -> NoDup held.
Proof.
  intros [Hp _]. assert (NoDup (held ++ recycled a)) as H by (rewrite Hp; apply NoDup_zrange).
  by apply list.NoDup_app in H as (H & _).
Qed.

Lemma pid_inj N r n r' n' : NoDup (pids N) -> N !! r = Some n -> N !! r' = Some n' ->
  n_pid n = n_pid n' -> r = r'.
Proof.
  intros Hnd Hr Hr' E. destruct (decide (r = r')) as [|Hne]; [done|exfalso].
  assert (pidmap N !! r = Some (n_pid n)) as H1 by (unfold pidmap; by rewrite lookup_fmap, Hr).
  assert (delete r (pidmap N) !! r' = Some (n_pid n)) as H2.
  { rewrite lookup_delete_ne by done. unfold pidmap. by rewrite lookup_fmap, Hr', E. }
  unfold pids in Hnd. rewrite <- (map_to_list_delete _ _ _ H1) in Hnd. cbn in Hnd.
  apply list.NoDup_cons in Hnd as [Hnin _]. apply Hnin. apply elem_of_map_to_list in H2.
  apply list_elem_of_fmap. by exists (r', n_pid n).
Qed.

Lemma tree_inj strict init T r n r' n' : tree_wf strict init T -> t_nodes T !! r = Some n ->
  t_nodes T !! r' = Some n' -> n_pid n = n_pid n' -> r = r'.
Proof. intros Hw. apply pid_inj. eapply ids_NoDup, Hw. Qed.

Lemma pids_ext N N' : (forall x, n_pid <$> N' !! x = n_pid <$> N !! x) -> pids N' = pids N.
Proof.
  intros H. unfold pids. do 2 f_equal. apply map_eq. intros x. unfold pidmap. by rewrite !lookup_fmap.
Qed.

(** The tree after the exit of [p], whose children [cs] go to [init]. *)
Lemma wf_moved strict init T T1 p n i : tree_wf strict init T -> p <> init ->
  t_nodes T !! p = Some n -> t_nodes T !! init = Some i ->
  moved init (n_pid i) (n_children n) T T1 ->
  tree_wf strict init (upd_node p (with_children []) T1).
Proof.
  intros Hw Hne Hp Hi (E1 & E2 & E3 & E4). specialize (E3 i Hi).
  set (f x m := mkPN (n_pid m) (if bool_decide (x ∈ n_children n) then n_pid i else n_parent m)
       (if bool_decide (x = p) then [] else if bool_decide (x = init) then n_children m ++ n_children n
        else n_children m)).
  assert (init ∉ n_children n) as Hin.
  { intros Hc. by destruct (tw_child strict init T Hw p n init Hp Hc) as (? & _ & _ & _ & _ & ?). }
  assert (forall x, t_nodes (upd_node p (with_children []) T1) !! x = f x <$> t_nodes T !! x) as HL.
  { intros x. cbn [upd_node t_nodes]. destruct (decide (x = p)) as [->|Hxp].
    - rewrite lookup_alter_eq, E4, Hp by done. unfold f. cbn. by repeat case_bool_decide.
    - rewrite lookup_alter_ne by done. destruct (decide (x = init)) as [->|Hxi].
      + rewrite E3, Hi. unfold f. cbn. by repeat case_bool_decide.
      + rewrite E4 by done. unfold f. destruct (t_nodes T !! x) as [[]|]; cbn; repeat case_bool_decide; done. }
  assert (forall r n' c, t_nodes (upd_node p (with_children []) T1) !! r = Some n' -> c ∈ n_children n' ->
    exists r0 m0, t_nodes T !! r0 = Some m0 /\ c ∈ n_children m0 /\ r <> p /\
      (r0 = r /\ n_pid n' = n_pid m0 \/ r0 = p /\ r = init)) as Hlist.
  { intros r n' c. rewrite HL. intros (m & Hm & ->)%fmap_Some Hc. cbn in Hc. case_bool_decide; [by apply elem_of_nil in Hc|].
    case_bool_decide; [|exists r, m; split_and!; auto].
    subst r. apply elem_of_app in Hc as [Hc|Hc]; [exists init, m; split_and!; auto|exists p, n; split_and!; auto]. }
  constructor; cbn [upd_node t_pid2pc t_ids].
  - rewrite E1. apply Hw.
  - intros j r. rewrite E1. intros (m & Hm & <-)%(tw_found strict init T Hw). exists (f r m). by rewrite HL, Hm.
  - intros r n' c Hr Hc. destruct (Hlist r n' c Hr Hc) as (r0 & m0 & Hr0 & Hc0 & Hrp & Hor).
    destruct (tw_child strict init T Hw r0 m0 c Hr0 Hc0) as (mc & Hmc & Hpar & Hbt & Hcr & Hci).
    exists (f c mc). rewrite HL, E1, Hmc. split; [done|]. cbn.
    split; [|split; [done|split; [|done]]].
    + intros Hst. specialize (Hpar Hst). case_bool_decide as Hcn; destruct Hor as [[-> Hpid]|[-> ->]].
      * by destruct Hrp, (tw_once strict init T Hw r m0 p n c).
      * rewrite HL, Hi in Hr. by injection Hr as <-.
      * by rewrite Hpid.
      * rewrite Hp in Hr0. by injection Hr0 as <-.
    + destruct Hor as [[-> _]|[-> ->]]; done.
  - intros r n1 r' n2 c H1 H2 Hc1 Hc2.
    destruct (Hlist r n1 c H1 Hc1) as (r0 & m0 & Hr0 & Hc0 & Hrp & Hor).
    destruct (Hlist r' n2 c H2 Hc2) as (r0' & m0' & Hr0' & Hc0' & Hrp' & Hor').
    assert (r0 = r0') as <- by (by apply (tw_once strict init T Hw r0 m0 r0' m0' c)).
    destruct Hor as [[? _]|[? ?]], Hor' as [[? _]|[? ?]]; congruence.
  - intros r n'. rewrite HL. intros (m & Hm & ->)%fmap_Some. cbn.
    pose proof (tw_nodup strict init T Hw r m Hm) as Hnd.
    case_bool_decide; [by constructor|]. case_bool_decide; [|done]. subst r.
    apply list.NoDup_app. split; [done|]. split; [|by apply (tw_nodup strict init T Hw p)].
    intros c Hc Hc'. by apply Hne, (tw_once strict init T Hw p n init m c).
  - rewrite HL, Hi. by eexists.
  - rewrite E2. rewrite (pids_ext (t_nodes T)); [apply Hw|]. intros x.
    rewrite HL. by destruct (t_nodes T !! x).
Qed.

(** ** Actions that keep the tree well formed *)

Definition safe (strict : bool) (init : Z) {A} (m : ST kern A) : Prop :=
  forall k a k', tree_wf strict init (tree k) -> m k = Ret (a, k') -> tree_wf strict init (tree k').

Create HintDb safe.

Lemma keeps_safe strict init {A} (m : ST kern A) : keeps m -> safe strict init m.
Proof. intros H k a k' Hw Hm. by rewrite (H k a k' Hm). Qed.

Lemma safe_bind strict init {A B} (m : ST kern A) (f : A -> ST kern B) :
  safe strict init m -> (forall a, safe strict init (f a)) -> safe strict init (m ≫= f).
Proof.
  intros Hm Hf k b k' Hw (a & k1 & H1 & H2)%st_bind_Ret. apply (Hf a k1 b k'); [|done]. by apply (Hm k a).
Qed.

Lemma reparent_safe strict init p : safe strict init (reparent init p).
Proof.
  intros k a k' Hw. unfold reparent.
  intros (pcb & k1 & [Hp ->]%proc_at_Ret & (ip & k2 & [Hi ->]%proc_at_Ret & H)%st_bind_Ret)%st_bind_Ret.
  destruct (Z.eqb_spec (p_pid pcb) (p_pid ip)) as [|Hne]; [by injection H as <- <-|].
  apply st_bind_Ret in H as (u & k3 & H1 & H2). apply tree_node in Hp, Hi.
  apply move_loop in H1.
  - apply (update_tree _ _ (with_children [])) in H2 as [_ ->]; [|done].
    apply (wf_moved strict init (tree k) _ p (node_of pcb) (node_of ip)); [done| |done|done|exact H1].
    intros ->. rewrite Hi in Hp. by injection Hp as E _.
  - intros c Hc. by destruct (tw_child strict init _ Hw p (node_of pcb) c Hp Hc) as (? & _ & _ & _ & _ & ?).
Qed.

#[export] Hint Resolve reparent_safe : safe.

(** Like [keep], for [safe]. *)
Ltac keep_safe :=
  repeat (intros; first
    [ progress cbv beta
    | solve [auto with safe]
    | solve [apply keeps_safe; keep]
    | apply safe_bind
    | match goal with
      | |- safe _ _ (if ?b then _ else _) => destruct b
      | |- safe _ _ (match ?x with _ => _ end) => destruct x
      end ]).

Lemma keeps_clear_thread fr p t : keeps (clear_thread fr p t).
Proof. unfold clear_thread. keep. Qed.
#[export] Hint Resolve keeps_clear_thread : keeps.

Lemma exit_proc_safe strict init fr fw code : safe strict init (exit_proc fr fw init code).
Proof. unfold exit_proc. keep_safe. Qed.
#[export] Hint Resolve exit_proc_safe : safe.

Lemma exit_current_safe strict init fr fw fuel code : safe strict init (exit_current fr fw init fuel code).
Proof. unfold exit_current. keep_safe. Qed.

(** ** Wait *)

Lemma pid2pc_remove (k j : Z) (t : list (Z * Z)) : bt_sorted t ->
  bt_get j (bt_remove k t) = (if decide (j = k) then None else bt_get j t).
Proof.
  intros H. rewrite get_remove by done. destruct (decide (j = k)) as [->|Hne]; [by rewrite kcmp_refl|].
  destruct (kcmp j k) eqn:E; try done. by apply kcmp_eq in E.
Qed.

Lemma pid2pc_insert (k r j : Z) (t : list (Z * Z)) : bt_sorted t ->
  bt_get j (bt_insert k r t) = (if decide (j = k) then Some r else bt_get j t).
Proof.
  intros H. rewrite get_insert by done. destruct (decide (j = k)) as [->|Hne]; [by rewrite kcmp_refl|].
  destruct (kcmp j k) eqn:E; try done. by apply kcmp_eq in E.
Qed.

Definition reaped (p : Z) (idx : nat) (pid : Z) (T : ptree) : ptree :=
  let T' := upd_node p (fun n => with_children (delete idx (n_children n)) n) T in
  mkTree (t_nodes T') (bt_remove pid (t_pid2pc T)) (t_ids T).

Lemma wf_reaped strict init T p n idx c m : tree_wf strict init T -> t_nodes T !! p = Some n ->
  n_children n !! idx = Some c -> t_nodes T !! c = Some m ->
  tree_wf strict init (reaped p idx (n_pid m) T).
Proof.
  intros Hw Hp Hidx Hm. pose proof (tw_nodup strict init T Hw p n Hp) as Hnd.
  assert (forall x, t_nodes (reaped p idx (n_pid m) T) !! x =
    (if bool_decide (x = p) then Some (with_children (delete idx (n_children n)) n) else t_nodes T !! x)) as HL.
  { intros x. cbn. case_bool_decide; [subst; by rewrite lookup_alter_eq, Hp|by rewrite lookup_alter_ne]. }
  assert (forall r n' x, t_nodes (reaped p idx (n_pid m) T) !! r = Some n' -> x ∈ n_children n' ->
    x <> c /\ exists n0, t_nodes T !! r = Some n0 /\ x ∈ n_children n0 /\ n_pid n0 = n_pid n') as Hlist.
  { intros r n' x. rewrite HL. case_bool_decide as E; [subst r; intros [= <-]; cbn|].
    - rewrite delete_take_drop. intros Hx.
      rewrite <- (take_drop_middle _ _ _ Hidx) in Hnd. apply list.NoDup_app in Hnd as (_ & H1 & H2).
      apply list.NoDup_cons in H2 as [H2 _]. split; [set_solver|]. exists n. split; [done|].
      split; [|done]. rewrite <- (take_drop_middle _ _ _ Hidx). set_solver.
    - intros Hr Hx. split; [|by exists n']. intros ->. apply E.
      by apply (tw_once strict init T Hw r n' p n c), list_elem_of_lookup_2 with idx. }
  constructor; cbn [reaped t_pid2pc t_ids].
  - apply remove_sorted, Hw.
  - intros i r. rewrite pid2pc_remove by apply Hw. destruct (decide _); [done|].
    intros (m' & Hm' & <-)%(tw_found strict init T Hw). rewrite HL. case_bool_decide; [|by exists m'].
    subst. simplify_eq. by eexists.
  - intros r n' x Hr Hx. destruct (Hlist r n' x Hr Hx) as (Hxc & n0 & Hr0 & Hx0 & Hpid).
    destruct (tw_child strict init T Hw r n0 x Hr0 Hx0) as (mx & Hmx & Hpar & Hbt & ? & ?).
    assert (exists mx', t_nodes (reaped p idx (n_pid m) T) !! x = Some mx' /\
              n_pid mx' = n_pid mx /\ n_parent mx' = n_parent mx) as (mx' & E & E1 & E2).
    { rewrite HL. case_bool_decide; [|by exists mx]. subst. simplify_eq. by eexists. }
    exists mx'. rewrite E1, E2. split; [done|]. split; [rewrite <- Hpid; exact Hpar|]. split; [|done].
    rewrite pid2pc_remove by apply Hw. destruct (decide _); [|done].
    exfalso. by apply Hxc, (tree_inj strict init T x mx c m).
  - intros r n1 r' n2 x H1 H2 Hx1 Hx2.
    destruct (Hlist r n1 x H1 Hx1) as (_ & m1 & ? & ? & _), (Hlist r' n2 x H2 Hx2) as (_ & m2 & ? & ? & _).
    by apply (tw_once strict init T Hw r m1 r' m2 x).
  - intros r n'. rewrite HL. case_bool_decide; [|by apply (tw_nodup strict init T Hw)].
    intros [= <-]. cbn. apply (sublist_NoDup _ (n_children n)); [done|apply sublist_delete].
  - rewrite HL. case_bool_decide; [by eexists|apply Hw].
  - rewrite (pids_ext (t_nodes T)); [apply Hw|]. intros x. rewrite HL.
    case_bool_decide; [subst; by rewrite Hp|done].
Qed.

Lemma keeps_any_wanted pid l : keeps (any_wanted pid l).
Proof. induction l; cbn [any_wanted]; keep. Qed.
Lemma keeps_find_zombie pid l : forall i, keeps (find_zombie pid l i).
Proof. induction l; intros; cbn [find_zombie]; keep. Qed.
Lemma keeps_watch_list l : keeps (watch_list l).
Proof. induction l; cbn [watch_list]; keep. Qed.
Lemma keeps_poll_wait w f : keeps (poll_wait w f).
Proof. unfold poll_wait. keep. Qed.
#[export] Hint Resolve keeps_any_wanted keeps_find_zombie keeps_watch_list keeps_poll_wait : keeps.

Lemma pid2pc_tree f k a k' : st_modify (fun k => k_set_pid2pc (f (PID2PC k)) k) k = Ret (a, k') ->
  tree k' = mkTree (t_nodes (tree k)) (f (t_pid2pc (tree k))) (t_ids (tree k)).
Proof. by intros [= <- <-]. Qed.

Lemma wait_reap_wf strict init fr p idx child wstatus pcb k a k' : tree_wf strict init (tree k) ->
  t_nodes (tree k) !! p = Some (node_of pcb) -> p_children pcb !! idx = Some child ->
  wait_reap fr p (Z.of_nat idx) child wstatus pcb k = Ret (a, k') ->
  exists c, k_procs k !! child = Some c /\ tree k' = reaped p idx (p_pid c) (tree k) /\
    tree_wf strict init (tree k').
Proof.
  intros Hw Hp Hidx. unfold wait_reap.
  intros (c & k1 & [Hc ->]%proc_at_Ret & (u & k2 & H2 & (u' & k3 & H3 & H4)%st_bind_Ret)%st_bind_Ret)%st_bind_Ret.
  rewrite Nat2Z.id, <- delete_take_drop in H2. exists c. split; [done|].
  apply (update_tree _ _ (with_children (delete idx (p_children pcb)))) in H2 as [_ H2]; [|done].
  apply (pid2pc_tree (bt_remove (p_pid c))) in H3. rewrite H2 in H3.
  assert (tree k3 = reaped p idx (p_pid c) (tree k)) as E3.
  { rewrite H3. unfold reaped, upd_node. cbn [t_nodes t_pid2pc t_ids]. f_equal. apply map_eq. intros x.
    destruct (decide (x = p)) as [->|]; [|by rewrite !lookup_alter_ne].
    by rewrite !lookup_alter_eq, Hp. }
  assert (tree k' = tree k3) as E4.
  { revert H4. match goal with |- ?m k3 = _ -> _ => assert (keeps m) as Hk by keep end.
    intros H. by apply (Hk k3 a). }
  split; [by rewrite E4|]. rewrite E4, E3.
  change (p_pid c) with (n_pid (node_of c)).
  apply (wf_reaped strict init (tree k) p (node_of pcb) idx child (node_of c)); try done. by apply tree_node.
Qed.

Lemma wait_round_safe strict init fr p pid wstatus options : safe strict init (wait_round fr p pid wstatus options).
Proof.
  intros k a k' Hw. unfold wait_round.
  intros (pcb & k1 & [Hp%tree_node ->]%proc_at_Ret & H)%st_bind_Ret.
  apply (keeps_step tree) in H as (found & k2 & E2 & _ & H); [|keep].
  destruct (_ && _) in H; [injection H as <- <-; by rewrite E2|].
  apply (keeps_step tree) in H as (z & k3 & E3 & Hz & H); [|keep]. rewrite E2 in E3.
  destruct z as [idx|].
  - apply (keeps_step tree) in H as (child & k4 & E4 & Hch & H); [|keep]. rewrite E3 in E4.
    apply st_bind_Ret in H as (r & k5 & H & H5). injection H5 as <- <-.
    rewrite <- E4 in Hw, Hp. unfold st_lift in Hch. destruct (p_children pcb !! idx) eqn:Hi; [|done].
    injection Hch as -> _.
    by destruct (wait_reap_wf strict init fr p idx child wstatus pcb k4 r k5 Hw Hp Hi H) as (_ & _ & _ & ?).
  - rewrite <- E3 in Hw. revert H. match goal with |- ?m k3 = _ -> _ => assert (keeps m) as Hk by keep end.
    intros H. by rewrite (Hk k3 a k' H).
Qed.

#[export] Hint Resolve wait_round_safe : safe.

Lemma wait_loop_safe strict init fr w p pid wstatus options : forall fuel,
  safe strict init (wait_loop fr fuel w p pid wstatus options).
Proof. induction fuel; cbn [wait_loop]; keep_safe. Qed.
#[export] Hint Resolve wait_loop_safe : safe.

Lemma sys_wait4_safe strict init fr fuel pid wstatus options : safe strict init (sys_wait4 fr fuel pid wstatus options).
Proof. unfold sys_wait4. keep_safe. Qed.
Lemma wait4_resume_safe strict init fr fuel p pid wstatus options f :
  safe strict init (wait4_resume fr fuel p pid wstatus options f).
Proof. unfold wait4_resume. keep_safe. Qed.

(** ** Clone *)

Lemma keeps_fork_mm env src pid : keeps (fork_mm env src pid).
Proof.
  intros k a k'. unfold fork_mm. destruct (k_mms k !! src); [|done].
  destruct (from_existed_user _ _ _ _ _ _) as [[[ms' shm'] w]|]; [by intros [= <- <-]|done].
Qed.
Lemma keeps_clone_user_res a b : keeps (clone_user_res a b).
Proof. unfold clone_user_res. keep. Qed.
Lemma keeps_clone_thread env self tid : keeps (clone_thread env self tid).
Proof. unfold clone_thread. keep. Qed.
Lemma keeps_clone_finish env flags token ctid tid res : keeps (clone_finish env flags token ctid tid res).
Proof. unfold clone_finish. keep. Qed.
#[export] Hint Resolve keeps_fork_mm keeps_clone_user_res keeps_clone_thread keeps_clone_finish : keeps.

(** The new process [new] as a child of [self]. *)
Definition forked (new self pid parent : Z) (T : ptree) : ptree :=
  mkTree (alter (fun n => with_children (n_children n ++ [new]) n) self
            (<[new := mkPN pid parent []]> (t_nodes T)))
    (bt_insert pid new (t_pid2pc T)) (t_ids T).

Lemma clone_process_tree env self flags us pid tid parent mm k a k' :
  clone_process env self flags us pid tid parent mm k = Ret (a, k') ->
  tree k' = forked (ce_proc env) self pid parent (tree k).
Proof.
  unfold clone_process. intros H.
  apply (keeps_step tree) in H as (cur & k1 & E1 & _ & H); [|keep].
  apply (keeps_step tree) in H as (cpcb & k2 & E2 & _ & H); [|keep].
  apply (keeps_step tree) in H as (sig & k3 & E3 & _ & H); [|keep].
  apply (keeps_step tree) in H as (p & k4 & E4 & _ & H); [|keep].
  apply (keeps_step tree) in H as (u5 & k5 & E5 & _ & H); [|keep].
  apply (keeps_step tree) in H as (u6 & k6 & E6 & _ & H); [|keep].
  apply st_bind_Ret in H as (u7 & k7 & H7 & H).
  apply (keeps_step tree) in H as (u8 & k8 & E8 & _ & H); [|keep].
  apply (keeps_step tree) in H as (u9 & k9 & E9 & _ & H); [|keep].
  apply (keeps_step tree) in H as (u10 & k10 & E10 & _ & H); [|keep].
  apply (keeps_step tree) in H as (u11 & k11 & E11 & _ & H); [|keep].
  apply st_bind_Ret in H as (u12 & k12 & H12 & H). apply st_bind_Ret in H as (u13 & k13 & H13 & H14).
  apply (update_tree _ _ (fun n => with_children (n_children n ++ [ce_proc env]) n)) in H12 as [_ E12]; [|done].
  apply (pid2pc_tree (bt_insert pid (ce_proc env))) in H13. injection H14 as _ <-.
  rewrite H13, E12, E11, E10, E9, E8. injection H7 as _ <-.
  rewrite <- E1, <- E2, <- E3, <- E4, <- E5, <- E6.
  unfold forked, upd_node, tree. cbn. by rewrite fmap_insert.
Qed.

Lemma wf_forked strict init T new self n pid par a' : tree_wf strict init T ->
  t_nodes T !! new = None -> t_nodes T !! self = Some n -> id_alloc (t_ids T) = Ret (pid, a') ->
  (strict = true -> par = n_pid n) ->
  tree_wf strict init (forked new self pid par (mkTree (t_nodes T) (t_pid2pc T) a')).
Proof.
  intros Hw Hnew Hself Ha Hpn0. pose proof (id_alloc_ok 1 _ _ _ _ (tw_ids strict init T Hw) Ha) as Hids.
  pose proof (ids_NoDup _ _ _ Hids) as [Hfresh _]%list.NoDup_cons.
  assert (forall r m, t_nodes T !! r = Some m -> n_pid m <> pid) as Hpid.
  { intros r m Hm <-. apply Hfresh. unfold pids, pidmap. apply list_elem_of_fmap.
    exists (r, n_pid m). split; [done|]. apply elem_of_map_to_list. by rewrite lookup_fmap, Hm. }
  set (T' := forked new self pid par (mkTree (t_nodes T) (t_pid2pc T) a')).
  assert (new <> self) as Hns by congruence.
  assert (forall x, t_nodes T' !! x = if bool_decide (x = new) then Some (mkPN pid par [])
     else if bool_decide (x = self) then Some (with_children (n_children n ++ [new]) n)
     else t_nodes T !! x) as HL.
  { intros x. cbn. repeat case_bool_decide; subst.
    - by rewrite lookup_alter_ne, lookup_insert_eq.
    - by rewrite lookup_alter_eq, lookup_insert_ne, Hself.
    - by rewrite lookup_alter_ne, lookup_insert_ne. }
  assert (forall x m, t_nodes T !! x = Some m -> exists m', t_nodes T' !! x = Some m' /\
    n_pid m' = n_pid m /\ n_parent m' = n_parent m) as Hold.
  { intros x m Hm. rewrite HL. case_bool_decide; [congruence|]. case_bool_decide; [|by exists m].
    subst. simplify_eq. by eexists. }
  assert (new <> init) as Hni by (destruct (tw_init strict init T Hw); congruence).
  assert (forall r n' c, t_nodes T' !! r = Some n' -> c ∈ n_children n' ->
    c = new /\ r = self /\ n_pid n' = n_pid n \/ exists n0, t_nodes T !! r = Some n0 /\
      c ∈ n_children n0 /\ n_pid n' = n_pid n0) as Hlist.
  { intros r n' c Hr Hc. rewrite HL in Hr. case_bool_decide; [injection Hr as <-; cbn in Hc; set_solver|].
    case_bool_decide; [|right; by exists n']. injection Hr as <-. cbn in Hc. subst.
    apply elem_of_app in Hc as [Hc| ->%list_elem_of_singleton]; [right; by exists n|by left]. }
  assert (forall r n0, t_nodes T !! r = Some n0 -> new ∉ n_children n0) as Hnl.
  { intros r n0 Hr0 Hx. by destruct (tw_child strict init T Hw r n0 new Hr0 Hx) as (? & ? & _); simplify_eq. }
  constructor; cbn [T' forked t_pid2pc t_ids].
  - apply insert_sorted, Hw.
  - intros i r. rewrite pid2pc_insert by apply Hw. destruct (decide (i = pid)) as [->|].
    + intros [= <-]. rewrite HL, bool_decide_true by done. by eexists.
    + intros (m & Hm & <-)%(tw_found strict init T Hw). destruct (Hold r m Hm) as (m' & ? & ? & _). by exists m'.
  - intros r n' c Hr Hc.
    destruct (Hlist r n' c Hr Hc) as [(-> & -> & Hpn)|(n0 & Hr0 & Hc0 & Hpn)].
    + exists (mkPN pid par []). rewrite HL, bool_decide_true by done. split; [done|].
      split; [by rewrite Hpn|]. rewrite pid2pc_insert by apply Hw. cbn. by destruct (decide (pid = pid)).
    + destruct (tw_child strict init T Hw r n0 c Hr0 Hc0) as (m & Hm & Hpar & Hbt & ? & ?).
      destruct (Hold c m Hm) as (m' & ? & E1 & E2). exists m'. rewrite E1, E2, Hpn.
      split; [done|]. split; [done|]. rewrite pid2pc_insert by apply Hw.
      destruct (decide _) as [E|]; [by destruct (Hpid c m Hm E)|done].
  - intros r n1 r' n2 c H1 H2 Hc1 Hc2.
    destruct (Hlist r n1 c H1 Hc1) as [(E1 & F1 & _)|(m1 & Hm1 & Hd1 & _)],
      (Hlist r' n2 c H2 Hc2) as [(E2 & F2 & _)|(m2 & Hm2 & Hd2 & _)]; [congruence| | |].
    + subst c. by destruct (Hnl r' m2 Hm2).
    + subst c. by destruct (Hnl r m1 Hm1).
    + by apply (tw_once strict init T Hw r m1 r' m2 c).
  - intros r n'. rewrite HL. case_bool_decide; [intros [= <-]; by constructor|].
    case_bool_decide; [|by apply (tw_nodup strict init T Hw)]. intros [= <-]. cbn. subst.
    apply list.NoDup_app. split; [by apply (tw_nodup strict init T Hw self)|]. split; [|apply NoDup_singleton].
    intros x Hx ->%list_elem_of_singleton. by destruct (Hnl self n Hself).
  - destruct (tw_init strict init T Hw) as [i Hi]. destruct (Hold init i Hi) as (m' & ? & _). by exists m'.
  - assert (pidmap (t_nodes T') = <[new := pid]> (pidmap (t_nodes T))) as E.
    { apply map_eq. intros x. unfold pidmap. rewrite lookup_fmap, HL.
      case_bool_decide; [subst; by rewrite lookup_insert_eq|]. rewrite lookup_insert_ne, lookup_fmap by done.
      case_bool_decide; [subst; by rewrite Hself|done]. }
    destruct Hids as [Hperm Hbase]. constructor; [|done]. rewrite <- Hperm. unfold pids at 1.
    rewrite E, map_to_list_insert; [done|]. unfold pidmap. by rewrite lookup_fmap, Hnew.
Qed.

(** The pid of a new process. *)
Lemma pid_alloc_tree k a k' : k_pid_alloc k = Ret (a, k') ->
  exists ids, id_alloc (t_ids (tree k)) = Ret (a, ids) /\
    tree k' = mkTree (t_nodes (tree k)) (t_pid2pc (tree k)) ids.
Proof.
  unfold k_pid_alloc, pid_alloc. intros (al & k1 & [= <- <-] & H)%st_bind_Ret.
  apply st_bind_Ret in H as ([pid ids] & k2 & H1 & H). unfold st_lift in H1.
  destruct (id_alloc (PID_ALLOCATOR k)) as [[pid' ids']|] eqn:E; [|done].
  injection H1 as -> -> <-. injection H as -> <-. by exists ids.
Qed.

Lemma pid_drop_wf strict init k0 k pid ids a k' : tree_wf strict init (tree k0) ->
  id_alloc (t_ids (tree k0)) = Ret (pid, ids) ->
  tree k = mkTree (t_nodes (tree k0)) (t_pid2pc (tree k0)) ids ->
  k_pid_drop pid k = Ret (a, k') -> tree_wf strict init (tree k').
Proof.
  intros Hw Ha Hk. unfold k_pid_drop, pid_handle_drop.
  intros (al & k1 & [= <- <-] & H)%st_bind_Ret. apply st_bind_Ret in H as (ids' & k2 & H1 & H2).
  pose proof (id_alloc_ok 1 _ _ _ _ (tw_ids strict init _ Hw) Ha) as Hids.
  destruct (id_dealloc_eq 1 ids [] pid (pids (t_nodes (tree k0))) Hids) as [E Hok].
  assert (PID_ALLOCATOR k = ids) as Ei by (injection Hk as _ _ ?; done).
  unfold st_lift in H1. rewrite Ei, E in H1. injection H1 as <- <-. injection H2 as <- <-.
  injection Hk as Hn Hp _.
  destruct Hw as [W1 W2 W3 W4 W5 W6 W7]. unfold tree in *. cbn [t_nodes t_pid2pc t_ids k_procs PID2PC PID_ALLOCATOR] in *.
  constructor; cbn [t_nodes t_pid2pc t_ids k_procs PID2PC PID_ALLOCATOR]; rewrite ?Hn, ?Hp; done.
Qed.

Ltac kstep H a k E := apply (keeps_step tree) in H as (a & k & E & _ & H); [|keep].

Lemma clone_task_safe strict init fr env self flags us ptid tls ctid k a k' :
  tree_wf strict init (tree k) -> (strict = true -> fl_contains flags CLONE_PARENT = false) ->
  t_nodes (tree k) !! ce_proc env = None ->
  clone_task fr env self flags us ptid tls ctid k = Ret (a, k') -> tree_wf strict init (tree k').
Proof.
  intros Hw Hpar Hnew. unfold clone_task.
  intros (pcb & k1 & [Hp%tree_node ->]%proc_at_Ret & H)%st_bind_Ret.
  kstep H mm k2 E2. kstep H tok k3 E3. kstep H ct k4 E4. kstep H ots k5 E5. kstep H ts k6 E6.
  rewrite E5, E4, E3, E2 in E6.
  destruct (fl_contains flags CLONE_THREAD) eqn:Hth.
  { apply (keeps_rest tree) in H; [|keep].
by rewrite H, E6. }
  apply st_bind_Ret in H as (pid & k7 & (ids & Ha & E7)%pid_alloc_tree & H). rewrite E6 in Ha, E7.
  kstep H otc k8 E8. kstep H tcx k9 E9. kstep H tid k10 E10. kstep H u11 k11 E11. kstep H u12 k12 E12.
  kstep H u13 k13 E13. kstep H r k14 E14. rewrite E13, E12, E11, E10, E9, E8, E7 in E14.
  destruct r as [u|e].
  - apply st_bind_Ret in H as (res & k15 & H15%clone_process_tree & H).
    apply (keeps_rest tree) in H; [|keep]. rewrite H, H15, E14.
    apply (wf_forked strict init (tree k) (ce_proc env) self (node_of pcb)); try done.
    intros Hst. by rewrite (Hpar Hst).
  - kstep H u15 k15 E15. rewrite E14 in E15. apply st_bind_Ret in H as (u16 & k16 & H16 & H).
    apply (keeps_rest tree) in H; [|keep]. rewrite H. by apply (pid_drop_wf strict init k k15 pid ids u16).
Qed.

Lemma sys_clone_safe strict init fr env flags us ptid tls ctid k a k' :
  tree_wf strict init (tree k) -> (strict = true -> fl_contains flags CLONE_PARENT = false) ->
  t_nodes (tree k) !! ce_proc env = None ->
  sys_clone fr env flags us ptid tls ctid k = Ret (a, k') -> tree_wf strict init (tree k').
Proof.
  intros Hw Hpar Hnew. unfold sys_clone. intros H. kstep H p k1 E1.
  apply st_bind_Ret in H as (fl & k2 & Hfl & H). unfold st_lift, fl_from_bits in Hfl.
  destruct (Z.land _ _ =? _); [|done]. injection Hfl as <- <-.
  destruct (clone_check _ _) as [e|]; [injection H as _ <-; by rewrite E1|].
  rewrite <- E1 in Hw, Hnew.
  apply (clone_task_safe strict init fr env p (Z.ldiff flags 63) us ptid tls ctid k1 a k'); try done.
  intros Hst. specialize (Hpar Hst). revert Hpar. unfold fl_contains, CLONE_PARENT. rewrite !Z.eqb_neq. intros Hpar E. apply Hpar.
  rewrite <- E at 2. by rewrite Z.ldiff_land, <- Z.land_assoc.
Qed.

(** ** The end of a control block *)

(** The drop of a control block with its last reference: the pid is returned
    and the reference to the main task goes. *)
Definition pcb_drop (r : Z) : ST kern unit :=
  p ← proc_at r;
  _ ← st_modify (fun k => k_set_procs (delete r (k_procs k)) k);
  _ ← k_pid_drop (p_pid p);
  on_kx (task_arc_drop (p_main p)).

(** Neither the table nor a list of children refers to the block. *)
Definition unreferenced (init r : Z) (T : ptree) : Prop :=
  r <> init /\ (forall i, bt_get i (t_pid2pc T) <> Some r) /\
  (forall x n, t_nodes T !! x = Some n -> r ∉ n_children n).

Lemma wf_dropped strict init T r n : tree_wf strict init T -> unreferenced init r T -> t_nodes T !! r = Some n ->
  exists ids, id_dealloc (t_ids T) (n_pid n) = Ret ids /\
    tree_wf strict init (mkTree (delete r (t_nodes T)) (t_pid2pc T) ids).
Proof.
  intros Hw (Hinit & Hpc & Hch) Hr.
  assert (pidmap (t_nodes T) !! r = Some (n_pid n)) as Hpm by (unfold pidmap; by rewrite lookup_fmap, Hr).
  assert (pids (t_nodes T) ≡ₚ n_pid n :: pids (delete r (t_nodes T))) as Hperm.
  { unfold pids. rewrite <- (map_to_list_delete _ _ _ Hpm). cbn. do 3 f_equiv.
    unfold pidmap. by rewrite fmap_delete. }
  destruct (id_dealloc_eq 1 (t_ids T) [] (n_pid n) (pids (delete r (t_nodes T)))) as [E Hok].
  { destruct (tw_ids strict init T Hw) as [H1 H2]. constructor; [|done]. by rewrite <- H1, Hperm. }
  eexists. split; [exact E|].
  constructor; cbn [t_nodes t_pid2pc t_ids].
  - apply Hw.
  - intros i x Hx. destruct (tw_found strict init T Hw i x Hx) as (m & Hm & <-). exists m.
    split; [|done]. rewrite lookup_delete_ne; [done|]. intros ->. by apply (Hpc (n_pid m)).
  - intros x m c. rewrite lookup_delete_Some. intros [Hx Hm] Hc.
    destruct (tw_child strict init T Hw x m c Hm Hc) as (mc & Hmc & ? & ? & ? & ?). exists mc.
    split; [|done]. rewrite lookup_delete_ne; [done|]. intros ->. by apply (Hch x m).
  - intros x m x' m' c [_ Hx]%lookup_delete_Some [_ Hx']%lookup_delete_Some. by apply (tw_once strict init T Hw).
  - intros x m. rewrite lookup_delete_Some. intros [_ Hm]. by apply (tw_nodup strict init T Hw x).
  - rewrite lookup_delete_ne by done. apply Hw.
  - exact Hok.
Qed.

Lemma pcb_drop_wf strict init r k a k' : tree_wf strict init (tree k) -> unreferenced init r (tree k) ->
  pcb_drop r k = Ret (a, k') -> tree_wf strict init (tree k').
Proof.
  intros Hw Hu. unfold pcb_drop. intros (p & k1 & [Hp%tree_node ->]%proc_at_Ret & H)%st_bind_Ret.
  destruct (wf_dropped strict init (tree k) r (node_of p) Hw Hu Hp) as (ids & Ei & Hwf).
  apply st_bind_Ret in H as (u & k2 & [= <- <-] & H). apply st_bind_Ret in H as (u3 & k3 & H3 & H).
  apply (keeps_rest tree) in H; [|keep]. rewrite H.
  unfold k_pid_drop, pid_handle_drop, mbind, ST_bind, st_gets, st_lift, k_set_pids, st_modify in H3.
  cbn [PID_ALLOCATOR k_set_procs] in H3. cbn [t_ids tree node_of n_pid] in Ei. rewrite Ei in H3.
  injection H3 as <- <-. unfold tree in Hwf |- *. cbn. by rewrite fmap_delete.
Qed.

(** ** Reachable states *)

Section run.

Variable file_read : Z -> UserBuffer -> inodes -> ST world (result Z SysErrNo * inodes).
Variable file_write : Z -> UserBuffer -> ST world (result Z SysErrNo).
Variable INITPROC : Z.
Variable strict : bool.

(** The handlers of this development that touch the tree, the drop of a
    block nobody refers to, and anything else the kernel does. *)
Inductive proc_step : kern -> kern -> Prop :=
| ps_exit code k k' :
    exit_proc file_read file_write INITPROC code k = Ret (tt, k') -> proc_step k k'
| ps_exit_thread fuel code b k k' :
    exit_current file_read file_write INITPROC fuel code k = Ret (b, k') -> proc_step k k'
| ps_wait fuel pid wstatus options r k k' :
    sys_wait4 file_read fuel pid wstatus options k = Ret (r, k') -> proc_step k k'
| ps_resume fuel p pid wstatus options f r k k' :
    wait4_resume file_read fuel p pid wstatus options f k = Ret (r, k') -> proc_step k k'
| ps_clone env flags us ptid tls ctid r k k' :
    (strict = true -> fl_contains flags CLONE_PARENT = false) -> k_procs k !! ce_proc env = None ->
    sys_clone file_read env flags us ptid tls ctid k = Ret (r, k') -> proc_step k k'
| ps_drop r k k' :
    unreferenced INITPROC r (tree k) -> pcb_drop r k = Ret (tt, k') -> proc_step k k'
| ps_other k k' : tree k' = tree k -> proc_step k k'.

Lemma step_wf k k' : proc_step k k' -> tree_wf strict INITPROC (tree k) -> tree_wf strict INITPROC (tree k').
Proof.
  intros Hs Hw. destruct Hs as [code k k' H|fuel code b k k' H|fuel pid ws op r k k' H
    |fuel p pid ws op f r k k' H|env fl us ptid tls ctid r k k' Hpar Hnew H|r k k' Hu H|k k' H].
  - by apply (exit_proc_safe strict INITPROC file_read file_write code k tt).
  - by apply (exit_current_safe strict INITPROC file_read file_write fuel code k b).
  - by apply (sys_wait4_safe strict INITPROC file_read fuel pid ws op k r).
  - by apply (wait4_resume_safe strict INITPROC file_read fuel p pid ws op f k r).
  - apply (sys_clone_safe strict INITPROC file_read env fl us ptid tls ctid k r); try done.
    cbn. by rewrite lookup_fmap, Hnew.
  - by apply (pcb_drop_wf strict INITPROC r k tt).
  - by rewrite H.
Qed.

(** C10: Whatever sequence of forks, exits, waits and drops of control blocks
    the kernel goes through, the tree of processes stays well formed: a
    listed child is another process that is found under its pid, no list holds
    a process twice and no two lists hold the same one, and no two control
    blocks share a pid, also when pids are reused.  In runs without
    [CLONE_PARENT] ([strict]) a listed child moreover has the lister as its
    parent; a clone with that flag lists the new process with the caller and
    records the parent of the caller. *)
Theorem process_tree_wf k0 k : tree_wf strict INITPROC (tree k0) -> rtc proc_step k0 k ->
  tree_wf strict INITPROC (tree k) /\
  (forall r r' n n', t_nodes (tree k) !! r = Some n -> t_nodes (tree k) !! r' = Some n' ->
     n_pid n = n_pid n' -> r = r') /\
  (forall r r' n n' c, t_nodes (tree k) !! r = Some n -> t_nodes (tree k) !! r' = Some n' ->
     c ∈ n_children n -> c ∈ n_children n' -> r = r').
Proof.
  intros Hw Hr. assert (tree_wf strict INITPROC (tree k)) as Hk.
  { induction Hr as [|k0 k1 k H1 _ IH]; [done|]. by apply IH, (step_wf k0). }
  split; [done|]. split; intros; [by eapply tree_inj|by eapply (tw_once _ _ _ Hk)].
Qed.

End run.

(** ** A run

    The init process forks a child and waits for it; the child exits with
    code 7, the parent is woken and reaps it, and the block is dropped. *)

Definition no_read : Z -> UserBuffer -> inodes -> ST world (result Z SysErrNo * inodes) :=
  fun _ _ _ => st_panic.
Definition no_write : Z -> UserBuffer -> ST world (result Z SysErrNo) := fun _ _ => st_panic.
Definition trap0 : TrapContext :=
  mkTC (replicate 31 0) 0 0 0 0 (replicate 12 0) 0 0 0 (replicate 32 0) 0 0 0 TrapBlocked.
Definition init_pcb : ProcessControlBlock :=
  mkPCB (replicate 3 (mkTimer 0 0)) 1 1 [1] [] 200 USER_STACK_TOP true 0 [47] [] 1 1 0 0
    (mkFdm [] 1024 1024) 300 Runnable [(1, 1)].
Definition kboot : kern :=
  mkKern (mkSys ex_running [(1, 1)] []) (snd pt70) [] ∅ ShmManager_new {[200 := mkMS (fst pt70) []]}
    {[300 := PSS_default]} {[1 := TaskSignalState_init 0]} {[1 := trap0]} {[100 := init_pcb]}
    [(1, 100)] (mkRA 2 []) 2.
Definition env2 : clone_env := mkCE 2 101 201 301 (root_ppn (fst pt70)) 0.
Definition kafter {A} (m : ST kern A) (k : kern) : kern :=
  match m k with Ret (_, k') => k' | Panic => k end.

Lemma kafter_Ret {A} (m : ST kern A) k a : fst <$> m k = Ret a -> m k = Ret (a, kafter m k).
Proof. unfold kafter. destruct (m k) as [[b k']|]; [|done]. by intros [= <-]. Qed.

Definition kforked : kern := kafter (sys_clone no_read env2 17 0x1000 0 0 0) kboot.
Definition kpending : kern := kafter (sys_wait4 no_read 2 2 0 0) kforked.
Definition kchild : kern := kafter (on_kx schedule_next) (kafter (on_kx (run_task2 Pending)) kpending).
Definition kexited : kern := kafter (exit_proc no_read no_write 100 7) kchild.
Definition kwoken : kern := kafter (on_kx schedule_next) (kafter (on_kx (run_task2 (Ready 7))) kexited).
Definition kreaped : kern := kafter (wait4_resume no_read 2 100 2 0 0 (WaitJoin 2)) kwoken.
Definition kdropped : kern := kafter (pcb_drop 101) kreaped.

(** The child clones with [CLONE_PARENT] instead. *)
Definition env3 : clone_env := mkCE 3 102 202 302 (root_ppn (fst pt70)) 0.
Definition ksibling : kern := kafter (sys_clone no_read env3 (Z.lor 17 CLONE_PARENT) 0x1000 0 0 0) kchild.

Lemma kboot_wf : tree_wf true 100 (tree kboot).
Proof.
  constructor; cbn [tree t_nodes t_pid2pc t_ids].
  - apply sorted_cons. split; [constructor|apply SSorted_nil].
  - intros i r H. apply get_Some_elem, list_elem_of_singleton in H. injection H as -> ->. by exists (node_of init_pcb).
  - intros r n c H Hc. rewrite lookup_fmap in H. apply fmap_Some in H as (p & H & ->).
    cbn [k_procs kboot] in H. apply lookup_singleton_Some in H as [_ <-]. set_solver.
  - intros r n r' n' c H _ Hc. rewrite lookup_fmap in H. apply fmap_Some in H as (p & H & ->).
    cbn [k_procs kboot] in H. apply lookup_singleton_Some in H as [_ <-]. set_solver.
  - intros r n H. rewrite lookup_fmap in H. apply fmap_Some in H as (p & H & ->).
    cbn [k_procs kboot] in H. apply lookup_singleton_Some in H as [_ <-]. constructor.
  - by eexists.
  - constructor; [|done]. vm_compute. reflexivity.
Qed.

(** Runs a closed computation, reading back its result only. *)
Ltac run_k := 
  match goal with |- ?m ?k = Ret (?a, _) =>
    let E := fresh in assert (fst <$> m k = Ret a) as E by (vm_compute; reflexivity);
    exact (kafter_Ret m k a E)
  end.

Lemma run_fork : (sys_clone no_read env2 17 0x1000 0 0 0) kboot = Ret (Ok 2, kforked).
Proof. run_k. Qed.
Lemma run_wait : (sys_wait4 no_read 2 2 0 0) kforked = Ret (Some (inr (WaitJoin 2)), kpending).
Proof. run_k. Qed.
Lemma run_exit : (exit_proc no_read no_write 100 7) kchild = Ret (tt, kexited).
Proof. run_k. Qed.
Lemma run_resume : (wait4_resume no_read 2 100 2 0 0 (WaitJoin 2)) kwoken = Ret (Some (inl (Ok 2)), kreaped).
Proof. run_k. Qed.
Lemma run_drop : (pcb_drop 101) kreaped = Ret (tt, kdropped).
Proof. run_k. Qed.

Lemma run_sibling : (sys_clone no_read env3 (Z.lor 17 CLONE_PARENT) 0x1000 0 0 0) kchild = Ret (Ok 3, ksibling).
Proof. run_k. Qed.

Lemma tree_wf_any strict init T : tree_wf true init T -> tree_wf strict init T.
Proof.
  intros []. constructor; try done. intros r n c Hr Hc.
  destruct (tw_child0 r n c Hr Hc) as (m & ? & ? & ? & ? & ?). exists m. by split_and!; auto.
Qed.

Lemma process_tree_wf_witness : tree_wf true 100 (tree kdropped) /\ tree_wf false 100 (tree ksibling).
Proof.
  split.
  2: { apply (process_tree_wf no_read no_write 100 false kboot ksibling); [apply tree_wf_any, kboot_wf|].
       apply (rtc_l _ _ kforked); [by refine (ps_clone _ _ _ _ env2 17 0x1000 0 0 0 (Ok 2) kboot kforked _ eq_refl run_fork)|].
       apply (rtc_l _ _ kpending); [exact (ps_wait _ _ _ _ 2 2 0 0 _ _ _ run_wait)|].
       apply (rtc_l _ _ kchild); [apply ps_other; vm_compute; reflexivity|].
       apply (rtc_l _ _ ksibling); [|apply rtc_refl].
       refine (ps_clone _ _ _ _ env3 (Z.lor 17 CLONE_PARENT) 0x1000 0 0 0 (Ok 3) kchild ksibling _ _ run_sibling);
         [discriminate|vm_compute; reflexivity]. }
  apply (process_tree_wf no_read no_write 100 true kboot kdropped); [apply kboot_wf|].
  apply (rtc_l _ _ kforked); [exact (ps_clone _ _ _ _ env2 17 0x1000 0 0 0 (Ok 2) kboot kforked (fun _ => eq_refl) eq_refl run_fork)|].
  apply (rtc_l _ _ kpending); [exact (ps_wait _ _ _ _ 2 2 0 0 _ _ _ run_wait)|].
  apply (rtc_l _ _ kchild); [apply ps_other; vm_compute; reflexivity|].
  apply (rtc_l _ _ kexited); [exact (ps_exit _ _ _ _ 7 _ _ run_exit)|].
  apply (rtc_l _ _ kwoken); [apply ps_other; vm_compute; reflexivity|].
  apply (rtc_l _ _ kreaped); [exact (ps_resume _ _ _ _ 2 100 2 0 0 _ _ _ _ run_resume)|].
  apply (rtc_l _ _ kdropped); [|apply rtc_refl]. refine (ps_drop _ _ _ _ 101 _ _ _ run_drop).
  assert (tree kreaped = mkTree ({[100 := mkPN 1 1 []]} ∪ {[101 := mkPN 2 1 []]}) [(1, 100)] (mkRA 3 [])) as ->
    by (vm_compute; reflexivity).
  split; [done|]. split; cbn [t_nodes t_pid2pc].
  - intros i H. apply get_Some_elem, list_elem_of_singleton in H. done.
  - intros x n H%lookup_union_Some_raw.
    destruct H as [[_ <-]%lookup_singleton_Some|[_ [_ <-]%lookup_singleton_Some]]; set_solver.
Defined.
