(* ===== verification/ProcWait.v ===== *)
(** * Waiting for a child, and clone's corner cases

    The liveness of [sys_wait4] across the executor: a parent that waits for
    a child is blocked, is made runnable when the child's main task ends, and
    then finds and reaps the child.  The other theorems show where the
    process operations go wrong: a waker that [WaitAnyFuture] leaves behind,
    a clone that fails late, and unknown clone flags. *)

From S2P Require Import Prelude Config Address Memory FrameAlloc Pte.
From S2P Require Import PageTable BTree Errno Area UserMem MemorySet.
From S2P Require Import Shm Timer Sched Exec ExecInv Sleep.
From S2P Require Import Ids FdTable Futex Signals Robust Process.
From S2P Require Import Clone ProcTree.

(** ** The end of a task that is waited for *)

(** Waking one task leaves the control blocks of the others alone. *)
Lemma wakeup_other s w r u s' : wakeup_task w s = Ret (u, s') -> r <> w ->
  heap (rq s') !! r = heap (rq s) !! r.
Proof.
  intros H Hne. unfold wakeup_task in H. apply st_bind_Ret in H as (t & s1 & [Ht ->]%exec_task_inv & H).
  destruct (state (inner t)) eqn:Est; [by injection H as _ <-|by injection H as _ <-| |done| |done].
  - unfold task_set_state in H. rewrite (tcb_update_eq s w _ t Ht) in H. injection H as _ <-.
    cbn. by rewrite lookup_insert_ne.
  - apply st_bind_Ret in H as (u' & s1 & H1 & H). unfold task_set_state in H1.
    rewrite (tcb_update_eq s w _ t Ht) in H1. injection H1 as _ <-. unfold on_rq in H. cbn in H.
    rewrite (add_task_eq _ w (set_inner (tcb_set_state Runnable (inner t)) t)) in H
      by (cbn; by rewrite lookup_insert_eq).
    injection H as _ <-. cbn. by rewrite !lookup_insert_ne.
Qed.

Lemma finish_wakes s mc tm w tw n code : current s = mc -> mc <> 0 -> mc <> w ->
  heap (rq s) !! mc = Some tm -> wait_wakers (inner tm) = [w] -> is_init (inner tm) = false ->
  arcs s !! mc = Some n -> 2 <= n ->
  heap (rq s) !! w = Some tw -> state (inner tw) = Blocked ->
  exists s', run_task2 (Ready code) s = Ret (RunNext, s') /\ current s' = 0 /\
    view s' w = Some Runnable /\ w ∈ refs s' /\ view s' mc = Some Zombie.
Proof.
  intros Hc H0 Hne Hm Hw Hi Ha Hn Htw Hb.
  set (t1 := set_inner (tcb_set_state Zombie (inner tm)) tm).
  set (s1 := put_inner (tcb_set_state Zombie (inner tm)) tm mc s).
  assert (heap (rq s1) !! mc = Some t1) as Ht1 by apply lookup_insert_eq.
  set (s2 := put_inner (tcb_set_wakers [] (inner t1)) t1 mc s1).
  assert (heap (rq s2) !! w = Some tw) as Hw2.
  { cbn. by rewrite !lookup_insert_ne by done. }
  destruct (wakeup_blocked_eq s2 w tw Hw2 Hb) as (s3 & H3 & Hv3 & Hr3 & Ha3 & Hc3).
  assert (heap (rq s3) !! mc = Some (set_inner (tcb_set_wakers [] (inner t1)) t1)) as Hm3.
  { rewrite (wakeup_other s2 w mc tt s3 H3) by done. apply lookup_insert_eq. }
  unfold run_task2, current_get, try_get, task_set_state. st_unfold. rewrite Hc.
  destruct (Z.eqb_spec mc 0); [done|]. rewrite (tcb_update_eq s mc _ tm Hm). fold s1. cbv beta iota.
  unfold wake_all_waiters, mbind, ST_bind. rewrite (exec_task_eq s1 mc t1 Ht1).
  change (wait_wakers (inner t1)) with (wait_wakers (inner tm)). rewrite Hw.
  cbn [wake_list]. unfold mbind, ST_bind. rewrite (tcb_update_eq s1 mc _ t1 Ht1). fold s2.
  cbv beta iota. rewrite H3. unfold mret, ST_ret. rewrite (exec_task_eq s3 mc _ Hm3).
  change (is_init (inner _)) with (is_init (inner tm)). rewrite Hi.
  rewrite (clean_current_eq s3 n) by (rewrite ?Hc3, ?Ha3; cbn; by rewrite ?Hc).
  rewrite Hc3. cbn [current s2 s1 put_inner]. rewrite Hc.
  destruct (Z.eqb_spec n 1); [lia|]. eexists. split; [done|]. split; [done|].
  split; [done|]. split; [done|]. unfold view. cbn [rq]. by rewrite Hm3.
Qed.

(** ** Rounds of [sys_wait4] *)

Definition kheap (k : kern) : gmap Z Task := heap (rq (ex (k_sys k))).

Lemma on_kx_eq {A} (m : ST exec A) k a e : m (ex (k_sys k)) = Ret (a, e) ->
  on_kx m k = Ret (a, k_set_sys (mkSys e (tid2tc (k_sys k)) (sleepers (k_sys k))) k).
Proof. intros H. unfold on_kx, on_ksys, on_ex. by rewrite H. Qed.

Lemma on_kx_read {A} (m : ST exec A) k a : m (ex (k_sys k)) = Ret (a, ex (k_sys k)) -> on_kx m k = Ret (a, k).
Proof. intros H. rewrite (on_kx_eq m k a _ H). by destruct k as [[]]. Qed.

Lemma task_of_eq k r t : kheap k !! r = Some t -> task_of r k = Ret (inner t, k).
Proof.
  intros H. unfold task_of, mbind, ST_bind. rewrite (on_kx_read _ k t); [done|]. by apply exec_task_eq.
Qed.

Lemma proc_at_eq k r p : k_procs k !! r = Some p -> proc_at r k = Ret (p, k).
Proof. intros H. unfold proc_at. by rewrite H. Qed.

Definition child_ok (k : kern) (c : Z) : Prop :=
  exists p t, k_procs k !! c = Some p /\ kheap k !! p_main p = Some t.

Definition dead_wanted (k : kern) (pid c : Z) : Prop :=
  exists p t, k_procs k !! c = Some p /\ kheap k !! p_main p = Some t /\
    state (inner t) = Zombie /\ wanted pid p = true.

Lemma any_wanted_eq k pid c cp l : Forall (child_ok k) l -> c ∈ l -> k_procs k !! c = Some cp ->
  wanted pid cp = true -> any_wanted pid l k = Ret (true, k).
Proof.
  intros Hok Hc Hcp Hw. induction Hok as [|x l (p & t & Hp & _) _ IH]; [by apply elem_of_nil in Hc|].
  cbn [any_wanted]. unfold mbind, ST_bind. rewrite (proc_at_eq k x p Hp).
  destruct (wanted pid p) eqn:E; [done|]. apply IH. apply elem_of_cons in Hc as [->|]; [congruence|done].
Qed.

Lemma find_zombie_eq k pid l : forall i, Forall (child_ok k) l ->
  (exists j c, l !! j = Some c /\ dead_wanted k pid c /\
     (forall j' c', (j' < j)%nat -> l !! j' = Some c' -> ~ dead_wanted k pid c') /\
     find_zombie pid l i k = Ret (Some (i + j)%nat, k)) \/
  (forall c, c ∈ l -> ~ dead_wanted k pid c) /\ find_zombie pid l i k = Ret (None, k).
Proof.
  induction l as [|x l IH]; intros i Hok; [right; split; [set_solver|done]|].
  apply Forall_cons_1 in Hok as [(p & t & Hp & Ht) Hok]. cbn [find_zombie]. unfold mbind, ST_bind.
  rewrite (proc_at_eq k x p Hp), (task_of_eq k _ t Ht). unfold is_exited. cbv beta iota.
  destruct (bool_decide (state (inner t) = Zombie) && wanted pid p) eqn:E.
  - left. apply andb_true_iff in E as [E1%bool_decide_eq_true E2]. exists 0%nat, x.
    split; [done|]. split; [by exists p, t|]. rewrite Nat.add_0_r. split; [lia|done].
  - assert (~ dead_wanted k pid x) as Hx.
    { intros (p' & t' & ? & ? & Ez & Ew). simplify_eq. by rewrite Ez, Ew in E. }
    destruct (IH (S i) Hok) as [(j & c & Hj & Hd & Hlt & Hf)|[Hn Hf]]; rewrite Hf.
    + left. exists (S j), c. split; [done|]. split; [done|]. split; [|do 3 f_equal; lia].
      intros [|j'] c' Hlt' Hl; cbn in Hl; [by injection Hl as <-|]. apply (Hlt j'); [lia|done].
    + right. split; [|done]. intros c [->|]%elem_of_cons; [done|by apply Hn].
Qed.

(** The process [p] has the child [c] with the given pid and main task. *)
Record has_child (k : kern) (p pid c mc : Z) (idx : nat) (pcb cp : ProcessControlBlock) : Prop := {
  hc_p : k_procs k !! p = Some pcb;
  hc_idx : p_children pcb !! idx = Some c;
  hc_c : k_procs k !! c = Some cp;
  hc_pid : p_pid cp = pid;
  hc_range : 0 < pid < 2 ^ 63;
  hc_main : p_main cp = mc;
  hc_table : bt_get pid (PID2PC k) = Some c;
  hc_ok : Forall (child_ok k) (p_children pcb);
  hc_only : forall j c' p', p_children pcb !! j = Some c' -> k_procs k !! c' = Some p' ->
    p_pid p' = pid -> j = idx
}.

Lemma wanted_pid pid p : 0 < pid < 2 ^ 63 -> wanted pid p = (pid =? p_pid p).
Proof.
  intros H. unfold wanted. destruct (Z.eqb_spec pid (-1)); [lia|]. cbn [orb].
  unfold wrap64. by rewrite Z.mod_small by lia.
Qed.

Lemma child_wanted k p pid c mc idx pcb cp : has_child k p pid c mc idx pcb cp ->
  any_wanted pid (p_children pcb) k = Ret (true, k).
Proof.
  intros [H1 H2 H3 H4 H5 H6 H7 H8 H9]. apply (any_wanted_eq k pid c cp); [done| |done|].
  - by apply list_elem_of_lookup_2 in H2.
  - rewrite wanted_pid by done. apply Z.eqb_eq. done.
Qed.

Lemma only_child k p pid c mc idx pcb cp c' j : has_child k p pid c mc idx pcb cp ->
  p_children pcb !! j = Some c' -> dead_wanted k pid c' -> j = idx.
Proof.
  intros Hc Hj (p' & t & Hp' & _ & _ & Hw). apply (hc_only _ _ _ _ _ _ _ _ Hc j c' p'); [done|done|].
  rewrite wanted_pid in Hw by apply Hc. by apply Z.eqb_eq in Hw.
Qed.

Lemma join_pending s mc tm w tw : heap (rq s) !! mc = Some tm -> heap (rq s) !! w = Some tw ->
  mc <> w -> state (inner tm) <> Zombie ->
  exists s', join_poll mc w s = Ret (Pending, s') /\ current s' = current s /\ arcs s' = arcs s /\
    heap (rq s') !! w = Some (set_inner (tcb_set_state Blocking (inner tw)) tw) /\
    heap (rq s') !! mc = Some (set_inner (tcb_set_wakers (wait_wakers (inner tm) ++ [w]) (inner tm)) tm).
Proof.
  intros Hm Hw Hne Hz. unfold join_poll, mbind, ST_bind. rewrite (exec_task_eq s mc tm Hm).
  rewrite bool_decide_false by done. unfold task_join, task_set_state, mbind, ST_bind.
  rewrite (tcb_update_eq s w _ tw Hw). set (s1 := put_inner _ tw w s).
  assert (heap (rq s1) !! mc = Some tm) as Hm1 by (cbn; by rewrite lookup_insert_ne).
  rewrite (tcb_update_eq s1 mc _ tm Hm1). set (s2 := put_inner _ tm mc s1).
  rewrite (exec_task_eq s2 mc (set_inner (tcb_set_wakers (wait_wakers (inner tm) ++ [w]) (inner tm)) tm))
    by apply lookup_insert_eq.
  cbn [inner set_inner state tcb_set_wakers]. rewrite bool_decide_false by done.
  eexists. split; [done|]. split; [done|]. split; [done|]. split; [|apply lookup_insert_eq].
  cbn. rewrite lookup_insert_ne by done. apply lookup_insert_eq.
Qed.

(** The wait of the process [p] for a child that runs. *)
Lemma wait_blocks fr k p pid c mc idx pcb cp w tw tm ws options :
  has_child k p pid c mc idx pcb cp -> Z.land options WNOHANG = 0 ->
  kheap k !! mc = Some tm -> kheap k !! w = Some tw -> mc <> w -> state (inner tm) <> Zombie ->
  exists k1, wait_loop fr 1 w p pid ws options k = Ret (Some (inr (WaitJoin mc)), k1) /\
    k_procs k1 = k_procs k /\ PID2PC k1 = PID2PC k /\ current (ex (k_sys k1)) = current (ex (k_sys k)) /\
    kheap k1 !! w = Some (set_inner (tcb_set_state Blocking (inner tw)) tw) /\
    kheap k1 !! mc = Some (set_inner (tcb_set_wakers (wait_wakers (inner tm) ++ [w]) (inner tm)) tm).
Proof.
  intros Hc Hopt Hm Hw Hne Hz. cbn [wait_loop]. unfold wait_round, mbind, ST_bind.
  rewrite (proc_at_eq k p pcb) by apply Hc. rewrite (child_wanted k p pid c mc idx pcb cp Hc).
  cbn [negb andb].
  destruct (find_zombie_eq k pid (p_children pcb) 0) as [(j & c' & Hj & Hd & _)|[_ ->]]; [apply Hc| |].
  { pose proof (only_child k p pid c mc idx pcb cp c' j Hc Hj Hd) as ->.
    destruct Hd as (p' & t & Hp' & Ht & Hz' & _). pose proof (hc_idx _ _ _ _ _ _ _ _ Hc).
    pose proof (hc_c _ _ _ _ _ _ _ _ Hc). pose proof (hc_main _ _ _ _ _ _ _ _ Hc). by simplify_eq. }
  rewrite Hopt. cbn [Z.eqb negb]. pose proof (hc_range _ _ _ _ _ _ _ _ Hc).
  destruct (Z.eqb_spec pid (-1)); [lia|]. unfold st_gets, wrap64. rewrite Z.mod_small by lia.
  rewrite (hc_table _ _ _ _ _ _ _ _ Hc). rewrite (proc_at_eq k c cp) by apply Hc.
  rewrite (hc_main _ _ _ _ _ _ _ _ Hc). unfold mret, ST_ret, poll_wait, mbind, ST_bind.
  destruct (join_pending (ex (k_sys k)) mc tm w tw Hm Hw Hne Hz) as (s' & Hjp & H1 & _ & H2 & H3).
  rewrite (on_kx_eq _ k Pending s' Hjp). eexists. split; [done|]. by split_and!.
Qed.

(** The wait of the process [p] for a child that is dead. *)
Lemma wait_reaps fr k p pid c mc idx pcb cp w tm fuel options :
  has_child k p pid c mc idx pcb cp -> kheap k !! mc = Some tm -> state (inner tm) = Zombie ->
  exists k1, wait_loop fr (S fuel) w p pid 0 options k = Ret (Some (inl (Ok pid)), k1) /\
    k_procs k1 = <[p := set_children (delete idx (p_children pcb)) pcb]> (k_procs k) /\
    PID2PC k1 = bt_remove pid (PID2PC k) /\ k_sys k1 = k_sys k /\ k_world k1 = k_world k.
Proof.
  intros Hc Hm Hz. cbn [wait_loop]. unfold wait_round, mbind, ST_bind.
  rewrite (proc_at_eq k p pcb) by apply Hc. rewrite (child_wanted k p pid c mc idx pcb cp Hc).
  cbn [negb andb]. pose proof (hc_idx _ _ _ _ _ _ _ _ Hc) as Hidx.
  assert (dead_wanted k pid c) as Hd.
  { exists cp, tm. rewrite (hc_main _ _ _ _ _ _ _ _ Hc). split; [apply Hc|]. split; [done|].
    split; [done|]. rewrite wanted_pid by apply Hc. apply Z.eqb_eq. symmetry. apply Hc. }
  destruct (find_zombie_eq k pid (p_children pcb) 0) as [(j & c' & Hj & Hd' & _ & ->)|[Hn _]];
    [apply Hc| |by destruct (Hn c (list_elem_of_lookup_2 _ _ _ Hidx))].
  pose proof (only_child k p pid c mc idx pcb cp c' j Hc Hj Hd') as ->. cbn [Nat.add].
  unfold st_lift, unwrap. rewrite Hidx. unfold wait_reap, mbind, ST_bind.
  rewrite (proc_at_eq k c cp) by apply Hc. rewrite Nat2Z.id, <- delete_take_drop.
  unfold proc_update, mbind, ST_bind. rewrite (proc_at_eq k p pcb) by apply Hc.
  unfold st_modify, mret, ST_ret. cbn [Z.eqb negb]. rewrite (hc_pid _ _ _ _ _ _ _ _ Hc).
  eexists. split; [done|]. by split_and!.
Qed.

Lemma current_get_eq s : current s <> 0 -> current_get s = Ret (current s, s).
Proof. intros H. unfold current_get, try_get. st_unfold. by destruct (Z.eqb_spec (current s) 0). Qed.

Lemma kcurrent_eq k : current (ex (k_sys k)) <> 0 ->
  on_kx current_get k = Ret (current (ex (k_sys k)), k).
Proof. intros H. apply on_kx_read. by apply current_get_eq. Qed.

(** C18: A parent that waits for a living child gets it: [sys_wait4] blocks the
    parent and puts it among those that wait for the child's main task; when
    that task ends, whatever happened in between, it becomes a zombie and the
    parent is runnable and queued; and when the parent runs again, its wait
    returns the pid of the child, which has left the list of children and the
    table of processes. *)
Theorem wait4_gets_child fr k p pid c mc idx pcb cp w tw tm options :
  has_child k p pid c mc idx pcb cp -> pid < 2 ^ 31 ->
  Z.ldiff options wait_flags_all = 0 -> Z.land options WNOHANG = 0 ->
  current_process k = Ret (p, k) -> current (ex (k_sys k)) = w -> w <> 0 -> mc <> 0 -> mc <> w ->
  kheap k !! w = Some tw -> kheap k !! mc = Some tm ->
  state (inner tm) <> Zombie -> wait_wakers (inner tm) = [] ->
  (exists k1 k2 t, sys_wait4 fr 1 pid 0 options k = Ret (Some (inr (WaitJoin mc)), k1) /\
     on_kx (run_task2 Pending) k1 = Ret (RunNext, k2) /\ view (ex (k_sys k2)) w = Some Blocked /\
     kheap k2 !! mc = Some t /\ wait_wakers (inner t) = [w]) /\
  (forall k3 t3 w3 n code, current (ex (k_sys k3)) = mc ->
     kheap k3 !! mc = Some t3 -> wait_wakers (inner t3) = [w] -> is_init (inner t3) = false ->
     arcs (ex (k_sys k3)) !! mc = Some n -> 2 <= n ->
     kheap k3 !! w = Some w3 -> state (inner w3) = Blocked ->
     exists k4, on_kx (run_task2 (Ready code)) k3 = Ret (RunNext, k4) /\
       view (ex (k_sys k4)) w = Some Runnable /\ w ∈ refs (ex (k_sys k4)) /\
       view (ex (k_sys k4)) mc = Some Zombie) /\
  (forall k5 idx5 pcb5 cp5, has_child k5 p pid c mc idx5 pcb5 cp5 ->
     view (ex (k_sys k5)) mc = Some Zombie -> current (ex (k_sys k5)) = w ->
     exists k6, wait4_resume fr 1 p pid 0 options (WaitJoin mc) k5 = Ret (Some (inl (Ok pid)), k6) /\
       k_procs k6 = <[p := set_children (delete idx5 (p_children pcb5)) pcb5]> (k_procs k5) /\
       PID2PC k6 = bt_remove pid (PID2PC k5)).
Proof.
  intros Hc Hp31 Hall Hopt Hcur Hw Hw0 Hm0 Hne Htw Htm Hz Hnil. pose proof (hc_range _ _ _ _ _ _ _ _ Hc).
  split; [|split].
  - destruct (wait_blocks fr k p pid c mc idx pcb cp w tw tm 0 options) as (k1 & H1 & _ & _ & Hc1 & Hw1 & Hm1);
      try done.
    assert (sys_wait4 fr 1 pid 0 options k = Ret (Some (inr (WaitJoin mc)), k1)) as Hs.
    { unfold sys_wait4, mbind, ST_bind. rewrite kcurrent_eq, Hcur, Hw by congruence.
      destruct (Z.eqb_spec pid 0); [lia|]. rewrite Z.land_ones, Z.mod_small by lia.
      destruct (Z.eqb_spec pid (2 ^ 31)); [lia|]. rewrite Hall. exact H1. }
    rewrite Hw in Hc1. exists k1. do 2 eexists. split; [exact Hs|].
    rewrite (on_kx_eq _ k1 _ _ (run_task2_blocking (ex (k_sys k1)) _ ltac:(congruence)
               ltac:(rewrite Hc1; exact Hw1) eq_refl)).
    split; [done|]. rewrite Hc1. split; [exact (view_put _ _ _ w)|]. unfold kheap. cbn [k_sys k_set_sys ex rq].
    split; [cbn; rewrite lookup_insert_ne by done; exact Hm1|]. cbn. by rewrite Hnil.
  - intros k3 t3 w3 n code H1 H2 H3 H4 H5 H6 H7 H8.
    destruct (finish_wakes (ex (k_sys k3)) mc t3 w w3 n code) as (s' & Hr & _ & Hv); try done.
    rewrite (on_kx_eq _ k3 _ _ Hr). by eexists.
  - intros k5 idx5 pcb5 cp5 Hc5 Hz5 Hw5. unfold view in Hz5.
    destruct (heap (rq (ex (k_sys k5))) !! mc) as [t5|] eqn:Ht5; [|done]. injection Hz5 as Hz5.
    destruct (wait_reaps fr k5 p pid c mc idx5 pcb5 cp5 w t5 0 options Hc5 Ht5 Hz5)
      as (k6 & H6 & E1 & E2 & _).
    exists k6. split; [|done]. unfold wait4_resume, mbind, ST_bind. rewrite kcurrent_eq, Hw5 by congruence.
    unfold poll_wait, mbind, ST_bind. rewrite (on_kx_read (join_poll mc w) k5 (Ready (exit_code (inner t5)))).
    { exact H6. }
    unfold join_poll, mbind, ST_bind. rewrite (exec_task_eq _ mc t5 Ht5), Hz5. done.
Qed.

Definition pcb_at (k : kern) (r : Z) : ProcessControlBlock := default init_pcb (k_procs k !! r).
Definition task_at_k (k : kern) (r : Z) : Task := default task1 (kheap k !! r).

(** The child of the run of ProcTree.v. *)
Lemma run_child k : k_procs k !! 100 = Some (pcb_at k 100) -> p_children (pcb_at k 100) = [101] ->
  k_procs k !! 101 = Some (pcb_at k 101) -> p_pid (pcb_at k 101) = 2 -> p_main (pcb_at k 101) = 2 ->
  bt_get 2 (PID2PC k) = Some 101 -> kheap k !! 2 = Some (task_at_k k 2) ->
  has_child k 100 2 101 2 0 (pcb_at k 100) (pcb_at k 101).
Proof.
  intros H1 H2 H3 H4 H5 H6 H7. constructor; try done; rewrite H2; [done| |].
  - constructor; [|constructor]. exists (pcb_at k 101), (task_at_k k 2). by rewrite H5.
  - intros [|j] c' p' Hj; [done|by destruct j].
Qed.

Lemma current_process_eq k p t : current (ex (k_sys k)) <> 0 ->
  kheap k !! current (ex (k_sys k)) = Some t -> bt_get (process_id (inner t)) (PID2PC k) = Some p ->
  current_process k = Ret (p, k).
Proof.
  intros H0 Ht Hp. unfold current_process, mbind, ST_bind. rewrite kcurrent_eq by done.
  rewrite (task_of_eq k _ t Ht). unfold get_process, st_gets. by rewrite Hp.
Qed.

Lemma wait4_gets_child_witness :
  (exists k1 k2, sys_wait4 no_read 1 2 0 0 kforked = Ret (Some (inr (WaitJoin 2)), k1) /\
     on_kx (run_task2 Pending) k1 = Ret (RunNext, k2) /\ view (ex (k_sys k2)) 1 = Some Blocked) /\
  (exists k4, on_kx (run_task2 (Ready 7)) kexited = Ret (RunNext, k4) /\
     view (ex (k_sys k4)) 1 = Some Runnable) /\
  (exists k6, wait4_resume no_read 1 100 2 0 0 (WaitJoin 2) kwoken = Ret (Some (inl (Ok 2)), k6) /\
     PID2PC k6 = [(1, 100)]).
Proof.
  destruct (wait4_gets_child no_read kforked 100 2 101 2 0 (pcb_at kforked 100) (pcb_at kforked 101)
              1 (task_at_k kforked 1) (task_at_k kforked 2) 0)
    as ((k1 & k2 & t & H1 & H2 & H3 & _) & Hb & Hc);
    [apply run_child; vm_compute; reflexivity|vm_compute; reflexivity|reflexivity|reflexivity
    |apply (current_process_eq kforked 100 (task_at_k kforked 1)); vm_compute; [discriminate|reflexivity..]
    |vm_compute; reflexivity|discriminate|discriminate|discriminate|vm_compute; reflexivity
    |vm_compute; reflexivity|vm_compute; discriminate|vm_compute; reflexivity|].
  split; [exact (ex_intro _ k1 (ex_intro _ k2 (conj H1 (conj H2 H3))))|]. split.
  - destruct (Hb kexited (task_at_k kexited 2) (task_at_k kexited 1) 3 7) as (k4 & H4 & H5 & _);
      [vm_compute; reflexivity..|discriminate|vm_compute; reflexivity|vm_compute; reflexivity|].
    exact (ex_intro _ k4 (conj H4 H5)).
  - destruct (Hc kwoken 0%nat (pcb_at kwoken 100) (pcb_at kwoken 101)) as (k6 & H6 & _ & H7);
      [apply run_child; vm_compute; reflexivity|vm_compute; reflexivity|vm_compute; reflexivity|].
    exists k6. split; [exact H6|]. rewrite H7. vm_compute. reflexivity.
Defined.

(** ** Wakers that are left behind *)

Lemma zombie_wakers_kept s r f w : view s w = Some Zombie ->
  (forall x, state (f x) = state x) ->
  forall u s', tcb_update r f s = Ret (u, s') -> view s' w = Some Zombie.
Proof.
  intros Hz Hf u s' (t & Ht & ->)%tcb_update_inv. unfold put_inner.
  rewrite (view_insert s r _ _ _ _ _ w eq_refl). destruct (Z.eqb_spec w r) as [->|]; [|done].
  unfold view in Hz. rewrite Ht in Hz. cbn in Hz |- *. by rewrite Hf.
Qed.

Lemma wake_list_stale l : forall r s w, w ∈ l -> view s w = Some Zombie -> wake_list r l s = Panic.
Proof.
  induction l as [|x l IH]; intros r s w Hw Hz; [by apply elem_of_nil in Hw|].
  cbn [wake_list]. unfold mbind, ST_bind.
  destruct (tcb_update r (tcb_set_wakers l) s) as [[u s1]|] eqn:E1; [|done].
  apply (zombie_wakers_kept s r _ w Hz) in E1; [|done].
  destruct (wakeup_task x s1) as [[u2 s2]|] eqn:E2; [|done].
  apply elem_of_cons in Hw as [->|Hw].
  - unfold wakeup_task, mbind, ST_bind in E2. unfold view in E1.
    destruct (heap (rq s1) !! x) as [t|] eqn:Et; [|done]. injection E1 as E1.
    by rewrite (exec_task_eq s1 x t Et), E1 in E2.
  - apply (wakeup_zombie s1 w) in E2 as [E2 _]; [|done]. by apply (IH r s2 w).
Qed.

Definition waits_on (w : Z) (s : exec) (b : Z) : Prop :=
  exists t, heap (rq s) !! b = Some t /\ w ∈ wait_wakers (inner t).

Lemma waits_update w s r f u s' b : tcb_update r f s = Ret (u, s') ->
  (forall x, w ∈ wait_wakers x -> w ∈ wait_wakers (f x)) -> waits_on w s b -> waits_on w s' b.
Proof.
  intros (t & Ht & ->)%tcb_update_inv Hf (tb & Hb & Hin). unfold waits_on. cbn [put_inner rq heap].
  destruct (decide (b = r)) as [->|].
  - rewrite lookup_insert_eq. eexists. split; [done|]. rewrite Hb in Ht. injection Ht as <-. by apply Hf.
  - rewrite lookup_insert_ne by done. by exists tb.
Qed.

Lemma join_registers target w s s' : join_poll target w s = Ret (Pending, s') ->
  waits_on w s' target /\ (forall b, waits_on w s b -> waits_on w s' b).
Proof.
  unfold join_poll. intros (t & s1 & [Ht ->]%exec_task_inv & H)%st_bind_Ret.
  case_bool_decide; [done|]. apply st_bind_Ret in H as (u & s2 & H2 & H).
  apply st_bind_Ret in H as (t' & s3 & [_ ->]%exec_task_inv & H).
  case_bool_decide; [done|]. injection H as <-. unfold task_join, task_set_state in H2.
  apply st_bind_Ret in H2 as (u1 & s1 & Hset & H2). split.
  - apply tcb_update_inv in H2 as (t2 & _ & ->). unfold waits_on. cbn [put_inner rq heap].
    rewrite lookup_insert_eq. eexists. split; [done|]. cbn. set_solver.
  - intros b Hb. apply (waits_update w s w _ u1 s1 b Hset) in Hb; [|done].
    apply (waits_update w s1 target _ u s2 b H2) in Hb; [done|]. intros x Hx. cbn. set_solver.
Qed.

Lemma wait_any_registers w futures : forall pend s l s',
  wait_any_loop w futures pend s = Ret ((Pending, l), s') ->
  (forall b, waits_on w s b -> waits_on w s' b) /\
  (forall pid b, (pid, b) ∈ futures -> waits_on w s' b).
Proof.
  induction futures as [|[pid0 b0] futures IH]; intros pend s l s'; cbn [wait_any_loop].
  - intros [= _ <-]. split; [done|]. set_solver.
  - intros (r & s1 & H1 & H)%st_bind_Ret. destruct r as [v|]; [done|].
    apply join_registers in H1 as [Hr Hk]. apply IH in H as [Hk' Hr']. split; [auto|].
    intros pid b [[= -> ->]|Hin]%elem_of_cons; [by apply Hk'|by apply (Hr' pid)].
Qed.

(** A wait for any child leaves its waker with all of the children, and
    only the end of a child removes it from there.  When the parent has reaped
    one child and exited, the end of any other child wakes the parent, which
    stops the kernel. *)
Theorem wait_any_waker_outlives w futures s l s' :
  wait_any_poll w futures s = Ret ((Pending, l), s') ->
  (forall pid b, (pid, b) ∈ futures -> waits_on w s' b) /\
  (forall s2 b code, current s2 = b -> waits_on w s2 b -> view s2 w = Some Zombie ->
     run_task2 (Ready code) s2 = Panic).
Proof.
  intros H. split; [by apply (wait_any_registers w futures [] s l s')|].
  intros s2 b code Hc (t & Ht & Hin) Hz. unfold run_task2. unfold mbind at 1, ST_bind at 1.
  destruct (current_get s2) as [[r s3]|] eqn:Eg; [|done]. apply current_get_inv in Eg as (-> & -> & _).
  rewrite Hc. unfold mbind at 1, ST_bind at 1, task_set_state. rewrite (tcb_update_eq s2 b _ t Ht).
  set (s1 := put_inner _ t b s2). unfold mbind at 1, ST_bind at 1, wake_all_waiters.
  unfold mbind at 1, ST_bind at 1.
  rewrite (exec_task_eq s1 b (set_inner (tcb_set_state Zombie (inner t)) t)) by apply lookup_insert_eq.
  cbn [inner set_inner wait_wakers tcb_set_state]. rewrite (wake_list_stale _ b s1 w); [done|done|].
  unfold s1, put_inner. rewrite (view_insert s2 b _ _ _ _ _ w eq_refl). by destruct (Z.eqb_spec w b).
Qed.

(** Tasks 2 and 3 are the main tasks of two children of the process of task 1. *)
Definition family_task (i : Z) : Task :=
  CFSTask_new (TaskControlBlock_new i false true i 0 None false TrapBlocked).
Definition family0 : exec :=
  after schedule_next (after (on_rq (sched_add_task 3)) (after (on_rq (sched_add_task 2))
    (after (on_rq (sched_add_task 1))
      (mkExec (mkRunq (<[1 := family_task 1]> (<[2 := family_task 2]> (<[3 := family_task 3]> ∅)))
         CFScheduler_new) (<[1 := 4]> (<[2 := 4]> (<[3 := 4]> ∅))) 0)))).
Definition family_waits : exec := after (wait_any_poll 1 [(2, 2); (3, 3)]) family0.

(** Task 2 ends and wakes task 1; task 3 gives way; task 1 ends. *)
Definition family_end : exec :=
  after schedule_next (after (run_task2 (Ready 0)) (after schedule_next (after (run_task2 Pending)
    (after schedule_next (after (run_task2 (Ready 0)) (after schedule_next
      (after (run_task2 Pending) family_waits))))))).

Lemma wait_any_waker_outlives_witness : run_task2 (Ready 0) family_end = Panic.
Proof.
  apply (proj2 (wait_any_waker_outlives 1 [(2, 2); (3, 3)] family0 [(2, 2); (3, 3)] family_waits
           ltac:(vm_compute; reflexivity)) family_end 3 0); [vm_compute; reflexivity| |vm_compute; reflexivity].
  eexists. split; [vm_compute; reflexivity|]. cbn. set_solver.
Defined.

(** ** A clone that fails late *)

(** The ready queue and the table of threads. *)
Definition queue (k : kern) : CFScheduler * list (Z * Z) := (sched (rq (ex (k_sys k))), tid2tc (k_sys k)).

Lemma queue_kx {A} (m : ST exec A) :
  (forall s a s', m s = Ret (a, s') -> sched (rq s') = sched (rq s)) -> keeps_of queue (on_kx m).
Proof.
  intros H k a k'. unfold on_kx, on_ksys, on_ex. destruct (m (ex (k_sys k))) as [[b e]|] eqn:E; [|done].
  intros [= <- <-]. unfold queue. cbn. by rewrite (H _ _ _ E).
Qed.

Lemma queue_read r : keeps_of queue (on_kx (exec_task r)).
Proof. apply queue_kx. by intros s a s' [_ ->]%exec_task_inv. Qed.
Lemma queue_current : keeps_of queue (on_kx current_get).
Proof. apply queue_kx. by intros s a s' (_ & -> & _)%current_get_inv. Qed.
Lemma queue_tcb r f : keeps_of queue (on_kx (tcb_update r f)).
Proof. apply queue_kx. by intros s a s' (t & _ & ->)%tcb_update_inv. Qed.
Lemma queue_alloc r t : keeps_of queue (on_kx (task_alloc r t)).
Proof. apply queue_kx. by intros s a s' [= _ <-]. Qed.
Lemma queue_clone r : keeps_of queue (on_kx (task_arc_clone r)).
Proof.
  apply queue_kx. intros s a s'. unfold task_arc_clone.
  intros (n & s1 & [_ ->]%task_arc_count_inv & [= _ <-])%st_bind_Ret. done.
Qed.
Lemma queue_drop r : keeps_of queue (on_kx (task_arc_drop r)).
Proof.
  apply queue_kx. intros s a s'. unfold task_arc_drop.
  intros (n & s1 & [_ ->]%task_arc_count_inv & H)%st_bind_Ret. by destruct (n =? 1); injection H as _ <-.
Qed.
Lemma queue_mm {A} r (m : inodes -> MemorySet -> ST world (A * MemorySet * inodes)) :
  keeps_of queue (on_mm r m).
Proof.
  intros k a k'. unfold on_mm. destruct (k_mms k !! r) as [ms|]; [|done].
  destruct (m _ _ _) as [[[[b ms'] fs'] w]|]; [by intros [= <- <-]|done].
Qed.
Lemma queue_fork_mm env src pid : keeps_of queue (fork_mm env src pid).
Proof.
  intros k a k'. unfold fork_mm. destruct (k_mms k !! src); [|done].
  destruct (from_existed_user _ _ _ _ _ _) as [[[ms' shm'] w]|]; [by intros [= <- <-]|done].
Qed.
Lemma queue_tid : keeps_of queue TaskId_new.
Proof. by intros k a k' [= <- <-]. Qed.
Lemma queue_write_u32 token ptr v : keeps_of queue (write_u32 token ptr v).
Proof.
  intros k a k'. unfold write_u32, on_kf. st_unfold. cbn [f_mem].
  destruct (translated_refmut _ _ _) as [[pa|e]|]; [|by intros [= <- <-]|done].
  unfold set_fmem. st_unfold. by intros [= <- <-].
Qed.

#[export] Hint Resolve queue_read queue_current queue_tcb queue_alloc queue_clone queue_drop : keeps.
#[export] Hint Resolve queue_mm queue_fork_mm queue_tid queue_write_u32 : keeps.

Lemma queue_update r f : keeps_of queue (proc_update r f).
Proof. unfold proc_update. apply keeps_bind; [apply keeps_proc_at|]. intros. by apply keeps_modify. Qed.
#[export] Hint Resolve queue_update : keeps.

Lemma queue_task_of r : keeps_of queue (task_of r).
Proof. unfold task_of. keep. Qed.
#[export] Hint Resolve queue_task_of : keeps.
Lemma queue_cur_proc : keeps_of queue current_process.
Proof. unfold current_process, get_process. keep. Qed.
Lemma queue_pid_alloc : keeps_of queue k_pid_alloc.
Proof. unfold k_pid_alloc, k_set_pids. keep. Qed.
Lemma queue_mm_token r : keeps_of queue (mm_token r).
Proof. unfold mm_token. keep. Qed.
Lemma queue_sets r c : keeps_of queue (k_set_trap r c).
Proof. unfold k_set_trap. keep. Qed.
Lemma queue_tsig r c : keeps_of queue (k_set_tsig r c).
Proof. unfold k_set_tsig. keep. Qed.
Lemma queue_psig r c : keeps_of queue (k_set_psig r c).
Proof. unfold k_set_psig. keep. Qed.
#[export] Hint Resolve queue_cur_proc queue_pid_alloc queue_mm_token queue_sets queue_tsig queue_psig : keeps.
Lemma queue_user_res a b : keeps_of queue (clone_user_res a b).
Proof. unfold clone_user_res. keep. Qed.
#[export] Hint Resolve queue_user_res : keeps.
Lemma queue_process env self fl us pid tid par mm : keeps_of queue (clone_process env self fl us pid tid par mm).
Proof. unfold clone_process. keep. Qed.
#[export] Hint Resolve queue_process : keeps.

Lemma clone_finish_error env flags token ctid tid res k e k' :
  clone_finish env flags token ctid tid res k = Ret (Err e, k') -> queue k' = queue k /\ tree k' = tree k.
Proof.
  unfold clone_finish. intros (r & k1 & H1 & H)%st_bind_Ret.
  assert (queue k1 = queue k /\ tree k1 = tree k) as [Eq Et].
  { split; [apply (keeps_rest queue _ _ _ _ H1)|apply (keeps_rest tree _ _ _ _ H1)]; keep. }
  destruct r as [u|e'].
  - apply st_bind_Ret in H as (u1 & k2 & _ & H). apply st_bind_Ret in H as (u2 & k3 & _ & H).
    by apply st_bind_Ret in H as (u3 & k4 & _ & H).
  - rewrite <- Eq, <- Et.
    split; [apply (keeps_rest queue _ _ _ _ H)|apply (keeps_rest tree _ _ _ _ H)]; keep.
Qed.

Definition both (k : kern) := (queue k, tree k).

Lemma keeps_both {A} (m : ST kern A) : keeps_of queue m -> keeps_of tree m -> keeps_of both m.
Proof. intros Hq Ht k a k' H. unfold both. by rewrite (Hq k a k' H), (Ht k a k' H). Qed.

Lemma both_eq k k' : both k' = both k -> queue k' = queue k /\ tree k' = tree k.
Proof. intros H. split; [exact (f_equal fst H)|exact (f_equal snd H)]. Qed.

Ltac bstep H a k E := apply (keeps_step both) in H as (a & k & E & _ & H); [|apply keeps_both; keep].

(** When [clone_task] of a new process fails (and no tid was to be written
    for the parent), the failure comes too late: the new process is a child
    of the caller and in the table of processes, but its thread is neither
    queued nor in the table of threads, so that it never runs and a wait for
    it never ends. *)
Theorem clone_error_leaves_child strict init fr env self flags us ptid tls ctid k e k' n :
  tree_wf strict init (tree k) -> t_nodes (tree k) !! self = Some n -> t_nodes (tree k) !! ce_proc env = None ->
  fl_contains flags CLONE_THREAD = false -> fl_contains flags CLONE_PARENT_SETTID = false ->
  clone_task fr env self flags us ptid tls ctid k = Ret (Err e, k') ->
  queue k' = queue k /\
  exists pid n', t_nodes (tree k') !! self = Some n' /\ n_children n' = n_children n ++ [ce_proc env] /\
    bt_get pid (t_pid2pc (tree k')) = Some (ce_proc env).
Proof.
  intros Hw Hn Hnew Hth Hps. unfold clone_task. rewrite Hth, Hps.
  intros (pcb & k1 & [Hp%tree_node ->]%proc_at_Ret & H)%st_bind_Ret.
  bstep H mm k2 E2. bstep H tok k3 E3. bstep H ct k4 E4. bstep H ots k5 E5. bstep H ts k6 E6.
  rewrite E5, E4, E3, E2 in E6. apply both_eq in E6 as [Q6 T6].
  apply st_bind_Ret in H as (pid & k7 & H7 & H). pose proof (queue_pid_alloc _ _ _ H7) as Q7.
  apply pid_alloc_tree in H7 as (ids & Ha & T7). rewrite Q6 in Q7. rewrite T6 in Ha, T7.
  bstep H otc k8 E8. bstep H tcx k9 E9. bstep H tid k10 E10. bstep H u11 k11 E11. bstep H u12 k12 E12.
  bstep H u13 k13 E13. rewrite E12, E11, E10, E9, E8 in E13. apply both_eq in E13 as [Q13 T13].
  rewrite Q7 in Q13. rewrite T7 in T13.
  apply st_bind_Ret in H as (r & k14 & [= <- <-] & H). apply st_bind_Ret in H as (res & k15 & H15 & H).
  pose proof (queue_process _ _ _ _ _ _ _ _ _ _ _ H15) as Q15. apply clone_process_tree in H15.
  bstep H u16 k16 E16. bstep H u17 k17 E17. rewrite E16 in E17. apply both_eq in E17 as [Q17 T17].
  apply clone_finish_error in H as [Q18 T18]. split; [congruence|].
  exists pid. rewrite T18, T17, H15, T13. cbn [forked t_nodes t_pid2pc].
  rewrite lookup_alter_eq, lookup_insert_ne, Hn by congruence. eexists. split; [done|]. split; [done|].
  rewrite pid2pc_insert by apply Hw. by destruct (decide (pid = pid)).
Qed.

(** A fork that is to write the child's tid to an address without a table. *)
Definition settid_flags : Z := Z.lor 17 CLONE_CHILD_SETTID.
Definition kfailed : kern := kafter (clone_task no_read env2 100 settid_flags 0x1000 0 0 0x40000000) kboot.

Lemma clone_error_leaves_child_witness :
  queue kfailed = queue kboot /\ exists n', t_nodes (tree kfailed) !! 100 = Some n' /\ n_children n' = [101].
Proof.
  assert (clone_task no_read env2 100 settid_flags 0x1000 0 0 0x40000000 kboot = Ret (Err ENOMEM, kfailed)) as H
    by run_k.
  destruct (clone_error_leaves_child true 100 no_read env2 100 settid_flags 0x1000 0 0 0x40000000 kboot ENOMEM
              kfailed (node_of init_pcb) kboot_wf eq_refl eq_refl eq_refl eq_refl H)
    as (Hq & pid & n' & H1 & H2 & _).
  split; [exact Hq|]. exists n'. split; [exact H1|exact H2].
Defined.

(** ** The tid in a copy-on-write page *)

(** A page of a private mapping of the parent; the kernel has a root table of
    its own. *)
Definition mmap_space : MemorySet * Z * world :=
  match (a ← st_lift (MapArea_new 0x10000 0x11000 Framed (Z.lor (Z.lor MP_R MP_W) MP_U) AT_Mmap);
         kroot ← pt_new;
         '(_, ms) ← ms_push (mkMS (fst pt70) []) a None;
         mret (ms, root_ppn kroot)) (snd pt70) with
  | Ret (r, w) => (r, w)
  | Panic => (mkMS (fst pt70) [], 0, snd pt70)
  end.
Definition mapped_ms : MemorySet := mmap_space.1.1.
Definition kmapped : kern :=
  mkKern (mkSys ex_running [(1, 1)] []) mmap_space.2 [] ∅ ShmManager_new {[200 := mapped_ms]}
    {[300 := PSS_default]} {[1 := TaskSignalState_init 0]} {[1 := trap0]} {[100 := init_pcb]}
    [(1, 100)] (mkRA 2 []) 2.
Definition env_mapped : clone_env := mkCE 2 101 201 301 mmap_space.1.2 0.
Definition ksettid : kern := kafter (sys_clone no_read env_mapped settid_flags 0x1000 0 0 0x10008) kmapped.

(** The word of the parent at the address given for the child's tid. *)
Definition parent_word (k : kern) : outcome (list Z) :=
  get_data (ms_token mapped_ms) (w_mem (k_world k)) 0x10008 4.

(** A fork that stores the child's tid in the child stores it in the parent
    too: the page is shared copy-on-write and written through its frame. *)
Example settid_changes_parent :
  sys_clone no_read env_mapped settid_flags 0x1000 0 0 0x10008 kmapped = Ret (Ok 2, ksettid) /\
  parent_word kmapped = Ret [0; 0; 0; 0] /\ parent_word ksettid = Ret [2; 0; 0; 0].
Proof. split; [run_k|]. split; vm_compute; reflexivity. Qed.

(** Every clone leaves a reference to its task behind, with the waker that
    holds it: after the run of ProcTree.v the thread of the dead child is in no
    table and in no control block, and still allocated. *)
Example clone_leaks_task :
  arcs (ex (k_sys kdropped)) !! 2 = Some 1 /\ tid2tc (k_sys kdropped) = [(1, 1)] /\
  k_procs kdropped !! 101 = None /\ refs (ex (k_sys kdropped)) = [].
Proof. split_and!; vm_compute; reflexivity. Qed.

(** A flag that the kernel does not know stops it. *)
Lemma clone_unknown_flag_panics fr env flags us ptid tls ctid k p :
  current_process k = Ret (p, k) -> Z.testbit flags 6 = true ->
  sys_clone fr env flags us ptid tls ctid k = Panic.
Proof.
  intros Hp Hb. unfold sys_clone, mbind, ST_bind. rewrite Hp. unfold st_lift, unwrap, fl_from_bits.
  destruct (Z.eqb_spec (Z.land (Z.ldiff flags 63) (not64 clone_all)) 0) as [E|]; [|done].
  apply (f_equal (fun z => Z.testbit z 6)) in E. rewrite Z.land_spec, Z.ldiff_spec, Hb in E. done.
Qed.

(** With [CLONE_PARENT] the new process is in the list of the caller, but its
    parent is the parent of the caller. *)
Example clone_parent_listed_by_caller :
  let k := kafter (sys_clone no_read env2 (Z.lor 17 CLONE_PARENT) 0x1000 0 0 0)
             (k_set_procs {[100 := set_parent 7 init_pcb]} kboot) in
  t_nodes (tree k) !! 100 = Some (mkPN 1 7 [101]) /\ t_nodes (tree k) !! 101 = Some (mkPN 2 7 []).
Proof. vm_compute. split; reflexivity. Qed.
