(* ===== verification/Start.v ===== *)
(** * The start of a program (os/src/task/task.rs, os/src/task/mod.rs,
    os/src/syscall/process.rs)

    [exec] replaces the address space of a process by that of an ELF image,
    allocates a stack and fills it (UserStack.v), and resets the registers of
    the main thread; [ProcessControlBlock::new] does the same for the first
    process.  The ELF image is parsed by a library: the parsed
    file is an argument.  [memory_set.activate()] writes the register with the
    root of the page table and has no effect on the state modelled here. *)

From S2P Require Import Prelude Config Address BitField Memory FrameAlloc.
From S2P Require Import FrameSpec Pte PageTable BTree Errno Area.
From S2P Require Import AreaTree AreaMap UserMem UserCopy MemorySet Munmap.
From S2P Require Import Shm Timer Sched Exec ExecInv Sleep.
From S2P Require Import Ids FdTable Futex Signals Robust Auxv.
From S2P Require Import UserStack Process Clone ProcTree.

(** ** Setters *)

Definition set_heap_bottom (v : Z) p : ProcessControlBlock :=
  mkPCB (p_timers p) (p_pid p) (p_main p) (p_tasks p) (p_children p) (p_memory_set p)
    (p_user_stack_top p) (p_is_init p) (p_base_size p) (p_cwd p) (p_exe p) (p_parent p)
    (p_exit_code p) v (p_program_brk p) (p_fd_table p) (p_signal_shared p)
    (p_state p) (p_wakers p).
Definition set_exe (v : list Z) p : ProcessControlBlock :=
  mkPCB (p_timers p) (p_pid p) (p_main p) (p_tasks p) (p_children p) (p_memory_set p)
    (p_user_stack_top p) (p_is_init p) (p_base_size p) (p_cwd p) v (p_parent p)
    (p_exit_code p) (p_heap_bottom p) (p_program_brk p) (p_fd_table p) (p_signal_shared p)
    (p_state p) (p_wakers p).
Definition tcb_set_token (v : Z) (t : TaskControlBlock) : TaskControlBlock :=
  mkTCB (tcb_id t) (is_init t) (state t) (exit_code t) (need_resched t)
    (preempt_disable_count t) (is_leader t) (process_id t) v
    (child_tid t) (need_clear_child_tid t) (robust_list t) (uid t) (noma_policy t)
    (wait_wakers t) (trap_status t).

(** Code over memory with its allocator, and over memory alone. *)
Definition on_kw {A} (m : ST world A) : ST kern A :=
  fun k => match m (k_world k) with
           | Ret (a, w) => Ret (a, k_set_mem w (k_inodes k) (k_shm k) (k_mms k) k)
           | Panic => Panic
           end.
Definition on_kmem {A} (m : ST pmem A) : ST kern A := on_kf (on_fmem m).

(** ** The address space *)

(** [insert_framed_area_with_hint] of an address space: an error of the
    insertion is only logged. *)
Definition insert_framed_area_with_hint (ms : MemorySet) (hint size perm : Z) (at_ : MapAreaType)
    : ST world (Z * Z * MemorySet) :=
  hint_vpn ← st_lift (VirtAddr_ceil hint);
  n ← st_lift (uadd size PAGE_SIZE);
  let npages := (n - 1) / PAGE_SIZE in
  o ← st_lift (find_gap_from (areatree ms) hint_vpn npages);
  base_vpn ← st_lift (unwrap o);
  top_vpn ← st_lift (uadd base_vpn npages);
  let start_va := VirtAddr_of_VirtPageNum base_vpn in
  let end_va := VirtAddr_of_VirtPageNum top_vpn in
  '(_, ms') ← insert_framed_area ms start_va end_va perm at_;
  mret (start_va, end_va, ms').

Definition alloc_stack (ms : MemorySet) : ST world (Z * Z * MemorySet) :=
  insert_framed_area_with_hint ms USER_STACK_TOP USER_STACK_SIZE
    (Z.lor (Z.lor MP_R MP_W) MP_U) AT_Stack.

Definition alloc_user_res (self : Z) : ST kern unit :=
  pcb ← proc_at self;
  top ← on_mm (p_memory_set pcb) (fun fs ms =>
          '(_, top, ms') ← alloc_stack ms; mret (top, ms', fs));
  proc_update self (set_user_stack_top top).

(** The new address space takes the place of the old one, wherever the old
    one is referred to; the threads of [self] get its token. *)
Definition replace_memory_set (self : Z) (new_ms : MemorySet) : ST kern unit :=
  pcb ← proc_at self;
  old ← on_mm (p_memory_set pcb) (fun fs ms => mret (ms, new_ms, fs));
  _ ← on_kw (drop_memory_set old);
  st_iter (fun t => on_kx (tcb_update t (tcb_set_token (ms_token new_ms)))) (p_tasks pcb).

(** ** exec *)

(** What the hardware and the boot code provide: the root of the kernel page
    table, the register PRMD and the top of the kernel stack. *)
Record start_env : Type := mkSE {
  se_global_root : Z;
  se_prmd : Z;
  se_stack_top : Z
}.

(** The privilege level is written to the register after it has been read,
    so the value in the context is the one from before. *)
Definition app_init_context (e : start_env) (entry sp : Z) : TrapContext :=
  set_reg R_sp sp
    (mkTC (replicate 31 0) (se_prmd e) entry (se_stack_top e) 114514 (replicate 12 0) 0 0 0
       (replicate 32 0) 0 0 0 TrapDone).

(** [(base + PAGE_SIZE) & !(PAGE_SIZE - 1)] *)
Definition heap_start (base : Z) : outcome Z :=
  x ← uadd base PAGE_SIZE;
  Ret (Z.ldiff x (PAGE_SIZE - 1)).

Section start.

Variable file_write : Z -> UserBuffer -> ST world (result Z SysErrNo).
Variable e : start_env.

(** From the allocation of the stack on. *)
Definition exec_finish (self user_heap_base entry_point : Z) (auxv : list Aux)
    (argv env : list (list Z)) : ST kern (result unit SysErrNo) :=
  _ ← alloc_user_res self;
  pcb ← proc_at self;
  token ← mm_token (p_memory_set pcb);
  '(user_sp, _, _) <-? on_kmem (init_stack false token (p_user_stack_top pcb) argv env auxv);
  _ ← proc_update self (fun p => set_fd_table (close_on_exec (p_fd_table p)) p);
  _ ← k_set_trap (p_main pcb) (app_init_context e entry_point user_sp);
  _ ← on_kx (tcb_update (p_main pcb) (tcb_set_trap TrapDone));
  heap ← st_lift (heap_start user_heap_base);
  _ ← proc_update self (set_heap_bottom heap);
  _ ← proc_update self (set_program_brk heap);
  mret (Ok tt).

Definition pcb_exec (self : Z) (elf interp : ElfFile) (argv env : list (list Z))
    : ST kern (result unit SysErrNo) :=
  '(ms, user_heap_base, entry_point, auxv, _) ← on_kw (from_elf (se_global_root e) elf interp);
  pcb ← proc_at self;
  r ← on_mm (p_memory_set pcb) (fun fs ms =>
        '(r, ms') ← recycle_data_pages file_write ms; mret (r, ms', fs));
  match r with
  | Err err => _ ← on_kw (drop_memory_set ms); mret (Err err)
  | Ok _ =>
      _ ← replace_memory_set self ms;
      exec_finish self user_heap_base entry_point auxv argv env
  end.

(** ** The first process *)

Definition R_gp : nat := 20.

(** The context that [new] leaves: [TrapContext::new()], then [init] and the
    registers. *)
Definition new_context (user_sp entry argc argv_base envp_base : Z) (is_dl : bool) : TrapContext :=
  let c := mkTC (replicate 31 0) (se_prmd e) entry (se_stack_top e) 0 (replicate 12 0) 0 0 0
             (replicate 32 0) 0 0 0 TrapDone in
  let c := set_reg R_sp user_sp c in
  let c := set_reg R_a0 argc c in
  let c := set_reg R_a1 argv_base c in
  let c := set_reg R_a2 envp_base c in
  let c := set_reg R_gp 0xdeadbeefaaadbeef c in
  let c := set_reg R_tp 0xdeadbeefaaadbeef c in
  if is_dl then set_reg R_a0 entry c else c.

(** [ProcessControlBlock::new], up to the control block: the new objects have
    the addresses [ce_task], [ce_mm], [ce_sig] and [ce_proc] of [c], and [io]
    are the standard streams.  The reference that the constructor makes goes to
    [TID2TC] at the end. *)
Definition process_objects (c : clone_env) (io : Z * Z * Z) (elf interp : ElfFile) (cwd exe : list Z)
    : ST kern (Z * Z * Z * list Aux * bool) :=
  pid ← k_pid_alloc;
  '(ms, user_sp, entry_point, auxv, is_dl) ← on_kw (from_elf (se_global_root e) elf interp);
  let token := ms_token ms in
  tid ← TaskId_new;
  _ ← on_kx (task_alloc (ce_task c) (TaskControlBlock_new tid true true pid token None false TrapDone));
  _ ← k_set_tsig (ce_task c) (TaskSignalState_init 0);
  _ ← on_kx (task_arc_clone (ce_task c));
  _ ← on_kx (task_arc_clone (ce_task c));
  _ ← on_kx (task_arc_clone (ce_task c));
  _ ← k_set_psig (ce_sig c) PSS_default;
  _ ← st_modify (fun k => k_set_mem (k_world k) (k_inodes k) (k_shm k)
                            (<[ce_mm c := ms]> (k_mms k)) k);
  let '(stdin, stdout, stderr) := io in
  let pcb := mkPCB (replicate 3 (mkTimer 0 0)) pid (ce_task c) [ce_task c] [] (ce_mm c)
               USER_STACK_TOP true user_sp cwd exe 1 1 user_sp user_sp
               (new_with_stdio stdin stdout stderr) (ce_sig c) Runnable [(tid, ce_task c)] in
  _ ← st_modify (fun k => k_set_procs (<[ce_proc c := pcb]> (k_procs k)) k);
  mret (tid, token, entry_point, auxv, is_dl).

Definition process_new (c : clone_env) (io : Z * Z * Z) (elf interp : ElfFile) (cwd exe : list Z)
    (argv env : list (list Z)) : ST kern unit :=
  '(tid, token, entry_point, auxv, is_dl) ← process_objects c io elf interp cwd exe;
  _ ← alloc_user_res (ce_proc c);
  pcb ← proc_at (ce_proc c);
  r ← on_kmem (init_stack true token (p_user_stack_top pcb) argv env auxv);
  '(sp, argv_base, envp_base) ← st_lift (result_unwrap r);
  _ ← k_set_trap (ce_task c) (new_context sp entry_point (zlen argv) argv_base envp_base is_dl);
  _ ← on_kx (task_arc_clone (ce_task c));
  _ ← on_kx (on_rq (sched_add_task (ce_task c)));
  on_ksys (tid2tc_insert tid (ce_task c)).

End start.

(** ** The stack of a fresh address space *)

Definition STACK_BOTTOM : Z := USER_STACK_TOP - USER_STACK_SIZE.
Definition STACK_VPN : Z := STACK_BOTTOM / PAGE_SIZE.
Definition STACK_PAGES : Z := USER_STACK_SIZE / PAGE_SIZE.

(** The areas of a program that was loaded lie below the stack, whose pages
    are not mapped yet. *)
Record below_stack (w : world) (ms : MemorySet) : Prop := {
  bs_wf : Munmap.ms_wf w (root_ppn (page_table ms)) (areatree ms);
  bs_areas : forall k a, (k, a) ∈ areatree ms -> k < STACK_VPN /\ end_vpn a <= STACK_VPN;
  bs_free : forall v, STACK_VPN <= v < STACK_VPN + STACK_PAGES ->
    pte_at (w_mem w) (root_ppn (page_table ms)) v = 0;
  bs_frames : 3 * STACK_PAGES <= free_count w
}.

Lemma stack_gap w ms : below_stack w ms ->
  find_gap_from (areatree ms) (STACK_VPN + STACK_PAGES) STACK_PAGES = Ret (Some STACK_VPN).
Proof.
  intros [Hwf Ha _ _].
  destruct (find_gap_from_highest (areatree ms) (STACK_VPN + STACK_PAGES) STACK_PAGES)
    as (r & -> & H); [apply Hwf|vm_compute; discriminate|split; vm_compute; [discriminate|done]|].
  assert (is_overlap (areatree ms) STACK_VPN (STACK_VPN + STACK_PAGES) = false) as Hno.
  { apply not_true_iff_false. rewrite is_overlap_iff. intros (k & a & Hin & H1 & _).
    destruct (Ha k a Hin). lia. }
  destruct r as [s|].
  - destruct H as (H0 & H1 & H2 & H3). do 2 f_equal.
    destruct (Z.lt_ge_cases s STACK_VPN) as [Hlt|]; [|lia].
    rewrite (H3 STACK_VPN Hlt) in Hno by lia. done.
  - rewrite H in Hno; [done|vm_compute; discriminate|lia].
Qed.

(** The pages of a new area are a writable range. *)
Lemma map_post_range w root perm lo hi d w' : 0 <= lo -> hi <= 2 ^ 27 ->
  (forall x, la_flags x = Ret (la_flags_of_perm perm) -> la_writable x = Ret true) ->
  map_pages_post w root perm (zrange lo hi) [] d w' ->
  user_range w' root (lo * PAGE_SIZE) (hi * PAGE_SIZE) (fun v => default 0 (bt_get v d)).
Proof.
  intros Hlo Hhi Hwr M.
  assert (forall v, in_range (lo * PAGE_SIZE) (hi * PAGE_SIZE) v -> v ∈ zrange lo hi) as Hin.
  { unfold in_range, PAGE_SIZE. intros v Hv. apply elem_of_zrange. lia. }
  constructor.
  - unfold PAGE_SIZE. lia.
  - intros v Hv%Hin. destruct (ms_new _ _ _ _ _ _ _ M v Hv) as (p & Hg & _ & _ & _ & _ & Hp & Hf).
    rewrite Hg. split; [done|]. by apply Hwr.
  - intros v Hv%Hin. destruct (ms_new _ _ _ _ _ _ _ M v Hv) as (p & Hg & _ & Hl & Hn & _).
    rewrite Hg. split; [|done]. apply (live_range w'); [apply M|by eexists].
  - intros v1 v2 H1%Hin H2%Hin.
    destruct (ms_new _ _ _ _ _ _ _ M v1 H1) as (p & G1 & _).
    destruct (ms_new _ _ _ _ _ _ _ M v2 H2) as (p' & G2 & _).
    rewrite G1, G2. cbn. intros ->. by apply (ms_inj _ _ _ _ _ _ _ M v1 v2 p').
Qed.

Lemma alloc_stack_spec w ms : below_stack w ms ->
  exists ms' w' fr, alloc_stack ms w = Ret ((STACK_BOTTOM, USER_STACK_TOP, ms'), w') /\
    root_ppn (page_table ms') = root_ppn (page_table ms) /\
    Munmap.ms_wf w' (root_ppn (page_table ms')) (areatree ms') /\
    user_range w' (root_ppn (page_table ms')) STACK_BOTTOM USER_STACK_TOP fr.
Proof.
  intros Hb. pose proof (stack_gap w ms Hb) as Hg. destruct Hb as [Hwf Ha H0 Hc].
  unfold alloc_stack, insert_framed_area_with_hint.
  replace (VirtAddr_ceil USER_STACK_TOP) with (Ret (STACK_VPN + STACK_PAGES)) by reflexivity.
  replace (uadd USER_STACK_SIZE PAGE_SIZE) with (Ret (USER_STACK_SIZE + PAGE_SIZE)) by reflexivity.
  st_unfold. change ((USER_STACK_SIZE + PAGE_SIZE - 1) / PAGE_SIZE) with STACK_PAGES.
  rewrite Hg. replace (uadd STACK_VPN STACK_PAGES) with (Ret (STACK_VPN + STACK_PAGES)) by reflexivity.
  change (VirtAddr_of_VirtPageNum STACK_VPN) with STACK_BOTTOM.
  change (VirtAddr_of_VirtPageNum (STACK_VPN + STACK_PAGES)) with USER_STACK_TOP.
  unfold insert_framed_area. st_unfold.
  set (a := mkArea (mkRange STACK_VPN (STACK_VPN + STACK_PAGES)) [] Framed
    (Z.lor (Z.lor MP_R MP_W) MP_U) AT_Stack None 0).
  replace (MapArea_new _ _ _ _ _) with (Ret a) by reflexivity. cbv beta iota.
  destruct (ms_push_spec w ms a) as (d & pt' & w' & -> & R & M & Hwf').
  - done.
  - done.
  - done.
  - split; vm_compute; discriminate.
  - vm_compute. discriminate.
  - destruct (bt_get (start_vpn a) (areatree ms)) as [b|] eqn:E; [|done].
    apply get_Some_elem, Ha in E as [E _]. change (start_vpn a) with STACK_VPN in E. lia.
  - intros k b E%get_Some_elem%Ha. left. change (start_vpn a) with STACK_VPN. lia.
  - intros v Hv. by apply H0.
  - assert (0 <= STACK_PAGES) by (vm_compute; discriminate).
    unfold range_list, zlen. rewrite length_zrange.
    change (rr (vpn_range a)) with (STACK_VPN + STACK_PAGES).
    change (rl (vpn_range a)) with STACK_VPN. lia.
  - exists (mkMS pt' (tree_push (areatree ms) (set_data_frames d a))), w',
      (fun v => default 0 (bt_get v d)).
    split_and!; [done|done|done|].
    apply (map_post_range w _ (map_perm a) STACK_VPN (STACK_VPN + STACK_PAGES));
      [vm_compute; discriminate|vm_compute; discriminate|..|exact M].
    intros x Hx. unfold la_writable. rewrite Hx. reflexivity.
Qed.

(** ** Steps over the kernel state *)

Definition kheap (k : kern) := heap (rq (ex (k_sys k))).
Definition k_set_heap h (k : kern) : kern :=
  let s := k_sys k in
  k_set_sys (mkSys (mkExec (mkRunq h (sched (rq (ex s)))) (arcs (ex s)) (current (ex s)))
               (tid2tc s) (sleepers s)) k.

(** The token of a thread. *)
Definition thread_token (k : kern) (r : Z) : option Z :=
  (fun t => page_table_token (inner t)) <$> kheap k !! r.

Lemma k_set_heap_id k : k_set_heap (kheap k) k = k.
Proof. destruct k as [[[[] ] ]]. done. Qed.

Lemma tcb_update_run r f k t : kheap k !! r = Some t ->
  on_kx (tcb_update r f) k =
    Ret (tt, k_set_heap (<[r := set_inner (f (inner t)) t]> (kheap k)) k).
Proof.
  intros E. unfold on_kx, on_ksys, on_ex, tcb_update, exec_task, on_rq, task_at, task_put. st_unfold.
  unfold kheap in E. rewrite E. done.
Qed.

Lemma set_tokens_run v l : forall k, Forall (fun r => is_Some (kheap k !! r)) l ->
  exists h, st_iter (fun t => on_kx (tcb_update t (tcb_set_token v))) l k =
      Ret (tt, k_set_heap h k) /\
    (forall r, r ∈ l -> exists t, h !! r = Some t /\ page_table_token (inner t) = v) /\
    (forall r, r ∉ l -> h !! r = kheap k !! r) /\
    (forall r, is_Some (kheap k !! r) -> is_Some (h !! r)).
Proof.
  induction l as [|r l IH]; intros k Hl; cbn [st_iter].
  { exists (kheap k). rewrite k_set_heap_id. split_and!; [done|set_solver|done|done]. }
  apply Forall_cons_1 in Hl as [[t Ht] Hl].
  unfold mbind, ST_bind. rewrite (tcb_update_run _ _ _ _ Ht).
  set (h1 := <[r := _]> (kheap k)).
  assert (forall x, is_Some (kheap k !! x) -> is_Some (h1 !! x)) as Hm.
  { intros x Hx. unfold h1. destruct (decide (r = x)) as [<-|]; [rewrite lookup_insert_eq; by eexists|].
    by rewrite lookup_insert_ne. }
  destruct (IH (k_set_heap h1 k)) as (h & -> & H1 & H2 & H3).
  { eapply Forall_impl; [|exact Hl]. intros x. apply Hm. }
  exists h. split_and!; [done| | |].
  - intros x [->|Hx]%elem_of_cons; [|by apply H1].
    destruct (decide (r ∈ l)) as [|Hn]; [by apply H1|].
    rewrite (H2 r Hn). change (kheap (k_set_heap h1 k)) with h1. unfold h1.
    rewrite lookup_insert_eq. by eexists.
  - intros x Hx. rewrite (H2 x) by set_solver. change (kheap (k_set_heap h1 k)) with h1.
    unfold h1. rewrite lookup_insert_ne by set_solver. done.
  - intros x Hx. by apply H3, Hm.
Qed.

Definition k_set_world (w : world) (k : kern) : kern :=
  k_set_mem w (k_inodes k) (k_shm k) (k_mms k) k.

Lemma on_kw_run {A} (m : ST world A) k a w : m (k_world k) = Ret (a, w) ->
  on_kw m k = Ret (a, k_set_world w k).
Proof. unfold on_kw. by intros ->. Qed.

Lemma on_kmem_run {A} (m : ST pmem A) k a m' : m (w_mem (k_world k)) = Ret (a, m') ->
  on_kmem m k = Ret (a, k_set_world (set_mem m' (k_world k)) k).
Proof. unfold on_kmem, on_kf, on_fmem. cbn [f_mem]. by intros ->. Qed.

Lemma proc_at_run r p k : k_procs k !! r = Some p -> proc_at r k = Ret (p, k).
Proof. unfold proc_at. by intros ->. Qed.

Lemma proc_update_run r f p k : k_procs k !! r = Some p ->
  proc_update r f k = Ret (tt, k_set_procs (<[r := f p]> (k_procs k)) k).
Proof. intros H. unfold proc_update. by rewrite (st_run _ _ _ _ _ (proc_at_run _ _ _ H)). Qed.

Lemma on_mm_run {A} r (m : inodes -> MemorySet -> ST world (A * MemorySet * inodes)) k ms a ms' fs w :
  k_mms k !! r = Some ms -> m (k_inodes k) ms (k_world k) = Ret ((a, ms', fs), w) ->
  on_mm r m k = Ret (a, k_set_mem w fs (k_shm k) (<[r := ms']> (k_mms k)) k).
Proof. unfold on_mm. by intros -> ->. Qed.

(** Memory changes outside the tables keep a range. *)
Lemma user_range_tables w root lo hi fr m : same_tables w root m ->
  user_range w root lo hi fr -> user_range (set_mem m w) root lo hi fr.
Proof.
  intros [Hn Hp] [Hb He Hf Hi]. split; [done| | |done].
  - intros v Hv. cbn. rewrite Hp. by apply He.
  - intros v Hv. destruct (Hf v Hv) as [H1 H2]. split; [done|]. intros p Ho. cbn.
    rewrite Hn by done. by apply H2.
Qed.

(** The two steps of [exec] on the address space. *)
Lemma replace_memory_set_run self p ms0 old w k : k_procs k !! self = Some p ->
  k_mms k !! p_memory_set p = Some old -> drop_memory_set old (k_world k) = Ret (tt, w) ->
  Forall (fun r => is_Some (kheap k !! r)) (p_tasks p) ->
  exists h, replace_memory_set self ms0 k =
      Ret (tt, k_set_heap h (k_set_mem w (k_inodes k) (k_shm k)
                               (<[p_memory_set p := ms0]> (k_mms k)) k)) /\
    (forall r, r ∈ p_tasks p ->
       exists t, h !! r = Some t /\ page_table_token (inner t) = ms_token ms0) /\
    (forall r, r ∉ p_tasks p -> h !! r = kheap k !! r) /\
    (forall r, is_Some (kheap k !! r) -> is_Some (h !! r)).
Proof.
  intros Hp Hm Hd Ht. unfold replace_memory_set.
  rewrite (st_run _ _ _ _ _ (proc_at_run self p k Hp)).
  erewrite st_run; [|by apply (on_mm_run _ _ k old old ms0 (k_inodes k) (k_world k) Hm)].
  erewrite st_run; [|by apply on_kw_run].
  destruct (set_tokens_run (ms_token ms0) (p_tasks p)
    (k_set_mem w (k_inodes k) (k_shm k) (<[p_memory_set p := ms0]> (k_mms k)) k)) as (h & E & H);
    [exact Ht|].
  exists h. split; [exact E|exact H].
Qed.

Lemma alloc_user_res_run self p ms b top ms' w k : k_procs k !! self = Some p ->
  k_mms k !! p_memory_set p = Some ms -> alloc_stack ms (k_world k) = Ret ((b, top, ms'), w) ->
  alloc_user_res self k =
    Ret (tt, k_set_procs (<[self := set_user_stack_top top p]> (k_procs k))
               (k_set_mem w (k_inodes k) (k_shm k) (<[p_memory_set p := ms']> (k_mms k)) k)).
Proof.
  intros Hp Hm Ha. unfold alloc_user_res.
  rewrite (st_run _ _ _ _ _ (proc_at_run self p k Hp)).
  erewrite st_run; [|apply (on_mm_run _ _ k ms top ms' (k_inodes k) w Hm); by rewrite (st_run _ _ _ _ _ Ha)].
  by rewrite (proc_update_run self _ p) by done.
Qed.

(** ** exec *)

(** A process that can execute the image: the file has been loaded as [ms0],
    with its heap base, entry point and auxiliary vector, the old address
    space is given back without an error, and there is memory for the stack,
    which leaves the allocator in [w]. *)
Record exec_ready (fw : Z -> UserBuffer -> ST world (result Z SysErrNo)) (e : start_env)
    (k : kern) (self : Z) (p : ProcessControlBlock) (elf interp : ElfFile)
    (ms0 : MemorySet) (base entry : Z) (auxv : list Aux) (w : world) : Prop := {
  er_proc : k_procs k !! self = Some p;
  er_load : exists dl w1 old n old' w2,
    from_elf (se_global_root e) elf interp (k_world k) = Ret ((ms0, base, entry, auxv, dl), w1) /\
    k_mms k !! p_memory_set p = Some old /\
    recycle_data_pages fw old w1 = Ret ((Ok n, old'), w2) /\
    drop_memory_set old' w2 = Ret (tt, w);
  er_stack : below_stack w ms0;
  er_main : is_Some (kheap k !! p_main p);
  er_tasks : Forall (fun r => is_Some (kheap k !! r)) (p_tasks p);
  er_base : 0 <= base < u64_bound - PAGE_SIZE;
  er_auxv : Forall aux_ok auxv
}.

(** The control block of a process after [exec]. *)
Definition exec_pcb (base : Z) (p : ProcessControlBlock) : ProcessControlBlock :=
  let heap := Z.ldiff (base + PAGE_SIZE) (PAGE_SIZE - 1) in
  set_program_brk heap (set_heap_bottom heap
    (set_fd_table (close_on_exec (p_fd_table p)) (set_user_stack_top USER_STACK_TOP p))).

Lemma exec_finish_run e k self p base entry auxv argv env ms0 :
  k_procs k !! self = Some p -> k_mms k !! p_memory_set p = Some ms0 ->
  below_stack (k_world k) ms0 -> is_Some (kheap k !! p_main p) ->
  0 <= base < u64_bound - PAGE_SIZE -> Forall aux_ok auxv ->
  c_strings argv -> c_strings env -> stack_need argv env auxv <= USER_STACK_SIZE ->
  exists k' ms fr sp random argv0 t,
    exec_finish e self base entry auxv argv env k = Ret (Ok tt, k') /\
    k_mms k' = <[p_memory_set p := ms]> (k_mms k) /\
    root_ppn (page_table ms) = root_ppn (page_table ms0) /\
    user_range (k_world k') (root_ppn (page_table ms)) STACK_BOTTOM USER_STACK_TOP fr /\
    k_trap k' !! p_main p = Some (app_init_context e entry sp) /\
    (forall n, USER_STACK_TOP - sp <= Z.of_nat n ->
       rd_start (ubyte fr (w_mem (k_world k'))) n sp =
         Some (mkImage (zlen argv) argv env
                 (auxv ++ [mkAux AUX_RANDOM random; mkAux AUX_EXECFN argv0]))) /\
    k_procs k' = <[self := exec_pcb base p]> (k_procs k) /\
    kheap k !! p_main p = Some t /\
    kheap k' = <[p_main p := set_inner (tcb_set_trap TrapDone (inner t)) t]> (kheap k).
Proof.
  intros Hp Hms Hst [t Ht] Hb Hx Ha He Hn.
  destruct (alloc_stack_spec _ _ Hst) as (ms & w & fr & Ea & Hroot & Hwf & Hur).
  set (k1 := k_set_procs (<[self := set_user_stack_top USER_STACK_TOP p]> (k_procs k))
               (k_set_mem w (k_inodes k) (k_shm k) (<[p_memory_set p := ms]> (k_mms k)) k)).
  unfold exec_finish.
  rewrite (st_run _ _ _ _ _ (alloc_user_res_run self p ms0 _ _ ms w k Hp Hms Ea)). fold k1.
  assert (k_procs k1 !! self = Some (set_user_stack_top USER_STACK_TOP p)) as Hp1
    by apply lookup_insert_eq.
  rewrite (st_run _ _ _ _ _ (proc_at_run _ _ k1 Hp1)).
  assert (k_mms k1 !! p_memory_set p = Some ms) as Hm1 by apply lookup_insert_eq.
  assert (mm_token (p_memory_set p) k1 = Ret (root_ppn (page_table ms), k1)) as Et.
  { etransitivity; [by apply (on_mm_run _ _ k1 ms (root_ppn (page_table ms)) ms (k_inodes k) w Hm1)|].
    unfold k1. cbn. by rewrite insert_insert_eq. }
  cbn [p_memory_set set_user_stack_top p_user_stack_top p_main].
  rewrite (st_run _ _ _ _ _ Et).
  destruct (start_stack_spec w (root_ppn (page_table ms)) STACK_BOTTOM USER_STACK_TOP fr false
    argv env auxv) as (sp & random & argv0 & m' & Ei & _ & _ & Hrd & _ & _ & _ & Hpu);
    [apply Hwf|exact Hur|reflexivity| |done|done|done|].
  { unfold STACK_BOTTOM. lia. }
  assert (on_kmem (init_stack false (root_ppn (page_table ms)) USER_STACK_TOP argv env auxv) k1 =
    Ret (Ok (sp, sp + 8, sp + 8 + 8 * (zlen argv + 1)), k_set_world (set_mem m' w) k1)) as Ek
    by (by apply on_kmem_run).
  rewrite (st_try_run _ _ _ _ _ Ek). cbv beta iota.
  rewrite (st_run _ _ _ _ _ (proc_update_run self _ _ (k_set_world (set_mem m' w) k1) Hp1)).
  erewrite st_run; [|reflexivity].
  erewrite st_run; [|by apply (tcb_update_run _ _ _ t)].
  assert (heap_start base = Ret (Z.ldiff (base + PAGE_SIZE) (PAGE_SIZE - 1))) as Eh.
  { unfold heap_start. rewrite uadd_Ret; [done|]. unfold u64_bound, PAGE_SIZE in *. lia. }
  erewrite st_run; [|unfold st_lift; rewrite Eh; reflexivity].
  erewrite st_run; [|apply proc_update_run; apply lookup_insert_eq].
  erewrite st_run; [|apply proc_update_run; apply lookup_insert_eq].
  eexists _, ms, fr, sp, random, argv0, t. split; [reflexivity|]. split_and!; try done.
  - apply user_range_tables; [|done]. apply Hpu.
  - cbn. apply lookup_insert_eq.
  - cbn. rewrite !insert_insert_eq. done.
Qed.

Lemma exec_run fw e k self p elf interp ms0 base entry auxv w argv env :
  exec_ready fw e k self p elf interp ms0 base entry auxv w ->
  c_strings argv -> c_strings env -> stack_need argv env auxv <= USER_STACK_SIZE ->
  exists k' ms fr sp random argv0,
    pcb_exec fw e self elf interp argv env k = Ret (Ok tt, k') /\
    k_mms k' = <[p_memory_set p := ms]> (k_mms k) /\
    root_ppn (page_table ms) = root_ppn (page_table ms0) /\
    user_range (k_world k') (root_ppn (page_table ms)) STACK_BOTTOM USER_STACK_TOP fr /\
    k_trap k' !! p_main p = Some (app_init_context e entry sp) /\
    (forall n, USER_STACK_TOP - sp <= Z.of_nat n ->
       rd_start (ubyte fr (w_mem (k_world k'))) n sp =
         Some (mkImage (zlen argv) argv env
                 (auxv ++ [mkAux AUX_RANDOM random; mkAux AUX_EXECFN argv0]))) /\
    k_procs k' = <[self := exec_pcb base p]> (k_procs k) /\
    (forall r, r ∈ p_tasks p -> thread_token k' r = Some (root_ppn (page_table ms0))) /\
    (forall r, r ∉ p_tasks p -> r <> p_main p -> thread_token k' r = thread_token k r).
Proof.
  intros [Hp (dl & w1 & old & n & old' & w2 & Eload & Hold & Erec & Edrop) Hst Hm Ht Hbase Haux]
    Ha He Hneed.
  set (k1 := k_set_world w1 k).
  assert (on_kw (from_elf (se_global_root e) elf interp) k = Ret ((ms0, base, entry, auxv, dl), k1))
    as E1 by (by apply on_kw_run).
  unfold pcb_exec. rewrite (st_run _ _ _ _ _ E1). cbv beta iota.
  rewrite (st_run _ _ _ _ _ (proc_at_run self p k1 Hp)).
  erewrite st_run; [|apply (on_mm_run _ _ k1 old (Ok n) old' (k_inodes k) w2 Hold);
    unfold mbind, ST_bind; cbn [k1 k_set_world k_world k_set_mem k_inodes]; rewrite Erec; done].
  cbv beta iota.
  set (k2 := k_set_mem _ _ _ _ k1).
  destruct (replace_memory_set_run self p ms0 old' w k2) as (h & E2 & Hin & Hout & Hsome).
  { exact Hp. } { apply lookup_insert_eq. } { exact Edrop. } { exact Ht. }
  rewrite (st_run _ _ _ _ _ E2). set (k3 := k_set_heap h _).
  destruct (exec_finish_run e k3 self p base entry auxv argv env ms0)
    as (k' & ms & fr & sp & random & argv0 & t & -> & Hmm & Hr & Hur & Htr & Hrd & Hpr & Hmt & Hh);
    [exact Hp|apply lookup_insert_eq|exact Hst|by apply Hsome|done..|].
  exists k', ms, fr, sp, random, argv0. split_and!; try done.
  - rewrite Hmm. cbn. by rewrite !insert_insert_eq.
  - intros r Hr'. unfold thread_token. rewrite Hh. destruct (Hin r Hr') as (t' & Et & Ep).
    change (kheap k3) with h in *. destruct (decide (p_main p = r)) as [<-|Hne].
    + rewrite lookup_insert_eq. cbn. rewrite Et in Hmt. injection Hmt as ->. by rewrite Ep.
    + rewrite lookup_insert_ne, Et by done. cbn. by rewrite Ep.
  - intros r Hr' Hne. unfold thread_token. rewrite Hh, lookup_insert_ne by done.
    change (kheap k3) with h. rewrite (Hout r Hr'). done.
Qed.

(** [exec] with arguments and environment that fit on the stack succeeds.
    The main thread starts at the entry point with a stack from which it
    reads back the arguments, the environment and the auxiliary vector of the
    image; the descriptors marked close-on-exec are closed; the threads of
    the process run in the new address space.  The control blocks of other
    processes do not change, so a process that shares the address space finds
    the new program in its place, while its threads keep the old token. *)
Theorem exec_starts_program fw e k self p elf interp ms0 base entry auxv w argv env :
  exec_ready fw e k self p elf interp ms0 base entry auxv w ->
  c_strings argv -> c_strings env -> stack_need argv env auxv <= USER_STACK_SIZE ->
  exists k' ms fr sp random argv0,
    pcb_exec fw e self elf interp argv env k = Ret (Ok tt, k') /\
    k_mms k' = <[p_memory_set p := ms]> (k_mms k) /\
    root_ppn (page_table ms) = root_ppn (page_table ms0) /\
    user_range (k_world k') (root_ppn (page_table ms)) STACK_BOTTOM USER_STACK_TOP fr /\
    k_trap k' !! p_main p = Some (app_init_context e entry sp) /\
    (forall n, USER_STACK_TOP - sp <= Z.of_nat n ->
       rd_start (ubyte fr (w_mem (k_world k'))) n sp =
         Some (mkImage (zlen argv) argv env
                 (auxv ++ [mkAux AUX_RANDOM random; mkAux AUX_EXECFN argv0]))) /\
    k_procs k' = <[self := exec_pcb base p]> (k_procs k) /\
    (forall r, r ∈ p_tasks p -> thread_token k' r = Some (root_ppn (page_table ms0))) /\
    (forall r, r ∉ p_tasks p -> r <> p_main p -> thread_token k' r = thread_token k r).
Proof. apply exec_run. Qed.

(** ** A run

    The first process executes an image without segments in a machine of
    8192 frames; the root of the kernel page table is empty. *)

Lemma zcount_all {A} (f : A -> bool) l : (forall a, a ∈ l -> f a = true) -> zcount f l = zlen l.
Proof.
  induction l as [|a l IH]; intros H; [done|].
  rewrite zcount_cons, IH, (H a) by set_solver. rewrite zlen_cons. done.
Qed.

Lemma machine n : 0 < n < 2 ^ 20 -> exists w, world_wf w /\ free_count w = n /\
  (forall p, fa_free (w_fa w) p = (0x80000 <=? p) && (p <? 0x80000 + n)) /\
  (forall f i, read_word (w_mem w) f i = 0).
Proof.
  intros Hn.
  destruct (FrameRegionMap_new_spec 0x80000000 ((0x80000 + n) * PAGE_SIZE)) as (r & E & Hr & Hs & He & _).
  { unfold PAGE_SIZE. rewrite Z.div_mul by lia. change (0x80000000 / 4096) with 0x80000. lia. }
  { unfold PAGE_SIZE. rewrite Z.div_mul by lia. lia. }
  destruct (add_memory_region_spec empty_world 0x80000000 ((0x80000 + n) * PAGE_SIZE))
    as (w & Ew & Hwf & _ & Hmem & Hfree).
  { apply empty_world_wf. }
  { unfold PAGE_SIZE. rewrite Z.div_mul by lia. change (0x80000000 / 4096) with 0x80000. lia. }
  { unfold PAGE_SIZE. rewrite Z.div_mul by lia. lia. }
  { constructor. }
  unfold add_memory_region, fa_add_memory_region in Ew. st_unfold_in Ew. rewrite E in Ew.
  cbn in Ew. injection Ew as <-.
  change (0x80000000 / PAGE_SIZE) with 0x80000 in *.
  unfold PAGE_SIZE in He, Hfree. rewrite Z.div_mul in He, Hfree by lia.
  eexists. split; [exact Hwf|]. split_and!.
  - unfold free_count, fa_free, managed_list. cbn [regions w_fa set_fa].
    rewrite bind_cons. cbn [mbind list_bind]. rewrite app_nil_r.
    rewrite zcount_all.
    + unfold zlen. rewrite length_zrange, Hs, He. lia.
    + intros p Hp%elem_of_zrange. rewrite Hs, He in Hp. etransitivity; [apply Hfree|]. cbn. lia.
  - exact Hfree.
  - intros f i. rewrite Hmem. done.
Qed.

(** A page table made from an empty kernel table is empty. *)
Lemma new_from_kernel_empty groot w : world_wf w -> 0 < free_count w -> 0 < groot < 2 ^ 36 ->
  fa_free (w_fa w) groot = false -> (forall i, read_word (w_mem w) groot i = 0) ->
  exists pt w', pt_new_from_kernel groot w = Ret (pt, w') /\ world_wf w' /\
    pt_wf w' (root_ppn pt) /\ (forall v, pte_at (w_mem w') (root_ppn pt) v = 0) /\
    free_count w' = free_count w - 1 /\
    (forall f, f <> root_ppn pt -> w_refs w' !! f = w_refs w !! f /\ not_table (w_mem w') (root_ppn pt) f /\
       forall i, read_word (w_mem w') f i = read_word (w_mem w) f i) /\
    w_refs w !! root_ppn pt = None.
Proof.
  intros Hw Hc Hg Hm H0. unfold pt_new_from_kernel. st_unfold.
  destruct (frame_alloc_available w Hw Hc) as (t & w1 & -> & Hp).
  change (index (indexes_la KERNEL_PGNUM_OFFSET) 0) with (Ret 0).
  pose proof (ap_range _ _ _ Hp). cbv iota. rewrite !frame_base_eq by lia. cbv iota.
  assert (t <> groot) as Hne. { intros ->. pose proof (ap_free _ _ _ Hp). congruence. }
  assert (forall i, read_word (copy_words (w_mem w1) t groot 0) t i = 0) as Hz.
  { intros i. rewrite copy_words_read by exact Hne.
    rewrite (ap_mem _ _ _ Hp), !read_zero_frame, H0. repeat case_decide; congruence. }
  assert (forall f i, f <> t -> read_word (copy_words (w_mem w1) t groot 0) f i = read_word (w_mem w) f i) as Ho.
  { intros f i Hf. rewrite copy_words_read by exact Hne. rewrite decide_False by tauto.
    by rewrite (ap_mem _ _ _ Hp), read_zero_frame, decide_False. }
  revert Hz Ho. generalize (copy_words (w_mem w1) t groot 0) as m. intros m Hz Ho.
  assert (forall p f, node m t p = Some f -> p = [] /\ f = t) as Hn.
  { intros [|i p] f; cbn; [intros [= <-]; done|]. rewrite Hz. done. }
  eexists _, (set_mem m w1). split; [done|]. cbn [root_ppn]. split_and!.
  - destruct (ap_wf _ _ _ Hp). by constructor.
  - constructor.
    + intros p1 p2 f _ _ [-> _]%Hn [-> _]%Hn. done.
    + intros p f _ [-> ->]%Hn. cbn. rewrite (ap_refs _ _ _ Hp), lookup_insert_eq.
      split; [by eexists|apply Hp].
  - intros v. unfold pte_at, vpath. cbn. rewrite Hz. done.
  - apply (ap_count _ _ _ Hp).
  - intros f Hf. split_and!; [|by intros p _ [_ ->]%Hn|intros i; by apply Ho].
    cbn. by rewrite (ap_refs _ _ _ Hp), lookup_insert_ne.
  - apply (ap_fresh _ _ _ Hp).
Qed.

Definition elf0 : ElfFile := mkElf 0x10000 56 64 [] [].
Definition senv0 : start_env := mkSE 0x70000 3 0x80400000.
Definition krun (w : world) : kern :=
  mkKern (mkSys ex_running [(1, 1)] []) w [] ∅ ShmManager_new {[200 := mkMS (mkPT 0x70000 []) []]}
    {[300 := PSS_default]} {[1 := TaskSignalState_init 0]} {[1 := trap0]} {[100 := init_pcb]}
    [(1, 100)] (mkRA 2 []) 2.

(** Loading the image into any consistent world with frames for the stack. *)
Lemma load_elf0 groot w : world_wf w -> 3 * STACK_PAGES < free_count w -> 0 < groot < 2 ^ 36 ->
  fa_free (w_fa w) groot = false -> (forall i, read_word (w_mem w) groot i = 0) ->
  exists ms0 auxv w', from_elf groot elf0 elf0 w = Ret ((ms0, 4096, 0x10000, auxv, false), w') /\
    below_stack w' ms0 /\ Forall aux_ok auxv /\ zlen auxv = 16.
Proof.
  intros Hw Hc Hg Hf H0. change STACK_PAGES with 2560 in Hc.
  destruct (new_from_kernel_empty groot w) as (pt & w1 & Ept & Hw1 & Hpt & Hp0 & Hc1 & _);
    [done|lia|done|done|done|].
  set (a := mkArea (mkRange 1 1) [] Framed (Z.lor (Z.lor MP_R MP_W) MP_U) AT_Brk None 0).
  destruct (ms_push_spec w1 (mkMS pt []) a) as (d & pt' & w2 & Epush & Hroot & M & Hwf);
    [by apply empty_space|done|done|cbn; lia|cbn; lia|done|done|intros v _; apply Hp0
    |rewrite Hc1; vm_compute (zlen _); lia|].
  eexists _, _, w2. split_and!.
  - unfold from_elf, ms_new_from_kernel. st_unfold. rewrite Ept. cbn [elf0 elf_phs existsb elf_entry_point].
    change (map_elf (mkMS pt []) elf0 0 w1) with
      (Ret ((Ok (0, 0, 0) : result (Z * Z * Z) SysErrNo, mkMS pt []), w1)).
    cbn [result_unwrap]. change (uadd 0 (elf_ph_offset elf0)) with (Ret 64).
    change (uadd (usize_of_VirtAddr (VirtAddr_of_VirtPageNum 0)) PAGE_SIZE) with (Ret 4096).
    cbv beta iota.
    change (MapArea_new 4096 4096 Framed (Z.lor (Z.lor MP_R MP_W) MP_U) AT_Brk) with (Ret a).
    cbv beta iota. rewrite Epush. reflexivity.
  - split; [exact Hwf| | |].
    + intros k b [= -> ->]%list_elem_of_singleton. split; [vm_compute; done|vm_compute; discriminate].
    + intros v Hv. cbn [page_table]. rewrite (ms_other _ _ _ _ _ _ _ M).
      * rewrite Hroot. apply Hp0.
      * revert Hv. change STACK_VPN with 50326088. change STACK_PAGES with 2560. lia.
      * intros Hi%elem_of_zrange. cbn in Hi. lia.
    + pose proof (ms_count _ _ _ _ _ _ _ M) as Hn. rewrite Hc1 in Hn.
      change (3 * zlen (range_list (vpn_range a))) with 0 in Hn.
      change STACK_PAGES with 2560. lia.
  - repeat (constructor; [split; [discriminate|vm_compute; split; [discriminate|reflexivity]]|]).
    constructor.
  - reflexivity.
Qed.

Lemma run_ready : exists w ms0 auxv w',
  exec_ready no_write senv0 (krun w) 100 init_pcb elf0 elf0 ms0 4096 0x10000 auxv w' /\
  zlen auxv = 16.
Proof.
  destruct (machine 8192) as (w & Hw & Hc & Hf & H0); [lia|].
  destruct (load_elf0 0x70000 w) as (ms0 & auxv & w' & El & Hb & Ha & Hz);
    [done|rewrite Hc; vm_compute; done|lia|by rewrite Hf|intros i; apply H0|].
  exists w, ms0, auxv, w'. split; [split|exact Hz].
  - reflexivity.
  - eexists false, w', (mkMS (mkPT 0x70000 []) []), 0, (mkMS (mkPT 0x70000 []) []), w'.
    split_and!; [exact El|reflexivity..].
  - exact Hb.
  - vm_compute. by eexists.
  - constructor; [vm_compute; by eexists|constructor].
  - vm_compute. done.
  - exact Ha.
Qed.

Lemma exec_starts_program_witness : exists w ms0 k' sp,
  pcb_exec no_write senv0 100 elf0 elf0 [[115; 104]] [] (krun w) = Ret (Ok tt, k') /\
  k_trap k' !! 1 = Some (app_init_context senv0 0x10000 sp) /\
  thread_token k' 1 = Some (root_ppn (page_table ms0)).
Proof.
  destruct run_ready as (w & ms0 & auxv & w' & Hr & Hz).
  destruct (exec_starts_program no_write senv0 (krun w) 100 init_pcb elf0 elf0 ms0 4096 0x10000 auxv
    w' [[115; 104]] []) as (k' & ms & fr & sp & random & argv0 & E & _ & _ & _ & Ht & _ & _ & Htok & _).
  - exact Hr.
  - repeat constructor.
  - constructor.
  - unfold stack_need. rewrite Hz. vm_compute. discriminate.
  - exists w, ms0, k', sp. split_and!; [exact E|exact Ht|]. apply Htok. by left.
Defined.
