(* ===== verification/Trap.v ===== *)
(** * Traps from user mode (os/src/trap/mod.rs)

    [user_task_top], for LoongArch and for RISC-V: what the kernel does when a thread comes back from user
    mode with a system call, a page fault, a breakpoint or an interrupt, and
    the work after it: pending signals, sleepers, timers, and whether the
    thread goes on.  The system calls are an argument; page faults, exits,
    signals, sleepers, timers and the scheduler tick are the models of the
    other files on one state.

    The handler is asynchronous.  Where it yields, [trap_enter] ends with
    [TsYield] and [trap_resumed] goes on from the state then.  The cause, the
    fault address and the number of the interrupt are read from registers and
    are arguments, as is the time. *)

From S2P Require Import Prelude Config Memory FrameAlloc Pte PageTable.
From S2P Require Import BTree Errno Area UserMem MemorySet Shm.
From S2P Require Import Timer Sched Exec ExecInv Sleep Ids.
From S2P Require Import FdTable Futex Signals Kill Robust Process.
From S2P Require Import Clone.

(** The causes of the crate that reads the register. *)
Inductive Exception : Type :=
| ExLoadPageFault | ExStorePageFault | ExFetchPageFault | ExPageModifyFault
| ExPageNonReadableFault | ExPageNonExecutableFault | ExPagePrivilegeIllegal
| ExFetchInstructionAddressError | ExMemoryAccessAddressError | ExAddressNotAligned
| ExBoundsCheckFault | ExSyscall | ExBreakpoint | ExInstructionNotExist
| ExInstructionPrivilegeIllegal | ExFloatingPointUnavailable | ExTLBRFill.
Inductive TrapCause : Type := TcException (e : Exception) | TcInterrupt | TcMachineError | TcUnknown.

Definition TIMER_IRQ : Z := 11.

(** The causes of RISC-V that the handler tells apart. *)
Inductive RvCause : Type :=
| RvUserEnvCall | RvStorePageFault | RvLoadPageFault | RvInstructionPageFault
| RvStoreFault | RvInstructionFault | RvLoadFault | RvBreakpoint | RvIllegalInstruction
| RvSupervisorTimer | RvOther.

(** The kernel, whether interrupts are enabled, the table of real timers, and
    the user id that is shared by all processes. *)
Record tstate : Type := mkT {
  t_k : kern;
  t_irqs : bool;
  t_timers : real_timers;
  CUR_UID : Z
}.

Definition on_k {A} (m : ST kern A) : ST tstate A :=
  fun s => match m (t_k s) with
           | Ret (a, k) => Ret (a, mkT k (t_irqs s) (t_timers s) (CUR_UID s))
           | Panic => Panic
           end.
Definition set_irqs (b : bool) : ST tstate unit := st_modify (fun s => mkT (t_k s) b (t_timers s) (CUR_UID s)).
Notation enable_irqs := (set_irqs true).
Notation disable_irqs := (set_irqs false).

(** ** The trap context *)

Definition tcb_set_trap_status (v : TrapStatus) (t : TaskControlBlock) : TaskControlBlock :=
  mkTCB (tcb_id t) (is_init t) (state t) (exit_code t) (need_resched t)
    (preempt_disable_count t) (is_leader t) (process_id t) (page_table_token t)
    (child_tid t) (need_clear_child_tid t) (robust_list t) (uid t) (noma_policy t)
    (wait_wakers t) (Some v).

Definition trap_cx (r : Z) : ST kern TrapContext :=
  fun k => match k_trap k !! r with Some c => Ret (c, k) | None => Panic end.
Definition upd_cx (r : Z) (f : TrapContext -> TrapContext) : ST kern unit :=
  c ← trap_cx r; k_set_trap r (f c).

(** The status is part of the context; the executor looks at it too. *)
Definition set_status (r : Z) (v : TrapStatus) : ST kern unit :=
  _ ← upd_cx r (set_trap_status v);
  on_kx (tcb_update r (tcb_set_trap_status v)).

Definition set_arg0 (v : Z) : TrapContext -> TrapContext := set_reg R_a0 v.

Section trap.
Variable file_read : Z -> UserBuffer -> inodes -> ST world (result Z SysErrNo * inodes).
Variable file_write : Z -> UserBuffer -> ST world (result Z SysErrNo).
Variable INITPROC : Z.
Variable start_signal_trampoline : Z.
Variable robust_fuel : nat.
Variable ticks : Z.
Variable tms : Z -> TimeData.
Variable syscall : Z -> list Z -> ST tstate (result Z SysErrNo).

Notation k_exit_proc := (exit_proc file_read file_write INITPROC).
Notation k_exit_current := (exit_current file_read file_write INITPROC robust_fuel).

(** ** Signals *)

(** Code over the signal state of the thread [r] of the process [p]; the
    result has the exits that it asks for. *)
Definition on_sig {A} (r p : Z) (m : ST sigst A) : ST kern (A * list Z) :=
  fun k =>
    match k_tsig k !! r, k_trap k !! r, k_procs k !! p with
    | Some ts, Some tc, Some pcb =>
        match k_psig k !! p_signal_shared pcb with
        | Some ps =>
            match m (mkSig ts ps tc (w_mem (k_world k)) []) with
            | Ret (a, s) =>
                Ret ((a, sg_exits s),
                     mkKern (k_sys k) (set_mem (sg_mem s) (k_world k)) (k_futexes k) (k_inodes k)
                       (k_shm k) (k_mms k) (<[p_signal_shared pcb := sg_proc s]> (k_psig k))
                       (<[r := sg_task s]> (k_tsig k)) (<[r := sg_tf s]> (k_trap k)) (k_procs k)
                       (PID2PC k) (PID_ALLOCATOR k) (ID_COUNTER k))
            | Panic => Panic
            end
        | None => Panic
        end
    | _, _, _ => Panic
    end.

(** The loop of [handle_pending_signals]; the exit that a round asks for
    happens before the next round. *)
Fixpoint signal_loop (fuel : nat) (r p pid token : Z) (res : option Z) : ST kern bool :=
  match fuel with
  | O => mret false
  | S fuel' =>
      '(o, _) ← on_sig r p (t ← st_gets sg_task; ps ← st_gets sg_proc; st_lift (next_signal t ps));
      match o with
      | None => mret true
      | Some (sig, from_thread) =>
          '(e, exits) ← on_sig r p (handle_one start_signal_trampoline token pid res sig from_thread);
          c ← trap_cx r;
          _ ← set_status r (tc_trap_status c);
          _ ← st_iter k_exit_proc exits;
          match e with
          | RoundReturn => mret true
          | RoundAgain => signal_loop fuel' r p pid token res
          end
      end
  end.

(** A process is a zombie when its main task has exited. *)
Definition k_handle_pending_signals (r : Z) (res : option Z) : ST kern bool :=
  t ← task_of r;
  o ← get_process t;
  match o with
  | None => mret true
  | Some p =>
      pcb ← proc_at p;
      main ← task_of (p_main pcb);
      if is_exited main || is_exited t then mret true
      else signal_loop SIGNAL_FUEL r p (process_id t) (page_table_token t) res
  end.

(** ** Timers *)

(** The view of the processes that the timers and signals have. *)
Definition gview (k : kern) : gsys :=
  mkG (k_sys k) (k_tsig k)
    (omap (fun '(pid, p) =>
             pcb ← k_procs k !! p; ps ← k_psig k !! p_signal_shared pcb;
             Some (pid, mkPcb (p_tasks pcb) ps (p_timers pcb))) (PID2PC k)).

Definition set_p_timers (v : list KernelTimer) (p : ProcessControlBlock) : ProcessControlBlock :=
  mkPCB v (p_pid p) (p_main p) (p_tasks p) (p_children p) (p_memory_set p) (p_user_stack_top p)
    (p_is_init p) (p_base_size p) (p_cwd p) (p_exe p) (p_parent p) (p_exit_code p)
    (p_heap_bottom p) (p_program_brk p) (p_fd_table p) (p_signal_shared p) (p_state p) (p_wakers p).

(** The timers and signal states of one process are stored back. *)
Definition put_back (k : kern) (e : Z * pcb) : kern :=
  match bt_get (fst e) (PID2PC k) with
  | Some p =>
      match k_procs k !! p with
      | Some q =>
          mkKern (k_sys k) (k_world k) (k_futexes k) (k_inodes k) (k_shm k) (k_mms k)
            (<[p_signal_shared q := pc_sig (snd e)]> (k_psig k)) (k_tsig k) (k_trap k)
            (<[p := set_p_timers (pc_timers (snd e)) q]> (k_procs k)) (PID2PC k) (PID_ALLOCATOR k) (ID_COUNTER k)
      | None => k
      end
  | None => k
  end.

Definition with_gview (g : gsys) (k : kern) : kern :=
  foldl put_back
    (mkKern (g_sys g) (k_world k) (k_futexes k) (k_inodes k) (k_shm k) (k_mms k) (k_psig k) (g_sig g)
       (k_trap k) (k_procs k) (PID2PC k) (PID_ALLOCATOR k) (ID_COUNTER k)) (g_procs g).

Definition on_gsys {A} (m : ST gsys A) : ST kern A :=
  fun k => match m (gview k) with
           | Ret (a, g) => Ret (a, with_gview g k)
           | Panic => Panic
           end.

(** [handle_timer_tick] of the current process. *)
Definition timer_tick : ST tstate unit :=
  p ← on_k current_process;
  pcb ← on_k (proc_at p);
  timers ← st_gets t_timers;
  timers ← on_k (on_gsys (handle_timer_tick (p_pid pcb) (get_time_ns ticks) timers));
  st_modify (fun s => mkT (t_k s) (t_irqs s) timers (CUR_UID s)).

(** ** The handler *)

(** Where the handler went on after it yielded. *)
Inductive after_yield : Type := AyRestart | AyPreempted.

(** The end of a part of the handler: it yielded, the cause is handled, the
    thread ends with a code, or the walk of a robust list was cut short. *)
Inductive trap_step : Type :=
| TsYield (a : after_yield)
| TsHandled (syscall_ret : option Z)
| TsReturn (code : Z)
| TsFuel.

(** [-(err as isize) as usize] *)
Definition errno_usize (e : SysErrNo) : Z := wrap64 (- errno_val e).

(** A system call from its result on. *)
Definition syscall_end (r result : Z) : ST tstate trap_step :=
  c ← on_k (trap_cx r);
  _ ← on_k (upd_cx r (set_origin_a0 (reg R_a0 c)));
  _ ← on_k (upd_cx r (set_arg0 result));
  t ← on_k (task_of r);
  if is_exited t then
    _ ← disable_irqs;
    mret (TsReturn (as_i32 (exit_code t)))
  else
    _ ← disable_irqs;
    mret (TsHandled (Some result)).

Definition syscall_args (c : TrapContext) : list Z :=
  [reg R_a0 c; reg R_a1 c; reg R_a2 c; reg (R_a2 + 1) c; reg (R_a2 + 2) c; reg (R_a2 + 3) c].

Definition trap_syscall (r : Z) : ST tstate trap_step :=
  _ ← enable_irqs;
  c ← on_k (trap_cx r);
  pc ← st_lift (uadd (tc_sepc c) 4);
  _ ← on_k (upd_cx r (set_pc pc));
  result ← syscall (reg R_a7 c) (syscall_args c);
  _ ← st_lift (update_stime (tms r) ticks);
  match result with
  | Ok res => syscall_end r res
  | Err EAGAIN =>
      c ← on_k (trap_cx r);
      pc ← st_lift (usub (tc_sepc c) 4);
      _ ← on_k (upd_cx r (set_pc pc));
      mret (TsYield AyRestart)
  | Err err => syscall_end r (errno_usize err)
  end.

Definition trap_page_fault (r stval : Z) (is_write : bool) : ST tstate trap_step :=
  t ← on_k (task_of r);
  o ← on_k (get_process t);
  p ← st_lift (unwrap o);
  pcb ← on_k (proc_at p);
  handleres ← on_k (on_mm (p_memory_set pcb) (fun fs ms => handle_page_fault file_read fs ms stval is_write));
  _ ← match handleres with
      | Ok true => mret tt
      | Ok false | Err _ => on_k (k_exit_proc (-2))
      end;
  mret (TsHandled None).

Definition trap_breakpoint (r : Z) : ST tstate trap_step :=
  c ← on_k (trap_cx r);
  pc ← st_lift (uadd (tc_sepc c) 2);
  _ ← on_k (upd_cx r (set_pc pc));
  mret (TsHandled None).

Definition trap_timer (r : Z) : ST tstate trap_step :=
  _ ← on_k (set_status r TrapDone);
  _ ← on_k (on_kx on_timer_tick);
  o ← on_k (on_kx try_get);
  match o with
  | Some curr =>
      t ← on_k (task_of curr);
      if need_resched t && can_preempt t && negb (is_exited t) && negb (is_blocking t) then
        _ ← on_k (on_kx (tcb_update curr (tcb_set_need_resched false)));
        _ ← on_k (set_status r TrapBlocked);
        mret (TsYield AyPreempted)
      else mret (TsHandled None)
  | None => mret (TsHandled None)
  end.

Definition trap_enter (cause : TrapCause) (stval irq_num : Z) : ST tstate trap_step :=
  r ← on_k (on_kx current_get);
  match cause with
  | TcException ExSyscall => trap_syscall r
  | TcException ExStorePageFault | TcException ExPageModifyFault => trap_page_fault r stval true
  | TcException ExLoadPageFault | TcException ExPageNonReadableFault => trap_page_fault r stval false
  | TcException ExBreakpoint => trap_breakpoint r
  | TcException ExPageNonExecutableFault | TcException ExFetchPageFault =>
      b ← on_k (k_exit_current (-2));
      mret (if (b : bool) then TsHandled None else TsFuel)
  | TcInterrupt => if irq_num =? TIMER_IRQ then trap_timer r else st_panic
  | _ => st_panic
  end.

(** The handler of RISC-V; what follows it is the same. *)
Definition rv_trap_enter (cause : RvCause) (stval : Z) : ST tstate trap_step :=
  r ← on_k (on_kx current_get);
  match cause with
  | RvUserEnvCall => trap_syscall r
  | RvStorePageFault => trap_page_fault r stval true
  | RvLoadPageFault | RvInstructionPageFault => trap_page_fault r stval false
  | RvStoreFault | RvInstructionFault | RvLoadFault | RvIllegalInstruction =>
      b ← on_k (k_exit_current (-2));
      mret (if (b : bool) then TsHandled None else TsFuel)
  | RvBreakpoint => trap_breakpoint r
  | RvSupervisorTimer => trap_timer r
  | RvOther => st_panic
  end.

Definition trap_resumed (r : Z) (a : after_yield) : ST tstate trap_step :=
  match a with
  | AyRestart => c ← on_k (trap_cx r); syscall_end r (reg R_a0 c)
  | AyPreempted => mret (TsHandled None)
  end.

(** The work after every trap; [Some code] when the thread ends. *)
Definition trap_finish (r : Z) (syscall_ret : option Z) : ST tstate (option Z) :=
  _ ← on_k (k_handle_pending_signals r syscall_ret);
  _ ← on_k (on_ksys (process_sleepers (current_time ticks)));
  _ ← timer_tick;
  _ ← on_k (set_status r TrapDone);
  o ← on_k (leave_code r);
  _ ← disable_irqs;
  mret o.

(** A trap of a thread that does not yield: the code it ends with, or [None]
    when it goes back to user mode. *)
Definition user_trap (cause : TrapCause) (stval irq_num : Z) : ST tstate (option (option Z)) :=
  r ← on_k (on_kx current_get);
  st ← trap_enter cause stval irq_num;
  match st with
  | TsHandled ret => o ← trap_finish r ret; mret (Some o)
  | TsReturn code => mret (Some (Some code))
  | TsYield _ | TsFuel => mret None
  end.

End trap.
