(* ===== verification/TrapSpec.v ===== *)
(** * Traps: behaviour

    A system call ends with its result in a0 and the thread behind the
    instruction; one that fails with [EAGAIN] is started again with the same
    arguments.  Every trap keeps the tree of processes well formed if the
    system calls do: the invariant of ProcTree.v composed with page faults,
    exits, signals and timers.  Traps that a program can cause at will and
    that the handler does not know stop the kernel. *)

From S2P Require Import Prelude Config Memory FrameAlloc Pte PageTable.
From S2P Require Import BTree Errno Area UserMem MemorySet Shm.
From S2P Require Import Timer Sched Exec ExecInv Sleep Ids.
From S2P Require Import FdTable Futex Signals Kill Robust Process.
From S2P Require Import Clone ProcTree Trap.

(** ** The tree of processes *)

Lemma keeps_trap_cx r : keeps (trap_cx r).
Proof. intros k a k'. unfold trap_cx. destruct (k_trap k !! r); [by intros [= <- <-]|done]. Qed.
#[export] Hint Resolve keeps_trap_cx : keeps.
Lemma keeps_upd_cx r f : keeps (upd_cx r f).
Proof. unfold upd_cx. keep. Qed.
#[export] Hint Resolve keeps_upd_cx : keeps.
Lemma keeps_set_status r v : keeps (set_status r v).
Proof. unfold set_status. keep. Qed.
Lemma keeps_on_sig {A} r p (m : ST sigst A) : keeps (on_sig r p m).
Proof.
  intros k a k'. unfold on_sig. destruct (k_tsig k !! r), (k_trap k !! r), (k_procs k !! p); try done.
  destruct (k_psig k !! _); [|done]. destruct (m _) as [[b s]|]; [by intros [= <- <-]|done].
Qed.
Lemma keeps_leave_code r : keeps (leave_code r).
Proof. unfold leave_code. keep. Qed.
#[export] Hint Resolve keeps_set_status keeps_on_sig keeps_leave_code : keeps.

Lemma tree_put_back k e : tree (put_back k e) = tree k.
Proof.
  unfold put_back. destruct (bt_get _ _) as [p|]; [|done]. destruct (k_procs k !! p) as [q|] eqn:E; [|done].
  unfold tree. cbn. f_equal. rewrite fmap_insert. apply insert_id. by rewrite lookup_fmap, E.
Qed.
Lemma keeps_on_gsys {A} (m : ST gsys A) : keeps (on_gsys m).
Proof.
  intros k a k'. unfold on_gsys. destruct (m (gview k)) as [[b g]|]; [|done]. intros [= <- <-].
  unfold with_gview. assert (forall l k1, tree (foldl put_back k1 l) = tree k1) as H.
  { induction l as [|e l IH]; intros k1; [done|]. cbn. by rewrite IH, tree_put_back. }
  by rewrite H.
Qed.
#[export] Hint Resolve keeps_on_gsys : keeps.

Section tree.
Variable file_read : Z -> UserBuffer -> inodes -> ST world (result Z SysErrNo * inodes).
Variable file_write : Z -> UserBuffer -> ST world (result Z SysErrNo).
Variable INITPROC : Z.
Variable strict : bool.
Variable tramp : Z.
Variable robust_fuel : nat.
Variable ticks : Z.
Variable tms : Z -> TimeData.
Variable syscall : Z -> list Z -> ST tstate (result Z SysErrNo).

(** Actions on the state of traps that keep the tree well formed. *)
Definition tsafe {A} (m : ST tstate A) : Prop :=
  forall s a s', tree_wf strict INITPROC (tree (t_k s)) -> m s = Ret (a, s') -> tree_wf strict INITPROC (tree (t_k s')).

Lemma tsafe_ret {A} (a : A) : tsafe (mret a).
Proof. by intros s b s' Hw [= <- <-]. Qed.
Lemma tsafe_lift {A} (o : outcome A) : tsafe (st_lift o).
Proof. intros s b s' Hw. unfold st_lift. destruct o; [by intros [= <- <-]|done]. Qed.
Lemma tsafe_gets {A} (f : tstate -> A) : tsafe (st_gets f).
Proof. by intros s b s' Hw [= <- <-]. Qed.
Lemma tsafe_panic {A} : tsafe (A := A) st_panic.
Proof. by intros s b s' Hw [=]. Qed.
Lemma tsafe_modify f : (forall s, t_k (f s) = t_k s) -> tsafe (st_modify f).
Proof. intros H s a s' Hw [= <- <-]. by rewrite H. Qed.
Lemma tsafe_bind {A B} (m : ST tstate A) (f : A -> ST tstate B) : tsafe m -> (forall a, tsafe (f a)) -> tsafe (m ≫= f).
Proof. intros Hm Hf s b s' Hw (a & s1 & H1 & H2)%st_bind_Ret. eapply Hf; [|exact H2]. by apply (Hm s a). Qed.
Lemma tsafe_on_k {A} (m : ST kern A) : safe strict INITPROC m -> tsafe (on_k m).
Proof.
  intros H s a s' Hw. unfold on_k. destruct (m (t_k s)) as [[b k]|] eqn:E; [|done]. intros [= <- <-]. by apply (H (t_k s) b).
Qed.
Lemma tsafe_keeps {A} (m : ST kern A) : keeps m -> tsafe (on_k m).
Proof. intros H. by apply tsafe_on_k, keeps_safe. Qed.

Hint Resolve tsafe_ret tsafe_lift tsafe_gets tsafe_panic : tsafe.

Ltac tsafe :=
  repeat (intros; first
    [ progress cbv beta
    | solve [auto with tsafe]
    | solve [apply tsafe_keeps; auto with keeps]
    | apply tsafe_modify; reflexivity
    | match goal with
      | |- tsafe (if ?b then _ else _) => destruct b
      | |- tsafe (match ?x with _ => _ end) => destruct x
      end
    | apply tsafe_bind ]).

Lemma safe_iter {A} (f : A -> ST kern unit) l : (forall a, safe strict INITPROC (f a)) -> safe strict INITPROC (st_iter f l).
Proof.
  intros H. induction l as [|a l IH]; [apply keeps_safe, keeps_ret|]. by apply safe_bind.
Qed.

Lemma signal_loop_safe r p pid token res : forall fuel,
  safe strict INITPROC (signal_loop file_read file_write INITPROC tramp fuel r p pid token res).
Proof.
  induction fuel as [|fuel IH]; cbn [signal_loop]; [apply keeps_safe, keeps_ret|].
  apply safe_bind; [apply keeps_safe, keeps_on_sig|]. intros [[[sig b]|] ex]; [|apply keeps_safe, keeps_ret].
  apply safe_bind; [apply keeps_safe, keeps_on_sig|]. intros [e exits].
  apply safe_bind; [apply keeps_safe, keeps_trap_cx|]. intros c.
  apply safe_bind; [apply keeps_safe, keeps_set_status|]. intros _.
  apply safe_bind; [apply safe_iter; intros; apply exit_proc_safe|]. intros _.
  destruct e; [done|apply keeps_safe, keeps_ret].
Qed.

Lemma pending_safe r res :
  safe strict INITPROC (k_handle_pending_signals file_read file_write INITPROC tramp r res).
Proof.
  unfold k_handle_pending_signals. apply safe_bind; [apply keeps_safe, keeps_task_of|]. intros t.
  apply safe_bind; [apply keeps_safe, keeps_get_process|]. intros [p|]; [|apply keeps_safe, keeps_ret].
  apply safe_bind; [apply keeps_safe, keeps_proc_at|]. intros pcb.
  apply safe_bind; [apply keeps_safe, keeps_task_of|]. intros main.
  destruct (_ || _); [apply keeps_safe, keeps_ret|apply signal_loop_safe].
Qed.

Lemma trap_finish_safe r ret : tsafe (trap_finish file_read file_write INITPROC tramp ticks r ret).
Proof.
  unfold trap_finish. apply tsafe_bind; [apply tsafe_on_k, pending_safe|]. unfold timer_tick. tsafe.
Qed.

Lemma syscall_end_safe r v : tsafe (syscall_end r v).
Proof. unfold syscall_end. tsafe. Qed.
Hint Resolve syscall_end_safe trap_finish_safe : tsafe.

Lemma trap_resumed_safe r a : tsafe (trap_resumed r a).
Proof. unfold trap_resumed. tsafe. Qed.

Hypothesis syscall_safe : forall id args, tsafe (syscall id args).

Lemma trap_enter_safe cause stval irq :
  tsafe (trap_enter file_read file_write INITPROC robust_fuel ticks tms syscall cause stval irq).
Proof.
  assert (forall b, tsafe (on_k (exit_proc file_read file_write INITPROC b))) as H1.
  { intros. apply tsafe_on_k, exit_proc_safe. }
  assert (forall b, tsafe (on_k (exit_current file_read file_write INITPROC robust_fuel b))) as H2.
  { intros. apply tsafe_on_k, exit_current_safe. }
  unfold trap_enter, trap_syscall, trap_page_fault, trap_breakpoint, trap_timer. tsafe.
Qed.

Lemma rv_trap_enter_safe cause stval :
  tsafe (rv_trap_enter file_read file_write INITPROC robust_fuel ticks tms syscall cause stval).
Proof.
  assert (forall b, tsafe (on_k (exit_proc file_read file_write INITPROC b))) as H1.
  { intros. apply tsafe_on_k, exit_proc_safe. }
  assert (forall b, tsafe (on_k (exit_current file_read file_write INITPROC robust_fuel b))) as H2.
  { intros. apply tsafe_on_k, exit_current_safe. }
  unfold rv_trap_enter, trap_syscall, trap_page_fault, trap_breakpoint, trap_timer. tsafe.
Qed.

Lemma user_trap_safe cause stval irq :
  tsafe (user_trap file_read file_write INITPROC tramp robust_fuel ticks tms syscall cause stval irq).
Proof.
  unfold user_trap. apply tsafe_bind; [tsafe|]. intros r. apply tsafe_bind; [apply trap_enter_safe|]. tsafe.
Qed.

(** C33: traps keep the processes well formed.  Whatever the cause, on LoongArch
    and on RISC-V, if every system call keeps the tree of processes well formed,
    so do the handling of the trap, its continuation after a yield and the work
    after it, through page faults, exits, fatal signals and expired timers.  The
    parents are part of this ([strict]) when no system call is a clone with
    [CLONE_PARENT]; all else is kept with such clones too. *)
Theorem traps_keep_process_tree cause rv stval irq r a ret :
  tsafe (rv_trap_enter file_read file_write INITPROC robust_fuel ticks tms syscall rv stval) /\
  tsafe (user_trap file_read file_write INITPROC tramp robust_fuel ticks tms syscall cause stval irq) /\
  tsafe (trap_resumed r a) /\ tsafe (trap_finish file_read file_write INITPROC tramp ticks r ret).
Proof. split_and!; [apply rv_trap_enter_safe|apply user_trap_safe|apply trap_resumed_safe|apply trap_finish_safe]. Qed.

End tree.

(** ** System calls *)

Section result.
Variable file_read : Z -> UserBuffer -> inodes -> ST world (result Z SysErrNo * inodes).
Variable file_write : Z -> UserBuffer -> ST world (result Z SysErrNo).
Variable INITPROC : Z.
Variable robust_fuel : nat.
Variable ticks : Z.
Variable tms : Z -> TimeData.
Variable syscall : Z -> list Z -> ST tstate (result Z SysErrNo).

Notation enter := (trap_enter file_read file_write INITPROC robust_fuel ticks tms syscall).

(** The state with another context for [r] and other interrupts. *)
Definition put_cx (r : Z) (c : TrapContext) (irqs : bool) (s : tstate) : tstate :=
  let k := t_k s in
  mkT (mkKern (k_sys k) (k_world k) (k_futexes k) (k_inodes k) (k_shm k) (k_mms k)
         (k_psig k) (k_tsig k) (<[r := c]> (k_trap k)) (k_procs k) (PID2PC k) (PID_ALLOCATOR k)
         (ID_COUNTER k)) irqs (t_timers s) (CUR_UID s).

(** The word in a0 for a result. *)
Definition ret_word (res : result Z SysErrNo) : Z :=
  match res with Ok v => v | Err e => errno_usize e end.

(** The thread [r] is running with the context [c]; it has not exited. *)
Record running (r : Z) (c : TrapContext) (s : tstate) : Prop := {
  ru_current : on_kx current_get (t_k s) = Ret (r, t_k s);
  ru_cx : k_trap (t_k s) !! r = Some c
}.
Definition alive (r : Z) (s : tstate) : Prop :=
  exists t, task_of r (t_k s) = Ret (t, t_k s) /\ is_exited t = false.

Lemma on_k_run {A} (m : ST kern A) s a k : m (t_k s) = Ret (a, k) -> on_k m s = Ret (a, mkT k (t_irqs s) (t_timers s) (CUR_UID s)).
Proof. intros H. unfold on_k. by rewrite H. Qed.
Lemma on_k_same {A} (m : ST kern A) s a : m (t_k s) = Ret (a, t_k s) -> on_k m s = Ret (a, s).
Proof. intros H. rewrite (on_k_run m s a _ H). by destruct s. Qed.

Lemma trap_cx_run r c s : k_trap (t_k s) !! r = Some c -> on_k (trap_cx r) s = Ret (c, s).
Proof. intros H. apply on_k_same. unfold trap_cx. by rewrite H. Qed.
Lemma upd_cx_run r f c s : k_trap (t_k s) !! r = Some c ->
  on_k (upd_cx r f) s = Ret (tt, put_cx r (f c) (t_irqs s) s).
Proof.
  intros H. unfold on_k, upd_cx, mbind, ST_bind, trap_cx. by rewrite H.
Qed.
Lemma put_cx_cx r c irqs s : k_trap (t_k (put_cx r c irqs s)) !! r = Some c.
Proof. apply lookup_insert_eq. Qed.
Lemma put_cx_twice r c irqs c' irqs' s : put_cx r c' irqs' (put_cx r c irqs s) = put_cx r c' irqs' s.
Proof. unfold put_cx. cbn. by rewrite insert_insert_eq. Qed.
Lemma put_cx_id r c s : k_trap (t_k s) !! r = Some c -> put_cx r c (t_irqs s) s = s.
Proof. intros H. unfold put_cx. rewrite insert_id by done. by destruct s as [[] ? ?]. Qed.
Lemma task_of_put r c irqs s r' t : task_of r' (t_k s) = Ret (t, t_k s) ->
  on_k (task_of r') (put_cx r c irqs s) = Ret (t, put_cx r c irqs s).
Proof.
  intros H. apply on_k_same. revert H. unfold task_of, on_kx, on_ksys, on_ex, mbind, ST_bind. cbn.
  unfold exec_task, on_rq, task_at. destruct (heap _ !! r') as [x|]; [|done]. cbn. intros [= -> _].
  unfold k_set_sys. by destruct s as [[[[[] ? ?] ? ?] ? ? ? ? ? ? ? ? ? ? ? ?] ? ?].
Qed.

Lemma syscall_end_run r v c s : k_trap (t_k s) !! r = Some c -> alive r s ->
  syscall_end r v s = Ret (TsHandled (Some v), put_cx r (set_reg R_a0 v (set_origin_a0 (reg R_a0 c) c)) false s).
Proof.
  intros Hc (t & Ht & He). unfold syscall_end.
  erewrite st_run by exact (trap_cx_run r c s Hc). cbv beta.
  erewrite st_run by exact (upd_cx_run r _ c s Hc). cbv beta.
  erewrite st_run by exact (upd_cx_run r _ _ _ (put_cx_cx r _ _ s)). cbv beta.
  rewrite put_cx_twice. erewrite st_run by exact (task_of_put r _ _ s r t Ht). cbv beta. by rewrite He.
Qed.

(** The state in which the system call starts. *)
Definition entered (r : Z) (c : TrapContext) (s : tstate) : tstate := put_cx r (set_pc (tc_sepc c + 4) c) true s.

Lemma trap_enter_syscall r c s stval irq res s2 : running r c s -> tc_sepc c + 4 < u64_bound ->
  syscall (reg R_a7 c) (syscall_args c) (entered r c s) = Ret (res, s2) ->
  is_Some (match update_stime (tms r) ticks with Ret d => Some d | Panic => None end) ->
  enter (TcException ExSyscall) stval irq s =
    (match res with
     | Ok v => syscall_end r v
     | Err EAGAIN =>
         c ← on_k (trap_cx r); pc ← st_lift (usub (tc_sepc c) 4); _ ← on_k (upd_cx r (set_pc pc)); mret (TsYield AyRestart)
     | Err e => syscall_end r (errno_usize e)
     end) s2.
Proof.
  intros [Hr Hc] Hpc Hs Hu. unfold trap_enter. erewrite st_run by exact (on_k_same _ _ _ Hr). cbv beta.
  unfold trap_syscall. erewrite st_run; [|reflexivity]. cbv beta.
  erewrite st_run by exact (trap_cx_run r c (mkT (t_k s) true (t_timers s) (CUR_UID s)) Hc). cbv beta.
  erewrite st_run by (unfold st_lift; rewrite uadd_Ret by done; reflexivity). cbv beta.
  erewrite st_run by exact (upd_cx_run r _ c (mkT (t_k s) true (t_timers s) (CUR_UID s)) Hc). cbv beta.
  erewrite st_run by exact Hs. cbv beta.
  destruct (update_stime (tms r) ticks) as [d|]; [|by destruct Hu]. by erewrite st_run; [|reflexivity].
Qed.

(** The result of a system call.  A call that ends with a value or with an
    error other than [EAGAIN] leaves the thread behind the instruction it
    trapped with: when the handler calls it, the program counter is four bytes
    further, and when it is done a0 has the value or the negated number of the
    error, the old a0 is kept for a restart, interrupts are off, and nothing
    else differs from what the call left. *)
Theorem syscall_trap_result r c s stval irq res s2 c2 : running r c s -> tc_sepc c + 4 < u64_bound ->
  syscall (reg R_a7 c) (syscall_args c) (entered r c s) = Ret (res, s2) -> res <> Err EAGAIN ->
  is_Some (match update_stime (tms r) ticks with Ret d => Some d | Panic => None end) ->
  k_trap (t_k s2) !! r = Some c2 -> alive r s2 ->
  enter (TcException ExSyscall) stval irq s =
    Ret (TsHandled (Some (ret_word res)),
         put_cx r (set_reg R_a0 (ret_word res) (set_origin_a0 (reg R_a0 c2) c2)) false s2).
Proof.
  intros Hr Hpc Hs Hne Hu Hc2 Ha. rewrite (trap_enter_syscall r c s stval irq res s2 Hr Hpc Hs Hu).
  destruct res as [v|e]; [by apply syscall_end_run|]. destruct e; try by apply syscall_end_run. done.
Qed.

(** C40: a system call that fails with [EAGAIN] and leaves the registers of the
    thread alone is started again: the handler yields with the thread at the
    instruction itself, and when it goes on, with the context as it was, all
    registers and the program counter are those of the trap. *)
Theorem syscall_restarts r c s stval irq s2 : running r c s -> 0 <= tc_sepc c -> tc_sepc c + 4 < u64_bound ->
  length (tc_regs c) = 31%nat ->
  syscall (reg R_a7 c) (syscall_args c) (entered r c s) = Ret (Err EAGAIN, s2) ->
  is_Some (match update_stime (tms r) ticks with Ret d => Some d | Panic => None end) ->
  k_trap (t_k s2) !! r = Some (set_pc (tc_sepc c + 4) c) ->
  exists s3, enter (TcException ExSyscall) stval irq s = Ret (TsYield AyRestart, s3) /\ k_trap (t_k s3) !! r = Some c /\
    forall s4, k_trap (t_k s4) !! r = Some c -> alive r s4 ->
      trap_resumed r AyRestart s4 =
        Ret (TsHandled (Some (reg R_a0 c)), put_cx r (set_origin_a0 (reg R_a0 c) c) false s4).
Proof.
  intros Hr H0 Hpc Hl Hs Hu Hc2. rewrite (trap_enter_syscall r c s stval irq _ s2 Hr Hpc Hs Hu).
  exists (put_cx r c (t_irqs s2) s2). split; [|split; [apply put_cx_cx|]].
  - erewrite st_run by exact (trap_cx_run r _ s2 Hc2). cbv beta.
    erewrite st_run by (unfold st_lift; rewrite usub_Ret by (cbn; lia); reflexivity). cbv beta.
    erewrite st_run by exact (upd_cx_run r _ _ s2 Hc2). cbv beta.
    cbn [tc_sepc set_pc]. replace (tc_sepc c + 4 - 4) with (tc_sepc c) by lia. by destruct c.
  - intros s4 Hc4 Ha. unfold trap_resumed. erewrite st_run by exact (trap_cx_run r c s4 Hc4). cbv beta.
    rewrite (syscall_end_run r _ c s4 Hc4 Ha). f_equal. f_equal. f_equal.
    unfold set_reg, tc_with_regs, reg, set_origin_a0. cbn. rewrite list_insert_id; [by destruct c|].
    destruct (tc_regs c !! R_a0) as [v|] eqn:E; [done|]. apply lookup_ge_None in E. unfold R_a0 in E. lia.
Qed.

(** Traps that end in a panic whatever the state is: a program can cause the
    exceptions among them with an address that is not aligned, an address or
    an instruction that does not exist, or a privileged instruction. *)
Definition stops_kernel (cause : TrapCause) : bool :=
  match cause with
  | TcException ExPagePrivilegeIllegal | TcException ExFetchInstructionAddressError
  | TcException ExMemoryAccessAddressError | TcException ExAddressNotAligned
  | TcException ExBoundsCheckFault | TcException ExInstructionNotExist
  | TcException ExInstructionPrivilegeIllegal | TcException ExFloatingPointUnavailable
  | TcException ExTLBRFill | TcMachineError | TcUnknown => true
  | _ => false
  end.

Lemma unknown_traps_panic cause stval irq s : stops_kernel cause = true -> enter cause stval irq s = Panic.
Proof.
  intros H. unfold trap_enter, mbind, ST_bind. destruct (on_k _ s) as [[r s1]|]; [|done].
  by destruct cause as [[]| | |].
Qed.

(** After a breakpoint the thread is in the middle of the next instruction. *)
Lemma breakpoint_skips_half r c s stval irq : running r c s -> tc_sepc c + 2 < u64_bound ->
  enter (TcException ExBreakpoint) stval irq s = Ret (TsHandled None, put_cx r (set_pc (tc_sepc c + 2) c) (t_irqs s) s).
Proof.
  intros [Hr Hc] Hpc. unfold trap_enter, trap_breakpoint. erewrite st_run by exact (on_k_same _ _ _ Hr). cbv beta.
  erewrite st_run by exact (trap_cx_run r c s Hc). cbv beta.
  erewrite st_run by (unfold st_lift; rewrite uadd_Ret by done; reflexivity). cbv beta.
  by erewrite st_run by exact (upd_cx_run r _ c s Hc).
Qed.

End result.

(** ** Examples *)

Definition idle_tms (r : Z) : TimeData := mkTD 0 0 0 0 0.
Definition sboot : tstate := mkT kboot false [] 0.

(** [exit] and [clone] of processes; the control block of a new process goes
    to address 101, when it is free. *)
Definition tree_syscall (id : Z) (args : list Z) : ST tstate (result Z SysErrNo) :=
  if id =? 93 then b ← on_k (exit_current no_read no_write 100 10 0); mret (if (b : bool) then Ok 0 else Err EINVAL)
  else if id =? 220 then
    o ← st_gets (fun s => k_procs (t_k s) !! 101);
    match o with
    | None => on_k (sys_clone no_read env2 (default 0 (args !! 0%nat)) 0x1000 0 0 0)
    | Some _ => st_panic
    end
  else mret (Err ENOSYS).

Lemma tree_syscall_safe id args : tsafe 100 false (tree_syscall id args).
Proof.
  unfold tree_syscall. destruct (id =? 93).
  { apply tsafe_bind; [apply tsafe_on_k, exit_current_safe|]. intros b. apply tsafe_ret. }
  destruct (id =? 220); [|apply tsafe_ret].
  intros s a s' Hw. st_unfold. destruct (k_procs (t_k s) !! 101) as [p|] eqn:E; [done|].
  unfold on_k. destruct (sys_clone _ _ _ _ _ _ _ (t_k s)) as [[r k']|] eqn:Ec; [|done]. intros [= <- <-].
  eapply (sys_clone_safe false 100); [exact Hw|done| |exact Ec]. cbn. by rewrite lookup_fmap, E.
Qed.

(** A system call of the init process of a machine that has just started. *)
Definition boot_call (nr : Z) : tstate := put_cx 1 (set_reg R_a7 nr trap0) false (mkT kboot false [] 0).

(** A clone with [CLONE_PARENT]. *)
Definition clone_call : tstate :=
  put_cx 1 (set_reg R_a0 (Z.lor 17 CLONE_PARENT) (set_reg R_a7 220 trap0)) false (mkT kboot false [] 0).

Lemma traps_keep_process_tree_witness : exists o s',
  user_trap no_read no_write 100 0 10 0 idle_tms tree_syscall (TcException ExSyscall) 0 0 clone_call = Ret (o, s') /\
  is_Some (k_procs (t_k s') !! 101) /\ tree_wf false 100 (tree (t_k s')).
Proof.
  destruct (user_trap no_read no_write 100 0 10 0 idle_tms tree_syscall (TcException ExSyscall) 0 0 clone_call)
    as [[o s']|] eqn:E; [|vm_compute in E; discriminate].
  exists o, s'. split; [reflexivity|].
  destruct (traps_keep_process_tree no_read no_write 100 false 0 10 0 idle_tms tree_syscall tree_syscall_safe
              (TcException ExSyscall) RvOther 0 0 1 AyRestart None) as (_ & H & _).
  split; [|exact (H clone_call o s' (tree_wf_any false _ _ kboot_wf) E)].
  assert ((fun r => bool_decide (is_Some (k_procs (t_k r.2) !! 101))) <$>
    user_trap no_read no_write 100 0 10 0 idle_tms tree_syscall (TcException ExSyscall) 0 0 clone_call = Ret true) as Hb
    by (vm_compute; reflexivity).
  rewrite E in Hb. cbn in Hb. injection Hb as Hb. by apply bool_decide_eq_true in Hb.
Defined.

Definition const_syscall (res : result Z SysErrNo) (id : Z) (args : list Z) : ST tstate (result Z SysErrNo) := mret res.

Lemma boot_running nr : running 1 (set_reg R_a7 nr trap0) (boot_call nr).
Proof. split; [reflexivity|apply put_cx_cx]. Qed.
Lemma boot_alive nr c irqs : alive 1 (put_cx 1 c irqs (boot_call nr)).
Proof. eexists. split; [vm_compute; reflexivity|reflexivity]. Qed.

Lemma syscall_trap_result_witness :
  exists s', trap_enter no_read no_write 100 10 0 idle_tms (const_syscall (Err ENOENT)) (TcException ExSyscall) 0 0 (boot_call 56) =
    Ret (TsHandled (Some (2 ^ 64 - 2)), s') /\
  ((fun c => (reg R_a0 c, tc_sepc c)) <$> k_trap (t_k s') !! 1) = Some (2 ^ 64 - 2, tc_sepc trap0 + 4).
Proof.
  set (c := set_reg R_a7 56 trap0).
  eexists. split.
  - apply (syscall_trap_result no_read no_write 100 10 0 idle_tms (const_syscall (Err ENOENT)) 1 c (boot_call 56) 0 0
             (Err ENOENT) (entered 1 c (boot_call 56)) (set_pc (tc_sepc c + 4) c)).
    + apply boot_running.
    + vm_compute. reflexivity.
    + reflexivity.
    + discriminate.
    + eexists. vm_compute. reflexivity.
    + apply put_cx_cx.
    + apply boot_alive.
  - vm_compute. reflexivity.
Defined.

Lemma syscall_restarts_witness :
  exists s3, trap_enter no_read no_write 100 10 0 idle_tms (const_syscall (Err EAGAIN)) (TcException ExSyscall) 0 0 (boot_call 63) =
    Ret (TsYield AyRestart, s3) /\ k_trap (t_k s3) !! 1 = Some (set_reg R_a7 63 trap0).
Proof.
  set (c := set_reg R_a7 63 trap0).
  destruct (syscall_restarts no_read no_write 100 10 0 idle_tms (const_syscall (Err EAGAIN)) 1 c (boot_call 63) 0 0
             (entered 1 c (boot_call 63))) as (s3 & H1 & H2 & _).
  - apply boot_running.
  - vm_compute. discriminate.
  - vm_compute. reflexivity.
  - reflexivity.
  - reflexivity.
  - eexists. vm_compute. reflexivity.
  - apply put_cx_cx.
  - exists s3. split; [exact H1|exact H2].
Defined.
