(* ===== verification/FdSys.v ===== *)
(** * System calls on descriptors (os/src/syscall/fs.rs)

    [close], [dup], [dup3], [fcntl] and [pipe2] as functions on the table of
    the calling process.  [get_file] of the table returns a copy of the
    descriptor, so that what [fcntl] sets is set in the copy.  The addresses
    of the two ends of a new pipe are arguments of [sys_pipe2]; what it writes
    to user memory is the last argument, the result of the copy.

    [sys_close] and [sys_dup3] also return the descriptor that they took out of
    the table.  Its drop, which for the last descriptor of a pipe or a socket
    closes that end and wakes the threads that wait for it (Pipe.v, Socket.v),
    is not a matter of the table: the dispatcher (Dispatch.v) runs it. *)

From S2P Require Import Prelude Config Errno Pte Pipe FdTable.

(** ** Definitions *)

Definition F_DUPFD : Z := 0.
Definition F_DUPFD_CLOEXEC : Z := 1030.
Definition F_GETFD : Z := 1.
Definition F_SETFD : Z := 2.
Definition F_GETFL : Z := 3.
Definition F_SETFL : Z := 4.
Definition ARG_CLOEXEC : Z := 1.

Definition O_APPEND : Z := 0x400.

(** The union of the flags of [OpenFlags]. *)
Definition open_all : Z := Z.lor 0x80000000 0x7fffc3.

(** [fd as usize] of an [i32]. *)
Definition fd_usize (fd : Z) : Z := wrap64 fd.

(** The result and the descriptor that the call releases. *)
Definition releasing : Type := result Z SysErrNo * option FileDescriptor.

Definition sys_close (m : FdManage) (fd : Z) : outcome (releasing * FdManage) :=
  let fd := fd_usize fd in
  if fdm_len m <=? fd then Ret ((Err EBADF, None), m)
  else
    o ← index (table m) fd;
    match o with
    | None => Ret ((Err EBADF, None), m)
    | Some removed_file =>
        t ← index_set (table m) fd None;
        Ret ((Ok 0, Some removed_file), set_table t m)
    end.

Definition sys_dup (m : FdManage) (oldfd : Z) : outcome (result Z SysErrNo * FdManage) :=
  if oldfd <? 0 then Ret (Err EBADF, m)
  else if soft_limit m <=? oldfd then Ret (Err EBADF, m)
  else
    match table_get (table m) oldfd with
    | Some (Some file_to_dup) =>
        let '(r, m1) := alloc_fd m in
        match r with
        | Err e => Ret (Err e, m1)
        | Ok newfd =>
            t ← index_set (table m1) newfd (Some file_to_dup);
            t' ← index_set t newfd (Some (unset_cloexec file_to_dup));
            Ret (Ok newfd, set_table t' m1)
        end
    | _ => Ret (Err EBADF, m)
    end.

Definition sys_dup3 (m : FdManage) (oldfd newfd flags : Z) : outcome (releasing * FdManage) :=
  let creation_flags := fl_from_bits_truncate open_all flags in
  if negb (creation_flags =? 0) && negb (fl_contains creation_flags FD_CLOEXEC) then Ret ((Err EINVAL, None), m)
  else if (oldfd <? 0) || (MAX_FD_NUM <=? oldfd) || (newfd <? 0) || (MAX_FD_NUM <=? newfd)
  then Ret ((Err EBADF, None), m)
  else if oldfd =? newfd then Ret ((Err EINVAL, None), m)
  else if soft_limit m <=? oldfd then Ret ((Err EBADF, None), m)
  else
    match table_get (table m) oldfd with
    | Some (Some file_to_dup) =>
        let closed := if newfd <? fdm_len m then mjoin (table_get (table m) newfd) else None in
        let t := if newfd <? fdm_len m then <[Z.to_nat newfd := None]> (table m) else table m in
        let t := if zlen t <=? newfd then t ++ replicate (Z.to_nat (newfd + 1 - zlen t)) None else t in
        let f := if fl_contains creation_flags FD_CLOEXEC then set_cloexec file_to_dup
                 else unset_cloexec file_to_dup in
        t' ← index_set t newfd (Some f);
        Ret ((Ok newfd, closed), set_table t' m)
    | _ => Ret ((Err EBADF, None), m)
    end.

(** [fcntl]; the descriptors that [get_file] returns are copies. *)
Definition sys_fcntl (m : FdManage) (fd cmd arg : Z) : outcome (result Z SysErrNo * FdManage) :=
  if (cmd =? F_DUPFD) || (cmd =? F_DUPFD_CLOEXEC) then
    match get_file m fd with
    | Err e => Ret (Err e, m)
    | Ok file =>
        match alloc_fd_from m arg with
        | None => Ret (Err EMFILE, m)
        | Some new_fd =>
            let t := if fdm_len m <=? new_fd
                     then table m ++ replicate (Z.to_nat (new_fd + 1 - fdm_len m)) None
                     else table m in
            t' ← index_set t new_fd (Some file);
            let m' := set_table t' m in
            match get_file m' new_fd with
            | Err e => Ret (Err e, m')
            | Ok new_file =>
                let _ := if cmd =? F_DUPFD_CLOEXEC then set_cloexec new_file
                         else unset_cloexec new_file in
                Ret (Ok new_fd, m')
            end
        end
    end
  else if cmd =? F_GETFD then
    match get_file m fd with
    | Err e => Ret (Err e, m)
    | Ok file => Ret (Ok (if cloexec file then 1 else 0), m)
    end
  else if cmd =? F_SETFD then
    match get_file m fd with
    | Err e => Ret (Err e, m)
    | Ok file =>
        let _ := if negb (Z.land arg ARG_CLOEXEC =? 0) then set_cloexec file else unset_cloexec file in
        Ret (Ok 0, m)
    end
  else if cmd =? F_GETFL then
    match get_file m fd with
    | Err e => Ret (Err e, m)
    | Ok file => Ret (Ok (fd_flags file), m)
    end
  else if cmd =? F_SETFL then
    match get_file m fd with
    | Err e => Ret (Err e, m)
    | Ok file =>
        let settable := Z.lor O_APPEND O_NONBLOCK in
        let new_bits := Z.lor (Z.ldiff (fd_flags file) settable) (Z.land arg settable) in
        let _ := mkFD (fl_from_bits_truncate open_all new_bits) (fd_file file) in
        Ret (Ok 0, m)
    end
  else Ret (Err EINVAL, m).

(** [alloc_and_add_fd] of the process. *)
Definition alloc_and_add_fd (m : FdManage) (f : FileDescriptor) : outcome (result Z SysErrNo * FdManage) :=
  let '(r, m1) := alloc_fd m in
  match r with
  | Err e => Ret (Err e, m1)
  | Ok fd =>
      '(r, m2) ← add_fd m1 f fd;
      match r with
      | Err e => Ret (Err e, m2)
      | Ok _ => Ret (Ok fd, m2)
      end
  end.

(** [copied] is whether the two descriptors could be written to user memory. *)
Definition sys_pipe2 (m : FdManage) (ptr flags read_end write_end : Z) (copied : bool)
    : outcome (result Z SysErrNo * FdManage) :=
  if ptr =? 0 then Ret (Err EFAULT, m)
  else
    let open_flags := fl_from_bits_truncate open_all flags in
    '(r, m1) ← alloc_and_add_fd m (mkFD open_flags (ClassAbs read_end));
    match r with
    | Err e => Ret (Err e, m1)
    | Ok _ =>
        '(r, m2) ← alloc_and_add_fd m1 (mkFD open_flags (ClassAbs write_end));
        match r with
        | Err e => Ret (Err e, m2)
        | Ok _ => Ret (if copied then Ok 0 else Err EFAULT, m2)
        end
    end.

(** ** Lemmas *)

Lemma index_set_in {A} (l : list A) i a : 0 <= i < zlen l -> index_set l i a = Ret (<[Z.to_nat i := a]> l).
Proof.
  intros H. unfold index_set, zlen in *.
  by destruct (Z.leb_spec 0 i), (Z.ltb_spec i (Z.of_nat (length l))); try lia.
Qed.

(** A table in which only the entry [n] changed. *)
Lemma get_file_set m t n f : 0 <= n < zlen t ->
  (forall k, k <> n -> get_file (set_table t m) k = get_file m k) ->
  get_file (set_table (<[Z.to_nat n := Some f]> t) m) n = Ok f /\
  (forall k, k <> n -> get_file (set_table (<[Z.to_nat n := Some f]> t) m) k = get_file m k).
Proof.
  intros Hn Hk. unfold zlen in Hn. split.
  - apply get_file_lookup. cbn. split; [lia|]. rewrite list_lookup_insert_eq by lia. done.
  - intros k Hne. rewrite <- (Hk k Hne). unfold get_file, table_get. cbn.
    destruct (Z.ltb_spec k 0); [done|]. by rewrite list_lookup_insert_ne by lia.
Qed.

(** Growing the table to hold [n]. *)
Lemma get_file_grow m n k : get_file (set_table (table m ++ replicate n None) m) k = get_file m k.
Proof.
  unfold get_file, table_get. cbn. destruct (k <? 0); [done|].
  destruct (decide (Z.to_nat k < length (table m))%nat); [by rewrite lookup_app_l|].
  rewrite lookup_app_r, (lookup_ge_None_2 (table m)) by lia.
  destruct (replicate n None !! _) as [o|] eqn:E; [|done]. by apply lookup_replicate in E as [-> _].
Qed.

Lemma get_file_table m fd f : get_file m fd = Ok f -> table_get (table m) fd = Some (Some f) /\ 0 <= fd < zlen (table m).
Proof.
  intros H. pose proof H as [H0 H1]%get_file_lookup. pose proof (lookup_lt_Some _ _ _ H1).
  unfold get_file in H. destruct (table_get (table m) fd) as [[g|]|]; try done. injection H as ->.
  unfold zlen. split; [done|lia].
Qed.

(** The descriptor of a number, if it is open. *)
Definition res_ok {A E} (r : result A E) : option A := match r with Ok a => Some a | Err _ => None end.

Lemma released m new : 0 <= new ->
  (if new <? zlen (table m) then mjoin (table_get (table m) new) else None) = res_ok (get_file m new).
Proof.
  intros H. unfold get_file, table_get. destruct (Z.ltb_spec new 0); [lia|].
  destruct (Z.ltb_spec new (zlen (table m))); [by destruct (table m !! _) as [[]|]|].
  by rewrite lookup_ge_None_2 by (unfold zlen in *; lia).
Qed.

Lemma set_table_same m : set_table (table m) m = m.
Proof. by destruct m. Qed.

(** ** Theorems *)

(** [close] of an open descriptor frees its number and releases exactly that
    descriptor, and of any other number fails with [EBADF] without effect. *)
Lemma close_correct m fd : - 2 ^ 31 <= fd < 2 ^ 31 -> zlen (table m) < 2 ^ 63 ->
  match get_file m fd with
  | Ok f => exists m', sys_close m fd = Ret ((Ok 0, Some f), m') /\ get_file m' fd = Err EBADF /\
      forall k, k <> fd -> get_file m' k = get_file m k
  | Err _ => sys_close m fd = Ret ((Err EBADF, None), m)
  end.
Proof.
  intros Hfd Hlen. unfold sys_close, fdm_len. destruct (get_file m fd) as [f|e] eqn:E.
  - pose proof E as [H0 Hl]%get_file_lookup. destruct (get_file_table m fd f E) as [_ Hr].
    assert (fd_usize fd = fd) as -> by (unfold fd_usize, wrap64; lia).
    destruct (Z.leb_spec (zlen (table m)) fd); [lia|]. unfold index. destruct (Z.ltb_spec fd 0); [lia|].
    rewrite Hl. cbn [mbind outcome_bind unwrap]. rewrite index_set_in by lia. cbn [mbind outcome_bind].
    eexists. split; [reflexivity|]. unfold zlen in *. split.
    + unfold get_file, table_get. cbn. destruct (Z.ltb_spec fd 0); [lia|]. by rewrite list_lookup_insert_eq by lia.
    + intros k Hk. unfold get_file, table_get. cbn. destruct (Z.ltb_spec k 0); [done|].
      by rewrite list_lookup_insert_ne by lia.
  - destruct (Z.leb_spec (zlen (table m)) (fd_usize fd)); [done|].
    assert (0 <= fd /\ fd_usize fd = fd) as [H0 Hfu] by (unfold fd_usize, wrap64 in *; lia). rewrite Hfu in *.
    unfold index. destruct (Z.ltb_spec fd 0); [lia|].
    destruct (table m !! Z.to_nat fd) as [[g|]|] eqn:El; cbn [mbind outcome_bind unwrap]; [|done|].
    + assert (get_file m fd = Ok g) as Eg by (by apply get_file_lookup). congruence.
    + apply lookup_ge_None in El. unfold zlen in *. lia.
Qed.

(** C12: [close], [dup] and [dup3] as POSIX has them.  [close] of an open
    descriptor frees its number and releases exactly that descriptor; of any
    other number it fails with [EBADF] without effect.  [dup] gives the lowest
    free number to the file of an open descriptor, and [dup3] the number asked
    for, whether it was open, closed or beyond the end of the table; what was
    open there is released.  The new descriptor refers to the same file, with
    the close-on-exec flag as asked for ([dup] clears it), every other
    descriptor is unchanged, and nothing panics.  [dup] fails only with
    [EMFILE], when the table is full. *)
Theorem close_dup_correct m old f : 0 <= old < soft_limit m -> get_file m old = Ok f ->
  match sys_dup m old with
  | Ret (Ok n, m') => ~ used m n /\ (forall k, 0 <= k < n -> used m k) /\
      get_file m' n = Ok (unset_cloexec f) /\ (forall k, k <> n -> get_file m' k = get_file m k)
  | Ret (Err e, m') => e = EMFILE /\ m' = m /\ soft_limit m <= zlen (table m)
  | Panic => False
  end /\
  (forall fd, - 2 ^ 31 <= fd < 2 ^ 31 -> zlen (table m) < 2 ^ 63 ->
     match get_file m fd with
     | Ok g => exists m', sys_close m fd = Ret ((Ok 0, Some g), m') /\ get_file m' fd = Err EBADF /\
         forall k, k <> fd -> get_file m' k = get_file m k
     | Err _ => sys_close m fd = Ret ((Err EBADF, None), m)
     end) /\
  (forall new flags, old < MAX_FD_NUM -> 0 <= new < MAX_FD_NUM -> new <> old ->
     flags = 0 \/ flags = FD_CLOEXEC ->
     exists m', sys_dup3 m old new flags = Ret ((Ok new, res_ok (get_file m new)), m') /\
       get_file m' new = Ok (if flags =? 0 then unset_cloexec f else set_cloexec f) /\
       (forall k, k <> new -> get_file m' k = get_file m k)).
Proof.
  intros Ho Hf. destruct (get_file_table m old f Hf) as [Ht Hr]. split; [|split; [apply close_correct|]].
  - unfold sys_dup. destruct (Z.ltb_spec old 0); [lia|]. destruct (Z.leb_spec (soft_limit m) old); [lia|].
    rewrite Ht. pose proof (alloc_fd_spec m) as Ha. destruct (alloc_fd m) as [[n|e] m1]; [|naive_solver].
    destruct Ha as (Hn & Hu & Hlow & _ & Hg & _).
    rewrite index_set_in by done. cbn [mbind outcome_bind]. rewrite index_set_in; [|unfold zlen in *; by rewrite length_insert].
    cbn [mbind outcome_bind]. rewrite list_insert_insert_eq. split; [done|]. split; [done|].
    destruct (get_file_set m1 (table m1) n (unset_cloexec f)) as [G1 G2]; [done|by rewrite set_table_same|].
    split; [done|]. intros k Hk. by rewrite G2, Hg.
  - intros new flags Hmo Hnew Hne Hfl. unfold sys_dup3.
    assert (fl_from_bits_truncate open_all flags = flags) as -> by (by destruct Hfl as [-> | ->]).
    assert (negb (flags =? 0) && negb (fl_contains flags FD_CLOEXEC) = false) as ->
      by (by destruct Hfl as [-> | ->]).
    destruct (Z.ltb_spec old 0), (Z.leb_spec MAX_FD_NUM old), (Z.ltb_spec new 0), (Z.leb_spec MAX_FD_NUM new);
      try lia. cbn [orb]. destruct (Z.eqb_spec old new); [lia|].
    destruct (Z.leb_spec (soft_limit m) old); [lia|]. rewrite Ht. unfold fdm_len.
    assert ((if fl_contains flags FD_CLOEXEC then set_cloexec f else unset_cloexec f)
      = (if flags =? 0 then unset_cloexec f else set_cloexec f)) as -> by (by destruct Hfl as [-> | ->]).
    rewrite (released m new) by lia. destruct (Z.ltb_spec new (zlen (table m))).
    + assert (zlen (<[Z.to_nat new:=None]> (table m)) = zlen (table m)) as El
        by (unfold zlen; by rewrite length_insert).
      rewrite El. destruct (Z.leb_spec (zlen (table m)) new); [lia|].
      rewrite index_set_in by (rewrite El; lia). cbn [mbind outcome_bind]. rewrite list_insert_insert_eq.
      eexists. split; [done|]. apply (get_file_set m (table m)); [lia|by rewrite set_table_same].
    + destruct (Z.leb_spec (zlen (table m)) new); [|lia].
      assert (zlen (table m ++ replicate (Z.to_nat (new + 1 - zlen (table m))) None) = new + 1) as El.
      { rewrite zlen_app. unfold zlen. rewrite length_replicate. unfold zlen in *. lia. }
      rewrite index_set_in by (rewrite El; lia). cbn [mbind outcome_bind].
      eexists. split; [done|]. apply get_file_set; [rewrite El; lia|]. intros k _. apply get_file_grow.
Qed.

(** What [fcntl] sets is lost: [F_SETFD] and [F_SETFL] leave the table as
    it is, whatever their argument, and [F_DUPFD_CLOEXEC] returns a
    descriptor whose close-on-exec flag is that of the old one. *)
Theorem fcntl_settings_lost m fd cmd arg r m' : sys_fcntl m fd cmd arg = Ret (r, m') ->
  (cmd = F_SETFD \/ cmd = F_SETFL -> m' = m) /\
  (cmd = F_DUPFD_CLOEXEC -> forall n f, r = Ok n -> get_file m fd = Ok f -> get_file m' n = Ok f).
Proof.
  intros H. split.
  - intros [-> | ->]; unfold sys_fcntl in H; cbn in H; destruct (get_file m fd); by injection H as _ <-.
  - intros -> n f -> Hf. unfold sys_fcntl in H.
    change ((F_DUPFD_CLOEXEC =? F_DUPFD) || (F_DUPFD_CLOEXEC =? F_DUPFD_CLOEXEC)) with true in H.
    cbv iota in H. rewrite Hf in H. destruct (alloc_fd_from m arg) as [n'|]; [|done].
    apply bind_Ret in H as (t' & H0 & H1). destruct (get_file _ n') as [g|e] eqn:Eg; [|done]. injection H1 as <- <-. rewrite Eg.
    unfold index_set in H0. destruct (_ && _) eqn:Eb in H0; [|done]. injection H0 as <-. zbool.
    apply get_file_lookup in Eg as [_ Eg]. cbn in Eg. rewrite list_lookup_insert_eq in Eg; [congruence|].
    unfold zlen in *. lia.
Qed.

Definition fd_demo : FdManage := mkFdm [Some (mkFD 0 (ClassAbs 7)); None; Some (mkFD FD_CLOEXEC (ClassFile 9))] 16 32.

Lemma close_dup_correct_witness :
  (exists m', sys_dup fd_demo 2 = Ret (Ok 1, m') /\ get_file m' 1 = Ok (mkFD 0 (ClassFile 9))) /\
  (exists m', sys_close fd_demo 0 = Ret ((Ok 0, Some (mkFD 0 (ClassAbs 7))), m')) /\
  sys_close fd_demo (-1) = Ret ((Err EBADF, None), fd_demo) /\
  exists m', sys_dup3 fd_demo 2 0 FD_CLOEXEC = Ret ((Ok 0, Some (mkFD 0 (ClassAbs 7))), m') /\
    get_file m' 0 = Ok (mkFD FD_CLOEXEC (ClassFile 9)).
Proof.
  destruct (close_dup_correct fd_demo 2 (mkFD FD_CLOEXEC (ClassFile 9))) as (H1 & Hc & H2);
    [cbn; lia|reflexivity|].
  split; [|split; [|split]].
  - destruct (sys_dup fd_demo 2) as [[[n|e] m']|] eqn:E; [|by destruct H1|done].
    exists m'. vm_compute in E. injection E as <- <-. split; [done|exact (proj1 (proj2 (proj2 H1)))].
  - destruct (Hc 0) as (m' & H3 & _); [lia|reflexivity|]. by exists m'.
  - apply (Hc (-1)); [lia|reflexivity].
  - destruct (H2 0 FD_CLOEXEC) as (m' & H3 & H4 & _); [done|done|lia|by right|]. by exists m'.
Defined.

Definition fd_demo_dup : FdManage :=
  mkFdm [Some (mkFD 0 (ClassAbs 7)); Some (mkFD 0 (ClassAbs 7)); Some (mkFD FD_CLOEXEC (ClassFile 9))] 16 32.

Lemma fcntl_settings_lost_witness :
  sys_fcntl fd_demo 0 F_DUPFD_CLOEXEC 1 = Ret (Ok 1, fd_demo_dup) /\
  get_file fd_demo_dup 1 = Ok (mkFD 0 (ClassAbs 7)).
Proof.
  assert (sys_fcntl fd_demo 0 F_DUPFD_CLOEXEC 1 = Ret (Ok 1, fd_demo_dup)) as H by (vm_compute; reflexivity).
  split; [exact H|].
  exact (proj2 (fcntl_settings_lost fd_demo 0 F_DUPFD_CLOEXEC 1 (Ok 1) fd_demo_dup H) eq_refl 1
           (mkFD 0 (ClassAbs 7)) eq_refl eq_refl).
Defined.

(** When the two descriptors of a pipe cannot be written to user memory, they
    stay open. *)
Lemma pipe2_error_keeps_ends m ptr flags r w m' : sys_pipe2 m ptr flags r w true = Ret (Ok 0, m') ->
  sys_pipe2 m ptr flags r w false = Ret (Err EFAULT, m').
Proof.
  unfold sys_pipe2. destruct (ptr =? 0); [done|].
  destruct (alloc_and_add_fd m _) as [[[x|e] m1]|]; cbn [mbind outcome_bind]; try done.
  destruct (alloc_and_add_fd m1 _) as [[[y|e] m2]|]; cbn [mbind outcome_bind]; try done. by intros [= <-].
Qed.
