(* ===== verification/Select.v ===== *)
(** * pselect6 and poll (os/src/fs/select.rs, os/src/fs/poll.rs,
      [sys_pselect6] of os/src/syscall/process.rs and [sys_poll] of
      os/src/syscall/fs.rs)

    Sets of descriptors are sixteen 64-bit words.  [PSelectFuture] and
    [PollFuture] poll the files of the requested descriptors, then a timer.
    A file is an object behind a reference with a [poll] method; what that
    method does to the kernel state is a parameter of the section. *)

From S2P Require Import Prelude Config Address Memory FrameAlloc Pte.
From S2P Require Import PageTable BTree Errno Area AreaMap UserMem.
From S2P Require Import UserCopy MemorySet UserStack.
From S2P Require Import Shm Timer Sched Exec ExecInv Sleep.
From S2P Require Import Pipe FdTable Futex Signals Process ProcTree.
From S2P Require Import Robust Clone ProcWait.

(** ** Sets of descriptors *)

Definition BITS_PER_LONG : Z := 64.
Definition LONGS_FOR_FDS : Z := (FD_SETSIZE + BITS_PER_LONG - 1) / BITS_PER_LONG.

Notation FdSet := (list Z) (only parsing).

Definition FdSet_default : FdSet := replicate (Z.to_nat LONGS_FOR_FDS) 0.

Definition fd_word (s : FdSet) (fd : Z) : Z := default 0 (s !! Z.to_nat (fd / BITS_PER_LONG)).
Definition set_fd_word (s : FdSet) (fd v : Z) : FdSet := <[Z.to_nat (fd / BITS_PER_LONG) := v]> s.
Definition fd_bit (fd : Z) : Z := Z.shiftl 1 (fd mod BITS_PER_LONG).

Definition is_set (s : FdSet) (fd : Z) : bool :=
  if FD_SETSIZE <=? fd then false else negb (Z.land (fd_word s fd) (fd_bit fd) =? 0).

Definition fdset_set (s : FdSet) (fd : Z) : FdSet :=
  if FD_SETSIZE <=? fd then s else set_fd_word s fd (Z.lor (fd_word s fd) (fd_bit fd)).

Definition fdset_clear (s : FdSet) (fd : Z) : FdSet :=
  if FD_SETSIZE <=? fd then s else set_fd_word s fd (Z.land (fd_word s fd) (not64 (fd_bit fd))).

Definition fdset_zero (s : FdSet) : FdSet := (fun _ => 0) <$> s.

(** The set in user memory. *)
Definition FdSet_bytes (s : FdSet) : list Z := words s.
Definition FdSet_of_bytes (bs : list Z) : FdSet :=
  map (fun i => word_at bs (8 * i)) (seq 0 (Z.to_nat LONGS_FOR_FDS)).
Definition FDSET_SIZE : Z := 8 * LONGS_FOR_FDS.

(** ** The future *)

Definition POLLPRI : Z := 2.
Definition POLLNVAL : Z := 0x20.
Definition poll_all : Z := 0x203f.
Definition poll_bad : Z := Z.lor (Z.lor POLLERR POLLHUP) POLLNVAL.

Record PSelectFuture : Type := mkPSF {
  fds_to_check : list (Z * FileDescriptor);
  user_readfds : Z;
  user_writefds : Z;
  user_exceptfds : Z;
  timeout_sleep : SleepFuture;
  ps_token : Z
}.

Definition set_timeout (s : SleepFuture) (f : PSelectFuture) : PSelectFuture :=
  mkPSF (fds_to_check f) (user_readfds f) (user_writefds f) (user_exceptfds f) s (ps_token f).

Record PollFd : Type := mkPollFd { pf_fd : Z; pf_events : Z; pf_revents : Z }.

Record PollRequest : Type := mkPR {
  fd_index : Z;
  original_user_fd : Z;
  file_descriptor : option FileDescriptor;
  requested_events : Z
}.

Record PollFuture : Type := mkPF {
  pcb_token : Z;
  requests : list PollRequest;
  user_fds_array_ptr : Z;
  user_fds_count : Z;
  poll_sleep_instance : SleepFuture
}.

Definition set_poll_sleep (s : SleepFuture) (f : PollFuture) : PollFuture :=
  mkPF (pcb_token f) (requests f) (user_fds_array_ptr f) (user_fds_count f) s.

(** What one round of polling has found. *)
Record found : Type := mkFound { res_read : FdSet; res_write : FdSet; res_except : FdSet; ready_count : Z }.

Definition found0 : found := mkFound FdSet_default FdSet_default FdSet_default 0.

(** The events of one descriptor. *)
Definition note_events (f : PSelectFuture) (fd revents : Z) (a : found) : found :=
  let rd := negb (user_readfds f =? 0) in
  let wr := negb (user_writefds f =? 0) in
  let exc := negb (user_exceptfds f =? 0) in
  let '(a, ready) := if fl_intersects revents POLLIN && rd
    then (mkFound (fdset_set (res_read a) fd) (res_write a) (res_except a) (ready_count a), true)
    else (a, false) in
  let '(a, ready) := if fl_intersects revents POLLOUT && wr
    then (mkFound (res_read a) (fdset_set (res_write a) fd) (res_except a) (ready_count a), true)
    else (a, ready) in
  let '(a, ready) := if fl_intersects revents POLLPRI && exc
    then (mkFound (res_read a) (res_write a) (fdset_set (res_except a) fd) (ready_count a), true)
    else (a, ready) in
  let '(a, ready) := if fl_intersects revents poll_bad
    then (mkFound (if rd then fdset_set (res_read a) fd else res_read a)
            (if wr then fdset_set (res_write a) fd else res_write a)
            (if exc then fdset_set (res_except a) fd else res_except a) (ready_count a), true)
    else (a, ready) in
  if (ready : bool) then mkFound (res_read a) (res_write a) (res_except a) (ready_count a + 1) else a.

Section select.

Variable file_poll : FileDescriptor -> Z -> Z -> ST kern Z.
Variable file_read : Z -> UserBuffer -> inodes -> ST world (result Z SysErrNo * inodes).

Fixpoint select_scan (f : PSelectFuture) (w : Z) (fds : list (Z * FileDescriptor)) (a : found)
    : ST kern found :=
  match fds with
  | [] => mret a
  | (fd, file) :: fds' =>
      revents ← file_poll file poll_all w;
      select_scan f w fds' (note_events f fd revents a)
  end.

(** [put_data(token, ptr, set)?] when the pointer is not null. *)
Definition put_set (token ptr : Z) (s : FdSet) : ST kern (result unit SysErrNo) :=
  if ptr =? 0 then mret (Ok tt)
  else
    r ← on_kf (on_fmem (put_data token ptr (FdSet_bytes s)));
    mret (match r with Ok _ => Ok tt | Err e => Err (errno_of_PutDataError e) end).

Definition write_results_to_user (f : PSelectFuture) (rd wr exc : FdSet) : ST kern (result unit SysErrNo) :=
  _ <-? put_set (ps_token f) (user_readfds f) rd;
  _ <-? put_set (ps_token f) (user_writefds f) wr;
  put_set (ps_token f) (user_exceptfds f) exc.

(** [poll] at time [now]; [a] is the address of a timer node. *)
Definition pselect_poll (f : PSelectFuture) (now : TimeVal) (a w : Z)
    : ST kern (Poll (result Z SysErrNo) * PSelectFuture) :=
  s ← select_scan f w (fds_to_check f) found0;
  if 0 <? ready_count s then
    r ← write_results_to_user f (res_read s) (res_write s) (res_except s);
    mret (Ready (match r with Ok _ => Ok (ready_count s) | Err e => Err e end), f)
  else
    '(p, sl) ← on_ksys (sleep_poll (timeout_sleep f) now a);
    match p with
    | Ready _ =>
        r ← write_results_to_user f FdSet_default FdSet_default FdSet_default;
        mret (Ready (match r with Ok _ => Ok 0 | Err e => Err e end), set_timeout sl f)
    | Pending => mret (Pending, set_timeout sl f)
    end.

(** ** The system call *)

(** [manual_alloc_type_for_lazy(ptr)?] and [get_target_ref(token, ptr)?]: where
    the value is, [None] for a null pointer. *)
Definition user_ref (mm token ptr size : Z) : ST kern (result (option Z) SysErrNo) :=
  if ptr =? 0 then mret (Ok None)
  else
    _ <-? on_mm mm (fun fs ms => manual_alloc_type_for_lazy file_read fs ms ptr size);
    m ← st_gets (fun k => w_mem (k_world k));
    r ← st_lift (get_target_ref token m ptr size);
    mret (match r with
          | Ok o => Ok o
          | Err e => Err (errno_of_TranslateError e)
          end).

(** [set.is_set(fd)] through such a reference. *)
Definition in_set (m : pmem) (o : option Z) (fd : Z) : bool :=
  match o with Some pa => is_set (FdSet_of_bytes (pa_read_bytes m pa FDSET_SIZE)) fd | None => false end.

(** The descriptors below [nfds] that are in one of the sets. *)
Fixpoint collect_fds (t : FdManage) (m : pmem) (rd wr exc : option Z) (fds : list Z)
    : result (list (Z * FileDescriptor)) SysErrNo :=
  match fds with
  | [] => Ok []
  | fd :: fds' =>
      if in_set m rd fd || in_set m wr fd || in_set m exc fd then
        match get_file t fd with
        | Err e => Err e
        | Ok file =>
            match collect_fds t m rd wr exc fds' with
            | Ok l => Ok ((fd, file) :: l)
            | Err e => Err e
            end
        end
      else collect_fds t m rd wr exc fds'
  end.

(** [do_sigprocmask(SIG_SETMASK, Some(mask))] for the current task. *)
Definition set_mask (cur mask : Z) : ST kern Z :=
  ts ← st_gets (fun k => k_tsig k !! cur);
  ts ← st_lift (unwrap ts);
  '(old, ts') ← st_lift (do_sigprocmask ts SIG_SETMASK (Some mask));
  _ ← k_set_tsig cur ts';
  mret old.

(** The replacement of the mask by the one at [mptr]; the old one. *)
Definition swap_mask (token cur mptr : Z) : ST kern (result (option Z) SysErrNo) :=
  if mptr =? 0 then mret (Ok None)
  else
    m ← st_gets (fun k => w_mem (k_world k));
    r ← st_lift (get_target_ref token m mptr 8);
    match r with
    | Err e => mret (Err (errno_of_TranslateError e))
    | Ok o =>
        old ← set_mask cur (match o with Some pa => le_value (pa_read_bytes m pa 8) | None => 0 end);
        mret (Ok (Some old))
    end.

(** [sys_pselect6] up to its [await]: an error, or the future with the mask
    to restore.  [now] is the time. *)
Definition pselect_start (nfds rptr wptr eptr tptr mptr : Z) (now : UserTimeSpec)
    : ST kern (result (PSelectFuture * option Z) SysErrNo) :=
  if nfds <? 0 then mret (Err EINVAL)
  else if FD_SETSIZE <? nfds then mret (Err EINVAL)
  else
    p ← current_process;
    pcb ← proc_at p;
    let mm := p_memory_set pcb in
    token ← mm_token mm;
    readfds <-? user_ref mm token rptr FDSET_SIZE;
    writefds <-? user_ref mm token wptr FDSET_SIZE;
    exceptfds <-? user_ref mm token eptr FDSET_SIZE;
    timeout <-? user_ref mm token tptr 16;
    cur ← on_kx current_get;
    original_sigmask <-? swap_mask token cur mptr;
    m ← st_gets (fun k => w_mem (k_world k));
    match collect_fds (p_fd_table pcb) m readfds writefds exceptfds (zrange 0 nfds) with
    | Err e => mret (Err e)
    | Ok fds =>
        d ← st_lift (match timeout with
                     | None => Ret None
                     | Some pa =>
                         let bs := pa_read_bytes m pa 16 in
                         t ← ts_add now (mkTS (word_at bs 0) (word_at bs 8));
                         Ret (Some t)
                     end);
        sl ← on_ksys (sleep_until (usertime2_timeval <$> d));
        mret (Ok (mkPSF fds rptr wptr eptr sl token, original_sigmask))
    end.

(** What follows the [await]. *)
Definition pselect_finish (cur : Z) (original_sigmask : option Z) (r : result Z SysErrNo)
    : ST kern (result Z SysErrNo) :=
  _ ← (match original_sigmask with
       | Some old => _ ← set_mask cur old; mret tt
       | None => mret tt
       end);
  mret r.

(** ** poll *)

(** The events of every request, and how many are not empty. *)
Fixpoint poll_scan (w : Z) (rs : list PollRequest) : ST kern (list (Z * Z) * Z) :=
  match rs with
  | [] => mret ([], 0)
  | r :: rs' =>
      revents ← (if original_user_fd r <? 0 then mret 0
                 else match file_descriptor r with
                      | Some fd => file_poll fd (requested_events r) w
                      | None => mret POLLNVAL
                      end);
      '(l, n) ← poll_scan w rs';
      mret ((fd_index r, revents) :: l, if revents =? 0 then n else n + 1)
  end.

(** The address of field [revents] of element [i] of an array of [PollFd]. *)
Definition revents_addr (ptr i : Z) : Z := wrap64 (ptr + 8 * i + 6).

Fixpoint write_revents_to_user (f : PollFuture) (results : list (Z * Z))
    : ST kern (result unit SysErrNo) :=
  match results with
  | [] => mret (Ok tt)
  | (i, revents) :: results' =>
      if i <? user_fds_count f then
        r ← on_kf (on_fmem (copy_to_user_bytes_exact (pcb_token f)
              (revents_addr (user_fds_array_ptr f) i) (le_bytes 2 revents)));
        match r with
        | Ok _ => write_revents_to_user f results'
        | Err _ => mret (Err EFAULT)
        end
      else write_revents_to_user f results'
  end.

(** [poll]; the time is read once by the timer ([now]) and once more after it
    ([now']). *)
Definition poll_poll (f : PollFuture) (now now' : TimeVal) (a w : Z)
    : ST kern (Poll (result Z SysErrNo) * PollFuture) :=
  '(results, n) ← poll_scan w (requests f);
  if 0 <? n then
    r ← write_revents_to_user f results;
    mret (Ready (match r with Ok _ => Ok n | Err e => Err e end), f)
  else
    '(p, sl) ← on_ksys (sleep_poll (poll_sleep_instance f) now a);
    match p with
    | Ready _ =>
        if deadline_reached (sf_deadline sl) now' then
          r ← write_revents_to_user f results;
          mret (Ready (match r with Ok _ => Ok 0 | Err e => Err e end), set_poll_sleep sl f)
        else mret (Pending, set_poll_sleep sl f)
    | Pending => mret (Pending, set_poll_sleep sl f)
    end.

(** The elements of the user's array. *)
Definition PollFd_of_bytes (bs : list Z) : PollFd :=
  mkPollFd (as_i32 (le_value (take 4 bs))) (le_value (take 2 (drop 4 bs)))
    (le_value (take 2 (drop 6 bs))).

Definition PollFds_of_bytes (n : Z) (bs : list Z) : list PollFd :=
  map (fun i => PollFd_of_bytes (take 8 (drop (8 * i) bs))) (seq 0 (Z.to_nat n)).

Definition parse_request (t : FdManage) (idx : Z) (p : PollFd) : PollRequest :=
  if 0 <=? pf_fd p then
    mkPR idx (pf_fd p) (match table_get (table t) (pf_fd p) with Some o => o | None => None end)
      (pf_events p)
  else mkPR idx (pf_fd p) None 0.

Definition parse_requests (t : FdManage) (l : list PollFd) : list PollRequest :=
  imap (fun i p => parse_request t (Z.of_nat i) p) l.

(** [sys_poll] up to its first [await] of a future: a result, a sleep followed
    by a result, or the polling. *)
Inductive poll_step : Type :=
  | PollDone (r : result Z SysErrNo)
  | PollSleep (s : SleepFuture) (r : result Z SysErrNo)
  | PollWait (f : PollFuture).

Definition poll_start (init : Z -> list Z) (ptr nfds timeout_ms : Z) (now : TimeVal)
    : ST kern poll_step :=
  if nfds =? 0 then
    if 0 <? timeout_ms then
      d ← st_lift (add_milliseconds now timeout_ms);
      s ← on_ksys (sleep_until (Some d));
      mret (PollSleep s (Ok 0))
    else if timeout_ms =? 0 then mret (PollDone (Ok 0))
    else
      s ← on_ksys (sleep_until None);
      mret (PollSleep s (Err EINTR))
  else if FD_SETSIZE <? nfds then mret (PollDone (Err EINVAL))
  else
    p ← current_process;
    pcb ← proc_at p;
    token ← mm_token (p_memory_set pcb);
    if ptr =? 0 then mret (PollDone (Err EFAULT))
    else
      m ← st_gets (fun k => w_mem (k_world k));
      r ← st_lift (copy_from_user_array token m init ptr nfds 8);
      match r with
      | Err _ => mret (PollDone (Err EFAULT))
      | Ok bs =>
          d ← st_lift (if timeout_ms =? 0 then Ret (Some now)
                       else if 0 <? timeout_ms then
                         d ← add_milliseconds now timeout_ms; Ret (Some d)
                       else Ret None);
          s ← on_ksys (sleep_until d);
          mret (PollWait (mkPF token (parse_requests (p_fd_table pcb) (PollFds_of_bytes nfds bs))
            ptr nfds s))
      end.

End select.

(** ** Sets of descriptors, bit by bit *)

Definition fdset_ok (s : FdSet) : Prop := length s = 16%nat.

Lemma land_bit w b : 0 <= b -> negb (Z.land w (Z.shiftl 1 b) =? 0) = Z.testbit w b.
Proof.
  intros Hb. rewrite Z.shiftl_1_l.
  destruct (Z.eqb_spec (Z.land w (2 ^ b)) 0) as [E|E]; cbn.
  - apply (f_equal (fun z => Z.testbit z b)) in E.
    rewrite Z.land_spec, Z.bits_0, testbit_pow2, Z.eqb_refl, andb_true_r in E by lia. done.
  - destruct (Z.testbit w b) eqn:T; [done|]. exfalso. apply E. apply Z.bits_inj'. intros i Hi.
    rewrite Z.land_spec, Z.bits_0, testbit_pow2 by lia.
    destruct (Z.eqb_spec b i) as [<-|]; [by rewrite T|by rewrite andb_false_r].
Qed.

Lemma is_set_bit s fd : 0 <= fd < FD_SETSIZE ->
  is_set s fd = Z.testbit (fd_word s fd) (fd mod BITS_PER_LONG).
Proof.
  intros H. unfold is_set. destruct (Z.leb_spec FD_SETSIZE fd); [lia|].
  apply land_bit. unfold BITS_PER_LONG. lia.
Qed.

Lemma fd_word_set s fd j v : fdset_ok s -> 0 <= fd < FD_SETSIZE -> 0 <= j ->
  fd_word (set_fd_word s fd v) j = if fd / BITS_PER_LONG =? j / BITS_PER_LONG then v else fd_word s j.
Proof.
  unfold fdset_ok, FD_SETSIZE, fd_word, set_fd_word, BITS_PER_LONG. intros Hs Hf Hj.
  destruct (Z.eqb_spec (fd / 64) (j / 64)) as [<-|Hne].
  - rewrite list_lookup_insert_eq; [done|lia].
  - rewrite list_lookup_insert_ne; [done|]. lia.
Qed.

Lemma same_bit fd j : 0 <= fd -> 0 <= j ->
  (fd / BITS_PER_LONG =? j / BITS_PER_LONG) && (fd mod BITS_PER_LONG =? j mod BITS_PER_LONG) = (fd =? j).
Proof. unfold BITS_PER_LONG. intros. zcases; cbn; lia. Qed.

Lemma is_set_set s fd j : fdset_ok s -> 0 <= fd < FD_SETSIZE -> 0 <= j < FD_SETSIZE ->
  is_set (fdset_set s fd) j = (fd =? j) || is_set s j.
Proof.
  intros Hs Hf Hj. rewrite !is_set_bit by done. unfold fdset_set.
  destruct (Z.leb_spec FD_SETSIZE fd); [lia|]. rewrite fd_word_set by (done || lia).
  rewrite <- (same_bit fd j) by lia. destruct (Z.eqb_spec (fd / BITS_PER_LONG) (j / BITS_PER_LONG)) as [E|]; [|done].
  assert (fd_word s fd = fd_word s j) as -> by (unfold fd_word; by rewrite E).
  unfold fd_bit. rewrite Z.lor_spec, Z.shiftl_1_l, testbit_pow2 by (unfold BITS_PER_LONG; lia).
  apply orb_comm.
Qed.

Lemma is_set_clear s fd j : fdset_ok s -> 0 <= fd < FD_SETSIZE -> 0 <= j < FD_SETSIZE ->
  is_set (fdset_clear s fd) j = negb (fd =? j) && is_set s j.
Proof.
  intros Hs Hf Hj. rewrite !is_set_bit by done. unfold fdset_clear.
  destruct (Z.leb_spec FD_SETSIZE fd); [lia|]. rewrite fd_word_set by (done || lia).
  rewrite <- (same_bit fd j) by lia. destruct (Z.eqb_spec (fd / BITS_PER_LONG) (j / BITS_PER_LONG)) as [E|]; [|done].
  assert (fd_word s fd = fd_word s j) as -> by (unfold fd_word; by rewrite E).
  assert (0 <= j mod BITS_PER_LONG < 64) by (unfold BITS_PER_LONG; lia).
  unfold fd_bit. rewrite Z.land_spec, testbit_not64, Z.shiftl_1_l, testbit_pow2 by (unfold BITS_PER_LONG; lia).
  destruct (Z.ltb_spec (j mod BITS_PER_LONG) 64); [|lia]. cbn. apply andb_comm.
Qed.

Lemma fdset_set_ok s fd : fdset_ok s -> fdset_ok (fdset_set s fd).
Proof.
  unfold fdset_ok, fdset_set, set_fd_word. intros. destruct (_ <=? _); [done|]. by rewrite length_insert.
Qed.

Lemma is_set_default j : 0 <= j < FD_SETSIZE -> is_set FdSet_default j = false.
Proof.
  intros Hj. rewrite is_set_bit by done. unfold fd_word, FdSet_default.
  destruct (replicate _ 0 !! _) as [w|] eqn:E; cbn; [|apply Z.bits_0].
  apply lookup_replicate in E as [-> _]. apply Z.bits_0.
Qed.

(** ** One round of polling *)

Lemma intersects_lor ev a b : fl_intersects ev (Z.lor a b) = fl_intersects ev a || fl_intersects ev b.
Proof.
  unfold fl_intersects. rewrite Z.land_lor_distr_r.
  destruct (Z.eqb_spec (Z.lor (Z.land ev a) (Z.land ev b)) 0) as [E|E].
  - apply Z.lor_eq_0_iff in E as [-> ->]. done.
  - destruct (Z.eqb_spec (Z.land ev a) 0) as [Ea|]; [|done].
    destruct (Z.eqb_spec (Z.land ev b) 0) as [Eb|]; [|done]. by rewrite Ea, Eb in E.
Qed.

(** When a descriptor goes to the set at [ptr] that stands for [events]. *)
Definition reported (ptr events ev : Z) : bool := negb (ptr =? 0) && fl_intersects ev (Z.lor events poll_bad).

Definition fd_ready (f : PSelectFuture) (ev : Z) : bool :=
  reported (user_readfds f) POLLIN ev || reported (user_writefds f) POLLOUT ev
  || reported (user_exceptfds f) POLLPRI ev || fl_intersects ev poll_bad.

Record found_ok (a : found) : Prop := {
  fo_read : fdset_ok (res_read a);
  fo_write : fdset_ok (res_write a);
  fo_except : fdset_ok (res_except a)
}.

Lemma note_events_ok f fd ev a : found_ok a -> found_ok (note_events f fd ev a).
Proof.
  intros [? ? ?]. unfold note_events.
  split; repeat (case_match; simplify_eq; cbn [res_read res_write res_except]); repeat apply fdset_set_ok; done.
Qed.

Lemma note_events_spec f fd ev a : found_ok a -> 0 <= fd < FD_SETSIZE ->
  let b := note_events f fd ev a in
  (forall j, 0 <= j < FD_SETSIZE ->
    is_set (res_read b) j = ((fd =? j) && reported (user_readfds f) POLLIN ev) || is_set (res_read a) j) /\
  (forall j, 0 <= j < FD_SETSIZE ->
    is_set (res_write b) j = ((fd =? j) && reported (user_writefds f) POLLOUT ev) || is_set (res_write a) j) /\
  (forall j, 0 <= j < FD_SETSIZE ->
    is_set (res_except b) j = ((fd =? j) && reported (user_exceptfds f) POLLPRI ev) || is_set (res_except a) j) /\
  ready_count b = ready_count a + (if fd_ready f ev then 1 else 0).
Proof.
  intros [Hr Hw He] Hf b. subst b. unfold note_events, fd_ready, reported.
  rewrite (intersects_lor ev POLLIN), (intersects_lor ev POLLOUT), (intersects_lor ev POLLPRI).
  destruct (user_readfds f =? 0), (user_writefds f =? 0), (user_exceptfds f =? 0),
    (fl_intersects ev POLLIN), (fl_intersects ev POLLOUT), (fl_intersects ev POLLPRI),
    (fl_intersects ev poll_bad);
  cbn [negb andb orb res_read res_write res_except ready_count];
  (split_and!; [intros j Hj..|lia];
   rewrite ?is_set_set by (done || by repeat apply fdset_set_ok);
   by destruct (fd =? j)).
Qed.

(** Polling the files of [fds] in order gives the events [evs]. *)
Fixpoint polls (file_poll : FileDescriptor -> Z -> Z -> ST kern Z) (w : Z)
    (fds : list (Z * FileDescriptor)) (k : kern) (evs : list Z) (k' : kern) : Prop :=
  match fds, evs with
  | [], [] => k = k'
  | (_, file) :: fds', ev :: evs' =>
      exists k1, file_poll file poll_all w k = Ret (ev, k1) /\ polls file_poll w fds' k1 evs' k'
  | _, _ => False
  end.

Definition set_at (ptr events : Z) (fds : list (Z * FileDescriptor)) (evs : list Z) (j : Z) : bool :=
  existsb (fun '((fd, _), ev) => (fd =? j) && reported ptr events ev) (zip fds evs).

Definition fds_ok (fds : list (Z * FileDescriptor)) : Prop :=
  Forall (fun p => 0 <= fst p < FD_SETSIZE) fds.

Lemma select_scan_spec file_poll f w fds : fds_ok fds -> forall k evs k' a,
  polls file_poll w fds k evs k' -> found_ok a ->
  exists b, select_scan file_poll f w fds a k = Ret (b, k') /\
    (forall j, 0 <= j < FD_SETSIZE ->
      is_set (res_read b) j = set_at (user_readfds f) POLLIN fds evs j || is_set (res_read a) j) /\
    (forall j, 0 <= j < FD_SETSIZE ->
      is_set (res_write b) j = set_at (user_writefds f) POLLOUT fds evs j || is_set (res_write a) j) /\
    (forall j, 0 <= j < FD_SETSIZE ->
      is_set (res_except b) j = set_at (user_exceptfds f) POLLPRI fds evs j || is_set (res_except a) j) /\
    ready_count b = ready_count a + zcount (fd_ready f) evs /\ found_ok b.
Proof.
  induction 1 as [|[fd file] fds Hfd Hfds IH]; intros k [|ev evs] k' a; cbn [polls]; try done.
  - intros -> Ha. exists a. rewrite zcount_nil. split_and!; try done; [lia|apply Ha..].
  - intros (k1 & Hp & Hps) Ha. cbn [fst] in Hfd.
    destruct (IH _ _ _ _ Hps (note_events_ok f fd ev a Ha)) as (b & Hb & Hr & Hw & He & Hn & Hok).
    destruct (note_events_spec f fd ev a Ha Hfd) as (Hr' & Hw' & He' & Hn').
    exists b. cbn [select_scan]. unfold mbind, ST_bind. rewrite Hp. split; [exact Hb|].
    unfold set_at in *. cbn [zip zip_with existsb].
    split_and!.
    1-3: intros j Hj; rewrite ?Hr, ?Hw, ?He, ?Hr', ?Hw', ?He' by done;
      rewrite orb_assoc; f_equal; apply orb_comm.
    rewrite Hn, Hn', zcount_cons. lia. done.
Qed.

Lemma found0_ok : found_ok found0.
Proof. by split. Qed.

(** What the caller of [sys_pselect6] asked for. *)
Lemma collect_fds_spec t m rd wr exc fds :
  collect_fds t m rd wr exc fds =
  let asked := List.filter (fun fd => in_set m rd fd || in_set m wr fd || in_set m exc fd) fds in
  match mapM (fun fd => match get_file t fd with Ok file => Some (fd, file) | Err _ => None end) asked with
  | Some l => Ok l
  | None => Err EBADF
  end.
Proof.
  induction fds as [|fd fds IH]; [done|]. cbn [collect_fds List.filter].
  destruct (_ || _); [|exact IH]. cbn [mapM]. rewrite IH. unfold get_file.
  destruct (table_get (table t) fd) as [[file|]|]; cbn; [|done..].
  by destruct (mapM _ _).
Qed.

(** ** The timer of the futures *)

Lemma on_ksys_Ret {A} (m : ST sys A) k r k' : on_ksys m k = Ret (r, k') ->
  exists s, m (k_sys k) = Ret (r, s) /\ k_sys k' = s.
Proof. unfold on_ksys. destruct (m _) as [[? ?]|]; [|done]. intros [= <- <-]. by eexists. Qed.

(** A timer that stays pending is registered with its deadline. *)
Lemma sleep_poll_pending f now a s f' s' : sleep_poll f now a s = Ret ((Pending, f'), s') ->
  f' = mkSF (sf_deadline f) (task_id_at_creation f) (Some a) /\ sf_node f = None.
Proof.
  unfold sleep_poll. destruct (deadline_reached _ _).
  { intros (? & ? & _ & [= ?])%st_bind_Ret. }
  destruct (sf_node f) eqn:E.
  { intros (? & ? & _ & [= ?])%st_bind_Ret. }
  intros (m & s1 & _ & H)%st_bind_Ret. destruct (bt_get _ _) as [r|]; [|by injection H].
  repeat (apply st_bind_Ret in H as (? & ? & _ & H)).
  injection H as <- _. done.
Qed.

(** A registered timer that is polled again is done, whatever the time is. *)
Lemma sleep_poll_registered f now a s n : sf_node f = Some n ->
  sleep_poll f now a s =
  Ret ((Ready tt, mkSF (sf_deadline f) (task_id_at_creation f) None),
    mkSys (ex s) (tid2tc s) (snd (remove_sleeper (sleepers s) n))).
Proof.
  intros Hn. unfold sleep_poll, sleep_unregister, set_sleepers. rewrite Hn.
  by destruct (deadline_reached _ _).
Qed.

(** The kernel without the timer node at [n]. *)
Definition drop_timer (n : Z) (k : kern) : kern :=
  kafter (on_ksys (set_sleepers (fun l => snd (remove_sleeper l n)))) k.

Lemma on_ksys_registered f now a n k : sf_node f = Some n ->
  on_ksys (sleep_poll f now a) k =
  Ret ((Ready tt, mkSF (sf_deadline f) (task_id_at_creation f) None), drop_timer n k).
Proof. intros Hn. unfold on_ksys. by rewrite (sleep_poll_registered _ _ _ _ n). Qed.

(** ** Writing the sets *)

Lemma le_bytes_bit n : forall v i b, (i < n)%nat -> 0 <= b < 8 ->
  Z.testbit (nth i (le_bytes n v) 0) b = Z.testbit v (8 * Z.of_nat i + b).
Proof.
  induction n as [|n IH]; intros v i b Hi Hb; [lia|]. destruct i as [|i]; cbn [le_bytes nth].
  - change 256 with (2 ^ 8). rewrite Z.mod_pow2_bits_low by lia. done.
  - rewrite IH by lia. change 256 with (2 ^ 8). rewrite Z.div_pow2_bits by lia. f_equal. lia.
Qed.

Lemma nth_words l : forall i, (i < 8 * length l)%nat ->
  nth i (words l) 0 = nth (i mod 8) (le_bytes 8 (nth (i / 8) l 0)) 0.
Proof.
  induction l as [|v l IH]; intros i Hi; cbn [length] in Hi; [lia|].
  change (words (v :: l)) with (le_bytes 8 v ++ words l).
  assert (length (le_bytes 8 v) = 8%nat) as H8 by done. destruct (decide (i < 8)%nat) as [Hlt|Hge].
  - rewrite app_nth1 by lia. rewrite Nat.mod_small, Nat.div_small by done. done.
  - rewrite app_nth2, H8 by lia. rewrite IH by lia. replace i with (i - 8 + 1 * 8)%nat at 3 4 by lia.
    rewrite Nat.Div0.mod_add, Nat.div_add by lia. rewrite Nat.add_comm. done.
Qed.

(** Descriptor [j] is bit [j mod 8] of byte [j / 8]. *)
Lemma set_bytes_bit s j : fdset_ok s -> 0 <= j < FD_SETSIZE ->
  Z.testbit (nth (Z.to_nat (j / 8)) (FdSet_bytes s) 0) (j mod 8) = is_set s j.
Proof.
  intros Hs Hj. rewrite is_set_bit by done. unfold FdSet_bytes, fdset_ok, FD_SETSIZE in *.
  rewrite nth_words by (rewrite Hs; change (Z.to_nat LONGS_FOR_FDS) with 16%nat; lia).
  rewrite le_bytes_bit by (apply Nat.mod_upper_bound || lia; done). unfold fd_word, BITS_PER_LONG.
  replace (Z.to_nat (j / 8) / 8)%nat with (Z.to_nat (j / 64))
    by (apply Nat2Z.inj; rewrite Nat2Z.inj_div, !Z2Nat.id by lia; lia).
  rewrite nth_lookup, Nat2Z.inj_mod, Z2Nat.id by lia. f_equal. lia.
Qed.

Lemma set_bytes_len s : fdset_ok s -> zlen (FdSet_bytes s) = FDSET_SIZE.
Proof. intros Hs. unfold FdSet_bytes. rewrite zlen_words. unfold zlen. by rewrite Hs. Qed.

Lemma set_bytes_range s : Forall (fun b => 0 <= b < 256) (FdSet_bytes s).
Proof.
  unfold FdSet_bytes, words. induction s as [|v s IH]; [constructor|].
  rewrite bind_cons. apply Forall_app. split; [apply le_bytes_range|done].
Qed.

(** The kernel with other memory contents. *)
Definition k_set_pmem (m : pmem) (k : kern) : kern :=
  k_set_fsys (mkFsys (k_sys k) m (k_futexes k)) k.

Lemma k_set_pmem_mem m k : w_mem (k_world (k_set_pmem m k)) = m.
Proof. done. Qed.
Lemma k_set_pmem_same k : k_set_pmem (w_mem (k_world k)) k = k.
Proof. by destruct k as [? [] ? ? ? ? ? ? ? ? ? ? ?]. Qed.
Lemma k_set_pmem_twice m m' k : k_set_pmem m (k_set_pmem m' k) = k_set_pmem m k.
Proof. done. Qed.

Section sets.
Variables (w : world) (token lo hi : Z) (fr : Z -> Z).
Hypothesis Hpt : pt_wf w token.
Hypothesis Hur : user_range w token lo hi fr.

(** The set at [ptr], when there is one, holds the descriptors of [s], and no
    other byte of the range has changed. *)
Record stored (m : pmem) (ptr : Z) (s : FdSet) (m' : pmem) : Prop := {
  st_bits : ptr <> 0 -> forall j, 0 <= j < FD_SETSIZE ->
    Z.testbit (ubyte fr m' (ptr + j / 8)) (j mod 8) = is_set s j;
  st_rest : forall x, lo <= x < hi -> ptr = 0 \/ ~ ptr <= x < ptr + FDSET_SIZE ->
    ubyte fr m' x = ubyte fr m x;
  st_tables : same_tables w token m'
}.

Lemma put_set_spec ptr s k : same_tables w token (w_mem (k_world k)) -> fdset_ok s ->
  (ptr <> 0 -> lo <= ptr /\ ptr + FDSET_SIZE <= hi) ->
  exists m', put_set token ptr s k = Ret (Ok tt, k_set_pmem m' k) /\ stored (w_mem (k_world k)) ptr s m'.
Proof.
  intros Ht Hs Hr. unfold put_set. destruct (Z.eqb_spec ptr 0) as [->|Hp].
  { exists (w_mem (k_world k)). rewrite k_set_pmem_same. by split. }
  destruct (Hr Hp) as [Hlo Hhi]. rewrite <- (set_bytes_len s Hs) in Hhi.
  destruct (put_data_spec w token lo hi fr Hpt Hur (w_mem (k_world k)) ptr (FdSet_bytes s) Ht Hlo Hhi (set_bytes_range s))
    as (m' & Hm & W). exists m'. split.
  { unfold on_kf, on_fmem. st_unfold. cbn [f_mem]. by rewrite Hm. }
  pose proof (set_bytes_len s Hs) as Hl. unfold FDSET_SIZE, LONGS_FOR_FDS, FD_SETSIZE, BITS_PER_LONG in Hl.
  split; [intros _ j Hj|intros x Hx [?|Hn]; [done|]|by apply (wrote_tables w token lo hi fr _ _ _ _ Ht W)].
  - unfold FD_SETSIZE in Hj. rewrite (wr_bytes _ _ _ _ _ _ _ _ W) by (apply range_page; rewrite Hl in Hhi; lia).
    rewrite decide_True by (rewrite Hl; lia). replace (ptr + j / 8 - ptr) with (j / 8) by lia.
    by apply set_bytes_bit.
  - rewrite (wr_bytes _ _ _ _ _ _ _ _ W) by (by apply range_page).
    by rewrite decide_False by (by rewrite (set_bytes_len s Hs)).
Qed.

End sets.

(** Two sets that the user gave do not overlap. *)
Definition apart (p q : Z) : Prop := p = 0 \/ q = 0 \/ p + FDSET_SIZE <= q \/ q + FDSET_SIZE <= p.

(** The sets with the events they stand for. *)
Definition user_sets (f : PSelectFuture) : list (Z * Z) :=
  [(user_readfds f, POLLIN); (user_writefds f, POLLOUT); (user_exceptfds f, POLLPRI)].

(** C39: one poll of [pselect6] that finds ready descriptors: every file is
    polled once and in order, and the number of descriptors with an event of
    interest is returned.  The sets the user gave (null pointers are not) do
    not overlap and are in a range of user memory that is mapped writable.
    Afterwards bit [j mod 8] of byte [j / 8] of each set is 1 exactly when
    descriptor [j] was polled with an event of the set, or an error, and no
    other byte of the range and nothing else in the kernel has changed since
    the files were polled. *)
Theorem pselect_reports_events file_poll f now a w k evs k1 lo hi fr : fds_ok (fds_to_check f) ->
  polls file_poll w (fds_to_check f) k evs k1 -> 0 < zcount (fd_ready f) evs ->
  pt_wf (k_world k1) (ps_token f) -> user_range (k_world k1) (ps_token f) lo hi fr ->
  Forall (fun '(p, _) => p <> 0 -> lo <= p /\ p + FDSET_SIZE <= hi) (user_sets f) ->
  apart (user_readfds f) (user_writefds f) -> apart (user_readfds f) (user_exceptfds f) ->
  apart (user_writefds f) (user_exceptfds f) ->
  exists m2,
    pselect_poll file_poll f now a w k =
      Ret ((Ready (Ok (zcount (fd_ready f) evs)), f), k_set_pmem m2 k1) /\
    (forall p events, (p, events) ∈ user_sets f -> p <> 0 -> forall j, 0 <= j < FD_SETSIZE ->
       Z.testbit (ubyte fr m2 (p + j / 8)) (j mod 8) = set_at p events (fds_to_check f) evs j) /\
    (forall x, lo <= x < hi -> Forall (fun '(p, _) => p = 0 \/ ~ p <= x < p + FDSET_SIZE) (user_sets f) ->
       ubyte fr m2 x = ubyte fr (w_mem (k_world k1)) x).
Proof.
  intros Hf Hp Hn Hpt Hur Hin Hrw Hre Hwe.
  destruct (select_scan_spec file_poll f w _ Hf _ _ _ _ Hp found0_ok)
    as (b & Hb & Hr & Hw & He & Hc & [Ok1 Ok2 Ok3]).
  cbn [found0 res_read res_write res_except ready_count] in *.
  apply Forall_cons_1 in Hin as [Hi1 Hin]. apply Forall_cons_1 in Hin as [Hi2 Hin].
  apply Forall_cons_1 in Hin as [Hi3 _].
  destruct (put_set_spec (k_world k1) (ps_token f) lo hi fr Hpt Hur _ (res_read b) k1 ltac:(by split) Ok1 Hi1)
    as (ma & Ea & [A1 A2 A3]).
  destruct (put_set_spec (k_world k1) (ps_token f) lo hi fr Hpt Hur _ (res_write b) (k_set_pmem ma k1) A3 Ok2 Hi2)
    as (mb & Eb & [B1 B2 B3]).
  destruct (put_set_spec (k_world k1) (ps_token f) lo hi fr Hpt Hur _ (res_except b) (k_set_pmem mb k1) B3 Ok3 Hi3)
    as (mc & Ec & [C1 C2 C3]).
  rewrite k_set_pmem_mem in *. rewrite k_set_pmem_twice in *. exists mc. split; [|split].
  - unfold pselect_poll, mbind, ST_bind. rewrite Hb, Hc.
    destruct (Z.ltb_spec 0 (0 + zcount (fd_ready f) evs)); [|lia].
    unfold write_results_to_user, st_try, mbind, ST_bind. rewrite Ea, Eb, Ec. done.
  - assert (forall p j, lo <= p /\ p + FDSET_SIZE <= hi -> 0 <= j < FD_SETSIZE ->
      lo <= p + j / 8 < hi /\ p <= p + j / 8 < p + FDSET_SIZE) as Hpos
      by (intros p j; change FDSET_SIZE with 128; unfold FD_SETSIZE; lia).
    assert (forall p q x, apart p q -> q <> 0 -> q <= x < q + FDSET_SIZE -> p = 0 \/ ~ p <= x < p + FDSET_SIZE)
      as Hap by (unfold apart; intros; lia).
    assert (forall p q x, apart p q -> p <> 0 -> p <= x < p + FDSET_SIZE -> q = 0 \/ ~ q <= x < q + FDSET_SIZE)
      as Hap' by (unfold apart; intros; lia).
    intros p ev Hpe Hp0 j Hj. unfold user_sets in Hpe.
    apply elem_of_cons in Hpe as [[= -> ->]|[[= -> ->]|[= -> ->]%list_elem_of_singleton]%elem_of_cons].
    + destruct (Hpos _ j (Hi1 Hp0) Hj) as [H1 H2].
      rewrite C2, B2, A1, Hr, is_set_default, orb_false_r; eauto.
    + destruct (Hpos _ j (Hi2 Hp0) Hj) as [H1 H2].
      rewrite C2, B1, Hw, is_set_default, orb_false_r; eauto.
    + rewrite C1, He, is_set_default, orb_false_r; eauto.
  - intros x Hx Hno. apply Forall_cons_1 in Hno as [N1 Hno]. apply Forall_cons_1 in Hno as [N2 Hno].
    apply Forall_cons_1 in Hno as [N3 _]. by rewrite C2, B2, A2.
Qed.

(** A [pselect6] that waits reports a time-out at whatever wakes it up: once
    it has been pending, the next poll that finds no descriptor ready returns
    zero with empty sets, at any time, also before the deadline and when there
    is no deadline. *)
Theorem pselect_wake_is_timeout file_poll f now a w k f' k1 now2 a2 w2 k2 evs k3 :
  pselect_poll file_poll f now a w k = Ret ((Pending, f'), k1) ->
  fds_ok (fds_to_check f) ->
  polls file_poll w2 (fds_to_check f) k2 evs k3 -> zcount (fd_ready f) evs = 0 ->
  pselect_poll file_poll f' now2 a2 w2 k2 =
  match write_results_to_user f FdSet_default FdSet_default FdSet_default (drop_timer a k3) with
  | Ret (Ok _, k4) => Ret ((Ready (Ok 0), f), k4)
  | Ret (Err e, k4) => Ret ((Ready (Err e), f), k4)
  | Panic => Panic
  end.
Proof.
  intros H Hf Hp Hn.
  assert (f' = set_timeout (mkSF (sf_deadline (timeout_sleep f)) (task_id_at_creation (timeout_sleep f)) (Some a)) f
    /\ sf_node (timeout_sleep f) = None) as [-> Hnone].
  { unfold pselect_poll in H. apply st_bind_Ret in H as (s & k' & _ & H).
    destruct (0 <? _). { apply st_bind_Ret in H as (? & ? & _ & [= ?]). }
    apply st_bind_Ret in H as ([p sl] & k'' & (? & H1 & _)%on_ksys_Ret & H).
    destruct p; [by apply st_bind_Ret in H as (? & ? & _ & [= ?])|].
    injection H as <- _. apply sleep_poll_pending in H1 as [-> ?]. done. }
  set (g := set_timeout _ f).
  destruct (select_scan_spec file_poll g w2 _ Hf _ _ _ _ Hp found0_ok) as (b & Hb & _ & _ & _ & Hc & _).
  unfold pselect_poll, mbind, ST_bind. change (fds_to_check g) with (fds_to_check f). rewrite Hb, Hc.
  change (fd_ready g) with (fd_ready f). rewrite Hn. change (0 <? ready_count found0 + 0) with false. cbv beta iota.
  rewrite (on_ksys_registered _ _ _ a) by done.
  change (write_results_to_user g) with (write_results_to_user f).
  assert (set_timeout (mkSF (sf_deadline (timeout_sleep g)) (task_id_at_creation (timeout_sleep g)) None) g = f) as ->.
  { subst g. destruct f as [? ? ? ? [? ? ?] ?]. cbn in *. by rewrite Hnone. }
  by destruct (write_results_to_user f _ _ _ _) as [[[?|?] ?]|].
Qed.

Lemma remove_sleeper_gone l a : NoDup (sleep_addr <$> l) ->
  a ∉ sleep_addr <$> snd (remove_sleeper l a).
Proof.
  intros Hl Hin. unfold remove_sleeper in Hin. destruct (find_sleeper l a 0) as [j|] eqn:E.
  - apply find_sleeper_spec in E as (k & n & -> & Hk & Ha). cbn [Nat.add snd] in Hin.
    rewrite (drop_S l n k Hk) in Hin. cbn [List.tl] in Hin. rewrite fmap_app in Hin.
    rewrite <- (take_drop_middle l k n Hk), fmap_app, fmap_cons in Hl.
    apply list.NoDup_app in Hl as (_ & Hd & Hl). apply list.NoDup_cons in Hl as [Hn _].
    apply elem_of_app in Hin as [Hin|Hin]; [|by rewrite <- Ha in Hin].
    apply (Hd a Hin). rewrite Ha. left.
  - cbn [snd] in Hin. clear Hl. revert E Hin. generalize 0%nat.
    induction l as [|n l IH]; intros i; cbn; [set_solver|].
    destruct (Z.eqb_spec (sleep_addr n) a); [done|]. set_solver.
Qed.

(** A [poll] with a time-out that is woken up before its deadline while no
    descriptor is ready stays pending, but without a timer: its node has left
    the queue of sleepers and no other is added, so that the deadline does not
    wake it up. *)
Theorem poll_wake_loses_timer file_poll f now now' a w k results k1 n :
  sf_node (poll_sleep_instance f) = Some n ->
  poll_scan file_poll w (requests f) k = Ret ((results, 0), k1) ->
  deadline_reached (sf_deadline (poll_sleep_instance f)) now' = false ->
  NoDup (sleep_addr <$> sleepers (k_sys k1)) ->
  exists f', poll_poll file_poll f now now' a w k = Ret ((Pending, f'), drop_timer n k1) /\
    sf_node (poll_sleep_instance f') = None /\
    n ∉ sleep_addr <$> sleepers (k_sys (drop_timer n k1)) /\
    (forall x, x ∈ sleepers (k_sys (drop_timer n k1)) -> x ∈ sleepers (k_sys k1)).
Proof.
  intros Hn Hs Hd Hnd. unfold poll_poll, mbind, ST_bind. rewrite Hs.
  change (0 <? 0) with false. cbv beta iota. rewrite (on_ksys_registered _ _ _ n) by done.
  cbn [sf_deadline]. rewrite Hd.
  change (sleepers (k_sys (drop_timer n k1))) with (snd (remove_sleeper (sleepers (k_sys k1)) n)).
  eexists. split; [reflexivity|]. split; [done|]. split; [by apply remove_sleeper_gone|].
  intros x. destruct (remove_sleeper_spec (sleepers (k_sys k1)) n) as [->|(l1 & m & l2 & -> & _ & ->)]; [done|].
  cbn [snd]. set_solver.
Qed.

(** ** Witnesses *)

(** Descriptor 3 is readable and writable. *)
Definition poll_rw (f : FileDescriptor) (events w : Z) : ST kern Z := mret (Z.lor POLLIN POLLOUT).
Definition poll_none (f : FileDescriptor) (events w : Z) : ST kern Z := mret 0.
Definition file9 : FileDescriptor := mkFD 0 (ClassFile 9).

(** The kernel with other memory. *)
Definition k_set_world (w : world) (k : kern) : kern :=
  k_set_mem w (k_inodes k) (k_shm k) (k_mms k) k.

(** The read set lies across two pages, the write set is in the second. *)
Lemma pselect_reports_events_witness : exists w root fr m2,
  user_range w root 0x5000 0x7000 fr /\
  let g := mkPSF [(3, file9)] 0x5fff 0x6100 0 (mkSF None 1 None) root in
  pselect_poll poll_rw g (mkTV 0 0) 7 1 (k_set_world w kboot) =
    Ret ((Ready (Ok 1), g), k_set_pmem m2 (k_set_world w kboot)) /\
  Z.testbit (ubyte fr m2 0x5fff) 3 = true /\ Z.testbit (ubyte fr m2 0x5fff) 4 = false /\
  Z.testbit (ubyte fr m2 0x6100) 3 = true /\ ubyte fr m2 0x5ffe = ubyte fr (w_mem w) 0x5ffe.
Proof.
  destruct two_pages as (w & root & fr & Hpt & Hur).
  set (g := mkPSF [(3, file9)] 0x5fff 0x6100 0 (mkSF None 1 None) root).
  destruct (pselect_reports_events poll_rw g (mkTV 0 0) 7 1 (k_set_world w kboot) [5] (k_set_world w kboot)
    0x5000 0x7000 fr) as (m2 & E & Hb & Hr).
  - repeat constructor; cbn; lia.
  - eexists. split; reflexivity.
  - reflexivity.
  - exact Hpt.
  - exact Hur.
  - repeat constructor; vm_compute; done.
  - right; right; left; vm_compute; done.
  - right; left; reflexivity.
  - right; left; reflexivity.
  - exists w, root, fr, m2. split; [exact Hur|]. split; [exact E|].
    split; [apply (Hb 0x5fff POLLIN ltac:(by left) ltac:(done) 3); done|].
    split; [apply (Hb 0x5fff POLLIN ltac:(by left) ltac:(done) 4); done|].
    split; [apply (Hb 0x6100 POLLOUT ltac:(by right; left) ltac:(done) 3); done|].
    apply Hr; [done|]. change FDSET_SIZE with 128. unfold user_sets. cbn [user_readfds user_writefds user_exceptfds g].
    apply Forall_cons_2; [lia|]. apply Forall_cons_2; [lia|]. apply Forall_singleton. lia.
Defined.

Definition psel0 : PSelectFuture := mkPSF [(3, file9)] 0 0 0 (mkSF None 1 None) 0.
Definition psel1 : PSelectFuture := mkPSF [(3, file9)] 0 0 0 (mkSF None 1 (Some 7)) 0.
Definition kpsel : kern := kafter (pselect_poll poll_none psel0 (mkTV 0 0) 7 1) kboot.

(** No time-out was asked for, and the call returns as if one had expired. *)
Lemma pselect_wake_is_timeout_witness :
  pselect_poll poll_none psel0 (mkTV 0 0) 7 1 kboot = Ret ((Pending, psel1), kpsel) /\
  pselect_poll poll_none psel1 (mkTV 0 1) 8 1 kpsel = Ret ((Ready (Ok 0), psel0), drop_timer 7 kpsel).
Proof.
  assert (pselect_poll poll_none psel0 (mkTV 0 0) 7 1 kboot = Ret ((Pending, psel1), kpsel)) as H by run_k.
  split; [exact H|].
  refine (pselect_wake_is_timeout poll_none psel0 (mkTV 0 0) 7 1 kboot psel1 kpsel (mkTV 0 1) 8 1 kpsel
    [0] kpsel H _ _ _).
  - repeat constructor; cbn; lia.
  - exists kpsel. split; reflexivity.
  - reflexivity.
Defined.

Definition pollf : PollFuture := mkPF 0 [mkPR 0 3 (Some file9) POLLIN] 0x1000 1 (mkSF (Some (mkTV 5 0)) 1 (Some 7)).

Lemma poll_wake_loses_timer_witness :
  exists f', poll_poll poll_none pollf (mkTV 1 0) (mkTV 1 0) 8 1 kpsel = Ret ((Pending, f'), drop_timer 7 kpsel) /\
    7 ∉ sleep_addr <$> sleepers (k_sys (drop_timer 7 kpsel)).
Proof.
  destruct (poll_wake_loses_timer poll_none pollf (mkTV 1 0) (mkTV 1 0) 8 1 kpsel [(0, 0)] kpsel 7)
    as (f' & H & _ & Hn & _).
  - reflexivity.
  - reflexivity.
  - reflexivity.
  - assert (sleep_addr <$> sleepers (k_sys kpsel) = [7]) as -> by (vm_compute; reflexivity).
    apply NoDup_singleton.
  - exists f'. split; [exact H|exact Hn].
Defined.

(** A descriptor that was asked for in the read set only is also reported in the
    write set. *)
Example select_reports_unrequested f fd ev : 0 <= fd < FD_SETSIZE -> user_writefds f <> 0 ->
  fl_intersects ev POLLOUT = true ->
  set_at (user_writefds f) POLLOUT [(fd, file9)] [ev] fd = true.
Proof.
  intros Hf Hw He. unfold set_at, reported. cbn [zip zip_with existsb].
  rewrite intersects_lor, He, Z.eqb_refl. by destruct (Z.eqb_spec (user_writefds f) 0).
Qed.

(** A thread that blocks SIGINT, with the set of descriptor 0 at 0x10000 and an
    empty signal set at 0x10008. *)
Definition kmasked : kern :=
  kafter (on_kf (on_fmem (put_data (ms_token mapped_ms) 0x10000 [1])))
    (kafter (k_set_tsig 1 (TaskSignalState_init 2)) kmapped).

(** When a descriptor is not open, [pselect6] ends with the mask it was given,
    not with the one of the thread. *)
Example pselect_error_keeps_mask :
  let run := pselect_start no_read 1 0x10000 0 0 0 0x10008 (mkTS 0 0) kmasked in
  (sigmask <$> k_tsig kmasked !! 1) = Some 2 /\
  ((fun x => sigmask <$> k_tsig (snd x) !! 1) <$> run) = Ret (Some 0) /\
  (fst <$> run) = Ret (Err EBADF).
Proof. vm_compute. split_and!; reflexivity. Qed.
