(* ===== verification/Ppoll.v ===== *)
(** * ppoll ([sys_ppoll], [set_temp_sigmask_from_user] and
      [restore_sigmask_internal] of os/src/syscall/fs.rs)

    [ppoll] replaces the signal mask of the calling thread while it waits.
    The model runs the call up to the future it waits for ([ppoll_start]), and
    what it does with the result of that future ([ppoll_finish]).  [init] is the
    uninitialised memory the values of the user are copied to. *)

From S2P Require Import Prelude Config Memory FrameAlloc Errno UserMem.
From S2P Require Import MemorySet Timer Sched Exec Sleep FdTable.
From S2P Require Import UserBuf Area Futex Signals Process Clone.
From S2P Require Import ProcTree ProcWait Select.

(** ** Definitions *)

(** The signal state of the current task, and a new mask for it. *)
Definition current_signal_state : ST kern (Z * TaskSignalState) :=
  cur ← on_kx current_get;
  ts ← st_gets (fun k => k_tsig k !! cur);
  ts ← st_lift (unwrap ts);
  mret (cur, ts).

Definition set_temp_sigmask_from_user (init : Z -> list Z) (token ptr : Z)
    : ST kern (result (option Z) SysErrNo) :=
  if ptr =? 0 then mret (Ok None)
  else
    m ← st_gets (fun k => w_mem (k_world k));
    r ← st_lift (copy_from_user_exact token m (init 8) ptr);
    match r with
    | Err _ => mret (Err EFAULT)
    | Ok bs =>
        '(cur, ts) ← current_signal_state;
        m1 ← st_lift (sigset_remove (le_value bs) SIGKILL);
        m2 ← st_lift (sigset_remove m1 SIGSTOP);
        _ ← k_set_tsig cur (set_sigmask m2 ts);
        mret (Ok (Some (sigmask ts)))
    end.

Definition restore_sigmask_internal (old_mask : Z) : ST kern unit :=
  '(cur, ts) ← current_signal_state;
  k_set_tsig cur (set_sigmask old_mask ts).

(** [if let Some(old_mask) = old_sigmask_to_restore] *)
Definition restore_opt (saved : option Z) : ST kern unit :=
  match saved with Some old => restore_sigmask_internal old | None => mret tt end.

(** An early end: the mask is restored before the return. *)
Definition ppoll_leave (saved : option Z) (r : result Z SysErrNo) : ST kern (poll_step * option Z) :=
  _ ← restore_opt saved;
  mret (PollDone r, None).

(** The time-out at [tptr] in the address space [token]. *)
Definition ppoll_timeout (init : Z -> list Z) (token tptr : Z) : ST kern (result UserTimeSpec SysErrNo) :=
  m ← st_gets (fun k => w_mem (k_world k));
  r ← st_lift (copy_from_user_exact token m (init 16) tptr);
  mret (match r with
        | Err _ => Err EFAULT
        | Ok bs =>
            let ts := mkTS (word_at bs 0) (word_at bs 8) in
            if NANO_PER_SEC <=? tv_nsec ts then Err EINVAL else Ok ts
        end).

Definition ts_is_zero (ts : UserTimeSpec) : bool := (tv_sec ts =? 0) && (tv_nsec ts =? 0).

(** [nfds == 0]: a sleep. *)
Definition ppoll_sleep (init : Z -> list Z) (tptr mptr : Z) (now : TimeVal)
    : ST kern (result (poll_step * option Z) SysErrNo) :=
  saved <-? (if mptr =? 0 then mret (Ok None)
             else
               p ← current_process;
               pcb ← proc_at p;
               token ← mm_token (p_memory_set pcb);
               set_temp_sigmask_from_user init token mptr);
  if tptr =? 0 then
    s ← on_ksys (sleep_until None);
    mret (Ok (PollSleep s (Err ERESTART), saved))
  else
    p ← current_process;
    pcb ← proc_at p;
    token ← mm_token (p_memory_set pcb);
    r ← ppoll_timeout init token tptr;
    match r with
    | Err e => x ← ppoll_leave saved (Err e); mret (Ok x)
    | Ok ts =>
        if ts_is_zero ts then x ← ppoll_leave saved (Ok 0); mret (Ok x)
        else
          d ← st_lift (add_timespec now ts);
          s ← on_ksys (sleep_until (Some d));
          mret (Ok (PollSleep s (Ok 0), saved))
    end.

(** The deadline of a [ppoll] on descriptors. *)
Definition ppoll_deadline (init : Z -> list Z) (token tptr : Z) (now : TimeVal)
    : ST kern (result (option TimeVal) SysErrNo) :=
  if tptr =? 0 then mret (Ok None)
  else
    ts <-? ppoll_timeout init token tptr;
    if ts_is_zero ts then mret (Ok (Some now))
    else
      d ← st_lift (add_timespec now ts);
      mret (Ok (Some d)).

Definition ppoll_fds (init : Z -> list Z) (ptr nfds tptr mptr : Z) (now : TimeVal)
    : ST kern (result (poll_step * option Z) SysErrNo) :=
  p ← current_process;
  pcb ← proc_at p;
  token ← mm_token (p_memory_set pcb);
  saved <-? set_temp_sigmask_from_user init token mptr;
  if ptr =? 0 then x ← ppoll_leave saved (Err EFAULT); mret (Ok x)
  else
    m ← st_gets (fun k => w_mem (k_world k));
    r ← st_lift (copy_from_user_array token m init ptr nfds 8);
    match r with
    | Err _ => x ← ppoll_leave saved (Err EFAULT); mret (Ok x)
    | Ok bs =>
        r ← ppoll_deadline init token tptr now;
        match r with
        | Err e => x ← ppoll_leave saved (Err e); mret (Ok x)
        | Ok d =>
            s ← on_ksys (sleep_until d);
            mret (Ok (PollWait (mkPF token (parse_requests (p_fd_table pcb) (PollFds_of_bytes nfds bs))
              ptr nfds s), saved))
        end
    end.

(** [sys_ppoll] up to the future it waits for, with the mask to restore. *)
Definition ppoll_start (init : Z -> list Z) (ptr nfds tptr mptr : Z) (now : TimeVal)
    : ST kern (poll_step * option Z) :=
  r ← (if nfds =? 0 then ppoll_sleep init tptr mptr now
       else if FD_SETSIZE <? nfds then mret (Err EINVAL)
       else ppoll_fds init ptr nfds tptr mptr now);
  mret (match r with Ok x => x | Err e => (PollDone (Err e), None) end).

(** What follows the wait: [r] is the result of the call. *)
Definition ppoll_finish (saved : option Z) (r : result Z SysErrNo) : ST kern (result Z SysErrNo) :=
  _ ← restore_opt saved;
  mret r.

(** ** The signal mask *)

(** What the mask depends on: the signal states and the current task. *)
Definition masks (k : kern) : gmap Z TaskSignalState * Z := (k_tsig k, current (ex (k_sys k))).

(** [k'] has the masks of [k] but for the current task, whose mask [saved] is. *)
Definition masked (saved : option Z) (k k' : kern) : Prop :=
  current (ex (k_sys k')) = current (ex (k_sys k)) /\
  match saved with
  | None => k_tsig k' = k_tsig k
  | Some old => exists ts new, k_tsig k !! current (ex (k_sys k)) = Some ts /\ sigmask ts = old /\
      k_tsig k' = <[current (ex (k_sys k)) := set_sigmask new ts]> (k_tsig k) /\
      Z.testbit new (SIGKILL - 1) = false /\ Z.testbit new (SIGSTOP - 1) = false
  end.

Lemma masks_read {A} (m : ST sys A) : (forall s a s', m s = Ret (a, s') -> s' = s) -> keeps_of masks (on_ksys m).
Proof.
  intros Hm k a k'. unfold on_ksys. destruct (m (k_sys k)) as [[b s]|] eqn:E; [|done].
  apply Hm in E as ->. by intros [= <- <-].
Qed.

Lemma masks_current : keeps_of masks (on_kx current_get).
Proof.
  apply masks_read. intros s a s'. unfold on_ex, current_get, try_get. st_unfold. destruct (_ =? _); [done|].
  intros [= <- <-]. by destruct s.
Qed.
Lemma masks_task r : keeps_of masks (on_kx (exec_task r)).
Proof.
  apply masks_read. intros s a s'. unfold on_ex, exec_task, on_rq. st_unfold.
  destruct (task_at r _) as [[t q]|] eqn:E; [|done]. unfold task_at in E.
  destruct (heap _ !! r); [|done]. injection E as <- <-. intros [= <- <-]. by destruct s as [[]].
Qed.
Lemma masks_sleep d : keeps_of masks (on_ksys (sleep_until d)).
Proof.
  apply masks_read. intros s a s' (tid & s1 & H & [= <- <-])%st_bind_Ret. revert H.
  unfold on_ex, current_task_id, current_get, try_get. st_unfold. destruct (_ =? _); [done|].
  unfold exec_task, on_rq, task_at. st_unfold. destruct (heap _ !! _); [|done].
  intros [= <- <-]. by destruct s as [[]].
Qed.
Lemma masks_mm {A} r (m : inodes -> MemorySet -> ST world (A * MemorySet * inodes)) :
  keeps_of masks (on_mm r m).
Proof.
  intros k a k'. unfold on_mm. destruct (k_mms k !! r) as [ms|]; [|done].
  destruct (m _ _ _) as [[[[b ms'] fs'] w']|]; [|done]. by intros [= <- <-].
Qed.
#[export] Hint Resolve masks_current masks_task masks_sleep masks_mm : keeps.

Lemma masks_process : keeps_of masks current_process.
Proof. unfold current_process, get_process, task_of. keep. Qed.
Lemma masks_token r : keeps_of masks (mm_token r).
Proof. unfold mm_token. keep. Qed.
Lemma masks_timeout init token tptr : keeps_of masks (ppoll_timeout init token tptr).
Proof. unfold ppoll_timeout. keep. Qed.
#[export] Hint Resolve masks_process masks_token masks_timeout : keeps.
Lemma masks_deadline init token tptr now : keeps_of masks (ppoll_deadline init token tptr now).
Proof. unfold ppoll_deadline. keep. Qed.
#[export] Hint Resolve masks_deadline : keeps.

Lemma masked_after saved k k1 k2 : masked saved k k1 -> masks k2 = masks k1 -> masked saved k k2.
Proof. unfold masks. intros [Hc Hs] [= E1 E2]. split; [by rewrite E2|]. by rewrite E1. Qed.

Lemma masked_before saved k k1 k2 : masks k1 = masks k -> masked saved k1 k2 -> masked saved k k2.
Proof. unfold masks, masked. intros [= -> ->]. done. Qed.

Lemma masked_None k k' : masks k' = masks k -> masked None k k'.
Proof. by intros [= E1 E2]. Qed.

Lemma current_state_Ret k cur ts k' : current_signal_state k = Ret ((cur, ts), k') ->
  cur = current (ex (k_sys k)) /\ k_tsig k !! cur = Some ts /\ masks k' = masks k.
Proof.
  unfold current_signal_state. intros H.
  apply (keeps_step masks) in H as (c & k1 & E1 & H1 & H); [|keep].
  assert (c = current (ex (k_sys k))) as ->.
  { apply on_ksys_Ret in H1 as (s & H1 & _). revert H1. unfold on_ex, current_get, try_get. st_unfold.
    destruct (_ =? _); [done|]. by intros [= <- _]. }
  unfold masks in E1. injection E1 as E1 E2. revert H. st_unfold. rewrite E1.
  destruct (k_tsig k !! _) as [t|] eqn:Et; [|done]. intros [= <- <- <-]. unfold masks. by rewrite E1, E2.
Qed.

Lemma remove_clears s sig r : 1 <= sig -> sigset_remove s sig = Ret r -> Z.testbit r (sig - 1) = false /\
  (forall i, Z.testbit s i = false -> Z.testbit r i = false).
Proof.
  intros Hs. unfold sigset_remove. rewrite usub_Ret by lia. intros [= <-]. split.
  - rewrite Z.land_spec, testbit_not64, Z.shiftl_1_l, testbit_pow2, Z.eqb_refl by lia.
    by rewrite !andb_false_r.
  - intros i Hi. by rewrite Z.land_spec, Hi.
Qed.

Lemma set_temp_spec init token ptr k r k' : set_temp_sigmask_from_user init token ptr k = Ret (r, k') ->
  match r with
  | Ok saved => masked saved k k'
  | Err _ => masks k' = masks k
  end.
Proof.
  unfold set_temp_sigmask_from_user. destruct (ptr =? 0); [by intros [= <- <-]|].
  intros H. apply (keeps_step masks) in H as (m & k1 & E1 & _ & H); [|keep].
  apply (keeps_step masks) in H as (c & k2 & E2 & _ & H); [|keep]. rewrite E1 in E2. clear E1.
  destruct c as [bs|e]; [|by injection H as <- <-].
  apply st_bind_Ret in H as ([cur ts] & k3 & H3 & H). apply current_state_Ret in H3 as (-> & Hts & E3).
  rewrite E2 in E3. clear k1. unfold masks in E2, E3. injection E2 as E2 E2'. injection E3 as E3 E3'.
  revert H. unfold st_lift. st_unfold.
  destruct (sigset_remove (le_value bs) SIGKILL) as [m1|] eqn:R1; [|done].
  destruct (sigset_remove m1 SIGSTOP) as [m2|] eqn:R2; [|done].
  apply remove_clears in R1 as [R1 _]; [|done]. apply remove_clears in R2 as [R2 R3]; [|done].
  intros [= <- <-]. unfold masked. cbn [k_sys k_tsig]. split; [done|].
  exists ts, m2. rewrite E2, E2', E3 in *. split_and!; try done. by apply R3.
Qed.

Lemma restore_spec k saved k1 u k2 : masked saved k k1 -> restore_opt saved k1 = Ret (u, k2) -> masks k2 = masks k.
Proof.
  intros [Hc Hs] H. destruct saved as [old|]; cbn [restore_opt] in H.
  - destruct Hs as (ts & new & Hts & Hold & Hk1 & _).
    unfold restore_sigmask_internal in H. apply st_bind_Ret in H as ([cur t] & k3 & H3 & H).
    apply current_state_Ret in H3 as (-> & Ht & E3). injection E3 as E3 E3'.
    rewrite Hk1, Hc, lookup_insert_eq in Ht. injection Ht as <-.
    revert H. unfold k_set_tsig, st_modify. intros [= <- <-]. unfold masks. cbn [k_tsig k_sys].
    rewrite E3, E3', Hk1, Hc, insert_insert_eq. f_equal. apply insert_id. rewrite Hts. subst old.
    by destruct ts.
  - injection H as _ <-. unfold masks. by rewrite Hc, Hs.
Qed.

(** ** The ends of the call *)

Definition good (k : kern) (x : poll_step * option Z) (k' : kern) : Prop :=
  masked (snd x) k k' /\ (forall r, fst x = PollDone r -> snd x = None).

(** [m] runs with the mask replaced, and ends with it restored or to be restored. *)
Definition tail (saved : option Z) (m : ST kern (result (poll_step * option Z) SysErrNo)) : Prop :=
  forall k k1 x k', masked saved k k1 -> m k1 = Ret (x, k') -> exists y, x = Ok y /\ good k y k'.

Lemma tail_bind {A} saved (m : ST kern A) f :
  keeps_of masks m -> (forall a, tail saved (f a)) -> tail saved (m ≫= f).
Proof.
  intros Hm Hf k k1 x k' Hk H. apply (keeps_step masks) in H as (a & k2 & E & _ & H); [|done].
  apply (Hf a k k2); [|done]. by apply (masked_after _ _ k1).
Qed.

Lemma tail_leave saved r : tail saved (x ← ppoll_leave saved r; mret (Ok x)).
Proof.
  intros k k1 x k' Hk H. apply st_bind_Ret in H as (y & k2 & H1 & [= <- <-]).
  apply st_bind_Ret in H1 as (u & k3 & H1 & [= <- <-]). eexists. split; [done|]. split; [|done].
  apply masked_None. by apply (restore_spec _ saved k1 u).
Qed.

Lemma tail_wait saved step : (forall r, step <> PollDone r) -> tail saved (mret (Ok (step, saved))).
Proof. intros Hs k k1 x k' Hk [= <- <-]. eexists. split; [done|]. split; [done|]. by intros r ?%Hs. Qed.

Ltac tails :=
  repeat (intros; first
    [ apply tail_leave | apply tail_wait; done
    | apply tail_bind; [keep|]
    | match goal with
      | |- tail _ (if ?b then _ else _) => destruct b
      | |- tail _ (match ?x with _ => _ end) => destruct x
      end ]).

(** The mask is replaced, then a tail runs. *)
Lemma try_tail (m : ST kern (result (option Z) SysErrNo)) f k r k' :
  (forall k r k', m k = Ret (r, k') ->
     match r with Ok saved => masked saved k k' | Err _ => masks k' = masks k end) ->
  (forall saved, tail saved (f saved)) ->
  st_try f m k = Ret (r, k') ->
  match r with Ok y => good k y k' | Err _ => masks k' = masks k end.
Proof.
  intros Hm Hf. unfold st_try. destruct (m k) as [[[saved|e] k1]|] eqn:E; [|intros [= <- <-]|done].
  - intros H. by destruct (Hf saved k k1 r k' (Hm _ _ _ E) H) as (y & -> & Hy).
  - exact (Hm _ _ _ E).
Qed.

Lemma ppoll_sleep_good init tptr mptr now k r k' : ppoll_sleep init tptr mptr now k = Ret (r, k') ->
  match r with Ok y => good k y k' | Err _ => masks k' = masks k end.
Proof.
  unfold ppoll_sleep. apply try_tail; [|by tails].
  clear. intros k r k'. destruct (mptr =? 0); [by intros [= <- <-]|]. intros H.
  do 3 (apply (keeps_step masks) in H as (? & ? & ? & _ & H); [|keep]).
  apply set_temp_spec in H. destruct r; [|congruence].
  eapply masked_before; [|exact H]. congruence.
Qed.

Lemma ppoll_fds_good init ptr nfds tptr mptr now k r k' : ppoll_fds init ptr nfds tptr mptr now k = Ret (r, k') ->
  match r with Ok y => good k y k' | Err _ => masks k' = masks k end.
Proof.
  unfold ppoll_fds. intros H.
  do 3 (apply (keeps_step masks) in H as (? & ? & ? & _ & H); [|keep]).
  apply try_tail in H; [|apply set_temp_spec|by tails].
  destruct r as [y|]; [|congruence]. destruct H as [H ?]. split; [|done].
  eapply masked_before; [|exact H]. congruence.
Qed.

(** ** Theorems *)

Definition mask_of (k : kern) : option Z := sigmask <$> k_tsig k !! current (ex (k_sys k)).

Lemma restore_runs saved k ts : current (ex (k_sys k)) <> 0 -> k_tsig k !! current (ex (k_sys k)) = Some ts ->
  exists k', restore_opt saved k = Ret (tt, k') /\
    mask_of k' = Some (match saved with Some old => old | None => sigmask ts end).
Proof.
  intros Hc Ht. destruct saved as [old|]; cbn [restore_opt].
  - unfold restore_sigmask_internal, current_signal_state, on_kx, on_ksys, on_ex, current_get, try_get, k_set_tsig.
    st_unfold. destruct (Z.eqb_spec (current (ex (k_sys k))) 0); [done|].
    cbn [k_set_sys k_sys k_tsig]. rewrite Ht. cbn [unwrap].
    eexists. split; [reflexivity|]. unfold mask_of. cbn [k_tsig k_sys k_set_sys ex current].
    by rewrite lookup_insert_eq.
  - exists k. split; [done|]. unfold mask_of. by rewrite Ht.
Qed.

(** [ppoll] gives the thread its signal mask back on every path.  A call that
    ends without waiting leaves all signal states as they were.  A call that
    waits does so with a mask that blocks neither SIGKILL nor SIGSTOP, and when
    it resumes, in any later state in which the mask of the thread is still
    that one, the mask is the one from before the call and the result is the
    one of the wait. *)
Theorem ppoll_mask_restored init ptr nfds tptr mptr now k step saved k' :
  ppoll_start init ptr nfds tptr mptr now k = Ret ((step, saved), k') ->
  masked saved k k' /\
  (forall r, step = PollDone r -> k_tsig k' = k_tsig k) /\
  (forall k2 r, current (ex (k_sys k2)) <> 0 -> mask_of k2 = mask_of k' -> is_Some (mask_of k) ->
     exists k3, ppoll_finish saved r k2 = Ret (r, k3) /\ mask_of k3 = mask_of k).
Proof.
  intros H. apply st_bind_Ret in H as (x & k1 & H & [= Hx <-]).
  assert (good k (step, saved) k1) as [Hm Hd].
  { destruct (nfds =? 0); [apply ppoll_sleep_good in H|destruct (FD_SETSIZE <? nfds);
      [injection H as Hx' <-|apply ppoll_fds_good in H]]; destruct x as [y|e]; subst; try done.
    all: injection Hx as <- <-; split; [by apply masked_None|done]. }
  cbn [fst snd] in *. split; [done|]. destruct Hm as [Hc Hs]. split.
  - intros r ->. by rewrite (Hd r) in Hs.
  - intros k2 r H2 E2 Hk. unfold ppoll_finish, mbind, ST_bind.
    assert (exists ts2, k_tsig k2 !! current (ex (k_sys k2)) = Some ts2) as [ts2 Hts2].
    { apply fmap_is_Some with (f := sigmask). fold (mask_of k2). rewrite E2. unfold mask_of. rewrite Hc.
      destruct saved as [old|]; [|by rewrite Hs].
      destruct Hs as (ts & new & _ & _ & -> & _). rewrite lookup_insert_eq. by eexists. }
    destruct (restore_runs saved k2 ts2 H2 Hts2) as (k3 & -> & E3). exists k3. split; [done|]. rewrite E3.
    destruct saved as [old|].
    + destruct Hs as (ts & new & Hts & Hold & _). unfold mask_of. by rewrite Hts, <- Hold.
    + unfold mask_of in E2 |- *. rewrite Hts2, Hc, Hs in E2. done.
Qed.

Definition ppoll_init (n : Z) : list Z := replicate (Z.to_nat n) 0.
Definition kppoll : kern := kafter (ppoll_start ppoll_init 0 0 0 0x10008 (mkTV 0 0)) kmasked.
Definition sleep1 : SleepFuture := mkSF None 1 None.

(** A call without descriptors and time-out, with an empty mask, by a thread
    that blocks SIGINT. *)
Lemma ppoll_mask_restored_witness :
  mask_of kmasked = Some 2 /\
  ppoll_start ppoll_init 0 0 0 0x10008 (mkTV 0 0) kmasked = Ret ((PollSleep sleep1 (Err ERESTART), Some 2), kppoll) /\
  mask_of kppoll = Some 0 /\
  exists k3, ppoll_finish (Some 2) (Err ERESTART) kppoll = Ret (Err ERESTART, k3) /\ mask_of k3 = Some 2.
Proof.
  assert (ppoll_start ppoll_init 0 0 0 0x10008 (mkTV 0 0) kmasked =
    Ret ((PollSleep sleep1 (Err ERESTART), Some 2), kppoll)) as H by run_k.
  assert (mask_of kmasked = Some 2) as Hk by (vm_compute; reflexivity).
  assert (mask_of kppoll = Some 0) as Hp by (vm_compute; reflexivity).
  assert (current (ex (k_sys kppoll)) <> 0) as Hc by (vm_compute; discriminate).
  destruct (ppoll_mask_restored ppoll_init 0 0 0 0x10008 (mkTV 0 0) kmasked _ _ kppoll H) as (_ & _ & Hf).
  destruct (Hf kppoll (Err ERESTART) Hc eq_refl) as (k3 & H3 & E3); [rewrite Hk; eexists; reflexivity|].
  split; [exact Hk|]. split; [exact H|]. split; [exact Hp|]. exists k3. split; [exact H3|].
  rewrite E3. exact Hk.
Defined.
