(* ===== verification/FileIO.v ===== *)
(** * Reading and writing files (os/src/fs/inode.rs, os/src/syscall/fs.rs)

    An [OsInode] is a cursor over a node of a file system.  The node is an
    object behind [VfsNodeOps]; its [read_at], [write_at] and [size] are the
    class of that name.  The system calls [read], [write], [lseek], [pread64],
    [pwrite64], [readv], [writev] and [sendfile] work on a descriptor, an
    [OsInode] or another object that implements [File] ([AbsFileOps]).

    A buffer is a list of slices of user memory or of a vector in the kernel;
    the state has one such vector.  What the calls do before they have their
    descriptor (the lookup of the process, its locks and its token) is outside:
    the table of descriptors and the token are arguments. *)

From S2P Require Import Prelude Config Memory Errno PageTable UserMem.
From S2P Require Import Area FdTable FdSys Futex Signals.

(** ** State and interfaces *)

Definition MAX_KERNEL_RW_BUFFER_SIZE : Z := 4096 * 4.
Definition SENDFILE_KERNEL_BUFFER_SIZE : Z := 4 * PAGE_SIZE.
Definition UIO_MAXIOV : Z := 1024.

(** [VfsNodeOps]: nodes by number.  [vfs_read_at i off len] gives the bytes it
    puts at the start of a buffer of [len] bytes; errors of [write_at] are
    numbers. *)
Class VfsNodeOps (F : Type) : Type := {
  vfs_read_at : Z -> Z -> Z -> F -> result (list Z) SysErrNo * F;
  vfs_write_at : Z -> Z -> list Z -> F -> result Z Z * F;
  vfs_size : Z -> F -> Z
}.

Record OsInode : Type := mkOs { os_readable : bool; os_writable : bool; os_offset : Z; os_node : Z }.

Definition set_offset (o : Z) (f : OsInode) : OsInode := mkOs (os_readable f) (os_writable f) o (os_node f).

Inductive slice_ref : Type :=
| USlice (s : uslice)
| KSlice (off len : Z).

Definition slice_len (s : slice_ref) : Z :=
  match s with USlice s => us_len s | KSlice _ n => n end.

(** User memory, the vector of the kernel, the open [OsInode]s by address, the
    file systems and the other files. *)
Record io {F A : Type} : Type := mkIO {
  io_mem : pmem;
  io_kbuf : list Z;
  io_files : gmap Z OsInode;
  io_fs : F;
  io_abs : A
}.
Arguments io : clear implicits.
Arguments mkIO {F A}.

(** The methods of a [File] that is not an [OsInode]. *)
Class AbsFileOps (F A : Type) : Type := {
  abs_read : Z -> list slice_ref -> ST (io F A) (result Z SysErrNo);
  abs_write : Z -> list slice_ref -> ST (io F A) (result Z SysErrNo);
  abs_lseek : Z -> Z -> Z -> ST (io F A) (result Z SysErrNo);
  abs_readable : Z -> ST (io F A) (result bool SysErrNo);
  abs_writable : Z -> ST (io F A) (result bool SysErrNo)
}.

Section fileio.

Context {F A : Type} `{!VfsNodeOps F} `{!AbsFileOps F A}.

Notation IO := (ST (io F A)).

Definition set_io_mem (m : pmem) (s : io F A) : io F A := mkIO m (io_kbuf s) (io_files s) (io_fs s) (io_abs s).
Definition set_kbuf (b : list Z) (s : io F A) : io F A := mkIO (io_mem s) b (io_files s) (io_fs s) (io_abs s).
Definition set_file (r : Z) (f : OsInode) (s : io F A) : io F A :=
  mkIO (io_mem s) (io_kbuf s) (<[r := f]> (io_files s)) (io_fs s) (io_abs s).
Definition set_fs (x : F) (s : io F A) : io F A := mkIO (io_mem s) (io_kbuf s) (io_files s) x (io_abs s).

Definition on_iomem {B} (m : ST pmem B) : IO B :=
  fun s => match m (io_mem s) with Ret (a, x) => Ret (a, set_io_mem x s) | Panic => Panic end.

(** The bytes of a slice, and bytes written at its start. *)
Definition slice_get (s : slice_ref) (x : io F A) : outcome (list Z) :=
  match s with
  | USlice u => Ret (pa_read_bytes (io_mem x) (us_pa u) (us_len u))
  | KSlice off n => slice (io_kbuf x) off (off + n)
  end.

Definition slice_put (s : slice_ref) (bytes : list Z) : IO unit :=
  match s with
  | USlice u => on_iomem (us_store u bytes)
  | KSlice off n =>
      _ ← st_lift (rassert (zlen bytes <=? n));
      b ← st_gets io_kbuf;
      b' ← st_lift (splice b off bytes);
      st_modify (set_kbuf b')
  end.

Definition os_at (r : Z) : IO OsInode :=
  f ← st_gets (fun s => io_files s !! r);
  st_lift (unwrap f).

(** ** OsInode *)

(** [inode.read_at(off, slice)] *)
Definition node_read (i off : Z) (s : slice_ref) : IO (result Z SysErrNo) :=
  x ← st_gets io_fs;
  let '(r, x') := vfs_read_at i off (slice_len s) x in
  _ ← st_modify (set_fs x');
  match r with
  | Err e => mret (Err e)
  | Ok bytes => _ ← slice_put s bytes; mret (Ok (zlen bytes))
  end.

(** [inode.write_at(off, slice)?] *)
Definition node_write (i off : Z) (bytes : list Z) : IO (result Z SysErrNo) :=
  x ← st_gets io_fs;
  let '(r, x') := vfs_write_at i off bytes x in
  _ ← st_modify (set_fs x');
  mret (match r with Ok n => Ok n | Err e => Err (errno_from_primitive e) end).

Definition os_advance (r n : Z) : IO unit :=
  f ← os_at r;
  o ← st_lift (uadd (os_offset f) n);
  st_modify (set_file r (set_offset o f)).

Fixpoint os_read_loop (r : Z) (b : list slice_ref) (total : Z) : IO (result Z SysErrNo) :=
  match b with
  | [] => mret (Ok total)
  | s :: b' =>
      f ← os_at r;
      n <-? node_read (os_node f) (os_offset f) s;
      if n =? 0 then mret (Ok total)
      else
        _ ← os_advance r n;
        t ← st_lift (uadd total n);
        os_read_loop r b' t
  end.

Definition os_read (r : Z) (b : list slice_ref) : IO (result Z SysErrNo) := os_read_loop r b 0.

Fixpoint os_write_loop (r : Z) (b : list slice_ref) (total : Z) : IO (result Z SysErrNo) :=
  match b with
  | [] => mret (Ok total)
  | s :: b' =>
      f ← os_at r;
      x ← st_get;
      bytes ← st_lift (slice_get s x);
      n <-? node_write (os_node f) (os_offset f) bytes;
      _ ← os_advance r n;
      t ← st_lift (uadd total n);
      os_write_loop r b' t
  end.

Definition os_write (r : Z) (b : list slice_ref) : IO (result Z SysErrNo) := os_write_loop r b 0.

(** [OsInode::read_at] and [write_at] *)
Definition os_read_at (r off : Z) (s : slice_ref) : IO (result Z SysErrNo) :=
  f ← os_at r;
  n <-? node_read (os_node f) off s;
  _ ← os_advance r n;
  mret (Ok n).

Definition os_write_at (r off : Z) (s : slice_ref) : IO (result Z SysErrNo) :=
  f ← os_at r;
  x ← st_get;
  bytes ← st_lift (slice_get s x);
  n <-? node_write (os_node f) off bytes;
  _ ← os_advance r n;
  mret (Ok n).

(** [OsInode::lseek], with the size of the node. *)
Definition os_lseek (r offset whence : Z) : IO (result Z SysErrNo) :=
  f ← os_at r;
  x ← st_gets io_fs;
  '(res, inner) ← st_lift (lseek (mkInner (os_offset f) (vfs_size (os_node f) x)) offset whence);
  _ ← st_modify (set_file r (set_offset (in_offset inner) f));
  mret res.

(** ** Descriptors *)

Definition fd_read (f : FileDescriptor) (b : list slice_ref) : IO (result Z SysErrNo) :=
  match fd_file f with ClassFile r => os_read r b | ClassAbs r => abs_read r b end.
Definition fd_write (f : FileDescriptor) (b : list slice_ref) : IO (result Z SysErrNo) :=
  match fd_file f with ClassFile r => os_write r b | ClassAbs r => abs_write r b end.
Definition fd_lseek (f : FileDescriptor) (offset whence : Z) : IO (result Z SysErrNo) :=
  match fd_file f with ClassFile r => os_lseek r offset whence | ClassAbs r => abs_lseek r offset whence end.
Definition fd_readable (f : FileDescriptor) : IO (result bool SysErrNo) :=
  match fd_file f with ClassFile r => o ← os_at r; mret (Ok (os_readable o)) | ClassAbs r => abs_readable r end.
Definition fd_writable (f : FileDescriptor) : IO (result bool SysErrNo) :=
  match fd_file f with ClassFile r => o ← os_at r; mret (Ok (os_writable o)) | ClassAbs r => abs_writable r end.

(** [map_err(|_| SysErrNo::EIO)] *)
Definition as_eio {B} (r : result B SysErrNo) : result B SysErrNo :=
  match r with Ok b => Ok b | Err _ => Err EIO end.

(** [UserBuffer::new(translated_byte_buffer(token, buf, len))] *)
Definition user_buffer (token buf len : Z) : IO (list slice_ref) :=
  m ← st_gets io_mem;
  b ← st_lift (translated_byte_buffer token m buf len);
  mret (USlice <$> b).

(** ** The system calls *)

(** What [read] and [write] share: the descriptor, the right, the transfer. *)
Definition rw_call (right : FileDescriptor -> IO (result bool SysErrNo))
    (transfer : FileDescriptor -> list slice_ref -> IO (result Z SysErrNo))
    (t : FdManage) (token fd buf len : Z) : IO (result Z SysErrNo) :=
  if fdm_len t <=? fd then mret (Err EBADF)
  else
    o ← st_lift (index (table t) fd);
    match o with
    | None => mret (Err EBADF)
    | Some f =>
        r ← right f;
        ok <-? mret (as_eio r);
        if negb ok then mret (Err EBADF)
        else
          b ← user_buffer token buf len;
          r ← transfer f b;
          mret (as_eio r)
    end.

Definition sys_write := rw_call fd_writable fd_write.
Definition sys_read := rw_call fd_readable fd_read.

Definition sys_lseek (t : FdManage) (fd offset whence : Z) : IO (result Z SysErrNo) :=
  if fdm_len t <=? fd then mret (Err EBADF)
  else
    match get_file t fd with
    | Err e => mret (Err e)
    | Ok f => fd_lseek f offset whence
    end.

Definition sys_pread64 (t : FdManage) (token fd buf count offset : Z) : IO (result Z SysErrNo) :=
  if count =? 0 then mret (Ok 0)
  else if (fd <? 0) || (fdm_len t <=? fd) then mret (Err EBADF)
  else
    match get_file t fd with
    | Err e => mret (Err e)
    | Ok f =>
        if buf =? 0 then mret (Err EFAULT)
        else
          let n := Z.min count MAX_KERNEL_RW_BUFFER_SIZE in
          _ ← st_modify (set_kbuf (replicate (Z.to_nat n) 0));
          match class_file (fd_file f) with
          | Err e => mret (Err e)
          | Ok r =>
              bytes_read <-? os_read_at r offset (KSlice 0 n);
              if bytes_read =? 0 then mret (Ok 0)
              else
                b ← st_gets io_kbuf;
                src ← st_lift (slice b 0 bytes_read);
                c ← on_iomem (copy_to_user_bytes token buf src);
                mret (match c with Ok n => Ok n | Err e => Err (errno_of_TranslateError e) end)
          end
    end.

Definition sys_pwrite64 (t : FdManage) (token fd buf count offset : Z) : IO (result Z SysErrNo) :=
  if count =? 0 then mret (Ok 0)
  else if (fd <? 0) || (fdm_len t <=? fd) then mret (Err EBADF)
  else
    match get_file t fd with
    | Err e => mret (Err e)
    | Ok f =>
        if buf =? 0 then mret (Err EFAULT)
        else
          let n := Z.min count MAX_KERNEL_RW_BUFFER_SIZE in
          m ← st_gets io_mem;
          '(c, b) ← st_lift (copy_from_user_bytes token m (replicate (Z.to_nat n) 0) buf n);
          _ ← st_modify (set_kbuf b);
          match c with
          | Err e => mret (Err (errno_of_TranslateError e))
          | Ok _ =>
              match class_file (fd_file f) with
              | Err e => mret (Err e)
              | Ok r => os_write_at r offset (KSlice 0 n)
              end
          end
    end.

(** *** readv and writev *)

Record IoVec : Type := mkIoVec { iov_base : Z; iov_len : Z }.

Definition IoVecs_of_bytes (n : Z) (bs : list Z) : list IoVec :=
  map (fun i => mkIoVec (word_at bs (16 * i)) (word_at bs (16 * i + 8))) (seq 0 (Z.to_nat n)).

Definition saturating_add (a b : Z) : Z := Z.min (a + b) (u64_bound - 1).

Definition iov_bad (v : IoVec) : bool := (iov_base v =? 0) && (0 <? iov_len v).

Definition iov_total (l : list IoVec) : Z := fold_left (fun n v => saturating_add n (iov_len v)) l 0.

(** [if total > 0 { return Ok(total) } else { return Err(e) }] *)
Definition partial (total : Z) (e : SysErrNo) : result Z SysErrNo := if 0 <? total then Ok total else Err e.

(** The loop over the entries. *)
Fixpoint iov_loop (transfer : list slice_ref -> IO (result Z SysErrNo)) (token : Z) (l : list IoVec)
    (total : Z) : IO (result Z SysErrNo) :=
  match l with
  | [] => mret (Ok total)
  | v :: l' =>
      if iov_len v =? 0 then iov_loop transfer token l' total
      else
        b ← user_buffer token (iov_base v) (iov_len v);
        if foldr (fun s n => slice_len s + n) 0 b <? iov_len v then mret (partial total EFAULT)
        else if (match b with [] => true | _ => false end) && (0 <? iov_len v) then mret (partial total EFAULT)
        else
          r ← transfer b;
          match r with
          | Err e => mret (partial total e)
          | Ok n =>
              if n =? 0 then mret (Ok total)
              else
                total' ← st_lift (uadd total n);
                if n <? iov_len v then mret (Ok total') else iov_loop transfer token l' total'
          end
  end.

(** What [readv] and [writev] share; [init] is the uninitialised memory of the
    array. *)
Definition iov_call (transfer : FileDescriptor -> list slice_ref -> IO (result Z SysErrNo))
    (init : Z -> list Z) (t : FdManage) (token fd iov iovcnt : Z) : IO (result Z SysErrNo) :=
  if (iovcnt <=? 0) || (UIO_MAXIOV <? iovcnt) then mret (Err EINVAL)
  else if fdm_len t <=? fd then mret (Err EBADF)
  else
    match get_file t fd with
    | Err e => mret (Err e)
    | Ok f =>
        m ← st_gets io_mem;
        r ← st_lift (copy_from_user_array token m init iov iovcnt 16);
        match r with
        | Err e => mret (Err (errno_of_TranslateError e))
        | Ok bs =>
            let l := IoVecs_of_bytes iovcnt bs in
            if existsb iov_bad l then mret (Err EFAULT)
            else if iov_total l =? 0 then mret (Ok 0)
            else iov_loop (transfer f) token l 0
        end
    end.

Definition sys_readv := iov_call fd_read.
Definition sys_writev := iov_call fd_write.

(** *** sendfile *)

(** The local variables of the loop: the number of bytes moved, and the place
    to read from when the caller gave one. *)
Record sf_vars : Type := mkSf { sf_total : Z; sf_pos : option Z }.

(** How an iteration ends. *)
Inductive sf_end : Type :=
| SfNext (v : sf_vars)
| SfBreak (v : sf_vars)
| SfReturn (e : SysErrNo).

(** [infile.lseek(orig_off, SEEK_SET).ok()] *)
Definition sf_restore (infile : FileDescriptor) (orig : option Z) : IO unit :=
  match orig with
  | Some o => _ ← fd_lseek infile (wrap_isize o) SEEK_SET; mret tt
  | None => mret tt
  end.

(** The write of the bytes that were read, and what follows it. *)
Definition sf_write (infile outfile : FileDescriptor) (orig : option Z) (v : sf_vars) (nread : Z)
    : IO sf_end :=
  r ← fd_write outfile [KSlice 0 nread];
  match r with
  | Ok nwritten =>
      total ← st_lift (uadd (sf_total v) nwritten);
      if negb (nwritten =? nread) then
        match sf_pos v with
        | Some o => o' ← st_lift (uadd o nwritten); mret (SfBreak (mkSf total (Some o')))
        | None =>
            d ← st_lift (usub nread nwritten);
            let rewind := wrap_isize d in
            _ ← (if 0 <? rewind then _ ← fd_lseek infile (- rewind) SEEK_CUR; mret tt else mret tt);
            mret (SfBreak (mkSf total None))
        end
      else
        match sf_pos v with
        | Some o => o' ← st_lift (uadd o nread); mret (SfNext (mkSf total (Some o')))
        | None => mret (SfNext (mkSf total None))
        end
  | Err e =>
      if 0 <? sf_total v then mret (SfBreak v)
      else
        _ ← (match orig with
             | Some _ => sf_restore infile orig
             | None => if 0 <? nread
                       then _ ← fd_lseek infile (- wrap_isize nread) SEEK_CUR; mret tt
                       else mret tt
             end);
        mret (SfReturn e)
  end.

(** One iteration. *)
Definition sf_step (infile outfile : FileDescriptor) (orig : option Z) (count buf_len : Z) (v : sf_vars)
    : IO sf_end :=
  left ← st_lift (usub count (sf_total v));
  let n := Z.min left buf_len in
  if n =? 0 then mret (SfBreak v)
  else
    sk ← (match sf_pos v with
          | Some o => r ← fd_lseek infile (wrap_isize o) SEEK_SET; mret (match r with Ok _ => None | Err e => Some e end)
          | None => mret None
          end);
    match sk with
    | Some e => mret (SfReturn e)
    | None =>
        r ← fd_read infile [KSlice 0 n];
        match r with
        | Err e =>
            if 0 <? sf_total v then mret (SfBreak v)
            else _ ← sf_restore infile orig; mret (SfReturn e)
        | Ok nread =>
            if nread =? 0 then mret (SfBreak v) else sf_write infile outfile orig v nread
        end
    end.

(** The loop: [None] when the fuel runs out. *)
Fixpoint sf_loop (fuel : nat) (infile outfile : FileDescriptor) (orig : option Z) (count buf_len : Z)
    (v : sf_vars) : IO (option (result sf_vars SysErrNo)) :=
  if sf_total v <? count then
    match fuel with
    | O => mret None
    | S fuel' =>
        e ← sf_step infile outfile orig count buf_len v;
        match e with
        | SfNext v' => sf_loop fuel' infile outfile orig count buf_len v'
        | SfBreak v' => mret (Some (Ok v'))
        | SfReturn e => mret (Some (Err e))
        end
    end
  else mret (Some (Ok v)).

(** What follows the loop. *)
Definition sf_finish (token offset_ptr : Z) (infile : FileDescriptor) (orig : option Z) (v : sf_vars)
    : IO (result Z SysErrNo) :=
  _ ← sf_restore infile orig;
  match sf_pos v with
  | Some o =>
      m ← st_gets io_mem;
      r ← st_lift (translated_refmut token m offset_ptr);
      match r with
      | Err e => mret (Err e)
      | Ok pa => _ ← st_modify (set_io_mem (pa_write_bytes m pa (le_bytes 8 o))); mret (Ok (sf_total v))
      end
  | None => mret (Ok (sf_total v))
  end.

(** The place to read from, and the cursor to restore. *)
Definition sf_offset (init : Z -> list Z) (token offset_ptr : Z) (infile : FileDescriptor)
    : IO (result (option Z * option Z) SysErrNo) :=
  if offset_ptr =? 0 then mret (Ok (None, None))
  else
    m ← st_gets io_mem;
    r ← st_lift (copy_from_user_exact token m (init 8) offset_ptr);
    match r with
    | Err _ => mret (Err EFAULT)
    | Ok bs =>
        let o := wrap_isize (le_value bs) in
        if o <? 0 then mret (Err EINVAL)
        else
          cur <-? fd_lseek infile 0 SEEK_CUR;
          mret (Ok (Some o, Some cur))
    end.

(** [sendfile]; [alloc] is the outcome of [manual_alloc_type_for_lazy] for the
    pointer. *)
Definition sys_sendfile (fuel : nat) (alloc : result unit SysErrNo) (init : Z -> list Z) (t : FdManage)
    (token out_fd in_fd offset_ptr count : Z) : IO (option (result Z SysErrNo)) :=
  if count =? 0 then mret (Some (Ok 0))
  else if (out_fd <? 0) || (MAX_FD_NUM <=? out_fd) || (in_fd <? 0) || (MAX_FD_NUM <=? in_fd)
  then mret (Some (Err EBADF))
  else
    match get_file t out_fd, get_file t in_fd with
    | Err e, _ | Ok _, Err e => mret (Some (Err e))
    | Ok outfile, Ok infile =>
        match (if offset_ptr =? 0 then Ok tt else alloc) with
        | Err e => mret (Some (Err e))
        | Ok _ =>
            w ← fd_writable outfile;
            match w with
            | Err e => mret (Some (Err e))
            | Ok false => mret (Some (Err EBADF))
            | Ok true =>
                rd ← fd_readable infile;
                match rd with
                | Err e => mret (Some (Err e))
                | Ok false => mret (Some (Err EBADF))
                | Ok true =>
                    p ← sf_offset init token offset_ptr infile;
                    match p with
                    | Err e => mret (Some (Err e))
                    | Ok (pos, orig) =>
                        let buf_len := Z.min SENDFILE_KERNEL_BUFFER_SIZE count in
                        _ ← st_modify (set_kbuf (replicate (Z.to_nat buf_len) 0));
                        r ← sf_loop fuel infile outfile orig count buf_len (mkSf 0 pos);
                        match r with
                        | None => mret None
                        | Some (Err e) => mret (Some (Err e))
                        | Some (Ok v) =>
                            r ← sf_finish token offset_ptr infile orig v;
                            mret (Some r)
                        end
                    end
                end
            end
        end
    end.

End fileio.
