(* ===== verification/FileSpec.v ===== *)
(** * Files against their contents

    The reads, writes and [sendfile] of FileIO.v for nodes that are regular
    files: the class [VfsFiles] says what their operations do to a list of
    bytes.  Its laws are about reads and writes that start inside the file, and
    about writes for which there is room.  A file system in memory that refuses
    what is too long is an instance of it, and so are the nodes of ext4
    (OpenSpec.v). *)

From S2P Require Import Prelude Config Memory Errno PageTable UserMem.
From S2P Require Import Area AreaTree FdTable FdSys Futex Signals.
From S2P Require Import FileIO FrameAlloc MemorySet Process ProcWait.

(** ** Contents *)

(** [c] with [bs] at [off]; a gap is filled with zeros. *)
Definition overwrite (c : list Z) (off : Z) (bs : list Z) : list Z :=
  take (Z.to_nat off) (c ++ replicate (Z.to_nat off - length c) 0) ++ bs ++ drop (Z.to_nat off + length bs) c.

Definition read_part (c : list Z) (off n : Z) : list Z := take (Z.to_nat n) (drop (Z.to_nat off) c).

Class VfsFiles (F : Type) `{!VfsNodeOps F} : Type := {
  (** The node is a regular file, with these bytes. *)
  regular : F -> Z -> Prop;
  contents : F -> Z -> list Z;
  (** The file system is consistent, no file has two nodes, and there is room
      for every node [i] to be filled up to [L i] bytes (or its own length, if
      that is more), all of them at the same time. *)
  sound : F -> (Z -> Z) -> Prop;
  read_law : forall L i off n x, sound x L -> regular x i ->
    0 <= off <= zlen (contents x i) -> 0 <= n -> off + n < u64_bound -> exists x',
    vfs_read_at i off n x = (Ok (read_part (contents x i) off n), x') /\ sound x' L /\
    (forall j, regular x j -> regular x' j /\ contents x' j = contents x j);
  write_law : forall L i off bs x, sound x L -> regular x i ->
    0 <= off <= zlen (contents x i) -> off + zlen bs <= Z.max (zlen (contents x i)) (L i) -> exists x',
    vfs_write_at i off bs x = (Ok (zlen bs), x') /\ sound x' L /\
    contents x' i = overwrite (contents x i) off bs /\
    (forall j, regular x j -> regular x' j /\ (j <> i -> contents x' j = contents x j));
  size_law : forall L i x, sound x L -> regular x i -> vfs_size i x = zlen (contents x i)
}.

(** A file system in memory, for files of at most [RAM_MAX] bytes. *)
Definition RAM_MAX : Z := 2 ^ 20.
#[export] Instance ram_ops : VfsNodeOps (gmap Z (list Z)) := {
  vfs_read_at i off n x := (Ok (read_part (default [] (x !! i)) off n), x);
  vfs_write_at i off bs x :=
    let c := default [] (x !! i) in
    if Z.max (zlen c) RAM_MAX <? off + zlen bs then (Err 28, x) else (Ok (zlen bs), <[i := overwrite c off bs]> x);
  vfs_size i x := zlen (default [] (x !! i))
}.

#[export] Instance ram_files : VfsFiles (gmap Z (list Z)).
Proof.
  refine {| regular x i := True; contents x i := default [] (x !! i); sound x L := forall i, L i <= RAM_MAX |}.
  - intros L i off n x Hx _ _ _ _. by exists x.
  - intros L i off bs x Hx _ _ Hb. specialize (Hx i) as Hi. cbn.
    destruct (Z.ltb_spec (Z.max (zlen (default [] (x !! i))) RAM_MAX) (off + zlen bs)); [lia|].
    eexists. split; [reflexivity|]. split; [done|]. split; [by rewrite lookup_insert_eq|].
    intros j _. split; [done|]. intros Hj. by rewrite lookup_insert_ne.
  - done.
Defined.

Lemma read_part_nil c off : read_part c off 0 = [].
Proof. done. Qed.

Lemma length_read_part c off n : 0 <= off -> 0 <= n ->
  zlen (read_part c off n) = Z.max 0 (Z.min n (zlen c - off)).
Proof. intros. unfold read_part, zlen. rewrite length_take, length_drop. lia. Qed.

(** Two reads in a row are one. *)
Lemma read_part_app c off n m : 0 <= off -> 0 <= n -> 0 <= m -> zlen (read_part c off n) = n ->
  read_part c off (n + m) = read_part c off n ++ read_part c (off + n) m.
Proof.
  intros Ho Hn Hm Hl. unfold read_part. rewrite !Z2Nat.inj_add by lia. rewrite <- drop_drop.
  rewrite <- (take_drop (Z.to_nat n) (drop (Z.to_nat off) c)) at 1.
  rewrite take_app. f_equal; [|f_equal].
  - rewrite take_take. f_equal. lia.
  - unfold zlen, read_part in Hl. lia.
Qed.

(** Two writes in a row are one. *)
Lemma overwrite_app c off a b : 0 <= off ->
  overwrite (overwrite c off a) (off + zlen a) b = overwrite c off (a ++ b).
Proof.
  intros Ho. unfold overwrite, zlen. rewrite Z2Nat.inj_add, Nat2Z.id by lia.
  set (o := Z.to_nat off). set (hd := take o (c ++ replicate (o - length c) 0)).
  assert (length hd = o) as Hh.
  { subst hd. rewrite length_take, length_app, length_replicate. lia. }
  set (d := drop (o + length a) c). assert (length (hd ++ a) = o + length a)%nat as Hp by (rewrite length_app; lia).
  rewrite (app_assoc hd a d). set (p := hd ++ a) in *.
  rewrite <- (app_assoc p), (take_app_le p), (take_ge p) by lia.
  rewrite drop_app_ge by lia. subst d. rewrite drop_drop, length_app. subst p. rewrite <- !app_assoc.
  do 4 f_equal. lia.
Qed.

Lemma length_overwrite c off bs : 0 <= off -> zlen (overwrite c off bs) = Z.max (zlen c) (off + zlen bs).
Proof.
  intros Ho. unfold overwrite, zlen. rewrite !length_app, length_take, length_app, length_replicate, length_drop. lia.
Qed.

Lemma read_part_step c off n m : 0 <= off -> 0 <= n -> 0 <= m ->
  let a := read_part c off n in
  let b := read_part c (off + zlen a) m in
  read_part c off (n + m) = a ++ b /\ take (Z.to_nat n) (a ++ b) = a /\ drop (Z.to_nat n) (a ++ b) = b.
Proof.
  intros Ho Hn Hm a b. pose proof (length_read_part c off n Ho Hn) as La. fold a in La.
  destruct (decide (zlen a = n)) as [E|E].
  - subst b. rewrite E. split; [by apply read_part_app|].
    replace (Z.to_nat n) with (length a) by (unfold zlen in E; lia). by rewrite take_app_length, drop_app_length.
  - assert (zlen a = Z.max 0 (zlen c - off)) as E' by lia.
    assert (b = []) as ->.
    { subst b. unfold read_part. rewrite drop_ge, take_nil; [done|]. unfold zlen in *. lia. }
    rewrite app_nil_r. assert (length (drop (Z.to_nat off) c) <= Z.to_nat n)%nat as Hd.
    { rewrite length_drop. unfold zlen in *. lia. }
    assert (a = drop (Z.to_nat off) c) as -> by (subst a; unfold read_part; by apply take_ge).
    unfold read_part. split; [apply take_ge; lia|]. split; [by apply take_ge|by apply drop_ge].
Qed.

(** ** Buffers *)

Definition slice_ok (kb : Z) (s : slice_ref) : Prop :=
  0 < slice_len s /\ match s with USlice _ => True | KSlice off n => 0 <= off /\ off + n <= kb end.

(** The memory and the vector of the kernel after bytes are put in a slice. *)
Definition put1 (s : slice_ref) (bs : list Z) (mk : pmem * list Z) : pmem * list Z :=
  match s with
  | USlice u => (pa_write_bytes (fst mk) (us_pa u) bs, snd mk)
  | KSlice off _ => (fst mk, take (Z.to_nat off) (snd mk) ++ bs ++ drop (Z.to_nat (off + zlen bs)) (snd mk))
  end.

(** The bytes of [data] in the slices of a buffer, one after the other. *)
Fixpoint put_all (b : list slice_ref) (data : list Z) (mk : pmem * list Z) : pmem * list Z :=
  match b with
  | [] => mk
  | s :: b' =>
      put_all b' (drop (Z.to_nat (slice_len s)) data) (put1 s (take (Z.to_nat (slice_len s)) data) mk)
  end.

Definition buf_len (b : list slice_ref) : Z := foldr (fun s n => slice_len s + n) 0 b.

Lemma buf_len_nonneg kb b : Forall (slice_ok kb) b -> 0 <= buf_len b.
Proof.
  induction 1 as [|s b [Hs _] _ IH]; [done|]. change (buf_len (s :: b)) with (slice_len s + buf_len b). lia.
Qed.

Lemma put1_nil kb s mk : slice_ok kb s -> put1 s [] mk = mk.
Proof.
  destruct mk as [m k]. intros [_ Hs]. destruct s as [u|off n]; cbn; [done|]. f_equal.
  rewrite Z.add_0_r. apply take_drop.
Qed.

Lemma put_all_nil kb b mk : Forall (slice_ok kb) b -> put_all b [] mk = mk.
Proof.
  intros H. revert mk. induction H as [|s b Hs _ IH]; intros mk; [done|]. cbn.
  rewrite drop_nil, take_nil, (put1_nil kb) by done. apply IH.
Qed.

Lemma put1_kbuf s bs mk : slice_ok (zlen (snd mk)) s -> zlen bs <= slice_len s ->
  zlen (snd (put1 s bs mk)) = zlen (snd mk).
Proof.
  destruct mk as [m k]. intros [_ Hs] Hb. destruct s as [u|off n]; cbn in *; [done|].
  unfold zlen in *. rewrite !length_app, length_take, length_drop. lia.
Qed.

Section spec.

Context {F A : Type} `{!VfsNodeOps F} `{!VfsFiles F} `{!AbsFileOps F A}.
(** How long the files may become. *)
Variable L : Z -> Z.

(** The files of [x'] are those of [x], except for [i]. *)
Definition others (i : Z) (x x' : F) : Prop :=
  forall j, regular x j -> regular x' j /\ (j <> i -> contents x' j = contents x j).
Definition same_contents (x x' : F) : Prop :=
  sound x' L /\ forall j, regular x j -> regular x' j /\ contents x' j = contents x j.

Lemma same_contents_refl x : sound x L -> same_contents x x.
Proof. done. Qed.
Lemma same_contents_trans x1 x2 x3 : same_contents x1 x2 -> same_contents x2 x3 -> same_contents x1 x3.
Proof.
  intros [_ H1] [Hs H2]. split; [done|]. intros j Hj. destruct (H1 j Hj) as [Hj2 E2]. destruct (H2 j Hj2) as [Hj3 E3].
  split; [done|congruence].
Qed.
Lemma others_trans i x1 x2 x3 : others i x1 x2 -> others i x2 x3 -> others i x1 x3.
Proof.
  intros H1 H2 j Hj. destruct (H1 j Hj) as [Hj2 E2]. destruct (H2 j Hj2) as [Hj3 E3].
  split; [done|]. intros Hne. by rewrite E3, E2.
Qed.
Lemma same_others i x1 x2 x3 : same_contents x1 x2 -> others i x2 x3 -> others i x1 x3.
Proof. intros [_ H1] H2. eapply others_trans; [|exact H2]. intros j Hj. destruct (H1 j Hj). auto. Qed.

Lemma slice_put_eq s bs m k fl (x : F) (ab : A) : slice_ok (zlen k) s -> zlen bs <= slice_len s ->
  slice_put s bs (mkIO m k fl x ab) =
  Ret (tt, mkIO (fst (put1 s bs (m, k))) (snd (put1 s bs (m, k))) fl x ab).
Proof.
  intros [Hs Hk] Hb. destruct s as [u|off n]; cbn [slice_put slice_len put1 fst snd] in *.
  - unfold on_iomem, us_store, rassert, st_modify. st_unfold. cbn [io_mem].
    destruct (Z.leb_spec (zlen bs) (us_len u)); [done|lia].
  - unfold rassert, splice, st_modify. st_unfold. destruct (Z.leb_spec (zlen bs) n); [|lia]. cbn [io_kbuf].
    destruct (Z.leb_spec 0 off); [|lia]. by destruct (Z.leb_spec (off + zlen bs) (zlen k)); [|lia].
Qed.

Lemma os_advance_eq r n f (s : io F A) : io_files s !! r = Some f -> os_offset f + n < u64_bound ->
  os_advance r n s = Ret (tt, set_file r (set_offset (os_offset f + n) f) s).
Proof.
  intros Hf Hn. unfold os_advance, os_at. st_unfold. rewrite Hf. cbn [unwrap]. by rewrite uadd_Ret.
Qed.

Lemma set_offset_id f : set_offset (os_offset f) f = f.
Proof. by destruct f. Qed.

(** ** Reading *)

Lemma os_read_loop_eq r b : forall m k fl (x : F) (ab : A) f total,
  fl !! r = Some f -> sound x L -> regular x (os_node f) -> 0 <= total ->
  let c := contents x (os_node f) in
  let data := read_part c (os_offset f) (buf_len b) in
  0 <= os_offset f <= zlen c -> os_offset f + buf_len b < u64_bound ->
  zlen c < u64_bound -> total + zlen data < u64_bound -> Forall (slice_ok (zlen k)) b ->
  let mk := put_all b data (m, k) in
  exists x', os_read_loop r b total (mkIO m k fl x ab) =
  Ret (Ok (total + zlen data),
       mkIO (fst mk) (snd mk) (<[r := set_offset (os_offset f + zlen data) f]> fl) x' ab) /\ same_contents x x'.
Proof.
  induction b as [|s b IH]; intros m k fl x ab f total Hf Hx Hreg Ht c data Ho Hbl Hc Hd Hb mk.
  { exists x. subst mk data. cbn. rewrite !Z.add_0_r, set_offset_id, insert_id by done. done. }
  apply Forall_cons_1 in Hb as [Hs Hb]. pose proof (buf_len_nonneg _ _ Hb) as Hn.
  destruct Hs as [Hl Hk]. set (n := slice_len s) in *.
  destruct (read_part_step c (os_offset f) n (buf_len b) ltac:(lia) ltac:(lia) Hn) as (E1 & E2 & E3).
  set (a := read_part c (os_offset f) n) in *.
  change (buf_len (s :: b)) with (n + buf_len b) in *. subst data. rewrite E1 in *.
  pose proof (length_read_part c (os_offset f) n ltac:(lia) ltac:(lia)) as La. fold a in La.
  assert (mk = put_all b (read_part c (os_offset f + zlen a) (buf_len b)) (put1 s a (m, k))) as ->.
  { subst mk. change (buf_len (s :: b)) with (n + buf_len b). cbn [put_all]. fold n. by rewrite E1, E2, E3. }
  clear E1 E2 E3. rewrite zlen_app in *.
  destruct (read_law L (os_node f) (os_offset f) n x Hx Hreg) as (x1 & Er & Hx1 & Hsame); [fold c; lia|lia|lia|].
  fold c a in Er. destruct (Hsame _ Hreg) as [Hreg1 Hc1].
  cbn [os_read_loop]. unfold os_at, node_read. st_unfold. cbn [io_files io_fs]. rewrite Hf. cbn [unwrap].
  unfold st_try. st_unfold. cbn [io_fs]. fold n. rewrite Er.
  unfold set_fs. cbn [io_mem io_kbuf io_files io_abs]. rewrite slice_put_eq by (done || (fold n; lia)).
  destruct (Z.eqb_spec (zlen a) 0) as [Ea|Ea].
  - exists x1. split; [|done]. assert (a = []) as -> by (apply nil_length_inv; unfold zlen in Ea; lia). cbn [zlen length] in *.
    assert (read_part c (os_offset f + zlen []) (buf_len b) = []) as ->.
    { unfold read_part. rewrite drop_ge, take_nil; [done|]. unfold zlen in *. cbn. lia. }
    rewrite (put_all_nil (zlen k)) by done. cbn. rewrite !Z.add_0_r, set_offset_id, insert_id by done. done.
  - rewrite (os_advance_eq r (zlen a) f) by (done || lia). rewrite uadd_Ret by (pose proof (zlen_nonneg (read_part c (os_offset f + zlen a) (buf_len b))); lia).
    unfold set_file. cbn [io_mem io_kbuf io_files io_fs io_abs].
    destruct (put1 s a (m, k)) as [m1 k1] eqn:E1. cbn [fst snd].
    assert (zlen k1 = zlen k) as Hk1.
    { pose proof (put1_kbuf s a (m, k) (conj Hl Hk)) as H. rewrite E1 in H. apply H. fold n. lia. }
    destruct (IH m1 k1 (<[r := set_offset (os_offset f + zlen a) f]> fl) x1 ab (set_offset (os_offset f + zlen a) f) (total + zlen a))
      as (x' & E & Hs'); cbn [os_offset os_node set_offset];
      [by rewrite lookup_insert_eq|done|done|lia|rewrite Hc1; fold c; lia|lia|rewrite Hc1; done|rewrite Hc1; fold c; lia|by rewrite Hk1|].
    exists x'. split; [|by apply (same_contents_trans _ x1)]. rewrite E. cbn [os_offset os_node set_offset]. rewrite Hc1.
    fold c. rewrite insert_insert_eq, !Z.add_assoc. done.
Qed.

(** ** Writing *)

Definition get1 (mk : pmem * list Z) (s : slice_ref) : list Z :=
  match s with
  | USlice u => pa_read_bytes (fst mk) (us_pa u) (us_len u)
  | KSlice off n => read_part (snd mk) off n
  end.

Definition get_all (b : list slice_ref) (mk : pmem * list Z) : list Z := b ≫= get1 mk.

Lemma slice_get_eq s m k fl (x : F) (ab : A) : slice_ok (zlen k) s ->
  slice_get s (mkIO m k fl x ab) = Ret (get1 (m, k) s).
Proof.
  intros [Hs Hk]. destruct s as [u|off n]; cbn in *; [done|]. unfold slice.
  destruct (Z.leb_spec 0 off), (Z.leb_spec off (off + n)), (Z.leb_spec (off + n) (zlen k)); try lia.
  unfold read_part. do 3 f_equal. lia.
Qed.

(** Writes one after the other. *)
Fixpoint writes (l : list (list Z)) (c : list Z) (off : Z) : list Z :=
  match l with
  | [] => c
  | bs :: l' => writes l' (overwrite c off bs) (off + zlen bs)
  end.

Lemma writes_concat l c off a : 0 <= off ->
  writes l (overwrite c off a) (off + zlen a) = overwrite c off (a ++ concat l).
Proof.
  revert a. induction l as [|b l IH]; intros a Ho; cbn [writes concat]; [by rewrite app_nil_r|].
  rewrite overwrite_app, <- Z.add_assoc, <- zlen_app, IH, app_assoc by done. done.
Qed.

Lemma os_write_loop_eq r b m k (ab : A) : Forall (slice_ok (zlen k)) b -> forall fl (x : F) f total,
  fl !! r = Some f -> sound x L -> regular x (os_node f) ->
  let c := contents x (os_node f) in
  let data := get_all b (m, k) in
  0 <= os_offset f <= zlen c -> os_offset f + zlen data <= Z.max (zlen c) (L (os_node f)) ->
  os_offset f + zlen data < u64_bound -> total + zlen data < u64_bound ->
  exists x', os_write_loop r b total (mkIO m k fl x ab) =
    Ret (Ok (total + zlen data), mkIO m k (<[r := set_offset (os_offset f + zlen data) f]> fl) x' ab) /\
    sound x' L /\ contents x' (os_node f) = writes (get1 (m, k) <$> b) c (os_offset f) /\ others (os_node f) x x'.
Proof.
  induction 1 as [|s b Hs Hb IH]; intros fl x f total Hf Hx Hreg c data Ho Hroom Hd Ht.
  { exists x. cbn. rewrite !Z.add_0_r, set_offset_id, insert_id by done. by split_and!. }
  set (a := get1 (m, k) s). set (rest := get_all b (m, k)).
  assert (data = a ++ rest) as -> by done. rewrite zlen_app in *. pose proof (zlen_nonneg a). pose proof (zlen_nonneg rest).
  destruct (write_law L (os_node f) (os_offset f) a x Hx Hreg) as (x1 & Hw & Hx1 & Hc & Hj); [done|fold c; lia|].
  destruct (Hj _ Hreg) as [Hreg1 _]. fold c in Hc. pose proof (length_overwrite c (os_offset f) a ltac:(lia)) as Hlen.
  destruct (IH (<[r := set_offset (os_offset f + zlen a) f]> fl) x1 (set_offset (os_offset f + zlen a) f) (total + zlen a))
    as (x' & Hl & Hx' & Hc' & Hj'); cbn [os_offset os_node set_offset];
    [by rewrite lookup_insert_eq|done|done|rewrite Hc; lia|rewrite Hc; fold rest; lia|fold rest; lia..|].
  exists x'. cbn [os_offset os_node set_offset] in *. split.
  - cbn [os_write_loop]. unfold os_at, node_write. st_unfold. cbn [io_files]. rewrite Hf. cbn [unwrap].
    unfold st_get. rewrite slice_get_eq by done. fold a. unfold st_try. st_unfold. cbn [io_fs]. rewrite Hw.
    unfold set_fs. cbn [io_mem io_kbuf io_files io_abs].
    rewrite (os_advance_eq r (zlen a) f) by (done || lia). rewrite uadd_Ret by lia.
    unfold set_file. cbn [io_mem io_kbuf io_files io_fs io_abs]. rewrite Hl. fold rest.
    rewrite insert_insert_eq, !Z.add_assoc. done.
  - split; [done|]. split; [by rewrite Hc', Hc|]. by eapply others_trans.
Qed.

(** ** Regular files *)

(** What a file holds after [bs] is written at [off] in one go or in several;
    nothing is written when there are no bytes. *)
Definition written (c : list Z) (off : Z) (bs : list Z) : list Z :=
  match bs with [] => c | _ => overwrite c off bs end.

Lemma written_app c off a b : 0 <= off -> written (written c off a) (off + zlen a) b = written c off (a ++ b).
Proof.
  intros Ho. destruct a as [|z a]; [by rewrite Z.add_0_r|]. destruct b as [|y b]; [by rewrite app_nil_r|].
  by apply overwrite_app.
Qed.

Lemma read_back c off bs : 0 <= off -> read_part (overwrite c off bs) off (zlen bs) = bs.
Proof.
  intros Ho. unfold read_part, overwrite. set (hd := take _ (c ++ _)).
  assert (length hd = Z.to_nat off) as Hh.
  { subst hd. rewrite length_take, length_app, length_replicate. lia. }
  rewrite drop_app_ge, Hh, Nat.sub_diag, drop_0 by lia. unfold zlen. rewrite Nat2Z.id. apply take_app_length.
Qed.

Lemma os_lseek_set r o f (s : io F A) : io_files s !! r = Some f -> 0 <= o ->
  os_lseek r o SEEK_SET s = Ret (Ok o, set_file r (set_offset o f) s).
Proof.
  intros Hf Ho. unfold os_lseek, os_at. st_unfold. rewrite Hf. cbn [unwrap]. unfold lseek.
  destruct (Z.ltb_spec o 0); [lia|]. done.
Qed.

Lemma os_lseek_cur0 r f (s : io F A) : io_files s !! r = Some f -> 0 <= os_offset f < 2 ^ 63 ->
  os_lseek r 0 SEEK_CUR s = Ret (Ok (os_offset f), s).
Proof.
  intros Hf Ho. unfold os_lseek, os_at. st_unfold. rewrite Hf. cbn [unwrap]. unfold lseek. cbn [in_offset].
  change (2 <? SEEK_CUR) with false. change (SEEK_CUR =? SEEK_SET) with false.
  change (SEEK_CUR =? SEEK_CUR) with true. cbv iota.
  rewrite wrap_isize_small, Z.add_0_r, ichk_small by lia. st_unfold.
  destruct (Z.ltb_spec (os_offset f) 0); [lia|]. cbn. unfold set_file. rewrite set_offset_id, insert_id by done.
  by destruct s.
Qed.

(** Bytes that are written to a file, whatever slices they are in, are read
    back from it: after the write, a seek to where it began and a read into a
    buffer of the same length, the buffer holds the bytes and the cursor is
    behind them.  The write starts inside the file, and there is room for it. *)
Theorem file_write_read r b b' m k fl (x : F) (ab : A) f :
  fl !! r = Some f -> sound x L -> regular x (os_node f) -> b <> [] ->
  Forall (slice_ok (zlen k)) b -> Forall (slice_ok (zlen k)) b' ->
  let data := get_all b (m, k) in
  buf_len b' = zlen data -> 0 <= os_offset f <= zlen (contents x (os_node f)) ->
  os_offset f + zlen data <= Z.max (zlen (contents x (os_node f))) (L (os_node f)) ->
  Z.max (zlen (contents x (os_node f))) (os_offset f + zlen data) < u64_bound ->
  exists x', (_ ← os_write r b; _ ← os_lseek r (os_offset f) SEEK_SET; os_read r b') (mkIO m k fl x ab) =
    Ret (Ok (zlen data),
         mkIO (fst (put_all b' data (m, k))) (snd (put_all b' data (m, k)))
           (<[r := set_offset (os_offset f + zlen data) f]> fl) x' ab) /\
    contents x' (os_node f) = overwrite (contents x (os_node f)) (os_offset f) data.
Proof.
  intros Hf Hx Hreg Hne Hb Hb' data Hl Ho Hroom Hbd. set (c := contents x (os_node f)) in *. pose proof (zlen_nonneg c).
  destruct (os_write_loop_eq r b m k ab Hb fl x f 0 Hf Hx Hreg) as (x1 & Hw & Hx1 & Hc & Hj); [done..|fold data; lia|fold data; lia|].
  fold data in Hw. destruct (Hj _ Hreg) as [Hreg1 _].
  assert (contents x1 (os_node f) = overwrite c (os_offset f) data) as Hc'.
  { rewrite Hc. destruct b as [|s b]; [done|]. cbn [fmap list_fmap writes]. fold c. rewrite writes_concat by lia.
    unfold data, get_all. cbn [mbind list_bind]. f_equal. f_equal. clear. induction b as [|s b IH]; [done|].
    cbn. by rewrite IH. }
  pose proof (length_overwrite c (os_offset f) data ltac:(lia)) as Hlo. pose proof (zlen_nonneg data).
  destruct (os_read_loop_eq r b' m k (<[r := f]> (<[r := set_offset (os_offset f + zlen data) f]> fl)) x1 ab f 0)
    as (x' & Hr & Hsame); rewrite ?Hl, ?Hc', ?read_back by lia; [by rewrite lookup_insert_eq|done|done|lia|lia|lia|lia|lia|done|].
  rewrite Hl, Hc', read_back, insert_insert_eq, Z.add_0_l in Hr by lia.
  exists x'. split; [|destruct Hsame as [_ Hsame]; by rewrite (proj2 (Hsame _ Hreg1))].
  st_unfold. unfold os_write. rewrite Hw.
  rewrite (os_lseek_set r (os_offset f) (set_offset (os_offset f + zlen data) f))
    by (lia || (cbn [io_files]; by rewrite lookup_insert_eq)).
  unfold set_file, os_read. cbn [io_mem io_kbuf io_files io_fs io_abs].
  assert (set_offset (os_offset f) (set_offset (os_offset f + zlen data) f) = f) as -> by by destruct f.
  rewrite insert_insert_eq in *. rewrite Hr. done.
Qed.

(** ** sendfile between regular files *)

(** Where the next read is. *)
Definition read_pos (pos : option Z) (f : OsInode) : Z := default (os_offset f) pos.

Definition pos_add (n : Z) (pos : option Z) : option Z := (fun p => p + n) <$> pos.

Lemma pos_add_0 pos : pos_add 0 pos = pos.
Proof. destruct pos as [p|]; cbn; by rewrite ?Z.add_0_r. Qed.

Lemma pos_add_add a b pos : pos_add b (pos_add a pos) = pos_add (a + b) pos.
Proof. destruct pos as [p|]; cbn; by rewrite ?Z.add_assoc. Qed.

Lemma read_pos_next pos f n : read_pos (pos_add n pos) (set_offset (read_pos pos f + n) f) = read_pos pos f + n.
Proof. by destruct pos. Qed.

Lemma read_at_end c off n m : 0 <= off -> 0 <= n -> zlen (read_part c off n) < n ->
  read_part c (off + zlen (read_part c off n)) m = [].
Proof.
  intros Ho Hn Hl. rewrite length_read_part in * by done. unfold read_part, zlen in *.
  rewrite drop_ge, take_nil; [done|]. lia.
Qed.

Lemma kslice_ok n (k : list Z) : 0 < n <= zlen k -> Forall (slice_ok (zlen k)) [KSlice 0 n].
Proof. intros. constructor; [|constructor]. split; cbn; lia. Qed.

(** A read into the vector of the kernel. *)
Lemma os_read_kernel r n m k fl (x : F) (ab : A) f :
  fl !! r = Some f -> sound x L -> regular x (os_node f) -> 0 <= os_offset f <= zlen (contents x (os_node f)) ->
  0 < n <= zlen k -> os_offset f + n < u64_bound -> zlen (contents x (os_node f)) < u64_bound ->
  let data := read_part (contents x (os_node f)) (os_offset f) n in
  exists x', os_read r [KSlice 0 n] (mkIO m k fl x ab) =
  Ret (Ok (zlen data), mkIO m (data ++ drop (length data) k)
    (<[r := set_offset (os_offset f + zlen data) f]> fl) x' ab) /\ same_contents x x'.
Proof.
  intros Hf Hx Hreg Ho Hn Hon Hc data.
  pose proof (length_read_part (contents x (os_node f)) (os_offset f) n ltac:(lia) ltac:(lia)) as Hl.
  fold data in Hl. pose proof (zlen_nonneg (contents x (os_node f))).
  destruct (os_read_loop_eq r [KSlice 0 n] m k fl x ab f 0) as (x' & E & Hs); try done;
    [cbn [buf_len foldr slice_len]; lia|cbn [buf_len foldr slice_len]; rewrite Z.add_0_r; fold data; lia|by apply kslice_ok|].
  exists x'. split; [|done]. unfold os_read. rewrite E.
  cbn [buf_len foldr slice_len put_all]. rewrite !Z.add_0_r. fold data. cbn [put1 fst snd].
  rewrite Z.add_0_l, (take_ge data) by (unfold zlen in *; lia). unfold zlen. rewrite Z.add_0_l, Nat2Z.id. done.
Qed.

(** A write from the vector of the kernel. *)
Lemma os_write_kernel r data tl m fl (x : F) (ab : A) f :
  fl !! r = Some f -> sound x L -> regular x (os_node f) -> 0 <= os_offset f <= zlen (contents x (os_node f)) ->
  os_offset f + zlen data <= Z.max (zlen (contents x (os_node f))) (L (os_node f)) ->
  data <> [] -> os_offset f + zlen data < u64_bound ->
  exists x', os_write r [KSlice 0 (zlen data)] (mkIO m (data ++ tl) fl x ab) =
    Ret (Ok (zlen data), mkIO m (data ++ tl) (<[r := set_offset (os_offset f + zlen data) f]> fl) x' ab) /\
    sound x' L /\ contents x' (os_node f) = overwrite (contents x (os_node f)) (os_offset f) data /\
    others (os_node f) x x'.
Proof.
  intros Hf Hx Hreg Ho Hroom Hne Hb.
  assert (get_all [KSlice 0 (zlen data)] (m, data ++ tl) = data) as E.
  { unfold get_all. cbn [mbind list_bind get1 snd]. rewrite app_nil_r. unfold read_part, zlen.
    rewrite Nat2Z.id. apply take_app_length. }
  assert (Forall (slice_ok (zlen (data ++ tl))) [KSlice 0 (zlen data)]) as Hk.
  { apply kslice_ok. rewrite zlen_app. pose proof (zlen_nonneg tl). destruct data; [done|]. rewrite zlen_cons.
    pose proof (zlen_nonneg data). lia. }
  destruct (os_write_loop_eq r _ m (data ++ tl) ab Hk fl x f 0 Hf Hx Hreg) as (x' & H & Hx' & Hc & Hj);
    [done|rewrite E; lia..|].
  exists x'. rewrite E, Z.add_0_l in H. split; [exact H|]. split; [done|]. split; [|done]. rewrite Hc. cbn [fmap list_fmap writes].
  f_equal. revert E. unfold get_all. cbn [mbind list_bind]. by rewrite app_nil_r.
Qed.

Section sendfile.

Context (ri ro : Z) (flags_in flags_out : Z).
Notation infile := (mkFD flags_in (ClassFile ri)).
Notation outfile := (mkFD flags_out (ClassFile ro)).
Context (Hdiff : ri <> ro) (ab : A) (m : pmem).

(** One iteration moves what is there, up to the size of the vector, or finds
    the end of the file. *)
Lemma sf_step_regular orig count bl moved pos k fl (x : F) fi fo :
  fl !! ri = Some fi -> fl !! ro = Some fo -> os_node fi <> os_node fo ->
  sound x L -> regular x (os_node fi) -> regular x (os_node fo) ->
  0 <= moved < count -> 0 < bl <= zlen k -> bl < 2 ^ 63 -> count < u64_bound ->
  let o := read_pos pos fi in
  let n := Z.min (count - moved) bl in
  let data := read_part (contents x (os_node fi)) o n in
  0 <= o <= zlen (contents x (os_node fi)) -> zlen (contents x (os_node fi)) < 2 ^ 63 ->
  0 <= os_offset fo <= zlen (contents x (os_node fo)) -> os_offset fo + zlen data < u64_bound ->
  os_offset fo + zlen data <= Z.max (zlen (contents x (os_node fo))) (L (os_node fo)) ->
  exists k' x',
    sf_step infile outfile orig count bl (mkSf moved pos) (mkIO m k fl x ab) =
    Ret (match data with
         | [] => SfBreak (mkSf moved pos)
         | _ => SfNext (mkSf (moved + zlen data) (pos_add (zlen data) pos))
         end,
         mkIO m k' (<[ro := set_offset (os_offset fo + zlen data) fo]>
                    (<[ri := set_offset (o + zlen data) fi]> fl)) x' ab) /\
    zlen k' = zlen k /\ sound x' L /\
    contents x' (os_node fo) = written (contents x (os_node fo)) (os_offset fo) data /\
    others (os_node fo) x x'.
Proof.
  intros Hi Ho Hn Hx Hri Hro Hm Hb Hbs Hc o n data Hop Hci Hoo Hod Hroom.
  pose proof (length_read_part (contents x (os_node fi)) o n ltac:(lia) ltac:(lia)) as Hl. fold data in Hl.
  unfold sf_step. st_unfold. cbn [sf_total sf_pos]. rewrite usub_Ret by lia. fold n.
  destruct (Z.eqb_spec n 0); [lia|].
  assert ((match pos with
           | Some o => (r ← fd_lseek infile (wrap_isize o) SEEK_SET; mret (match r with Ok _ => None | Err e => Some e end))
           | None => mret None
           end) (mkIO m k fl x ab) = Ret (@None SysErrNo, mkIO m k (<[ri := set_offset o fi]> fl) x ab)) as Hsk.
  { clear - Hi Hop Hci L. destruct pos as [p|].
    - change o with p in *. unfold fd_lseek. cbn [fd_file]. st_unfold. rewrite wrap_isize_small by lia.
      by rewrite (os_lseek_set ri p fi) by (done || lia).
    - change o with (os_offset fi). rewrite set_offset_id, insert_id by done. done. }
  revert Hsk. st_unfold. intros ->. cbv beta iota. unfold fd_read. cbn [fd_file].
  destruct (os_read_kernel ri n m k (<[ri := set_offset o fi]> fl) x ab (set_offset o fi)) as (x1 & Er & Hx1 & Hs1);
    [by rewrite lookup_insert_eq|done|done|done|lia|cbn [os_offset set_offset]; unfold u64_bound; lia|
     cbn [os_node set_offset]; unfold u64_bound; lia|].
  rewrite Er. clear Er. destruct (Hs1 _ Hro) as [Hro1 Hco1].
  cbn [os_offset os_node set_offset]. fold data. rewrite insert_insert_eq.
  change (set_offset (o + zlen data) (set_offset o fi)) with (set_offset (o + zlen data) fi).
  destruct (Z.eqb_spec (zlen data) 0) as [E|E].
  - assert (data = []) as -> by (apply nil_length_inv; unfold zlen in E; lia).
    exists k, x1. cbn [written]. change (zlen (@nil Z)) with 0 in *. rewrite !Z.add_0_r, set_offset_id.
    rewrite (insert_id _ ro) by (by rewrite lookup_insert_ne). split_and!; try done. intros j Hj.
    destruct (Hs1 j Hj). auto.
  - assert (data <> []) as Hne by (intros E'; by rewrite E' in E).
    destruct (os_write_kernel ro data (drop (length data) k) m (<[ri := set_offset (o + zlen data) fi]> fl) x1 ab fo)
      as (x' & Hw & Hx' & Hc' & Hj); rewrite ?Hco1; [by rewrite lookup_insert_ne|done|done|done|done|done|lia|].
    exists (data ++ drop (length data) k), x'. split.
    + unfold sf_write, fd_write. cbn [fd_file]. st_unfold. rewrite Hw. cbn [sf_total sf_pos].
      rewrite uadd_Ret, Z.eqb_refl by lia. cbn [negb].
      destruct pos as [p|].
      * change p with o at 1. rewrite uadd_Ret by (unfold u64_bound; lia). by destruct data.
      * by destruct data.
    + split; [|split; [done|split; [rewrite Hc', Hco1; by destruct data|by apply (same_others _ _ x1)]]]. unfold zlen in *. rewrite length_app, length_drop. lia.
Qed.

(** The state after [rest] has been moved from place [o]; [oi] is the cursor of
    the file that is read. *)
Definition sf_moved (fl : gmap Z OsInode) (x : F) (fi fo : OsInode) (rest : list Z) (oi : Z) (s' : io F A) : Prop :=
  io_mem s' = m /\ io_abs s' = ab /\
  io_files s' = <[ro := set_offset (os_offset fo + zlen rest) fo]> (<[ri := set_offset oi fi]> fl) /\
  sound (io_fs s') L /\
  contents (io_fs s') (os_node fo) = written (contents x (os_node fo)) (os_offset fo) rest /\
  others (os_node fo) x (io_fs s').

Lemma sf_moved_none k fl x fi fo : sound x L -> fl !! ri = Some fi -> fl !! ro = Some fo ->
  sf_moved fl x fi fo [] (os_offset fi) (mkIO m k fl x ab).
Proof.
  intros Hx Hi Ho. split_and!; try done. cbn [io_files]. change (zlen (@nil Z)) with 0.
  rewrite Z.add_0_r, !set_offset_id, (insert_id fl) by done. by rewrite insert_id.
Qed.

Lemma sf_loop_regular orig count bl fuel : 0 < bl < 2 ^ 63 -> count < u64_bound -> forall moved pos k fl (x : F) fi fo,
  fl !! ri = Some fi -> fl !! ro = Some fo -> os_node fi <> os_node fo ->
  sound x L -> regular x (os_node fi) -> regular x (os_node fo) ->
  0 <= moved <= count -> zlen k = bl -> count - moved <= Z.of_nat fuel ->
  let o := read_pos pos fi in
  let rest := read_part (contents x (os_node fi)) o (count - moved) in
  0 <= o <= zlen (contents x (os_node fi)) -> zlen (contents x (os_node fi)) < 2 ^ 63 ->
  0 <= os_offset fo <= zlen (contents x (os_node fo)) -> os_offset fo + zlen rest < u64_bound ->
  os_offset fo + zlen rest <= Z.max (zlen (contents x (os_node fo))) (L (os_node fo)) ->
  exists s' oi, sf_loop fuel infile outfile orig count bl (mkSf moved pos) (mkIO m k fl x ab) =
    Ret (Some (Ok (mkSf (moved + zlen rest) (pos_add (zlen rest) pos))), s') /\
    sf_moved fl x fi fo rest oi s' /\ (pos = None -> oi = o + zlen rest).
Proof.
  intros Hbl Hcount. induction fuel as [|fuel IH]; intros moved pos k fl x fi fo Hi Ho Hn Hx Hri Hro Hm Hk Hfuel o rest Hop Hci Hoo Hod Hroom.
  all: assert (moved = count \/ moved < count) as [->|Hlt] by lia; [|try lia].
  1,2: assert (rest = []) as -> by (subst rest; by rewrite Z.sub_diag);
    change (zlen (@nil Z)) with 0; rewrite pos_add_0, !Z.add_0_r;
    exists (mkIO m k fl x ab), (os_offset fi); cbn [sf_loop sf_total]; rewrite Z.ltb_irrefl;
    (split; [done|]); (split; [by apply sf_moved_none|by intros ->]).
  set (n := Z.min (count - moved) bl).
  destruct (read_part_step (contents x (os_node fi)) o n (count - moved - n) ltac:(lia) ltac:(lia) ltac:(lia)) as (E & _ & _).
  replace (n + (count - moved - n)) with (count - moved) in E by lia. fold rest in E.
  set (data := read_part (contents x (os_node fi)) o n) in *.
  pose proof (length_read_part (contents x (os_node fi)) o n ltac:(lia) ltac:(lia)) as Hl. fold data in Hl.
  set (rest1 := read_part (contents x (os_node fi)) (o + zlen data) (count - moved - n)) in *.
  assert (zlen rest = zlen data + zlen rest1) as Hlr by (by rewrite E, zlen_app).
  pose proof (zlen_nonneg rest1).
  destruct (sf_step_regular orig count bl moved pos k fl x fi fo Hi Ho Hn Hx Hri Hro) as (k1 & x1 & Hs & Hk1 & Hx1 & Hc1 & Hj1);
    [lia..|done|done|done|fold o n data; lia|fold o n data; lia|]. fold o n data in Hs, Hc1.
  destruct (Hj1 _ Hri) as [Hri1 Eri]. destruct (Hj1 _ Hro) as [Hro1 _]. specialize (Eri Hn).
  assert (zlen (contents x1 (os_node fo)) = Z.max (zlen (contents x (os_node fo))) (os_offset fo + zlen data)) as Hlo.
  { rewrite Hc1. pose proof (length_overwrite (contents x (os_node fo)) (os_offset fo) data ltac:(lia)).
    destruct data; cbn [written]; [change (zlen (@nil Z)) with 0; lia|done]. }
  cbn [sf_loop sf_total]. destruct (Z.ltb_spec moved count); [|lia]. st_unfold. rewrite Hs. clear Hs.
  destruct (decide (data = [])) as [Ed|Ed].
  - assert (rest = []) as Er.
    { rewrite E, Ed. subst rest1. unfold read_part. rewrite drop_ge, take_nil; [done|]. rewrite Ed in Hl |- *.
      unfold zlen in *. cbn in *. lia. }
    rewrite Er, Ed in *. change (zlen (@nil Z)) with 0 in *. rewrite pos_add_0.
    eexists _, (o + 0). split; [rewrite (Z.add_0_r moved); reflexivity|]. split; [|done].
    split; [done|]. split; [done|]. by split; [|split; [|split]].
  - assert (zlen data <> 0) as Hd0 by (intros Hz; apply Ed, nil_length_inv; unfold zlen in Hz; lia).
    assert (read_part (contents x (os_node fi)) (o + zlen data) (count - (moved + zlen data)) = rest1) as Er1.
    { destruct (decide (zlen data = n)) as [Hd|Hd]; [subst rest1; f_equal; lia|]. subst rest1.
      unfold data. rewrite !read_at_end; fold data; try done; lia. }
    set (fl1 := <[ro := set_offset (os_offset fo + zlen data) fo]> (<[ri := set_offset (o + zlen data) fi]> fl)).
    destruct (IH (moved + zlen data) (pos_add (zlen data) pos) k1 fl1 x1
                (set_offset (o + zlen data) fi) (set_offset (os_offset fo + zlen data) fo)) as (s' & oi & Hs & Hm' & Hoi).
    + subst fl1. rewrite lookup_insert_ne, lookup_insert_eq; done.
    + subst fl1. by rewrite lookup_insert_eq.
    + done.
    + done.
    + done.
    + done.
    + lia.
    + lia.
    + lia.
    + subst o. cbn [os_node set_offset]. rewrite read_pos_next, Eri. lia.
    + cbn [os_node set_offset]. by rewrite Eri.
    + cbn [os_node os_offset set_offset]. lia.
    + subst o. cbn [os_node os_offset set_offset]. rewrite read_pos_next, Eri, Er1. lia.
    + subst o. cbn [os_node os_offset set_offset]. rewrite read_pos_next, Eri, Er1. lia.
    + subst o. cbn [os_node os_offset set_offset] in *. rewrite read_pos_next, Eri, Er1 in *.
      exists s', oi. split; [|split].
      * destruct data as [|d data'] eqn:Edd; [done|]. rewrite <- Edd in *.
        rewrite Hs, pos_add_add, Hlr, Z.add_assoc. done.
      * destruct Hm' as (M1 & M2 & M3 & M0 & M4 & M5). cbn [os_node os_offset set_offset] in *.
        split; [done|]. split; [done|]. split; [|split; [done|split]].
        -- rewrite M3, Hlr, Z.add_assoc. subst fl1. rewrite (insert_insert_ne _ ri ro), !insert_insert_eq by done. done.
        -- rewrite M4, Hc1, written_app, E by lia. done.
        -- by eapply others_trans.
      * intros ->. rewrite (Hoi eq_refl). rewrite Hlr. lia.
Qed.

(** The two descriptors of a call, whose cursors are inside their files, and
    what its counts must fit in: there is room for [count] bytes at the cursor
    of the output file. *)
Definition sf_call (t : FdManage) (out_fd in_fd count : Z) (fl : gmap Z OsInode) (x : F) (fi fo : OsInode) : Prop :=
  get_file t in_fd = Ok infile /\ get_file t out_fd = Ok outfile /\
  0 <= in_fd < MAX_FD_NUM /\ 0 <= out_fd < MAX_FD_NUM /\
  fl !! ri = Some fi /\ fl !! ro = Some fo /\ os_node fi <> os_node fo /\
  os_readable fi = true /\ os_writable fo = true /\
  sound x L /\ regular x (os_node fi) /\ regular x (os_node fo) /\
  0 < count < u64_bound /\ zlen (contents x (os_node fi)) < 2 ^ 63 /\
  0 <= os_offset fi <= zlen (contents x (os_node fi)) /\
  0 <= os_offset fo <= zlen (contents x (os_node fo)) /\ os_offset fo + count < u64_bound /\
  os_offset fo + count <= Z.max (zlen (contents x (os_node fo))) (L (os_node fo)).

(** The call up to the end of the loop. *)
Lemma sendfile_loop fuel alloc init t token out_fd in_fd ptr count k fl (x : F) fi fo pos orig :
  sf_call t out_fd in_fd count fl x fi fo -> count <= Z.of_nat fuel -> (ptr = 0 \/ alloc = Ok tt) ->
  sf_offset init token ptr infile (mkIO m k fl x ab) = Ret (Ok (pos, orig), mkIO m k fl x ab) ->
  0 <= read_pos pos fi <= zlen (contents x (os_node fi)) ->
  let rest := read_part (contents x (os_node fi)) (read_pos pos fi) count in
  exists s' oi, sf_moved fl x fi fo rest oi s' /\ (pos = None -> oi = os_offset fi + zlen rest) /\
    sys_sendfile fuel alloc init t token out_fd in_fd ptr count (mkIO m k fl x ab) =
    match sf_finish token ptr infile orig (mkSf (zlen rest) (pos_add (zlen rest) pos)) s' with
    | Ret (r, s'') => Ret (Some r, s'')
    | Panic => Panic
    end.
Proof.
  intros (Hin & Hout & Hif & Hof & Hi & Ho & Hn & Hr & Hw & Hx & Hri & Hro & Hc & Hci & Hoi & Hoo & Hoc & Hroom) Hfuel Halloc Hoff Hpos rest.
  pose proof (length_read_part (contents x (os_node fi)) (read_pos pos fi) count ltac:(lia) ltac:(lia)) as Hl.
  fold rest in Hl. set (bl := Z.min SENDFILE_KERNEL_BUFFER_SIZE count).
  assert (0 < bl < 2 ^ 63) as Hbl by (unfold bl, SENDFILE_KERNEL_BUFFER_SIZE, PAGE_SIZE; lia).
  destruct (sf_loop_regular orig count bl fuel Hbl ltac:(lia) 0 pos (replicate (Z.to_nat bl) 0) fl x fi fo Hi Ho Hn Hx Hri Hro)
    as (s' & oi & Hs & Hm & Hp); try done;
    [lia|unfold zlen; rewrite length_replicate; lia|lia|rewrite Z.sub_0_r; fold rest; lia|rewrite Z.sub_0_r; fold rest; lia|].
  rewrite Z.sub_0_r in *. fold rest in Hs, Hm, Hp. exists s', oi. split; [done|].
  split; [intros ->; by rewrite Hp|].
  unfold sys_sendfile. destruct (Z.eqb_spec count 0); [lia|].
  destruct (Z.ltb_spec out_fd 0), (Z.leb_spec MAX_FD_NUM out_fd), (Z.ltb_spec in_fd 0), (Z.leb_spec MAX_FD_NUM in_fd); try lia.
  cbn [orb]. rewrite Hin, Hout.
  replace (if ptr =? 0 then Ok tt else alloc) with (@Ok unit SysErrNo tt)
    by (destruct Halloc as [->| ->]; [done|by destruct (ptr =? 0)]).
  unfold fd_writable, fd_readable, os_at. cbn [fd_file]. st_unfold. cbn [io_files]. rewrite Ho. cbn [unwrap].
  rewrite Hw. cbv beta iota. cbn [io_files]. rewrite Hi. cbn [unwrap]. rewrite Hr. cbv beta iota. rewrite Hoff. fold bl. unfold st_modify, set_kbuf. cbn [io_mem io_files io_fs io_abs]. rewrite Hs.
  rewrite Z.add_0_l. by destruct (sf_finish _ _ _ _ _ _) as [[? ?]|].
Qed.

End sendfile.

(** C22: [sendfile] between two regular files moves exactly the bytes that are
    there, up to the count, and ends: as many iterations as bytes are enough.
    It returns how many there were, and they are in the output file at its
    cursor, which is behind them.  Without a pointer the bytes are those at the
    cursor of the input file, which advances; with a pointer they are those at
    the offset it points to, which becomes the offset behind them, and the
    cursor of the input file is where it was.  The offsets are inside the files
    ([sf_call]; a read beyond the end makes an ext4 file longer,
    [read_beyond_end_grows]), the output file has room for the count, and the
    file system keeps the laws of [VfsFiles], as that of ext4 does
    ([ext4_files]). *)
Theorem sendfile_moves_bytes ri ro fin fout fuel alloc init t token out_fd in_fd count m k fl (x : F) (ab : A) fi fo :
  ri <> ro -> sf_call ri ro fin fout t out_fd in_fd count fl x fi fo -> count <= Z.of_nat fuel ->
  (let rest := read_part (contents x (os_node fi)) (os_offset fi) count in
   exists s', sys_sendfile fuel alloc init t token out_fd in_fd 0 count (mkIO m k fl x ab) =
     Ret (Some (Ok (zlen rest)), s') /\
     sf_moved ri ro ab m fl x fi fo rest (os_offset fi + zlen rest) s') /\
  (forall ptr bs pa p, ptr <> 0 -> alloc = Ok tt ->
   copy_from_user_exact token m (init 8) ptr = Ret (Ok bs) -> wrap_isize (le_value bs) = p ->
   0 <= p <= zlen (contents x (os_node fi)) ->
   translated_refmut token m ptr = Ret (Ok pa) ->
   let rest := read_part (contents x (os_node fi)) p count in
   exists s', sys_sendfile fuel alloc init t token out_fd in_fd ptr count (mkIO m k fl x ab) =
     Ret (Some (Ok (zlen rest)), s') /\
     sf_moved ri ro ab (pa_write_bytes m pa (le_bytes 8 (p + zlen rest))) fl x fi fo rest (os_offset fi) s').
Proof.
  intros Hd Hcall Hfuel. split.
  - intros rest. destruct (sendfile_loop ri ro fin fout Hd ab m fuel alloc init t token out_fd in_fd 0 count k fl x
      fi fo None None) as (s' & oi & Hm & Ho & Hs); try done; [by left|apply Hcall|].
    fold rest in Hm, Ho, Hs. exists s'. rewrite Ho in Hm by done. split; [exact Hs|exact Hm].
  - intros ptr bs pa p Hp Ha Hc Hw H0 Hr rest. pose proof Hcall as (_ & _ & _ & _ & Hi & Ho & _ & _ & _ & _ & _ & _ & _ & Hci & Hoi & _).
    destruct (sendfile_loop ri ro fin fout Hd ab m fuel alloc init t token out_fd in_fd ptr count k fl x
      fi fo (Some p) (Some (os_offset fi))) as (s' & oi & (M1 & M2 & M3 & M0 & M4 & M5) & _ & Hs); try done; [by right| |].
    + unfold sf_offset. destruct (Z.eqb_spec ptr 0); [done|]. st_unfold. cbn [io_mem]. rewrite Hc, Hw.
      destruct (Z.ltb_spec p 0); [lia|]. unfold st_try, fd_lseek. cbn [fd_file].
      by rewrite (os_lseek_cur0 ri fi) by (done || lia).
    + change (read_pos (Some p) fi) with p in *. fold rest in M3, M4, Hs.
      set (f' := set_offset oi fi) in *.
      assert (io_files s' !! ri = Some f') as Hf' by (rewrite M3, lookup_insert_ne, lookup_insert_eq; done).
      eexists. split.
      * rewrite Hs. unfold sf_finish, sf_restore, fd_lseek. cbn [fd_file]. st_unfold.
        rewrite wrap_isize_small by lia. rewrite (os_lseek_set ri (os_offset fi) f') by (done || lia).
        cbn [pos_add fmap option_fmap option_map sf_pos sf_total set_file io_mem]. rewrite M1, Hr. reflexivity.
      * split; [done|]. split; [done|]. split; [|by split; [|split]]. cbn [io_files set_io_mem set_file]. rewrite M3. subst f'.
        rewrite (insert_insert_ne _ ri ro), insert_insert_eq by done. done.
Qed.

(** [pread64] moves the cursor of the file: after a call that reads [n] bytes
    the cursor is [n] bytes further, whatever the copy to user memory gives, and
    the next [read] continues from there. *)
Theorem pread_moves_cursor t token fd buf count offset m k fl (x : F) (ab : A) f r flags res s' :
  get_file t fd = Ok (mkFD flags (ClassFile r)) -> fl !! r = Some f -> buf <> 0 -> 0 < count ->
  sound x L -> regular x (os_node f) -> zlen (contents x (os_node f)) < 2 ^ 63 ->
  0 <= offset <= zlen (contents x (os_node f)) ->
  let data := read_part (contents x (os_node f)) offset (Z.min count MAX_KERNEL_RW_BUFFER_SIZE) in
  sys_pread64 t token fd buf count offset (mkIO m k fl x ab) = Ret (res, s') ->
  0 <= fd < fdm_len t ->
  os_offset <$> io_files s' !! r = Some (os_offset f + zlen data).
Proof.
  intros Hg Hf Hb Hc Hx Hreg Hsz Ho data H Hfd. set (n := Z.min count MAX_KERNEL_RW_BUFFER_SIZE) in *.
  assert (0 < n < 2 ^ 63) as Hn by (unfold n, MAX_KERNEL_RW_BUFFER_SIZE; lia).
  pose proof (length_read_part (contents x (os_node f)) offset n ltac:(lia) ltac:(lia)) as Hl. fold data in Hl.
  destruct (read_law L (os_node f) offset n x Hx Hreg) as (x' & Er & _); [lia|lia|unfold u64_bound; lia|]. fold data in Er.
  unfold sys_pread64 in H. destruct (Z.eqb_spec count 0), (Z.ltb_spec fd 0), (Z.leb_spec (fdm_len t) fd); try lia.
  cbn [orb] in H. rewrite Hg in H. destruct (Z.eqb_spec buf 0); [done|].
  apply st_bind_Ret in H as (u & s1 & [= <- <-] & H). cbn [fd_file class_file] in H. fold n in H.
  unfold os_read_at, os_at, node_read, set_kbuf in H. revert H. unfold st_try. st_unfold. cbn [io_files io_fs io_mem io_abs].
  rewrite Hf. cbn [unwrap io_fs slice_len]. rewrite Er. unfold set_fs. cbn [io_mem io_kbuf io_files io_abs].
  rewrite slice_put_eq; [|split; cbn; unfold zlen; rewrite ?length_replicate; lia|cbn [slice_len]; lia].
  unfold os_advance, os_at. st_unfold. cbn [io_files]. rewrite Hf. cbn [unwrap].
  destruct (uadd _ _) as [o|] eqn:Eu; [|done]. apply uadd_inv in Eu as [-> _].
  assert (forall s : io F A, io_files s = <[r := set_offset (os_offset f + zlen data) f]> fl ->
    os_offset <$> io_files s !! r = Some (os_offset f + zlen data)) as Hend.
  { intros s ->. by rewrite lookup_insert_eq. }
  destruct (zlen data =? 0); [intros [= <- <-]; by apply Hend|].
  unfold slice, on_iomem. destruct (_ && _); [|done]. st_unfold.
  destruct (copy_to_user_bytes _ _ _ _) as [[c m']|]; [|done]. intros [= <- <-]. by apply Hend.
Qed.

End spec.

(** ** Witnesses *)

(** Files of another kind that allow so many more writes. *)
#[export] Instance counted_abs : AbsFileOps (gmap Z (list Z)) nat := {
  abs_read _ _ := mret (Err EINVAL);
  abs_write _ b s :=
    match io_abs s with
    | O => Ret (Err EIO, s)
    | S n => Ret (Ok (buf_len b), mkIO (io_mem s) (io_kbuf s) (io_files s) (io_fs s) n)
    end;
  abs_lseek _ _ _ := mret (Err ESPIPE);
  abs_readable _ := mret (Ok false);
  abs_writable _ := mret (Ok true)
}.

Definition ram_room (i : Z) : Z := 4096.
Lemma ram_sound (x : gmap Z (list Z)) : sound x ram_room.
Proof. by intros i. Qed.

Definition ram1 : gmap Z (list Z) := {[5 := [1; 2; 3; 4]; 6 := [9]]}.
Definition in1 : OsInode := mkOs true false 1 5.
Definition out1 : OsInode := mkOs false true 1 6.
Definition files1 : gmap Z OsInode := {[50 := in1; 60 := out1]}.
Definition fdt1 : FdManage := mkFdm [Some (mkFD 0 (ClassFile 50)); Some (mkFD 1 (ClassFile 60))] 16 32.
Definition kbuf1 : list Z := [7; 8; 0; 0].

Lemma file_write_read_witness :
  exists x', (_ ← os_write 50 [KSlice 0 2]; _ ← os_lseek 50 1 SEEK_SET; os_read 50 [KSlice 2 1; KSlice 3 1])
      (mkIO ∅ kbuf1 files1 ram1 0%nat) =
    Ret (Ok 2, mkIO ∅ [7; 8; 7; 8] (<[50 := set_offset 3 in1]> files1) x' 0%nat) /\
    contents x' 5 = [1; 7; 8; 4].
Proof.
  refine (file_write_read ram_room 50 [KSlice 0 2] [KSlice 2 1; KSlice 3 1] ∅ kbuf1 files1 ram1 0%nat in1 eq_refl (ram_sound _) I _ _ _ _ _ _ _).
  - discriminate.
  - constructor; [split; [reflexivity|vm_compute; split; discriminate]|constructor].
  - constructor; [split; [reflexivity|vm_compute; split; discriminate]|]. constructor; [split; [reflexivity|vm_compute; split; discriminate]|constructor].
  - reflexivity.
  - vm_compute. split; discriminate.
  - vm_compute. discriminate.
  - vm_compute. reflexivity.
Defined.

Lemma sendfile_moves_bytes_witness :
  exists s', sys_sendfile 10 (Ok tt) (fun _ => []) fdt1 0 1 0 0 10 (mkIO ∅ kbuf1 files1 ram1 0%nat) =
    Ret (Some (Ok 3), s') /\ contents (io_fs s') 6 = [9; 2; 3; 4] /\
    io_files s' !! 50 = Some (mkOs true false 4 5) /\ io_files s' !! 60 = Some (mkOs false true 4 6).
Proof.
  destruct (sendfile_moves_bytes ram_room 50 60 0 1 10 (Ok tt) (fun _ => []) fdt1 0 1 0 10 ∅ kbuf1 files1 ram1 0%nat in1 out1)
    as [(s' & H & _ & _ & Hf & _ & Hc & _) _].
  - discriminate.
  - unfold sf_call. split; [reflexivity|]. split; [reflexivity|]. split; [split; [discriminate|reflexivity]|].
    split; [split; [discriminate|reflexivity]|]. split; [reflexivity|]. split; [reflexivity|]. split; [discriminate|].
    split; [reflexivity|]. split; [reflexivity|]. split; [apply ram_sound|]. split; [exact I|]. split; [exact I|].
    split; [split; reflexivity|]. split; [reflexivity|]. split; [split; discriminate|]. split; [split; discriminate|].
    split; [reflexivity|]. vm_compute. discriminate.
  - discriminate.
  - exists s'. split; [exact H|]. split; [exact Hc|]. rewrite Hf. split; reflexivity.
Defined.

Definition mem1 : pmem := w_mem (k_world kmapped).

Lemma pread_moves_cursor_witness :
  exists s', sys_pread64 fdt1 (ms_token mapped_ms) 0 0x10000 2 0 (mkIO mem1 kbuf1 files1 ram1 0%nat) = Ret (Ok 2, s') /\
    os_offset <$> io_files s' !! 50 = Some 3.
Proof.
  destruct (sys_pread64 fdt1 (ms_token mapped_ms) 0 0x10000 2 0 (mkIO mem1 kbuf1 files1 ram1 0%nat))
    as [[r s']|] eqn:E; [|vm_compute in E; discriminate].
  assert (r = Ok 2) as ->.
  { apply (f_equal (fmap fst)) in E. vm_compute in E. by injection E. }
  exists s'. split; [reflexivity|].
  exact (pread_moves_cursor ram_room fdt1 (ms_token mapped_ms) 0 0x10000 2 0 mem1 kbuf1 files1 ram1 0%nat in1 50 0 (Ok 2) s'
    eq_refl eq_refl ltac:(discriminate) ltac:(reflexivity) (ram_sound _) I ltac:(reflexivity)
    ltac:(split; discriminate) E ltac:(split; [discriminate|reflexivity])).
Defined.

(** Without a pointer, a write that fails after the first chunk loses the chunk
    that was read for it: the call reports the bytes that were written, and the
    cursor of the input file is further. *)
Example sendfile_error_skips :
  let fl := <[60 := out1]> {[50 := mkOs true false 0 5]} in
  let s := mkIO ∅ [] fl {[5 := replicate 16500 1]} 1%nat in
  let t := mkFdm [Some (mkFD 0 (ClassFile 50)); Some (mkFD 1 (ClassAbs 70))] 16 32 in
  let run := sys_sendfile 20000 (Ok tt) (fun _ => []) t 0 1 0 0 16500 s in
  (fst <$> run) = Ret (Some (Ok 16384)) /\
  ((fun x => os_offset <$> io_files (snd x) !! 50) <$> run) = Ret (Some 16500).
Proof. vm_compute. split; reflexivity. Qed.
