(* ===== verification/Stat.v ===== *)
(** * File metadata (os/src/fs/stat.rs)

    [Kstat] is what [fstat] returns, [Statx] what [statx] returns, made from
    it.  Both are written to user memory as they are laid out ([repr(C)]).  A
    program reads them at the offsets of the Linux structures: for [Kstat] it
    finds every field, for [Statx] the times and device numbers are exchanged. *)

From S2P Require Import Prelude Futex.

Record Kstat : Type := mkKstat {
  ks_dev : Z; ks_ino : Z; ks_mode : Z; ks_nlink : Z; ks_uid : Z; ks_gid : Z; ks_rdev : Z;
  ks_size : Z; ks_blksize : Z; ks_blocks : Z;
  ks_atime : Z; ks_atime_nsec : Z; ks_mtime : Z; ks_mtime_nsec : Z; ks_ctime : Z; ks_ctime_nsec : Z
}.

(** [Kstat::default()]; the padding is always zero. *)
Definition Kstat_default : Kstat := mkKstat 0 0 0 0 0 0 0 0 0 0 0 0 0 0 0 0.

Definition FIFO : Z := 0x1000.
Definition FCHR : Z := 0x2000.
Definition FDIR : Z := 0x4000.
Definition FBLK : Z := 0x6000.
Definition FREG : Z := 0x8000.
Definition FLINK : Z := 0xa000.
Definition FSOCK : Z := 0xc000.

(** [StMode::from_bits_truncate] *)
Definition StMode_truncate (m : Z) : Z :=
  Z.land m (foldr Z.lor 0 [FIFO; FCHR; FDIR; FBLK; FREG; FLINK; FSOCK]).

(** The fields of the structure with their sizes, in order; integers are kept
    modulo their width. *)
Definition Kstat_fields (k : Kstat) : list (nat * Z) :=
  [(8%nat, ks_dev k); (8%nat, ks_ino k); (4%nat, ks_mode k); (4%nat, ks_nlink k);
   (4%nat, ks_uid k); (4%nat, ks_gid k); (8%nat, ks_rdev k); (8%nat, 0);
   (8%nat, ks_size k); (4%nat, ks_blksize k); (4%nat, 0); (8%nat, ks_blocks k);
   (8%nat, ks_atime k); (8%nat, ks_atime_nsec k); (8%nat, ks_mtime k); (8%nat, ks_mtime_nsec k);
   (8%nat, ks_ctime k); (8%nat, ks_ctime_nsec k); (4%nat, 0); (4%nat, 0)].

Definition struct_bytes (l : list (nat * Z)) : list Z := l ≫= fun '(n, v) => le_bytes n v.
Definition Kstat_bytes (k : Kstat) : list Z := struct_bytes (Kstat_fields k).

(** ** statx *)

Record StatxTimestamp : Type := mkTs { tv_sec : Z; tv_nsec : Z }.
Definition Timestamp_default : StatxTimestamp := mkTs 0 0.

Record Statx : Type := mkStatx {
  stx_mask : Z; stx_blksize : Z; stx_nlink : Z; stx_uid : Z; stx_gid : Z; stx_mode : Z;
  stx_ino : Z; stx_size : Z; stx_blocks : Z;
  stx_atime : StatxTimestamp; stx_ctime : StatxTimestamp; stx_mtime : StatxTimestamp;
  stx_btime : StatxTimestamp;
  stx_dev_major : Z; stx_dev_minor : Z; stx_rdev_major : Z; stx_rdev_minor : Z
}.

Definition to_u16 (z : Z) : Z := z mod 2 ^ 16.
Definition to_u32 (z : Z) : Z := z mod 2 ^ 32.
Definition to_u64 (z : Z) : Z := z mod 2 ^ 64.

(** [Statx::from(&kstat)]; adding 511 to the size can overflow. *)
Definition Statx_from (k : Kstat) : outcome Statx :=
  let mode := to_u16 (Z.lor (StMode_truncate (ks_mode k)) (Z.land (ks_mode k) 0xfff)) in
  blocks ← (if 0 <? ks_blksize k
            then Ret (to_u64 (to_u64 (ks_blocks k) * to_u64 (ks_blksize k)) / 512)
            else n ← uadd (to_u64 (ks_size k)) 511; Ret (n / 512));
  Ret (mkStatx 0 (to_u32 (ks_blksize k)) (ks_nlink k) (ks_uid k) (ks_gid k) mode
         (ks_ino k) (to_u64 (ks_size k)) blocks
         (mkTs (ks_atime k) (to_u32 (ks_atime_nsec k)))
         (mkTs (ks_ctime k) (to_u32 (ks_ctime_nsec k)))
         (mkTs (ks_mtime k) (to_u32 (ks_mtime_nsec k)))
         Timestamp_default
         (to_u32 (Z.shiftr (ks_dev k) 8)) (Z.land (ks_dev k) 0xff)
         (to_u32 (Z.shiftr (ks_rdev k) 8)) (Z.land (ks_rdev k) 0xff)).

Definition Ts_fields (t : StatxTimestamp) : list (nat * Z) := [(8%nat, tv_sec t); (4%nat, tv_nsec t); (4%nat, 0)].

Definition Statx_fields (s : Statx) : list (nat * Z) :=
  [(4%nat, stx_mask s); (4%nat, stx_blksize s); (8%nat, 0); (4%nat, stx_nlink s);
   (4%nat, stx_uid s); (4%nat, stx_gid s); (2%nat, stx_mode s); (2%nat, 0);
   (8%nat, stx_ino s); (8%nat, stx_size s); (8%nat, stx_blocks s); (8%nat, 0)] ++
  Ts_fields (stx_atime s) ++ Ts_fields (stx_ctime s) ++ Ts_fields (stx_mtime s) ++
  Ts_fields (stx_btime s) ++
  [(4%nat, stx_dev_major s); (4%nat, stx_dev_minor s); (4%nat, stx_rdev_major s);
   (4%nat, stx_rdev_minor s)] ++ replicate 14 (8%nat, 0).
Definition Statx_bytes (s : Statx) : list Z := struct_bytes (Statx_fields s).

Definition STATX_TYPE : Z := 0x1.
Definition STATX_MODE : Z := 0x2.
Definition STATX_NLINK : Z := 0x4.
Definition STATX_UID : Z := 0x8.
Definition STATX_GID : Z := 0x10.
Definition STATX_ATIME : Z := 0x20.
Definition STATX_MTIME : Z := 0x40.
Definition STATX_CTIME : Z := 0x80.
Definition STATX_INO : Z := 0x100.
Definition STATX_SIZE : Z := 0x200.
Definition STATX_BLOCKS : Z := 0x400.

(** The part of [sys_statx] that keeps the fields that [mask] asks for. *)
Definition statx_masked (mask : Z) (s : Statx) : Statx :=
  let on bit := negb (Z.land mask bit =? 0) in
  let mode := if on STATX_TYPE then stx_mode s else Z.ldiff (stx_mode s) 0xf000 in
  let mode := if on STATX_MODE then mode else Z.ldiff mode 0xfff in
  let keep bit t := if on bit then t else Timestamp_default in
  let filled := fold_left (fun m bit => if on bit then Z.lor m bit else m)
    [STATX_TYPE; STATX_MODE; STATX_NLINK; STATX_UID; STATX_GID; STATX_INO; STATX_SIZE; STATX_BLOCKS;
     STATX_ATIME; STATX_MTIME; STATX_CTIME] 0 in
  mkStatx filled (stx_blksize s) (stx_nlink s) (stx_uid s) (stx_gid s) mode (stx_ino s) (stx_size s)
    (stx_blocks s) (keep STATX_ATIME (stx_atime s)) (keep STATX_CTIME (stx_ctime s))
    (keep STATX_MTIME (stx_mtime s)) (stx_btime s)
    (stx_dev_major s) (stx_dev_minor s) (stx_rdev_major s) (stx_rdev_minor s).

(** ** Reading the structures *)

(** The unsigned integer of [n] bytes at an offset of a structure. *)
Definition field (bs : list Z) (off n : nat) : Z := le_value (take n (drop off bs)).

(** The offset of the [i]-th field. *)
Definition offset_of (l : list (nat * Z)) (i : nat) : nat := sum_list_with fst (take i l).

Lemma length_le_bytes n v : length (le_bytes n v) = n.
Proof. revert v. induction n; intros v; cbn; [done|]. by rewrite IHn. Qed.

Lemma le_value_le_bytes n v : le_value (le_bytes n v) = v mod 2 ^ (8 * Z.of_nat n).
Proof.
  revert v. induction n as [|n IH]; intros v; [cbn; by rewrite Z.mod_1_r|].
  cbn [le_bytes le_value foldr]. fold (le_value (le_bytes n (v / 256))). rewrite IH.
  replace (8 * Z.of_nat (S n)) with (8 + 8 * Z.of_nat n) by lia.
  rewrite Z.pow_add_r by lia. change (2 ^ 8) with 256.
  rewrite Z.rem_mul_r by lia. lia.
Qed.

Lemma struct_bytes_app a b : struct_bytes (a ++ b) = struct_bytes a ++ struct_bytes b.
Proof. unfold struct_bytes. apply bind_app. Qed.

Lemma length_struct_bytes l : length (struct_bytes l) = sum_list_with fst l.
Proof.
  induction l as [|[n v] l IH]; [done|]. cbn. fold (struct_bytes l).
  by rewrite length_app, length_le_bytes, IH.
Qed.

(** Each field is found at its offset. *)
Lemma struct_field l i n v : l !! i = Some (n, v) ->
  field (struct_bytes l) (offset_of l i) n = v mod 2 ^ (8 * Z.of_nat n).
Proof.
  intros Hi. unfold field, offset_of. rewrite <- (take_drop_middle l i (n, v) Hi) at 2.
  rewrite struct_bytes_app, drop_app_length' by (by rewrite length_struct_bytes).
  cbn. fold (struct_bytes (drop (S i) l)).
  rewrite take_app_length' by (by rewrite length_le_bytes). apply le_value_le_bytes.
Qed.

Lemma struct_field_at l i n v off : l !! i = Some (n, v) -> offset_of l i = off ->
  field (struct_bytes l) off n = v mod 2 ^ (8 * Z.of_nat n).
Proof. intros H <-. by apply struct_field. Qed.

(** The layout of the structure [stat] of Linux: sizes and offsets of the
    fields that programs read. *)
Record linux_stat (bs : list Z) (k : Kstat) : Prop := {
  ls_size : length bs = 128%nat;
  ls_dev : field bs 0 8 = to_u64 (ks_dev k);
  ls_ino : field bs 8 8 = to_u64 (ks_ino k);
  ls_mode : field bs 16 4 = to_u32 (ks_mode k);
  ls_nlink : field bs 20 4 = to_u32 (ks_nlink k);
  ls_uid : field bs 24 4 = to_u32 (ks_uid k);
  ls_gid : field bs 28 4 = to_u32 (ks_gid k);
  ls_rdev : field bs 32 8 = to_u64 (ks_rdev k);
  ls_len : field bs 48 8 = to_u64 (ks_size k);
  ls_blksize : field bs 56 4 = to_u32 (ks_blksize k);
  ls_blocks : field bs 64 8 = to_u64 (ks_blocks k);
  ls_atime : field bs 72 8 = to_u64 (ks_atime k);
  ls_mtime : field bs 88 8 = to_u64 (ks_mtime k);
  ls_ctime : field bs 104 8 = to_u64 (ks_ctime k)
}.

(** A program that reads the bytes of a [Kstat] as the structure [stat]
    of Linux finds every field. *)
Theorem kstat_layout k : linux_stat (Kstat_bytes k) k.
Proof.
  unfold Kstat_bytes. split; [by rewrite length_struct_bytes|..]; unfold to_u64, to_u32.
  - by apply (struct_field_at _ 0).
  - by apply (struct_field_at _ 1).
  - by apply (struct_field_at _ 2).
  - by apply (struct_field_at _ 3).
  - by apply (struct_field_at _ 4).
  - by apply (struct_field_at _ 5).
  - by apply (struct_field_at _ 6).
  - by apply (struct_field_at _ 8).
  - by apply (struct_field_at _ 9).
  - by apply (struct_field_at _ 11).
  - by apply (struct_field_at _ 12).
  - by apply (struct_field_at _ 14).
  - by apply (struct_field_at _ 16).
Qed.

(** A program that reads the bytes of a [Statx] at the offsets of Linux
    (change time 96, modification time 112, device number 136) gets the
    modification time as the change time, nothing as the modification time,
    and the number of the device that a special file stands for as that of
    the device it is on. *)
Theorem statx_layout_wrong s :
  length (Statx_bytes s) = 256%nat /\
  field (Statx_bytes s) 64 8 = to_u64 (tv_sec (stx_atime s)) /\
  field (Statx_bytes s) 96 8 = to_u64 (tv_sec (stx_mtime s)) /\
  field (Statx_bytes s) 112 8 = to_u64 (tv_sec (stx_btime s)) /\
  field (Statx_bytes s) 136 4 = to_u32 (stx_rdev_major s) /\
  field (Statx_bytes s) 140 4 = to_u32 (stx_rdev_minor s).
Proof.
  unfold Statx_bytes. split; [by rewrite length_struct_bytes|]. unfold to_u64, to_u32. split_and!.
  - by apply (struct_field_at _ 12 8 (tv_sec (stx_atime s))).
  - by apply (struct_field_at _ 18 8 (tv_sec (stx_mtime s))).
  - by apply (struct_field_at _ 21 8 (tv_sec (stx_btime s))).
  - by apply (struct_field_at _ 26 4 (stx_rdev_major s)).
  - by apply (struct_field_at _ 27 4 (stx_rdev_minor s)).
Qed.

(** The type bits and the permission bits of the mode are kept. *)
Lemma statx_mode_kept k s : 0 <= ks_mode k < 2 ^ 16 -> Statx_from k = Ret s -> stx_mode s = ks_mode k.
Proof.
  intros Hm. unfold Statx_from.
  set (b := if _ <? _ then _ else _). destruct b as [n|]; [cbn|done]. intros [= <-]. cbn.
  unfold StMode_truncate, to_u16.
  change (foldr Z.lor 0 _) with 0xf000. rewrite <- Z.land_lor_distr_r. change (Z.lor 0xf000 0xfff) with (Z.ones 16).
  rewrite Z.land_ones by lia. rewrite Z.mod_mod by lia. by apply Z.mod_small.
Qed.
