(* ===== verification/FileCache.v ===== *)
(** * Files of the ext4 library and their cache (os/lwext4_rust/src/file.rs)

    [Ext4File] wraps a descriptor of the C library.  A regular file that is
    read or written goes through a cache of whole files, [VFileCache], kept in
    a table by path; at most [FIFO_SIZE] paths are queued for eviction, and an
    evicted file that was modified is written back.

    The C library is the class [Lwext4]: one operation per function that the
    wrapper calls.  [ext4_fseek], [ext4_fsize] and [ext4_fclose] work on the
    descriptor alone and are definitions.  Error numbers of the library are
    integers, [EOK] is 0.  The bytes of a vector that is made longer without
    being initialised are what the heap holds, the function [heap_bytes]. *)

From S2P Require Import Prelude Config Path.

Definition EOK : Z := 0.
Definition C_ENOENT : Z := 2.
Definition C_EINVAL : Z := 22.
Definition O_RDONLY : Z := 0.
Definition O_RDWR : Z := 2.
Definition SEEK_SET : Z := 0.
Definition SEEK_CUR : Z := 1.
Definition SEEK_END : Z := 2.

Definition aligned_down (addr : Z) : Z := Z.ldiff addr 0xfff.

Inductive InodeTypes : Type :=
| EXT4_DE_UNKNOWN | EXT4_DE_REG_FILE | EXT4_DE_DIR | EXT4_DE_CHRDEV | EXT4_DE_BLKDEV
| EXT4_DE_FIFO | EXT4_DE_SOCK | EXT4_DE_SYMLINK
| EXT4_INODE_MODE_FIFO | EXT4_INODE_MODE_CHARDEV | EXT4_INODE_MODE_DIRECTORY
| EXT4_INODE_MODE_BLOCKDEV | EXT4_INODE_MODE_FILE | EXT4_INODE_MODE_SOFTLINK
| EXT4_INODE_MODE_SOCKET | EXT4_INODE_MODE_TYPE_MASK.

#[export] Instance InodeTypes_eq_dec : EqDecision InodeTypes.
Proof. solve_decision. Defined.

(** [types as i32] *)
Definition itype_i32 (t : InodeTypes) : Z :=
  match t with
  | EXT4_DE_UNKNOWN => 0 | EXT4_DE_REG_FILE => 1 | EXT4_DE_DIR => 2 | EXT4_DE_CHRDEV => 3
  | EXT4_DE_BLKDEV => 4 | EXT4_DE_FIFO => 5 | EXT4_DE_SOCK => 6 | EXT4_DE_SYMLINK => 7
  | EXT4_INODE_MODE_FIFO => 0x1000 | EXT4_INODE_MODE_CHARDEV => 0x2000
  | EXT4_INODE_MODE_DIRECTORY => 0x4000 | EXT4_INODE_MODE_BLOCKDEV => 0x6000
  | EXT4_INODE_MODE_FILE => 0x8000 | EXT4_INODE_MODE_SOFTLINK => 0xa000
  | EXT4_INODE_MODE_SOCKET => 0xc000 | EXT4_INODE_MODE_TYPE_MASK => 0xf000
  end.

Definition itype_list : list InodeTypes :=
  [EXT4_DE_UNKNOWN; EXT4_DE_REG_FILE; EXT4_DE_DIR; EXT4_DE_CHRDEV; EXT4_DE_BLKDEV;
   EXT4_DE_FIFO; EXT4_DE_SOCK; EXT4_DE_SYMLINK; EXT4_INODE_MODE_FIFO; EXT4_INODE_MODE_CHARDEV;
   EXT4_INODE_MODE_DIRECTORY; EXT4_INODE_MODE_BLOCKDEV; EXT4_INODE_MODE_FILE;
   EXT4_INODE_MODE_SOFTLINK; EXT4_INODE_MODE_SOCKET; EXT4_INODE_MODE_TYPE_MASK].

(** [InodeTypes::from] *)
Definition itype_from (num : Z) : InodeTypes :=
  default EXT4_DE_UNKNOWN (find (fun t => itype_i32 t =? num) itype_list).

(** ** The C library *)

(** A descriptor; [d_mp] says whether the mount point is not null. *)
Record ext4_file : Type := mkDesc {
  d_mp : bool;
  d_inode : Z;
  d_flags : Z;
  d_fsize : Z;
  d_fpos : Z
}.
Definition desc0 : ext4_file := mkDesc false 0 0 0 0.

Definition ext4_fsize (d : ext4_file) : Z := d_fsize d.
Definition ext4_fclose (d : ext4_file) : ext4_file := desc0.

(** [ext4_fseek] of an [i64]. *)
Definition ext4_fseek (d : ext4_file) (offset origin : Z) : Z * ext4_file :=
  let at_ pos := (EOK, mkDesc (d_mp d) (d_inode d) (d_flags d) (d_fsize d) pos) in
  if origin =? SEEK_SET then
    if (offset <? 0) || (d_fsize d <? offset) then (C_EINVAL, d) else at_ offset
  else if origin =? SEEK_CUR then
    if (offset <? 0) && (d_fpos d <? - offset) || (0 <? offset) && (d_fsize d - d_fpos d <? offset)
    then (C_EINVAL, d) else at_ (d_fpos d + offset)
  else if origin =? SEEK_END then
    if (offset <? 0) || (d_fsize d <? offset) then (C_EINVAL, d) else at_ (d_fsize d - offset)
  else (C_EINVAL, d).

(** The strings that [flags_to_cstring] passes to the library. *)
Inductive open_mode : Type := M_rb | M_rp | M_wb | M_ab | M_wp | M_ap.

Record ext4_inode_stat : Type := mkStat {
  st_dev : Z; st_ino : Z; st_mode : Z; st_nlink : Z; st_uid : Z; st_gid : Z;
  st_size : Z; st_blksize : Z; st_blocks : Z; st_atime : Z; st_mtime : Z; st_ctime : Z
}.

(** An entry that [ext4_dir_entry_next] returns, and the offset after it. *)
Record dir_entry : Type := mkDe { de_inode : Z; de_type : Z; de_name : list Z; de_next : Z }.

(** The functions of the library over its state: a result code, what the
    call stores through its pointers, and the new state. *)
Class Lwext4 (D : Type) : Type := {
  c_fopen : list Z -> open_mode -> ext4_file -> D -> Z * ext4_file * D;
  c_fread : ext4_file -> Z -> D -> Z * list Z * ext4_file;
  c_fwrite : ext4_file -> list Z -> D -> Z * Z * ext4_file * D;
  c_ftruncate : ext4_file -> Z -> D -> Z * ext4_file * D;
  c_inode_exist : list Z -> Z -> D -> Z;
  c_readlink : list Z -> Z -> D -> Z * list Z;
  c_fsymlink : list Z -> list Z -> D -> Z * D;
  c_frename : list Z -> list Z -> D -> Z * D;
  c_fremove : list Z -> D -> Z * D;
  c_cache_flush : list Z -> D -> Z * D;
  c_owner_set : list Z -> Z -> Z -> D -> Z * D;
  c_atime_set : list Z -> Z -> D -> Z * D;
  c_mtime_set : list Z -> Z -> D -> Z * D;
  c_ctime_set : list Z -> Z -> D -> Z * D;
  c_mode_get : list Z -> D -> Z * Z;
  c_mode_set : list Z -> Z -> D -> Z * D;
  c_stat_get : list Z -> D -> Z * ext4_inode_stat;
  c_links_cnt : list Z -> D -> Z * Z;
  c_dir_mk : list Z -> D -> Z * D;
  c_dir_mv : list Z -> list Z -> D -> Z * D;
  c_dir_rm : list Z -> D -> Z * D;
  c_dir_entries : list Z -> Z -> D -> list dir_entry
}.

(** ** The cache *)

Record VFileCache : Type := mkCache {
  vc_data : list Z;
  vc_offset : Z;
  vc_modified : bool;
  vc_size : Z
}.

Definition VFileCache_new : VFileCache := mkCache [] 0 false 0.

(** [Vec::resize(n, 0)] *)
Definition vec_resize (l : list Z) (n : Z) : list Z :=
  take (Z.to_nat n) l ++ replicate (Z.to_nat n - length l) 0.

(** [data[a..a + buf.len()]] becomes [buf]. *)
Definition vec_store (l : list Z) (a : Z) (buf : list Z) : outcome (list Z) :=
  _ ← rassert (a + zlen buf <=? zlen l);
  Ret (take (Z.to_nat a) l ++ buf ++ drop (Z.to_nat (a + zlen buf)) l).

(** [writebuf]; the result is the length of the vector. *)
Definition writebuf (c : VFileCache) (buf : list Z) : outcome (Z * VFileCache) :=
  end_ ← uadd (vc_offset c) (zlen buf);
  let size := if vc_size c <? end_ then end_ else vc_size c in
  data ← (if zlen (vc_data c) <? end_ then
            n ← uadd (aligned_down end_) PAGE_SIZE;
            Ret (vec_resize (vc_data c) n)
          else Ret (vc_data c));
  data ← vec_store data (vc_offset c) buf;
  Ret (zlen data, mkCache data (vc_offset c) true size).

(** [truncate] leaves the flag [modified] alone. *)
Definition cache_truncate (c : VFileCache) (new_size : Z) : outcome VFileCache :=
  n ← uadd (aligned_down new_size) PAGE_SIZE;
  let data := vec_resize (vc_data c) n in
  let length := zlen data in
  let data := if new_size <? length
              then take (Z.to_nat new_size) data ++ replicate (Z.to_nat (length - new_size)) 0
              else data in
  Ret (mkCache data (vc_offset c) (vc_modified c) new_size).

Definition FIFO_SIZE : Z := 30.

(** The state of the crate: the file system of the library, the cache table,
    the queue and the set of the queued paths. *)
Record ext4st (D : Type) : Type := mkE {
  e_disk : D;
  CACHE_TABLE : gmap (list Z) VFileCache;
  FIFO_TABLE : list (list Z);
  FIFO_SET : gset (list Z)
}.
Arguments mkE {_}. Arguments e_disk {_}. Arguments CACHE_TABLE {_}.
Arguments FIFO_TABLE {_}. Arguments FIFO_SET {_}.

(** An open file. *)
Record Ext4File : Type := mkEF {
  file_desc : ext4_file;
  file_path : list Z;
  this_type : InodeTypes;
  has_opened : bool;
  last_flags : Z
}.

Definition Ext4File_new (path : list Z) (types : InodeTypes) : Ext4File :=
  mkEF desc0 path types false 0.
Definition set_desc (d : ext4_file) (f : Ext4File) : Ext4File :=
  mkEF d (file_path f) (this_type f) (has_opened f) (last_flags f).
Definition set_opened (b : bool) (f : Ext4File) : Ext4File :=
  mkEF (file_desc f) (file_path f) (this_type f) b (last_flags f).

Definition flags_to_cstring (flags : Z) : open_mode :=
  if flags =? O_RDONLY then M_rb
  else if flags =? O_RDWR then M_rp
  else if flags =? 0x241 then M_wb
  else if flags =? 0x441 then M_ab
  else if flags =? 0x242 then M_wp
  else if flags =? 0x442 then M_ap
  else M_rp.

Section ext4.
Context {D : Type} `{!Lwext4 D}.
Variable heap_bytes : list Z -> Z -> list Z.

Notation estate := (ext4st D).

Definition set_disk (d : D) : ST estate unit :=
  st_modify (fun s => mkE d (CACHE_TABLE s) (FIFO_TABLE s) (FIFO_SET s)).
Definition set_cache (t : gmap (list Z) VFileCache) : ST estate unit :=
  st_modify (fun s => mkE (e_disk s) t (FIFO_TABLE s) (FIFO_SET s)).
Definition set_fifo (q : list (list Z)) : ST estate unit :=
  st_modify (fun s => mkE (e_disk s) (CACHE_TABLE s) q (FIFO_SET s)).
Definition set_fifo_set (q : gset (list Z)) : ST estate unit :=
  st_modify (fun s => mkE (e_disk s) (CACHE_TABLE s) (FIFO_TABLE s) q).

Definition if_cache (path : list Z) : ST estate bool :=
  st_gets (fun s => bool_decide (is_Some (CACHE_TABLE s !! path))).
Definition get_cache (path : list Z) : ST estate VFileCache :=
  o ← st_gets (fun s => CACHE_TABLE s !! path);
  st_lift (unwrap o).
Definition insert_cache (path : list Z) (c : VFileCache) : ST estate unit :=
  t ← st_gets CACHE_TABLE; set_cache (<[path := c]> t).
Definition remove_cache (path : list Z) : ST estate unit :=
  t ← st_gets CACHE_TABLE; set_cache (delete path t).
Definition if_fifo_set (path : list Z) : ST estate bool :=
  st_gets (fun s => bool_decide (path ∈ FIFO_SET s)).
Definition insert_fifo_set (path : list Z) : ST estate unit :=
  q ← st_gets FIFO_SET; set_fifo_set ({[path]} ∪ q).
Definition remove_fifo_set (path : list Z) : ST estate unit :=
  q ← st_gets FIFO_SET; set_fifo_set (q ∖ {[path]}).

(** A call that opens a descriptor. *)
Definition fopen (path : list Z) (m : open_mode) (d : ext4_file) : ST estate (Z * ext4_file) :=
  disk ← st_gets e_disk;
  let '(r, d', disk') := c_fopen path m d disk in
  _ ← set_disk disk';
  mret (r, d').

(** The result codes of the library are ignored. *)
Definition write_back_cache (path : list Z) : ST estate unit :=
  b ← if_cache path;
  if (b : bool) then
    c ← get_cache path;
    if vc_modified c then
      '(_, d) ← fopen path (flags_to_cstring 2) desc0;
      let d := snd (ext4_fseek d 0 0) in
      disk ← st_gets e_disk;
      _ ← st_lift (rassert (vc_size c <=? zlen (vc_data c)));
      let '(_, _, _, disk') := c_fwrite d (take (Z.to_nat (vc_size c)) (vc_data c)) disk in
      set_disk disk'
    else mret tt
  else mret tt.

(** The eviction of the oldest path when the queue is full. *)
Definition make_room : ST estate unit :=
  q ← st_gets FIFO_TABLE;
  if zlen q =? FIFO_SIZE then
    match q with
    | [] => st_panic
    | p :: q' =>
        _ ← set_fifo q';
        _ ← write_back_cache p;
        c ← if_cache p;
        if (c : bool) then _ ← remove_cache p; remove_fifo_set p else mret tt
    end
  else mret tt.

Definition insert_fifo (path : list Z) : ST estate unit :=
  b ← if_fifo_set path;
  if (b : bool) then mret tt
  else
    _ ← make_room;
    q ← st_gets FIFO_TABLE;
    _ ← set_fifo (q ++ [path]);
    insert_fifo_set path.

(** ** Ext4File *)

Definition file_open (f : Ext4File) (path : list Z) (flags : Z)
    : ST estate (result Z Z * Ext4File) :=
  if bool_decide (path = file_path f) && has_opened f && (last_flags f =? flags)
  then mret (Ok EOK, f)
  else
    '(r, d) ← fopen path (flags_to_cstring flags) (file_desc f);
    if negb (r =? EOK) then mret (Err r, set_desc d f)
    else mret (Ok EOK, mkEF d (file_path f) (this_type f) true flags).

Definition file_close (f : Ext4File) : result Z Z * Ext4File :=
  let f := if d_mp (file_desc f) then set_desc (ext4_fclose (file_desc f)) f else f in
  (Ok 0, set_opened false f).

Definition check_inode_exist (path : list Z) (types : InodeTypes) : ST estate bool :=
  disk ← st_gets e_disk;
  mret (c_inode_exist path (itype_i32 types) disk =? EOK).

(** What a call that changes the file system and returns only a code gives. *)
Definition c_call (call : D -> Z * D) : ST estate (result Z Z) :=
  disk ← st_gets e_disk;
  let '(r, disk') := call disk in
  _ ← set_disk disk';
  mret (if negb (r =? EOK) then Err r else Ok EOK).

Definition file_readlink (f : Ext4File) (bufsize : Z) : ST estate (result (list Z) Z) :=
  disk ← st_gets e_disk;
  let '(r, bs) := c_readlink (file_path f) bufsize disk in
  mret (if negb (r =? EOK) then Err r else Ok bs).

Definition file_fsymlink (target path : list Z) : ST estate (result Z Z) := c_call (c_fsymlink target path).
Definition file_rename (path new_path : list Z) : ST estate (result Z Z) := c_call (c_frename path new_path).

Definition file_remove (f : Ext4File) (path : list Z) : ST estate (result Z Z * Ext4File) :=
  b ← if_cache path;
  _ ← (if (b : bool) then remove_cache path else mret tt);
  let f := set_opened false f in
  disk ← st_gets e_disk;
  let '(r, disk') := c_fremove path disk in
  _ ← set_disk disk';
  mret (if negb (r =? EOK) && negb (r =? C_ENOENT) then Err r else Ok EOK, f).

(** The vector gets [aligned_size] bytes that are not initialised, then as
    many bytes of the file as the library reads. *)
Definition check_cached (f : Ext4File) (path : list Z) : ST estate Ext4File :=
  b ← if_cache path;
  if (b : bool) then mret f
  else
    _ ← insert_fifo path;
    '(_, d) ← fopen path (flags_to_cstring 2) (file_desc f);
    let f := set_desc d f in
    let size := ext4_fsize d in
    aligned_size ← st_lift (uadd (aligned_down size) PAGE_SIZE);
    let data := heap_bytes path aligned_size in
    if size =? 0 then
      _ ← insert_cache path (mkCache data 0 false size); mret f
    else
      let d := snd (ext4_fseek d 0 0) in
      disk ← st_gets e_disk;
      let '(_, bs, d') := c_fread d size disk in
      _ ← insert_cache path (mkCache (bs ++ drop (length bs) data) 0 false size);
      mret (set_desc d' f).

Definition file_size (f : Ext4File) : ST estate (Z * Ext4File) :=
  b ← if_cache (file_path f);
  if (b : bool) then c ← get_cache (file_path f); mret (vc_size c, f)
  else
    '(_, d) ← fopen (file_path f) (flags_to_cstring 2) (file_desc f);
    mret (ext4_fsize d, set_desc d f).

(** [file_seek] of an offset that is not negative. *)
Definition file_seek (f : Ext4File) (offset seek_type : Z) : ST estate (result Z Z * Ext4File) :=
  if bool_decide (this_type f <> EXT4_DE_DIR) then
    f ← check_cached f (file_path f);
    c ← get_cache (file_path f);
    c ← st_lift (if vc_size c <? offset then cache_truncate c offset else Ret c);
    _ ← insert_cache (file_path f) (mkCache (vc_data c) offset (vc_modified c) (vc_size c));
    mret (Ok EOK, f)
  else
    '(size, f) ← file_size f;
    let offset := Z.min offset size in
    let '(r, d) := ext4_fseek (file_desc f) offset seek_type in
    let f := set_desc d f in
    mret (if negb (r =? EOK) then Err r else Ok r, f).

(** The bytes that [file_read] stores at the start of a buffer of [len]
    bytes. *)
Definition file_read (f : Ext4File) (len : Z) : ST estate (result (list Z) Z * Ext4File) :=
  b ← if_cache (file_path f);
  if (b : bool) then
    c ← get_cache (file_path f);
    e ← st_lift (uadd (vc_offset c) len);
    let end_ := Z.min e (vc_size c) in
    r_sz ← st_lift (usub end_ (vc_offset c));
    _ ← st_lift (rassert (end_ <=? zlen (vc_data c)));
    mret (Ok (take (Z.to_nat r_sz) (drop (Z.to_nat (vc_offset c)) (vc_data c))), f)
  else
    disk ← st_gets e_disk;
    let '(r, bs, d) := c_fread (file_desc f) len disk in
    mret (if negb (r =? EOK) then Err r else Ok bs, set_desc d f).

(** Without the feature [board_qemu] there is no bound on the cache. *)
Definition file_write (f : Ext4File) (buf : list Z) : ST estate (result Z Z * Ext4File) :=
  b ← if_cache (file_path f);
  if (b : bool) then
    c ← get_cache (file_path f);
    '(_, c) ← st_lift (writebuf c buf);
    _ ← insert_cache (file_path f) c;
    mret (Ok (zlen buf), f)
  else
    disk ← st_gets e_disk;
    let '(r, n, d, disk') := c_fwrite (file_desc f) buf disk in
    _ ← set_disk disk';
    mret (if negb (r =? EOK) then Err r else Ok n, set_desc d f).

Definition file_truncate (f : Ext4File) (size : Z) : ST estate (result Z Z * Ext4File) :=
  b ← if_cache (file_path f);
  _ ← (if (b : bool) then
         c ← get_cache (file_path f);
         c ← st_lift (cache_truncate c size);
         insert_cache (file_path f) c
       else mret tt);
  disk ← st_gets e_disk;
  let '(r, d, disk') := c_ftruncate (file_desc f) size disk in
  _ ← set_disk disk';
  mret (if negb (r =? EOK) then Err r else Ok EOK, set_desc d f).

(** [file_cache_flush] flushes the block cache of the library only. *)
Definition file_cache_flush (f : Ext4File) : ST estate (result Z Z) := c_call (c_cache_flush (file_path f)).

(** ** Metadata and directories *)

Definition set_owner (f : Ext4File) (uid gid : Z) : ST estate (result Z Z) :=
  c_call (c_owner_set (file_path f) uid gid).

(** The code of the last call that is made decides. *)
Definition set_time (f : Ext4File) (atime mtime ctime : option Z) : ST estate (result Z Z) :=
  let step (o : option Z) (call : list Z -> Z -> D -> Z * D) (r : Z) : ST estate Z :=
    match o with
    | None => mret r
    | Some t =>
        disk ← st_gets e_disk;
        let '(r, disk') := call (file_path f) t disk in
        _ ← set_disk disk';
        mret r
    end in
  r ← step atime c_atime_set 0;
  r ← step mtime c_mtime_set r;
  r ← step ctime c_ctime_set r;
  mret (if negb (r =? EOK) then Err r else Ok EOK).

Definition file_fstat (f : Ext4File) : ST estate (result ext4_inode_stat Z) :=
  disk ← st_gets e_disk;
  let '(r, st) := c_stat_get (file_path f) disk in
  b ← if_cache (file_path f);
  st ← (if (b : bool) then
          c ← get_cache (file_path f);
          blocks ← st_lift (let size := vc_size c in
                            if st_blksize st =? 0 then Panic
                            else Ret (Z.quot (size - 1 + st_blksize st) (st_blksize st)));
          mret (mkStat (st_dev st) (st_ino st) (st_mode st) (st_nlink st) (st_uid st) (st_gid st)
                  (vc_size c) (st_blksize st) blocks (st_atime st) (st_mtime st) (st_ctime st))
        else mret st);
  mret (if negb (r =? EOK) then Err r else Ok st).

Definition links_cnt (f : Ext4File) : ST estate (result Z Z) :=
  disk ← st_gets e_disk;
  let '(r, cnt) := c_links_cnt (file_path f) disk in
  mret (if negb (r =? EOK) then Err r else Ok cnt).

Definition file_mode (f : Ext4File) : ST estate (result Z Z) :=
  disk ← st_gets e_disk;
  let '(r, mode) := c_mode_get (file_path f) disk in
  mret (if negb (r =? EOK) then Err r else Ok mode).

Definition file_mode_set (f : Ext4File) (mode : Z) : ST estate (result Z Z) :=
  c_call (c_mode_set (file_path f) mode).

Definition file_type (f : Ext4File) : ST estate InodeTypes :=
  r ← file_mode f;
  mode ← st_lift (result_unwrap r);
  let types := Z.ldiff mode 0x1ff in
  mret (match itype_from types with EXT4_DE_UNKNOWN => EXT4_INODE_MODE_FILE | t => t end).

Definition dir_mk (path : list Z) : ST estate (result Z Z) := c_call (c_dir_mk path).
Definition dir_mv (path new_path : list Z) : ST estate (result Z Z) := c_call (c_dir_mv path new_path).
Definition dir_rm (path : list Z) : ST estate (result Z Z) :=
  disk ← st_gets e_disk;
  let '(r, disk') := c_dir_rm path disk in
  _ ← set_disk disk';
  mret (if negb (r =? EOK) && negb (r =? C_ENOENT) then Err r else Ok EOK).

Record OsDirent : Type := mkOsd {
  d_ino : Z; d_off : Z; d_reclen : Z; d_type : Z; d_name : list Z
}.

(** The record of an entry: its name padded to 256 bytes, and a length that
    is rounded up past the next multiple of 8. *)
Definition os_dirent (de : dir_entry) : OsDirent :=
  let len := zlen (de_name de) + 19 in
  mkOsd (de_inode de) (de_next de) (len + (8 - len mod 8)) (de_type de)
    (de_name de ++ replicate (256 - length (de_name de)) 0).

Definition read_dir_from (f : Ext4File) (off : Z) : ST estate (result (list OsDirent) Z) :=
  if bool_decide (this_type f <> EXT4_DE_DIR) then mret (Err 22)
  else
    disk ← st_gets e_disk;
    mret (Ok (os_dirent <$> c_dir_entries (file_path f) off disk)).

End ext4.
