(* ===== verification/Ext4Ops.v ===== *)
(** * Nodes of the ext4 file system (os/src/fs/ext4/ops.rs, fs/inode.rs)

    [FileWrapper] adapts [Ext4File] (FileCache.v) to the node operations of
    the VFS: reading, writing, truncation, renaming, look-up through symbolic
    links and directory entries.  A wrapper is its [Ext4File] and a flag; the
    operations take the file and return it changed. *)

From S2P Require Import Prelude Config Errno Path Futex Stat.
From S2P Require Import FileCache.

Definition MAX_SYMLINK_DEPTH : Z := 100.
Definition O_CREATE_TRUNC_W : Z := 0x241.
Definition O_CREATE_TRUNC_RW : Z := 0x242.

(** ** Strings *)

Fixpoint trim_slashes_start (s : list Z) : list Z :=
  match s with
  | c :: s' => if c =? SLASH then trim_slashes_start s' else s
  | [] => []
  end.
Definition trim_slashes_end (s : list Z) : list Z := rev (trim_slashes_start (rev s)).

(** [s.trim_matches('/')] *)
Definition trim_slashes (s : list Z) : list Z := trim_slashes_end (trim_slashes_start s).

Definition cont_byte (b : Z) : bool := (0x80 <=? b) && (b <=? 0xbf).

(** [core::str::from_utf8] succeeds. *)
Fixpoint utf8_valid (l : list Z) : bool :=
  match l with
  | [] => true
  | a :: l1 =>
      if a <? 0x80 then utf8_valid l1
      else match l1 with
           | [] => false
           | b :: l2 =>
               if (0xc2 <=? a) && (a <=? 0xdf) then cont_byte b && utf8_valid l2
               else match l2 with
                    | [] => false
                    | c :: l3 =>
                        if (0xe0 <=? a) && (a <=? 0xef) then
                          cont_byte b && cont_byte c
                          && negb ((a =? 0xe0) && (b <? 0xa0)) && negb ((a =? 0xed) && (0x9f <? b))
                          && utf8_valid l3
                        else match l3 with
                             | [] => false
                             | d :: l4 =>
                                 (0xf0 <=? a) && (a <=? 0xf4)
                                 && cont_byte b && cont_byte c && cont_byte d
                                 && negb ((a =? 0xf0) && (b <? 0x90))
                                 && negb ((a =? 0xf4) && (0x8f <? b)) && utf8_valid l4
                             end
                    end
           end
  end.

(** ** Types *)

Inductive InodeType : Type :=
| IUnknown | IFifo | ICharDevice | IDir | IBlockDevice | IFile | ISymLink | ISocket.

#[export] Instance InodeType_eq_dec : EqDecision InodeType.
Proof. solve_decision. Defined.

Definition as_ext4_de_type (t : InodeType) : InodeTypes :=
  match t with
  | IBlockDevice => EXT4_DE_BLKDEV | ICharDevice => EXT4_DE_CHRDEV | IDir => EXT4_DE_DIR
  | IFifo => EXT4_DE_FIFO | IFile => EXT4_DE_REG_FILE | ISocket => EXT4_DE_SOCK
  | ISymLink => EXT4_DE_SYMLINK | IUnknown => EXT4_DE_UNKNOWN
  end.

Definition as_inode_type (t : InodeTypes) : outcome InodeType :=
  match t with
  | EXT4_INODE_MODE_FIFO | EXT4_DE_FIFO => Ret IFifo
  | EXT4_INODE_MODE_CHARDEV | EXT4_DE_CHRDEV => Ret ICharDevice
  | EXT4_INODE_MODE_DIRECTORY | EXT4_DE_DIR => Ret IDir
  | EXT4_INODE_MODE_BLOCKDEV | EXT4_DE_BLKDEV => Ret IBlockDevice
  | EXT4_INODE_MODE_FILE | EXT4_DE_REG_FILE => Ret IFile
  | EXT4_INODE_MODE_SOFTLINK | EXT4_DE_SYMLINK => Ret ISymLink
  | EXT4_INODE_MODE_SOCKET | EXT4_DE_SOCK => Ret ISocket
  | _ => Panic
  end.

(** ** Directory entries (fs/dirent.rs) *)

(** [Dirent::as_bytes]: the first [d_reclen] bytes of the structure, whose
    padding is written as 0. *)
Definition dirent_bytes (d : OsDirent) : list Z :=
  take (Z.to_nat (d_reclen d))
    (le_bytes 8 (d_ino d) ++ le_bytes 8 (d_off d mod 2 ^ 64) ++ le_bytes 2 (d_reclen d)
     ++ [d_type d] ++ d_name d ++ replicate 5 0).

(** The loop of [read_dentry]: the bytes, their number and the offset of the
    last entry that fits. *)
Fixpoint fit_entries (entries : list OsDirent) (len res f_off : Z) (de : list Z) : list Z * Z * Z :=
  match entries with
  | [] => (de, res, f_off)
  | d :: l =>
      if len <? res + d_reclen d then (de, res, f_off)
      else fit_entries l len (res + d_reclen d) (d_off d) (de ++ dirent_bytes d)
  end.

Section nodes.
Context {D : Type} `{!Lwext4 D}.
Variable heap_bytes : list Z -> Z -> list Z.

Notation estate := (ext4st D).

(** [map_err(SysErrNo::from)] *)
Definition from_i32 {A} (r : result A Z) : result A SysErrNo :=
  match r with Ok a => Ok a | Err e => Err (errno_from_primitive e) end.

(** [path_deal_with] below the directory [base]; the recursion is on shorter
    paths. *)
Fixpoint path_deal_with (fuel : nat) (base path : list Z) : option (list Z) :=
  match fuel with
  | O => None
  | S fuel' =>
      let p := trim_slashes path in
      if negb (nonempty p) || str_eqb p DOT then Some []
      else
        match p with
        | a :: b :: rest =>
            if (a =? 46) && (b =? SLASH) then path_deal_with fuel' base rest
            else
              let rest_p := replace_slashes p in
              if negb (str_eqb p rest_p) then path_deal_with fuel' base rest_p
              else Some (trim_slashes_end base ++ [SLASH] ++ p)
        | _ => Some (trim_slashes_end base ++ [SLASH] ++ p)
        end
  end.
Definition deal_with (f : Ext4File) (path : list Z) : outcome (list Z) :=
  unwrap (path_deal_with (S (length path)) (file_path f) path).

(** ** Contents *)

(** [?] on a result that comes with the changed file. *)
Definition try_f {A B E} (k : A -> Ext4File -> ST estate (result B E * Ext4File))
    (m : ST estate (result A E * Ext4File)) : ST estate (result B E * Ext4File) :=
  '(r, f) ← m;
  match r with Ok a => k a f | Err e => mret (Err e, f) end.

(** [read_at]: the bytes stored at the start of a buffer of [len] bytes. *)
Definition fw_read_at (f : Ext4File) (offset len : Z)
    : ST estate (result (list Z) SysErrNo * Ext4File) :=
  '(r, f) ← try_f (fun _ f => try_f (fun _ f => file_read f len)
                                (file_seek heap_bytes f offset SEEK_SET))
                  (file_open f (file_path f) O_RDONLY);
  mret (from_i32 r, f).

Definition fw_write_at (f : Ext4File) (offset : Z) (buf : list Z)
    : ST estate (result Z Z * Ext4File) :=
  try_f (fun _ f =>
      try_f (fun _ f =>
          '(r, f) ← file_write f buf;
          mret (r, snd (file_close f)))
        (file_seek heap_bytes f offset SEEK_SET))
    (file_open f (file_path f) O_RDWR).

Definition fw_size (f : Ext4File) : ST estate (Z * Ext4File) :=
  types ← st_lift (as_inode_type (this_type f));
  if bool_decide (types = IFile) then
    '(r, f) ← file_open f (file_path f) O_RDONLY;
    _ ← st_lift (result_unwrap r);
    file_size f
  else mret (0, f).

Definition fw_truncate (f : Ext4File) (size : Z) : ST estate (result Z Z * Ext4File) :=
  try_f (fun _ f =>
      '(t, f) ← file_truncate f size;
      mret (t, snd (file_close f)))
    (file_open f (file_path f) O_CREATE_TRUNC_RW).

(** ** Names *)

Definition fw_create (f : Ext4File) (path : list Z) (ty : InodeTypes)
    : ST estate (result Z Z * Ext4File) :=
  fpath ← st_lift (deal_with f path);
  if negb (nonempty fpath) then mret (Ok 0, f)
  else
    b ← check_inode_exist fpath ty;
    if (b : bool) then mret (Ok 0, f)
    else if bool_decide (ty = EXT4_DE_DIR) then r ← dir_mk fpath; mret (r, f)
    else
      '(r, f) ← file_open f fpath O_CREATE_TRUNC_W;
      _ ← st_lift (result_unwrap r);
      mret (file_close f).

Definition fw_remove (f : Ext4File) (path : list Z) : ST estate (result Z Z * Ext4File) :=
  fpath ← st_lift (deal_with f path);
  _ ← st_lift (rassert (nonempty fpath));
  b ← check_inode_exist fpath EXT4_DE_DIR;
  if (b : bool) then r ← dir_rm fpath; mret (r, f) else file_remove f fpath.

Definition fw_rename (src dst : list Z) : ST estate (result Z Z) := file_rename src dst.
Definition fw_unlink (f : Ext4File) (path : list Z) : ST estate (result Z SysErrNo * Ext4File) :=
  '(r, f) ← file_remove f path; mret (from_i32 r, f).
Definition fw_sym_link (target path : list Z) : ST estate (result Z SysErrNo) :=
  r ← file_fsymlink target path; mret (from_i32 r).
Definition fw_read_link (f : Ext4File) (bufsize : Z) : ST estate (result (list Z) SysErrNo) :=
  r ← file_readlink f bufsize; mret (from_i32 r).

Definition SWAP : list Z := [46; 115; 119; 97; 112; 95].

(** The name under which [exchange] parks the first node: the directory of
    the first path is joined to it without a separator. *)
Definition swap_path (path1 path2 : list Z) : outcome (list Z) :=
  '(p1, name1) ← get_parent_path_and_filename path1;
  '(_, name2) ← get_parent_path_and_filename path2;
  let tmp_name := SWAP ++ name1 ++ [95] ++ name2 in
  Ret (if negb (str_eqb p1 [SLASH]) then p1 ++ tmp_name else p1 ++ drop 1 tmp_name).

Definition fw_exchange (path1 path2 : list Z) : ST estate (result unit SysErrNo) :=
  _ ← st_lift (rassert (starts_with_slash path1));
  _ ← st_lift (rassert (starts_with_slash path2));
  temp_path ← st_lift (swap_path path1 path2);
  if str_eqb temp_path path1 || str_eqb temp_path path2 then mret (Err EEXIST)
  else
    _ <-? (r ← fw_rename path1 temp_path; mret (from_i32 r));
    _ <-? (r ← fw_rename path2 path1; mret (from_i32 r));
    _ <-? (r ← fw_rename temp_path path2; mret (from_i32 r));
    mret (Ok tt).

(** The parent of a directory: its path up to the last component. *)
Definition fw_parent (f : Ext4File) : option Ext4File :=
  if bool_decide (this_type f = EXT4_DE_DIR) then
    let path := trim_slashes_end (file_path f) in
    match rfind_slash path 0 with
    | Some i => Some (Ext4File_new (take (S i) path) EXT4_DE_DIR)
    | None => None
    end
  else None.

(** The target of a link in a buffer of 256 bytes, up to the first 0. *)
Definition link_target (bs : list Z) : outcome (list Z) :=
  let file_name := bs ++ replicate (256 - length bs) 0 in
  match list_find (fun v => v = 0) file_name with
  | Some (end_, _) =>
      let t := take end_ file_name in
      _ ← rassert (utf8_valid t);
      Ret t
  | None => Panic
  end.

(** [find]: a link is followed relative to its directory, whatever its
    target is. *)
Fixpoint find_loop (fuel : nat) (path : list Z) (o_directory o_ask_symlink : bool) (loop_times : Z)
    : ST estate (result Ext4File SysErrNo) :=
  match fuel with
  | O => st_panic
  | S fuel' =>
      dir ← check_inode_exist path EXT4_DE_DIR;
      if (dir : bool) then mret (Ok (Ext4File_new path EXT4_DE_DIR))
      else
        reg ← check_inode_exist path EXT4_DE_REG_FILE;
        if (reg : bool) then
          if o_directory then mret (Err ENOTDIR) else mret (Ok (Ext4File_new path EXT4_DE_REG_FILE))
        else
          sym ← check_inode_exist path EXT4_DE_SYMLINK;
          if (sym : bool) then
            if o_ask_symlink then mret (Ok (Ext4File_new path EXT4_DE_SYMLINK))
            else if MAX_SYMLINK_DEPTH <=? loop_times then mret (Err ELOOP)
            else
              bs <-? fw_read_link (Ext4File_new path EXT4_DE_SYMLINK) 256;
              t ← st_lift (link_target bs);
              i ← st_lift (unwrap (rfind_slash path 0));
              find_loop fuel' (take i path ++ [SLASH] ++ t) o_directory o_ask_symlink (loop_times + 1)
          else mret (Err ENOENT)
  end.
Definition fw_find (path : list Z) (o_directory o_ask_symlink : bool)
    : ST estate (result Ext4File SysErrNo) :=
  find_loop (Z.to_nat (MAX_SYMLINK_DEPTH + 1)) path o_directory o_ask_symlink 0.

(** [read_dentry]: the bytes of the entries from [off] on that fit into [len]
    bytes, and the offset of the next one. *)
Definition fw_read_dentry (f : Ext4File) (off len : Z) : ST estate (result (list Z * Z) SysErrNo) :=
  r ← read_dir_from f off;
  match from_i32 r with
  | Err e => mret (Err e)
  | Ok entries =>
      let '(de, res, f_off) := fit_entries entries len 0 (-1) [] in
      _ ← st_lift (rassert (negb (res =? 0)));
      mret (Ok (de, f_off))
  end.

(** ** Metadata *)

Definition fw_link_cnt (f : Ext4File) : ST estate (result Z SysErrNo) :=
  r ← links_cnt f;
  mret (match r with
        | Err e => if e =? 2 then Ok 0 else Err (errno_from_primitive e)
        | Ok n => Ok n
        end).
Definition fw_fstat (f : Ext4File) : ST estate Kstat :=
  r ← file_fstat f;
  a ← st_lift (result_unwrap r);
  mret (mkKstat (st_dev a) (st_ino a) (st_mode a) (st_nlink a) (st_uid a) (st_gid a) 0
          (st_size a) (st_blksize a) (st_blocks a) (st_atime a) 0 (st_mtime a) 0 (st_ctime a) 0).
Definition fw_is_dir (f : Ext4File) : bool := bool_decide (this_type f = EXT4_DE_DIR).
Definition fw_set_owner (f : Ext4File) (uid gid : Z) : ST estate (result Z SysErrNo) :=
  r ← set_owner f uid gid; mret (from_i32 r).
Definition fw_set_timestamps (f : Ext4File) (atime mtime ctime : option Z)
    : ST estate (result Z SysErrNo) :=
  r ← set_time f atime mtime ctime; mret (from_i32 r).
Definition fw_fmode (f : Ext4File) : ST estate (result Z SysErrNo) :=
  r ← file_mode f; mret (from_i32 r).
Definition fw_fmode_set (f : Ext4File) (mode : Z) : ST estate (result Z SysErrNo) :=
  r ← file_mode_set f mode; mret (from_i32 r).
Definition fw_sync (f : Ext4File) : ST estate unit := _ ← file_cache_flush f; mret tt.

(** [Drop for FileWrapper] closes the descriptor. *)
Definition fw_drop (f : Ext4File) : Ext4File := snd (file_close f).

End nodes.
