(* ===== verification/Ext4Spec.v ===== *)
(** * The file cache is transparent (os/lwext4_rust/src/file.rs,
    os/src/fs/ext4/ops.rs)

    The laws that the cache relies on are the class [Lwext4Laws]: what the C
    library does with a regular file, on a disk that reports no errors.
    [ext4_fwrite] can refuse (a file system mounted read-only, no free blocks),
    so that the law of a write is about a disk on which the file [fits].  Under
    the invariant [cache_inv] the contents of a file are those of its cache, or
    of the file system when it is not cached; reading and writing inside a file
    act on the contents as on a plain list of bytes, whatever is evicted on the
    way.  Outside these bounds the cache is not transparent: what does not fit
    on the disk is lost when it is evicted, reading beyond the end makes a file
    longer, a renamed file loses what was written to it, and shortening a file
    is forgotten when it is evicted. *)

From S2P Require Import Prelude Config Errno Path FileIO FileSpec FileCache.
From S2P Require Import Ext4Ops.

(** ** The C library *)

Class Lwext4Laws (D : Type) `{!Lwext4 D} : Type := {
  (** The contents of the regular file at a path. *)
  files : D -> list Z -> option (list Z);
  (** A descriptor refers to the file at a path. *)
  refers : ext4_file -> list Z -> D -> Prop;
  (** The file system is mounted for writing, and it has the blocks to fill
      every file [q] up to [L q] bytes (or its own length, if that is more),
      all of them at the same time. *)
  fits : D -> (list Z -> Z) -> Prop;
  law_open : forall x p c m d, files x p = Some c -> m = M_rb \/ m = M_rp ->
    exists d', c_fopen p m d x = (EOK, d', x) /\ refers d' p x /\
      d_fsize d' = zlen c /\ d_fpos d' = 0;
  law_open_none : forall x p m d, files x p = None -> m = M_rb \/ m = M_rp ->
    exists r d', c_fopen p m d x = (r, d', x) /\ r <> EOK;
  law_open_trunc : forall x L p c d, fits x L -> files x p = Some c ->
    exists d' x', c_fopen p M_wp d x = (EOK, d', x') /\ refers d' p x' /\
      fits x' L /\ files x' p = Some [] /\ forall q, q <> p -> files x' q = files x q;
  law_seek : forall x p d, refers d p x -> refers (snd (ext4_fseek d 0 0)) p x;
  law_read : forall x p c d n, files x p = Some c -> refers d p x -> 0 <= d_fpos d <= zlen c -> 0 <= n ->
    exists d', c_fread d n x = (EOK, read_part c (d_fpos d) n, d');
  law_write : forall x L p c d bs, fits x L -> files x p = Some c -> refers d p x ->
    0 <= d_fpos d <= zlen c -> d_fpos d + zlen bs <= Z.max (zlen c) (L p) ->
    exists d' x', c_fwrite d bs x = (EOK, zlen bs, d', x') /\ fits x' L /\
      files x' p = Some (overwrite c (d_fpos d) bs) /\
      forall q, q <> p -> files x' q = files x q;
  law_truncate : forall x L p c d n, fits x L -> files x p = Some c -> refers d p x -> 0 <= n ->
    exists d' x', c_ftruncate d n x = (EOK, d', x') /\
      files x' p = Some (take (Z.to_nat n) c) /\ forall q, q <> p -> files x' q = files x q;
  law_rename : forall x p q c x', files x p = Some c -> files x q = None -> p <> q ->
    c_frename p q x = (EOK, x') ->
      files x' q = Some c /\ files x' p = None /\
      forall r, r <> p -> r <> q -> files x' r = files x r
}.

Lemma overwrite_all (c bs : list Z) : zlen c <= zlen bs -> overwrite c 0 bs = bs.
Proof.
  intros H. unfold overwrite. change (Z.to_nat 0) with 0%nat. rewrite take_0, drop_ge, app_nil_r; [done|].
  unfold zlen in H. lia.
Qed.

Lemma read_part_all (c : list Z) : read_part c 0 (zlen c) = c.
Proof.
  unfold read_part, zlen. rewrite Nat2Z.id. change (Z.to_nat 0) with 0%nat.
  rewrite drop_0. apply take_ge. lia.
Qed.

Section spec.
Context {D : Type} `{!Lwext4 D} `{!Lwext4Laws D}.
Variable heap_bytes : list Z -> Z -> list Z.
Hypothesis heap_len : forall p n, 0 <= n -> zlen (heap_bytes p n) = n.
(** How long the files may become. *)
Variable L : list Z -> Z.

Notation estate := (ext4st D).

(** The contents of a cache, and of a file. *)
Definition cached (c : VFileCache) : list Z := take (Z.to_nat (vc_size c)) (vc_data c).
Definition abs (s : estate) (p : list Z) : option (list Z) :=
  match CACHE_TABLE s !! p with
  | Some c => Some (cached c)
  | None => files (e_disk s) p
  end.

(** A cache of a file whose contents on the disk are [c0]: a modified cache
    is at least as long as the file, so that writing it back replaces the
    contents, and fits on the disk, where the file may have [l] bytes; a clean
    one is equal to it. *)
Record cache_ok (l : Z) (c : VFileCache) (c0 : list Z) : Prop := {
  ck_size : 0 <= vc_size c <= zlen (vc_data c);
  ck_len : vc_size c < 2 ^ 61;
  ck_disk : if vc_modified c then zlen c0 <= vc_size c <= Z.max (zlen c0) l else cached c = c0
}.

Record cache_inv (s : estate) : Prop := {
  iv_cache : forall p c, CACHE_TABLE s !! p = Some c ->
    exists c0, files (e_disk s) p = Some c0 /\ cache_ok (L p) c c0;
  iv_fits : fits (e_disk s) L;
  iv_small : forall p c, files (e_disk s) p = Some c -> zlen c < 2 ^ 61;
  iv_fifo : zlen (FIFO_TABLE s) <= FIFO_SIZE
}.

Lemma zlen_cached l c c0 : cache_ok l c c0 -> zlen (cached c) = vc_size c.
Proof. intros [H _ _]. unfold cached, zlen in *. rewrite length_take. lia. Qed.

(** ** Eviction *)

Lemma write_back_run v s : cache_inv s -> exists x',
  write_back_cache v s = Ret (tt, mkE x' (CACHE_TABLE s) (FIFO_TABLE s) (FIFO_SET s)) /\
  fits x' L /\
  files x' v = match CACHE_TABLE s !! v with
               | Some c => Some (cached c)
               | None => files (e_disk s) v
               end /\
  forall q, q <> v -> files x' q = files (e_disk s) q.
Proof.
  intros Hi. unfold write_back_cache, if_cache, get_cache, fopen, set_disk. st_unfold.
  destruct s as [x tab fifo fset]. cbn [CACHE_TABLE e_disk FIFO_TABLE FIFO_SET].
  destruct (tab !! v) as [c|] eqn:Ec.
  2:{ rewrite bool_decide_eq_false_2 by (by intros [? ?]). exists x. split_and!; try done. apply (iv_fits _ Hi). }
  rewrite bool_decide_eq_true_2 by (by eexists). cbv beta iota. cbn [CACHE_TABLE]. rewrite Ec. cbv beta iota.
  destruct (iv_cache _ Hi v c Ec) as (c0 & E0 & Hc). cbn [e_disk] in E0.
  pose proof (zlen_cached _ _ _ Hc) as Hz. destruct Hc as [Hs Hl Hd].
  revert Hd. destruct (vc_modified c); intros Hd; [|exists x; rewrite E0, Hd; split_and!; try done; apply (iv_fits _ Hi)].
  destruct (law_open x v c0 M_rp desc0 E0) as (d & Eo & Hr & Hfs & Hfp); [by right|].
  change (flags_to_cstring 2) with M_rp. cbn [e_disk]. rewrite Eo. cbv beta iota. cbn [e_disk]. assert (snd (ext4_fseek d 0 0) = mkDesc (d_mp d) (d_inode d) (d_flags d) (d_fsize d) 0) as Esk.
  { unfold ext4_fseek. cbn. rewrite Hfs. pose proof (zlen_nonneg c0).
    destruct (Z.ltb_spec (zlen c0) 0); [lia|done]. }
  rewrite (proj2 (Z.leb_le _ _)) by lia. cbn [rassert].
  destruct (law_write x L v c0 (snd (ext4_fseek d 0 0)) (cached c) (iv_fits _ Hi) E0 (law_seek _ _ _ Hr))
    as (d' & x' & Ew & Hx & Hv & Hq).
  { rewrite Esk. cbn. pose proof (zlen_nonneg c0). lia. }
  { rewrite Esk. cbn [d_fpos]. lia. }
  fold (cached c). rewrite Ew. cbv beta iota.
  exists x'. split; [done|]. split; [done|]. split; [|done]. rewrite Hv, Esk. cbn [d_fpos].
  by rewrite overwrite_all by lia.
Qed.

(** Nothing of a file changes but where it is kept. *)
Definition same_files (s s' : estate) : Prop := forall q, abs s' q = abs s q.

(** Giving up the cache of a file that was written back. *)
Lemma evict_inv v x' s q fs : cache_inv s -> zlen q <= FIFO_SIZE -> fits x' L ->
  files x' v = match CACHE_TABLE s !! v with
               | Some c => Some (cached c)
               | None => files (e_disk s) v
               end ->
  (forall q, q <> v -> files x' q = files (e_disk s) q) ->
  let s' := mkE x' (delete v (CACHE_TABLE s)) q fs in
  cache_inv s' /\ same_files s s'.
Proof.
  intros Hi Hq Hx Hv Hn s'. split; [constructor|].
  - intros p c. cbn. rewrite lookup_delete_Some. intros [Hne Hc].
    rewrite Hn by done. by apply (iv_cache s Hi).
  - done.
  - intros p c. cbn. destruct (decide (p = v)) as [->|Hne].
    + rewrite Hv. destruct (CACHE_TABLE s !! v) as [cc|] eqn:Ec; [|apply (iv_small s Hi)].
      intros [= <-]. destruct (iv_cache s Hi v cc Ec) as (c0 & _ & Hc).
      rewrite (zlen_cached _ _ _ Hc). apply Hc.
    + rewrite Hn by done. apply (iv_small s Hi).
  - done.
  - intros p. unfold abs, s'. cbn. destruct (decide (p = v)) as [->|Hne].
    + rewrite lookup_delete_eq. done.
    + rewrite lookup_delete_ne by done. by rewrite Hn.
Qed.

Lemma make_room_run s p : cache_inv s -> CACHE_TABLE s !! p = None ->
  exists s', make_room s = Ret (tt, s') /\ cache_inv s' /\ same_files s s' /\
    CACHE_TABLE s' !! p = None /\ zlen (FIFO_TABLE s') < FIFO_SIZE.
Proof.
  intros Hi Hp. unfold make_room. st_unfold. pose proof (iv_fifo s Hi) as Hf.
  destruct (Z.eqb_spec (zlen (FIFO_TABLE s)) FIFO_SIZE) as [E|Hne].
  2:{ exists s. split_and!; [done|done|done|done|lia]. }
  destruct (FIFO_TABLE s) as [|v q] eqn:Eq; [done|]. rewrite zlen_cons in E.
  set (s1 := mkE (e_disk s) (CACHE_TABLE s) q (FIFO_SET s)).
  assert (cache_inv s1) as Hi1.
  { constructor; [apply (iv_cache s Hi)|apply (iv_fits s Hi)|apply (iv_small s Hi)|cbn; lia]. }
  change (set_fifo q s) with (Ret (tt, s1)). cbv beta iota.
  destruct (write_back_run v s1 Hi1) as (x' & -> & Hx & Hv & Hn). cbv beta iota.
  cbn [CACHE_TABLE FIFO_TABLE FIFO_SET e_disk s1] in *.
  destruct (evict_inv v x' s q (FIFO_SET s ∖ {[v]})) as [Hi2 Hs2]; [done|lia|done|done|done|].
  unfold if_cache, st_gets. cbn [CACHE_TABLE].
  destruct (CACHE_TABLE s !! v) as [c|] eqn:Ec.
  - rewrite bool_decide_eq_true_2 by (by eexists). eexists. split; [reflexivity|].
    split_and!; [exact Hi2|exact Hs2|cbn; by rewrite lookup_delete_None; right|cbn; lia].
  - rewrite bool_decide_eq_false_2 by (by intros [? ?]). eexists. split; [reflexivity|].
    rewrite delete_id in * by done. split_and!; [|exact Hs2|done|cbn; lia].
    destruct Hi2. by constructor.
Qed.

Lemma insert_fifo_run s p : cache_inv s -> CACHE_TABLE s !! p = None ->
  exists s', insert_fifo p s = Ret (tt, s') /\ cache_inv s' /\ same_files s s' /\
    CACHE_TABLE s' !! p = None.
Proof.
  intros Hi Hp. unfold insert_fifo.
  erewrite st_run; [|unfold if_fifo_set; reflexivity]. cbv beta.
  destruct (bool_decide (p ∈ FIFO_SET s)); [by exists s|].
  destruct (make_room_run s p Hi Hp) as (s1 & E & Hi1 & Hs1 & Hp1 & Hl).
  rewrite (st_run _ _ _ _ _ E). eexists. split; [reflexivity|].
  split_and!; [|exact Hs1|exact Hp1]. destruct Hi1. constructor; [done|done|done|].
  cbn. rewrite zlen_app. change (zlen [p]) with 1. lia.
Qed.

(** ** Reading and writing *)

(** A file keeps its name and type; [f'] may have another descriptor. *)
Definition same_file (f f' : Ext4File) : Prop :=
  file_path f' = file_path f /\ this_type f' = this_type f.

Lemma aligned_down_bounds a : 0 <= a -> a - PAGE_SIZE < aligned_down a <= a.
Proof.
  intros Ha. unfold aligned_down. change 0xfff with (Z.ones 12).
  rewrite Z.ldiff_ones_r, Z.shiftr_div_pow2, Z.shiftl_mul_pow2 by lia. unfold PAGE_SIZE. lia.
Qed.

Lemma insert_cache_inv s p c c0 : cache_inv s -> files (e_disk s) p = Some c0 -> cache_ok (L p) c c0 ->
  cache_inv (mkE (e_disk s) (<[p := c]> (CACHE_TABLE s)) (FIFO_TABLE s) (FIFO_SET s)).
Proof.
  intros Hi H0 Hc. constructor; [|apply Hi..]. intros q cc. cbn.
  rewrite lookup_insert_Some. intros [[<- <-]|[_ Hq]]; [by exists c0|by apply (iv_cache s Hi)].
Qed.

Lemma abs_insert s p c q :
  abs (mkE (e_disk s) (<[p := c]> (CACHE_TABLE s)) (FIFO_TABLE s) (FIFO_SET s)) q =
  if decide (q = p) then Some (cached c) else abs s q.
Proof.
  unfold abs. cbn. destruct (decide (q = p)) as [->|Hne]; [by rewrite lookup_insert_eq|].
  by rewrite lookup_insert_ne.
Qed.

Lemma abs_disk s p c : cache_inv s -> abs s p = Some c -> exists c0, files (e_disk s) p = Some c0.
Proof.
  intros Hi. unfold abs. destruct (CACHE_TABLE s !! p) as [cc|] eqn:E; [|by eexists].
  destruct (iv_cache s Hi p cc E) as (c0 & H & _). by eexists.
Qed.

Lemma abs_small s p c : cache_inv s -> abs s p = Some c -> zlen c < 2 ^ 61.
Proof.
  intros Hi. unfold abs. destruct (CACHE_TABLE s !! p) as [cc|] eqn:E; [|apply (iv_small s Hi)].
  intros [= <-]. destruct (iv_cache s Hi p cc E) as (c0 & _ & Hc). rewrite (zlen_cached _ _ _ Hc). apply Hc.
Qed.

(** Caching the contents of a file changes nothing. *)
Lemma enter_cache s p c data : cache_inv s -> CACHE_TABLE s !! p = None ->
  files (e_disk s) p = Some c -> zlen c <= zlen data -> take (length c) data = c ->
  let cc := mkCache data 0 false (zlen c) in
  let s' := mkE (e_disk s) (<[p := cc]> (CACHE_TABLE s)) (FIFO_TABLE s) (FIFO_SET s) in
  cached cc = c /\ cache_inv s' /\ same_files s s'.
Proof.
  intros Hi Hn Hc Hd Ht cc s'. pose proof (iv_small s Hi p c Hc). pose proof (zlen_nonneg c).
  assert (cached cc = c) as Hcc by (unfold cached, cc, zlen; cbn [vc_size vc_data]; by rewrite Nat2Z.id).
  split; [done|]. split; [by apply (insert_cache_inv _ _ _ c); [| |split; cbn]|].
  intros q. unfold s'. rewrite abs_insert. destruct (decide (q = p)) as [->|]; [|done].
  unfold abs. by rewrite Hn, Hcc, Hc.
Qed.

Lemma fseek_start d : 0 <= d_fsize d ->
  snd (ext4_fseek d 0 0) = mkDesc (d_mp d) (d_inode d) (d_flags d) (d_fsize d) 0.
Proof. intros H. unfold ext4_fseek. cbn. destruct (Z.ltb_spec (d_fsize d) 0); [lia|done]. Qed.

Lemma check_cached_run f s p c : cache_inv s -> abs s p = Some c ->
  exists f' s' cc, check_cached heap_bytes f p s = Ret (f', s') /\ cache_inv s' /\ same_files s s' /\
    CACHE_TABLE s' !! p = Some cc /\ cached cc = c /\ same_file f f'.
Proof.
  intros Hi Ha. unfold check_cached, if_cache. erewrite st_run; [|reflexivity]. cbv beta.
  destruct (CACHE_TABLE s !! p) as [cc|] eqn:Ec.
  { rewrite bool_decide_eq_true_2 by (by eexists). exists f, s, cc.
    split_and!; try done. unfold abs in Ha. rewrite Ec in Ha. by injection Ha. }
  rewrite bool_decide_eq_false_2 by (by intros [? ?]).
  destruct (insert_fifo_run s p Hi Ec) as (s1 & E1 & Hi1 & Hs1 & Hp1).
  rewrite (st_run _ _ _ _ _ E1). assert (files (e_disk s1) p = Some c) as Hc.
  { specialize (Hs1 p). unfold abs in Hs1, Ha. rewrite Hp1, Ec in *. congruence. }
  destruct (law_open (e_disk s1) p c M_rp (file_desc f) Hc) as (d & Eo & Hr & Hfs & Hfp); [by right|].
  pose proof (iv_small s1 Hi1 p c Hc) as Hsm. pose proof (zlen_nonneg c) as Hz.
  assert (fopen p (flags_to_cstring 2) (file_desc f) s1 = Ret ((EOK, d), s1)) as Efo.
  { unfold fopen. st_unfold. change (flags_to_cstring 2) with M_rp. rewrite Eo. by destruct s1. }
  rewrite (st_run _ _ _ _ _ Efo). cbv beta iota. unfold ext4_fsize. rewrite Hfs.
  pose proof (aligned_down_bounds (zlen c) Hz) as Hal.
  rewrite uadd_Ret by (unfold u64_bound, PAGE_SIZE in *; lia).
  erewrite st_run; [|reflexivity]. cbv beta iota.
  assert (forall data f', zlen c <= zlen data -> take (length c) data = c -> same_file f f' ->
    exists f'' s' cc, (_ ← insert_cache p (mkCache data 0 false (zlen c)); mret f') s1 = Ret (f'', s') /\
      cache_inv s' /\ same_files s s' /\ CACHE_TABLE s' !! p = Some cc /\ cached cc = c /\
      same_file f f'') as Hins.
  { intros data f' Hd Ht Hf. eexists _, _, _. split; [reflexivity|].
    destruct (enter_cache s1 p c data Hi1 Hp1 Hc Hd Ht) as (H1 & H2 & H3).
    split; [exact H2|]. split; [intros q; by rewrite (H3 q)|].
    split; [apply lookup_insert_eq|]. by split. }
  destruct (Z.eqb_spec (zlen c) 0) as [H0|H0].
  - apply Hins; [rewrite heap_len by lia; lia| |done].
    unfold zlen in H0. destruct c; [done|cbn in H0; lia].
  - erewrite st_run; [|reflexivity]. cbv beta.
    destruct (law_read (e_disk s1) p c (snd (ext4_fseek d 0 0)) (zlen c) Hc) as (d' & Erd);
      [by apply law_seek|rewrite fseek_start by lia; cbn; lia|done|].
    rewrite Erd, fseek_start by lia. cbn [d_fpos]. rewrite read_part_all. cbv beta iota.
    apply Hins; [rewrite zlen_app; pose proof (zlen_nonneg (drop (length c) (heap_bytes p (aligned_down (zlen c) + PAGE_SIZE)))); lia|apply take_app_length|done].
Qed.

Lemma get_cache_run (s : estate) p cc : CACHE_TABLE s !! p = Some cc -> get_cache p s = Ret (cc, s).
Proof. intros H. unfold get_cache. st_unfold. by rewrite H. Qed.

Lemma file_open_run f s c flags : abs s (file_path f) = Some c -> cache_inv s ->
  flags = O_RDONLY \/ flags = O_RDWR ->
  exists f', file_open f (file_path f) flags s = Ret ((Ok EOK, f'), s) /\ same_file f f'.
Proof.
  intros Ha Hi Hf. destruct (abs_disk s _ c Hi Ha) as [c0 H0]. unfold file_open.
  destruct (_ && _ && _); [by exists f|].
  destruct (law_open (e_disk s) (file_path f) c0 (flags_to_cstring flags) (file_desc f) H0)
    as (d & Eo & _); [destruct Hf as [-> | ->]; [left|right]; reflexivity|].
  assert (fopen (file_path f) (flags_to_cstring flags) (file_desc f) s = Ret ((EOK, d), s)) as E.
  { unfold fopen. st_unfold. rewrite Eo. by destruct s. }
  rewrite (st_run _ _ _ _ _ E). by eexists.
Qed.

Lemma file_seek_run f s c off : cache_inv s -> abs s (file_path f) = Some c ->
  this_type f <> EXT4_DE_DIR -> 0 <= off <= zlen c ->
  exists f' s' cc, file_seek heap_bytes f off SEEK_SET s = Ret ((Ok EOK, f'), s') /\
    cache_inv s' /\ same_files s s' /\ same_file f f' /\
    CACHE_TABLE s' !! file_path f = Some cc /\ cached cc = c /\ vc_offset cc = off.
Proof.
  intros Hi Ha Ht Ho. unfold file_seek. rewrite bool_decide_eq_true_2 by done.
  destruct (check_cached_run f s _ c Hi Ha) as (f1 & s1 & cc & E & Hi1 & Hs1 & Hcc & Hc & Hf1 & Hf2).
  rewrite (st_run _ _ _ _ _ E), Hf1.
  destruct (iv_cache s1 Hi1 _ cc Hcc) as (c0 & H0 & Hok).
  rewrite (st_run _ _ _ _ _ (get_cache_run _ _ _ Hcc)). pose proof (zlen_cached _ _ _ Hok) as Hz. rewrite Hc in Hz.
  destruct (Z.ltb_spec (vc_size cc) off); [lia|]. erewrite st_run; [|reflexivity]. cbv beta.
  set (cc' := mkCache (vc_data cc) off (vc_modified cc) (vc_size cc)).
  eexists f1, _, cc'. split; [reflexivity|]. split_and!.
  - apply (insert_cache_inv _ _ _ c0); [done|done|]. destruct Hok. by constructor.
  - intros q. rewrite <- (Hs1 q), abs_insert. destruct (decide (q = file_path f)) as [->|]; [|done].
    unfold abs. by rewrite Hcc.
  - done.
  - cbn [CACHE_TABLE]. apply lookup_insert_eq.
  - done.
  - done.
Qed.

Lemma file_read_run f s c off cc n : cache_inv s -> CACHE_TABLE s !! file_path f = Some cc ->
  cached cc = c -> vc_offset cc = off -> 0 <= off <= zlen c -> 0 <= n -> off + n < 2 ^ 64 ->
  file_read f n s = Ret ((Ok (read_part c off n), f), s).
Proof.
  intros Hi Hcc Hc Hoff Ho Hn Hb. unfold file_read, if_cache. erewrite st_run; [|reflexivity]. cbv beta.
  rewrite bool_decide_eq_true_2 by (by eexists).
  rewrite (st_run _ _ _ _ _ (get_cache_run _ _ _ Hcc)). destruct (iv_cache s Hi _ cc Hcc) as (c0 & H0 & Hok).
  pose proof (zlen_cached _ _ _ Hok) as Hz. rewrite Hc in Hz. destruct Hok as [Hs _ _].
  rewrite Hoff, uadd_Ret by (unfold u64_bound; lia). erewrite st_run; [|reflexivity]. cbv beta iota.
  rewrite usub_Ret by lia. erewrite st_run; [|reflexivity]. cbv beta.
  rewrite (proj2 (Z.leb_le _ _)) by lia. cbn [rassert]. erewrite st_run; [|reflexivity]. cbv beta.
  assert (take (Z.to_nat (Z.min (off + n) (vc_size cc) - off)) (drop (Z.to_nat off) (vc_data cc)) =
    read_part c off n) as ->; [|done].
  unfold read_part. rewrite <- Hc. unfold cached. rewrite skipn_firstn_comm, take_take. f_equal. lia.
Qed.

Lemma cached_store l a size bs size' :
  0 <= a <= size -> size <= zlen l -> a + zlen bs <= zlen l -> size' = Z.max size (a + zlen bs) ->
  take (Z.to_nat size') (take (Z.to_nat a) l ++ bs ++ drop (Z.to_nat (a + zlen bs)) l) =
  overwrite (take (Z.to_nat size) l) a bs.
Proof.
  intros Ha Hs Hb ->. unfold overwrite, zlen in *.
  replace (Z.to_nat a - length (take (Z.to_nat size) l))%nat with 0%nat by (rewrite length_take; lia).
  cbn [replicate]. rewrite app_nil_r, take_take, Nat.min_l by lia.
  rewrite firstn_app, (take_ge (take _ l)) by (rewrite length_take; lia). f_equal.
  rewrite length_take, firstn_app, (take_ge bs) by lia. f_equal.
  rewrite skipn_firstn_comm. replace (Z.to_nat (a + Z.of_nat (length bs))) with (Z.to_nat a + length bs)%nat by lia.
  f_equal. lia.
Qed.

Lemma zlen_vec_resize l n : 0 <= n -> zlen (vec_resize l n) = n.
Proof. intros. unfold vec_resize, zlen. rewrite length_app, length_take, length_replicate. lia. Qed.

Lemma take_vec_resize l n k : 0 <= k <= n -> k <= zlen l ->
  take (Z.to_nat k) (vec_resize l n) = take (Z.to_nat k) l.
Proof.
  intros Hk Hl. unfold vec_resize, zlen in *. rewrite take_app_le by (rewrite length_take; lia).
  rewrite take_take. f_equal. lia.
Qed.

(** [writebuf] inside a file: the vector grows when it must. *)
Lemma writebuf_run l c c0 bs : cache_ok l c c0 -> 0 <= vc_offset c <= vc_size c ->
  vc_offset c + zlen bs < 2 ^ 61 -> vc_offset c + zlen bs <= Z.max (vc_size c) l ->
  exists n c', writebuf c bs = Ret (n, c') /\ cache_ok l c' c0 /\
    cached c' = overwrite (cached c) (vc_offset c) bs.
Proof.
  intros Hok Ho Hb Hfit. pose proof (zlen_cached _ _ _ Hok) as Hz. destruct Hok as [Hs Hl Hd].
  pose proof (zlen_nonneg bs). set (end_ := vc_offset c + zlen bs) in *.
  assert (zlen c0 <= vc_size c <= Z.max (zlen c0) l) as H0.
  { destruct (vc_modified c); [done|]. rewrite <- Hd. lia. }
  pose proof (aligned_down_bounds end_ ltac:(lia)) as Hal.
  assert (exists data, (if zlen (vc_data c) <? end_ then
            n ← uadd (aligned_down end_) PAGE_SIZE;
            Ret (vec_resize (vc_data c) n)
          else Ret (vc_data c)) = Ret data /\ vc_size c <= zlen data /\ end_ <= zlen data /\
          take (Z.to_nat (vc_size c)) data = cached c) as (data & Ed & D1 & D2 & D3).
  { destruct (Z.ltb_spec (zlen (vc_data c)) end_); [|exists (vc_data c); split_and!; [done|lia|lia|done]].
    rewrite uadd_Ret by (unfold u64_bound, PAGE_SIZE in *; lia). eexists. split; [reflexivity|].
    rewrite zlen_vec_resize by lia. split; [lia|]. split; [lia|]. apply take_vec_resize; lia. }
  unfold writebuf. rewrite uadd_Ret by (unfold u64_bound; lia). fold end_. cbn [mbind outcome_bind].
  setoid_rewrite Ed. cbn [mbind outcome_bind]. unfold vec_store. fold end_.
  rewrite (proj2 (Z.leb_le _ _)) by lia. cbn. eexists _, _. split; [reflexivity|].
  assert ((if vc_size c <? end_ then end_ else vc_size c) = Z.max (vc_size c) end_) as ->.
  { destruct (Z.ltb_spec (vc_size c) end_); lia. }
  split.
  - split; cbn; [|lia|lia]. unfold zlen in *. rewrite !length_app, length_take, length_drop. lia.
  - unfold cached at 1. cbn [vc_size vc_data]. rewrite <- D3. by apply cached_store.
Qed.

Lemma file_write_run f s c cc bs : cache_inv s -> CACHE_TABLE s !! file_path f = Some cc ->
  cached cc = c -> 0 <= vc_offset cc <= zlen c -> vc_offset cc + zlen bs < 2 ^ 61 ->
  vc_offset cc + zlen bs <= Z.max (zlen c) (L (file_path f)) ->
  exists s', file_write f bs s = Ret ((Ok (zlen bs), f), s') /\ cache_inv s' /\
    abs s' (file_path f) = Some (overwrite c (vc_offset cc) bs) /\
    forall q, q <> file_path f -> abs s' q = abs s q.
Proof.
  intros Hi Hcc Hc Ho Hb Hfit. unfold file_write, if_cache. erewrite st_run; [|reflexivity]. cbv beta.
  rewrite bool_decide_eq_true_2 by (by eexists).
  rewrite (st_run _ _ _ _ _ (get_cache_run _ _ _ Hcc)). destruct (iv_cache s Hi _ cc Hcc) as (c0 & H0 & Hok).
  pose proof (zlen_cached _ _ _ Hok) as Hz. rewrite Hc in Hz.
  destruct (writebuf_run _ cc c0 bs Hok ltac:(lia) Hb ltac:(lia)) as (n & cc' & -> & Hok' & Hc').
  erewrite st_run; [|reflexivity]. cbv beta iota. eexists. split; [reflexivity|].
  split; [by apply (insert_cache_inv _ _ _ c0)|]. split.
  - by rewrite abs_insert, decide_True, Hc', Hc.
  - intros q Hq. by rewrite abs_insert, decide_False.
Qed.

(** ** The operations of the inode *)

Lemma try_f_run {A B E} (k : A -> Ext4File -> ST estate (result B E * Ext4File)) m s a f s1 :
  m s = Ret ((Ok a, f), s1) -> try_f k m s = k a f s1.
Proof. intros H. unfold try_f. by rewrite (st_run _ _ _ _ _ H). Qed.

Lemma fw_read_at_run f s c off n : cache_inv s -> abs s (file_path f) = Some c ->
  this_type f <> EXT4_DE_DIR -> 0 <= off <= zlen c -> 0 <= n -> off + n < 2 ^ 64 ->
  exists f' s', fw_read_at heap_bytes f off n s = Ret ((Ok (read_part c off n), f'), s') /\
    cache_inv s' /\ same_files s s' /\ same_file f f'.
Proof.
  intros Hi Ha Ht Ho Hn Hb. unfold fw_read_at.
  destruct (file_open_run f s c O_RDONLY Ha Hi) as (f1 & E1 & Hp1 & Ht1); [by left|].
  destruct (file_seek_run f1 s c off Hi) as (f2 & s2 & cc & E2 & Hi2 & Hs2 & [Hp2 Ht2] & Hcc & Hc & Hof);
    [by rewrite Hp1|by rewrite Ht1|done|].
  assert (file_read f2 n s2 = Ret ((Ok (read_part c off n), f2), s2)) as E3.
  { eapply file_read_run; rewrite ?Hp2; eauto. }
  erewrite st_run; [|by rewrite (try_f_run _ _ _ _ _ _ E1), (try_f_run _ _ _ _ _ _ E2), E3].
  exists f2, s2. split; [done|]. split_and!; [done|done|]. split; congruence.
Qed.

Lemma fw_write_at_run f s c off bs : cache_inv s -> abs s (file_path f) = Some c ->
  this_type f <> EXT4_DE_DIR -> 0 <= off <= zlen c -> off + zlen bs < 2 ^ 61 ->
  off + zlen bs <= Z.max (zlen c) (L (file_path f)) ->
  exists f' s', fw_write_at heap_bytes f off bs s = Ret ((Ok (zlen bs), f'), s') /\
    cache_inv s' /\ abs s' (file_path f) = Some (overwrite c off bs) /\
    (forall q, q <> file_path f -> abs s' q = abs s q) /\ same_file f f'.
Proof.
  intros Hi Ha Ht Ho Hb Hfit. unfold fw_write_at.
  destruct (file_open_run f s c O_RDWR Ha Hi) as (f1 & E1 & Hp1 & Ht1); [by right|].
  destruct (file_seek_run f1 s c off Hi) as (f2 & s2 & cc & E2 & Hi2 & Hs2 & [Hp2 Ht2] & Hcc & Hc & Hof);
    [by rewrite Hp1|by rewrite Ht1|done|].
  destruct (file_write_run f2 s2 c cc bs Hi2) as (s3 & E3 & Hi3 & Ha3 & Hq3);
    [by rewrite Hp2|done|lia|lia|rewrite Hp2, Hp1, Hof; lia|].
  rewrite (try_f_run _ _ _ _ _ _ E1), (try_f_run _ _ _ _ _ _ E2), (st_run _ _ _ _ _ E3).
  eexists _, s3. split; [reflexivity|].
  rewrite Hp2, Hp1, Hof in *. split_and!; [done|done| |].
  - intros q Hq. rewrite Hq3 by done. apply Hs2.
  - unfold file_close. destruct (d_mp (file_desc f2)); split; cbn; congruence.
Qed.

Lemma fw_size_run f s c : cache_inv s -> abs s (file_path f) = Some c ->
  this_type f = EXT4_DE_REG_FILE ->
  exists f' s', fw_size f s = Ret ((zlen c, f'), s') /\ cache_inv s' /\ same_files s s' /\ same_file f f'.
Proof.
  intros Hi Ha Ht. unfold fw_size. rewrite Ht. cbn [as_inode_type]. erewrite st_run; [|reflexivity].
  cbv beta. rewrite bool_decide_eq_true_2 by done.
  destruct (file_open_run f s c O_RDONLY Ha Hi) as (f1 & E1 & Hp1 & Ht1); [by left|].
  rewrite (st_run _ _ _ _ _ E1). cbv beta iota. erewrite st_run; [|reflexivity]. cbv beta.
  unfold file_size, if_cache. erewrite st_run; [|reflexivity]. cbv beta. rewrite Hp1.
  unfold abs in Ha. destruct (CACHE_TABLE s !! file_path f) as [cc|] eqn:Ec.
  - rewrite bool_decide_eq_true_2 by (by eexists).
    rewrite (st_run _ _ _ _ _ (get_cache_run _ _ _ Ec)). destruct (iv_cache s Hi _ _ Ec) as (c0 & _ & Hok).
    injection Ha as Ha. rewrite <- Ha, (zlen_cached _ _ _ Hok). by exists f1, s.
  - rewrite bool_decide_eq_false_2 by (by intros [? ?]).
    destruct (law_open (e_disk s) (file_path f) c M_rp (file_desc f1) Ha) as (d & Eo & _ & Hfs & _); [by right|].
    assert (fopen (file_path f) (flags_to_cstring 2) (file_desc f1) s = Ret ((EOK, d), s)) as Efo.
    { unfold fopen. st_unfold. change (flags_to_cstring 2) with M_rp. rewrite Eo. by destruct s. }
    rewrite (st_run _ _ _ _ _ Efo). cbv beta iota. unfold ext4_fsize. rewrite Hfs. by eexists _, s.
Qed.

(** ** Runs of operations

    Programs hold open files by number; an operation of the kernel reads,
    writes or measures one of them. *)

Inductive fs_op : Type := ORead (off n : Z) | OWrite (off : Z) (bs : list Z) | OSize.
Inductive fs_res : Type := RRead (r : result (list Z) SysErrNo) | RWrote (r : result Z Z) | RSize (n : Z).

Definition run_op (f : Ext4File) (o : fs_op) : ST estate (fs_res * Ext4File) :=
  match o with
  | ORead off n => '(r, f) ← fw_read_at heap_bytes f off n; mret (RRead r, f)
  | OWrite off bs => '(r, f) ← fw_write_at heap_bytes f off bs; mret (RWrote r, f)
  | OSize => '(n, f) ← fw_size f; mret (RSize n, f)
  end.

Fixpoint run_ops (hs : gmap Z Ext4File) (ops : list (Z * fs_op)) : ST estate (list fs_res) :=
  match ops with
  | [] => mret []
  | (h, o) :: ops =>
      match hs !! h with
      | None => st_panic
      | Some f => '(r, f) ← run_op f o; rs ← run_ops (<[h := f]> hs) ops; mret (r :: rs)
      end
  end.

(** The same operations on a plain map from paths to bytes; [None] when an
    operation starts beyond the end of its file or makes it larger than fits. *)
Definition plain_op (p : list Z) (σ : gmap (list Z) (list Z)) (o : fs_op)
    : option (fs_res * gmap (list Z) (list Z)) :=
  c ← σ !! p;
  match o with
  | ORead off n =>
      if (0 <=? off) && (off <=? zlen c) && (0 <=? n) && (off + n <? 2 ^ 64)
      then Some (RRead (Ok (read_part c off n)), σ) else None
  | OWrite off bs =>
      if (0 <=? off) && (off <=? zlen c) && (off + zlen bs <? 2 ^ 61)
         && (off + zlen bs <=? Z.max (zlen c) (L p))
      then Some (RWrote (Ok (zlen bs)), <[p := overwrite c off bs]> σ) else None
  | OSize => Some (RSize (zlen c), σ)
  end.

Fixpoint plain_ops (ps : gmap Z (list Z)) (σ : gmap (list Z) (list Z)) (ops : list (Z * fs_op))
    : option (list fs_res * gmap (list Z) (list Z)) :=
  match ops with
  | [] => Some ([], σ)
  | (h, o) :: ops =>
      p ← ps !! h;
      '(r, σ) ← plain_op p σ o;
      '(rs, σ) ← plain_ops ps σ ops;
      Some (r :: rs, σ)
  end.

(** The files of the state are those of the map. *)
Definition refines (s : estate) (σ : gmap (list Z) (list Z)) : Prop :=
  cache_inv s /\ forall p, abs s p = σ !! p.

Lemma run_op_refines f o s σ r σ' : refines s σ -> this_type f = EXT4_DE_REG_FILE ->
  plain_op (file_path f) σ o = Some (r, σ') ->
  exists f' s', run_op f o s = Ret ((r, f'), s') /\ refines s' σ' /\ same_file f f'.
Proof.
  intros [Hi Ha] Ht. unfold plain_op. rewrite <- Ha.
  destruct (abs s (file_path f)) as [c|] eqn:Ec; [cbn|done].
  destruct o as [off n|off bs|]; cbn [run_op].
  - destruct (_ && _) eqn:Eb; [|done]. intros [= <- <-]. rewrite !andb_true_iff in Eb.
    destruct (fw_read_at_run f s c off n) as (f' & s' & E & Hi' & Hs & Hf); [done|done|by rewrite Ht|lia..|].
    rewrite (st_run _ _ _ _ _ E). exists f', s'. split; [done|]. split; [|done].
    split; [done|]. intros q. by rewrite Hs.
  - destruct (_ && _) eqn:Eb; [|done]. intros [= <- <-]. rewrite !andb_true_iff in Eb.
    destruct (fw_write_at_run f s c off bs) as (f' & s' & E & Hi' & Hp & Hq & Hf); [done|done|by rewrite Ht|lia..|].
    rewrite (st_run _ _ _ _ _ E). exists f', s'. split; [done|]. split; [|done].
    split; [done|]. intros q. destruct (decide (q = file_path f)) as [->|Hne].
    + by rewrite Hp, lookup_insert_eq.
    + by rewrite Hq, lookup_insert_ne.
  - intros [= <- <-].
    destruct (fw_size_run f s c) as (f' & s' & E & Hi' & Hs & Hf); [done..|].
    rewrite (st_run _ _ _ _ _ E). exists f', s'. split; [done|]. split; [|done].
    split; [done|]. intros q. by rewrite Hs.
Qed.

(** C6: the cache of the ext4 files is transparent.  Whatever regular files
    are open and in whatever order they are read, written and measured inside
    their bounds, and whatever the cache of 30 files evicts and writes back on
    the way, each operation gives what it gives on a plain map from paths to
    bytes, and at the end the files are those of the map.  This is for a disk
    without errors that is mounted for writing and has room: some lengths [L]
    fit on it at the same time ([fits], part of [refines]), and no write makes
    a file [p] longer than [L p].  Without room the cache is not transparent
    ([eviction_loses_data]). *)
Theorem cache_transparent hs ps ops s σ rs σ' : refines s σ ->
  (forall h p, ps !! h = Some p -> exists f, hs !! h = Some f /\ file_path f = p /\
    this_type f = EXT4_DE_REG_FILE) ->
  plain_ops ps σ ops = Some (rs, σ') ->
  exists s', run_ops hs ops s = Ret (rs, s') /\ refines s' σ'.
Proof.
  revert hs s σ rs. induction ops as [|[h o] ops IH]; intros hs s σ rs Hr Hh; cbn [plain_ops run_ops].
  { intros [= <- <-]. by exists s. }
  destruct (ps !! h) as [p|] eqn:Ep; [cbn|done]. destruct (Hh h p Ep) as (f & -> & Hp & Ht).
  destruct (plain_op p σ o) as [[r σ1]|] eqn:Eo; [cbn|done]. rewrite <- Hp in Eo.
  destruct (run_op_refines f o s σ r σ1 Hr Ht Eo) as (f' & s1 & E1 & Hr1 & Hp1 & Ht1).
  rewrite (st_run _ _ _ _ _ E1). cbv beta iota.
  destruct (plain_ops ps σ1 ops) as [[rs1 σ2]|] eqn:Eops; [cbn|done]. intros [= <- <-].
  destruct (IH (<[h := f']> hs) s1 σ1 rs1 Hr1) as (s2 & E2 & Hr2); [|done|].
  - intros h' p'. destruct (decide (h' = h)) as [->|Hne].
    + rewrite Ep, lookup_insert_eq. intros [= <-]. exists f'. split; [done|]. split; congruence.
    + rewrite lookup_insert_ne by done. apply Hh.
  - rewrite (st_run _ _ _ _ _ E2). by exists s2.
Qed.

(** ** Where the cache is not transparent *)

Lemma cache_truncate_run c n : 0 <= n < 2 ^ 61 ->
  exists data, cache_truncate c n = Ret (mkCache data (vc_offset c) (vc_modified c) n) /\ n <= zlen data /\
    (n <= zlen (vc_data c) -> take (Z.to_nat n) data = take (Z.to_nat n) (vc_data c)).
Proof.
  intros Hn. pose proof (aligned_down_bounds n ltac:(lia)) as Hal. unfold cache_truncate.
  rewrite uadd_Ret by (unfold u64_bound, PAGE_SIZE in *; lia). cbn [mbind outcome_bind].
  rewrite zlen_vec_resize by lia. rewrite (proj2 (Z.ltb_lt n _)) by lia.
  eexists. split; [reflexivity|]. split.
  - rewrite zlen_app. unfold zlen. rewrite length_take, length_replicate.
    pose proof (zlen_vec_resize (vc_data c) (aligned_down n + PAGE_SIZE) ltac:(lia)) as Hl.
    unfold zlen in Hl. lia.
  - intros Hd. pose proof (zlen_vec_resize (vc_data c) (aligned_down n + PAGE_SIZE) ltac:(lia)) as Hl.
    unfold zlen in Hl. rewrite take_app_le by (rewrite length_take; lia).
    rewrite take_take, Nat.min_id. apply take_vec_resize; lia.
Qed.

(** Reading beyond the end of a file makes it longer: [file_seek] extends
    the cache to the offset, so a read at an offset beyond the end returns no
    bytes and leaves a file of that length. *)
Theorem read_beyond_end_grows f s c off n : cache_inv s -> abs s (file_path f) = Some c ->
  this_type f <> EXT4_DE_DIR -> zlen c < off -> 0 <= n -> off + n < 2 ^ 61 ->
  exists f' s' c', fw_read_at heap_bytes f off n s = Ret ((Ok [], f'), s') /\
    abs s' (file_path f) = Some c' /\ zlen c' = off.
Proof.
  intros Hi Ha Ht Ho Hn Hb. pose proof (zlen_nonneg c). unfold fw_read_at.
  destruct (file_open_run f s c O_RDONLY Ha Hi) as (f1 & E1 & Hp1 & Ht1); [by left|].
  destruct (check_cached_run f1 s (file_path f) c Hi Ha)
    as (f2 & s2 & cc & E2 & Hi2 & Hs2 & Hcc & Hc & Hp2 & Ht2).
  destruct (iv_cache s2 Hi2 _ cc Hcc) as (c0 & H0 & Hok). pose proof (zlen_cached _ _ _ Hok) as Hz.
  rewrite Hc in Hz. destruct (cache_truncate_run cc off ltac:(lia)) as (data & Et & Hd & _).
  set (cc' := mkCache data off (vc_modified cc) off).
  set (s3 := mkE (e_disk s2) (<[file_path f := cc']> (CACHE_TABLE s2)) (FIFO_TABLE s2) (FIFO_SET s2)).
  assert (CACHE_TABLE s3 !! file_path f = Some cc') as Hcc' by apply lookup_insert_eq.
  assert (forall g, file_path g = file_path f -> file_read g n s3 = Ret ((Ok [], g), s3)) as Er.
  { intros g Hg. unfold file_read, if_cache. erewrite st_run; [|reflexivity]. cbv beta.
    rewrite Hg, Hcc', bool_decide_eq_true_2 by (by eexists).
    rewrite (st_run _ _ _ _ _ (get_cache_run _ _ _ Hcc')). cbn [vc_offset vc_size vc_data cc'].
    rewrite uadd_Ret by (unfold u64_bound; lia). erewrite st_run; [|reflexivity]. cbv beta iota.
    rewrite Z.min_r, usub_Ret by lia. erewrite st_run; [|reflexivity]. cbv beta.
    rewrite (proj2 (Z.leb_le _ _)) by lia. erewrite st_run; [|reflexivity]. by rewrite Z.sub_diag. }
  assert (file_seek heap_bytes f1 off SEEK_SET s = Ret ((Ok EOK, f2), s3)) as Es.
  { unfold file_seek. rewrite Hp1, bool_decide_eq_true_2 by (by rewrite Ht1).
    rewrite (st_run _ _ _ _ _ E2), Hp2, Hp1, (st_run _ _ _ _ _ (get_cache_run _ _ _ Hcc)).
    rewrite (proj2 (Z.ltb_lt _ _)), Et by lia. reflexivity. }
  erewrite st_run; [|by rewrite (try_f_run _ _ _ _ _ _ E1), (try_f_run _ _ _ _ _ _ Es), Er by congruence].
  exists f2, s3, (cached cc'). split; [done|]. split; [unfold abs; by rewrite Hcc'|].
  unfold cached, cc', zlen in *. cbn. rewrite length_take. lia.
Qed.

(** What does not fit on the disk is lost when it is evicted.
    [write_back_cache] ignores what the library answers: when it refuses the
    write of a modified cache, the oldest of the 30, making room for another
    file succeeds, and the file is what the disk had. *)
Theorem eviction_loses_data s v q rest cc d r n d' :
  FIFO_TABLE s = v :: rest -> zlen (FIFO_TABLE s) = FIFO_SIZE -> q ∉ FIFO_SET s ->
  CACHE_TABLE s !! v = Some cc -> vc_modified cc = true -> vc_size cc <= zlen (vc_data cc) ->
  c_fopen v M_rp desc0 (e_disk s) = (EOK, d, e_disk s) ->
  c_fwrite (snd (ext4_fseek d 0 0)) (cached cc) (e_disk s) = (r, n, d', e_disk s) -> r <> EOK ->
  exists s', insert_fifo q s = Ret (tt, s') /\ abs s v = Some (cached cc) /\ abs s' v = files (e_disk s) v.
Proof.
  intros Hq Hl Hs Hcc Hm Hd Eo Ew Hr.
  unfold insert_fifo, make_room, write_back_cache, if_fifo_set, if_cache, get_cache, fopen.
  unfold remove_cache, set_cache, set_fifo, insert_fifo_set, remove_fifo_set, set_fifo_set, set_disk. st_unfold.
  rewrite bool_decide_eq_false_2 by done. cbv beta iota. rewrite Hl, Z.eqb_refl, Hq. cbv beta iota.
  cbn [CACHE_TABLE]. rewrite Hcc, bool_decide_eq_true_2 by (by eexists). cbv beta iota. cbn [CACHE_TABLE].
  rewrite Hcc. cbv beta iota. rewrite Hm. cbv beta iota. change (flags_to_cstring 2) with M_rp. cbn [e_disk].
  rewrite Eo. cbv beta iota. rewrite (proj2 (Z.leb_le _ _)) by done. cbn [rassert e_disk]. fold (cached cc).
  rewrite Ew. cbv beta iota. cbn [CACHE_TABLE]. rewrite Hcc, bool_decide_eq_true_2 by (by eexists). cbv beta iota.
  eexists. split; [reflexivity|]. unfold abs. cbn [CACHE_TABLE e_disk]. by rewrite Hcc, lookup_delete_eq.
Qed.

(** Renaming a file loses what was written to it and not yet written
    back.  The cache stays under the old name: the new name has the contents
    that the disk had, and the old name can still be read. *)
Theorem rename_loses_writes s p q cc c0 x' : p <> q -> c_frename p q (e_disk s) = (EOK, x') ->
  CACHE_TABLE s !! p = Some cc -> files (e_disk s) p = Some c0 ->
  CACHE_TABLE s !! q = None -> files (e_disk s) q = None ->
  exists s', fw_rename p q s = Ret (Ok EOK, s') /\
    abs s' q = Some c0 /\ abs s' p = Some (cached cc).
Proof.
  intros Hne Er Hp H0 Hq Hn. destruct (law_rename (e_disk s) p q c0 x' H0 Hn Hne Er) as (Hx & _).
  unfold fw_rename, file_rename, c_call. st_unfold. rewrite Er. cbv beta iota.
  eexists. split; [reflexivity|]. unfold abs. cbn. by rewrite Hp, Hq.
Qed.

(** Shortening a file is forgotten when it is evicted.  The file on the
    disk is emptied when it is opened to be truncated, and the cache, which
    has the bytes that remain, is not marked as modified: once it is the
    oldest of the 30 and another file is cached, the file is empty. *)
Theorem truncate_forgotten f s cc n q rest : has_opened f = false -> fits (e_disk s) L ->
  CACHE_TABLE s !! file_path f = Some cc -> vc_modified cc = false ->
  files (e_disk s) (file_path f) = Some (cached cc) -> vc_size cc <= zlen (vc_data cc) ->
  FIFO_TABLE s = file_path f :: rest -> zlen (FIFO_TABLE s) = FIFO_SIZE -> q ∉ FIFO_SET s ->
  0 < n <= vc_size cc -> n < 2 ^ 61 ->
  exists f' s1 s2, fw_truncate f n s = Ret ((Ok EOK, f'), s1) /\
    abs s1 (file_path f) = Some (take (Z.to_nat n) (cached cc)) /\
    insert_fifo q s1 = Ret (tt, s2) /\ abs s2 (file_path f) = Some [].
Proof.
  intros Hop Hfit Hcc Hm H0 Hd Hq Hl Hs Hn Hb. set (p := file_path f) in *.
  destruct (law_open_trunc (e_disk s) L p _ (file_desc f) Hfit H0) as (d & x1 & Eo & Hr & Hf1 & H1 & _).
  destruct (law_truncate x1 L p [] d n Hf1 H1 Hr ltac:(lia)) as (d2 & x2 & Et & H2 & _).
  destruct (cache_truncate_run cc n ltac:(lia)) as (data & Ec & Hdl & Hdt).
  set (cc' := mkCache data (vc_offset cc) (vc_modified cc) n).
  set (s1 := mkE x2 (<[p := cc']> (CACHE_TABLE s)) (FIFO_TABLE s) (FIFO_SET s)).
  assert (exists f', fw_truncate f n s = Ret ((Ok EOK, f'), s1)) as [f' Ef].
  { eexists. unfold fw_truncate, try_f, file_open. fold p. rewrite Hop, andb_false_r. cbn [andb].
    unfold fopen, file_truncate, if_cache, get_cache, insert_cache, set_cache, set_disk. st_unfold.
    change (flags_to_cstring O_CREATE_TRUNC_RW) with M_wp. rewrite Eo. cbv beta iota. cbn [Z.eqb negb EOK].
    cbv beta iota. cbn [CACHE_TABLE e_disk file_path FIFO_TABLE FIFO_SET]. fold p. rewrite Hcc.
    rewrite bool_decide_eq_true_2 by (by eexists). cbv beta iota. cbn [CACHE_TABLE]. rewrite Hcc.
    cbv beta iota. rewrite Ec. cbv beta iota. cbn [e_disk file_desc CACHE_TABLE FIFO_TABLE FIFO_SET].
    rewrite Et. reflexivity. }
  exists f', s1. unfold insert_fifo, make_room, write_back_cache, if_fifo_set, if_cache, get_cache.
  unfold remove_cache, set_cache, set_fifo, insert_fifo_set, remove_fifo_set, set_fifo_set. st_unfold.
  cbn [FIFO_SET FIFO_TABLE s1]. rewrite bool_decide_eq_false_2 by done. cbv beta iota.
  cbn [FIFO_SET FIFO_TABLE s1]. rewrite Hl, Z.eqb_refl, Hq. cbv beta iota. cbn [CACHE_TABLE s1].
  rewrite lookup_insert_eq, bool_decide_eq_true_2 by (by eexists). cbv beta iota. cbn [CACHE_TABLE].
  rewrite lookup_insert_eq. cbv beta iota. cbn [vc_modified cc']. rewrite Hm. cbv beta iota.
  cbn [CACHE_TABLE]. rewrite lookup_insert_eq, bool_decide_eq_true_2 by (by eexists). cbv beta iota.
  eexists. split; [done|]. split; [|split; [reflexivity|]].
  - unfold abs, s1. cbn. rewrite lookup_insert_eq. unfold cached. cbn [vc_size vc_data cc'].
    rewrite Hdt by lia. rewrite take_take. do 2 f_equal. lia.
  - unfold abs. cbn. rewrite lookup_delete_eq, H2. by rewrite take_nil.
Qed.

End spec.

(** ** A file system in memory

    Regular files only; the number of the inode of a descriptor is the code of
    the path.  A file has at most [MEM_MAX] bytes and a path [MEM_NAME]: what is
    longer is refused. *)

Notation memfs := (gmap (list Z) (list Z)).
Definition path_code (p : list Z) : Z := Z.pos (encode p).
Definition code_path (n : Z) : list Z := default [] (decode (Z.to_pos n)).
Lemma code_path_code p : code_path (path_code p) = p.
Proof. unfold code_path, path_code. cbn. by rewrite decode_encode. Qed.

Definition MEM_MAX : Z := 8192.
Definition MEM_NAME : Z := 255.
Definition C_ENOSPC : Z := 28.
Definition mem_at (x : memfs) (d : ext4_file) : list Z := default [] (x !! code_path (d_inode d)).
Definition mem_desc (p : list Z) (size : Z) : ext4_file := mkDesc true (path_code p) 0 size 0.
Definition mem_open (p : list Z) (m : open_mode) (d : ext4_file) (x : memfs) : Z * ext4_file * memfs :=
  match m with
  | M_rb | M_rp => match x !! p with
                   | Some c => (EOK, mem_desc p (zlen c), x)
                   | None => (C_ENOENT, desc0, x)
                   end
  | M_wb | M_wp => if bool_decide (x !! p = None) && (MEM_NAME <? zlen p) then (C_EINVAL, desc0, x)
                   else (EOK, mem_desc p 0, <[p := []]> x)
  | M_ab | M_ap => let c := default [] (x !! p) in (EOK, mem_desc p (zlen c), <[p := c]> x)
  end.
Definition mem_move (p q : list Z) (x : memfs) : Z * memfs :=
  match x !! p, x !! q with
  | Some c, None => (EOK, <[q := c]> (delete p x))
  | _, _ => (C_EINVAL, x)
  end.

(** The type of the node at a path, as the library numbers it; the root is the
    only directory. *)
Definition mem_kind (x : memfs) (p : list Z) : option Z :=
  match x !! p with
  | Some _ => Some 1
  | None => if bool_decide (p = [SLASH]) then Some 2 else None
  end.

#[export] Instance mem_lwext4 : Lwext4 memfs := {
  c_fopen := mem_open;
  c_fread d n x := (EOK, read_part (mem_at x d) (d_fpos d) n, d);
  c_fwrite d bs x :=
    if Z.max (zlen (mem_at x d)) MEM_MAX <? d_fpos d + zlen bs then (C_ENOSPC, 0, d, x)
    else (EOK, zlen bs, d, <[code_path (d_inode d) := overwrite (mem_at x d) (d_fpos d) bs]> x);
  c_ftruncate d n x := (EOK, d, <[code_path (d_inode d) := take (Z.to_nat n) (mem_at x d)]> x);
  c_inode_exist p t x := if bool_decide (mem_kind x p = Some t) then EOK else C_ENOENT;
  c_readlink _ _ _ := (C_ENOENT, []);
  c_fsymlink _ _ x := (C_EINVAL, x);
  c_frename := mem_move;
  c_fremove p x := (EOK, delete p x);
  c_cache_flush _ x := (EOK, x);
  c_owner_set _ _ _ x := (EOK, x);
  c_atime_set _ _ x := (EOK, x);
  c_mtime_set _ _ x := (EOK, x);
  c_ctime_set _ _ x := (EOK, x);
  c_mode_get _ _ := (EOK, 0x81ff);
  c_mode_set _ _ x := (EOK, x);
  c_stat_get _ _ := (C_ENOENT, mkStat 0 0 0 0 0 0 0 0 0 0 0 0);
  c_links_cnt _ _ := (EOK, 1);
  c_dir_mk _ x := (C_EINVAL, x);
  c_dir_mv _ _ x := (C_EINVAL, x);
  c_dir_rm _ x := (C_EINVAL, x);
  c_dir_entries _ _ _ := []
}.

#[export] Instance mem_laws : Lwext4Laws memfs.
Proof.
  refine {| files := fun x p => x !! p; refers := fun d p _ => d_inode d = path_code p;
            fits := fun _ L => forall q, L q <= MEM_MAX |}.
  - intros x p c m d Hp [-> | ->]; cbn; rewrite Hp; eexists; by split_and!.
  - intros x p m d Hp [-> | ->]; cbn; rewrite Hp; eexists _, _; by split.
  - intros x L p c d Hx Hp. cbn. rewrite (bool_decide_eq_false_2 (x !! p = None)) by congruence. cbn [andb].
    eexists _, _. split_and!; [done|done|done|apply lookup_insert_eq|]. intros. by apply lookup_insert_ne.
  - intros x p d Hd. unfold ext4_fseek. cbn. by destruct (d_fsize d <? 0).
  - intros x p c d n Hp Hd _ _. cbn. unfold mem_at. rewrite Hd, code_path_code, Hp. by eexists.
  - intros x L p c d bs Hx Hp Hd _ Hf. cbn. unfold mem_at. rewrite Hd, code_path_code, Hp. change (default [] (Some c)) with c.
    specialize (Hx p) as Hxp. destruct (Z.ltb_spec (Z.max (zlen c) MEM_MAX) (d_fpos d + zlen bs)); [cbn in *; lia|].
    eexists _, _. split; [done|]. split; [done|]. split; [apply lookup_insert_eq|]. intros. by apply lookup_insert_ne.
  - intros x L p c d n _ Hp Hd _. cbn. unfold mem_at. rewrite Hd, code_path_code, Hp.
    eexists _, _. split_and!; [done|apply lookup_insert_eq|]. intros. by apply lookup_insert_ne.
  - intros x p q c x' Hp Hq Hne. cbn. unfold mem_move. rewrite Hp, Hq. intros [= <-].
    split_and!; [apply lookup_insert_eq| |].
    + rewrite lookup_insert_ne by done. apply lookup_delete_eq.
    + intros r H1 H2. by rewrite lookup_insert_ne, lookup_delete_ne.
Defined.

Definition zero_heap (p : list Z) (n : Z) : list Z := replicate (Z.to_nat n) 0.
Lemma zero_heap_len p n : 0 <= n -> zlen (zero_heap p n) = n.
Proof. intros. unfold zero_heap, zlen. rewrite length_replicate. lia. Qed.

(** Nothing is cached when the system starts. *)
Definition boot_state (x : memfs) : ext4st memfs := mkE x ∅ [] ∅.

(** Every file may have a block of 4096 bytes. *)
Definition block_each (p : list Z) : Z := 4096.
Lemma boot_refines x : (forall p c, x !! p = Some c -> zlen c < 2 ^ 61) -> refines block_each (boot_state x) x.
Proof. intros H. split; [split; [done|by intros q|exact H|done]|done]. Qed.

Definition PA : list Z := [SLASH; 97].
Definition PB : list Z := [SLASH; 98].
Definition disk2 : memfs := {[ PA := [1; 2; 3]; PB := [] ]}.
Lemma disk2_small p c : disk2 !! p = Some c -> zlen c < 2 ^ 61.
Proof.
  unfold disk2. rewrite lookup_insert_Some, lookup_singleton_Some.
  by intros [[_ <-]|[_ [_ <-]]].
Qed.

Definition file_at (p : list Z) : Ext4File := mkEF desc0 p EXT4_DE_REG_FILE false 0.

Lemma cache_transparent_witness : exists s',
  run_ops zero_heap {[ 3 := file_at PA; 4 := file_at PB ]}
    [(3, OWrite 2 [7; 8]); (4, OWrite 0 [9]); (3, ORead 1 10); (4, OSize)] (boot_state disk2) =
  Ret ([RWrote (Ok 2); RWrote (Ok 1); RRead (Ok [2; 7; 8]); RSize 1], s') /\
  refines block_each s' (<[PB := [9]]> (<[PA := [1; 2; 7; 8]]> disk2)).
Proof.
  apply (cache_transparent zero_heap zero_heap_len block_each _ {[ 3 := PA; 4 := PB ]} _ _ disk2).
  - apply boot_refines, disk2_small.
  - intros h p. rewrite lookup_insert_Some, lookup_singleton_Some.
    intros [[<- <-]|[_ [<- <-]]]; eexists; by split_and!.
  - vm_compute. reflexivity.
Defined.

Lemma read_beyond_end_grows_witness : exists f' s' c',
  fw_read_at zero_heap (file_at PB) 100 10 (boot_state disk2) = Ret ((Ok [], f'), s') /\
  abs s' PB = Some c' /\ zlen c' = 100.
Proof.
  apply (read_beyond_end_grows zero_heap zero_heap_len block_each (file_at PB) (boot_state disk2) [] 100 10).
  - apply boot_refines, disk2_small.
  - reflexivity.
  - done.
  - done.
  - lia.
  - lia.
Defined.

(** /a has been written to and is queued first of 30 files. *)
Definition cache3 (m : bool) : VFileCache := mkCache [1; 2; 3; 0] 0 m 3.
Definition other_paths : list (list Z) := map (fun n => [SLASH; Z.of_nat n]) (seq 0 29).
Definition full_state (c0 : list Z) (m : bool) : ext4st memfs :=
  mkE {[ PA := c0 ]} {[ PA := cache3 m ]} (PA :: other_paths) (list_to_set (PA :: other_paths)).

Definition cache_big : VFileCache := mkCache (replicate (Z.to_nat 8193) 7) 0 true 8193.
Definition big_state : ext4st memfs :=
  mkE {[ PA := [5] ]} {[ PA := cache_big ]} (PA :: other_paths) (list_to_set (PA :: other_paths)).

Lemma PB_not_queued : PB ∉ (list_to_set (PA :: other_paths) : gset (list Z)).
Proof.
  intros H. apply elem_of_list_to_set, elem_of_cons in H as [H|H]; [done|].
  unfold other_paths in H. apply list_elem_of_fmap in H as (n & E & Hn). injection E as E.
  apply elem_of_seq in Hn. lia.
Qed.

Lemma eviction_loses_data_witness : exists s', insert_fifo PB big_state = Ret (tt, s') /\
  abs big_state PA = Some (cached cache_big) /\ abs s' PA = Some [5].
Proof.
  destruct (eviction_loses_data big_state PA PB other_paths cache_big (mem_desc PA 1) C_ENOSPC 0
    (snd (ext4_fseek (mem_desc PA 1) 0 0))) as (s' & H1 & H2 & H3).
  - reflexivity.
  - reflexivity.
  - exact PB_not_queued.
  - reflexivity.
  - reflexivity.
  - vm_compute. discriminate.
  - vm_compute. reflexivity.
  - vm_compute. reflexivity.
  - discriminate.
  - exists s'. split; [exact H1|]. split; [exact H2|]. rewrite H3. vm_compute. reflexivity.
Defined.

Lemma rename_loses_writes_witness : exists s',
  fw_rename PA PB (full_state [5] true) = Ret (Ok EOK, s') /\
  abs s' PB = Some [5] /\ abs s' PA = Some [1; 2; 3].
Proof.
  by apply (rename_loses_writes (full_state [5] true) PA PB (cache3 true) [5] (snd (mem_move PA PB {[ PA := [5] ]}))).
Defined.

Lemma truncate_forgotten_witness : exists f' s1 s2,
  fw_truncate (file_at PA) 2 (full_state [1; 2; 3] false) = Ret ((Ok EOK, f'), s1) /\
  abs s1 PA = Some [1; 2] /\ insert_fifo PB s1 = Ret (tt, s2) /\ abs s2 PA = Some [].
Proof.
  apply (truncate_forgotten block_each (file_at PA) (full_state [1; 2; 3] false) (cache3 false) 2 PB other_paths).
  - done.
  - by intros q.
  - done.
  - done.
  - done.
  - vm_compute. discriminate.
  - done.
  - done.
  - exact PB_not_queued.
  - cbn. lia.
  - lia.
Defined.
