(* ===== verification/Dev.v ===== *)
(** * Device files and the console (os/src/fs/dev.rs, fs/stdio.rs)

    The table of the registered devices and the [File] methods of the devices
    and of the standard streams.  A read of the console waits: one poll of its
    future takes the characters that the console has and keeps them until a
    line or the buffer is complete.  The time counter that [fillrandom] reads
    is a function of the number of readings so far. *)

From Stdlib Require Import Strings.String Strings.Ascii.
From S2P Require Import Prelude Config Memory Errno UserMem UserBuf.
From S2P Require Import Pte Pipe Path Futex Stat Ext4Ops.

(** The bytes of a string literal. *)
Definition bytes_of (s : string) : list Z := map (fun a => Z.of_N (N_of_ascii a)) (list_ascii_of_string s).

(** ** The table of devices *)

Record registry : Type := mkReg { DEVICES : gmap (list Z) Z; DEV_NO : Z }.

Definition registry_new : registry := mkReg ∅ 1.

Definition register_device (abs_path : list Z) (r : registry) : outcome registry :=
  n ← uadd (DEV_NO r) 1;
  Ret (mkReg (<[abs_path := DEV_NO r]> (DEVICES r)) n).

Definition unregister_device (abs_path : list Z) (r : registry) : registry :=
  mkReg (delete abs_path (DEVICES r)) (DEV_NO r).

Definition find_device (abs_path : list Z) (r : registry) : bool := bool_decide (is_Some (DEVICES r !! abs_path)).

Definition get_devno (abs_path : list Z) (r : registry) : outcome Z := unwrap (DEVICES r !! abs_path).

(** The objects behind [Arc<dyn File>]. *)
Inductive device : Type :=
| DevZero | DevNull | DevRtc | DevRandom | DevTty
| DevCpuDmaLatency (reaction_time : Z)
| DevShm | Stdin | Stdout.

Definition DEV_ZERO : list Z := bytes_of "/dev/zero".
Definition DEV_NULL : list Z := bytes_of "/dev/null".
Definition DEV_RTC : list Z := bytes_of "/dev/rtc".
Definition DEV_RTC0 : list Z := bytes_of "/dev/rtc0".
Definition DEV_MISC_RTC : list Z := bytes_of "/dev/misc/rtc".
Definition DEV_RANDOM : list Z := bytes_of "/dev/random".
Definition DEV_TTY : list Z := bytes_of "/dev/tty".
Definition DEV_LATENCY : list Z := bytes_of "/dev/cpu_dma_latency".
Definition DEV_SHM : list Z := bytes_of "/dev/shm".

Definition open_device_file (p : list Z) : result device SysErrNo :=
  if str_eqb p DEV_ZERO then Ok DevZero
  else if str_eqb p DEV_NULL then Ok DevNull
  else if str_eqb p DEV_RTC || str_eqb p DEV_RTC0 || str_eqb p DEV_MISC_RTC then Ok DevRtc
  else if str_eqb p DEV_RANDOM then Ok DevRandom
  else if str_eqb p DEV_TTY then Ok DevTty
  else if str_eqb p DEV_LATENCY then Ok (DevCpuDmaLatency 10)
  else Err ENOENT.

(** The devices that [create_init_files] registers, in order. *)
Definition init_devices : list (list Z) :=
  [DEV_RTC; DEV_RTC0; DEV_TTY; DEV_ZERO; DEV_NULL; DEV_LATENCY; DEV_MISC_RTC].

(** ** Metadata and events *)

Definition char_stat (devno mode : Z) : Kstat := mkKstat devno 0 mode 1 0 0 devno 0 0 0 0 0 0 0 0 0.

(** The metadata of a character device. *)
Definition char_fstat (path : list Z) (mode : Z) (r : registry) : outcome Kstat :=
  n ← get_devno path r; Ret (char_stat n mode).

Definition poll_bits (all events : Z) : Z :=
  fold_left (fun r b => if fl_contains events b && fl_contains all b then Z.lor r b else r)
    [POLLIN; POLLOUT; POLLERR] 0.

(** ** Transfers *)

(** User memory, the characters that the console will deliver, the text it
    has shown, and the number of readings of the time counter. *)
Record devst : Type := mkDevst { dv_mem : pmem; con_in : list Z; con_out : list Z; dv_reads : Z }.

Section transfers.
Variable ticks : Z -> Z.

Definition on_dmem {B} (m : ST pmem B) : ST devst B :=
  fun s => match m (dv_mem s) with
           | Ret (a, x) => Ret (a, mkDevst x (con_in s) (con_out s) (dv_reads s))
           | Panic => Panic
           end.

Definition get_time_ticks : ST devst Z :=
  fun s => Ret (ticks (dv_reads s), mkDevst (dv_mem s) (con_in s) (con_out s) (dv_reads s + 1)).

(** One byte of [fillrandom]. *)
Definition random_step (random : Z) : ST devst Z :=
  random ← (if random =? 0 then t ← get_time_ticks; mret (t mod 256) else mret random);
  t ← get_time_ticks;
  mret ((random * (t / 3 mod 256) + 37) mod 256).

Fixpoint random_slice (s : uslice) (js : list Z) (random : Z) : ST devst Z :=
  match js with
  | [] => mret random
  | j :: js' =>
      r ← random_step random;
      _ ← on_dmem (us_set s j r);
      random_slice s js' r
  end.

Fixpoint random_slices (b : UserBuffer) (random : Z) : ST devst unit :=
  match b with
  | [] => mret tt
  | s :: b' => r ← random_slice s (zrange 0 (us_len s)) random; random_slices b' r
  end.

Definition fillrandom (b : UserBuffer) : ST devst Z :=
  t ← get_time_ticks;
  _ ← random_slices b (t mod 256);
  st_lift (ub_len b).

(** [String::from_utf8_lossy]: each ill-formed part becomes U+FFFD. *)
Definition REPLACEMENT : list Z := [0xef; 0xbf; 0xbd].
Definition second_ok (a b : Z) : bool :=
  if a =? 0xe0 then (0xa0 <=? b) && (b <=? 0xbf)
  else if a =? 0xed then (0x80 <=? b) && (b <=? 0x9f)
  else if a =? 0xf0 then (0x90 <=? b) && (b <=? 0xbf)
  else if a =? 0xf4 then (0x80 <=? b) && (b <=? 0x8f)
  else cont_byte b.

Fixpoint utf8_lossy (l : list Z) : list Z :=
  match l with
  | [] => []
  | a :: l1 =>
      if a <? 0x80 then a :: utf8_lossy l1
      else if (a <? 0xc2) || (0xf4 <? a) then REPLACEMENT ++ utf8_lossy l1
      else
        match l1 with
        | [] => REPLACEMENT
        | b :: l2 =>
            if negb (second_ok a b) then REPLACEMENT ++ utf8_lossy l1
            else if a <? 0xe0 then a :: b :: utf8_lossy l2
            else
              match l2 with
              | [] => REPLACEMENT
              | c :: l3 =>
                  if negb (cont_byte c) then REPLACEMENT ++ utf8_lossy l2
                  else if a <? 0xf0 then a :: b :: c :: utf8_lossy l3
                  else
                    match l3 with
                    | [] => REPLACEMENT
                    | d :: l4 =>
                        if negb (cont_byte d) then REPLACEMENT ++ utf8_lossy l3
                        else a :: b :: c :: d :: utf8_lossy l4
                    end
              end
        end
  end.

(** [Stdout::write]: slice by slice. *)
Definition stdout_write (b : UserBuffer) : ST devst (result Z SysErrNo) :=
  _ ← st_modify (fun s =>
        mkDevst (dv_mem s) (con_in s)
          (con_out s ++ (b ≫= fun u => utf8_lossy (pa_read_bytes (dv_mem s) (us_pa u) (us_len u))))
          (dv_reads s));
  n ← st_lift (ub_len b);
  mret (Ok n).

Definition LF : Z := 0x0a.
Definition CR : Z := 0x0d.

(** The loop of [Stdin::read] up to its next [yield_now]: the bytes so far,
    whether it is complete, and what the console still has.  A console that
    has nothing gives 0 or a number that is not a byte. *)
Fixpoint getchars (inp : list Z) (len : Z) (buf : list Z) : bool * list Z * list Z :=
  if len <=? zlen buf then (true, buf, inp)
  else
    match inp with
    | [] => (false, buf, [])
    | c :: inp' =>
        if (c =? 0) || (256 <=? c) then (false, buf, inp')
        else if (c =? CR) || (c =? LF) then (true, buf ++ [LF], inp')
        else getchars inp' len (buf ++ [c])
    end.

(** One poll of [Stdin::read]; [buf] is what earlier polls collected. *)
Definition stdin_poll (buf : list Z) (b : UserBuffer) : ST devst (option (result Z SysErrNo) * list Z) :=
  len ← st_lift (ub_len b);
  inp ← st_gets con_in;
  let '(done, buf, inp') := getchars inp len buf in
  _ ← st_modify (fun s => mkDevst (dv_mem s) inp' (con_out s) (dv_reads s));
  if (done : bool) then
    _ ← on_dmem (ub_write b buf);
    mret (Some (Ok (zlen buf)), [])
  else mret (None, buf).

Definition RTC_TEXT : list Z := bytes_of "2000-1-1 0:0:0".

Definition latency_bytes (t : Z) : list Z :=
  [Z.shiftr t 24 mod 256; Z.shiftr t 16 mod 256; Z.shiftr t 8 mod 256; t mod 256].

(** [user_buf.write(&bytes[..len])] with [len] the smaller length. *)
Definition put_text (b : UserBuffer) (text : list Z) : ST devst Z :=
  n ← st_lift (ub_len b);
  let len := Z.min n (zlen text) in
  on_dmem (ub_write b (take (Z.to_nat len) text)).

(** The bytes of a buffer, slice after slice. *)
Definition buffer_bytes (m : pmem) (b : UserBuffer) : list Z := b ≫= fun u => pa_read_bytes m (us_pa u) (us_len u).

(** The bytes of the buffer are stored into an array of four. *)
Definition latency_write (b : UserBuffer) (m : pmem) : outcome Z :=
  let bytes := buffer_bytes m b in
  _ ← rassert (zlen bytes <=? 4);
  let at_ i := default 0 (bytes !! i) in
  Ret (Z.lor (Z.lor (Z.lor (Z.shiftl (at_ 0%nat) 24) (Z.shiftl (at_ 1%nat) 16)) (Z.shiftl (at_ 2%nat) 8))
         (at_ 3%nat)).

End transfers.

(** ** The trait [File]

    One poll of [read] takes what earlier polls collected and gives the result
    or, when it waits, what is collected now; [write] gives the device after
    it.  [ticks] is the time counter that [read] of the random device uses. *)
Record file_impl : Type := mkImpl {
  f_readable : bool;
  f_writable : bool;
  f_read : (Z -> Z) -> list Z -> UserBuffer -> ST devst (option (result Z SysErrNo) * list Z);
  f_write : UserBuffer -> ST devst (result Z SysErrNo * device);
  f_fstat : registry -> outcome Kstat;
  f_poll : Z -> outcome Z;
  f_lseek : Z -> Z -> result Z SysErrNo;
  f_get_path : outcome (list Z)
}.

(** The default methods. *)
Definition no_lseek (offset whence : Z) : result Z SysErrNo := Err ESPIPE.
Definition no_path : outcome (list Z) := Panic.
Definition no_poll (events : Z) : outcome Z := Panic.

Definition ready (m : ST devst Z) : ST devst (option (result Z SysErrNo) * list Z) :=
  n ← m; mret (Some (Ok n), []).
Definition discard (d : device) (b : UserBuffer) : ST devst (result Z SysErrNo * device) :=
  n ← st_lift (ub_len b); mret (Ok n, d).
Definition to_console (d : device) (b : UserBuffer) : ST devst (result Z SysErrNo * device) :=
  r ← stdout_write b; mret (r, d).

Definition impl_DevZero : file_impl :=
  mkImpl true true
    (fun _ _ b => ready (on_dmem (ub_fill0 b)))
    (discard DevZero)
    (char_fstat DEV_ZERO FCHR)
    (fun events => Ret (poll_bits (Z.lor POLLIN POLLOUT) events))
    no_lseek no_path.

Definition impl_DevNull : file_impl :=
  mkImpl true true
    (fun _ _ b => ready (mret 0))
    (discard DevNull)
    (char_fstat DEV_NULL FCHR)
    (fun events => Ret (poll_bits (Z.lor POLLIN POLLOUT) events))
    no_lseek no_path.

Definition impl_DevRtc : file_impl :=
  mkImpl true true
    (fun _ _ b =>
       n ← st_lift (ub_len b);
       _ ← put_text b RTC_TEXT;
       mret (Some (Ok (Z.min n (zlen RTC_TEXT))), []))
    (discard DevRtc)
    (char_fstat DEV_RTC FCHR)
    (fun events => Ret (poll_bits (Z.lor POLLIN POLLOUT) events))
    no_lseek no_path.

Definition impl_DevRandom : file_impl :=
  mkImpl true true
    (fun ticks _ b => ready (fillrandom ticks b))
    (discard DevRandom)
    (char_fstat DEV_RANDOM FCHR)
    (fun events => Ret (poll_bits (Z.lor (Z.lor POLLIN POLLOUT) POLLERR) events))
    no_lseek no_path.

(** The terminal reads and writes like the standard streams. *)
Definition impl_DevTty : file_impl :=
  mkImpl true true
    (fun _ => stdin_poll)
    (to_console DevTty)
    (char_fstat DEV_TTY FCHR)
    (fun events => Ret (poll_bits (Z.lor (Z.lor POLLIN POLLOUT) POLLERR) events))
    no_lseek no_path.

Definition impl_DevCpuDmaLatency (reaction_time : Z) : file_impl :=
  mkImpl true true
    (fun _ _ b => ready (put_text b (latency_bytes reaction_time)))
    (fun b =>
       m ← st_gets dv_mem;
       t ← st_lift (latency_write b m);
       mret (Ok 4, DevCpuDmaLatency t))
    (char_fstat DEV_LATENCY FCHR)
    (fun events => Ret (poll_bits (Z.lor (Z.lor POLLIN POLLOUT) POLLERR) events))
    no_lseek no_path.

Definition impl_DevShm : file_impl :=
  mkImpl false false
    (fun _ _ _ => mret (Some (Err EINVAL), []))
    (fun _ => mret (Err EINVAL, DevShm))
    (char_fstat DEV_SHM (Z.lor FCHR 0x1b6))
    (fun _ => Ret POLLERR)
    no_lseek (Ret (bytes_of "/dev/shm/cyclictest9")).

Definition impl_Stdin : file_impl :=
  mkImpl true false
    (fun _ => stdin_poll)
    (fun _ => st_panic)
    (fun _ => Ret (char_stat 0 FCHR))
    (fun events => Ret (poll_bits POLLIN events))
    no_lseek no_path.

Definition impl_Stdout : file_impl :=
  mkImpl false true
    (fun _ _ _ => st_panic)
    (to_console Stdout)
    (fun _ => Ret (char_stat 0 FCHR))
    no_poll no_lseek no_path.

(** The dispatch of [dyn File]. *)
Definition file_of (d : device) : file_impl :=
  match d with
  | DevZero => impl_DevZero
  | DevNull => impl_DevNull
  | DevRtc => impl_DevRtc
  | DevRandom => impl_DevRandom
  | DevTty => impl_DevTty
  | DevCpuDmaLatency t => impl_DevCpuDmaLatency t
  | DevShm => impl_DevShm
  | Stdin => impl_Stdin
  | Stdout => impl_Stdout
  end.

Definition dev_read (ticks : Z -> Z) (d : device) := f_read (file_of d) ticks.
Definition dev_write (d : device) := f_write (file_of d).
Definition dev_fstat (d : device) := f_fstat (file_of d).
Definition dev_poll (d : device) := f_poll (file_of d).
Definition dev_get_path (d : device) := f_get_path (file_of d).

(** ** The table of devices is well formed *)

Inductive reg_op : Type := Register (p : list Z) | Unregister (p : list Z).
Definition reg_step (o : reg_op) (r : registry) : outcome registry :=
  match o with Register p => register_device p r | Unregister p => Ret (unregister_device p r) end.
Fixpoint reg_run (ops : list reg_op) (r : registry) : outcome registry :=
  match ops with [] => Ret r | o :: ops => r ← reg_step o r; reg_run ops r end.

(** Numbers start at 1 and no two devices share one. *)
Record registry_wf (r : registry) : Prop := {
  rw_next : 1 <= DEV_NO r;
  rw_range : forall p n, DEVICES r !! p = Some n -> 1 <= n < DEV_NO r;
  rw_inj : forall p q n, DEVICES r !! p = Some n -> DEVICES r !! q = Some n -> p = q
}.

Lemma registry_new_wf : registry_wf registry_new.
Proof. by split; cbn. Qed.

Lemma register_device_wf p r r' : registry_wf r -> register_device p r = Ret r' ->
  registry_wf r' /\ get_devno p r' = Ret (DEV_NO r).
Proof.
  intros [Hn Hr Hi]. unfold register_device, uadd. destruct (_ <? _); [cbn|done]. intros [= <-].
  split; [|unfold get_devno; cbn; by rewrite lookup_insert_eq]. split; cbn; [lia| |].
  - intros q n. rewrite lookup_insert_Some. intros [[_ <-]|[_ H]]; [lia|]. specialize (Hr q n H). lia.
  - intros q1 q2 n. rewrite !lookup_insert_Some.
    intros [[<- <-]|[H1 E1]] [[<- E2]|[H2 E2]]; [done| | |by apply (Hi q1 q2 n)].
    + specialize (Hr q2 _ E2). lia.
    + rewrite <- E2 in E1. specialize (Hr q1 _ E1). lia.
Qed.

Lemma unregister_device_wf p r : registry_wf r -> registry_wf (unregister_device p r).
Proof.
  intros [Hn Hr Hi]. split; cbn; [done| |].
  - intros q n. rewrite lookup_delete_Some. intros [_ H]. by apply (Hr q).
  - intros q1 q2 n. rewrite !lookup_delete_Some. intros [_ H1] [_ H2]. by apply (Hi q1 q2 n).
Qed.

(** Whatever devices are registered and removed, every number in the table
    is at least 1 (0 stands for other files), below the next number, and
    belongs to one device only. *)
Theorem device_registry_wf ops r : reg_run ops registry_new = Ret r -> registry_wf r.
Proof.
  cut (forall r0, registry_wf r0 -> reg_run ops r0 = Ret r -> registry_wf r).
  { intros H. apply H, registry_new_wf. }
  induction ops as [|[p|p] ops IH]; intros r0 H0; cbn [reg_run].
  - by intros [= <-].
  - cbn [reg_step]. destruct (register_device p r0) as [r1|] eqn:E; [|done].
    apply IH. by apply (register_device_wf p r0 r1).
  - cbn. apply IH. by apply unregister_device_wf.
Qed.

Lemma device_registry_wf_witness : exists r,
  reg_run [Register DEV_ZERO; Register DEV_NULL; Unregister DEV_ZERO; Register DEV_RTC] registry_new = Ret r /\
  registry_wf r /\ get_devno DEV_RTC r = Ret 3.
Proof.
  eexists. split; [vm_compute; reflexivity|]. split.
  - apply (device_registry_wf [Register DEV_ZERO; Register DEV_NULL; Unregister DEV_ZERO; Register DEV_RTC]).
    vm_compute. reflexivity.
  - vm_compute. reflexivity.
Defined.

(** Every device that the kernel registers can be opened, and its metadata
    can be read. *)
Lemma init_devices_open p : p ∈ init_devices -> exists d, open_device_file p = Ok d.
Proof.
  intros H. assert (forallb (fun p => match open_device_file p with Ok _ => true | Err _ => false end)
    init_devices = true) as Hall by (vm_compute; reflexivity).
  rewrite forallb_forall in Hall. specialize (Hall p (proj1 (list_elem_of_In _ _) H)).
  destruct (open_device_file p); [by eexists|done].
Qed.

(** ** The console *)

Definition is_char (c : Z) : Prop := c <> 0 /\ c < 256.
#[export] Instance is_char_dec c : Decision (is_char c).
Proof. unfold is_char. apply _. Defined.
Definition newline (c : Z) : Prop := c = CR \/ c = LF.

(** The future is polled again each time it has yielded. *)
Fixpoint stdin_read (fuel : nat) (buf : list Z) (b : UserBuffer) : ST devst (option (result Z SysErrNo)) :=
  '(r, buf) ← stdin_poll buf b;
  match r, fuel with
  | Some x, _ => mret (Some x)
  | None, O => mret None
  | None, S fuel => stdin_read fuel buf b
  end.

Lemma getchars_step c inp len buf : is_char c -> ~ newline c -> zlen buf < len ->
  getchars (c :: inp) len buf = getchars inp len (buf ++ [c]).
Proof.
  intros [H1 H2] H3 H4. cbn [getchars]. unfold newline in H3.
  destruct (Z.leb_spec len (zlen buf)), (Z.eqb_spec c 0), (Z.leb_spec 256 c), (Z.eqb_spec c CR), (Z.eqb_spec c LF);
    try lia; tauto.
Qed.

Lemma stdin_read_char fuel c inp buf b m out k : ub_wf b -> is_char c -> ~ newline c ->
  zlen buf < zlen (ub_addrs b) ->
  stdin_read fuel buf b (mkDevst m (c :: inp) out k) = stdin_read fuel (buf ++ [c]) b (mkDevst m inp out k).
Proof.
  intros Hwf Hc Hn Hl. destruct fuel; cbn [stdin_read]; unfold stdin_poll; st_unfold;
    rewrite ub_len_eq by done; cbn [con_in]; rewrite getchars_step by done.
  all: by destruct (getchars inp _ _) as [[[] ?] ?].
Qed.

Lemma ub_addrs_bound b : ub_wf b -> zlen (ub_addrs b) < u64_bound.
Proof. by intros [_ H]. Qed.

Lemma stdin_reads_from b : ub_wf b -> forall inp buf l c rest m out k,
  filter is_char inp = l ++ c :: rest -> Forall (fun x => ~ newline x) l -> newline c ->
  zlen buf + zlen l < zlen (ub_addrs b) ->
  exists n inp', (n <= length inp)%nat /\
    stdin_read n buf b (mkDevst m inp out k) =
    Ret (Some (Ok (zlen buf + zlen l + 1)),
         mkDevst (write_addrs m (ub_addrs b) (buf ++ l ++ [LF])) inp' out k) /\
    filter is_char inp' = rest.
Proof.
  intros Hwf. pose proof (ub_addrs_bound b Hwf) as Hub.
  induction inp as [|x inp IH]; intros buf l c rest m out k Hf Hl Hc Hz; [by destruct l|].
  pose proof (zlen_nonneg l). pose proof (zlen_nonneg buf).
  rewrite filter_cons in Hf. destruct (decide (is_char x)) as [Hx|Hx].
  - destruct l as [|y l]; injection Hf as -> Hf.
    + exists 0%nat, inp. split; [lia|]. split; [|done]. cbn [stdin_read]. unfold stdin_poll. st_unfold.
      rewrite ub_len_eq by done. cbn [con_in getchars]. change (zlen (A := Z) []) with 0 in *.
      destruct Hx as [Hx1 Hx2]. destruct (Z.leb_spec (zlen (ub_addrs b)) (zlen buf)); [lia|].
      destruct (Z.eqb_spec c 0), (Z.leb_spec 256 c); try lia. cbn [orb].
      assert ((c =? CR) || (c =? LF) = true) as -> by (destruct Hc as [-> | ->]; done).
      cbv beta iota. unfold on_dmem. cbn [dv_mem con_in con_out dv_reads].
      assert (zlen (buf ++ [LF]) = zlen buf + 1) as Hb1 by (rewrite zlen_app; done).
      rewrite ub_write_spec by (done || lia).
      cbv beta iota zeta. rewrite Hb1, Z.min_r, Z.add_0_r by lia.
      rewrite take_ge by (unfold zlen in *; lia). done.
    + apply Forall_cons_1 in Hl as [Hy Hl]. rewrite zlen_cons in *.
      destruct (IH (buf ++ [y]) l c rest m out k Hf Hl Hc) as (n & inp' & Hn & E & Hr).
      { rewrite zlen_app. change (zlen [y]) with 1. lia. }
      exists n, inp'. split; [cbn; lia|]. split; [|done].
      rewrite stdin_read_char by (done || lia). rewrite E, zlen_app, <- app_assoc. change (zlen [y]) with 1.
      do 4 f_equal. lia.
  - destruct (IH buf l c rest m out k Hf Hl Hc Hz) as (n & inp' & Hn & E & Hr).
    exists (S n), inp'. split; [cbn; lia|]. split; [|done]. cbn [stdin_read]. unfold stdin_poll. st_unfold.
    rewrite ub_len_eq by done. cbn [con_in getchars].
    destruct (Z.leb_spec (zlen (ub_addrs b)) (zlen buf)); [lia|].
    assert ((x =? 0) || (256 <=? x) = true) as ->.
    { unfold is_char in Hx. destruct (Z.eqb_spec x 0), (Z.leb_spec 256 x); try done. lia. }
    cbv beta iota. exact E.
Qed.

(** Reading the console gives a line.  However the characters arrive (the
    console reports nothing any number of times in between), a read whose
    buffer has room for the line ends after as many polls, stores the line
    with a line feed, whether the key was return or line feed, returns its
    length, and leaves what was typed after it. *)
Theorem stdin_reads_line b inp l c rest m out k : ub_wf b ->
  filter is_char inp = l ++ c :: rest -> Forall (fun x => ~ newline x) l -> newline c ->
  zlen l < zlen (ub_addrs b) ->
  exists n inp', (n <= length inp)%nat /\
    stdin_read n [] b (mkDevst m inp out k) =
    Ret (Some (Ok (zlen l + 1)), mkDevst (write_addrs m (ub_addrs b) (l ++ [LF])) inp' out k) /\
    filter is_char inp' = rest.
Proof. intros. by apply (stdin_reads_from b H inp [] l c rest). Qed.

Lemma stdin_reads_line_witness : exists n inp', (n <= 6)%nat /\
  stdin_read n [] [mkSlice 0x1ffe 2; mkSlice 0x5000 10] (mkDevst ∅ [0; 104; 256; 105; 13; 106] [] 0) =
  Ret (Some (Ok 3), mkDevst (write_addrs ∅ (ub_addrs [mkSlice 0x1ffe 2; mkSlice 0x5000 10]) [104; 105; 10]) inp' [] 0) /\
  filter is_char inp' = [106].
Proof.
  apply (stdin_reads_line [mkSlice 0x1ffe 2; mkSlice 0x5000 10] [0; 104; 256; 105; 13; 106] [104; 105] 13 [106]).
  - split; [|vm_compute; reflexivity]. repeat constructor; cbn; lia.
  - reflexivity.
  - repeat constructor; unfold newline, CR, LF; lia.
  - by left.
  - vm_compute. reflexivity.
Defined.

(** Text that is well formed is shown as it is. *)
Lemma utf8_lossy_valid l : utf8_valid l = true -> utf8_lossy l = l.
Proof.
  remember (length l) as n eqn:Hn. revert l Hn.
  induction n as [n IH] using lt_wf_ind. intros l ->.
  destruct l as [|a l1]; [done|]. cbn [utf8_valid utf8_lossy].
  destruct (Z.ltb_spec a 0x80) as [Ha|Ha]; [intros H; by rewrite (IH (length l1)) by (done || cbn; lia)|].
  destruct l1 as [|b l2]; [done|].
  destruct ((0xc2 <=? a) && (a <=? 0xdf)) eqn:E2.
  { intros [Hb H]%andb_prop.
    assert ((a <? 0xc2) || (0xf4 <? a) = false) as -> by lia.
    assert (second_ok a b = true) as -> by (unfold second_ok; repeat case_match; (done || lia)).
    assert ((a <? 0xe0) = true) as -> by lia. cbn [negb].
    by rewrite (IH (length l2)) by (done || cbn; lia). }
  destruct l2 as [|c l3]; [done|].
  destruct ((0xe0 <=? a) && (a <=? 0xef)) eqn:E3.
  { rewrite !andb_true_iff. intros [[[[Hb Hc] Hx] Hy] H].
    assert ((a <? 0xc2) || (0xf4 <? a) = false) as -> by lia.
    assert (second_ok a b = true) as -> by (unfold second_ok, cont_byte in *; repeat case_match; lia).
    assert ((a <? 0xe0) = false) as -> by lia. assert ((a <? 0xf0) = true) as -> by lia.
    rewrite Hc. cbn [negb]. by rewrite (IH (length l3)) by (done || cbn; lia). }
  destruct l3 as [|d l4]; [done|].
  rewrite !andb_true_iff. intros [[[[[[[H1 H2] Hb] Hc] Hd] Hx] Hy] H].
  assert ((a <? 0xc2) || (0xf4 <? a) = false) as -> by lia.
  assert (second_ok a b = true) as -> by (unfold second_ok, cont_byte in *; repeat case_match; lia).
  assert ((a <? 0xe0) = false) as -> by lia. assert ((a <? 0xf0) = false) as -> by lia.
  rewrite Hc, Hd. cbn [negb]. by rewrite (IH (length l4)) by (done || cbn; lia).
Qed.

(** A character whose bytes lie in two pages is garbled on the console:
    each slice of the buffer is converted on its own. *)
Theorem stdout_splits_chars m out inp k : pa_read_bytes m 0x1fff 1 = [0xc3] -> pa_read_bytes m 0x5000 1 = [0xa9] ->
  utf8_valid [0xc3; 0xa9] = true /\
  exists m', stdout_write [mkSlice 0x1fff 1; mkSlice 0x5000 1] (mkDevst m inp out k) =
    Ret (Ok 2, mkDevst m' inp (out ++ REPLACEMENT ++ REPLACEMENT) k).
Proof.
  intros H1 H2. split; [done|]. exists m. unfold stdout_write. st_unfold. cbn [mbind list_bind].
  cbn [dv_mem us_pa us_len]. rewrite H1, H2. done.
Qed.

(** ** /dev/cpu_dma_latency *)

Lemma lor_shiftl_low x y n : 0 <= n -> 0 <= y < 2 ^ n -> Z.lor (Z.shiftl x n) y = x * 2 ^ n + y.
Proof.
  intros Hn Hy. pose proof (Z.add_lor_land (Z.shiftl x n) y) as Ha.
  assert (Z.land (Z.shiftl x n) y = 0) as H0.
  { apply Z.bits_inj'. intros i Hi. rewrite Z.land_spec, Z.shiftl_spec, Z.bits_0 by lia.
    destruct (Z.lt_ge_cases i n); [by rewrite Z.testbit_neg_r by lia|].
    replace (Z.testbit y i) with false; [by rewrite andb_false_r|].
    symmetry. destruct (decide (y = 0)) as [->|]; [apply Z.bits_0|].
    apply Z.bits_above_log2; [lia|]. apply Z.log2_lt_pow2; [lia|].
    eapply Z.lt_le_trans; [apply Hy|]. apply Z.pow_le_mono_r; lia. }
  rewrite H0, Z.shiftl_mul_pow2 in Ha by lia. rewrite Z.shiftl_mul_pow2 by lia. lia.
Qed.

Lemma latency_bytes_value b0 b1 b2 b3 :
  0 <= b0 < 256 -> 0 <= b1 < 256 -> 0 <= b2 < 256 -> 0 <= b3 < 256 ->
  latency_bytes (Z.lor (Z.lor (Z.lor (Z.shiftl b0 24) (Z.shiftl b1 16)) (Z.shiftl b2 8)) b3) = [b0; b1; b2; b3].
Proof.
  intros H0 H1 H2 H3.
  assert (Z.lor (Z.lor (Z.lor (Z.shiftl b0 24) (Z.shiftl b1 16)) (Z.shiftl b2 8)) b3
          = ((b0 * 256 + b1) * 256 + b2) * 256 + b3) as ->.
  { replace (Z.shiftl b0 24) with (Z.shiftl (Z.shiftl (Z.shiftl b0 8) 8) 8) by (by rewrite !Z.shiftl_shiftl by lia).
    replace (Z.shiftl b1 16) with (Z.shiftl (Z.shiftl b1 8) 8) by (by rewrite !Z.shiftl_shiftl by lia).
    rewrite <- !Z.shiftl_lor, !lor_shiftl_low by (cbn; lia). change (2 ^ 8) with 256. lia. }
  unfold latency_bytes. rewrite !Z.shiftr_div_pow2 by lia.
  change (2 ^ 24) with (256 * (256 * 256)). change (2 ^ 16) with (256 * 256). change (2 ^ 8) with 256.
  rewrite <- !Z.div_div by lia. repeat f_equal; lia.
Qed.

(** The latency that a program writes to /dev/cpu_dma_latency, four bytes
    in any slices, is what a later read of four bytes from the same open file
    gives. *)
Theorem latency_roundtrip ticks t b b' m inp out k : zlen (buffer_bytes m b) = 4 ->
  Forall (fun x => 0 <= x < 256) (buffer_bytes m b) -> ub_wf b' -> zlen (ub_addrs b') = 4 ->
  let s := mkDevst m inp out k in
  exists t', dev_write (DevCpuDmaLatency t) b s = Ret (Ok 4, DevCpuDmaLatency t', s) /\
    dev_read ticks (DevCpuDmaLatency t') [] b' s =
    Ret (Some (Ok 4), [], mkDevst (write_addrs m (ub_addrs b') (buffer_bytes m b)) inp out k).
Proof.
  intros H4 Hr Hw Hl s. unfold dev_write. cbn [f_write file_of impl_DevCpuDmaLatency]. erewrite st_run; [|reflexivity].
  unfold latency_write. cbn [dv_mem s]. rewrite H4. cbn [Z.leb Z.compare Pos.compare Pos.compare_cont rassert].
  destruct (buffer_bytes m b) as [|b0 [|b1 [|b2 [|b3 [|]]]]]; try done; try (rewrite !zlen_cons in H4; pose proof (zlen_nonneg l); lia).
  repeat (apply Forall_cons_1 in Hr as [? Hr]).
  eexists. split; [reflexivity|]. cbn [lookup list_lookup default].
  unfold dev_read. cbn [f_read file_of impl_DevCpuDmaLatency]. unfold ready, put_text, on_dmem. st_unfold. rewrite ub_len_eq, Hl by done. cbn [dv_mem].
  rewrite latency_bytes_value by done. cbn [dv_mem con_in con_out dv_reads s].
  rewrite ub_write_spec by done. rewrite Hl. reflexivity.
Qed.

Lemma latency_roundtrip_witness : exists t',
  let m := write_addrs ∅ (ub_addrs [mkSlice 0x1ffe 2; mkSlice 0x5000 2]) [1; 2; 3; 4] in
  let s := mkDevst m [] [] 0 in
  dev_write (DevCpuDmaLatency 10) [mkSlice 0x1ffe 2; mkSlice 0x5000 2] s = Ret (Ok 4, DevCpuDmaLatency t', s) /\
  dev_read (fun n => n) (DevCpuDmaLatency t') [] [mkSlice 0x7000 4] s =
  Ret (Some (Ok 4), [], mkDevst (write_addrs m [0x7000; 0x7001; 0x7002; 0x7003] [1; 2; 3; 4]) [] [] 0).
Proof.
  apply (latency_roundtrip (fun n => n) 10 [mkSlice 0x1ffe 2; mkSlice 0x5000 2] [mkSlice 0x7000 4]).
  - vm_compute. reflexivity.
  - vm_compute. repeat constructor; discriminate.
  - split; [repeat constructor; cbn; lia|vm_compute; reflexivity].
  - vm_compute. reflexivity.
Defined.

(** A write of more than four bytes to /dev/cpu_dma_latency stops the
    kernel: the bytes are stored into an array of four without a check. *)
Theorem latency_write_panics t b s : 4 < zlen (buffer_bytes (dv_mem s) b) ->
  dev_write (DevCpuDmaLatency t) b s = Panic.
Proof.
  intros H. unfold dev_write. cbn [f_write file_of impl_DevCpuDmaLatency]. erewrite st_run; [|reflexivity]. unfold latency_write.
  rewrite (proj2 (Z.leb_gt _ _)) by lia. done.
Qed.

Lemma latency_write_panics_witness :
  dev_write (DevCpuDmaLatency 10) [mkSlice 0x1000 5] (mkDevst ∅ [] [] 0) = Panic.
Proof. apply latency_write_panics. vm_compute. reflexivity. Defined.
