(* ===== verification/Open.v ===== *)
(** * Opening files (os/src/fs/mod.rs, fs/inode.rs)

    [open_file] and what it uses: the special paths, the devices, the search
    for shared libraries, the index of the nodes by path, and the creation of
    files and directories.  Nodes and open files are objects with addresses,
    so that two openings of a path share a node.

    The clock is an argument; the nodes are those of ext4 (Ext4Ops.v). *)

From Stdlib Require Import Strings.String Strings.Ascii.
From S2P Require Import Prelude Config Errno Pte Path Stat.
From S2P Require Import Area.
From S2P Require Import FdTable FdSys FileIO FileCache Ext4Ops Dev.

(** ** Flags (inode.rs) *)

Definition O_WRONLY : Z := 0x1.
Definition O_CREATE : Z := 0x40.
Definition O_EXCL : Z := 0x80.
Definition O_TRUNC : Z := 0x200.
Definition O_DIRECTORY : Z := 0x10000.
Definition O_PATH : Z := 0x200000.
Definition O_ASK_SYMLINK : Z := 0x80000000.

Definition read_write (flags : Z) : bool * bool :=
  if flags =? 0 then (true, false)
  else if fl_contains flags O_WRONLY then (false, true)
  else (true, true).

Definition node_type (flags : Z) : InodeType := if fl_contains flags O_DIRECTORY then IDir else IFile.

(** ** Paths *)

Definition str_ends_with (s suffix : list Z) : bool :=
  bool_decide (suffix = drop (length s - length suffix) s) && (length suffix <=? length s)%nat.
Definition str_starts_with (s prefix : list Z) : bool := bool_decide (take (length prefix) s = prefix).
Fixpoint str_contains (s part : list Z) : bool :=
  str_starts_with s part || match s with [] => false | _ :: s' => str_contains s' part end.

Definition is_dynamic_link_file (path : list Z) : bool :=
  str_ends_with path (bytes_of ".so") || str_contains path (bytes_of ".so.").

Definition DYNAMIC_PREFIX : list (list Z) := [bytes_of "/glibc"; bytes_of "/musl"; bytes_of "/usr"].
Definition DYNAMIC_PATH : list (list Z) :=
  [bytes_of "/musl/lib/dlopen_dso.so"; bytes_of "/musl/lib/tls_align_dso.so";
   bytes_of "/musl/lib/tls_init_dso.so"; bytes_of "/musl/lib/libc.so";
   bytes_of "/musl/lib/tls_get_new-dtv_dso.so"; bytes_of "/glibc/lib/dlopen_dso.so";
   bytes_of "/glibc/lib/libc.so"; bytes_of "/glibc/lib/libc.so.6"; bytes_of "/glibc/lib/libm.so.6";
   bytes_of "/glibc/lib/libm.so"; bytes_of "/glibc/lib/tls_get_new-dtv_dso.so";
   bytes_of "/glibc/lib/ld-linux-riscv64-lp64.so.1"; bytes_of "/glibc/lib/ld-linux-riscv64-lp64d.so.1";
   bytes_of "/glibc/lib/tls_align_dso.so"; bytes_of "/glibc/lib/tls_init_dso.so";
   bytes_of "/usr/lib/ld-musl-riscv64-sf.so.1"; bytes_of "/usr/lib/ld-musl-loongarch-sf.so.1";
   bytes_of "/glibc/lib/ld-linux-loongarch-lp64.so.1"; bytes_of "/glibc/lib/ld-linux-loongarch-lp64d.so.1";
   bytes_of "/glibc/lib/ld-musl-loongarch-lp64d.so.1"].
Definition known_library (p : list Z) : bool := existsb (str_eqb p) DYNAMIC_PATH.

Definition map_dynamic_link_file (path : list Z) : outcome (list Z) :=
  let new_path :=
    if str_starts_with path (bytes_of "/lib64/") then bytes_of "/lib/" ++ drop 7 path else path in
  _ ← rassert (starts_with_slash new_path);
  if known_library new_path then Ret new_path
  else Ret (default new_path (find known_library (map (fun prefix => prefix ++ new_path) DYNAMIC_PREFIX))).

Definition fix_path (path : list Z) : list Z :=
  let path := if starts_with_slash path then path else SLASH :: path in
  if ends_with_slash path then pop_last path else path.

(** The decimal digits of a number; 20 digits are enough for a [usize]. *)
Fixpoint digits (fuel : nat) (n : Z) : list Z :=
  match fuel with
  | O => []
  | S fuel' => (if n <? 10 then [] else digits fuel' (n / 10)) ++ [48 + n mod 10]
  end.
Definition decimal (n : Z) : list Z := digits 20 n.

Definition TMP : list Z := bytes_of "/tmp".

(** ** State *)

(** The file system, the nodes and the index of the nodes by path, the open
    files and devices by address, the table of devices, the counter of
    temporary files. *)
Record vfs (D : Type) : Type := mkVfs {
  v_ext : ext4st D;
  v_nodes : gmap Z Ext4File;
  FD2NODE : gmap (list Z) Z;
  v_files : gmap Z OsInode;
  v_devs : gmap Z device;
  v_reg : registry;
  v_next : Z;
  TMP_NAME : Z
}.
Arguments mkVfs {D}.
Arguments v_ext {D}.
Arguments v_nodes {D}.
Arguments FD2NODE {D}.
Arguments v_files {D}.
Arguments v_devs {D}.
Arguments v_reg {D}.
Arguments v_next {D}.
Arguments TMP_NAME {D}.

(** The address of the root node, which the file system keeps. *)
Definition ROOT : Z := 0.

Section open.
Context {D : Type} `{!Lwext4 D}.
Variable heap_bytes : list Z -> Z -> list Z.
Variable time_ms : Z.

Notation VFS := (ST (vfs D)).

Definition on_ext {A} (m : ST (ext4st D) A) : VFS A :=
  fun s => match m (v_ext s) with
           | Ret (a, x) => Ret (a, mkVfs x (v_nodes s) (FD2NODE s) (v_files s) (v_devs s) (v_reg s) (v_next s) (TMP_NAME s))
           | Panic => Panic
           end.
Definition set_nodes (n : gmap Z Ext4File) : VFS unit :=
  st_modify (fun s => mkVfs (v_ext s) n (FD2NODE s) (v_files s) (v_devs s) (v_reg s) (v_next s) (TMP_NAME s)).
Definition set_index (n : gmap (list Z) Z) : VFS unit :=
  st_modify (fun s => mkVfs (v_ext s) (v_nodes s) n (v_files s) (v_devs s) (v_reg s) (v_next s) (TMP_NAME s)).
Definition set_files (n : gmap Z OsInode) : VFS unit :=
  st_modify (fun s => mkVfs (v_ext s) (v_nodes s) (FD2NODE s) n (v_devs s) (v_reg s) (v_next s) (TMP_NAME s)).
Definition set_devs (n : gmap Z device) : VFS unit :=
  st_modify (fun s => mkVfs (v_ext s) (v_nodes s) (FD2NODE s) (v_files s) n (v_reg s) (v_next s) (TMP_NAME s)).
Definition set_tmp (n : Z) : VFS unit :=
  st_modify (fun s => mkVfs (v_ext s) (v_nodes s) (FD2NODE s) (v_files s) (v_devs s) (v_reg s) (v_next s) n).

(** A new address. *)
Definition new_addr : VFS Z :=
  fun s => Ret (v_next s, mkVfs (v_ext s) (v_nodes s) (FD2NODE s) (v_files s) (v_devs s) (v_reg s) (v_next s + 1) (TMP_NAME s)).

Definition node_at (i : Z) : VFS Ext4File := n ← st_gets v_nodes; st_lift (unwrap (n !! i)).

(** A method of the node at [i] that keeps or replaces its descriptor. *)
Definition on_node {A} (i : Z) (m : Ext4File -> ST (ext4st D) (A * Ext4File)) : VFS A :=
  f ← node_at i;
  '(a, f) ← on_ext (m f);
  n ← st_gets v_nodes;
  _ ← set_nodes (<[i := f]> n);
  mret a.
Definition look_node {A} (i : Z) (m : Ext4File -> ST (ext4st D) A) : VFS A :=
  f ← node_at i; on_ext (m f).

Definition new_node (f : Ext4File) : VFS Z :=
  i ← new_addr;
  n ← st_gets v_nodes;
  _ ← set_nodes (<[i := f]> n);
  mret i.

Definition new_file (o : OsInode) : VFS Z :=
  r ← new_addr;
  n ← st_gets v_files;
  _ ← set_files (<[r := o]> n);
  mret r.

Definition new_device (d : device) : VFS Z :=
  r ← new_addr;
  n ← st_gets v_devs;
  _ ← set_devs (<[r := d]> n);
  mret r.

Definition file_at (r : Z) : VFS OsInode := n ← st_gets v_files; st_lift (unwrap (n !! r)).

(** [find] makes a new node. *)
Definition vfs_find (path : list Z) (flags : Z) : VFS (result Z SysErrNo) :=
  f <-? on_ext (fw_find path (fl_contains flags O_DIRECTORY) (fl_contains flags O_ASK_SYMLINK));
  i ← new_node f;
  mret (Ok i).

(** ** The index *)

Definition has_inode (path : list Z) : VFS bool := st_gets (fun s => bool_decide (is_Some (FD2NODE s !! path))).
Definition find_inode_idx (path : list Z) : VFS (option Z) := st_gets (fun s => FD2NODE s !! path).
Definition insert_inode_idx (path : list Z) (i : Z) : VFS unit :=
  n ← st_gets FD2NODE; set_index (<[path := i]> n).
Definition remove_inode_idx (path : list Z) : VFS unit :=
  n ← st_gets FD2NODE; set_index (delete path n).

(** ** Creating and opening *)

(** [OsInode::new] *)
Definition OsInode_new (readable writable : bool) (i : Z) : OsInode := mkOs readable writable 0 i.

Definition create_file (abs_path : list Z) (flags mode parent_dir : Z)
    : VFS (result FileDescriptor SysErrNo) :=
  let '(readable, writable) := read_write flags in
  _ <-? (r ← on_node parent_dir (fun f => fw_create f abs_path (as_ext4_de_type (node_type flags)));
         mret (from_i32 r));
  inode <-? vfs_find abs_path flags;
  _ <-? look_node inode (fun f => fw_fmode_set f mode);
  _ <-? look_node inode (fun f => fw_set_owner f 0 0);
  _ <-? look_node inode (fun f => fw_set_timestamps f None (Some (time_ms / 1000 mod 2 ^ 32)) None);
  _ ← insert_inode_idx abs_path inode;
  r ← new_file (OsInode_new readable writable inode);
  mret (Ok (mkFD flags (ClassFile r))).

(** [find_inode] does not look at the index. *)
Definition find_inode (abs_path : list Z) (flags : Z) : VFS (result Z SysErrNo) :=
  p ← st_lift (if is_dynamic_link_file abs_path then map_dynamic_link_file abs_path else Ret abs_path);
  vfs_find p flags.

(** The node of [open_file]: from the index, or found and entered. *)
Definition lookup_node (path : list Z) (flags : Z) : VFS (result (option Z) SysErrNo) :=
  b ← has_inode path;
  if (b : bool) then i ← find_inode_idx path; mret (Ok i)
  else
    r ← vfs_find path flags;
    match r with
    | Err ENOTDIR => mret (Err ENOTDIR)
    | Err ELOOP => mret (Err ELOOP)
    | Err _ => mret (Ok None)
    | Ok t =>
        _ ← (if fl_contains flags O_ASK_SYMLINK then mret tt else insert_inode_idx path t);
        mret (Ok (Some t))
    end.

(** [osfile.lseek(0, SEEK_END)] of a new open file. *)
Definition seek_end (o : OsInode) : VFS (result OsInode SysErrNo) :=
  size ← on_node (os_node o) fw_size;
  '(r, inner) ← st_lift (lseek (mkInner (os_offset o) size) 0 SEEK_END);
  mret (match r with Ok _ => Ok (set_offset (in_offset inner) o) | Err e => Err e end).

(** An existing node. *)
Definition open_node (inode flags : Z) : VFS (result FileDescriptor SysErrNo) :=
  f ← node_at inode;
  if fl_contains flags O_DIRECTORY && negb (fw_is_dir f) then mret (Err ENOTDIR)
  else
    let '(readable, writable) := read_write flags in
    let osfile := OsInode_new readable writable inode in
    osfile <-? (if fl_contains flags O_APPEND then seek_end osfile else mret (Ok osfile));
    _ <-? (if fl_contains flags O_TRUNC
           then r ← on_node inode (fun f => fw_truncate f 0); mret (from_i32 r)
           else mret (Ok 0));
    r ← new_file osfile;
    mret (Ok (mkFD flags (ClassFile r))).

(** [open_file] of a path that is not /tmp. *)
Definition open_plain (abs_path : list Z) (flags mode : Z) : VFS (result FileDescriptor SysErrNo) :=
  if str_eqb abs_path [SLASH] then
    r ← new_file (OsInode_new true false ROOT);
    mret (Ok (mkFD flags (ClassFile r)))
  else
    dev ← st_gets (fun s => find_device abs_path (v_reg s));
    if (dev : bool) then
      d <-? mret (open_device_file abs_path);
      r ← new_device d;
      mret (Ok (mkFD flags (ClassAbs r)))
    else
      p ← st_lift (if is_dynamic_link_file abs_path then map_dynamic_link_file abs_path else Ret abs_path);
      let path := fix_path p in
      '(parent, _) ← st_lift (get_parent_path_and_filename path);
      dev ← st_gets (fun s => find_device parent (v_reg s));
      if (dev : bool) then mret (Err ENOTDIR)
      else
        inode <-? lookup_node path flags;
        match inode with
        | Some i => open_node i flags
        | None =>
            if fl_contains flags O_CREATE then create_file path flags mode ROOT
            else mret (Err ENOENT)
        end.

Definition open_file (abs_path : list Z) (flags mode : Z) : VFS (result FileDescriptor SysErrNo) :=
  if str_eqb abs_path TMP then
    tmp_name ← st_gets TMP_NAME;
    n ← st_lift (uadd tmp_name 1);
    _ ← set_tmp n;
    open_plain (TMP ++ [SLASH] ++ decimal tmp_name)
      (Z.lor (Z.lor O_CREATE O_EXCL) FileCache.O_RDWR) 0x180
  else open_plain abs_path flags mode.

(** ** Methods of open files *)

(** [fstat] *)
Definition os_fstat (r : Z) : VFS Kstat := o ← file_at r; look_node (os_node o) fw_fstat.
Definition os_get_path (r : Z) : VFS (list Z) := o ← file_at r; f ← node_at (os_node o); mret (file_path f).
Definition os_is_dir (r : Z) : VFS bool := o ← file_at r; f ← node_at (os_node o); mret (fw_is_dir f).
Definition os_read_dentry (r off len : Z) : VFS (result (list Z * Z) SysErrNo) :=
  o ← file_at r; look_node (os_node o) (fun f => fw_read_dentry f off len).

(** [OsInode::truncate] negates the number of the error. *)
Definition os_truncate (r size : Z) : VFS (result Z SysErrNo) :=
  o ← file_at r;
  t ← on_node (os_node o) (fun f => fw_truncate f size);
  mret (match t with Ok n => Ok n | Err e => Err (errno_from_primitive (- e)) end).

(** [lseek] *)
Definition v_lseek (r offset whence : Z) : VFS (result Z SysErrNo) :=
  o ← file_at r;
  size ← (if whence =? SEEK_END then on_node (os_node o) fw_size else mret 0);
  '(res, inner) ← st_lift (lseek (mkInner (os_offset o) size) offset whence);
  n ← st_gets v_files;
  _ ← set_files (<[r := set_offset (in_offset inner) o]> n);
  mret res.

(** [read_all]: 512 bytes at a time until nothing is read; [None] when the
    fuel runs out. *)
Fixpoint read_all (fuel : nat) (r : Z) (out : list Z) : VFS (option (list Z)) :=
  match fuel with
  | O => mret None
  | S fuel' =>
      o ← file_at r;
      x ← on_node (os_node o) (fun f => fw_read_at heap_bytes f (os_offset o) 512);
      bs ← st_lift (result_unwrap x);
      if zlen bs =? 0 then mret (Some out)
      else
        off ← st_lift (uadd (os_offset o) (zlen bs));
        n ← st_gets v_files;
        _ ← set_files (<[r := set_offset off o]> n);
        read_all fuel' r (out ++ bs)
  end.

(** [File] methods through [any()]. *)
Definition fd_fstat (f : FileDescriptor) : VFS Kstat :=
  match fd_file f with
  | ClassFile r => os_fstat r
  | ClassAbs r =>
      n ← st_gets v_devs;
      d ← st_lift (unwrap (n !! r));
      reg ← st_gets v_reg;
      st_lift (dev_fstat d reg)
  end.

(** The path of a device other than the shared memory is not implemented. *)
Definition fd_get_path (f : FileDescriptor) : VFS (list Z) :=
  match fd_file f with
  | ClassFile r => os_get_path r
  | ClassAbs r =>
      n ← st_gets v_devs;
      d ← st_lift (unwrap (n !! r));
      st_lift (dev_get_path d)
  end.

End open.
