(* ===== verification/Disk.v ===== *)
(** * Block devices and the disk of the file system
    (os/src/drivers, os/src/devices, lwext4_rust/src/blockdev.rs)

    [Ext4DiskWrapper] turns the virtio block device into a seekable disk, and
    the callbacks of [Ext4BlockWrapper] give its blocks to the C library.  The
    virtio crate is a class, with what its documentation says about sectors as
    laws; so are the functions that mount and unmount.  Any sequence of block
    reads and writes inside the device behaves like an array of sectors. *)

From Stdlib Require Import Strings.String Strings.Ascii.
From S2P Require Import Prelude Config Errno Path FileCache Dev.
From S2P Require Import Open.

Definition BLOCK_SIZE : Z := 0x200.
Definition C_EIO : Z := 5.
Definition C_EFAULT : Z := 14.
Definition C_ENOTSUP : Z := 95.

(** ** Devices *)

(** [VirtIOBlk] of the virtio crate: the number of sectors, and transfers of
    whole sectors, which fail with an error or an assertion. *)
Class VirtioBlk (V : Type) : Type := {
  vb_capacity : V -> Z;
  vb_read_blocks : Z -> Z -> V -> option (list Z);
  vb_write_blocks : Z -> list Z -> V -> option V
}.

(** The kinds of drivers; only block devices have a model. *)
Inductive DeviceType (V : Type) : Type :=
| DtRtc | DtBlock (v : V) | DtNet | DtInput | DtInt | DtUart | DtNone.
Arguments DtRtc {V}.
Arguments DtBlock {V}.
Arguments DtNet {V}.
Arguments DtInput {V}.
Arguments DtInt {V}.
Arguments DtUart {V}.
Arguments DtNone {V}.

(** How many devices of each kind there are, and the block devices.  The first
    serial line becomes the console, and the interrupt controller can be set
    only once. *)
Record DeviceSet (V : Type) : Type := mkDevs {
  n_rtc : Z; devs_blk : list V; n_net : Z; n_uart : Z; n_input : Z;
  MAIN_UART : bool; INT_DEVICE : bool
}.
Arguments mkDevs {V}.
Arguments n_rtc {V}.
Arguments devs_blk {V}.
Arguments n_net {V}.
Arguments n_uart {V}.
Arguments n_input {V}.
Arguments MAIN_UART {V}.
Arguments INT_DEVICE {V}.

Definition DeviceSet_new {V} : DeviceSet V := mkDevs 0 [] 0 0 0 false false.

(** [LazyInit::init_by] asserts that the value is not there yet. *)
Definition add_device {V} (s : DeviceSet V) (d : DeviceType V) : outcome (DeviceSet V) :=
  match d with
  | DtRtc => Ret (mkDevs (n_rtc s + 1) (devs_blk s) (n_net s) (n_uart s) (n_input s) (MAIN_UART s) (INT_DEVICE s))
  | DtBlock v =>
      Ret (mkDevs (n_rtc s) (devs_blk s ++ [v]) (n_net s) (n_uart s) (n_input s) (MAIN_UART s) (INT_DEVICE s))
  | DtNet => Ret (mkDevs (n_rtc s) (devs_blk s) (n_net s + 1) (n_uart s) (n_input s) (MAIN_UART s) (INT_DEVICE s))
  | DtInput => Ret (mkDevs (n_rtc s) (devs_blk s) (n_net s) (n_uart s) (n_input s + 1) (MAIN_UART s) (INT_DEVICE s))
  | DtInt =>
      _ ← rassert (negb (INT_DEVICE s));
      Ret (mkDevs (n_rtc s) (devs_blk s) (n_net s) (n_uart s) (n_input s) (MAIN_UART s) true)
  | DtUart =>
      _ ← rassert (negb ((n_uart s =? 0) && MAIN_UART s));
      Ret (mkDevs (n_rtc s) (devs_blk s) (n_net s) (n_uart s + 1) (n_input s) true (INT_DEVICE s))
  | DtNone => Ret s
  end.

Definition get_blk_device {V} (s : DeviceSet V) (id : Z) : option V :=
  if id <? zlen (devs_blk s) then devs_blk s !! Z.to_nat id else None.

(** [parse_virtio_device_name]: "/dev/vda" is device 0. *)
Definition VD_PREFIX : list Z := bytes_of "/dev/vd".
Definition parse_virtio_device_name (name : list Z) : option Z :=
  if negb (str_starts_with name VD_PREFIX) then None
  else
    match drop (length VD_PREFIX) name with
    | [c] => if (97 <=? c) && (c <=? 122) then Some (c - 97) else None
    | _ => None
    end.

(** ** The disk *)

Record Ext4Disk : Type := mkDisk { dk_block_id : Z; dk_offset : Z; dk_blk_id : Z }.

Definition Ext4Disk_new (blk_id : Z) : Ext4Disk := mkDisk 0 0 blk_id.

Definition position (d : Ext4Disk) : outcome Z :=
  n ← umul (dk_block_id d) BLOCK_SIZE;
  uadd n (dk_offset d).

Definition set_position (pos : Z) (d : Ext4Disk) : Ext4Disk :=
  mkDisk (pos / BLOCK_SIZE) (pos mod BLOCK_SIZE) (dk_blk_id d).

(** The part of [ext4_blockdev] and of its interface that the callbacks use. *)
Record ext4_blockdev : Type := mkBdev { part_offset : Z; part_size : Z; ph_bsize : Z; ph_bcnt : Z }.

Record dstate (V : Type) : Type := mkDs { ds_devs : DeviceSet V; ds_disk : Ext4Disk; ds_bdev : ext4_blockdev }.
Arguments mkDs {V}.
Arguments ds_devs {V}.
Arguments ds_disk {V}.
Arguments ds_bdev {V}.

Section disk.
Context {V : Type} `{!VirtioBlk V}.

Notation DK := (ST (dstate V)).

Definition set_disk (d : Ext4Disk) : DK unit := st_modify (fun s => mkDs (ds_devs s) d (ds_bdev s)).
Definition set_bdev (b : ext4_blockdev) : DK unit := st_modify (fun s => mkDs (ds_devs s) (ds_disk s) b).
Definition set_blk (id : Z) (v : V) : DK unit :=
  st_modify (fun s =>
    let d := ds_devs s in
    mkDs (mkDevs (n_rtc d) (<[Z.to_nat id := v]> (devs_blk d)) (n_net d) (n_uart d) (n_input d) (MAIN_UART d)
            (INT_DEVICE d)) (ds_disk s) (ds_bdev s)).

(** [get_blk_device(dev.blk_id).expect(..)] *)
Definition the_device : DK V := s ← st_gets id; st_lift (unwrap (get_blk_device (ds_devs s) (dk_blk_id (ds_disk s)))).

(** [VirtIOBlock::capacity], in bytes *)
Definition blk_capacity (v : V) : outcome Z := umul (vb_capacity v) 0x200.

(** The cursor moves behind the [n] bytes of a transfer. *)
Definition advance (n : Z) : DK unit :=
  d ← st_gets ds_disk;
  b ← st_lift (uadd (dk_block_id d) (n / BLOCK_SIZE));
  set_disk (mkDisk b (dk_offset d) (dk_blk_id d)).

Definition disk_read (n : Z) : DK (result Z Z * list Z) :=
  d ← st_gets ds_disk;
  _ ← st_lift (rassert (dk_offset d mod BLOCK_SIZE =? 0));
  v ← the_device;
  buf ← st_lift (unwrap (vb_read_blocks (dk_block_id d) n v));
  _ ← advance n;
  mret (Ok n, buf).

Definition disk_write (buf : list Z) : DK (result Z Z) :=
  d ← st_gets ds_disk;
  _ ← st_lift (rassert (dk_offset d mod BLOCK_SIZE =? 0));
  v ← the_device;
  v' ← st_lift (unwrap (vb_write_blocks (dk_block_id d) buf v));
  _ ← set_blk (dk_blk_id d) v';
  _ ← advance (zlen buf);
  mret (Ok (zlen buf)).

(** [checked_add_signed(off).map(|v| v as i64)] *)
Definition seek_from (base off : Z) : option Z :=
  let v := base + off in
  if (0 <=? v) && (v <? u64_bound) then Some (wrap_isize v) else None.

Definition disk_seek (off whence : Z) : DK (result Z Z) :=
  d ← st_gets ds_disk;
  v ← the_device;
  size ← st_lift (blk_capacity v);
  new_pos ← (if whence =? SEEK_CUR then p ← st_lift (position d); mret (seek_from p off)
             else if whence =? SEEK_END then mret (seek_from size off)
             else mret (Some off));
  match new_pos with
  | None => mret (Err (-1))
  | Some p =>
      _ ← set_disk (set_position (wrap64 p) d);
      mret (Ok p)
  end.

(** ** The callbacks *)

Definition dev_open : DK Z :=
  r ← disk_seek 0 SEEK_END;
  match r with
  | Err _ => mret C_EFAULT
  | Ok cur =>
      b ← st_gets ds_bdev;
      let size := wrap64 cur in
      _ ← set_bdev (mkBdev 0 size (ph_bsize b) (size / ph_bsize b));
      mret EOK
  end.

(** The seek before a transfer of blocks. *)
Definition seek_block (blk_id : Z) : DK bool :=
  b ← st_gets ds_bdev;
  n ← st_lift (umul blk_id (ph_bsize b));
  r ← disk_seek (wrap_isize n) SEEK_SET;
  mret (match r with Ok _ => true | Err _ => false end).

(** [ph_bsize * blk_cnt * 1] in 32 bits *)
Definition transfer_len (blk_cnt : Z) : DK Z :=
  b ← st_gets ds_bdev;
  let n := ph_bsize b * blk_cnt in
  _ ← st_lift (rassert (n <? 2 ^ 32));
  mret n.

Definition dev_bread (blk_id blk_cnt : Z) : DK (Z * list Z) :=
  ok ← seek_block blk_id;
  if negb ok then mret (C_EIO, [])
  else if blk_cnt =? 0 then mret (EOK, [])
  else
    n ← transfer_len blk_cnt;
    '(r, buf) ← disk_read n;
    mret (match r with Ok _ => EOK | Err _ => C_EIO end, buf).

(** [buf] are the bytes at the pointer that the library passes. *)
Definition dev_bwrite (buf : list Z) (blk_id blk_cnt : Z) : DK Z :=
  ok ← seek_block blk_id;
  if negb ok then mret C_EIO
  else if blk_cnt =? 0 then mret EOK
  else
    n ← transfer_len blk_cnt;
    r ← disk_write (take (Z.to_nat n) buf);
    mret (match r with Ok _ => EOK | Err _ => C_EIO end).

Definition dev_close : DK Z := mret EOK.

End disk.

(** ** Mounting *)

Record ext4_mount_stats : Type := mkStats {
  inodes_count : Z; free_inodes_count : Z; blocks_count : Z; free_blocks_count : Z; st_block_size : Z
}.

(** The functions of the C library that mount, with the state they work on. *)
Class Lwext4Mount (M : Type) : Type := {
  m_device_register : list Z -> M -> Z * M;
  m_mount : list Z -> list Z -> M -> Z * M;
  m_recover : list Z -> M -> Z * M;
  m_journal_start : list Z -> M -> Z * M;
  m_journal_stop : list Z -> M -> Z * M;
  m_cache_write_back : list Z -> bool -> M -> M;
  m_umount : list Z -> M -> Z * M;
  m_device_unregister : list Z -> M -> Z * M;
  m_stats : list Z -> M -> ext4_mount_stats;
  m_block_cache_flush : M -> Z * M
}.

(** [name] and [mount_point] of [Ext4BlockWrapper], without the padding. *)
Record BlockWrapper : Type := mkBw { bw_name : list Z; bw_mount_point : list Z }.

(** [Ext4FileSystem::new] adds a slash to the mount point, and
    [Ext4BlockWrapper::new] copies the two strings and a zero into arrays of 16
    and 32 bytes; a zero inside one of them is an error that panics. *)
Definition BlockWrapper_new (name root : list Z) : outcome BlockWrapper :=
  let mp := if ends_with_slash root then root else root ++ [SLASH] in
  _ ← rassert (forallb (fun c => negb (c =? 0)) name);
  _ ← rassert (forallb (fun c => negb (c =? 0)) mp);
  _ ← rassert (zlen name + 1 <=? 16);
  _ ← rassert (zlen mp + 1 <=? 32);
  Ret (mkBw name mp).

Definition set_mount_point (path : list Z) (b : BlockWrapper) : BlockWrapper :=
  mkBw (bw_name b) (take (Z.to_nat (Z.min (zlen path) 31)) path).

Record Statfs : Type := mkStatfs {
  f_type : Z; f_bsize : Z; f_blocks : Z; f_bfree : Z; f_bavail : Z; f_files : Z; f_ffree : Z;
  f_fsid : Z; f_name_len : Z; f_frsize : Z; f_flags : Z; f_spare : list Z
}.

Section mounting.
Context {M : Type} `{!Lwext4Mount M}.

(** A call that must return [EOK], or a code that [ok] admits. *)
Definition c_call (f : M -> Z * M) (ok : Z -> bool) : ST M (result unit Z) :=
  fun m => let '(r, m') := f m in Ret (if (r =? EOK) || ok r then Ok tt else Err r, m').
Definition strict (r : Z) : bool := false.

Definition lwext4_mount (b : BlockWrapper) : ST M (result Z Z) :=
  _ <-? c_call (m_device_register (bw_name b)) strict;
  _ <-? c_call (m_mount (bw_name b) (bw_mount_point b)) strict;
  _ <-? c_call (m_recover (bw_mount_point b)) (fun r => r =? C_ENOTSUP);
  _ <-? c_call (m_journal_start (bw_mount_point b)) strict;
  _ ← st_modify (m_cache_write_back (bw_mount_point b) true);
  mret (Ok 0).

Definition lwext4_umount (b : BlockWrapper) : ST M (result Z Z) :=
  _ ← st_modify (m_cache_write_back (bw_mount_point b) false);
  _ <-? c_call (m_journal_stop (bw_mount_point b)) strict;
  _ <-? c_call (m_umount (bw_mount_point b)) strict;
  _ <-? c_call (m_device_unregister (bw_name b)) strict;
  mret (Ok 0).

Definition get_statfs (b : BlockWrapper) (m : M) : Statfs :=
  let raw := m_stats (bw_mount_point b) m in
  mkStatfs 0xef53 (st_block_size raw) (wrap_isize (blocks_count raw)) (wrap_isize (free_blocks_count raw))
    (wrap_isize (free_blocks_count raw)) (inodes_count raw) (free_inodes_count raw) 0 255 (st_block_size raw) 0
    (replicate 4 0).

(** [sync] of the file system ignores the error. *)
Definition block_sync : ST M (result Z Z) := _ <-? c_call m_block_cache_flush strict; mret (Ok 0).
Definition fs_sync : ST M (result unit SysErrNo) := _ ← block_sync; mret (Ok tt).

(** [VfsManager::mount] up to the table: the file system at a block device.
    [root_set] says that [EXT4FS], which holds the file system of the first
    disk, has a value; setting it again panics. *)
Definition EXT4_NAME : list Z := bytes_of "ext4".
Definition VDA : list Z := bytes_of "/dev/vda".
Definition make_fs (root_set : bool) (special mount_point fstype : list Z)
    : ST M (result (BlockWrapper * Ext4Disk) SysErrNo) :=
  if str_eqb fstype EXT4_NAME then
    block_id ← st_lift (unwrap (parse_virtio_device_name special));
    b ← st_lift (BlockWrapper_new special mount_point);
    r ← lwext4_mount b;
    _ ← st_lift (result_unwrap r);
    _ ← st_lift (rassert (negb (str_eqb special VDA && root_set)));
    mret (Ok (b, Ext4Disk_new block_id))
  else mret (Err ENODEV).

End mounting.

(** ** The device as an array of sectors *)

(** What the documentation of the crate says: transfers of one or more whole
    sectors inside the device succeed, reads return the sectors, writes
    replace exactly them. *)
Class VirtioLaws (V : Type) `{!VirtioBlk V} : Type := {
  sector : V -> Z -> list Z;
  law_sector : forall v i, length (sector v i) = 512%nat;
  law_read_blocks : forall v b n, 0 <= b -> 0 < n -> b + n <= vb_capacity v ->
    vb_read_blocks b (512 * n) v = Some (zrange b (b + n) ≫= sector v);
  law_write_blocks : forall v b n bs, 0 <= b -> 0 < n -> b + n <= vb_capacity v -> zlen bs = 512 * n ->
    exists v', vb_write_blocks b bs v = Some v' /\ vb_capacity v' = vb_capacity v /\
      forall i, sector v' i =
        if (b <=? i) && (i <? b + n) then take 512 (drop (Z.to_nat (512 * (i - b))) bs) else sector v i
}.

Inductive block_op : Type := BRead (blk_id blk_cnt : Z) | BWrite (blk_id blk_cnt : Z) (buf : list Z).

(** The operations on a plain array of [cap] sectors. *)
Definition array_op (a : Z -> list Z) (o : block_op) : (Z * list Z) * (Z -> list Z) :=
  match o with
  | BRead b n => ((EOK, zrange b (b + n) ≫= a), a)
  | BWrite b n buf =>
      ((EOK, []), fun i => if (b <=? i) && (i <? b + n) then take 512 (drop (Z.to_nat (512 * (i - b))) buf) else a i)
  end.
Fixpoint array_run (a : Z -> list Z) (ops : list block_op) : list (Z * list Z) * (Z -> list Z) :=
  match ops with
  | [] => ([], a)
  | o :: ops' => let '(r, a') := array_op a o in let '(rs, a'') := array_run a' ops' in (r :: rs, a'')
  end.

(** Inside a device of [cap] sectors, less than 4 GiB at a time. *)
Definition block_op_ok (cap : Z) (o : block_op) : Prop :=
  match o with
  | BRead b n => 0 <= b /\ 0 <= n < 2 ^ 23 /\ b + n <= cap
  | BWrite b n buf => 0 <= b /\ 0 <= n < 2 ^ 23 /\ b + n <= cap /\ 512 * n <= zlen buf
  end.

Section blocks.
Context {V : Type} `{!VirtioBlk V} `{!VirtioLaws V}.

Notation DK := (ST (dstate V)).

Definition block_run (o : block_op) : DK (Z * list Z) :=
  match o with
  | BRead b n => dev_bread b n
  | BWrite b n buf => r ← dev_bwrite buf b n; mret (r, [])
  end.
Fixpoint blocks_run (ops : list block_op) : DK (list (Z * list Z)) :=
  match ops with
  | [] => mret []
  | o :: ops' => r ← block_run o; rs ← blocks_run ops'; mret (r :: rs)
  end.

(** The disk is on a device with the sectors [a], and its capacity in bytes
    fits a signed word. *)
Record disk_ok (cap : Z) (a : Z -> list Z) (s : dstate V) : Prop := {
  do_dev : exists v, get_blk_device (ds_devs s) (dk_blk_id (ds_disk s)) = Some v /\
    vb_capacity v = cap /\ forall i, sector v i = a i;
  do_id : 0 <= dk_blk_id (ds_disk s);
  do_cap : 0 <= cap /\ cap * 512 < 2 ^ 63;
  do_bsize : ph_bsize (ds_bdev s) = BLOCK_SIZE
}.

Lemma the_device_run (s : dstate V) v : get_blk_device (ds_devs s) (dk_blk_id (ds_disk s)) = Some v -> the_device s = Ret (v, s).
Proof. intros H. unfold the_device, mbind, ST_bind, st_gets, st_lift, id. by rewrite H. Qed.

Lemma disk_seek_run (s : dstate V) v p : get_blk_device (ds_devs s) (dk_blk_id (ds_disk s)) = Some v ->
  vb_capacity v * 512 < u64_bound ->
  disk_seek p SEEK_SET s = Ret (Ok p, mkDs (ds_devs s) (set_position (wrap64 p) (ds_disk s)) (ds_bdev s)).
Proof.
  intros Hv Hc. unfold disk_seek. erewrite st_run; [|reflexivity]. cbv beta.
  erewrite st_run by exact (the_device_run s v Hv). cbv beta.
  by erewrite st_run by (unfold st_lift, blk_capacity; rewrite umul_Ret by exact Hc; reflexivity).
Qed.

Lemma seek_block_run cap a s b : disk_ok cap a s -> 0 <= b <= cap ->
  exists s1, seek_block b s = Ret (true, s1) /\ disk_ok cap a s1 /\ dk_block_id (ds_disk s1) = b /\
    dk_offset (ds_disk s1) = 0.
Proof.
  intros [(v & Hv & Hcap & Ha) Hid [Hc0 Hc] Hbs] Hb. unfold seek_block.
  erewrite st_run; [|reflexivity]. cbv beta. rewrite Hbs. unfold BLOCK_SIZE in *.
  erewrite st_run by (unfold st_lift; rewrite umul_Ret by (unfold u64_bound; lia); reflexivity). cbv beta.
  erewrite st_run by (apply (disk_seek_run s v); [done|rewrite Hcap; unfold u64_bound; lia]). cbv beta.
  eexists. split; [reflexivity|].
  assert (wrap64 (wrap_isize (b * 0x200)) = b * 512) as ->.
  { unfold wrap_isize, wrap64. rewrite (Z.mod_small (_ + _)) by lia. rewrite Z.mod_small; lia. }
  unfold set_position, BLOCK_SIZE. cbn. rewrite Z.div_mul, Z.mod_mul by lia.
  split; [|done]. split; cbn; [by exists v|done|done|done].
Qed.

Lemma transfer_len_run (s : dstate V) n : ph_bsize (ds_bdev s) = BLOCK_SIZE -> 0 <= n < 2 ^ 23 ->
  transfer_len n s = Ret (512 * n, s).
Proof.
  intros H Hn. unfold transfer_len. erewrite st_run; [|reflexivity]. cbv beta zeta. rewrite H. unfold BLOCK_SIZE.
  unfold mbind, ST_bind, st_lift, rassert. destruct (Z.ltb_spec (0x200 * n) (2 ^ 32)); [done|lia].
Qed.

Lemma advance_run (s : dstate V) n : dk_block_id (ds_disk s) + n < u64_bound ->
  advance (512 * n) s =
    Ret (tt, mkDs (ds_devs s) (mkDisk (dk_block_id (ds_disk s) + n) (dk_offset (ds_disk s)) (dk_blk_id (ds_disk s))) (ds_bdev s)).
Proof.
  intros H. unfold advance. erewrite st_run; [|reflexivity]. cbv beta.
  replace (512 * n / BLOCK_SIZE) with n by (unfold BLOCK_SIZE; rewrite Z.mul_comm, Z.div_mul; lia).
  unfold mbind, ST_bind, st_lift. by rewrite uadd_Ret.
Qed.

(** The state after a transfer of [n] blocks. *)
Definition moved (n : Z) (s : dstate V) : dstate V :=
  mkDs (ds_devs s) (mkDisk (dk_block_id (ds_disk s) + n) (dk_offset (ds_disk s)) (dk_blk_id (ds_disk s))) (ds_bdev s).

Lemma disk_read_run cap a s n : disk_ok cap a s -> dk_offset (ds_disk s) = 0 -> 0 <= dk_block_id (ds_disk s) ->
  0 < n -> dk_block_id (ds_disk s) + n <= cap ->
  disk_read (512 * n) s =
    Ret ((Ok (512 * n), zrange (dk_block_id (ds_disk s)) (dk_block_id (ds_disk s) + n) ≫= a), moved n s).
Proof.
  intros [(v & Hv & Hcap & Ha) Hid0 Hc Hbs] Hoff Hb Hn Hbn. unfold disk_read.
  erewrite st_run; [|reflexivity]. cbv beta. rewrite Hoff.
  erewrite st_run; [|reflexivity]. cbv beta. erewrite st_run by exact (the_device_run s v Hv). cbv beta.
  rewrite (law_read_blocks v _ n) by lia. erewrite st_run; [|reflexivity]. cbv beta.
  erewrite st_run by (apply advance_run; unfold u64_bound; lia). cbv beta.
  rewrite (list_bind_ext (sector v) a _ _ Ha eq_refl). done.
Qed.

Lemma disk_write_run cap a s n buf : disk_ok cap a s -> dk_offset (ds_disk s) = 0 -> 0 <= dk_block_id (ds_disk s) ->
  0 < n -> dk_block_id (ds_disk s) + n <= cap -> zlen buf = 512 * n ->
  exists s', disk_write buf s = Ret (Ok (512 * n), s') /\
    disk_ok cap (snd (array_op a (BWrite (dk_block_id (ds_disk s)) n buf))) s'.
Proof.
  intros [(v & Hv & Hcap & Ha) Hid0 Hc Hbs] Hoff Hb Hn Hbn Hlen. unfold disk_write.
  erewrite st_run; [|reflexivity]. cbv beta. rewrite Hoff.
  erewrite st_run; [|reflexivity]. cbv beta. erewrite st_run by exact (the_device_run s v Hv). cbv beta.
  destruct (law_write_blocks v (dk_block_id (ds_disk s)) n buf) as (v' & Ew & Hc' & Hs'); [lia|lia|lia|done|].
  rewrite Ew. erewrite st_run; [|reflexivity]. cbv beta. erewrite st_run; [|reflexivity]. cbv beta.
  rewrite Hlen. erewrite st_run by (apply advance_run; cbn; unfold u64_bound; lia). cbv beta.
  eexists. split; [reflexivity|]. split; cbn; [|done|done|done]. exists v'. unfold get_blk_device in *. cbn in *.
  unfold zlen in *. rewrite length_insert. case_match eqn:E; [|done]. apply Z.ltb_lt in E.
  split_and!; [apply list_lookup_insert_eq; lia|congruence|]. intros i. by rewrite Hs', Ha.
Qed.

Lemma dev_bread_run cap a s b n : disk_ok cap a s -> 0 <= b -> 0 <= n < 2 ^ 23 -> b + n <= cap ->
  exists s', dev_bread b n s = Ret ((EOK, zrange b (b + n) ≫= a), s') /\ disk_ok cap a s'.
Proof.
  intros Hok Hb Hn Hbn. destruct (seek_block_run cap a s b Hok ltac:(lia)) as (s1 & E1 & Hok1 & Hid & Hoff).
  unfold dev_bread. erewrite st_run by exact E1. cbv beta. cbn [negb]. destruct (Z.eqb_spec n 0) as [->|Hne].
  { exists s1. split; [|done]. by rewrite zrange_nil by lia. }
  erewrite st_run by (apply transfer_len_run; [apply Hok1|done]). cbv beta.
  erewrite st_run by (apply (disk_read_run cap a); [done|done|lia..]). cbv beta. rewrite Hid.
  exists (moved n s1). split; [done|]. by destruct Hok1; split.
Qed.

Lemma array_take a b n buf i : 0 <= n ->
  snd (array_op a (BWrite b n (take (Z.to_nat (512 * n)) buf))) i = snd (array_op a (BWrite b n buf)) i.
Proof.
  intros Hn. cbn. destruct (Z.leb_spec b i), (Z.ltb_spec i (b + n)); cbn [andb]; try done.
  rewrite !take_drop_commute, take_take. do 2 f_equal. lia.
Qed.

Lemma dev_bwrite_run cap a s b n buf : disk_ok cap a s -> 0 <= b -> 0 <= n < 2 ^ 23 -> b + n <= cap ->
  512 * n <= zlen buf ->
  exists s', dev_bwrite buf b n s = Ret (EOK, s') /\ disk_ok cap (snd (array_op a (BWrite b n buf))) s'.
Proof.
  intros Hok Hb Hn Hbn Hbuf. destruct (seek_block_run cap a s b Hok ltac:(lia)) as (s1 & E1 & Hok1 & Hid & Hoff).
  unfold dev_bwrite. erewrite st_run by exact E1. cbv beta. cbn [negb]. destruct (Z.eqb_spec n 0) as [->|Hne].
  { exists s1. split; [done|]. destruct Hok1 as [(v & Hv & Hcap & Ha) Hid0 Hc Hbs]. split; [|done..].
    exists v. split_and!; [done|done|]. intros i. cbn. rewrite Ha.
    destruct (Z.leb_spec b i), (Z.ltb_spec i (b + 0)); cbn; (done || lia). }
  erewrite st_run by (apply transfer_len_run; [apply Hok1|done]). cbv beta.
  destruct (disk_write_run cap a s1 n (take (Z.to_nat (512 * n)) buf)) as (s2 & E2 & Hok2);
    [done|done|lia|lia|lia|unfold zlen in *; rewrite length_take; lia|].
  erewrite st_run by exact E2. cbv beta. exists s2. split; [done|].
  destruct Hok2 as [(v & Hv & Hcap & Ha) Hid0 Hc Hbs]. split; [|done..]. exists v. split_and!; [done|done|].
  intros i. rewrite Ha, Hid. apply array_take. lia.
Qed.

(** C32: the disk is an array of sectors.  Any sequence of block reads and
    writes inside the device, less than 4 GiB each, succeeds through the
    seeks, the cursor and the sector arithmetic of the disk, and gives what it
    gives on a plain array; the sectors at the end are those of the array. *)
Theorem block_ops_refine cap a s ops : disk_ok cap a s -> Forall (block_op_ok cap) ops ->
  exists s', blocks_run ops s = Ret (fst (array_run a ops), s') /\ disk_ok cap (snd (array_run a ops)) s'.
Proof.
  intros Hok Hops. revert a s Hok. induction Hops as [|o ops Ho _ IH]; intros a s Hok; [by exists s|].
  assert (exists s1, block_run o s = Ret (fst (array_op a o), s1) /\ disk_ok cap (snd (array_op a o)) s1)
    as (s1 & E1 & Hok1).
  { destruct o as [b n|b n buf]; cbn [block_run block_op_ok array_op fst snd] in *.
    - destruct Ho as (H1 & H2 & H3). by apply dev_bread_run.
    - destruct Ho as (H1 & H2 & H3 & H4). destruct (dev_bwrite_run cap a s b n buf Hok H1 H2 H3 H4) as (s1 & E1 & Hok1).
      exists s1. split; [|done]. by erewrite st_run by exact E1. }
  destruct (IH _ s1 Hok1) as (s2 & E2 & Hok2). exists s2. cbn [blocks_run array_run].
  destruct (array_op a o) as [r a1]. cbn [fst snd] in *. destruct (array_run a1 ops) as [rs a2]. cbn [fst snd] in *.
  split; [|done]. erewrite st_run by exact E1. cbv beta. by erewrite st_run by exact E2.
Qed.

(** [dev_open] finds the size of the device. *)
Lemma dev_open_run cap a s : disk_ok cap a s ->
  exists s', dev_open s = Ret (EOK, s') /\ disk_ok cap a s' /\ part_size (ds_bdev s') = cap * 512 /\ ph_bcnt (ds_bdev s') = cap.
Proof.
  intros [(v & Hv & Hcap & Ha) Hid0 Hc Hbs]. unfold dev_open.
  assert (disk_seek 0 SEEK_END s = Ret (Ok (cap * 512), mkDs (ds_devs s) (set_position (wrap64 (cap * 512)) (ds_disk s)) (ds_bdev s))) as E.
  { unfold disk_seek. erewrite st_run; [|reflexivity]. cbv beta. erewrite st_run by exact (the_device_run s v Hv). cbv beta.
    erewrite st_run by (unfold st_lift, blk_capacity; rewrite umul_Ret by (rewrite Hcap; unfold u64_bound; lia); reflexivity).
    cbv beta. erewrite st_run; [|reflexivity]. cbv beta. unfold seek_from. rewrite Hcap.
    destruct (Z.leb_spec 0 (cap * 0x200 + 0)), (Z.ltb_spec (cap * 0x200 + 0) u64_bound); cbn [andb]; try (unfold u64_bound in *; lia).
    unfold wrap_isize. rewrite (Z.mod_small (_ + _ + _)) by lia. replace (cap * 0x200 + 0 + 2 ^ 63 - 2 ^ 63) with (cap * 512) by lia. done. }
  erewrite st_run by exact E. cbv beta iota. erewrite st_run; [|reflexivity]. cbv beta zeta.
  assert (wrap64 (cap * 512) = cap * 512) as Hw by (unfold wrap64; apply Z.mod_small; lia).
  eexists. split; [reflexivity|]. cbn. rewrite Hbs, Hw. unfold BLOCK_SIZE. rewrite Z.div_mul by lia.
  split; [|done]. split; cbn; [by exists v|done|done|done].
Qed.

End blocks.

(** ** Names and mounting *)

(** Exactly the names "/dev/vda" to "/dev/vdz" name a device, by their letter. *)
Lemma device_name_iff name i :
  parse_virtio_device_name name = Some i <-> 0 <= i < 26 /\ name = VD_PREFIX ++ [97 + i].
Proof.
  unfold parse_virtio_device_name, str_starts_with. case_bool_decide as Hp; cbn [negb].
  - rewrite <- (take_drop (length VD_PREFIX) name) at 2. rewrite Hp. split.
    + destruct (drop _ name) as [|c [|]]; try done. destruct (Z.leb_spec 97 c), (Z.leb_spec c 122); try done. cbn.
      intros [= <-]. split; [lia|]. by replace (97 + (c - 97)) with c by lia.
    + intros [Hi Hn]. apply app_inv_head in Hn. rewrite Hn.
      destruct (Z.leb_spec 97 (97 + i)), (Z.leb_spec (97 + i) 122); try lia. cbn. f_equal. lia.
  - split; [done|]. intros [_ ->]. destruct Hp. by rewrite take_app_length.
Qed.

Section mounts.
Context {M : Type} `{!Lwext4Mount M}.

(** A mount that fails after [ext4_mount] leaves the file system mounted and
    the device registered. *)
Lemma failed_recover_stays_mounted b m m1 m2 m3 e :
  m_device_register (bw_name b) m = (EOK, m1) -> m_mount (bw_name b) (bw_mount_point b) m1 = (EOK, m2) ->
  m_recover (bw_mount_point b) m2 = (e, m3) -> e <> EOK -> e <> C_ENOTSUP ->
  lwext4_mount b m = Ret (Err e, m3).
Proof.
  intros H1 H2 H3 He He'. unfold lwext4_mount, st_try, c_call. rewrite H1. cbn. rewrite H2. cbn. rewrite H3.
  destruct (Z.eqb_spec e EOK); [done|]. by destruct (Z.eqb_spec e C_ENOTSUP).
Qed.

End mounts.

(** ** A disk in memory *)

Record ramdisk : Type := mkRam { ram_cap : Z; ram_data : gmap Z (list Z) }.
Definition pad (bs : list Z) : list Z := take 512 (bs ++ replicate 512 0).
Definition ram_sector (d : ramdisk) (i : Z) : list Z := pad (default [] (ram_data d !! i)).

Lemma length_pad bs : length (pad bs) = 512%nat.
Proof. unfold pad. rewrite length_take, length_app, length_replicate. lia. Qed.
Lemma pad_full bs : length bs = 512%nat -> pad bs = bs.
Proof. intros H. unfold pad. rewrite <- H at 1. apply take_app_length. Qed.
Definition ram_slice (bs : list Z) (k : Z) : list Z := take 512 (drop (Z.to_nat (512 * k)) bs).
Definition ram_store (b : Z) (n : nat) (bs : list Z) (d : gmap Z (list Z)) : gmap Z (list Z) :=
  fold_right (fun k m => <[b + Z.of_nat k := ram_slice bs (Z.of_nat k)]> m) d (seq 0 n).

#[export] Instance ram_blk : VirtioBlk ramdisk := {
  vb_capacity := ram_cap;
  vb_read_blocks b n d := if b + n / 512 <=? ram_cap d then Some (zrange b (b + n / 512) ≫= ram_sector d) else None;
  vb_write_blocks b bs d :=
    if b + zlen bs / 512 <=? ram_cap d
    then Some (mkRam (ram_cap d) (ram_store b (Z.to_nat (zlen bs / 512)) bs (ram_data d))) else None
}.

Lemma ram_store_lookup b n bs d i : ram_store b n bs d !! i =
  if (b <=? i) && (i <? b + Z.of_nat n) then Some (ram_slice bs (i - b)) else d !! i.
Proof.
  unfold ram_store. revert i. assert (forall l i, NoDup l -> fold_right (fun k m => <[b + Z.of_nat k := ram_slice bs (Z.of_nat k)]> m) d l !! i =
    if bool_decide (b <= i /\ Z.to_nat (i - b) ∈ l) then Some (ram_slice bs (i - b)) else d !! i) as H.
  { induction l as [|k l IH]; intros i Hnd; cbn.
    - rewrite bool_decide_eq_false_2; [done|]. intros [_ H]. by apply elem_of_nil in H.
    - apply list.NoDup_cons in Hnd as [Hk Hnd]. destruct (decide (i = b + Z.of_nat k)) as [->|Hne].
      + rewrite lookup_insert_eq, bool_decide_eq_true_2; [do 2 f_equal; lia|].
        split; [lia|]. apply elem_of_cons. left. lia.
      + rewrite lookup_insert_ne by done. rewrite IH by done.
        destruct (decide (b <= i /\ Z.to_nat (i - b) ∈ l)) as [Hd|Hd].
        * rewrite !bool_decide_eq_true_2; [done|split; [lia|apply elem_of_cons; right; apply Hd]|done].
        * rewrite !bool_decide_eq_false_2; [done| |done]. intros [H1 H2]. apply elem_of_cons in H2 as [H2|H2]; [lia|]. by apply Hd. }
  intros i. rewrite H by apply NoDup_seq. case_bool_decide as Hd; rewrite ?elem_of_seq in Hd;
    destruct (Z.leb_spec b i), (Z.ltb_spec i (b + Z.of_nat n)); cbn; try done; exfalso; (lia || (apply Hd; lia)).
Qed.

Lemma zlen_slice bs k n : zlen bs = 512 * n -> 0 <= k < n -> length (ram_slice bs k) = 512%nat.
Proof. unfold zlen, ram_slice. intros H Hk. rewrite length_take, length_drop. lia. Qed.

#[export] Instance ram_laws : VirtioLaws ramdisk.
Proof.
  refine {| sector := ram_sector |}.
  - intros v i. apply length_pad.
  - intros v b n Hb Hn Hc. cbn [vb_read_blocks vb_capacity ram_blk] in *. rewrite Z.mul_comm, Z.div_mul by lia. by destruct (Z.leb_spec (b + n) (ram_cap v)); [|lia].
  - intros v b n bs Hb Hn Hc Hl. cbn [vb_write_blocks vb_capacity ram_blk] in *. rewrite Hl, Z.mul_comm, Z.div_mul by lia.
    destruct (Z.leb_spec (b + n) (ram_cap v)); [|lia]. eexists. split; [reflexivity|]. split; [done|].
    intros i. unfold ram_sector. cbn [ram_data]. rewrite ram_store_lookup, Z2Nat.id by lia.
    destruct (Z.leb_spec b i), (Z.ltb_spec i (b + n)); cbn [andb]; try done. cbn [default].
    apply pad_full, (zlen_slice bs (i - b) n); lia.
Defined.

(** A disk of four sectors. *)
Definition ram4 : dstate ramdisk :=
  mkDs (mkDevs 0 [mkRam 4 ∅] 0 0 0 false false) (Ext4Disk_new 0) (mkBdev 0 0 BLOCK_SIZE 0).

Lemma block_ops_refine_witness : exists s',
  blocks_run [BWrite 1 1 (replicate 512 7); BRead 0 2] ram4 =
    Ret ([(EOK, []); (EOK, replicate 512 0 ++ replicate 512 7)], s').
Proof.
  destruct (block_ops_refine 4 (ram_sector (mkRam 4 ∅)) ram4 [BWrite 1 1 (replicate 512 7); BRead 0 2])
    as (s' & H & _).
  - split; [exists (mkRam 4 ∅); split_and!; [reflexivity|reflexivity|done]|vm_compute; discriminate| |reflexivity].
    split; [vm_compute; discriminate|vm_compute; reflexivity].
  - constructor; [|constructor; [|constructor]]; cbn; repeat split; try lia; vm_compute; discriminate.
  - exists s'. rewrite H. vm_compute. reflexivity.
Defined.
