(* ===== verification/OpenSpec.v ===== *)
(** * Opening files: invariants and behaviour

    [vfs_wf]: the objects behind open files, index entries and descriptors
    exist.  [open_file] keeps it, hands out a descriptor of a new object and
    leaves every other open file alone.  With the laws of the C library about
    names, a file that is created, written, closed and opened again has the
    bytes that were written, and both openings share one node.  [ext4_files]:
    the nodes of ext4 keep the laws that FileSpec.v has for the system calls
    on open files. *)

From S2P Require Import Prelude Config Errno Pte Path Stat.
From S2P Require Import Area FdTable FdSys FileIO FileSpec FileCache.
From S2P Require Import Ext4Ops Ext4Spec Dev Open.

Section wf.
Context {D : Type} `{!Lwext4 D}.
Variable time_ms : Z.
Notation VFS := (ST (vfs D)).

Record vfs_wf (s : vfs D) : Prop := {
  vw_root : is_Some (v_nodes s !! ROOT);
  vw_index : forall p i, FD2NODE s !! p = Some i -> is_Some (v_nodes s !! i);
  vw_files : forall r o, v_files s !! r = Some o -> is_Some (v_nodes s !! os_node o);
  vw_next : forall i, v_next s <= i ->
    v_nodes s !! i = None /\ v_files s !! i = None /\ v_devs s !! i = None
}.

(** Nodes stay, the open files and devices and the table of devices are left
    as they are. *)
Record grows (s s' : vfs D) : Prop := {
  gr_nodes : forall i, is_Some (v_nodes s !! i) -> is_Some (v_nodes s' !! i);
  gr_files : forall r o, v_files s !! r = Some o -> v_files s' !! r = Some o;
  gr_devs : forall r d, v_devs s !! r = Some d -> v_devs s' !! r = Some d;
  gr_reg : v_reg s' = v_reg s
}.

Lemma grows_refl s : grows s s.
Proof. by split. Qed.
Lemma grows_trans s1 s2 s3 : grows s1 s2 -> grows s2 s3 -> grows s1 s3.
Proof. intros [A1 A2 A3 A4] [B1 B2 B3 B4]. split; [auto..|congruence]. Qed.

(** Triples over well-formed states. *)
Definition triple {A} (P : vfs D -> Prop) (m : VFS A) (Q : A -> vfs D -> Prop) : Prop :=
  forall s a s', vfs_wf s -> P s -> m s = Ret (a, s') -> vfs_wf s' /\ grows s s' /\ Q a s'.

Lemma triple_ret {A} (P : vfs D -> Prop) (a : A) (Q : A -> vfs D -> Prop) :
  (forall s, vfs_wf s -> P s -> Q a s) -> triple P (mret a) Q.
Proof. intros H s x s' Hw HP [= <- <-]. split; [done|]. split; [apply grows_refl|auto]. Qed.

Lemma triple_bind {A B} P (m : VFS A) (k : A -> VFS B) R Q :
  triple P m R -> (forall a, triple (R a) (k a) Q) -> triple P (m ≫= k) Q.
Proof.
  intros Hm Hk s b s' Hw HP. unfold mbind, ST_bind. destruct (m s) as [[a s1]|] eqn:E; [|done].
  destruct (Hm s a s1 Hw HP E) as (Hw1 & Hg1 & HR). intros E2.
  destruct (Hk a s1 b s' Hw1 HR E2) as (Hw2 & Hg2 & HQ). split; [done|]. split; [by eapply grows_trans|done].
Qed.

Lemma triple_try {A B E} P (m : VFS (result A E)) (k : A -> VFS (result B E)) R Q :
  triple P m R -> (forall a, triple (R (Ok a)) (k a) Q) -> (forall e s, R (Err e) s -> Q (Err e) s) ->
  triple P (st_try k m) Q.
Proof.
  intros Hm Hk He s b s' Hw HP. unfold st_try. destruct (m s) as [[[a|e] s1]|] eqn:E1; [| |done].
  - destruct (Hm s _ s1 Hw HP E1) as (Hw1 & Hg1 & HR). intros E2.
    destruct (Hk a s1 b s' Hw1 HR E2) as (Hw2 & Hg2 & HQ). split; [done|]. split; [by eapply grows_trans|done].
  - destruct (Hm s _ s1 Hw HP E1) as (Hw1 & Hg1 & HR). intros [= <- <-]. auto.
Qed.

Lemma triple_gets {A} P (f : vfs D -> A) (Q : A -> vfs D -> Prop) :
  (forall s, vfs_wf s -> P s -> Q (f s) s) -> triple P (st_gets f) Q.
Proof. intros H s a s' Hw HP [= <- <-]. split; [done|]. split; [apply grows_refl|auto]. Qed.

Lemma triple_lift {A} P (o : outcome A) (Q : A -> vfs D -> Prop) :
  (forall a s, o = Ret a -> vfs_wf s -> P s -> Q a s) -> triple P (st_lift o) Q.
Proof.
  intros H s a s' Hw HP. unfold st_lift. destruct o as [x|] eqn:E; [|done]. intros [= <- <-].
  split; [done|]. split; [apply grows_refl|auto].
Qed.

Lemma triple_panic {A} P (Q : A -> vfs D -> Prop) : triple P st_panic Q.
Proof. by intros s a s' _ _ [=]. Qed.

Lemma triple_pre {A} (P P' : vfs D -> Prop) (m : VFS A) Q :
  (forall s, vfs_wf s -> P s -> P' s) -> triple P' m Q -> triple P m Q.
Proof. intros H Hm s a s' Hw HP. by apply Hm; auto. Qed.

(** ** The operations *)

Lemma triple_on_ext {A} P (m : ST (ext4st D) A) (Q : A -> vfs D -> Prop) :
  (forall s a x, vfs_wf s -> P s ->
    Q a (mkVfs x (v_nodes s) (FD2NODE s) (v_files s) (v_devs s) (v_reg s) (v_next s) (TMP_NAME s))) ->
  triple P (on_ext m) Q.
Proof.
  intros H s a s' Hw HP. unfold on_ext. destruct (m (v_ext s)) as [[b x]|]; [|done]. intros [= <- <-].
  split; [|split; [by split|by apply H]]. destruct Hw. by split.
Qed.

Definition has_node (i : Z) (s : vfs D) : Prop := is_Some (v_nodes s !! i).

Lemma triple_node_at i : triple (has_node i) (node_at i) (fun _ s => has_node i s).
Proof.
  unfold node_at. eapply triple_bind; [by apply (triple_gets _ _ (fun _ s => has_node i s))|].
  intros n. apply triple_lift. auto.
Qed.

(** Putting a node back at an address that has one. *)
Lemma triple_put_node {A} i f (a : A) : triple (has_node i)
  (n ← st_gets v_nodes; _ ← set_nodes (<[i := f]> n); mret a) (fun x s => has_node i s /\ x = a).
Proof.
  intros s x s' Hw Hi [= <- <-]. split; [|split].
  - destruct Hw as [H1 H2 H3 H4]. split; cbn.
    + rewrite lookup_insert_is_Some. destruct (decide (i = ROOT)); auto.
    + intros p j Hj. rewrite lookup_insert_is_Some. destruct (decide (i = j)); eauto.
    + intros r o Ho. rewrite lookup_insert_is_Some. destruct (decide (i = os_node o)); eauto.
    + intros j Hj. destruct (H4 j Hj) as (E1 & E2 & E3). split; [|done].
      rewrite lookup_insert_ne; [done|]. intros ->. unfold has_node in Hi. rewrite E1 in Hi. by destruct Hi.
  - split; [|done|done|done]. cbn. intros j Hj. rewrite lookup_insert_is_Some. destruct (decide (i = j)); auto.
  - unfold has_node. cbn. rewrite lookup_insert_eq. by split; [eexists|].
Qed.

Lemma triple_on_node {A} i (m : Ext4File -> ST (ext4st D) (A * Ext4File)) :
  triple (has_node i) (on_node i m) (fun _ s => has_node i s).
Proof.
  unfold on_node. eapply triple_bind; [apply triple_node_at|]. intros f.
  eapply triple_bind; [apply (triple_on_ext _ _ (fun _ s => has_node i s)); auto|]. intros [a f'].
  eapply triple_pre; [|intros s b s' Hw Hp E; destruct (triple_put_node i f' a s b s' Hw Hp E) as (? & ? & ? & ?); by split_and!].
  auto.
Qed.

Lemma triple_look_node {A} i (m : Ext4File -> ST (ext4st D) A) :
  triple (has_node i) (look_node i m) (fun _ s => has_node i s).
Proof.
  unfold look_node. eapply triple_bind; [apply triple_node_at|]. intros f. by apply triple_on_ext.
Qed.

Lemma triple_new_node P f : triple P (new_node f) (fun i s => has_node i s).
Proof.
  intros s i s' [H1 H2 H3 H4] _ [= <- <-]. destruct (H4 (v_next s) ltac:(lia)) as (E1 & E2 & E3).
  split; [|split].
  - split; cbn.
    + rewrite lookup_insert_is_Some. destruct (decide (v_next s = ROOT)); auto.
    + intros p j Hj. rewrite lookup_insert_is_Some. destruct (decide (v_next s = j)); eauto.
    + intros r o Ho. rewrite lookup_insert_is_Some. destruct (decide (v_next s = os_node o)); eauto.
    + intros j Hj. destruct (H4 j ltac:(lia)) as (F1 & F2 & F3). split; [|done].
      rewrite lookup_insert_ne; [done|lia].
  - split; [|done|done|done]. cbn. intros j Hj. rewrite lookup_insert_is_Some. destruct (decide (v_next s = j)); auto.
  - unfold has_node. cbn. rewrite lookup_insert_eq. by eexists.
Qed.

(** The object of a descriptor. *)
Definition good_fd (f : FileDescriptor) (s : vfs D) : Prop :=
  match fd_file f with
  | ClassFile r => is_Some (v_files s !! r)
  | ClassAbs r => is_Some (v_devs s !! r)
  end.
Definition good_result (x : result FileDescriptor SysErrNo) (s : vfs D) : Prop :=
  match x with Ok f => good_fd f s | Err _ => True end.

Lemma triple_new_file o flags : triple (has_node (os_node o))
  (r ← new_file o; mret (Ok (mkFD flags (ClassFile r)))) good_result.
Proof.
  intros s i s' [H1 H2 H3 H4] Ho [= <- <-]. destruct (H4 (v_next s) ltac:(lia)) as (E1 & E2 & E3).
  split; [|split].
  - split; cbn; [done|done| |].
    + intros r o'. rewrite lookup_insert_Some. intros [[<- <-]|[_ H]]; eauto.
    + intros j Hj. destruct (H4 j ltac:(lia)) as (F1 & F2 & F3). split; [done|].
      rewrite lookup_insert_ne; [done|lia].
  - split; [done| |done|done]. cbn. intros r o' H. rewrite lookup_insert_ne; [done|]. intros <-. by rewrite E2 in H.
  - cbn. rewrite lookup_insert_eq. by eexists.
Qed.

Lemma triple_new_device P d flags : triple P
  (r ← new_device d; mret (Ok (mkFD flags (ClassAbs r)))) good_result.
Proof.
  intros s i s' [H1 H2 H3 H4] Ho [= <- <-]. destruct (H4 (v_next s) ltac:(lia)) as (E1 & E2 & E3).
  split; [|split].
  - split; cbn; [done|done|done|].
    intros j Hj. destruct (H4 j ltac:(lia)) as (F1 & F2 & F3). split; [done|]. split; [done|].
    rewrite lookup_insert_ne; [done|lia].
  - split; [done|done| |done]. cbn. intros r o' H. rewrite lookup_insert_ne; [done|]. intros <-. by rewrite E3 in H.
  - cbn. rewrite lookup_insert_eq. by eexists.
Qed.

Lemma triple_insert_idx p i : triple (has_node i) (insert_inode_idx p i) (fun _ s => has_node i s).
Proof.
  intros s x s' [H1 H2 H3 H4] Hi [= <- <-]. split; [|split; [by split|done]]. split; cbn; [done| |done|done].
  intros q j. rewrite lookup_insert_Some. intros [[_ <-]|[_ H]]; eauto.
Qed.

Lemma triple_vfs_find P p flags : triple P (vfs_find p flags)
  (fun r s => match r with Ok i => has_node i s | Err _ => True end).
Proof.
  unfold vfs_find. eapply triple_try; [by apply (triple_on_ext _ _ (fun _ _ => True))| |done].
  intros f. eapply triple_bind; [apply triple_new_node|]. intros i. by apply triple_ret.
Qed.

Lemma triple_lookup_node P p flags : triple P (lookup_node p flags)
  (fun r s => match r with Ok (Some i) => has_node i s | _ => True end).
Proof.
  unfold lookup_node.
  eapply triple_bind; [by apply (triple_gets _ _ (fun _ _ => True))|]. intros [].
  - eapply triple_bind; [|intros i; apply triple_ret; intros s _ H; exact H].
    apply triple_gets. intros s Hw _. destruct (FD2NODE s !! p) as [i|] eqn:E; [|done]. by apply (vw_index s Hw p).
  - eapply triple_bind; [apply triple_vfs_find|]. intros [i|e].
    + eapply triple_bind with (R := fun _ => has_node i); [|intros ?; by apply triple_ret].
      destruct (fl_contains flags O_ASK_SYMLINK); [by apply triple_ret|apply triple_insert_idx].
    + destruct e; by apply triple_ret.
Qed.

Lemma triple_create_file p flags mode i : triple (has_node i) (create_file time_ms p flags mode i) good_result.
Proof.
  unfold create_file. destruct (read_write flags) as [rd wr].
  eapply triple_try with (R := fun _ _ => True); [|intros _|done].
  { eapply triple_bind; [apply triple_on_node|]. intros r. by apply triple_ret. }
  eapply triple_try; [apply triple_vfs_find|intros j|done].
  do 3 (eapply triple_try with (R := fun _ => has_node j); [apply triple_look_node|intros _|done]).
  eapply triple_bind; [apply triple_insert_idx|]. intros ?. apply (triple_new_file (OsInode_new rd wr j)).
Qed.

Lemma triple_open_node i flags : triple (has_node i) (open_node i flags) good_result.
Proof.
  unfold open_node. eapply triple_bind; [apply triple_node_at|]. intros f.
  destruct (_ && _); [by apply triple_ret|]. destruct (read_write flags) as [rd wr].
  eapply triple_try with (R := fun r s => match r with Ok o => has_node (os_node o) s /\ os_node o = i | Err _ => True end).
  - destruct (fl_contains flags O_APPEND); [|by apply triple_ret].
    unfold seek_end. eapply triple_bind; [apply triple_on_node|]. intros size.
    eapply triple_bind with (R := fun x s => has_node i s); [by apply triple_lift|].
    intros [[x|e] inner]; by apply triple_ret.
  - intros o. eapply triple_try with (R := fun _ s => has_node (os_node o) s); [|intros _; apply triple_new_file|done].
    destruct (fl_contains flags O_TRUNC); [|apply triple_ret; by intros s _ [H _]].
    eapply triple_bind with (R := fun _ s => has_node (os_node o) s).
    + intros s a s' Hw [Hn Hi]. subst i. by apply triple_on_node.
    + intros r. by apply triple_ret.
  - done.
Qed.

Lemma triple_open_plain P p flags mode : triple P (open_plain time_ms p flags mode) good_result.
Proof.
  unfold open_plain. destruct (str_eqb p [SLASH]).
  { eapply triple_pre; [|apply (triple_new_file (OsInode_new true false ROOT))]. intros s Hw _. apply (vw_root s Hw). }
  eapply triple_bind; [by apply (triple_gets _ _ (fun _ _ => True))|]. intros [].
  { eapply triple_try with (R := fun _ _ => True); [by apply triple_ret|intros d; apply triple_new_device|done]. }
  eapply triple_bind with (R := fun _ _ => True); [by apply triple_lift|]. intros q.
  eapply triple_bind with (R := fun _ _ => True); [by apply triple_lift|]. intros [parent name].
  eapply triple_bind; [by apply (triple_gets _ _ (fun _ _ => True))|]. intros []; [by apply triple_ret|].
  eapply triple_try; [apply triple_lookup_node| |done]. intros [i|]; [apply triple_open_node|].
  destruct (fl_contains flags O_CREATE); [|by apply triple_ret].
  eapply triple_pre; [|apply triple_create_file]. intros s Hw _. apply (vw_root s Hw).
Qed.

Lemma open_file_keeps p flags mode : triple (fun _ => True) (open_file time_ms p flags mode) good_result.
Proof.
  unfold open_file. destruct (str_eqb p TMP); [|apply triple_open_plain].
  eapply triple_bind; [by apply (triple_gets _ _ (fun _ _ => True))|]. intros n.
  eapply triple_bind with (R := fun _ _ => True); [by apply triple_lift|]. intros m.
  eapply triple_bind with (R := fun _ _ => True); [|intros _; apply triple_open_plain].
  intros s1 a s2 [H1 H2 H3 H4] _ [= <- <-]. split; [by split|]. by split; [split|].
Qed.

(** Opening keeps the objects of the file system well formed: every
    index entry and every open file has its node.  A descriptor that is
    returned refers to an object that exists, and no other open file or
    device changes, whatever the path, the flags and the answers of the C
    library are. *)
Theorem open_file_wf p flags mode s r s' : vfs_wf s -> open_file time_ms p flags mode s = Ret (r, s') ->
  vfs_wf s' /\ grows s s' /\ good_result r s'.
Proof.
  intros Hw. by apply open_file_keeps.
Qed.

End wf.

(** ** Canonical paths *)

Lemma contains_split s : contains_slashes s = true -> [] ∈ tail (split_slash s).
Proof.
  induction s as [|a s IH]; [done|]. destruct s as [|b s]; [done|].
  rewrite contains_cons2. intros H. change (split_slash (a :: b :: s)) with
    (if a =? SLASH then [] :: split_slash (b :: s)
     else match split_slash (b :: s) with h :: t => (a :: h) :: t | [] => [[a]] end).
  destruct (Z.eqb_spec a SLASH) as [->|Ha]; cbn [andb tail] in *.
  - destruct (Z.eqb_spec b SLASH) as [->|Hb]; [cbn; by left|].
    cbn [orb] in H. apply IH in H. destruct (split_slash (b :: s)); [by apply elem_of_nil in H|]. by right.
  - cbn [orb] in H. apply IH in H. by destruct (split_slash (b :: s)).
Qed.

Lemma replace_none s : contains_slashes s = false -> replace_slashes s = s.
Proof.
  induction s as [|a s IH]; [done|]. destruct s as [|b s]; [done|].
  rewrite contains_cons2, replace_cons2. intros [-> H]%orb_false_elim. by rewrite IH.
Qed.

Lemma trim_start_id c s : c <> SLASH -> trim_slashes_start (c :: s) = c :: s.
Proof. intros H. cbn. by destruct (Z.eqb_spec c SLASH). Qed.

Lemma join_head cs : Forall proper cs -> cs <> [] ->
  exists a s, join_slash cs = a :: s /\ a <> SLASH.
Proof.
  destruct cs as [|[|a c] cs]; [done|by intros [(_ & Hne & _) _]%Forall_cons_1|].
  intros [(Hn & _) _]%Forall_cons_1 _. exists a.
  destruct cs as [|d cs]; cbn; eexists; (split; [reflexivity|]); intros ->; apply Hn; by left.
Qed.

Lemma trim_end_id s c : c <> SLASH -> trim_slashes_end (s ++ [c]) = s ++ [c].
Proof.
  intros H. unfold trim_slashes_end. rewrite rev_app_distr. cbn [rev app].
  rewrite trim_start_id by done. change (rev (c :: rev s)) with (rev (rev s) ++ [c]). by rewrite rev_involutive.
Qed.

Lemma join_last cs : Forall proper cs -> cs <> [] ->
  exists s c, join_slash cs = s ++ [c] /\ c <> SLASH.
Proof.
  intros Hp Hn. destruct cs as [|x cs _] using rev_ind; [done|].
  apply Forall_app in Hp as [_ [(Hx & Hne & _) _]%Forall_cons_1].
  destruct x as [|c x _] using rev_ind; [done|].
  assert (c <> SLASH) as Hc by (intros ->; apply Hx, elem_of_app; right; by left).
  destruct cs as [|y cs]; [by exists x, c|].
  rewrite join_snoc by done. exists (join_slash (y :: cs) ++ SLASH :: x), c. split; [|done].
  by rewrite <- app_assoc.
Qed.

Lemma join_no_dot cs : Forall proper cs -> cs <> [] -> join_slash cs <> DOT /\
  forall rest, join_slash cs <> 46 :: SLASH :: rest.
Proof.
  intros Hp Hn.
  assert (split_slash (join_slash cs) = cs) as Hs.
  { apply split_join; [done|]. eapply List.Forall_impl; [|exact Hp]. by intros x [? _]. }
  split.
  - intros E. rewrite E in Hs. cbn in Hs. subst cs. by apply Forall_cons_1 in Hp as [(_ & _ & Hd & _) _].
  - intros rest E. rewrite E in Hs. cbn in Hs. subst cs. by apply Forall_cons_1 in Hp as [(_ & _ & Hd & _) _].
Qed.

Lemma proper_snoc cs c : Forall proper cs -> proper c -> Forall proper (cs ++ [c]).
Proof. intros H1 H2. apply Forall_app. split; [done|]. by constructor. Qed.

(** [path_deal_with] of the root leaves a canonical path as it is. *)
Lemma deal_with_canonical f cs : file_path f = [SLASH] -> Forall proper cs -> cs <> [] ->
  deal_with f (SLASH :: join_slash cs) = Ret (SLASH :: join_slash cs).
Proof.
  intros Hf Hp Hn. unfold deal_with. rewrite Hf.
  destruct (join_head cs Hp Hn) as (a & s & Ea & Ha). destruct (join_last cs Hp Hn) as (s' & c & Ec & Hc).
  destruct (join_no_dot cs Hp Hn) as [Hd1 Hd2].
  assert (trim_slashes (SLASH :: join_slash cs) = join_slash cs) as Ht.
  { unfold trim_slashes. cbn [trim_slashes_start]. rewrite Z.eqb_refl, Ea, trim_start_id, <- Ea, Ec by done.
    by apply trim_end_id. }
  cbn [path_deal_with length]. rewrite Ht.
  assert (nonempty (join_slash cs) = true) as -> by (by rewrite Ea).
  destruct (str_eqb_spec (join_slash cs) DOT) as [|_]; [done|]. cbn [negb orb].
  assert (contains_slashes (join_slash cs) = false) as Hcs.
  { destruct (contains_slashes (join_slash cs)) eqn:E; [|done]. apply contains_split in E.
    rewrite split_join in E; [|done|eapply List.Forall_impl; [|exact Hp]; by intros x [? _]].
    exfalso. destruct cs as [|x cs]; [done|]. cbn in E. apply Forall_cons_1 in Hp as [_ Hp].
    rewrite List.Forall_forall in Hp. by destruct (Hp [] (proj1 (list_elem_of_In _ _) E)) as (_ & ? & _). }
  rewrite (replace_none _ Hcs).
  destruct (str_eqb_spec (join_slash cs) (join_slash cs)) as [_|]; [cbn [negb]|done].
  destruct (join_slash cs) as [|x [|y rest]] eqn:E; [done|done|].
  destruct (Z.eqb_spec x 46) as [->|]; [|done]. destruct (Z.eqb_spec y SLASH) as [->|]; [|done].
  by destruct (Hd2 rest).
Qed.

(** ** The C library and names *)

(** A new file needs a free inode and space for its entry in the directory, and
    a name of at most 255 bytes; changing metadata needs a file system that is
    mounted for writing. *)
Definition NAME_MAX : Z := 255.

Class Lwext4Names (D : Type) `{!Lwext4 D} `{!Lwext4Laws D} : Type := {
  (** What is at a path: a directory, a regular file or a symbolic link. *)
  kind : D -> list Z -> option InodeTypes;
  law_exist : forall x p t, t = EXT4_DE_DIR \/ t = EXT4_DE_REG_FILE \/ t = EXT4_DE_SYMLINK ->
    c_inode_exist p (itype_i32 t) x = EOK <-> kind x p = Some t;
  law_regular : forall x p, kind x p = Some EXT4_DE_REG_FILE <-> is_Some (files x p);
  (** The file at a path can be made, and the lengths fit after that. *)
  room : D -> (list Z -> Z) -> list Z -> Prop;
  (** Opening with "wb" creates a file in an existing directory. *)
  law_create : forall x L cs c d, Forall proper cs -> proper c -> zlen c <= NAME_MAX ->
    room x L (SLASH :: join_slash (cs ++ [c])) ->
    kind x (SLASH :: join_slash cs) = Some EXT4_DE_DIR ->
    kind x (SLASH :: join_slash (cs ++ [c])) = None ->
    exists d' x', c_fopen (SLASH :: join_slash (cs ++ [c])) M_wb d x = (EOK, d', x') /\ fits x' L /\
      files x' (SLASH :: join_slash (cs ++ [c])) = Some [] /\
      forall q, q <> SLASH :: join_slash (cs ++ [c]) -> files x' q = files x q /\ kind x' q = kind x q;
  (** Changing metadata does not change names or contents. *)
  law_mode : forall x L p m, fits x L -> is_Some (kind x p) -> exists x', c_mode_set p m x = (EOK, x') /\
    fits x' L /\ forall q, files x' q = files x q /\ kind x' q = kind x q;
  law_owner : forall x L p u g, fits x L -> is_Some (kind x p) -> exists x', c_owner_set p u g x = (EOK, x') /\
    fits x' L /\ forall q, files x' q = files x q /\ kind x' q = kind x q;
  law_mtime : forall x L p t, fits x L -> is_Some (kind x p) -> exists x', c_mtime_set p t x = (EOK, x') /\
    fits x' L /\ forall q, files x' q = files x q /\ kind x' q = kind x q
}.

Section names.
Context {D : Type} `{!Lwext4 D} `{!Lwext4Laws D} `{!Lwext4Names D}.
Variable heap_bytes : list Z -> Z -> list Z.
Hypothesis heap_len : forall p n, 0 <= n -> zlen (heap_bytes p n) = n.
Variable time_ms : Z.
(** How long the files may become. *)
Variable L : list Z -> Z.

Notation estate := (ext4st D).

Lemma check_inode_exist_run p t (s : estate) :
  t = EXT4_DE_DIR \/ t = EXT4_DE_REG_FILE \/ t = EXT4_DE_SYMLINK ->
  check_inode_exist p t s = Ret (bool_decide (kind (e_disk s) p = Some t), s).
Proof.
  intros Ht. unfold check_inode_exist. st_unfold. pose proof (law_exist (e_disk s) p t Ht) as H.
  do 2 f_equal. destruct (Z.eqb_spec (c_inode_exist p (itype_i32 t) (e_disk s)) EOK) as [E|E].
  - symmetry. apply bool_decide_eq_true_2. by apply H.
  - symmetry. apply bool_decide_eq_false_2. intros E'. by apply E, H.
Qed.

Lemma fw_find_run p (dir ask : bool) (s : estate) t : kind (e_disk s) p = Some t ->
  t = EXT4_DE_REG_FILE \/ t = EXT4_DE_DIR -> dir && bool_decide (t = EXT4_DE_REG_FILE) = false ->
  fw_find p dir ask s = Ret (Ok (Ext4File_new p t), s).
Proof.
  intros Hk Ht Hd. unfold fw_find. change (Z.to_nat (MAX_SYMLINK_DEPTH + 1)) with (S 100). cbn [find_loop].
  rewrite (st_run _ _ _ _ _ (check_inode_exist_run p _ s ltac:(by left))), Hk.
  destruct Ht as [-> | ->]; [|done]. cbn [bool_decide]. 
  rewrite bool_decide_eq_false_2 by done.
  rewrite (st_run _ _ _ _ _ (check_inode_exist_run p _ s ltac:(right; by left))), Hk.
  rewrite bool_decide_eq_true_2 by done. by destruct dir.
Qed.

Lemma fw_find_none p (dir ask : bool) (s : estate) : kind (e_disk s) p = None ->
  fw_find p dir ask s = Ret (Err ENOENT, s).
Proof.
  intros Hk. unfold fw_find. change (Z.to_nat (MAX_SYMLINK_DEPTH + 1)) with (S 100). cbn [find_loop].
  rewrite (st_run _ _ _ _ _ (check_inode_exist_run p _ s ltac:(by left))), Hk.
  rewrite bool_decide_eq_false_2 by done.
  rewrite (st_run _ _ _ _ _ (check_inode_exist_run p _ s ltac:(right; by left))), Hk.
  rewrite bool_decide_eq_false_2 by done.
  rewrite (st_run _ _ _ _ _ (check_inode_exist_run p _ s ltac:(right; by right))), Hk.
  by rewrite bool_decide_eq_false_2.
Qed.

Definition with_disk (x : D) (s : estate) : estate := mkE x (CACHE_TABLE s) (FIFO_TABLE s) (FIFO_SET s).

Lemma c_call_run call (s : estate) x' : call (e_disk s) = (EOK, x') ->
  c_call call s = Ret (Ok EOK, with_disk x' s).
Proof. intros E. unfold c_call. st_unfold. by rewrite E. Qed.

(** The calls of [create_file] that set metadata. *)
Definition same_names (x x' : D) : Prop := forall q, files x' q = files x q /\ kind x' q = kind x q.

Lemma set_mtime_run f t (s : estate) : fits (e_disk s) L -> is_Some (kind (e_disk s) (file_path f)) ->
  exists x', fw_set_timestamps f None (Some t) None s = Ret (Ok EOK, with_disk x' s) /\ fits x' L /\ same_names (e_disk s) x'.
Proof.
  intros Hx Hk. destruct (law_mtime (e_disk s) L (file_path f) t Hx Hk) as (x' & E & Hs).
  exists x'. split; [|done]. unfold fw_set_timestamps, set_time. st_unfold. rewrite E. done.
Qed.

Lemma fmode_set_run f m (s : estate) : fits (e_disk s) L -> is_Some (kind (e_disk s) (file_path f)) ->
  exists x', fw_fmode_set f m s = Ret (Ok EOK, with_disk x' s) /\ fits x' L /\ same_names (e_disk s) x'.
Proof.
  intros Hx Hk. destruct (law_mode (e_disk s) L (file_path f) m Hx Hk) as (x' & E & Hs).
  exists x'. split; [|done]. unfold fw_fmode_set, file_mode_set.
  by rewrite (st_run _ _ _ _ _ (c_call_run _ _ _ E)).
Qed.

Lemma set_owner_run f u g (s : estate) : fits (e_disk s) L -> is_Some (kind (e_disk s) (file_path f)) ->
  exists x', fw_set_owner f u g s = Ret (Ok EOK, with_disk x' s) /\ fits x' L /\ same_names (e_disk s) x'.
Proof.
  intros Hx Hk. destruct (law_owner (e_disk s) L (file_path f) u g Hx Hk) as (x' & E & Hs).
  exists x'. split; [|done]. unfold fw_set_owner, set_owner.
  by rewrite (st_run _ _ _ _ _ (c_call_run _ _ _ E)).
Qed.

(** [create] of a regular file in a directory. *)
Lemma fw_create_run f cs c (s : estate) : file_path f = [SLASH] -> Forall proper cs -> proper c ->
  zlen c <= NAME_MAX -> room (e_disk s) L (SLASH :: join_slash (cs ++ [c])) ->
  kind (e_disk s) (SLASH :: join_slash cs) = Some EXT4_DE_DIR ->
  kind (e_disk s) (SLASH :: join_slash (cs ++ [c])) = None ->
  exists f' x', fw_create f (SLASH :: join_slash (cs ++ [c])) EXT4_DE_REG_FILE s = Ret ((Ok 0, f'), with_disk x' s) /\
    file_path f' = [SLASH] /\ fits x' L /\ files x' (SLASH :: join_slash (cs ++ [c])) = Some [] /\
    forall q, q <> SLASH :: join_slash (cs ++ [c]) -> files x' q = files (e_disk s) q /\ kind x' q = kind (e_disk s) q.
Proof.
  intros Hf Hcs Hc Hnm Hro Hd Hk. set (p := SLASH :: join_slash (cs ++ [c])) in *. unfold fw_create.
  assert (deal_with f p = Ret p) as Ep.
  { apply deal_with_canonical; [done|by apply proper_snoc|by destruct cs]. }
  rewrite Ep. erewrite st_run; [|reflexivity]. cbv beta. cbn [nonempty p negb].
  rewrite (st_run _ _ _ _ _ (check_inode_exist_run p _ s ltac:(right; by left))), Hk.
  rewrite !bool_decide_eq_false_2 by done.
  destruct (law_create (e_disk s) L cs c (file_desc f) Hcs Hc Hnm Hro Hd Hk) as (d' & x' & Eo & Hfit & Hx & Hq).
  fold p in Eo, Hx, Hq.
  assert (file_open f p O_CREATE_TRUNC_W s =
    Ret ((Ok EOK, mkEF d' (file_path f) (this_type f) true O_CREATE_TRUNC_W), with_disk x' s)) as E1.
  { unfold file_open. rewrite bool_decide_eq_false_2; [cbn [andb]|].
    - unfold fopen. st_unfold. change (flags_to_cstring O_CREATE_TRUNC_W) with M_wb. by rewrite Eo.
    - rewrite Hf. unfold p. intros [=]. destruct (join_head (cs ++ [c])) as (a & l & E & _);
        [by apply proper_snoc|by destruct cs|congruence]. }
  rewrite (st_run _ _ _ _ _ E1). cbv beta iota. erewrite st_run; [|reflexivity]. cbv beta.
  eexists _, x'. split; [reflexivity|]. split; [|by split_and!].
  unfold file_close. by destruct (d_mp _).
Qed.

(** ** Runs on the whole state *)

Definition with_ext (x : estate) (s : vfs D) : vfs D :=
  mkVfs x (v_nodes s) (FD2NODE s) (v_files s) (v_devs s) (v_reg s) (v_next s) (TMP_NAME s).
Definition put_node (i : Z) (f : Ext4File) (s : vfs D) : vfs D :=
  mkVfs (v_ext s) (<[i := f]> (v_nodes s)) (FD2NODE s) (v_files s) (v_devs s) (v_reg s) (v_next s) (TMP_NAME s).

Lemma on_ext_run {A} (m : ST estate A) (s : vfs D) a x : m (v_ext s) = Ret (a, x) ->
  on_ext m s = Ret (a, with_ext x s).
Proof. intros E. unfold on_ext. by rewrite E. Qed.

Lemma node_at_run i (s : vfs D) f : v_nodes s !! i = Some f -> node_at i s = Ret (f, s).
Proof. intros E. unfold node_at. st_unfold. by rewrite E. Qed.

Lemma look_node_run {A} i (m : Ext4File -> ST estate A) (s : vfs D) f a x : v_nodes s !! i = Some f ->
  m f (v_ext s) = Ret (a, x) -> look_node i m s = Ret (a, with_ext x s).
Proof.
  intros Hf E. unfold look_node. rewrite (st_run _ _ _ _ _ (node_at_run _ _ _ Hf)). by apply on_ext_run.
Qed.

Lemma on_node_run {A} i (m : Ext4File -> ST estate (A * Ext4File)) (s : vfs D) f a f' x :
  v_nodes s !! i = Some f -> m f (v_ext s) = Ret ((a, f'), x) ->
  on_node i m s = Ret (a, put_node i f' (with_ext x s)).
Proof.
  intros Hf E. unfold on_node. rewrite (st_run _ _ _ _ _ (node_at_run _ _ _ Hf)).
  rewrite (st_run _ _ _ _ _ (on_ext_run _ _ _ _ E)). done.
Qed.

(** A path below the root that [open_file] treats as an ordinary one. *)
Record ordinary (cs : list (list Z)) (c : list Z) (s : vfs D) : Prop := {
  or_cs : Forall proper cs;
  or_c : proper c;
  or_tmp : SLASH :: join_slash (cs ++ [c]) <> TMP;
  or_so : is_dynamic_link_file (SLASH :: join_slash (cs ++ [c])) = false;
  or_dev : find_device (SLASH :: join_slash (cs ++ [c])) (v_reg s) = false;
  or_parent : find_device (SLASH :: join_slash cs) (v_reg s) = false
}.

Lemma fix_path_canonical cs : Forall proper cs -> cs <> [] -> fix_path (SLASH :: join_slash cs) = SLASH :: join_slash cs.
Proof.
  intros Hp Hn. unfold fix_path. cbn [starts_with_slash]. rewrite Z.eqb_refl. unfold ends_with_slash.
  destruct (join_last cs Hp Hn) as (l & c & -> & Hc).
  change (SLASH :: l ++ [c]) with ((SLASH :: l) ++ [c]). rewrite last_snoc.
  by destruct (Z.eqb_spec c SLASH).
Qed.

Lemma open_ordinary cs c flags mode (s : vfs D) : ordinary cs c s ->
  let p := SLASH :: join_slash (cs ++ [c]) in
  open_file time_ms p flags mode s =
  (inode <-? lookup_node p flags;
   match inode with
   | Some i => open_node i flags
   | None => if fl_contains flags O_CREATE then create_file time_ms p flags mode ROOT else mret (Err ENOENT)
   end) s.
Proof.
  intros [Hcs Hc Ht Hso Hd Hpar] p. unfold open_file. fold p in Ht, Hso, Hd.
  destruct (str_eqb_spec p TMP) as [|_]; [done|]. unfold open_plain.
  destruct (str_eqb_spec p [SLASH]) as [E|_].
  { unfold p in E. injection E as E. destruct (join_head (cs ++ [c])) as (a & l & E' & _);
      [by apply proper_snoc|by destruct cs|congruence]. }
  erewrite st_run; [|reflexivity]. cbv beta. rewrite Hd, Hso. erewrite st_run; [|reflexivity]. cbv beta zeta.
  assert (fix_path p = p) as -> by (apply fix_path_canonical; [by apply proper_snoc|by destruct cs]).
  assert (get_parent_path_and_filename p = Ret (SLASH :: join_slash cs, c)) as -> by (by apply parent_eq).
  erewrite st_run; [|reflexivity]. cbv beta iota.
  erewrite st_run; [|reflexivity]. cbv beta. by rewrite Hpar.
Qed.

(** What creating a file at [p] leaves of the state. *)
Record created (p : list Z) (flags : Z) (s s1 : vfs D) (r i : Z) : Prop := {
  cr_file : v_files s1 !! r = Some (OsInode_new (fst (read_write flags)) (snd (read_write flags)) i);
  cr_node : v_nodes s1 !! i = Some (Ext4File_new p EXT4_DE_REG_FILE);
  cr_index : FD2NODE s1 !! p = Some i;
  cr_reg : v_reg s1 = v_reg s;
  cr_disk : exists x, v_ext s1 = with_disk x (v_ext s) /\ fits x L /\ files x p = Some [] /\
    forall q, q <> p -> files x q = files (e_disk (v_ext s)) q
}.

Lemma create_file_run cs c flags mode (s : vfs D) rf : Forall proper cs -> proper c ->
  let p := SLASH :: join_slash (cs ++ [c]) in
  fl_contains flags O_DIRECTORY = false -> zlen c <= NAME_MAX -> room (e_disk (v_ext s)) L p ->
  v_nodes s !! ROOT = Some rf -> file_path rf = [SLASH] ->
  kind (e_disk (v_ext s)) (SLASH :: join_slash cs) = Some EXT4_DE_DIR ->
  kind (e_disk (v_ext s)) p = None ->
  exists r i s1, create_file time_ms p flags mode ROOT s = Ret (Ok (mkFD flags (ClassFile r)), s1) /\
    created p flags s s1 r i.
Proof.
  intros Hcs Hc p Hfl Hnm Hro Hr Hrf Hd Hk. unfold create_file.
  destruct (read_write flags) as [rd wr] eqn:Erw. unfold node_type. rewrite Hfl.
  destruct (fw_create_run rf cs c (v_ext s) Hrf Hcs Hc Hnm Hro Hd Hk) as (rf' & x1 & E1 & _ & Hf1 & Hx1 & Hq1). fold p in E1, Hx1, Hq1.
  erewrite st_try_run; [|by rewrite (st_run _ _ _ _ _ (on_node_run _ _ _ _ _ _ _ Hr E1))].
  set (s1 := put_node ROOT rf' (with_ext (with_disk x1 (v_ext s)) s)).
  assert (kind x1 p = Some EXT4_DE_REG_FILE) as Hk1 by (apply law_regular; rewrite Hx1; by eexists).
  assert (vfs_find p flags s1 = Ret (Ok (v_next s),
    mkVfs (v_ext s1) (<[v_next s := Ext4File_new p EXT4_DE_REG_FILE]> (v_nodes s1)) (FD2NODE s) (v_files s)
      (v_devs s) (v_reg s) (v_next s + 1) (TMP_NAME s))) as E2.
  { unfold vfs_find. rewrite Hfl.
    pose proof (fw_find_run p false (fl_contains flags O_ASK_SYMLINK) (v_ext s1) _ Hk1 ltac:(by left) eq_refl) as Ef.
    rewrite (st_try_run _ _ _ _ _ (on_ext_run _ s1 _ _ Ef)). reflexivity. }
  rewrite (st_try_run _ _ _ _ _ E2).
  set (i := v_next s). set (s2 := mkVfs _ _ _ _ _ _ _ _).
  assert (forall (t : vfs D), v_nodes t = v_nodes s2 -> v_nodes t !! i = Some (Ext4File_new p EXT4_DE_REG_FILE)) as Hn.
  { intros t ->. apply lookup_insert_eq. }
  destruct (fmode_set_run (Ext4File_new p EXT4_DE_REG_FILE) mode (v_ext s2)) as (x2 & E3 & Hf2 & Hs3); [done|by eexists|].
  rewrite (st_try_run _ _ _ _ _ (look_node_run _ _ _ _ _ _ (Hn s2 eq_refl) E3)).
  destruct (set_owner_run (Ext4File_new p EXT4_DE_REG_FILE) 0 0 (with_disk x2 (v_ext s2))) as (x3 & E4 & Hf3 & Hs4); [done| |].
  { cbn. destruct (Hs3 p) as [_ ->]. cbn. by rewrite Hk1. }
  rewrite (st_try_run _ _ _ _ _ (look_node_run _ _ (with_ext (with_disk x2 (v_ext s2)) s2) _ _ _ (Hn _ eq_refl) E4)).
  destruct (set_mtime_run (Ext4File_new p EXT4_DE_REG_FILE) (time_ms / 1000 mod 2 ^ 32)
    (with_disk x3 (with_disk x2 (v_ext s2)))) as (x4 & E5 & Hf4 & Hs5); [done| |].
  { cbn. destruct (Hs4 p) as [_ ->]. cbn. destruct (Hs3 p) as [_ ->]. cbn. by rewrite Hk1. }
  rewrite (st_try_run _ _ _ _ _ (look_node_run _ _ (with_ext (with_disk x3 (with_disk x2 (v_ext s2))) (with_ext (with_disk x2 (v_ext s2)) s2))
    _ _ _ (Hn _ eq_refl) E5)).
  eexists (v_next s + 1), i, _. split; [reflexivity|]. split.
  - cbn. rewrite lookup_insert_eq. by rewrite Erw.
  - cbn. apply lookup_insert_eq.
  - cbn. apply lookup_insert_eq.
  - done.
  - exists x4. split; [done|]. split; [done|]. cbn in *. split.
    + destruct (Hs5 p) as [-> _]. cbn. destruct (Hs4 p) as [-> _]. cbn. by destruct (Hs3 p) as [-> _].
    + intros q Hq. destruct (Hs5 q) as [-> _]. cbn. destruct (Hs4 q) as [-> _]. cbn. destruct (Hs3 q) as [-> _].
      by apply Hq1.
Qed.

Lemma with_ext_id (s : vfs D) : with_ext (v_ext s) s = s.
Proof. by destruct s. Qed.

Lemma lookup_node_none p flags (s : vfs D) : FD2NODE s !! p = None -> kind (e_disk (v_ext s)) p = None ->
  lookup_node p flags s = Ret (Ok None, s).
Proof.
  intros Hi Hk. unfold lookup_node, has_inode. erewrite st_run; [|reflexivity]. cbv beta. rewrite Hi.
  rewrite bool_decide_eq_false_2 by (by intros [? ?]).
  assert (vfs_find p flags s = Ret (Err ENOENT, s)) as E.
  { unfold vfs_find, st_try.
    rewrite (on_ext_run _ _ _ _ (fw_find_none p (fl_contains flags O_DIRECTORY)
      (fl_contains flags O_ASK_SYMLINK) _ Hk)). by rewrite with_ext_id. }
  by rewrite (st_run _ _ _ _ _ E).
Qed.

(** A path in the index is opened through its node. *)
Lemma reopen_run cs c (s : vfs D) i f : ordinary cs c s ->
  let p := SLASH :: join_slash (cs ++ [c]) in
  FD2NODE s !! p = Some i -> v_nodes s !! i = Some f ->
  exists r s', open_file time_ms p 0 0 s = Ret (Ok (mkFD 0 (ClassFile r)), s') /\
    v_files s' !! r = Some (OsInode_new true false i) /\ v_nodes s' = v_nodes s /\ v_ext s' = v_ext s.
Proof.
  intros Ho p Hi Hf. pose proof (open_ordinary cs c 0 0 s Ho) as Eo.
  cbv zeta in Eo. fold p in Eo. rewrite Eo.
  assert (lookup_node p 0 s = Ret (Ok (Some i), s)) as E.
  { unfold lookup_node, has_inode. erewrite st_run; [|reflexivity]. cbv beta. rewrite Hi.
    rewrite bool_decide_eq_true_2 by (by eexists). unfold find_inode_idx. erewrite st_run; [|reflexivity].
    cbv beta. by rewrite Hi. }
  rewrite (st_try_run _ _ _ _ _ E). unfold open_node. rewrite (st_run _ _ _ _ _ (node_at_run _ _ _ Hf)).
  eexists (v_next s), _. split; [reflexivity|]. split; [apply lookup_insert_eq|done].
Qed.

(** The file at [p] has been emptied or made; the others are as they were. *)
Lemma created_cache_inv p (s : estate) x : cache_inv L s -> fits x L -> files (e_disk s) p = None ->
  files x p = Some [] -> (forall q, q <> p -> files x q = files (e_disk s) q) ->
  cache_inv L (with_disk x s) /\ abs (with_disk x s) p = Some [] /\
  forall q, q <> p -> abs (with_disk x s) q = abs s q.
Proof.
  intros Hi Hx Hn Hp Hq. assert (CACHE_TABLE s !! p = None) as Hc.
  { destruct (CACHE_TABLE s !! p) as [cc|] eqn:E; [|done].
    destruct (iv_cache L s Hi p cc E) as (c0 & H & _). congruence. }
  split; [|split].
  - constructor; [|done|intros q c|apply (iv_fifo L s Hi)].
    + intros q cc Hcc. cbn in *. rewrite Hq by congruence. by apply (iv_cache L s Hi).
    + cbn. destruct (decide (q = p)) as [->|Hne]; [rewrite Hp; by intros [= <-]|].
      rewrite Hq by done. apply (iv_small L s Hi).
  - unfold abs. cbn. by rewrite Hc.
  - intros q Hne. unfold abs. cbn. by rewrite Hq.
Qed.

(** C20: a file that is created, written and opened again has the bytes that
    were written.  Opening a new path with O_CREATE makes an empty file; a
    write through it and a second opening of the same path give a read of
    exactly these bytes, whatever the cache evicts on the way; both openings
    share one node, and no other file of the file system changes.  This is for
    a name of at most 255 bytes and a disk without errors, mounted for writing,
    that has an inode for the file, space for its entry and blocks for [L p]
    bytes ([room]), where the bytes are at most [L p]. *)
Theorem create_write_reopen_read cs c flags mode bs (s : vfs D) rf : ordinary cs c s ->
  let p := SLASH :: join_slash (cs ++ [c]) in
  fl_contains flags O_CREATE = true -> fl_contains flags O_DIRECTORY = false ->
  v_nodes s !! ROOT = Some rf -> file_path rf = [SLASH] -> cache_inv L (v_ext s) ->
  FD2NODE s !! p = None -> kind (e_disk (v_ext s)) p = None ->
  kind (e_disk (v_ext s)) (SLASH :: join_slash cs) = Some EXT4_DE_DIR ->
  zlen c <= NAME_MAX -> room (e_disk (v_ext s)) L p -> zlen bs <= L p -> zlen bs < 2 ^ 61 ->
  exists r i s1 s2 r' s3 s4,
    open_file time_ms p flags mode s = Ret (Ok (mkFD flags (ClassFile r)), s1) /\
    v_files s1 !! r = Some (OsInode_new (fst (read_write flags)) (snd (read_write flags)) i) /\
    on_node i (fun f => fw_write_at heap_bytes f 0 bs) s1 = Ret (Ok (zlen bs), s2) /\
    open_file time_ms p 0 0 s2 = Ret (Ok (mkFD 0 (ClassFile r')), s3) /\
    v_files s3 !! r' = Some (OsInode_new true false i) /\
    on_node i (fun f => fw_read_at heap_bytes f 0 (zlen bs)) s3 = Ret (Ok bs, s4) /\
    abs (v_ext s4) p = Some bs /\ forall q, q <> p -> abs (v_ext s4) q = abs (v_ext s) q.
Proof.
  intros Ho p Hcr Hdir Hr Hrf Hi Hidx Hk Hd Hnm Hro Hfit Hb. pose proof (zlen_nonneg bs) as Hz.
  pose proof (open_ordinary cs c flags mode s Ho) as Eo. cbv zeta in Eo. fold p in Eo. rewrite Eo.
  rewrite (st_try_run _ _ _ _ _ (lookup_node_none p flags s Hidx Hk)), Hcr.
  destruct (create_file_run cs c flags mode s rf (or_cs _ _ _ Ho) (or_c _ _ _ Ho) Hdir Hnm Hro Hr Hrf Hd Hk)
    as (r & i & s1 & E1 & [Hfile Hnode Hix Hreg (x & Hx & Hxf & Hxp & Hxq)]). fold p in E1, Hnode, Hix, Hxp, Hxq.
  assert (files (e_disk (v_ext s)) p = None) as Hfn.
  { destruct (files (e_disk (v_ext s)) p) eqn:E; [|done].
    assert (kind (e_disk (v_ext s)) p = Some EXT4_DE_REG_FILE) as Hk' by (apply law_regular; by eexists). congruence. }
  destruct (created_cache_inv p (v_ext s) x Hi Hxf Hfn Hxp Hxq) as (Hi1 & Ha1 & Hq1). rewrite <- Hx in Hi1, Ha1, Hq1.
  destruct (fw_write_at_run heap_bytes heap_len L (Ext4File_new p EXT4_DE_REG_FILE) (v_ext s1) [] 0 bs)
    as (f2 & e2 & E2 & Hi2 & Ha2 & Hq2 & Hp2 & Ht2); [done|done|done|unfold zlen; cbn; lia|lia|cbn [file_path Ext4File_new]; lia|].
  set (s2 := put_node i f2 (with_ext e2 s1)).
  assert (ordinary cs c s2) as Ho2 by (destruct Ho; split; try done; cbn; by rewrite Hreg).
  assert (v_nodes s2 !! i = Some f2) as Hn2 by apply lookup_insert_eq.
  destruct (reopen_run cs c s2 i f2 Ho2 Hix Hn2) as (r' & s3 & E3 & Hf3 & Hns3 & He3). fold p in E3.
  assert (overwrite [] 0 bs = bs) as Hov by (apply overwrite_all; exact Hz). rewrite Hov in Ha2.
  destruct (fw_read_at_run heap_bytes heap_len L f2 (v_ext s3) bs 0 (zlen bs))
    as (f4 & e4 & E4 & Hi4 & Hs4 & _); [by rewrite He3|by rewrite He3, Hp2|by rewrite Ht2|lia|lia|lia|].
  rewrite read_part_all in E4. rewrite <- Hns3 in Hn2.
  exists r, i, s1, s2, r', s3, (put_node i f4 (with_ext e4 s3)). split_and!; try done.
  - by rewrite (on_node_run i _ s1 _ _ _ _ Hnode E2).
  - by rewrite (on_node_run i _ s3 _ _ _ _ Hn2 E4).
  - cbn. rewrite (Hs4 p), He3. exact Ha2.
  - intros q Hq. cbn. rewrite (Hs4 q), He3. cbn. rewrite Hq2, Hq1 by done. done.
Qed.

End names.

(** ** The nodes of ext4 keep the laws of regular files *)

Section nodes.
Context {D : Type} `{!Lwext4 D} `{!Lwext4Laws D}.
Variable heap_bytes : list Z -> Z -> list Z.
Hypothesis heap_len : forall p n, 0 <= n -> zlen (heap_bytes p n) = n.

(** The interface of FileIO.v has no panics: here they would be errors.  There
    are none under the laws. *)
Definition ext4_ops : VfsNodeOps (vfs D) := {|
  vfs_read_at i off n s :=
    match on_node i (fun f => fw_read_at heap_bytes f off n) s with Ret (r, s') => (r, s') | Panic => (Err EIO, s) end;
  vfs_write_at i off bs s :=
    match on_node i (fun f => fw_write_at heap_bytes f off bs) s with Ret (r, s') => (r, s') | Panic => (Err 5, s) end;
  vfs_size i s := match on_node i fw_size s with Ret (n, _) => n | Panic => 0 end
|}.

Definition node_file (s : vfs D) (i : Z) (f : Ext4File) : Prop :=
  v_nodes s !! i = Some f /\ this_type f = EXT4_DE_REG_FILE.
Definition node_contents (s : vfs D) (i : Z) : list Z :=
  default [] (f ← v_nodes s !! i; abs (v_ext s) (file_path f)).
Definition node_regular (s : vfs D) (i : Z) : Prop := exists f, node_file s i f /\ is_Some (abs (v_ext s) (file_path f)).

(** The cache is consistent and has room [Lp] for the paths; two nodes are two
    files. *)
Record nodes_sound (s : vfs D) (L : Z -> Z) : Prop := {
  ns_room : exists Lp, cache_inv Lp (v_ext s) /\ forall i f, node_file s i f -> L i <= Lp (file_path f);
  ns_small : forall i, L i < 2 ^ 61;
  ns_paths : forall i j f g, node_file s i f -> node_file s j g -> file_path f = file_path g -> i = j
}.

Lemma regular_file s i : node_regular s i -> exists f, node_file s i f /\
  abs (v_ext s) (file_path f) = Some (node_contents s i).
Proof.
  intros (f & Hf & [c Hc]). exists f. split; [done|]. destruct Hf as [Hf _]. unfold node_contents. by rewrite Hf; cbn; rewrite Hc.
Qed.
Lemma file_contents s i f c : node_file s i f -> abs (v_ext s) (file_path f) = Some c -> node_contents s i = c.
Proof. intros [Hf _] Hc. unfold node_contents. by rewrite Hf; cbn; rewrite Hc. Qed.

(** The node [i] has another descriptor and the cache is another one. *)
Lemma put_node_file s i f f' e j g : node_file s i f -> same_file f f' ->
  node_file (put_node i f' (with_ext e s)) j g -> exists g0, node_file s j g0 /\ file_path g0 = file_path g.
Proof.
  intros [Hf Ht] [Hp Ht'] [Hj Hg]. cbn in Hj. apply lookup_insert_Some in Hj as [[<- <-]|[_ Hj]]; [|by exists g].
  by exists f.
Qed.
Lemma put_node_regular s i f f' e j : node_file s i f -> same_file f f' ->
  (forall p, is_Some (abs (v_ext s) p) -> is_Some (abs e p)) ->
  node_regular s j -> node_regular (put_node i f' (with_ext e s)) j.
Proof.
  intros [Hf Ht] [Hp Ht'] Ha (g & [Hg Hgt] & Hgc). destruct (decide (j = i)) as [->|Hne].
  - exists f'. split; [split; [apply lookup_insert_eq|congruence]|]. cbn. apply Ha. rewrite Hp. by simplify_eq.
  - exists g. split; [split; [by cbn; rewrite lookup_insert_ne|done]|]. by apply Ha.
Qed.
Lemma put_node_contents s i f f' e j g : node_file s i f -> same_file f f' -> node_file s j g ->
  node_contents (put_node i f' (with_ext e s)) j = default [] (abs e (file_path g)).
Proof.
  intros [Hf Ht] [Hp Ht'] [Hg _]. unfold node_contents. cbn. destruct (decide (j = i)) as [->|Hne].
  - rewrite lookup_insert_eq. cbn. rewrite Hp. by simplify_eq.
  - rewrite lookup_insert_ne by done. by rewrite Hg.
Qed.
Lemma put_node_sound s i f f' e L Lp : nodes_sound s L -> node_file s i f -> same_file f f' -> cache_inv Lp e ->
  (forall j g, node_file s j g -> L j <= Lp (file_path g)) -> nodes_sound (put_node i f' (with_ext e s)) L.
Proof.
  intros [_ Hs Hp] Hf Hsf He HL. split; [exists Lp; split; [done|]|done|].
  - intros j g Hg. destruct (put_node_file s i f f' e j g Hf Hsf Hg) as (g0 & Hg0 & <-). by apply HL.
  - intros j1 j2 g1 g2 H1 H2 E. destruct (put_node_file s i f f' e j1 g1 Hf Hsf H1) as (h1 & Hh1 & E1).
    destruct (put_node_file s i f f' e j2 g2 Hf Hsf H2) as (h2 & Hh2 & E2). apply (Hp _ _ h1 h2); congruence.
Qed.

#[local] Existing Instance ext4_ops.

Lemma ext4_read_law L i off n (s : vfs D) : nodes_sound s L -> node_regular s i ->
  0 <= off <= zlen (node_contents s i) -> 0 <= n -> off + n < u64_bound -> exists s',
  vfs_read_at i off n s = (Ok (read_part (node_contents s i) off n), s') /\ nodes_sound s' L /\
  (forall j, node_regular s j -> node_regular s' j /\ node_contents s' j = node_contents s j).
Proof.
  intros Hs Hr Ho Hn Hb. destruct (regular_file s i Hr) as (f & Hf & Hc). destruct (ns_room s L Hs) as (Lp & Hi & HL).
  destruct (fw_read_at_run heap_bytes heap_len Lp f (v_ext s) _ off n Hi Hc) as (f' & e & E & He & Hsame & Hsf);
    [by rewrite (proj2 Hf)|done|done|unfold u64_bound in Hb; lia|].
  eexists. cbn. rewrite (on_node_run i _ s f _ f' e (proj1 Hf) E). split; [done|].
  split; [by apply (put_node_sound s i f f' e L Lp)|]. intros j Hj. split.
  - apply (put_node_regular s i f); [done|done| |done]. intros p. by rewrite (Hsame p).
  - destruct (regular_file s j Hj) as (g & Hg & Hgc). rewrite (put_node_contents s i f f' e j g Hf Hsf Hg).
    by rewrite (Hsame _), Hgc.
Qed.

Lemma ext4_write_law L i off bs (s : vfs D) : nodes_sound s L -> node_regular s i ->
  0 <= off <= zlen (node_contents s i) -> off + zlen bs <= Z.max (zlen (node_contents s i)) (L i) -> exists s',
  vfs_write_at i off bs s = (Ok (zlen bs), s') /\ nodes_sound s' L /\
  node_contents s' i = overwrite (node_contents s i) off bs /\
  (forall j, node_regular s j -> node_regular s' j /\ (j <> i -> node_contents s' j = node_contents s j)).
Proof.
  intros Hs Hr Ho Hb. destruct (regular_file s i Hr) as (f & Hf & Hc). destruct (ns_room s L Hs) as (Lp & Hi & HL).
  pose proof (HL i f Hf) as HLi. pose proof (ns_small s L Hs i) as Hsm. pose proof (abs_small Lp _ _ _ Hi Hc) as Hcs.
  destruct (fw_write_at_run heap_bytes heap_len Lp f (v_ext s) _ off bs Hi Hc) as (f' & e & E & He & Hp & Hq & Hsf);
    [by rewrite (proj2 Hf)|done|lia|lia|].
  eexists. cbn. rewrite (on_node_run i _ s f _ f' e (proj1 Hf) E). split; [done|].
  split; [by apply (put_node_sound s i f f' e L Lp)|]. split; [|intros j Hj; split].
  - rewrite (put_node_contents s i f f' e i f Hf Hsf Hf). by rewrite Hp.
  - apply (put_node_regular s i f); [done|done| |done]. intros p. destruct (decide (p = file_path f)) as [->|Hne].
    + intros _. rewrite Hp. by eexists.
    + by rewrite Hq.
  - intros Hne. destruct (regular_file s j Hj) as (g & Hg & Hgc). rewrite (put_node_contents s i f f' e j g Hf Hsf Hg).
    rewrite Hq, Hgc; [done|]. intros Heq. by apply Hne, (ns_paths s L Hs j i g f).
Qed.

Definition ext4_files : VfsFiles (vfs D).
Proof.
  refine {| regular := node_regular; contents := node_contents; sound := nodes_sound |}.
  - apply ext4_read_law.
  - apply ext4_write_law.
  - intros L i s Hs Hr. destruct (regular_file s i Hr) as (f & Hf & Hc). destruct (ns_room s L Hs) as (Lp & Hi & _).
    destruct (fw_size_run Lp f (v_ext s) _ Hi Hc (proj2 Hf)) as (f' & e & E & _).
    cbn. by rewrite (on_node_run i _ s f _ f' e (proj1 Hf) E).
Defined.
End nodes.

(** ** The file system in memory *)

Definition mem_type (n : Z) : InodeTypes := if n =? 1 then EXT4_DE_REG_FILE else EXT4_DE_DIR.

#[export] Instance mem_names : Lwext4Names memfs.
Proof.
  refine {| kind := fun x p => mem_type <$> mem_kind x p;
            room := fun _ L p => (forall q, L q <= MEM_MAX) /\ zlen p <= MEM_NAME |}.
  - intros x p t Ht. cbn. unfold mem_kind.
    destruct (x !! p); [|destruct (bool_decide (p = [SLASH]))]; destruct Ht as [-> |[-> | ->]]; cbn; done.
  - intros x p. cbn. unfold mem_kind.
    destruct (x !! p); [by split; [eexists|]|]. destruct (bool_decide (p = [SLASH])); by split; [|intros [? ?]].
  - intros x L cs c d _ _ _ [HL Hp] _ _. set (p := SLASH :: join_slash (cs ++ [c])) in *. cbn.
    destruct (Z.ltb_spec MEM_NAME (zlen p)); [lia|]. rewrite andb_false_r.
    eexists _, _. split; [reflexivity|]. split; [done|]. split; [apply lookup_insert_eq|].
    intros q Hq. unfold mem_kind. by rewrite lookup_insert_ne.
  - intros x L p m Hx _. by eexists.
  - intros x L p u g Hx _. by eexists.
  - intros x L p t Hx _. by eexists.
Defined.

(** A machine with an empty disk. *)
Definition root_file : Ext4File := Ext4File_new [SLASH] EXT4_DE_DIR.
Definition empty_vfs : vfs memfs := mkVfs (boot_state ∅) {[ ROOT := root_file ]} ∅ ∅ ∅ registry_new 1 0.

Lemma empty_vfs_wf : vfs_wf empty_vfs.
Proof.
  split; [by eexists|done|done|]. intros i Hi. split; [|done].
  apply lookup_singleton_ne. cbn in Hi. unfold ROOT. lia.
Qed.

Lemma open_file_wf_witness : exists r s',
  open_file 0 (SLASH :: [110]) O_CREATE 0 empty_vfs = Ret (r, s') /\
  vfs_wf s' /\ grows empty_vfs s' /\ good_result r s'.
Proof.
  eexists _, _. split; [vm_compute; reflexivity|].
  apply (open_file_wf 0 (SLASH :: [110]) O_CREATE 0 empty_vfs); [apply empty_vfs_wf|vm_compute; reflexivity].
Defined.

Lemma create_write_reopen_read_witness : exists r i s1 s2 r' s3 s4,
  open_file 7000 [SLASH; 110] (Z.lor O_CREATE 2) 0x180 empty_vfs = Ret (Ok (mkFD (Z.lor O_CREATE 2) (ClassFile r)), s1) /\
  v_files s1 !! r = Some (OsInode_new true true i) /\
  on_node i (fun f => fw_write_at zero_heap f 0 [104; 105]) s1 = Ret (Ok 2, s2) /\
  open_file 7000 [SLASH; 110] 0 0 s2 = Ret (Ok (mkFD 0 (ClassFile r')), s3) /\
  v_files s3 !! r' = Some (OsInode_new true false i) /\
  on_node i (fun f => fw_read_at zero_heap f 0 2) s3 = Ret (Ok [104; 105], s4) /\
  abs (v_ext s4) [SLASH; 110] = Some [104; 105] /\
  forall q, q <> [SLASH; 110] -> abs (v_ext s4) q = abs (v_ext empty_vfs) q.
Proof.
  apply (create_write_reopen_read zero_heap zero_heap_len 7000 block_each [] [110] (Z.lor O_CREATE 2) 0x180 [104; 105]
    empty_vfs root_file).
  - split; [constructor| | | |done|done].
    + split; [unfold no_slash; set_solver|]. by split_and!.
    + vm_compute. discriminate.
    + vm_compute. reflexivity.
  - reflexivity.
  - reflexivity.
  - reflexivity.
  - reflexivity.
  - apply boot_refines. done.
  - reflexivity.
  - reflexivity.
  - reflexivity.
  - vm_compute. discriminate.
  - split; [by intros q|vm_compute; discriminate].
  - vm_compute. discriminate.
  - vm_compute. reflexivity.
Defined.
