(* ===== verification/PathSys.v ===== *)
(** * System calls on paths (os/src/syscall/fs.rs, task/task.rs)

    The system calls that name files: [openat], [creat], [mkdirat],
    [unlinkat], [rmdir], [renameat], [renameat2], [readlinkat], [symlinkat],
    [fstat], [fstatat], [statx], [truncate], [ftruncate], [fsync],
    [faccessat], [chdir], [utimensat] and [getdents64], and [resolve_path_from_fd].

    Strings are read from user memory with [translated_str], whose characters
    are stored as UTF-8.  What the memory set of the process does (page
    faults, MemorySet.v) is an argument: [lazy_alloc], [safe_str] and
    [safe_buffer]; so are the token, a bound on the length of strings and the
    clock. *)

From Stdlib Require Import Strings.String Strings.Ascii.
From S2P Require Import Prelude Config Memory Errno Pte UserMem.
From S2P Require Import Futex.
From S2P Require Import FdTable FdSys Path Mount Stat FileIO.
From S2P Require Import FileCache Ext4Ops Dev Open.

Definition AT_FDCWD : Z := -100.
Definition SYMLINK_NO_FOLLOW : Z := 0x100.
Definition EMPTY_PATH : Z := 0x1000.
Definition fstatat_all : Z := Z.lor (Z.lor (Z.lor 0x100 0x1000) 0x800) 0x200.
Definition X_OK : Z := 1.
Definition W_OK : Z := 2.
Definition faccessat_all : Z := 7.
Definition UTIME_NOW : Z := 0x3fffffff.
Definition UTIME_OMIT : Z := 0x3ffffffe.
Definition RENAME_NOREPLACE : Z := 1.
Definition RENAME_EXCHANGE : Z := 2.
Definition RENAME_WHITEOUT : Z := 4.

(** [bits.from_bits(flags)] succeeds. *)
Definition known_bits (all flags : Z) : bool := Z.ldiff flags all =? 0.

(** The UTF-8 bytes of a string of characters below 256. *)
Definition utf8_of_chars (cs : list Z) : list Z :=
  cs ≫= fun c => if c <? 0x80 then [c] else [Z.lor 0xc0 (Z.shiftr c 6); Z.lor 0x80 (Z.land c 0x3f)].

(** A process and what the system calls reach: files, user memory, the table
    of descriptors, the working directory, the path of the program and the
    mounts. *)
Record pstate (D : Type) : Type := mkP {
  p_vfs : vfs D;
  p_mem : pmem;
  p_fds : FdManage;
  p_cwd : list Z;
  p_exe : list Z;
  p_mounts : MountTable
}.
Arguments mkP {D}.
Arguments p_vfs {D}.
Arguments p_mem {D}.
Arguments p_fds {D}.
Arguments p_cwd {D}.
Arguments p_exe {D}.
Arguments p_mounts {D}.

Section pathsys.
Context {D : Type} `{!Lwext4 D}.
Variable time_ms : Z.
Variable token : Z.
Variable str_bound : nat.
Variable lazy_alloc : Z -> ST pmem (result unit SysErrNo).
Variable safe_str : Z -> ST pmem (list Z).
Variable safe_buffer : Z -> Z -> ST pmem UserBuffer.

Notation PS := (ST (pstate D)).

Definition on_vfs {A} (m : ST (vfs D) A) : PS A :=
  fun s => match m (p_vfs s) with
           | Ret (a, x) => Ret (a, mkP x (p_mem s) (p_fds s) (p_cwd s) (p_exe s) (p_mounts s))
           | Panic => Panic
           end.
Definition on_pmem {A} (m : ST pmem A) : PS A :=
  fun s => match m (p_mem s) with
           | Ret (a, x) => Ret (a, mkP (p_vfs s) x (p_fds s) (p_cwd s) (p_exe s) (p_mounts s))
           | Panic => Panic
           end.
Definition set_fds (t : FdManage) : PS unit :=
  st_modify (fun s => mkP (p_vfs s) (p_mem s) t (p_cwd s) (p_exe s) (p_mounts s)).
Definition set_cwd (c : list Z) : PS unit :=
  st_modify (fun s => mkP (p_vfs s) (p_mem s) (p_fds s) c (p_exe s) (p_mounts s)).

Notation open f fl m := (on_vfs (open_file time_ms f fl m)).

(** [translated_str(token, ptr)] *)
Definition user_str (ptr : Z) : PS (list Z) :=
  m ← st_gets p_mem;
  cs ← st_lift (translated_str str_bound token m ptr);
  mret (utf8_of_chars cs).

(** [fd_table.get_file(fd as usize)] *)
Definition get_fd (fd : Z) : PS (result FileDescriptor SysErrNo) :=
  t ← st_gets p_fds; mret (get_file t (fd_usize fd)).

(** [put_data(token, ptr, bytes)?] *)
Definition put_user (ptr : Z) (bytes : list Z) : PS (result unit SysErrNo) :=
  r ← on_pmem (put_data token ptr bytes);
  mret (match r with Ok _ => Ok tt | Err e => Err (errno_of_PutDataError e) end).

(** A new descriptor for an open file. *)
Definition install_fd (f : FileDescriptor) : PS (result Z SysErrNo) :=
  t ← st_gets p_fds;
  let '(r, t) := alloc_fd t in
  _ ← set_fds t;
  new_fd <-? mret r;
  '(_, tab) ← st_lift (table_replace (table t) new_fd f);
  _ ← set_fds (set_table tab t);
  mret (Ok new_fd).

(** ** Resolving paths *)

Definition resolve_path_from_fd (dirfd : Z) (path : list Z) (follow_last_symlink : bool)
    : PS (result (list Z) SysErrNo) :=
  if str_eqb path [] then
    f <-? get_fd dirfd;
    p ← on_vfs (fd_get_path f);
    mret (Ok p)
  else
    base <-? (if starts_with_slash path then mret (Ok [SLASH])
              else if dirfd =? AT_FDCWD then c ← st_gets p_cwd; mret (Ok c)
              else
                t ← st_gets p_fds;
                match table_get (table t) (fd_usize dirfd) with
                | Some (Some f) =>
                    match class_file (fd_file f) with
                    | Err e => mret (Err e)
                    | Ok r =>
                        d ← on_vfs (os_is_dir r);
                        if negb d then mret (Err ENOTDIR) else p ← on_vfs (os_get_path r); mret (Ok p)
                    end
                | _ => mret (Err EBADF)
                end);
    let combined := if starts_with_slash path then path
                    else (if negb (ends_with_slash base) then base ++ [SLASH] else base) ++ path in
    p ← st_lift (normalize_absolute_path combined);
    if follow_last_symlink then
      f <-? open p 0 0;
      p ← on_vfs (fd_get_path f);
      mret (Ok p)
    else mret (Ok p).

(** ** Opening *)

(** [openat] up to the new descriptor. *)
Definition openat_file (dirfd path_ptr flags mode : Z) : PS (result FileDescriptor SysErrNo) :=
  _ <-? on_pmem (lazy_alloc path_ptr);
  path ← user_str path_ptr;
  if str_eqb path [] then mret (Err ENOENT)
  else if PATH_MAX <? zlen path then mret (Err ENAMETOOLONG)
  else if negb (known_bits open_all flags) then mret (Err EINVAL)
  else
    base <-? (if starts_with_slash path then mret (Ok [SLASH])
              else if dirfd =? AT_FDCWD then c ← st_gets p_cwd; mret (Ok c)
              else
                f <-? get_fd dirfd;
                r <-? mret (class_file (fd_file f));
                d ← on_vfs (os_is_dir r);
                if negb d then mret (Err ENOTDIR) else p ← on_vfs (os_get_path r); mret (Ok p));
    final <-? st_lift (normalize_and_join_path base path);
    if str_eqb final [] && negb (str_eqb path DOT) && negb (str_eqb path []) then mret (Err ENOENT)
    else open final flags mode.

Definition sys_openat (dirfd path_ptr flags mode : Z) : PS (result Z SysErrNo) :=
  f <-? openat_file dirfd path_ptr flags mode;
  install_fd f.

(** The path of [creat] and [rmdir]. *)
Definition path_from_cwd (path : list Z) : PS (list Z) :=
  if starts_with_slash path then mret path else c ← st_gets p_cwd; mret (get_abs_path c path).

Definition creat_file (path_ptr mode : Z) : PS (result FileDescriptor SysErrNo) :=
  path ← user_str path_ptr;
  if str_eqb path [] then mret (Err ENOENT)
  else if PATH_MAX <? zlen path then mret (Err ENAMETOOLONG)
  else
    p ← path_from_cwd path;
    open p (Z.lor (Z.lor O_CREATE O_WRONLY) O_TRUNC) mode.

Definition sys_creat (path_ptr mode : Z) : PS (result Z SysErrNo) :=
  f <-? creat_file path_ptr mode;
  install_fd f.

Definition is_ok {A E} (r : result A E) : bool := match r with Ok _ => true | Err _ => false end.

Definition sys_mkdirat (dirfd path_ptr mode : Z) : PS (result Z SysErrNo) :=
  path ← user_str path_ptr;
  t ← st_gets p_fds;
  if negb (dirfd =? -100) && (fdm_len t <=? fd_usize dirfd) then mret (Err EBADF)
  else
    p <-? resolve_path_from_fd dirfd path false;
    r ← open p FileCache.O_RDWR 0;
    if is_ok r then mret (Err EEXIST)
    else
      r ← open p (Z.lor (Z.lor FileCache.O_RDWR O_CREATE) O_DIRECTORY) mode;
      if is_ok r then mret (Ok 0) else mret (Err ENOENT).

(** A file that is not a directory can become the working directory. *)
Definition sys_chdir (path_ptr : Z) : PS (result Z SysErrNo) :=
  path ← user_str path_ptr;
  cwd ← st_gets p_cwd;
  let new_path := if is_abs_path path then path else get_abs_path cwd path in
  _ <-? open new_path FileCache.O_RDONLY 0;
  _ ← set_cwd new_path;
  mret (Ok 0).

(** ** Removing and renaming *)

(** [find_fd]: the first descriptor of a file with this path. *)
Definition v_find_fd (path : list Z) : PS (option Z) :=
  t ← st_gets p_fds;
  v ← st_gets p_vfs;
  mret (find_fd (fun a b => bool_decide (a = b))
    (fun r => o ← v_files v !! r; f ← v_nodes v !! os_node o; Some (file_path f)) t (Some path)).

Definition sys_unlinkat (dirfd path_ptr flags : Z) : PS (result Z SysErrNo) :=
  path ← user_str path_ptr;
  p <-? resolve_path_from_fd dirfd path true;
  f <-? open p O_ASK_SYMLINK 0;
  r <-? mret (class_file (fd_file f));
  o ← on_vfs (file_at r);
  n <-? on_vfs (look_node (os_node o) fw_link_cnt);
  opened ← v_find_fd path;
  if (n =? 1) && bool_decide (is_Some opened) then
    _ ← on_vfs (remove_inode_idx p);
    mret (Ok 0)
  else
    _ <-? on_vfs (on_node (os_node o) (fun f => fw_unlink f p));
    _ ← on_vfs (remove_inode_idx p);
    mret (Ok 0).

Definition sys_rmdir (path_ptr : Z) : PS (result Z SysErrNo) :=
  path ← user_str path_ptr;
  if str_eqb path [] then mret (Err ENOENT)
  else if PATH_MAX <? zlen path then mret (Err ENAMETOOLONG)
  else
    p ← path_from_cwd path;
    i <-? on_vfs (find_inode p O_DIRECTORY);
    f ← on_vfs (node_at i);
    if negb (fw_is_dir f) then mret (Err ENOTDIR)
    else
      x <-? on_vfs (look_node i (fun f => fw_read_dentry f 0 1));
      if nonempty (fst x) then mret (Err ENOTEMPTY)
      else
        o ← v_find_fd p;
        if bool_decide (is_Some o) then mret (Err EBUSY)
        else
          _ <-? on_vfs (on_node i (fun f => fw_unlink f p));
          _ ← on_vfs (remove_inode_idx p);
          mret (Ok 0).

(** The paths of a renaming, absolute and not too long. *)
Definition rename_paths (olddirfd oldpath newdirfd newpath : Z)
    : PS (result (list Z * list Z) SysErrNo) :=
  old ← user_str oldpath;
  new ← user_str newpath;
  if str_eqb old [] || str_eqb new [] then mret (Err ENOENT)
  else
    old <-? resolve_path_from_fd olddirfd old false;
    new <-? resolve_path_from_fd newdirfd new false;
    if (PATH_MAX <? zlen old) || (PATH_MAX <? zlen new) then mret (Err ENAMETOOLONG)
    else mret (Ok (old, new)).

(** [old_inode.rename(old, new)?] *)
Definition rename_node (old new : list Z) : PS (result Z SysErrNo) :=
  r ← on_vfs (on_ext (fw_rename old new));
  _ <-? mret (from_i32 r);
  mret (Ok 0).

Definition sys_renameat (olddirfd oldpath newdirfd newpath : Z) : PS (result Z SysErrNo) :=
  ps <-? rename_paths olddirfd oldpath newdirfd newpath;
  let '(old, new) := ps in
  _ <-? on_vfs (find_inode old FileCache.O_RDWR);
  rename_node old new.

Definition sys_renameat2 (olddirfd oldpath newdirfd newpath flags : Z) : PS (result Z SysErrNo) :=
  ps <-? rename_paths olddirfd oldpath newdirfd newpath;
  let '(old, new) := ps in
  _ <-? on_vfs (find_inode old FileCache.O_RDWR);
  target ← on_vfs (find_inode new FileCache.O_RDWR);
  if negb (Z.land flags RENAME_NOREPLACE =? 0) && is_ok target then mret (Err EEXIST)
  else if negb (Z.land flags RENAME_EXCHANGE =? 0) then
    _ <-? on_vfs (on_ext (fw_exchange old new));
    mret (Ok 0)
  else if negb (Z.land flags RENAME_WHITEOUT =? 0) then mret (Err EINVAL)
  else rename_node old new.

(** ** Links *)

Definition PROC_SELF_EXE : list Z := bytes_of "/proc/self/exe".

Definition sys_readlinkat (dirfd path_ptr buf_ptr bufsize : Z) : PS (result Z SysErrNo) :=
  if (path_ptr =? 0) || ((buf_ptr =? 0) && (0 <? bufsize)) then mret (Err EFAULT)
  else if (bufsize =? 0) && negb (buf_ptr =? 0) then mret (Ok 0)
  else
    path ← user_str path_ptr;
    if str_eqb path PROC_SELF_EXE then
      exe ← st_gets p_exe;
      let len_to_copy := Z.min (zlen exe) bufsize in
      if 0 <? len_to_copy then
        r ← on_pmem (copy_to_user_bytes token buf_ptr (take (Z.to_nat len_to_copy) exe));
        match r with
        | Ok copied => if negb (copied =? len_to_copy) then mret (Err EFAULT) else mret (Ok len_to_copy)
        | Err _ => mret (Err EFAULT)
        end
      else mret (Ok len_to_copy)
    else
      p <-? resolve_path_from_fd dirfd path false;
      f <-? open p 0 0;
      r <-? mret (class_file (fd_file f));
      o ← on_vfs (file_at r);
      bs <-? on_vfs (look_node (os_node o) (fun f => fw_read_link f bufsize));
      let readcnt := zlen bs in
      let linkbuf := bs ++ replicate (Z.to_nat bufsize - length bs) 0 in
      m ← st_gets p_mem;
      b ← st_lift (translated_byte_buffer token m buf_ptr readcnt);
      _ ← on_pmem (ub_write b linkbuf);
      mret (Ok readcnt).

Definition sys_symlinkat (target_ptr newdirfd linkpath_ptr : Z) : PS (result Z SysErrNo) :=
  if (target_ptr =? 0) || (linkpath_ptr =? 0) then mret (Err EFAULT)
  else
    target ← user_str target_ptr;
    linkpath ← user_str linkpath_ptr;
    p <-? resolve_path_from_fd newdirfd linkpath false;
    '(parent, name) ← st_lift (get_parent_path_and_filename p);
    if str_eqb name [] || str_eqb name [SLASH] || str_eqb name DOT || str_eqb name DOTDOT
    then mret (Err EISDIR)
    else
      r ← open p 0 0;
      if is_ok r then mret (Err EEXIST)
      else
        _ <-? on_vfs (find_inode parent (Z.lor O_PATH O_DIRECTORY));
        _ <-? on_vfs (on_ext (fw_sym_link target p));
        mret (Ok 0).

(** ** Metadata *)

Definition sys_fstat (fd st_ptr : Z) : PS (result Z SysErrNo) :=
  t ← st_gets p_fds;
  if (fdm_len t <=? fd) || negb (is_ok (get_file t fd)) then mret (Err EBADF)
  else
    f <-? mret (get_file t fd);
    k ← on_vfs (fd_fstat f);
    _ <-? put_user st_ptr (Kstat_bytes k);
    mret (Ok 0).

Definition sys_fstatat (dirfd path_ptr kst flags : Z) : PS (result Z SysErrNo) :=
  path ← on_pmem (safe_str path_ptr);
  if negb (known_bits fstatat_all flags) then mret (Err EINVAL)
  else if fl_contains flags EMPTY_PATH && str_eqb path [] then
    if dirfd =? AT_FDCWD then mret (Err EINVAL)
    else
      f <-? get_fd dirfd;
      k ← on_vfs (fd_fstat f);
      _ <-? put_user kst (Kstat_bytes k);
      mret (Ok 0)
  else
    base <-? (if starts_with_slash path then mret (Ok [])
              else if dirfd =? AT_FDCWD then c ← st_gets p_cwd; mret (Ok c)
              else
                f <-? get_fd dirfd;
                r ← st_lift (result_unwrap (class_file (fd_file f)));
                p ← on_vfs (os_get_path r);
                mret (Ok p));
    full <-? st_lift (normalize_and_join_path base path);
    let open_flags := if fl_contains flags SYMLINK_NO_FOLLOW
                      then Z.lor FileCache.O_RDONLY O_ASK_SYMLINK else FileCache.O_RDONLY in
    f <-? open full open_flags 0;
    k ← on_vfs (fd_fstat f);
    _ <-? put_user kst (Kstat_bytes k);
    mret (Ok 0).

Definition sys_statx (dirfd path_ptr flags mask statxbuf : Z) : PS (result Z SysErrNo) :=
  _ <-? on_pmem (lazy_alloc path_ptr);
  path ← user_str path_ptr;
  let follow_symlinks := Z.land flags SYMLINK_NO_FOLLOW =? 0 in
  f <-? (if str_eqb path [] then
           r ← get_fd dirfd;
           match r with Ok f => mret (Ok f) | Err _ => st_panic end
         else
           p <-? resolve_path_from_fd dirfd path follow_symlinks;
           open p FileCache.O_RDONLY 0);
  k ← on_vfs (fd_fstat f);
  s ← st_lift (Statx_from k);
  r ← on_pmem (put_data token statxbuf (Statx_bytes (statx_masked mask s)));
  mret (if is_ok r then Ok 0 else Err EFAULT).

Definition sys_truncate (path_ptr length : Z) : PS (result Z SysErrNo) :=
  path ← on_pmem (safe_str path_ptr);
  cwd ← st_gets p_cwd;
  full <-? st_lift (normalize_and_join_path cwd path);
  f <-? open full O_WRONLY 0;
  r <-? mret (class_file (fd_file f));
  _ <-? on_vfs (os_truncate r length);
  mret (Ok 0).

Definition sys_ftruncate (fd length : Z) : PS (result Z SysErrNo) :=
  f <-? get_fd fd;
  r <-? mret (class_file (fd_file f));
  o ← on_vfs (file_at r);
  if negb (os_writable o) then mret (Err EINVAL)
  else
    _ <-? on_vfs (os_truncate r length);
    mret (Ok 0).

(** What a [timespec] of [utimensat] asks for. *)
Definition utime_of (now : Z) (bs : list Z) : option Z :=
  let tv_nsec := le_value (drop 8 bs) in
  if tv_nsec =? UTIME_NOW then Some now
  else if tv_nsec =? UTIME_OMIT then None
  else Some (le_value (take 8 bs) mod 2 ^ 32).

Definition sys_utimensat (dirfd path_ptr times flags : Z) : PS (result Z SysErrNo) :=
  if negb (dirfd =? AT_FDCWD) && (dirfd <? 0) then mret (Err EBADF)
  else
    path ← (if path_ptr =? 0 then mret [] else user_str path_ptr);
    let now_sec := time_ms / 1000 mod 2 ^ 32 in
    '(atime, mtime) ← (if times =? 0 then mret (Some now_sec, Some now_sec)
                       else
                         m ← st_gets p_mem;
                         a ← st_lift (get_data token m times 16);
                         b ← st_lift (get_data token m (wrap64 (times + 16)) 16);
                         mret (utime_of now_sec a, utime_of now_sec b));
    r <-? (if str_eqb path [] then
             if negb (path_ptr =? 0) && (Z.land flags EMPTY_PATH =? 0) then mret (Err ENOENT)
             else if dirfd =? AT_FDCWD then mret (Err EBADF)
             else f <-? get_fd dirfd; mret (class_file (fd_file f))
           else
             p <-? resolve_path_from_fd dirfd path (Z.land flags SYMLINK_NO_FOLLOW =? 0);
             f <-? open p FileCache.O_RDONLY 0x1b6;
             mret (class_file (fd_file f)));
    o ← on_vfs (file_at r);
    _ <-? on_vfs (look_node (os_node o) (fun f => fw_set_timestamps f atime mtime None));
    mret (Ok 0).

Definition sys_fsync (fd : Z) : PS (result Z SysErrNo) :=
  t ← st_gets p_fds;
  match get_file t fd with
  | Err _ => mret (Err EINVAL)
  | Ok f =>
      r <-? mret (class_file (fd_file f));
      o ← on_vfs (file_at r);
      _ ← on_vfs (look_node (os_node o) fw_sync);
      mret (Ok 0)
  end.

Definition sys_faccessat (dirfd path_ptr mode flags : Z) : PS (result Z SysErrNo) :=
  if path_ptr =? 0 then mret (Err EFAULT)
  else if negb (known_bits faccessat_all mode) then mret (Err EINVAL)
  else
    path ← user_str path_ptr;
    p <-? resolve_path_from_fd dirfd path false;
    mounts ← st_gets p_mounts;
    let read_only := match get_mount_info_by_dir mounts p with
                     | Some e => negb (Z.land (mnt_flags e) 1 =? 0)
                     | None => false
                     end in
    if fl_contains mode W_OK && read_only then mret (Err EROFS)
    else
      _ <-? on_vfs (find_inode p O_PATH);
      if mode =? 0 then mret (Ok 0)
      else if str_eqb p [SLASH] then mret (Ok 0)
      else
        '(parent, _) ← st_lift (get_parent_path_and_filename p);
        if nonempty parent && negb (str_eqb parent [SLASH]) then
          i <-? on_vfs (find_inode parent O_DIRECTORY);
          f ← on_vfs (node_at i);
          mret (if negb (fw_is_dir f) then Err ENOTDIR else Ok 0)
        else mret (Ok 0).

(** ** Directories *)

Definition sys_getdents64 (fd buf len : Z) : PS (result Z SysErrNo) :=
  t ← st_gets p_fds;
  if fdm_len t <=? fd then mret (Err EINVAL)
  else
    f <-? mret (get_file t fd);
    r <-? mret (class_file (fd_file f));
    b ← on_pmem (safe_buffer buf len);
    c ← on_vfs (v_lseek r 0 SEEK_CUR);
    match c with
    | Err _ => mret (Ok 0)
    | Ok off =>
        x <-? on_vfs (os_read_dentry r off len);
        let '(de, off) := x in
        _ ← on_pmem (ub_write b de);
        if negb (off =? -1) then
          _ <-? on_vfs (v_lseek r off SEEK_SET);
          mret (Ok (zlen de))
        else mret (Ok 0)
    end.

End pathsys.
