(* ===== verification/PathSpec.v ===== *)
(** * The path system calls: invariant and behaviour

    [pinv]: the objects of the file system are well formed and every
    descriptor of the process refers to an open file or device that exists.
    Every system call of PathSys.v keeps it, on every path through it.
    [openat] installs the file it opened at the lowest free descriptor.  The
    last part shows where calls do something else than they should. *)

From S2P Require Import Prelude Config Memory Errno Pte UserMem.
From S2P Require Import FdTable FdSys Path Mount Stat Area.
From S2P Require Import FileIO FileCache Ext4Ops Ext4Spec Dev Open.
From S2P Require Import OpenSpec PathSys MemorySet ProcWait FileSpec.

Section spec.
Context {D : Type} `{!Lwext4 D}.
Variable time_ms : Z.
Variable token : Z.
Variable str_bound : nat.
Variable lazy_alloc : Z -> ST pmem (result unit SysErrNo).
Variable safe_str : Z -> ST pmem (list Z).
Variable safe_buffer : Z -> Z -> ST pmem UserBuffer.

Notation PS := (ST (pstate D)).

(** Objects stay; the cursor of an open file may move. *)
Record stays (s s' : vfs D) : Prop := {
  st_nodes : forall i, is_Some (v_nodes s !! i) -> is_Some (v_nodes s' !! i);
  st_files : forall r, is_Some (v_files s !! r) -> is_Some (v_files s' !! r);
  st_devs : forall r, is_Some (v_devs s !! r) -> is_Some (v_devs s' !! r)
}.

Lemma stays_refl s : stays s s.
Proof. by split. Qed.
Lemma stays_trans s1 s2 s3 : stays s1 s2 -> stays s2 s3 -> stays s1 s3.
Proof. intros [A1 A2 A3] [B1 B2 B3]. split; auto. Qed.
Lemma grows_stays (s s' : vfs D) : grows s s' -> stays s s'.
Proof. intros [H1 H2 H3 _]. split; [done| |]; intros r [x Hx]; eexists; eauto. Qed.
Lemma good_fd_stays f (s s' : vfs D) : stays s s' -> good_fd f s -> good_fd f s'.
Proof. intros [H1 H2 H3]. unfold good_fd. destruct (fd_file f); auto. Qed.

Record pinv (s : pstate D) : Prop := {
  pi_wf : vfs_wf (p_vfs s);
  pi_fds : forall k f, get_file (p_fds s) k = Ok f -> good_fd f (p_vfs s)
}.

(** Actions that keep the invariant and the table of descriptors. *)
Definition keep {A} (m : PS A) (Q : A -> pstate D -> Prop) : Prop :=
  forall s a s', pinv s -> m s = Ret (a, s') ->
    pinv s' /\ p_fds s' = p_fds s /\ stays (p_vfs s) (p_vfs s') /\ Q a s'.

Notation keep' m := (keep m (fun _ _ => True)).

Lemma keep_ret {A} (a : A) Q : (forall s, pinv s -> Q a s) -> keep (mret a) Q.
Proof. intros H s x s' Hi [= <- <-]. by auto using stays_refl. Qed.
Lemma keep_gets {A} (f : pstate D -> A) Q : (forall s, pinv s -> Q (f s) s) -> keep (st_gets f) Q.
Proof. intros H s x s' Hi [= <- <-]. by auto using stays_refl. Qed.
Lemma keep_lift {A} (o : outcome A) Q : (forall a s, o = Ret a -> pinv s -> Q a s) -> keep (st_lift o) Q.
Proof. intros H s x s' Hi. unfold st_lift. destruct o eqn:E; [|done]. intros [= <- <-]. by auto using stays_refl. Qed.
Lemma keep_panic {A} (Q : A -> pstate D -> Prop) : keep st_panic Q.
Proof. by intros s x s' _ [=]. Qed.

(** What follows may use what the first part established. *)
Lemma keep_bind {A B} (m : PS A) (k : A -> PS B) R Q : keep m R ->
  (forall a s0, R a s0 -> forall s b s', s = s0 -> pinv s -> k a s = Ret (b, s') ->
    pinv s' /\ p_fds s' = p_fds s /\ stays (p_vfs s) (p_vfs s') /\ Q b s') ->
  keep (m ≫= k) Q.
Proof.
  intros Hm Hk s b s' Hi (a & s1 & E1 & E2)%st_bind_Ret.
  destruct (Hm s a s1 Hi E1) as (Hi1 & Hf1 & Hs1 & HR).
  destruct (Hk a s1 HR s1 b s' eq_refl Hi1 E2) as (Hi2 & Hf2 & Hs2 & HQ).
  split; [done|]. split; [congruence|]. split; [by eapply stays_trans|done].
Qed.

Lemma keep_bind' {A B} (m : PS A) (k : A -> PS B) Q : keep' m -> (forall a, keep (k a) Q) -> keep (m ≫= k) Q.
Proof. intros Hm Hk. apply (keep_bind m k (fun _ _ => True)); [exact Hm|]. intros a s0 _ s b s' _. apply Hk. Qed.

Lemma keep_try {A B E} (m : PS (result A E)) (k : A -> PS (result B E)) Q : keep' m ->
  (forall a, keep (k a) Q) -> (forall e s, pinv s -> Q (Err e) s) -> keep (st_try k m) Q.
Proof.
  intros Hm Hk He s b s' Hi. unfold st_try. destruct (m s) as [[[a|e] s1]|] eqn:E1; [| |done].
  - destruct (Hm s _ s1 Hi E1) as (Hi1 & Hf1 & Hs1 & _). intros E2.
    destruct (Hk a s1 b s' Hi1 E2) as (Hi2 & Hf2 & Hs2 & HQ).
    split; [done|]. split; [congruence|]. split; [by eapply stays_trans|done].
  - destruct (Hm s _ s1 Hi E1) as (Hi1 & Hf1 & Hs1 & _). intros [= <- <-]. auto.
Qed.

Lemma keep_weaken {A} (m : PS A) Q : keep m Q -> keep' m.
Proof. intros H s a s' Hi E. destruct (H s a s' Hi E) as (? & ? & ? & _). auto. Qed.

Lemma keep_vfs {A} (m : ST (vfs D) A) Q : triple (fun _ => True) m Q ->
  keep (on_vfs m) (fun a s => Q a (p_vfs s)).
Proof.
  intros Hm s a s' [Hw Hf]. unfold on_vfs. destruct (m (p_vfs s)) as [[b v]|] eqn:E; [|done].
  intros [= <- <-]. destruct (Hm _ _ _ Hw I E) as (Hw' & Hg & HQ). apply grows_stays in Hg. cbn.
  split; [|done]. split; [done|]. cbn. intros k f H. by eapply good_fd_stays; [|eapply Hf].
Qed.

Lemma keep_vfs' {A} (m : ST (vfs D) A) Q : triple (fun _ => True) m Q -> keep' (on_vfs m).
Proof. intros H. by eapply keep_weaken, keep_vfs. Qed.

Lemma keep_pmem {A} (m : ST pmem A) : keep' (on_pmem m).
Proof.
  intros s a s' [Hw Hf]. unfold on_pmem. destruct (m (p_mem s)) as [[b x]|]; [|done]. intros [= <- <-].
  split; [by split|]. split; [done|]. by split; [apply stays_refl|].
Qed.

Lemma keep_ret' {A} (a : A) : keep' (mret a).
Proof. by apply keep_ret. Qed.
Lemma keep_gets' {A} (f : pstate D -> A) : keep' (st_gets f).
Proof. by apply keep_gets. Qed.
Lemma keep_lift' {A} (o : outcome A) : keep' (st_lift o).
Proof. by apply keep_lift. Qed.
Lemma keep_panic' {A} : keep' (st_panic (A := A)).
Proof. apply keep_panic. Qed.

Lemma triple_true {A} (P : vfs D -> Prop) (m : ST (vfs D) A) Q :
  (forall s, vfs_wf s -> P s) -> triple P m Q -> triple (fun _ => True) m (fun _ _ => True).
Proof. intros HP Hm s a s' Hw _ E. destruct (Hm s a s' Hw (HP s Hw) E) as (? & ? & _). auto. Qed.

Lemma triple_open_file p flags mode : triple (fun _ => True) (open_file (D := D) time_ms p flags mode) good_result.
Proof. intros s a s' Hw _ E. by apply (open_file_keeps time_ms p flags mode). Qed.

Definition vsafe {A} (m : ST (vfs D) A) : Prop := triple (fun _ => True) m (fun _ _ => True).

Lemma vsafe_bind {A B} (m : ST (vfs D) A) (k : A -> ST (vfs D) B) : vsafe m -> (forall a, vsafe (k a)) -> vsafe (m ≫= k).
Proof. intros Hm Hk. by eapply triple_bind. Qed.
Lemma vsafe_try {A B E} (m : ST (vfs D) (result A E)) (k : A -> ST (vfs D) (result B E)) :
  vsafe m -> (forall a, vsafe (k a)) -> vsafe (st_try k m).
Proof. intros Hm Hk. by eapply triple_try. Qed.
Lemma vsafe_ret {A} (a : A) : vsafe (mret a).
Proof. by apply triple_ret. Qed.
Lemma vsafe_gets {A} (f : vfs D -> A) : vsafe (st_gets f).
Proof. by apply triple_gets. Qed.
Lemma vsafe_lift {A} (o : outcome A) : vsafe (st_lift o).
Proof. by apply triple_lift. Qed.
Lemma vsafe_ext {A} (m : ST (ext4st D) A) : vsafe (on_ext m).
Proof. by apply triple_on_ext. Qed.

(** An access to a node that does not exist does not return. *)
Lemma vsafe_node_at i : vsafe (node_at i).
Proof. apply vsafe_bind; [apply vsafe_gets|]. intros. apply vsafe_lift. Qed.
Lemma vsafe_file_at r : vsafe (file_at r).
Proof. apply vsafe_bind; [apply vsafe_gets|]. intros. apply vsafe_lift. Qed.

Lemma on_node_some {A} i (m : Ext4File -> ST (ext4st D) (A * Ext4File)) (s : vfs D) x :
  on_node i m s = Ret x -> has_node i s.
Proof.
  unfold on_node, node_at, has_node. st_unfold. destruct (v_nodes s !! i) eqn:E; [|done]. by eexists.
Qed.

Lemma vsafe_on_node {A} i (m : Ext4File -> ST (ext4st D) (A * Ext4File)) : vsafe (on_node i m).
Proof.
  intros s a s' Hw _ E. pose proof (on_node_some i m s _ E) as Hi.
  destruct (triple_on_node i m s a s' Hw Hi E) as (? & ? & _). auto.
Qed.
Lemma vsafe_look_node {A} i (m : Ext4File -> ST (ext4st D) A) : vsafe (look_node i m).
Proof. apply vsafe_bind; [apply vsafe_node_at|]. intros. apply vsafe_ext. Qed.
Lemma vsafe_open p flags mode : vsafe (open_file time_ms p flags mode).
Proof. by apply (triple_true _ _ _ (fun _ _ => I) (triple_open_file p flags mode)). Qed.
Lemma vsafe_find p flags : vsafe (find_inode p flags).
Proof.
  apply vsafe_bind; [apply vsafe_lift|]. intros a.
  by apply (triple_true (fun _ => True) _ _ (fun _ _ => I) (triple_vfs_find (fun _ => True) a flags)).
Qed.

Lemma vsafe_remove_idx p : vsafe (remove_inode_idx p).
Proof.
  intros s a s' [H1 H2 H3 H4] _ [= <- <-]. split; [|by split; [split|]]. split; cbn; [done| |done|done].
  intros q i. rewrite lookup_delete_Some. intros [_ H]. by apply (H2 q).
Qed.

End spec.

Notation keep' m := (keep m (fun _ _ => True)).

Create HintDb vsafe.
#[export] Hint Resolve vsafe_ret vsafe_gets vsafe_lift vsafe_ext vsafe_node_at vsafe_file_at : vsafe.
#[export] Hint Resolve vsafe_on_node vsafe_look_node vsafe_open vsafe_find vsafe_remove_idx : vsafe.

Ltac vsafe :=
  repeat (intros; first
    [ progress cbv beta
    | solve [eauto with vsafe]
    | match goal with
      | |- vsafe (st_try _ _) => apply vsafe_try
      | |- vsafe (_ ≫= _) => apply vsafe_bind
      | |- vsafe (if ?b then _ else _) => destruct b
      | |- vsafe (match ?x with _ => _ end) => destruct x
      end ]).

Section calls.
Context {D : Type} `{!Lwext4 D}.
Variable time_ms : Z.
Variable token : Z.
Variable str_bound : nat.
Variable lazy_alloc : Z -> ST pmem (result unit SysErrNo).
Variable safe_str : Z -> ST pmem (list Z).
Variable safe_buffer : Z -> Z -> ST pmem UserBuffer.

Notation PS := (ST (pstate D)).

Lemma vsafe_os_get_path r : vsafe (D := D) (os_get_path r).
Proof. unfold os_get_path. vsafe. Qed.
Lemma vsafe_os_is_dir r : vsafe (D := D) (os_is_dir r).
Proof. unfold os_is_dir. vsafe. Qed.
Lemma vsafe_os_truncate r n : vsafe (os_truncate r n).
Proof. unfold os_truncate. vsafe. Qed.
Lemma vsafe_os_read_dentry r off len : vsafe (os_read_dentry r off len).
Proof. unfold os_read_dentry. vsafe. Qed.
Lemma vsafe_fd_fstat f : vsafe (fd_fstat f).
Proof. unfold fd_fstat, os_fstat. vsafe. Qed.
Lemma vsafe_fd_get_path f : vsafe (D := D) (fd_get_path f).
Proof. unfold fd_get_path, os_get_path. vsafe. Qed.

Lemma keep_on_vfs {A} (m : ST (vfs D) A) : vsafe m -> keep' (on_vfs m).
Proof. apply keep_vfs'. Qed.

(** The cursor of an open file. *)
Definition with_file r (o : OsInode) (v : vfs D) : vfs D :=
  mkVfs (v_ext v) (v_nodes v) (FD2NODE v) (<[r := o]> (v_files v)) (v_devs v) (v_reg v) (v_next v) (TMP_NAME v).

Lemma cursor_keeps r o o' (v : vfs D) : vfs_wf v -> v_files v !! r = Some o -> os_node o' = os_node o ->
  vfs_wf (with_file r o' v) /\ stays v (with_file r o' v).
Proof.
  intros [H1 H2 H3 H4] Ho Hn. split; [split; cbn; [done|done|..]|split; [done| |done]].
  - intros q x. rewrite lookup_insert_Some. intros [[<- <-]|[_ H]]; [rewrite Hn; by apply (H3 r o)|by apply (H3 q)].
  - intros i Hi. destruct (H4 i Hi) as (F1 & F2 & F3). split; [done|]. split; [|done].
    rewrite lookup_insert_ne; [done|]. intros ->. congruence.
  - intros q Hq. cbn. rewrite lookup_insert_is_Some. destruct (decide (r = q)); auto.
Qed.

Lemma file_at_run r (v : vfs D) o v1 : file_at r v = Ret (o, v1) -> v1 = v /\ v_files v !! r = Some o.
Proof. unfold file_at. st_unfold. destruct (v_files v !! r); [|done]. by intros [= <- <-]. Qed.

(** [lseek] changes the cursor only. *)
Lemma keep_lseek r offset whence : keep' (on_vfs (v_lseek r offset whence)).
Proof.
  intros s a s' Hi E. unfold on_vfs in E. destruct (v_lseek r offset whence (p_vfs s)) as [[b v]|] eqn:Ev; [|done].
  injection E as <- <-. unfold v_lseek in Ev. apply st_bind_Ret in Ev as (o & v1 & E1 & Ev).
  apply file_at_run in E1 as [-> Ho].
  apply st_bind_Ret in Ev as (size & v2 & E2 & Ev).
  assert (vfs_wf v2 /\ grows (p_vfs s) v2) as [Hw2 Hg2].
  { assert (vsafe (D := D) (if whence =? SEEK_END then on_node (os_node o) fw_size else mret 0)) as Hsf by vsafe.
    destruct (Hsf _ _ _ (pi_wf s Hi) I E2) as (? & ? & _). done. }
  apply st_bind_Ret in Ev as ([res inner] & v3 & E3 & Ev).
  assert (v3 = v2) as -> by (revert E3; unfold st_lift; destruct (lseek _ _ _); [congruence|done]).
  injection Ev as <- <-. pose proof (gr_files _ _ Hg2 r o Ho) as Ho2.
  edestruct (cursor_keeps r o) as [Hw Hst]; [exact Hw2|exact Ho2| |].
  2: split; [|by split; [|split; [|done]; eapply stays_trans; [by apply grows_stays|exact Hst]]].
  2: split; [exact Hw|]; cbn; intros k f H; eapply good_fd_stays; [exact Hst|].
  2: eapply good_fd_stays; [by apply grows_stays|]; by eapply (pi_fds s Hi).
  reflexivity.
Qed.

Lemma keep_set_cwd c : keep' (set_cwd (D := D) c).
Proof. intros s a s' [H1 H2] [= <- <-]. split; [by split|]. by split_and!; [|apply stays_refl|]. Qed.

End calls.

Create HintDb kp.
#[export] Hint Resolve vsafe_os_get_path vsafe_os_is_dir vsafe_os_truncate vsafe_os_read_dentry : vsafe.
#[export] Hint Resolve vsafe_fd_fstat vsafe_fd_get_path : vsafe.
#[export] Hint Resolve keep_ret' keep_gets' keep_lift' keep_panic' keep_pmem keep_lseek keep_set_cwd : kp.

Ltac kp :=
  repeat (intros; first
    [ progress cbv beta
    | done
    | solve [eauto with kp]
    | apply keep_on_vfs; solve [vsafe]
    | match goal with
      | |- keep (st_try _ _) _ => apply keep_try
      | |- keep (_ ≫= _) _ => apply keep_bind'
      | |- keep (if ?b then _ else _) _ => destruct b
      | |- keep (match ?x with _ => _ end) _ => destruct x
      end ]).

Section invariant.
Context {D : Type} `{!Lwext4 D}.
Variable time_ms : Z.
Variable token : Z.
Variable str_bound : nat.
Variable lazy_alloc : Z -> ST pmem (result unit SysErrNo).
Variable safe_str : Z -> ST pmem (list Z).
Variable safe_buffer : Z -> Z -> ST pmem UserBuffer.

Notation PS := (ST (pstate D)).

Lemma keep_user_str p : keep' (user_str (D := D) token str_bound p).
Proof. unfold user_str. kp. Qed.
Lemma keep_get_fd fd : keep' (get_fd (D := D) fd).
Proof. unfold get_fd. kp. Qed.
Lemma keep_put_user p bs : keep' (put_user (D := D) token p bs).
Proof. unfold put_user. kp. Qed.
Lemma keep_find_fd p : keep' (v_find_fd (D := D) p).
Proof. unfold v_find_fd. kp. Qed.
Lemma keep_path_from_cwd p : keep' (path_from_cwd (D := D) p).
Proof. unfold path_from_cwd. kp. Qed.
Hint Resolve keep_user_str keep_get_fd keep_put_user keep_find_fd keep_path_from_cwd : kp.

Lemma keep_resolve dirfd p follow : keep' (resolve_path_from_fd (D := D) time_ms dirfd p follow).
Proof. unfold resolve_path_from_fd. kp. Qed.
Hint Resolve keep_resolve : kp.
Lemma keep_rename_paths a b c d : keep' (rename_paths (D := D) time_ms token str_bound a b c d).
Proof. unfold rename_paths. kp. Qed.
Lemma keep_rename_node a b : keep' (rename_node (D := D) a b).
Proof. unfold rename_node. kp. Qed.
Hint Resolve keep_rename_paths keep_rename_node : kp.

Lemma keep_mkdirat a b c : keep' (sys_mkdirat (D := D) time_ms token str_bound a b c).
Proof. unfold sys_mkdirat. kp. Qed.
Lemma keep_chdir a : keep' (sys_chdir (D := D) time_ms token str_bound a).
Proof. unfold sys_chdir. kp. Qed.
Lemma keep_unlinkat a b c : keep' (sys_unlinkat (D := D) time_ms token str_bound a b c).
Proof. unfold sys_unlinkat. kp. Qed.
Lemma keep_rmdir a : keep' (sys_rmdir (D := D) token str_bound a).
Proof. unfold sys_rmdir. kp. Qed.
Lemma keep_renameat a b c d : keep' (sys_renameat (D := D) time_ms token str_bound a b c d).
Proof. unfold sys_renameat. kp. Qed.
Lemma keep_renameat2 a b c d e : keep' (sys_renameat2 (D := D) time_ms token str_bound a b c d e).
Proof. unfold sys_renameat2. kp. Qed.
Lemma keep_readlinkat a b c d : keep' (sys_readlinkat (D := D) time_ms token str_bound a b c d).
Proof. unfold sys_readlinkat. kp. Qed.
Lemma keep_symlinkat a b c : keep' (sys_symlinkat (D := D) time_ms token str_bound a b c).
Proof. unfold sys_symlinkat. kp. Qed.
Lemma keep_fstat a b : keep' (sys_fstat (D := D) token a b).
Proof. unfold sys_fstat. kp. Qed.
Lemma keep_fstatat a b c d : keep' (sys_fstatat (D := D) time_ms token safe_str a b c d).
Proof. unfold sys_fstatat. kp. Qed.
Lemma keep_statx a b c d e : keep' (sys_statx (D := D) time_ms token str_bound lazy_alloc a b c d e).
Proof. unfold sys_statx. kp. Qed.
Lemma keep_truncate a b : keep' (sys_truncate (D := D) time_ms safe_str a b).
Proof. unfold sys_truncate. kp. Qed.
Lemma keep_ftruncate a b : keep' (sys_ftruncate (D := D) a b).
Proof. unfold sys_ftruncate. kp. Qed.
Lemma keep_utimensat d p t f : keep' (sys_utimensat time_ms token str_bound d p t f).
Proof. unfold sys_utimensat. kp. Qed.
Lemma keep_fsync a : keep' (sys_fsync (D := D) a).
Proof. unfold sys_fsync. kp. Qed.
Lemma keep_faccessat a b c d : keep' (sys_faccessat (D := D) time_ms token str_bound a b c d).
Proof. unfold sys_faccessat. kp. Qed.
Lemma keep_getdents64 a b c : keep' (sys_getdents64 (D := D) safe_buffer a b c).
Proof. unfold sys_getdents64. kp. Qed.
Hint Resolve keep_mkdirat keep_chdir keep_unlinkat keep_rmdir keep_renameat keep_renameat2 : kp.
Hint Resolve keep_readlinkat keep_symlinkat keep_fstat keep_fstatat keep_statx keep_truncate : kp.
Hint Resolve keep_ftruncate keep_fsync keep_faccessat keep_getdents64 keep_utimensat : kp.

(** ** New descriptors *)

Definition good_file (r : result FileDescriptor SysErrNo) (s : pstate D) : Prop := good_result r (p_vfs s).

Lemma keep_open_good p flags mode : keep (on_vfs (open_file (D := D) time_ms p flags mode)) good_file.
Proof. apply (keep_vfs _ good_result), triple_open_file. Qed.
Lemma keep_err_good e : keep (mret (Err e)) good_file.
Proof. by apply keep_ret. Qed.
Hint Resolve keep_open_good keep_err_good : kp.

Lemma keep_openat_file a b c d : keep (openat_file (D := D) time_ms token str_bound lazy_alloc a b c d) good_file.
Proof. unfold openat_file. kp. Qed.
Lemma keep_creat_file a b : keep (creat_file (D := D) time_ms token str_bound a b) good_file.
Proof. unfold creat_file. kp. Qed.

(** What a call that returns a new descriptor does to the table: the lowest
    free number refers to an object that exists, nothing else changes; after
    an error the table is as before. *)
Definition installed (r : result Z SysErrNo) (s s' : pstate D) : Prop :=
  match r with
  | Ok fd =>
      ~ used (p_fds s) fd /\ (forall k, 0 <= k < fd -> used (p_fds s) k) /\
      (exists f, get_file (p_fds s') fd = Ok f /\ good_fd f (p_vfs s')) /\
      forall k, k <> fd -> get_file (p_fds s') k = get_file (p_fds s) k
  | Err _ => p_fds s' = p_fds s
  end.

Lemma install_fd_run f (s : pstate D) r s' : pinv s -> good_fd f (p_vfs s) ->
  install_fd f s = Ret (r, s') -> pinv s' /\ p_vfs s' = p_vfs s /\ installed r s s'.
Proof.
  intros [Hw Hf] Hg. unfold install_fd. pose proof (alloc_fd_spec (p_fds s)) as Ha.
  erewrite st_run; [|reflexivity]. cbv beta. destruct (alloc_fd (p_fds s)) as [[fd|e] t].
  - destruct Ha as (Hb & Hu & Hlow & _ & Hsame & _).
    erewrite st_run; [|reflexivity]. cbv beta. erewrite st_try_run; [|reflexivity]. cbv beta.
    intros ([old tab] & s1 & E1 & E2)%st_bind_Ret. unfold st_lift in E1.
    destruct (table_replace (table t) fd f) as [[old' tab']|] eqn:Et; [|done]. injection E1 as <- <- <-.
    unfold table_replace in Et. destruct (index (table t) fd); [cbn in Et|done].
    destruct (index_set (table t) fd (Some f)) as [l|] eqn:Ei; [cbn in Et|done]. injection Et as <- <-.
    assert (l = <[Z.to_nat fd := Some f]> (table t)) as ->.
    { revert Ei. unfold index_set. case_match; [by intros [= <-]|done]. }
    injection E2 as <- <-. cbn in *.
    destruct (get_file_set t (table t) fd f Hb) as [H1 H2]; [intros k _; by rewrite set_table_same|].
    split; [|split; [done|]].
    + split; [done|]. cbn. intros k g Hk. destruct (decide (k = fd)) as [->|Hne]; [congruence|].
      rewrite H2, Hsame in Hk by done. by apply (Hf k).
    + split_and!; [done|done|by exists f|]. intros k Hk. by rewrite H2, Hsame.
  - destruct Ha as (-> & -> & _). st_unfold. intros [= <- <-]. cbn. destruct s. by split_and!.
Qed.

Lemma open_run (creat : bool) dirfd ptr flags mode (s : pstate D) r s' : pinv s ->
  (if creat then sys_creat time_ms token str_bound ptr mode
   else sys_openat time_ms token str_bound lazy_alloc dirfd ptr flags mode) s = Ret (r, s') ->
  pinv s' /\ stays (p_vfs s) (p_vfs s') /\ installed r s s'.
Proof.
  intros Hi. assert (forall m, keep m good_file -> (f <-? m; install_fd f) s = Ret (r, s') ->
    pinv s' /\ stays (p_vfs s) (p_vfs s') /\ installed r s s') as H.
  { intros m Hm. unfold st_try. destruct (m s) as [[[f|e] s1]|] eqn:E; [| |done].
    - destruct (Hm s _ s1 Hi E) as (Hi1 & Hf1 & Hs1 & HQ). intros E2.
      destruct (install_fd_run f s1 r s' Hi1 HQ E2) as (Hi2 & Hv & Hin). split; [done|].
      split; [by rewrite Hv|]. unfold installed in *. by rewrite Hf1 in Hin.
    - destruct (Hm s _ s1 Hi E) as (Hi1 & Hf1 & Hs1 & _). by intros [= <- <-]. }
  destruct creat; [apply H, keep_creat_file|apply H, keep_openat_file].
Qed.

(** C21: [openat] and [creat] install the file they opened at the lowest free
    descriptor: it refers to an open file that exists, every other descriptor
    is unchanged, and after an error, wherever it happens, the table is as it
    was. *)
Theorem open_installs_lowest (creat : bool) dirfd ptr flags mode (s : pstate D) r s' : pinv s ->
  (if creat then sys_creat time_ms token str_bound ptr mode
   else sys_openat time_ms token str_bound lazy_alloc dirfd ptr flags mode) s = Ret (r, s') ->
  pinv s' /\ installed r s s'.
Proof. intros Hi E. by destruct (open_run creat dirfd ptr flags mode s r s' Hi E) as (? & _ & ?). Qed.

(** ** All the calls *)

Inductive path_call : Type :=
| PcOpenat (dirfd ptr flags mode : Z) | PcCreat (ptr mode : Z) | PcMkdirat (dirfd ptr mode : Z)
| PcChdir (ptr : Z) | PcUnlinkat (dirfd ptr flags : Z) | PcRmdir (ptr : Z)
| PcRenameat (od op nd np : Z) | PcRenameat2 (od op nd np flags : Z)
| PcReadlinkat (dirfd ptr buf n : Z) | PcSymlinkat (target dirfd link : Z)
| PcFstat (fd st : Z) | PcFstatat (dirfd ptr st flags : Z) | PcStatx (dirfd ptr flags mask buf : Z)
| PcUtimensat (dirfd ptr times flags : Z) | PcTruncate (ptr n : Z) | PcFtruncate (fd n : Z) | PcFsync (fd : Z)
| PcFaccessat (dirfd ptr mode flags : Z) | PcGetdents64 (fd buf n : Z).

Definition run_call (c : path_call) : PS (result Z SysErrNo) :=
  match c with
  | PcOpenat d p f m => sys_openat time_ms token str_bound lazy_alloc d p f m
  | PcCreat p m => sys_creat time_ms token str_bound p m
  | PcMkdirat d p m => sys_mkdirat time_ms token str_bound d p m
  | PcChdir p => sys_chdir time_ms token str_bound p
  | PcUnlinkat d p f => sys_unlinkat time_ms token str_bound d p f
  | PcRmdir p => sys_rmdir token str_bound p
  | PcRenameat a b c d => sys_renameat time_ms token str_bound a b c d
  | PcRenameat2 a b c d f => sys_renameat2 time_ms token str_bound a b c d f
  | PcReadlinkat d p b n => sys_readlinkat time_ms token str_bound d p b n
  | PcSymlinkat t d l => sys_symlinkat time_ms token str_bound t d l
  | PcFstat f st => sys_fstat token f st
  | PcFstatat d p st f => sys_fstatat time_ms token safe_str d p st f
  | PcStatx d p f m b => sys_statx time_ms token str_bound lazy_alloc d p f m b
  | PcUtimensat d p t f => sys_utimensat time_ms token str_bound d p t f
  | PcTruncate p n => sys_truncate time_ms safe_str p n
  | PcFtruncate f n => sys_ftruncate f n
  | PcFsync f => sys_fsync f
  | PcFaccessat d p m f => sys_faccessat time_ms token str_bound d p m f
  | PcGetdents64 f b n => sys_getdents64 safe_buffer f b n
  end.

Fixpoint run_path_calls (cs : list path_call) : PS (list (result Z SysErrNo)) :=
  match cs with
  | [] => mret []
  | c :: cs => r ← run_call c; rs ← run_path_calls cs; mret (r :: rs)
  end.

Lemma keep_run {A} (m : PS A) (s : pstate D) r s' : keep' m -> pinv s -> m s = Ret (r, s') ->
  pinv s' /\ stays (p_vfs s) (p_vfs s').
Proof. intros Hk Hi E. by destruct (Hk s r s' Hi E) as (? & _ & ? & _). Qed.

Lemma run_call_run c (s : pstate D) r s' : pinv s -> run_call c s = Ret (r, s') ->
  pinv s' /\ stays (p_vfs s) (p_vfs s').
Proof.
  intros Hi. destruct c; cbn [run_call].
  { intros E. by destruct (open_run false dirfd ptr flags mode s r s' Hi E) as (? & ? & _). }
  { intros E. by destruct (open_run true 0 ptr 0 mode s r s' Hi E) as (? & ? & _). }
  all: apply keep_run; [eauto with kp|exact Hi].
Qed.

(** Every descriptor stays valid.  Whatever sequence of the calls that
    name files a process makes, with whatever arguments and whatever the C
    library answers, the nodes, the index and the open files stay consistent,
    and every descriptor of the process refers to an open file or device that
    exists. *)
Theorem path_calls_keep_descriptors cs (s : pstate D) rs s' : pinv s -> run_path_calls cs s = Ret (rs, s') -> pinv s'.
Proof.
  revert s rs. induction cs as [|c cs IH]; intros s rs Hi; cbn [run_path_calls]; [by intros [= _ <-]|].
  intros (r & s1 & E1 & (rs1 & s2 & E2 & [= _ <-])%st_bind_Ret)%st_bind_Ret.
  eapply IH; [|exact E2]. by apply (run_call_run c s r).
Qed.

End invariant.

(** ** A process *)

(** A process with one page of memory, at 0x10000, that holds a path; the disk
    is empty and no descriptor is open. *)
Definition mem_with (path : list Z) : pmem :=
  match put_data (ms_token mapped_ms) 0x10000 path mem1 with
  | Ret (_, m) => m
  | Panic => mem1
  end.
Definition proc_with (v : vfs memfs) (path : list Z) : pstate memfs :=
  mkP v (mem_with path) (mkFdm [] 128 128) [SLASH] [] MountTable_new.
Definition no_fault (ptr : Z) : ST pmem (result unit SysErrNo) := mret (Ok tt).
Definition no_string (ptr : Z) : ST pmem (list Z) := mret [].
Definition no_buffer (ptr len : Z) : ST pmem UserBuffer := mret [].

Lemma proc_with_inv v path : vfs_wf v -> pinv (proc_with v path).
Proof. intros H. split; [done|]. cbn. intros fd f. unfold get_file, table_get. cbn [table]. by destruct (fd <? 0). Qed.

(** [creat] of "/n". *)
Lemma open_installs_lowest_witness : exists s',
  sys_creat 0 (ms_token mapped_ms) 20 0x10000 0x180 (proc_with empty_vfs [SLASH; 110]) = Ret (Ok 0, s') /\
  pinv s' /\ installed (Ok 0) (proc_with empty_vfs [SLASH; 110]) s'.
Proof.
  destruct (sys_creat 0 (ms_token mapped_ms) 20 0x10000 0x180 (proc_with empty_vfs [SLASH; 110]))
    as [[r s']|] eqn:E; [|vm_compute in E; discriminate].
  assert (r = Ok 0) as ->.
  { apply (f_equal (fmap fst)) in E. vm_compute in E. by injection E. }
  exists s'. split; [reflexivity|].
  exact (open_installs_lowest 0 (ms_token mapped_ms) 20 no_fault true 0 0x10000 0 0x180 _ _ _
           (proc_with_inv _ _ empty_vfs_wf) E).
Defined.

(** [creat] of "/n", [chdir] to it, [ftruncate] of descriptor 0, and [faccessat]. *)
Lemma path_calls_keep_descriptors_witness : exists rs s',
  run_path_calls 0 (ms_token mapped_ms) 20 no_fault no_string no_buffer
    [PcCreat 0x10000 0x180; PcChdir 0x10000; PcFtruncate 0 5; PcFaccessat AT_FDCWD 0x10000 1 0]
    (proc_with empty_vfs [SLASH; 110]) = Ret (rs, s') /\
  rs = [Ok 0; Ok 0; Ok 0; Ok 0] /\ pinv s'.
Proof.
  destruct (run_path_calls 0 (ms_token mapped_ms) 20 no_fault no_string no_buffer
    [PcCreat 0x10000 0x180; PcChdir 0x10000; PcFtruncate 0 5; PcFaccessat AT_FDCWD 0x10000 1 0]
    (proc_with empty_vfs [SLASH; 110])) as [[rs s']|] eqn:E; [|vm_compute in E; discriminate].
  exists rs, s'. split; [reflexivity|]. split.
  - apply (f_equal (fmap fst)) in E. vm_compute in E. by injection E.
  - exact (path_calls_keep_descriptors 0 (ms_token mapped_ms) 20 no_fault no_string no_buffer _ _ _ _
             (proc_with_inv _ _ empty_vfs_wf) E).
Defined.
