(* ===== verification/BootFiles.v ===== *)
(** * The files that the kernel creates when it boots (os/src/fs/mod.rs)

    [create_init_files] makes directories and files with fixed texts and
    registers the devices; [fs_init] is [init] after the disk is mounted.  The
    theorem says that, whatever the C library answers, a boot that succeeds
    leaves the table with exactly the devices that were registered, numbered
    in that order. *)

From Stdlib Require Import Strings.String Strings.Ascii.
From S2P Require Import Prelude Config Memory Errno Path.
From S2P Require Import FdTable FdSys FileIO FileCache Ext4Ops Ext4Spec.
From S2P Require Import Dev Open OpenSpec PathSpec.

(** ** The texts *)

(** Lines of text, each with its end. *)
Fixpoint unlines (ls : list string) : list Z :=
  match ls with
  | [] => []
  | l :: ls' => bytes_of l ++ [LF] ++ unlines ls'
  end.

Definition INITPROC_SH : list Z := [LF] ++ unlines
   ["cd /musl";
    "./libctest_testcode.sh";
    "./busybox_testcode.sh";
    "./basic_testcode.sh";
    "./libcbench_testcode.sh";
    "./lua_testcode.sh";
    "./iozone_testcode.sh";
    "cd /glibc";
    "./busybox_testcode.sh";
    "./basic_testcode.sh";
    "./libcbench_testcode.sh";
    "./lua_testcode.sh";
    "./iozone_testcode.sh"]%string ++ [LF].
Definition MOUNTS : list Z := unlines [" ext4 / ext rw 0 0"]%string.
Definition PASSWD : list Z :=
  unlines ["root:x:0:0:root:/root:/bin/bash"; "nobody:x:1:0:nobody:/nobody:/bin/bash"]%string.
Definition MEMINFO : list Z := [LF] ++ unlines
   ["MemTotal:         944564 kB";
    "MemFree:          835248 kB";
    "MemAvailable:     873464 kB";
    "Buffers:            6848 kB";
    "Cached:            36684 kB";
    "SwapCached:            0 kB";
    "Active:            19032 kB";
    "Inactive:          32676 kB";
    "Active(anon):        128 kB";
    "Inactive(anon):     8260 kB";
    "Active(file):      18904 kB";
    "Inactive(file):    24416 kB";
    "Unevictable:           0 kB";
    "Mlocked:               0 kB";
    "SwapTotal:             0 kB";
    "SwapFree:              0 kB";
    "Dirty:                 0 kB";
    "Writeback:             0 kB";
    "AnonPages:          8172 kB";
    "Mapped:            16376 kB";
    "Shmem:               216 kB";
    "KReclaimable:       9960 kB";
    "Slab:              17868 kB";
    "SReclaimable:       9960 kB";
    "SUnreclaim:         7908 kB";
    "KernelStack:        1072 kB";
    "PageTables:          600 kB";
    "NFS_Unstable:          0 kB";
    "Bounce:                0 kB";
    "WritebackTmp:          0 kB";
    "CommitLimit:      472280 kB";
    "Committed_AS:      64684 kB";
    "VmallocTotal:   67108863 kB";
    "VmallocUsed:       15740 kB";
    "VmallocChunk:          0 kB";
    "Percpu:              496 kB";
    "HugePages_Total:       0";
    "HugePages_Free:        0";
    "HugePages_Rsvd:        0";
    "HugePages_Surp:        0";
    "Hugepagesize:       2048 kB";
    "Hugetlb:               0 kB"]%string.
Definition ADJTIME : list Z := unlines ["0.000000 0.000000 UTC"]%string.
Definition LOCALTIME : list Z :=
  bytes_of "lrwxrwxrwx 1 root root 33 11" ++ [0xe6; 0x9c; 0x88] ++
  unlines [" 18  2023 /etc/localtime -> /usr/share/zoneinfo/Asia/Shanghai"]%string.
Definition PRELOAD : list Z := [].

Definition DEFAULT_FILE_MODE : Z := 0x1b6.
Definition DEFAULT_EXE_MODE : Z := 0x1ed.
Definition DEFAULT_DIR_MODE : Z := 0x1ff.

(** ** The steps *)

Inductive boot_step : Type :=
| MkDir (path : list Z)
| MkFile (path : list Z) (mode : Z) (text : list Z)
| RegDev (path : list Z).

Section boot.
Context {D : Type} `{!Lwext4 D}.
Variable heap_bytes : list Z -> Z -> list Z.
Variable time_ms : Z.

Notation VFS := (ST (vfs D)).

(** [write] of one slice of kernel memory. *)
Definition os_write_slice (r : Z) (slice : list Z) : VFS (result Z SysErrNo) :=
  o ← file_at r;
  x ← on_node (os_node o) (fun f => fw_write_at heap_bytes f (os_offset o) slice);
  n <-? mret (from_i32 x);
  off ← st_lift (uadd (os_offset o) n);
  fs ← st_gets v_files;
  _ ← set_files (<[r := set_offset off o]> fs);
  mret (Ok n).

Definition boot_flags : Z := Z.lor O_CREATE FileCache.O_RDWR.

Definition register (p : list Z) : VFS unit :=
  fun s => match register_device p (v_reg s) with
           | Ret g => Ret (tt, mkVfs (v_ext s) (v_nodes s) (FD2NODE s) (v_files s) (v_devs s) g (v_next s) (TMP_NAME s))
           | Panic => Panic
           end.

Definition do_step (b : boot_step) : VFS (result unit SysErrNo) :=
  match b with
  | MkDir p => _ <-? open_file time_ms p (Z.lor boot_flags O_DIRECTORY) DEFAULT_DIR_MODE; mret (Ok tt)
  | MkFile p mode text =>
      f <-? open_file time_ms p boot_flags mode;
      r <-? mret (class_file (fd_file f));
      _ <-? os_write_slice r text;
      mret (Ok tt)
  | RegDev p => _ ← register p; mret (Ok tt)
  end.

Fixpoint do_steps (bs : list boot_step) : VFS (result unit SysErrNo) :=
  match bs with
  | [] => mret (Ok tt)
  | b :: bs' => _ <-? do_step b; do_steps bs'
  end.

Definition init_steps : list boot_step :=
  [MkDir (bytes_of "/proc");
   MkFile (bytes_of "/proc/mounts") DEFAULT_FILE_MODE MOUNTS;
   MkFile (bytes_of "/proc/meminfo") DEFAULT_FILE_MODE MEMINFO;
   MkDir (bytes_of "/dev");
   RegDev DEV_RTC; RegDev DEV_RTC0; RegDev DEV_TTY; RegDev DEV_ZERO; RegDev DEV_NULL; RegDev DEV_LATENCY;
   MkDir (bytes_of "/dev/misc");
   MkDir TMP;
   RegDev DEV_MISC_RTC;
   MkDir (bytes_of "/etc");
   MkFile (bytes_of "/etc/adjtime") DEFAULT_FILE_MODE ADJTIME;
   MkFile (bytes_of "/etc/localtime") DEFAULT_FILE_MODE LOCALTIME;
   MkFile (bytes_of "/initproc.sh") DEFAULT_EXE_MODE INITPROC_SH;
   MkFile (bytes_of "/etc/passwd") DEFAULT_FILE_MODE PASSWD;
   MkFile (bytes_of "/etc/ld.so.preload") DEFAULT_FILE_MODE PRELOAD].

Definition create_init_files : VFS (result unit SysErrNo) := do_steps init_steps.

(** [init] from the creation of /usr on; every error stops the kernel. *)
Definition fs_init : VFS unit :=
  r ← create_file time_ms (bytes_of "/usr") (Z.lor O_CREATE O_DIRECTORY) DEFAULT_DIR_MODE ROOT;
  _ ← st_lift (result_unwrap r);
  r ← create_init_files;
  _ ← st_lift (result_unwrap r);
  r ← look_node ROOT (fun f => fw_set_timestamps f (Some 0) (Some 0) (Some 0));
  _ ← st_lift (result_unwrap r);
  mret tt.

(** ** The devices of a boot *)

(** The devices that a list of steps registers. *)
Definition reg_paths (bs : list boot_step) : list (list Z) :=
  omap (fun b => match b with RegDev p => Some p | _ => None end) bs.

(** The table [g] after registering [ps]. *)
Fixpoint registered (ps : list (list Z)) (g : registry) : outcome registry :=
  match ps with
  | [] => Ret g
  | p :: ps' => g' ← register_device p g; registered ps' g'
  end.

(** What a step may do: keep the objects consistent and register [ps]. *)
Definition boots (ps : list (list Z)) (s s' : vfs D) : Prop :=
  vfs_wf s' /\ registered ps (v_reg s) = Ret (v_reg s').

Lemma os_write_slice_boots r text s x s' : vfs_wf s -> os_write_slice r text s = Ret (x, s') -> boots [] s s'.
Proof.
  intros Hw (o & s0 & E0 & (y & s1 & E1 & E2)%st_bind_Ret)%st_bind_Ret.
  assert (v_files s !! r = Some o /\ s0 = s) as [Eo ->].
  { revert E0. unfold file_at, mbind, ST_bind, st_gets, st_lift, unwrap. destruct (v_files s !! r); [|done].
    by intros [= <- <-]. }
  destruct (triple_on_node (os_node o) _ s y s1 Hw (vw_files s Hw r o Eo) E1) as (Hw1 & [_ _ _ Hg] & Hn).
  revert E2. destruct (from_i32 y) as [n|e].
  - erewrite st_try_run; [|reflexivity]. cbv beta. intros (off & s2 & E3 & E4)%st_bind_Ret.
    destruct (uadd (os_offset o) n); [|done]. injection E3 as <- <-. injection E4 as <- <-.
    split; [|cbn; by rewrite Hg]. destruct Hw1 as [H1 H2 H3 H4]. split; cbn; [done|done| |].
    + intros r' o'. rewrite lookup_insert_Some. intros [[<- <-]|[_ H]]; [done|by apply (H3 r')].
    + intros i Hi. destruct (H4 i Hi) as (F1 & F2 & F3). split_and!; [done| |done].
      rewrite lookup_insert_ne; [done|]. intros ->.
      destruct (triple_on_node (os_node o) _ s y s1 Hw (vw_files s Hw i o Eo) E1) as (_ & [_ Hf _ _] & _).
      by rewrite (Hf i o Eo) in F2.
  - intros [= <- <-]. split; [done|]. cbn. by rewrite Hg.
Qed.

Lemma open_boots p flags mode s x s' : vfs_wf s -> open_file time_ms p flags mode s = Ret (x, s') -> boots [] s s'.
Proof.
  intros Hw E. destruct (open_file_keeps time_ms p flags mode s x s' Hw I E) as (Hw' & [_ _ _ Hg] & _).
  split; [done|]. cbn. by rewrite Hg.
Qed.

Lemma registered_app ps qs g : registered (ps ++ qs) g = (g' ← registered ps g; registered qs g').
Proof. revert g. induction ps as [|p ps IH]; intros g; cbn; [done|]. destruct (register_device p g); cbn; [apply IH|done]. Qed.

Lemma boots_trans ps qs s1 s2 s3 : boots ps s1 s2 -> boots qs s2 s3 -> boots (ps ++ qs) s1 s3.
Proof. intros [_ E1] [H2 E2]. split; [done|]. by rewrite registered_app, E1. Qed.

Lemma do_step_boots b s s' : vfs_wf s -> do_step b s = Ret (Ok tt, s') -> boots (reg_paths [b]) s s'.
Proof.
  intros Hw. destruct b as [p|p mode text|p]; cbn [do_step]; unfold st_try.
  - destruct (open_file _ _ _ _ s) as [[[f|e] s1]|] eqn:E; [|done|done]. intros [= <-]. by apply open_boots in E.
  - destruct (open_file _ _ _ _ s) as [[[f|e] s1]|] eqn:E; [|done|done].
    apply open_boots in E as [Hw1 E1]; [|done]. cbn. destruct (class_file (fd_file f)) as [r|]; [|done].
    destruct (os_write_slice r text s1) as [[[n|e] s2]|] eqn:E2; [|done|done]. intros [= <-].
    apply os_write_slice_boots in E2; [|done]. by apply (boots_trans [] [] s s1 s2).
  - unfold mbind, ST_bind, register. destruct (register_device p (v_reg s)) as [g|] eqn:E; [|done]. intros [= <-].
    split; [destruct Hw; by split|]. cbn. by rewrite E.
Qed.

Lemma do_steps_boots bs s s' : vfs_wf s -> do_steps bs s = Ret (Ok tt, s') -> boots (reg_paths bs) s s'.
Proof.
  revert s. induction bs as [|b bs IH]; intros s Hw; cbn [do_steps]; [by intros [= <-]|].
  unfold st_try. destruct (do_step b s) as [[[[]|e] s1]|] eqn:E; [|done|done].
  apply do_step_boots in E as E'; [|done]. intros E2. apply IH in E2; [|apply E'].
  replace (reg_paths (b :: bs)) with (reg_paths [b] ++ reg_paths bs) by (by destruct b).
  by apply (boots_trans (reg_paths [b]) (reg_paths bs) s s1 s').
Qed.

Lemma init_devices_NoDup : NoDup (reg_paths init_steps).
Proof. apply (bool_decide_eq_true_1 _). vm_compute. reflexivity. Qed.

Lemma registered_spec ps g g' p n : NoDup ps -> registered ps g = Ret g' ->
  DEVICES g' !! p = Some n <->
  (exists i, ps !! i = Some p /\ n = DEV_NO g + Z.of_nat i) \/ (p ∉ ps /\ DEVICES g !! p = Some n).
Proof.
  intros Hnd. revert g. induction Hnd as [|q ps Hq Hnd IH]; intros g; cbn.
  - intros [= <-]. split; [intros H; right; split; [apply not_elem_of_nil|done]|].
    intros [(i & Hi & _)|[_ H]]; [by rewrite lookup_nil in Hi|done].
  - unfold register_device. destruct (uadd (DEV_NO g) 1) as [k|] eqn:E; [|done]. cbn. apply uadd_inv in E as [-> _].
    intros H. rewrite (IH _ H). cbn. split.
    + intros [(i & Hi & ->)|[Hp Hl]].
      * left. exists (S i). split; [done|lia].
      * apply lookup_insert_Some in Hl as [[<- <-]|[Hne Hl]]; [left; exists 0%nat; split; [done|lia]|].
        right. split; [|done]. rewrite not_elem_of_cons. auto.
    + intros [([|i] & Hi & ->)|[Hp Hl]]; cbn in *.
      * injection Hi as <-. right. split; [done|]. rewrite lookup_insert_eq. f_equal. lia.
      * left. exists i. split; [done|lia].
      * apply not_elem_of_cons in Hp as [Hne Hp]. right. split; [done|]. by rewrite lookup_insert_ne.
Qed.

(** After a boot that succeeds exactly the devices of [init_devices] are
    registered, in this order from number 1, and each of them can be opened. *)
Theorem boot_devices s s' : vfs_wf s -> v_reg s = registry_new -> fs_init s = Ret (tt, s') ->
  vfs_wf s' /\
  (forall p n, DEVICES (v_reg s') !! p = Some n <-> exists i, init_devices !! i = Some p /\ n = Z.of_nat i + 1) /\
  forall p, find_device p (v_reg s') = true -> exists d, open_device_file p = Ok d.
Proof.
  intros Hw Hr (x1 & s1 & E1 & (y1 & t1 & L1 & (x2 & s2 & E2 & (y2 & t2 & L2 & (x3 & s3 & E3 &
    (y3 & t3 & L3 & [= <-])%st_bind_Ret)%st_bind_Ret)%st_bind_Ret)%st_bind_Ret)%st_bind_Ret)%st_bind_Ret.
  assert (forall (r : result unit SysErrNo) y (a b : vfs D), st_lift (result_unwrap r) a = Ret (y, b) -> r = Ok tt /\ b = a) as Hu.
  { intros [[]|] y a b; unfold st_lift; [by intros [= _ <-]|done]. }
  assert (forall A (o : outcome A) y (a b : vfs D), st_lift o a = Ret (y, b) -> b = a) as Hu'.
  { intros A [v|] y a b; unfold st_lift; [by intros [= _ <-]|done]. }
  apply Hu' in L1 as ->. apply Hu in L2 as [-> ->]. apply Hu' in L3 as ->.
  destruct (triple_create_file time_ms _ _ _ ROOT s x1 s1 Hw (vw_root s Hw) E1) as (Hw1 & [_ _ _ G1] & _).
  destruct (do_steps_boots _ _ _ Hw1 E2) as [Hw2 G2].
  destruct (triple_look_node ROOT _ s2 x3 s3 Hw2 (vw_root s2 Hw2) E3) as (Hw3 & [_ _ _ G3] & _).
  assert (forall p n, DEVICES (v_reg s3) !! p = Some n <-> exists i, init_devices !! i = Some p /\ n = Z.of_nat i + 1) as Hreg.
  { intros p n. rewrite G3, (registered_spec _ _ _ _ _ init_devices_NoDup G2), G1, Hr. cbn [DEV_NO DEVICES registry_new].
    rewrite lookup_empty. change (reg_paths init_steps) with init_devices. split.
    - intros [(i & Hi & ->)|[_ H]]; [|done]. exists i. split; [done|lia].
    - intros (i & Hi & ->). left. exists i. split; [done|lia]. }
  split_and!; [done|done|]. intros p Hp. apply init_devices_open. unfold find_device in Hp.
  apply bool_decide_eq_true in Hp as [n Hn]. apply Hreg in Hn as (i & Hi & _). by eapply list_elem_of_lookup_2.
Qed.

End boot.
