(* ===== verification/PathCases.v ===== *)
(** * Path system calls at the edges

    What the calls of PathSys.v do where they differ from their manual:
    [rmdir] never succeeds, and [statx] and [unlinkat] of the path of a device
    stop the kernel. *)

From Stdlib Require Import Strings.String Strings.Ascii.
From S2P Require Import Prelude Config Memory Errno Pte UserMem.
From S2P Require Import FdTable FdSys Path Mount Stat Area.
From S2P Require Import FileIO FileCache Ext4Ops Ext4Spec Dev Open.
From S2P Require Import OpenSpec PathSys MemorySet ProcWait FileSpec PathSpec.

Section cases.
Context {D : Type} `{!Lwext4 D}.
Variable token : Z.
Variable str_bound : nat.

(** ** Calls that never succeed *)

Definition fails {S A} (m : ST S (result A SysErrNo)) : Prop :=
  forall s r s', m s = Ret (r, s') -> exists e, r = Err e.

Lemma fails_err {S A} e : fails (S := S) (mret (Err e : result A SysErrNo)).
Proof. intros s r s' [= <- <-]. by eexists. Qed.
Lemma fails_bind {S A B} (m : ST S A) (f : A -> ST S (result B SysErrNo)) : (forall a, fails (f a)) -> fails (m ≫= f).
Proof. intros H s r s' (a & s1 & _ & E)%st_bind_Ret. by apply (H a s1 r s'). Qed.
Lemma fails_try {S A B} (m : ST S (result A SysErrNo)) (f : A -> ST S (result B SysErrNo)) :
  (forall a, fails (f a)) -> fails (st_try f m).
Proof. intros H. apply fails_bind. intros [a|e]; [apply H|apply fails_err]. Qed.
Lemma fails_head {S A B} (m : ST S (result A SysErrNo)) (f : A -> ST S (result B SysErrNo)) :
  fails m -> fails (st_try f m).
Proof. intros H s r s' ([a|e] & s1 & E & E')%st_bind_Ret; [by destruct (H _ _ _ E)|by apply fails_err in E']. Qed.

(** Nothing fits into one byte. *)
Lemma fit_one (l : list dir_entry) o de : fit_entries (os_dirent <$> l) 1 0 o de = (de, 0, o).
Proof.
  destruct l as [|d l]; [done|]. cbn. pose proof (zlen_nonneg (de_name d)).
  pose proof (Z.mod_pos_bound (zlen (de_name d) + 19) 8 ltac:(lia)).
  destruct (Z.ltb_spec 1 (0 + (zlen (de_name d) + 19 + (8 - (zlen (de_name d) + 19) mod 8)))); [done|lia].
Qed.

Lemma read_dentry_one f off : fails (fw_read_dentry (D := D) f off 1).
Proof.
  intros s r s'. unfold fw_read_dentry, read_dir_from. case_bool_decide.
  - intros [= <- <-]. by eexists.
  - erewrite st_run; [|reflexivity]. cbv beta. cbn [from_i32]. by rewrite fit_one.
Qed.

Lemma fails_on_vfs {A} (m : ST (vfs D) (result A SysErrNo)) : fails m -> fails (on_vfs m).
Proof.
  intros H s r s'. unfold on_vfs. destruct (m (p_vfs s)) as [[a x]|] eqn:E; [|done].
  intros [= <- <-]. by apply H in E.
Qed.
Lemma fails_look_node {A} i (m : Ext4File -> ST (ext4st D) (result A SysErrNo)) :
  (forall f, fails (m f)) -> fails (look_node i m).
Proof.
  intros H. unfold look_node. apply fails_bind. intros f. unfold on_ext.
  intros s r s'. destruct (m f (v_ext s)) as [[a x]|] eqn:E; [|done]. intros [= <- <-]. by apply H in E.
Qed.

(** [rmdir] never removes a directory: it looks for entries with a buffer
    of one byte, into which none fits, so that an assertion stops the kernel
    for every directory, empty or not, and every other path gives an error. *)
Theorem rmdir_never_succeeds path_ptr (s : pstate D) r s' :
  sys_rmdir token str_bound path_ptr s = Ret (r, s') -> exists e, r = Err e.
Proof.
  apply fails_bind. intros path. destruct (str_eqb path []); [apply fails_err|].
  destruct (PATH_MAX <? zlen path); [apply fails_err|].
  apply fails_bind. intros p. apply fails_try. intros i. apply fails_bind. intros f.
  destruct (negb (fw_is_dir f)); [apply fails_err|].
  apply fails_head, fails_on_vfs, fails_look_node. intros g. apply read_dentry_one.
Qed.

(** ** Devices *)

Variable time_ms : Z.
Variable lazy_alloc : Z -> ST pmem (result unit SysErrNo).

(** The path of a device is absolute, plain ASCII and in normal form. *)
Lemma device_path p : p ∈ init_devices ->
  str_eqb p [] = false /\ str_eqb p TMP = false /\ str_eqb p [SLASH] = false /\ starts_with_slash p = true /\
  normalize_absolute_path p = Ret p /\ utf8_of_chars p = p /\
  exists d, open_device_file p = Ok d /\ d <> DevShm.
Proof.
  assert (forallb (fun p => negb (str_eqb p []) && negb (str_eqb p TMP) && negb (str_eqb p [SLASH]) &&
    starts_with_slash p && match normalize_absolute_path p with Ret q => str_eqb q p | Panic => false end && str_eqb (utf8_of_chars p) p &&
    match open_device_file p with Ok DevShm => false | Ok _ => true | Err _ => false end)
    init_devices = true) as Hall by (vm_compute; reflexivity).
  rewrite forallb_forall in Hall. intros Hp%list_elem_of_In%Hall.
  repeat (apply andb_prop in Hp as [Hp ?]). repeat match goal with
    | H : negb _ = true |- _ => apply negb_true_iff in H
    | H : str_eqb _ _ = true |- _ => apply bool_decide_eq_true in H
    end.
  split_and!; try done; [destruct (normalize_absolute_path p); [f_equal; by eapply bool_decide_eq_true|done]|]. destruct (open_device_file p) as [d|]; [|done]. exists d. split; [done|by intros ->].
Qed.

Lemma resolve_device_panics dirfd p (s : pstate D) : p ∈ init_devices -> find_device p (v_reg (p_vfs s)) = true ->
  resolve_path_from_fd time_ms dirfd p true s = Panic.
Proof.
  intros (H0 & Ht & Hr & Hs & Hn & _ & d & Hd & Hne)%device_path Hf.
  unfold resolve_path_from_fd. rewrite H0, Hs. erewrite st_try_run; [|reflexivity]. cbv beta.
  erewrite st_run; [|unfold st_lift; rewrite Hn; reflexivity]. cbv beta.
  unfold st_try, mbind, ST_bind, on_vfs, open_file. rewrite Ht. unfold open_plain. rewrite Hr.
  erewrite st_run; [|reflexivity]. cbv beta. rewrite Hf, Hd. cbn.
  erewrite st_run; [|reflexivity]. cbn. unfold unwrap, mbind, ST_bind, st_gets, st_lift. cbn.
  rewrite lookup_insert_eq. by destruct d.
Qed.

(** [statx], unless it is told not to follow links, and [unlinkat] of the
    path of a registered device stop the kernel: they ask the open device for
    its path, which devices do not have. *)
Theorem device_path_panics dirfd path_ptr flags mask buf p (s s1 : pstate D) :
  on_pmem (lazy_alloc path_ptr) s = Ret (Ok tt, s1) ->
  translated_str str_bound token (p_mem s) path_ptr = Ret p ->
  translated_str str_bound token (p_mem s1) path_ptr = Ret p ->
  p ∈ init_devices -> find_device p (v_reg (p_vfs s)) = true -> Z.land flags SYMLINK_NO_FOLLOW = 0 ->
  sys_statx time_ms token str_bound lazy_alloc dirfd path_ptr flags mask buf s = Panic /\
  sys_unlinkat time_ms token str_bound dirfd path_ptr flags s = Panic.
Proof.
  intros Hl Hp Hp1 Hd Hf Hfl. pose proof (device_path p Hd) as (H0 & _ & _ & _ & _ & Hu & _).
  assert (p_vfs s1 = p_vfs s) as Hv.
  { unfold on_pmem in Hl. destruct (lazy_alloc path_ptr (p_mem s)) as [[? ?]|]; [|done]. by injection Hl as _ <-. }
  assert (forall s : pstate D, translated_str str_bound token (p_mem s) path_ptr = Ret p ->
    user_str token str_bound path_ptr s = Ret (p, s)) as Hstr.
  { intros t Ht. unfold user_str. erewrite st_run; [|reflexivity]. 
    erewrite st_run; [|unfold st_lift; rewrite Ht; reflexivity]. by rewrite Hu. }
  split.
  - unfold sys_statx. erewrite st_try_run; [|exact Hl]. cbv beta. erewrite st_run; [|by apply Hstr].
    cbv beta zeta. rewrite H0, Hfl. unfold st_try, mbind, ST_bind. cbn [Z.eqb].
    rewrite resolve_device_panics; [done|done|by rewrite Hv].
  - unfold sys_unlinkat. erewrite st_run; [|by apply Hstr]. cbv beta. unfold st_try, mbind, ST_bind.
    by rewrite resolve_device_panics.
Qed.

End cases.

(** ** Examples *)

(** [rmdir] of "/n" when there is no such directory. *)
Lemma rmdir_never_succeeds_witness : exists r s',
  sys_rmdir (ms_token mapped_ms) 20 0x10000 (proc_with empty_vfs [SLASH; 110]) = Ret (r, s') /\ exists e, r = Err e.
Proof.
  destruct (sys_rmdir (ms_token mapped_ms) 20 0x10000 (proc_with empty_vfs [SLASH; 110]))
    as [[r s']|] eqn:E; [|vm_compute in E; discriminate].
  exists r, s'. split; [reflexivity|]. exact (rmdir_never_succeeds (ms_token mapped_ms) 20 0x10000 _ _ _ E).
Defined.

(** The root of the empty disk. *)
Example rmdir_root_panics : sys_rmdir (ms_token mapped_ms) 20 0x10000 (proc_with empty_vfs [SLASH]) = Panic.
Proof. vm_compute. reflexivity. Qed.

(** An empty disk, and one device. *)
Definition booted_vfs : vfs memfs :=
  mkVfs (boot_state ∅) {[ ROOT := root_file ]} ∅ ∅ ∅
    (mkReg {[ DEV_NULL := 0 ]} 1) 1 0.

Lemma device_path_panics_witness :
  sys_statx 0 (ms_token mapped_ms) 20 no_fault AT_FDCWD 0x10000 0 0x7ff 0x10100 (proc_with booted_vfs DEV_NULL) = Panic /\
  sys_unlinkat 0 (ms_token mapped_ms) 20 AT_FDCWD 0x10000 0 (proc_with booted_vfs DEV_NULL) = Panic.
Proof.
  apply (device_path_panics (ms_token mapped_ms) 20 0 no_fault AT_FDCWD 0x10000 0 0x7ff 0x10100 DEV_NULL
           (proc_with booted_vfs DEV_NULL) (proc_with booted_vfs DEV_NULL)).
  - reflexivity.
  - vm_compute. reflexivity.
  - vm_compute. reflexivity.
  - apply list_elem_of_In. vm_compute. tauto.
  - vm_compute. reflexivity.
  - reflexivity.
Defined.
