(* ===== verification/Calls.v ===== *)
(** * Identity, limits, clocks and information (os/src/syscall/process.rs,
    os/src/syscall/other.rs)

    The system calls of the current thread that read or set small parts of
    the kernel and copy records to and from user memory.  [file_read] fills
    the pages of mappings, [ticks] is the counter when a call reads the time,
    and [tms] gives the processor times of a thread. *)

From Stdlib Require Import Strings.String Strings.Ascii.
From S2P Require Import Prelude Config Address Memory FrameAlloc Pte.
From S2P Require Import PageTable BTree Errno Area UserMem MemorySet.
From S2P Require Import Timer Sched Exec Sleep Ids FdTable.
From S2P Require Import Futex Signals Kill Robust UserStack Process.
From S2P Require Import Clone Start Trap FdSys Dev.

(** ** Setters of a thread *)

Definition tcb_set_uid (v : Z) (t : TaskControlBlock) : TaskControlBlock :=
  mkTCB (tcb_id t) (is_init t) (state t) (exit_code t) (need_resched t)
    (preempt_disable_count t) (is_leader t) (process_id t) (page_table_token t)
    (child_tid t) (need_clear_child_tid t) (robust_list t) v (noma_policy t)
    (wait_wakers t) (trap_status t).
Definition tcb_set_noma_policy (v : Z) (t : TaskControlBlock) : TaskControlBlock :=
  mkTCB (tcb_id t) (is_init t) (state t) (exit_code t) (need_resched t)
    (preempt_disable_count t) (is_leader t) (process_id t) (page_table_token t)
    (child_tid t) (need_clear_child_tid t) (robust_list t) (uid t) v
    (wait_wakers t) (trap_status t).
Definition tcb_set_robust_list (v : RobustList) (t : TaskControlBlock) : TaskControlBlock :=
  mkTCB (tcb_id t) (is_init t) (state t) (exit_code t) (need_resched t)
    (preempt_disable_count t) (is_leader t) (process_id t) (page_table_token t)
    (child_tid t) (need_clear_child_tid t) v (uid t) (noma_policy t)
    (wait_wakers t) (trap_status t).

(** ** Records in user memory *)

Definition TimeVal_words (t : TimeVal) : list Z := [sec t; usec t].
Definition UserTimeSpec_bytes (t : UserTimeSpec) : list Z := words [tv_sec t; tv_nsec t].
Definition UserTimeSpec_of_bytes (bs : list Z) : UserTimeSpec := mkTS (word_at bs 0) (word_at bs 8).
Definition Tms_bytes (t : Tms) : list Z :=
  words (wrap64 <$> [tms_utime t; tms_stime t; tms_cutime t; tms_cstime t]).

Record ITimerVal : Type := mkITV { it_interval : TimeVal; it_value : TimeVal }.
Definition ITimerVal_bytes (t : ITimerVal) : list Z :=
  words (TimeVal_words (it_interval t) ++ TimeVal_words (it_value t)).
Definition ITimerVal_of_bytes (bs : list Z) : ITimerVal :=
  mkITV (mkTV (word_at bs 0) (word_at bs 8)) (mkTV (word_at bs 16) (word_at bs 24)).
Definition ITIMERVAL_SIZE : Z := 32.

Record RLimit : Type := mkRL { rlim_cur : Z; rlim_max : Z }.

(** [Rusage]: the two times, and fourteen counters that are zero. *)
Definition Rusage_bytes (utime stime : TimeVal) : list Z :=
  words (TimeVal_words utime ++ TimeVal_words stime ++ replicate 14 0).
Definition RUSAGE_SIZE : Z := 144.

(** [str2u8] *)
Definition str2u8 (s : list Z) : outcome (list Z) :=
  _ ← rassert (zlen s <=? 65);
  Ret (s ++ replicate (65 - length s) 0).

Record Utsname : Type := mkUts {
  sysname : list Z; nodename : list Z; release : list Z;
  version : list Z; machine : list Z; domainname : list Z
}.
Definition Utsname_bytes (u : Utsname) : list Z :=
  sysname u ++ nodename u ++ release u ++ version u ++ machine u ++ domainname u.
Definition UTSNAME_SIZE : Z := 390.

Record Sysinfo : Type := mkSI {
  uptime : Z; loads : list Z; totalram : Z; freeram : Z; sharedram : Z; bufferram : Z;
  totalswap : Z; freeswap : Z; procs : Z; totalhigh : Z; freehigh : Z; mem_unit : Z
}.
Definition Sysinfo_new (newuptime newtotalram newprocs kernel_size : Z) : outcome Sysinfo :=
  free ← usub newtotalram kernel_size;
  Ret (mkSI newuptime [0; 0; 0] newtotalram free 0 0 0 0 (newprocs mod 2 ^ 16) 0 0 1).

(** With the padding after the two short fields. *)
Definition Sysinfo_bytes (pad1 pad2 : list Z) (i : Sysinfo) : list Z :=
  words ([uptime i] ++ loads i ++ [totalram i; freeram i; sharedram i; bufferram i; totalswap i; freeswap i])
  ++ le_bytes 2 (procs i) ++ pad1 ++ words [totalhigh i; freehigh i] ++ le_bytes 4 (mem_unit i) ++ pad2.

Definition TOTALMEM : Z := 1 * 1024 * 1024 * 1024.
Definition MAX_CLOCKS : Z := 16.
Definition CLOCK_REALTIME : Z := 0.
Definition CLOCK_MONOTONIC : Z := 1.
Definition HEAD_SIZE : Z := 24.
Definition RLIMIT_NOFILE : Z := 7.
Definition MPOL_DEFAULT : Z := 0.
Definition MPOL_PREFERRED : Z := 1.
Definition MPOL_BIND : Z := 2.

(** [pid < 0 && !PID2PC.lock().contains_key(&(pid as usize))] *)
Definition bad_pid (k : kern) (pid : Z) : bool :=
  (pid <? 0) && match bt_get (wrap64 pid) (PID2PC k) with Some _ => false | None => true end.

(** The kernel with other contents of the memory. *)
Definition with_mem (m : pmem) (k : kern) : kern := k_set_fsys (mkFsys (k_sys k) m (k_futexes k)) k.

(** ** Random bytes *)

Fixpoint xorshift64 (seed : Z) (n : nat) : list Z * Z :=
  match n with
  | O => ([], seed)
  | S n' =>
      let s := Z.lxor seed (shl64 seed 13) in
      let s := Z.lxor s (Z.shiftr s 7) in
      let s := Z.lxor s (shl64 s 17) in
      let '(bs, s') := xorshift64 s n' in
      (Z.land s 0xff :: bs, s')
  end.

Definition random_seed (ticks tid : Z) : outcome Z :=
  x ← umul (sec (current_time ticks)) 1000000;
  y ← uadd x (usec (current_time ticks));
  z ← uadd tid 1110111;
  Ret (Z.lxor y z).

(** The loop over the chunks; [written] of [len] bytes are written. *)
Definition MAX_RW : Z := 4096 * 4.
Fixpoint random_loop (buf : UserBuffer) (seed written len : Z) : ST pmem Z :=
  match buf with
  | [] => mret written
  | chunk :: buf' =>
      rest ← st_lift (usub len written);
      let chunk_len := Z.min (us_len chunk) rest in
      let n := Z.min chunk_len MAX_RW in
      let '(bs, seed') := xorshift64 seed (Z.to_nat n) in
      _ ← us_store chunk bs;
      w ← st_lift (uadd written n);
      if len <=? w then mret w else random_loop buf' seed' w len
  end.

(** [buf[skip..].fill(0)] over the chunks of [get_mempolicy]. *)
Fixpoint clear_after (buf : UserBuffer) (offset : Z) : ST pmem unit :=
  match buf with
  | [] => mret tt
  | b :: buf' =>
      let skip := Z.min offset (us_len b) in
      _ ← st_iter (fun j => us_set b j 0) (zrange skip (us_len b));
      clear_after buf' (offset - skip)
  end.

Section calls.
Variable file_read : Z -> UserBuffer -> inodes -> ST world (result Z SysErrNo * inodes).
Variable file_write : Z -> UserBuffer -> ST world (result Z SysErrNo).
Variable INITPROC : Z.
Variable robust_fuel : nat.
Variable ticks : Z.
Variable tms : Z -> TimeData.

(** [current_process()] with its control block. *)
Definition the_process : ST kern ProcessControlBlock := p ← current_process; proc_at p.
Definition the_task : ST kern TaskControlBlock := r ← on_kx current_get; task_of r.
Definition current_token : ST kern Z := pcb ← the_process; mm_token (p_memory_set pcb).

(** [manual_alloc_type_for_lazy(ptr).await] for a value of [size] bytes. *)
Definition lazy_type (pcb : ProcessControlBlock) (ptr size : Z) : ST kern (result unit SysErrNo) :=
  on_mm (p_memory_set pcb) (fun fs ms => manual_alloc_type_for_lazy file_read fs ms ptr size).

(** [put_data(token, ptr, v)], [*translated_refmut(token, ptr)? = v] and
    [*get_target_ref(token, ptr)?]. *)
Definition put_user (token ptr : Z) (bs : list Z) : ST kern (result unit SysErrNo) :=
  r ← on_kmem (put_data token ptr bs);
  mret (match r with Ok _ => Ok tt | Err e => Err (errno_of_PutDataError e) end).
Definition store_user (token ptr : Z) (bs : list Z) : ST kern (result unit SysErrNo) :=
  on_kmem (write_user token ptr bs).
Definition load_user (token ptr size : Z) : ST kern (result (list Z) SysErrNo) :=
  m ← st_gets (fun k => w_mem (k_world k));
  r ← st_lift (get_target_ref token m ptr size);
  mret (match r with
        | Ok (Some pa) => Ok (pa_read_bytes m pa size)
        | Ok None => Ok []
        | Err e => Err (errno_of_TranslateError e)
        end).
Definition safe_put (pcb : ProcessControlBlock) (ptr : Z) (bs : list Z) : ST kern (result unit SysErrNo) :=
  r ← on_mm (p_memory_set pcb) (fun fs ms => safe_put_data file_read fs ms ptr bs);
  mret (match r with Ok _ => Ok tt | Err e => Err (errno_of_PutDataError e) end).

(** A record that a call returns: the pages, then the store. *)
Definition return_record (ptr : Z) (bs : list Z) : ST kern (result Z SysErrNo) :=
  pcb ← the_process;
  token ← mm_token (p_memory_set pcb);
  _ <-? lazy_type pcb ptr (zlen bs);
  _ <-? store_user token ptr bs;
  mret (Ok 0).
Definition put_record (ptr : Z) (bs : list Z) : ST kern (result Z SysErrNo) :=
  pcb ← the_process;
  token ← mm_token (p_memory_set pcb);
  _ <-? lazy_type pcb ptr (zlen bs);
  _ <-? put_user token ptr bs;
  mret (Ok 0).

(** ** Who am I *)

Definition sys_getppid : ST kern (result Z SysErrNo) := pcb ← the_process; mret (Ok (p_parent pcb)).
Definition sys_getpid : ST kern (result Z SysErrNo) := t ← the_task; mret (Ok (process_id t)).
Definition sys_gettid : ST kern (result Z SysErrNo) := t ← the_task; mret (Ok (tcb_id t)).
Definition sys_getuid : result Z SysErrNo := Ok 0.
Definition sys_getgid : result Z SysErrNo := Ok 0.
Definition sys_getegid : result Z SysErrNo := Ok 0.
Definition sys_setsid : result Z SysErrNo := Ok 0.
Definition sys_membarrier : result Z SysErrNo := Ok 0.
Definition sys_setuid (uid : Z) : ST tstate (result Z SysErrNo) :=
  r ← on_k (on_kx current_get);
  _ ← on_k (on_kx (tcb_update r (tcb_set_uid uid)));
  _ ← st_modify (fun s => mkT (t_k s) (t_irqs s) (t_timers s) uid);
  mret (Ok 0).
Definition sys_geteuid : ST tstate (result Z SysErrNo) := u ← st_gets CUR_UID; mret (Ok u).

Definition sys_settidaddress (tid_ptr : Z) : ST kern (result Z SysErrNo) :=
  r ← on_kx current_get;
  _ ← on_kx (tcb_update r (set_child_tid_ptr tid_ptr));
  t ← task_of r;
  mret (Ok (tcb_id t)).

Definition sys_exit (code : Z) : ST kern (option (result Z SysErrNo)) :=
  fin ← exit_current file_read file_write INITPROC robust_fuel code;
  mret (if (fin : bool) then Some (Ok (wrap64 code)) else None).
Definition sys_exitgroup (code : Z) : ST kern (result Z SysErrNo) :=
  _ ← exit_proc file_read file_write INITPROC code;
  mret (Ok 0).

(** ** The working directory *)

Definition sys_getcwd (buf size : Z) : ST kern (result Z SysErrNo) :=
  if (buf =? 0) && negb (size =? 0) then
    pcb ← the_process; mret (Ok (zlen (p_cwd pcb) + 1))
  else if size =? 0 then mret (Err EINVAL)
  else
    pcb ← the_process;
    token ← mm_token (p_memory_set pcb);
    let n := zlen (p_cwd pcb) + 1 in
    if size <? n then mret (Err ERANGE)
    else
      r ← on_kmem (copy_to_user_bytes token buf (p_cwd pcb ++ [0]));
      mret (match r with
            | Ok copied => if negb (copied =? n) then Err EFAULT else Ok copied
            | Err UnexpectedEofOrFault => Err ECONNABORTED
            | Err _ => Err EFAULT
            end).

(** ** Robust lists *)

Definition sys_get_robust_list (pid head_ptr len_ptr : Z) : ST kern (result Z SysErrNo) :=
  tids ← st_gets (fun k => tid2tc (k_sys k));
  o ← (if pid =? 0 then r ← on_kx current_get; mret (Some r) else mret (bt_get pid tids));
  match o with
  | None => mret (Err ESRCH)
  | Some r =>
      t ← task_of r;
      _ <-? put_user (page_table_token t) head_ptr (le_bytes 8 (head (robust_list t)));
      _ <-? put_user (page_table_token t) len_ptr (le_bytes 8 (len (robust_list t)));
      mret (Ok 0)
  end.

Definition sys_set_robust_list (head len : Z) : ST kern (result Z SysErrNo) :=
  if negb (len =? HEAD_SIZE) then mret (Err EINVAL)
  else
    r ← on_kx current_get;
    _ ← on_kx (tcb_update r (tcb_set_robust_list (mkRobust head len)));
    mret (Ok 0).

(** ** Limits and policies *)

Definition sys_prlimit (pid resource new_limit old_limit : Z) : ST kern (result Z SysErrNo) :=
  p ← current_process;
  pcb ← proc_at p;
  _ <-? (if negb (old_limit =? 0) then lazy_type pcb old_limit 16 else mret (Ok tt));
  _ <-? (if negb (new_limit =? 0) then lazy_type pcb new_limit 16 else mret (Ok tt));
  token ← mm_token (p_memory_set pcb);
  if negb (resource =? RLIMIT_NOFILE) then mret (Ok 0)
  else if pid =? 0 then
    let t := p_fd_table pcb in
    _ <-? (if negb (old_limit =? 0) then
             store_user token old_limit (words [soft_limit t; hard_limit t])
           else mret (Ok tt));
    if negb (new_limit =? 0) then
      bs <-? load_user token new_limit 16;
      _ ← proc_update p (fun q => set_fd_table (set_limit (p_fd_table q) (word_at bs 0) (word_at bs 8)) q);
      mret (Ok 0)
    else mret (Ok 0)
  else st_panic.

Definition sys_get_mempolicy (mode_ptr nodemask_ptr maxnode : Z) : ST kern (result Z SysErrNo) :=
  t ← the_task;
  token ← current_token;
  pcb ← the_process;
  _ <-? lazy_type pcb mode_ptr 4;
  _ <-? lazy_type pcb nodemask_ptr 8;
  r ← (if negb (mode_ptr =? 0) then store_user token mode_ptr (le_bytes 4 (noma_policy t)) else mret (Ok tt));
  match r with
  | Err _ => mret (Err EFAULT)
  | Ok _ =>
      if nodemask_ptr =? 0 then mret (Ok 0)
      else if maxnode <? 1 then mret (Err EINVAL)
      else
        r ← store_user token nodemask_ptr (le_bytes 8 1);
        match r with
        | Err _ => mret (Err EFAULT)
        | Ok _ =>
            if 64 <? maxnode then
              x ← st_lift (uadd maxnode 7);
              m ← st_gets (fun k => w_mem (k_world k));
              buf ← st_lift (translated_byte_buffer token m nodemask_ptr (x / 8));
              _ ← on_kmem (clear_after buf 8);
              mret (Ok 0)
            else mret (Ok 0)
        end
  end.

Definition sys_set_mempolicy (mode nodemask_ptr maxnode : Z) : ST kern (result Z SysErrNo) :=
  if negb ((MPOL_DEFAULT <=? mode) && (mode <=? MPOL_PREFERRED)) then mret (Err EINVAL)
  else
    _ <-? (if mode =? MPOL_BIND then
             if nodemask_ptr =? 0 then mret (Err EINVAL)
             else if maxnode <? 1 then mret (Err EINVAL)
             else
               pcb ← the_process;
               _ <-? lazy_type pcb nodemask_ptr 8;
               token ← current_token;
               r ← load_user token nodemask_ptr 8;
               mret (match r with
                     | Ok bs => if negb (word_at bs 0 =? 1) then Err EINVAL else Ok tt
                     | Err _ => Err EINVAL
                     end)
           else mret (Ok tt));
    r ← on_kx current_get;
    _ ← on_kx (tcb_update r (tcb_set_noma_policy mode));
    mret (Ok 0).

(** ** Locking *)

(** [sys_mlock] and [sys_munlock] only check the range. *)
Definition sys_mlock (addr len : Z) : ST kern (result Z SysErrNo) :=
  if len =? 0 then mret (Err EINVAL)
  else
    pcb ← the_process;
    x ← st_lift (uadd addr len);
    last ← st_lift (usub x 1);
    b ← on_mm (p_memory_set pcb) (fun fs ms => b ← st_lift (is_region_alloc ms addr last); mret (b, ms, fs));
    mret (if (b : bool) then Ok 0 else Err ENOMEM).
Definition sys_munlock (addr len : Z) : ST kern (result Z SysErrNo) := sys_mlock addr len.
Definition sys_mlockall : result Z SysErrNo := Ok 0.
Definition sys_munlockall : result Z SysErrNo := Ok 0.

(** ** Usage and information *)

Inductive RusageWho : Type := WhoSelf | WhoChildren | WhoThread.
Definition RusageWho_from (v : Z) : option RusageWho :=
  if v =? 0 then Some WhoSelf else if v =? -1 then Some WhoChildren
  else if v =? 1 then Some WhoThread else None.

(** The three cases have the same value. *)
Definition sys_getrusage (who usage_ptr : Z) : ST kern (result Z SysErrNo) :=
  match RusageWho_from who with
  | None => mret (Err EINVAL)
  | Some _ =>
      pcb ← the_process;
      token ← mm_token (p_memory_set pcb);
      _ <-? lazy_type pcb usage_ptr RUSAGE_SIZE;
      r ← on_kx current_get;
      let d := tms r in
      _ <-? store_user token usage_ptr (Rusage_bytes (mkTV (wrap64 (utime d)) 0) (mkTV (wrap64 (stime d)) 0));
      mret (Ok 0)
  end.

Definition sys_time (ptr : Z) : ST kern (result Z SysErrNo) :=
  r ← on_kx current_get;
  return_record ptr (Tms_bytes (Tms_new (tms r))).

Definition sys_sysinfo (kernel_size : Z) (pad1 pad2 : list Z) (ptr : Z) : ST kern (result Z SysErrNo) :=
  pcb ← the_process;
  ms ← st_lift (get_time_ms ticks);
  tids ← st_gets (fun k => tid2tc (k_sys k));
  i ← st_lift (Sysinfo_new (ms / 1000) TOTALMEM (zlen tids) kernel_size);
  _ <-? safe_put pcb ptr (Sysinfo_bytes pad1 pad2 i);
  mret (Ok 0).

Definition uname : outcome Utsname :=
  s ← str2u8 (bytes_of "Linux");
  n ← str2u8 (bytes_of "HELIX");
  r ← str2u8 (bytes_of "5.0.0");
  v ← str2u8 (bytes_of "5.0.0");
  m ← str2u8 (bytes_of "RISC-V64");
  d ← str2u8 (bytes_of "HELIX");
  Ret (mkUts s n r v m d).
Definition sys_uname (ptr : Z) : ST kern (result Z SysErrNo) :=
  u ← st_lift uname;
  put_record ptr (Utsname_bytes u).

Definition sys_getrandom (ptr len : Z) : ST kern (result Z SysErrNo) :=
  if len =? 0 then mret (Ok 0)
  else
    token ← current_token;
    if ptr =? 0 then mret (Err EFAULT)
    else
      t ← the_task;
      seed ← st_lift (random_seed ticks (tcb_id t));
      m ← st_gets (fun k => w_mem (k_world k));
      buf ← st_lift (translated_byte_buffer token m ptr len);
      match buf with
      | [] => mret (Err EFAULT)
      | _ => n ← on_kmem (random_loop buf seed 0 len); mret (Ok n)
      end.

(** ** Clocks *)

Definition sys_gettimeofday (ptr : Z) : ST kern (result Z SysErrNo) :=
  now ← st_lift (get_usertime ticks);
  put_record ptr (UserTimeSpec_bytes now).

Definition sys_clock_gettime (clock_id tp : Z) : ST kern (result Z SysErrNo) :=
  if MAX_CLOCKS <=? clock_id then mret (Err EINVAL)
  else
    now ← st_lift (get_usertime ticks);
    if (clock_id =? CLOCK_REALTIME) || (clock_id =? CLOCK_MONOTONIC) then
      pcb ← the_process;
      _ <-? safe_put pcb tp (UserTimeSpec_bytes now);
      mret (Ok 0)
    else mret (Err EINVAL).

Definition sys_clock_getres (clockid ptr : Z) : ST kern (result Z SysErrNo) :=
  if (clockid =? CLOCK_REALTIME) || (clockid =? CLOCK_MONOTONIC) then
    if ptr =? 0 then mret (Ok 0)
    else return_record ptr (UserTimeSpec_bytes (mkTS 0 1))
  else mret (Err EINVAL).

(** [sys_nanosleep] and [sys_clock_nanosleep] up to their [await]: a result, or
    the deadline with the future that is awaited. *)
Definition sleep_start (deadline : UserTimeSpec) : ST kern (UserTimeSpec * SleepFuture) :=
  f ← on_ksys (sleep_until (Some (usertime2_timeval deadline)));
  mret (deadline, f).
Definition nanosleep_start (req : Z) : ST kern (result (UserTimeSpec * SleepFuture) SysErrNo) :=
  pcb ← the_process;
  token ← mm_token (p_memory_set pcb);
  r ← lazy_type pcb req 16;
  match r with
  | Err _ => mret (Err EFAULT)
  | Ok _ =>
      bs <-? load_user token req 16;
      now ← st_lift (get_usertime ticks);
      deadline ← st_lift (ts_add now (UserTimeSpec_of_bytes bs));
      x ← sleep_start deadline;
      mret (Ok x)
  end.

Definition TIMER_ABSTIME : Z := 1.
Definition clock_nanosleep_start (flags req : Z)
    : ST kern (result Z SysErrNo + UserTimeSpec * SleepFuture) :=
  pcb ← the_process;
  token ← mm_token (p_memory_set pcb);
  r ← lazy_type pcb req 16;
  match r with
  | Err _ => mret (inl (Err EFAULT))
  | Ok _ =>
      r ← load_user token req 16;
      match r with
      | Err e => mret (inl (Err e))
      | Ok bs =>
          let t := UserTimeSpec_of_bytes bs in
          now ← st_lift (get_usertime ticks);
          if negb (flags =? TIMER_ABSTIME) then
            deadline ← st_lift (ts_add now t);
            x ← sleep_start deadline;
            mret (inr x)
          else if negb (ts_geb t now) then mret (inl (Ok 0))
          else x ← sleep_start t; mret (inr x)
      end
  end.

(** What follows the [await] of both, at [ticks]. *)
Definition nanosleep_finish (deadline : UserTimeSpec) (rem : Z) : ST kern (result Z SysErrNo) :=
  now ← st_lift (get_usertime ticks);
  if negb (ts_geb now deadline) && negb (rem =? 0) then
    pcb ← the_process;
    token ← mm_token (p_memory_set pcb);
    r ← lazy_type pcb rem 16;
    match r with
    | Err _ => mret (Err EFAULT)
    | Ok _ =>
        d ← st_lift (ts_sub deadline now);
        delta ← st_lift (as_nanos d);
        _ <-? put_user token rem (UserTimeSpec_bytes (mkTS (delta / 1000000000) (delta mod 1000000000)));
        mret (Err ERESTART)
    end
  else mret (Ok 0).

(** ** Interval timers *)

Definition itimer_of (t : KernelTimer) : ITimerVal := mkITV (tv_from_ns (interval t)) (tv_from_ns (value t)).

Definition sys_getitimer (which ptr : Z) : ST kern (result Z SysErrNo) :=
  if negb ((ITIMER_REAL <=? which) && (which <=? ITIMER_PROF)) then mret (Err EINVAL)
  else
    pcb ← the_process;
    token ← mm_token (p_memory_set pcb);
    _ <-? lazy_type pcb ptr ITIMERVAL_SIZE;
    t ← st_lift (index (p_timers pcb) which);
    _ <-? store_user token ptr (ITimerVal_bytes (itimer_of t));
    mret (Ok 0).

(** The timer of the process is set; the new one is returned. *)
Definition setitimer_timer (which new_ptr old_ptr : Z) : ST kern (result KernelTimer SysErrNo) :=
  p ← current_process;
  pcb ← proc_at p;
  token ← mm_token (p_memory_set pcb);
  _ <-? lazy_type pcb new_ptr ITIMERVAL_SIZE;
  _ <-? (if negb (old_ptr =? 0) then
           _ <-? lazy_type pcb old_ptr ITIMERVAL_SIZE;
           t ← st_lift (index (p_timers pcb) which);
           store_user token old_ptr (ITimerVal_bytes (itimer_of t))
         else mret (Ok tt));
  bs <-? load_user token new_ptr ITIMERVAL_SIZE;
  let new := ITimerVal_of_bytes bs in
  v ← st_lift (tv_nanos (it_value new));
  i ← st_lift (tv_nanos (it_interval new));
  l ← st_lift (index_set (p_timers pcb) which (mkTimer i v));
  _ ← proc_update p (set_p_timers l);
  mret (Ok (mkTimer i v)).

Definition sys_setitimer (which new_ptr old_ptr : Z) : ST tstate (result Z SysErrNo) :=
  if negb ((ITIMER_REAL <=? which) && (which <=? ITIMER_PROF)) then mret (Err EINVAL)
  else
    t <-? on_k (setitimer_timer which new_ptr old_ptr);
    if which =? ITIMER_REAL then
      pcb ← on_k the_process;
      timers ← st_gets t_timers;
      timers ← st_lift (set_real_timer timers (p_pid pcb) (value t) ticks);
      _ ← st_modify (fun s => mkT (t_k s) (t_irqs s) timers (CUR_UID s));
      mret (Ok 0)
    else mret (Ok 0).

(** ** Scheduling parameters *)

Definition KERNEL_CPU_MASK_SIZE : Z := (1 + 7) / 8.
Definition sys_sched_getaffinity (cpusetsize ptr : Z) : ST kern (result Z SysErrNo) :=
  if cpusetsize <? KERNEL_CPU_MASK_SIZE then mret (Err EINVAL)
  else
    _ <-? return_record ptr (le_bytes 8 1);
    mret (Ok KERNEL_CPU_MASK_SIZE).
Definition sys_sched_setaffinity : result Z SysErrNo := Ok 0.

Definition sys_sched_setscheduler (pid policy param_ptr : Z) : ST kern (result Z SysErrNo) :=
  bad ← st_gets (fun k => bad_pid k pid);
  mret (if (bad : bool) then Err EINVAL else if param_ptr =? 0 then Err EFAULT else Ok 0).
Definition sys_sched_getscheduler (pid : Z) : ST kern (result Z SysErrNo) :=
  bad ← st_gets (fun k => bad_pid k pid);
  mret (if (bad : bool) then Err EINVAL else Ok 0).
Definition sys_sched_getparam (pid param_ptr : Z) : ST kern (result Z SysErrNo) :=
  bad ← st_gets (fun k => bad_pid k pid);
  if (bad : bool) then mret (Err EINVAL)
  else if param_ptr =? 0 then mret (Err EFAULT)
  else return_record param_ptr (le_bytes 4 0).
Definition sys_sched_setparam (pid param_ptr : Z) : ST kern (result Z SysErrNo) :=
  bad ← st_gets (fun k => bad_pid k pid);
  mret (if (bad : bool) then Err EINVAL else if param_ptr =? 0 then Err EFAULT else Ok 0).

(** ** Signal masks *)

Definition sys_sigprocmask (how set_ptr oldset_ptr : Z) : ST kern (result Z SysErrNo) :=
  cur ← on_kx current_get;
  o ← st_gets (fun k => k_tsig k !! cur);
  ts ← st_lift (unwrap o);
  pcb ← the_process;
  token ← mm_token (p_memory_set pcb);
  _ <-? (if negb (set_ptr =? 0) then
           _ <-? lazy_type pcb set_ptr 8;
           bs <-? load_user token set_ptr 8;
           match SigMaskHow_try_from how with
           | None => mret (Err EINVAL)
           | Some h =>
               '(_, ts') ← st_lift (do_sigprocmask ts h (Some (word_at bs 0)));
               _ ← k_set_tsig cur ts';
               mret (Ok tt)
           end
         else mret (Ok tt));
  if negb (oldset_ptr =? 0) then
    pcb ← the_process;
    _ <-? lazy_type pcb oldset_ptr 8;
    _ <-? store_user token oldset_ptr (le_bytes 8 (sigmask ts));
    mret (Ok 0)
  else mret (Ok 0).

(** ** Sockets (os/src/syscall/net.rs) *)

Definition SOCK_CLOEXEC : Z := 0x80000.
Definition SOCK_NONBLOCK : Z := 0x800.
Definition sock_flags (stype : Z) : Z :=
  let f := if Z.land stype SOCK_CLOEXEC =? SOCK_CLOEXEC then FD_CLOEXEC else 0 in
  if Z.land stype SOCK_NONBLOCK =? SOCK_NONBLOCK then fl_insert f Pipe.O_NONBLOCK else f.

(** An operation of the descriptor table of process [p]. *)
Definition on_fds {A} (p : Z) (f : FdManage -> outcome (A * FdManage)) : ST kern A :=
  pcb ← proc_at p;
  '(a, t) ← st_lift (f (p_fd_table pcb));
  _ ← proc_update p (set_fd_table t);
  mret a.

(** [socket] is the address of the new [Socket]. *)
Definition sys_socket (socket stype : Z) : ST kern (result Z SysErrNo) :=
  p ← current_process;
  on_fds p (fun t => alloc_and_add_fd t (mkFD (sock_flags stype) (ClassAbs socket))).

(** [socket1] and [socket2] are the ends that [make_socketpair] has made. *)
Definition sys_socketpair (socket1 socket2 stype sv : Z) : ST kern (result Z SysErrNo) :=
  p ← current_process;
  pcb ← proc_at p;
  token ← mm_token (p_memory_set pcb);
  let flags := sock_flags stype in
  _ <-? lazy_type pcb sv 4;
  fd1 <-? on_fds p (fun t => alloc_and_add_fd t (mkFD flags (ClassAbs socket1)));
  fd2 <-? on_fds p (fun t => alloc_and_add_fd t (mkFD flags (ClassAbs socket2)));
  _ <-? store_user token sv (le_bytes 4 fd1);
  _ <-? store_user token (wrap64 (sv + 4)) (le_bytes 4 fd2);
  mret (Ok 0).

Definition sys_recvfrom (buf : Z) : ST kern (result Z SysErrNo) :=
  pcb ← the_process;
  _ <-? lazy_type pcb buf 1;
  token ← mm_token (p_memory_set pcb);
  _ <-? put_user token buf [120];
  _ <-? put_user token (wrap64 (buf + 1)) [48];
  mret (Ok 1).

End calls.
