(* ===== verification/Dispatch.v ===== *)
(** * The table of system calls (os/src/syscall/mod.rs, syscall/arch)

    A trap for a system call has a number and six registers.  [decode] is the
    match of [syscall]: which handler is called, with the registers cast to
    the types of its parameters.  [encode] is the convention of the programs,
    the arguments in order, and the two agree for every call but one.

    [local] gives the handlers that act on the calling process and finish in
    the trap, over the state of Trap.v; [close_call] runs [close] and [dup3],
    with the drop of the descriptor that they release; [syscall] is the
    dispatcher. *)

From S2P Require Import Prelude Config Address Memory FrameAlloc Pte.
From S2P Require Import PageTable BTree Errno Area UserMem MemorySet.
From S2P Require Import Timer Sched Exec ExecInv Sleep Ids.
From S2P Require Import FdTable Futex Signals Kill Robust Process.
From S2P Require Import Clone ProcTree Trap TrapSpec FdSys MmapSys.
From S2P Require Import Calls.

(** ** Numbers *)

Definition SYSCALL_OPEN : Z := 56.
Definition SYSCALL_CLOSE : Z := 57.
Definition SYSCALL_CLOCK_NANOSLEEP : Z := 115.
Definition SYSCALL_FSTAT : Z := 80.
Definition SYSCALL_EXIT : Z := 93.
Definition SYSCALL_TIMES : Z := 153.
Definition SYSCALL_GETUID : Z := 174.
Definition SYSCALL_SETTIDADDRESS : Z := 96.
Definition SYSCALL_EXITGROUP : Z := 94.
Definition SYSCALL_WAITPID : Z := 260.
Definition SYSCALL_GETTIMEOFDAY : Z := 169.
Definition SYSCALL_TASK_INFO : Z := 114514.
Definition SYSCALL_BRK : Z := 214.
Definition SYSCALL_SIGPROCMASK : Z := 135.
Definition SYSCALL_RT_SIGACTION : Z := 134.
Definition SYSCALL_GETPPID : Z := 173.
Definition SYSCALL_CLONE : Z := 220.
Definition SYSCALL_EXEC : Z := 221.
Definition SYSCALL_FSTATAT : Z := 79.
Definition SYSCALL_GETPID : Z := 172.
Definition SYSCALL_MMAP : Z := 222.
Definition SYSCALL_SIGTIMEDWAIT : Z := 137.
Definition SYSCALL_MUNMAP : Z := 215.
Definition SYSCALL_UNAME : Z := 160.
Definition SYSCALL_IOCTL : Z := 29.
Definition SYSCALL_FCNTL : Z := 25.
Definition SYSCALL_READ : Z := 63.
Definition SYSCALL_WRITE : Z := 64.
Definition SYSCALL_SIGNALRET : Z := 139.
Definition SYSCALL_KILL : Z := 129.
Definition SYSCALL_TGKILL : Z := 131.
Definition SYSCALL_TKILL : Z := 130.
Definition SYSCALL_WRITEV : Z := 66.
Definition SYSCALL_READV : Z := 65.
Definition SYSCALL_PREAD64 : Z := 67.
Definition SYSCALL_LSEEK : Z := 62.
Definition SYSCALL_PWRITE64 : Z := 68.
Definition SYSCALL_RENAMEAT : Z := 0xdeadbeefaaadbeef.
Definition SYSCALL_RENAMEAT2 : Z := 276.
Definition SYSCALL_GETRANDOM : Z := 278.
Definition SYSCALL_GETEUID : Z := 175.
Definition SYSCALL_GETCWD : Z := 17.
Definition SYSCALL_PPOLL : Z := 73.
Definition SYSCALL_CHDIR : Z := 49.
Definition SYSCALL_GETDENTS64 : Z := 61.
Definition SYSCALL_SETPGID : Z := 154.
Definition SYSCALL_GETPGID : Z := 155.
Definition SYSCALL_CLOCK_GETTIME : Z := 113.
Definition SYSCALL_GETTID : Z := 178.
Definition SYSCALL_FACCESSAT : Z := 48.
Definition SYSCALL_GETROBUSTLIST : Z := 100.
Definition SYSCALL_SETROBUSTLIST : Z := 99.
Definition SYSCALL_MKDIRAT : Z := 34.
Definition SYSCALL_DUP2 : Z := 23.
Definition SYSCALL_DUP3 : Z := 24.
Definition SYSCALL_MOUNT : Z := 40.
Definition SYSCALL_UMOUNT2 : Z := 39.
Definition SYSCALL_UNLINKAT : Z := 35.
Definition SYSCALL_PRLIMIT64 : Z := 261.
Definition SYSCALL_CLOCK_SETTIME : Z := 112.
Definition SYSCALL_SYMLINKAT : Z := 36.
Definition SYSCALL_READLINKAT : Z := 78.
Definition SYSCALL_MPROTECT : Z := 226.
Definition SYSCALL_PIPE2 : Z := 59.
Definition SYSCALL_SENDFILE : Z := 71.
Definition SYSCALL_STATFS : Z := 43.
Definition SYSCALL_LOG : Z := 116.
Definition SYSCALL_INFO : Z := 179.
Definition SYSCALL_UTIMENSAT : Z := 88.
Definition SYSCALL_NANOSLEEP : Z := 101.
Definition SYSCALL_FUTEX : Z := 98.
Definition SYSCALL_SOCKET : Z := 198.
Definition SYSCALL_SOCKETPAIR : Z := 199.
Definition SYSCALL_BIND : Z := 200.
Definition SYSCALL_LISTEN : Z := 201.
Definition SYSCALL_ACCEPT : Z := 202.
Definition SYSCALL_CONNECT : Z := 203.
Definition SYSCALL_GETSOCKNAME : Z := 204.
Definition SYSCALL_GETPEERNAME : Z := 205.
Definition SYSCALL_SENDTO : Z := 206.
Definition SYSCALL_RECVFROM : Z := 207.
Definition SYSCALL_SETSOCKOPT : Z := 208.
Definition SYSCALL_SENDMSG : Z := 211.
Definition SYSCALL_ACCEPT4 : Z := 242.
Definition SYSCALL_MREMAP : Z := 216.
Definition SYSCALL_SETSID : Z := 157.
Definition SYSCALL_SCHED_YIELD : Z := 124.
Definition SYSCALL_SETUID : Z := 146.
Definition SYSCALL_GETGID : Z := 176.
Definition SYSCALL_GETEGID : Z := 177.
Definition SYSCALL_MEMBARRIER : Z := 283.
Definition SYSCALL_SCHED_GETAFFINITY : Z := 123.
Definition SYSCALL_SCHED_SETAFFINITY : Z := 122.
Definition SYSCALL_MADVISE : Z := 233.
Definition SYSCALL_SET_MEMPOLICY : Z := 237.
Definition SYSCALL_GET_MEMPOLICY : Z := 236.
Definition SYSCALL_SCHED_SETSCHEDULER : Z := 119.
Definition SYSCALL_SCHED_GETSCHEDULER : Z := 120.
Definition SYSCALL_SCHED_GETPARAM : Z := 121.
Definition SYSCALL_SCHED_SETPARAM : Z := 118.
Definition SYSCALL_CLOCK_GETRES : Z := 114.
Definition SYSCALL_FTRUNCATE : Z := 46.
Definition SYSCALL_TRUNCATE : Z := 45.
Definition SYSCALL_MLOCK : Z := 228.
Definition SYSCALL_MUNLOCK : Z := 229.
Definition SYSCALL_MLOCKALL : Z := 230.
Definition SYSCALL_MUNLOCKALL : Z := 231.
Definition SYSCALL_GETRUSAGE : Z := 165.
Definition SYSCALL_PSELECT6 : Z := 72.
Definition SYSCALL_SYNC : Z := 81.
Definition SYSCALL_FSYNC : Z := 82.
Definition SYSCALL_SHMGET : Z := 194.
Definition SYSCALL_SHMAT : Z := 196.
Definition SYSCALL_SHMCTL : Z := 195.
Definition SYSCALL_SHMDT : Z := 197.
Definition SYSCALL_GETITIMER : Z := 102.
Definition SYSCALL_SETITIMER : Z := 103.
Definition SYSCALL_UMASK : Z := 166.
Definition SYSCALL_STATX : Z := 291.

(** ** Calls *)

(** A handler with its arguments, or an arm that is a constant. *)
Inductive call : Type :=
| Sys_openat (dirfd path_ptr flags_u32 mode : Z) | Sys_close (fd : Z)
| Sys_clock_nanosleep (clock_id flags req rem : Z) | Sys_fstat (fd st : Z)
| Sys_exit (exit_code : Z) | Sys_time (tms : Z) | Sys_getuid | Sys_settidaddress (tid_ptr : Z)
| Sys_exitgroup (exit_code : Z) | Sys_wait4 (pid wstatus options : Z) | Sys_gettimeofday (ts tz : Z)
| Sys_task_info (ti : Z) | Sys_brk (new_brk : Z)
| Sys_sigprocmask (how set_user_ptr oldset_user_ptr : Z)
| Sys_sigaction (signum_usize act_user_ptr oldact_user_ptr : Z) | Sys_getppid
| Sys_clone (flags user_stack ptid tls ctid : Z) | Sys_execve (path argv envp : Z)
| Sys_fstatat (dirfd path_ptr kst flags : Z) | Sys_getpid
| Sys_mmap (addr len prot flags fd off : Z) | Sys_rt_sigtimedwait (sig info timeout : Z)
| Sys_munmap (start len : Z) | Sys_uname (buf : Z) | Sys_ioctl (fd cmd arg : Z)
| Sys_fcntl (fd cmd arg : Z) | Sys_read (fd buf len : Z) | Sys_write (fd buf len : Z)
| Sys_sigreturn | Sys_kill (target_pid signum_usize : Z)
| Sys_tgkill (target_pid target_tid signum_usize : Z) | Sys_tkill (target_tid signum_usize : Z)
| Sys_writev (fd iov_user_ptr iovcnt : Z) | Sys_readv (fd iov_user_ptr iovcnt : Z)
| Sys_pread64 (fd user_buf_ptr count offset : Z) | Sys_lseek (fd offset whence : Z)
| Sys_pwrite64 (fd user_buf_ptr count offset : Z)
| Sys_renameat (olddirfd oldpath newdirfd newpath : Z)
| Sys_renameat2 (olddirfd oldpath newdirfd newpath flags : Z)
| Sys_getrandom (buf_ptr len flags : Z) | Sys_geteuid | Sys_getcwd (buf_user_ptr size : Z)
| Sys_ppoll (fds_user_ptr nfds tmo_user_ptr sigmask_user_ptr : Z) | Sys_chdir (path : Z)
| Sys_getdents64 (fd buf len : Z) | Sys_clock_gettime (clock_id tp : Z) | Sys_gettid
| Sys_faccessat (dirfd path_user_ptr mode_u32 flags : Z)
| Sys_get_robust_list (pid head_ptr len_ptr : Z) | Sys_set_robust_list (head len : Z)
| Sys_mkdirat (dirfd path mode : Z) | Sys_dup (oldfd : Z) | Sys_dup3 (oldfd newfd flags_u32 : Z)
| Sys_mount (special_user_ptr dir_user_ptr fstype_user_ptr flags data_user_ptr : Z)
| Sys_umount2 (target_user_ptr flags : Z) | Sys_unlinkat (dirfd path flags : Z)
| Sys_prlimit (pid resource new_limit old_limit : Z)
| Sys_symlinkat (target_user_ptr newdirfd linkpath_user_ptr : Z)
| Sys_readlinkat (dirfd path_user_ptr buf_user_ptr bufsize : Z)
| Sys_mprotect (start size flags : Z) | Sys_pipe2 (pipefd_user_ptr flags_u32 : Z)
| Sys_sendfile (out_fd in_fd offset_user_ptr count : Z) | Sys_statfs (path statfs : Z)
| Sys_syslog (logtype bufp len : Z) | Sys_sysinfo (info : Z)
| Sys_utimensat (dirfd path times flags : Z) | Sys_nanosleep (req rem : Z)
| Sys_futex (uaddr_user_ptr futex_op_full val_or_count val2_timeout_ptr_or_num_requeue uaddr2_user_ptr bitmask_or_val3 : Z)
| Sys_socket (domain stype protocol : Z) | Sys_socketpair (domain stype protocol sv : Z)
| Sys_bind (sockfd addr addrlen : Z) | Sys_listen (sockfd backlog : Z)
| Sys_accept (sockfd addr addrlen : Z) | Sys_connect (sockfd addr addrlen : Z)
| Sys_getsockname (sockfd addr addrlen : Z) | Sys_getpeername (sockfd addr addrlen : Z)
| Sys_sendto (sockfd buf len flags dest_addr addrlen : Z)
| Sys_recvfrom (sockfd buf len flags src_addr addrlen : Z)
| Sys_setsockopt (sockfd level optname optcal optlen : Z) | Sys_sendmsg (sockfd addr flags : Z)
| Sys_accept4 (sockfd addr addrlen flags : Z)
| Sys_mremap (old_address old_size new_size flags new_address : Z) | Sys_setsid | Sys_sched_yield
| Sys_setuid (uid : Z) | Sys_getgid | Sys_getegid | Sys_membarrier
| Sys_sched_getaffinity (pid cpusetsize user_mask : Z)
| Sys_sched_setaffinity (pid cpusetsize user_mask_ptr : Z) | Sys_madvise (addr len advice : Z)
| Sys_set_mempolicy (mode nodemask_ptr maxnode : Z)
| Sys_get_mempolicy (mode_ptr nodemask_ptr maxnode addr flags : Z)
| Sys_sched_setscheduler (pid policy param_ptr : Z) | Sys_sched_getscheduler (pid : Z)
| Sys_sched_getparam (pid param_ptr : Z) | Sys_sched_setparam (pid param_ptr : Z)
| Sys_clock_getres (clockid res_ptr : Z) | Sys_ftruncate (fd length : Z)
| Sys_truncate (path_ptr length : Z) | Sys_mlock (addr len : Z) | Sys_munlock (addr len : Z)
| Sys_mlockall (flags : Z) | Sys_munlockall | Sys_getrusage (who usage_ptr : Z)
| Sys_pselect6 (nfds readfds_ptr writefds_ptr exceptfds_ptr timeout_ptr sigmask_ptr : Z) | Sys_sync
| Sys_fsync (fd : Z) | Sys_shmget (key size shmflg : Z) | Sys_shmat (shmid shmaddr shmflg : Z)
| Sys_shmctl (shmid cmd buf : Z) | Sys_shmdt (shmaddr : Z) | Sys_getitimer (which value_ptr : Z)
| Sys_setitimer (which new_value_ptr old_value_ptr : Z) | Sys_umaske
| Sys_statx (dirfd path_ptr flags mask statxbuf_ptr : Z) | Sys_const (r : result Z SysErrNo).

(** [args[i]], and [as u32] *)
Definition arg (args : list Z) (i : nat) : Z := default 0 (args !! i).
Definition as_u32 (z : Z) : Z := z mod 2 ^ 32.

Definition decode (syscall_id : Z) (args : list Z) : option call :=
  if syscall_id =? SYSCALL_OPEN then Some (Sys_openat (as_i32 (arg args 0)) (arg args 1) (as_u32 (arg args 2)) (as_u32 (arg args 3))) else
  if syscall_id =? SYSCALL_CLOSE then Some (Sys_close (as_i32 (arg args 0))) else
  if syscall_id =? SYSCALL_CLOCK_NANOSLEEP then Some (Sys_clock_nanosleep (arg args 0) (arg args 1) (arg args 2) (arg args 3)) else
  if syscall_id =? SYSCALL_FSTAT then Some (Sys_fstat (arg args 0) (arg args 1)) else
  if syscall_id =? SYSCALL_EXIT then Some (Sys_exit (as_i32 (arg args 0))) else
  if syscall_id =? SYSCALL_TIMES then Some (Sys_time (arg args 0)) else
  if syscall_id =? SYSCALL_GETUID then Some (Sys_getuid) else
  if syscall_id =? SYSCALL_SETTIDADDRESS then Some (Sys_settidaddress (arg args 0)) else
  if syscall_id =? SYSCALL_EXITGROUP then Some (Sys_exitgroup (as_i32 (arg args 0))) else
  if syscall_id =? SYSCALL_WAITPID then Some (Sys_wait4 (wrap_isize (arg args 0)) (arg args 1) (as_u32 (arg args 2))) else
  if syscall_id =? SYSCALL_GETTIMEOFDAY then Some (Sys_gettimeofday (arg args 0) (arg args 1)) else
  if syscall_id =? SYSCALL_TASK_INFO then Some (Sys_task_info (arg args 0)) else
  if syscall_id =? SYSCALL_BRK then Some (Sys_brk (arg args 0)) else
  if syscall_id =? SYSCALL_SIGPROCMASK then Some (Sys_sigprocmask (as_i32 (arg args 0)) (arg args 1) (arg args 2)) else
  if syscall_id =? SYSCALL_RT_SIGACTION then Some (Sys_sigaction (arg args 0) (arg args 1) (arg args 2)) else
  if syscall_id =? SYSCALL_GETPPID then Some (Sys_getppid) else
  if syscall_id =? SYSCALL_CLONE then Some (Sys_clone (arg args 0) (arg args 1) (arg args 2) (arg args 3) (arg args 4)) else
  if syscall_id =? SYSCALL_EXEC then Some (Sys_execve (arg args 0) (arg args 1) (arg args 2)) else
  if syscall_id =? SYSCALL_FSTATAT then Some (Sys_fstatat (as_i32 (arg args 0)) (arg args 1) (arg args 2) (arg args 3)) else
  if syscall_id =? SYSCALL_GETPID then Some (Sys_getpid) else
  if syscall_id =? SYSCALL_MMAP then Some (Sys_mmap (arg args 0) (arg args 1) (as_u32 (arg args 2)) (as_u32 (arg args 3)) (wrap_isize (arg args 4)) (arg args 5)) else
  if syscall_id =? SYSCALL_SIGTIMEDWAIT then Some (Sys_rt_sigtimedwait (arg args 0) (arg args 1) (arg args 2)) else
  if syscall_id =? SYSCALL_MUNMAP then Some (Sys_munmap (arg args 0) (arg args 1)) else
  if syscall_id =? SYSCALL_UNAME then Some (Sys_uname (arg args 0)) else
  if syscall_id =? SYSCALL_IOCTL then Some (Sys_ioctl (arg args 0) (arg args 1) (arg args 2)) else
  if syscall_id =? SYSCALL_FCNTL then Some (Sys_fcntl (arg args 0) (arg args 1) (arg args 2)) else
  if syscall_id =? SYSCALL_READ then Some (Sys_read (arg args 0) (arg args 1) (arg args 2)) else
  if syscall_id =? SYSCALL_WRITE then Some (Sys_write (arg args 0) (arg args 1) (arg args 2)) else
  if syscall_id =? SYSCALL_SIGNALRET then Some (Sys_sigreturn) else
  if syscall_id =? SYSCALL_KILL then Some (Sys_kill (arg args 0) (arg args 1)) else
  if syscall_id =? SYSCALL_TGKILL then Some (Sys_tgkill (arg args 0) (arg args 1) (arg args 2)) else
  if syscall_id =? SYSCALL_TKILL then Some (Sys_tkill (arg args 0) (arg args 1)) else
  if syscall_id =? SYSCALL_WRITEV then Some (Sys_writev (arg args 0) (arg args 1) (as_i32 (arg args 2))) else
  if syscall_id =? SYSCALL_READV then Some (Sys_readv (arg args 0) (arg args 1) (as_i32 (arg args 2))) else
  if syscall_id =? SYSCALL_PREAD64 then Some (Sys_pread64 (as_i32 (arg args 0)) (arg args 1) (arg args 2) (arg args 3)) else
  if syscall_id =? SYSCALL_LSEEK then Some (Sys_lseek (arg args 0) (wrap_isize (arg args 1)) (as_u32 (arg args 2))) else
  if syscall_id =? SYSCALL_PWRITE64 then Some (Sys_pwrite64 (arg args 0) (arg args 1) (arg args 2) (arg args 3)) else
  if syscall_id =? SYSCALL_RENAMEAT then Some (Sys_renameat (as_i32 (arg args 0)) (arg args 1) (as_i32 (arg args 2)) (arg args 3)) else
  if syscall_id =? SYSCALL_RENAMEAT2 then Some (Sys_renameat2 (as_i32 (arg args 0)) (arg args 1) (as_i32 (arg args 2)) (arg args 3) (as_u32 (arg args 4))) else
  if syscall_id =? SYSCALL_GETRANDOM then Some (Sys_getrandom (arg args 0) (arg args 1) (as_u32 (arg args 2))) else
  if syscall_id =? SYSCALL_GETEUID then Some (Sys_geteuid) else
  if syscall_id =? SYSCALL_GETCWD then Some (Sys_getcwd (arg args 0) (arg args 1)) else
  if syscall_id =? SYSCALL_PPOLL then Some (Sys_ppoll (arg args 0) (arg args 1) (arg args 2) (arg args 3)) else
  if syscall_id =? SYSCALL_CHDIR then Some (Sys_chdir (arg args 0)) else
  if syscall_id =? SYSCALL_GETDENTS64 then Some (Sys_getdents64 (arg args 0) (arg args 1) (arg args 2)) else
  if syscall_id =? SYSCALL_SETPGID then Some (Sys_const (Ok 0)) else
  if syscall_id =? SYSCALL_GETPGID then Some (Sys_const (Ok 0)) else
  if syscall_id =? SYSCALL_CLOCK_GETTIME then Some (Sys_clock_gettime (arg args 0) (arg args 1)) else
  if syscall_id =? SYSCALL_GETTID then Some (Sys_gettid) else
  if syscall_id =? SYSCALL_FACCESSAT then Some (Sys_faccessat (as_i32 (arg args 0)) (arg args 1) (as_u32 (arg args 2)) (arg args 3)) else
  if syscall_id =? SYSCALL_GETROBUSTLIST then Some (Sys_get_robust_list (arg args 0) (arg args 1) (arg args 2)) else
  if syscall_id =? SYSCALL_SETROBUSTLIST then Some (Sys_set_robust_list (arg args 0) (arg args 1)) else
  if syscall_id =? SYSCALL_MKDIRAT then Some (Sys_mkdirat (as_i32 (arg args 0)) (arg args 1) (as_u32 (arg args 2))) else
  if syscall_id =? SYSCALL_DUP2 then Some (Sys_dup (as_i32 (arg args 0))) else
  if syscall_id =? SYSCALL_DUP3 then Some (Sys_dup3 (as_i32 (arg args 0)) (as_i32 (arg args 1)) (as_u32 (arg args 2))) else
  if syscall_id =? SYSCALL_MOUNT then Some (Sys_mount (arg args 0) (arg args 1) (arg args 2) (as_u32 (arg args 3)) (arg args 4)) else
  if syscall_id =? SYSCALL_UMOUNT2 then Some (Sys_umount2 (arg args 0) (as_u32 (arg args 1))) else
  if syscall_id =? SYSCALL_UNLINKAT then Some (Sys_unlinkat (as_i32 (arg args 0)) (arg args 1) (as_u32 (arg args 2))) else
  if syscall_id =? SYSCALL_PRLIMIT64 then Some (Sys_prlimit (arg args 0) (as_u32 (arg args 1)) (arg args 2) (arg args 3)) else
  if syscall_id =? SYSCALL_CLOCK_SETTIME then Some (Sys_const (Err ENOSYS)) else
  if syscall_id =? SYSCALL_SYMLINKAT then Some (Sys_symlinkat (arg args 0) (as_i32 (arg args 2)) (arg args 2)) else
  if syscall_id =? SYSCALL_READLINKAT then Some (Sys_readlinkat (as_i32 (arg args 0)) (arg args 1) (arg args 2) (arg args 3)) else
  if syscall_id =? SYSCALL_MPROTECT then Some (Sys_mprotect (arg args 0) (arg args 1) (arg args 2)) else
  if syscall_id =? SYSCALL_PIPE2 then Some (Sys_pipe2 (arg args 0) (as_u32 (arg args 1))) else
  if syscall_id =? SYSCALL_SENDFILE then Some (Sys_sendfile (as_i32 (arg args 0)) (as_i32 (arg args 1)) (arg args 2) (arg args 3)) else
  if syscall_id =? SYSCALL_STATFS then Some (Sys_statfs (arg args 0) (arg args 1)) else
  if syscall_id =? SYSCALL_LOG then Some (Sys_syslog (wrap_isize (arg args 0)) (arg args 1) (arg args 2)) else
  if syscall_id =? SYSCALL_INFO then Some (Sys_sysinfo (arg args 0)) else
  if syscall_id =? SYSCALL_UTIMENSAT then Some (Sys_utimensat (as_i32 (arg args 0)) (arg args 1) (arg args 2) (arg args 3)) else
  if syscall_id =? SYSCALL_NANOSLEEP then Some (Sys_nanosleep (arg args 0) (arg args 1)) else
  if syscall_id =? SYSCALL_FUTEX then Some (Sys_futex (arg args 0) (as_i32 (arg args 1)) (as_u32 (arg args 2)) (arg args 3) (arg args 4) (as_u32 (arg args 5))) else
  if syscall_id =? SYSCALL_SOCKET then Some (Sys_socket (as_u32 (arg args 0)) (as_u32 (arg args 1)) (as_u32 (arg args 2))) else
  if syscall_id =? SYSCALL_SOCKETPAIR then Some (Sys_socketpair (as_u32 (arg args 0)) (as_u32 (arg args 1)) (as_u32 (arg args 2)) (arg args 3)) else
  if syscall_id =? SYSCALL_BIND then Some (Sys_bind (arg args 0) (arg args 1) (as_u32 (arg args 2))) else
  if syscall_id =? SYSCALL_LISTEN then Some (Sys_listen (arg args 0) (as_u32 (arg args 1))) else
  if syscall_id =? SYSCALL_ACCEPT then Some (Sys_accept (arg args 0) (arg args 1) (as_u32 (arg args 2))) else
  if syscall_id =? SYSCALL_CONNECT then Some (Sys_connect (arg args 0) (arg args 1) (as_u32 (arg args 2))) else
  if syscall_id =? SYSCALL_GETSOCKNAME then Some (Sys_getsockname (arg args 0) (arg args 1) (as_u32 (arg args 2))) else
  if syscall_id =? SYSCALL_GETPEERNAME then Some (Sys_getpeername (arg args 0) (arg args 1) (as_u32 (arg args 2))) else
  if syscall_id =? SYSCALL_SENDTO then Some (Sys_sendto (arg args 0) (arg args 1) (arg args 2) (as_u32 (arg args 3)) (arg args 4) (as_u32 (arg args 5))) else
  if syscall_id =? SYSCALL_RECVFROM then Some (Sys_recvfrom (arg args 0) (arg args 1) (arg args 2) (as_u32 (arg args 3)) (arg args 4) (as_u32 (arg args 5))) else
  if syscall_id =? SYSCALL_SETSOCKOPT then Some (Sys_setsockopt (arg args 0) (as_u32 (arg args 1)) (as_u32 (arg args 2)) (arg args 3) (as_u32 (arg args 4))) else
  if syscall_id =? SYSCALL_SENDMSG then Some (Sys_sendmsg (arg args 0) (arg args 1) (as_u32 (arg args 2))) else
  if syscall_id =? SYSCALL_ACCEPT4 then Some (Sys_accept4 (arg args 0) (arg args 1) (as_u32 (arg args 2)) (as_u32 (arg args 3))) else
  if syscall_id =? SYSCALL_MREMAP then Some (Sys_mremap (arg args 0) (arg args 1) (arg args 2) (as_u32 (arg args 3)) (arg args 4)) else
  if syscall_id =? SYSCALL_SETSID then Some (Sys_setsid) else
  if syscall_id =? SYSCALL_SCHED_YIELD then Some (Sys_sched_yield) else
  if syscall_id =? SYSCALL_SETUID then Some (Sys_setuid (as_u32 (arg args 0))) else
  if syscall_id =? SYSCALL_GETGID then Some (Sys_getgid) else
  if syscall_id =? SYSCALL_GETEGID then Some (Sys_getegid) else
  if syscall_id =? SYSCALL_MEMBARRIER then Some (Sys_membarrier) else
  if syscall_id =? SYSCALL_SCHED_GETAFFINITY then Some (Sys_sched_getaffinity (as_i32 (arg args 0)) (arg args 1) (arg args 2)) else
  if syscall_id =? SYSCALL_SCHED_SETAFFINITY then Some (Sys_sched_setaffinity (as_i32 (arg args 0)) (arg args 1) (arg args 2)) else
  if syscall_id =? SYSCALL_MADVISE then Some (Sys_madvise (arg args 0) (arg args 1) (as_u32 (arg args 2))) else
  if syscall_id =? SYSCALL_SET_MEMPOLICY then Some (Sys_set_mempolicy (arg args 0) (arg args 1) (arg args 2)) else
  if syscall_id =? SYSCALL_GET_MEMPOLICY then Some (Sys_get_mempolicy (arg args 0) (arg args 1) (arg args 2) (arg args 3) (as_i32 (arg args 4))) else
  if syscall_id =? SYSCALL_SCHED_SETSCHEDULER then Some (Sys_sched_setscheduler (as_i32 (arg args 0)) (as_i32 (arg args 1)) (arg args 2)) else
  if syscall_id =? SYSCALL_SCHED_GETSCHEDULER then Some (Sys_sched_getscheduler (as_i32 (arg args 0))) else
  if syscall_id =? SYSCALL_SCHED_GETPARAM then Some (Sys_sched_getparam (as_i32 (arg args 0)) (arg args 1)) else
  if syscall_id =? SYSCALL_SCHED_SETPARAM then Some (Sys_sched_setparam (as_i32 (arg args 0)) (arg args 1)) else
  if syscall_id =? SYSCALL_CLOCK_GETRES then Some (Sys_clock_getres (as_u32 (arg args 0)) (arg args 1)) else
  if syscall_id =? SYSCALL_FTRUNCATE then Some (Sys_ftruncate (as_i32 (arg args 0)) (arg args 1)) else
  if syscall_id =? SYSCALL_TRUNCATE then Some (Sys_truncate (arg args 0) (arg args 1)) else
  if syscall_id =? SYSCALL_MLOCK then Some (Sys_mlock (arg args 0) (arg args 1)) else
  if syscall_id =? SYSCALL_MUNLOCK then Some (Sys_munlock (arg args 0) (arg args 1)) else
  if syscall_id =? SYSCALL_MLOCKALL then Some (Sys_mlockall (as_u32 (arg args 0))) else
  if syscall_id =? SYSCALL_MUNLOCKALL then Some (Sys_munlockall) else
  if syscall_id =? SYSCALL_GETRUSAGE then Some (Sys_getrusage (as_i32 (arg args 0)) (arg args 1)) else
  if syscall_id =? SYSCALL_PSELECT6 then Some (Sys_pselect6 (as_i32 (arg args 0)) (arg args 1) (arg args 2) (arg args 3) (arg args 4) (arg args 5)) else
  if syscall_id =? SYSCALL_SYNC then Some (Sys_sync) else
  if syscall_id =? SYSCALL_FSYNC then Some (Sys_fsync (arg args 0)) else
  if syscall_id =? SYSCALL_SHMGET then Some (Sys_shmget (as_i32 (arg args 0)) (arg args 1) (arg args 2)) else
  if syscall_id =? SYSCALL_SHMAT then Some (Sys_shmat (as_i32 (arg args 0)) (arg args 1) (arg args 2)) else
  if syscall_id =? SYSCALL_SHMCTL then Some (Sys_shmctl (as_i32 (arg args 0)) (arg args 1) (arg args 2)) else
  if syscall_id =? SYSCALL_SHMDT then Some (Sys_shmdt (arg args 0)) else
  if syscall_id =? SYSCALL_GETITIMER then Some (Sys_getitimer (as_i32 (arg args 0)) (arg args 1)) else
  if syscall_id =? SYSCALL_SETITIMER then Some (Sys_setitimer (as_i32 (arg args 0)) (arg args 1) (arg args 2)) else
  if syscall_id =? SYSCALL_UMASK then Some (Sys_umaske) else
  if syscall_id =? SYSCALL_STATX then Some (Sys_statx (as_i32 (arg args 0)) (arg args 1) (as_u32 (arg args 2)) (as_u32 (arg args 3)) (arg args 4)) else
  None.

(** ** The convention *)

Definition is_i32 (z : Z) : Prop := - 2 ^ 31 <= z < 2 ^ 31.
Definition is_u32 (z : Z) : Prop := 0 <= z < 2 ^ 32.
Definition is_isize (z : Z) : Prop := isize_min <= z <= isize_max.

(** The arguments have their types. *)
Definition call_ok (c : call) : Prop :=
  match c with
  | Sys_openat dirfd path_ptr flags_u32 mode => is_i32 dirfd /\ is_u64 path_ptr /\ is_u32 flags_u32 /\ is_u32 mode
  | Sys_close fd => is_i32 fd
  | Sys_clock_nanosleep clock_id flags req rem => is_u64 clock_id /\ is_u64 flags /\ is_u64 req /\ is_u64 rem
  | Sys_fstat fd st => is_u64 fd /\ is_u64 st
  | Sys_exit exit_code => is_i32 exit_code
  | Sys_time tms => is_u64 tms
  | Sys_getuid => True
  | Sys_settidaddress tid_ptr => is_u64 tid_ptr
  | Sys_exitgroup exit_code => is_i32 exit_code
  | Sys_wait4 pid wstatus options => is_isize pid /\ is_u64 wstatus /\ is_u32 options
  | Sys_gettimeofday ts tz => is_u64 ts /\ is_u64 tz
  | Sys_task_info ti => is_u64 ti
  | Sys_brk new_brk => is_u64 new_brk
  | Sys_sigprocmask how set_user_ptr oldset_user_ptr => is_i32 how /\ is_u64 set_user_ptr /\ is_u64 oldset_user_ptr
  | Sys_sigaction signum_usize act_user_ptr oldact_user_ptr => is_u64 signum_usize /\ is_u64 act_user_ptr /\ is_u64 oldact_user_ptr
  | Sys_getppid => True
  | Sys_clone flags user_stack ptid tls ctid => is_u64 flags /\ is_u64 user_stack /\ is_u64 ptid /\ is_u64 tls /\ is_u64 ctid
  | Sys_execve path argv envp => is_u64 path /\ is_u64 argv /\ is_u64 envp
  | Sys_fstatat dirfd path_ptr kst flags => is_i32 dirfd /\ is_u64 path_ptr /\ is_u64 kst /\ is_u64 flags
  | Sys_getpid => True
  | Sys_mmap addr len prot flags fd off => is_u64 addr /\ is_u64 len /\ is_u32 prot /\ is_u32 flags /\ is_isize fd /\ is_u64 off
  | Sys_rt_sigtimedwait sig info timeout => is_u64 sig /\ is_u64 info /\ is_u64 timeout
  | Sys_munmap start len => is_u64 start /\ is_u64 len
  | Sys_uname buf => is_u64 buf
  | Sys_ioctl fd cmd arg => is_u64 fd /\ is_u64 cmd /\ is_u64 arg
  | Sys_fcntl fd cmd arg => is_u64 fd /\ is_u64 cmd /\ is_u64 arg
  | Sys_read fd buf len => is_u64 fd /\ is_u64 buf /\ is_u64 len
  | Sys_write fd buf len => is_u64 fd /\ is_u64 buf /\ is_u64 len
  | Sys_sigreturn => True
  | Sys_kill target_pid signum_usize => is_u64 target_pid /\ is_u64 signum_usize
  | Sys_tgkill target_pid target_tid signum_usize => is_u64 target_pid /\ is_u64 target_tid /\ is_u64 signum_usize
  | Sys_tkill target_tid signum_usize => is_u64 target_tid /\ is_u64 signum_usize
  | Sys_writev fd iov_user_ptr iovcnt => is_u64 fd /\ is_u64 iov_user_ptr /\ is_i32 iovcnt
  | Sys_readv fd iov_user_ptr iovcnt => is_u64 fd /\ is_u64 iov_user_ptr /\ is_i32 iovcnt
  | Sys_pread64 fd user_buf_ptr count offset => is_i32 fd /\ is_u64 user_buf_ptr /\ is_u64 count /\ is_u64 offset
  | Sys_lseek fd offset whence => is_u64 fd /\ is_isize offset /\ is_u32 whence
  | Sys_pwrite64 fd user_buf_ptr count offset => is_u64 fd /\ is_u64 user_buf_ptr /\ is_u64 count /\ is_u64 offset
  | Sys_renameat olddirfd oldpath newdirfd newpath => is_i32 olddirfd /\ is_u64 oldpath /\ is_i32 newdirfd /\ is_u64 newpath
  | Sys_renameat2 olddirfd oldpath newdirfd newpath flags => is_i32 olddirfd /\ is_u64 oldpath /\ is_i32 newdirfd /\ is_u64 newpath /\ is_u32 flags
  | Sys_getrandom buf_ptr len flags => is_u64 buf_ptr /\ is_u64 len /\ is_u32 flags
  | Sys_geteuid => True
  | Sys_getcwd buf_user_ptr size => is_u64 buf_user_ptr /\ is_u64 size
  | Sys_ppoll fds_user_ptr nfds tmo_user_ptr sigmask_user_ptr => is_u64 fds_user_ptr /\ is_u64 nfds /\ is_u64 tmo_user_ptr /\ is_u64 sigmask_user_ptr
  | Sys_chdir path => is_u64 path
  | Sys_getdents64 fd buf len => is_u64 fd /\ is_u64 buf /\ is_u64 len
  | Sys_clock_gettime clock_id tp => is_u64 clock_id /\ is_u64 tp
  | Sys_gettid => True
  | Sys_faccessat dirfd path_user_ptr mode_u32 flags => is_i32 dirfd /\ is_u64 path_user_ptr /\ is_u32 mode_u32 /\ is_u64 flags
  | Sys_get_robust_list pid head_ptr len_ptr => is_u64 pid /\ is_u64 head_ptr /\ is_u64 len_ptr
  | Sys_set_robust_list head len => is_u64 head /\ is_u64 len
  | Sys_mkdirat dirfd path mode => is_i32 dirfd /\ is_u64 path /\ is_u32 mode
  | Sys_dup oldfd => is_i32 oldfd
  | Sys_dup3 oldfd newfd flags_u32 => is_i32 oldfd /\ is_i32 newfd /\ is_u32 flags_u32
  | Sys_mount special_user_ptr dir_user_ptr fstype_user_ptr flags data_user_ptr => is_u64 special_user_ptr /\ is_u64 dir_user_ptr /\ is_u64 fstype_user_ptr /\ is_u32 flags /\ is_u64 data_user_ptr
  | Sys_umount2 target_user_ptr flags => is_u64 target_user_ptr /\ is_u32 flags
  | Sys_unlinkat dirfd path flags => is_i32 dirfd /\ is_u64 path /\ is_u32 flags
  | Sys_prlimit pid resource new_limit old_limit => is_u64 pid /\ is_u32 resource /\ is_u64 new_limit /\ is_u64 old_limit
  | Sys_symlinkat target_user_ptr newdirfd linkpath_user_ptr => is_u64 target_user_ptr /\ is_i32 newdirfd /\ is_u64 linkpath_user_ptr
  | Sys_readlinkat dirfd path_user_ptr buf_user_ptr bufsize => is_i32 dirfd /\ is_u64 path_user_ptr /\ is_u64 buf_user_ptr /\ is_u64 bufsize
  | Sys_mprotect start size flags => is_u64 start /\ is_u64 size /\ is_u64 flags
  | Sys_pipe2 pipefd_user_ptr flags_u32 => is_u64 pipefd_user_ptr /\ is_u32 flags_u32
  | Sys_sendfile out_fd in_fd offset_user_ptr count => is_i32 out_fd /\ is_i32 in_fd /\ is_u64 offset_user_ptr /\ is_u64 count
  | Sys_statfs path statfs => is_u64 path /\ is_u64 statfs
  | Sys_syslog logtype bufp len => is_isize logtype /\ is_u64 bufp /\ is_u64 len
  | Sys_sysinfo info => is_u64 info
  | Sys_utimensat dirfd path times flags => is_i32 dirfd /\ is_u64 path /\ is_u64 times /\ is_u64 flags
  | Sys_nanosleep req rem => is_u64 req /\ is_u64 rem
  | Sys_futex uaddr_user_ptr futex_op_full val_or_count val2_timeout_ptr_or_num_requeue uaddr2_user_ptr bitmask_or_val3 => is_u64 uaddr_user_ptr /\ is_i32 futex_op_full /\ is_u32 val_or_count /\ is_u64 val2_timeout_ptr_or_num_requeue /\ is_u64 uaddr2_user_ptr /\ is_u32 bitmask_or_val3
  | Sys_socket domain stype protocol => is_u32 domain /\ is_u32 stype /\ is_u32 protocol
  | Sys_socketpair domain stype protocol sv => is_u32 domain /\ is_u32 stype /\ is_u32 protocol /\ is_u64 sv
  | Sys_bind sockfd addr addrlen => is_u64 sockfd /\ is_u64 addr /\ is_u32 addrlen
  | Sys_listen sockfd backlog => is_u64 sockfd /\ is_u32 backlog
  | Sys_accept sockfd addr addrlen => is_u64 sockfd /\ is_u64 addr /\ is_u32 addrlen
  | Sys_connect sockfd addr addrlen => is_u64 sockfd /\ is_u64 addr /\ is_u32 addrlen
  | Sys_getsockname sockfd addr addrlen => is_u64 sockfd /\ is_u64 addr /\ is_u32 addrlen
  | Sys_getpeername sockfd addr addrlen => is_u64 sockfd /\ is_u64 addr /\ is_u32 addrlen
  | Sys_sendto sockfd buf len flags dest_addr addrlen => is_u64 sockfd /\ is_u64 buf /\ is_u64 len /\ is_u32 flags /\ is_u64 dest_addr /\ is_u32 addrlen
  | Sys_recvfrom sockfd buf len flags src_addr addrlen => is_u64 sockfd /\ is_u64 buf /\ is_u64 len /\ is_u32 flags /\ is_u64 src_addr /\ is_u32 addrlen
  | Sys_setsockopt sockfd level optname optcal optlen => is_u64 sockfd /\ is_u32 level /\ is_u32 optname /\ is_u64 optcal /\ is_u32 optlen
  | Sys_sendmsg sockfd addr flags => is_u64 sockfd /\ is_u64 addr /\ is_u32 flags
  | Sys_accept4 sockfd addr addrlen flags => is_u64 sockfd /\ is_u64 addr /\ is_u32 addrlen /\ is_u32 flags
  | Sys_mremap old_address old_size new_size flags new_address => is_u64 old_address /\ is_u64 old_size /\ is_u64 new_size /\ is_u32 flags /\ is_u64 new_address
  | Sys_setsid => True
  | Sys_sched_yield => True
  | Sys_setuid uid => is_u32 uid
  | Sys_getgid => True
  | Sys_getegid => True
  | Sys_membarrier => True
  | Sys_sched_getaffinity pid cpusetsize user_mask => is_i32 pid /\ is_u64 cpusetsize /\ is_u64 user_mask
  | Sys_sched_setaffinity pid cpusetsize user_mask_ptr => is_i32 pid /\ is_u64 cpusetsize /\ is_u64 user_mask_ptr
  | Sys_madvise addr len advice => is_u64 addr /\ is_u64 len /\ is_u32 advice
  | Sys_set_mempolicy mode nodemask_ptr maxnode => is_u64 mode /\ is_u64 nodemask_ptr /\ is_u64 maxnode
  | Sys_get_mempolicy mode_ptr nodemask_ptr maxnode addr flags => is_u64 mode_ptr /\ is_u64 nodemask_ptr /\ is_u64 maxnode /\ is_u64 addr /\ is_i32 flags
  | Sys_sched_setscheduler pid policy param_ptr => is_i32 pid /\ is_i32 policy /\ is_u64 param_ptr
  | Sys_sched_getscheduler pid => is_i32 pid
  | Sys_sched_getparam pid param_ptr => is_i32 pid /\ is_u64 param_ptr
  | Sys_sched_setparam pid param_ptr => is_i32 pid /\ is_u64 param_ptr
  | Sys_clock_getres clockid res_ptr => is_u32 clockid /\ is_u64 res_ptr
  | Sys_ftruncate fd length => is_i32 fd /\ is_u64 length
  | Sys_truncate path_ptr length => is_u64 path_ptr /\ is_u64 length
  | Sys_mlock addr len => is_u64 addr /\ is_u64 len
  | Sys_munlock addr len => is_u64 addr /\ is_u64 len
  | Sys_mlockall flags => is_u32 flags
  | Sys_munlockall => True
  | Sys_getrusage who usage_ptr => is_i32 who /\ is_u64 usage_ptr
  | Sys_pselect6 nfds readfds_ptr writefds_ptr exceptfds_ptr timeout_ptr sigmask_ptr => is_i32 nfds /\ is_u64 readfds_ptr /\ is_u64 writefds_ptr /\ is_u64 exceptfds_ptr /\ is_u64 timeout_ptr /\ is_u64 sigmask_ptr
  | Sys_sync => True
  | Sys_fsync fd => is_u64 fd
  | Sys_shmget key size shmflg => is_i32 key /\ is_u64 size /\ is_u64 shmflg
  | Sys_shmat shmid shmaddr shmflg => is_i32 shmid /\ is_u64 shmaddr /\ is_u64 shmflg
  | Sys_shmctl shmid cmd buf => is_i32 shmid /\ is_u64 cmd /\ is_u64 buf
  | Sys_shmdt shmaddr => is_u64 shmaddr
  | Sys_getitimer which value_ptr => is_i32 which /\ is_u64 value_ptr
  | Sys_setitimer which new_value_ptr old_value_ptr => is_i32 which /\ is_u64 new_value_ptr /\ is_u64 old_value_ptr
  | Sys_umaske => True
  | Sys_statx dirfd path_ptr flags mask statxbuf_ptr => is_i32 dirfd /\ is_u64 path_ptr /\ is_u32 flags /\ is_u32 mask /\ is_u64 statxbuf_ptr
  | Sys_const r => r = Ok 0 \/ r = Err ENOSYS
  end.

(** The number and the arguments in order. *)
Definition encode (c : call) : Z * list Z :=
  match c with
  | Sys_openat dirfd path_ptr flags_u32 mode => (SYSCALL_OPEN, [dirfd; path_ptr; flags_u32; mode])
  | Sys_close fd => (SYSCALL_CLOSE, [fd])
  | Sys_clock_nanosleep clock_id flags req rem => (SYSCALL_CLOCK_NANOSLEEP, [clock_id; flags; req; rem])
  | Sys_fstat fd st => (SYSCALL_FSTAT, [fd; st])
  | Sys_exit exit_code => (SYSCALL_EXIT, [exit_code])
  | Sys_time tms => (SYSCALL_TIMES, [tms])
  | Sys_getuid => (SYSCALL_GETUID, [])
  | Sys_settidaddress tid_ptr => (SYSCALL_SETTIDADDRESS, [tid_ptr])
  | Sys_exitgroup exit_code => (SYSCALL_EXITGROUP, [exit_code])
  | Sys_wait4 pid wstatus options => (SYSCALL_WAITPID, [pid; wstatus; options])
  | Sys_gettimeofday ts tz => (SYSCALL_GETTIMEOFDAY, [ts; tz])
  | Sys_task_info ti => (SYSCALL_TASK_INFO, [ti])
  | Sys_brk new_brk => (SYSCALL_BRK, [new_brk])
  | Sys_sigprocmask how set_user_ptr oldset_user_ptr => (SYSCALL_SIGPROCMASK, [how; set_user_ptr; oldset_user_ptr])
  | Sys_sigaction signum_usize act_user_ptr oldact_user_ptr => (SYSCALL_RT_SIGACTION, [signum_usize; act_user_ptr; oldact_user_ptr])
  | Sys_getppid => (SYSCALL_GETPPID, [])
  | Sys_clone flags user_stack ptid tls ctid => (SYSCALL_CLONE, [flags; user_stack; ptid; tls; ctid])
  | Sys_execve path argv envp => (SYSCALL_EXEC, [path; argv; envp])
  | Sys_fstatat dirfd path_ptr kst flags => (SYSCALL_FSTATAT, [dirfd; path_ptr; kst; flags])
  | Sys_getpid => (SYSCALL_GETPID, [])
  | Sys_mmap addr len prot flags fd off => (SYSCALL_MMAP, [addr; len; prot; flags; fd; off])
  | Sys_rt_sigtimedwait sig info timeout => (SYSCALL_SIGTIMEDWAIT, [sig; info; timeout])
  | Sys_munmap start len => (SYSCALL_MUNMAP, [start; len])
  | Sys_uname buf => (SYSCALL_UNAME, [buf])
  | Sys_ioctl fd cmd arg => (SYSCALL_IOCTL, [fd; cmd; arg])
  | Sys_fcntl fd cmd arg => (SYSCALL_FCNTL, [fd; cmd; arg])
  | Sys_read fd buf len => (SYSCALL_READ, [fd; buf; len])
  | Sys_write fd buf len => (SYSCALL_WRITE, [fd; buf; len])
  | Sys_sigreturn => (SYSCALL_SIGNALRET, [])
  | Sys_kill target_pid signum_usize => (SYSCALL_KILL, [target_pid; signum_usize])
  | Sys_tgkill target_pid target_tid signum_usize => (SYSCALL_TGKILL, [target_pid; target_tid; signum_usize])
  | Sys_tkill target_tid signum_usize => (SYSCALL_TKILL, [target_tid; signum_usize])
  | Sys_writev fd iov_user_ptr iovcnt => (SYSCALL_WRITEV, [fd; iov_user_ptr; iovcnt])
  | Sys_readv fd iov_user_ptr iovcnt => (SYSCALL_READV, [fd; iov_user_ptr; iovcnt])
  | Sys_pread64 fd user_buf_ptr count offset => (SYSCALL_PREAD64, [fd; user_buf_ptr; count; offset])
  | Sys_lseek fd offset whence => (SYSCALL_LSEEK, [fd; offset; whence])
  | Sys_pwrite64 fd user_buf_ptr count offset => (SYSCALL_PWRITE64, [fd; user_buf_ptr; count; offset])
  | Sys_renameat olddirfd oldpath newdirfd newpath => (SYSCALL_RENAMEAT, [olddirfd; oldpath; newdirfd; newpath])
  | Sys_renameat2 olddirfd oldpath newdirfd newpath flags => (SYSCALL_RENAMEAT2, [olddirfd; oldpath; newdirfd; newpath; flags])
  | Sys_getrandom buf_ptr len flags => (SYSCALL_GETRANDOM, [buf_ptr; len; flags])
  | Sys_geteuid => (SYSCALL_GETEUID, [])
  | Sys_getcwd buf_user_ptr size => (SYSCALL_GETCWD, [buf_user_ptr; size])
  | Sys_ppoll fds_user_ptr nfds tmo_user_ptr sigmask_user_ptr => (SYSCALL_PPOLL, [fds_user_ptr; nfds; tmo_user_ptr; sigmask_user_ptr])
  | Sys_chdir path => (SYSCALL_CHDIR, [path])
  | Sys_getdents64 fd buf len => (SYSCALL_GETDENTS64, [fd; buf; len])
  | Sys_clock_gettime clock_id tp => (SYSCALL_CLOCK_GETTIME, [clock_id; tp])
  | Sys_gettid => (SYSCALL_GETTID, [])
  | Sys_faccessat dirfd path_user_ptr mode_u32 flags => (SYSCALL_FACCESSAT, [dirfd; path_user_ptr; mode_u32; flags])
  | Sys_get_robust_list pid head_ptr len_ptr => (SYSCALL_GETROBUSTLIST, [pid; head_ptr; len_ptr])
  | Sys_set_robust_list head len => (SYSCALL_SETROBUSTLIST, [head; len])
  | Sys_mkdirat dirfd path mode => (SYSCALL_MKDIRAT, [dirfd; path; mode])
  | Sys_dup oldfd => (SYSCALL_DUP2, [oldfd])
  | Sys_dup3 oldfd newfd flags_u32 => (SYSCALL_DUP3, [oldfd; newfd; flags_u32])
  | Sys_mount special_user_ptr dir_user_ptr fstype_user_ptr flags data_user_ptr => (SYSCALL_MOUNT, [special_user_ptr; dir_user_ptr; fstype_user_ptr; flags; data_user_ptr])
  | Sys_umount2 target_user_ptr flags => (SYSCALL_UMOUNT2, [target_user_ptr; flags])
  | Sys_unlinkat dirfd path flags => (SYSCALL_UNLINKAT, [dirfd; path; flags])
  | Sys_prlimit pid resource new_limit old_limit => (SYSCALL_PRLIMIT64, [pid; resource; new_limit; old_limit])
  | Sys_symlinkat target_user_ptr newdirfd linkpath_user_ptr => (SYSCALL_SYMLINKAT, [target_user_ptr; newdirfd; linkpath_user_ptr])
  | Sys_readlinkat dirfd path_user_ptr buf_user_ptr bufsize => (SYSCALL_READLINKAT, [dirfd; path_user_ptr; buf_user_ptr; bufsize])
  | Sys_mprotect start size flags => (SYSCALL_MPROTECT, [start; size; flags])
  | Sys_pipe2 pipefd_user_ptr flags_u32 => (SYSCALL_PIPE2, [pipefd_user_ptr; flags_u32])
  | Sys_sendfile out_fd in_fd offset_user_ptr count => (SYSCALL_SENDFILE, [out_fd; in_fd; offset_user_ptr; count])
  | Sys_statfs path statfs => (SYSCALL_STATFS, [path; statfs])
  | Sys_syslog logtype bufp len => (SYSCALL_LOG, [logtype; bufp; len])
  | Sys_sysinfo info => (SYSCALL_INFO, [info])
  | Sys_utimensat dirfd path times flags => (SYSCALL_UTIMENSAT, [dirfd; path; times; flags])
  | Sys_nanosleep req rem => (SYSCALL_NANOSLEEP, [req; rem])
  | Sys_futex uaddr_user_ptr futex_op_full val_or_count val2_timeout_ptr_or_num_requeue uaddr2_user_ptr bitmask_or_val3 => (SYSCALL_FUTEX, [uaddr_user_ptr; futex_op_full; val_or_count; val2_timeout_ptr_or_num_requeue; uaddr2_user_ptr; bitmask_or_val3])
  | Sys_socket domain stype protocol => (SYSCALL_SOCKET, [domain; stype; protocol])
  | Sys_socketpair domain stype protocol sv => (SYSCALL_SOCKETPAIR, [domain; stype; protocol; sv])
  | Sys_bind sockfd addr addrlen => (SYSCALL_BIND, [sockfd; addr; addrlen])
  | Sys_listen sockfd backlog => (SYSCALL_LISTEN, [sockfd; backlog])
  | Sys_accept sockfd addr addrlen => (SYSCALL_ACCEPT, [sockfd; addr; addrlen])
  | Sys_connect sockfd addr addrlen => (SYSCALL_CONNECT, [sockfd; addr; addrlen])
  | Sys_getsockname sockfd addr addrlen => (SYSCALL_GETSOCKNAME, [sockfd; addr; addrlen])
  | Sys_getpeername sockfd addr addrlen => (SYSCALL_GETPEERNAME, [sockfd; addr; addrlen])
  | Sys_sendto sockfd buf len flags dest_addr addrlen => (SYSCALL_SENDTO, [sockfd; buf; len; flags; dest_addr; addrlen])
  | Sys_recvfrom sockfd buf len flags src_addr addrlen => (SYSCALL_RECVFROM, [sockfd; buf; len; flags; src_addr; addrlen])
  | Sys_setsockopt sockfd level optname optcal optlen => (SYSCALL_SETSOCKOPT, [sockfd; level; optname; optcal; optlen])
  | Sys_sendmsg sockfd addr flags => (SYSCALL_SENDMSG, [sockfd; addr; flags])
  | Sys_accept4 sockfd addr addrlen flags => (SYSCALL_ACCEPT4, [sockfd; addr; addrlen; flags])
  | Sys_mremap old_address old_size new_size flags new_address => (SYSCALL_MREMAP, [old_address; old_size; new_size; flags; new_address])
  | Sys_setsid => (SYSCALL_SETSID, [])
  | Sys_sched_yield => (SYSCALL_SCHED_YIELD, [])
  | Sys_setuid uid => (SYSCALL_SETUID, [uid])
  | Sys_getgid => (SYSCALL_GETGID, [])
  | Sys_getegid => (SYSCALL_GETEGID, [])
  | Sys_membarrier => (SYSCALL_MEMBARRIER, [])
  | Sys_sched_getaffinity pid cpusetsize user_mask => (SYSCALL_SCHED_GETAFFINITY, [pid; cpusetsize; user_mask])
  | Sys_sched_setaffinity pid cpusetsize user_mask_ptr => (SYSCALL_SCHED_SETAFFINITY, [pid; cpusetsize; user_mask_ptr])
  | Sys_madvise addr len advice => (SYSCALL_MADVISE, [addr; len; advice])
  | Sys_set_mempolicy mode nodemask_ptr maxnode => (SYSCALL_SET_MEMPOLICY, [mode; nodemask_ptr; maxnode])
  | Sys_get_mempolicy mode_ptr nodemask_ptr maxnode addr flags => (SYSCALL_GET_MEMPOLICY, [mode_ptr; nodemask_ptr; maxnode; addr; flags])
  | Sys_sched_setscheduler pid policy param_ptr => (SYSCALL_SCHED_SETSCHEDULER, [pid; policy; param_ptr])
  | Sys_sched_getscheduler pid => (SYSCALL_SCHED_GETSCHEDULER, [pid])
  | Sys_sched_getparam pid param_ptr => (SYSCALL_SCHED_GETPARAM, [pid; param_ptr])
  | Sys_sched_setparam pid param_ptr => (SYSCALL_SCHED_SETPARAM, [pid; param_ptr])
  | Sys_clock_getres clockid res_ptr => (SYSCALL_CLOCK_GETRES, [clockid; res_ptr])
  | Sys_ftruncate fd length => (SYSCALL_FTRUNCATE, [fd; length])
  | Sys_truncate path_ptr length => (SYSCALL_TRUNCATE, [path_ptr; length])
  | Sys_mlock addr len => (SYSCALL_MLOCK, [addr; len])
  | Sys_munlock addr len => (SYSCALL_MUNLOCK, [addr; len])
  | Sys_mlockall flags => (SYSCALL_MLOCKALL, [flags])
  | Sys_munlockall => (SYSCALL_MUNLOCKALL, [])
  | Sys_getrusage who usage_ptr => (SYSCALL_GETRUSAGE, [who; usage_ptr])
  | Sys_pselect6 nfds readfds_ptr writefds_ptr exceptfds_ptr timeout_ptr sigmask_ptr => (SYSCALL_PSELECT6, [nfds; readfds_ptr; writefds_ptr; exceptfds_ptr; timeout_ptr; sigmask_ptr])
  | Sys_sync => (SYSCALL_SYNC, [])
  | Sys_fsync fd => (SYSCALL_FSYNC, [fd])
  | Sys_shmget key size shmflg => (SYSCALL_SHMGET, [key; size; shmflg])
  | Sys_shmat shmid shmaddr shmflg => (SYSCALL_SHMAT, [shmid; shmaddr; shmflg])
  | Sys_shmctl shmid cmd buf => (SYSCALL_SHMCTL, [shmid; cmd; buf])
  | Sys_shmdt shmaddr => (SYSCALL_SHMDT, [shmaddr])
  | Sys_getitimer which value_ptr => (SYSCALL_GETITIMER, [which; value_ptr])
  | Sys_setitimer which new_value_ptr old_value_ptr => (SYSCALL_SETITIMER, [which; new_value_ptr; old_value_ptr])
  | Sys_umaske => (SYSCALL_UMASK, [])
  | Sys_statx dirfd path_ptr flags mask statxbuf_ptr => (SYSCALL_STATX, [dirfd; path_ptr; flags; mask; statxbuf_ptr])
  | Sys_const (Ok _) => (SYSCALL_SETPGID, [])
  | Sys_const (Err _) => (SYSCALL_CLOCK_SETTIME, [])
  end.

Definition is_symlinkat (c : call) : bool := match c with Sys_symlinkat _ _ _ => true | _ => false end.

(** The registers of a thread that makes the call. *)
Definition abi_regs (tc : TrapContext) (c : call) : Prop :=
  reg R_a7 tc = fst (encode c) /\
  forall i v, snd (encode c) !! i = Some v -> syscall_args tc !! i = Some (wrap64 v).

Create HintDb sysno.
#[export] Hint Unfold SYSCALL_OPEN SYSCALL_CLOSE SYSCALL_CLOCK_NANOSLEEP SYSCALL_FSTAT
  SYSCALL_EXIT SYSCALL_TIMES SYSCALL_GETUID SYSCALL_SETTIDADDRESS SYSCALL_EXITGROUP
  SYSCALL_WAITPID SYSCALL_GETTIMEOFDAY SYSCALL_TASK_INFO SYSCALL_BRK SYSCALL_SIGPROCMASK
  SYSCALL_RT_SIGACTION SYSCALL_GETPPID SYSCALL_CLONE SYSCALL_EXEC SYSCALL_FSTATAT
  SYSCALL_GETPID SYSCALL_MMAP SYSCALL_SIGTIMEDWAIT SYSCALL_MUNMAP SYSCALL_UNAME SYSCALL_IOCTL
  SYSCALL_FCNTL SYSCALL_READ SYSCALL_WRITE SYSCALL_SIGNALRET SYSCALL_KILL SYSCALL_TGKILL
  SYSCALL_TKILL SYSCALL_WRITEV SYSCALL_READV SYSCALL_PREAD64 SYSCALL_LSEEK SYSCALL_PWRITE64
  SYSCALL_RENAMEAT SYSCALL_RENAMEAT2 SYSCALL_GETRANDOM SYSCALL_GETEUID SYSCALL_GETCWD
  SYSCALL_PPOLL SYSCALL_CHDIR SYSCALL_GETDENTS64 SYSCALL_SETPGID SYSCALL_GETPGID
  SYSCALL_CLOCK_GETTIME SYSCALL_GETTID SYSCALL_FACCESSAT SYSCALL_GETROBUSTLIST
  SYSCALL_SETROBUSTLIST SYSCALL_MKDIRAT SYSCALL_DUP2 SYSCALL_DUP3 SYSCALL_MOUNT SYSCALL_UMOUNT2
  SYSCALL_UNLINKAT SYSCALL_PRLIMIT64 SYSCALL_CLOCK_SETTIME SYSCALL_SYMLINKAT SYSCALL_READLINKAT
  SYSCALL_MPROTECT SYSCALL_PIPE2 SYSCALL_SENDFILE SYSCALL_STATFS SYSCALL_LOG SYSCALL_INFO
  SYSCALL_UTIMENSAT SYSCALL_NANOSLEEP SYSCALL_FUTEX SYSCALL_SOCKET SYSCALL_SOCKETPAIR
  SYSCALL_BIND SYSCALL_LISTEN SYSCALL_ACCEPT SYSCALL_CONNECT SYSCALL_GETSOCKNAME
  SYSCALL_GETPEERNAME SYSCALL_SENDTO SYSCALL_RECVFROM SYSCALL_SETSOCKOPT SYSCALL_SENDMSG
  SYSCALL_ACCEPT4 SYSCALL_MREMAP SYSCALL_SETSID SYSCALL_SCHED_YIELD SYSCALL_SETUID
  SYSCALL_GETGID SYSCALL_GETEGID SYSCALL_MEMBARRIER SYSCALL_SCHED_GETAFFINITY
  SYSCALL_SCHED_SETAFFINITY SYSCALL_MADVISE SYSCALL_SET_MEMPOLICY SYSCALL_GET_MEMPOLICY
  SYSCALL_SCHED_SETSCHEDULER SYSCALL_SCHED_GETSCHEDULER SYSCALL_SCHED_GETPARAM
  SYSCALL_SCHED_SETPARAM SYSCALL_CLOCK_GETRES SYSCALL_FTRUNCATE SYSCALL_TRUNCATE SYSCALL_MLOCK
  SYSCALL_MUNLOCK SYSCALL_MLOCKALL SYSCALL_MUNLOCKALL SYSCALL_GETRUSAGE SYSCALL_PSELECT6
  SYSCALL_SYNC SYSCALL_FSYNC SYSCALL_SHMGET SYSCALL_SHMAT SYSCALL_SHMCTL SYSCALL_SHMDT
  SYSCALL_GETITIMER SYSCALL_SETITIMER SYSCALL_UMASK SYSCALL_STATX : sysno.

Lemma as_i32_wrap z : is_i32 z -> as_i32 (wrap64 z) = z.
Proof. unfold is_i32, as_i32, wrap64. lia. Qed.
Lemma as_u32_wrap z : is_u32 z -> as_u32 (wrap64 z) = z.
Proof. unfold is_u32, as_u32, wrap64. lia. Qed.
Lemma wrap_isize_wrap z : is_isize z -> wrap_isize (wrap64 z) = z.
Proof. unfold is_isize, wrap_isize, wrap64, isize_min, isize_max. lia. Qed.
Lemma wrap64_u64 z : is_u64 z -> wrap64 z = z.
Proof. unfold is_u64, wrap64, u64_bound. lia. Qed.

Lemma arg_reg tc (l : list Z) i v : (forall i v, l !! i = Some v -> syscall_args tc !! i = Some (wrap64 v)) ->
  l !! i = Some v -> arg (syscall_args tc) i = wrap64 v.
Proof. intros H Hi. unfold arg. by rewrite (H i v Hi). Qed.

(** The arms of [decode] on a known number, and the casts of its arguments. *)
Ltac decode_call Ha :=
  unfold decode; autounfold with sysno; cbn [Z.eqb Pos.eqb];
  repeat match goal with
  | |- context [arg (syscall_args ?tc) ?i] => erewrite (arg_reg tc _ i _ Ha) by reflexivity
  end;
  rewrite ?as_i32_wrap, ?as_u32_wrap, ?wrap_isize_wrap, ?wrap64_u64 by tauto; reflexivity.

Lemma decode_encode c tc : call_ok c -> is_symlinkat c = false -> abi_regs tc c ->
  decode (reg R_a7 tc) (syscall_args tc) = Some c.
Proof.
  intros Hok Hs [Hn Ha]. rewrite Hn. clear Hn.
  destruct c; try discriminate Hs; cbn [encode fst snd call_ok] in *; try solve [decode_call Ha].
  destruct Hok as [-> | ->]; decode_call Ha.
Qed.

(** ** The dispatcher *)

(** The handlers that do nothing (syscall/net.rs and others). *)
Definition stub (c : call) : option (result Z SysErrNo) :=
  match c with
  | Sys_bind _ _ _ | Sys_getsockname _ _ _ | Sys_setsockopt _ _ _ _ _ | Sys_listen _ _
  | Sys_connect _ _ _ | Sys_accept _ _ _ | Sys_accept4 _ _ _ _ | Sys_sendmsg _ _ _ => Some (Ok 0)
  | Sys_getpeername _ _ _ => Some (Err Default)
  | Sys_sendto _ _ _ _ _ _ => Some (Ok 1)
  | Sys_getuid => Some sys_getuid
  | Sys_getgid => Some sys_getgid
  | Sys_getegid => Some sys_getegid
  | Sys_setsid => Some sys_setsid
  | Sys_membarrier => Some sys_membarrier
  | Sys_sched_setaffinity _ _ _ => Some sys_sched_setaffinity
  | Sys_mlockall _ => Some sys_mlockall
  | Sys_munlockall => Some sys_munlockall
  | Sys_syslog _ _ _ | Sys_umaske | Sys_task_info _ => Some (Ok 0)
  | Sys_const r => Some r
  | _ => None
  end.

Section dispatch.
Variable file_read : Z -> UserBuffer -> inodes -> ST world (result Z SysErrNo * inodes).
Variable file_write : Z -> UserBuffer -> ST world (result Z SysErrNo).
Variable INITPROC : Z.
Variable file_writable : FileDescriptor -> result bool SysErrNo.
Variable file_size : FileDescriptor -> Z.
Variable ticks : Z.
Variable tms : Z -> TimeData.
Variable kernel_size : Z.
Variable pad1 pad2 : list Z.
(** The sockets that [sys_socket] and [sys_socketpair] would make. *)
Variable socket1 socket2 : Z.

(** A call on the descriptor table or the address space of the caller. *)
Definition fd_call (f : FdManage -> outcome (result Z SysErrNo * FdManage)) : ST kern (result Z SysErrNo) :=
  p ← current_process; on_fds p f.
Definition mm_call (f : MemorySet -> ST world (result Z SysErrNo * MemorySet)) : ST kern (result Z SysErrNo) :=
  pcb ← the_process;
  on_mm (p_memory_set pcb) (fun fs ms => '(x, ms') ← f ms; mret (x, ms', fs)).

(** The handlers that act on the calling process only and never wait. *)
Definition local (c : call) : option (ST kern (result Z SysErrNo)) :=
  match c with
  | Sys_dup oldfd => Some (fd_call (fun t => FdSys.sys_dup t oldfd))
  | Sys_fcntl fd cmd a => Some (fd_call (fun t => FdSys.sys_fcntl t fd cmd a))
  | Sys_socket _ stype _ => Some (sys_socket socket1 stype)
  | Sys_socketpair _ stype _ sv => Some (sys_socketpair file_read socket1 socket2 stype sv)
  | Sys_recvfrom _ buf _ _ _ _ => Some (sys_recvfrom file_read buf)
  | Sys_brk new_brk => Some (sys_brk new_brk)
  | Sys_mmap addr len prot flags fd off =>
      Some (pcb ← the_process;
            mm_call (fun ms => sys_mmap file_writable file_size (p_fd_table pcb) ms addr len prot flags fd off))
  | Sys_munmap start len => Some (mm_call (fun ms => sys_munmap ms start len))
  | Sys_mprotect start size flags =>
      Some (pcb ← the_process;
            on_mm (p_memory_set pcb) (fun fs ms => sys_mprotect fs ms start size flags))
  | Sys_mremap old_address old_size new_size flags _ =>
      Some (mm_call (fun ms => sys_mremap ms old_address old_size new_size flags))
  | Sys_madvise addr len advice => Some (mm_call (fun ms => sys_madvise ms addr len advice))
  | Sys_mlock addr len => Some (sys_mlock addr len)
  | Sys_munlock addr len => Some (sys_munlock addr len)
  | Sys_getpid => Some sys_getpid
  | Sys_getppid => Some sys_getppid
  | Sys_gettid => Some sys_gettid
  | Sys_settidaddress tid_ptr => Some (sys_settidaddress tid_ptr)
  | Sys_getcwd buf size => Some (sys_getcwd buf size)
  | Sys_get_robust_list pid head len => Some (sys_get_robust_list pid head len)
  | Sys_set_robust_list head len => Some (sys_set_robust_list head len)
  | Sys_prlimit pid resource new old => Some (sys_prlimit file_read pid resource new old)
  | Sys_get_mempolicy mode mask maxnode _ _ => Some (sys_get_mempolicy file_read mode mask maxnode)
  | Sys_set_mempolicy mode mask maxnode => Some (sys_set_mempolicy file_read mode mask maxnode)
  | Sys_getrusage who ptr => Some (sys_getrusage file_read tms who ptr)
  | Sys_time ptr => Some (sys_time file_read tms ptr)
  | Sys_sysinfo ptr => Some (sys_sysinfo file_read ticks kernel_size pad1 pad2 ptr)
  | Sys_uname ptr => Some (sys_uname file_read ptr)
  | Sys_getrandom ptr len _ => Some (sys_getrandom ticks ptr len)
  | Sys_gettimeofday ts _ => Some (sys_gettimeofday file_read ticks ts)
  | Sys_clock_gettime clock tp => Some (sys_clock_gettime file_read ticks clock tp)
  | Sys_clock_getres clock ptr => Some (sys_clock_getres file_read clock ptr)
  | Sys_getitimer which ptr => Some (sys_getitimer file_read which ptr)
  | Sys_sched_getaffinity _ size ptr => Some (sys_sched_getaffinity file_read size ptr)
  | Sys_sched_setscheduler pid policy ptr => Some (sys_sched_setscheduler pid policy ptr)
  | Sys_sched_getscheduler pid => Some (sys_sched_getscheduler pid)
  | Sys_sched_getparam pid ptr => Some (sys_sched_getparam file_read pid ptr)
  | Sys_sched_setparam pid ptr => Some (sys_sched_setparam pid ptr)
  | Sys_sigprocmask how set oldset => Some (sys_sigprocmask file_read how set oldset)
  | _ => match stub c with Some r => Some (mret r) | None => None end
  end.

(** The calls of the other components: they wait, or act on files or on other
    processes. *)
Variable other : call -> ST tstate (result Z SysErrNo).

(** The drop of a descriptor that left a table.  The files have states of their
    own: the last descriptor of a pipe or a socket closes its end and wakes
    those who wait for it ([Pipe.pipe_drop], [Socket.socket_drop]). *)
Variable drop_file : FileDescriptor -> ST tstate unit.

Definition close_call (f : FdManage -> outcome (releasing * FdManage)) : ST tstate (result Z SysErrNo) :=
  '(x, removed) ← on_k (p ← current_process; on_fds p f);
  _ ← match removed with Some fd => drop_file fd | None => mret tt end;
  mret x.

Definition handle (c : call) : ST tstate (result Z SysErrNo) :=
  match c with
  | Sys_close fd => close_call (fun t => FdSys.sys_close t fd)
  | Sys_dup3 oldfd newfd flags => close_call (fun t => FdSys.sys_dup3 t oldfd newfd flags)
  | Sys_setuid uid => sys_setuid uid
  | Sys_geteuid => sys_geteuid
  | Sys_setitimer which new old => sys_setitimer file_read ticks which new old
  | Sys_exitgroup code => on_k (sys_exitgroup file_read file_write INITPROC code)
  | Sys_kill pid sig => on_k (pcb ← the_process; on_gsys (sys_kill (p_pid pcb) pid sig))
  | Sys_tkill tid sig => on_k (on_gsys (sys_tkill tid sig))
  | Sys_tgkill pid tid sig => on_k (on_gsys (sys_tgkill pid tid sig))
  | _ => match local c with Some m => on_k m | None => other c end
  end.

(** An unknown number stops the kernel. *)
Definition syscall (syscall_id : Z) (args : list Z) : ST tstate (result Z SysErrNo) :=
  match decode syscall_id args with
  | Some c => handle c
  | None => st_panic
  end.

End dispatch.

(** ** The convention and the table agree *)

(** [symlinkat] gets its third argument twice. *)
Definition dispatched (c : call) : call :=
  match c with
  | Sys_symlinkat target newdirfd linkpath => Sys_symlinkat target (as_i32 linkpath) linkpath
  | _ => c
  end.

(** C14: the table of system calls implements the calling convention.  For every
    call with arguments of their types, when a thread traps with the number of
    the call in a7 and its arguments, extended to 64 bits, in a0 to a5, the
    dispatcher runs the handler of that call with exactly these arguments; the
    exception is [symlinkat], whose directory is the low half of the pointer to
    the new path instead of the second argument. *)
Theorem syscall_abi c tc : call_ok c -> abi_regs tc c ->
  decode (reg R_a7 tc) (syscall_args tc) = Some (dispatched c).
Proof.
  intros Hok Habi. destruct (is_symlinkat c) eqn:Hs.
  - destruct c; try discriminate Hs. destruct Habi as [Hn Ha]. rewrite Hn. cbn [encode fst snd call_ok dispatched] in *.
    unfold decode. autounfold with sysno. cbn [Z.eqb Pos.eqb].
    rewrite (arg_reg tc _ 0%nat _ Ha eq_refl), (arg_reg tc _ 2%nat _ Ha eq_refl), !wrap64_u64 by tauto. reflexivity.
  - rewrite (decode_encode c tc Hok Hs Habi). by destruct c.
Qed.

(** [openat(AT_FDCWD, 0x1000, 0, 0)] *)
Definition open_regs : TrapContext :=
  set_reg R_a7 56 (set_reg R_a1 0x1000 (set_reg R_a0 (2 ^ 64 - 100) trap0)).
Lemma syscall_abi_witness :
  decode (reg R_a7 open_regs) (syscall_args open_regs) = Some (Sys_openat (-100) 0x1000 0 0) /\
  call_ok (Sys_openat (-100) 0x1000 0 0).
Proof.
  assert (call_ok (Sys_openat (-100) 0x1000 0 0)) as H by (repeat split; vm_compute; congruence).
  split; [|exact H]. apply (syscall_abi (Sys_openat (-100) 0x1000 0 0) open_regs); [exact H|].
  split; [reflexivity|]. intros [|[|[|[|i]]]] v; cbn; [| | | |done].
  all: intros [= <-]; vm_compute; reflexivity.
Defined.
