(* ===== verification/CallsSpec.v ===== *)
(** * The information calls only touch their own process

    A call of Calls.v by the thread [r] of the process [p] may change the
    control block of [r], the control block of [p], the address space of [p]
    and the signal state of [r]; every other thread, process, address space
    and table of the kernel is as it was. *)

From S2P Require Import Prelude Config Address Memory FrameAlloc Pte.
From S2P Require Import PageTable BTree Errno Area UserMem MemorySet.
From S2P Require Import Shm Timer Sched Exec ExecInv Sleep.
From S2P Require Import Ids FdTable Futex Signals Kill Robust.
From S2P Require Import UserStack Process Clone Start Trap FdSys.
From S2P Require Import UserCopy MmapSys ProcTree TrapSpec Calls Dispatch.

Notation k_ex k := (ex (k_sys k)).
Notation k_heap k := (heap (rq (ex (k_sys k)))).

(** What a call of the thread [r] of [p], with the address space [mm], leaves
    alone. *)
Record isolated (r p mm : Z) (k k' : kern) : Prop := {
  io_current : current (k_ex k') = current (k_ex k);
  io_sched : sched (rq (k_ex k')) = sched (rq (k_ex k));
  io_arcs : arcs (k_ex k') = arcs (k_ex k);
  io_threads : forall x, x <> r -> k_heap k' !! x = k_heap k !! x;
  io_tids : tid2tc (k_sys k') = tid2tc (k_sys k);
  io_sleepers : sleepers (k_sys k') = sleepers (k_sys k);
  io_futexes : k_futexes k' = k_futexes k;
  io_shm : k_shm k' = k_shm k;
  io_mms : forall x, x <> mm -> k_mms k' !! x = k_mms k !! x;
  io_psig : k_psig k' = k_psig k;
  io_tsig : forall x, x <> r -> k_tsig k' !! x = k_tsig k !! x;
  io_trap : k_trap k' = k_trap k;
  io_procs : forall x, x <> p -> k_procs k' !! x = k_procs k !! x;
  io_pids : PID2PC k' = PID2PC k;
  io_alloc : PID_ALLOCATOR k' = PID_ALLOCATOR k;
  io_ids : ID_COUNTER k' = ID_COUNTER k
}.

#[export] Instance isolated_refl r p mm : Reflexive (isolated r p mm).
Proof. done. Qed.
#[export] Instance isolated_trans r p mm : Transitive (isolated r p mm).
Proof.
  intros k1 k2 k3 H1 H2. split; try (destruct H1, H2; congruence).
  - intros x Hx. by rewrite (io_threads _ _ _ _ _ H2 x Hx), (io_threads _ _ _ _ _ H1 x Hx).
  - intros x Hx. by rewrite (io_mms _ _ _ _ _ H2 x Hx), (io_mms _ _ _ _ _ H1 x Hx).
  - intros x Hx. by rewrite (io_tsig _ _ _ _ _ H2 x Hx), (io_tsig _ _ _ _ _ H1 x Hx).
  - intros x Hx. by rewrite (io_procs _ _ _ _ _ H2 x Hx), (io_procs _ _ _ _ _ H1 x Hx).
Qed.

Section isolated.
Variable r p mm : Z.

(** The thread [r] runs; it belongs to [p]. *)
Record here (k : kern) : Prop := {
  he_current : current (k_ex k) = r;
  he_task : exists t, k_heap k !! r = Some t /\ bt_get (process_id (inner t)) (PID2PC k) = Some p;
  he_proc : exists pcb, k_procs k !! p = Some pcb /\ p_memory_set pcb = mm
}.

(** The action stays there and gives a value with the property [Q]. *)
Definition stays {A} (Q : A -> Prop) (m : ST kern A) : Prop :=
  forall k a k', here k -> m k = Ret (a, k') -> here k' /\ isolated r p mm k k' /\ Q a.
Notation stay m := (stays (fun _ => True) m).

Lemma stays_weaken {A} (Q : A -> Prop) (m : ST kern A) : stays Q m -> stay m.
Proof. intros H k a k' Hk E. by destruct (H k a k' Hk E) as (? & ? & _). Qed.
Lemma stays_bind {A B} (Q : A -> Prop) (m : ST kern A) (f : A -> ST kern B) :
  stays Q m -> (forall a, Q a -> stay (f a)) -> stay (m ≫= f).
Proof.
  intros Hm Hf k b k' Hk (a & k1 & E1 & E2)%st_bind_Ret. destruct (Hm k a k1 Hk E1) as (H1 & I1 & Ha).
  destruct (Hf a Ha k1 b k' H1 E2) as (H2 & I2 & _). split; [done|]. split; [|done]. by etrans.
Qed.
Lemma stays_try {A B E} (m : ST kern (result A E)) (f : A -> ST kern (result B E)) :
  stay m -> (forall a, stay (f a)) -> stay (st_try f m).
Proof.
  intros Hm Hf. unfold st_try. apply (stays_bind (fun _ => True)); [done|].
  intros [a|e] _; [done|]. by intros k b k' Hk [= <- <-].
Qed.
Lemma stays_same {A} (m : ST kern A) : (forall k a k', m k = Ret (a, k') -> k' = k) -> stay m.
Proof. intros H k a k' Hk E. by rewrite (H k a k' E). Qed.
Lemma stays_ret {A} (a : A) : stay (mret a).
Proof. apply stays_same. by intros k b k' [= <- <-]. Qed.
Lemma stays_gets {A} (f : kern -> A) : stay (st_gets f).
Proof. apply stays_same. by intros k b k' [= <- <-]. Qed.
Lemma stays_lift {A} (o : outcome A) : stay (st_lift o).
Proof. apply stays_same. intros k b k'. unfold st_lift. destruct o; [by intros [= <- <-]|done]. Qed.
Lemma stays_panic {A} : stay (st_panic (A := A)).
Proof. by intros k b k' Hk [=]. Qed.

(** ** The parts that are read and written *)

Lemma on_kx_inv {A} (m : ST exec A) k a k' : on_kx m k = Ret (a, k') ->
  exists e, m (k_ex k) = Ret (a, e) /\ k' = k_set_sys (mkSys e (tid2tc (k_sys k)) (sleepers (k_sys k))) k.
Proof.
  unfold on_kx, on_ksys, on_ex. destruct (m (k_ex k)) as [[b e]|]; [|done]. intros [= <- <-]. by exists e.
Qed.
Lemma k_sys_eta k : k_set_sys (mkSys (k_ex k) (tid2tc (k_sys k)) (sleepers (k_sys k))) k = k.
Proof. by destruct k as [[] ? ? ? ? ? ? ? ? ? ? ? ?]. Qed.

Lemma stays_current : stays (fun a => a = r) (on_kx current_get).
Proof.
  intros k a k' Hk (e & (-> & -> & _)%current_get_inv & ->)%on_kx_inv. rewrite k_sys_eta.
  split; [done|]. split; [done|]. apply Hk.
Qed.
Lemma stays_task_of x : stay (task_of x).
Proof.
  unfold task_of. apply (stays_bind (fun _ => True)); [|intros; apply stays_ret].
  apply stays_same. intros k a k' (e & (_ & ->)%exec_task_inv & ->)%on_kx_inv. apply k_sys_eta.
Qed.
Lemma stays_process : stays (fun a => a = p) current_process.
Proof.
  intros k a k' Hk. unfold current_process.
  intros (x & k1 & (e & (-> & -> & _)%current_get_inv & ->)%on_kx_inv & H)%st_bind_Ret. rewrite k_sys_eta in H.
  rewrite (he_current k Hk) in H. apply st_bind_Ret in H as (t & k2 & Et & H).
  unfold task_of in Et. apply st_bind_Ret in Et as (t' & k3 & (e & (Ht & ->)%exec_task_inv & ->)%on_kx_inv & [= <- <-]).
  rewrite k_sys_eta in H. destruct (he_task k Hk) as (t0 & Ht0 & Hp). rewrite Ht in Ht0. injection Ht0 as ->.
  unfold get_process in H. st_unfold_in H. rewrite Hp in H. cbn in H. by injection H as <- <-.
Qed.
Lemma stays_proc_at : stays (fun a => p_memory_set a = mm) (proc_at p).
Proof.
  intros k a k' Hk. unfold proc_at. destruct (he_proc k Hk) as (pcb & -> & Hm). by intros [= <- <-].
Qed.

Lemma stays_tcb f : (forall t, process_id (f t) = process_id t) -> stay (on_kx (tcb_update r f)).
Proof.
  intros Hf k a k' [Hc (t & Ht & Hp) Hproc] (e & (t' & Ht' & ->)%tcb_update_inv & ->)%on_kx_inv.
  rewrite Ht in Ht'. injection Ht' as <-. split; [|split; [|done]].
  - split; cbn; [done| |done]. eexists. rewrite lookup_insert_eq. split; [done|]. cbn. by rewrite Hf.
  - split; try done. intros x Hx. cbn. by rewrite lookup_insert_ne.
Qed.
Lemma stays_update f : (forall q, p_memory_set (f q) = p_memory_set q) -> stay (proc_update p f).
Proof.
  intros Hf k a k' [Hc Ht (pcb & Hp & Hm)]. unfold proc_update, proc_at. st_unfold. rewrite Hp. intros [= <- <-].
  split; [|split; [|done]].
  - split; cbn; [done|done|]. exists (f pcb). rewrite lookup_insert_eq. split; [done|]. by rewrite Hf.
  - split; try done. intros x Hx. cbn. by rewrite lookup_insert_ne.
Qed.
Lemma stays_mm {A} (m : inodes -> MemorySet -> ST world (A * MemorySet * inodes)) : stay (on_mm mm m).
Proof.
  intros k a k' [Hc Ht Hp]. unfold on_mm. destruct (k_mms k !! mm) as [ms|]; [|done].
  destruct (m _ _ _) as [[[[b ms'] fs'] w']|]; [|done]. intros [= <- <-]. split; [done|]. split; [|done].
  split; try done. intros x Hx. cbn. by rewrite lookup_insert_ne.
Qed.
Lemma stays_kmem {A} (m : ST pmem A) : stay (on_kmem m).
Proof.
  intros k a k' [Hc Ht Hp]. unfold on_kmem, on_kf, on_fmem. cbn. destruct (m _) as [[b m']|]; [|done].
  intros [= <- <-]. by destruct k as [[] ? ? ? ? ? ? ? ? ? ? ? ?].
Qed.
Lemma stays_tsig t : stay (k_set_tsig r t).
Proof.
  intros k a k' [Hc Ht Hp] [= <- <-]. split; [done|]. split; [|done].
  split; try done. intros x Hx. cbn. by rewrite lookup_insert_ne.
Qed.

(** ** The calls *)

Lemma stays_the_process : stays (fun a => p_memory_set a = mm) the_process.
Proof.
  intros k a k' Hk (x & k1 & E1 & E2)%st_bind_Ret. destruct (stays_process k x k1 Hk E1) as (H1 & I1 & ->).
  destruct (stays_proc_at k1 a k' H1 E2) as (H2 & I2 & ?). split; [done|]. split; [|done]. by etrans.
Qed.
Lemma stays_bind_process {B} (f : ProcessControlBlock -> ST kern B) :
  (forall a, p_memory_set a = mm -> stay (f a)) -> stay (the_process ≫= f).
Proof. apply stays_bind, stays_the_process. Qed.
Lemma stays_bind_here {B} (f : Z -> ST kern B) : stay (f p) -> stay (current_process ≫= f).
Proof. intros H. apply (stays_bind (fun a => a = p)); [apply stays_process|]. by intros a ->. Qed.
Lemma stays_bind_at {B} (f : ProcessControlBlock -> ST kern B) :
  (forall a, p_memory_set a = mm -> stay (f a)) -> stay (proc_at p ≫= f).
Proof. apply stays_bind, stays_proc_at. Qed.
Lemma stays_bind_current {B} (f : Z -> ST kern B) : stay (f r) -> stay (on_kx current_get ≫= f).
Proof. intros H. apply (stays_bind (fun a => a = r)); [apply stays_current|]. by intros a ->. Qed.
Lemma stays_bind_any {A B} (m : ST kern A) (f : A -> ST kern B) :
  stay m -> (forall a, stay (f a)) -> stay (m ≫= f).
Proof. intros Hm Hf. by apply (stays_bind (fun _ => True)). Qed.
End isolated.

Create HintDb stays.
#[export] Hint Resolve stays_ret stays_gets stays_lift stays_panic stays_task_of stays_mm stays_kmem : stays.
#[export] Hint Resolve stays_tsig : stays.

(** One step of a handler: a primitive, a case or a bind. *)
Ltac stay_step :=
  match goal with
  | |- stays _ _ _ _ (_ ≫= _) => fail
  | |- _ => solve [auto with stays]
  | |- stays _ _ _ _ (on_kx (tcb_update _ _)) => apply stays_tcb; by intros []
  | |- stays _ _ _ _ (proc_update _ _) => apply stays_update; by intros []
  end.
Ltac stay :=
  repeat (cbn beta iota zeta; intros;
    first
    [ stay_step
    | match goal with
      | |- stays _ _ _ _ (if ?b then _ else _) => destruct b
      | |- stays _ _ _ _ (match ?x with _ => _ end) => destruct x
      | |- stays _ _ _ _ (st_try _ _) => apply stays_try
      end
    | apply stays_bind_process | apply stays_bind_here | apply stays_bind_at | apply stays_bind_current
    | apply stays_bind_any ]).

Lemma stays_child_tid r p mm ptr : stays r p mm (fun _ => True) (on_kx (tcb_update r (set_child_tid_ptr ptr))).
Proof. apply stays_tcb. intros t. unfold set_child_tid_ptr. by destruct (child_tid t). Qed.
#[export] Hint Resolve stays_child_tid : stays.

Section calls.
Variable r p mm : Z.
Notation stay m := (stays r p mm (fun _ => True) m).

Lemma stays_mm_of {A} pcb (m : inodes -> MemorySet -> ST world (A * MemorySet * inodes)) :
  p_memory_set pcb = mm -> stay (on_mm (p_memory_set pcb) m).
Proof. intros <-. apply stays_mm. Qed.
Lemma stays_token pcb : p_memory_set pcb = mm -> stay (mm_token (p_memory_set pcb)).
Proof. apply stays_mm_of. Qed.
Lemma stays_lazy_type file_read pcb ptr n : p_memory_set pcb = mm -> stay (lazy_type file_read pcb ptr n).
Proof. apply stays_mm_of. Qed.
Lemma stays_put_user token ptr bs : stay (put_user token ptr bs).
Proof. unfold put_user. stay. Qed.
Lemma stays_store_user token ptr bs : stay (store_user token ptr bs).
Proof. apply stays_kmem. Qed.
Lemma stays_load_user token ptr n : stay (load_user token ptr n).
Proof. unfold load_user. stay. Qed.
End calls.
#[export] Hint Resolve stays_mm_of stays_token stays_lazy_type stays_put_user stays_store_user stays_load_user : stays.

Create HintDb handlers.
#[export] Hint Unfold sys_socket sys_socketpair sys_recvfrom sys_brk sys_mlock sys_munlock sys_getpid sys_getppid
  sys_gettid sys_settidaddress sys_getcwd sys_get_robust_list sys_set_robust_list sys_prlimit sys_get_mempolicy
  sys_set_mempolicy sys_getrusage sys_time sys_sysinfo sys_uname sys_getrandom sys_gettimeofday sys_clock_gettime
  sys_clock_getres sys_getitimer sys_sched_getaffinity sys_sched_setscheduler sys_sched_getscheduler
  sys_sched_getparam sys_sched_setparam sys_sigprocmask : handlers.

Section handlers.
Variable file_read : Z -> UserBuffer -> inodes -> ST world (result Z SysErrNo * inodes).
Variable file_writable : FileDescriptor -> result bool SysErrNo.
Variable file_size : FileDescriptor -> Z.
Variable ticks : Z.
Variable tms : Z -> TimeData.
Variable kernel_size : Z.
Variable pad1 pad2 : list Z.
Variable socket1 socket2 : Z.
Variable r p mm : Z.
Notation stay m := (stays r p mm (fun _ => True) m).

Lemma stays_safe_put pcb ptr bs : p_memory_set pcb = mm -> stay (safe_put file_read pcb ptr bs).
Proof. intros. unfold safe_put. stay. Qed.
Hint Resolve stays_safe_put : stays.
Lemma stays_return_record ptr bs : stay (return_record file_read ptr bs).
Proof. unfold return_record. stay. Qed.
Lemma stays_put_record ptr bs : stay (put_record file_read ptr bs).
Proof. unfold put_record. stay. Qed.
Lemma stays_current_token : stay current_token.
Proof. unfold current_token. stay. Qed.
Lemma stays_the_task : stay the_task.
Proof. unfold the_task. stay. Qed.
Lemma stays_on_fds f : stay (on_fds (A := result Z SysErrNo) p f).
Proof. unfold on_fds. stay. Qed.
Lemma stays_fd_call f : stay (fd_call f).
Proof. unfold fd_call. apply stays_bind_here, stays_on_fds. Qed.
Lemma stays_mm_call f : stay (mm_call f).
Proof. unfold mm_call. stay. Qed.
Lemma stays_change_brk b : stay (change_program_brk p b).
Proof. unfold change_program_brk. stay. Qed.
Hint Resolve stays_return_record stays_put_record stays_current_token stays_the_task stays_on_fds
  stays_fd_call stays_mm_call stays_change_brk : stays.

Lemma local_stays c m :
  local file_read file_writable file_size ticks tms kernel_size pad1 pad2 socket1 socket2 c = Some m -> stay m.
Proof.
  destruct c; intros H; try discriminate H; injection H as <-.
  all: autounfold with handlers; stay.
Qed.
End handlers.

(** ** The tree of processes *)

Section tree.
Variable file_read : Z -> UserBuffer -> inodes -> ST world (result Z SysErrNo * inodes).
Variable file_writable : FileDescriptor -> result bool SysErrNo.
Variable file_size : FileDescriptor -> Z.
Variable ticks : Z.
Variable tms : Z -> TimeData.
Variable kernel_size : Z.
Variable pad1 pad2 : list Z.
Variable socket1 socket2 : Z.

Lemma keeps_kmem {A} (m : ST pmem A) : keeps (on_kmem m).
Proof. unfold on_kmem. keep. Qed.
Lemma keeps_stop {A} : keeps (st_panic (A := A)).
Proof. by intros k a k' [=]. Qed.
Hint Resolve keeps_kmem keeps_stop : keeps.
Lemma keeps_the_process : keeps the_process.
Proof. unfold the_process. keep. Qed.
Hint Resolve keeps_the_process : keeps.
Lemma keeps_the_task : keeps the_task.
Proof. unfold the_task. keep. Qed.
Lemma keeps_current_token : keeps current_token.
Proof. unfold current_token. keep. Qed.
Lemma keeps_lazy_type pcb ptr n : keeps (lazy_type file_read pcb ptr n).
Proof. unfold lazy_type. keep. Qed.
Lemma keeps_put_user token ptr bs : keeps (put_user token ptr bs).
Proof. unfold put_user. keep. Qed.
Lemma keeps_store_user token ptr bs : keeps (store_user token ptr bs).
Proof. unfold store_user. keep. Qed.
Lemma keeps_load_user token ptr n : keeps (load_user token ptr n).
Proof. unfold load_user. keep. Qed.
Lemma keeps_safe_put pcb ptr bs : keeps (safe_put file_read pcb ptr bs).
Proof. unfold safe_put. keep. Qed.
Hint Resolve keeps_the_task keeps_current_token keeps_lazy_type keeps_put_user keeps_store_user keeps_load_user
  keeps_safe_put : keeps.
Lemma keeps_return_record ptr bs : keeps (return_record file_read ptr bs).
Proof. unfold return_record. keep. Qed.
Lemma keeps_put_record ptr bs : keeps (put_record file_read ptr bs).
Proof. unfold put_record. keep. Qed.
Lemma keeps_on_fds {A} p f : keeps (on_fds (A := A) p f).
Proof. unfold on_fds. keep. Qed.
Lemma keeps_change_brk p b : keeps (change_program_brk p b).
Proof. unfold change_program_brk. keep. Qed.
Hint Resolve keeps_return_record keeps_put_record keeps_on_fds keeps_change_brk : keeps.

Lemma keeps_setitimer_timer which new old : keeps (setitimer_timer file_read which new old).
Proof. unfold setitimer_timer. keep. Qed.

Lemma local_keeps c m :
  local file_read file_writable file_size ticks tms kernel_size pad1 pad2 socket1 socket2 c = Some m -> keeps m.
Proof.
  destruct c; intros H; try discriminate H; injection H as <-.
  all: autounfold with handlers; unfold fd_call, mm_call; keep.
Qed.
End tree.

(** ** The dispatcher *)

Section dispatcher.
Variable file_read : Z -> UserBuffer -> inodes -> ST world (result Z SysErrNo * inodes).
Variable file_write : Z -> UserBuffer -> ST world (result Z SysErrNo).
Variable INITPROC : Z.
Variable strict : bool.
Variable file_writable : FileDescriptor -> result bool SysErrNo.
Variable file_size : FileDescriptor -> Z.
Variable ticks : Z.
Variable tms : Z -> TimeData.
Variable kernel_size : Z.
Variable pad1 pad2 : list Z.
Variable socket1 socket2 : Z.
Variable other : call -> ST tstate (result Z SysErrNo).
Variable drop_file : FileDescriptor -> ST tstate unit.
Notation local := (local file_read file_writable file_size ticks tms kernel_size pad1 pad2 socket1 socket2).
Notation syscall := (syscall file_read file_write INITPROC file_writable file_size ticks tms kernel_size pad1 pad2
  socket1 socket2 other drop_file).

Lemma handle_local c m : local c = Some m ->
  handle file_read file_write INITPROC file_writable file_size ticks tms kernel_size pad1 pad2 socket1 socket2 other drop_file c
  = on_k m.
Proof. destruct c; intros H; try discriminate H; injection H as <-; reflexivity. Qed.

(** C11: system calls about the caller do not touch anybody else.  When the
    running thread [r] of process [p] makes one of the calls of [local] (its
    memory, identity, limits, clocks and masks, and the calls that add to its
    descriptors; not [close] and [dup3], whose release of a pipe or a socket
    reaches the threads that wait for it), whatever its arguments and its
    result, all other threads, processes, address-space
    records and signal states are as before, as are the ready queue, the
    sleepers, the futex queues, the shared memory table, the trap contexts, the
    timers of the kernel and the identifiers; and [r] still runs in [p]. *)
Theorem local_calls_isolated r p mm c id args s res s' :
  decode id args = Some c -> is_Some (local c) -> here r p mm (t_k s) -> syscall id args s = Ret (res, s') ->
  here r p mm (t_k s') /\ isolated r p mm (t_k s) (t_k s') /\
  t_irqs s' = t_irqs s /\ t_timers s' = t_timers s /\ CUR_UID s' = CUR_UID s.
Proof.
  intros Hd [m Hm] Hs. unfold Dispatch.syscall. rewrite Hd, (handle_local c m Hm). unfold on_k.
  destruct (m (t_k s)) as [[a k']|] eqn:E; [|done]. intros [= <- <-].
  by destruct (local_stays _ _ _ _ _ _ _ _ _ _ r p mm c m Hm _ _ _ Hs E) as (H1 & H2 & _).
Qed.

Lemma setuid_safe uid : tsafe INITPROC strict (sys_setuid uid).
Proof.
  unfold sys_setuid. apply tsafe_bind; [apply tsafe_keeps, keeps_kx|]. intros r.
  apply tsafe_bind; [apply tsafe_keeps, keeps_kx|]. intros _.
  apply tsafe_bind; [by apply tsafe_modify|]. intros _. apply tsafe_ret.
Qed.
Lemma setitimer_safe which new old : tsafe INITPROC strict (sys_setitimer file_read ticks which new old).
Proof.
  unfold sys_setitimer. destruct (negb _); [apply tsafe_ret|]. unfold st_try.
  apply tsafe_bind; [apply tsafe_keeps, keeps_setitimer_timer|]. intros [t|e]; [|apply (tsafe_ret INITPROC strict (Err e))].
  destruct (which =? ITIMER_REAL); [|apply (tsafe_ret INITPROC strict (Ok 0))].
  apply tsafe_bind; [apply tsafe_keeps, keeps_the_process|]. intros pcb.
  apply tsafe_bind; [apply tsafe_gets|]. intros timers. apply tsafe_bind; [apply tsafe_lift|]. intros timers'.
  apply tsafe_bind; [by apply tsafe_modify|]. intros _. apply tsafe_ret.
Qed.

Lemma close_call_safe f : (forall fd, tsafe INITPROC strict (drop_file fd)) -> tsafe INITPROC strict (close_call drop_file f).
Proof.
  intros Hd. unfold close_call. apply tsafe_bind.
  { apply tsafe_keeps, keeps_bind; [apply keeps_current|]. intros p. apply keeps_on_fds. }
  intros [x [fd|]]; (apply tsafe_bind; [|intros _; apply tsafe_ret]); [done|apply tsafe_ret].
Qed.

Lemma syscall_safe : (forall c, tsafe INITPROC strict (other c)) ->
  (forall fd, tsafe INITPROC strict (drop_file fd)) -> forall id args, tsafe INITPROC strict (syscall id args).
Proof.
  intros Ho Hd id args. unfold Dispatch.syscall. destruct (decode id args) as [c|]; [|apply tsafe_panic].
  destruct (local c) as [m|] eqn:Hm.
  { rewrite (handle_local c m Hm). by apply tsafe_keeps, (local_keeps _ _ _ _ _ _ _ _ _ _ c m Hm). }
  assert (forall A (m : ST gsys A), keeps (on_gsys m)) as Hg by (intros; apply keeps_on_gsys).
  pose proof keeps_the_process as Hp.
  destruct c; try discriminate Hm; cbn [handle Dispatch.local stub]; auto.
  - by apply close_call_safe.
  - unfold sys_exitgroup. apply tsafe_on_k, safe_bind; [apply exit_proc_safe|]. intros _. apply keeps_safe, keeps_ret.
  - apply tsafe_keeps, keeps_bind; auto.
  - by apply tsafe_keeps.
  - by apply tsafe_keeps.
  - apply tsafe_bind; [apply tsafe_gets|]. intros. apply tsafe_ret.
  - by apply close_call_safe.
  - apply setuid_safe.
  - apply setitimer_safe.
Qed.
End dispatcher.

(** ** An example *)

Definition no_other (c : call) : ST tstate (result Z SysErrNo) := st_panic.
Definition no_drop (fd : FileDescriptor) : ST tstate unit := mret tt.
Definition boot : tstate := mkT kboot false [] 0.
Definition boot_syscall : Z -> list Z -> ST tstate (result Z SysErrNo) :=
  syscall no_read no_write 100 (fun _ => Ok true) (fun _ => 0) 0 idle_tms 0 [] [] 900 901 no_other no_drop.

Lemma boot_here : here 1 100 200 kboot.
Proof.
  split; [reflexivity| |].
  - eexists. split; [vm_compute; reflexivity|vm_compute; reflexivity].
  - eexists. split; [vm_compute; reflexivity|reflexivity].
Qed.

Lemma local_calls_isolated_witness : exists s', boot_syscall 99 [0x1000; 24; 0; 0; 0; 0] boot = Ret (Ok 0, s') /\
  here 1 100 200 (t_k s') /\ isolated 1 100 200 kboot (t_k s') /\
  ((fun t => robust_list (inner t)) <$> k_heap (t_k s') !! 1) = Some (mkRobust 0x1000 24).
Proof.
  destruct (boot_syscall 99 [0x1000; 24; 0; 0; 0; 0] boot) as [[a s']|] eqn:E; [|vm_compute in E; discriminate].
  destruct (local_calls_isolated no_read no_write 100 (fun _ => Ok true) (fun _ => 0) 0 idle_tms 0 [] [] 900 901
    no_other no_drop 1 100 200 (Sys_set_robust_list 0x1000 24) 99 [0x1000; 24; 0; 0; 0; 0] boot a s') as (H1 & H2 & _).
  - reflexivity.
  - by eexists.
  - exact boot_here.
  - exact E.
  - assert (a = Ok 0) as -> by (vm_compute in E; by injection E).
    exists s'. split; [reflexivity|]. split; [exact H1|]. split; [exact H2|].
    vm_compute in E. injection E as <-. vm_compute. reflexivity.
Defined.

(** ** The working directory *)

Lemma mm_token_run mm ms k : k_mms k !! mm = Some ms -> mm_token mm k = Ret (ms_token ms, k).
Proof.
  intros H. unfold mm_token, on_mm. rewrite H. cbn. rewrite insert_id by done. by destruct k.
Qed.

(** C34: [getcwd] gives the working directory.  For a buffer mapped writable the
    call fails with EINVAL for size 0 and with ERANGE if the path with its
    terminating zero does not fit, without any effect; otherwise it returns the
    number of bytes of the path with the zero, writes exactly these bytes at the
    start of the buffer, also across pages, and changes no other byte. *)
Theorem getcwd_result pcb ms fr buf size k : the_process k = Ret (pcb, k) ->
  k_mms k !! p_memory_set pcb = Some ms -> pt_wf (k_world k) (ms_token ms) -> 0 < buf -> 0 <= size ->
  let path := p_cwd pcb ++ [0] in
  user_range (k_world k) (ms_token ms) buf (buf + zlen path) fr -> buf + zlen path < 2 ^ 39 ->
  Forall (fun b => 0 <= b < 256) (p_cwd pcb) ->
  if size =? 0 then sys_getcwd buf size k = Ret (Err EINVAL, k)
  else if size <? zlen path then sys_getcwd buf size k = Ret (Err ERANGE, k)
  else exists m', sys_getcwd buf size k = Ret (Ok (zlen path), with_mem m' k) /\
    wrote (ms_token ms) buf (buf + zlen path) fr (w_mem (k_world k)) buf path m'.
Proof.
  intros Hp Hm Hpt Hb Hs path Hur Hhi Hcwd. unfold sys_getcwd.
  assert (zlen path = zlen (p_cwd pcb) + 1) as Hz by (unfold path; by rewrite zlen_app).
  destruct (Z.eqb_spec buf 0); [lia|]. cbn [andb]. destruct (Z.eqb_spec size 0); [done|].
  st_unfold. rewrite Hp, (mm_token_run _ _ _ Hm), <- Hz. destruct (Z.ltb_spec size (zlen path)); [done|].
  assert (Forall (fun b => 0 <= b < 256) path) as Hbytes.
  { apply Forall_app. split; [done|]. repeat constructor; lia. }
  destruct (copy_to_spec (k_world k) (ms_token ms) buf fr path Hpt Hur Hhi Hbytes) as (m' & E & W).
  exists m'. split; [|exact W]. fold path. unfold on_kmem, on_kf, on_fmem. cbn [f_mem].
  rewrite E. cbn [futexes f_sys]. by rewrite Z.eqb_refl.
Qed.

Definition cwd_kern (w : world) (root : Z) : kern :=
  mkKern (k_sys kboot) w [] ∅ ShmManager_new {[200 := mkMS (mkPT root []) []]} (k_psig kboot) (k_tsig kboot)
    (k_trap kboot) (k_procs kboot) (PID2PC kboot) (PID_ALLOCATOR kboot) 2.

Lemma getcwd_result_witness : exists w root m',
  sys_getcwd 0x5fff 2 (cwd_kern w root) = Ret (Ok 2, with_mem m' (cwd_kern w root)) /\
  sys_getcwd 0x5fff 1 (cwd_kern w root) = Ret (Err ERANGE, cwd_kern w root).
Proof.
  destruct two_pages as (w & root & fr & Hpt & Hur).
  apply (user_range_sub _ _ _ _ 0x5fff 0x6001) in Hur; [|lia|lia].
  pose proof (getcwd_result init_pcb (mkMS (mkPT root []) []) fr 0x5fff 2 (cwd_kern w root)) as H2.
  pose proof (getcwd_result init_pcb (mkMS (mkPT root []) []) fr 0x5fff 1 (cwd_kern w root)) as H1.
  assert (Forall (fun b => 0 <= b < 256) (p_cwd init_pcb)) as Hb by (repeat constructor; lia).
  destruct H2 as (m' & E & _); [reflexivity|reflexivity|exact Hpt|lia|lia|exact Hur|reflexivity|exact Hb|].
  exists w, root, m'. split; [exact E|].
  apply H1; [reflexivity|reflexivity|exact Hpt|lia|lia|exact Hur|reflexivity|exact Hb].
Defined.
