(* ===== verification/Execve.v ===== *)
(** * Executing a file (os/src/syscall/process.rs, [sys_execve])

    The system call reads its argument vectors and the path from the memory of
    the caller, resolves the path, opens the file and reads it, and starts the
    program (Start.v).  It works on the kernel and the files together:
    [on_proc] runs a call of PathSys.v on the process [self], with the memory,
    the descriptors and the directory that the kernel has for it.

    The loops over the vectors and over the file are cut after [args_fuel] and
    [read_fuel] turns, and the result is then [None].  [parse] is the parser
    of the crate xmas_elf. *)

From Stdlib Require Import Strings.String Strings.Ascii.
From S2P Require Import Prelude Config Memory FrameAlloc Pte PageTable.
From S2P Require Import BTree Errno Area UserMem UserCopy MemorySet.
From S2P Require Import Sched Exec ExecInv Sleep FdTable Futex.
From S2P Require Import Signals Robust UserStack Process Clone ProcTree.
From S2P Require Import Start Trap Path Mount Stat FdSys.
From S2P Require Import FileIO FileCache Ext4Ops Dev Open PathSys.
From S2P Require Import Calls.

(** ** The kernel and its files *)

Record xsys (D : Type) : Type := mkX {
  x_k : kern;
  x_vfs : vfs D;
  x_mounts : MountTable
}.
Arguments mkX {D}.
Arguments x_k {D}.
Arguments x_vfs {D}.
Arguments x_mounts {D}.

(** The state of a call of PathSys.v, back in the control block. *)
Definition pcb_set_files {D} (q : pstate D) p : ProcessControlBlock :=
  mkPCB (p_timers p) (p_pid p) (p_main p) (p_tasks p) (p_children p) (p_memory_set p)
    (p_user_stack_top p) (p_is_init p) (p_base_size p) (PathSys.p_cwd q) (PathSys.p_exe q) (p_parent p)
    (p_exit_code p) (p_heap_bottom p) (p_program_brk p) (p_fds q) (p_signal_shared p)
    (p_state p) (p_wakers p).

Definition on_xk {D A} (m : ST kern A) : ST (xsys D) A :=
  fun s => match m (x_k s) with
           | Ret (a, k) => Ret (a, mkX k (x_vfs s) (x_mounts s))
           | Panic => Panic
           end.
Definition on_proc {D A} (self : Z) (m : ST (pstate D) A) : ST (xsys D) A :=
  fun s =>
    match k_procs (x_k s) !! self with
    | None => Panic
    | Some pcb =>
        match m (mkP (x_vfs s) (w_mem (k_world (x_k s))) (p_fd_table pcb) (Process.p_cwd pcb)
                   (Process.p_exe pcb) (x_mounts s)) with
        | Panic => Panic
        | Ret (a, q) =>
            Ret (a, mkX (with_mem (p_mem q)
                           (k_set_procs (<[self := pcb_set_files q pcb]> (k_procs (x_k s))) (x_k s)))
                      (p_vfs q) (p_mounts q))
        end
    end.

(** A result that is missing when the fuel has run out. *)
Definition xres (A : Type) : Type := option (result A SysErrNo).
Definition x_try {S A B} (f : A -> ST S (xres B)) (m : ST S (xres A)) : ST S (xres B) :=
  r ← m;
  match r with
  | Some (Ok a) => f a
  | Some (Err e) => mret (Some (Err e))
  | None => mret None
  end.
Definition x_full {S A} (m : ST S (result A SysErrNo)) : ST S (xres A) := r ← m; mret (Some r).
Notation "x <-! m ; k" := (x_try (fun x => k) m)
  (at level 20, m at level 100, k at level 200, right associativity).

(** ** Arguments *)

Definition str_ends_with (suffix s : list Z) : bool :=
  (length suffix <=? length s)%nat && str_eqb (drop (length s - length suffix) s) suffix.

(** A script is run by the shell. *)
Definition SH_SUFFIX : list Z := bytes_of ".sh".
Definition BUSYBOX : list Z := bytes_of "/glibc/busybox".
Definition script_args (path : list Z) (argv : list (list Z)) : list (list Z) :=
  if str_ends_with SH_SUFFIX path then bytes_of "busybox " :: bytes_of "sh" :: argv else argv.
Definition script_path (path : list Z) : list Z :=
  if str_ends_with SH_SUFFIX path then BUSYBOX else path.

(** Two programs that are not run with certain arguments. *)
Definition ENTRY_DYNAMIC : list Z := bytes_of "/glibc/entry-dynamic.exe".
Definition ENTRY_STATIC : list Z := bytes_of "/glibc/entry-static.exe".
Definition refused (path : list Z) (argv : list (list Z)) : bool :=
  (str_eqb path ENTRY_DYNAMIC || str_eqb path ENTRY_STATIC)
  && match argv !! 1%nat with
     | Some a => str_eqb a (bytes_of "setvbuf_unget")
                 || (str_eqb a (bytes_of "sem_init") && str_eqb path ENTRY_DYNAMIC)
     | None => false
     end.

Definition add_env (v : list Z) (env : list (list Z)) : list (list Z) :=
  if existsb (str_eqb v) env then env else env ++ [v].
Definition ENV_PATH : list Z := bytes_of "PATH=/:/bin:".
Definition ENV_LD : list Z := bytes_of "LD_LIBRARY_PATH=/lib:/lib/glibc:/lib/musl:".
Definition ENV_ENOUGH : list Z := bytes_of "ENOUGH=100000".
Definition default_env (env : list (list Z)) : list (list Z) :=
  add_env ENV_ENOUGH (add_env ENV_LD (add_env ENV_PATH env)).

(** What [sys_execve] does when it has read its arguments. *)
Inductive plan : Type :=
| PlanExit
| PlanExec (argv env : list (list Z)) (abs_path elf_data : list Z).

Section execve.
Context {D : Type} `{!Lwext4 D}.
Variable file_read : Z -> UserBuffer -> inodes -> ST world (result Z SysErrNo * inodes).
Variable file_write : Z -> UserBuffer -> ST world (result Z SysErrNo).
Variable INITPROC : Z.
Variable e : start_env.
Variable time_ms : Z.
Variable str_bound args_fuel read_fuel : nat.
Variable parse : list Z -> option ElfFile.
Variable interp : ElfFile.
(** The contents of a fresh buffer of the kernel. *)
Variable heap_bytes : list Z -> Z -> list Z.

Definition read_str (token ptr : Z) : ST kern (list Z) :=
  m ← st_gets (fun k => w_mem (k_world k));
  cs ← st_lift (translated_str str_bound token m ptr);
  mret (utf8_of_chars cs).

(** The strings of a vector up to its null pointer; [null_ends]: a null vector
    is empty. *)
Fixpoint read_strs (fuel : nat) (token : Z) (null_ends : bool) (ptr : Z) : ST kern (xres (list (list Z))) :=
  match fuel with
  | O => mret None
  | S fuel' =>
      if null_ends && (ptr =? 0) then mret (Some (Ok []))
      else
        bs <-! x_full (load_user token ptr 8);
        let p := le_value bs in
        if p =? 0 then mret (Some (Ok []))
        else
          s ← read_str token p;
          l <-! read_strs fuel' token null_ends (wrap64 (ptr + 8));
          mret (Some (Ok (s :: l)))
  end.

(** The file that is executed. *)
Definition load_program (self : Z) (abs_path : list Z) : ST (xsys D) (xres (list Z)) :=
  f <-! x_full (on_proc self (on_vfs (open_file time_ms abs_path FileCache.O_RDONLY 0)));
  r <-! mret (Some (class_file (fd_file f)));
  o ← on_proc self (on_vfs (read_all heap_bytes read_fuel r []));
  mret (match o with Some data => Some (Ok data) | None => None end).

Definition execve_prepare (self path argv envp : Z) : ST (xsys D) (xres plan) :=
  pcb ← on_xk (proc_at self);
  token ← on_xk (mm_token (p_memory_set pcb));
  args <-! on_xk (read_strs args_fuel token false argv);
  path ← on_xk (read_str token path);
  let args := script_args path args in
  path <-! x_full (on_proc self (resolve_path_from_fd time_ms AT_FDCWD (script_path path) true));
  if refused path args then mret (Some (Ok PlanExit))
  else
    env <-! on_xk (read_strs args_fuel token true envp);
    let cwd := if negb (starts_with_slash path) then Process.p_cwd pcb else [SLASH] in
    let abs_path := get_abs_path cwd path in
    data <-! load_program self abs_path;
    mret (Some (Ok (PlanExec args (default_env env) abs_path data))).

(** [clear_child_tid] of all threads; its result is not used. *)
Definition clear_tids (self : Z) : ST kern unit :=
  pcb ← proc_at self;
  st_iter (fun r =>
    t ← task_of r;
    _ ← on_kf (clear_child_tid (child_tid t) (page_table_token t));
    mret tt) (p_tasks pcb).

Definition execve_run (self : Z) (pl : plan) : ST kern (result Z SysErrNo) :=
  match pl with
  | PlanExit => _ ← exit_proc file_read file_write INITPROC (-2); mret (Ok 0)
  | PlanExec argv env abs_path elf_data =>
      _ ← clear_tids self;
      _ ← proc_update self (set_exe abs_path);
      elf ← st_lift (unwrap (parse elf_data));
      _ <-? pcb_exec file_write e self elf interp argv env;
      mret (Ok 0)
  end.

Definition sys_execve (path argv envp : Z) : ST (xsys D) (xres Z) :=
  self ← on_xk current_process;
  pl <-! execve_prepare self path argv envp;
  x_full (on_xk (execve_run self pl)).

End execve.
