(* ===== verification/ExecveSpec.v ===== *)
(** * Executing a file: behaviour

    What [execve] reads from the memory of its caller are the strings that are
    there; with the stack that Start.v proves, a program is started with the
    arguments its caller passed.  Up to the point where the file has been read
    nothing of the kernel has changed, so an error leaves the caller as it
    was. *)

From Stdlib Require Import Strings.String Strings.Ascii.
From S2P Require Import Prelude Config Address Memory FrameAlloc.
From S2P Require Import Pte PageTable.
From S2P Require Import BTree Errno Area UserMem UserCopy MemorySet.
From S2P Require Import Sched Exec ExecInv Sleep FdTable Futex.
From S2P Require Import Signals Robust UserStack Process Clone ProcTree.
From S2P Require Import Start Trap Path Mount Stat FdSys.
From S2P Require Import FileIO FileCache Ext4Ops Dev Open PathSys.
From S2P Require Import FrameSpec AreaMap Auxv Ext4Spec OpenSpec PathSpec.
From S2P Require Import Calls CallsSpec Execve.

(** ** Strings in user memory *)

Section strings.
Variables (w : world) (root lo hi : Z) (fr : Z -> Z).
Hypothesis Hpt : pt_wf w root.
Hypothesis Hur : user_range w root lo hi fr.
Notation m := (w_mem w).
Notation rd := (ubyte fr m).

(** The zero-terminated string [s] is at [a]. *)
Definition str_at (a : Z) (s : list Z) : Prop :=
  lo <= a /\ a + zlen s < hi /\ Forall (fun b => 0 < b < 128) s /\ has rd a (s ++ [0]).

(** A vector of pointers to the strings [l] is at [a]. *)
Definition strs_at (a : Z) (l : list (list Z)) : Prop :=
  exists ps, lo <= a /\ a + 8 * (zlen ps + 1) <= hi /\ a mod 8 = 0 /\
    Forall (fun p => 0 < p < 2 ^ 64) ps /\ has rd a (words (ps ++ [0])) /\ Forall2 str_at ps l.

Lemma byte_read x : lo <= x < hi -> exists pa,
  translate_va (root_ppn (pt_from_token root)) m x = Ret (Some pa) /\ pa_deref pa = Ret pa /\ pa_read m pa = rd x.
Proof.
  intros Hx. destruct (translate_range w root lo hi fr Hpt Hur m x ltac:(done) Hx) as (E & _ & Ed).
  rewrite (token_root w root Hpt). eexists. split; [exact E|]. split; [exact Ed|].
  unfold pa_read, ubyte. f_equal; unfold PAGE_SIZE; lia.
Qed.

Lemma translated_str_at s : forall n a, str_at a s -> (length s < n)%nat ->
  translated_str n root m a = Ret s.
Proof.
  induction s as [|b s IH]; intros [|n] a (Ha & Hb & Hs & Hh) Hn; cbn [length] in Hn; try lia;
    cbn [translated_str]; unfold zlen in Hb; cbn [length] in Hb.
  - destruct (byte_read a) as (pa & -> & Ed & Er); [lia|]. cbn. rewrite Ed. cbn. rewrite Er.
    pose proof (Hh 0%nat 0 eq_refl) as E. rewrite Z.add_0_r in E. by rewrite E.
  - apply Forall_cons_1 in Hs as [Hb0 Hs].
    destruct (byte_read a) as (pa & -> & Ed & Er); [lia|]. cbn. rewrite Ed. cbn. rewrite Er.
    pose proof (Hh 0%nat b eq_refl) as E. rewrite Z.add_0_r in E. rewrite E.
    destruct (Z.eqb_spec b 0); [lia|]. destruct (ur_bounds _ _ _ _ _ Hur) as [Hl Hh'].
    rewrite uadd_Ret by (unfold u64_bound; lia). cbn. rewrite IH; [done| |lia].
    split; [lia|]. split; [unfold zlen; lia|]. split; [done|]. intros i c Hi.
    rewrite <- (Hh (S i) c Hi). f_equal. lia.
Qed.

Lemma utf8_ascii s : Forall (fun b => 0 < b < 128) s -> utf8_of_chars s = s.
Proof.
  induction 1 as [|b s Hb _ IH]; [done|]. unfold utf8_of_chars in *. cbn. rewrite IH.
  by destruct (Z.ltb_spec b 128); [|lia].
Qed.

Lemma read_str_at n k a s : k_world k = w -> str_at a s -> (length s < n)%nat ->
  read_str n root a k = Ret (s, k).
Proof.
  intros Hk Hs Hn. unfold read_str. st_unfold. rewrite Hk, (translated_str_at s n a Hs Hn).
  destruct Hs as (_ & _ & Hs & _). by rewrite utf8_ascii.
Qed.

Lemma load_word k a : k_world k = w -> lo <= a -> a + 8 <= hi -> a mod 8 = 0 ->
  exists bs, load_user root a 8 k = Ret (Ok bs, k) /\ le_value bs = rd_word rd a.
Proof.
  intros Hk Ha Hb H8. unfold load_user. st_unfold. rewrite Hk. unfold get_target_ref.
  destruct (translate_range w root lo hi fr Hpt Hur m a ltac:(done) ltac:(lia)) as (E & _ & Ed).
  rewrite (token_root w root Hpt), E. cbn. rewrite Ed. cbn. eexists. split; [reflexivity|].
  rewrite pa_read_bytes_page by (unfold PAGE_SIZE; lia). unfold rd_word. f_equal.
  unfold ubytes, rd_bytes, zrange. rewrite <- list_fmap_compose. by replace (a + 8 - a) with 8 by lia.
Qed.

Lemma read_strs_at n k b l : k_world k = w -> Forall (fun s => (length s < n)%nat) l ->
  forall fuel a, strs_at a l -> (b = true -> 0 < a) -> (length l < fuel)%nat ->
  read_strs n fuel root b a k = Ret (Some (Ok l), k).
Proof.
  intros Hk. induction 1 as [|s l Hs _ IH]; intros [|fuel] a Hat Hb Hf; cbn [length] in Hf; try lia;
    cbn [read_strs]; destruct Hat as (ps & Ha & Hend & H8 & Hps & Hh & Hl);
    (replace (b && (a =? 0)) with false by (destruct b; [destruct (Z.eqb_spec a 0); lia|done]));
    destruct ps as [|p ps]; try (by inversion Hl); try pose proof (zlen_nonneg ps) as Hz;
    rewrite ?zlen_cons in Hend; unfold words in Hh; cbn [app mbind list_bind] in Hh; apply has_app in Hh as [Hw Hh].
  - change (zlen []) with 0 in Hend. destruct (load_word k a Hk Ha ltac:(lia) H8) as (bs & E & Ev).
    unfold x_try, x_full. st_unfold. rewrite E. cbn. rewrite Ev, (rd_word_has _ a 0) by (done || lia). done.
  - apply Forall_cons_1 in Hps as [Hp Hps]. apply Forall2_cons_1 in Hl as [Hstr Hl].
    destruct (load_word k a Hk Ha ltac:(lia) H8) as (bs & E & Ev).
    unfold x_try, x_full. st_unfold. rewrite E. cbn. rewrite Ev, (rd_word_has _ a p) by (done || lia).
    destruct (Z.eqb_spec p 0); [lia|]. rewrite (read_str_at n k p s Hk Hstr Hs).
    destruct (ur_bounds _ _ _ _ _ Hur) as [Hl0 Hh0]. replace (wrap64 (a + 8)) with (a + 8) by (unfold wrap64, u64_bound; lia).
    rewrite IH; [done| |lia|lia]. exists ps. split; [lia|]. split; [lia|]. split; [lia|]. split; [done|]. split; [|done].
    exact Hh.
Qed.
End strings.

(** ** Nothing happens before the program is known *)

Definition k_same {A} (m : ST kern A) : Prop := forall k a k', m k = Ret (a, k') -> k' = k.

Lemma k_same_ret {A} (a : A) : k_same (mret a).
Proof. by intros k b k' [= <- <-]. Qed.
Lemma k_same_bind {A B} (m : ST kern A) (f : A -> ST kern B) : k_same m -> (forall a, k_same (f a)) -> k_same (m ≫= f).
Proof. intros Hm Hf k b k' (a & k1 & E1 & E2)%st_bind_Ret. rewrite <- (Hm k a k1 E1). by apply (Hf a k1 b). Qed.
Lemma k_same_gets {A} (f : kern -> A) : k_same (st_gets f).
Proof. by intros k b k' [= <- <-]. Qed.
Lemma k_same_lift {A} (o : outcome A) : k_same (st_lift o).
Proof. intros k b k'. unfold st_lift. destruct o; [by intros [= <- <-]|done]. Qed.
Lemma k_same_proc_at p : k_same (proc_at p).
Proof. intros k a k'. unfold proc_at. destruct (k_procs k !! p); [by intros [= <- <-]|done]. Qed.
Lemma k_same_mm_token mm : k_same (mm_token mm).
Proof.
  intros k a k'. unfold mm_token, on_mm. destruct (k_mms k !! mm) as [ms|] eqn:E; [|done]. cbn. intros [= <- <-].
  rewrite insert_id by done. by destruct k.
Qed.
Create HintDb same.
#[export] Hint Resolve k_same_ret k_same_gets k_same_lift k_same_proc_at k_same_mm_token : same.
Ltac same :=
  repeat (cbn beta iota zeta; intros; first
    [ solve [auto with same]
    | match goal with
      | |- k_same (if ?b then _ else _) => destruct b
      | |- k_same (match ?x with _ => _ end) => destruct x
      end
    | apply k_same_bind ]).

Lemma k_same_load token ptr n : k_same (load_user token ptr n).
Proof. unfold load_user. same. Qed.
Lemma k_same_str n token ptr : k_same (read_str n token ptr).
Proof. unfold read_str. same. Qed.
#[export] Hint Resolve k_same_load k_same_str : same.
Lemma k_same_strs n fuel token b : forall ptr, k_same (read_strs n fuel token b ptr).
Proof.
  induction fuel as [|fuel IH]; intros ptr; cbn [read_strs]; unfold x_try, x_full; [apply k_same_ret|].
  destruct (b && (ptr =? 0)); [apply k_same_ret|]. same.
Qed.
#[export] Hint Resolve k_same_strs : same.

(** Calls that change the files only, on a process and on the kernel. *)
Section pure.
Context {D : Type} `{!Lwext4 D}.

Definition vfs_only {A} (m : ST (pstate D) A) : Prop := forall s a s', m s = Ret (a, s') ->
  s' = mkP (p_vfs s') (p_mem s) (p_fds s) (PathSys.p_cwd s) (PathSys.p_exe s) (p_mounts s).
Definition k_pure {A} (m : ST (xsys D) A) : Prop := forall s a s', m s = Ret (a, s') ->
  s' = mkX (x_k s) (x_vfs s') (x_mounts s).

Lemma vfs_only_ret {A} (a : A) : vfs_only (mret a).
Proof. intros [] b s' [= <- <-]. done. Qed.
Lemma vfs_only_gets {A} (f : pstate D -> A) : vfs_only (st_gets f).
Proof. intros [] b s' [= <- <-]. done. Qed.
Lemma vfs_only_lift {A} (o : outcome A) : vfs_only (st_lift o).
Proof. intros [] b s'. unfold st_lift. destruct o; [by intros [= <- <-]|done]. Qed.
Lemma vfs_only_vfs {A} (m : ST (vfs D) A) : vfs_only (on_vfs m).
Proof. intros [] b s'. unfold on_vfs. cbn. destruct (m _) as [[]|]; [by intros [= <- <-]|done]. Qed.
Lemma vfs_only_bind {A B} (m : ST (pstate D) A) (f : A -> ST (pstate D) B) :
  vfs_only m -> (forall a, vfs_only (f a)) -> vfs_only (m ≫= f).
Proof.
  intros Hm Hf s b s' (a & s1 & E1 & E2)%st_bind_Ret. rewrite (Hf a s1 b s' E2), (Hm s a s1 E1). done.
Qed.
Lemma vfs_only_try {A B E} (m : ST (pstate D) (result A E)) (f : A -> ST (pstate D) (result B E)) :
  vfs_only m -> (forall a, vfs_only (f a)) -> vfs_only (st_try f m).
Proof.
  intros Hm Hf. apply vfs_only_bind; [done|]. intros [a|e]; [done|apply (vfs_only_ret (Err e))].
Qed.

Lemma resolve_only time d p f : vfs_only (resolve_path_from_fd time d p f).
Proof.
  unfold resolve_path_from_fd, get_fd.
  repeat (cbn beta iota zeta; intros; first
    [ apply vfs_only_ret | apply vfs_only_gets | apply vfs_only_lift | apply vfs_only_vfs
    | match goal with
      | |- vfs_only (if ?b then _ else _) => destruct b
      | |- vfs_only (match ?x with _ => _ end) => destruct x
      | |- vfs_only (st_try _ _) => apply vfs_only_try
      end
    | apply vfs_only_bind ]).
Qed.

Lemma k_pure_proc {A} self (m : ST (pstate D) A) : vfs_only m -> k_pure (on_proc self m).
Proof.
  intros Hm [k v mt] a s'. unfold on_proc. cbn. destruct (k_procs k !! self) as [pcb|] eqn:E; [|done].
  destruct (m _) as [[b q]|] eqn:Em; [|done]. intros [= <- <-]. rewrite (Hm _ _ _ Em). cbn. f_equal.
  unfold pcb_set_files, with_mem, k_set_procs, k_set_fsys. cbn.
  rewrite insert_id by (rewrite E; by destruct pcb). by destruct k as [? [] ? ? ? ? ? ? ? ? ? ? ?].
Qed.
Lemma k_pure_xk {A} (m : ST kern A) : k_same m -> k_pure (on_xk m).
Proof.
  intros Hm [k v mt] a s'. unfold on_xk. cbn. destruct (m k) as [[b k']|] eqn:E; [|done]. intros [= <- <-].
  by rewrite (Hm k b k' E).
Qed.
Lemma k_pure_ret {A} (a : A) : k_pure (mret a).
Proof. intros [] b s' [= <- <-]. done. Qed.
Lemma k_pure_bind {A B} (m : ST (xsys D) A) (f : A -> ST (xsys D) B) :
  k_pure m -> (forall a, k_pure (f a)) -> k_pure (m ≫= f).
Proof.
  intros Hm Hf s b s' (a & s1 & E1 & E2)%st_bind_Ret. rewrite (Hf a s1 b s' E2), (Hm s a s1 E1). done.
Qed.
Lemma k_pure_try {A B} (f : A -> ST (xsys D) (xres B)) m : k_pure m -> (forall a, k_pure (f a)) -> k_pure (x_try f m).
Proof. intros Hm Hf. apply k_pure_bind; [done|]. intros [[a|e]|]; [done|apply k_pure_ret..]. Qed.
Lemma k_pure_full {A} (m : ST (xsys D) (result A SysErrNo)) : k_pure m -> k_pure (x_full m).
Proof. intros Hm. apply k_pure_bind; [done|]. intros. apply k_pure_ret. Qed.

Variable time_ms : Z.
Variable str_bound args_fuel read_fuel : nat.
Variable heap_bytes : list Z -> Z -> list Z.

Lemma load_pure self p : k_pure (load_program time_ms read_fuel heap_bytes self p).
Proof.
  unfold load_program. apply k_pure_try; [apply k_pure_full, k_pure_proc, vfs_only_vfs|]. intros f.
  apply k_pure_try; [apply k_pure_ret|]. intros r.
  apply k_pure_bind; [apply k_pure_proc, vfs_only_vfs|]. intros o. apply k_pure_ret.
Qed.
Lemma prepare_pure self path argv envp :
  k_pure (execve_prepare time_ms str_bound args_fuel read_fuel heap_bytes self path argv envp).
Proof.
  unfold execve_prepare. apply k_pure_bind; [apply k_pure_xk; auto with same|]. intros pcb.
  apply k_pure_bind; [apply k_pure_xk; auto with same|]. intros token.
  apply k_pure_try; [apply k_pure_xk; auto with same|]. intros args.
  apply k_pure_bind; [apply k_pure_xk; auto with same|]. intros p.
  apply k_pure_try; [apply k_pure_full, k_pure_proc, resolve_only|]. intros p'.
  destruct (refused _ _); [apply k_pure_ret|].
  apply k_pure_try; [apply k_pure_xk; auto with same|]. intros env.
  apply k_pure_try; [apply load_pure|]. intros data. apply k_pure_ret.
Qed.
End pure.

Lemma k_same_current_process : k_same current_process.
Proof.
  unfold current_process, task_of, get_process. apply k_same_bind.
  { intros k a k' (e & (_ & -> & _)%current_get_inv & ->)%on_kx_inv. apply k_sys_eta. }
  intros r. apply k_same_bind; [apply k_same_bind|].
  - intros k a k' (e & (_ & ->)%exec_task_inv & ->)%on_kx_inv. apply k_sys_eta.
  - intros. apply k_same_ret.
  - same.
Qed.

Section execve.
Context {D : Type} `{!Lwext4 D}.
Variable file_read : Z -> UserBuffer -> inodes -> ST world (result Z SysErrNo * inodes).
Variable file_write : Z -> UserBuffer -> ST world (result Z SysErrNo).
Variable INITPROC : Z.
Variable e : start_env.
Variable time_ms : Z.
Variable str_bound args_fuel read_fuel : nat.
Variable parse : list Z -> option ElfFile.
Variable interp : ElfFile.
Variable heap_bytes : list Z -> Z -> list Z.
Notation sys_execve := (sys_execve (D := D) file_read file_write INITPROC e time_ms str_bound args_fuel read_fuel parse
  interp heap_bytes).
Notation execve_prepare := (execve_prepare (D := D) time_ms str_bound args_fuel read_fuel heap_bytes).
Notation execve_run := (execve_run file_read file_write INITPROC e parse interp).

Lemma on_xk_inv {A} (m : ST kern A) (s : xsys D) a s' : on_xk m s = Ret (a, s') ->
  exists k, m (x_k s) = Ret (a, k) /\ s' = mkX k (x_vfs s) (x_mounts s).
Proof. unfold on_xk. destruct (m (x_k s)) as [[b k]|]; [|done]. intros [= <- <-]. by exists k. Qed.
Lemma on_xk_same {A} (m : ST kern A) (s : xsys D) a : m (x_k s) = Ret (a, x_k s) -> on_xk m s = Ret (a, s).
Proof. intros E. unfold on_xk. rewrite E. by destruct s. Qed.
Lemma x_try_run {A B} (f : A -> ST (xsys D) (xres B)) m s a s' :
  m s = Ret (Some (Ok a), s') -> x_try f m s = f a s'.
Proof. intros E. unfold x_try. by rewrite (st_run _ _ _ _ _ E). Qed.
Lemma x_full_run {A} (m : ST (xsys D) (result A SysErrNo)) s r s' : m s = Ret (r, s') -> x_full m s = Ret (Some r, s').
Proof. intros E. unfold x_full. by rewrite (st_run _ _ _ _ _ E). Qed.
Lemma x_eta (s : xsys D) : mkX (x_k s) (x_vfs s) (x_mounts s) = s.
Proof. by destruct s. Qed.

Lemma execve_run_Err self pl k err k' : execve_run self pl k = Ret (Err err, k') ->
  exists args env abs data elf k1, pl = PlanExec args env abs data /\
    (_ ← clear_tids self; proc_update self (set_exe abs)) k = Ret (tt, k1) /\ parse data = Some elf /\
    pcb_exec file_write e self elf interp args env k1 = Ret (Err err, k').
Proof.
  destruct pl as [|args env abs data]; cbn [Execve.execve_run].
  { by intros (a & k1 & _ & [=])%st_bind_Ret. }
  intros ([] & k1 & E1 & ([] & k2 & E2 & (elf & k3 & E & H)%st_bind_Ret)%st_bind_Ret)%st_bind_Ret.
  assert (parse data = Some elf /\ k3 = k2) as [Ep ->] by (destruct (parse data); [by injection E as -> ->|done]).
  exists args, env, abs, data, elf, k2. split; [done|]. split; [|split; [done|]].
  - by rewrite (st_run _ _ _ _ _ E1).
  - apply st_bind_Ret in H as (r & k4 & Er & H). destruct r; [by injection H|]. by injection H as <- <-.
Qed.

(** C37: a failed [execve] leaves the caller as it was.  If the call returns an
    error, because of a bad pointer, a path that does not resolve or a file
    that cannot be opened, then no thread, process, address space, descriptor
    or byte of memory of the kernel has changed; the only other errors are
    those of the replacement of the address space, after the file was found
    and read, and then only the tid words of the threads and the path of the
    executable have changed before. *)
Theorem execve_failure_keeps_caller path argv envp s err s' :
  sys_execve path argv envp s = Ret (Some (Err err), s') ->
  x_mounts s' = x_mounts s /\
  (x_k s' = x_k s \/
   exists self args env abs data elf k1,
     execve_prepare self path argv envp s =
       Ret (Some (Ok (PlanExec args env abs data)), mkX (x_k s) (x_vfs s') (x_mounts s)) /\
     (_ ← clear_tids self; proc_update self (set_exe abs)) (x_k s) = Ret (tt, k1) /\
     parse data = Some elf /\ pcb_exec file_write e self elf interp args env k1 = Ret (Err err, x_k s')).
Proof.
  unfold Execve.sys_execve.
  intros (self & s1 & (k1 & ->%k_same_current_process & ->)%on_xk_inv & H)%st_bind_Ret. rewrite x_eta in H.
  apply st_bind_Ret in H as (o & s2 & E2 & H). pose proof (prepare_pure _ _ _ _ _ _ _ _ _ _ _ _ E2) as Hs2.
  destruct o as [[pl|err']|]; [|injection H as <- <-; rewrite Hs2; by split; [|left]|done].
  apply st_bind_Ret in H as (r & s3 & (k2 & E3 & ->)%on_xk_inv & [= -> <-]).
  rewrite Hs2 in E3. cbn [x_k x_vfs x_mounts] in *. rewrite Hs2. split; [done|]. right.
  destruct (execve_run_Err _ _ _ _ _ E3) as (args & env & abs & data & elf & k3 & -> & Ec & Ep & Ex).
  exists self, args, env, abs, data, elf, k3. split; [|done]. rewrite E2, Hs2. done.
Qed.

(** The caller [self] passes the path [p], the arguments [args] and the
    environment [env] in its memory; the environment may be null. *)
Record passes (s : xsys D) (self path argv envp : Z) (pcb : ProcessControlBlock) (p : list Z)
    (args env : list (list Z)) : Prop := {
  pa_self : current_process (x_k s) = Ret (self, x_k s);
  pa_pcb : k_procs (x_k s) !! self = Some pcb;
  pa_mem : exists ms lo hi fr, k_mms (x_k s) !! p_memory_set pcb = Some ms /\
    pt_wf (k_world (x_k s)) (ms_token ms) /\ user_range (k_world (x_k s)) (ms_token ms) lo hi fr /\
    str_at (k_world (x_k s)) lo hi fr path p /\ strs_at (k_world (x_k s)) lo hi fr argv args /\
    (envp = 0 /\ env = [] \/ 0 < envp /\ strs_at (k_world (x_k s)) lo hi fr envp env);
  pa_str : Forall (fun s => (length s < str_bound)%nat) (p :: args ++ env);
  pa_len : (length args < args_fuel)%nat /\ (length env < args_fuel)%nat
}.

Lemma read_env w root lo hi fr k envp env : pt_wf w root -> user_range w root lo hi fr -> k_world k = w ->
  Forall (fun s => (length s < str_bound)%nat) env -> (length env < args_fuel)%nat ->
  envp = 0 /\ env = [] \/ 0 < envp /\ strs_at w lo hi fr envp env ->
  read_strs str_bound args_fuel root true envp k = Ret (Some (Ok env), k).
Proof.
  intros Hpt Hur Hk Hb Hl [[-> ->]|[Hp Hs]].
  - by destruct args_fuel; [cbn in Hl; lia|].
  - by eapply read_strs_at.
Qed.

(** Up to the program: the arguments are those in the memory of the caller, the
    kernel is unchanged. *)
Lemma execve_reads s self path argv envp pcb p args env q s1 data s2 :
  passes s self path argv envp pcb p args env ->
  on_proc self (resolve_path_from_fd time_ms AT_FDCWD (script_path p) true) s = Ret (Ok q, s1) ->
  refused q (script_args p args) = false ->
  let abs := get_abs_path (if negb (starts_with_slash q) then Process.p_cwd pcb else [SLASH]) q in
  load_program time_ms read_fuel heap_bytes self abs s1 = Ret (Some (Ok data), s2) ->
  sys_execve path argv envp s =
    x_full (on_xk (execve_run self (PlanExec (script_args p args) (default_env env) abs data))) s2 /\
  x_k s2 = x_k s /\ x_mounts s2 = x_mounts s.
Proof.
  intros [Hself Hpcb (ms & lo & hi & fr & Hms & Hpt & Hur & Hp & Ha & He) Hb [Hla Hle]] E1 Hr abs E2.
  apply Forall_cons_1 in Hb as [Hbp [Hba Hbe]%Forall_app].
  pose proof (k_pure_proc self _ (resolve_only _ _ _ _) _ _ _ E1) as Hs1.
  pose proof (load_pure _ _ _ _ _ _ _ _ E2) as Hs2. rewrite Hs1 in Hs2. cbn [x_k x_mounts] in Hs2.
  split; [|by rewrite Hs2].
  assert (on_xk (read_strs str_bound args_fuel (ms_token ms) true envp) s1 = Ret (Some (Ok env), s1)) as Ee.
  { apply on_xk_same. rewrite Hs1. by apply (read_env _ _ _ _ _ _ envp env Hpt Hur eq_refl Hbe Hle He). }
  unfold Execve.sys_execve, Execve.execve_prepare.
  rewrite (st_run _ _ _ _ _ (on_xk_same _ s _ Hself)).
  apply (x_try_run (fun pl => x_full (on_xk (execve_run self pl)))).
  rewrite (st_run _ _ _ _ _ (on_xk_same _ s pcb (proc_at_run _ _ _ Hpcb))).
  rewrite (st_run _ _ _ _ _ (on_xk_same _ s _ (mm_token_run _ _ _ Hms))).
  pose proof (read_strs_at _ _ _ _ _ Hpt Hur str_bound (x_k s) false args eq_refl Hba args_fuel argv Ha ltac:(done) Hla) as Ea.
  etransitivity; [apply x_try_run, on_xk_same, Ea|].
  rewrite (st_run _ _ _ _ _ (on_xk_same _ s p (read_str_at _ _ _ _ _ Hpt Hur str_bound _ path p eq_refl Hp Hbp))).
  cbv zeta. etransitivity; [apply x_try_run, x_full_run, E1|]. rewrite Hr.
  etransitivity; [apply x_try_run, Ee|]. etransitivity; [apply x_try_run, E2|]. done.
Qed.

(** ** To the first instruction of the program *)

Lemma ascii_c_strings w lo hi fr a l : strs_at w lo hi fr a l -> c_strings l.
Proof.
  intros (ps & _ & _ & _ & _ & _ & H). induction H as [|q s ps l Hs _ IH]; constructor; [|done].
  destruct Hs as (_ & _ & Hs & _). revert Hs. apply Forall_impl. lia.
Qed.
Lemma bytes_ok l : forallb (forallb (fun b => (0 <? b) && (b <? 256))) l = true -> c_strings l.
Proof.
  induction l as [|s l IH]; [constructor|]. intros [H1 H2]%andb_prop.
  constructor; [|by apply IH]. clear -H1. induction s as [|b s IH]; [constructor|].
  apply andb_prop in H1 as [H0 H1]. constructor; [lia|by apply IH].
Qed.
Lemma c_strings_script p l : c_strings l -> c_strings (script_args p l).
Proof.
  intros H. unfold script_args. destruct (str_ends_with _ p); [|done].
  apply (Forall_app _ [_; _] l). split; [by apply bytes_ok|done].
Qed.
Lemma c_strings_env l : c_strings l -> c_strings (default_env l).
Proof.
  assert (forall v l, c_strings [v] -> c_strings l -> c_strings (add_env v l)) as Ha.
  { intros v l' Hv Hl. unfold add_env. destruct (existsb _ l'); [done|]. by apply Forall_app. }
  intros H. unfold default_env. apply Ha; [by apply bytes_ok|]. apply Ha; [by apply bytes_ok|].
  apply Ha; [by apply bytes_ok|done].
Qed.

Lemma clear_tids_procs self k k' : clear_tids self k = Ret (tt, k') -> k_procs k' = k_procs k.
Proof.
  unfold clear_tids. intros (pcb & k1 & ->%k_same_proc_at & H)%st_bind_Ret. revert k H.
  induction (p_tasks pcb) as [|r l IH]; intros k; cbn [st_iter]; [by intros [= <-]|].
  intros (u & k2 & (t & k3 & E1 & (x & k4 & E2 & [= _ <-])%st_bind_Ret)%st_bind_Ret & H)%st_bind_Ret.
  rewrite (IH _ H). clear IH H. unfold on_kf in E2. destruct (clear_child_tid _ _ _) as [[y f]|]; [|done].
  injection E2 as _ <-. cbn. revert E1. unfold task_of. intros (t' & k5 & (ex & _ & ->)%on_kx_inv & [= _ <-])%st_bind_Ret.
  done.
Qed.

(** C19: [execve] starts the program with what its caller wrote.  If the caller
    has the path, the argument vector and the environment in its memory, the
    path resolves, its file can be read and there are frames for the stack,
    the call succeeds: the main thread starts at the entry point with a stack
    from which it reads exactly these arguments (behind those of the shell for
    a script), this environment completed by the three default variables, and
    the auxiliary vector of the image; no other process changes. *)
Theorem execve_passes_arguments s self path argv envp pcb p args env q s1 data s2 k1 elf ms0 base entry auxv w :
  passes s self path argv envp pcb p args env ->
  on_proc self (resolve_path_from_fd time_ms AT_FDCWD (script_path p) true) s = Ret (Ok q, s1) ->
  refused q (script_args p args) = false ->
  let abs := get_abs_path (if negb (starts_with_slash q) then Process.p_cwd pcb else [SLASH]) q in
  let k2 := k_set_procs (<[self := set_exe abs pcb]> (k_procs k1)) k1 in
  load_program time_ms read_fuel heap_bytes self abs s1 = Ret (Some (Ok data), s2) ->
  clear_tids self (x_k s) = Ret (tt, k1) -> parse data = Some elf ->
  exec_ready file_write e k2 self (set_exe abs pcb) elf interp ms0 base entry auxv w ->
  stack_need (script_args p args) (default_env env) auxv <= USER_STACK_SIZE ->
  exists s' fr sp random argv0, sys_execve path argv envp s = Ret (Some (Ok 0), s') /\
    k_trap (x_k s') !! p_main pcb = Some (app_init_context e entry sp) /\
    (forall n, USER_STACK_TOP - sp <= Z.of_nat n ->
       rd_start (ubyte fr (w_mem (k_world (x_k s')))) n sp =
         Some (mkImage (zlen (script_args p args)) (script_args p args) (default_env env)
                 (auxv ++ [mkAux AUX_RANDOM random; mkAux AUX_EXECFN argv0]))) /\
    k_procs (x_k s') = <[self := exec_pcb base (set_exe abs pcb)]> (k_procs (x_k s)).
Proof.
  intros Hpass E1 Hr abs k2 E2 Ec Ep Hex Hn.
  destruct (execve_reads s self path argv envp pcb p args env q s1 data s2 Hpass E1 Hr E2) as (-> & Hk & _).
  assert (c_strings args /\ c_strings env) as [Ha He].
  { destruct (pa_mem _ _ _ _ _ _ _ _ _ Hpass) as (ms & lo & hi & fr & _ & _ & _ & _ & Ha & He).
    split; [by eapply ascii_c_strings|]. destruct He as [[_ ->]|[_ He]]; [constructor|by eapply ascii_c_strings]. }
  destruct (exec_run _ _ _ _ _ _ _ _ _ _ _ _ _ _ Hex (c_strings_script p _ Ha) (c_strings_env _ He) Hn)
    as (k' & ms & fr & sp & random & argv0 & Erun & _ & _ & _ & Htr & Hrd & Hprocs & _).
  pose proof (clear_tids_procs _ _ _ Ec) as Hp1. pose proof (pa_pcb _ _ _ _ _ _ _ _ _ Hpass) as Hpcb.
  exists (mkX k' (x_vfs s2) (x_mounts s2)), fr, sp, random, argv0. split; [|split; [exact Htr|split; [exact Hrd|]]].
  - apply x_full_run. unfold on_xk. rewrite Hk. cbn [Execve.execve_run].
    rewrite (st_run _ _ _ _ _ Ec), (st_run _ _ _ _ _ (proc_update_run self _ pcb k1 ltac:(by rewrite Hp1))).
    rewrite Ep. erewrite st_run by reflexivity. rewrite (st_try_run _ _ _ _ _ Erun). done.
  - cbn [x_k]. rewrite Hprocs. cbn [k_procs k_set_procs k2]. by rewrite insert_insert_eq, Hp1.
Qed.
End execve.

(** ** A run

    The first process executes "/n".  Its path and its argument vector are in
    a page of its memory, in a machine of 8192 frames. *)

Lemma pt_wf_tables w root m : same_tables w root m -> pt_wf w root -> pt_wf (set_mem m w) root.
Proof.
  intros [Hn _] Hpt. constructor; cbn.
  - intros p1 p2 f H1 H2. rewrite !Hn by done. by apply (pw_inj w root Hpt).
  - intros p f H. rewrite Hn by done. by apply (pw_live w root Hpt).
Qed.

(** A page table with the page 5, and a frame that is no part of it. *)
Lemma caller_space : exists w root g fr, world_wf w /\ 3 * STACK_PAGES < free_count w /\ is_Some (w_refs w !! g) /\
  (forall i, read_word (w_mem w) g i = 0) /\ pt_wf w root /\ user_range w root 0x5000 0x6000 fr /\ g <> fr 5.
Proof.
  destruct (Start.machine 8192) as (w & Hw & Hc & _ & H0); [lia|].
  destruct (frame_alloc_available w Hw ltac:(lia)) as (g & w0 & _ & Hg).
  assert (w_refs w0 !! g = Some 1) as Hl by (rewrite (ap_refs _ _ _ Hg); apply lookup_insert_eq).
  assert (forall i, read_word (w_mem w0) g i = 0) as Hz
    by (intros i; by rewrite (ap_mem _ _ _ Hg), read_zero_frame, decide_True).
  assert (fa_free (w_fa w0) g = false) as Hf by (by rewrite (ap_free' _ _ _ Hg), Z.eqb_refl).
  pose proof (ap_count _ _ _ Hg) as Hc0.
  destruct (new_from_kernel_empty g w0) as (pt & w1 & _ & Hw1 & Hpt & Hp0 & Hc1 & Ho & Hr);
    [apply Hg|lia|apply Hg|done|done|].
  assert (g <> root_ppn pt) as Hne by (intros ->; congruence). destruct (Ho g Hne) as (Hl1 & Hn1 & Hw1g).
  set (a := mkArea (mkRange 5 6) [] Framed (Z.lor MP_W MP_U) AT_Mmap None 0).
  destruct (map_pages_spec [5] w1 a pt) as (d & pt' & w2 & _ & _ & M);
    [exact Hw1|exact Hpt|reflexivity|apply SSorted_nil|apply (NoDup_zrange 5 6)
    |intros v Hv; apply (elem_of_zrange 5 6) in Hv; split_and!; [lia|lia|apply Hp0|reflexivity]
    |rewrite Hc1; vm_compute (zlen _); lia|].
  destruct (ms_new _ _ _ _ _ _ _ M 5) as (f & Hd & Hfresh & Hlive & Hnt & _ & Hppn & Hfl); [by left|].
  destruct (ms_data _ _ _ _ _ _ _ M g) as (Hl2 & _ & Hz2); [by rewrite Hl1, Hl|exact Hn1|].
  pose proof (ms_count _ _ _ _ _ _ _ M) as Hc2. change (zlen [5]) with 1 in Hc2.
  exists w2, (root_ppn pt), g, (fun _ => f).
  assert (forall v, in_range 0x5000 0x6000 v -> v = 5) as Hin by (unfold in_range, PAGE_SIZE; lia).
  split_and!; [apply M|change STACK_PAGES with 2560; lia|by rewrite Hl2, Hl1, Hl| |apply M| |].
  - intros i. by rewrite Hz2, Hw1g, Hz.
  - constructor; [lia| | |].
    + intros v ->%Hin. split; [done|]. unfold la_writable. rewrite Hfl. reflexivity.
    + intros v ->%Hin. split; [|done]. apply (live_range w2); [apply M|by eexists].
    + by intros v1 v2 ->%Hin ->%Hin.
  - intros ->. rewrite Hl1, Hl in Hfresh. done.
Qed.

Definition caller_image : list Z := words [0x5020; 0] ++ replicate 16 0 ++ [SLASH; 110; 0].

Lemma caller_world : exists w root g fr, world_wf w /\ 3 * STACK_PAGES < free_count w /\ 0 < g < 2 ^ 36 /\
  fa_free (w_fa w) g = false /\ (forall i, read_word (w_mem w) g i = 0) /\ pt_wf w root /\
  user_range w root 0x5000 0x6000 fr /\ has (ubyte fr (w_mem w)) 0x5000 caller_image.
Proof.
  destruct caller_space as (w & root & g & fr & Hw & Hc & Hg & Hz & Hpt & Hur & Hne).
  destruct (copy_to_spec w root 0x5000 fr caller_image) as (m & _ & W);
    [done|apply (user_range_sub _ _ 0x5000 0x6000 0x5000 _ fr); [lia|vm_compute; discriminate|done]|reflexivity|..].
  { repeat (constructor; [vm_compute; split; [discriminate|reflexivity]|]). constructor. }
  assert (same_tables w root m) as Hs by (by apply (wrote_tables _ _ _ _ _ _ _ _ _ ltac:(done) W)).
  exists (set_mem m w), root, g, fr. split_and!.
  - destruct Hw. by constructor.
  - exact Hc.
  - by apply (live_range w).
  - by apply (live_range w).
  - by apply (ww_refs w Hw).
  - intros i. cbn. rewrite (wr_frames _ _ _ _ _ _ _ _ W); [apply Hz|]. intros v Hv. unfold in_range, PAGE_SIZE in Hv.
    revert Hv. vm_compute (zlen _). intros Hv. replace v with 5 by lia. done.
  - by apply pt_wf_tables.
  - by apply user_range_tables.
  - intros i b Hb. cbn. rewrite (wr_bytes _ _ _ _ _ _ _ _ W).
    + pose proof (lookup_lt_Some _ _ _ Hb) as Hi. rewrite decide_True by (unfold zlen; lia).
      replace (0x5000 + Z.of_nat i - 0x5000) with (Z.of_nat i) by lia. rewrite Nat2Z.id. by apply nth_lookup_Some.
    + pose proof (lookup_lt_Some _ _ _ Hb) as Hi. apply range_page. unfold zlen. lia.
Qed.

Definition n_path : list Z := [SLASH; 110].
Definition n_vfs : vfs memfs :=
  match open_file 0 n_path O_CREATE 0 empty_vfs with Ret (_, v) => v | Panic => empty_vfs end.
Definition any_elf (bs : list Z) : option ElfFile := Some elf0.
Definition zero_heap (l : list Z) (n : Z) : list Z := replicate (Z.to_nat n) 0.

Lemma caller_passes w root fr : pt_wf w root -> user_range w root 0x5000 0x6000 fr ->
  has (ubyte fr (w_mem w)) 0x5000 caller_image ->
  passes 20 20 (mkX (cwd_kern w root) n_vfs MountTable_new) 100 0x5020 0x5000 0 init_pcb n_path [n_path] [].
Proof.
  intros Hpt Hur [Hv Hs]%has_app. apply has_app in Hs as [_ Hs].
  change (0x5000 + zlen (words [0x5020; 0]) + zlen (replicate 16 0)) with 0x5020 in Hs.
  assert (str_at w 0x5000 0x6000 fr 0x5020 n_path) as Hp.
  { split; [lia|]. split; [reflexivity|]. split; [repeat constructor; lia|exact Hs]. }
  split; [reflexivity|reflexivity| |repeat constructor; vm_compute; lia|vm_compute; lia].
  exists (mkMS (mkPT root []) []), 0x5000, 0x6000, fr. split_and!; [reflexivity|done|done|done| |by left].
  exists [0x5020]. split_and!; [lia|vm_compute; discriminate|reflexivity|repeat constructor; lia|exact Hv|].
  by repeat constructor.
Qed.

Lemma n_loads w root : exists s1 s2,
  on_proc 100 (resolve_path_from_fd 0 AT_FDCWD (script_path n_path) true) (mkX (cwd_kern w root) n_vfs MountTable_new)
    = Ret (Ok n_path, s1) /\
  load_program 0 20 zero_heap 100 n_path s1 = Ret (Some (Ok []), s2).
Proof. eexists _, _. split; [vm_compute; reflexivity|]. vm_compute. reflexivity. Qed.

Lemma execve_passes_arguments_witness : exists e w root s' fr sp aux,
  sys_execve no_read no_write 100 e 0 20 20 20 any_elf elf0 zero_heap 0x5020 0x5000 0
    (mkX (cwd_kern w root) n_vfs MountTable_new) = Ret (Some (Ok 0), s') /\
  rd_start (ubyte fr (w_mem (k_world (x_k s')))) (Z.to_nat (USER_STACK_TOP - sp)) sp =
    Some (mkImage 1 [n_path] [ENV_PATH; ENV_LD; ENV_ENOUGH] aux).
Proof.
  destruct caller_world as (w & root & g & fr0 & Hw & Hc & Hg & Hf & Hz & Hpt & Hur & Hi).
  destruct (load_elf0 g w Hw Hc Hg Hf Hz) as (ms0 & auxv & w' & El & Hb & Ha & Hn).
  pose proof (caller_passes w root fr0 Hpt Hur Hi) as Hpass. clear Hw Hc Hf Hz Hpt Hur Hi.
  destruct w as [m fa refs vec]. set (e := mkSE g 3 0x80400000).
  destruct (n_loads (mkWorld m fa refs vec) root) as (s1 & s2 & E1 & E2).
  destruct (execve_passes_arguments no_read no_write 100 e 0 20 20 20 any_elf elf0 zero_heap
    (mkX (cwd_kern (mkWorld m fa refs vec) root) n_vfs MountTable_new) 100 0x5020 0x5000 0 init_pcb n_path [n_path] []
    n_path s1 [] s2 (cwd_kern (mkWorld m fa refs vec) root) elf0 ms0 4096 0x10000 auxv w' Hpass E1)
    as (s' & fr & sp & random & argv0 & E & _ & Hrd & _).
  - reflexivity.
  - exact E2.
  - vm_compute. reflexivity.
  - reflexivity.
  - split.
    + reflexivity.
    + eexists false, w', (mkMS (mkPT root []) []), 0, (mkMS (mkPT root []) []), w'. split; [exact El|].
      split; [reflexivity|]. split; reflexivity.
    + exact Hb.
    + vm_compute. by eexists.
    + constructor; [vm_compute; by eexists|constructor].
    + vm_compute. split; [discriminate|reflexivity].
    + exact Ha.
  - unfold stack_need. rewrite Hn. vm_compute. discriminate.
  - eexists e, _, root, s', fr, sp, _. split; [exact E|]. apply Hrd. lia.
Defined.

(** A null argument vector. *)
Lemma execve_failure_keeps_caller_witness : exists err s',
  sys_execve no_read no_write 100 senv0 0 20 20 20 any_elf elf0 zero_heap 0 0 0 (mkX kboot n_vfs MountTable_new)
    = Ret (Some (Err err), s') /\
  x_mounts s' = MountTable_new /\
  (x_k s' = kboot \/
   exists self args env abs data elf k1,
     execve_prepare 0 20 20 20 zero_heap self 0 0 0 (mkX kboot n_vfs MountTable_new) =
       Ret (Some (Ok (PlanExec args env abs data)), mkX kboot (x_vfs s') MountTable_new) /\
     (_ ← clear_tids self; proc_update self (set_exe abs)) kboot = Ret (tt, k1) /\
     any_elf data = Some elf /\ pcb_exec no_write senv0 self elf elf0 args env k1 = Ret (Err err, x_k s')).
Proof.
  eexists _, _. split; [vm_compute; reflexivity|].
  eapply (execve_failure_keeps_caller no_read no_write 100 senv0 0 20 20 20 any_elf elf0 zero_heap 0 0 0
            (mkX kboot n_vfs MountTable_new)).
  vm_compute. reflexivity.
Defined.
