(* ===== verification/Descr.v ===== *)
(** * Descriptors of all processes

    The files of the kernel are shared by its processes.  [descr_ok]: the
    objects of the file system are well formed and every descriptor of every
    process refers to one that exists.  Boot.v shows it of the state in which
    the first process starts. *)

From Stdlib Require Import Strings.String Strings.Ascii.
From S2P Require Import Prelude Config Address Memory FrameAlloc.
From S2P Require Import Pte PageTable BTree Errno Area UserMem.
From S2P Require Import MemorySet Sched Exec ExecInv Sleep Ids.
From S2P Require Import FdTable Futex Signals Kill Robust UserStack.
From S2P Require Import Process Clone ProcTree Start Trap TrapSpec.
From S2P Require Import FdSys Path Mount Stat FileIO FileCache.
From S2P Require Import Ext4Ops Ext4Spec Dev Open OpenSpec PathSys.
From S2P Require Import PathSpec MmapSys Calls Dispatch CallsSpec Execve.
From S2P Require Import ExecveSpec ProcWait FileSpec.

(** ** Tables *)

(** A table has a descriptor of the object [c]. *)
Definition names (t : list (option FileDescriptor)) (c : FileClass) : Prop := exists f, Some f ∈ t /\ fd_file f = c.

Section kernel.
(** The objects that descriptors may refer to. *)
Variable ok : FileClass -> Prop.

Definition table_ok (t : FdManage) : Prop := forall c, names (table t) c -> ok c.
Definition tables_ok (k : kern) : Prop :=
  forall p pcb, k_procs k !! p = Some pcb -> table_ok (p_fd_table pcb).

End kernel.

(** ** The kernel and its files *)

Section files.
Context {D : Type} `{!Lwext4 D}.

(** The object exists. *)
Definition live (v : vfs D) (c : FileClass) : Prop :=
  match c with
  | ClassFile r => is_Some (v_files v !! r)
  | ClassAbs r => is_Some (v_devs v !! r)
  end.
Record descr_ok (s : xsys D) : Prop := {
  do_wf : vfs_wf (x_vfs s);
  do_tables : tables_ok (live (x_vfs s)) (x_k s)
}.

(** Reading a whole file moves its cursor. *)
Lemma read_all_keeps heap fuel r : forall out (v : vfs D) a v', vfs_wf v ->
  read_all heap fuel r out v = Ret (a, v') -> vfs_wf v' /\ PathSpec.stays v v'.
Proof.
  induction fuel as [|fuel IH]; intros out v a v' Hw; cbn [read_all]; [intros [= _ <-]; by split; [|apply stays_refl]|].
  intros (o & v1 & [-> Ho]%file_at_run & (x & v2 & E2 & H)%st_bind_Ret)%st_bind_Ret.
  destruct (vsafe_on_node _ _ _ _ _ Hw I E2) as (Hw2 & Hg & _). pose proof (grows_stays _ _ Hg) as Hs2.
  apply st_bind_Ret in H as (bs & v3 & E3 & H). destruct (result_unwrap x); [|done]. injection E3 as _ <-.
  destruct (zlen bs =? 0); [by injection H as _ <-|].
  apply st_bind_Ret in H as (off & v4 & E4 & H). destruct (uadd _ _); [|done]. injection E4 as _ <-.
  apply st_bind_Ret in H as (n & v5 & [= <- <-] & H). apply st_bind_Ret in H as (u & v6 & [= _ <-] & H).
  fold (with_file r (set_offset off o) v2) in H.
  destruct (cursor_keeps r o (set_offset off o) v2 Hw2 (gr_files _ _ Hg _ _ Ho) eq_refl) as [Hw6 Hs6].
  destruct (IH _ _ _ _ Hw6 H) as [Hw' Hs']. split; [done|]. eapply stays_trans; [exact Hs2|]. by eapply stays_trans.
Qed.
End files.
