(* ===== verification/Boot.v ===== *)
(** * Boot (os/src/main.rs, os/src/task/mod.rs, os/src/fs/vfs/mod.rs,
    os/src/lazy_init)

    The kernel starts by mounting the first disk, creating its files
    (BootFiles.v) and making the first process.  [LazyInit] is the type of the
    statics that this sets: their value is set once.  [add_initproc] opens the
    program, splits the command line, and makes the process (Start.v);
    [sys_mount] and [sys_umount2] work on the same table of mounts later.

    The state [bsys] is that of Execve.v with the C library's mounts and the
    two statics.  The search for devices before the first mount, and the
    registers that [main] sets up, are not modelled. *)

From Stdlib Require Import Strings.String Strings.Ascii.
From S2P Require Import Prelude Config Address Memory FrameAlloc FrameSpec.
From S2P Require Import Pte PageTable BTree Errno Area UserMem.
From S2P Require Import UserCopy MemorySet Timer Sched Exec ExecInv.
From S2P Require Import Sleep.
From S2P Require Import Ids FdTable Futex Signals Robust Auxv.
From S2P Require Import UserStack Process Clone ProcTree Start Path.
From S2P Require Import Mount Stat FdSys FileIO FileCache Ext4Ops.
From S2P Require Import Ext4Spec Dev Open OpenSpec Disk PathSys.
From S2P Require Import PathSpec BootFiles Calls Execve ExecveSpec Descr.

(** ** Statics that are set once *)

Record LazyInit (T : Type) : Type := mkLazy { inited : bool; lazy_data : option T }.
Arguments mkLazy {T}.
Arguments inited {T}.
Arguments lazy_data {T}.

Definition LazyInit_new {T} : LazyInit T := mkLazy false None.
Definition lazy_is_init {T} (l : LazyInit T) : bool := inited l.
Definition init_by {T} (x : T) (l : LazyInit T) : outcome (LazyInit T) :=
  _ ← rassert (negb (lazy_is_init l)); Ret (mkLazy true (Some x)).

(** A read of memory that was never written has no result. *)
Definition get_unchecked {T} (l : LazyInit T) : outcome T := unwrap (lazy_data l).
Definition try_get {T} (l : LazyInit T) : outcome (option T) :=
  if lazy_is_init l then x ← get_unchecked l; Ret (Some x) else Ret None.
Definition check_init {T} (l : LazyInit T) : outcome unit := if negb (lazy_is_init l) then Panic else Ret tt.
Definition lazy_get {T} (l : LazyInit T) : outcome T := _ ← check_init l; get_unchecked l.

(** ** Command lines *)

Definition QUOTE : Z := 34.
Definition SPACE : Z := 32.

(** [String::from_utf8] checks that the bytes are UTF-8. *)
Definition utf8_cont (b : Z) : bool := (0x80 <=? b) && (b <? 0xc0).
Definition utf8_second3 (b c : Z) : bool :=
  if b =? 0xe0 then (0xa0 <=? c) && (c <? 0xc0)
  else if b =? 0xed then (0x80 <=? c) && (c <? 0xa0)
  else utf8_cont c.
Definition utf8_second4 (b c : Z) : bool :=
  if b =? 0xf0 then (0x90 <=? c) && (c <? 0xc0)
  else if b =? 0xf4 then (0x80 <=? c) && (c <? 0x90)
  else utf8_cont c.
Fixpoint utf8_valid (l : list Z) : bool :=
  match l with
  | [] => true
  | b :: l =>
      if b <? 0x80 then utf8_valid l
      else if (0xc2 <=? b) && (b <? 0xe0) then
        match l with c :: l => utf8_cont c && utf8_valid l | _ => false end
      else if (0xe0 <=? b) && (b <? 0xf0) then
        match l with c :: d :: l => utf8_second3 b c && utf8_cont d && utf8_valid l | _ => false end
      else if (0xf0 <=? b) && (b <? 0xf5) then
        match l with
        | c :: d :: f :: l => utf8_second4 b c && utf8_cont d && utf8_cont f && utf8_valid l
        | _ => false
        end
      else false
  end.
Definition from_utf8 (l : list Z) : outcome (list Z) := if utf8_valid l then Ret l else Panic.

(** [get_args]: words separated by spaces; quotes join them. *)
Fixpoint args_loop (l : list Z) (in_quote : bool) (buf : list Z) (args : list (list Z)) : outcome (list (list Z)) :=
  match l with
  | [] =>
      match buf with
      | [] => Ret args
      | _ => w ← from_utf8 buf; Ret (args ++ [w])
      end
  | b :: l' =>
      if b =? QUOTE then args_loop l' (negb in_quote) buf args
      else if (b =? SPACE) && negb in_quote then
        match buf with
        | [] => args_loop l' in_quote [] args
        | _ => w ← from_utf8 buf; args_loop l' in_quote [] (args ++ [w])
        end
      else args_loop l' in_quote (buf ++ [b]) args
  end.
Definition get_args (command_line : list Z) : outcome (list (list Z)) := args_loop command_line false [] [].

Definition get_envs : list (list Z) :=
  [bytes_of "SHLVL=1"; bytes_of "PWD=/";
   bytes_of "GCC_EXEC_PREFIX=/riscv64-linux-musl-native/bin/../lib/gcc/";
   bytes_of "COLLECT_GCC=./riscv64-linux-musl-native/bin/riscv64-linux-musl-gcc";
   bytes_of "COLLECT_LTO_WRAPPER=/riscv64-linux-musl-native/bin/../libexec/gcc/riscv64-linux-musl/11.2.1/lto-wrapper";
   bytes_of "COLLECT_GCC_OPTIONS='-march=rv64gc' '-mabi=lp64d' '-march=rv64imafdc' '-dumpdir' 'a.'";
   bytes_of "LIBRARY_PATH=/lib/"; bytes_of "LD_LIBRARY_PATH=/lib/"; bytes_of "LD_DEBUG=files"].

(** A command line of quoted words. *)
Definition quoted (ws : list (list Z)) : list Z := concat (map (fun w => [QUOTE] ++ w ++ [QUOTE; SPACE]) ws).
Definition word_ok (w : list Z) : Prop := w <> [] /\ QUOTE ∉ w /\ utf8_valid w = true.

Lemma args_in_quote w rest : QUOTE ∉ w -> forall buf args,
  args_loop (w ++ rest) true buf args = args_loop rest true (buf ++ w) args.
Proof.
  induction w as [|b w IH]; intros Hw buf args; cbn [app args_loop]; [by rewrite app_nil_r|].
  apply not_elem_of_cons in Hw as [Hb Hw]. destruct (Z.eqb_spec b QUOTE); [by subst|].
  rewrite andb_false_r, IH, <-app_assoc by done. done.
Qed.

Lemma args_quoted ws rest : Forall word_ok ws -> forall args,
  args_loop (quoted ws ++ rest) false [] args = args_loop rest false [] (args ++ ws).
Proof.
  induction 1 as [|w ws (Hne & Hq & Hu) _ IH]; intros args; [by rewrite app_nil_r|].
  unfold quoted. cbn [map concat]. fold (quoted ws). rewrite <- !app_assoc. cbn [app args_loop].
  change (QUOTE =? QUOTE) with true. cbn [negb]. rewrite args_in_quote by done. cbn [app args_loop].
  change (QUOTE =? QUOTE) with true. change (SPACE =? QUOTE) with false. change (SPACE =? SPACE) with true.
  cbn [negb andb]. destruct w as [|b w]; [done|]. unfold from_utf8. rewrite Hu. cbn. rewrite IH, <-app_assoc. done.
Qed.

(** A command line of quoted words, which may have spaces in them, is
    split into exactly these words. *)
Theorem get_args_quoted ws : Forall word_ok ws -> get_args (quoted ws) = Ret ws.
Proof. intros H. unfold get_args. rewrite <-(app_nil_r (quoted ws)), args_quoted by done. done. Qed.

Lemma get_args_quoted_witness :
  get_args (quoted [bytes_of "/musl/busybox"; bytes_of "a b"]) = Ret [bytes_of "/musl/busybox"; bytes_of "a b"].
Proof.
  apply (get_args_quoted [bytes_of "/musl/busybox"; bytes_of "a b"]).
  apply Forall_cons_2; [|apply Forall_cons_2; [|apply Forall_nil_2]].
  all: split; [discriminate|split; [|reflexivity]].
  all: apply (bool_decide_unpack _); vm_compute; exact I.
Defined.

(** Words are cut at characters of one byte: no command line in UTF-8 makes
    [get_args] panic. *)
Lemma utf8_cut n : forall a b c, (length a <= n)%nat -> b < 0x80 -> utf8_valid (a ++ b :: c) = true ->
  utf8_valid a = true /\ utf8_valid c = true.
Proof.
  assert (forall x, x < 0x80 -> utf8_cont x = false) as Hc by (unfold utf8_cont; lia).
  assert (forall x y, y < 0x80 -> utf8_second3 x y = false) as H3
    by (intros x y Hy; unfold utf8_second3, utf8_cont; repeat case_match; lia).
  assert (forall x y, y < 0x80 -> utf8_second4 x y = false) as H4
    by (intros x y Hy; unfold utf8_second4, utf8_cont; repeat case_match; lia).
  induction n as [|n IH]; intros a b c Hl Hb.
  { destruct a; [|cbn in Hl; lia]. cbn. destruct (Z.ltb_spec b 0x80); [done|lia]. }
  destruct a as [|x a]; cbn [app utf8_valid].
  { destruct (Z.ltb_spec b 0x80); [done|lia]. }
  cbn in Hl. destruct (x <? 0x80); [apply IH; [lia|done]|].
  destruct (_ && _).
  { destruct a as [|y a]; cbn [app]; [by rewrite Hc|]. intros [-> H]%andb_prop. cbn in Hl.
    apply IH in H as [-> ->]; [done|lia|done]. }
  destruct (_ && _).
  { destruct a as [|y [|z a]]; cbn [app].
    - destruct c; [done|]. by rewrite H3.
    - rewrite Hc by done. by rewrite andb_false_r.
    - intros [[-> ->]%andb_prop H]%andb_prop. cbn in Hl. apply IH in H as [-> ->]; [done|lia|done]. }
  destruct (_ && _); [|done].
  destruct a as [|y [|z [|w a]]]; cbn [app].
  - destruct c as [|? [|? ?]]; [done..|]. by rewrite H4.
  - destruct c as [|? ?]; [done|]. rewrite (Hc b) by done. by rewrite andb_false_r.
  - rewrite (Hc b) by done. by rewrite andb_false_r.
  - intros [[[-> ->]%andb_prop ->]%andb_prop H]%andb_prop. cbn in Hl. apply IH in H as [-> ->]; [done|lia|done].
Qed.

Lemma utf8_app n : forall a c, (length a <= n)%nat -> utf8_valid a = true -> utf8_valid (a ++ c) = utf8_valid c.
Proof.
  induction n as [|n IH]; intros [|x a] c; cbn [length app utf8_valid]; [done|lia|done|]. intros Hl.
  destruct (x <? 0x80); [by apply IH; lia|]. destruct (_ && _).
  { destruct a as [|y a]; [done|]. cbn in *. intros [-> H]%andb_prop. by apply IH; [lia|]. }
  destruct (_ && _).
  { destruct a as [|y [|z a]]; [done..|]. cbn in *. intros [[-> ->]%andb_prop H]%andb_prop. by apply IH; [lia|]. }
  destruct (_ && _); [|done]. destruct a as [|y [|z [|w a]]]; [done..|]. cbn in *.
  intros [[[-> ->]%andb_prop ->]%andb_prop H]%andb_prop. by apply IH; [lia|].
Qed.

Lemma args_total l : forall q buf args, utf8_valid (buf ++ l) = true -> exists ws, args_loop l q buf args = Ret ws.
Proof.
  induction l as [|b l IH]; intros q buf args H; cbn [args_loop].
  { rewrite app_nil_r in H. unfold from_utf8. rewrite H. destruct buf; by eexists. }
  destruct (Z.eqb_spec b QUOTE) as [->|].
  { apply (utf8_cut (length buf)) in H as [H1 H2]; [|done|done]. apply IH. by rewrite (utf8_app (length buf)). }
  destruct (Z.eqb_spec b SPACE) as [->|].
  { apply (utf8_cut (length buf)) in H as [H1 H2]; [|done|done]. cbn [andb]. destruct (negb q).
    - unfold from_utf8. rewrite H1. cbn. destruct buf; by apply IH.
    - apply IH. rewrite <-app_assoc, (utf8_app (length buf)) by done. exact H2. }
  cbn [andb]. apply IH. by rewrite <-app_assoc.
Qed.

Lemma get_args_total l : utf8_valid l = true -> exists ws, get_args l = Ret ws.
Proof. intros H. by apply (args_total l false [] []). Qed.

(** ** The state of a boot *)

(** The address of the first process, and that of the file system of the first
    disk. *)
Record bsys (D M : Type) : Type := mkB {
  b_x : xsys D;
  b_lib : M;
  b_initproc : LazyInit Z;
  b_ext4fs : LazyInit Z
}.
Arguments mkB {D M}.
Arguments b_x {D M}.
Arguments b_lib {D M}.
Arguments b_initproc {D M}.
Arguments b_ext4fs {D M}.

Definition INITPROC_STR : list Z := bytes_of "/glibc/busybox".
Definition on_xv {D A} (m : ST (vfs D) A) : ST (xsys D) A :=
  fun s => match m (x_vfs s) with
           | Ret (a, v) => Ret (a, mkX (x_k s) v (x_mounts s))
           | Panic => Panic
           end.
Definition on_bx {D M A} (m : ST (xsys D) A) : ST (bsys D M) A :=
  fun s => match m (b_x s) with
           | Ret (a, x) => Ret (a, mkB x (b_lib s) (b_initproc s) (b_ext4fs s))
           | Panic => Panic
           end.
Definition on_lib {D M A} (m : ST M A) : ST (bsys D M) A :=
  fun s => match m (b_lib s) with
           | Ret (a, l) => Ret (a, mkB (b_x s) l (b_initproc s) (b_ext4fs s))
           | Panic => Panic
           end.
Notation on_bv m := (on_bx (on_xv m)).
Notation on_bk m := (on_bx (on_xk m)).

Definition set_initproc {D M} (r : Z) : ST (bsys D M) unit :=
  fun s => match init_by r (b_initproc s) with
           | Ret l => Ret (tt, mkB (b_x s) (b_lib s) l (b_ext4fs s))
           | Panic => Panic
           end.
Definition set_ext4fs {D M} (fs : Z) : ST (bsys D M) unit :=
  fun s => match init_by fs (b_ext4fs s) with
           | Ret l => Ret (tt, mkB (b_x s) (b_lib s) (b_initproc s) l)
           | Panic => Panic
           end.
Definition on_mounts {D M A} (f : MountTable -> A * MountTable) : ST (bsys D M) A :=
  fun s => let '(a, t) := f (x_mounts (b_x s)) in
           Ret (a, mkB (mkX (x_k (b_x s)) (x_vfs (b_x s)) t) (b_lib s) (b_initproc s) (b_ext4fs s)).

Section boot.
Context {D : Type} `{!Lwext4 D} {M : Type} `{!Lwext4Mount M}.
Variable e : start_env.
Variable time_ms : Z.
Variable str_bound read_fuel : nat.
Variable parse : list Z -> option ElfFile.
Variable interp : ElfFile.
Variable heap_bytes : list Z -> Z -> list Z.

Notation BS := (ST (bsys D M)).

(** ** Mounting *)

(** [VfsManager::mount]; the file system is put at the address [fs]. *)
Definition vfs_manager_mount (special point fstype : list Z) (flags fs : Z) : BS (result unit SysErrNo) :=
  ext ← st_gets b_ext4fs;
  _ <-? on_lib (make_fs (lazy_is_init ext) special point fstype);
  _ ← (if str_eqb special VDA then set_ext4fs fs else mret tt);
  on_mounts (fun t => vfs_mount t special point flags fs).

Definition caller_token : BS Z :=
  on_bk (self ← current_process; pcb ← proc_at self; mm_token (p_memory_set pcb)).

(** The result of the mount is not used. *)
Definition sys_mount (special dir fstype flags data fs : Z) : BS (result Z SysErrNo) :=
  token ← caller_token;
  special ← on_bk (read_str str_bound token special);
  dir ← on_bk (read_str str_bound token dir);
  fstype ← on_bk (read_str str_bound token fstype);
  data_opt ← (if data =? 0 then mret [] else on_bk (read_str str_bound token data));
  result ← vfs_manager_mount special dir fstype flags fs;
  mret (Ok 0).

Definition sys_umount2 (target flags : Z) : BS (result Z SysErrNo) :=
  token ← caller_token;
  target ← on_bk (read_str str_bound token target);
  _ <-? on_mounts (fun t => vfs_umount t target);
  mret (Ok 0).

(** ** The first process *)

(** The new objects have the addresses of [c]; [None] when the fuel for
    reading the program has run out. *)
Definition add_initproc (c : clone_env) (cwd exe argv : list Z) : BS (option unit) :=
  r ← on_bv (open_file time_ms exe FileCache.O_RDONLY 0x1ff);
  inode ← st_lift (result_unwrap r);
  i ← st_lift (result_unwrap (class_file (fd_file inode)));
  o ← on_bv (read_all heap_bytes read_fuel i []);
  match o with
  | None => mret None
  | Some data =>
      binding ← st_lift (get_args (exe ++ [SPACE] ++ argv ++ [SPACE]));
      elf ← st_lift (unwrap (parse data));
      stdin ← on_bv (new_device Stdin);
      stdout ← on_bv (new_device Stdout);
      stderr ← on_bv (new_device Stdout);
      _ ← on_bk (process_new e c (stdin, stdout, stderr) elf interp cwd INITPROC_STR binding get_envs);
      _ ← set_initproc (ce_proc c);
      l ← st_gets b_initproc;
      initproc ← st_lift (lazy_get l);
      pcb ← on_bk (proc_at initproc);
      _ ← on_bk (st_modify (fun k => k_set_pid2pc (bt_insert (p_pid pcb) (ce_proc c) (PID2PC k)) k));
      mret (Some tt)
  end.

(** [main] from the mount of the first disk to the start of the executor. *)
Definition kernel_main (fs : Z) (c1 c2 : clone_env) : BS (option unit) :=
  r ← vfs_manager_mount VDA [SLASH] EXT4_NAME 0 fs;
  _ ← st_lift (result_unwrap r);
  _ ← on_bv (fs_init heap_bytes time_ms);
  o ← add_initproc c1 (bytes_of "/musl") (bytes_of "/musl/busybox") (bytes_of "sh /musl/ltp_testcode.sh");
  match o with
  | None => mret None
  | Some _ => add_initproc c2 (bytes_of "/glibc") (bytes_of "/glibc/busybox") (bytes_of "sh basic_testcode.sh")
  end.

(** ** The statics are set once *)

Definition keeps_static {A} (m : BS A) : Prop :=
  forall s a s', m s = Ret (a, s') -> b_initproc s' = b_initproc s /\ b_ext4fs s' = b_ext4fs s.

Lemma static_bind {A B} (m : BS A) (f : A -> BS B) :
  keeps_static m -> (forall a, keeps_static (f a)) -> keeps_static (m ≫= f).
Proof.
  intros Hm Hf s b s' (a & s1 & E1 & E2)%st_bind_Ret. destruct (Hm _ _ _ E1) as [<- <-]. by apply (Hf a s1 b).
Qed.
Lemma static_bx {A} (m : ST (xsys D) A) : keeps_static (on_bx m).
Proof. intros s a s'. unfold on_bx. destruct (m _) as [[]|]; [by intros [= <- <-]|done]. Qed.
Lemma static_lift {A} (o : outcome A) : keeps_static (st_lift o).
Proof. intros s a s'. unfold st_lift. destruct o; [by intros [= <- <-]|done]. Qed.
Lemma static_gets {A} (f : bsys D M -> A) : keeps_static (st_gets f).
Proof. by intros s a s' [= <- <-]. Qed.
Lemma static_ret {A} (a : A) : keeps_static (mret a).
Proof. by intros s b s' [= <- <-]. Qed.

(** A call that makes the first process finds none. *)
Lemma add_initproc_inv c cwd exe argv s s' : add_initproc c cwd exe argv s = Ret (Some tt, s') ->
  inited (b_initproc s) = false /\ b_initproc s' = mkLazy true (Some (ce_proc c)).
Proof.
  unfold add_initproc.
  intros (r & s1 & E1 & (f & s2 & E2 & (i & s3 & E3 & (o & s4 & E4 & H)%st_bind_Ret)%st_bind_Ret)%st_bind_Ret)%st_bind_Ret.
  destruct o as [data|]; [|done].
  apply st_bind_Ret in H as (args & s5 & E5 & (elf & s6 & E6 & (i0 & s7 & E7 & H)%st_bind_Ret)%st_bind_Ret).
  apply st_bind_Ret in H as (i1 & s8 & E8 & (i2 & s9 & E9 & (u & s10 & E10 & H)%st_bind_Ret)%st_bind_Ret).
  apply static_bx in E1 as [E1 _], E4 as [E4 _], E7 as [E7 _], E8 as [E8 _], E9 as [E9 _], E10 as [E10 _].
  apply static_lift in E2 as [E2 _], E3 as [E3 _], E5 as [E5 _], E6 as [E6 _].
  assert (b_initproc s10 = b_initproc s) as Hs by congruence.
  apply st_bind_Ret in H as (u' & s11 & E11 & H). unfold set_initproc, init_by, lazy_is_init in E11. rewrite Hs in E11.
  destruct (inited (b_initproc s)); [done|]. injection E11 as _ <-. split; [done|]. revert H.
  intros (l & s12 & [E12 _]%static_gets & (q & s13 & [E13 _]%static_lift & H)%st_bind_Ret)%st_bind_Ret.
  apply st_bind_Ret in H as (pcb & s14 & [E14 _]%static_bx & (v & s15 & [E15 _]%static_bx & [= <-])%st_bind_Ret).
  by rewrite E15, E14, E13, E12.
Qed.

(** C36: the kernel does not get to its executor.  [main] makes the first
    process twice, and the second time the static [INITPROC] has a value:
    whatever is on the disk and whatever the C library and the parser answer,
    it stops at an assertion, if not at an error before.  The result [None]
    says that a program is longer than the bound on the reads, and no bound
    gives a result other than these. *)
Theorem main_never_schedules fs c1 c2 s :
  kernel_main fs c1 c2 s = Panic \/ exists s', kernel_main fs c1 c2 s = Ret (None, s').
Proof.
  destruct (kernel_main fs c1 c2 s) as [[[[]|] s']|] eqn:E; [|by right; eexists|by left].
  exfalso. revert E. unfold kernel_main.
  intros (r & s1 & _ & (u & s2 & _ & (v & s3 & _ & (o & s4 & E & H)%st_bind_Ret)%st_bind_Ret)%st_bind_Ret)%st_bind_Ret.
  destruct o as [[]|]; [|done]. apply add_initproc_inv in E as [_ E], H as [H _]. by rewrite E in H.
Qed.

(** A program that mounts the first disk again stops the kernel in the same
    way. *)
Lemma mount_root_again point flags fs s : inited (b_ext4fs s) = true ->
  vfs_manager_mount VDA point EXT4_NAME flags fs s = Panic.
Proof.
  intros Hi. unfold vfs_manager_mount, lazy_is_init. erewrite st_run by reflexivity. rewrite Hi.
  unfold st_try, on_lib. replace (make_fs _ _ _ _ _) with (Panic (A := result (BlockWrapper * Ext4Disk) SysErrNo * M)); [done|].
  unfold make_fs. replace (str_eqb EXT4_NAME EXT4_NAME) with true by reflexivity.
  unfold mbind, ST_bind, st_lift. destruct (unwrap _); [|done]. destruct (BlockWrapper_new _ _); [|done].
  destruct (lwext4_mount _ _) as [[r m]|]; [|done]. by destruct (result_unwrap r).
Qed.

End boot.

(** ** A boot *)

(** The control block of a new process, before its stack is allocated. *)
Definition first_pcb (c : clone_env) (io : Z * Z * Z) (base tid : Z) (cwd exe : list Z) : ProcessControlBlock :=
  mkPCB (replicate 3 (mkTimer 0 0)) 1 (ce_task c) [ce_task c] [] (ce_mm c) USER_STACK_TOP true base cwd exe 1 1
    base base (new_with_stdio io.1.1 io.1.2 io.2) (ce_sig c) Runnable [(tid, ce_task c)].

(** The kernel with the objects of the first process. *)
Definition with_objects (c : clone_env) (pcb : ProcessControlBlock) (ms : MemorySet) (w : world) (k : kern) : kern :=
  let s := k_sys k in
  let t := CFSTask_new (TaskControlBlock_new (ID_COUNTER k) true true 1 (ms_token ms) None false TrapDone) in
  mkKern (mkSys (mkExec (mkRunq (<[ce_task c := t]> (heap (rq (ex s)))) (sched (rq (ex s))))
                   (<[ce_task c := 4]> (arcs (ex s))) (current (ex s))) (tid2tc s) (sleepers s))
    w (k_futexes k) (k_inodes k) (k_shm k) (<[ce_mm c := ms]> (k_mms k)) (<[ce_sig c := PSS_default]> (k_psig k))
    (<[ce_task c := TaskSignalState_init 0]> (k_tsig k)) (k_trap k) (<[ce_proc c := pcb]> (k_procs k))
    (PID2PC k) (mkRA 2 []) (wrap64 (ID_COUNTER k + 1)).

Definition with_arc (r n : Z) (k : kern) : kern :=
  let s := k_sys k in
  k_set_sys (mkSys (mkExec (rq (ex s)) (<[r := n]> (arcs (ex s))) (current (ex s))) (tid2tc s) (sleepers s)) k.

Lemma arc_clone_run r n k : arcs (ex (k_sys k)) !! r = Some n ->
  on_kx (task_arc_clone r) k = Ret (tt, with_arc r (n + 1) k).
Proof.
  intros H. unfold on_kx, on_ksys, on_ex, task_arc_clone, mbind, ST_bind, task_arc_count. by rewrite H.
Qed.

Lemma process_objects_run e c io elf interp cwd exe k ms base entry auxv dl w :
  PID_ALLOCATOR k = mkRA 1 [] ->
  from_elf (se_global_root e) elf interp (k_world k) = Ret ((ms, base, entry, auxv, dl), w) ->
  process_objects e c io elf interp cwd exe k =
    Ret ((ID_COUNTER k, ms_token ms, entry, auxv, dl),
         with_objects c (first_pcb c io base (ID_COUNTER k) cwd exe) ms w k).
Proof.
  intros Hp He. destruct k as [[[[h sc] ar cur] tc sl] w0 fu ino shm mms psig tsig trap procs p2p ids cnt].
  cbn [k_world PID_ALLOCATOR] in Hp, He. subst ids. destruct io as [[i0 i1] i2].
  set (K := fun h ar w mms psig tsig procs ids cnt =>
    mkKern (mkSys (mkExec (mkRunq h sc) ar cur) tc sl) w fu ino shm mms psig tsig trap procs p2p ids cnt).
  change (mkKern _ _ _ _ _ _ _ _ _ _ _ _ _) with (K h ar w0 mms psig tsig procs (mkRA 1 []) cnt) at 1.
  unfold process_objects.
  erewrite (st_run _ _ _ _ (K h ar w0 mms psig tsig procs (mkRA 2 []) cnt)) by reflexivity.
  rewrite (st_run _ _ _ _ _ (on_kw_run (from_elf (se_global_root e) elf interp)
    (K h ar w0 mms psig tsig procs (mkRA 2 []) cnt) _ w He)).
  change (k_set_world w _) with (K h ar w mms psig tsig procs (mkRA 2 []) cnt). cbv beta iota zeta.
  erewrite (st_run _ _ _ _ (K h ar w mms psig tsig procs (mkRA 2 []) (wrap64 (cnt + 1)))) by reflexivity.
  set (T := TaskControlBlock_new _ _ _ _ _ _ _ _). set (h' := <[ce_task c := CFSTask_new T]> h).
  set (ts' := <[ce_task c := TaskSignalState_init 0]> tsig).
  erewrite (st_run _ _ _ _ (K h' (<[ce_task c := 1]> ar) w mms psig tsig procs (mkRA 2 []) (wrap64 (cnt + 1)))) by reflexivity.
  erewrite (st_run _ _ _ _ (K h' (<[ce_task c := 1]> ar) w mms psig ts' procs (mkRA 2 []) (wrap64 (cnt + 1)))) by reflexivity.
  assert (forall m, with_arc (ce_task c) (m + 1) (K h' (<[ce_task c := m]> ar) w mms psig ts' procs (mkRA 2 []) (wrap64 (cnt + 1)))
    = K h' (<[ce_task c := m + 1]> ar) w mms psig ts' procs (mkRA 2 []) (wrap64 (cnt + 1))) as Ha.
  { intros m. unfold with_arc, K, k_set_sys. cbn [k_sys ex arcs]. by rewrite insert_insert_eq. }
  do 3 (rewrite (st_run _ _ _ _ _ (arc_clone_run _ _ (K _ _ _ _ _ _ _ _ _) (lookup_insert_eq ar (ce_task c) _))), Ha).
  erewrite (st_run _ _ _ _ (K h' (<[ce_task c := 4]> ar) w mms (<[ce_sig c := PSS_default]> psig) ts' procs
    (mkRA 2 []) (wrap64 (cnt + 1)))) by reflexivity.
  reflexivity.
Qed.

(** A thread with its tid [tid] that is put into the queue. *)
Lemma queue_thread_run r n t tid k : arcs (ex (k_sys k)) !! r = Some n -> kheap k !! r = Some t ->
  exists s, (_ ← on_kx (task_arc_clone r); _ ← on_kx (on_rq (sched_add_task r)); on_ksys (tid2tc_insert tid r)) k =
      Ret (tt, k_set_sys s k) /\
    (exists key, (key, r) ∈ ready_queue (sched (rq (ex s)))) /\ (tid, r) ∈ tid2tc s /\
    exists t', heap (rq (ex s)) !! r = Some t' /\ inner t' = inner t.
Proof.
  intros Ha Ht. rewrite (st_run _ _ _ _ _ (arc_clone_run r n k Ha)).
  destruct k as [[[[h sc] ar cur] tc sl] w0 fu ino shm mms psig tsig trap procs p2p ids cnt].
  unfold kheap in Ht. cbn in Ht. unfold on_kx, on_ksys, on_ex, on_rq, sched_add_task, task_at, task_put, set_sched.
  st_unfold. cbn. rewrite Ht. eexists. split; [reflexivity|]. cbn. split; [eexists; apply insert_elem|].
  split; [apply insert_elem|]. eexists. by rewrite lookup_insert_eq.
Qed.

(** What the first process finds. *)
Record first_process (e : start_env) (c : clone_env) (k : kern) (pcb : ProcessControlBlock) (entry : Z) (dl : bool)
    (argv env : list (list Z)) (auxv : list Aux) : Prop := {
  fp_pcb : k_procs k !! ce_proc c = Some pcb;
  fp_queued : exists key, (key, ce_task c) ∈ ready_queue (sched (rq (ex (k_sys k))));
  fp_stack : exists ms fr sp random argv0,
    k_mms k !! p_memory_set pcb = Some ms /\ thread_token k (ce_task c) = Some (ms_token ms) /\
    user_range (k_world k) (ms_token ms) STACK_BOTTOM USER_STACK_TOP fr /\
    k_trap k !! ce_task c =
      Some (new_context e sp entry (zlen argv) (sp + 8) (sp + 8 + 8 * (zlen argv + 1)) dl) /\
    forall n, USER_STACK_TOP - sp <= Z.of_nat n ->
      rd_start (ubyte fr (w_mem (k_world k))) n sp =
        Some (mkImage (zlen argv) argv env (auxv ++ [mkAux AUX_RANDOM random; mkAux AUX_EXECFN argv0]))
}.

Lemma process_new_run e c io elf interp cwd exe argv env k ms base entry auxv dl w :
  PID_ALLOCATOR k = mkRA 1 [] ->
  from_elf (se_global_root e) elf interp (k_world k) = Ret ((ms, base, entry, auxv, dl), w) ->
  below_stack w ms -> Forall aux_ok auxv ->
  c_strings argv -> c_strings env -> stack_need argv env auxv <= USER_STACK_SIZE ->
  let pcb := first_pcb c io base (ID_COUNTER k) cwd exe in
  exists k', process_new e c io elf interp cwd exe argv env k = Ret (tt, k') /\
    first_process e c k' pcb entry dl argv env auxv /\
    k_procs k' = <[ce_proc c := pcb]> (k_procs k) /\ PID2PC k' = PID2PC k /\ PID_ALLOCATOR k' = mkRA 2 [].
Proof.
  intros Hids Hload Hst Hx Ha He Hn pcb. unfold process_new.
  rewrite (st_run _ _ _ _ _ (process_objects_run e c io elf interp cwd exe k ms base entry auxv dl w Hids Hload)).
  cbv beta iota. fold pcb. set (k1 := with_objects c pcb ms w k).
  destruct (alloc_stack_spec w ms Hst) as (ms' & w' & fr & Ea & Hroot & Hwf & Hur).
  assert (k_procs k1 !! ce_proc c = Some pcb) as Hp by apply lookup_insert_eq.
  assert (k_mms k1 !! p_memory_set pcb = Some ms) as Hm by apply lookup_insert_eq.
  rewrite (st_run _ _ _ _ _ (alloc_user_res_run (ce_proc c) pcb ms _ _ ms' w' k1 Hp Hm Ea)).
  set (k2 := k_set_procs _ _).
  assert (k_procs k2 !! ce_proc c = Some pcb) as Hp2 by apply lookup_insert_eq.
  rewrite (st_run _ _ _ _ _ (proc_at_run _ _ k2 Hp2)).
  destruct (start_stack_spec w' (root_ppn (page_table ms')) STACK_BOTTOM USER_STACK_TOP fr true argv env auxv)
    as (sp & random & argv0 & m' & Ei & _ & _ & Hrd & _ & _ & _ & Hpu);
    [apply Hwf|exact Hur|reflexivity|unfold STACK_BOTTOM; lia|done|done|done|].
  change (p_user_stack_top pcb) with USER_STACK_TOP. replace (ms_token ms) with (root_ppn (page_table ms')) by exact Hroot.
  assert (on_kmem (init_stack true (root_ppn (page_table ms')) USER_STACK_TOP argv env auxv) k2 =
    Ret (Ok (sp, sp + 8, sp + 8 + 8 * (zlen argv + 1)), k_set_world (set_mem m' w') k2)) as Ek by (by apply on_kmem_run).
  rewrite (st_run _ _ _ _ _ Ek). erewrite st_run by reflexivity. cbv beta iota. erewrite st_run by reflexivity.
  set (k3 := mkKern _ _ _ _ _ _ _ _ _ _ _ _ _).
  destruct (queue_thread_run (ce_task c) 4 (CFSTask_new (TaskControlBlock_new (ID_COUNTER k) true true 1 (ms_token ms)
    None false TrapDone)) (ID_COUNTER k) k3) as (s & -> & Hq & _ & t & Ht & Hi); [apply lookup_insert_eq..|].
  eexists. split; [reflexivity|].
  assert (k_procs k3 = <[ce_proc c := pcb]> (k_procs k)) as Hpr.
  { change (k_procs k3) with (<[ce_proc c := pcb]> (<[ce_proc c := pcb]> (k_procs k))). apply insert_insert_eq. }
  split; [|done]. split; [|exact Hq|].
  - change (k_procs k3 !! ce_proc c = Some pcb). rewrite Hpr. apply lookup_insert_eq.
  - exists ms', fr, sp, random, argv0. split; [apply lookup_insert_eq|]. split; [|split; [|split; [apply lookup_insert_eq|exact Hrd]]].
    + unfold thread_token, kheap. change (ex (k_sys (k_set_sys s k3))) with (ex s). rewrite Ht. cbn [fmap option_fmap option_map].
      rewrite Hi. f_equal. exact (eq_sym Hroot).
    + apply user_range_tables; [|done]. apply Hpu.
Qed.

Section first.
Context {D : Type} `{!Lwext4 D} {M : Type} `{!Lwext4Mount M}.
Variable e : start_env.
Variable time_ms : Z.
Variable read_fuel : nat.
Variable parse : list Z -> option ElfFile.
Variable interp : ElfFile.
Variable heap_bytes : list Z -> Z -> list Z.

Notation boot_process := (add_initproc (D := D) (M := M) e time_ms read_fuel parse interp heap_bytes).

Lemma on_bv_run {A} (m : ST (vfs D) A) k v mt (lib : M) ini ext a v' : m v = Ret (a, v') ->
  on_bv m (mkB (mkX k v mt) lib ini ext) = Ret (a, mkB (mkX k v' mt) lib ini ext).
Proof. unfold on_bx, on_xv. cbn. by intros ->. Qed.
Lemma on_bk_run {A} (m : ST kern A) k (v : vfs D) mt (lib : M) ini ext a k' : m k = Ret (a, k') ->
  on_bk m (mkB (mkX k v mt) lib ini ext) = Ret (a, mkB (mkX k' v mt) lib ini ext).
Proof. unfold on_bx, on_xk. cbn. by intros ->. Qed.

Lemma new_device_run d (v : vfs D) : vfs_wf v ->
  exists v', new_device d v = Ret (v_next v, v') /\ vfs_wf v' /\ v_devs v' !! v_next v = Some d /\
    forall r x, v_devs v !! r = Some x -> v_devs v' !! r = Some x.
Proof.
  intros Hw. destruct (triple_new_device (fun _ => True) d 0 v (Ok (mkFD 0 (ClassAbs (v_next v)))) _ Hw I eq_refl)
    as (Hw' & Hg & _).
  eexists. split; [reflexivity|]. split; [exact Hw'|]. split; [apply lookup_insert_eq|]. apply (gr_devs _ _ Hg).
Qed.

(** The three standard streams. *)
Lemma stdio_run (v : vfs D) : vfs_wf v -> exists i0 v0 i1 v1 i2 v2,
  new_device Stdin v = Ret (i0, v0) /\ new_device Stdout v0 = Ret (i1, v1) /\ new_device Stdout v1 = Ret (i2, v2) /\
  vfs_wf v2 /\ v_devs v2 !! i0 = Some Stdin /\ v_devs v2 !! i1 = Some Stdout /\ v_devs v2 !! i2 = Some Stdout.
Proof.
  intros Hw. destruct (new_device_run Stdin v Hw) as (v0 & E0 & Hw0 & H0 & _).
  destruct (new_device_run Stdout v0 Hw0) as (v1 & E1 & Hw1 & H1 & G1).
  destruct (new_device_run Stdout v1 Hw1) as (v2 & E2 & Hw2 & H2 & G2).
  exists (v_next v), v0, (v_next v0), v1, (v_next v1), v2. split_and!; auto.
Qed.

Lemma stdio_ok (v : vfs D) i0 i1 i2 : is_Some (v_devs v !! i0) -> is_Some (v_devs v !! i1) -> is_Some (v_devs v !! i2) ->
  table_ok (live v) (new_with_stdio i0 i1 i2).
Proof.
  intros H0 H1 H2 c (f & Hf & <-). cbn in Hf. apply elem_of_cons in Hf as [[= ->]|Hf]; [done|].
  apply elem_of_cons in Hf as [[= ->]|[= ->]%list_elem_of_singleton]; done.
Qed.

(** A tree with the first process only. *)
Lemma first_tree c pcb k : p_pid pcb = 1 -> p_children pcb = [] -> k_procs k = {[ce_proc c := pcb]} ->
  PID2PC k = [(1, ce_proc c)] -> PID_ALLOCATOR k = mkRA 2 [] -> tree_wf true (ce_proc c) (tree k).
Proof.
  intros Hp Hc Hk Hpp Hids. unfold tree. rewrite Hk, Hpp, Hids, map_fmap_singleton. unfold node_of. rewrite Hp, Hc.
  constructor; cbn [t_nodes t_pid2pc t_ids].
  - apply sorted_cons. split; [constructor|apply SSorted_nil].
  - intros i r [= -> ->]%get_Some_elem%list_elem_of_singleton. eexists. by rewrite lookup_singleton_eq.
  - intros r n x [_ <-]%lookup_singleton_Some Hx. by apply not_elem_of_nil in Hx.
  - intros r n r' n' x [_ <-]%lookup_singleton_Some _ Hx. by apply not_elem_of_nil in Hx.
  - intros r n [_ <-]%lookup_singleton_Some. constructor.
  - rewrite lookup_singleton_eq. by eexists.
  - constructor; [|done]. unfold pids, pidmap. cbn [t_nodes]. rewrite map_fmap_singleton, map_to_list_singleton. reflexivity.
Qed.

Lemma envs_ok : c_strings get_envs.
Proof. by apply bytes_ok. Qed.

(** C26: the first call of [add_initproc] starts the first process.  When the
    program is on the disk, its image loads and the arguments fit on the
    stack, the call returns: the process has pid 1 and is found by it, its
    thread is in the queue of the scheduler and starts at the entry point on a
    stack from which it reads the words of the command line and the
    environment of the kernel; its descriptors 0, 1 and 2 are the console; the
    tree of processes is well formed, and no descriptor dangles, so that the
    invariants of the system hold from here on. *)
Theorem initproc_starts c cwd exe line (s : bsys D M) f i v1 data v2 args elf ms base entry auxv dl w :
  vfs_wf (x_vfs (b_x s)) -> inited (b_initproc s) = false ->
  k_procs (x_k (b_x s)) = ∅ -> PID2PC (x_k (b_x s)) = [] -> PID_ALLOCATOR (x_k (b_x s)) = mkRA 1 [] ->
  open_file time_ms exe FileCache.O_RDONLY 0x1ff (x_vfs (b_x s)) = Ret (Ok f, v1) -> class_file (fd_file f) = Ok i ->
  read_all heap_bytes read_fuel i [] v1 = Ret (Some data, v2) ->
  get_args (exe ++ [SPACE] ++ line ++ [SPACE]) = Ret args -> c_strings args -> parse data = Some elf ->
  from_elf (se_global_root e) elf interp (k_world (x_k (b_x s))) = Ret ((ms, base, entry, auxv, dl), w) ->
  below_stack w ms -> Forall aux_ok auxv -> stack_need args get_envs auxv <= USER_STACK_SIZE ->
  exists s' pcb stdin stdout stderr, boot_process c cwd exe line s = Ret (Some tt, s') /\
    first_process e c (x_k (b_x s')) pcb entry dl args get_envs auxv /\
    p_pid pcb = 1 /\ bt_get 1 (PID2PC (x_k (b_x s'))) = Some (ce_proc c) /\
    b_initproc s' = mkLazy true (Some (ce_proc c)) /\
    p_fd_table pcb = new_with_stdio stdin stdout stderr /\
    v_devs (x_vfs (b_x s')) !! stdin = Some Stdin /\
    v_devs (x_vfs (b_x s')) !! stdout = Some Stdout /\ v_devs (x_vfs (b_x s')) !! stderr = Some Stdout /\
    tree_wf true (ce_proc c) (tree (x_k (b_x s'))) /\ descr_ok (b_x s').
Proof.
  intros Hw Hini Hpr Hpp Hids Eo Ei Er Eg Ha Ep El Hst Hx Hn.
  destruct (open_file_keeps time_ms exe FileCache.O_RDONLY 0x1ff _ _ _ Hw I Eo) as (Hw1 & _).
  destruct (read_all_keeps _ _ _ _ _ _ _ Hw1 Er) as [Hw2 _].
  destruct (stdio_run v2 Hw2) as (i0 & u0 & i1 & u1 & i2 & u2 & E0 & E1 & E2 & Hw3 & H0 & H1 & H2).
  destruct s as [[k v mt] lib ini ext]. cbn [b_x x_k x_vfs b_initproc] in *.
  destruct (process_new_run e c (i0, i1, i2) elf interp cwd INITPROC_STR args get_envs k ms base entry auxv dl w
    Hids El Hst Hx Ha envs_ok Hn) as (k' & Ek & Hfp & Hk' & Hp' & Hids').
  set (pcb := first_pcb _ _ _ _ _ _) in *.
  rewrite Hpr in Hk'. change (<[ce_proc c := pcb]> ∅) with ({[ce_proc c := pcb]} : gmap Z ProcessControlBlock) in Hk'.
  set (k2 := k_set_pid2pc [(1, ce_proc c)] k').
  exists (mkB (mkX k2 u2 mt) lib (mkLazy true (Some (ce_proc c))) ext), pcb, i0, i1, i2.
  cbn [b_x x_k x_vfs b_initproc]. split; [|split; [by destruct Hfp; constructor|]].
  - unfold Boot.add_initproc.
    rewrite (st_run _ _ _ _ _ (on_bv_run _ k v mt lib ini ext _ _ Eo)). erewrite st_run by reflexivity.
    rewrite Ei. erewrite st_run by reflexivity.
    rewrite (st_run _ _ _ _ _ (on_bv_run _ k v1 mt lib ini ext _ _ Er)). cbv beta iota.
    rewrite Eg. erewrite st_run by reflexivity. rewrite Ep. erewrite st_run by reflexivity.
    rewrite (st_run _ _ _ _ _ (on_bv_run _ k v2 mt lib ini ext _ _ E0)).
    rewrite (st_run _ _ _ _ _ (on_bv_run _ k u0 mt lib ini ext _ _ E1)).
    rewrite (st_run _ _ _ _ _ (on_bv_run _ k u1 mt lib ini ext _ _ E2)).
    rewrite (st_run _ _ _ _ _ (on_bk_run _ k u2 mt lib ini ext _ _ Ek)).
    destruct ini as [[] ?]; [discriminate Hini|]. erewrite st_run by reflexivity. erewrite st_run by reflexivity.
    erewrite st_run by reflexivity.
    rewrite (st_run _ _ _ _ _ (on_bk_run _ k' u2 mt lib _ ext _ _ (proc_at_run (ce_proc c) pcb k' (fp_pcb _ _ _ _ _ _ _ _ _ Hfp)))).
    erewrite st_run by reflexivity. cbn [b_x x_k]. rewrite Hp', Hpp. reflexivity.
  - split_and!; try done; [by apply (first_tree c pcb)|]. split; [done|]. cbn [x_k x_vfs k2 k_set_pid2pc].
    intros p q. change (k_procs k2) with (k_procs k'). rewrite Hk'. intros [_ <-]%lookup_singleton_Some. apply stdio_ok; by eexists.
Qed.
End first.

(** The program "/n" with the arguments "a" and "b", in the memory of
    ExecveSpec.v. *)
Definition kern_boot (w : world) : kern :=
  mkKern (mkSys exec_init [] []) w [] ∅ Shm.ShmManager_new ∅ ∅ ∅ ∅ ∅ [] (mkRA 1 []) 1.
Definition b_boot (w : world) : bsys memfs unit :=
  mkB (mkX (kern_boot w) n_vfs MountTable_new) tt LazyInit_new LazyInit_new.
Definition env_boot : clone_env := mkCE 1 100 200 300 0 0.

Lemma n_vfs_wf : vfs_wf n_vfs.
Proof.
  unfold n_vfs. destruct (open_file 0 n_path O_CREATE 0 empty_vfs) as [[r v]|] eqn:E; [|apply empty_vfs_wf].
  by destruct (open_file_keeps 0 n_path O_CREATE 0 _ _ _ empty_vfs_wf I E).
Qed.

Lemma n_reads : exists f i v1 v2,
  open_file 0 n_path FileCache.O_RDONLY 0x1ff n_vfs = Ret (Ok f, v1) /\ class_file (fd_file f) = Ok i /\
  read_all zero_heap 20 i [] v1 = Ret (Some [], v2).
Proof.
  eexists _, _, _, _. split; [vm_compute; reflexivity|]. split; [vm_compute; reflexivity|]. vm_compute. reflexivity.
Qed.

Lemma initproc_starts_witness : exists e w s' pcb entry dl auxv,
  add_initproc e 0 20 any_elf elf0 zero_heap env_boot [SLASH] n_path (bytes_of "a b") (b_boot w) = Ret (Some tt, s') /\
  first_process e env_boot (x_k (b_x s')) pcb entry dl [n_path; bytes_of "a"; bytes_of "b"] get_envs auxv /\
  tree_wf true 100 (tree (x_k (b_x s'))) /\ descr_ok (b_x s').
Proof.
  destruct caller_world as (w & root & g & fr0 & Hw & Hc & Hg & Hf & Hz & _).
  destruct (load_elf0 g w Hw Hc Hg Hf Hz) as (ms0 & auxv & w' & El & Hb & Ha & Hn).
  destruct n_reads as (f & i & v1 & v2 & E1 & E2 & E3).
  destruct (initproc_starts (mkSE g 3 0x80400000) 0 20 any_elf elf0 zero_heap env_boot [SLASH] n_path (bytes_of "a b")
    (b_boot w) f i v1 [] v2 [n_path; bytes_of "a"; bytes_of "b"] elf0 ms0 4096 0x10000 auxv false w')
    as (s' & pcb & i0 & i1 & i2 & E & Hfp & _ & _ & _ & _ & _ & _ & _ & Ht & Hd).
  all: try assumption.
  - apply n_vfs_wf.
  - reflexivity.
  - reflexivity.
  - reflexivity.
  - reflexivity.
  - reflexivity.
  - by apply bytes_ok.
  - reflexivity.
  - unfold stack_need. rewrite Hn. vm_compute. discriminate.
  - eexists _, w, s', pcb, _, _, _. split; [exact E|]. split; [exact Hfp|]. split; [exact Ht|exact Hd].
Defined.
